(* ===== verification/_CoqProject ===== *)
-Q . S2P
Prelude.v
Systime.v
Spinlock.v
Allocator.v
Mempool.v
Locks.v
Zlist.v
Llist.v
LlistInv.v
LlistSpec.v
LlistProps.v
LlistSort.v
Stdio.v
Memmgr.v
Data.v
DataConv.v
DataInv.v
DataSafe.v
DataProps.v
ByteOrder.v
Pevent.v
PeventProps.v
PeventLive.v
Sharedmem.v
Named.v
PeventNew.v
LockNew.v
LockShare.v
Semaphore.v
Keyed.v
KeyedInv.v
KeyedSpec.v
KeyedProps.v
Group.v
Memdebug.v
MemdebugInv.v
MemdebugProps.v
Ipc.v
IpcParse.v
IpcClient.v
IpcProps.v
IpcServe.v
IpcEdge.v
IpcLife.v
IpcLifeProps.v
Task.v
TaskProps.v
TaskPool.v
TaskPoolInv.v
TaskPoolProps.v
File.v
FileProps.v
Socket.v
SocketProps.v
EventServer.v
EventServerProps.v
Syslog.v
SyslogProps.v
Object.v
Atomic.v
Unittest.v
UnittestProps.v
Helper.v
HelperTests.v
DataTests.v
LlistTests.v
DataConvTests.v
MempoolTests.v
AtomicTests.v
FileTests.v
MemdebugCopy.v
MemdebugTests.v
Sys.v
Processes.v
LockTests.v
SemaphoreTests.v
SharedmemTests.v
PeventTests.v
AtomicOld.v
SocketTests.v
