(* ===== verification/Prelude.v ===== *)
(** * libcplus: root of the verification library

    libcplus (src/src, public headers in src/cplus) is a C library of containers
    and operating system wrappers for Linux.  Its parts call each other through
    opaque objects whose first field is a type tag, checked by an assertion at
    the head of every function (src/src/common.h).  The core is:
    - a pool of fixed-size blocks (mempool.c) and a checked wrapper of the heap
      (memmgr.c), the two places memory comes from;
    - a doubly linked list with a cursor (llist.c), whose nodes come from either
      and whose calls are bracketed by an optional lock;
    - reader-writer locks and mutexes (rwlock.c, mutex.c) behind the entry points
      [cplus_lock_shlock], [cplus_lock_exlock], [cplus_lock_unlock] (cplus.c);
    - typed data objects with conversions between all types (data.c);
    - spin locks written as macros in data.c and mempool.c;
    - deadlines, millisecond ticks and sleeping (systime.c), which the locks use
      for their timeouts;
    - a list of data objects under keys (the end of llist.c, over data.c);
    - events, semaphores and shared memory, for the threads of one process or
      between processes under a name (pevent.c, semaphore.c, sharedmem.c);
    - packets over a local socket, and on them a server that answers requests
      and a client that sends them (ipc_server.c, over socket.c);
    - tasks, that is threads with a start and a stop event, and pools of them fed
      from a list of waiting calls (task.c, taskpool.c, over pevent.c, semaphore.c
      and llist.c);
    - files, socket addresses and connections, and a server whose clients add to
      an event counter of the kernel (file.c, socket.c, event_server.c);
    - a log to the terminal and, through a list and a task, to files (syslog.c);
    - a debug memory manager that wraps the heap (memmgr.c);
    - atomic operations (atomic.c), and the deletion of any object by the tag of
      its type (cplus.c);
    - macros for structs and bits (cplus_helper.h) and a stack printer (sys.c);
    - a runner of unit tests (unittest.c) and the tests at the end of the other
      files.

    ** How the code is modelled

    A C integer is a [Z] and every operation that can wrap says so ([u8] to
    [u64], [s8] to [s64] below).  A function that reads and writes a state [S]
    is a program of the monad [C S]: it returns ([Done]), fails an assertion
    ([Aborts]), never returns ([Hangs]: a lock nobody releases) or is undefined
    ([Undefined]: a null, dangling or out of bounds access).  [errno] is a field
    of every state.  Calls of the operating system are inputs: what they answer
    is an argument or part of the state: the answers of a socket are scripts,
    the objects and names of the kernel are finite maps.  The build modelled is
    the release build on LP64 with a recent GCC, with the [__atomic] intrinsics;
    Memdebug.v and MemdebugCopy.v model memmgr.c with [__CPLUS_MEM_MANAGER__]
    defined, and AtomicOld.v the atomic operations of older compilers.

    Threads are steps: a state holds where each thread is, a label says which
    thread moves and how, and a run is a list of labels ([exec]).  Safety is
    proved of every run; liveness of every fair scheduler, a function from the
    natural numbers to labels.  Where an operation works on a list and on the
    data objects in it, the state is the pair of both and each function runs on
    its half.  A reallocation always moves the block, and printed reports are
    lists of notices.

    ** Files

    - Systime.v (systime.c): [CPLUS_SYSTIME] readings as lists of clock answers;
      tick arithmetic modulo 2^32; absolute deadlines; resumption of
      [nanosleep].  Theorems: elapsed ticks are exact across the wrap, a
      deadline is exactly [msec] later and normalised, sleeping ends after the
      remaining times have been slept.
    - Spinlock.v (macros of data.c and mempool.c): the interleaved steps of any
      number of threads.  Theorems: exclusion holds while no exchange is lost,
      and for two threads always; three threads break it and two can lock an
      object up, because a failed exchange overwrites the shared expected value.
    - Allocator.v: the class of block sources, and the heap as an instance.
    - Mempool.v (mempool.c): the pool over a byte memory, its free list threaded
      through the blocks.  Theorems: a new pool refines an abstract stack of
      free indices over any sequence of calls; a pool whose size does not fit in
      32 bits overruns its arena; a double free hands a block out twice.
    - Locks.v (rwlock.c, mutex.c, cplus.c): the locks by who holds them.
      Theorems: the reader-writer lock as an automaton, the behaviour of the
      mutex, bracketing by the entry points; two readers that enter together
      lose a count and block writers.
    - Zlist.v: lists at integer positions.
    - Llist.v (llist.c): nodes as a finite map, the cursor as a pointer to a
      field.  LlistInv.v: the representation invariant and what each internal
      step does to it.  LlistSpec.v: the abstract list with a cursor, the
      refinement of every allowed call and of every run of calls.  LlistProps.v:
      construction, deletion, iteration, selection, comparison, and what happens
      outside the contract.  LlistSort.v: the bubble sort is stable and sorts;
      what the cached sort count does to later calls.
    - Stdio.v: what data.c uses of the C library, with printing and scanning of
      integers as inverses.  Memmgr.v (memmgr.c): copying, filling, printing;
      overlap of copies on a flat memory.
    - Data.v, DataConv.v (data.c): the object, its life cycle, key, typed and raw
      access and cloning; the conversions and byte order functions.  DataInv.v:
      the invariant of an object, ownership of heap blocks with a frame, and a
      weakest precondition calculus for the functions of data.c.  DataSafe.v:
      one lemma per operation.  DataProps.v: round trips, conversions as C casts,
      life cycle without leaks, and the paths that go wrong; a text of 2 GiB or more
      is copied whole but answered as a failure.  ByteOrder.v: the
      byte order functions reverse the bytes.
    - Pevent.v (pevent.c): any number of threads in set, reset, wait and
      get_status.  PeventProps.v: the answers of every run are those of an
      atomic event, no wakeup is lost, an auto-reset event gives one success per
      set.  PeventLive.v: fair schedulers, under which calls return and a set
      event is noticed; a wait with a deadline can outlast it.  PeventNew.v: the
      constructors; processes that use one name meet.
    - Named.v: an object of the kernel in the structure of its owner or in named
      shared memory, for events, locks and mutexes.  LockNew.v (rwlock.c, mutex.c):
      the constructors and deletion of the locks over it, and their functions
      wherever the lock is.  LockShare.v: processes that open one name have one
      lock, which excludes across them; colliding names and early deletion.
    - Sharedmem.v (sharedmem.c): names, objects, descriptors and mappings; the
      life of a shared object, its stale descriptor and colliding names.
    - Semaphore.v (semaphore.c): pushes and waits step by step, no unit is lost,
      but concurrent pushes pass the limit; module Make has the constructors, with
      the names and values the system refuses.
    - Keyed.v (end of llist.c): the keyed helpers on the joint state of a list and
      its data objects.  KeyedInv.v: the invariant of that state; KeyedSpec.v: one
      lemma per operation; KeyedProps.v: they implement a finite map from keys to
      typed values, and where they do not.
    - Group.v (data.c, the group nodes): a data object that names a list and points
      to it.  Theorems: a group has its name and an empty list, and deleting it
      gives back all of it; the ways it is lost or not refused.
    - Memdebug.v (memmgr.c, debug build, and cplus_sys_skip_file_path of sys.c):
      the table of blocks and the words around them.  MemdebugInv.v: its
      invariant; MemdebugProps.v: it refines the table of live blocks, overruns
      are caught, double releases are not.
    - Ipc.v (ipc_server.c): the sender, the incremental parser of a connection,
      its reception and the answers of a server.  IpcParse.v: the packet format
      as an automaton on single bytes, and the parser in step with it.
      IpcClient.v: [ipc_recv_packet] and the calls of a client.  IpcProps.v:
      packets arrive as they were sent, and a request returns its response.
      IpcServe.v: a server answers each request in order.  IpcEdge.v: heartbeats,
      and the ways packets and answers are lost.  IpcLife.v: the accepting task and
      the life of servers, clients and connections, over a list of what is held.
      IpcLifeProps.v: every run of a server releases only what it holds, holds
      what its connections need and never has too many.  A stop of a task that
      waits for its socket ends in time or not, as what comes to the socket decides:
      that is a parameter, and deletion gives all back exactly when every such stop
      does; when one runs out it uses what was freed.
    - Task.v (task.c): a task, the thread it creates and the thread that stops it.
      TaskProps.v: a task that is stopped ends its loop, is joined and leaves
      nothing behind; a one-shot task whose creator is done with it runs its function
      at most once, then its callback, and deletes itself last, in every order.
    - TaskPool.v (taskpool.c): the workers of a pool, its list of waiting calls,
      and the counts in between, step by step.  TaskPoolInv.v: the invariant of
      every run; TaskPoolProps.v: every accepted call runs exactly once, and a
      pool that is left alone runs all of them.
    - File.v (file.c): the operations on an open file over the files of the
      kernel.  FileProps.v: they refine a sequence of bytes with a position.
    - Socket.v (socket.c): addresses, options, the life of a socket and whole
      transfers.  SocketProps.v: addresses survive the way to the peer and back, a
      wait takes the time it was given for the descriptors a set of 1024 bits can
      hold, and is undefined for others; a descriptor is passed on.
    - EventServer.v (event_server.c): the server and its clients, and the counter
      at work: the polling task and the threads that add to it.
      EventServerProps.v: what was added is what was read and what is left; a
      client has the descriptor it was passed; and what deletion leaves open.
    - Syslog.v (syslog.c): the logging functions, the task that writes, and the
      constructors, over the specifications of list and pool.  SyslogProps.v: the
      log refines a bounded queue, whose lines reach the files once and in order.
    - Object.v (cplus.c): [cplus_object_delete] over the tags and checks of all
      components.  The tags are distinct, and the right deletion is called.
    - Atomic.v (atomic.c, cplus_atomic.h): the atomic operations.  Additions add up
      and exchanged pointers are passed on once, whatever the order.  AtomicOld.v:
      with GCC 4.6, where a write can be lost and a compare and exchange does not
      report what it found.
    - Helper.v (cplus_helper.h): the layout of structs, the object around a member,
      bits.  Sys.v (sys.c): the stack printer, with its test.
    - MemdebugCopy.v (memmgr.c, debug build): copies, fills and prints that look
      their destination up; they stay inside of its block.
    - Unittest.v (unittest.c, common.h): the expectations, the chain of test cases,
      their run, and the wait for child processes.  UnittestProps.v: cases run once
      each, in order, and every block is given back; a wait whose time is no
      multiple of four never ends.
    - Processes.v: fork, exit and the clock, for the tests of the objects that
      processes share; [System] is what such an object has to say of a fork.
    - The tests, statement for statement, as programs over the models, each with the
      theorem that the test program reports what it does when it is run on them:
      HelperTests.v (helper.c), LlistTests.v (llist.c), DataTests.v and
      DataConvTests.v (data.c), MempoolTests.v, AtomicTests.v, FileTests.v,
      MemdebugTests.v (memmgr.c), LockTests.v (mutex.c, rwlock.c),
      SemaphoreTests.v, SharedmemTests.v, PeventTests.v and SocketTests.v, which has
      a network of one machine as the system of Socket.v.  Tests that are not
      registered are there too, with the reasons why they would fail.

    The names of definitions are the names of the C functions; where several C
    functions differ only by a type ([cplus_data_get_as_int8] to [_uint64]) they
    are instances of one definition.

    ** Fuel and bounds

    Loops over the nodes of a list have as fuel the number of nodes in the map,
    which is at least the number reachable, or the distance to the position
    asked for, which is the number of steps; running out is [Hangs], and the
    theorems exclude it.  Printing a number has a digit of fuel per bit.  The
    spin loop is not run: taking a taken lock is [Hangs], and Spinlock.v relates
    this to the interleaved model.  Texts are shorter than 2 GiB, as the results
    of [vsnprintf] are [int], but for those a data object is asked for
    ([printf_string]).  The parser of ipc_server.c has four turns for
    each byte received; two for each byte and one more are enough
    ([analyze_loop_run]) when there is memory.  The run of the tests has a unit of
    fuel for each case; a call of a semaphore or an event in a test has as many
    steps as its thread can take alone.

    ** Not modelled

    The tests of tasks, pools of tasks, servers and the log, whose course depends on
    how threads are scheduled, and the two of socket.c that are two programs:
    the components are modelled with their threads, and the theorems are about all
    runs.  In the tests that are modelled a parent does nothing between a fork and
    the end of its child, and calls take no time but for their waits, which end a
    given number of milliseconds late.  The colours and the layout of what is
    printed.  The tests of memmgr.c that allocate 1024 blocks are run with 100.
    A caller's buffer is distinct from the buffers of the objects it is passed
    to.  The parser's theorems suppose that there is memory for the data, and that
    a reception does not end within the data of a packet unless it fills the
    buffer: [split_data_lost] shows that the code needs the second.

    ** Plan

    Every component is modelled.  What could follow is their composition: the
    deletions of [cplus_object_delete] on one state, the tasks of servers and logs
    as tasks of Task.v, and the mutexes of pools and servers as those of LockNew.v,
    each of which is now taken through its specification; and the servers of
    ipc_server.c and event_server.c on the network of SocketTests.v, which only the
    functions of socket.c run on. *)

From stdpp Require Import base numbers list option gmap.
From Stdlib Require Import ZArith Lia.

#[global] Set Default Goal Selector "!".
Open Scope Z_scope.

#[global] Arguments Z.eqb : simpl never.
#[global] Arguments Z.ltb : simpl never.
#[global] Arguments Z.leb : simpl never.

(** ** Machine integers

    A C integer is a [Z]; the conversions below are the wrap-around the C
    standard gives to unsigned types, and the two's complement conversion GCC
    gives to signed ones. *)

Definition u8 (z : Z) : Z := z `mod` 2 ^ 8.
Definition u16 (z : Z) : Z := z `mod` 2 ^ 16.
Definition u32 (z : Z) : Z := z `mod` 2 ^ 32.
Definition u64 (z : Z) : Z := z `mod` 2 ^ 64.

Definition swrap (w z : Z) : Z := (z + 2 ^ (w - 1)) `mod` 2 ^ w - 2 ^ (w - 1).
Definition s8 (z : Z) : Z := swrap 8 z.
Definition s16 (z : Z) : Z := swrap 16 z.
Definition s32 (z : Z) : Z := swrap 32 z.
Definition s64 (z : Z) : Z := swrap 64 z.

Definition UINT32_MAX : Z := 4294967295.

(** ** Constants shared by every object of the library *)

Definition CPLUS_FAIL : Z := -1.
Definition CPLUS_SUCCESS : Z := 0.
Definition CPLUS_INFINITE_TIMEOUT : Z := UINT32_MAX.
Definition RSIZE_MAX_MEM : Z := 256 * 2 ^ 20.

Definition OBJ_NONE : Z := 0xAC00.
Definition CORE : Z := 0x00.
Definition SYS : Z := 0x10.
Definition DS : Z := 0x20.
Definition ALG : Z := 0x30.
Definition CTRL : Z := 0x40.
Definition IO : Z := 0x50.
Definition HELPER : Z := 0x60.

(** The [errno] values the sources mention (Linux numbering). *)
Definition ENOENT : Z := 2.
Definition EINTR : Z := 4.
Definition EAGAIN : Z := 11.
Definition ENOMEM : Z := 12.
Definition EBUSY : Z := 16.
Definition EINVAL : Z := 22.
Definition EDEADLK : Z := 35.
Definition EILSEQ : Z := 84.
Definition ENOBUFS : Z := 105.
Definition ENOTCONN : Z := 107.
Definition ETIMEDOUT : Z := 110.

(** ** Outcomes and the state monad of a C function

    A call either returns, fails an [assert()], never returns (a lock that
    will not be released, a spin loop), or runs into undefined behaviour
    (a null or dangling dereference, an access out of bounds). *)

Inductive outcome (A : Type) : Type :=
| Done (a : A)
| Aborts
| Hangs
| Undefined.
Arguments Done {A} a.
Arguments Aborts {A}.
Arguments Hangs {A}.
Arguments Undefined {A}.

Definition C (S A : Type) : Type := S → outcome (A * S).

#[export] Instance C_ret S : MRet (C S) := λ A a s, Done (a, s).
#[export] Instance C_bind S : MBind (C S) := λ A B f m s,
  match m s with
  | Done (a, s') => f a s'
  | Aborts => Aborts
  | Hangs => Hangs
  | Undefined => Undefined
  end.

Definition abort {S A} : C S A := λ _, Aborts.
Definition hang {S A} : C S A := λ _, Hangs.
Definition undef {S A} : C S A := λ _, Undefined.
Definition gets {S A} (f : S → A) : C S A := λ s, Done (f s, s).
Definition modify {S} (f : S → S) : C S unit := λ s, Done (tt, f s).
(** Dereference: [None] is a null or dangling pointer. *)
Definition deref {S A} (f : S → option A) : C S A := λ s,
  match f s with Some a => Done (a, s) | None => Undefined end.
(** [assert(b)]. *)
Definition assert_c {S} (b : bool) : C S unit := if b then mret tt else abort.

Lemma bind_Done {S A B} (m : C S A) (f : A → C S B) s a s' :
  m s = Done (a, s') → (m ≫= f) s = f a s'.
Proof. intros H. unfold mbind, C_bind. by rewrite H. Qed.

(** Undefined or hanging runs of a composed operation. *)
Lemma bind_hangs {S A B} (m : C S A) (f : A → C S B) s : m s = Hangs → (m ≫= f) s = Hangs.
Proof. intros E. unfold mbind, C_bind. by rewrite E. Qed.
Lemma bind_undef {S A B} (m : C S A) (f : A → C S B) s : m s = Undefined → (m ≫= f) s = Undefined.
Proof. intros E. unfold mbind, C_bind. by rewrite E. Qed.

Lemma bind_ret {S A B} (a : A) (f : A → C S B) : (mret a ≫= f) = f a.
Proof. reflexivity. Qed.

(** The value a run returns, and the state it ends in. *)
Definition value_of {S A} (o : outcome (A * S)) : outcome A :=
  match o with
  | Done (a, _) => Done a
  | Aborts => Aborts | Hangs => Hangs | Undefined => Undefined
  end.
Definition state_of {S A} (s : S) (o : outcome (A * S)) : S :=
  match o with Done (_, s') => s' | _ => s end.

(** Run a monadic program as far as its conditions are known. *)
Ltac crun :=
  cbv beta iota zeta delta
    [mbind C_bind mret C_ret gets modify assert_c deref abort hang undef compose].
Ltac crun_in H :=
  cbv beta iota zeta delta
    [mbind C_bind mret C_ret gets modify assert_c deref abort hang undef compose] in H.

(** ** Arithmetic lemmas *)

Lemma u8_range z : 0 ≤ u8 z < 256.
Proof. unfold u8. apply Z.mod_pos_bound. lia. Qed.
Lemma u16_range z : 0 ≤ u16 z < 65536.
Proof. unfold u16. apply Z.mod_pos_bound. lia. Qed.
Lemma u32_range z : 0 ≤ u32 z < 4294967296.
Proof. unfold u32. apply Z.mod_pos_bound. lia. Qed.
Lemma u64_range z : 0 ≤ u64 z < 18446744073709551616.
Proof. unfold u64. apply Z.mod_pos_bound. lia. Qed.

Lemma u8_small z : 0 ≤ z < 256 → u8 z = z.
Proof. intros. unfold u8. apply Z.mod_small. lia. Qed.
Lemma u16_small z : 0 ≤ z < 65536 → u16 z = z.
Proof. intros. unfold u16. apply Z.mod_small. lia. Qed.
Lemma u32_small z : 0 ≤ z < 4294967296 → u32 z = z.
Proof. intros. unfold u32. apply Z.mod_small. lia. Qed.
Lemma u64_small z : 0 ≤ z < 18446744073709551616 → u64 z = z.
Proof. intros. unfold u64. apply Z.mod_small. lia. Qed.

Lemma u32_add_l a b : u32 (u32 a + b) = u32 (a + b).
Proof. unfold u32. by rewrite Zplus_mod_idemp_l. Qed.
Lemma u32_add_r a b : u32 (a + u32 b) = u32 (a + b).
Proof. unfold u32. by rewrite Zplus_mod_idemp_r. Qed.

(** Adding a whole number of periods changes nothing. *)
Lemma u32_period a k : u32 (a + k * 4294967296) = u32 a.
Proof. unfold u32. change (2 ^ 32) with 4294967296. by rewrite Z_mod_plus_full. Qed.

Lemma swrap_range w z : 0 < w → - 2 ^ (w - 1) ≤ swrap w z < 2 ^ (w - 1).
Proof.
  intros Hw. unfold swrap.
  assert (2 ^ w = 2 * 2 ^ (w - 1)) as E
    by (rewrite <- Z.pow_succ_r by lia; f_equal; lia).
  assert (0 < 2 ^ (w - 1)) by (apply Z.pow_pos_nonneg; lia).
  pose proof (Z.mod_pos_bound (z + 2 ^ (w - 1)) (2 ^ w)). lia.
Qed.

Lemma swrap_small w z : 0 < w → - 2 ^ (w - 1) ≤ z < 2 ^ (w - 1) → swrap w z = z.
Proof.
  intros Hw Hz. unfold swrap.
  assert (2 ^ w = 2 * 2 ^ (w - 1)) as E
    by (rewrite <- Z.pow_succ_r by lia; f_equal; lia).
  rewrite Z.mod_small; lia.
Qed.

Lemma s32_add_l a b : s32 (s32 a + b) = s32 (a + b).
Proof.
  unfold s32, swrap. replace ((a + 2 ^ (32 - 1)) `mod` 2 ^ 32 - 2 ^ (32 - 1) + b + 2 ^ (32 - 1))
    with ((a + 2 ^ (32 - 1)) `mod` 2 ^ 32 + b) by lia.
  rewrite Zplus_mod_idemp_l. do 2 f_equal. lia.
Qed.
Lemma s32_small z : - 2147483648 ≤ z < 2147483648 → s32 z = z.
Proof. intros. unfold s32. apply swrap_small; lia. Qed.

(** A duplicate-free list of integers below [n] has at most [n] elements. *)
Lemma NoDup_bounded_length (l : list Z) (n : Z) :
  0 ≤ n → NoDup l → (∀ i, i ∈ l → 0 ≤ i < n) → Z.of_nat (length l) ≤ n.
Proof.
  intros Hn Hnd Hr.
  assert (l ⊆+ seqZ 0 n) as Hs.
  { apply NoDup_submseteq; [done|]. intros i Hi%Hr. apply elem_of_seqZ. lia. }
  apply submseteq_length in Hs. rewrite length_seqZ in Hs. lia.
Qed.

(** [lia] after the ranges of every wrapped term of the goal are known. *)
Ltac wrap_ranges :=
  repeat match goal with
  | |- context [u8 ?z] => lazymatch goal with
      | _ : 0 ≤ u8 z < 256 |- _ => fail | _ => pose proof (u8_range z) end
  | |- context [u32 ?z] => lazymatch goal with
      | _ : 0 ≤ u32 z < 4294967296 |- _ => fail | _ => pose proof (u32_range z) end
  end.

(** Case analysis on every boolean comparison of the goal. *)
Ltac zbool_cases :=
  repeat match goal with
  | |- context [Z.eqb ?a ?b] => destruct (Z.eqb_spec a b)
  | |- context [Z.ltb ?a ?b] => destruct (Z.ltb_spec a b)
  | |- context [Z.leb ?a ?b] => destruct (Z.leb_spec a b)
  end.

Create HintDb cint.
#[export] Hint Resolve u8_range u16_range u32_range u64_range : cint.
Create Rewrite HintDb cint.
#[export] Hint Rewrite u32_add_l u32_add_r : cint.
