(* ===== verification/Systime.v ===== *)
(** * Systime: deadlines, millisecond ticks and sleeping (src/systime.c)

    [gettimeofday], [clock_gettime] and [nanosleep] are environment calls: a
    reading is an argument ([None] when the call fails) and a run of readings
    is a list.  The tick arithmetic is on [uint32_t] and wraps every 2^32 ms. *)

From S2P Require Import Prelude.
From stdpp Require Import base numbers list option.
From Stdlib Require Import ZArith Lia.
Open Scope Z_scope.

Module Systime.

(** ** Data *)

Record timespec := Timespec { tv_sec : Z; tv_nsec : Z }.
Record timeval := Timeval { tv_sec_u : Z; tv_usec : Z }.

(** ** Operations *)

(** The deadline [msec] milliseconds after the wall clock reading [now]. *)
Definition cplus_systime_get_abstime_after_msec
    (now : option timeval) (msec : Z) : Z * option timespec :=
  match now with
  | None => (CPLUS_FAIL, None)
  | Some tv =>
      let sec := tv_sec_u tv + u32 (msec `div` 1000) in
      let usec := tv_usec tv + u32 ((msec `mod` 1000) * 1000) in
      let sec := sec + usec `quot` (1000 * 1000) in
      let usec := usec `rem` (1000 * 1000) in
      (CPLUS_SUCCESS, Some (Timespec sec (usec * 1000)))
  end.

(** The deadline [msec] milliseconds after the monotonic reading [now]. *)
Definition cplus_systime_get_abstick_after_msec
    (now : option timespec) (msec : Z) : Z * option timespec :=
  match now with
  | None => (CPLUS_FAIL, None)
  | Some tp =>
      let sec := tv_sec tp + u32 (msec `div` 1000) in
      let nsec := tv_nsec tp + u32 ((msec `mod` 1000) * (1000 * 1000)) in
      let sec := sec + nsec `quot` (1000 * 1000 * 1000) in
      let nsec := nsec `rem` (1000 * 1000 * 1000) in
      (CPLUS_SUCCESS, Some (Timespec sec nsec))
  end.

(** One iteration of the loop of [cplus_systime_get_tick]. *)
Definition tick_of (tp : timespec) : Z :=
  u32 (u32 (tv_sec tp * 1000) + tv_nsec tp `quot` (1000 * 1000)).

(** [do ... while (0 == ms)] over the readings the clock gives in turn; with
    no further reading the loop has not returned yet. *)
Fixpoint cplus_systime_get_tick (clock : list timespec) : outcome Z :=
  match clock with
  | [] => Hangs
  | tp :: rest =>
      let ms := tick_of tp in
      if 0 =? ms then cplus_systime_get_tick rest else Done ms
  end.

Definition cplus_systime_diff_tick (early_msec late_msec : Z) : Z :=
  if negb (0 =? early_msec) then
    if late_msec <? early_msec then
      let diff_ms := u32 (UINT32_MAX - early_msec) in
      let diff_ms := u32 (diff_ms + late_msec) in
      u32 (diff_ms + 1)
    else u32 (late_msec - early_msec)
  else late_msec.

Definition cplus_systime_elapsed_tick (clock : list timespec) (msec : Z) : outcome Z :=
  match cplus_systime_get_tick clock with
  | Done now => Done (cplus_systime_diff_tick msec now)
  | Aborts => Aborts | Hangs => Hangs | Undefined => Undefined
  end.

Definition cplus_systime_compare_tick (msec1 msec2 : Z) : Z :=
  if msec1 =? msec2 then 0
  else if msec2 <? msec1 then
    if u32 (msec1 - msec2) <? UINT32_MAX `div` 2 then 1 else -1
  else
    if u32 (msec2 - msec1) <? UINT32_MAX `div` 2 then -1 else 1.

(** What [nanosleep] answers: it slept, or it failed with an [errno], leaving
    the remaining time in [rem]. *)
Inductive sleep_result :=
| Slept
| SleepError (errno : Z) (rem : timespec).

(** The calls [cplus_systime_sleep_msec] makes. *)
Inductive sleep_call :=
| Usleep (usec : Z)
| Nanosleep (req : timespec).

(** The [while (1)] loop: a signal restarts the sleep with the remaining time,
    every other answer ends it. *)
Fixpoint sleep_loop (req : timespec) (answers : list sleep_result)
    : outcome (list sleep_call) :=
  match answers with
  | [] => Hangs
  | Slept :: _ => Done [Nanosleep req]
  | SleepError e rem :: rest =>
      if e =? EINTR then
        match sleep_loop rem rest with
        | Done calls => Done (Nanosleep req :: calls)
        | o => o
        end
      else Done [Nanosleep req]
  end.

Definition cplus_systime_sleep_msec (msec : Z) (answers : list sleep_result)
    : outcome (list sleep_call) :=
  let ms := if 0 =? msec then 1 else msec in
  if ms <? 1000 then Done [Usleep (u32 (ms * 1000))]
  else
    let req := Timespec (ms `div` 1000) (ms `mod` 1000 * (1000 * 1000)) in
    sleep_loop req answers.

(** The broken-down time of [localtime_r]. *)
Record tm := Tm {
  tm_sec : Z; tm_min : Z; tm_hour : Z; tm_mday : Z; tm_mon : Z;
  tm_year : Z; tm_wday : Z; tm_yday : Z }.

(** [cplus_systime]: every field is a [uint32_t]. *)
Record systime := mkSystime {
  day_of_year : Z; day_of_week : Z; year : Z; month : Z; day_of_month : Z;
  hours : Z; minutes : Z; second : Z; millisecond : Z; microsecond : Z }.

(** [convert_to_systime] writes the calendar fields and keeps the two
    sub-second ones. *)
Definition convert_to_systime (stime : systime) (t : tm) : systime :=
  {| day_of_year := u32 (tm_yday t + 1);
     day_of_week := u32 (tm_wday t);
     year := u32 (tm_year t + 1900);
     month := u32 (tm_mon t + 1);
     day_of_month := u32 (tm_mday t);
     hours := u32 (tm_hour t);
     minutes := u32 (tm_min t);
     second := u32 (tm_sec t);
     millisecond := millisecond stime;
     microsecond := microsecond stime |}.

(** [localtime] is [localtime_r] with the time zone [tzset] installed. *)
Definition cplus_systime_get_local_time
    (localtime : Z → option tm) (now : option timeval) (stime : systime)
    : Z * systime :=
  match now with
  | None => (CPLUS_FAIL, stime)
  | Some tv =>
      match localtime (tv_sec_u tv) with
      | None => (CPLUS_FAIL, stime)
      | Some t =>
          let stime' :=
            {| day_of_year := day_of_year stime; day_of_week := day_of_week stime;
               year := year stime; month := month stime;
               day_of_month := day_of_month stime; hours := hours stime;
               minutes := minutes stime; second := second stime;
               millisecond := u32 (tv_usec tv `quot` 1000);
               microsecond := u32 (tv_usec tv `rem` 1000) |} in
          (CPLUS_SUCCESS, convert_to_systime stime' t)
      end
  end.

(** ** Specification and lemmas *)

(** A time in nanoseconds, and what the C library calls normalised. *)
Definition ns_of (t : timespec) : Z := tv_sec t * 1000000000 + tv_nsec t.
Definition normal (t : timespec) : Prop := 0 ≤ tv_nsec t < 1000000000.

Lemma tick_of_mod tp :
  normal tp → tick_of tp = u32 (ns_of tp `div` 1000000).
Proof.
  intros H. unfold normal in H. unfold tick_of, ns_of.
  rewrite u32_add_l. rewrite Z.quot_div_nonneg by lia. f_equal.
  replace (tv_sec tp * 1000000000 + tv_nsec tp)
    with (tv_nsec tp + (tv_sec tp * 1000) * 1000000) by lia.
  rewrite Z.div_add by lia. apply Z.add_comm.
Qed.

(** Both deadlines carry the sub-second part into the seconds. *)
Lemma carry_ns sec ns k :
  0 ≤ ns → 0 < k →
  (sec + ns `quot` k) * k + ns `rem` k = sec * k + ns ∧ 0 ≤ ns `rem` k < k.
Proof.
  intros Hn Hk. rewrite Z.quot_div_nonneg, Z.rem_mod_nonneg by lia.
  pose proof (Z.div_mod ns k). pose proof (Z.mod_pos_bound ns k). nia.
Qed.

(** [cplus_systime_get_abstick_after_msec] gives a normalised deadline
    exactly [msec] milliseconds after the monotonic reading, whatever carry
    the nanoseconds produce. *)
Theorem abstick_exact now msec :
  normal now → 0 ≤ msec < 4294967296 →
  ∃ t, cplus_systime_get_abstick_after_msec (Some now) msec = (CPLUS_SUCCESS, Some t)
       ∧ normal t ∧ ns_of t = ns_of now + msec * 1000000.
Proof.
  intros Hn Hm. unfold normal in *. eexists. split; [reflexivity|].
  unfold normal, ns_of. simpl tv_sec. simpl tv_nsec.
  change (1000 * 1000 * 1000) with 1000000000. change (1000 * 1000) with 1000000.
  pose proof (Z.div_mod msec 1000). pose proof (Z.mod_pos_bound msec 1000).
  rewrite (u32_small (msec `div` 1000)) by lia.
  rewrite (u32_small (msec `mod` 1000 * 1000000)) by lia.
  destruct (carry_ns (tv_sec now + msec `div` 1000)
    (tv_nsec now + msec `mod` 1000 * 1000000) 1000000000); lia.
Qed.

(** the wall clock deadline is normalised and exact to the microsecond. *)
Theorem abstime_exact now msec :
  0 ≤ tv_usec now < 1000000 → 0 ≤ msec < 4294967296 →
  ∃ t, cplus_systime_get_abstime_after_msec (Some now) msec = (CPLUS_SUCCESS, Some t)
       ∧ normal t
       ∧ ns_of t = tv_sec_u now * 1000000000 + tv_usec now * 1000 + msec * 1000000.
Proof.
  intros Hn Hm. eexists. split; [reflexivity|].
  unfold normal, ns_of. simpl tv_sec. simpl tv_nsec.
  change (1000 * 1000) with 1000000.
  pose proof (Z.div_mod msec 1000). pose proof (Z.mod_pos_bound msec 1000).
  rewrite (u32_small (msec `div` 1000)) by lia.
  rewrite (u32_small (msec `mod` 1000 * 1000)) by lia.
  destruct (carry_ns (tv_sec_u now + msec `div` 1000)
    (tv_usec now + msec `mod` 1000 * 1000) 1000000); lia.
Qed.

(** The difference of two ticks is their distance modulo 2^32, on every branch. *)
Lemma diff_tick_mod early late :
  0 ≤ early < 4294967296 → 0 ≤ late < 4294967296 →
  cplus_systime_diff_tick early late = u32 (late - early).
Proof.
  intros He Hl. unfold cplus_systime_diff_tick.
  destruct (Z.eqb_spec 0 early); simpl.
  - subst. by rewrite Z.sub_0_r, u32_small.
  - destruct (Z.ltb_spec late early); [|done].
    rewrite u32_add_l, <- Z.add_assoc, u32_add_l. unfold UINT32_MAX.
    replace (4294967295 - early + (late + 1)) with (late - early + 1 * 4294967296) by lia.
    apply u32_period.
Qed.

(** measuring an interval with ticks is exact across the 32 bit
    wrap-around: an interval shorter than 2^32 ms that starts at reading [t0]
    is measured exactly when the clock shows [t0 + d] milliseconds. *)
Theorem elapsed_tick_exact t0 d :
  0 ≤ d < 4294967296 →
  cplus_systime_diff_tick (u32 t0) (u32 (t0 + d)) = d.
Proof.
  intros Hd. rewrite diff_tick_mod by auto with cint.
  replace d with (u32 d) at 2 by (apply u32_small; lia).
  unfold u32. rewrite <- Zminus_mod. f_equal. lia.
Qed.

(** [get_tick] returns on the first reading whose millisecond count is not a
    multiple of 2^32, and the result is that count modulo 2^32. *)
Lemma get_tick_first_nonzero pre tp rest :
  Forall (λ t, tick_of t = 0) pre → tick_of tp ≠ 0 →
  cplus_systime_get_tick (pre ++ tp :: rest) = Done (tick_of tp).
Proof.
  intros Hpre Htp. induction Hpre as [|t pre Ht _ IH]; simpl.
  - destruct (Z.eqb_spec 0 (tick_of tp)); [congruence|done].
  - rewrite Ht. apply IH.
Qed.

(** ticks are ordered by their distance on the 2^32 circle: a tick less
    than 2^31 - 1 ms after another compares as later, also across the wrap. *)
Theorem compare_tick_later b d :
  0 < d < 2147483647 →
  cplus_systime_compare_tick (u32 (b + d)) (u32 b) = 1
  ∧ cplus_systime_compare_tick (u32 b) (u32 (b + d)) = -1.
Proof.
  intros Hd. pose proof (u32_range b) as Hb.
  assert (u32 (b + d) = u32 b + d ∨ u32 (b + d) = u32 b + d - 4294967296) as Hw.
  { rewrite <- u32_add_l. destruct (decide (u32 b + d < 4294967296)).
    - left. apply u32_small. lia.
    - right. rewrite <- (u32_period _ (-1)). apply u32_small. lia. }
  unfold cplus_systime_compare_tick.
  change (UINT32_MAX `div` 2) with 2147483647.
  destruct Hw as [-> | ->].
  - rewrite (u32_small (u32 b + d - u32 b)) by lia. zbool_cases; lia.
  - rewrite (u32_small (u32 b - (u32 b + d - 4294967296))) by lia.
    zbool_cases; lia.
Qed.

(** the comparison of ticks is antisymmetric on all pairs. *)
Theorem compare_tick_antisym a b :
  cplus_systime_compare_tick b a = - cplus_systime_compare_tick a b.
Proof.
  unfold cplus_systime_compare_tick. zbool_cases; lia.
Qed.

(** Sleeping: the time slept so far plus the time asked for is the request. *)
Fixpoint interrupted (req : timespec) (rems : list timespec) : list sleep_result :=
  match rems with
  | [] => [Slept]
  | r :: rest => SleepError EINTR r :: interrupted r rest
  end.

(** a sleep interrupted any number of times is resumed with exactly the
    remaining time the kernel reported, and returns once a sleep completes. *)
Theorem sleep_msec_resumes msec rems :
  1000 ≤ msec < 4294967296 →
  cplus_systime_sleep_msec msec
    (interrupted (Timespec (msec `div` 1000) (msec `mod` 1000 * 1000000)) rems)
  = Done (Nanosleep <$>
      Timespec (msec `div` 1000) (msec `mod` 1000 * 1000000) :: rems)
  ∧ ns_of (Timespec (msec `div` 1000) (msec `mod` 1000 * 1000000)) = msec * 1000000.
Proof.
  intros Hm. split.
  - unfold cplus_systime_sleep_msec.
    destruct (Z.eqb_spec 0 msec); [lia|].
    destruct (Z.ltb_spec msec 1000); [lia|].
    change (1000 * 1000) with 1000000. cbv zeta.
    generalize (Timespec (msec `div` 1000) (msec `mod` 1000 * 1000000)).
    induction rems as [|r rems IH]; intros t; [done|].
    simpl. by rewrite IH.
  - unfold ns_of. simpl. pose proof (Z.div_mod msec 1000). lia.
Qed.

(** The ranges [localtime_r] documents ([tm_sec] counts leap seconds). *)
Definition tm_ok (t : tm) : Prop :=
  0 ≤ tm_sec t ≤ 60 ∧ 0 ≤ tm_min t ≤ 59 ∧ 0 ≤ tm_hour t ≤ 23 ∧
  1 ≤ tm_mday t ≤ 31 ∧ 0 ≤ tm_mon t ≤ 11 ∧ 0 ≤ tm_wday t ≤ 6 ∧
  0 ≤ tm_yday t ≤ 365.

(** every calendar field handed to the caller is in range; the day of the
    year reaches 366 and the second 60. *)
Theorem local_time_ranges localtime now stime t :
  (∀ s x, localtime s = Some x → tm_ok x) →
  0 ≤ tv_usec now < 1000000 → localtime (tv_sec_u now) = Some t →
  ∃ st, cplus_systime_get_local_time localtime (Some now) stime = (CPLUS_SUCCESS, st)
    ∧ 1 ≤ day_of_year st ≤ 366 ∧ 0 ≤ day_of_week st ≤ 6 ∧ 1 ≤ month st ≤ 12
    ∧ 1 ≤ day_of_month st ≤ 31 ∧ 0 ≤ hours st ≤ 23 ∧ 0 ≤ minutes st ≤ 59
    ∧ 0 ≤ second st ≤ 60 ∧ 0 ≤ millisecond st ≤ 999 ∧ 0 ≤ microsecond st ≤ 999
    ∧ millisecond st * 1000 + microsecond st = tv_usec now.
Proof.
  intros Hok Hu Ht. pose proof (Hok _ _ Ht) as Hr. unfold tm_ok in Hr.
  unfold cplus_systime_get_local_time. rewrite Ht. eexists. split; [reflexivity|].
  simpl. rewrite Z.quot_div_nonneg, Z.rem_mod_nonneg by lia.
  pose proof (Z.div_mod (tv_usec now) 1000).
  pose proof (Z.mod_pos_bound (tv_usec now) 1000).
  rewrite !u32_small by lia. lia.
Qed.

(** ** Witnesses *)

Lemma abstick_exact_witness :
  ∃ t, cplus_systime_get_abstick_after_msec (Some (Timespec 5 999000000)) 1500
       = (CPLUS_SUCCESS, Some t)
  ∧ normal t ∧ ns_of t = ns_of (Timespec 5 999000000) + 1500 * 1000000.
Proof. apply (abstick_exact (Timespec 5 999000000) 1500); unfold normal; simpl; lia. Defined.

Lemma abstime_exact_witness :
  ∃ t, cplus_systime_get_abstime_after_msec (Some (Timeval 5 999999)) 1
       = (CPLUS_SUCCESS, Some t)
  ∧ normal t ∧ ns_of t = 5 * 1000000000 + 999999 * 1000 + 1 * 1000000.
Proof. apply (abstime_exact (Timeval 5 999999) 1); simpl; lia. Defined.

Lemma elapsed_tick_exact_witness :
  cplus_systime_diff_tick (u32 4294967290) (u32 (4294967290 + 10)) = 10.
Proof. apply (elapsed_tick_exact 4294967290 10). lia. Defined.

Lemma compare_tick_later_witness :
  cplus_systime_compare_tick (u32 (4294967290 + 10)) (u32 4294967290) = 1
  ∧ cplus_systime_compare_tick (u32 4294967290) (u32 (4294967290 + 10)) = -1.
Proof. apply (compare_tick_later 4294967290 10). lia. Defined.

Lemma sleep_msec_resumes_witness :
  cplus_systime_sleep_msec 1500
    (interrupted (Timespec (1500 `div` 1000) (1500 `mod` 1000 * 1000000)) [Timespec 0 7])
  = Done (Nanosleep <$>
      Timespec (1500 `div` 1000) (1500 `mod` 1000 * 1000000) :: [Timespec 0 7])
  ∧ ns_of (Timespec (1500 `div` 1000) (1500 `mod` 1000 * 1000000)) = 1500 * 1000000.
Proof. apply (sleep_msec_resumes 1500 [Timespec 0 7]). lia. Defined.

(** 31 December of a leap year: the day of the year is 366. *)
Definition leap_day : tm := Tm 60 59 23 31 11 124 2 365.

Lemma local_time_ranges_witness :
  ∃ st, cplus_systime_get_local_time (λ _, Some leap_day) (Some (Timeval 0 999999))
          (mkSystime 0 0 0 0 0 0 0 0 0 0) = (CPLUS_SUCCESS, st)
    ∧ 1 ≤ day_of_year st ≤ 366 ∧ 0 ≤ day_of_week st ≤ 6 ∧ 1 ≤ month st ≤ 12
    ∧ 1 ≤ day_of_month st ≤ 31 ∧ 0 ≤ hours st ≤ 23 ∧ 0 ≤ minutes st ≤ 59
    ∧ 0 ≤ second st ≤ 60 ∧ 0 ≤ millisecond st ≤ 999 ∧ 0 ≤ microsecond st ≤ 999
    ∧ millisecond st * 1000 + microsecond st = tv_usec (Timeval 0 999999).
Proof.
  apply (local_time_ranges (λ _, Some leap_day) (Timeval 0 999999)
    (mkSystime 0 0 0 0 0 0 0 0 0 0) leap_day).
  - intros s x [= <-]. unfold tm_ok, leap_day; simpl; lia.
  - simpl; lia.
  - reflexivity.
Defined.

End Systime.
