(* ===== verification/Spinlock.v ===== *)
(** * Spinlock: the spin locks of src/data.c and src/mempool.c

    Both files define the same pair of macros over a byte of the object and two
    file-level variables [spin_up] and [spin_down].  The concurrent model
    interleaves the atomic reads, compare-and-exchanges and writes of any
    number of threads; the sequential operations at the end are what the other
    components use, and are related to the concurrent model by theorems. *)

From S2P Require Import Prelude.
From stdpp Require Import base numbers list option gmap relations.
From Stdlib Require Import ZArith Lia.
Open Scope Z_scope.

Module Spinlock.

(** ** State *)

(** [static uint8_t spin_up = 1] is only ever read. *)
Definition spin_up : Z := 1.

(** Where a thread is: outside, at the read of the loop condition, at the
    compare-and-exchange of the loop condition, or in the section the lock of
    object [o] protects. *)
Inductive pc :=
| Idle
| AtRead (o : nat)
| AtCas (o : nat)
| Crit (o : nat).

#[export] Instance pc_eq_dec : EqDecision pc.
Proof. solve_decision. Defined.

(** [spin_down] is shared by every object of the file: it is passed by address
    as the expected value of the compare-and-exchange. *)
Record world := World {
  spin_down : Z;
  locks : gmap nat Z;
  pcs : gmap nat pc }.

Definition lock_of (w : world) (o : nat) : Z := default 0 (locks w !! o).
Definition pc_of (w : world) (t : nat) : pc := default Idle (pcs w !! t).

(** Every lock byte starts at 0 and no thread is active. *)
Definition start : world := World 0 ∅ ∅.

(** ** Steps *)

(** [spin_up == cplus_atomic_read(&lock)]: spin again, or go on to the CAS. *)
Definition step_read (w : world) (t o : nat) : world :=
  if lock_of w o =? spin_up then w
  else World (spin_down w) (locks w) (<[t := AtCas o]> (pcs w)).

(** [__atomic_compare_exchange(&lock, &spin_down, &spin_up, ...)]: on failure
    the current value of the lock is written into [spin_down]. *)
Definition step_cas (w : world) (t o : nat) : world :=
  if lock_of w o =? spin_down w
  then World (spin_down w) (<[o := spin_up]> (locks w)) (<[t := Crit o]> (pcs w))
  else World (lock_of w o) (locks w) (<[t := AtRead o]> (pcs w)).

(** [cplus_atomic_write(&lock, spin_down)]. *)
Definition step_unlock (w : world) (t o : nat) : world :=
  World (spin_down w) (<[o := spin_down w]> (locks w)) (<[t := Idle]> (pcs w)).

(** One step of thread [t]; an idle thread enters [SPIN_LOCK] on object [o]. *)
Definition step_fn (t o : nat) (w : world) : world :=
  match pc_of w t with
  | Idle => World (spin_down w) (locks w) (<[t := AtRead o]> (pcs w))
  | AtRead o' => step_read w t o'
  | AtCas o' => step_cas w t o'
  | Crit o' => step_unlock w t o'
  end.

Definition step (w w' : world) : Prop := ∃ t o, w' = step_fn t o w.

(** An uncontended step: if it is a compare-and-exchange, it succeeds. *)
Definition quiet_step (w w' : world) : Prop :=
  ∃ t o, w' = step_fn t o w ∧
    match pc_of w t with AtCas o' => lock_of w o' = spin_down w | _ => True end.

(** Run a schedule: thread [t] steps, entering for object [o] when idle. *)
Definition run (sched : list (nat * nat)) (w : world) : world :=
  fold_left (λ w to, step_fn (fst to) (snd to) w) sched w.

(** Mutual exclusion on object [o]. *)
Definition exclusive (w : world) (o : nat) : Prop :=
  ∀ t1 t2, pc_of w t1 = Crit o → pc_of w t2 = Crit o → t1 = t2.

(** ** The sequential operations

    With no other thread active, taking the lock either succeeds at once or,
    when the byte is already [spin_up], spins forever. *)
Definition SPIN_LOCK (spinlock : Z) : outcome Z :=
  if spinlock =? spin_up then Hangs else Done spin_up.
Definition SPIN_UNLOCK : Z := 0.

(** ** Lemmas *)

Lemma run_steps sched w : rtc step w (run sched w).
Proof.
  revert w. induction sched as [|[t o] sched IH]; intros w; simpl; [done|].
  eapply rtc_l; [|apply IH]. by exists t, o.
Qed.

Lemma pc_of_insert d l w t t' p :
  pc_of (World d l (<[t := p]> (pcs w))) t' = if decide (t = t') then p else pc_of w t'.
Proof. unfold pc_of. simpl. rewrite lookup_insert. by case_decide. Qed.

Lemma lock_of_insert d w o o' v p :
  lock_of (World d (<[o := v]> (locks w)) p) o'
  = if decide (o = o') then v else lock_of w o'.
Proof. unfold lock_of. simpl. rewrite lookup_insert. by case_decide. Qed.

Lemma lock_of_same d w o p : lock_of (World d (locks w) p) o = lock_of w o.
Proof. reflexivity. Qed.

(** Split on which thread and which object an updated state is read at. *)
Ltac spin_cases :=
  repeat first
    [ rewrite pc_of_insert in * | rewrite lock_of_insert in * ];
  repeat case_decide; simplify_eq/=.

(** The lock byte of an object tells whether a thread is in its section. *)
Definition quiet_inv (w : world) : Prop :=
  spin_down w = 0 ∧
  (∀ o, lock_of w o = 0 ∧ (∀ t, pc_of w t ≠ Crit o)
      ∨ lock_of w o = 1 ∧ ∃ t, pc_of w t = Crit o
          ∧ ∀ t', pc_of w t' = Crit o → t' = t).

Lemma quiet_inv_start : quiet_inv start.
Proof. split; [done|]. intros o. left. done. Qed.

(** A step of [t] that neither enters nor leaves a section. *)
Lemma quiet_inv_move w t p :
  quiet_inv w → (∀ o, pc_of w t ≠ Crit o) → (∀ o, p ≠ Crit o) →
  quiet_inv (World (spin_down w) (locks w) (<[t := p]> (pcs w))).
Proof.
  intros [Hd Hq] Ht Hp. split; [done|]. intros o.
  destruct (Hq o) as [[Hl Hn] | [Hl (t0 & Ht0 & Hu)]].
  - left. split; [done|]. intros t'. spin_cases; [apply Hp | apply Hn].
  - right. split; [done|]. exists t0. split.
    + spin_cases; [|done]. by destruct (Ht o).
    + intros t'. spin_cases; [intros Hc; by destruct (Hp o) | apply Hu].
Qed.

Lemma quiet_inv_acquire w t o :
  quiet_inv w → pc_of w t = AtCas o → lock_of w o = 0 →
  quiet_inv (World (spin_down w) (<[o := spin_up]> (locks w)) (<[t := Crit o]> (pcs w))).
Proof.
  intros [Hd Hq] Ht Hl. split; [done|]. intros o'.
  destruct (decide (o = o')) as [<-|Ho].
  - right. destruct (Hq o) as [[_ Hn] | [Hl' _]]; [|lia].
    split; [by spin_cases|]. exists t. split; [by spin_cases|].
    intros t'. spin_cases; [done|]. intros Hc. by destruct (Hn t').
  - destruct (Hq o') as [[Hl' Hn] | [Hl' (t0 & Ht0 & Hu)]].
    + left. split; [by spin_cases|]. intros t'. spin_cases; [congruence | apply Hn].
    + right. split; [by spin_cases|]. exists t0. split; [spin_cases; congruence|].
      intros t'. spin_cases; [congruence | apply Hu].
Qed.

Lemma quiet_inv_release w t o :
  quiet_inv w → pc_of w t = Crit o →
  quiet_inv (World (spin_down w) (<[o := spin_down w]> (locks w)) (<[t := Idle]> (pcs w))).
Proof.
  intros [Hd Hq] Ht. split; [done|]. intros o'.
  destruct (decide (o = o')) as [<-|Ho].
  - left. split; [by spin_cases|].
    destruct (Hq o) as [[_ Hn] | [_ (t0 & Ht0 & Hu)]]; [by destruct (Hn t)|].
    intros t'. spin_cases; [done|]. intros Hc.
    apply Hu in Hc. apply Hu in Ht. congruence.
  - destruct (Hq o') as [[Hl' Hn] | [Hl' (t0 & Ht0 & Hu)]].
    + left. split; [by spin_cases|]. intros t'. spin_cases; [done | apply Hn].
    + right. split; [by spin_cases|]. exists t0. split; [spin_cases; congruence|].
      intros t'. spin_cases; [congruence | apply Hu].
Qed.

Lemma quiet_inv_step w w' : quiet_inv w → quiet_step w w' → quiet_inv w'.
Proof.
  intros Hi (t & o & -> & Hc). unfold step_fn.
  destruct (pc_of w t) as [|o'|o'|o'] eqn:Ht.
  - apply quiet_inv_move; congruence.
  - unfold step_read. destruct (_ =? _); [done|].
    apply quiet_inv_move; congruence.
  - unfold step_cas. rewrite Hc, Z.eqb_refl.
    apply quiet_inv_acquire; [done..|]. destruct Hi. congruence.
  - by apply quiet_inv_release.
Qed.

(** ** Theorems *)

(** with any number of threads and objects, executions in which no
    compare-and-exchange is lost to another thread keep mutual exclusion, and
    the byte of a lock is 1 exactly while a thread is inside. *)
Theorem quiet_mutual_exclusion w o :
  rtc quiet_step start w →
  exclusive w o ∧ (lock_of w o = 1 ↔ ∃ t, pc_of w t = Crit o).
Proof.
  intros H.
  assert (quiet_inv w) as [_ Hq].
  { revert H. apply rtc_ind_r; [apply quiet_inv_start|].
    intros; eauto using quiet_inv_step. }
  destruct (Hq o) as [[Hl Hn] | [Hl (t & Ht & Hu)]].
  - split; [intros t1 t2 H1; by destruct (Hn t1)|].
    split; [lia|]. intros [t Ht]. by destruct (Hn t).
  - split.
    + intros t1 t2 H1 H2. apply Hu in H1. apply Hu in H2. congruence.
    + split; [eauto|done].
Qed.

(** Code bug: a lost compare-and-exchange writes 1 into the shared
    [spin_down], so the next one expects the lock to be taken and takes it
    again: three threads reach a state where two are in the same section. *)
Theorem three_threads_break_exclusion :
  ∃ w, rtc step start w ∧ pc_of w 0 = Crit 0 ∧ pc_of w 2 = Crit 0.
Proof.
  exists (run [(0,0);(1,0);(2,0);(0,0);(1,0);(2,0);(0,0);(1,0);(2,0)]%nat start).
  split; [apply run_steps|]. by vm_compute.
Qed.

(** A lock byte and an expected value both stuck at 1, and nobody in or about
    to enter the section of the only object in use. *)
Definition stuck (w : world) : Prop :=
  spin_down w = 1 ∧ lock_of w 0 = 1 ∧ ∀ t, pc_of w t = Idle ∨ pc_of w t = AtRead 0.

Definition only_object (o : nat) (w w' : world) : Prop := ∃ t, w' = step_fn t o w.

Lemma stuck_step w w' : stuck w → only_object 0 w w' → stuck w'.
Proof.
  intros (Hd & Hl & Hp) [t ->]. unfold step_fn.
  destruct (Hp t) as [Ht | Ht]; rewrite Ht.
  - split_and!; [done..|]. intros t'. spin_cases; auto.
  - unfold step_read. rewrite Hl. by split_and!.
Qed.

(** Code bug: two threads on one object suffice to lock it up for good:
    the first has left the section, the lock byte stays 1, and no continuation
    on that object ever lets a thread in again. *)
Theorem two_threads_lock_up :
  ∃ w, rtc step start w ∧ pc_of w 0 = Idle ∧ pc_of w 1 = AtRead 0
    ∧ ∀ w', rtc (only_object 0) w w' →
        lock_of w' 0 = 1 ∧ ∀ t, pc_of w' t ≠ Crit 0.
Proof.
  exists (run [(0,0);(1,0);(0,0);(1,0);(0,0);(1,0);(0,0)]%nat start).
  split; [apply run_steps|]. split; [done|]. split; [done|].
  intros w' H.
  assert (stuck w') as (_ & Hl & Hp).
  { revert H. apply rtc_ind_r.
    - split_and!; [by vm_compute..|]. intros t. unfold pc_of.
      assert (pcs (run [(0,0);(1,0);(0,0);(1,0);(0,0);(1,0);(0,0)]%nat start)
        = <[0%nat := Idle]> {[1%nat := AtRead 0]}) as -> by (by vm_compute).
      rewrite lookup_insert. case_decide; [by left|].
      rewrite lookup_singleton. case_decide; [by right|by left].
    - intros; eauto using stuck_step. }
  split; [done|]. intros t. by destruct (Hp t) as [-> | ->].
Qed.

(** The program counters a thread working on object 0 can have. *)
Definition on_zero (p : pc) : Prop :=
  p = Idle ∨ p = AtRead 0 ∨ p = AtCas 0 ∨ p = Crit 0.

(** The states two threads reach on object 0: lock byte [l], [spin_down] [d]
    and the two program counters. *)
Definition two_ok (l d : Z) (p0 p1 : pc) : Prop :=
  match p0, p1 with
  | Crit _, Crit _ => False
  | Crit _, AtCas _ | AtCas _, Crit _ => l = 1 ∧ d = 0
  | Crit _, _ | _, Crit _ => l = 1 ∧ (d = 0 ∨ d = 1)
  | AtCas _, _ | _, AtCas _ => l = 0 ∧ d = 0
  | _, _ => l = d ∧ (d = 0 ∨ d = 1)
  end.

Definition two_inv (w : world) : Prop :=
  on_zero (pc_of w 0) ∧ on_zero (pc_of w 1) ∧
  two_ok (lock_of w 0) (spin_down w) (pc_of w 0) (pc_of w 1).

(** A step of one of the two threads, always on object 0. *)
Definition two_step (w w' : world) : Prop :=
  ∃ t, (t = 0 ∨ t = 1)%nat ∧ w' = step_fn t 0 w.

Lemma two_inv_step w w' : two_inv w → two_step w w' → two_inv w'.
Proof.
  intros (H0 & H1 & Hok) (t & Ht & ->). unfold step_fn, step_read, step_cas, step_unlock.
  destruct Ht as [-> | ->].
  all: destruct H0 as [E0|[E0|[E0|E0]]], H1 as [E1|[E1|[E1|E1]]];
    rewrite E0, E1 in Hok; simpl in Hok; rewrite ?E0, ?E1; unfold spin_up.
  all: zbool_cases; unfold two_inv, on_zero;
    repeat first [rewrite pc_of_insert | rewrite lock_of_insert | rewrite lock_of_same];
    simpl; rewrite ?E0, ?E1; simpl; (try (exfalso; lia)).
  all: split_and!; try tauto; lia.
Qed.

(** on two threads and one object the section is exclusive in every
    execution, lost exchanges included: the defects above block the two
    threads, they do not let both in. *)
Theorem two_threads_exclusive w :
  rtc two_step start w → ¬ (pc_of w 0 = Crit 0 ∧ pc_of w 1 = Crit 0).
Proof.
  intros H.
  assert (two_inv w) as (_ & _ & Hok).
  { revert H. apply rtc_ind_r.
    - unfold two_inv, on_zero. vm_compute. tauto.
    - intros; eauto using two_inv_step. }
  intros [E0 E1]. by rewrite E0, E1 in Hok.
Qed.

(** One step of a thread that nobody disturbs, at each program counter. *)
Lemma step_enter w t o :
  pc_of w t = Idle →
  pc_of (step_fn t o w) t = AtRead o ∧ lock_of (step_fn t o w) o = lock_of w o
  ∧ spin_down (step_fn t o w) = spin_down w.
Proof.
  intros Ht. unfold step_fn. rewrite Ht.
  split_and!; [|done..]. by rewrite pc_of_insert, decide_True.
Qed.

Lemma step_read_free w t o :
  pc_of w t = AtRead o → lock_of w o ≠ 1 →
  pc_of (step_fn t o w) t = AtCas o ∧ lock_of (step_fn t o w) o = lock_of w o
  ∧ spin_down (step_fn t o w) = spin_down w.
Proof.
  intros Ht Hl. unfold step_fn. rewrite Ht. unfold step_read, spin_up.
  destruct (Z.eqb_spec (lock_of w o) 1); [done|].
  split_and!; [|done..]. by rewrite pc_of_insert, decide_True.
Qed.

Lemma step_cas_free w t o :
  pc_of w t = AtCas o → lock_of w o = spin_down w →
  pc_of (step_fn t o w) t = Crit o ∧ lock_of (step_fn t o w) o = 1
  ∧ spin_down (step_fn t o w) = spin_down w.
Proof.
  intros Ht Hl. unfold step_fn. rewrite Ht. unfold step_cas.
  rewrite Hl, Z.eqb_refl. split_and!; [..|done].
  - by rewrite pc_of_insert, decide_True.
  - by rewrite lock_of_insert, decide_True.
Qed.

(** the sequential operations the other components use are the concurrent
    protocol run by one thread alone: from a free lock the three steps of
    [SPIN_LOCK] take it, [SPIN_UNLOCK] gives back the starting byte, and a
    taken lock is never obtained. *)
Theorem sequential_agrees w t o :
  pc_of w t = Idle → spin_down w = 0 → (lock_of w o = 0 ∨ lock_of w o = 1) →
  match SPIN_LOCK (lock_of w o) with
  | Done l =>
      let w1 := run [(t, o); (t, o); (t, o)] w in
      pc_of w1 t = Crit o ∧ lock_of w1 o = l
      ∧ lock_of (run [(t, o)] w1) o = SPIN_UNLOCK
  | _ => ∀ n, pc_of (run (replicate (S n) (t, o)) w) t = AtRead o
  end.
Proof.
  intros Hp Hd Hl. unfold SPIN_LOCK, spin_up. destruct Hl as [Hl | Hl]; rewrite Hl.
  - change (0 =? 1) with false. cbv iota zeta. unfold run. cbn [fold_left fst snd].
    destruct (step_enter w t o Hp) as (P1 & L1 & D1).
    destruct (step_read_free (step_fn t o w) t o P1) as (P2 & L2 & D2); [lia|].
    destruct (step_cas_free (step_fn t o (step_fn t o w)) t o P2) as (P3 & L3 & D3);
      [congruence|].
    split; [done|]. split; [done|].
    unfold step_fn at 1. rewrite P3. unfold step_unlock.
    rewrite lock_of_insert, decide_True by done. unfold SPIN_UNLOCK. congruence.
  - change (1 =? 1) with true. cbv iota. intros n. unfold run. simpl.
    unfold step_fn at 2. rewrite Hp.
    set (w1 := World _ _ _). assert (pc_of w1 t = AtRead o) as H1.
    { unfold w1. by rewrite pc_of_insert, decide_True. }
    assert (lock_of w1 o = 1) as H2 by done. clearbody w1. revert n.
    induction n as [|n IH]; simpl; [done|].
    assert (step_fn t o w1 = w1) as ->; [|done].
    unfold step_fn. rewrite H1. unfold step_read. by rewrite H2.
Qed.

(** ** Witnesses *)

Lemma quiet_mutual_exclusion_witness :
  exclusive (run [(0,0);(1,0);(0,0);(0,0)]%nat start) 0
  ∧ (lock_of (run [(0,0);(1,0);(0,0);(0,0)]%nat start) 0 = 1
     ↔ ∃ t, pc_of (run [(0,0);(1,0);(0,0);(0,0)]%nat start) t = Crit 0).
Proof.
  apply (quiet_mutual_exclusion (run [(0,0);(1,0);(0,0);(0,0)]%nat start) 0).
  eapply rtc_l; [exists 0%nat, 0%nat; split; [reflexivity|exact I]|].
  eapply rtc_l; [exists 1%nat, 0%nat; split; [reflexivity|exact I]|].
  eapply rtc_l; [exists 0%nat, 0%nat; split; [reflexivity|exact I]|].
  eapply rtc_l; [exists 0%nat, 0%nat; split; [reflexivity|reflexivity]|].
  apply rtc_refl.
Defined.

Lemma two_threads_exclusive_witness :
  ¬ (pc_of (run [(0,0);(1,0);(0,0);(0,0);(1,0)]%nat start) 0 = Crit 0
     ∧ pc_of (run [(0,0);(1,0);(0,0);(0,0);(1,0)]%nat start) 1 = Crit 0).
Proof.
  apply (two_threads_exclusive (run [(0,0);(1,0);(0,0);(0,0);(1,0)]%nat start)).
  eapply rtc_l; [exists 0%nat; split; [by left|reflexivity]|].
  eapply rtc_l; [exists 1%nat; split; [by right|reflexivity]|].
  eapply rtc_l; [exists 0%nat; split; [by left|reflexivity]|].
  eapply rtc_l; [exists 0%nat; split; [by left|reflexivity]|].
  eapply rtc_l; [exists 1%nat; split; [by right|reflexivity]|].
  apply rtc_refl.
Defined.

Lemma sequential_agrees_witness :
  match SPIN_LOCK (lock_of start 3) with
  | Done l =>
      let w1 := run [(0, 3); (0, 3); (0, 3)]%nat start in
      pc_of w1 0 = Crit 3 ∧ lock_of w1 3 = l
      ∧ lock_of (run [(0, 3)]%nat w1) 3 = SPIN_UNLOCK
  | _ => ∀ n, pc_of (run (replicate (S n) (0, 3)%nat) start) 0 = AtRead 3
  end.
Proof. apply (sequential_agrees start 0 3); [reflexivity|reflexivity|by left]. Defined.

End Spinlock.
