(* ===== verification/Allocator.v ===== *)
(** * Allocator: what a source of memory blocks promises its clients

    The linked list takes its nodes from a memory pool or from the heap
    ([new_node] and [free_node] of src/llist.c).  Both give the same guarantee,
    stated here as a type class: the list's theorems are proved against it, and
    the pool (Mempool.v) and the heap below discharge it. *)

From S2P Require Import Prelude.
From stdpp Require Import base numbers list option gmap sets.
From Stdlib Require Import ZArith Lia.
Open Scope Z_scope.

(** Addresses are integers, [0] is the null pointer.  [al_ok a live] says that
    the allocator in state [a] is well formed and that exactly the addresses of
    [live] are handed out. *)
Class Allocator (A : Type) := {
  al_new : A → outcome (Z * A);
  al_release : Z → A → outcome A;
  al_ok : A → gset Z → Prop;
  al_new_spec : ∀ a live, al_ok a live →
    ∃ p a', al_new a = Done (p, a') ∧
      ((p = 0 ∧ al_ok a' live) ∨
       (p ≠ 0 ∧ p ∉ live ∧ al_ok a' ({[p]} ∪ live)));
  al_release_spec : ∀ a live p, al_ok a live → p ∈ live →
    ∃ a', al_release p a = Done a' ∧ al_ok a' (live ∖ {[p]});
  al_nonnull : ∀ a live, al_ok a live → 0 ∉ live }.

(** ** The heap

    [cplus_malloc] without the memory manager is [malloc]: it may fail at any
    call (the answers [oom] gives in turn), and otherwise returns an address
    that is not in use.  Fresh addresses are taken in increasing order; freeing
    an address that is not in use is undefined. *)
Module Heap.

Record heap := mkHeap { fresh : Z; oom : list bool; used : gset Z }.

Definition cplus_malloc (h : heap) : outcome (Z * heap) :=
  let ok := match oom h with [] => true | b :: _ => b end in
  let rest := tail (oom h) in
  if ok then
    Done (fresh h, mkHeap (fresh h + 1) rest ({[fresh h]} ∪ used h))
  else Done (0, mkHeap (fresh h) rest (used h)).

Definition cplus_free (p : Z) (h : heap) : outcome heap :=
  if decide (p ∈ used h) then
    Done (mkHeap (fresh h) (oom h) (used h ∖ {[p]}))
  else Undefined.

Definition heap_ok (h : heap) (live : gset Z) : Prop :=
  used h = live ∧ 0 < fresh h ∧ ∀ p, p ∈ live → 0 < p < fresh h.

Lemma heap_new h live :
  heap_ok h live →
  ∃ p h', cplus_malloc h = Done (p, h') ∧
    ((p = 0 ∧ heap_ok h' live) ∨
     (p ≠ 0 ∧ p ∉ live ∧ heap_ok h' ({[p]} ∪ live))).
Proof.
  intros (Hu & Hf & Hl). unfold cplus_malloc.
  destruct (match oom h with [] => true | b :: _ => b end).
  - do 2 eexists. split; [done|]. right. split; [lia|]. split.
    + intros Hin%Hl. lia.
    + split_and!; simpl; [by rewrite Hu|lia|]. intros p.
      rewrite elem_of_union, elem_of_singleton. intros [->|Hin%Hl]; lia.
  - do 2 eexists. split; [done|]. left. done.
Qed.

Lemma heap_release h live p :
  heap_ok h live → p ∈ live →
  ∃ h', cplus_free p h = Done h' ∧ heap_ok h' (live ∖ {[p]}).
Proof.
  intros (Hu & Hf & Hl) Hp. unfold cplus_free.
  rewrite decide_True by (by rewrite Hu). eexists. split; [done|].
  split_and!; simpl; [by rewrite Hu|lia|]. intros q [Hq _]%elem_of_difference.
  by apply Hl.
Qed.

#[export] Instance heap_allocator : Allocator heap := {|
  al_new := cplus_malloc;
  al_release := cplus_free;
  al_ok := heap_ok;
  al_new_spec := heap_new;
  al_release_spec := heap_release;
  al_nonnull := ltac:(intros h live (_ & _ & Hl) H0%Hl; lia) |}.

Definition empty_heap : heap := mkHeap 1 [] ∅.

Lemma empty_heap_ok : al_ok empty_heap ∅.
Proof. split_and!; [done|done|]. intros p. set_solver. Qed.

End Heap.
