(* ===== verification/Mempool.v ===== *)
(** * Mempool: the fixed-size block pool (src/mempool.c)

    A pool cuts one allocation into [block_count] blocks and threads the free
    ones into a list stored inside the blocks themselves: the first four bytes
    of a free block hold the index of the next one.  The blocks are initialised
    lazily, one per call of [cplus_mempool_alloc]. *)

From S2P Require Import Prelude Spinlock Allocator.
From stdpp Require Import base numbers list option gmap sets.
From Stdlib Require Import ZArith Lia.
Open Scope Z_scope.

Module Mempool.

(** ** State *)

Definition OBJ_TYPE : Z := OBJ_NONE + CORE + 1.

(** [struct mempool]. *)
Record mempool := mkPool {
  type : Z;
  block_count : Z;
  block_size : Z;
  free_blocks_count : Z;
  initialized_blocks_count : Z;
  mem_start : Z;
  next_block : Z;
  thread_safe : bool;
  spinlock : Z }.

(** The pool object, the bytes of memory, the number of bytes that were
    allocated at [mem_start], and [errno]. *)
Record st := mkSt {
  mp : mempool;
  mem : Z → Z;
  mem_size : Z;
  errno : Z }.

Definition set_mp (f : mempool → mempool) (s : st) : st :=
  mkSt (f (mp s)) (mem s) (mem_size s) (errno s).
Definition set_mem (m : Z → Z) (s : st) : st :=
  mkSt (mp s) m (mem_size s) (errno s).
Definition set_errno (e : Z) (s : st) : st :=
  mkSt (mp s) (mem s) (mem_size s) e.

Definition set_next (p : Z) (m : mempool) : mempool :=
  mkPool (type m) (block_count m) (block_size m) (free_blocks_count m)
    (initialized_blocks_count m) (mem_start m) p (thread_safe m) (spinlock m).
Definition set_free_count (n : Z) (m : mempool) : mempool :=
  mkPool (type m) (block_count m) (block_size m) n
    (initialized_blocks_count m) (mem_start m) (next_block m) (thread_safe m) (spinlock m).
Definition set_initialized (n : Z) (m : mempool) : mempool :=
  mkPool (type m) (block_count m) (block_size m) (free_blocks_count m)
    n (mem_start m) (next_block m) (thread_safe m) (spinlock m).
Definition set_spinlock (v : Z) (m : mempool) : mempool :=
  mkPool (type m) (block_count m) (block_size m) (free_blocks_count m)
    (initialized_blocks_count m) (mem_start m) (next_block m) (thread_safe m) v.

(** ** Memory accesses: [uint32_t] in little-endian order *)

Definition load32 (m : Z → Z) (a : Z) : Z :=
  m a + 256 * m (a + 1) + 65536 * m (a + 2) + 16777216 * m (a + 3).

Definition store32 (m : Z → Z) (a v : Z) : Z → Z := λ x,
  if x =? a then v `mod` 256
  else if x =? a + 1 then (v `div` 256) `mod` 256
  else if x =? a + 2 then (v `div` 65536) `mod` 256
  else if x =? a + 3 then (v `div` 16777216) `mod` 256
  else m x.

Definition in_arena (s : st) (a : Z) : bool :=
  (mem_start (mp s) <=? a) && (a + 4 <=? mem_start (mp s) + mem_size s).

(** [*((uint32_t * )a)] and [*((uint32_t * )a) = v]; outside the allocation the
    access is undefined. *)
Definition read32 (a : Z) : C st Z := λ s,
  if in_arena s a then Done (load32 (mem s) a, s) else Undefined.
Definition write32 (a v : Z) : C st unit := λ s,
  if in_arena s a then Done (tt, set_mem (store32 (mem s) a v) s) else Undefined.

(** ** Operations *)

Definition CHECK_OBJECT_TYPE : C st unit :=
  m ← gets mp; assert_c (type m =? OBJ_TYPE).

Definition MEMPOOL_SPIN_LOCK : C st unit := λ s,
  match Spinlock.SPIN_LOCK (spinlock (mp s)) with
  | Done v => Done (tt, set_mp (set_spinlock v) s)
  | Aborts => Aborts | Hangs => Hangs | Undefined => Undefined
  end.
Definition MEMPOOL_SPIN_UNLOCK : C st unit :=
  modify (set_mp (set_spinlock Spinlock.SPIN_UNLOCK)).

Definition index_to_addr (m : mempool) (index : Z) : Z :=
  mem_start m + u32 (block_size m * index).

Definition addr_to_index (m : mempool) (addr : Z) : Z :=
  u32 (addr - mem_start m) `div` block_size m.

Definition cplus_mempool_get_free_blocks_count : C st Z :=
  CHECK_OBJECT_TYPE;;
  MEMPOOL_SPIN_LOCK;;
  n ← gets (free_blocks_count ∘ mp);
  MEMPOOL_SPIN_UNLOCK;;
  mret n.

Definition cplus_mempool_free (addr : Z) : C st Z :=
  CHECK_OBJECT_TYPE;;
  if addr =? 0 then modify (set_errno EINVAL);; mret CPLUS_FAIL
  else
    MEMPOOL_SPIN_LOCK;;
    m ← gets mp;
    write32 addr (if negb (next_block m =? 0)
                  then addr_to_index m (next_block m) else block_count m);;
    modify (set_mp (set_next addr));;
    modify (set_mp (λ m, set_free_count (u32 (free_blocks_count m + 1)) m));;
    MEMPOOL_SPIN_UNLOCK;;
    mret CPLUS_SUCCESS.

(** The lazy initialisation at the head of [cplus_mempool_alloc]. *)
Definition initialize_one : C st unit :=
  m ← gets mp;
  if initialized_blocks_count m <? block_count m then
    let p := index_to_addr m (initialized_blocks_count m) in
    write32 p (u32 (initialized_blocks_count m + 1));;
    modify (set_mp (λ m, set_initialized (u32 (initialized_blocks_count m + 1)) m))
  else mret tt.

Definition cplus_mempool_alloc : C st Z :=
  CHECK_OBJECT_TYPE;;
  MEMPOOL_SPIN_LOCK;;
  initialize_one;;
  m ← gets mp;
  addr ← (if 0 <? free_blocks_count m then
            modify (set_mp (set_free_count (u32 (free_blocks_count m - 1))));;
            m' ← gets mp;
            next ← (if 0 <? free_blocks_count m' then
                      i ← read32 (next_block m'); mret (index_to_addr m' i)
                    else mret 0);
            modify (set_mp (set_next next));;
            mret (next_block m)
          else modify (set_errno ENOMEM);; mret 0);
  MEMPOOL_SPIN_UNLOCK;;
  mret addr.

Definition cplus_mempool_get_index (addr : Z) : C st Z :=
  CHECK_OBJECT_TYPE;;
  if addr =? 0 then modify (set_errno EINVAL);; mret (u32 CPLUS_FAIL)
  else
    MEMPOOL_SPIN_LOCK;;
    m ← gets mp;
    MEMPOOL_SPIN_UNLOCK;;
    mret (addr_to_index m addr).

Definition cplus_mempool_get_addr_by_index (index : Z) : C st Z :=
  CHECK_OBJECT_TYPE;;
  MEMPOOL_SPIN_LOCK;;
  m ← gets mp;
  MEMPOOL_SPIN_UNLOCK;;
  mret (index_to_addr m index).

Definition cplus_mempool_alloc_as_index : C st Z :=
  CHECK_OBJECT_TYPE;;
  addr ← cplus_mempool_alloc;
  if negb (addr =? 0) then cplus_mempool_get_index addr else mret 0.

Definition cplus_mempool_free_by_index (index : Z) : C st Z :=
  CHECK_OBJECT_TYPE;;
  addr ← cplus_mempool_get_addr_by_index index;
  if negb (addr =? 0) then cplus_mempool_free addr else mret CPLUS_FAIL.

(** [arena] is what [cplus_malloc] answers for the pool memory ([0] on
    failure), [object_ok] whether the object itself could be allocated, and
    [bytes] the indeterminate contents of the fresh memory.  On failure the
    object is deleted again and only [errno] remains. *)
Definition mempool_initialize_object
    (object_ok : bool) (arena : Z) (bytes : Z → Z)
    (count size : Z) (safe : bool) (e : Z) : option st * Z :=
  if object_ok then
    let n := u32 (count * size) in
    if arena =? 0 then (None, ENOMEM)
    else (Some (mkSt (mkPool OBJ_TYPE count size count 0 arena arena safe 0)
                  bytes n e), e)
  else (None, ENOMEM).

Definition cplus_mempool_new (object_ok : bool) (arena : Z) (bytes : Z → Z)
    (count size e : Z) : option st * Z :=
  if 0 =? count then (None, EINVAL)
  else if size <? 4 then (None, EINVAL)
  else mempool_initialize_object object_ok arena bytes count size false e.

Definition cplus_mempool_new_s (object_ok : bool) (arena : Z) (bytes : Z → Z)
    (count size e : Z) : option st * Z :=
  if 0 =? count then (None, EINVAL)
  else if size <? 4 then (None, EINVAL)
  else mempool_initialize_object object_ok arena bytes count size true e.

(** The block memory, then the object, are given back to the heap: nothing of
    the pool is left. *)
Definition cplus_mempool_delete (s : st) : outcome (Z * list Z) :=
  if type (mp s) =? OBJ_TYPE then
    Done (CPLUS_SUCCESS,
      if negb (mem_start (mp s) =? 0) then [mem_start (mp s)] else [])
  else Aborts.

(** [cplus_mempool_check]: the type tag of the object. *)
Definition cplus_mempool_check (obj : option Z) : bool :=
  match obj with None => false | Some t => t =? OBJ_TYPE end.

(** A client writes byte [v] at address [a] of a block it holds. *)
Definition user_write (a v : Z) (s : st) : st :=
  set_mem (λ x, if x =? a then v else mem s x) s.

(** ** Abstract specification: a stack of free block indices *)

Record geometry (s : st) : Prop := Geometry {
  g_type : type (mp s) = OBJ_TYPE;
  g_count : 0 < block_count (mp s);
  g_size : 4 ≤ block_size (mp s);
  g_fits : block_count (mp s) * block_size (mp s) < 4294967296;
  g_start : 0 < mem_start (mp s);
  g_mem : mem_size s = block_count (mp s) * block_size (mp s) }.

Definition addr_of (s : st) (i : Z) : Z := mem_start (mp s) + block_size (mp s) * i.

(** Each block of [chain] stores the index of its successor in [free]. *)
Definition linked (s : st) (chain free : list Z) : Prop :=
  ∀ j a b, chain !! j = Some a → free !! (S j) = Some b →
    load32 (mem s) (addr_of s a) = b.

(** The blocks the lazy initialisation has not reached yet. *)
Definition untouched (s : st) : list Z :=
  seqZ (initialized_blocks_count (mp s))
    (block_count (mp s) - initialized_blocks_count (mp s)).

(** [pool_ok s free]: pool [s] holds the free blocks [free], in the order in
    which they will be handed out. *)
Record pool_ok (s : st) (free : list Z) : Prop := PoolOk {
  p_geom : geometry s;
  p_nodup : NoDup free;
  p_range : ∀ i, i ∈ free → 0 ≤ i < block_count (mp s);
  p_init : 0 ≤ initialized_blocks_count (mp s) ≤ block_count (mp s);
  p_chain : ∃ chain, free = chain ++ untouched s
    ∧ (∀ i, i ∈ chain → i < initialized_blocks_count (mp s))
    ∧ linked s chain free;
  p_count : free_blocks_count (mp s) = Z.of_nat (length free);
  p_next : next_block (mp s) = match free with [] => 0 | i :: _ => addr_of s i end }.

(** Between two calls the spin lock is free. *)
Definition rep (s : st) (free : list Z) : Prop :=
  spinlock (mp s) = 0 ∧ pool_ok s free.

(** Block [i] of the pool, as a set of addresses. *)
Definition in_block (s : st) (i a : Z) : Prop :=
  addr_of s i ≤ a < addr_of s i + block_size (mp s).

(** ** Lemmas on memory and addresses *)

Lemma store32_other m a v x : x < a ∨ a + 4 ≤ x → store32 m a v x = m x.
Proof. intros H. unfold store32. zbool_cases; (done || lia). Qed.

Lemma load32_store32_same m a v :
  0 ≤ v < 4294967296 → load32 (store32 m a v) a = v.
Proof.
  intros Hv. unfold load32, store32.
  rewrite Z.eqb_refl.
  rewrite (proj2 (Z.eqb_neq (a + 1) a)) by lia.
  rewrite (proj2 (Z.eqb_neq (a + 2) a)), (proj2 (Z.eqb_neq (a + 2) (a + 1))) by lia.
  rewrite (proj2 (Z.eqb_neq (a + 3) a)), (proj2 (Z.eqb_neq (a + 3) (a + 1))),
    (proj2 (Z.eqb_neq (a + 3) (a + 2))) by lia.
  rewrite !Z.eqb_refl.
  pose proof (Z.div_mod v 256). pose proof (Z.div_mod (v `div` 256) 256).
  pose proof (Z.div_mod (v `div` 65536) 256).
  replace (v `div` 65536) with (v `div` 256 `div` 256) in * by
    (rewrite Z.div_div by lia; done).
  replace (v `div` 16777216) with (v `div` 256 `div` 256 `div` 256) by
    (rewrite !Z.div_div by lia; done).
  rewrite (Z.mod_small (v `div` 256 `div` 256 `div` 256) 256); [lia|].
  rewrite !Z.div_div by lia. split; [apply Z.div_pos; lia|].
  apply Z.div_lt_upper_bound; lia.
Qed.

Lemma load32_store32_other m a b v :
  b + 4 ≤ a ∨ a + 4 ≤ b → load32 (store32 m a v) b = load32 m b.
Proof. intros H. unfold load32. rewrite !store32_other by lia. done. Qed.

Lemma load32_ext m m' a :
  (∀ x, a ≤ x < a + 4 → m' x = m x) → load32 m' a = load32 m a.
Proof. intros H. unfold load32. rewrite !H by lia. done. Qed.

Section geometry.
Context (s : st) (G : geometry s).

Lemma index_to_addr_of i :
  0 ≤ i < block_count (mp s) → index_to_addr (mp s) i = addr_of s i.
Proof.
  destruct G. intros Hi. unfold index_to_addr, addr_of. rewrite u32_small; nia.
Qed.

Lemma addr_to_index_of i :
  0 ≤ i < block_count (mp s) → addr_to_index (mp s) (addr_of s i) = i.
Proof.
  destruct G. intros Hi. unfold addr_to_index, addr_of.
  rewrite u32_small by nia.
  replace (mem_start (mp s) + block_size (mp s) * i - mem_start (mp s))
    with (i * block_size (mp s)) by lia.
  apply Z.div_mul. lia.
Qed.

Lemma addr_of_arena i : 0 ≤ i < block_count (mp s) → in_arena s (addr_of s i) = true.
Proof.
  destruct G. intros Hi. unfold in_arena, addr_of. rewrite g_mem0.
  apply andb_true_iff. rewrite !Z.leb_le. nia.
Qed.

Lemma addr_of_nonnull i : 0 ≤ i < block_count (mp s) → 0 < addr_of s i.
Proof. destruct G. intros Hi. unfold addr_of. nia. Qed.

Lemma addr_of_apart i j :
  i ≠ j → addr_of s i + block_size (mp s) ≤ addr_of s j
        ∨ addr_of s j + block_size (mp s) ≤ addr_of s i.
Proof. destruct G. intros Hij. unfold addr_of. nia. Qed.

Lemma addr_of_inj i j : addr_of s i = addr_of s j → i = j.
Proof. destruct G. unfold addr_of. nia. Qed.
End geometry.

(** ** Effect of each operation on the representation *)

(** Two states of the same pool. *)
Definition same_pool (s s' : st) : Prop :=
  block_count (mp s') = block_count (mp s) ∧ block_size (mp s') = block_size (mp s)
  ∧ mem_start (mp s') = mem_start (mp s) ∧ mem_size s' = mem_size s.

(** Memory outside the blocks [free] is unchanged. *)
Definition frame (s s' : st) (free : list Z) : Prop :=
  ∀ a, (∀ i, i ∈ free → ¬ in_block s i a) → mem s' a = mem s a.

#[export] Instance same_pool_equiv : Equivalence same_pool.
Proof.
  unfold same_pool. split.
  - intros s. done.
  - intros s s' (? & ? & ? & ?). split_and!; congruence.
  - intros s s' s'' (? & ? & ? & ?) (? & ? & ? & ?). split_and!; congruence.
Qed.

Lemma same_pool_addr s s' i : same_pool s s' → addr_of s' i = addr_of s i.
Proof. intros (_ & E1 & E2 & _). unfold addr_of. by rewrite E1, E2. Qed.

Lemma same_pool_geometry s s' :
  same_pool s s' → type (mp s') = type (mp s) → geometry s → geometry s'.
Proof. intros (? & ? & ? & ?) ? []. constructor; congruence. Qed.

(** [pool_ok] does not look at the lock byte or at [errno]. *)
Lemma pool_ok_spinlock v s free : pool_ok s free → pool_ok (set_mp (set_spinlock v) s) free.
Proof. intros [[] ????? ?]. by constructor. Qed.
Lemma pool_ok_errno e s free : pool_ok s free → pool_ok (set_errno e s) free.
Proof. intros [[] ????? ?]. by constructor. Qed.

Lemma elem_of_untouched s i :
  i ∈ untouched s ↔ initialized_blocks_count (mp s) ≤ i < block_count (mp s).
Proof. unfold untouched. rewrite elem_of_seqZ. lia. Qed.

(** While a block is left, the lazy initialisation touches a free block only,
    keeps the free list, and makes its head an initialised block. *)
Lemma initialize_one_ok s free :
  pool_ok s free →
  ∃ k m, let s' := set_mp (set_initialized k) (set_mem m s) in
    initialize_one s = Done (tt, s') ∧ pool_ok s' free ∧ frame s s' free ∧
    (∀ i l, free = i :: l → i < k) ∧ (free = [] → m = mem s).
Proof.
  intros [G Hnd Hr Hi (chain & Hc & Hlt & Hlk) Hn Hx]. pose proof G as G'.
  destruct G' as [Ht Hbc Hbs Hfit Hst Hsz].
  unfold initialize_one. crun.
  set (k := initialized_blocks_count (mp s)) in *.
  destruct (Z.ltb_spec k (block_count (mp s))) as [Hk|Hk].
  - assert (block_count (mp s) < 4294967296) by nia.
    rewrite index_to_addr_of, (u32_small (k + 1)) by (done || lia).
    unfold write32. rewrite addr_of_arena by (done || lia). crun.
    assert (k ∈ free) as Hkin.
    { rewrite Hc. apply elem_of_app. right. apply elem_of_untouched. fold k. lia. }
    exists (k + 1), (store32 (mem s) (addr_of s k) (k + 1)).
    split; [unfold set_mp; cbn [mp set_mem]; fold k; by rewrite (u32_small (k + 1)) by lia|].
    split; [constructor; try done|split_and!].
    + simpl. lia.
    + exists (chain ++ [k]). split; [|split].
      * rewrite Hc, <- app_assoc. f_equal. unfold untouched. fold k. simpl.
        replace (block_count (mp s) - k) with (Z.succ (block_count (mp s) - (k + 1))) by lia.
        rewrite seqZ_cons by lia. simpl. f_equal. f_equal; lia.
      * simpl. intros j [Hj%Hlt | ->%list_elem_of_singleton]%elem_of_app; lia.
      * intros j a b Ha Hb. apply lookup_app_Some in Ha as [Ha | [Hj Ha]];
          change (load32 (store32 (mem s) (addr_of s k) (k + 1)) (addr_of s a) = b).
        -- assert (a < k) by (eapply Hlt, list_elem_of_lookup_2; eauto).
           pose proof (addr_of_apart s G a k ltac:(lia)).
           rewrite load32_store32_other by lia. by apply (Hlk j).
        -- apply list_lookup_singleton_Some in Ha as [Hj0 <-].
           assert (b = k + 1) as ->.
           { rewrite Hc, lookup_app_r in Hb by lia. unfold untouched in Hb.
             apply lookup_seqZ in Hb. fold k in Hb. lia. }
           apply load32_store32_same. lia.
    + intros a Ha. simpl. apply store32_other.
      specialize (Ha k Hkin). unfold in_block in Ha. lia.
    + intros i l ->. destruct chain as [|c chain]; simplify_eq/=.
      * unfold untouched in Hc. fold k in Hc.
        assert (i = k); [|lia].
        assert ((i :: l) !! 0%nat = Some i) as H0 by done.
        rewrite Hc in H0. apply lookup_seqZ in H0. lia.
      * assert (c < k); [|lia]. apply Hlt. by left.
    + intros ->. by apply elem_of_nil in Hkin.
  - exists k, (mem s).
    assert (set_mp (set_initialized k) (set_mem (mem s) s) = s) as -> by (by destruct s as [[]]).
    split; [done|]. split.
    + constructor; eauto.
    + split_and!; [done| |done]. intros i l ->.
      assert (0 ≤ i < block_count (mp s)) by (apply Hr; by left). lia.
Qed.

(** Taking the free lock of a well-formed pool. *)
Lemma check_lock_ok s (k : C st Z) free :
  rep s free →
  (CHECK_OBJECT_TYPE;; MEMPOOL_SPIN_LOCK;; k) s = k (set_mp (set_spinlock 1) s).
Proof.
  intros [Hl [[] ????? ?]]. unfold CHECK_OBJECT_TYPE, MEMPOOL_SPIN_LOCK. crun.
  by rewrite g_type0, Z.eqb_refl, Hl.
Qed.

(** Taking the head of the free list off: the rest is a free list. *)
Lemma pool_ok_pop s i l n :
  pool_ok s (i :: l) → i < initialized_blocks_count (mp s) →
  n = match l with [] => 0 | j :: _ => addr_of s j end →
  pool_ok (set_mp (set_next n) (set_mp (set_free_count (free_blocks_count (mp s) - 1)) s)) l.
Proof.
  intros [G Hnd Hr Hi (chain & Hc & Hlt & Hlk) Hn Hx] Hk ->.
  apply NoDup_cons in Hnd as [Hil Hnd].
  constructor; [by destruct G; constructor|done| | done | |simpl in *; lia|done].
  - intros j Hj. apply Hr. by right.
  - destruct chain as [|c chain]; simplify_eq/=.
    + exfalso. assert (i ∈ untouched s) as Hu by (rewrite <- Hc; by left).
      apply elem_of_untouched in Hu. lia.
    + exists chain. split_and!; [done| |].
      * intros j Hj. apply Hlt. by right.
      * intros j a b Ha Hb. by apply (Hlk (S j) a b).
Qed.

Lemma pool_ok_length s free :
  pool_ok s free → Z.of_nat (length free) ≤ block_count (mp s) < 1073741824.
Proof.
  intros [[] Hnd Hr _ _ _ _]. split; [|nia]. apply NoDup_bounded_length; [lia|done..].
Qed.

(** The second half of [cplus_mempool_alloc], after the lazy initialisation. *)
Definition alloc_tail : C st Z :=
  m ← gets mp;
  addr ← (if 0 <? free_blocks_count m then
            modify (set_mp (set_free_count (u32 (free_blocks_count m - 1))));;
            m' ← gets mp;
            next ← (if 0 <? free_blocks_count m' then
                      i ← read32 (next_block m'); mret (index_to_addr m' i)
                    else mret 0);
            modify (set_mp (set_next next));;
            mret (next_block m)
          else modify (set_errno ENOMEM);; mret 0);
  MEMPOOL_SPIN_UNLOCK;;
  mret addr.

Lemma alloc_tail_pop s i l :
  pool_ok s (i :: l) → i < initialized_blocks_count (mp s) →
  alloc_tail s = Done (addr_of s i,
    set_mp (set_spinlock 0)
      (set_mp (set_next (match l with [] => 0 | j :: _ => addr_of s j end))
        (set_mp (set_free_count (free_blocks_count (mp s) - 1)) s))).
Proof.
  intros Hp Hk. pose proof (pool_ok_length _ _ Hp) as Hlen.
  pose proof Hp as [G Hnd Hr Hi (chain & Hc & Hlt & Hlk) Hn Hx].
  simpl length in *.
  unfold alloc_tail. crun. rewrite Hx.
  destruct (Z.ltb_spec 0 (free_blocks_count (mp s))); [|lia]. crun.
  rewrite (u32_small (free_blocks_count (mp s) - 1)) by lia.
  cbn [mp set_mp free_blocks_count set_free_count next_block].
  destruct l as [|j l]; simpl length in *.
  - rewrite Hn. change (0 <? Z.of_nat 1 - 1) with false. done.
  - destruct (Z.ltb_spec 0 (free_blocks_count (mp s) - 1)); [|lia]. crun.
    assert (chain !! 0%nat = Some i) as Hc0.
    { destruct chain as [|c chain]; simplify_eq/=; [|done].
      exfalso. assert (i ∈ untouched s) as Hu by (rewrite <- Hc; by left).
      apply elem_of_untouched in Hu. lia. }
    rewrite Hx. unfold read32.
    change (in_arena _ (addr_of s i)) with (in_arena s (addr_of s i)).
    rewrite addr_of_arena by (done || apply Hr; by left).
    change (mem _) with (mem s). rewrite (Hlk 0%nat i j) by done.
    change (index_to_addr _ j) with (index_to_addr (mp s) j).
    rewrite index_to_addr_of by (done || apply Hr; right; by left). done.
Qed.

Lemma alloc_pops_rep s i l :
  rep s (i :: l) →
  ∃ s', cplus_mempool_alloc s = Done (addr_of s i, s') ∧ rep s' l ∧ same_pool s s'
    ∧ errno s' = errno s ∧ frame s s' (i :: l).
Proof.
  intros Hrep. unfold cplus_mempool_alloc. rewrite (check_lock_ok s _ _ Hrep).
  destruct Hrep as [Hl Hp]. apply (pool_ok_spinlock 1) in Hp.
  destruct (initialize_one_ok _ _ Hp) as (k & m & E & Hp1 & Hf & Hik & _).
  rewrite (bind_Done _ _ _ _ _ E). specialize (Hik i l eq_refl).
  change (∃ s', alloc_tail (set_mp (set_initialized k) (set_mem m (set_mp (set_spinlock 1) s)))
    = Done (addr_of s i, s') ∧ rep s' l ∧ same_pool s s' ∧ errno s' = errno s
      ∧ frame s s' (i :: l)).
  rewrite (alloc_tail_pop _ i l) by done.
  eexists. split; [done|]. split; [split; [done|]|done].
  by apply pool_ok_spinlock, (pool_ok_pop _ i).
Qed.

(** allocation is a pop: the address of the first free block is returned,
    the remaining blocks keep their order, and no byte of a block that was
    handed out before is touched. *)
Theorem alloc_pops s i l :
  rep s (i :: l) →
  ∃ s', cplus_mempool_alloc s = Done (addr_of s i, s') ∧ rep s' l ∧ same_pool s s'
    ∧ errno s' = errno s ∧ frame s s' (i :: l).
Proof. apply alloc_pops_rep. Qed.

Lemma alloc_exhausted_rep s :
  rep s [] →
  ∃ s', cplus_mempool_alloc s = Done (0, s') ∧ rep s' [] ∧ same_pool s s'
    ∧ errno s' = ENOMEM ∧ mem s' = mem s.
Proof.
  intros Hrep. unfold cplus_mempool_alloc. rewrite (check_lock_ok s _ _ Hrep).
  destruct Hrep as [Hl Hp]. apply (pool_ok_spinlock 1) in Hp.
  destruct (initialize_one_ok _ _ Hp) as (k & m & E & Hp1 & Hf & _ & Hm).
  rewrite (bind_Done _ _ _ _ _ E). rewrite (Hm eq_refl) in *.
  pose proof (p_count _ _ Hp1) as Hn. simpl in Hn. crun. simpl. rewrite Hn.
  change (0 <? 0) with false. cbv iota.
  eexists. split; [done|]. split; [split; [done|]|done].
  by apply pool_ok_spinlock, pool_ok_errno.
Qed.

(** an exhausted pool refuses with a null pointer and [ENOMEM], and is not
    changed. *)
Theorem alloc_exhausted s :
  rep s [] →
  ∃ s', cplus_mempool_alloc s = Done (0, s') ∧ rep s' [] ∧ same_pool s s'
    ∧ errno s' = ENOMEM ∧ mem s' = mem s.
Proof. apply alloc_exhausted_rep. Qed.

Lemma free_pushes_rep s l i :
  rep s l → 0 ≤ i < block_count (mp s) → i ∉ l →
  ∃ s', cplus_mempool_free (addr_of s i) s = Done (CPLUS_SUCCESS, s')
    ∧ rep s' (i :: l) ∧ same_pool s s' ∧ errno s' = errno s ∧ frame s s' [i].
Proof.
  intros Hrep Hi Hil. unfold cplus_mempool_free.
  pose proof Hrep as [Hl Hp]. pose proof (pool_ok_length _ _ Hp) as Hlen.
  pose proof Hp as [G Hnd Hr Hin (chain & Hc & Hlt & Hlk) Hn Hx].
  pose proof (addr_of_nonnull s G i Hi).
  destruct (Z.eqb_spec (addr_of s i) 0); [lia|].
  rewrite (check_lock_ok s _ _ Hrep). crun. unfold write32.
  change (in_arena (set_mp _ _) (addr_of s i)) with (in_arena s (addr_of s i)).
  rewrite addr_of_arena by done.
  cbn [mp set_mp mem set_mem set_next set_spinlock free_blocks_count next_block block_count].
  set (v := if negb _ then _ else _).
  assert (∀ b, head l = Some b → v = b ∧ 0 ≤ b < 4294967296) as Hv.
  { intros b Hb. destruct l as [|b' l']; simplify_eq/=.
    assert (0 ≤ b < block_count (mp s)) by (apply Hr; by left).
    pose proof (addr_of_nonnull s G b).
    unfold v. rewrite Hx. destruct (Z.eqb_spec (addr_of s b) 0); [lia|]. simpl.
    change (addr_to_index _ _) with (addr_to_index (mp s) (addr_of s b)).
    rewrite addr_to_index_of by done. lia. }
  clearbody v. eexists. split; [done|]. split; [split; [done|]|split_and!; [done..|]].
  - constructor; [by destruct G; constructor|by constructor| |done| | |done].
    + intros j [->|Hj]%elem_of_cons; [done|by apply Hr].
    + exists (i :: chain). split; [simpl; by rewrite Hc at 1|]. split.
      * intros j [->|Hj]%elem_of_cons; [|by apply Hlt].
        destruct (decide (i < initialized_blocks_count (mp s))); [done|].
        exfalso. apply Hil. rewrite Hc. apply elem_of_app. right.
        apply elem_of_untouched. lia.
      * intros j a b Ha Hb.
        change (load32 (store32 (mem s) (addr_of s i) v) (addr_of s a) = b).
        destruct j as [|j]; simpl in Ha, Hb.
        -- injection Ha as <-. destruct (Hv b) as [-> ?]; [by destruct l|].
           by apply load32_store32_same.
        -- assert (a ≠ i).
           { intros ->. apply Hil. rewrite Hc. apply elem_of_app. left.
             by eapply list_elem_of_lookup_2. }
           pose proof (addr_of_apart s G i a ltac:(done)). destruct G.
           rewrite load32_store32_other by lia. by apply (Hlk j).
    + simpl. rewrite u32_small by lia. lia.
  - intros a Ha. apply store32_other. specialize (Ha i ltac:(by left)).
    unfold in_block in Ha. destruct G. lia.
Qed.

(** freeing a block that is handed out is a push: the block becomes the
    next one to be allocated, and only its own bytes are written. *)
Theorem free_pushes s l i :
  rep s l → 0 ≤ i < block_count (mp s) → i ∉ l →
  ∃ s', cplus_mempool_free (addr_of s i) s = Done (CPLUS_SUCCESS, s')
    ∧ rep s' (i :: l) ∧ same_pool s s' ∧ errno s' = errno s ∧ frame s s' [i].
Proof. apply free_pushes_rep. Qed.

(** ** Clients *)

Lemma client_write_safe_rep s l i a v :
  rep s l → 0 ≤ i < block_count (mp s) → i ∉ l → in_block s i a →
  rep (user_write a v s) l.
Proof.
  intros [Hl [G Hnd Hr Hin (chain & Hc & Hlt & Hlk) Hn Hx]] Hi Hil Ha.
  split; [done|]. constructor; [by destruct G; constructor|done..| |done|done].
  exists chain. split; [done|]. split; [done|]. intros j x b Hxj Hb.
  rewrite <- (Hlk j x b Hxj Hb). apply load32_ext. intros y Hy.
  change (addr_of _ x) with (addr_of s x) in Hy. simpl.
  destruct (Z.eqb_spec y a); [subst y|done]. exfalso.
  assert (x ≠ i).
  { intros ->. apply Hil. rewrite Hc. apply elem_of_app. left.
    by eapply list_elem_of_lookup_2. }
  pose proof (addr_of_apart s G i x ltac:(done)). unfold in_block in Ha.
  destruct G. lia.
Qed.

(** clients may write any byte of a block they hold without damaging the
    free list, which lives in the other blocks. *)
Theorem client_write_safe s l i a v :
  rep s l → 0 ≤ i < block_count (mp s) → i ∉ l → in_block s i a →
  rep (user_write a v s) l.
Proof. apply client_write_safe_rep. Qed.

(** What a client does with a pool, by block index. *)
Inductive command :=
| Alloc
| Free (i : Z)
| Write (i off v : Z).

(** The abstract pool: a stack of free indices.  A command that breaks the
    client's side of the contract (freeing or writing a block it does not
    hold) has no abstract behaviour. *)
Definition spec_step (n size : Z) (c : command) (l : list Z) : option (option Z * list Z) :=
  match c with
  | Alloc => match l with [] => Some (None, []) | i :: l' => Some (Some i, l') end
  | Free i =>
      if decide (0 ≤ i < n ∧ i ∉ l) then Some (Some 0, i :: l) else None
  | Write i off v =>
      if decide (0 ≤ i < n ∧ i ∉ l ∧ 0 ≤ off < size) then Some (None, l) else None
  end.

Fixpoint spec_run (n size : Z) (cs : list command) (l : list Z)
    : option (list (option Z) * list Z) :=
  match cs with
  | [] => Some ([], l)
  | c :: cs => '(o, l') ← spec_step n size c l;
               '(os, l'') ← spec_run n size cs l';
               Some (o :: os, l'')
  end.

(** The same commands on the implementation. *)
Definition impl_step (c : command) : C st Z :=
  match c with
  | Alloc => cplus_mempool_alloc
  | Free i => s ← gets (λ s, s); cplus_mempool_free (addr_of s i)
  | Write i off v => s ← gets (λ s, s); modify (user_write (addr_of s i + off) v);; mret 0
  end.

Fixpoint impl_run (cs : list command) : C st (list Z) :=
  match cs with
  | [] => mret []
  | c :: cs => o ← impl_step c; os ← impl_run cs; mret (o :: os)
  end.

(** The pointer (or status) the implementation returns for an abstract answer. *)
Definition answer (s : st) (c : command) (o : option Z) : Z :=
  match c, o with
  | Alloc, Some i => addr_of s i
  | Alloc, None => 0
  | Free _, _ => CPLUS_SUCCESS
  | Write _ _ _, _ => 0
  end.

Fixpoint answers (s : st) (cs : list command) (os : list (option Z)) : list Z :=
  match cs, os with
  | c :: cs, o :: os => answer s c o :: answers s cs os
  | _, _ => []
  end.

Lemma answers_same_pool s s' cs os :
  same_pool s s' → answers s' cs os = answers s cs os.
Proof.
  intros H. revert os. induction cs as [|c cs IH]; intros [|o os]; simpl; [done..|].
  rewrite IH. f_equal. destruct c, o; simpl; try done. by apply same_pool_addr.
Qed.

Lemma impl_step_refines s l c o l' :
  rep s l → spec_step (block_count (mp s)) (block_size (mp s)) c l = Some (o, l') →
  ∃ s', impl_step c s = Done (answer s c o, s') ∧ rep s' l' ∧ same_pool s s'.
Proof.
  intros Hrep Hs. destruct c as [|i|i off v]; simpl in *.
  - destruct l as [|i l]; simplify_eq/=.
    + destruct (alloc_exhausted_rep s Hrep) as (s' & ? & ? & ? & _). eauto.
    + destruct (alloc_pops_rep s i l' Hrep) as (s' & ? & ? & ? & _). eauto.
  - case_decide as Hd; simplify_eq/=. destruct Hd as [Hi Hil].
    destruct (free_pushes_rep s l i Hrep Hi Hil) as (s' & ? & ? & ? & _). eauto.
  - case_decide as Hd; simplify_eq/=. destruct Hd as (Hi & Hil & Hoff).
    eexists. split; [done|]. split; [|done].
    apply (client_write_safe_rep _ _ i); [done..|]. unfold in_block. lia.
Qed.

(** Whatever a client that respects the contract does, the pool answers like
    the stack of free indices, and ends in a state that represents it. *)
Lemma impl_run_refines s l cs os l' :
  rep s l → spec_run (block_count (mp s)) (block_size (mp s)) cs l = Some (os, l') →
  ∃ s', impl_run cs s = Done (answers s cs os, s') ∧ rep s' l'.
Proof.
  revert s l os. induction cs as [|c cs IH]; intros s l os Hrep Hs; simpl in *.
  - simplify_eq/=. by exists s.
  - destruct (spec_step _ _ c l) as [[o l1]|] eqn:E1; simplify_eq/=.
    destruct (spec_run _ _ cs l1) as [[os' l2]|] eqn:E2; simplify_eq/=.
    destruct (impl_step_refines s l c o l1 Hrep E1) as (s1 & Es & Hrep1 & Hsame).
    pose proof Hsame as (Hb & Hz & _). rewrite <- Hb, <- Hz in E2.
    destruct (IH s1 l1 os' Hrep1 E2) as (s2 & Er & Hrep2).
    exists s2. split; [|done].
    rewrite (bind_Done _ _ _ _ _ Es), (bind_Done _ _ _ _ _ Er).
    by rewrite (answers_same_pool _ _ _ _ Hsame).
Qed.

(** ** Construction and indices *)

Lemma mempool_new_rep arena bytes count size e :
  0 < arena → 0 < count → 4 ≤ size → count * size < 4294967296 →
  ∃ s, cplus_mempool_new true arena bytes count size e = (Some s, e)
    ∧ rep s (seqZ 0 count)
    ∧ block_count (mp s) = count ∧ block_size (mp s) = size ∧ mem_start (mp s) = arena.
Proof.
  intros Ha Hc Hs Hf. unfold cplus_mempool_new.
  destruct (Z.eqb_spec 0 count); [lia|]. destruct (Z.ltb_spec size 4); [lia|].
  unfold mempool_initialize_object. destruct (Z.eqb_spec arena 0); [lia|].
  eexists. split; [done|]. split; [|done]. split; [done|].
  constructor; simpl; [|apply NoDup_seqZ| | | | |].
  - constructor; simpl; try done. rewrite u32_small; lia.
  - intros i Hi%elem_of_seqZ. lia.
  - lia.
  - exists []. unfold untouched. simpl. rewrite Z.sub_0_r. split_and!; [done| |].
    + intros i Hi%elem_of_nil. done.
    + intros j a b Hj. done.
  - rewrite length_seqZ. lia.
  - rewrite seqZ_cons by lia. unfold addr_of. simpl. lia.
Qed.

(** C16: a new pool whose blocks fit in 32 bits behaves, from the indeterminate
    bytes [malloc] returns on, like the full stack of block indices: every run
    of commands a client may make is answered as the stack answers it. *)
Theorem new_pool_correct arena bytes count size e cs os l' :
  0 < arena → 0 < count → 4 ≤ size → count * size < 4294967296 →
  spec_run count size cs (seqZ 0 count) = Some (os, l') →
  ∃ s s', cplus_mempool_new true arena bytes count size e = (Some s, e)
    ∧ impl_run cs s = Done (answers s cs os, s') ∧ rep s' l'.
Proof.
  intros Ha Hc Hs Hf Hr.
  destruct (mempool_new_rep arena bytes count size e) as (s & En & Hrep & Eb & Ez & _);
    [done..|].
  rewrite <- Eb in Hr at 1. rewrite <- Ez in Hr.
  destruct (impl_run_refines s _ cs os l' Hrep Hr) as (s' & Er & Hrep'). eauto.
Qed.

(** indices and addresses are inverse to each other on the blocks of a pool,
    and neither conversion changes the pool. *)
Theorem index_roundtrip s l i :
  rep s l → 0 ≤ i < block_count (mp s) →
  cplus_mempool_get_addr_by_index i s = Done (addr_of s i, s)
  ∧ cplus_mempool_get_index (addr_of s i) s = Done (i, s).
Proof.
  intros Hrep Hi. pose proof Hrep as [Hl [G _ _ _ _ _ _]].
  assert (set_mp (set_spinlock Spinlock.SPIN_UNLOCK) (set_mp (set_spinlock 1) s) = s) as Es.
  { destruct s as [[]]. simpl in Hl. by subst. }
  split.
  - unfold cplus_mempool_get_addr_by_index. rewrite (check_lock_ok s _ _ Hrep).
    crun. change (index_to_addr _ i) with (index_to_addr (mp s) i).
    rewrite index_to_addr_of by done. unfold MEMPOOL_SPIN_UNLOCK. crun. by rewrite Es.
  - unfold cplus_mempool_get_index. pose proof (addr_of_nonnull s G i Hi).
    destruct (Z.eqb_spec (addr_of s i) 0); [lia|].
    rewrite (check_lock_ok s _ _ Hrep). unfold MEMPOOL_SPIN_UNLOCK. crun.
    change (addr_to_index _ (addr_of s i)) with (addr_to_index (mp s) (addr_of s i)).
    rewrite addr_to_index_of by done. by rewrite Es.
Qed.

(** the number of free blocks is the length of the free list. *)
Theorem free_blocks_count_correct s l :
  rep s l → cplus_mempool_get_free_blocks_count s = Done (Z.of_nat (length l), s).
Proof.
  intros Hrep. unfold cplus_mempool_get_free_blocks_count.
  rewrite (check_lock_ok s _ _ Hrep). destruct Hrep as [Hl Hp].
  unfold MEMPOOL_SPIN_UNLOCK. crun. simpl. rewrite (p_count _ _ Hp).
  destruct s as [[]]. simpl in Hl. by subst.
Qed.

(** ** The pool as a source of blocks for other components *)

Definition pool_live (s : st) (live : gset Z) : Prop :=
  ∃ free, rep s free ∧
    ∀ p, p ∈ live ↔ ∃ i, 0 ≤ i < block_count (mp s) ∧ i ∉ free ∧ p = addr_of s i.

Definition pool_release (p : Z) (s : st) : outcome st :=
  match cplus_mempool_free p s with
  | Done (_, s') => Done s'
  | Aborts => Aborts | Hangs => Hangs | Undefined => Undefined
  end.

Lemma pool_new_spec s live :
  pool_live s live →
  ∃ p s', cplus_mempool_alloc s = Done (p, s') ∧
    ((p = 0 ∧ pool_live s' live) ∨
     (p ≠ 0 ∧ p ∉ live ∧ pool_live s' ({[p]} ∪ live))).
Proof.
  intros (free & Hrep & Hlive). pose proof Hrep as [_ [G Hnd Hr _ _ _ _]].
  destruct free as [|i free].
  - destruct (alloc_exhausted_rep s Hrep) as (s' & E & Hrep' & Hsame & _).
    exists 0, s'. split; [done|]. left. split; [done|]. exists []. split; [done|].
    intros p. rewrite Hlive. pose proof Hsame as (-> & _).
    by setoid_rewrite (same_pool_addr _ _ _ Hsame).
  - destruct (alloc_pops_rep s i free Hrep) as (s' & E & Hrep' & Hsame & _).
    assert (0 ≤ i < block_count (mp s)) as Hi by (apply Hr; by left).
    pose proof (addr_of_nonnull s G i Hi). apply NoDup_cons in Hnd as [Hif _].
    exists (addr_of s i), s'. split; [done|]. right. split; [lia|]. split.
    + intros (j & _ & Hj & Ej)%Hlive. apply (addr_of_inj s G) in Ej as ->.
      apply Hj. by left.
    + exists free. split; [done|]. intros p. pose proof Hsame as (-> & _).
      setoid_rewrite (same_pool_addr _ _ _ Hsame).
      rewrite elem_of_union, elem_of_singleton, Hlive. split.
      * intros [-> | (j & ? & Hj & ->)]; [by eauto|].
        exists j. rewrite not_elem_of_cons in Hj. naive_solver.
      * intros (j & ? & Hj & ->). destruct (decide (j = i)) as [->|]; [by left|].
        right. exists j. rewrite not_elem_of_cons. naive_solver.
Qed.

Lemma pool_release_spec s live p :
  pool_live s live → p ∈ live →
  ∃ s', pool_release p s = Done s' ∧ pool_live s' (live ∖ {[p]}).
Proof.
  intros (free & Hrep & Hlive) (i & Hi & Hif & ->)%Hlive.
  pose proof Hrep as [_ [G _ _ _ _ _ _]].
  destruct (free_pushes_rep s free i Hrep Hi Hif) as (s' & E & Hrep' & Hsame & _).
  exists s'. split; [unfold pool_release; by rewrite E|]. exists (i :: free).
  split; [done|]. intros p. pose proof Hsame as (-> & _).
  setoid_rewrite (same_pool_addr _ _ _ Hsame).
  rewrite elem_of_difference, elem_of_singleton, Hlive. split.
  - intros [(j & ? & Hj & ->) Hne]. exists j. rewrite not_elem_of_cons.
    split_and!; try done; [lia|lia|]. by intros ->.
  - intros (j & ? & Hj & ->). rewrite not_elem_of_cons in Hj.
    split; [naive_solver|]. intros Ej%(addr_of_inj s G). naive_solver.
Qed.

Lemma pool_nonnull s live : pool_live s live → 0 ∉ live.
Proof.
  intros (free & [_ [G _ _ _ _ _ _]] & Hlive) (i & Hi & _ & E)%Hlive.
  pose proof (addr_of_nonnull s G i Hi). lia.
Qed.

#[export] Instance pool_allocator : Allocator st := {|
  al_new := cplus_mempool_alloc;
  al_release := pool_release;
  al_ok := pool_live;
  al_new_spec := pool_new_spec;
  al_release_spec := pool_release_spec;
  al_nonnull := pool_nonnull |}.

(** ** Behaviour outside the contract *)

(** A fresh pool of [count] blocks of [size] bytes at address 4096. *)
Definition sample (count size : Z) : st :=
  default (mkSt (mkPool 0 0 0 0 0 0 0 false 0) (λ _, 0) 0 0)
    (fst (cplus_mempool_new true 4096 (λ _, 0) count size 0)).

(** Code bug: [block_count * block_size] wraps in 32 bits and is not
    checked: a pool of 65536 blocks of 65536 bytes is created on an allocation
    of 0 bytes, reports 65536 free blocks, and the first allocation writes
    outside it. *)
Theorem oversized_pool_overruns :
  ∃ s, cplus_mempool_new true 4096 (λ _, 0) 65536 65536 0 = (Some s, 0)
    ∧ mem_size s = 0
    ∧ cplus_mempool_get_free_blocks_count s = Done (65536, s)
    ∧ cplus_mempool_alloc s = Undefined.
Proof. by exists (sample 65536 65536). Qed.

(** Code bug: a block freed twice, as [ipc_server_delete] frees its
    connections, is handed out twice: two later allocations return the same
    address. *)
Theorem double_free_duplicates :
  value_of ((a ← cplus_mempool_alloc; cplus_mempool_free a;; cplus_mempool_free a;;
             p1 ← cplus_mempool_alloc; p2 ← cplus_mempool_alloc;
             mret (p1, p2)) (sample 4 16)) = Done (4096, 4096).
Proof. by vm_compute. Qed.

(**  (code bug): [cplus_mempool_alloc_as_index] answers 0 both for the first
    block and for an exhausted pool. *)
Theorem alloc_as_index_ambiguous :
  value_of ((i1 ← cplus_mempool_alloc_as_index; e1 ← gets errno;
             i2 ← cplus_mempool_alloc_as_index; e2 ← gets errno;
             mret (i1, e1, i2, e2)) (sample 1 16)) = Done (0, 0, 0, ENOMEM).
Proof. by vm_compute. Qed.

(** ** Witnesses *)

Lemma sample_rep count size :
  0 < count → 4 ≤ size → count * size < 4294967296 →
  rep (sample count size) (seqZ 0 count).
Proof.
  intros. destruct (mempool_new_rep 4096 (λ _, 0) count size 0) as (s & E & Hrep & _);
    [lia..|]. unfold sample. by rewrite E.
Qed.

Lemma alloc_pops_witness :
  ∃ s', cplus_mempool_alloc (sample 4 16) = Done (addr_of (sample 4 16) 0, s')
    ∧ rep s' [1; 2; 3] ∧ same_pool (sample 4 16) s'
    ∧ errno s' = errno (sample 4 16) ∧ frame (sample 4 16) s' [0; 1; 2; 3].
Proof. apply (alloc_pops (sample 4 16) 0 [1; 2; 3]). by apply sample_rep. Defined.

(** The pool of one block after its block was taken. *)
Definition emptied : st := state_of (sample 1 16) (cplus_mempool_alloc (sample 1 16)).

Lemma emptied_rep : rep emptied [].
Proof.
  destruct (alloc_pops_rep (sample 1 16) 0 []) as (s & E & Hrep & _);
    [by apply sample_rep|]. unfold emptied. by rewrite E.
Qed.

Lemma alloc_exhausted_witness :
  ∃ s', cplus_mempool_alloc emptied = Done (0, s') ∧ rep s' [] ∧ same_pool emptied s'
    ∧ errno s' = ENOMEM ∧ mem s' = mem emptied.
Proof. apply (alloc_exhausted emptied). apply emptied_rep. Defined.

Lemma free_pushes_witness :
  ∃ s', cplus_mempool_free (addr_of emptied 0) emptied = Done (CPLUS_SUCCESS, s')
    ∧ rep s' [0] ∧ same_pool emptied s' ∧ errno s' = errno emptied ∧ frame emptied s' [0].
Proof.
  apply (free_pushes emptied [] 0); [apply emptied_rep|vm_compute; split; congruence|].
  apply not_elem_of_nil.
Defined.

Lemma client_write_safe_witness : rep (user_write 4100 255 emptied) [].
Proof.
  apply (client_write_safe emptied [] 0 4100 255);
    [apply emptied_rep|vm_compute; split; congruence|apply not_elem_of_nil|].
  vm_compute. split; congruence.
Defined.

Lemma new_pool_correct_witness :
  ∃ s s', cplus_mempool_new true 4096 (λ a, a `mod` 256) 2 8 0 = (Some s, 0)
    ∧ impl_run [Alloc; Write 0 3 7; Alloc; Alloc; Free 0; Alloc] s
      = Done (answers s [Alloc; Write 0 3 7; Alloc; Alloc; Free 0; Alloc]
                [Some 0; None; Some 1; None; Some 0; Some 0], s') ∧ rep s' [].
Proof. apply (new_pool_correct 4096 (λ a, a `mod` 256) 2 8 0); [lia..|reflexivity]. Defined.

Lemma index_roundtrip_witness :
  cplus_mempool_get_addr_by_index 2 (sample 4 16)
    = Done (addr_of (sample 4 16) 2, sample 4 16)
  ∧ cplus_mempool_get_index (addr_of (sample 4 16) 2) (sample 4 16)
    = Done (2, sample 4 16).
Proof.
  apply (index_roundtrip (sample 4 16) [0; 1; 2; 3] 2);
    [by apply (sample_rep 4 16)|vm_compute; split; congruence].
Defined.

Lemma free_blocks_count_correct_witness :
  cplus_mempool_get_free_blocks_count (sample 4 16)
  = Done (Z.of_nat (length [0; 1; 2; 3]), sample 4 16).
Proof. apply (free_blocks_count_correct (sample 4 16)). by apply (sample_rep 4 16). Defined.

End Mempool.
