(* ===== verification/Locks.v ===== *)
(** * Locks: reader-writer locks, mutexes and the lock entry points

    [src/rwlock.c] and [src/mutex.c] wrap the POSIX locks; [src/cplus.c] gives
    the other objects one set of entry points that dispatches on the type of the
    lock, or does nothing when there is none.  The POSIX objects are modelled
    by who holds them; a call that has to wait for another thread, or for the
    calling thread itself, does not return. *)

From S2P Require Import Prelude.
From stdpp Require Import base numbers list option.
From Stdlib Require Import ZArith Lia.
Open Scope Z_scope.

(** ** The POSIX objects *)
Module Pthread.

(** How a call waits: for ever, not at all, or until a deadline. *)
Inductive wait := Forever | Try | Timed.

(** [pthread_rwlock_t]: the writer and the readers (a thread that took the lock
    twice is listed twice). *)
Record rw := Rw { writer : option nat; readers : list nat }.
Definition rw_idle : rw := Rw None [].

(** What a call that cannot have the lock answers: [try] calls give up, timed
    calls do when the deadline passes. *)
Definition refuse {S} (w : wait) (s : S) : outcome (Z * S) :=
  match w with Forever => Hangs | Try => Done (EBUSY, s) | Timed => Done (ETIMEDOUT, s) end.

(** The thread that holds the lock for writing is told so, except by the [try]
    calls. *)
Definition rw_rdlock (me : nat) (w : wait) (l : rw) : outcome (Z * rw) :=
  match writer l with
  | None => Done (0, Rw None (me :: readers l))
  | Some o =>
      match w with
      | Try => Done (EBUSY, l)
      | _ => if decide (o = me) then Done (EDEADLK, l) else refuse w l
      end
  end.

Definition rw_wrlock (me : nat) (w : wait) (l : rw) : outcome (Z * rw) :=
  match writer l, readers l with
  | None, [] => Done (0, Rw (Some me) [])
  | Some o, _ =>
      match w with
      | Try => Done (EBUSY, l)
      | _ => if decide (o = me) then Done (EDEADLK, l) else refuse w l
      end
  | None, _ :: _ => refuse w l
  end.

(** Unlocking a lock the thread does not hold is undefined. *)
Definition rw_unlock (me : nat) (l : rw) : outcome (Z * rw) :=
  match writer l with
  | Some o => if decide (o = me) then Done (0, Rw None (readers l)) else Undefined
  | None =>
      match list_find (λ t, t = me) (readers l) with
      | Some (i, _) => Done (0, Rw None (delete i (readers l)))
      | None => Undefined
      end
  end.

(** A default [pthread_mutex_t]: its owner. *)
Definition mutex := option nat.
Definition mutex_lock (me : nat) (w : wait) (m : mutex) : outcome (Z * mutex) :=
  match m with None => Done (0, Some me) | Some _ => refuse w m end.
Definition mutex_unlock (me : nat) (m : mutex) : outcome (Z * mutex) :=
  match m with
  | Some o => if decide (o = me) then Done (0, None) else Undefined
  | None => Undefined
  end.

(** The wait the sources choose for a timeout in milliseconds. *)
Definition wait_of (timeout : Z) : wait :=
  if CPLUS_INFINITE_TIMEOUT =? timeout then Forever
  else if 0 =? timeout then Try else Timed.

End Pthread.
Import Pthread.

(** ** src/rwlock.c *)
Module Rwlock.

Definition OBJ_TYPE : Z := OBJ_NONE + CTRL + 1.

Record rwlock := mkRwlock {
  type : Z;
  lock : rw;
  st_locked : bool;
  count_rdlocked : Z }.

Definition st : Type := rwlock * Z.

Definition set_lock (l : rw) (r : rwlock) : rwlock :=
  mkRwlock (type r) l (st_locked r) (count_rdlocked r).
Definition set_st_locked (b : bool) (r : rwlock) : rwlock :=
  mkRwlock (type r) (lock r) b (count_rdlocked r).
Definition set_count (n : Z) (r : rwlock) : rwlock :=
  mkRwlock (type r) (lock r) (st_locked r) n.

(** Calls of the POSIX lock inside the object. *)
Definition posix (f : rw → outcome (Z * rw)) : C st Z := λ s,
  match f (lock s.1) with
  | Done (r, l) => Done (r, (set_lock l s.1, s.2))
  | Aborts => Aborts | Hangs => Hangs | Undefined => Undefined
  end.
Definition upd (f : rwlock → rwlock) : C st unit := modify (λ s, (f s.1, s.2)).
Definition set_errno (e : Z) : C st unit := modify (λ s, (s.1, e)).

Definition CHECK_OBJECT_TYPE : C st unit :=
  r ← gets fst; assert_c (type r =? OBJ_TYPE).

Definition cplus_rwlock_unlock (me : nat) : C st Z :=
  CHECK_OBJECT_TYPE;;
  r ← gets fst;
  if st_locked r then
    res ← posix (rw_unlock me);
    if 0 =? res then
      (if 0 =? count_rdlocked r then upd (set_st_locked false)
       else
         upd (set_count (u32 (count_rdlocked r - 1)));;
         if 0 =? u32 (count_rdlocked r - 1) then upd (set_st_locked false) else mret tt);;
      mret CPLUS_SUCCESS
    else mret res
  else mret CPLUS_FAIL.

Definition cplus_rwlock_wrlock (me : nat) (timeout : Z) : C st Z :=
  CHECK_OBJECT_TYPE;;
  res ← posix (rw_wrlock me (wait_of timeout));
  if negb (0 =? res) then set_errno res;; mret CPLUS_FAIL
  else upd (set_st_locked true);; mret CPLUS_SUCCESS.

Definition cplus_rwlock_rdlock (me : nat) (timeout : Z) : C st Z :=
  CHECK_OBJECT_TYPE;;
  res ← posix (rw_rdlock me (wait_of timeout));
  if negb (0 =? res) then set_errno res;; mret CPLUS_FAIL
  else
    upd (set_st_locked true);;
    upd (λ r, set_count (u32 (count_rdlocked r + 1)) r);;
    mret CPLUS_SUCCESS.

(** [cplus_rwlock_new], that is [rwlock_initialize_object] with an empty
    configuration: without memory the failure path calls [cplus_rwlock_delete]
    on the null pointer, whose assertion fails. *)
Definition cplus_rwlock_new (object_ok init_ok : bool) : outcome (option rwlock) :=
  if object_ok then
    Done (if init_ok then Some (mkRwlock OBJ_TYPE rw_idle false 0) else None)
  else Aborts.

Definition cplus_rwlock_check (obj : option Z) : bool :=
  match obj with Some t => t =? OBJ_TYPE | None => false end.

(** *** What the counters mean

    The object says how often one thread has entered it: not at all, for
    writing, or [n] times for reading. *)
Inductive entered := Free | Writing | Reading (n : nat).

Definition holds (me : nat) (r : rwlock) (e : entered) : Prop :=
  type r = OBJ_TYPE ∧
  match e with
  | Free => lock r = rw_idle ∧ st_locked r = false ∧ count_rdlocked r = 0
  | Writing => lock r = Rw (Some me) [] ∧ st_locked r = true ∧ count_rdlocked r = 0
  | Reading n =>
      (0 < n)%nat ∧ Z.of_nat n ≤ UINT32_MAX ∧ lock r = Rw None (repeat me n)
      ∧ st_locked r = true ∧ count_rdlocked r = Z.of_nat n
  end.

(** The calls of one thread, without a deadline, as transitions of [entered]. *)
Inductive call := Rd | Wr | Un.
Definition run_call (me : nat) (c : call) : C st Z :=
  match c with
  | Rd => cplus_rwlock_rdlock me CPLUS_INFINITE_TIMEOUT
  | Wr => cplus_rwlock_wrlock me CPLUS_INFINITE_TIMEOUT
  | Un => cplus_rwlock_unlock me
  end.

(** [None]: the thread waits for itself for ever. *)
Definition transition (c : call) (e : entered) : option (Z * entered) :=
  match c, e with
  | Rd, Free => Some (CPLUS_SUCCESS, Reading 1)
  | Rd, Reading n => Some (CPLUS_SUCCESS, Reading (S n))
  | Rd, Writing => Some (CPLUS_FAIL, Writing)
  | Wr, Free => Some (CPLUS_SUCCESS, Writing)
  | Wr, Writing => Some (CPLUS_FAIL, Writing)
  | Wr, Reading _ => None
  | Un, Free => Some (CPLUS_FAIL, Free)
  | Un, Writing => Some (CPLUS_SUCCESS, Free)
  | Un, Reading 1 => Some (CPLUS_SUCCESS, Free)
  | Un, Reading n => Some (CPLUS_SUCCESS, Reading (pred n))
  end.

Definition small (e : entered) : Prop :=
  match e with Reading n => Z.of_nat n < UINT32_MAX | _ => True end.

Lemma find_me (me n : nat) :
  list_find (λ t, t = me) (repeat me (S n)) = Some (0%nat, me).
Proof. simpl. by rewrite decide_True. Qed.

Lemma decide_same (me : nat) {A} (x y : A) : (if decide (me = me) then x else y) = x.
Proof. by rewrite decide_True. Qed.

(** Run one call on a known state. *)
Ltac run_lock :=
  unfold run_call, cplus_rwlock_rdlock, cplus_rwlock_wrlock, cplus_rwlock_unlock,
    CHECK_OBJECT_TYPE, set_errno, upd, posix, rw_rdlock, rw_wrlock, rw_unlock;
  change (wait_of CPLUS_INFINITE_TIMEOUT) with Forever;
  change (OBJ_TYPE =? OBJ_TYPE) with true; change (negb (0 =? EDEADLK)) with true; crun;
  repeat (progress (cbv beta iota zeta delta [fst snd type lock st_locked count_rdlocked
    writer readers set_lock set_st_locked set_count];
    change (OBJ_TYPE =? OBJ_TYPE) with true; change (0 =? 0) with true; change (0 =? EDEADLK) with false; cbn [negb];
    rewrite ?decide_same, ?find_me)).

Lemma unlock_reading me n errno :
  Z.of_nat (S n) ≤ UINT32_MAX →
  cplus_rwlock_unlock me
    (mkRwlock OBJ_TYPE (Rw None (repeat me (S n))) true (Z.of_nat (S n)), errno)
  = Done (CPLUS_SUCCESS,
      (mkRwlock OBJ_TYPE (Rw None (repeat me n)) (negb (Nat.eqb n 0)) (Z.of_nat n), errno)).
Proof.
  unfold UINT32_MAX. intros Hn. run_lock. cbn [negb].
  assert (u32 (Z.of_nat (S n) - 1) = Z.of_nat n) as -> by (rewrite u32_small; lia).
  destruct (Z.eqb_spec 0 (Z.of_nat (S n))); [lia|].
  destruct n as [|n]; [done|].
  destruct (Z.eqb_spec 0 (Z.of_nat (S n))); [lia|]. done.
Qed.

(** A finished call whose result is known. *)
Ltac answer :=
  do 2 eexists; (split; [reflexivity|]); (split; [split; [reflexivity|]; cbn|by auto]);
  split_and!; (reflexivity || unfold UINT32_MAX in *; lia).

(** the lock object follows the reader-writer automaton of one thread: reads
    nest, a second write is refused, and only a write inside a read waits for
    itself. *)
Theorem rwlock_automaton me c r errno e :
  holds me r e → small e →
  match transition c e with
  | Some (res, e') =>
      ∃ r' errno', run_call me c (r, errno) = Done (res, (r', errno'))
        ∧ holds me r' e'
        ∧ (errno' = errno ∨ res = CPLUS_FAIL ∧ errno' = EDEADLK)
  | None => run_call me c (r, errno) = Hangs
  end.
Proof.
  intros [Ht He] Hs. destruct r as [t l b k]. cbn in Ht, He. subst t.
  destruct c, e as [| |[|n]]; cbn in He; destruct_and?; subst; try lia; cbn [transition].
  - run_lock. answer.
  - run_lock. answer.
  - run_lock. cbn in Hs. rewrite u32_small by (unfold UINT32_MAX in *; lia). answer.
  - run_lock. answer.
  - run_lock. answer.
  - run_lock. done.
  - run_lock. answer.
  - run_lock. answer.
  - pose proof (unlock_reading me n errno) as E. unfold run_call.
    destruct n as [|n]; do 2 eexists; (split; [by apply E|]); (split; [|by left]);
      (split; [done|]); cbn; split_and!; (reflexivity || lia).
Qed.

(** *** Readers on several threads

    [lock->count_rdlocked += 1] is a load and a store outside the POSIX lock, and
    readers run it together.  [rd_enter], [rd_load] and [rd_store] are the parts
    of [cplus_rwlock_rdlock]. *)
Definition rd_enter (me : nat) (timeout : Z) : C st Z :=
  CHECK_OBJECT_TYPE;; posix (rw_rdlock me (wait_of timeout)).
Definition rd_load : C st Z := upd (set_st_locked true);; gets (count_rdlocked ∘ fst).
Definition rd_store (c : Z) : C st unit := upd (set_count (u32 (c + 1))).

Definition rdlock_in_steps (me : nat) (timeout : Z) : C st Z :=
  res ← rd_enter me timeout;
  if negb (0 =? res) then set_errno res;; mret CPLUS_FAIL
  else c ← rd_load; rd_store c;; mret CPLUS_SUCCESS.

Lemma rdlock_steps me timeout s :
  rdlock_in_steps me timeout s = cplus_rwlock_rdlock me timeout s.
Proof.
  unfold rdlock_in_steps, cplus_rwlock_rdlock, rd_enter, rd_load, rd_store,
    CHECK_OBJECT_TYPE, upd, set_errno. crun.
  destruct (type s.1 =? OBJ_TYPE); [|done].
  destruct (posix _ s) as [[res s']| | |]; [|done..]. by destruct (negb (0 =? res)).
Qed.

(** Two readers whose increments overlap, and what their unlocks answer. *)
Definition overlapping_readers : C st (Z * Z * Z * Z) :=
  r1 ← rd_enter 1 CPLUS_INFINITE_TIMEOUT;
  r2 ← rd_enter 2 CPLUS_INFINITE_TIMEOUT;
  c1 ← rd_load; c2 ← rd_load; rd_store c1;; rd_store c2;;
  u1 ← cplus_rwlock_unlock 1;
  u2 ← cplus_rwlock_unlock 2;
  mret (r1, r2, u1, u2).

Definition fresh_lock : rwlock := mkRwlock OBJ_TYPE rw_idle false 0.

(** Code bug: when two readers enter together one increment can be lost; the
    first unlock then clears [st_locked], the second one is refused, and the lock
    stays held for reading: no writer ever enters again. *)
Theorem lost_reader_blocks_writers :
  ∃ s, overlapping_readers (fresh_lock, 0)
       = Done ((0, 0, CPLUS_SUCCESS, CPLUS_FAIL), s)
    ∧ (∀ me, cplus_rwlock_wrlock me CPLUS_INFINITE_TIMEOUT s = Hangs)
    ∧ (∀ me, cplus_rwlock_unlock me s = Done (CPLUS_FAIL, s)).
Proof.
  exists (state_of (fresh_lock, 0) (overlapping_readers (fresh_lock, 0))).
  split; [by vm_compute|]. by split; intros me; vm_compute.
Qed.

Lemma rwlock_automaton_witness :
  ∃ r' errno', run_call 7 Un (mkRwlock OBJ_TYPE (Rw None [7; 7]%nat) true 2, 0)
      = Done (CPLUS_SUCCESS, (r', errno'))
    ∧ holds 7 r' (Reading 1) ∧ (errno' = 0 ∨ CPLUS_SUCCESS = CPLUS_FAIL ∧ errno' = EDEADLK).
Proof.
  apply (rwlock_automaton 7 Un (mkRwlock OBJ_TYPE (Rw None [7; 7]%nat) true 2) 0 (Reading 2)).
  - split; [done|]. unfold UINT32_MAX. cbn. split_and!; (done || lia).
  - unfold small, UINT32_MAX. lia.
Defined.

End Rwlock.

(** ** src/mutex.c *)
Module Mutex.

Definition OBJ_TYPE : Z := OBJ_NONE + CTRL + 3.

Record mutex := mkMutex { type : Z; lock : Pthread.mutex }.

Definition st : Type := mutex * Z.

Definition posix (f : Pthread.mutex → outcome (Z * Pthread.mutex)) : C st Z := λ s,
  match f (lock s.1) with
  | Done (r, l) => Done (r, (mkMutex (type s.1) l, s.2))
  | Aborts => Aborts | Hangs => Hangs | Undefined => Undefined
  end.
Definition set_errno (e : Z) : C st unit := modify (λ s, (s.1, e)).

Definition CHECK_OBJECT_TYPE : C st unit :=
  m ← gets fst; assert_c (type m =? OBJ_TYPE).

Definition cplus_crit_sect_enter (me : nat) : C st Z :=
  r ← posix (mutex_lock me Forever);
  set_errno r;;
  mret (if negb (0 =? r) then CPLUS_FAIL else CPLUS_SUCCESS).

Definition cplus_crit_sect_exit (me : nat) : C st Z :=
  posix (mutex_unlock me);; mret CPLUS_SUCCESS.

Definition cplus_mutex_lock (me : nat) (timeout : Z) : C st Z :=
  CHECK_OBJECT_TYPE;;
  res ← posix (mutex_lock me (wait_of timeout));
  if negb (0 =? res) then set_errno res;; mret CPLUS_FAIL else mret res.

Definition cplus_mutex_unlock (me : nat) : C st Z :=
  CHECK_OBJECT_TYPE;; posix (mutex_unlock me).

(** [cplus_mutex_new], that is [mutex_initialize_object] without a name. *)
Definition cplus_mutex_new (object_ok init_ok : bool) : outcome (option mutex) :=
  if object_ok then
    Done (if init_ok then Some (mkMutex OBJ_TYPE None) else None)
  else Done None.

Definition cplus_mutex_check (obj : option Z) : bool :=
  match obj with Some t => t =? OBJ_TYPE | None => false end.

Lemma mutex_lock_behaviour_lemma me l errno timeout :
  cplus_mutex_lock me timeout (mkMutex OBJ_TYPE l, errno) =
    match l, wait_of timeout with
    | None, _ => Done (CPLUS_SUCCESS, (mkMutex OBJ_TYPE (Some me), errno))
    | Some _, Forever => Hangs
    | Some _, Try => Done (CPLUS_FAIL, (mkMutex OBJ_TYPE l, EBUSY))
    | Some _, Timed => Done (CPLUS_FAIL, (mkMutex OBJ_TYPE l, ETIMEDOUT))
    end
  ∧ cplus_mutex_unlock me (mkMutex OBJ_TYPE (Some me), errno)
    = Done (0, (mkMutex OBJ_TYPE None, errno)).
Proof.
  split.
  - unfold cplus_mutex_lock, mutex_lock. destruct l as [o|]; [|done].
    by destruct (wait_of timeout).
  - unfold cplus_mutex_unlock, CHECK_OBJECT_TYPE, posix, mutex_unlock. crun. cbn.
    change (OBJ_TYPE =? OBJ_TYPE) with true. cbn. by rewrite decide_True.
Qed.

(** a mutex is entered when it is free, and only then: a held one makes an
    unlimited wait hang, a try fail with [EBUSY] and a timed wait with
    [ETIMEDOUT], none of which changes it; leaving it frees it. *)
Theorem mutex_lock_behaviour me l errno timeout :
  cplus_mutex_lock me timeout (mkMutex OBJ_TYPE l, errno) =
    match l, wait_of timeout with
    | None, _ => Done (CPLUS_SUCCESS, (mkMutex OBJ_TYPE (Some me), errno))
    | Some _, Forever => Hangs
    | Some _, Try => Done (CPLUS_FAIL, (mkMutex OBJ_TYPE l, EBUSY))
    | Some _, Timed => Done (CPLUS_FAIL, (mkMutex OBJ_TYPE l, ETIMEDOUT))
    end
  ∧ cplus_mutex_unlock me (mkMutex OBJ_TYPE (Some me), errno)
    = Done (0, (mkMutex OBJ_TYPE None, errno)).
Proof. apply mutex_lock_behaviour_lemma. Qed.

End Mutex.

(** ** The lock entry points of src/cplus.c *)
Module Lock.

Inductive lockable :=
| NoLock
| ARwlock (r : Rwlock.rwlock)
| AMutex (m : Mutex.mutex).

Definition st : Type := lockable * Z.

Definition on_rwlock (r : Rwlock.rwlock) (f : C Rwlock.st Z) : C st Z := λ s,
  match f (r, s.2) with
  | Done (x, (r', e)) => Done (x, (ARwlock r', e))
  | Aborts => Aborts | Hangs => Hangs | Undefined => Undefined
  end.
Definition on_mutex (m : Mutex.mutex) (f : C Mutex.st Z) : C st Z := λ s,
  match f (m, s.2) with
  | Done (x, (m', e)) => Done (x, (AMutex m', e))
  | Aborts => Aborts | Hangs => Hangs | Undefined => Undefined
  end.

(** [GET_OBJECT_TYPE]. *)
Definition tag_of (l : lockable) : option Z :=
  match l with
  | NoLock => None
  | ARwlock r => Some (Rwlock.type r)
  | AMutex m => Some (Mutex.type m)
  end.

Definition dispatch (rw : C Rwlock.st Z) (mx : C Mutex.st Z) : C st Z :=
  l ← gets fst;
  match l with
  | ARwlock r => if Rwlock.cplus_rwlock_check (tag_of l) then on_rwlock r rw
                 else mret CPLUS_SUCCESS
  | AMutex m => if Mutex.cplus_mutex_check (tag_of l) then on_mutex m mx
                else mret CPLUS_SUCCESS
  | NoLock => mret CPLUS_SUCCESS
  end.

Definition cplus_lock_shlock (me : nat) (timeout : Z) : C st Z :=
  dispatch (Rwlock.cplus_rwlock_rdlock me timeout) (Mutex.cplus_mutex_lock me timeout).
Definition cplus_lock_exlock (me : nat) (timeout : Z) : C st Z :=
  dispatch (Rwlock.cplus_rwlock_wrlock me timeout) (Mutex.cplus_mutex_lock me timeout).
Definition cplus_lock_unlock (me : nat) : C st Z :=
  dispatch (Rwlock.cplus_rwlock_unlock me) (Mutex.cplus_mutex_unlock me).

(** A lock nobody holds, or no lock. *)
Definition idle (l : lockable) : Prop :=
  match l with
  | NoLock => True
  | ARwlock r => r = Rwlock.fresh_lock
  | AMutex m => m = Mutex.mkMutex Mutex.OBJ_TYPE None
  end.

Definition lock_mode := bool.
Definition cplus_lock (exclusive : lock_mode) (me : nat) (timeout : Z) : C st Z :=
  if exclusive then cplus_lock_exlock me timeout else cplus_lock_shlock me timeout.

Lemma lock_unlock x me timeout l errno :
  idle l →
  ∃ h, cplus_lock x me timeout (l, errno) = Done (CPLUS_SUCCESS, (h, errno))
    ∧ ∀ e, cplus_lock_unlock me (h, e) = Done (CPLUS_SUCCESS, (l, e)).
Proof.
  intros Hl. destruct l as [|r|m]; simpl in Hl; subst.
  - exists NoLock. by destruct x.
  - destruct x.
    + exists (ARwlock (Rwlock.mkRwlock Rwlock.OBJ_TYPE (Rw (Some me) []) true 0)).
      split; [done|]. intros e. unfold cplus_lock_unlock, dispatch, on_rwlock. crun. cbn [fst snd].
      change (Rwlock.cplus_rwlock_check _) with true. cbv beta iota.
      unfold Rwlock.cplus_rwlock_unlock, Rwlock.posix, rw_unlock, Rwlock.CHECK_OBJECT_TYPE.
      crun. cbn. change (Rwlock.OBJ_TYPE =? Rwlock.OBJ_TYPE) with true. cbn.
      by rewrite decide_True.
    + exists (ARwlock (Rwlock.mkRwlock Rwlock.OBJ_TYPE (Rw None [me]) true 1)).
      split; [done|]. intros e. unfold cplus_lock_unlock, dispatch, on_rwlock. crun. cbn [fst snd].
      change (Rwlock.cplus_rwlock_check _) with true. cbv beta iota.
      change [me] with (repeat me 1). change 1 with (Z.of_nat 1).
      by rewrite Rwlock.unlock_reading.
  - exists (AMutex (Mutex.mkMutex Mutex.OBJ_TYPE (Some me))).
    split; [by destruct x|]. intros e. unfold cplus_lock_unlock, dispatch, on_mutex. crun. cbn [fst snd].
    change (Mutex.cplus_mutex_check _) with true. cbv beta iota zeta delta [snd].
    destruct (Mutex.mutex_lock_behaviour_lemma me None e 0) as [_ ->]. done.
Qed.

(** whatever the kind of lock, an idle one is entered at once, shared or
    exclusively and with any timeout, and leaving it makes it idle again. *)
Theorem lock_bracket (x : lock_mode) me timeout l errno :
  idle l →
  ∃ h, cplus_lock x me timeout (l, errno) = Done (CPLUS_SUCCESS, (h, errno))
    ∧ ∀ e, cplus_lock_unlock me (h, e) = Done (CPLUS_SUCCESS, (l, e)).
Proof. apply lock_unlock. Qed.

Lemma lock_bracket_witness :
  ∃ h, cplus_lock true 3 0 (ARwlock Rwlock.fresh_lock, 5) = Done (CPLUS_SUCCESS, (h, 5))
    ∧ ∀ e, cplus_lock_unlock 3 (h, e) = Done (CPLUS_SUCCESS, (ARwlock Rwlock.fresh_lock, e)).
Proof. apply (lock_bracket true 3 0 (ARwlock Rwlock.fresh_lock) 5). reflexivity. Defined.

End Lock.
