(* ===== verification/Zlist.v ===== *)
(** * Zlist: lists of integers read at integer positions

    [zat l i] is the element of [l] at position [i], and 0 outside: the null
    pointer before the first and after the last node of a linked list. *)

From S2P Require Import Prelude.
From stdpp Require Import base numbers list option.
From Stdlib Require Import ZArith Lia.
Open Scope Z_scope.

Definition zlen (l : list Z) : Z := Z.of_nat (length l).
Definition zat (l : list Z) (i : Z) : Z :=
  if i <? 0 then 0 else default 0 (l !! Z.to_nat i).
Definition zins (i x : Z) (l : list Z) : list Z :=
  take (Z.to_nat i) l ++ x :: drop (Z.to_nat i) l.
Definition zdel (i : Z) (l : list Z) : list Z := delete (Z.to_nat i) l.
Definition zset (i x : Z) (l : list Z) : list Z := <[Z.to_nat i := x]> l.

Lemma zlen_nonneg l : 0 ≤ zlen l.
Proof. unfold zlen. lia. Qed.

Lemma zlen_0 l : zlen l = 0 ↔ l = [].
Proof. unfold zlen. split; [destruct l; simpl; [done|lia]|by intros ->]. Qed.

Lemma zat_in l i : 0 ≤ i < zlen l → l !! Z.to_nat i = Some (zat l i).
Proof.
  unfold zlen, zat. intros Hi. destruct (Z.ltb_spec i 0); [lia|].
  destruct (lookup_lt_is_Some_2 l (Z.to_nat i)) as [x ->]; [lia|done].
Qed.

Lemma zat_Some l i x : l !! Z.to_nat i = Some x → 0 ≤ i → zat l i = x.
Proof. unfold zat. intros -> ?. destruct (Z.ltb_spec i 0); [lia|done]. Qed.

Lemma zat_out l i : i < 0 ∨ zlen l ≤ i → zat l i = 0.
Proof.
  unfold zlen, zat. intros Hi. destruct (Z.ltb_spec i 0); [done|].
  rewrite lookup_ge_None_2 by lia. done.
Qed.

Lemma zat_elem l i : 0 ≤ i < zlen l → zat l i ∈ l.
Proof. intros Hi. eapply list_elem_of_lookup_2. by apply zat_in. Qed.

Lemma elem_zat l x : x ∈ l ↔ ∃ i, 0 ≤ i < zlen l ∧ zat l i = x.
Proof.
  split.
  - intros [n Hn]%list_elem_of_lookup_1. pose proof (lookup_lt_Some _ _ _ Hn).
    exists (Z.of_nat n). unfold zlen. split; [lia|].
    apply zat_Some; [by rewrite Nat2Z.id|lia].
  - intros (i & Hi & <-). by apply zat_elem.
Qed.

(** Null exactly outside, when the list has no null element. *)
Lemma zat_0 l i : 0 ∉ l → zat l i = 0 ↔ i < 0 ∨ zlen l ≤ i.
Proof.
  intros H0. split; [|apply zat_out]. intros Hz.
  destruct (decide (0 ≤ i < zlen l)) as [Hi|]; [|lia].
  destruct H0. rewrite <- Hz. by apply zat_elem.
Qed.

Lemma zat_inj l i j :
  NoDup l → 0 ≤ i < zlen l → 0 ≤ j < zlen l → zat l i = zat l j → i = j.
Proof.
  intros Hnd Hi Hj E. pose proof (zat_in l i Hi) as Ei. pose proof (zat_in l j Hj) as Ej.
  rewrite E in Ei. pose proof (NoDup_lookup l _ _ _ Hnd Ei Ej). lia.
Qed.

(** Equality with the element at a position decides the position. *)
Lemma zat_eq l i j :
  NoDup l → 0 ∉ l → 0 ≤ j < zlen l → zat l i = zat l j ↔ i = j.
Proof.
  intros Hnd H0 Hj. split; [|by intros ->]. intros E.
  destruct (decide (0 ≤ i < zlen l)) as [Hi|Hi]; [by apply (zat_inj l)|].
  rewrite (zat_out l i) in E by lia. symmetry in E. apply zat_0 in E; [lia|done].
Qed.

Lemma zlen_app l k : zlen (l ++ k) = zlen l + zlen k.
Proof. unfold zlen. rewrite length_app. lia. Qed.

Lemma zlen_cons x l : zlen (x :: l) = zlen l + 1.
Proof. unfold zlen. simpl. lia. Qed.

Lemma zat_cons x l i : zat (x :: l) i = if i =? 0 then x else zat l (i - 1).
Proof.
  unfold zat. zbool_cases; try lia; subst; try done.
  destruct (Z.to_nat i) as [|k] eqn:E; [lia|]. simpl. do 2 f_equal. lia.
Qed.

Lemma zat_head l : zat l 0 = default 0 (head l).
Proof. by destruct l. Qed.

Lemma zlen_ins i x l : 0 ≤ i ≤ zlen l → zlen (zins i x l) = zlen l + 1.
Proof.
  unfold zins, zlen. intros Hi. rewrite length_app. simpl.
  rewrite length_take, length_drop. lia.
Qed.

Lemma zat_ins i x l j :
  0 ≤ i ≤ zlen l →
  zat (zins i x l) j = if j <? i then zat l j else if j =? i then x else zat l (j - 1).
Proof.
  unfold zlen, zins. intros Hi. destruct (Z.ltb_spec j i) as [Hj|Hj].
  - unfold zat. destruct (Z.ltb_spec j 0); [done|].
    rewrite lookup_app_l by (rewrite length_take; lia).
    rewrite lookup_take_lt by lia. done.
  - unfold zat. destruct (Z.ltb_spec j 0); [lia|].
    rewrite lookup_app_r by (rewrite length_take; lia). rewrite length_take.
    replace (Z.to_nat j - Z.to_nat i `min` length l)%nat with (Z.to_nat (j - i)) by lia.
    destruct (Z.eqb_spec j i) as [->|Hne]; [by rewrite Z.sub_diag|].
    destruct (Z.ltb_spec (j - 1) 0); [lia|].
    destruct (Z.to_nat (j - i)) as [|n] eqn:E; [lia|]. simpl.
    rewrite lookup_drop. do 2 f_equal. lia.
Qed.

Lemma zlen_del i l : 0 ≤ i < zlen l → zlen (zdel i l) = zlen l - 1.
Proof.
  unfold zlen, zdel. intros Hi. rewrite length_delete; [lia|].
  apply lookup_lt_is_Some_2. lia.
Qed.

Lemma zat_del i l j :
  0 ≤ i → zat (zdel i l) j = if j <? i then zat l j else zat l (j + 1).
Proof.
  unfold zdel. intros Hi. unfold zat. zbool_cases; try lia; try done.
  - by rewrite list_lookup_delete_lt by lia.
  - rewrite list_lookup_delete_ge by lia. do 2 f_equal. lia.
Qed.

Lemma zlen_set i x l : zlen (zset i x l) = zlen l.
Proof. unfold zlen, zset. by rewrite length_insert. Qed.

Lemma zat_set i x l j :
  0 ≤ i < zlen l → zat (zset i x l) j = if j =? i then x else zat l j.
Proof.
  unfold zlen, zset. intros Hi. unfold zat. zbool_cases; try lia; subst; try done.
  - rewrite list_lookup_insert_eq by lia. done.
  - rewrite list_lookup_insert_ne by lia. done.
Qed.

Lemma zins_Permutation i x l : zins i x l ≡ₚ x :: l.
Proof.
  unfold zins. rewrite <- Permutation_middle. by rewrite take_drop.
Qed.

Lemma zdel_Permutation i l : 0 ≤ i < zlen l → l ≡ₚ zat l i :: zdel i l.
Proof. intros Hi. unfold zdel. by apply delete_Permutation, zat_in. Qed.

Lemma zins_zlen x l : zins (zlen l) x l = l ++ [x].
Proof.
  unfold zins, zlen. rewrite Nat2Z.id.
  by rewrite take_ge, drop_ge by lia.
Qed.

Lemma zins_0 x l : zins 0 x l = x :: l.
Proof. unfold zins. simpl. by rewrite drop_0. Qed.

Lemma zlist_ext l k :
  zlen l = zlen k → (∀ i, 0 ≤ i < zlen l → zat l i = zat k i) → l = k.
Proof.
  unfold zlen. intros Hl He. apply list_eq_same_length with (length k); [done|lia|].
  intros i x y Hi Hx Hy. specialize (He (Z.of_nat i)). unfold zat in He.
  destruct (Z.ltb_spec (Z.of_nat i) 0); [lia|]. rewrite Nat2Z.id, Hx, Hy in He.
  simpl in He. apply He. lia.
Qed.

(** The first position whose element satisfies [f]. *)
Definition zfind (f : Z → bool) (l : list Z) : option Z :=
  Z.of_nat ∘ fst <$> list_find f l.

Lemma zfind_Some f l i :
  zfind f l = Some i ↔
  0 ≤ i < zlen l ∧ f (zat l i) = true ∧ ∀ j, 0 ≤ j < i → f (zat l j) = false.
Proof.
  unfold zfind. rewrite fmap_Some. split.
  - intros ([n x] & (Hn & Hx & Hj)%list_find_Some & ->). simpl.
    pose proof (lookup_lt_Some _ _ _ Hn). unfold zlen. split; [lia|].
    assert (zat l (Z.of_nat n) = x) as -> by (apply zat_Some; [by rewrite Nat2Z.id|lia]).
    split; [by apply Is_true_eq_true|]. intros j Hlt.
    apply not_true_is_false. intros Ht.
    apply (Hj (Z.to_nat j) (zat l j)); [apply zat_in; unfold zlen; lia|lia|].
    by apply Is_true_eq_left.
  - intros (Hi & Hf & Hj). exists (Z.to_nat i, zat l i). split; [|simpl; lia].
    apply list_find_Some. split; [by apply zat_in|]. split; [by apply Is_true_eq_left|].
    intros k y Hk Hlt Hy. specialize (Hj (Z.of_nat k)).
    assert (zat l (Z.of_nat k) = y) as E by (apply zat_Some; [by rewrite Nat2Z.id|lia]).
    rewrite E in Hj. apply Is_true_eq_true in Hy. rewrite Hy in Hj. by discriminate Hj; lia.
Qed.

Lemma zfind_None f l :
  zfind f l = None ↔ ∀ i, 0 ≤ i < zlen l → f (zat l i) = false.
Proof.
  split.
  - unfold zfind. intros E%fmap_None i Hi. apply list_find_None in E.
    apply not_true_is_false. intros Ht%Is_true_eq_left.
    by apply (Forall_lookup_1 _ _ _ _ E (zat_in l i Hi)).
  - intros Ha. destruct (zfind f l) as [i|] eqn:E; [|done].
    apply zfind_Some in E as (Hi & Ht & _). rewrite Ha in Ht by done. done.
Qed.

Lemma zat_decide {B} l i j (x y : B) :
  NoDup l → 0 ∉ l → 0 ≤ j < zlen l →
  (if decide (zat l j = zat l i) then x else y) = (if j =? i then x else y).
Proof.
  intros Hnd H0 Hj. destruct (Z.eqb_spec j i) as [->|Hne]; [by rewrite decide_True|].
  rewrite decide_False; [done|]. intros E. symmetry in E. by apply zat_eq in E.
Qed.

Lemma zat_app p l i :
  0 ≤ i → zat (p ++ l) i = if i <? zlen p then zat p i else zat l (i - zlen p).
Proof.
  unfold zlen. intros Hi. unfold zat. zbool_cases; try lia.
  - by rewrite lookup_app_l by lia.
  - rewrite lookup_app_r by lia. do 2 f_equal. lia.
Qed.
