(* ===== verification/Llist.v ===== *)
(** * Llist: the doubly linked list (src/llist.c)

    The nodes of a list are a finite map from addresses to [struct llist_node];
    following a pointer that is not in the map is undefined.  The cursor of the
    list is a pointer to a pointer field, as in the source: the place it points
    to may change under it.  Nodes come from any source of blocks that meets
    the class [Allocator]: the list's own memory pool, or the heap. *)

From S2P Require Import Prelude Allocator Mempool Locks.
From stdpp Require Import base numbers list option gmap sets.
From Stdlib Require Import ZArith Lia.
Open Scope Z_scope.

Module Llist.
Import Lock.

(** ** State *)

Definition OBJ_TYPE : Z := OBJ_NONE + DS + 1.
Definition HEAD : Z := 0.
Definition MAX_NODE_COUNT : Z := 1024 * 1024.

Record llist_node := Node { data : Z; prev : Z; next : Z }.

Definition set_data (v : Z) (n : llist_node) : llist_node := Node v (prev n) (next n).
Definition set_prev (p : Z) (n : llist_node) : llist_node := Node (data n) p (next n).
Definition set_next (p : Z) (n : llist_node) : llist_node := Node (data n) (prev n) p.

(** What [struct llist_node ** current] points to: the field [head] of the list
    or a field of a node. *)
Inductive slot := SHead | SNext (p : Z) | SPrev (p : Z).

(** [struct linked_list]; [alive] is false once the object was freed. *)
Record linked_list := mkList {
  type : Z;
  count : Z;
  sort_count : Z;
  cur_index : Z;
  lock : lockable;
  head : Z;
  tail : Z;
  current : slot;
  alive : bool }.

Record st (A : Type) := mkSt {
  ll : linked_list;
  nodes : gmap Z llist_node;
  src : A;
  errno : Z }.
Arguments mkSt {A}.
Arguments ll {A}.
Arguments nodes {A}.
Arguments src {A}.
Arguments errno {A}.

Definition set_count (v : Z) (l : linked_list) : linked_list :=
  mkList (type l) v (sort_count l) (cur_index l) (lock l) (head l) (tail l) (current l) (alive l).
Definition set_sort_count (v : Z) (l : linked_list) : linked_list :=
  mkList (type l) (count l) v (cur_index l) (lock l) (head l) (tail l) (current l) (alive l).
Definition set_cur_index (v : Z) (l : linked_list) : linked_list :=
  mkList (type l) (count l) (sort_count l) v (lock l) (head l) (tail l) (current l) (alive l).
Definition set_lock (v : lockable) (l : linked_list) : linked_list :=
  mkList (type l) (count l) (sort_count l) (cur_index l) v (head l) (tail l) (current l) (alive l).
Definition set_head (v : Z) (l : linked_list) : linked_list :=
  mkList (type l) (count l) (sort_count l) (cur_index l) (lock l) v (tail l) (current l) (alive l).
Definition set_tail (v : Z) (l : linked_list) : linked_list :=
  mkList (type l) (count l) (sort_count l) (cur_index l) (lock l) (head l) v (current l) (alive l).
Definition set_current (v : slot) (l : linked_list) : linked_list :=
  mkList (type l) (count l) (sort_count l) (cur_index l) (lock l) (head l) (tail l) v (alive l).
Definition set_dead (l : linked_list) : linked_list :=
  mkList (type l) (count l) (sort_count l) (cur_index l) (lock l) (head l) (tail l) (current l) false.

Section ops.
Context {A : Type} `{Allocator A} (me : nat).

Notation S := (st A).
Notation M := (C (st A)).

Definition with_ll (f : linked_list → linked_list) (s : S) : S :=
  mkSt (f (ll s)) (nodes s) (src s) (errno s).
Definition with_nodes (f : gmap Z llist_node → gmap Z llist_node) (s : S) : S :=
  mkSt (ll s) (f (nodes s)) (src s) (errno s).
Definition with_src (a : A) (s : S) : S := mkSt (ll s) (nodes s) a (errno s).
Definition with_errno (e : Z) (s : S) : S := mkSt (ll s) (nodes s) (src s) e.

Definition upd (f : linked_list → linked_list) : M unit := modify (with_ll f).
Definition set_nodes (f : gmap Z llist_node → gmap Z llist_node) : M unit :=
  modify (with_nodes f).
Definition set_errno (e : Z) : M unit := modify (with_errno e).
Definition field {B} (f : linked_list → B) : M B := gets (f ∘ ll).

(** [p->f], and [p->f = v] for a node. *)
Definition load {B} (p : Z) (f : llist_node → B) : M B :=
  deref (λ s, f <$> nodes s !! p).
Definition store (p : Z) (f : llist_node → llist_node) : M unit :=
  load p data;; set_nodes (alter f p).

(** What the cursor points to, [*list->current]. *)
Definition at_current : M Z :=
  c ← field current;
  match c with
  | SHead => field head
  | SNext p => load p next
  | SPrev p => load p prev
  end.

(** ** Internal functions *)

Definition is_empty : M bool := n ← field count; mret (0 =? n).
Definition get_size : M Z := field count.
Definition is_sort : M bool := n ← get_size; k ← field sort_count; mret (n =? k).

Definition free_node (node : Z) : M unit :=
  if node =? 0 then mret tt
  else λ s,
    match al_release node (src s) with
    | Done a => Done (tt, with_src a (with_nodes (delete node) s))
    | Aborts => Aborts | Hangs => Hangs | Undefined => Undefined
    end.

Definition take_block : M Z := λ s,
  match al_new (src s) with
  | Done (p, a) => Done (p, with_src a s)
  | Aborts => Aborts | Hangs => Hangs | Undefined => Undefined
  end.

Definition new_node (v : Z) : M Z :=
  node ← take_block;
  if node =? 0 then set_errno ENOMEM;; mret node
  else set_nodes (<[node := Node v 0 0]>);; mret node.

Definition get_data (node : Z) : M Z := load node data.

Definition reset_cur_node : M unit :=
  upd (set_cur_index HEAD);; upd (set_current SHead).

Definition remove_node (node : Z) : M Z :=
  h ← field head;
  (if h =? node then
     n ← load node next;
     upd (set_head n);;
     (if negb (n =? 0) then store n (set_prev 0) else mret tt);;
     store node (set_next 0)
   else
     t ← field tail;
     if t =? node then
       p ← load node prev;
       upd (set_tail p);;
       (if negb (p =? 0) then store p (set_next 0) else mret tt);;
       store node (set_prev 0)
     else
       p ← load node prev; n ← load node next;
       store p (set_next n);;
       n ← load node next; p ← load node prev;
       store n (set_prev p);;
       store node (set_next 0);;
       store node (set_prev 0));;
  c ← field count;
  upd (set_count (u32 (c - 1)));;
  e ← is_empty;
  (if (e : bool) then upd (set_head 0);; upd (set_tail 0) else mret tt);;
  reset_cur_node;;
  mret CPLUS_SUCCESS.

Definition swap_data (front back : Z) : M unit :=
  if (front =? 0) || (back =? 0) then mret tt
  else
    temp ← load front data;
    b ← load back data;
    store front (set_data b);;
    store back (set_data temp).

Definition get_head : M Z := field head.
Definition get_tail : M Z := field tail.
Definition get_current : M Z := at_current.

(** One step of the cursor along [next], or along [prev], with its index. *)
Definition forward : M unit :=
  p ← at_current;
  load p next;;
  upd (set_current (SNext p));;
  i ← field cur_index;
  upd (set_cur_index (s32 (i + 1))).
Definition backward : M unit :=
  p ← at_current;
  load p prev;;
  upd (set_current (SPrev p));;
  i ← field cur_index;
  upd (set_cur_index (s32 (i - 1))).

Definition get_next : M Z :=
  p ← at_current;
  if p =? 0 then mret 0
  else
    n ← load p next;
    if n =? 0 then mret 0
    else forward;; at_current.

Definition get_prev : M Z :=
  p ← at_current;
  if p =? 0 then mret 0
  else
    n ← load p prev;
    if n =? 0 then mret 0
    else backward;; at_current.

(** The loops of [get_node_of]; [fuel] is the distance to [index]. *)
Fixpoint walk (fuel : nat) (step : M unit) (index : Z) : M unit :=
  i ← field cur_index;
  if index =? i then mret tt
  else match fuel with
       | O => hang
       | Datatypes.S fuel => step;; walk fuel step index
       end.

Definition get_node_of (index : Z) : M Z :=
  i ← field cur_index;
  if index =? i then at_current
  else if i <? index then
    walk (Z.to_nat (index - i)) forward index;; at_current
  else
    walk (Z.to_nat (i - index)) backward index;; at_current.

(** The loop shared by the searches: from the head, [visit] each node until it
    answers, or until the last node.  A list without a cycle has at most as many
    nodes as the map. *)
Fixpoint scan_loop {R} (fuel : nat) (visit : Z → M (option R)) : M (option R) :=
  p ← at_current;
  if p =? 0 then mret None
  else
    r ← visit p;
    match r with
    | Some x => mret (Some x)
    | None =>
        p ← at_current;
        n ← load p next;
        if n =? 0 then mret None
        else match fuel with
             | O => hang
             | Datatypes.S fuel => forward;; scan_loop fuel visit
             end
    end.

Definition scan {R} (visit : Z → M (option R)) : M (option R) :=
  reset_cur_node;;
  n ← gets (λ s, size (nodes s));
  scan_loop n visit.

(** [data && !comparator(data, arg)]. *)
Definition matches (comparator : Z → Z) (v : Z) : bool :=
  negb (v =? 0) && (comparator v =? 0).

Definition get_node_if (comparator : Z → Z) : M Z :=
  r ← scan (λ p, v ← get_data p;
                 if matches comparator v then q ← at_current; mret (Some q) else mret None);
  match r with
  | Some p => mret p
  | None => set_errno ENOENT;; mret 0
  end.

Definition get_index_if (comparator : Z → Z) : M Z :=
  r ← scan (λ p, v ← get_data p;
                 if matches comparator v then i ← field cur_index; mret (Some i)
                 else mret None);
  match r with
  | Some i => mret i
  | None => set_errno ENOENT;; mret CPLUS_FAIL
  end.

Definition pop_of (index : Z) : M Z :=
  e ← is_empty;
  if (e : bool) then set_errno ENOENT;; mret 0
  else
    size ← get_size;
    node ← (if 0 =? index then
              node ← field head;
              n ← load node next;
              upd (set_head n);;
              (if negb (n =? 0) then store n (set_prev 0) else mret tt);;
              store node (set_next 0);;
              reset_cur_node;;
              mret node
            else if size =? u32 index then
              node ← field tail;
              p ← load node prev;
              upd (set_tail p);;
              (if negb (p =? 0) then store p (set_next 0) else mret tt);;
              store node (set_prev 0);;
              reset_cur_node;;
              mret node
            else
              node ← get_node_of index;
              (if negb (node =? 0) then
                 p ← load node prev; n ← load node next;
                 store p (set_next n);;
                 n ← load node next; p ← load node prev;
                 store n (set_prev p);;
                 store node (set_next 0);;
                 store node (set_prev 0)
               else mret tt);;
              mret node);
    c ← field count;
    upd (set_count (u32 (c - 1)));;
    e ← is_empty;
    (if (e : bool) then upd (set_head 0);; upd (set_tail 0);; reset_cur_node else mret tt);;
    mret node.

Definition push_at (index node : Z) : M Z :=
  e ← is_empty;
  res ← (if (e : bool) then
           upd (set_head node);; upd (set_tail node);; reset_cur_node;;
           mret CPLUS_SUCCESS
         else
           size ← get_size;
           if 0 =? index then
             h ← field head;
             store h (set_prev node);;
             store node (set_next h);;
             upd (set_head node);;
             reset_cur_node;;
             mret CPLUS_SUCCESS
           else if size =? u32 index then
             t ← field tail;
             store t (set_next node);;
             store node (set_prev t);;
             upd (set_tail node);;
             reset_cur_node;;
             mret CPLUS_SUCCESS
           else
             target ← get_node_of index;
             if target =? 0 then mret CPLUS_FAIL
             else
               store node (set_next target);;
               p ← load target prev;
               store node (set_prev p);;
               p ← load target prev;
               store p (set_next node);;
               store target (set_prev node);;
               mret CPLUS_SUCCESS);
  (if CPLUS_SUCCESS =? res then
     c ← field count; upd (set_count (u32 (c + 1)))
   else mret tt);;
  mret res.

Definition pop_if (comparator : Z → Z) : M Z :=
  reset_cur_node;;
  e ← is_empty;
  if (e : bool) then set_errno ENOENT;; mret 0
  else
    r ← scan (λ p, v ← get_data p;
                   if matches comparator v then
                     target ← at_current; q ← at_current;
                     remove_node q;; mret (Some target)
                   else mret None);
    match r with
    | Some p => mret p
    | None => set_errno ENOENT;; mret 0
    end.

Definition remove_data (v : Z) : M Z :=
  r ← scan (λ p, w ← load p data;
                 if v =? w then
                   temp ← at_current; q ← at_current;
                   remove_node q;; free_node temp;; mret (Some CPLUS_SUCCESS)
                 else mret None);
  mret (default CPLUS_FAIL r).

(** One pass of the bubble sort: [j] counts up to [size]. *)
Fixpoint sort_pass (size : nat) (comparator : Z → Z → Z) (node1 : Z) : M Z :=
  match size with
  | O => mret node1
  | Datatypes.S size =>
      if node1 =? 0 then mret node1
      else
        node2 ← load node1 next;
        if (node1 =? 0) || (node2 =? 0) then mret node1
        else
          data1 ← get_data node1;
          data2 ← get_data node2;
          (if 0 <? comparator data1 data2 then swap_data node1 node2 else mret tt);;
          n ← load node1 next;
          sort_pass size comparator n
  end.

(** [passes] is what is left of [get_size(list) - i], and [size] counts down
    with it. *)
Fixpoint sort_loop (passes : nat) (comparator : Z → Z → Z) (node1 : Z) : M unit :=
  match passes with
  | O => mret tt
  | Datatypes.S rest =>
      if node1 =? 0 then mret tt
      else
        node1 ← field head;
        node1 ← sort_pass passes comparator node1;
        k ← field sort_count;
        upd (set_sort_count (u32 (k + 1)));;
        sort_loop rest comparator node1
  end.

Definition llist_sort (comparator : Z → Z → Z) : M unit :=
  node1 ← field head;
  size ← get_size;
  sort_loop (Z.to_nat size) comparator node1.

(** ** Interface *)

(** The object exists and is a list. *)
Definition CHECK_OBJECT_TYPE : M unit :=
  ok ← field alive;
  if (ok : bool) then t ← field type; assert_c (t =? OBJ_TYPE) else undef.

Definition lock_op (f : C Lock.st Z) : M Z := λ s,
  match f (lock (ll s), errno s) with
  | Done (r, (l, e)) => Done (r, with_errno e (with_ll (set_lock l) s))
  | Aborts => Aborts | Hangs => Hangs | Undefined => Undefined
  end.

(** [cplus_lock_shlock] or [cplus_lock_exlock], the body, [cplus_lock_unlock]. *)
Definition locked {B} (x : lock_mode) (body : M B) : M B :=
  lock_op (cplus_lock x me CPLUS_INFINITE_TIMEOUT);;
  r ← body;
  lock_op (cplus_lock_unlock me);;
  mret r.
Definition shared : lock_mode := false.
Definition exclusive : lock_mode := true.

(** [CHECK_IF(b, v)] and the like: refuse with [EINVAL]. *)
Definition check_if {B} (b : bool) (v : B) (k : M B) : M B :=
  if b then set_errno EINVAL;; mret v else k.
(** [CHECK_NOT_NULL(comparator, v)]. *)
Definition check_fn {F B} (f : option F) (v : B) (k : F → M B) : M B :=
  match f with None => set_errno EINVAL;; mret v | Some f => k f end.
Definition out_of_interval (index low high : Z) : bool :=
  (index <? low) || (high <? index).

(** [if ((node = f(list))) target = get_data(node);] *)
Definition data_of (f : M Z) : M Z :=
  node ← f; if node =? 0 then mret 0 else get_data node.
(** The same, when the node is then freed. *)
Definition data_of_freed (f : M Z) : M Z :=
  node ← f;
  if node =? 0 then mret 0 else v ← get_data node; free_node node;; mret v.

Definition cplus_llist_get_size : M Z :=
  CHECK_OBJECT_TYPE;;
  n ← locked shared get_size;
  mret (u32 (s32 n)).

Definition cplus_llist_get_of (index : Z) : M Z :=
  CHECK_OBJECT_TYPE;;
  size ← cplus_llist_get_size;
  check_if (out_of_interval index 0 (s32 (u32 (size - 1)))) 0
    (locked shared (data_of (get_node_of index))).

Definition cplus_llist_get_index_if (comparator : option (Z → Z)) : M Z :=
  CHECK_OBJECT_TYPE;;
  check_fn comparator CPLUS_FAIL (λ f, locked shared (get_index_if f)).

Definition cplus_llist_pop_of (index : Z) : M Z :=
  CHECK_OBJECT_TYPE;;
  size ← cplus_llist_get_size;
  check_if (out_of_interval index 0 (s32 size)) 0
    (locked exclusive (data_of_freed (pop_of index))).

Definition cplus_llist_push_at (index v : Z) : M Z :=
  CHECK_OBJECT_TYPE;;
  check_if (v =? 0) CPLUS_FAIL (
    size ← cplus_llist_get_size;
    check_if (out_of_interval index 0 (s32 size)) CPLUS_FAIL
      (locked exclusive (
         node ← new_node v;
         if node =? 0 then mret CPLUS_FAIL else push_at index node))).

Definition cplus_llist_pop_front : M Z := cplus_llist_pop_of 0.
Definition cplus_llist_pop_back : M Z :=
  size ← cplus_llist_get_size; cplus_llist_pop_of (s32 size).
Definition cplus_llist_push_front (v : Z) : M Z := cplus_llist_push_at 0 v.
Definition cplus_llist_push_back (v : Z) : M Z :=
  size ← cplus_llist_get_size; cplus_llist_push_at (s32 size) v.

Fixpoint clear_loop (fuel : nat) (node : Z) : M unit :=
  if node =? 0 then mret tt
  else match fuel with
       | O => hang
       | Datatypes.S fuel =>
           n ← load node next; free_node node;; clear_loop fuel n
       end.

Definition cplus_llist_clear : M Z :=
  CHECK_OBJECT_TYPE;;
  locked exclusive (
    node ← field head;
    n ← gets (λ s, size (nodes s));
    clear_loop n node;;
    upd (set_count 0);;
    upd (set_sort_count 0);;
    upd (set_head 0);;
    upd (set_tail 0);;
    reset_cur_node);;
  mret CPLUS_SUCCESS.

(** The lock and the pool go with the object. *)
Definition cplus_llist_delete : M Z :=
  CHECK_OBJECT_TYPE;;
  res ← cplus_llist_clear;
  (if CPLUS_SUCCESS =? res then upd (set_lock NoLock);; upd set_dead else mret tt);;
  mret res.

Definition cplus_llist_pop_if (comparator : option (Z → Z)) : M Z :=
  CHECK_OBJECT_TYPE;;
  check_fn comparator 0 (λ f, locked exclusive (data_of_freed (pop_if f))).

Definition cplus_llist_get_if (comparator : option (Z → Z)) : M Z :=
  CHECK_OBJECT_TYPE;;
  check_fn comparator 0 (λ f, locked shared (data_of (get_node_if f))).

Definition cplus_llist_delete_data (v : Z) : M Z :=
  CHECK_OBJECT_TYPE;;
  check_if (v =? 0) CPLUS_FAIL (locked exclusive (remove_data v)).

Definition cplus_llist_sort (comparator : option (Z → Z → Z)) : M Z :=
  CHECK_OBJECT_TYPE;;
  check_fn comparator CPLUS_FAIL (λ f,
    locked exclusive (
      b ← is_sort;
      if (b : bool) then mret tt else llist_sort f);;
    b ← is_sort;
    mret (if (b : bool) then CPLUS_SUCCESS else CPLUS_FAIL)).

Definition cplus_llist_is_sort : M bool := CHECK_OBJECT_TYPE;; locked shared is_sort.

Definition cplus_llist_get_head : M Z :=
  CHECK_OBJECT_TYPE;; locked shared (data_of get_head).
Definition cplus_llist_get_tail : M Z :=
  CHECK_OBJECT_TYPE;; locked shared (data_of get_tail).
Definition cplus_llist_get_current : M Z :=
  CHECK_OBJECT_TYPE;; locked shared (data_of get_current).
Definition cplus_llist_get_next : M Z :=
  CHECK_OBJECT_TYPE;; locked exclusive (data_of get_next).
Definition cplus_llist_get_prev : M Z :=
  CHECK_OBJECT_TYPE;; locked exclusive (data_of get_prev).

Definition cplus_llist_get_cycling_next : M Z :=
  CHECK_OBJECT_TYPE;;
  locked exclusive (
    node ← get_current;
    if node =? 0 then mret 0
    else
      target ← get_data node;
      n ← get_next;
      (if n =? 0 then reset_cur_node else mret tt);;
      mret target).

(** [CPLUS_LLIST_FOREACH]: the values the iterator takes; [fuel] bounds the
    number of rounds and [index] counts them. *)
Fixpoint foreach_loop (fuel : nat) (index : Z) : M (list Z) :=
  size ← cplus_llist_get_size;
  if negb (index <? size) then mret []
  else
    v ← cplus_llist_get_of (s32 index);
    if v =? 0 then mret []
    else match fuel with
         | O => hang
         | Datatypes.S fuel =>
             rest ← foreach_loop fuel (u32 (index + 1)); mret (v :: rest)
         end.
Definition CPLUS_LLIST_FOREACH : M (list Z) :=
  n ← gets (λ s, size (nodes s)); foreach_loop n 0.

(** [for (idx = 0; idx < cplus_llist_get_size(obj1); idx++)] of
    [cplus_llist_is_consist]; the second list is a list of its own. *)
Definition on_second {B D} `{Allocator B} (m : C (st B) D) : C (st A * st B) D := λ s,
  match m (snd s) with
  | Done (x, s2) => Done (x, (fst s, s2))
  | Aborts => Aborts | Hangs => Hangs | Undefined => Undefined
  end.
Definition on_first {B D} `{Allocator B} (m : M D) : C (st A * st B) D := λ s,
  match m (fst s) with
  | Done (x, s1) => Done (x, (s1, snd s))
  | Aborts => Aborts | Hangs => Hangs | Undefined => Undefined
  end.

End ops.

Section consist.
Context {A B : Type} `{Allocator A} `{Allocator B} (me : nat).
Notation first m := (on_first (B := B) m).
Notation second m := (on_second (A := A) m).

Fixpoint consist_loop (fuel : nat) (comparator : Z → Z → Z) (idx : Z)
    : C (st A * st B) bool :=
  size ← first (cplus_llist_get_size me);
  if negb (idx <? size) then mret true
  else
    x ← first (cplus_llist_get_of me (s32 idx));
    y ← second (cplus_llist_get_of me (s32 idx));
    if negb (0 =? comparator x y) then mret false
    else match fuel with
         | O => hang
         | Datatypes.S fuel => consist_loop fuel comparator (u32 (idx + 1))
         end.

Definition cplus_llist_is_consist (comparator : option (Z → Z → Z))
    : C (st A * st B) bool :=
  first CHECK_OBJECT_TYPE;;
  second CHECK_OBJECT_TYPE;;
  match comparator with
  | None => first (set_errno EINVAL);; mret false
  | Some f =>
      n1 ← first (cplus_llist_get_size me);
      n2 ← second (cplus_llist_get_size me);
      if negb (n1 =? n2) then mret false
      else consist_loop (Z.to_nat n1) f 0
  end.

End consist.

(** ** Construction *)

(** [list->mempool], or the heap when there is no pool. *)
Inductive node_source :=
| FromPool (p : Mempool.st)
| FromHeap (h : Heap.heap).

Definition source_new (n : node_source) : outcome (Z * node_source) :=
  match n with
  | FromPool p =>
      match Mempool.cplus_mempool_alloc p with
      | Done (x, p') => Done (x, FromPool p')
      | Aborts => Aborts | Hangs => Hangs | Undefined => Undefined
      end
  | FromHeap h =>
      match Heap.cplus_malloc h with
      | Done (x, h') => Done (x, FromHeap h')
      | Aborts => Aborts | Hangs => Hangs | Undefined => Undefined
      end
  end.

Definition source_release (x : Z) (n : node_source) : outcome node_source :=
  match n with
  | FromPool p =>
      match Mempool.cplus_mempool_free x p with
      | Done (_, p') => Done (FromPool p')
      | Aborts => Aborts | Hangs => Hangs | Undefined => Undefined
      end
  | FromHeap h =>
      match Heap.cplus_free x h with
      | Done h' => Done (FromHeap h')
      | Aborts => Aborts | Hangs => Hangs | Undefined => Undefined
      end
  end.

Definition source_ok (n : node_source) (live : gset Z) : Prop :=
  match n with
  | FromPool p => Mempool.pool_live p live
  | FromHeap h => Heap.heap_ok h live
  end.

Lemma source_new_spec n live :
  source_ok n live →
  ∃ p n', source_new n = Done (p, n') ∧
    ((p = 0 ∧ source_ok n' live)
     ∨ (p ≠ 0 ∧ p ∉ live ∧ source_ok n' ({[p]} ∪ live))).
Proof.
  destruct n as [m|h]; simpl; intros Hok.
  - destruct (Mempool.pool_new_spec m live Hok) as (p & m' & -> & Hp). eauto.
  - destruct (Heap.heap_new h live Hok) as (p & h' & -> & Hp). eauto.
Qed.

Lemma source_release_spec n live p :
  source_ok n live → p ∈ live →
  ∃ n', source_release p n = Done n' ∧ source_ok n' (live ∖ {[p]}).
Proof.
  destruct n as [m|h]; simpl; intros Hok Hp.
  - destruct (Mempool.pool_release_spec m live p Hok Hp) as (m' & E & Hok').
    unfold Mempool.pool_release in E. destruct (Mempool.cplus_mempool_free p m) as [[]| | |];
      simplify_eq. eauto.
  - destruct (Heap.heap_release h live p Hok Hp) as (h' & -> & Hok'). eauto.
Qed.

Lemma source_nonnull n live : source_ok n live → 0 ∉ live.
Proof.
  destruct n as [m|h]; simpl.
  - apply Mempool.pool_nonnull.
  - intros (_ & _ & Hl) H0%Hl. lia.
Qed.

#[export] Instance source_allocator : Allocator node_source := {|
  al_new := source_new;
  al_release := source_release;
  al_ok := source_ok;
  al_new_spec := source_new_spec;
  al_release_spec := source_release_spec;
  al_nonnull := source_nonnull |}.

(** [sizeof(struct llist_node)]: three pointers. *)
Definition NODE_SIZE : Z := 24.

(** What the allocations of a constructor answer: whether the list object, the
    pool object and the lock object are obtained, the address and the bytes of
    the pool's memory, and the heap the nodes come from without a pool. *)
Record resources := Resources {
  object_ok : bool;
  pool_object_ok : bool;
  arena : Z;
  bytes : Z → Z;
  lock_ok : bool;
  node_heap : Heap.heap }.

(** An empty list object. *)
Definition empty_list {A} (l : lockable) (source : A) (e : Z) : st A :=
  mkSt (mkList OBJ_TYPE 0 0 HEAD l 0 0 SHead true) ∅ source e.

Definition llist_initialize_object (r : resources) (max_count : Z) (thread_safe : bool) (e : Z)
    : outcome (option (st node_source) * Z) :=
  if object_ok r then
    let '(pool, e) :=
      Mempool.cplus_mempool_new (pool_object_ok r) (arena r) (bytes r) max_count NODE_SIZE e in
    let source := match pool with
                  | Some p => Some (FromPool p)
                  | None => if negb (0 =? max_count) then None else Some (FromHeap (node_heap r))
                  end in
    match source with
    | None => Done (None, ENOMEM)
    | Some source =>
        match (if thread_safe then Rwlock.cplus_rwlock_new (lock_ok r) true else Done None) with
        | Done l => Done (Some (empty_list (match l with Some l => ARwlock l | None => NoLock end)
                      source e), e)
        | Aborts => Aborts | Hangs => Hangs | Undefined => Undefined
        end
    end
  else Done (None, ENOMEM).

Definition cplus_llist_prev_new (r : resources) (max_count e : Z)
    : outcome (option (st node_source) * Z) :=
  if MAX_NODE_COUNT <? max_count then Done (None, EINVAL)
  else llist_initialize_object r max_count false e.

Definition cplus_llist_new (r : resources) (e : Z) : outcome (option (st node_source) * Z) :=
  llist_initialize_object r 0 false e.

Definition cplus_llist_prev_new_s (r : resources) (max_count e : Z)
    : outcome (option (st node_source) * Z) :=
  if MAX_NODE_COUNT <? max_count then Done (None, EINVAL)
  else llist_initialize_object r max_count true e.

Definition cplus_llist_new_s (r : resources) (e : Z) : outcome (option (st node_source) * Z) :=
  llist_initialize_object r 0 true e.

(** [GET_OBJECT_TYPE(obj) == OBJ_TYPE] for an object that is not null. *)
Definition cplus_llist_check (obj : option Z) : bool :=
  match obj with Some t => t =? OBJ_TYPE | None => false end.

(** ** [cplus_llist_get_set_if]

    The second list is made at the first match, with its nodes on a heap.  The
    first block of that heap is the list object itself; when there is none,
    [new_node] follows a null pointer. *)
Section get_set.
Context {A : Type} `{Allocator A} (me : nat).
Import Heap.

Inductive target := NoList (h : heap) | AList (t : st heap).

(** Run a command on the target, with the caller's [errno]. *)
Definition on_target {R} (t : st heap) (m : C (st heap) R) : C (st A) (st heap) := λ s,
  match m (with_errno (errno s) t) with
  | Done (_, t') => Done (t', with_errno (errno t') s)
  | Aborts => Aborts | Hangs => Hangs | Undefined => Undefined
  end.

(** [if (CPLUS_NULL == target_list) target_list = llist_initialize_object(0, false);]
    where [cplus_mempool_new(0, ...)] sets [errno].  The block of the object itself
    is not one of its nodes. *)
Definition get_target (t : target) : C (st A) (st heap) :=
  match t with
  | AList t => mret t
  | NoList h => λ s,
      match cplus_malloc h with
      | Done (p, h') =>
          if p =? 0 then Undefined
          else Done (empty_list NoLock (mkHeap (fresh h') (oom h') (used h)) EINVAL,
                     with_errno EINVAL s)
      | Aborts => Aborts | Hangs => Hangs | Undefined => Undefined
      end
  end.

Definition append (v : Z) : C (st heap) unit :=
  node ← new_node v;
  if node =? 0 then mret tt else n ← get_size; push_at n node;; mret tt.

Fixpoint get_set_loop (fuel : nat) (comparator : Z → Z) (t : target) : C (st A) target :=
  p ← at_current;
  if p =? 0 then mret t
  else
    v ← get_data p;
    t ← (if matches comparator v then
           l ← get_target t; l ← on_target l (append v); mret (AList l)
         else mret t);
    p ← at_current;
    n ← load p next;
    if n =? 0 then mret t
    else match fuel with
         | O => hang
         | Datatypes.S fuel => forward;; get_set_loop fuel comparator t
         end.

Definition get_set_if (h : heap) (comparator : Z → Z) : C (st A) (option (st heap)) :=
  reset_cur_node;;
  n ← gets (λ s, size (nodes s));
  t ← get_set_loop n comparator (NoList h);
  match t with
  | NoList _ => set_errno ENOENT;; mret None
  | AList l => mret (Some l)
  end.

Definition cplus_llist_get_set_if (h : heap) (comparator : option (Z → Z))
    : C (st A) (option (st heap)) :=
  CHECK_OBJECT_TYPE;;
  check_fn comparator None (λ f, locked me shared (get_set_if h f)).

End get_set.

End Llist.
