(* ===== verification/LlistInv.v ===== *)
(** * LlistInv: the representation of a linked list and how each step keeps it

    [rep s a d i b] says that the list in state [s] has the nodes [a] in order,
    with the data [d], and its cursor on position [i]; [b] tells whether the
    cursor is the [prev] field of the next node, as it is after a step back. *)

From S2P Require Import Prelude Allocator Locks Zlist Llist.
From stdpp Require Import base numbers list option gmap sets.
From Stdlib Require Import ZArith Lia.
Open Scope Z_scope.

Module LlistInv.
Import Lock Llist.

(** ** Running the monad *)

Section run.
Context {A : Type} `{Allocator A}.
Implicit Types s : st A.

Lemma run_assoc {B D E} (m : C (st A) B) (f : B → C (st A) D) (g : D → C (st A) E) s :
  ((m ≫= f) ≫= g) s = (m ≫= (λ x, f x ≫= g)) s.
Proof. unfold mbind, C_bind. by destruct (m s) as [[]| | |]. Qed.

Lemma run_mret {B D} (x : B) (f : B → C (st A) D) s : (mret x ≫= f) s = f x s.
Proof. done. Qed.

Lemma run_field {B D} (g : linked_list → B) (f : B → C (st A) D) s :
  (field g ≫= f) s = f (g (ll s)) s.
Proof. done. Qed.

Lemma run_upd {D} g (f : unit → C (st A) D) s : (upd g ≫= f) s = f tt (with_ll g s).
Proof. done. Qed.

Lemma run_set_nodes {D} g (f : unit → C (st A) D) s :
  (set_nodes g ≫= f) s = f tt (with_nodes g s).
Proof. done. Qed.

Lemma run_set_errno {D} e (f : unit → C (st A) D) s :
  (set_errno e ≫= f) s = f tt (with_errno e s).
Proof. done. Qed.

Lemma run_size {D} (f : nat → C (st A) D) s :
  (gets (λ s : st A, size (nodes s)) ≫= f) s = f (size (nodes s)) s.
Proof. done. Qed.

Lemma run_reset {D} (f : unit → C (st A) D) s :
  (reset_cur_node ≫= f) s = f tt (with_ll (set_current SHead) (with_ll (set_cur_index 0) s)).
Proof. done. Qed.

Lemma run_is_empty {D} (f : bool → C (st A) D) s :
  (is_empty ≫= f) s = f (0 =? count (ll s)) s.
Proof. done. Qed.

Lemma run_get_size {D} (f : Z → C (st A) D) s : (get_size ≫= f) s = f (count (ll s)) s.
Proof. done. Qed.

Lemma run_load {B D} p n (g : llist_node → B) (f : B → C (st A) D) s :
  nodes s !! p = Some n → (load p g ≫= f) s = f (g n) s.
Proof. intros E. unfold load, deref. crun. by rewrite E. Qed.

Lemma load_ok {B} p n (g : llist_node → B) s :
  nodes s !! p = Some n → load p g s = Done (g n, s).
Proof. intros E. unfold load, deref. by rewrite E. Qed.

Lemma run_store {D} p n g (f : unit → C (st A) D) s :
  nodes s !! p = Some n → (store p g ≫= f) s = f tt (with_nodes (alter g p) s).
Proof. intros E. unfold store. by rewrite run_assoc, (run_load p n). Qed.

(** Update a neighbour that may be null. *)
Lemma run_store_opt {D} p g (f : unit → C (st A) D) s :
  nodes s !! 0 = None → (p ≠ 0 → is_Some (nodes s !! p)) →
  ((if negb (p =? 0) then store p g else mret tt) ≫= f) s
  = f tt (with_nodes (alter g p) s).
Proof.
  intros H0 Hp. destruct (Z.eqb_spec p 0) as [->|Hne]; cbn [negb].
  - rewrite run_mret. f_equal. destruct s as [l m a e]. cbn in *. unfold with_nodes. f_equal.
    apply map_eq. intros q. rewrite lookup_alter. case_decide; [subst|done]. cbn. by rewrite H0.
  - destruct (Hp Hne) as [n E]. by rewrite (run_store p n).
Qed.

End run.

(** Run the next commands of a program, the accesses to nodes excepted. *)
Ltac run :=
  repeat first
    [ rewrite run_assoc | rewrite run_mret | rewrite run_field | rewrite run_upd
    | rewrite run_set_nodes | rewrite run_reset | rewrite run_set_errno | rewrite run_size
    | rewrite run_is_empty | rewrite run_get_size ];
  cbn [ll nodes src errno with_ll with_nodes with_src with_errno
    type count sort_count cur_index lock head tail current alive
    set_count set_sort_count set_cur_index set_lock set_head set_tail set_current set_dead
    data prev next].
(** Access a node whose contents are known. *)
Ltac run_at E :=
  first [rewrite (run_load _ _ _ _ _ E) | rewrite (run_store _ _ _ _ _ E)]; run.

(** ** The representation *)

(** The nodes [a] with data [d] are chained both ways. *)
Definition linked (m : gmap Z llist_node) (a d : list Z) : Prop :=
  ∀ i, 0 ≤ i < zlen a →
    m !! zat a i = Some (Node (zat d i) (zat a (i - 1)) (zat a (i + 1))).

(** The cursor [c] points to the node at position [i]. *)
Definition slot_ok (a : list Z) (i : Z) (b : bool) (c : slot) : Prop :=
  match c with
  | SHead => i = 0 ∧ b = false
  | SNext p => 0 < i < zlen a ∧ p = zat a (i - 1) ∧ b = false
  | SPrev p => 0 ≤ i ∧ i + 1 < zlen a ∧ p = zat a (i + 1) ∧ b = true
  end.

(** [X] are the nodes that are allocated but not in the list: the one that is
    being put in, or was taken out and is not freed yet. *)
Record shape {A} `{Allocator A} (X : gset Z) (s : st A) (a d : list Z) : Prop := Shape {
  sh_type : type (ll s) = OBJ_TYPE;
  sh_alive : alive (ll s) = true;
  sh_nodup : NoDup a;
  sh_nonnull : 0 ∉ a;
  sh_data : 0 ∉ d;
  sh_len : zlen d = zlen a;
  sh_small : zlen a < 2147483648;
  sh_extra : X ## list_to_set a;
  sh_dom : dom (nodes s) = X ∪ list_to_set a;
  sh_linked : linked (nodes s) a d;
  sh_head : head (ll s) = zat a 0;
  sh_tail : tail (ll s) = zat a (zlen a - 1);
  sh_count : count (ll s) = zlen a;
  sh_src : al_ok (src s) (X ∪ list_to_set a) }.

Definition rep {A} `{Allocator A} (X : gset Z) (s : st A) (a d : list Z) (i : Z) (b : bool) : Prop :=
  shape X s a d ∧ cur_index (ll s) = i ∧ slot_ok a i b (current (ll s)).

(** What the operations that only look leave as it is. *)
Definition same_list {A} (s s' : st A) : Prop :=
  nodes s' = nodes s ∧ src s' = src s ∧ lock (ll s') = lock (ll s)
  ∧ sort_count (ll s') = sort_count (ll s).

Section lemmas.
Context {A : Type} `{Allocator A} (X : gset Z).
Implicit Types s : st A.

Local Notation shape := (shape X).
Local Notation rep := (rep X).

Lemma shape_nodes s a d : shape s a d → (length a ≤ size (nodes s))%nat.
Proof.
  intros Hs. rewrite <- size_dom. rewrite (sh_dom _ _ _ _ Hs).
  rewrite <- (size_list_to_set (C := gset Z) a) by apply Hs.
  apply subseteq_size. set_solver.
Qed.

Lemma shape_nonnull s a d : shape s a d → nodes s !! 0 = None.
Proof.
  intros Hs. apply not_elem_of_dom. rewrite (sh_dom _ _ _ _ Hs).
  apply (al_nonnull (src s)), Hs.
Qed.

Lemma shape_empty s a d : shape s a d → (0 =? count (ll s)) = bool_decide (a = []).
Proof.
  intros Hs. rewrite (sh_count _ _ _ _ Hs).
  destruct (Z.eqb_spec 0 (zlen a)); case_bool_decide; try done.
  - destruct (zlen_0 a). naive_solver.
  - subst. done.
Qed.

(** A field of the list the invariant does not mention. *)
Lemma shape_ll s a d f :
  shape s a d →
  type (f (ll s)) = type (ll s) → alive (f (ll s)) = alive (ll s) →
  head (f (ll s)) = head (ll s) → tail (f (ll s)) = tail (ll s) →
  count (f (ll s)) = count (ll s) → shape (with_ll f s) a d.
Proof. intros [] ?????. constructor; simpl; try congruence; done. Qed.

Lemma shape_errno s a d e : shape s a d → shape (with_errno e s) a d.
Proof. intros []. by constructor. Qed.

Lemma rep_errno s a d i b e : rep s a d i b → rep (with_errno e s) a d i b.
Proof. intros [Hs ?]. split; [by apply shape_errno|done]. Qed.

Lemma reset_rep s a d : shape s a d →
  reset_cur_node s = Done (tt, with_ll (set_current SHead) (with_ll (set_cur_index 0) s))
  ∧ rep (with_ll (set_current SHead) (with_ll (set_cur_index 0) s)) a d 0 false.
Proof.
  intros Hs. split; [done|]. split; [|done].
  apply shape_ll; [|done..]. by apply shape_ll.
Qed.

(** A node of the list, and its contents. *)
Lemma shape_at s a d i :
  shape s a d → 0 ≤ i < zlen a →
  nodes s !! zat a i = Some (Node (zat d i) (zat a (i - 1)) (zat a (i + 1)))
  ∧ zat a i ≠ 0.
Proof.
  intros Hs Hi. split; [by apply Hs|]. intros E. apply zat_0 in E; [lia|apply Hs].
Qed.

(** The cursor reads the node at its position. *)
Lemma at_current_ok s a d i b :
  rep s a d i b → at_current s = Done (zat a i, s).
Proof.
  intros (Hs & Hi & Hc). unfold at_current. run.
  destruct (current (ll s)) as [|p|p]; simpl in Hc.
  - destruct Hc as [-> _]. unfold field. crun. unfold compose. by rewrite (sh_head _ _ _ _ Hs).
  - destruct Hc as (Hr & -> & _).
    destruct (shape_at s a d (i - 1) Hs) as [E _]; [lia|]. rewrite (load_ok _ _ _ _ E).
    cbn. do 3 f_equal. lia.
  - destruct Hc as (? & ? & -> & _).
    destruct (shape_at s a d (i + 1) Hs) as [E _]; [lia|]. rewrite (load_ok _ _ _ _ E).
    cbn. do 3 f_equal. lia.
Qed.

Lemma run_at_current {D} (f : Z → C (st A) D) s a d i b :
  rep s a d i b → (at_current ≫= f) s = f (zat a i) s.
Proof. intros Hr. by rewrite (bind_Done _ _ _ _ _ (at_current_ok _ _ _ _ _ Hr)). Qed.

Lemma rep_range s a d i b : rep s a d i b → 0 ≤ i ∧ (i < zlen a ∨ i = 0 ∧ a = []).
Proof.
  intros (Hs & Hi & Hc). pose proof (zlen_nonneg a).
  destruct (current (ll s)); simpl in Hc; [|lia..]. split; [lia|].
  destruct (decide (zlen a = 0)) as [E%zlen_0|]; [|lia]. right. split; [lia|done].
Qed.

(** ** Steps of the cursor *)

Lemma forward_ok s a d i b :
  rep s a d i b → i + 1 < zlen a →
  ∃ s', forward s = Done (tt, s') ∧ rep s' a d (i + 1) false ∧ same_list s s'
    ∧ errno s' = errno s.
Proof.
  intros Hr Hi. pose proof (rep_range _ _ _ _ _ Hr). unfold forward.
  rewrite (run_at_current _ _ _ _ _ _ Hr). destruct Hr as (Hs & Ei & Hc).
  destruct (shape_at s a d i Hs) as [E _]; [lia|]. run_at E. run.
  eexists. split; [done|]. split; [|done]. split; [|split].
  - apply shape_ll; [by apply shape_ll|done..].
  - cbn. rewrite Ei. apply s32_small. pose proof (sh_small _ _ _ _ Hs). lia.
  - cbn. split_and!; [lia..| |done]. f_equal. lia.
Qed.

Lemma backward_ok s a d i b :
  rep s a d i b → 0 < i →
  ∃ s', backward s = Done (tt, s') ∧ rep s' a d (i - 1) true ∧ same_list s s'
    ∧ errno s' = errno s.
Proof.
  intros Hr Hi. pose proof (rep_range _ _ _ _ _ Hr). unfold backward.
  rewrite (run_at_current _ _ _ _ _ _ Hr). destruct Hr as (Hs & Ei & Hc).
  assert (i < zlen a) by (destruct (zlen_0 a); naive_solver lia).
  destruct (shape_at s a d i Hs) as [E _]; [lia|]. run_at E. run.
  eexists. split; [done|]. split; [|done]. split; [|split].
  - apply shape_ll; [by apply shape_ll|done..].
  - cbn. rewrite Ei. apply s32_small. pose proof (sh_small _ _ _ _ Hs). lia.
  - cbn. split_and!; [lia..| |done]. f_equal. lia.
Qed.



(** ** Walks and searches *)

Lemma same_list_refl s : same_list s s.
Proof. done. Qed.

Lemma same_list_trans s1 s2 s3 : same_list s1 s2 → same_list s2 s3 → same_list s1 s3.
Proof. intros (? & ? & ? & ?) (? & ? & ? & ?). split_and!; congruence. Qed.

Lemma walk_forward_ok fuel s a d i b j :
  rep s a d i b → i < j < zlen a → fuel = Z.to_nat (j - i) →
  ∃ s', walk fuel forward j s = Done (tt, s') ∧ rep s' a d j false ∧ same_list s s'
    ∧ errno s' = errno s.
Proof.
  revert s i b. induction fuel as [|fuel IH]; intros s i b Hr Hj Hf; [lia|].
  simpl. run. pose proof Hr as (_ & -> & _). destruct (Z.eqb_spec j i); [lia|].
  destruct (forward_ok _ _ _ _ _ Hr) as (s1 & E & Hr1 & Hs1 & He1); [lia|].
  rewrite (bind_Done _ _ _ _ _ E). destruct (decide (i + 1 = j)) as [<-|].
  - exists s1. split; [|done]. destruct fuel; simpl; run; pose proof Hr1 as (_ & -> & _);
      by rewrite Z.eqb_refl.
  - destruct (IH s1 (i + 1) false Hr1) as (s2 & -> & Hr2 & Hs2 & He2); [lia..|].
    exists s2. split; [done|]. split; [done|].
    split; [by eapply same_list_trans|congruence].
Qed.

Lemma walk_backward_ok fuel s a d i b j :
  rep s a d i b → 0 ≤ j < i → fuel = Z.to_nat (i - j) →
  ∃ s', walk fuel backward j s = Done (tt, s') ∧ rep s' a d j true ∧ same_list s s'
    ∧ errno s' = errno s.
Proof.
  revert s i b. induction fuel as [|fuel IH]; intros s i b Hr Hj Hf; [lia|].
  simpl. run. pose proof Hr as (_ & -> & _). destruct (Z.eqb_spec j i); [lia|].
  destruct (backward_ok _ _ _ _ _ Hr) as (s1 & E & Hr1 & Hs1 & He1); [lia|].
  rewrite (bind_Done _ _ _ _ _ E). destruct (decide (i - 1 = j)) as [<-|].
  - exists s1. split; [|done]. destruct fuel; simpl; run; pose proof Hr1 as (_ & -> & _);
      by rewrite Z.eqb_refl.
  - destruct (IH s1 (i - 1) true Hr1) as (s2 & -> & Hr2 & Hs2 & He2); [lia..|].
    exists s2. split; [done|]. split; [done|].
    split; [by eapply same_list_trans|congruence].
Qed.

(** Where the cursor is after [get_node_of j]. *)
Definition cursor_after (i : Z) (b : bool) (j : Z) : bool :=
  if j =? i then b else j <? i.

Lemma get_node_of_ok s a d i b j :
  rep s a d i b → 0 ≤ j < zlen a →
  ∃ s', get_node_of j s = Done (zat a j, s') ∧ rep s' a d j (cursor_after i b j)
    ∧ same_list s s' ∧ errno s' = errno s.
Proof.
  intros Hr Hj. unfold get_node_of, cursor_after. run.
  pose proof Hr as (_ & -> & _). destruct (Z.eqb_spec j i) as [->|Hne].
  - exists s. by rewrite (at_current_ok _ _ _ _ _ Hr).
  - destruct (Z.ltb_spec i j), (Z.ltb_spec j i); try lia.
    + destruct (walk_forward_ok _ s a d i b j Hr ltac:(lia) eq_refl) as (s' & E & Hr' & Hs & He).
      rewrite (bind_Done _ _ _ _ _ E), (at_current_ok _ _ _ _ _ Hr'). eauto.
    + destruct (walk_backward_ok _ s a d i b j Hr ltac:(lia) eq_refl) as (s' & E & Hr' & Hs & He).
      rewrite (bind_Done _ _ _ _ _ E), (at_current_ok _ _ _ _ _ Hr'). eauto.
Qed.

Lemma get_next_ok s a d i b :
  rep s a d i b →
  if i + 1 <? zlen a then
    ∃ s', get_next s = Done (zat a (i + 1), s') ∧ rep s' a d (i + 1) false
      ∧ same_list s s' ∧ errno s' = errno s
  else get_next s = Done (0, s).
Proof.
  intros Hr. pose proof (rep_range _ _ _ _ _ Hr) as [Hi Hlt]. unfold get_next.
  rewrite (run_at_current _ _ _ _ _ _ Hr). destruct (Z.ltb_spec (i + 1) (zlen a)) as [Hn|Hn].
  - destruct (shape_at s a d i (proj1 Hr) ltac:(lia)) as [E Hp].
    destruct (shape_at s a d (i + 1) (proj1 Hr) ltac:(lia)) as [_ Hp'].
    destruct (Z.eqb_spec (zat a i) 0); [done|]. run_at E.
    destruct (Z.eqb_spec (zat a (i + 1)) 0); [done|].
    destruct (forward_ok _ _ _ _ _ Hr Hn) as (s' & Ef & Hr' & Hs & He).
    rewrite (bind_Done _ _ _ _ _ Ef), (at_current_ok _ _ _ _ _ Hr'). by exists s'.
  - destruct (Z.eqb_spec (zat a i) 0); [done|].
    destruct (decide (i < zlen a)); [|destruct n; apply zat_out; lia].
    destruct (shape_at s a d i (proj1 Hr) ltac:(lia)) as [E Hp]. run_at E.
    by rewrite (zat_out a (i + 1)) by lia.
Qed.

Lemma get_prev_ok s a d i b :
  rep s a d i b →
  if 0 <? i then
    ∃ s', get_prev s = Done (zat a (i - 1), s') ∧ rep s' a d (i - 1) true
      ∧ same_list s s' ∧ errno s' = errno s
  else get_prev s = Done (0, s).
Proof.
  intros Hr. pose proof (rep_range _ _ _ _ _ Hr) as [Hi Hlt]. unfold get_prev.
  rewrite (run_at_current _ _ _ _ _ _ Hr). destruct (Z.ltb_spec 0 i) as [Hn|Hn].
  - destruct (shape_at s a d i (proj1 Hr) ltac:(lia)) as [E Hp].
    destruct (shape_at s a d (i - 1) (proj1 Hr) ltac:(lia)) as [_ Hp'].
    destruct (Z.eqb_spec (zat a i) 0); [done|]. run_at E.
    destruct (Z.eqb_spec (zat a (i - 1)) 0); [done|].
    destruct (backward_ok _ _ _ _ _ Hr Hn) as (s' & Ef & Hr' & Hs & He).
    rewrite (bind_Done _ _ _ _ _ Ef), (at_current_ok _ _ _ _ _ Hr'). by exists s'.
  - destruct (Z.eqb_spec (zat a i) 0); [done|].
    destruct (decide (i < zlen a)); [|destruct n; apply zat_out; lia].
    destruct (shape_at s a d i (proj1 Hr) ltac:(lia)) as [E Hp]. run_at E.
    by rewrite (zat_out a (i - 1)) by lia.
Qed.

Section scan.
Context {R : Type} (visit : Z → C (st A) (option R)) (a d : list Z).

Lemma scan_empty fuel s i b : rep s a d i b → a = [] → scan_loop fuel visit s = Done (None, s).
Proof.
  intros Hr ->. destruct fuel; simpl; rewrite (run_at_current _ _ _ _ _ _ Hr);
    by rewrite zat_out by (unfold zlen; simpl; lia).
Qed.

Lemma scan_hit fuel s i b x s' :
  rep s a d i b → i < zlen a → visit (zat a i) s = Done (Some x, s') →
  scan_loop fuel visit s = Done (Some x, s').
Proof.
  intros Hr Hi Hv. pose proof (rep_range _ _ _ _ _ Hr).
  destruct (shape_at s a d i (proj1 Hr) ltac:(lia)) as [_ Hp].
  destruct fuel; simpl; rewrite (run_at_current _ _ _ _ _ _ Hr);
    (destruct (Z.eqb_spec (zat a i) 0); [done|]); by rewrite (bind_Done _ _ _ _ _ Hv).
Qed.

Lemma scan_miss fuel s i b :
  rep s a d i b → i < zlen a → visit (zat a i) s = Done (None, s) →
  scan_loop fuel visit s =
    if zlen a =? i + 1 then Done (None, s)
    else match fuel with
         | O => Hangs
         | Datatypes.S fuel => (forward;; scan_loop fuel visit) s
         end.
Proof.
  intros Hr Hi Hv. pose proof (rep_range _ _ _ _ _ Hr).
  destruct (shape_at s a d i (proj1 Hr) ltac:(lia)) as [E Hp].
  destruct fuel; simpl; rewrite (run_at_current _ _ _ _ _ _ Hr);
    (destruct (Z.eqb_spec (zat a i) 0); [done|]); rewrite (bind_Done _ _ _ _ _ Hv);
    rewrite (run_at_current _ _ _ _ _ _ Hr); run_at E;
    (assert ((zat a (i + 1) =? 0) = (zlen a =? i + 1)) as ->; [|by destruct (zlen a =? i + 1)]);
    apply eq_true_iff_eq; rewrite !Z.eqb_eq, zat_0 by apply (proj1 Hr); lia.
Qed.

(** A search from position [i]: [stop] tells where [visit] answers, and until
    then [visit] changes nothing. *)
Lemma scan_loop_ok (stop : Z → bool) fuel s i :
  (∀ s k, rep s a d k false → 0 ≤ k < zlen a → stop k = false →
          visit (zat a k) s = Done (None, s)) →
  rep s a d i false → zlen a ≤ i + 1 + Z.of_nat fuel →
  (∃ j s1, i ≤ j < zlen a ∧ stop j = true ∧ (∀ k, i ≤ k < j → stop k = false)
      ∧ rep s1 a d j false ∧ same_list s s1 ∧ errno s1 = errno s
      ∧ ∀ x s2, visit (zat a j) s1 = Done (Some x, s2) →
                scan_loop fuel visit s = Done (Some x, s2))
  ∨ ((∀ k, i ≤ k < zlen a → stop k = false)
      ∧ ∃ s1, scan_loop fuel visit s = Done (None, s1)
              ∧ rep s1 a d (Z.max i (zlen a - 1)) false ∧ same_list s s1
              ∧ errno s1 = errno s).
Proof.
  intros Hmiss. revert s i. induction fuel as [|fuel IH]; intros s i Hr Hf;
    pose proof (rep_range _ _ _ _ _ Hr) as [Hi [Hlt|[-> Ha]]].
  2,4: right; split; [subst; unfold zlen; simpl; lia|]; exists s;
    rewrite (scan_empty _ _ _ _ Hr) by done; by subst.
  all: destruct (stop i) eqn:Es;
    [left; exists i, s; split_and!; try (done || lia); intros x s2; by apply (scan_hit _ _ i false)|].
  all: pose proof (Hmiss s i Hr ltac:(lia) Es) as Hv;
    rewrite (scan_miss _ _ _ _ Hr Hlt Hv).
  all: destruct (Z.eqb_spec (zlen a) (i + 1)) as [El|]; [|try lia].
  1,2: right; split; [intros k ?; by replace k with i by lia|]; exists s;
    by replace (Z.max i (zlen a - 1)) with i by lia.
  destruct (forward_ok _ _ _ _ _ Hr) as (s1 & E & Hr1 & Hs1 & He1); [lia|].
  rewrite (bind_Done _ _ _ _ _ E).
  destruct (IH s1 (i + 1) Hr1) as [(j & s2 & ? & ? & Hk & ? & ? & ? & ?)|[Hk (s2 & ? & Hr2 & ? & ?)]];
    [lia| |].
  - left. exists j, s2. split_and!; try (done || lia || congruence).
    + intros k ?. destruct (decide (k = i)) as [->|]; [done|]. apply Hk. lia.
    + by eapply same_list_trans.
  - right. split.
    + intros k ?. destruct (decide (k = i)) as [->|]; [done|]. apply Hk. lia.
    + exists s2. replace (Z.max (i + 1) (zlen a - 1)) with (Z.max i (zlen a - 1)) in Hr2 by lia.
      split_and!; try (done || congruence). by eapply same_list_trans.
Qed.

(** The whole search, by the data of the nodes. *)
Lemma scan_ok (f : Z → bool) s :
  shape s a d →
  (∀ s k, rep s a d k false → 0 ≤ k < zlen a → f (zat d k) = false →
          visit (zat a k) s = Done (None, s)) →
  match zfind f d with
  | Some j =>
      ∃ s1, rep s1 a d j false ∧ same_list s s1 ∧ errno s1 = errno s
        ∧ ∀ x s2, visit (zat a j) s1 = Done (Some x, s2) →
                  scan visit s = Done (Some x, s2)
  | None =>
      ∃ s1, scan visit s = Done (None, s1) ∧ rep s1 a d (Z.max 0 (zlen a - 1)) false
        ∧ same_list s s1 ∧ errno s1 = errno s
  end.
Proof.
  intros Hs Hmiss. unfold scan. destruct (reset_rep _ _ _ Hs) as [E Hr].
  rewrite (bind_Done _ _ _ _ _ E). run. pose proof (shape_nodes _ _ _ Hs) as Hn.
  cbn [nodes with_ll].
  destruct (scan_loop_ok (λ k, f (zat d k)) (size (nodes s)) _ 0 Hmiss Hr)
    as [(j & s1 & ? & Hj & Hk & ? & ? & ? & ?)|[Hk (s1 & ? & ? & ? & ?)]].
  - unfold zlen. lia.
  - assert (zfind f d = Some j) as ->.
    { apply zfind_Some. rewrite (sh_len _ _ _ _ Hs). auto. }
    exists s1. split_and!; try done; by apply same_list_trans with s.
  - assert (zfind f d = None) as ->.
    { apply zfind_None. rewrite (sh_len _ _ _ _ Hs). auto. }
    exists s1. split_and!; try done; by apply same_list_trans with s.
Qed.

End scan.

End lemmas.

(** ** Insertion and removal in the chain *)

(** The chain with [x] put in at [i]: only the neighbours of the place change. *)
Lemma linked_ins m m' a d i x v :
  linked m a d → NoDup a → 0 ∉ a → x ∉ a → zlen d = zlen a → 0 ≤ i ≤ zlen a →
  m' !! x = Some (Node v (zat a (i - 1)) (zat a i)) →
  (∀ q n, q ∈ a → m !! q = Some n → m' !! q = Some (Node (data n)
     (if decide (q = zat a i) then x else prev n)
     (if decide (q = zat a (i - 1)) then x else next n))) →
  linked m' (zins i x a) (zins i v d).
Proof.
  intros Hl Hnd H0 Hx Hd Hi Hmx Hm j Hj. rewrite zlen_ins in Hj by lia.
  rewrite !zat_ins by lia.
  assert (∀ k, 0 ≤ k < zlen a → m' !! zat a k = Some (Node (zat d k)
    (if k =? i then x else zat a (k - 1)) (if k =? i - 1 then x else zat a (k + 1)))) as Hk.
  { intros k Hk. rewrite (Hm _ _ (zat_elem a k Hk) (Hl k Hk)). cbn [data prev next].
    by rewrite !zat_decide by done. }
  destruct (Z.ltb_spec j i); [|destruct (Z.eqb_spec j i) as [->|]]; [| |].
  - rewrite Hk by lia. f_equal. f_equal; zbool_cases; try lia; done.
  - rewrite Hmx. f_equal. f_equal; zbool_cases; try lia; f_equal; lia.
  - rewrite Hk by lia. f_equal. f_equal; zbool_cases; try lia; f_equal; lia.
Qed.

(** The chain without the node at [i]. *)
Lemma linked_del m m' a d i :
  linked m a d → NoDup a → 0 ∉ a → zlen d = zlen a → 0 ≤ i < zlen a →
  (∀ q n, q ∈ a → q ≠ zat a i → m !! q = Some n → m' !! q = Some (Node (data n)
     (if decide (q = zat a (i + 1)) then zat a (i - 1) else prev n)
     (if decide (q = zat a (i - 1)) then zat a (i + 1) else next n))) →
  linked m' (zdel i a) (zdel i d).
Proof.
  intros Hl Hnd H0 Hd Hi Hm j Hj. rewrite zlen_del in Hj by lia.
  rewrite !zat_del by lia.
  assert (∀ k, 0 ≤ k < zlen a → k ≠ i → m' !! zat a k = Some (Node (zat d k)
    (if k =? i + 1 then zat a (i - 1) else zat a (k - 1))
    (if k =? i - 1 then zat a (i + 1) else zat a (k + 1)))) as Hk.
  { intros k Hk Hne.
    rewrite (Hm _ (Node (zat d k) (zat a (k - 1)) (zat a (k + 1))) (zat_elem a k Hk));
      [by cbn [data prev next]; rewrite !zat_decide|intros E%zat_eq; done|by apply Hl]. }
  destruct (Z.ltb_spec j i); rewrite Hk by lia; f_equal; f_equal; zbool_cases; try lia;
    f_equal; lia.
Qed.

(** What an insertion or a removal leaves as it is. *)
Definition kept {A} (s s' : st A) : Prop :=
  lock (ll s') = lock (ll s) ∧ sort_count (ll s') = sort_count (ll s).

Definition kept_src {A} (s s' : st A) : Prop := kept s s' ∧ src s' = src s.

Lemma kept_trans {A} (s1 s2 s3 : st A) : kept s1 s2 → kept s2 s3 → kept s1 s3.
Proof. intros [] []. split; congruence. Qed.
Lemma same_kept {A} (s s' : st A) : same_list s s' → kept s s'.
Proof. by intros (_ & _ & ? & ?). Qed.

Section change.
Context {A : Type} `{Allocator A}.
Implicit Types s : st A.

Lemma shape_ins s s' a d x v j :
  shape {[x]} s a d → v ≠ 0 → 0 ≤ j ≤ zlen a → zlen a + 1 < 2147483648 →
  type (ll s') = type (ll s) → alive (ll s') = alive (ll s) → src s' = src s →
  count (ll s') = zlen a + 1 → dom (nodes s') = dom (nodes s) →
  nodes s' !! x = Some (Node v (zat a (j - 1)) (zat a j)) →
  (∀ q n, q ∈ a → nodes s !! q = Some n → nodes s' !! q = Some (Node (data n)
     (if decide (q = zat a j) then x else prev n)
     (if decide (q = zat a (j - 1)) then x else next n))) →
  head (ll s') = (if j =? 0 then x else zat a 0) →
  tail (ll s') = (if j =? zlen a then x else zat a (zlen a - 1)) →
  shape ∅ s' (zins j x a) (zins j v d).
Proof.
  intros Hs Hv Hj Hsm Ht Ha Hsrc Hc Hdom Hx Hq Hh Htl.
  assert (x ∉ a) as Hxa by (pose proof (sh_extra _ _ _ _ Hs); set_solver).
  assert (x ≠ 0) as Hx0.
  { intros ->. apply (al_nonnull (src s) _ (sh_src _ _ _ _ Hs)). set_solver. }
  pose proof (zlen_ins j x a Hj) as Hlen. pose proof (sh_len _ _ _ _ Hs) as Hld.
  assert (list_to_set (zins j x a) = {[x]} ∪ list_to_set a :> gset Z) as Eset.
  { by rewrite (list_to_set_perm_L _ _ (zins_Permutation j x a)). }
  constructor.
  - rewrite Ht. apply Hs.
  - rewrite Ha. apply Hs.
  - rewrite zins_Permutation. apply NoDup_cons. split; [done|apply Hs].
  - rewrite zins_Permutation, elem_of_cons. pose proof (sh_nonnull _ _ _ _ Hs). naive_solver.
  - rewrite zins_Permutation, elem_of_cons. pose proof (sh_data _ _ _ _ Hs). naive_solver.
  - rewrite !zlen_ins; lia.
  - lia.
  - set_solver.
  - rewrite Hdom, Eset, (sh_dom _ _ _ _ Hs). set_solver.
  - by apply (linked_ins (nodes s)); try apply Hs.
  - rewrite Hh, zat_ins by lia. zbool_cases; try lia; done.
  - rewrite Htl, zat_ins by lia. rewrite Hlen. zbool_cases; try lia; f_equal; lia.
  - lia.
  - rewrite Hsrc, Eset, (left_id_L ∅ (∪)). apply Hs.
Qed.

Lemma shape_del s s' a d j :
  shape ∅ s a d → 0 ≤ j < zlen a →
  type (ll s') = type (ll s) → alive (ll s') = alive (ll s) → src s' = src s →
  count (ll s') = zlen a - 1 → dom (nodes s') = dom (nodes s) →
  (∀ q n, q ∈ a → q ≠ zat a j → nodes s !! q = Some n → nodes s' !! q = Some (Node (data n)
     (if decide (q = zat a (j + 1)) then zat a (j - 1) else prev n)
     (if decide (q = zat a (j - 1)) then zat a (j + 1) else next n))) →
  head (ll s') = (if j =? 0 then zat a 1 else zat a 0) →
  tail (ll s') = (if j =? zlen a - 1 then zat a (j - 1) else zat a (zlen a - 1)) →
  shape {[zat a j]} s' (zdel j a) (zdel j d).
Proof.
  intros Hs Hj Ht Ha Hsrc Hc Hdom Hq Hh Htl.
  pose proof (sh_len _ _ _ _ Hs) as Hld. pose proof (zlen_del j a Hj) as Hlen.
  pose proof (zdel_Permutation j a Hj) as Ep.
  pose proof (zdel_Permutation j d ltac:(lia)) as Ed.
  assert (zat a j ∉ zdel j a ∧ NoDup (zdel j a)) as [Hnin Hnd].
  { apply NoDup_cons. rewrite <- Ep. apply Hs. }
  assert ({[zat a j]} ∪ list_to_set (zdel j a) = list_to_set a :> gset Z) as Eset.
  { by rewrite (list_to_set_perm_L _ _ Ep). }
  constructor.
  - rewrite Ht. apply Hs.
  - rewrite Ha. apply Hs.
  - done.
  - pose proof (sh_nonnull _ _ _ _ Hs) as H0. rewrite Ep, elem_of_cons in H0. naive_solver.
  - pose proof (sh_data _ _ _ _ Hs) as H0. rewrite Ed, elem_of_cons in H0. naive_solver.
  - rewrite !zlen_del; lia.
  - pose proof (sh_small _ _ _ _ Hs). lia.
  - set_solver.
  - rewrite Hdom, Eset, (sh_dom _ _ _ _ Hs). set_solver.
  - by apply (linked_del (nodes s)); try apply Hs.
  - rewrite Hh, zat_del by lia. zbool_cases; try lia; done.
  - rewrite Htl, zat_del by lia. rewrite Hlen. zbool_cases; try lia; f_equal; lia.
  - lia.
  - rewrite Hsrc, Eset. pose proof (sh_src _ _ _ _ Hs) as Hal. by rewrite (left_id_L ∅ (∪)) in Hal.
Qed.

(** ** Nodes come and go *)

Lemma new_node_ok s a d i b v :
  rep ∅ s a d i b →
  ∃ p s', new_node v s = Done (p, s') ∧ kept s s' ∧
    ((p = 0 ∧ rep ∅ s' a d i b ∧ errno s' = ENOMEM)
     ∨ (p ≠ 0 ∧ rep {[p]} s' a d i b ∧ errno s' = errno s
        ∧ nodes s' !! p = Some (Node v 0 0))).
Proof.
  intros (Hs & Hi & Hc). unfold new_node, take_block.
  pose proof (sh_src _ _ _ _ Hs) as Hal.
  destruct (al_new_spec _ _ Hal) as (p & a' & E & Hp).
  assert (∀ f : Z → C (st A) Z, ((λ s0 : st A, match al_new (src s0) with
    | Done (q, b') => Done (q, with_src b' s0) | Aborts => Aborts | Hangs => Hangs
    | Undefined => Undefined end) ≫= f) s = f p (with_src a' s)) as ->.
  { intros f. unfold mbind, C_bind. by rewrite E. }
  destruct Hp as [[-> Hok]|(Hp0 & Hnin & Hok)].
  - exists 0. eexists. split; [done|]. split; [done|]. left. split; [done|].
    split; [|done]. split; [|done]. destruct Hs. by constructor.
  - destruct (Z.eqb_spec p 0); [done|]. exists p. eexists. split; [done|]. split; [done|].
    right. split; [done|]. split; [|split; [done|apply lookup_insert_eq]].
    split; [|done]. pose proof (sh_dom _ _ _ _ Hs) as Hdom.
    destruct Hs. constructor; cbn; try done.
    + set_solver.
    + rewrite dom_insert_L, Hdom. set_solver.
    + intros k Hk. rewrite lookup_insert_ne; [by apply sh_linked0|].
      intros ->. apply Hnin. pose proof (zat_elem a k Hk). set_solver.
    + by rewrite (left_id_L ∅ (∪)) in Hok.
Qed.

Lemma free_node_ok s a d i b p :
  rep {[p]} s a d i b → p ≠ 0 →
  ∃ s', free_node p s = Done (tt, s') ∧ rep ∅ s' a d i b ∧ kept s s' ∧ errno s' = errno s.
Proof.
  intros (Hs & Hi & Hc) Hp. unfold free_node. destruct (Z.eqb_spec p 0); [done|].
  pose proof (sh_src _ _ _ _ Hs) as Hal. pose proof (sh_extra _ _ _ _ Hs) as Hx.
  pose proof (sh_dom _ _ _ _ Hs) as Hdom.
  destruct (al_release_spec _ _ p Hal) as (a' & -> & Hok); [set_solver|].
  assert (({[p]} ∪ list_to_set a) ∖ {[p]} = ∅ ∪ list_to_set a :> gset Z) as Eset by set_solver.
  eexists. split; [done|]. split; [|done]. split; [|done].
  destruct Hs. constructor; cbn; try done.
  - rewrite dom_delete_L, Hdom. set_solver.
  - intros k Hk. rewrite lookup_delete_ne; [by apply sh_linked0|].
    intros ->. pose proof (zat_elem a k Hk). set_solver.
  - by rewrite <- Eset.
Qed.

(** ** [push_at] *)

(** The cursor says [i] and points to the node at [k]. *)
Definition cursor s (a : list Z) (i k : Z) (b : bool) : Prop :=
  cur_index (ll s) = i ∧ slot_ok a k b (current (ll s)).

(** Look up in a map that was updated at known places. *)
Local Ltac lookups E :=
  rewrite ?lookup_alter, ?lookup_insert; repeat case_decide; subst; rewrite ?E;
  simpl; try congruence.

(** The extra node is no node of the list. *)
Lemma extra_ne s a d x j :
  shape {[x]} s a d → 0 ≤ j < zlen a → zat a j ≠ x.
Proof.
  intros Hs Hj E. pose proof (sh_extra _ _ _ _ Hs). pose proof (zat_elem a j Hj). set_solver.
Qed.

Lemma elem_ne a q j : 0 ∉ a → q ∈ a → j < 0 ∨ zlen a ≤ j → q ≠ zat a j.
Proof. intros H0 Hq Hj ->. by rewrite (zat_out a j) in Hq. Qed.

Lemma push_empty s x v d i b :
  rep {[x]} s [] d i b → nodes s !! x = Some (Node v 0 0) → v ≠ 0 →
  ∃ s', push_at 0 x s = Done (CPLUS_SUCCESS, s') ∧ shape ∅ s' [x] (zins 0 v d)
    ∧ cursor s' [x] 0 0 false ∧ kept_src s s' ∧ errno s' = errno s.
Proof.
  intros (Hs & _) Ex Hv. unfold push_at, is_empty. run.
  rewrite (sh_count _ _ _ _ Hs). change (0 =? zlen []) with true. cbv iota. run.
  change (CPLUS_SUCCESS =? CPLUS_SUCCESS) with true. cbv iota. run.
  rewrite (sh_count _ _ _ _ Hs).
  eexists. split; [reflexivity|]. split; [|done].
  change [x] with (zins 0 x []).
  apply (shape_ins s); cbn; try (done || lia). intros q n Hq%elem_of_nil. done.
Qed.

Lemma push_head s a d i b x v :
  rep {[x]} s a d i b → nodes s !! x = Some (Node v 0 0) → v ≠ 0 →
  0 < zlen a → zlen a + 1 < 2147483648 →
  ∃ s', push_at 0 x s = Done (CPLUS_SUCCESS, s')
    ∧ shape ∅ s' (zins 0 x a) (zins 0 v d) ∧ cursor s' (zins 0 x a) 0 0 false
    ∧ kept_src s s' ∧ errno s' = errno s.
Proof.
  intros (Hs & _) Ex Hv Ha Hsm. unfold push_at. run.
  rewrite (sh_count _ _ _ _ Hs). destruct (Z.eqb_spec 0 (zlen a)); [lia|]. cbv iota. run.
  change (0 =? 0) with true. cbv iota. run. rewrite (sh_head _ _ _ _ Hs).
  destruct (shape_at _ s a d 0 Hs ltac:(lia)) as [E0 _].
  pose proof (extra_ne s a d x 0 Hs ltac:(lia)) as Hne. run_at E0.
  erewrite (run_store x (Node v 0 0)) by (cbn; by lookups Ex). run.
  change (CPLUS_SUCCESS =? CPLUS_SUCCESS) with true. cbv iota. run.
  rewrite (sh_count _ _ _ _ Hs).
  eexists. split; [reflexivity|]. split; [|done].
  apply (shape_ins s); cbn; try (done || lia).
  - rewrite u32_small; lia.
  - by rewrite !dom_alter_L.
  - by lookups Ex.
  - intros q [] Hq E. pose proof (elem_ne a q (-1) (sh_nonnull _ _ _ _ Hs) Hq ltac:(lia)).
    change (0 - 1) with (-1). assert (q ≠ x) by (intros ->; pose proof (sh_extra _ _ _ _ Hs); set_solver).
    by lookups E.
  - destruct (Z.eqb_spec 0 (zlen a)); [lia|]. apply Hs.
Qed.

Lemma elem_extra s a d x q : shape {[x]} s a d → q ∈ a → q ≠ x.
Proof. intros Hs Hq ->. pose proof (sh_extra _ _ _ _ Hs). set_solver. Qed.

Lemma count_index s X a d j :
  shape X s a d → 0 ≤ j ≤ zlen a → (count (ll s) =? u32 j) = (j =? zlen a).
Proof.
  intros Hs Hj. pose proof (sh_small _ _ _ _ Hs).
  rewrite (sh_count _ _ _ _ Hs), u32_small by lia. apply Z.eqb_sym.
Qed.

Lemma push_tail s a d i b x v :
  rep {[x]} s a d i b → nodes s !! x = Some (Node v 0 0) → v ≠ 0 →
  0 < zlen a → zlen a + 1 < 2147483648 →
  ∃ s', push_at (zlen a) x s = Done (CPLUS_SUCCESS, s')
    ∧ shape ∅ s' (zins (zlen a) x a) (zins (zlen a) v d)
    ∧ cursor s' (zins (zlen a) x a) 0 0 false ∧ kept_src s s' ∧ errno s' = errno s.
Proof.
  intros (Hs & _) Ex Hv Ha Hsm. unfold push_at. run.
  rewrite (sh_count _ _ _ _ Hs).
  destruct (Z.eqb_spec 0 (zlen a)); [lia|]. cbv iota. run.
  rewrite (count_index s _ a d (zlen a) Hs), Z.eqb_refl by lia. run. rewrite (sh_tail _ _ _ _ Hs).
  destruct (shape_at _ s a d (zlen a - 1) Hs ltac:(lia)) as [E0 _].
  pose proof (extra_ne s a d x (zlen a - 1) Hs ltac:(lia)) as Hne. run_at E0.
  erewrite (run_store x (Node v 0 0)) by (cbn; by lookups Ex). run.
  change (CPLUS_SUCCESS =? CPLUS_SUCCESS) with true. cbv iota. run.
  rewrite (sh_count _ _ _ _ Hs).
  eexists. split; [reflexivity|]. split; [|done].
  apply (shape_ins s); cbn; try (done || lia).
  - rewrite u32_small; lia.
  - by rewrite !dom_alter_L.
  - rewrite (zat_out a (zlen a)) by lia. by lookups Ex.
  - intros q [] Hq E. pose proof (elem_ne a q (zlen a) (sh_nonnull _ _ _ _ Hs) Hq ltac:(lia)).
    pose proof (elem_extra _ _ _ _ _ Hs Hq). by lookups E.
  - destruct (Z.eqb_spec (zlen a) 0); [lia|]. apply Hs.
  - by rewrite Z.eqb_refl.
Qed.

Lemma push_mid s a d i b x v j :
  rep {[x]} s a d i b → nodes s !! x = Some (Node v 0 0) → v ≠ 0 →
  0 < j < zlen a → zlen a + 1 < 2147483648 →
  ∃ s', push_at j x s = Done (CPLUS_SUCCESS, s')
    ∧ shape ∅ s' (zins j x a) (zins j v d)
    ∧ cursor s' (zins j x a) j (if cursor_after i b j then j + 1 else j) (cursor_after i b j)
    ∧ kept_src s s' ∧ errno s' = errno s.
Proof.
  intros Hr Ex Hv Hj Hsm. unfold push_at. run.
  pose proof (proj1 Hr) as Hs0.
  rewrite (sh_count _ _ _ _ Hs0).
  destruct (Z.eqb_spec 0 (zlen a)); [lia|]. cbv iota. run.
  rewrite (count_index s _ a d j Hs0) by lia.
  destruct (Z.eqb_spec 0 j); [lia|]. destruct (Z.eqb_spec j (zlen a)); [lia|]. run.
  destruct (get_node_of_ok _ s a d i b j Hr ltac:(lia)) as (s1 & E1 & (Hs & Hi1 & Hc1) & Hsame & He).
  rewrite (bind_Done _ _ _ _ _ E1). pose proof Hsame as (En & _). rewrite <- En in Ex.
  destruct (shape_at _ s1 a d j Hs ltac:(lia)) as [Ej Hj0].
  destruct (shape_at _ s1 a d (j - 1) Hs ltac:(lia)) as [Ep Hp0].
  pose proof (elem_extra _ _ _ _ _ Hs (zat_elem a j ltac:(lia))) as Hjx.
  pose proof (elem_extra _ _ _ _ _ Hs (zat_elem a (j - 1) ltac:(lia))) as Hpx.
  assert (zat a j ≠ zat a (j - 1)) as Hjp
    by (intros E%zat_inj; [lia|apply Hs|lia..]).
  destruct (Z.eqb_spec (zat a j) 0); [done|]. run. run_at Ex.
  erewrite run_load by (cbn; by lookups Ej). run.
  erewrite run_store by (cbn; by lookups Ex). run.
  erewrite run_load by (cbn; by lookups Ej). run.
  erewrite run_store by (cbn; by lookups Ep). run.
  erewrite run_store by (cbn; by lookups Ej). run.
  change (CPLUS_SUCCESS =? CPLUS_SUCCESS) with true. cbv iota. run.
  rewrite (sh_count _ _ _ _ Hs).
  eexists. split; [reflexivity|]. split; [|split; [|split; [|done]]].
  3: { split; [by apply same_kept in Hsame|apply Hsame]. }
  - apply (shape_ins s1); cbn; try (done || lia).
    + rewrite u32_small; lia.
    + by rewrite !dom_alter_L.
    + by lookups Ex.
    + intros q [] Hq E. pose proof (elem_extra _ _ _ _ _ Hs Hq). by lookups E.
    + destruct (Z.eqb_spec j 0); [lia|]. apply Hs.
    + destruct (Z.eqb_spec j (zlen a)); [lia|]. apply Hs.
  - split; [done|]. destruct (current (ll s1)) as [|p|p] eqn:Ec; cbn in Hc1; cbn;
      rewrite Ec; cbn; destruct_and?; rewrite ?zlen_ins by lia.
    + lia.
    + destruct (cursor_after i b j); [done|]. split_and!; [lia..| |done].
      rewrite zat_ins by lia. destruct (Z.ltb_spec (j - 1) j); [done|lia].
    + destruct (cursor_after i b j); [|done]. split_and!; [lia..| |done].
      rewrite zat_ins by lia. zbool_cases; try lia. subst. f_equal. lia.
Qed.

(** [push_at] inserts at the position it is given, whatever the cursor; the
    cursor is right afterwards unless it had to step back. *)
Lemma push_at_ok s a d i b x v j :
  rep {[x]} s a d i b → nodes s !! x = Some (Node v 0 0) → v ≠ 0 →
  0 ≤ j ≤ zlen a → zlen a + 1 < 2147483648 →
  ∃ s', push_at j x s = Done (CPLUS_SUCCESS, s')
    ∧ shape ∅ s' (zins j x a) (zins j v d)
    ∧ (if (j =? 0) || (j =? zlen a) then cursor s' (zins j x a) 0 0 false
       else cursor s' (zins j x a) j (if cursor_after i b j then j + 1 else j)
              (cursor_after i b j))
    ∧ kept_src s s' ∧ errno s' = errno s.
Proof.
  intros Hr Ex Hv Hj Hsm. destruct (Z.eqb_spec j 0) as [->|]; simpl.
  - destruct (decide (zlen a = 0)) as [->%zlen_0|]; [by apply (push_empty _ _ _ _ i b)|].
    apply (push_head _ _ _ i b); (done || lia).
  - destruct (Z.eqb_spec j (zlen a)) as [->|].
    + apply (push_tail _ _ _ i b); (done || lia).
    + apply push_mid; (done || lia).
Qed.

(** ** [pop_of] *)

(** The last lines of [pop_of], once the node is unlinked. *)
Definition pop_end (node : Z) : C (st A) Z :=
  c ← field count;
  upd (set_count (u32 (c - 1)));;
  e ← is_empty;
  (if (e : bool) then upd (set_head 0);; upd (set_tail 0);; reset_cur_node else mret tt);;
  mret node.

Lemma pop_end_ok node s n :
  count (ll s) = n → 0 < n < 4294967296 →
  ∃ s', pop_end node s = Done (node, s') ∧ nodes s' = nodes s ∧ src s' = src s
    ∧ kept s s' ∧ errno s' = errno s
    ∧ type (ll s') = type (ll s) ∧ alive (ll s') = alive (ll s) ∧ count (ll s') = n - 1
    ∧ head (ll s') = (if n =? 1 then 0 else head (ll s))
    ∧ tail (ll s') = (if n =? 1 then 0 else tail (ll s))
    ∧ cur_index (ll s') = (if n =? 1 then 0 else cur_index (ll s))
    ∧ current (ll s') = (if n =? 1 then SHead else current (ll s)).
Proof.
  intros Hn Hr. unfold pop_end. run. rewrite Hn, u32_small by lia.
  destruct (Z.eqb_spec n 1) as [->|].
  - change (1 - 1) with 0. change (0 =? 0) with true. cbv iota. run. by eexists.
  - destruct (Z.eqb_spec 0 (n - 1)); [lia|]. run. by eexists.
Qed.

Lemma pop_none s d i b j :
  rep ∅ s [] d i b → pop_of j s = Done (0, with_errno ENOENT s).
Proof. intros (Hs & _). unfold pop_of. run. by rewrite (sh_count _ _ _ _ Hs). Qed.

(** The branches of [pop_of]. *)
Definition pop_first : C (st A) Z :=
  node ← field head;
  n ← load node next;
  upd (set_head n);;
  (if negb (n =? 0) then store n (set_prev 0) else mret tt);;
  store node (set_next 0);;
  reset_cur_node;;
  mret node.
Definition pop_last : C (st A) Z :=
  node ← field tail;
  p ← load node prev;
  upd (set_tail p);;
  (if negb (p =? 0) then store p (set_next 0) else mret tt);;
  store node (set_prev 0);;
  reset_cur_node;;
  mret node.
Definition pop_inner (index : Z) : C (st A) Z :=
  node ← get_node_of index;
  (if negb (node =? 0) then
     p ← load node prev; n ← load node next;
     store p (set_next n);;
     n ← load node next; p ← load node prev;
     store n (set_prev p);;
     store node (set_next 0);;
     store node (set_prev 0)
   else mret tt);;
  mret node.

Lemma pop_of_unfold j s X a d :
  shape X s a d → 0 < zlen a → 0 ≤ j ≤ zlen a →
  pop_of j s = ((if 0 =? j then pop_first else if j =? zlen a then pop_last
                 else pop_inner j) ≫= pop_end) s.
Proof.
  intros Hs Ha Hj. unfold pop_of. run. rewrite (sh_count _ _ _ _ Hs).
  destruct (Z.eqb_spec 0 (zlen a)); [lia|]. run.
  by rewrite (count_index s X a d j) by done.
Qed.

(** A neighbour of a node is null or a node. *)
Lemma neighbour X s a d k :
  shape X s a d → zat a k ≠ 0 → is_Some (nodes s !! zat a k).
Proof.
  intros Hs Hk. destruct (decide (0 ≤ k < zlen a)) as [Hr|Hr].
  - by rewrite (proj1 (shape_at X s a d k Hs Hr)).
  - destruct Hk. apply zat_out. lia.
Qed.

Lemma pop_head s a d i b :
  rep ∅ s a d i b → 0 < zlen a →
  ∃ s', pop_of 0 s = Done (zat a 0, s')
    ∧ shape {[zat a 0]} s' (zdel 0 a) (zdel 0 d) ∧ cursor s' (zdel 0 a) 0 0 false
    ∧ data <$> nodes s' !! zat a 0 = Some (zat d 0) ∧ kept s s' ∧ errno s' = errno s.
Proof.
  intros (Hs & _) Ha. rewrite (pop_of_unfold 0 s _ _ _ Hs) by lia.
  change (0 =? 0) with true. cbv iota. unfold pop_first. run. rewrite (sh_head _ _ _ _ Hs).
  destruct (shape_at _ s a d 0 Hs ltac:(lia)) as [E0 Hne]. run_at E0.
  pose proof (sh_small _ _ _ _ Hs). pose proof (shape_nonnull _ _ _ _ Hs) as Hnull.
  rewrite run_store_opt by (try done; apply (neighbour _ _ _ _ _ Hs)). run.
  assert (zat a (0 + 1) ≠ zat a 0) as H10 by (intros E%zat_eq; (lia || apply Hs)).
  erewrite run_store by (cbn; by lookups E0). run.
  match goal with |- context [pop_end _ ?s1] =>
    destruct (pop_end_ok (zat a 0) s1 (zlen a)) as
      (s' & -> & En & Esrc & Hk & He & Et & Ea & Ec & Eh & Etl & Eci & Ecu); [apply Hs|lia|] end.
  cbn in *. exists s'. split; [done|]. split; [|split_and!].
  - apply (shape_del s); try (done || lia).
    + by rewrite En, !dom_alter_L.
    + intros q [] Hq Hne0 E. rewrite En.
      pose proof (elem_ne a q (-1) (sh_nonnull _ _ _ _ Hs) Hq ltac:(lia)).
      change (0 - 1) with (-1). rewrite (zat_out a (-1)) by lia. by lookups E.
    + rewrite Eh. destruct (Z.eqb_spec (zlen a) 1); [|done].
      change (0 =? 0) with true. by rewrite zat_out by lia.
    + rewrite Etl, (sh_tail _ _ _ _ Hs). zbool_cases; try lia.
      by rewrite zat_out by lia.
  - unfold cursor. rewrite Eci, Ecu. by destruct (zlen a =? 1).
  - rewrite En. by lookups E0.
  - done.
  - done.
Qed.

Lemma pop_tail s a d i b :
  rep ∅ s a d i b → 0 < zlen a →
  let j := zlen a - 1 in
  ∃ s', pop_of (zlen a) s = Done (zat a j, s')
    ∧ shape {[zat a j]} s' (zdel j a) (zdel j d) ∧ cursor s' (zdel j a) 0 0 false
    ∧ data <$> nodes s' !! zat a j = Some (zat d j) ∧ kept s s' ∧ errno s' = errno s.
Proof.
  intros (Hs & _) Ha j. rewrite (pop_of_unfold (zlen a) s _ _ _ Hs) by lia.
  destruct (Z.eqb_spec 0 (zlen a)); [lia|]. rewrite Z.eqb_refl.
  unfold pop_last. run. rewrite (sh_tail _ _ _ _ Hs).
  destruct (shape_at _ s a d j Hs ltac:(lia)) as [E0 Hne]. fold j. run_at E0.
  pose proof (sh_small _ _ _ _ Hs). pose proof (shape_nonnull _ _ _ _ Hs) as Hnull.
  rewrite run_store_opt by (try done; apply (neighbour _ _ _ _ _ Hs)). run.
  assert (zat a (j - 1) ≠ zat a j) as H10 by (intros E%zat_eq; (lia || apply Hs)).
  erewrite run_store by (cbn; by lookups E0). run.
  match goal with |- context [pop_end _ ?s1] =>
    destruct (pop_end_ok (zat a j) s1 (zlen a)) as
      (s' & -> & En & Esrc & Hk & He & Et & Ea & Ec & Eh & Etl & Eci & Ecu); [apply Hs|lia|] end.
  cbn in *. exists s'. split; [done|]. split; [|split_and!].
  - apply (shape_del s); try (done || lia).
    + by rewrite En, !dom_alter_L.
    + intros q [] Hq Hne0 E. rewrite En.
      pose proof (elem_ne a q (j + 1) (sh_nonnull _ _ _ _ Hs) Hq ltac:(lia)).
      rewrite (zat_out a (j + 1)) by lia. by lookups E.
    + rewrite Eh, (sh_head _ _ _ _ Hs). zbool_cases; try lia.
      by rewrite zat_out by lia.
    + rewrite Etl. fold j. rewrite Z.eqb_refl. destruct (Z.eqb_spec (zlen a) 1); [|done].
      by rewrite zat_out by lia.
  - unfold cursor. rewrite Eci, Ecu. by destruct (zlen a =? 1).
  - rewrite En. by lookups E0.
  - done.
  - done.
Qed.

Lemma pop_mid s a d i b j :
  rep ∅ s a d i b → 0 < j < zlen a - 1 →
  ∃ s', pop_of j s = Done (zat a j, s')
    ∧ shape {[zat a j]} s' (zdel j a) (zdel j d)
    ∧ cursor s' (zdel j a) j (if cursor_after i b j then j - 1 else j) (cursor_after i b j)
    ∧ data <$> nodes s' !! zat a j = Some (zat d j) ∧ kept s s' ∧ errno s' = errno s.
Proof.
  intros Hr Hj. rewrite (pop_of_unfold j s _ _ _ (proj1 Hr)) by lia.
  destruct (Z.eqb_spec 0 j); [lia|]. destruct (Z.eqb_spec j (zlen a)); [lia|].
  unfold pop_inner. run.
  destruct (get_node_of_ok _ s a d i b j Hr ltac:(lia)) as (s1 & E1 & (Hs & Hi1 & Hc1) & Hsame & He1).
  rewrite (bind_Done _ _ _ _ _ E1). pose proof (sh_small _ _ _ _ Hs).
  destruct (shape_at _ s1 a d j Hs ltac:(lia)) as [Ej Hj0].
  destruct (shape_at _ s1 a d (j - 1) Hs ltac:(lia)) as [Ep Hp0].
  destruct (shape_at _ s1 a d (j + 1) Hs ltac:(lia)) as [En0 Hn0].
  assert (zat a j ≠ zat a (j - 1)) by (intros E%zat_eq; (lia || apply Hs)).
  assert (zat a j ≠ zat a (j + 1)) by (intros E%zat_eq; (lia || apply Hs)).
  assert (zat a (j - 1) ≠ zat a (j + 1)) by (intros E%zat_eq; (lia || apply Hs)).
  destruct (Z.eqb_spec (zat a j) 0); [done|]. cbn [negb]. run. run_at Ej. run_at Ej. run_at Ep.
  erewrite run_load by (cbn; by lookups Ej). run.
  erewrite run_load by (cbn; by lookups Ej). run.
  erewrite run_store by (cbn; by lookups En0). run.
  erewrite run_store by (cbn; by lookups Ej). run.
  erewrite run_store by (cbn; by lookups Ej). run.
  match goal with |- context [pop_end _ ?s1] =>
    destruct (pop_end_ok (zat a j) s1 (zlen a)) as
      (s' & -> & En & Esrc & Hk & He & Et & Ea & Ec & Eh & Etl & Eci & Ecu); [apply Hs|lia|] end.
  destruct (Z.eqb_spec (zlen a) 1); [lia|]. cbn in *.
  exists s'. split; [done|]. split; [|split_and!].
  - apply (shape_del s1); try (done || lia).
    + by rewrite En, !dom_alter_L.
    + intros q [] Hq Hne0 E. rewrite En. by lookups E.
    + rewrite Eh, (sh_head _ _ _ _ Hs). zbool_cases; try lia; done.
    + rewrite Etl, (sh_tail _ _ _ _ Hs). zbool_cases; try lia; done.
  - split; [lia|]. rewrite Ecu. destruct (current (ll s1)) as [|p|p] eqn:Ecs; cbn in Hc1; cbn;
      destruct_and?; rewrite ?zlen_del by lia.
    + lia.
    + destruct (cursor_after i b j); [done|]. split_and!; [lia..| |done].
      rewrite zat_del by lia. destruct (Z.ltb_spec (j - 1) j); [done|lia].
    + destruct (cursor_after i b j); [|done]. split_and!; [lia..| |done].
      rewrite zat_del by lia. zbool_cases; try lia. subst. f_equal. lia.
  - rewrite En. by lookups Ej.
  - apply same_kept in Hsame. by apply (kept_trans _ s1).
  - congruence.
Qed.

(** The last node cannot be taken out by its own position: the code reads the
    field of the node after it. *)
Lemma pop_last_index s a d i b :
  rep ∅ s a d i b → 2 ≤ zlen a → pop_of (zlen a - 1) s = Undefined.
Proof.
  intros Hr Ha. rewrite (pop_of_unfold (zlen a - 1) s _ _ _ (proj1 Hr)) by lia.
  destruct (Z.eqb_spec 0 (zlen a - 1)); [lia|].
  destruct (Z.eqb_spec (zlen a - 1) (zlen a)); [lia|].
  set (j := zlen a - 1). unfold pop_inner. run.
  destruct (get_node_of_ok _ s a d i b j Hr ltac:(lia)) as (s1 & E1 & (Hs & _) & _).
  rewrite (bind_Done _ _ _ _ _ E1).
  destruct (shape_at _ s1 a d j Hs ltac:(lia)) as [Ej Hj0].
  destruct (shape_at _ s1 a d (j - 1) Hs ltac:(lia)) as [Ep Hp0].
  assert (zat a j ≠ zat a (j - 1)) by (intros E%zat_eq; (lia || apply Hs)).
  pose proof (shape_nonnull _ _ _ _ Hs) as Hnull.
  destruct (Z.eqb_spec (zat a j) 0); [done|]. cbn [negb]. run. run_at Ej. run_at Ej. run_at Ep.
  erewrite run_load by (cbn; by lookups Ej). run.
  erewrite run_load by (cbn; by lookups Ej). run.
  rewrite (zat_out a (j + 1)) by lia. unfold store, load, deref. crun. cbn.
  by rewrite lookup_alter_ne, Hnull by done.
Qed.

(** ** [remove_node] *)

Definition unlink (node : Z) : C (st A) unit :=
  h ← field head;
  if h =? node then
    n ← load node next;
    upd (set_head n);;
    (if negb (n =? 0) then store n (set_prev 0) else mret tt);;
    store node (set_next 0)
  else
    t ← field tail;
    if t =? node then
      p ← load node prev;
      upd (set_tail p);;
      (if negb (p =? 0) then store p (set_next 0) else mret tt);;
      store node (set_prev 0)
    else
      p ← load node prev; n ← load node next;
      store p (set_next n);;
      n ← load node next; p ← load node prev;
      store n (set_prev p);;
      store node (set_next 0);;
      store node (set_prev 0).

Lemma store_ok p n g s :
  nodes s !! p = Some n → store p g s = Done (tt, with_nodes (alter g p) s).
Proof. intros E. unfold store, load, deref. crun. by rewrite E. Qed.

(** The node is out of the chain; only [count] is still to be updated. *)
Definition unlinked (s s' : st A) (a : list Z) (d : list Z) (j : Z) : Prop :=
  type (ll s') = type (ll s) ∧ alive (ll s') = alive (ll s) ∧ src s' = src s
  ∧ count (ll s') = count (ll s) ∧ dom (nodes s') = dom (nodes s)
  ∧ (∀ q n, q ∈ a → q ≠ zat a j → nodes s !! q = Some n → nodes s' !! q = Some (Node (data n)
       (if decide (q = zat a (j + 1)) then zat a (j - 1) else prev n)
       (if decide (q = zat a (j - 1)) then zat a (j + 1) else next n)))
  ∧ head (ll s') = (if j =? 0 then zat a 1 else zat a 0)
  ∧ (1 < zlen a → tail (ll s') = (if j =? zlen a - 1 then zat a (j - 1) else zat a (zlen a - 1)))
  ∧ data <$> nodes s' !! zat a j = Some (zat d j)
  ∧ kept s s' ∧ errno s' = errno s.

Lemma node_is s a d k j :
  shape ∅ s a d → 0 ≤ j < zlen a → (zat a k =? zat a j) = (j =? k).
Proof.
  intros Hs Hj. apply eq_true_iff_eq. rewrite !Z.eqb_eq, zat_eq by (lia || apply Hs). lia.
Qed.

Lemma nodes_differ s a d k j :
  shape ∅ s a d → 0 ≤ j < zlen a → k ≠ j → zat a k ≠ zat a j.
Proof. intros Hs Hj Hne E%zat_eq; (done || apply Hs). Qed.

Local Ltac unlinked_by E :=
  eexists; (split; [done|]); split_and!; cbn; try (done || by apply E); [by rewrite !dom_alter_L|..].

Lemma unlink_first s a d :
  shape ∅ s a d → 0 < zlen a →
  ∃ s', unlink (zat a 0) s = Done (tt, s') ∧ unlinked s s' a d 0.
Proof.
  intros Hs Ha. pose proof (shape_nonnull _ _ _ _ Hs) as Hnull.
  destruct (shape_at _ s a d 0 Hs ltac:(lia)) as [E0 Hne].
  pose proof (nodes_differ s a d (0 + 1) 0 Hs ltac:(lia) ltac:(lia)).
  unfold unlink. run. rewrite (sh_head _ _ _ _ Hs), Z.eqb_refl. run_at E0.
  rewrite run_store_opt by (try done; apply (neighbour _ _ _ _ _ Hs)). run.
  erewrite store_ok by (cbn; by lookups E0). unlinked_by Hs.
  - intros q [] Hq Hq0 E. pose proof (elem_ne a q (-1) (sh_nonnull _ _ _ _ Hs) Hq ltac:(lia)).
    change (0 - 1) with (-1). rewrite (zat_out a (-1)) by lia. by lookups E.
  - intros ?. rewrite (sh_tail _ _ _ _ Hs). by zbool_cases; try lia.
  - by lookups E0.
Qed.

Lemma unlink_last s a d j :
  shape ∅ s a d → j = zlen a - 1 → 0 < j →
  ∃ s', unlink (zat a j) s = Done (tt, s') ∧ unlinked s s' a d j.
Proof.
  intros Hs Ej Hj. pose proof (shape_nonnull _ _ _ _ Hs) as Hnull.
  destruct (shape_at _ s a d j Hs ltac:(lia)) as [E0 Hne].
  pose proof (nodes_differ s a d (j - 1) j Hs ltac:(lia) ltac:(lia)).
  unfold unlink. run. rewrite (sh_head _ _ _ _ Hs), (node_is _ _ _ _ _ Hs) by lia.
  destruct (Z.eqb_spec j 0); [lia|]. run.
  rewrite (sh_tail _ _ _ _ Hs), <- Ej, Z.eqb_refl. run_at E0.
  rewrite run_store_opt by (try done; apply (neighbour _ _ _ _ _ Hs)). run.
  erewrite store_ok by (cbn; by lookups E0). unlinked_by Hs.
  - intros q [] Hq Hq0 E. pose proof (elem_ne a q (j + 1) (sh_nonnull _ _ _ _ Hs) Hq ltac:(lia)).
    rewrite (zat_out a (j + 1)) by lia. by lookups E.
  - rewrite (sh_head _ _ _ _ Hs). by zbool_cases; try lia.
  - intros ?. rewrite <- Ej. by rewrite Z.eqb_refl.
  - by lookups E0.
Qed.

Lemma unlink_inner s a d j :
  shape ∅ s a d → 0 < j < zlen a - 1 →
  ∃ s', unlink (zat a j) s = Done (tt, s') ∧ unlinked s s' a d j.
Proof.
  intros Hs Hj.
  destruct (shape_at _ s a d j Hs ltac:(lia)) as [Ej Hj0].
  destruct (shape_at _ s a d (j - 1) Hs ltac:(lia)) as [Ep Hp0].
  destruct (shape_at _ s a d (j + 1) Hs ltac:(lia)) as [En Hn0].
  pose proof (nodes_differ s a d (j - 1) j Hs ltac:(lia) ltac:(lia)).
  pose proof (nodes_differ s a d (j + 1) j Hs ltac:(lia) ltac:(lia)).
  pose proof (nodes_differ s a d (j - 1) (j + 1) Hs ltac:(lia) ltac:(lia)).
  unfold unlink. run. rewrite (sh_head _ _ _ _ Hs), (node_is _ _ _ _ _ Hs) by lia.
  destruct (Z.eqb_spec j 0); [lia|]. run.
  rewrite (sh_tail _ _ _ _ Hs), (node_is _ _ _ _ _ Hs) by lia.
  destruct (Z.eqb_spec j (zlen a - 1)); [lia|].
  run_at Ej. run_at Ej. run_at Ep.
  erewrite run_load by (cbn; by lookups Ej). run.
  erewrite run_load by (cbn; by lookups Ej). run.
  erewrite run_store by (cbn; by lookups En). run.
  erewrite run_store by (cbn; by lookups Ej). run.
  erewrite store_ok by (cbn; by lookups Ej). unlinked_by Hs.
  - intros q [] Hq Hne E. by lookups E.
  - rewrite (sh_head _ _ _ _ Hs). by zbool_cases; try lia.
  - intros ?. rewrite (sh_tail _ _ _ _ Hs). by zbool_cases; try lia.
  - by lookups Ej.
Qed.

Lemma remove_node_unfold node s :
  remove_node node s =
  (unlink node;;
   c ← field count;
   upd (set_count (u32 (c - 1)));;
   e ← is_empty;
   (if (e : bool) then upd (set_head 0);; upd (set_tail 0) else mret tt);;
   reset_cur_node;;
   mret CPLUS_SUCCESS) s.
Proof. unfold unlink. by rewrite run_assoc. Qed.

Lemma remove_node_ok s a d i b j :
  rep ∅ s a d i b → 0 ≤ j < zlen a →
  ∃ s', remove_node (zat a j) s = Done (CPLUS_SUCCESS, s')
    ∧ rep {[zat a j]} s' (zdel j a) (zdel j d) 0 false
    ∧ data <$> nodes s' !! zat a j = Some (zat d j) ∧ kept s s' ∧ errno s' = errno s.
Proof.
  intros (Hs & _) Hj. pose proof (sh_small _ _ _ _ Hs).
  assert (∃ s', unlink (zat a j) s = Done (tt, s') ∧ unlinked s s' a d j) as
    (s1 & E & Et & Ea & Esrc & Ec & Ed & Hq & Eh & Etl & Edat & Hk & He).
  { destruct (decide (j = 0)) as [->|]; [apply unlink_first; (done || lia)|].
    destruct (decide (j = zlen a - 1)); [apply unlink_last; (done || lia)|].
    apply unlink_inner; (done || lia). }
  rewrite remove_node_unfold, (bind_Done _ _ _ _ _ E). run.
  rewrite Ec, (sh_count _ _ _ _ Hs), u32_small by lia.
  destruct (Z.eqb_spec 0 (zlen a - 1)); run; (eexists; split; [done|]);
    (split; [split; [apply (shape_del s)|]; cbn; try (done || lia)|done]).
  - destruct (Z.eqb_spec j 0); [|lia]. by rewrite zat_out by lia.
  - destruct (Z.eqb_spec j (zlen a - 1)); [|lia]. by rewrite zat_out by lia.
Qed.

(** ** [cplus_llist_clear] *)

Lemma clear_loop_ok l fuel s :
  (∀ i, 0 ≤ i < zlen l → next <$> nodes s !! zat l i = Some (zat l (i + 1))) →
  NoDup l → 0 ∉ l → dom (nodes s) = list_to_set l → al_ok (src s) (list_to_set l) →
  (length l ≤ fuel)%nat →
  ∃ s', clear_loop fuel (zat l 0) s = Done (tt, s') ∧ nodes s' = ∅ ∧ al_ok (src s') ∅
    ∧ ll s' = ll s ∧ errno s' = errno s.
Proof.
  revert l s. induction fuel as [|fuel IH]; intros l s Hn Hnd H0 Hdom Hal Hf;
    (destruct l as [|p l];
     [exists s; cbn in *; split_and!; [done|by apply dom_empty_iff_L|done..]|]).
  { simpl in Hf. lia. }
  apply NoDup_cons in Hnd as [Hp Hnd]. rewrite not_elem_of_cons in H0. destruct H0 as [Hp0 H0].
  cbn [clear_loop]. rewrite zat_cons. change (0 =? 0) with true. cbv iota.
  destruct (Z.eqb_spec p 0); [done|].
  assert (next <$> nodes s !! p = Some (zat l 0)) as E0.
  { pose proof (Hn 0) as H1. rewrite !zat_cons in H1. apply H1. rewrite zlen_cons.
    pose proof (zlen_nonneg l). lia. }
  destruct (nodes s !! p) as [nd|] eqn:Ep; [|done]. simplify_eq/=. run_at Ep. rewrite E0.
  unfold free_node. destruct (Z.eqb_spec p 0); [done|].
  destruct (al_release_spec _ _ p Hal) as (a' & Er & Hok); [set_solver|].
  unfold mbind, C_bind at 1. rewrite Er.
  assert (({[p]} ∪ list_to_set l) ∖ {[p]} = list_to_set l :> gset Z) as Es by set_solver.
  destruct (IH l (with_src a' (with_nodes (delete p) s))) as (s' & E & ? & ? & ? & ?); cbn; try done.
  - intros i Hi. rewrite lookup_delete_ne by (intros ->; apply Hp, zat_elem; lia).
    pose proof (Hn (i + 1)) as H1. rewrite !zat_cons, zlen_cons in H1.
    destruct (Z.eqb_spec (i + 1) 0), (Z.eqb_spec (i + 1 + 1) 0); try lia.
    replace (i + 1 - 1) with i in H1 by lia. replace (i + 1 + 1 - 1) with (i + 1) in H1 by lia.
    apply H1. lia.
  - by rewrite dom_delete_L, Hdom.
  - by rewrite <- Es.
  - simpl in Hf. lia.
  - rewrite E. by exists s'.
Qed.

End change.

End LlistInv.
