(* ===== verification/LlistSpec.v ===== *)
(** * LlistSpec: what the linked list promises, and that it keeps it

    The abstract list is its items and a cursor.  [spec] gives the answer, the
    [errno] and the next abstract list of every call; [allowed] excludes the
    calls the implementation does not support.  The refinement theorems say that
    the implementation never runs into undefined behaviour on allowed calls and
    answers as [spec] says, or refuses a push for want of memory. *)

From S2P Require Import Prelude Allocator Mempool Locks Zlist Llist LlistInv.
From stdpp Require Import base numbers list option gmap sets.
From Stdlib Require Import ZArith Lia.
Open Scope Z_scope.

Module LlistSpec.
Import Lock Llist LlistInv.

(** ** The abstract list *)

Record view := View { items : list Z; pos : Z; back : bool }.

Inductive command :=
| GetSize | GetOf (j : Z) | GetHead | GetTail | GetCurrent
| GetNext | GetPrev | GetCyclingNext
| GetIf (f : option (Z → Z)) | GetIndexIf (f : option (Z → Z))
| PushAt (j x : Z) | PushFront (x : Z) | PushBack (x : Z)
| PopOf (j : Z) | PopFront | PopBack
| PopIf (f : option (Z → Z)) | DeleteData (x : Z) | Clear.

(** The answer, the [errno] if it is set, and the list afterwards. *)
Definition answer : Type := Z * option Z * view.

Definition last_pos (v : view) : Z := Z.max 0 (zlen (items v) - 1).
Definition move (v : view) (j : Z) (b : bool) : view := View (items v) j b.

(** A search answers [found j] or fails with the cursor on the last item. *)
Definition search (v : view) (f : Z → bool) (fail : Z) (e : option Z)
    (found : Z → Z * view) : answer :=
  match zfind f (items v) with
  | Some j => let '(r, v') := found j in (r, None, v')
  | None => (fail, e, move v (last_pos v) false)
  end.

Definition spec_push (v : view) (j x : Z) : answer :=
  let n := zlen (items v) in
  if (x =? 0) || out_of_interval j 0 n then (CPLUS_FAIL, Some EINVAL, v)
  else (CPLUS_SUCCESS, None,
        View (zins j x (items v)) (if (j =? 0) || (j =? n) then 0 else j) false).

Definition spec_pop (v : view) (j : Z) : answer :=
  let n := zlen (items v) in
  if out_of_interval j 0 n then (0, Some EINVAL, v)
  else if n =? 0 then (0, Some ENOENT, v)
  else
    let k := if j =? n then n - 1 else j in
    (zat (items v) k, None,
     View (zdel k (items v)) (if (j =? 0) || (j =? n) then 0 else j) false).

Definition spec (v : view) (c : command) : answer :=
  let n := zlen (items v) in
  let stay r := (r, None, v) in
  let null_fn r : answer := (r, Some EINVAL, v) in
  match c with
  | GetSize => stay n
  | GetOf j =>
      if out_of_interval j 0 (n - 1) then (0, Some EINVAL, v)
      else (zat (items v) j, None, move v j (cursor_after (pos v) (back v) j))
  | GetHead => stay (zat (items v) 0)
  | GetTail => stay (zat (items v) (n - 1))
  | GetCurrent => stay (zat (items v) (pos v))
  | GetNext =>
      if pos v + 1 <? n then (zat (items v) (pos v + 1), None, move v (pos v + 1) false)
      else stay 0
  | GetPrev =>
      if 0 <? pos v then (zat (items v) (pos v - 1), None, move v (pos v - 1) true)
      else stay 0
  | GetCyclingNext =>
      if n =? 0 then stay 0
      else (zat (items v) (pos v), None,
            move v (if pos v + 1 <? n then pos v + 1 else 0) false)
  | GetIf None => null_fn 0
  | GetIf (Some f) =>
      search v (matches f) 0 (Some ENOENT) (λ j, (zat (items v) j, move v j false))
  | GetIndexIf None => null_fn CPLUS_FAIL
  | GetIndexIf (Some f) =>
      search v (matches f) CPLUS_FAIL (Some ENOENT) (λ j, (j, move v j false))
  | PushAt j x => spec_push v j x
  | PushFront x => spec_push v 0 x
  | PushBack x => spec_push v n x
  | PopOf j => spec_pop v j
  | PopFront => spec_pop v 0
  | PopBack => spec_pop v n
  | PopIf None => null_fn 0
  | PopIf (Some f) =>
      search v (matches f) 0 (Some ENOENT)
        (λ j, (zat (items v) j, View (zdel j (items v)) 0 false))
  | DeleteData x =>
      if x =? 0 then (CPLUS_FAIL, Some EINVAL, v)
      else search v (λ y, x =? y) CPLUS_FAIL None
             (λ j, (CPLUS_SUCCESS, View (zdel j (items v)) 0 false))
  | Clear => (CPLUS_SUCCESS, None, View [] 0 false)
  end.

(** The position a push or a pop works on, if the call is one. *)
Definition push_pos (v : view) (c : command) : option Z :=
  match c with
  | PushAt j x => if (x =? 0) || out_of_interval j 0 (zlen (items v)) then None else Some j
  | PushFront x => if x =? 0 then None else Some 0
  | PushBack x => if x =? 0 then None else Some (zlen (items v))
  | _ => None
  end.
Definition pop_pos (v : view) (c : command) : option Z :=
  match c with
  | PopOf j => if out_of_interval j 0 (zlen (items v)) then None else Some j
  | PopFront => Some 0
  | PopBack => Some (zlen (items v))
  | _ => None
  end.

(** Inside the list, a push or a pop must not make the cursor step back: it
    would be one item off afterwards ([stale_cursor] below).  The last item
    must not be popped by its own position ([pop_last_crashes]). *)
Definition inside (v : view) (j : Z) : Prop :=
  j = 0 ∨ j = zlen (items v) ∨ cursor_after (pos v) (back v) j = false.

Definition allowed (v : view) (c : command) : Prop :=
  (∀ j, push_pos v c = Some j → zlen (items v) + 1 < 2147483648 ∧ inside v j)
  ∧ (∀ j, pop_pos v c = Some j →
       inside v j ∧ ¬ (0 < j ∧ j = zlen (items v) - 1)).

(** What a call may answer: [spec], or no memory for a push. *)
Definition possible (v : view) (c : command) (e : Z) (r : Z) (e' : Z) (v' : view) : Prop :=
  (∃ eo, spec v c = (r, eo, v') ∧ e' = default e eo)
  ∨ (is_Some (push_pos v c) ∧ r = CPLUS_FAIL ∧ e' = ENOMEM ∧ v' = v).

Section refinement.
Context {A : Type} `{Allocator A} (me : nat).
Implicit Types s : st A.

Definition exec (c : command) : C (st A) Z :=
  match c with
  | GetSize => cplus_llist_get_size me
  | GetOf j => cplus_llist_get_of me j
  | GetHead => cplus_llist_get_head me
  | GetTail => cplus_llist_get_tail me
  | GetCurrent => cplus_llist_get_current me
  | GetNext => cplus_llist_get_next me
  | GetPrev => cplus_llist_get_prev me
  | GetCyclingNext => cplus_llist_get_cycling_next me
  | GetIf f => cplus_llist_get_if me f
  | GetIndexIf f => cplus_llist_get_index_if me f
  | PushAt j x => cplus_llist_push_at me j x
  | PushFront x => cplus_llist_push_front me x
  | PushBack x => cplus_llist_push_back me x
  | PopOf j => cplus_llist_pop_of me j
  | PopFront => cplus_llist_pop_front me
  | PopBack => cplus_llist_pop_back me
  | PopIf f => cplus_llist_pop_if me f
  | DeleteData x => cplus_llist_delete_data me x
  | Clear => cplus_llist_clear me
  end.

(** The list in state [s] is the abstract list [v], and nobody holds its lock. *)
Definition models s (v : view) : Prop :=
  ∃ a, rep ∅ s a (items v) (pos v) (back v) ∧ idle (lock (ll s)).

(** ** The lock around an operation *)

Lemma rep_lock X s a d i b l :
  rep X s a d i b → rep X (with_ll (set_lock l) s) a d i b.
Proof. intros (Hs & ?). split; [by apply shape_ll|done]. Qed.

(** A body that works under any lock works inside the bracket. *)
Lemma locked_ok {B} x (body : C (st A) B) s (P : B → st A → Prop) :
  idle (lock (ll s)) →
  (∀ h, ∃ r s1, body (with_ll (set_lock h) s) = Done (r, s1) ∧ lock (ll s1) = h
     ∧ P r (with_ll (set_lock (lock (ll s))) s1)) →
  ∃ r s', locked me x body s = Done (r, s') ∧ P r s' ∧ lock (ll s') = lock (ll s).
Proof.
  intros Hl Hb.
  destruct (lock_unlock x me CPLUS_INFINITE_TIMEOUT (lock (ll s)) (errno s) Hl) as (h & E1 & E2).
  destruct (Hb h) as (r & s1 & Eb & Hh & HP). unfold locked, lock_op. crun.
  rewrite E1. change (with_errno (errno s) (with_ll (set_lock h) s)) with (with_ll (set_lock h) s).
  rewrite Eb, Hh, E2. exists r. eexists. split; [done|]. split; [|done].
  by destruct s1.
Qed.

(** ** Runs and their effect *)

Definition holds s (v : view) : Prop := ∃ a, rep ∅ s a (items v) (pos v) (back v).

(** [m] returns [r], sets [errno] as [eo] says, leaves the lock alone and makes
    the list [v']. *)
Definition yields {B} (m : C (st A) B) s (r : B) (eo : option Z) (v' : view) : Prop :=
  ∃ s1, m s = Done (r, s1) ∧ holds s1 v' ∧ lock (ll s1) = lock (ll s)
    ∧ errno s1 = default (errno s) eo.

Definition does {B} (m : C (st A) B) s (Q : B → option Z → view → Prop) : Prop :=
  ∃ r eo v', Q r eo v' ∧ yields m s r eo v'.

Lemma does_mono {B} (m : C (st A) B) s (Q Q' : B → option Z → view → Prop) :
  does m s Q → (∀ r eo v, Q r eo v → Q' r eo v) → does m s Q'.
Proof. intros (r & eo & v & HQ & Hy) HQQ. exists r, eo, v. auto. Qed.

Lemma locked_does {B} x (body : C (st A) B) s v Q :
  models s v → (∀ s0, holds s0 v → does body s0 Q) → does (locked me x body) s Q.
Proof.
  intros (a & Hr & Hl) Hb.
  destruct (locked_ok x body s (λ r s', ∃ eo v', Q r eo v' ∧ holds s' v'
      ∧ errno s' = default (errno s) eo) Hl) as (r & s' & E & (eo & v' & HQ & Hh & He) & Hlk).
  - intros h. destruct (Hb (with_ll (set_lock h) s)) as (r & eo & v' & HQ & s1 & E & Hh & Hlk & He).
    { exists a. by apply rep_lock. }
    exists r, s1. split; [done|]. split; [done|]. exists eo, v'. split; [done|].
    split; [|done]. destruct Hh as [a' Hr']. exists a'. by apply rep_lock.
  - exists r, eo, v'. split; [done|]. by exists s'.
Qed.

(** The next call, after one that only answered. *)
Lemma does_bind {B D} (m : C (st A) B) (f : B → C (st A) D) s v r Q :
  models s v → yields m s r None v → (∀ s1, models s1 v → does (f r) s1 Q) →
  does (m ≫= f) s Q.
Proof.
  intros (a & _ & Hl) (s1 & E & [a1 Hr1] & Hlk & He) Hf.
  destruct (Hf s1) as (r2 & eo & v' & HQ & s2 & E2 & Hh2 & Hlk2 & He2).
  { exists a1. split; [done|]. by rewrite Hlk. }
  exists r2, eo, v'. split; [done|]. exists s2. rewrite (bind_Done _ _ _ _ _ E).
  cbn in He. rewrite <- He. split_and!; try done. congruence.
Qed.

Lemma check_done s v : models s v → CHECK_OBJECT_TYPE s = Done (tt, s).
Proof.
  intros (a & (Hs & _) & _). unfold CHECK_OBJECT_TYPE. run.
  rewrite (sh_alive _ _ _ _ Hs). run. by rewrite (sh_type _ _ _ _ Hs).
Qed.

Lemma check_type {D} (f : unit → C (st A) D) s v :
  models s v → (CHECK_OBJECT_TYPE ≫= f) s = f tt s.
Proof. intros Hm. by rewrite (bind_Done _ _ _ _ _ (check_done s v Hm)). Qed.

Lemma does_check {D} (f : unit → C (st A) D) s v Q :
  models s v → does (f tt) s Q → does (CHECK_OBJECT_TYPE ≫= f) s Q.
Proof.
  intros Hm (r & eo & v' & HQ & s1 & E & ?). exists r, eo, v'. split; [done|].
  exists s1. by rewrite (check_type _ _ _ Hm).
Qed.

(** A refused argument. *)
Lemma does_check_if {B} (b : bool) (r : B) (k : C (st A) B) s v Q :
  models s v → (b = true → Q r (Some EINVAL) v) → (b = false → does k s Q) →
  does (check_if b r k) s Q.
Proof.
  intros (a & Hr & Hl) Ht Hf. unfold check_if. destruct b; [|by apply Hf].
  exists r, (Some EINVAL), v. split; [by apply Ht|]. eexists. split; [done|].
  split; [|done]. exists a. by apply rep_errno.
Qed.

Lemma does_check_fn {F B} (f : option F) (r : B) (k : F → C (st A) B) s v Q :
  models s v → (f = None → Q r (Some EINVAL) v) →
  (∀ g, f = Some g → does (k g) s Q) → does (check_fn f r k) s Q.
Proof.
  intros Hm Hn Hs. destruct f as [g|]; [by apply Hs|].
  by apply (does_check_if true r (mret r) _ _ _ Hm); [intros _; apply Hn|].
Qed.

(** An answer that changes nothing. *)
Lemma does_stay {B} (m : C (st A) B) s v r (Q : B → option Z → view → Prop) :
  holds s v → m s = Done (r, s) → Q r None v → does m s Q.
Proof. intros Hh E HQ. exists r, None, v. split; [done|]. by exists s. Qed.

Lemma models_holds s v : models s v → holds s v.
Proof. intros (a & Hr & _). by exists a. Qed.

Lemma models_small s v : models s v → 0 ≤ zlen (items v) < 2147483648.
Proof.
  intros (a & (Hs & _) & _). rewrite (sh_len _ _ _ _ Hs).
  pose proof (sh_small _ _ _ _ Hs). pose proof (zlen_nonneg a). lia.
Qed.

Lemma get_size_yields s v :
  models s v → yields (cplus_llist_get_size me) s (zlen (items v)) None v.
Proof.
  intros Hm. unfold cplus_llist_get_size. pose proof (models_small s v Hm).
  destruct (does_check (λ _, n ← locked me shared get_size; mret (u32 (s32 n))) s v
    (λ r eo v', r = zlen (items v) ∧ eo = None ∧ v' = v) Hm) as
    (r & eo & v' & (-> & -> & ->) & Hy); [|done].
  apply (does_bind _ _ s v (zlen (items v))); [done| |].
  - destruct (locked_does shared get_size s v (λ r eo v', r = zlen (items v) ∧ eo = None ∧ v' = v)
      Hm) as (r & eo & v' & (-> & -> & ->) & Hy); [|done].
    intros s0 [a0 Hr0]. apply (does_stay _ _ v (zlen (items v))); [by exists a0| |done].
    unfold get_size, field, gets, compose. destruct Hr0 as (Hs0 & _).
    by rewrite (sh_count _ _ _ _ Hs0), (sh_len _ _ _ _ Hs0).
  - intros s1 Hm1. apply (does_stay _ _ v (zlen (items v))); [by apply models_holds| |done].
    rewrite s32_small, u32_small by lia. done.
Qed.

(** [get_data] of the node a body answers, null for null. *)
Lemma data_of_ok (f : C (st A) Z) s s1 X a d i b j :
  f s = Done (zat a j, s1) → rep X s1 a d i b → data_of f s = Done (zat d j, s1).
Proof.
  intros E (Hs & _). unfold data_of. rewrite (bind_Done _ _ _ _ _ E).
  destruct (decide (0 ≤ j < zlen a)) as [Hj|Hj].
  - destruct (shape_at _ s1 a d j Hs Hj) as [En Hne].
    destruct (Z.eqb_spec (zat a j) 0); [done|]. unfold get_data. by rewrite (load_ok _ _ _ _ En).
  - rewrite !zat_out by (rewrite ?(sh_len _ _ _ _ Hs); lia). done.
Qed.

Lemma data_of_freed_ok (f : C (st A) Z) s s1 p v a d i b :
  f s = Done (p, s1) → rep {[p]} s1 a d i b → data <$> nodes s1 !! p = Some v →
  ∃ s2, data_of_freed f s = Done (v, s2) ∧ rep ∅ s2 a d i b
    ∧ lock (ll s2) = lock (ll s1) ∧ errno s2 = errno s1.
Proof.
  intros E Hr Hv. unfold data_of_freed. rewrite (bind_Done _ _ _ _ _ E).
  assert (p ≠ 0) as Hp.
  { intros ->. by rewrite (shape_nonnull _ _ _ _ (proj1 Hr)) in Hv. }
  destruct (Z.eqb_spec p 0); [done|].
  destruct (nodes s1 !! p) as [nd|] eqn:En; [|done]. simplify_eq/=.
  unfold get_data. run_at En. destruct (free_node_ok s1 a d i b p Hr Hp) as (s2 & E2 & Hr2 & [Hk _] & He).
  rewrite (bind_Done _ _ _ _ _ E2). by exists s2.
Qed.

(** The queries that answer the datum of a node and move the cursor. *)
Lemma does_data_of x (f : C (st A) Z) s v (Q : Z → option Z → view → Prop) :
  models s v →
  (∀ s0 a, rep ∅ s0 a (items v) (pos v) (back v) →
     ∃ j s1 i b, f s0 = Done (zat a j, s1) ∧ rep ∅ s1 a (items v) i b
       ∧ same_list s0 s1 ∧ errno s1 = errno s0
       ∧ Q (zat (items v) j) None (View (items v) i b)) →
  does (locked me x (data_of f)) s Q.
Proof.
  intros Hm Hf. apply (locked_does _ _ _ v); [done|]. intros s0 [a Hr].
  destruct (Hf s0 a Hr) as (j & s1 & i & b & E & Hr1 & (_ & _ & Hl & _) & He & HQ).
  eexists _, None, _. split; [exact HQ|]. exists s1.
  split; [by apply (data_of_ok _ _ _ ∅ a _ i b)|]. split_and!; try done. by exists a.
Qed.

Definition as_spec (v : view) (c : command) : Z → option Z → view → Prop :=
  λ r eo v', spec v c = (r, eo, v').

Lemma zat_len (X : gset Z) s a d i b : rep X s a d i b → zlen d = zlen a.
Proof. intros (Hs & _). apply Hs. Qed.

Lemma get_of_does s v j : models s v → does (exec (GetOf j)) s (as_spec v (GetOf j)).
Proof.
  intros Hm. pose proof (models_small s v Hm) as Hn. simpl. unfold cplus_llist_get_of.
  apply (does_check _ _ v _ Hm).
  apply (does_bind _ _ s v (zlen (items v)) _ Hm (get_size_yields s v Hm)).
  intros s1 Hm1. assert (s32 (u32 (zlen (items v) - 1)) = zlen (items v) - 1) as ->.
  { destruct (decide (zlen (items v) = 0)) as [->|]; [done|].
    rewrite u32_small by lia. apply s32_small. lia. }
  apply (does_check_if _ _ _ _ v); [done| |]; unfold as_spec; simpl.
  - by intros ->.
  - intros Hb. rewrite Hb. apply does_data_of with v; [done|]. intros s0 a Hr.
    unfold out_of_interval in Hb. apply orb_false_iff in Hb as [?%Z.ltb_ge ?%Z.ltb_ge].
    pose proof (zat_len _ _ _ _ _ _ Hr).
    destruct (get_node_of_ok _ s0 a _ _ _ j Hr ltac:(lia)) as (s2 & E & Hr2 & Hs & He).
    by exists j, s2, j, (cursor_after (pos v) (back v) j).
Qed.

Lemma queries_do s v c :
  models s v →
  c = GetSize ∨ c = GetHead ∨ c = GetTail ∨ c = GetCurrent ∨ c = GetNext ∨ c = GetPrev →
  does (exec c) s (as_spec v c).
Proof.
  intros Hm Hc. destruct_or! Hc; subst; simpl; unfold as_spec; simpl.
  - exists (zlen (items v)), None, v. split; [done|]. by apply get_size_yields.
  - apply (does_check _ _ v _ Hm), (does_data_of _ _ _ v _ Hm). intros s0 a Hr.
    exists 0, s0, (pos v), (back v). destruct v. split_and!; try done.
    unfold get_head, field, gets, compose. by rewrite (sh_head _ _ _ _ (proj1 Hr)).
  - apply (does_check _ _ v _ Hm), (does_data_of _ _ _ v _ Hm). intros s0 a Hr.
    exists (zlen (items v) - 1), s0, (pos v), (back v). rewrite (zat_len _ _ _ _ _ _ Hr).
    destruct v. split_and!; try done.
    unfold get_tail, field, gets, compose. by rewrite (sh_tail _ _ _ _ (proj1 Hr)).
  - apply (does_check _ _ v _ Hm), (does_data_of _ _ _ v _ Hm). intros s0 a Hr.
    exists (pos v), s0, (pos v), (back v). destruct v. split_and!; try done.
    by apply (at_current_ok ∅ s0 a _ _ _ Hr).
  - apply (does_check _ _ v _ Hm), (does_data_of _ _ _ v _ Hm). intros s0 a Hr.
    pose proof (get_next_ok _ _ _ _ _ _ Hr) as Hg. rewrite (zat_len _ _ _ _ _ _ Hr).
    destruct (pos v + 1 <? zlen a).
    + destruct Hg as (s1 & E & Hr1 & Hs & He). by eexists _, s1, _, _.
    + exists (-1), s0, (pos v), (back v). destruct v. by rewrite (zat_out a (-1)) by lia.
  - apply (does_check _ _ v _ Hm), (does_data_of _ _ _ v _ Hm). intros s0 a Hr.
    pose proof (get_prev_ok _ _ _ _ _ _ Hr) as Hg. destruct (0 <? pos v).
    + destruct Hg as (s1 & E & Hr1 & Hs & He). by eexists _, s1, _, _.
    + exists (-1), s0, (pos v), (back v). destruct v. by rewrite (zat_out a (-1)) by lia.
Qed.

Lemma cycling_next_does s v :
  models s v → does (exec GetCyclingNext) s (as_spec v GetCyclingNext).
Proof.
  intros Hm. simpl. apply (does_check _ _ v _ Hm), (locked_does _ _ _ v _ Hm).
  intros s0 [a Hr]. unfold as_spec. simpl. pose proof (zat_len _ _ _ _ _ _ Hr) as Hl.
  pose proof (rep_range _ _ _ _ _ _ Hr) as [Hp Hr0].
  destruct (decide (zlen a = 0)) as [Ha|Ha].
  - apply (does_stay _ _ v 0); [by exists a| |by rewrite Hl, Ha].
    unfold get_current. rewrite (run_at_current _ _ _ _ _ _ _ Hr).
    by rewrite (zat_out a (pos v)) by lia.
  - assert (pos v < zlen a) by (destruct Hr0 as [?|[_ ->]]; [done|by destruct Ha]).
    destruct (shape_at _ s0 a _ (pos v) (proj1 Hr) ltac:(lia)) as [E Hne].
    rewrite Hl. destruct (Z.eqb_spec (zlen a) 0); [done|].
    eexists _, None, _. split; [done|]. unfold yields, get_current.
    rewrite (run_at_current _ _ _ _ _ _ _ Hr).
    destruct (Z.eqb_spec (zat a (pos v)) 0); [done|]. unfold get_data. run_at E.
    pose proof (get_next_ok _ _ _ _ _ _ Hr) as Hg.
    destruct (Z.ltb_spec (pos v + 1) (zlen a)).
    + destruct Hg as (s1 & En & Hr1 & (_ & _ & Hlk & _) & He). rewrite (bind_Done _ _ _ _ _ En).
      destruct (shape_at _ s0 a _ (pos v + 1) (proj1 Hr) ltac:(lia)) as [_ Hne'].
      destruct (Z.eqb_spec (zat a (pos v + 1)) 0); [done|]. run.
      exists s1. split_and!; try done. by exists a.
    + rewrite (bind_Done _ _ _ _ _ Hg). change (0 =? 0) with true. cbv iota.
      destruct (reset_rep _ _ _ _ (proj1 Hr)) as [Er Hrr]. rewrite (bind_Done _ _ _ _ _ Er).
      eexists. split; [done|]. split; [|done]. by exists a.
Qed.

(** A visit that looks at the datum of the node and acts when it matches. *)
Lemma visit_miss {R} (f : Z → bool) (act : C (st A) (option R)) X s a d b k :
  rep X s a d k b → 0 ≤ k < zlen a → f (zat d k) = false →
  (v ← load (zat a k) data; if f v then act else mret None) s = Done (None, s).
Proof.
  intros (Hs & _) Hk Hf. destruct (shape_at _ s a d k Hs Hk) as [E _]. run_at E.
  by rewrite Hf.
Qed.

Lemma visit_hit {R} (f : Z → bool) (act : C (st A) (option R)) X s a d b k :
  rep X s a d k b → 0 ≤ k < zlen a → f (zat d k) = true →
  (v ← load (zat a k) data; if f v then act else mret None) s = act s.
Proof.
  intros (Hs & _) Hk Hf. destruct (shape_at _ s a d k Hs Hk) as [E _]. run_at E.
  by rewrite Hf.
Qed.

(** A search, its action on the first match, and what follows. *)
Lemma search_does {R} (f : Z → bool) (act : C (st A) (option R)) (k : option R → C (st A) Z)
    s a v (Q : Z → option Z → view → Prop) :
  rep ∅ s a (items v) (pos v) (back v) →
  (∀ s1 j, zfind f (items v) = Some j → 0 ≤ j < zlen a → rep ∅ s1 a (items v) j false →
     ∃ x s2, act s1 = Done (Some x, s2) ∧ does (k (Some x)) s2 Q
       ∧ lock (ll s2) = lock (ll s1) ∧ errno s2 = errno s1) →
  (zfind f (items v) = None → ∀ s1, holds s1 (move v (last_pos v) false) →
     does (k None) s1 Q) →
  does (r ← scan (λ p, v ← load p data; if f v then act else mret None); k r) s Q.
Proof.
  intros Hr Hhit Hmiss. pose proof (zat_len _ _ _ _ _ _ Hr) as Hl.
  pose proof (scan_ok ∅ (λ p, v ← load p data; if f v then act else mret None)
    a (items v) f s (proj1 Hr)) as Hscan.
  destruct (zfind f (items v)) as [j|] eqn:Ef.
  - destruct Hscan as (s1 & Hr1 & Hs1 & He1 & Hx).
    { intros s0 i Hr0 Hi Hm. by apply (visit_miss f act ∅ s0 a (items v) false i). }
    pose proof Ef as (Hj & Hfj & _)%zfind_Some.
    destruct (Hhit s1 j eq_refl ltac:(lia) Hr1) as
      (x & s2 & Ea & (r & eo & v' & HQ & s3 & Ek & Hh & Hlk & He) & Hl2 & He2).
    exists r, eo, v'. split; [done|]. exists s3.
    rewrite (bind_Done _ _ _ _ _ (Hx x s2 ltac:(
      rewrite (visit_hit f act ∅ s1 a (items v) false j); (done || lia)))).
    destruct Hs1 as (_ & _ & Hlk1 & _). split_and!; try done; congruence.
  - destruct Hscan as (s1 & E & Hr1 & (_ & _ & Hlk1 & _) & He1).
    { intros s0 i Hr0 Hi Hm. by apply (visit_miss f act ∅ s0 a (items v) false i). }
    destruct (Hmiss eq_refl s1) as (r & eo & v' & HQ & s3 & Ek & Hh & Hlk & He).
    { exists a. unfold move, last_pos. simpl. by rewrite Hl. }
    exists r, eo, v'. split; [done|]. exists s3. rewrite (bind_Done _ _ _ _ _ E).
    split_and!; try done; congruence.
Qed.

Lemma does_assoc {B D E} (m : C (st A) B) (f : B → C (st A) D) (g : D → C (st A) E) s Q :
  does (m ≫= (λ x, f x ≫= g)) s Q → does ((m ≫= f) ≫= g) s Q.
Proof.
  intros (r & eo & v' & HQ & s1 & E1 & Hr1). exists r, eo, v'. split; [done|].
  exists s1. by rewrite run_assoc.
Qed.

(** The end of a search that found nothing. *)
Lemma not_found (m : C (st A) Z) s v r (Q : Z → option Z → view → Prop) :
  holds s v → m s = Done (r, with_errno ENOENT s) → Q r (Some ENOENT) v → does m s Q.
Proof.
  intros [a Hr] E HQ. exists r, (Some ENOENT), v. split; [done|]. eexists. split; [done|].
  split; [|done]. exists a. by apply rep_errno.
Qed.

Lemma get_if_does s v f : models s v → does (exec (GetIf f)) s (as_spec v (GetIf f)).
Proof.
  intros Hm. simpl. apply (does_check _ _ v _ Hm).
  apply (does_check_fn _ _ _ _ v _ Hm); [by intros ->|]. intros g ->.
  apply (locked_does _ _ _ v _ Hm). intros s0 [a Hr]. unfold as_spec. simpl. unfold search.
  apply does_assoc, (search_does _ _ _ _ a v); [done| |].
  - intros s1 j -> Hj Hr1. eexists _, s1.
    rewrite (run_at_current _ _ _ _ _ _ _ Hr1). split; [done|]. split; [|done].
    destruct (shape_at _ s1 a _ j (proj1 Hr1) Hj) as [E Hne].
    eexists _, None, _. split; [done|]. exists s1. rewrite run_mret.
    destruct (Z.eqb_spec (zat a j) 0); [done|]. unfold get_data. rewrite (load_ok _ _ _ _ E).
    split; [done|]. split; [|done]. by exists a.
  - intros -> s1 Hh. by apply (not_found _ s1 _ 0 _ Hh).
Qed.

Lemma get_index_if_does s v f :
  models s v → does (exec (GetIndexIf f)) s (as_spec v (GetIndexIf f)).
Proof.
  intros Hm. simpl. apply (does_check _ _ v _ Hm).
  apply (does_check_fn _ _ _ _ v _ Hm); [by intros ->|]. intros g ->.
  apply (locked_does _ _ _ v _ Hm). intros s0 [a Hr]. unfold as_spec. simpl. unfold search.
  apply (search_does _ _ _ _ a v); [done| |].
  - intros s1 j -> Hj Hr1. eexists _, s1. run. split; [done|]. split; [|done].
    pose proof Hr1 as (_ & -> & _). apply (does_stay _ _ (move v j false) j); [by exists a|done..].
  - intros -> s1 Hh. by apply (not_found _ s1 _ CPLUS_FAIL _ Hh).
Qed.

(** Unlinking the match of a search and freeing it. *)
Lemma remove_and_free s a v j :
  rep ∅ s a (items v) (pos v) (back v) → 0 ≤ j < zlen a →
  ∃ s1 s2, remove_node (zat a j) s = Done (CPLUS_SUCCESS, s1)
    ∧ data <$> nodes s1 !! zat a j = Some (zat (items v) j)
    ∧ free_node (zat a j) s1 = Done (tt, s2) ∧ zat a j ≠ 0
    ∧ holds s2 (View (zdel j (items v)) 0 false)
    ∧ lock (ll s1) = lock (ll s) ∧ lock (ll s2) = lock (ll s)
    ∧ errno s1 = errno s ∧ errno s2 = errno s.
Proof.
  intros Hr Hj. destruct (shape_at _ s a _ j (proj1 Hr) Hj) as [_ Hne].
  destruct (remove_node_ok s a _ _ _ j Hr Hj) as (s1 & E1 & Hr1 & Hd & [Hk1 _] & He1).
  destruct (free_node_ok s1 _ _ _ _ _ Hr1 Hne) as (s2 & E2 & Hr2 & [Hk2 _] & He2).
  exists s1, s2. split_and!; try (done || congruence). by exists (zdel j a).
Qed.

Lemma delete_data_does s v x :
  models s v → does (exec (DeleteData x)) s (as_spec v (DeleteData x)).
Proof.
  intros Hm. simpl. apply (does_check _ _ v _ Hm).
  apply (does_check_if _ _ _ _ v); [done| |]; unfold as_spec; simpl; [by intros ->|].
  intros ->. apply (locked_does _ _ _ v _ Hm). intros s0 [a Hr]. unfold search.
  apply (search_does (λ y, x =? y) _ _ _ a v); [done| |].
  - intros s1 j -> Hj Hr1.
    destruct (remove_and_free s1 a (move v j false) j Hr1 Hj) as
      (s2 & s3 & E2 & _ & E3 & _ & Hh & Hk2 & Hk3 & He2 & He3).
    eexists _, s3. do 2 rewrite (run_at_current _ _ _ _ _ _ _ Hr1).
    rewrite (bind_Done _ _ _ _ _ E2), (bind_Done _ _ _ _ _ E3). split; [done|]. split; [|done].
    by apply (does_stay _ s3 (View (zdel j (items v)) 0 false) CPLUS_SUCCESS).
  - intros -> s1 Hh. by apply (does_stay _ s1 (move v (last_pos v) false) CPLUS_FAIL).
Qed.

(** Everything but the answer carries over to an equal run. *)
Lemma does_run {B} (m m' : C (st A) B) s s' Q :
  m s = m' s' → lock (ll s') = lock (ll s) → errno s' = errno s → does m' s' Q → does m s Q.
Proof.
  intros E Hl He (r & eo & v' & HQ & s1 & E1 & Hh & Hl1 & He1). exists r, eo, v'. split; [done|].
  exists s1. rewrite E. split_and!; try done; congruence.
Qed.

Lemma pop_if_does s v f : models s v → does (exec (PopIf f)) s (as_spec v (PopIf f)).
Proof.
  intros Hm. simpl. apply (does_check _ _ v _ Hm).
  apply (does_check_fn _ _ _ _ v _ Hm); [by intros ->|]. intros g ->.
  apply (locked_does _ _ _ v _ Hm). intros s0 [a Hr]. unfold as_spec. simpl. unfold search.
  pose proof (zat_len _ _ _ _ _ _ Hr) as Hl.
  destruct (reset_rep _ _ _ _ (proj1 Hr)) as [_ Hr0].
  unfold data_of_freed, pop_if.
  eapply does_run; [rewrite run_assoc, run_reset, run_assoc, run_is_empty; reflexivity|done|done|].
  set (s1 := with_ll _ _) in *. rewrite (sh_count _ _ _ _ (proj1 Hr0)).
  destruct (Z.eqb_spec 0 (zlen a)) as [Ha|Ha].
  - assert (zfind (matches g) (items v) = None) as -> by (apply zfind_None; lia).
    apply (not_found _ s1 (move v (last_pos v) false) 0); [|done..].
    exists a. unfold last_pos. rewrite Hl, <- Ha. done.
  - apply does_assoc, (search_does (matches g) _ _ _ a (move v 0 false)); [done| |].
    + intros s2 j Ef Hj Hr2. change (zfind (matches g) (items v) = Some j) in Ef. rewrite Ef.
      destruct (remove_and_free s2 a (move v j false) j Hr2 Hj) as
        (s3 & s4 & E3 & Hd & E4 & Hne & Hh & Hk3 & Hk4 & He3 & He4).
      eexists _, s3. do 2 rewrite (run_at_current _ _ _ _ _ _ _ Hr2).
      rewrite (bind_Done _ _ _ _ _ E3). split; [done|]. split; [|done].
      eexists _, None, _. split; [done|]. exists s4. rewrite run_mret.
      destruct (Z.eqb_spec (zat a j) 0); [done|].
      destruct (nodes s3 !! zat a j) as [nd|] eqn:En; [|done]. simplify_eq/=.
      unfold get_data. run_at En. rewrite (bind_Done _ _ _ _ _ E4). rewrite Hd.
      split_and!; try done; cbn; congruence.
    + intros Ef s2 Hh. change (zfind (matches g) (items v) = None) in Ef. rewrite Ef.
      by apply (not_found _ s2 _ 0 _ Hh).
Qed.

(** ** Pushes and pops *)

Lemma push_does s v j x :
  models s v →
  (x ≠ 0 → out_of_interval j 0 (zlen (items v)) = false →
     zlen (items v) + 1 < 2147483648 ∧ inside v j) →
  does (cplus_llist_push_at me j x) s (λ r eo v', spec_push v j x = (r, eo, v')
    ∨ (x ≠ 0 ∧ out_of_interval j 0 (zlen (items v)) = false
       ∧ r = CPLUS_FAIL ∧ eo = Some ENOMEM ∧ v' = v)).
Proof.
  intros Hm Hok. pose proof (models_small s v Hm) as Hn. unfold cplus_llist_push_at, spec_push.
  apply (does_check _ _ v _ Hm), (does_check_if _ _ _ _ v); [done|intros ->; by left|].
  intros Hx. rewrite Hx in *. apply Z.eqb_neq in Hx. simpl.
  apply (does_bind _ _ s v (zlen (items v)) _ Hm (get_size_yields s v Hm)).
  intros s1 Hm1. rewrite s32_small by lia.
  apply (does_check_if _ _ _ _ v); [done|intros ->; by left|].
  intros Hb. destruct (Hok Hx Hb) as [Hsm Hin]. rewrite Hb.
  apply orb_false_iff in Hb as [?%Z.ltb_ge ?%Z.ltb_ge].
  apply (locked_does _ _ _ v _ Hm1). intros s0 [a Hr]. pose proof (zat_len _ _ _ _ _ _ Hr) as Hl.
  destruct (new_node_ok s0 a _ _ _ x Hr) as (p & s2 & E & [Hk _] & [(-> & Hr2 & He)|(Hp & Hr2 & He & Ex)]).
  - eexists CPLUS_FAIL, (Some ENOMEM), v. split; [by right|]. exists s2.
    rewrite (bind_Done _ _ _ _ _ E). split_and!; try done. by exists a.
  - destruct (push_at_ok s2 a _ _ _ p x j Hr2 Ex Hx ltac:(lia) ltac:(lia)) as
      (s3 & E3 & Hs3 & Hc & [[Hk3 _] _] & He3).
    eexists _, None, _. split; [by left|]. exists s3.
    rewrite (bind_Done _ _ _ _ _ E). destruct (Z.eqb_spec p 0); [done|].
    split; [done|]. split; [|split; [by rewrite Hk3|by rewrite He3]].
    exists (zins j p a). rewrite Hl. unfold rep. cbn [items pos back]. split; [done|].
    destruct ((j =? 0) || (j =? zlen a)) eqn:Ej; [done|].
    apply orb_false_iff in Ej as [?%Z.eqb_neq ?%Z.eqb_neq].
    destruct Hin as [?|[?|Hcur]]; [lia|lia|]. by rewrite Hcur in Hc.
Qed.

Lemma pop_does s v j :
  models s v →
  (out_of_interval j 0 (zlen (items v)) = false →
     inside v j ∧ ¬ (0 < j ∧ j = zlen (items v) - 1)) →
  does (cplus_llist_pop_of me j) s (λ r eo v', spec_pop v j = (r, eo, v')).
Proof.
  intros Hm Hok. pose proof (models_small s v Hm) as Hn. unfold cplus_llist_pop_of, spec_pop.
  apply (does_check _ _ v _ Hm).
  apply (does_bind _ _ s v (zlen (items v)) _ Hm (get_size_yields s v Hm)).
  intros s1 Hm1. rewrite s32_small by lia.
  apply (does_check_if _ _ _ _ v); [done|by intros ->|].
  intros Hb. destruct (Hok Hb) as [Hin Hlast]. rewrite Hb.
  apply orb_false_iff in Hb as [?%Z.ltb_ge ?%Z.ltb_ge].
  apply (locked_does _ _ _ v _ Hm1). intros s0 [a Hr]. pose proof (zat_len _ _ _ _ _ _ Hr) as Hl.
  destruct (Z.eqb_spec (zlen (items v)) 0) as [Hz|Hz].
  - assert (a = []) as -> by (apply zlen_0; lia).
    apply (not_found _ s0 v 0); [by exists []| |done]. unfold data_of_freed.
    by rewrite (bind_Done _ _ _ _ _ (pop_none s0 _ _ _ j Hr)).
  - set (k := if j =? zlen (items v) then zlen (items v) - 1 else j).
    assert (∃ s2, pop_of j s0 = Done (zat a k, s2)
      ∧ rep {[zat a k]} s2 (zdel k a) (zdel k (items v))
          (if (j =? 0) || (j =? zlen (items v)) then 0 else j) false
      ∧ data <$> nodes s2 !! zat a k = Some (zat (items v) k)
      ∧ kept s0 s2 ∧ errno s2 = errno s0) as (s2 & E & Hr2 & Hd & [Hk2 _] & He2).
    { unfold k. rewrite Hl in *. destruct (Z.eqb_spec j 0) as [->|]; simpl.
      - destruct (Z.eqb_spec 0 (zlen a)); [lia|].
        destruct (pop_head s0 a _ _ _ Hr ltac:(lia)) as (s2 & ? & ? & ? & ?). by exists s2.
      - destruct (Z.eqb_spec j (zlen a)) as [->|].
        + destruct (pop_tail s0 a _ _ _ Hr ltac:(lia)) as (s2 & ? & ? & ? & ?). by exists s2.
        + destruct Hin as [?|[?|Hcur]]; [lia|lia|].
          destruct (pop_mid s0 a _ _ _ j Hr ltac:(lia)) as (s2 & ? & ? & Hc & ?).
          rewrite Hcur in Hc. by exists s2. }
    destruct (data_of_freed_ok _ s0 s2 _ _ _ _ _ _ E Hr2 Hd) as (s3 & E3 & Hr3 & Hk3 & He3).
    eexists _, None, _. split; [done|]. exists s3. split; [exact E3|].
    split_and!; [by exists (zdel k a)|congruence|cbn; congruence].
Qed.

Lemma clear_does s v : models s v → does (exec Clear) s (as_spec v Clear).
Proof.
  intros Hm. simpl. apply (does_check _ _ v _ Hm).
  enough (does (locked me exclusive
    (node ← field head; n ← gets (λ s : st A, size (nodes s)); clear_loop n node;;
     upd (set_count 0);; upd (set_sort_count 0);; upd (set_head 0);; upd (set_tail 0);;
     reset_cur_node)) s (λ _ eo v', eo = None ∧ v' = View [] 0 false))
    as ([] & eo & v' & (-> & ->) & s1 & E & Hh & Hlk & He).
  { exists CPLUS_SUCCESS, None, (View [] 0 false). split; [done|]. exists s1.
    by rewrite (bind_Done _ _ _ _ _ E). }
  apply (locked_does _ _ _ v _ Hm). intros s0 [a (Hs & _)].
  pose proof (sh_src _ _ _ _ Hs) as Hal. pose proof (sh_dom _ _ _ _ Hs) as Hdom.
  rewrite (left_id_L ∅ (∪)) in Hal, Hdom.
  destruct (clear_loop_ok a (size (nodes s0)) s0) as (s1 & E & Hn1 & Hal1 & Hll & He1);
    try (done || apply Hs).
  { intros i Hi. by rewrite (proj1 (shape_at _ s0 a _ i Hs Hi)). }
  { by apply (shape_nodes ∅ s0 a (items v)). }
  exists tt, None, (View [] 0 false). split; [done|].
  eexists. run. rewrite (sh_head _ _ _ _ Hs), (bind_Done _ _ _ _ _ E). run.
  split; [done|]. cbn. rewrite Hll. split_and!; try done. exists []. split; [|done].
  constructor; cbn; try (done || (rewrite Hll; apply Hs)).
  - apply NoDup_nil_2.
  - apply not_elem_of_nil.
  - apply not_elem_of_nil.
  - rewrite Hn1. set_solver.
  - intros i Hi. unfold zlen in Hi. simpl in Hi. lia.
Qed.

(** ** Refinement *)

Definition refines (v : view) (c : command) (r : Z) (eo : option Z) (v' : view) : Prop :=
  spec v c = (r, eo, v')
  ∨ (is_Some (push_pos v c) ∧ r = CPLUS_FAIL ∧ eo = Some ENOMEM ∧ v' = v).

Lemma push_refines s v c j x :
  models s v → allowed v c →
  push_pos v c = (if (x =? 0) || out_of_interval j 0 (zlen (items v)) then None else Some j) →
  spec v c = spec_push v j x → does (cplus_llist_push_at me j x) s (refines v c).
Proof.
  intros Hm [Hpush _] Ep Es. unfold refines. rewrite Es, Ep in *. eapply does_mono.
  - apply (push_does s v j x Hm). intros Hx%Z.eqb_neq Hb. apply Hpush. by rewrite Hx, Hb.
  - intros r eo v' [?|(Hx%Z.eqb_neq & Hb & ?)]; [by left|]. right. by rewrite Hx, Hb.
Qed.

Lemma pop_refines s v c j :
  models s v → allowed v c →
  pop_pos v c = (if out_of_interval j 0 (zlen (items v)) then None else Some j) →
  spec v c = spec_pop v j → does (cplus_llist_pop_of me j) s (refines v c).
Proof.
  intros Hm [_ Hpop] Ep Es. unfold refines. rewrite Es.
  eapply does_mono; [apply (pop_does s v j Hm)|by left].
  intros Hb. apply Hpop. by rewrite Ep, Hb.
Qed.

(** The ends of the list are positions a call may ask for. *)
Lemma end_in_interval v k :
  k = 0 ∨ k = zlen (items v) → out_of_interval k 0 (zlen (items v)) = false.
Proof.
  intros Hk. apply orb_false_iff. rewrite !Z.ltb_ge. pose proof (zlen_nonneg (items v)). lia.
Qed.

Lemma exec_does s v c :
  models s v → allowed v c → does (exec c) s (refines v c).
Proof.
  intros Hm Hall. pose proof (models_small s v Hm) as Hn.
  assert (∀ f Q, (∀ s1, models s1 v → does (f (s32 (zlen (items v)))) s1 Q) →
    does (size ← cplus_llist_get_size me; f (s32 size) : C (st A) Z) s Q) as Hsize.
  { intros f Q. by apply (does_bind _ (λ n, f (s32 n)) s v _ _ Hm (get_size_yields s v Hm)). }
  assert (does (exec c) s (as_spec v c) → does (exec c) s (refines v c)) as Hspec.
  { intros Hd. apply (does_mono _ _ _ _ Hd). by left. }
  destruct c; try (by apply Hspec, queries_do; auto 10).
  - by apply Hspec, get_of_does.
  - by apply Hspec, cycling_next_does.
  - by apply Hspec, get_if_does.
  - by apply Hspec, get_index_if_does.
  - by apply (push_refines s v _ j x).
  - apply (push_refines s v _ 0 x); try done.
    rewrite end_in_interval, orb_false_r by auto. done.
  - apply (Hsize (λ n, cplus_llist_push_at me n x)). intros s1 Hm1. rewrite s32_small by lia.
    apply (push_refines s1 v _ (zlen (items v)) x); try done.
    rewrite end_in_interval, orb_false_r by auto. done.
  - by apply (pop_refines s v _ j).
  - apply (pop_refines s v _ 0); try done. by rewrite end_in_interval by auto.
  - apply (Hsize (cplus_llist_pop_of me)). intros s1 Hm1. rewrite s32_small by lia.
    apply (pop_refines s1 v _ (zlen (items v))); try done. by rewrite end_in_interval by auto.
  - by apply Hspec, pop_if_does.
  - by apply Hspec, delete_data_does.
  - by apply Hspec, clear_does.
Qed.

Lemma exec_step s v c :
  models s v → allowed v c →
  ∃ r s' v', exec c s = Done (r, s') ∧ models s' v' ∧ possible v c (errno s) r (errno s') v'.
Proof.
  intros Hm Hall. pose proof Hm as (a & _ & Hl).
  destruct (exec_does s v c Hm Hall) as (r & eo & v' & HQ & s' & E & [a' Hr'] & Hlk & He).
  exists r, s', v'. split; [done|]. split; [exists a'; by rewrite Hlk|].
  destruct HQ as [Es|(? & -> & -> & ->)]; [left; by exists eo|by right].
Qed.

(** C2: every call of the list that the contract allows returns, without undefined
    behaviour and without waiting, the answer and the [errno] of the abstract
    list, and leaves a well-formed list that represents the abstract one; only a
    push may instead fail for want of memory, and then changes nothing. *)
Theorem llist_step s v c :
  models s v → allowed v c →
  ∃ r s' v', exec c s = Done (r, s') ∧ models s' v' ∧ possible v c (errno s) r (errno s') v'.
Proof. apply exec_step. Qed.

(** Runs of calls. *)
Fixpoint exec_all (cs : list command) : C (st A) (list Z) :=
  match cs with
  | [] => mret []
  | c :: cs => r ← exec c; rs ← exec_all cs; mret (r :: rs)
  end.

Inductive runs : view → list command → list Z → view → Prop :=
| runs_nil v : runs v [] [] v
| runs_cons v c cs r eo v1 rs v2 :
    refines v c r eo v1 → runs v1 cs rs v2 → runs v (c :: cs) (r :: rs) v2.

(** Every call of the run is allowed, whatever the earlier ones answered. *)
Fixpoint safe (v : view) (cs : list command) : Prop :=
  match cs with
  | [] => True
  | c :: cs => allowed v c ∧ ∀ r eo v', refines v c r eo v' → safe v' cs
  end.

(** C1: a whole run of allowed calls refines the abstract list: from any state
    that represents it, the calls return the answers of an abstract run and end
    in a state that represents its last list. *)
Theorem llist_refines s v cs :
  models s v → safe v cs →
  ∃ rs s' v', exec_all cs s = Done (rs, s') ∧ models s' v' ∧ runs v cs rs v'.
Proof.
  revert s v. induction cs as [|c cs IH]; intros s v Hm Hsafe.
  - exists [], s, v. split; [done|]. split; [done|]. constructor.
  - destruct Hsafe as [Hall Hsafe]. pose proof Hm as (a & _ & Hl).
    destruct (exec_does s v c Hm Hall) as (r & eo & v1 & HQ & s1 & E & [a1 Hr1] & Hlk & He).
    destruct (IH s1 v1) as (rs & s2 & v2 & E2 & Hm2 & Hruns).
    { exists a1. by rewrite Hlk. }
    { by apply (Hsafe r eo). }
    exists (r :: rs), s2, v2. simpl. rewrite (bind_Done _ _ _ _ _ E), (bind_Done _ _ _ _ _ E2).
    split; [done|]. split; [done|]. by econstructor.
Qed.

End refinement.
End LlistSpec.
