(* ===== verification/LlistProps.v ===== *)
(** * LlistProps: the rest of the list's interface, and its limits

    Construction, deletion, iteration, selection and comparison of lists, and
    what happens outside the contract of LlistSpec.v. *)

From S2P Require Import Prelude Allocator Mempool Locks Zlist Llist LlistInv LlistSpec.
From stdpp Require Import base numbers list option gmap sets.
From Stdlib Require Import ZArith Lia.
Open Scope Z_scope.

Module LlistProps.
Import Heap Lock Llist LlistInv LlistSpec.

Definition no_items : view := View [] 0 false.

Lemma empty_models {A} `{Allocator A} (l : lockable) (a : A) e :
  idle l → al_ok a ∅ → models (empty_list l a e) no_items.
Proof.
  intros Hl Ha. exists []. split; [|done]. split; [|done].
  constructor; try done.
  - apply NoDup_nil_2.
  - apply not_elem_of_nil.
  - apply not_elem_of_nil.
  - intros i Hi. unfold zlen in Hi. simpl in Hi. lia.
Qed.

(** ** Construction *)

Lemma new_pool_live arena bytes count size e :
  0 < arena → 0 < count → 4 ≤ size → count * size < 4294967296 →
  ∃ p, Mempool.cplus_mempool_new true arena bytes count size e = (Some p, e)
    ∧ Mempool.pool_live p ∅.
Proof.
  intros Ha Hc Hs Hf.
  destruct (Mempool.mempool_new_rep arena bytes count size e Ha Hc Hs Hf)
    as (p & E & Hr & Hn & _). exists p. split; [done|]. exists (seqZ 0 count). split; [done|].
  intros q. split; [set_solver|]. intros (i & Hi & Hni & _). destruct Hni.
  apply elem_of_seqZ. lia.
Qed.

Definition constructor (r : resources) (max_count : Z) (thread_safe : bool) (e : Z) :=
  if thread_safe then cplus_llist_prev_new_s r max_count e
  else cplus_llist_prev_new r max_count e.

(** every constructor, given the memory it asks for, makes a well-formed list
    without items: the pool of a list with a maximal number of nodes always fits
    in 32 bits, and a larger maximum is refused. *)
Theorem constructors_correct r max_count thread_safe e :
  0 ≤ max_count → object_ok r = true → pool_object_ok r = true → lock_ok r = true →
  0 < arena r → Heap.heap_ok (node_heap r) ∅ →
  if max_count <=? MAX_NODE_COUNT then
    ∃ s e', constructor r max_count thread_safe e = Done (Some s, e') ∧ models s no_items
  else constructor r max_count thread_safe e = Done (None, EINVAL).
Proof.
  intros Hm Ho Hp Hl Ha Hh. unfold constructor, cplus_llist_prev_new, cplus_llist_prev_new_s.
  destruct (Z.leb_spec max_count MAX_NODE_COUNT) as [Hmax|Hmax].
  2: { destruct (Z.ltb_spec MAX_NODE_COUNT max_count); [by destruct thread_safe|lia]. }
  destruct (Z.ltb_spec MAX_NODE_COUNT max_count); [lia|].
  unfold llist_initialize_object. rewrite Ho, Hp, Hl. unfold MAX_NODE_COUNT in *.
  destruct (Z.eqb_spec 0 max_count) as [<-|Hne].
  - destruct thread_safe; do 2 eexists; (split; [reflexivity|]); by apply empty_models.
  - destruct (new_pool_live (arena r) (bytes r) max_count NODE_SIZE e) as (p & -> & Hlive);
      [done|lia|unfold NODE_SIZE; lia..|].
    destruct thread_safe; do 2 eexists; (split; [reflexivity|]); by apply empty_models.
Qed.

Section props.
Context {A : Type} `{Allocator A} (me : nat).
Implicit Types s : st A.

(** ** Deletion *)

(** deleting a list gives all its nodes back, and the object with them: any
    later call on it uses freed memory. *)
Theorem delete_frees_all s v :
  models s v →
  ∃ s', cplus_llist_delete me s = Done (CPLUS_SUCCESS, s')
    ∧ nodes s' = ∅ ∧ al_ok (src s') ∅
    ∧ (∀ c, exec me c s' = Undefined) ∧ cplus_llist_delete me s' = Undefined.
Proof.
  intros Hm. unfold cplus_llist_delete. rewrite (check_type _ _ _ Hm).
  destruct (exec_does me s v Clear Hm) as (r & eo & v' & [Es|[[? ?] _]] & s1 & E & [a1 (Hs & _)] & _);
    [split; done| |done].
  injection Es as <- <- <-. simpl in E, Hs. rewrite (bind_Done _ _ _ _ _ E). run.
  change (CPLUS_SUCCESS =? CPLUS_SUCCESS) with true. cbv iota. run.
  eexists. split; [done|]. cbn. pose proof (sh_len _ _ _ _ Hs) as Hlen.
  assert (a1 = []) as -> by (by apply zlen_0).
  split; [apply dom_empty_iff_L; rewrite (sh_dom _ _ _ _ Hs); set_solver|].
  split; [pose proof (sh_src _ _ _ _ Hs) as Hal; by rewrite (left_id_L ∅ (∪)) in Hal|].
  split; [|done]. intros c. by destruct c.
Qed.

(** ** Iteration *)

Definition items_are s (d : list Z) : Prop := ∃ p b, models s (View d p b).

Lemma drop_zat k (d : list Z) :
  0 ≤ k < zlen d → drop (Z.to_nat k) d = zat d k :: drop (Z.to_nat (k + 1)) d.
Proof.
  intros Hk. replace (Z.to_nat (k + 1)) with (S (Z.to_nat k)) by lia.
  by apply drop_S, zat_in.
Qed.

Lemma items_size s d :
  items_are s d → ∃ s', cplus_llist_get_size me s = Done (zlen d, s') ∧ items_are s' d.
Proof.
  intros (p & b & Hm). pose proof Hm as (a & _ & Hl).
  destruct (get_size_yields me s _ Hm) as (s1 & E1 & [a1 Hr1] & Hl1 & _).
  exists s1. split; [done|]. exists p, b, a1. by rewrite Hl1.
Qed.

Lemma items_get_of s d k :
  items_are s d → 0 ≤ k < zlen d →
  ∃ s', cplus_llist_get_of me (s32 k) s = Done (zat d k, s') ∧ items_are s' d.
Proof.
  intros (p & b & Hm) Hk. pose proof (models_small s _ Hm) as Hn. cbn in Hn.
  pose proof Hm as (a & _ & Hl). rewrite s32_small by lia.
  destruct (get_of_does me s _ k Hm) as (r & eo & v' & Es & s2 & E2 & [a2 Hr2] & Hl2 & _).
  unfold as_spec in Es. cbn in Es.
  assert (out_of_interval k 0 (zlen d - 1) = false) as Ei
    by (apply orb_false_iff; rewrite !Z.ltb_ge; lia).
  rewrite Ei in Es. injection Es as <- <- <-.
  exists s2. split; [done|]. eexists _, _, a2. split; [done|]. by rewrite Hl2.
Qed.

Lemma items_facts s d : items_are s d → 0 ∉ d ∧ zlen d < 2147483648.
Proof.
  intros (p & b & Hm). pose proof (models_small s _ Hm) as Hn. cbn in Hn.
  destruct Hm as (a & (Hs & _) & _). split; [apply Hs|lia].
Qed.

Lemma foreach_loop_ok fuel s d k :
  items_are s d → 0 ≤ k ≤ zlen d → zlen d ≤ k + Z.of_nat fuel →
  ∃ s', foreach_loop me fuel k s = Done (drop (Z.to_nat k) d, s') ∧ items_are s' d.
Proof.
  revert s k. induction fuel as [|fuel IH]; intros s k Hi Hk Hf;
    destruct (items_size s d Hi) as (s1 & E1 & Hi1); cbn [foreach_loop];
    rewrite (bind_Done _ _ _ _ _ E1); (destruct (Z.ltb_spec k (zlen d)); cbn [negb];
      [|exists s1; by rewrite drop_ge by (unfold zlen in *; lia)]); [lia|].
  destruct (items_facts s d Hi) as [Hnz Hsm].
  destruct (items_get_of s1 d k Hi1) as (s2 & E2 & Hi2); [lia|].
  rewrite (bind_Done _ _ _ _ _ E2), u32_small by lia.
  destruct (Z.eqb_spec (zat d k) 0) as [Hz|]; [apply zat_0 in Hz; [lia|done]|].
  destruct (IH s2 (k + 1) Hi2) as (s3 & E3 & Hi3); [lia..|].
  exists s3. rewrite (bind_Done _ _ _ _ _ E3). split; [|done].
  by rewrite (drop_zat k d) by lia.
Qed.

(** iterating over a list with [CPLUS_LLIST_FOREACH] visits every item once, in
    order, and terminates. *)
Theorem foreach_visits_all s d :
  items_are s d → ∃ s', CPLUS_LLIST_FOREACH me s = Done (d, s') ∧ items_are s' d.
Proof.
  intros Hi. unfold CPLUS_LLIST_FOREACH. run.
  apply (foreach_loop_ok _ s d 0); [done|pose proof (zlen_nonneg d); lia|].
  destruct Hi as (p & b & a & (Hs & _) & _). pose proof (shape_nodes _ _ _ _ Hs).
  pose proof (sh_len _ _ _ _ Hs) as Hl. unfold zlen in *. cbn in Hl. lia.
Qed.

(** ** Selection *)

(** The second list, while it holds the items [e]; its heap does not run out. *)
Definition target_ok (t : target) (e : list Z) : Prop :=
  match t with
  | NoList h => e = [] ∧ Heap.heap_ok h ∅ ∧ Heap.oom h = []
  | AList l => e ≠ [] ∧ (∃ a, rep ∅ l a e 0 false) ∧ Heap.oom (src l) = []
  end.

Lemma append_ok (l : st Heap.heap) a e v :
  rep ∅ l a e 0 false → Heap.oom (src l) = [] → v ≠ 0 → zlen e + 1 < 2147483648 →
  ∃ l' a', append v l = Done (tt, l') ∧ rep ∅ l' a' (e ++ [v]) 0 false ∧ Heap.oom (src l') = [].
Proof.
  intros Hr Ho Hv Hsm. pose proof (zat_len _ _ _ _ _ _ Hr) as Hl.
  destruct (new_node_ok l a e 0 false v Hr) as (p & l1 & E & _ & Hcase).
  assert (p ≠ 0 ∧ Heap.oom (src l1) = []) as [Hp Ho1].
  { pose proof (sh_src _ _ _ _ (proj1 Hr)) as (_ & Hf & _). revert E.
    unfold new_node, take_block. cbn [al_new Heap.heap_allocator].
    unfold Heap.cplus_malloc. crun. rewrite Ho. cbn.
    destruct (Z.eqb_spec (Heap.fresh (src l)) 0); [lia|]. intros [= <- <-]. done. }
  destruct Hcase as [(-> & _)|(_ & Hr1 & _ & Ex)]; [done|].
  unfold append. rewrite (bind_Done _ _ _ _ _ E). destruct (Z.eqb_spec p 0); [done|]. run.
  rewrite (sh_count _ _ _ _ (proj1 Hr1)).
  destruct (push_at_ok l1 a e 0 false p v (zlen a) Hr1 Ex Hv) as
    (l2 & E2 & Hs2 & Hc2 & [_ Hsrc] & _); [pose proof (zlen_nonneg a); lia|lia|].
  rewrite (bind_Done _ _ _ _ _ E2). exists l2, (zins (zlen a) p a). split; [done|].
  rewrite Z.eqb_refl, orb_true_r in Hc2. split; [|by rewrite Hsrc].
  split; [|done]. by rewrite <- (zins_zlen v e), Hl.
Qed.

(** Matching one item: the target gains it. *)
Lemma collect_ok s a d k b f t e :
  rep ∅ s a d k b → 0 ≤ k < zlen d → target_ok t e → zlen e + 1 < 2147483648 →
  ∃ t' s', (if matches f (zat d k) then
             l ← get_target t; l ← on_target l (append (zat d k)); mret (AList l)
           else mret t : C (st A) target) s = Done (t', s')
    ∧ target_ok t' (e ++ if matches f (zat d k) then [zat d k] else [])
    ∧ rep ∅ s' a d k b ∧ lock (ll s') = lock (ll s)
    ∧ (matches f (zat d k) = false → errno s' = errno s).
Proof.
  intros Hr Hk Ht Hsm. destruct (matches f (zat d k)) eqn:Em.
  2: { exists t, s. by rewrite app_nil_r. }
  assert (zat d k ≠ 0) as Hv.
  { unfold matches in Em. apply andb_true_iff in Em as [Hn%negb_true_iff%Z.eqb_neq _]. done. }
  assert (∃ l s1 a1, get_target t s = Done (l, s1) ∧ rep ∅ l a1 e 0 false ∧ oom (src l) = []
    ∧ rep ∅ s1 a d k b ∧ lock (ll s1) = lock (ll s)) as (l & s1 & a1 & E1 & Hl & Ho & Hr1 & Hlk).
  { destruct t as [h|l]; simpl in Ht.
    - destruct Ht as (-> & (Hu & Hf & Hlive) & Ho). unfold get_target, cplus_malloc. rewrite Ho.
      cbn. destruct (Z.eqb_spec (fresh h) 0); [lia|].
      match goal with |- context [Done (?l0, _)] => set (l := l0) end.
      assert (models l no_items) as (a1 & Hl & _).
      { apply empty_models; [done|]. split_and!; [done|cbn; lia|]. intros p Hp%Hlive. cbn. lia. }
      exists l. eexists _, a1. split; [done|]. split; [done|]. split; [done|].
      split; [by apply rep_errno|done].
    - destruct Ht as (_ & [a1 Hl] & Ho). by exists l, s, a1. }
  rewrite (bind_Done _ _ _ _ _ E1).
  assert (rep ∅ (with_errno (errno s1) l) a1 e 0 false) as Hl' by (by apply rep_errno).
  destruct (append_ok _ _ _ _ Hl' Ho Hv Hsm) as (l2 & a2 & E2 & Hl2 & Ho2).
  exists (AList l2), (with_errno (errno l2) s1).
  split; [unfold on_target; crun; by rewrite E2|].
  split; [split; [by destruct e|]; split; [by exists a2|done]|].
  split; [by apply rep_errno|]. by split.
Qed.

(** The items the comparator selects. *)
Definition selected (f : Z → Z) (d : list Z) : list Z := List.filter (matches f) d.

Lemma selected_take f d k :
  0 ≤ k < zlen d →
  selected f (take (Z.to_nat (k + 1)) d)
  = selected f (take (Z.to_nat k) d) ++ (if matches f (zat d k) then [zat d k] else []).
Proof.
  intros Hk. replace (Z.to_nat (k + 1)) with (S (Z.to_nat k)) by lia.
  rewrite (take_S_r _ _ (zat d k)) by (by apply zat_in).
  unfold selected. rewrite List.filter_app. cbn. by destruct (matches f (zat d k)).
Qed.

Lemma selected_length f d : zlen (selected f d) ≤ zlen d.
Proof. unfold zlen, selected. pose proof (List.filter_length_le (matches f) d). lia. Qed.

Lemma get_set_loop_ok fuel f s a d k t :
  rep ∅ s a d k false → k < zlen a → target_ok t (selected f (take (Z.to_nat k) d)) →
  zlen a ≤ k + 1 + Z.of_nat fuel →
  ∃ t' s', get_set_loop fuel f t s = Done (t', s') ∧ target_ok t' (selected f d)
    ∧ rep ∅ s' a d (zlen a - 1) false ∧ lock (ll s') = lock (ll s).
Proof.
  revert s k t. induction fuel as [|fuel IH]; intros s k t Hr Hk Ht Hf;
    pose proof (rep_range _ _ _ _ _ _ Hr) as [Hk0 _]; pose proof (zat_len _ _ _ _ _ _ Hr) as Hl;
    destruct (shape_at _ s a d k (proj1 Hr) ltac:(lia)) as [E Hne];
    pose proof (sh_small _ _ _ _ (proj1 Hr)) as Hsm.
  all: assert (zlen (selected f (take (Z.to_nat k) d)) + 1 < 2147483648) as Hts
    by (pose proof (selected_length f (take (Z.to_nat k) d)) as Hle;
        unfold zlen in *; rewrite length_take in Hle; lia).
  all: destruct (collect_ok s a d k false f t _ Hr ltac:(lia) Ht Hts) as
    (t1 & s1 & E1 & Ht1 & Hr1 & Hlk1 & _).
  all: rewrite <- selected_take in Ht1 by lia.
  all: destruct (shape_at _ s1 a d k (proj1 Hr1) ltac:(lia)) as [E2 _].
  all: cbn [get_set_loop]; rewrite (run_at_current _ _ _ _ _ _ _ Hr);
    destruct (Z.eqb_spec (zat a k) 0); [done|]; unfold get_data; run_at E;
    rewrite (bind_Done _ _ _ _ _ E1), (run_at_current _ _ _ _ _ _ _ Hr1); run_at E2.
  all: destruct (decide (k + 1 = zlen a)) as [Ek|Ek];
    [rewrite (zat_out a (k + 1)) by lia; exists t1, s1; split; [done|];
     rewrite Ek, take_ge in Ht1 by (unfold zlen in *; lia);
     by replace (zlen a - 1) with k by lia|try lia].
  destruct (shape_at _ s1 a d (k + 1) (proj1 Hr1) ltac:(lia)) as [_ Hne2].
  destruct (Z.eqb_spec (zat a (k + 1)) 0); [done|].
  destruct (forward_ok ∅ s1 a d k false Hr1) as (s2 & Ef & Hr2 & (_ & _ & Hlk2 & _) & _); [lia|].
  rewrite (bind_Done _ _ _ _ _ Ef).
  destruct (IH s2 (k + 1) t1 Hr2) as (t3 & s3 & E3 & Ht3 & Hr3 & Hlk3); [lia|done|lia|].
  exists t3, s3. split_and!; try done. congruence.
Qed.

(** What a selection answers: a list of the selected items, or none. *)
Definition selection (e : list Z) (r : option (st heap)) : Prop :=
  match r with
  | None => e = []
  | Some l => e ≠ [] ∧ ∃ a, rep ∅ l a e 0 false
  end.

(** when the memory suffices, [cplus_llist_get_set_if] answers a new
    well-formed list of exactly the items the comparator selects, in order, and
    null with [ENOENT] when there is none; the first list keeps its items. *)
Theorem get_set_if_selects s v h f :
  models s v → heap_ok h ∅ → oom h = [] →
  ∃ r s', cplus_llist_get_set_if me h (Some f) s = Done (r, s')
    ∧ selection (selected f (items v)) r
    ∧ models s' (move v (last_pos v) false)
    ∧ (r = None → errno s' = ENOENT).
Proof.
  intros Hm Hh Ho. unfold cplus_llist_get_set_if. rewrite (check_type _ _ _ Hm). cbn [check_fn].
  pose proof Hm as (a & Hr & Hl).
  destruct (locked_ok me shared (get_set_if h f) s
    (λ r s', selection (selected f (items v)) r
       ∧ holds s' (move v (last_pos v) false) ∧ (r = None → errno s' = ENOENT)) Hl)
    as (r & s' & E & (Hsel & [a' Hr'] & He) & Hlk).
  2: { exists r, s'. split_and!; try done. exists a'. by rewrite Hlk. }
  intros lk. apply (rep_lock _ _ _ _ _ _ lk) in Hr. set (s0 := with_ll _ s) in *.
  pose proof (zat_len _ _ _ _ _ _ Hr) as Hlen.
  destruct (reset_rep _ _ _ _ (proj1 Hr)) as [Er Hr0]. unfold get_set_if.
  rewrite (bind_Done _ _ _ _ _ Er). run. set (s1 := with_ll _ (with_ll _ s0)) in *.
  unfold last_pos. rewrite Hlen. destruct (decide (zlen a = 0)) as [Hz|Hz].
  - assert (a = [] ∧ items v = []) as [-> Hi] by (rewrite <- !zlen_0; lia).
    rewrite Hi. assert (get_set_loop (size (nodes s0)) f (NoList h) s1 = Done (NoList h, s1)) as Eg.
    { destruct (size (nodes s0)); cbn [get_set_loop];
        by rewrite (run_at_current _ _ _ _ _ _ _ Hr0). }
    rewrite (bind_Done _ _ _ _ _ Eg). exists None. eexists. split; [done|]. split; [done|].
    split; [done|]. split; [|done]. exists []. apply rep_lock, rep_errno. apply Hr0.
  - destruct (get_set_loop_ok (size (nodes s0)) f s1 a (items v) 0 (NoList h) Hr0) as
      (t & s2 & Eg & Ht & Hr2 & Hlk2); [pose proof (zlen_nonneg a); lia|done| |].
    { pose proof (shape_nodes _ _ _ _ (proj1 Hr)). unfold zlen. cbn in *. lia. }
    rewrite (bind_Done _ _ _ _ _ Eg).
    replace (Z.max 0 (zlen a - 1)) with (zlen a - 1) by (pose proof (zlen_nonneg a); lia).
    destruct t as [h'|l]; cbn in Ht; (eexists _, _; split; [done|]; split; [done|]).
    + destruct Ht as (Hsel & _). split; [done|]. split; [|done].
      exists a. by apply rep_lock, rep_errno.
    + destruct Ht as (Hne & Hl2 & _). split; [done|]. split; [|done].
      exists a. by apply rep_lock.
Qed.

End props.

(** ** Comparison *)
Section compare.
Context {A B : Type} `{Allocator A} `{Allocator B} (me : nat).

Lemma run_first {D E} (m : C (st A) D) (f : D → C (st A * st B) E) s1 s2 x s1' :
  m s1 = Done (x, s1') → (on_first m ≫= f) (s1, s2) = f x (s1', s2).
Proof. intros Em. unfold mbind, C_bind, on_first. cbn. by rewrite Em. Qed.

Lemma run_second {D E} (m : C (st B) D) (f : D → C (st A * st B) E) s1 s2 x s2' :
  m s2 = Done (x, s2') → (on_second m ≫= f) (s1, s2) = f x (s1, s2').
Proof. intros Em. unfold mbind, C_bind, on_second. cbn. by rewrite Em. Qed.

(** From position [k] on, the items agree. *)
Definition agree (cmp : Z → Z → Z) (d1 d2 : list Z) (k : Z) : Prop :=
  ∀ i, k ≤ i < zlen d1 → cmp (zat d1 i) (zat d2 i) = 0.

Lemma consist_loop_ok fuel cmp (s1 : st A) (s2 : st B) d1 d2 k :
  items_are s1 d1 → items_are s2 d2 → zlen d1 = zlen d2 → 0 ≤ k ≤ zlen d1 →
  zlen d1 ≤ k + Z.of_nat fuel →
  ∃ b s1' s2', consist_loop me fuel cmp k (s1, s2) = Done (b, (s1', s2'))
    ∧ items_are s1' d1 ∧ items_are s2' d2 ∧ (b = true ↔ agree cmp d1 d2 k).
Proof.
  revert s1 s2 k. induction fuel as [|fuel IH]; intros s1 s2 k I1 I2 Hl Hk Hf;
    destruct (items_size me s1 d1 I1) as (s3 & E1 & I3); cbn [consist_loop];
    rewrite (run_first _ _ _ _ _ _ E1); (destruct (Z.ltb_spec k (zlen d1)); cbn [negb];
      [|exists true, s3, s2; split_and!; try done; split; [intros _ i ?; lia|done]]); [lia|].
  destruct (items_get_of me s3 d1 k I3) as (s4 & E2 & I4); [lia|].
  destruct (items_get_of me s2 d2 k I2) as (s5 & E3 & I5); [lia|].
  rewrite (run_first _ _ _ _ _ _ E2), (run_second _ _ _ _ _ _ E3).
  destruct (Z.eqb_spec 0 (cmp (zat d1 k) (zat d2 k))) as [Ec|Ec]; cbn [negb].
  - destruct (items_facts s1 d1 I1) as [_ Hsm]. rewrite u32_small by lia.
    destruct (IH s4 s5 (k + 1) I4 I5 Hl) as (b & s6 & s7 & E & I6 & I7 & Hb); [lia..|].
    exists b, s6, s7. split_and!; try done. rewrite Hb. split; intros Ha i Hi.
    + destruct (decide (i = k)) as [->|]; [done|]. apply Ha. lia.
    + apply Ha. lia.
  - exists false, s4, s5. split_and!; try done. split; [done|]. intros Ha.
    destruct Ec. symmetry. apply Ha. lia.
Qed.

(** [cplus_llist_is_consist] answers whether the lists have the same length and
    the comparator finds all their items equal, and changes no item. *)
Theorem is_consist_correct cmp (s1 : st A) (s2 : st B) d1 d2 :
  items_are s1 d1 → items_are s2 d2 →
  ∃ b s1' s2', cplus_llist_is_consist me (Some cmp) (s1, s2) = Done (b, (s1', s2'))
    ∧ items_are s1' d1 ∧ items_are s2' d2
    ∧ (b = true ↔ zlen d1 = zlen d2 ∧ agree cmp d1 d2 0).
Proof.
  intros I1 I2. unfold cplus_llist_is_consist.
  pose proof I1 as (p1 & b1 & Hm1). pose proof I2 as (p2 & b2 & Hm2).
  assert (CHECK_OBJECT_TYPE s1 = Done (tt, s1)) as C1
    by apply (check_done s1 _ Hm1).
  assert (CHECK_OBJECT_TYPE s2 = Done (tt, s2)) as C2
    by apply (check_done s2 _ Hm2).
  destruct (items_size me s1 d1 I1) as (s3 & E1 & I3).
  destruct (items_size me s2 d2 I2) as (s4 & E2 & I4).
  rewrite (run_first _ _ _ _ _ _ C1), (run_second _ _ _ _ _ _ C2),
    (run_first _ _ _ _ _ _ E1), (run_second _ _ _ _ _ _ E2).
  destruct (Z.eqb_spec (zlen d1) (zlen d2)) as [El|El]; cbn [negb].
  - pose proof (zlen_nonneg d1).
    destruct (consist_loop_ok (Z.to_nat (zlen d1)) cmp s3 s4 d1 d2 0 I3 I4 El) as
      (b & s5 & s6 & E & I5 & I6 & Hb); [lia..|].
    exists b, s5, s6. split_and!; try done. rewrite Hb. by split; [split|intros []].
  - exists false, s3, s4. split_and!; try done. by split; [|intros []].
Qed.

End compare.

(** ** Outside the contract *)

Section limits.
Context {A : Type} `{Allocator A} (me : nat).
Implicit Types s : st A.

(** Code bug: taking the last of at least two items out by its own position,
    which [cplus_llist_pop_of] accepts, reads the node after the last one. *)
Theorem pop_last_crashes s v :
  models s v → 2 ≤ zlen (items v) →
  cplus_llist_pop_of me (zlen (items v) - 1) s = Undefined.
Proof.
  intros Hm Hn. pose proof (models_small s v Hm) as Hsm. unfold cplus_llist_pop_of.
  rewrite (check_type _ _ _ Hm). pose proof Hm as (a & _ & Hl).
  destruct (get_size_yields me s v Hm) as (s1 & E1 & [a1 Hr1] & Hl1 & _).
  rewrite (bind_Done _ _ _ _ _ E1). unfold check_if.
  assert (out_of_interval (zlen (items v) - 1) 0 (s32 (zlen (items v))) = false) as ->.
  { rewrite s32_small by lia. apply orb_false_iff. rewrite !Z.ltb_ge. lia. }
  rewrite <- Hl1 in Hl.
  destruct (lock_unlock exclusive me CPLUS_INFINITE_TIMEOUT _ (errno s1) Hl) as (h & Eh & _).
  unfold locked, lock_op. crun. rewrite Eh.
  apply (rep_lock _ _ _ _ _ _ h), (rep_errno _ _ _ _ _ _ (errno s1)) in Hr1.
  rewrite (zat_len _ _ _ _ _ _ Hr1) in *. unfold data_of_freed. crun.
  by rewrite (pop_last_index _ a1 _ _ _ Hr1 Hn).
Qed.

End limits.

(** A heap list and the pushes that fill it. *)
Definition fresh_list (l : lockable) : st heap := empty_list l empty_heap 0.
Fixpoint push_all (xs : list Z) : C (st heap) unit :=
  match xs with
  | [] => mret tt
  | x :: xs => cplus_llist_push_back 1 x;; push_all xs
  end.
Definition sample (l : lockable) (xs : list Z) : st heap :=
  state_of (fresh_list l) (push_all xs (fresh_list l)).

(** Code bug: after a step back, a push or a pop inside the list leaves the
    cursor one item off: reading the position just written answers another item
    (20 for the new 99), and reading the position just popped answers the item
    before it (20 instead of 40); an iteration over the five items then misses
    the first one. *)
Theorem stale_cursor :
  value_of ((cplus_llist_get_of 1 3;; cplus_llist_push_at 1 1 99;; cplus_llist_get_of 1 1)
            (sample NoLock [10; 20; 30; 40])) = Done 20
  ∧ value_of ((cplus_llist_get_of 1 4;; cplus_llist_pop_of 1 2;; cplus_llist_get_of 1 2)
              (sample NoLock [10; 20; 30; 40; 50])) = Done 20
  ∧ value_of ((cplus_llist_get_of 1 3;; cplus_llist_push_at 1 1 99;; CPLUS_LLIST_FOREACH 1)
              (sample NoLock [10; 20; 30; 40])) = Done [99; 20; 30; 40].
Proof. split_and!; by vm_compute. Qed.

(** Two threads inside [cplus_llist_get_of] at once: both hold the lock shared,
    both find that the cursor is not at [index] yet, and both move it; the first
    one goes on with its loop. *)
Definition two_readers (index : Z) : C (st heap) Z :=
  lock_op (cplus_lock shared 1 CPLUS_INFINITE_TIMEOUT);;
  lock_op (cplus_lock shared 2 CPLUS_INFINITE_TIMEOUT);;
  i1 ← field cur_index;
  i2 ← field cur_index;
  (if index =? i1 then mret tt else forward);;
  (if index =? i2 then mret tt else forward);;
  walk 10 forward index;;
  at_current.

(** Code bug: [cplus_llist_get_of] moves the shared cursor under a shared
    lock.  Each of two readers alone gets the second item; together one of them
    runs past the end of the list. *)
Theorem concurrent_readers_crash :
  let s := sample (ARwlock Rwlock.fresh_lock) [10; 20; 30] in
  value_of (cplus_llist_get_of 1 1 s) = Done 20
  ∧ value_of (cplus_llist_get_of 2 1 s) = Done 20
  ∧ two_readers 1 s = Undefined.
Proof. split_and!; by vm_compute. Qed.

(** ** Witnesses *)

Definition two_nodes : st heap :=
  mkSt (mkList OBJ_TYPE 2 0 1 NoLock 1 2 (SNext 1) true)
    (<[1 := Node 5 0 2]> (<[2 := Node 7 1 0]> ∅)) (mkHeap 3 [] {[1; 2]}) 0.

Lemma two_nodes_models : models two_nodes (View [5; 7] 1 false).
Proof.
  exists [1; 2]. split; [|done]. split; [|split; [done|]; split; [unfold zlen; simpl; lia|done]].
  constructor; try (done || by vm_compute).
  - apply NoDup_cons. rewrite list_elem_of_singleton. split; [done|apply NoDup_singleton].
  - cbn. rewrite !not_elem_of_cons. split_and!; [done..|apply not_elem_of_nil].
  - cbn. rewrite !not_elem_of_cons. split_and!; [done..|apply not_elem_of_nil].
  - intros i Hi. assert (i = 0 ∨ i = 1) as [->| ->] by (unfold zlen in Hi; simpl in Hi; lia); done.
  - split_and!; [set_solver|cbn; lia|]. cbn. set_solver by lia.
Qed.

Lemma pop_last_crashes_witness :
  cplus_llist_pop_of 1 1 two_nodes = Undefined.
Proof. apply (pop_last_crashes 1 two_nodes (View [5; 7] 1 false)); [apply two_nodes_models|done]. Defined.

Lemma two_nodes_items : items_are two_nodes [5; 7].
Proof. exists 1, false. apply two_nodes_models. Qed.

Lemma foreach_visits_all_witness :
  ∃ s', CPLUS_LLIST_FOREACH 1 two_nodes = Done ([5; 7], s') ∧ items_are s' [5; 7].
Proof. apply (foreach_visits_all 1 two_nodes [5; 7]). apply two_nodes_items. Defined.

Lemma delete_frees_all_witness :
  ∃ s', cplus_llist_delete 1 two_nodes = Done (CPLUS_SUCCESS, s')
    ∧ nodes s' = ∅ ∧ al_ok (src s') ∅
    ∧ (∀ c, exec 1 c s' = Undefined) ∧ cplus_llist_delete 1 s' = Undefined.
Proof. apply (delete_frees_all 1 two_nodes (View [5; 7] 1 false)). apply two_nodes_models. Defined.

Lemma get_set_if_selects_witness :
  ∃ r s', cplus_llist_get_set_if 1 empty_heap (Some (λ x, x - 7)) two_nodes = Done (r, s')
    ∧ selection (selected (λ x, x - 7) [5; 7]) r
    ∧ models s' (move (View [5; 7] 1 false) 1 false)
    ∧ (r = None → errno s' = ENOENT).
Proof.
  apply (get_set_if_selects 1 two_nodes (View [5; 7] 1 false));
    [apply two_nodes_models|apply empty_heap_ok|done].
Defined.

Lemma is_consist_correct_witness :
  ∃ b s1' s2', cplus_llist_is_consist 1 (Some (λ x y, x - y)) (two_nodes, two_nodes)
      = Done (b, (s1', s2'))
    ∧ items_are s1' [5; 7] ∧ items_are s2' [5; 7]
    ∧ (b = true ↔ zlen [5; 7] = zlen [5; 7] ∧ agree (λ x y, x - y) [5; 7] [5; 7] 0).
Proof. apply (is_consist_correct 1 (λ x y, x - y)); apply two_nodes_items. Defined.

Definition plenty : resources := Resources true true 4096 (λ _, 0) true empty_heap.

Lemma constructors_correct_witness :
  ∃ s e', constructor plenty 3 true 0 = Done (Some s, e') ∧ models s no_items.
Proof.
  apply (constructors_correct plenty 3 true 0); [lia|done..|apply empty_heap_ok].
Defined.

Lemma llist_step_witness :
  ∃ r s' v', exec 1 (PushAt 2 9) two_nodes = Done (r, s') ∧ models s' v'
    ∧ possible (View [5; 7] 1 false) (PushAt 2 9) 0 r (errno s') v'.
Proof.
  apply (llist_step 1 two_nodes (View [5; 7] 1 false) (PushAt 2 9)); [apply two_nodes_models|].
  split; [|done]. intros j [= <-]. split; [done|]. by right; left.
Defined.

(** A call at an end of the list is always allowed. *)
Lemma ends_allowed v c :
  c = PopFront ∨ c = PopBack ∨ c = GetNext ∨ c = GetPrev → allowed v c.
Proof.
  intros Hc. pose proof (zlen_nonneg (items v)).
  destruct_or! Hc; subst; (split; [done|]); try done; intros j [= <-];
    (split; [unfold inside; auto|lia]).
Qed.

Lemma llist_refines_witness :
  ∃ rs s' v', exec_all 1 [PushBack 9; PopFront; GetNext; PopBack] two_nodes = Done (rs, s')
    ∧ models s' v' ∧ runs (View [5; 7] 1 false) [PushBack 9; PopFront; GetNext; PopBack] rs v'.
Proof.
  apply (llist_refines 1 two_nodes (View [5; 7] 1 false)); [apply two_nodes_models|].
  split.
  { split; [|done]. intros j [= <-]. split; [done|]. by right; left. }
  intros r eo v' _. do 3 (split; [apply ends_allowed; auto|intros ????]). done.
Defined.

End LlistProps.
