(* ===== verification/LlistSort.v ===== *)
(** * LlistSort: sorting a list (llist_sort and cplus_llist_sort of src/llist.c)

    The passes over the nodes are a bubble sort of the items.  It is a stable
    sort for every comparator that is a total preorder; what
    [cplus_llist_sort] answers depends on [sort_count], which the code uses to
    remember that the list is sorted. *)

From S2P Require Import Prelude Allocator Locks Zlist Llist LlistInv LlistSpec LlistProps.
From stdpp Require Import base numbers list option gmap sets.
From Stdlib Require Import ZArith Lia Sorting.Sorted.
Open Scope Z_scope.

Module LlistSort.
Import Heap Lock Llist LlistInv LlistSpec.

(** ** Bubble sort of a list of items *)
Section bubble.
Context (cmp : Z → Z → Z).

(** One pass: [n] comparisons of neighbours, from the front. *)
Fixpoint bubble (n : nat) (d : list Z) : list Z :=
  match n, d with
  | S n, x :: (y :: r) as l =>
      if 0 <? cmp x y then y :: bubble n (x :: r) else x :: bubble n (y :: r)
  | _, _ => d
  end.

(** The passes, each one comparison shorter than the one before. *)
Fixpoint bubble_sort (passes : nat) (d : list Z) : list Z :=
  match passes with
  | O => d
  | S k => bubble_sort k (bubble (S k) d)
  end.

Lemma bubble_Permutation n d : bubble n d ≡ₚ d.
Proof.
  revert d. induction n as [|n IH]; intros d; [done|].
  destruct d as [|x [|y r]]; [done..|]. cbn [bubble]. destruct (0 <? cmp x y).
  - rewrite IH. apply Permutation_swap.
  - by rewrite IH.
Qed.

Lemma bubble_sort_Permutation n d : bubble_sort n d ≡ₚ d.
Proof.
  revert d. induction n as [|n IH]; intros d; [done|]. cbn [bubble_sort].
  by rewrite IH, bubble_Permutation.
Qed.

(** The order a comparator stands for. *)
Definition le (x y : Z) : Prop := cmp x y ≤ 0.
Definition total_preorder : Prop :=
  (∀ x y, le x y ∨ le y x) ∧ (∀ x y z, le x y → le y z → le x z).

Hypothesis Hle : total_preorder.

Lemma le_refl x : le x x.
Proof. destruct Hle as [Ht _]. destruct (Ht x x); done. Qed.

Lemma swap_le x y : (0 <? cmp x y) = true → le y x.
Proof.
  intros Hlt%Z.ltb_lt. destruct Hle as [Ht _]. destruct (Ht x y) as [Hxy|]; [|done].
  unfold le in Hxy. lia.
Qed.

Lemma keep_le x y : (0 <? cmp x y) = false → le x y.
Proof. by intros ?%Z.ltb_ge. Qed.

(** A pass over [p] brings a greatest item of [p] to its end. *)
Lemma bubble_max p t :
  p ≠ [] → (∀ x y, x ∈ p → y ∈ t → le x y) →
  ∃ q m, bubble (length p) (p ++ t) = q ++ m :: t ∧ q ++ [m] ≡ₚ p ∧ ∀ x, x ∈ q → le x m.
Proof.
  remember (length p) as n eqn:En. revert p En.
  induction n as [|n IH]; intros p En Hne Hpt; [by destruct p|].
  destruct p as [|x p]; [done|]. injection En as En. destruct p as [|y p].
  - subst n. exists [], x. cbn. split; [|split; [done|set_solver]].
    destruct t as [|y t]; [done|]. destruct (0 <? cmp x y) eqn:E; [|done].
    apply Z.ltb_lt in E. specialize (Hpt x y ltac:(by left) ltac:(by left)).
    unfold le in Hpt. lia.
  - cbn [app bubble]. destruct (0 <? cmp x y) eqn:E.
    + destruct (IH (x :: p)) as (q & m & Eb & Hp & Hm); [done|done| |].
      { intros a b Ha. apply Hpt. set_solver. }
      exists (y :: q), m. cbn [app]. rewrite <- Eb. split; [done|]. split.
      * rewrite Hp. apply Permutation_swap.
      * intros z [->|Hz]%elem_of_cons; [|by apply Hm]. apply swap_le in E.
        assert (x ∈ q ++ [m]) as Hx by (rewrite Hp; by left).
        apply elem_of_app in Hx as [Hx|Hx%list_elem_of_singleton]; [|by subst].
        destruct Hle as [_ Htr]. by apply (Htr y x m), Hm.
    + destruct (IH (y :: p)) as (q & m & Eb & Hp & Hm); [done|done| |].
      { intros a b Ha. apply Hpt. set_solver. }
      exists (x :: q), m. cbn [app]. rewrite <- Eb. split; [done|]. split.
      * by rewrite Hp.
      * intros z [->|Hz]%elem_of_cons; [|by apply Hm]. apply keep_le in E.
        assert (y ∈ q ++ [m]) as Hy by (rewrite Hp; by left).
        apply elem_of_app in Hy as [Hy|Hy%list_elem_of_singleton]; [|by subst].
        destruct Hle as [_ Htr]. by apply (Htr x y m), Hm.
Qed.

Lemma bubble_sort_sorted n p t :
  length p = n → (∀ x y, x ∈ p → y ∈ t → le x y) → StronglySorted le t →
  StronglySorted le (bubble_sort n (p ++ t)).
Proof.
  revert p t. induction n as [|n IH]; intros p t Hn Hpt Ht.
  - by destruct p.
  - destruct (bubble_max p t) as (q & m & Eb & Hp & Hm); [by destruct p|done|].
    cbn [bubble_sort]. rewrite <- Hn, Eb. apply IH.
    + apply Permutation_length in Hp. rewrite length_app in Hp. simpl in Hp. lia.
    + intros x y Hx [->|Hy]%elem_of_cons; [by apply Hm|]. apply Hpt; [|done].
      rewrite <- Hp. apply elem_of_app. by left.
    + constructor; [done|]. apply Forall_forall. intros y Hy. apply Hpt.
      * rewrite <- Hp. apply elem_of_app. right. by left.
      * done.
Qed.

(** Stability: the items equivalent to [z] keep their order. *)
Definition same_rank (z x : Z) : bool := (cmp x z <=? 0) && (cmp z x <=? 0).

Lemma swap_rank z x y :
  (0 <? cmp x y) = true → same_rank z x = true → same_rank z y = true → False.
Proof.
  unfold same_rank. intros Hlt%Z.ltb_lt [H1%Z.leb_le _]%andb_true_iff
    [_ H2%Z.leb_le]%andb_true_iff.
  destruct Hle as [_ Htr]. specialize (Htr x z y H1 H2). unfold le in Htr. lia.
Qed.

Lemma bubble_stable z n d :
  List.filter (same_rank z) (bubble n d) = List.filter (same_rank z) d.
Proof.
  revert d. induction n as [|n IH]; intros d; [done|].
  destruct d as [|x [|y r]]; [done..|]. cbn [bubble]. destruct (0 <? cmp x y) eqn:E.
  - cbn [List.filter]. rewrite IH. cbn [List.filter]. pose proof (swap_rank z x y E).
    destruct (same_rank z x), (same_rank z y); naive_solver.
  - cbn [List.filter]. rewrite IH. done.
Qed.

Lemma bubble_sort_stable z n d :
  List.filter (same_rank z) (bubble_sort n d) = List.filter (same_rank z) d.
Proof.
  revert d. induction n as [|n IH]; intros d; [done|]. cbn [bubble_sort].
  by rewrite IH, bubble_stable.
Qed.

End bubble.

(** ** The passes over the nodes *)
Section nodes.
Context {A : Type} `{Allocator A} (me : nat).
Implicit Types s : st A.

(** The same nodes with other data. *)
Lemma shape_data X s a d d' m :
  shape X s a d → zlen d' = zlen d → 0 ∉ d' → dom m = dom (nodes s) → linked m a d' →
  shape X (with_nodes (λ _, m) s) a d'.
Proof. intros [] ????. constructor; cbn; try done; congruence. Qed.

(** The same list with the data [d'] in the nodes. *)
Definition rearranged X s s' (a d' : list Z) : Prop :=
  shape X s' a d' ∧ ll s' = ll s ∧ src s' = src s ∧ errno s' = errno s.

Lemma swap_data_ok X s a p x y r :
  shape X s a (p ++ x :: y :: r) →
  ∃ s', swap_data (zat a (zlen p)) (zat a (zlen p + 1)) s = Done (tt, s')
    ∧ rearranged X s s' a (p ++ y :: x :: r).
Proof.
  intros Hs. pose proof (zlen_nonneg p). pose proof (zlen_nonneg r).
  pose proof (sh_len _ _ _ _ Hs) as Hl. rewrite zlen_app, !zlen_cons in Hl.
  destruct (shape_at X s a _ (zlen p) Hs ltac:(lia)) as [E1 N1].
  destruct (shape_at X s a _ (zlen p + 1) Hs ltac:(lia)) as [E2 N2].
  assert (∀ u w k, zat (p ++ u :: w :: r) k = if k <? 0 then 0 else if k <? zlen p then zat p k else
    if k =? zlen p then u else if k =? zlen p + 1 then w else zat r (k - zlen p - 2)) as Hat.
  { intros u w k. destruct (Z.ltb_spec k 0); [by apply zat_out; lia|].
    rewrite zat_app, !zat_cons by lia. zbool_cases; try lia; try done. f_equal. lia. }
  unfold swap_data. destruct (Z.eqb_spec (zat a (zlen p)) 0); [done|].
  destruct (Z.eqb_spec (zat a (zlen p + 1)) 0); [done|]. cbn [orb].
  run_at E1. run_at E2. run_at E1. rewrite !Hat. zbool_cases; try lia.
  assert (zat a (zlen p + 1) ≠ zat a (zlen p)) as Hne by (intros E%zat_eq; (lia || apply Hs)).
  erewrite store_ok by (cbn; rewrite lookup_alter_ne by done; exact E2).
  eexists. split; [done|]. split; [|done].
  apply (shape_data X s a (p ++ x :: y :: r)); [done| | | |].
  - by rewrite !zlen_app, !zlen_cons.
  - pose proof (sh_data _ _ _ _ Hs) as Hz. set_solver.
  - cbn. by rewrite !dom_alter_L.
  - intros k Hk. pose proof (sh_linked _ _ _ _ Hs k Hk) as Ek. rewrite Hat in Ek |- *. cbn.
    rewrite !lookup_alter, !zat_decide by (lia || apply Hs).
    all: zbool_cases; try lia; try done; subst; by rewrite Ek.
Qed.

Lemma rearranged_trans X s1 s2 s3 a d2 d3 :
  rearranged X s1 s2 a d2 → rearranged X s2 s3 a d3 → rearranged X s1 s3 a d3.
Proof. intros (_ & ? & ? & ?) (? & ? & ? & ?). split; [done|]. split_and!; congruence. Qed.

Lemma sort_pass_ok cmp n X s a p x r :
  shape X s a (p ++ x :: r) →
  ∃ j s', sort_pass n cmp (zat a (zlen p)) s = Done (zat a j, s') ∧ 0 ≤ j < zlen a
    ∧ rearranged X s s' a (p ++ bubble cmp n (x :: r)).
Proof.
  revert s p x r. induction n as [|n IH]; intros s p x r Hs;
    pose proof (zlen_nonneg p); pose proof (zlen_nonneg r);
    pose proof (sh_len _ _ _ _ Hs) as Hl; rewrite zlen_app, zlen_cons in Hl.
  { exists (zlen p), s. split; [done|]. split; [lia|]. done. }
  destruct (shape_at X s a _ (zlen p) Hs ltac:(lia)) as [E1 N1].
  cbn [sort_pass]. destruct (Z.eqb_spec (zat a (zlen p)) 0); [done|]. run_at E1. cbn [orb].
  destruct r as [|y r].
  { rewrite (zat_out a (zlen p + 1)) by (unfold zlen in *; simpl in *; lia).
    exists (zlen p), s. split; [done|]. split; [lia|]. done. }
  rewrite zlen_cons in Hl. pose proof (zlen_nonneg r).
  destruct (shape_at X s a _ (zlen p + 1) Hs ltac:(lia)) as [E2 N2].
  destruct (Z.eqb_spec (zat a (zlen p + 1)) 0); [done|]. unfold get_data. run_at E1. run_at E2.
  rewrite !zat_app, !zat_cons by lia. rewrite Z.ltb_irrefl, Z.sub_diag.
  replace (zlen p + 1 - zlen p) with 1 by lia.
  destruct (Z.ltb_spec (zlen p + 1) (zlen p)); [lia|]. cbn [Z.eqb Pos.eqb].
  cbn [bubble]. change (1 =? 0) with false. change (0 =? 0) with true.
  change (1 - 1 =? 0) with true. cbv iota.
  assert (∀ u w s1, rearranged X s s1 a (p ++ u :: w :: r) →
    ∃ j s', (n0 ← load (zat a (zlen p)) next; sort_pass n cmp n0) s1 = Done (zat a j, s')
      ∧ 0 ≤ j < zlen a ∧ rearranged X s s' a (p ++ u :: bubble cmp n (w :: r))) as Hnext.
  { intros u w s1 Hr1. pose proof Hr1 as (Hs1 & _).
    destruct (shape_at X s1 a _ (zlen p) Hs1 ltac:(lia)) as [E3 _]. run_at E3.
    destruct (IH s1 (p ++ [u]) w r) as (j & s2 & E & Hj & Hr2); [by rewrite <- app_assoc|].
    rewrite zlen_app in E. change (zlen [u]) with 1 in E. exists j, s2. split; [done|].
    split; [done|]. rewrite <- app_assoc in Hr2. by eapply rearranged_trans. }
  destruct (0 <? cmp x y).
  - destruct (swap_data_ok X s a p x y r Hs) as (s1 & Es & Hr1).
    rewrite (bind_Done _ _ _ _ _ Es). by apply Hnext.
  - rewrite run_mret. by apply Hnext.
Qed.

Lemma sort_loop_ok cmp k X s a d j c :
  shape X s a d → 0 ≤ j < zlen a → sort_count (ll s) = c → 0 ≤ c < 4294967296 →
  ∃ s', sort_loop k cmp (zat a j) s = Done (tt, s')
    ∧ shape X s' a (bubble_sort cmp k d)
    ∧ ll s' = set_sort_count (u32 (c + Z.of_nat k)) (ll s) ∧ errno s' = errno s.
Proof.
  revert s d j c. induction k as [|k IH]; intros s d j c Hs Hj Hc Hr.
  { exists s. split; [done|]. split; [done|]. split; [|done].
    rewrite Z.add_0_r, u32_small by lia. rewrite <- Hc. by destruct (ll s). }
  destruct (shape_at X s a d j Hs Hj) as [_ N]. cbn [sort_loop].
  destruct (Z.eqb_spec (zat a j) 0); [done|]. run. rewrite (sh_head _ _ _ _ Hs).
  destruct d as [|x r].
  { pose proof (sh_len _ _ _ _ Hs). unfold zlen in *. simpl in *. lia. }
  destruct (sort_pass_ok cmp (S k) X s a [] x r Hs) as (j1 & s1 & E1 & Hj1 & Hs1 & Hl1 & _ & He1).
  change (zlen []) with 0 in E1. rewrite (bind_Done _ _ _ _ _ E1). run.
  destruct (IH (with_ll (set_sort_count (u32 (c + 1))) s1) (bubble cmp (S k) (x :: r)) j1
    (u32 (c + 1))) as (s2 & E2 & Hs2 & Hl2 & He2).
  - by apply shape_ll.
  - done.
  - done.
  - apply u32_range.
  - rewrite Hl1, Hc, E2. exists s2. split; [done|]. split; [done|]. split; [|cbn in He2; congruence].
    rewrite Hl2. cbn. rewrite Hl1. unfold set_sort_count. cbn. f_equal.
    rewrite u32_add_l. f_equal. lia.
Qed.

Lemma llist_sort_ok cmp X s a d :
  shape X s a d → 0 ≤ sort_count (ll s) < 4294967296 →
  ∃ s', llist_sort cmp s = Done (tt, s')
    ∧ shape X s' a (bubble_sort cmp (length d) d)
    ∧ ll s' = set_sort_count (u32 (sort_count (ll s) + zlen d)) (ll s) ∧ errno s' = errno s.
Proof.
  intros Hs Hc. unfold llist_sort. run. rewrite (sh_head _ _ _ _ Hs), (sh_count _ _ _ _ Hs).
  rewrite <- (sh_len _ _ _ _ Hs). unfold zlen at 1. rewrite Nat2Z.id.
  destruct (decide (zlen a = 0)) as [Hz|Hz].
  - assert (d = []) as -> by (apply zlen_0; rewrite (sh_len _ _ _ _ Hs); lia).
    exists s. split; [done|]. split; [done|]. split; [|done].
    rewrite Z.add_0_r, u32_small by lia. by destruct (ll s).
  - pose proof (zlen_nonneg a).
    apply (sort_loop_ok cmp (length d) X s a d 0); [done|lia|done|done].
Qed.

(** The whole call, on every branch. *)
Lemma sort_call s v cmp :
  models s v → 0 ≤ sort_count (ll s) < 4294967296 →
  let c := sort_count (ll s) in
  let n := zlen (items v) in
  ∃ s', cplus_llist_sort me (Some cmp) s
      = Done (if (c =? n) || (c =? 0) then CPLUS_SUCCESS else CPLUS_FAIL, s')
    ∧ models s' (if c =? n then v
                 else View (bubble_sort cmp (length (items v)) (items v)) (pos v) (back v))
    ∧ sort_count (ll s') = (if c =? n then c else u32 (c + n)).
Proof.
  intros Hm Hc c n. unfold cplus_llist_sort. rewrite (check_type _ _ _ Hm). cbn [check_fn].
  pose proof Hm as (a & Hr & Hl). pose proof (models_small s v Hm) as Hn. fold n in Hn.
  destruct (locked_ok me exclusive
     (b ← is_sort; if (b : bool) then mret tt else llist_sort cmp) s
     (λ _ s', holds s' (if c =? n then v
                 else View (bubble_sort cmp (length (items v)) (items v)) (pos v) (back v))
       ∧ sort_count (ll s') = (if c =? n then c else u32 (c + n))) Hl)
    as ([] & s' & E & [[a' Hr'] Hcount] & Hlk).
  - intros h. pose proof (sh_count _ _ _ _ (proj1 Hr)) as Hcnt.
    apply (rep_lock _ _ _ _ _ _ h) in Hr. unfold is_sort. run.
    rewrite Hcnt, <- (zat_len _ _ _ _ _ _ Hr). fold n c.
    rewrite (Z.eqb_sym n c). destruct (c =? n).
    + eexists tt, _. split; [done|]. split; [done|]. split; [|done].
      exists a. by apply rep_lock.
    + destruct (llist_sort_ok cmp ∅ _ a (items v) (proj1 Hr) Hc) as (s1 & E & Hs1 & Hl1 & _).
      exists tt, s1. split; [exact E|]. rewrite Hl1. split; [done|]. split.
      * exists a. apply rep_lock. split; [done|]. rewrite Hl1. apply Hr.
      * done.
  - rewrite (bind_Done _ _ _ _ _ E). unfold is_sort. run.
    rewrite (sh_count _ _ _ _ (proj1 Hr')), <- (zat_len _ _ _ _ _ _ Hr'), Hcount.
    exists s'. split; [|split; [exists a'; by rewrite Hlk|done]].
    f_equal. f_equal. destruct (Z.eqb_spec c n) as [Ecn|Ecn]; cbn [orb].
    + fold n. by rewrite Ecn, Z.eqb_refl.
    + assert (zlen (items (View (bubble_sort cmp (length (items v)) (items v)) (pos v) (back v)))
        = n) as ->.
      { cbn. unfold n, zlen. by rewrite bubble_sort_Permutation. }
      destruct (Z.eqb_spec c 0) as [->|Hc0].
      * rewrite Z.add_0_l, u32_small, Z.eqb_refl by lia. done.
      * destruct (Z.eqb_spec n (u32 (c + n))) as [En|]; [|done]. exfalso.
        unfold u32 in En. change (2 ^ 32) with 4294967296 in En.
        pose proof (Z.div_mod (c + n) 4294967296 ltac:(lia)). unfold c in *. nia.
Qed.

(** C3: the first sort of a list answers success and leaves the same nodes and
    cursor with the items sorted: a permutation, in order, with equivalent items
    in the order they had, for every comparator that is a total preorder. *)
Theorem sort_correct s v cmp :
  models s v → sort_count (ll s) = 0 → total_preorder cmp →
  ∃ s' d', cplus_llist_sort me (Some cmp) s = Done (CPLUS_SUCCESS, s')
    ∧ models s' (View d' (pos v) (back v))
    ∧ d' ≡ₚ items v ∧ StronglySorted (le cmp) d'
    ∧ (∀ z, List.filter (same_rank cmp z) d' = List.filter (same_rank cmp z) (items v)).
Proof.
  intros Hm Hc Hle. destruct (sort_call s v cmp Hm) as (s' & E & Hm' & _); [lia|].
  rewrite Hc in E, Hm'. rewrite orb_true_r in E.
  exists s', (bubble_sort cmp (length (items v)) (items v)). split; [done|].
  split.
  - destruct (Z.eqb_spec 0 (zlen (items v))) as [Hz|]; [|done].
    destruct v as [d p b]. cbn in *. by assert (d = []) as -> by (by apply zlen_0).
  - split; [apply bubble_sort_Permutation|]. split.
    + pose proof (bubble_sort_sorted cmp Hle (length (items v)) (items v) []) as Hsorted.
      rewrite app_nil_r in Hsorted. apply Hsorted; [done|set_solver|constructor].
    + intros z. by apply bubble_sort_stable.
Qed.

(** what a sort answers depends on the [sort_count] of earlier sorts: with a
    count that equals the length the list is taken to be sorted and left alone;
    otherwise it is sorted, but success is answered only if there was no earlier
    sort. *)
Theorem sort_branches s v cmp :
  models s v → 0 ≤ sort_count (ll s) < 4294967296 →
  let c := sort_count (ll s) in
  let n := zlen (items v) in
  ∃ s', cplus_llist_sort me (Some cmp) s
      = Done (if (c =? n) || (c =? 0) then CPLUS_SUCCESS else CPLUS_FAIL, s')
    ∧ models s' (if c =? n then v
                 else View (bubble_sort cmp (length (items v)) (items v)) (pos v) (back v))
    ∧ sort_count (ll s') = (if c =? n then c else u32 (c + n)).
Proof. apply sort_call. Qed.

End nodes.

(** Code bug: after a sort and a push the next sort fails although it sorts,
    and after a sort, a pop and a push an unsorted list passes for sorted. *)
Theorem sort_count_is_stale :
  let s := LlistProps.sample NoLock [30; 10; 20] in
  let sort := cplus_llist_sort 1 (Some (λ x y, x - y)) in
  value_of ((r1 ← sort; cplus_llist_push_back 1 5;; r2 ← sort; l ← CPLUS_LLIST_FOREACH 1;
             mret (r1, r2, l)) s)
    = Done (CPLUS_SUCCESS, CPLUS_FAIL, [5; 10; 20; 30])
  ∧ value_of ((sort;; cplus_llist_pop_back 1;; cplus_llist_push_back 1 5;;
               b ← cplus_llist_is_sort 1; r2 ← sort; l ← CPLUS_LLIST_FOREACH 1;
               mret (b, r2, l)) s)
    = Done (true, CPLUS_SUCCESS, [10; 20; 5]).
Proof. split; by vm_compute. Qed.

(** ** Witnesses *)

Lemma minus_total : total_preorder (λ x y, x - y).
Proof. split; unfold le; lia. Qed.

Lemma sort_correct_witness :
  ∃ s' d', cplus_llist_sort 1 (Some (λ x y, y - x)) LlistProps.two_nodes = Done (CPLUS_SUCCESS, s')
    ∧ models s' (View d' 1 false)
    ∧ d' ≡ₚ [5; 7] ∧ StronglySorted (le (λ x y, y - x)) d'
    ∧ (∀ z, List.filter (same_rank (λ x y, y - x) z) d'
            = List.filter (same_rank (λ x y, y - x) z) [5; 7]).
Proof.
  apply (sort_correct 1 LlistProps.two_nodes (View [5; 7] 1 false) (λ x y, y - x));
    [apply LlistProps.two_nodes_models|done|split; unfold le; lia].
Defined.

Lemma sort_branches_witness :
  ∃ s', cplus_llist_sort 1 (Some (λ x y, y - x)) LlistProps.two_nodes
      = Done (if (0 =? 2) || (0 =? 0) then CPLUS_SUCCESS else CPLUS_FAIL, s')
    ∧ models s' (View (bubble_sort (λ x y, y - x) 2 [5; 7]) 1 false)
    ∧ sort_count (ll s') = 2.
Proof.
  apply (sort_branches 1 LlistProps.two_nodes (View [5; 7] 1 false) (λ x y, y - x));
    [apply LlistProps.two_nodes_models|cbn; lia].
Defined.

End LlistSort.
