(* ===== verification/Stdio.v ===== *)
(** * Stdio: the formatted input and output src/data.c relies on

    What the sources use of the C library: [vsnprintf] with one of the
    conversions [%d %u %ld %lu %f %p %s], [sscanf] with the same conversions,
    [strcasecmp], and the conversions of IEEE floating point numbers.  A
    character is its code, a C string the characters before the first zero of a
    block of bytes.  Integer input follows glibc on LP64: the digits are read
    as by [strtol] or [strtoul], which saturate at 64 bits, and the result is
    stored at the width of the conversion.  Floats are kept as their bits and
    computed with Stdlib's [SpecFloat], rounding to nearest even. *)

From S2P Require Import Prelude.
From stdpp Require Import base numbers list option.
From Stdlib Require Import ZArith Lia SpecFloat.
Open Scope Z_scope.

Module Stdio.

(** ** Strings *)

(** The string a block holds; [None] when no byte is zero. *)
Fixpoint cstr (b : list Z) : option (list Z) :=
  match b with
  | [] => None
  | c :: b' => if c =? 0 then Some [] else cons c <$> cstr b'
  end.

Definition to_lower (c : Z) : Z := if (65 <=? c) && (c <=? 90) then c + 32 else c.

(** [0 == strcasecmp(a, b)]. *)
Definition same_ignoring_case (a b : list Z) : bool :=
  bool_decide (to_lower <$> a = to_lower <$> b).

Definition str_true : list Z := [116; 114; 117; 101].
Definition str_false : list Z := [102; 97; 108; 115; 101].
Definition str_nil : list Z := [40; 110; 105; 108; 41].
Definition str_inf : list Z := [105; 110; 102].
Definition str_inity : list Z := [105; 110; 105; 116; 121].
Definition str_nan : list Z := [110; 97; 110].

(** ** Integer output *)

Definition digit_char (d : Z) : Z := if d <? 10 then 48 + d else 87 + d.

Fixpoint digits_go (base : Z) (fuel : nat) (n : Z) (acc : list Z) : list Z :=
  match fuel with
  | O => acc
  | S fuel' =>
      if n <? base then digit_char n :: acc
      else digits_go base fuel' (n / base) (digit_char (n `mod` base) :: acc)
  end.

(** A number has no more digits than bits. *)
Definition digits (base n : Z) : list Z := digits_go base (S (Z.to_nat (Z.log2 n))) n [].

Definition fmt_u (n : Z) : list Z := digits 10 n.
Definition fmt_d (z : Z) : list Z := if z <? 0 then 45 :: digits 10 (- z) else digits 10 z.
Definition fmt_p (p : Z) : list Z := if p =? 0 then str_nil else 48 :: 120 :: digits 16 p.

(** ** Integer input *)

Definition isspace (c : Z) : bool := (c =? 32) || ((9 <=? c) && (c <=? 13)).

Fixpoint skip_space (l : list Z) : list Z :=
  match l with
  | c :: l' => if isspace c then skip_space l' else l
  | [] => []
  end.

Definition digit_value (base c : Z) : option Z :=
  let v := if (48 <=? c) && (c <=? 57) then c - 48
           else if (97 <=? c) && (c <=? 122) then c - 87
           else if (65 <=? c) && (c <=? 90) then c - 55 else base in
  if v <? base then Some v else None.

Fixpoint take_digits (base : Z) (l : list Z) : list Z * list Z :=
  match l with
  | c :: l' =>
      match digit_value base c with
      | Some v => let '(ds, rest) := take_digits base l' in (v :: ds, rest)
      | None => ([], l)
      end
  | [] => ([], [])
  end.

Definition number (base : Z) (ds : list Z) : Z := fold_left (λ a d, a * base + d) ds 0.

Definition take_sign (l : list Z) : bool * list Z :=
  match l with
  | c :: l' => if c =? 45 then (true, l') else if c =? 43 then (false, l') else (false, l)
  | [] => (false, [])
  end.

(** The sign and magnitude of a decimal number, if there is a digit. *)
Definition scan_decimal (l : list Z) : option (bool * Z) :=
  let '(neg, l) := take_sign (skip_space l) in
  match take_digits 10 l with
  | ([], _) => None
  | (ds, _) => Some (neg, number 10 ds)
  end.

Definition strtol (neg : bool) (n : Z) : Z :=
  if neg then Z.max (- 2 ^ 63) (- n) else Z.min (2 ^ 63 - 1) n.
Definition strtoul (neg : bool) (n : Z) : Z :=
  if 2 ^ 64 - 1 <? n then 2 ^ 64 - 1 else if neg then u64 (- n) else n.

(** [%d] or [%ld], and [%u] or [%lu], into an object of [w] bits. *)
Definition scan_d (w : Z) (l : list Z) : option Z :=
  (λ '(neg, n), swrap w (strtol neg n)) <$> scan_decimal l.
Definition scan_u (w : Z) (l : list Z) : option Z :=
  (λ '(neg, n), strtoul neg n `mod` 2 ^ w) <$> scan_decimal l.

(** [%p]: a hexadecimal number with or without [0x], or [(nil)]. *)
Definition scan_p (l : list Z) : option Z :=
  let '(neg, l) := take_sign (skip_space l) in
  let '(zero, l') :=
    match l with
    | 48 :: c :: l' => if to_lower c =? 120 then (true, l') else (true, c :: l')
    | [48] => (true, [])
    | _ => (false, l)
    end in
  match take_digits 16 l' with
  | ([], _) =>
      if zero then Some 0
      else if bool_decide (to_lower <$> take 5 l = str_nil) then Some 0 else None
  | (ds, _) => Some (strtoul neg (number 16 ds))
  end.

(** ** Floating point numbers *)

Record format := Format { mant : Z; expo : Z }.

#[export] Instance format_eq_dec : EqDecision format.
Proof. solve_decision. Defined.

Definition binary32 : format := Format 23 8.
Definition binary64 : format := Format 52 11.

Definition prec (f : format) : Z := mant f + 1.
Definition emax (f : format) : Z := 2 ^ (expo f - 1).
Definition min_exp (f : format) : Z := 3 - emax f - prec f.

Definition decode (f : format) (bits : Z) : spec_float :=
  let m := bits `mod` 2 ^ mant f in
  let e := (bits / 2 ^ mant f) `mod` 2 ^ expo f in
  let s := Z.testbit bits (mant f + expo f) in
  if e =? 0 then
    match m with Zpos p => S754_finite s p (min_exp f) | _ => S754_zero s end
  else if e =? 2 ^ expo f - 1 then
    if m =? 0 then S754_infinity s else S754_nan
  else S754_finite s (Z.to_pos (m + 2 ^ mant f)) (e + min_exp f - 1).

Definition encode (f : format) (x : spec_float) : Z :=
  let sign (s : bool) := if s then 2 ^ (mant f + expo f) else 0 in
  match x with
  | S754_zero s => sign s
  | S754_infinity s => sign s + (2 ^ expo f - 1) * 2 ^ mant f
  | S754_nan => (2 ^ expo f - 1) * 2 ^ mant f + 2 ^ (mant f - 1)
  | S754_finite s m e =>
      if Zpos m <? 2 ^ mant f then sign s + Zpos m
      else sign s + (e - min_exp f + 1) * 2 ^ mant f + (Zpos m - 2 ^ mant f)
  end.

(** [(float)(z)], [(float)(x)] and [(double)(x)]. *)
Definition float_of_Z (f : format) (z : Z) : Z :=
  encode f (binary_normalize (prec f) (emax f) z 0 false).
Definition float_convert (from to : format) (bits : Z) : Z :=
  encode to
    match decode from bits with
    | S754_finite s m e => binary_round (prec to) (emax to) s m e
    | x => x
    end.

(** [(intmax_t)(x)] before the range of the integer type is looked at. *)
Definition float_trunc (f : format) (bits : Z) : option Z :=
  match decode f bits with
  | S754_zero _ => Some 0
  | S754_finite s m e =>
      let n := if 0 <=? e then Zpos m * 2 ^ e else Zpos m / 2 ^ (- e) in
      Some (if s then - n else n)
  | _ => None
  end.

(** [0 != x]. *)
Definition float_nonzero (f : format) (bits : Z) : bool :=
  match decode f bits with S754_zero _ => false | _ => true end.

(** [n * 2 ^ e] rounded to an integer, ties to even. *)
Definition round_scaled (n e : Z) : Z :=
  if 0 <=? e then n * 2 ^ e
  else
    let d := 2 ^ (- e) in
    let q := n / d in
    let r := n `mod` d in
    if 2 * r <? d then q
    else if d <? 2 * r then q + 1
    else if Z.even q then q else q + 1.

Fixpoint pad (n : nat) (l : list Z) : list Z :=
  if (n <=? length l)%nat then l else match n with O => l | S n' => 48 :: pad n' l end.

(** [%f]: six decimals, exactly rounded. *)
Definition fmt_f (f : format) (bits : Z) : list Z :=
  let sign := if Z.testbit bits (mant f + expo f) then [45] else [] in
  let plain n := digits 10 (n / 1000000) ++ 46 :: pad 6 (digits 10 (n `mod` 1000000)) in
  sign ++
  match decode f bits with
  | S754_nan => str_nan
  | S754_infinity _ => str_inf
  | S754_zero _ => plain 0
  | S754_finite _ m e => plain (round_scaled (Zpos m * 1000000) e)
  end.

(** The correctly rounded [n / d]. *)
Definition float_of_ratio (f : format) (s : bool) (n d : positive) : spec_float :=
  SFdiv (prec f) (emax f) (S754_finite s n 0) (S754_finite false d 0).

(** An exponent part: [e] or [p], a sign and at least one digit. *)
Definition take_exponent (letter : Z) (l : list Z) : Z :=
  match l with
  | c :: l' =>
      if to_lower c =? letter then
        let '(neg, l'') := take_sign l' in
        let '(ds, _) := take_digits 10 l'' in
        if neg then - number 10 ds else number 10 ds
      else 0
  | [] => 0
  end.

(** Digits, an optional point and more digits, and an exponent; the value is
    the digits times [base ^ - decimals] times [scale ^ exponent]. *)
Definition scan_real (f : format) (base letter scale : Z) (s : bool) (l : list Z)
    : option spec_float :=
  let '(whole, l1) := take_digits base l in
  let '(frac, l2) :=
    match l1 with
    | c :: l' => if c =? 46 then take_digits base l' else ([], l1)
    | [] => ([], [])
    end in
  match whole ++ frac with
  | [] => None
  | ds =>
      let n := number base ds in
      let e := take_exponent letter l2 in
      let num := n * scale ^ Z.max 0 e in
      let den := base ^ Z.of_nat (length frac) * scale ^ Z.max 0 (- e) in
      Some (match num with
            | Zpos p => float_of_ratio f s p (Z.to_pos den)
            | _ => S754_zero s
            end)
  end.

Definition starts_with (w l : list Z) : bool :=
  bool_decide (to_lower <$> take (length w) l = w).

(** [%f] and [%lf]. *)
Definition scan_f (f : format) (l : list Z) : option Z :=
  let '(s, l) := take_sign (skip_space l) in
  encode f <$>
    if starts_with str_nan l then Some S754_nan
    else if starts_with str_inf l then
      let rest := drop 3 l in
      if starts_with [105] rest && negb (starts_with str_inity rest) then None
      else Some (S754_infinity s)
    else if starts_with [48; 120] l then scan_real f 16 112 2 s (drop 2 l)
    else scan_real f 10 101 10 s l.

(** ** Strings in blocks *)

Definition text (s : list Z) : Prop := Forall (λ c, c ≠ 0) s.

Lemma cstr_app s r : text s → cstr (s ++ 0 :: r) = Some s.
Proof.
  induction 1 as [|c s Hc _ IH]; simpl; [done|].
  destruct (Z.eqb_spec c 0); [done|]. by rewrite IH.
Qed.

Lemma cstr_text b s : cstr b = Some s → text s.
Proof.
  revert s. induction b as [|c b IH]; intros s; simpl; [done|].
  destruct (Z.eqb_spec c 0); [intros [= <-]; constructor|].
  destruct (cstr b) as [s'|]; [|done]. intros [= <-]. constructor; [done|by apply IH].
Qed.

(** ** Printing and scanning integers *)

Definition digit (base d : Z) : Prop := 0 ≤ d < base.

Lemma digit_char_value base d : digit base d → base ≤ 36 → digit_value base (digit_char d) = Some d.
Proof.
  unfold digit, digit_value, digit_char. intros Hd Hb.
  destruct (Z.ltb_spec d 10).
  - rewrite (proj2 (Z.leb_le 48 _)), (proj2 (Z.leb_le _ 57)) by lia. cbn [andb].
    rewrite (proj2 (Z.ltb_lt _ _)) by lia. f_equal. lia.
  - rewrite (proj2 (Z.leb_gt _ 57)), andb_false_r by lia.
    rewrite (proj2 (Z.leb_le 97 _)), (proj2 (Z.leb_le _ 122)) by lia. cbn [andb].
    rewrite (proj2 (Z.ltb_lt _ _)) by lia. f_equal. lia.
Qed.

Lemma digit_char_range base d : digit base d → base ≤ 36 → 48 ≤ digit_char d ≤ 57 ∨ 97 ≤ digit_char d ≤ 122.
Proof. unfold digit, digit_char. intros. zbool_cases; lia. Qed.

Lemma number_snoc base ds d : number base (ds ++ [d]) = number base ds * base + d.
Proof. unfold number. by rewrite fold_left_app. Qed.

Lemma digits_go_spec base fuel n acc :
  2 ≤ base → 0 ≤ n < 2 ^ Z.of_nat fuel →
  ∃ ds, digits_go base fuel n acc = (digit_char <$> ds) ++ acc
    ∧ (fuel ≠ O → ds ≠ []) ∧ Forall (digit base) ds ∧ number base ds = n.
Proof.
  intros Hb. revert n acc. induction fuel as [|fuel IH]; intros n acc Hn.
  { exists []. split_and!; [done|done|done|]. change (2 ^ Z.of_nat 0) with 1 in Hn.
    unfold number. simpl. lia. }
  simpl. destruct (Z.ltb_spec n base).
  { exists [n]. split_and!; [done|done| |done]. repeat constructor; lia. }
  destruct (IH (n / base) (digit_char (n `mod` base) :: acc)) as (ds & E & _ & Hr & Hv).
  { rewrite Nat2Z.inj_succ, Z.pow_succ_r in Hn by lia.
    split; [apply Z.div_pos; lia|]. apply Z.div_lt_upper_bound; [lia|]. nia. }
  exists (ds ++ [n `mod` base]). pose proof (Z.mod_pos_bound n base).
  split_and!.
  - rewrite E, fmap_app. by rewrite <- app_assoc.
  - intros _. by destruct ds.
  - apply Forall_app. split; [done|]. repeat constructor; lia.
  - rewrite number_snoc, Hv. rewrite (Z.div_mod n base) at 3 by lia. lia.
Qed.

Lemma digits_spec base n :
  2 ≤ base → 0 ≤ n →
  ∃ d ds, digits base n = digit_char <$> (d :: ds)
    ∧ Forall (digit base) (d :: ds) ∧ number base (d :: ds) = n.
Proof.
  intros Hb Hn. unfold digits.
  destruct (digits_go_spec base (S (Z.to_nat (Z.log2 n))) n []) as (ds & E & Hne & Hr & Hv);
    [done| |].
  { split; [done|]. rewrite Nat2Z.inj_succ, Z2Nat.id by apply Z.log2_nonneg.
    destruct (decide (n = 0)) as [->|]; [by vm_compute|].
    apply Z.log2_spec. lia. }
  destruct ds as [|d ds]; [by destruct Hne|]. exists d, ds.
  by rewrite E, app_nil_r.
Qed.

Lemma take_digits_chars base ds :
  base ≤ 36 → Forall (digit base) ds → take_digits base (digit_char <$> ds) = (ds, []).
Proof.
  intros Hb. induction 1 as [|d ds Hd _ IH]; simpl; [done|].
  change (list_fmap Z Z digit_char ds) with (digit_char <$> ds).
  by rewrite (digit_char_value base d), IH.
Qed.

Lemma skip_digit base d l :
  digit base d → base ≤ 36 → skip_space (digit_char d :: l) = digit_char d :: l.
Proof.
  intros Hd Hb. simpl. unfold isspace.
  pose proof (digit_char_range base d Hd Hb).
  by repeat match goal with |- context [Z.eqb ?a ?b] => rewrite (proj2 (Z.eqb_neq a b)) by lia
    | |- context [Z.leb ?a 13] => rewrite (proj2 (Z.leb_gt a 13)) by lia end;
  rewrite andb_false_r.
Qed.

Lemma sign_digit base d l :
  digit base d → base ≤ 36 → take_sign (digit_char d :: l) = (false, digit_char d :: l).
Proof.
  intros Hd Hb. simpl. pose proof (digit_char_range base d Hd Hb).
  rewrite (proj2 (Z.eqb_neq _ 45)) by lia. by rewrite (proj2 (Z.eqb_neq _ 43)) by lia.
Qed.

Lemma scan_fmt_u n : 0 ≤ n → scan_decimal (fmt_u n) = Some (false, n).
Proof.
  intros Hn. destruct (digits_spec 10 n) as (d & ds & E & Hr & Hv); [lia|done|].
  unfold scan_decimal, fmt_u. rewrite E. inversion Hr as [|?? Hd Hds]; subst.
  rewrite fmap_cons, (skip_digit 10) by (done || lia).
  rewrite (sign_digit 10) by (done || lia).
  rewrite <- fmap_cons, take_digits_chars by (done || lia). done.
Qed.

Lemma scan_fmt_d z : scan_decimal (fmt_d z) = Some (z <? 0, Z.abs z).
Proof.
  unfold fmt_d. destruct (Z.ltb_spec z 0) as [Hz|Hz].
  - destruct (digits_spec 10 (- z)) as (d & ds & E & Hr & Hv); [lia|lia|].
    unfold scan_decimal. rewrite E.
    change (skip_space (45 :: (digit_char <$> d :: ds))) with (45 :: (digit_char <$> d :: ds)).
    change (take_sign (45 :: (digit_char <$> d :: ds))) with (true, (digit_char <$> d :: ds)).
    cbv iota beta. rewrite take_digits_chars by (done || lia).
    rewrite Hv. do 2 f_equal. lia.
  - rewrite Z.abs_eq by done. by apply scan_fmt_u.
Qed.

Lemma scan_d_fmt w z :
  0 < w ≤ 64 → - 2 ^ (w - 1) ≤ z < 2 ^ (w - 1) → scan_d w (fmt_d z) = Some z.
Proof.
  intros Hw Hz. unfold scan_d. rewrite scan_fmt_d. cbn [fmap option_fmap option_map].
  assert (2 ^ (w - 1) ≤ 2 ^ 63) by (apply Z.pow_le_mono_r; lia).
  unfold strtol. f_equal.
  destruct (Z.ltb_spec z 0); rewrite swrap_small by lia; lia.
Qed.

Lemma scan_u_fmt w n : 0 < w ≤ 64 → 0 ≤ n < 2 ^ w → scan_u w (fmt_u n) = Some n.
Proof.
  intros Hw Hn. unfold scan_u. rewrite scan_fmt_u by lia. cbn [fmap option_fmap option_map].
  assert (2 ^ w ≤ 2 ^ 64) by (apply Z.pow_le_mono_r; lia).
  unfold strtoul. f_equal. rewrite (proj2 (Z.ltb_ge _ _)) by lia.
  by rewrite Z.mod_small.
Qed.

Lemma scan_p_fmt p : 0 ≤ p < 2 ^ 64 → scan_p (fmt_p p) = Some p.
Proof.
  intros Hp. unfold fmt_p. destruct (Z.eqb_spec p 0) as [->|Hp0]; [by vm_compute|].
  destruct (digits_spec 16 p) as (d & ds & E & Hr & Hv); [lia|lia|].
  unfold scan_p. rewrite E. cbv beta iota.
  change (take_sign (skip_space (48 :: 120 :: (digit_char <$> d :: ds))))
    with (false, 48 :: 120 :: (digit_char <$> d :: ds)).
  cbv beta iota. change (to_lower 120 =? 120) with true. cbv beta iota.
  rewrite take_digits_chars by (done || lia). rewrite Hv.
  unfold strtoul. by rewrite (proj2 (Z.ltb_ge _ _)) by lia.
Qed.

Lemma digits_text base n : 2 ≤ base ≤ 36 → 0 ≤ n → text (digits base n).
Proof.
  intros Hb Hn. destruct (digits_spec base n) as (d & ds & -> & Hr & _); [lia|done|].
  unfold text. rewrite Forall_fmap. induction Hr as [|x l Hx _ IH]; constructor; [|done]. simpl.
  pose proof (digit_char_range base x Hx). lia.
Qed.

Lemma fmt_u_text n : 0 ≤ n → text (fmt_u n).
Proof. intros. apply digits_text; lia. Qed.

Lemma fmt_d_text z : text (fmt_d z).
Proof.
  unfold fmt_d. destruct (Z.ltb_spec z 0); [constructor; [done|]|]; apply digits_text; lia.
Qed.

Lemma fmt_p_text p : 0 ≤ p → text (fmt_p p).
Proof.
  intros. unfold fmt_p. destruct (p =? 0).
  - by repeat constructor.
  - constructor; [done|]. constructor; [done|]. apply digits_text; lia.
Qed.

(** No printed number is long. *)
Lemma digits_go_length base fuel n acc :
  (length (digits_go base fuel n acc) ≤ fuel + length acc)%nat.
Proof.
  revert n acc. induction fuel as [|fuel IH]; intros n acc; simpl; [done|].
  destruct (n <? base); simpl; [lia|]. etrans; [apply IH|]. simpl. lia.
Qed.

Lemma digits_length base n : 0 ≤ n < 2 ^ 64 → (length (digits base n) ≤ 64)%nat.
Proof.
  intros Hn. unfold digits. etrans; [apply digits_go_length|]. simpl.
  assert (Z.log2 n < 64).
  { destruct (decide (n = 0)) as [->|]; [by vm_compute|]. apply Z.log2_lt_pow2; lia. }
  pose proof (Z.log2_nonneg n). lia.
Qed.

Lemma fmt_u_length n : 0 ≤ n < 2 ^ 64 → (length (fmt_u n) ≤ 64)%nat.
Proof. apply digits_length. Qed.

Lemma fmt_d_length z : - 2 ^ 63 ≤ z < 2 ^ 63 → (length (fmt_d z) ≤ 65)%nat.
Proof.
  intros Hz. unfold fmt_d. destruct (Z.ltb_spec z 0); simpl;
    [pose proof (digits_length 10 (- z))|pose proof (digits_length 10 z)]; lia.
Qed.

Lemma fmt_p_length p : 0 ≤ p < 2 ^ 64 → (length (fmt_p p) ≤ 66)%nat.
Proof.
  intros Hp. unfold fmt_p. destruct (p =? 0); simpl; [lia|].
  pose proof (digits_length 16 p). lia.
Qed.

End Stdio.
