(* ===== verification/Memmgr.v ===== *)
(** * Memmgr: memory and text helpers (src/memmgr.c, without the memory manager)

    A block of memory is the list of its bytes, a null pointer [None].  The
    helpers that only move bytes are functions of the blocks they are given;
    [Null] is the null pointer they return, with [errno] set to [EINVAL], when
    they refuse.  Module [Flat] models [cplus_mem_cpy_ex] on one flat memory,
    where source and destination may overlap. *)

From S2P Require Import Prelude Stdio Zlist.
From stdpp Require Import base numbers list option gmap.
From Stdlib Require Import ZArith Lia.
Open Scope Z_scope.

Module Memmgr.

Inductive mem_result := Null | Ptr (dest : list Z).

(** [memcpy] into the front of a block. *)
Definition memcpy (dest src : list Z) (count : Z) : outcome mem_result :=
  if (count <=? zlen dest) && (count <=? zlen src) then
    Done (Ptr (take (Z.to_nat count) src ++ drop (Z.to_nat count) dest))
  else Undefined.

Definition cplus_mem_cpy (dest src : option (list Z)) (count : Z) : outcome mem_result :=
  match dest, src with
  | Some d, Some s => if count =? 0 then Done Null else memcpy d s count
  | _, _ => Done Null
  end.

Definition cplus_mem_cpy_ex (dest : option (list Z)) (destsz : Z)
    (src : option (list Z)) (count : Z) : outcome mem_result :=
  match dest, src with
  | Some d, Some s =>
      if destsz =? 0 then Done Null
      else if RSIZE_MAX_MEM <? destsz then Done Null
      else if count =? 0 then Done Null
      else if destsz <? count then Done Null
      else memcpy d s count
  | _, _ => Done Null
  end.

Definition cplus_mem_set (dest : option (list Z)) (value count : Z) : outcome mem_result :=
  match dest with
  | Some d =>
      if RSIZE_MAX_MEM <? count then Done Null
      else if count =? 0 then Done Null
      else memcpy d (replicate (Z.to_nat count) value) count
  | None => Done Null
  end.

(** What [vsnprintf(str, size, ...)] leaves in the buffer: as much of the text as
    leaves room for the final zero.  Its answer, an [int], is the business of the
    callers. *)
Definition cplus_str_printf (str : list Z) (size : Z) (text : list Z) : outcome (list Z) :=
  if size =? 0 then Done str
  else
    let out := take (Z.to_nat (size - 1)) text ++ [0] in
    if zlen out <=? zlen str then Done (out ++ drop (length out) str) else Undefined.

(** ** Lemmas *)

Lemma memcpy_ok d s n :
  0 ≤ n ≤ zlen d → n ≤ zlen s →
  memcpy d s n = Done (Ptr (take (Z.to_nat n) s ++ drop (Z.to_nat n) d)).
Proof.
  intros H1 H2. unfold memcpy.
  by rewrite (proj2 (Z.leb_le n (zlen d))), (proj2 (Z.leb_le n (zlen s))) by lia.
Qed.

Lemma str_printf_fits d size text :
  zlen text < size → size ≤ zlen d →
  cplus_str_printf d size text = Done (text ++ 0 :: drop (S (length text)) d).
Proof.
  intros H1 H2. unfold cplus_str_printf, zlen in *.
  destruct (Z.eqb_spec size 0); [lia|].
  rewrite take_ge by lia. rewrite length_app. cbn [length].
  rewrite (proj2 (Z.leb_le _ _)) by lia. rewrite <- app_assoc. simpl.
  by rewrite Nat.add_1_r.
Qed.

Lemma length_str_printf d size text d' :
  cplus_str_printf d size text = Done d' → length d' = length d.
Proof.
  unfold cplus_str_printf. destruct (size =? 0); [by intros [= ->]|].
  unfold zlen. destruct (Z.leb_spec (Z.of_nat (length (take (Z.to_nat (size - 1)) text ++ [0])))
    (Z.of_nat (length d))); [|done].
  intros [= <-]. rewrite length_app, length_drop. lia.
Qed.

(** ** Overlapping copies

    One flat memory of bytes; [memcpy] on overlapping ranges is undefined,
    [memmove] is not. *)
Module Flat.

Definition mem : Type := Z → Z.

Definition copied (m : mem) (dp sp count : Z) : mem := λ a,
  if (dp <=? a) && (a <? dp + count) then m (sp + (a - dp)) else m a.

Definition memmove (m : mem) (dp sp count : Z) : outcome mem := Done (copied m dp sp count).
Definition memcpy (m : mem) (dp sp count : Z) : outcome mem :=
  if (dp <? sp + count) && (sp <? dp + count) then Undefined
  else Done (copied m dp sp count).

(** The result is the returned pointer and the memory. *)
Definition cplus_mem_cpy_ex (m : mem) (dp destsz sp count : Z) : outcome (Z * mem) :=
  let ret o := match o with Done m' => Done (dp, m') | Undefined => Undefined
               | Aborts => Aborts | Hangs => Hangs end in
  if (dp =? 0) || (sp =? 0) || (destsz =? 0) || (RSIZE_MAX_MEM <? destsz)
     || (count =? 0) || (destsz <? count) then Done (0, m)
  else if ((sp <? dp) && (dp <? sp + count)) || ((dp <? sp) && (sp <? dp + destsz)) then
    ret (memmove m dp sp count)
  else ret (memcpy m dp sp count).

(** a copy of [count] bytes inside a destination of [destsz] bytes is never an
    overlapping [memcpy], so the destination receives the bytes the source had
    before and nothing else changes; only copying a block onto itself still
    calls [memcpy] on overlapping memory. *)
Theorem mem_cpy_ex_overlap m dp destsz sp count :
  dp ≠ 0 → sp ≠ 0 → 0 < count ≤ destsz → destsz ≤ RSIZE_MAX_MEM →
  (dp ≠ sp → ∃ m', cplus_mem_cpy_ex m dp destsz sp count = Done (dp, m')
     ∧ (∀ i, 0 ≤ i < count → m' (dp + i) = m (sp + i))
     ∧ (∀ a, a < dp ∨ dp + count ≤ a → m' a = m a))
  ∧ (dp = sp → cplus_mem_cpy_ex m dp destsz sp count = Undefined).
Proof.
  intros Hd Hs Hc Hr. unfold cplus_mem_cpy_ex.
  rewrite (proj2 (Z.eqb_neq dp 0)), (proj2 (Z.eqb_neq sp 0)), (proj2 (Z.eqb_neq destsz 0)),
    (proj2 (Z.ltb_ge _ destsz)), (proj2 (Z.eqb_neq count 0)), (proj2 (Z.ltb_ge destsz count)) by lia.
  cbn [orb]. split; intros Hne.
  - exists (copied m dp sp count). split.
    + unfold memmove, memcpy. zbool_cases; simpl; (done || lia).
    + unfold copied. split; intros i Hi.
      * rewrite (proj2 (Z.leb_le _ _)), (proj2 (Z.ltb_lt _ _)) by lia. simpl. f_equal. lia.
      * destruct (Z.leb_spec dp i), (Z.ltb_spec i (dp + count)); simpl; (done || lia).
  - subst sp. unfold memcpy. rewrite !Z.ltb_irrefl. simpl.
    by rewrite (proj2 (Z.ltb_lt dp _)) by lia.
Qed.

Lemma mem_cpy_ex_overlap_witness :
  (100 ≠ 98 → ∃ m', cplus_mem_cpy_ex (λ a, a) 100 4 98 4 = Done (100, m')
     ∧ (∀ i, 0 ≤ i < 4 → m' (100 + i) = 98 + i)
     ∧ (∀ a, a < 100 ∨ 100 + 4 ≤ a → m' a = a))
  ∧ (100 = 98 → cplus_mem_cpy_ex (λ a, a) 100 4 98 4 = Undefined).
Proof. apply (mem_cpy_ex_overlap (λ a, a) 100 4 98 4); unfold RSIZE_MAX_MEM; lia. Defined.

End Flat.

End Memmgr.
