(* ===== verification/Data.v ===== *)
(** * Data: the typed value container (src/data.c)

    A data object holds one value of a type chosen when it is made, an optional
    key and a spin lock.  Objects live at addresses; their key and text or byte
    buffers are blocks of the heap of Allocator.v, so that what is allocated
    and freed is part of the state.  A caller's buffer is a block of its own,
    [None] when the caller passes a null pointer, and an out parameter of a
    scalar type is the caller's variable, passed in and returned.

    Conversions between types follow the C casts: integers wrap, floats are
    the IEEE numbers of Stdio.v, and a float that does not fit the integer type
    is undefined, as is a [bool] that is neither 0 nor 1. *)

From S2P Require Import Prelude Allocator Spinlock Stdio Zlist Memmgr.
From stdpp Require Import base numbers list list_numbers option gmap.
From Stdlib Require Import ZArith Lia.
Open Scope Z_scope.

Module Data.
Import Spinlock Stdio Memmgr.

(** ** State *)

Definition OBJ_TYPE : Z := OBJ_NONE + DS + 0.

Inductive data_type :=
| T_NULL | T_BOOL
| T_INT8 | T_INT16 | T_INT32 | T_INT64
| T_UINT8 | T_UINT16 | T_UINT32 | T_UINT64
| T_FLOAT | T_DOUBLE | T_POINTER | T_STRING | T_BYTE_ARRAY
| T_UNKNOWN (code : Z).

#[export] Instance data_type_eq_dec : EqDecision data_type.
Proof. solve_decision. Defined.

Definition type_code (t : data_type) : Z :=
  match t with
  | T_NULL => 0 | T_BOOL => 1
  | T_INT8 => 2 | T_INT16 => 3 | T_INT32 => 4 | T_INT64 => 5
  | T_UINT8 => 6 | T_UINT16 => 7 | T_UINT32 => 8 | T_UINT64 => 9
  | T_FLOAT => 10 | T_DOUBLE => 11 | T_POINTER => 12
  | T_STRING => 13 | T_BYTE_ARRAY => 14
  | T_UNKNOWN c => c
  end.

Definition type_of_code (c : Z) : data_type :=
  match u32 c with
  | 0 => T_NULL | 1 => T_BOOL
  | 2 => T_INT8 | 3 => T_INT16 | 4 => T_INT32 | 5 => T_INT64
  | 6 => T_UINT8 | 7 => T_UINT16 | 8 => T_UINT32 | 9 => T_UINT64
  | 10 => T_FLOAT | 11 => T_DOUBLE | 12 => T_POINTER
  | 13 => T_STRING | 14 => T_BYTE_ARRAY
  | n => T_UNKNOWN n
  end.

Definition sizeof (t : data_type) : Z :=
  match t with
  | T_BOOL | T_INT8 | T_UINT8 => 1
  | T_INT16 | T_UINT16 => 2
  | T_INT32 | T_UINT32 | T_FLOAT => 4
  | T_INT64 | T_UINT64 | T_DOUBLE | T_POINTER => 8
  | _ => 0
  end.

(** The conversion of an integer to an integer or pointer type. *)
Definition cast (t : data_type) (z : Z) : Z :=
  match t with
  | T_BOOL => if z =? 0 then 0 else 1
  | T_INT8 => s8 z | T_INT16 => s16 z | T_INT32 => s32 z | T_INT64 => s64 z
  | T_UINT8 => u8 z | T_UINT16 => u16 z | T_UINT32 => u32 z
  | T_UINT64 | T_POINTER => u64 z
  | _ => z
  end.

(** The bytes of a scalar in memory, and back.  A float is its bits. *)
Definition to_bytes (t : data_type) (z : Z) : list Z := Z_to_little_endian (sizeof t) 8 z.
Definition of_bytes (t : data_type) (bs : list Z) : Z :=
  let n := little_endian_to_Z 8 bs in
  match t with
  | T_INT8 => s8 n | T_INT16 => s16 n | T_INT32 => s32 n | T_INT64 => s64 n
  | _ => n
  end.

(** A block of the heap: its address and contents. *)
Record block := Block { addr : Z; bytes : list Z }.

(** [CPLUS_DATA_VALUE]: the member the object's type selects.  The types of
    strings and byte arrays both use a length and a pointer. *)
Inductive data_value := Scalar (z : Z) | Buffer (len : Z) (bufs : option block).

(** [struct data]. *)
Record data := mkData {
  type : Z;
  dtype : data_type;
  is_valid : bool;
  action_mode : Z;
  key_len : Z;
  key : option block;
  spinlock : Z;
  str_code : Z;
  bufs_size : Z;
  value : data_value }.

Definition set_is_valid (b : bool) (d : data) : data :=
  mkData (type d) (dtype d) b (action_mode d) (key_len d) (key d) (spinlock d)
    (str_code d) (bufs_size d) (value d).
Definition set_action_mode (v : Z) (d : data) : data :=
  mkData (type d) (dtype d) (is_valid d) v (key_len d) (key d) (spinlock d)
    (str_code d) (bufs_size d) (value d).
Definition set_key_len (v : Z) (d : data) : data :=
  mkData (type d) (dtype d) (is_valid d) (action_mode d) v (key d) (spinlock d)
    (str_code d) (bufs_size d) (value d).
Definition set_key (v : option block) (d : data) : data :=
  mkData (type d) (dtype d) (is_valid d) (action_mode d) (key_len d) v (spinlock d)
    (str_code d) (bufs_size d) (value d).
Definition set_spinlock (v : Z) (d : data) : data :=
  mkData (type d) (dtype d) (is_valid d) (action_mode d) (key_len d) (key d) v
    (str_code d) (bufs_size d) (value d).
Definition set_str_code (v : Z) (d : data) : data :=
  mkData (type d) (dtype d) (is_valid d) (action_mode d) (key_len d) (key d) (spinlock d)
    v (bufs_size d) (value d).
Definition set_bufs_size (v : Z) (d : data) : data :=
  mkData (type d) (dtype d) (is_valid d) (action_mode d) (key_len d) (key d) (spinlock d)
    (str_code d) v (value d).
Definition set_value (v : data_value) (d : data) : data :=
  mkData (type d) (dtype d) (is_valid d) (action_mode d) (key_len d) (key d) (spinlock d)
    (str_code d) (bufs_size d) v.

(** [junk] is what a fresh block holds before it is written: any bytes. *)
Record world := World {
  objs : gmap Z data;
  heap : Heap.heap;
  junk : Z → nat → Z;
  errno : Z }.

Notation M := (C world).

Definition with_objs (f : gmap Z data → gmap Z data) (w : world) : world :=
  World (f (objs w)) (heap w) (junk w) (errno w).
Definition with_heap (h : Heap.heap) (w : world) : world :=
  World (objs w) h (junk w) (errno w).
Definition with_errno (e : Z) (w : world) : world :=
  World (objs w) (heap w) (junk w) e.

Definition set_errno (e : Z) : M unit := modify (with_errno e).
Definition lift {A} (o : outcome A) : M A := λ w,
  match o with
  | Done a => Done (a, w)
  | Aborts => Aborts | Hangs => Hangs | Undefined => Undefined
  end.

Definition field {A} (obj : Z) (f : data → A) : M A := deref (λ w, f <$> objs w !! obj).
Definition upd (obj : Z) (f : data → data) : M unit :=
  field obj type;; modify (with_objs (alter f obj)).

(** [CHECK_OBJECT_TYPE]. *)
Definition CHECK_OBJECT_TYPE (obj : Z) : M unit :=
  if obj =? 0 then abort
  else t ← field obj type; assert_c (OBJ_TYPE =? t).

Definition DATA_SPIN_LOCK (obj : Z) : M unit :=
  l ← field obj spinlock; l' ← lift (SPIN_LOCK l); upd obj (set_spinlock l').
Definition DATA_SPIN_UNLOCK (obj : Z) : M unit := upd obj (set_spinlock SPIN_UNLOCK).

(** A section that always leaves by its end. *)
Definition locked {A} (obj : Z) (m : M A) : M A :=
  DATA_SPIN_LOCK obj;; a ← m; DATA_SPIN_UNLOCK obj;; mret a.

(** ** Memory *)

Definition cplus_malloc (size : Z) : M (option block) := λ w,
  match Heap.cplus_malloc (heap w) with
  | Done (p, h) =>
      if p =? 0 then Done (None, with_errno ENOMEM (with_heap h w))
      else Done (Some (Block p ((λ i, u8 (junk w p i)) <$> seq 0 (Z.to_nat size))), with_heap h w)
  | Aborts => Aborts | Hangs => Hangs | Undefined => Undefined
  end.

Definition cplus_free (p : Z) : M Z := λ w,
  if p =? 0 then Done (EINVAL, with_errno EINVAL w)
  else match Heap.cplus_free p (heap w) with
  | Done h => Done (CPLUS_SUCCESS, with_heap h w)
  | Aborts => Aborts | Hangs => Hangs | Undefined => Undefined
  end.

(** [realloc] gives a fresh block with the old contents in front; when it
    fails, or the size is 0, the helper leaves the old block freed. *)
Definition cplus_realloc (ptr : option block) (size : Z) : M (option block) :=
  match ptr with
  | None => set_errno EINVAL;; mret None
  | Some b =>
      if size =? 0 then cplus_free (addr b);; set_errno ENOMEM;; mret None
      else
        new ← cplus_malloc size;
        cplus_free (addr b);;
        match new with
        | None => set_errno ENOMEM;; mret None
        | Some n =>
            let keep := take (Z.to_nat size) (bytes b) in
            mret (Some (Block (addr n) (keep ++ drop (length keep) (bytes n))))
        end
  end.

(** A copy into a block, [errno] included; the answer says whether the helper
    returned a pointer. *)
Definition copy_into (dest : list Z) (o : outcome mem_result) : M (bool * list Z) :=
  r ← lift o;
  match r with
  | Null => set_errno EINVAL;; mret (false, dest)
  | Ptr d => mret (true, d)
  end.

(** [cplus_str_printf(str, size, "%s", text)]: the answer, and the buffer.  The
    answer is an [int32_t]; a text too long for one is written like any other and
    answered with a failure, as the C library of the system does. *)
Definition INT32_MAX : Z := 2147483647.
Definition EOVERFLOW : Z := 75.
Definition printf_string (str : list Z) (size : Z) (text : list Z) : M (Z * list Z) :=
  d ← lift (cplus_str_printf str size text);
  if INT32_MAX <? zlen text then set_errno EOVERFLOW;; mret (-1, d) else mret (zlen text, d).

(** The members of the union. *)
Definition scalar_of (v : data_value) : option Z :=
  match v with Scalar z => Some z | Buffer _ _ => None end.
Definition buffer_of (v : data_value) : option (Z * option block) :=
  match v with Scalar _ => None | Buffer l b => Some (l, b) end.

Definition load_scalar (obj : Z) : M Z :=
  deref (λ w, d ← objs w !! obj; scalar_of (value d)).
Definition store_scalar (obj z : Z) : M unit := upd obj (set_value (Scalar z)).
Definition load_buffer (obj : Z) : M (Z * option block) :=
  deref (λ w, d ← objs w !! obj; buffer_of (value d)).
Definition store_buffer (obj len : Z) (b : option block) : M unit :=
  upd obj (set_value (Buffer len b)).

(** Reading the [bool] member. *)
Definition load_bool (obj : Z) : M Z :=
  z ← load_scalar obj; if (z =? 0) || (z =? 1) then mret z else undef.

(** The string a buffer holds; a null or unterminated one is undefined. *)
Definition string_of (b : option block) : M (list Z) :=
  deref (λ _, b ← b; cstr (bytes b)).

(** Reading [n] bytes through a pointer, and writing bytes through one. *)
Definition read_bytes (n : Z) (p : list Z) : M (list Z) :=
  if n <=? zlen p then mret (take (Z.to_nat n) p) else undef.
Definition write_bytes (bs p : list Z) : M (list Z) :=
  if zlen bs <=? zlen p then mret (bs ++ drop (length bs) p) else undef.

(** ** Life cycle, type, key *)

Definition free_opt (b : option block) : M unit :=
  match b with Some b => cplus_free (addr b);; mret tt | None => mret tt end.

(** The blocks of an object, and then the object itself. *)
Definition free_object (obj : Z) : M unit :=
  k ← field obj key;
  free_opt k;;
  t ← field obj dtype;
  (match t with
   | T_STRING | T_BYTE_ARRAY => '(_, b) ← load_buffer obj; free_opt b
   | _ => mret tt
   end);;
  cplus_free obj;; mret tt.

Definition cplus_data_delete (obj : Z) : M Z :=
  CHECK_OBJECT_TYPE obj;;
  free_object obj;;
  modify (with_objs (delete obj));;
  mret CPLUS_SUCCESS.

Definition cplus_data_check (obj : Z) : M bool :=
  if obj =? 0 then mret false else t ← field obj type; mret (t =? OBJ_TYPE).

Definition cplus_data_get_data_size (obj : Z) : M Z :=
  CHECK_OBJECT_TYPE obj;;
  t ← field obj dtype;
  match t with
  | T_UNKNOWN _ => set_errno EINVAL;; mret 0
  | T_STRING => locked obj ('(_, b) ← load_buffer obj; s ← string_of b; mret (u32 (zlen s)))
  | T_BYTE_ARRAY => locked obj ('(len, _) ← load_buffer obj; mret len)
  | _ => mret (sizeof t)
  end.

Definition cplus_data_get_type (obj : Z) : M Z :=
  CHECK_OBJECT_TYPE obj;; t ← field obj dtype; mret (s32 (type_code t)).

(** The index into [cplus_type_string]; [None] is the null pointer. *)
Definition cplus_data_get_type_str (t : Z) : M (option Z) :=
  if (0 >? t) || (t >? 15) then set_errno EINVAL;; mret None else mret (Some t).

(** The copy of the key with its final zero. *)
Definition copy_key (obj destsz count : Z) (src : list Z) : M unit :=
  k ← field obj key;
  match k with
  | Some b =>
      '(_, d) ← copy_into (bytes b) (cplus_mem_cpy_ex (Some (bytes b)) destsz (Some src) count);
      upd obj (set_key (Some (Block (addr b) d)))
  | None => set_errno EINVAL
  end.

Definition cplus_data_set_key (obj klen : Z) (k : option (list Z)) : M Z :=
  CHECK_OBJECT_TYPE obj;;
  match k with
  | None => set_errno EINVAL;; mret CPLUS_FAIL
  | Some src =>
      if 0 >=? klen then set_errno EINVAL;; mret CPLUS_FAIL
      else
        DATA_SPIN_LOCK obj;;
        let klen := u32 (klen + 1) in
        cap ← field obj key_len;
        if klen <=? cap then
          copy_key obj cap klen src;; DATA_SPIN_UNLOCK obj;; mret CPLUS_SUCCESS
        else
          upd obj (set_key_len klen);;
          old ← field obj key;
          new ← (match old with
                 | None => cplus_malloc klen
                 | Some _ => cplus_realloc old klen
                 end);
          upd obj (set_key new);;
          match new with
          | None =>
              set_errno (match old with None => ENOMEM | Some _ => ENOBUFS end);;
              DATA_SPIN_UNLOCK obj;; mret CPLUS_FAIL
          | Some _ =>
              copy_key obj klen klen src;; DATA_SPIN_UNLOCK obj;; mret CPLUS_SUCCESS
          end
  end.

Definition cplus_data_get_key (obj : Z) : M (option block) :=
  CHECK_OBJECT_TYPE obj;; field obj key.

Definition cplus_data_set_action_mode (obj mode : Z) : M Z :=
  CHECK_OBJECT_TYPE obj;; upd obj (set_action_mode mode);; mret CPLUS_SUCCESS.

Definition cplus_data_get_action_mode (obj : Z) : M Z :=
  CHECK_OBJECT_TYPE obj;; field obj action_mode.

Definition cplus_data_is_valid (obj : Z) : M bool :=
  if obj =? 0 then mret false
  else
    t ← field obj dtype;
    v ← field obj is_valid;
    mret (negb ((15 <=? type_code t) || (type_code t <=? 0) || negb v)).

(** ** Values *)

(** [memcpy] or an atomic store of the scalar into the caller's memory. *)
Definition put_scalar (t : data_type) (z : Z) (value1 : list Z) : M (list Z) :=
  write_bytes (to_bytes t z) value1.

(** The unsigned length [value1] points to. *)
Definition read_len (value1 : list Z) : M Z :=
  bs ← read_bytes 4 value1; mret (of_bytes T_UINT32 bs).

Definition cplus_data_get_value (obj : Z) (value1 value2 : option (list Z))
    : M (Z * option (list Z) * option (list Z)) :=
  CHECK_OBJECT_TYPE obj;;
  match value1 with
  | None => set_errno EINVAL;; mret (CPLUS_FAIL, value1, value2)
  | Some p =>
      t ← field obj dtype;
      match t with
      | T_NULL | T_UNKNOWN _ => set_errno EINVAL;; mret (CPLUS_FAIL, value1, value2)
      | T_BOOL =>
          z ← load_bool obj; p' ← put_scalar t z p; mret (sizeof t, Some p', value2)
      | T_INT8 | T_INT16 | T_INT32 | T_UINT8 | T_UINT16 | T_UINT32 | T_POINTER =>
          z ← load_scalar obj; p' ← put_scalar t z p; mret (sizeof t, Some p', value2)
      | T_INT64 | T_UINT64 | T_FLOAT | T_DOUBLE =>
          p' ← locked obj (z ← load_scalar obj; put_scalar t z p);
          mret (sizeof t, Some p', value2)
      | T_STRING =>
          match value2 with
          | None => set_errno EINVAL;; mret (CPLUS_FAIL, value1, value2)
          | Some q =>
              DATA_SPIN_LOCK obj;;
              size ← read_len p;
              '(_, b) ← load_buffer obj;
              s ← string_of b;
              if size <? zlen s + 1 then
                set_errno ENOBUFS;; DATA_SPIN_UNLOCK obj;; mret (CPLUS_FAIL, value1, value2)
              else
                '(res, q') ← printf_string q size s;
                DATA_SPIN_UNLOCK obj;; mret (res, value1, Some q')
          end
      | T_BYTE_ARRAY =>
          match value2 with
          | None => set_errno EINVAL;; mret (CPLUS_FAIL, value1, value2)
          | Some q =>
              DATA_SPIN_LOCK obj;;
              size ← read_len p;
              '(len, b) ← load_buffer obj;
              if size <? len then
                set_errno ENOBUFS;; DATA_SPIN_UNLOCK obj;; mret (CPLUS_FAIL, value1, value2)
              else
                '(ok, q') ← copy_into q (cplus_mem_cpy_ex (Some q) size (bytes <$> b) len);
                if (ok : bool) then
                  DATA_SPIN_UNLOCK obj;; mret (s32 len, value1, Some q')
                else mret (CPLUS_FAIL, value1, value2)
          end
      end
  end.

(** Make room for [need] bytes of text: a block is kept when it is big enough. *)
Definition grow_string (obj need : Z) : M (option block) :=
  '(len, b) ← load_buffer obj;
  match b with
  | None => new ← cplus_malloc need; store_buffer obj need new;; mret new
  | Some _ =>
      if len <? need then
        new ← cplus_realloc b need; store_buffer obj need new;; mret new
      else mret b
  end.

Definition grow_array (obj need : Z) : M (option block) :=
  '(len, b) ← load_buffer obj;
  upd obj (set_bufs_size len);;
  store_buffer obj need b;;
  match b with
  | None =>
      upd obj (set_bufs_size need);;
      new ← cplus_malloc need; store_buffer obj need new;; mret new
  | Some _ =>
      if len <? need then
        upd obj (set_bufs_size need);;
        new ← cplus_realloc b need; store_buffer obj need new;; mret new
      else mret b
  end.

(** What the two buffer types write: the C string at [value2], or the [n] bytes
    there; zeros when it is null. *)
Definition fill_string (obj : Z) (b : block) (value2 : option (list Z)) : M unit :=
  '(len, _) ← load_buffer obj;
  match value2 with
  | Some src =>
      s ← deref (λ _, cstr src);
      '(_, d) ← printf_string (bytes b) len s;
      store_buffer obj len (Some (Block (addr b) d))
  | None =>
      '(_, d) ← copy_into (bytes b) (cplus_mem_set (Some (bytes b)) 0 len);
      store_buffer obj len (Some (Block (addr b) d))
  end.

Definition fill_array (obj : Z) (b : block) (n : Z) (value2 : option (list Z)) : M unit :=
  '(len, _) ← load_buffer obj;
  size ← field obj bufs_size;
  '(_, d) ← copy_into (bytes b)
    (match value2 with
     | Some src => cplus_mem_cpy_ex (Some (bytes b)) size (Some src) n
     | None => cplus_mem_set (Some (bytes b)) 0 size
     end);
  store_buffer obj len (Some (Block (addr b) d)).

Definition cplus_data_set_value (obj : Z) (value1 value2 : option (list Z)) : M Z :=
  let valid := upd obj (set_is_valid true);; mret CPLUS_SUCCESS in
  CHECK_OBJECT_TYPE obj;;
  match value1 with
  | None => set_errno EINVAL;; mret CPLUS_FAIL
  | Some p =>
      t ← field obj dtype;
      match t with
      | T_NULL | T_UNKNOWN _ => set_errno EINVAL;; mret CPLUS_FAIL
      | T_BOOL =>
          bs ← read_bytes (sizeof t) p;
          let z := of_bytes t bs in
          if (z =? 0) || (z =? 1) then store_scalar obj z;; valid else undef
      | T_INT8 | T_INT16 | T_INT32 | T_UINT8 | T_UINT16 | T_UINT32 | T_POINTER =>
          bs ← read_bytes (sizeof t) p; store_scalar obj (of_bytes t bs);; valid
      | T_INT64 | T_UINT64 | T_FLOAT | T_DOUBLE =>
          locked obj (bs ← read_bytes (sizeof t) p; store_scalar obj (of_bytes t bs));; valid
      | T_STRING =>
          DATA_SPIN_LOCK obj;;
          n ← read_len p;
          b ← grow_string obj (u32 (n + 1));
          match b with
          | None => set_errno ENOMEM;; DATA_SPIN_UNLOCK obj;; mret CPLUS_FAIL
          | Some b => fill_string obj b value2;; DATA_SPIN_UNLOCK obj;; valid
          end
      | T_BYTE_ARRAY =>
          DATA_SPIN_LOCK obj;;
          n ← read_len p;
          b ← grow_array obj n;
          match b with
          | None => set_errno ENOMEM;; DATA_SPIN_UNLOCK obj;; mret CPLUS_FAIL
          | Some b => fill_array obj b n value2;; DATA_SPIN_UNLOCK obj;; valid
          end
      end
  end.

Definition clear_object (t : data_type) : data :=
  mkData OBJ_TYPE t false 0 0 None 0 0 0
    (match t with T_STRING | T_BYTE_ARRAY => Buffer 0 None | _ => Scalar 0 end).

(** [sizeof(struct data)] on LP64. *)
Definition struct_size : Z := 64.

Definition data_initialize_object (ty : Z) (value1 value2 : option (list Z))
    (klen : Z) (k : option (list Z)) : M Z :=
  b ← cplus_malloc struct_size;
  match b with
  | None => mret 0
  | Some b =>
      let dt := addr b in
      modify (with_objs (<[dt := clear_object (type_of_code ty)]>));;
      r1 ← (match value1 with
            | Some _ => cplus_data_set_value dt value1 value2
            | None => mret CPLUS_SUCCESS
            end);
      if negb (r1 =? CPLUS_SUCCESS) then cplus_data_delete dt;; mret 0
      else
        r2 ← (match k with
              | Some _ => if 0 <? klen then cplus_data_set_key dt klen k else mret CPLUS_SUCCESS
              | None => mret CPLUS_SUCCESS
              end);
        if negb (r2 =? CPLUS_SUCCESS) then cplus_data_delete dt;; mret 0
        else mret dt
  end.

(** A typed argument passed by its address. *)
Definition arg (t : data_type) (z : Z) : option (list Z) := Some (to_bytes t z).

(** ** Constructors *)

Definition cplus_data_new (ty : Z) (value1 value2 : option (list Z)) : M Z :=
  data_initialize_object ty value1 value2 0 None.
Definition cplus_data_new_bool (v : Z) : M Z :=
  data_initialize_object (type_code T_BOOL) (arg T_BOOL v) None 0 None.
Definition cplus_data_new_int8 (v : Z) : M Z :=
  data_initialize_object (type_code T_INT8) (arg T_INT8 v) None 0 None.
Definition cplus_data_new_int16 (v : Z) : M Z :=
  data_initialize_object (type_code T_INT16) (arg T_INT16 v) None 0 None.
Definition cplus_data_new_int32 (v : Z) : M Z :=
  data_initialize_object (type_code T_INT32) (arg T_INT32 v) None 0 None.
Definition cplus_data_new_int64 (v : Z) : M Z :=
  data_initialize_object (type_code T_INT64) (arg T_INT64 v) None 0 None.
Definition cplus_data_new_uint8 (v : Z) : M Z :=
  data_initialize_object (type_code T_UINT8) (arg T_UINT8 v) None 0 None.
Definition cplus_data_new_uint16 (v : Z) : M Z :=
  data_initialize_object (type_code T_UINT16) (arg T_UINT16 v) None 0 None.
Definition cplus_data_new_uint32 (v : Z) : M Z :=
  data_initialize_object (type_code T_UINT32) (arg T_UINT32 v) None 0 None.
Definition cplus_data_new_uint64 (v : Z) : M Z :=
  data_initialize_object (type_code T_UINT64) (arg T_UINT64 v) None 0 None.
Definition cplus_data_new_float (v : Z) : M Z :=
  data_initialize_object (type_code T_FLOAT) (arg T_FLOAT v) None 0 None.
Definition cplus_data_new_double (v : Z) : M Z :=
  data_initialize_object (type_code T_DOUBLE) (arg T_DOUBLE v) None 0 None.
Definition cplus_data_new_pointer (v : Z) : M Z :=
  data_initialize_object (type_code T_POINTER) (arg T_POINTER v) None 0 None.
Definition cplus_data_new_string (n : Z) (s : option (list Z)) : M Z :=
  data_initialize_object (type_code T_STRING) (arg T_UINT32 n) s 0 None.
Definition cplus_data_new_byte_array (n : Z) (a : option (list Z)) : M Z :=
  data_initialize_object (type_code T_BYTE_ARRAY) (arg T_UINT32 n) a 0 None.

Definition cplus_data_new_ex (ty : Z) (value1 value2 : option (list Z)) (klen : Z) (k : option (list Z)) : M Z :=
  data_initialize_object ty value1 value2 klen k.
Definition cplus_data_new_bool_ex (v klen : Z) (k : option (list Z)) : M Z :=
  data_initialize_object (type_code T_BOOL) (arg T_BOOL v) None klen k.
Definition cplus_data_new_int8_ex (v klen : Z) (k : option (list Z)) : M Z :=
  data_initialize_object (type_code T_INT8) (arg T_INT8 v) None klen k.
Definition cplus_data_new_int16_ex (v klen : Z) (k : option (list Z)) : M Z :=
  data_initialize_object (type_code T_INT16) (arg T_INT16 v) None klen k.
Definition cplus_data_new_int32_ex (v klen : Z) (k : option (list Z)) : M Z :=
  data_initialize_object (type_code T_INT32) (arg T_INT32 v) None klen k.
Definition cplus_data_new_int64_ex (v klen : Z) (k : option (list Z)) : M Z :=
  data_initialize_object (type_code T_INT64) (arg T_INT64 v) None klen k.
Definition cplus_data_new_uint8_ex (v klen : Z) (k : option (list Z)) : M Z :=
  data_initialize_object (type_code T_UINT8) (arg T_UINT8 v) None klen k.
Definition cplus_data_new_uint16_ex (v klen : Z) (k : option (list Z)) : M Z :=
  data_initialize_object (type_code T_UINT16) (arg T_UINT16 v) None klen k.
Definition cplus_data_new_uint32_ex (v klen : Z) (k : option (list Z)) : M Z :=
  data_initialize_object (type_code T_UINT32) (arg T_UINT32 v) None klen k.
Definition cplus_data_new_uint64_ex (v klen : Z) (k : option (list Z)) : M Z :=
  data_initialize_object (type_code T_UINT64) (arg T_UINT64 v) None klen k.
Definition cplus_data_new_float_ex (v klen : Z) (k : option (list Z)) : M Z :=
  data_initialize_object (type_code T_FLOAT) (arg T_FLOAT v) None klen k.
Definition cplus_data_new_double_ex (v klen : Z) (k : option (list Z)) : M Z :=
  data_initialize_object (type_code T_DOUBLE) (arg T_DOUBLE v) None klen k.
Definition cplus_data_new_pointer_ex (v klen : Z) (k : option (list Z)) : M Z :=
  data_initialize_object (type_code T_POINTER) (arg T_POINTER v) None klen k.
Definition cplus_data_new_string_ex (n : Z) (s : option (list Z)) (klen : Z) (k : option (list Z)) : M Z :=
  data_initialize_object (type_code T_STRING) (arg T_UINT32 n) s klen k.
Definition cplus_data_new_byte_array_ex (n : Z) (a : option (list Z)) (klen : Z) (k : option (list Z)) : M Z :=
  data_initialize_object (type_code T_BYTE_ARRAY) (arg T_UINT32 n) a klen k.

(** ** Typed writes and reads *)

Definition cplus_data_set_bool (obj v : Z) : M Z :=
  cplus_data_set_value obj (arg T_BOOL v) None.
Definition cplus_data_set_int8 (obj v : Z) : M Z :=
  cplus_data_set_value obj (arg T_INT8 v) None.
Definition cplus_data_set_int16 (obj v : Z) : M Z :=
  cplus_data_set_value obj (arg T_INT16 v) None.
Definition cplus_data_set_int32 (obj v : Z) : M Z :=
  cplus_data_set_value obj (arg T_INT32 v) None.
Definition cplus_data_set_int64 (obj v : Z) : M Z :=
  cplus_data_set_value obj (arg T_INT64 v) None.
Definition cplus_data_set_uint8 (obj v : Z) : M Z :=
  cplus_data_set_value obj (arg T_UINT8 v) None.
Definition cplus_data_set_uint16 (obj v : Z) : M Z :=
  cplus_data_set_value obj (arg T_UINT16 v) None.
Definition cplus_data_set_uint32 (obj v : Z) : M Z :=
  cplus_data_set_value obj (arg T_UINT32 v) None.
Definition cplus_data_set_uint64 (obj v : Z) : M Z :=
  cplus_data_set_value obj (arg T_UINT64 v) None.
Definition cplus_data_set_float (obj v : Z) : M Z :=
  cplus_data_set_value obj (arg T_FLOAT v) None.
Definition cplus_data_set_double (obj v : Z) : M Z :=
  cplus_data_set_value obj (arg T_DOUBLE v) None.
Definition cplus_data_set_pointer (obj v : Z) : M Z :=
  cplus_data_set_value obj (arg T_POINTER v) None.
Definition cplus_data_set_string (obj n : Z) (s : option (list Z)) : M Z :=
  cplus_data_set_value obj (arg T_UINT32 n) s.
Definition cplus_data_set_byte_array (obj n : Z) (a : option (list Z)) : M Z :=
  cplus_data_set_value obj (arg T_UINT32 n) a.

Definition cplus_data_set_string_code (obj code : Z) : M Z :=
  CHECK_OBJECT_TYPE obj;;
  t ← field obj dtype;
  match t with
  | T_STRING => upd obj (set_str_code code);; mret CPLUS_SUCCESS
  | _ => mret CPLUS_FAIL
  end.

(** The check every typed read starts with. *)
Definition CHECK_TYPE (obj : Z) (t : data_type) : M unit :=
  CHECK_OBJECT_TYPE obj;; t' ← field obj dtype; assert_c (bool_decide (t = t')).

Definition cplus_data_get_bool (obj : Z) : M Z :=
  CHECK_TYPE obj T_BOOL;; load_bool obj.
Definition cplus_data_get_int8 (obj : Z) : M Z :=
  CHECK_TYPE obj T_INT8;; load_scalar obj.
Definition cplus_data_get_int16 (obj : Z) : M Z :=
  CHECK_TYPE obj T_INT16;; load_scalar obj.
Definition cplus_data_get_int32 (obj : Z) : M Z :=
  CHECK_TYPE obj T_INT32;; load_scalar obj.
Definition cplus_data_get_int64 (obj : Z) : M Z :=
  CHECK_TYPE obj T_INT64;; locked obj (load_scalar obj).
Definition cplus_data_get_uint8 (obj : Z) : M Z :=
  CHECK_TYPE obj T_UINT8;; load_scalar obj.
Definition cplus_data_get_uint16 (obj : Z) : M Z :=
  CHECK_TYPE obj T_UINT16;; load_scalar obj.
Definition cplus_data_get_uint32 (obj : Z) : M Z :=
  CHECK_TYPE obj T_UINT32;; load_scalar obj.
Definition cplus_data_get_uint64 (obj : Z) : M Z :=
  CHECK_TYPE obj T_UINT64;; locked obj (load_scalar obj).
Definition cplus_data_get_float (obj : Z) : M Z :=
  CHECK_TYPE obj T_FLOAT;; locked obj (load_scalar obj).
Definition cplus_data_get_double (obj : Z) : M Z :=
  CHECK_TYPE obj T_DOUBLE;; locked obj (load_scalar obj).
Definition cplus_data_get_pointer (obj : Z) : M Z :=
  CHECK_TYPE obj T_POINTER;; load_scalar obj.
Definition cplus_data_get_string (obj : Z) : M (option block) :=
  CHECK_TYPE obj T_STRING;; '(_, b) ← load_buffer obj; mret b.
Definition cplus_data_get_byte_array (obj : Z) : M (option block) :=
  CHECK_TYPE obj T_BYTE_ARRAY;; '(_, b) ← load_buffer obj; mret b.
Definition cplus_data_get_string_code (obj : Z) : M Z :=
  CHECK_TYPE obj T_STRING;; field obj str_code.

(** [memcpy] between objects: from an object to itself it is undefined. *)
Definition distinct (dest src : Z) : M unit := if dest =? src then undef else mret tt.

(** [cplus_mem_cpy] of the destination's length into its buffer. *)
Definition clone_bytes (dest src : Z) : M Z :=
  '(len, db) ← load_buffer dest;
  '(_, sb) ← load_buffer src;
  match db, sb with
  | Some d, Some s =>
      (if len =? 0 then mret tt else distinct dest src);;
      '(_, bs) ← copy_into (bytes d) (cplus_mem_cpy (Some (bytes d)) (Some (bytes s)) len);
      store_buffer dest len (Some (Block (addr d) bs));;
      mret CPLUS_SUCCESS
  | _, _ => set_errno EINVAL;; mret CPLUS_SUCCESS
  end.

Definition cplus_data_clone_value (dest src : Z) : M Z :=
  CHECK_OBJECT_TYPE dest;;
  CHECK_OBJECT_TYPE src;;
  td ← field dest dtype;
  ts ← field src dtype;
  if negb (bool_decide (td = ts)) then mret CPLUS_FAIL
  else
    match td with
    | T_STRING =>
        code ← field src str_code;
        upd dest (set_str_code code);;
        '(slen, _) ← load_buffer src;
        '(dlen, db) ← load_buffer dest;
        if dlen <? slen then
          new ← cplus_realloc db slen;
          match new with
          | None => store_buffer dest dlen None;; mret CPLUS_FAIL
          | Some _ => store_buffer dest slen new;; clone_bytes dest src
          end
        else clone_bytes dest src
    | T_BYTE_ARRAY =>
        ssize ← field src bufs_size;
        dsize ← field dest bufs_size;
        '(slen, _) ← load_buffer src;
        '(dlen, db) ← load_buffer dest;
        if dsize <? ssize then
          new ← cplus_realloc db ssize;
          match new with
          | None => store_buffer dest dlen None;; mret CPLUS_FAIL
          | Some _ =>
              upd dest (set_bufs_size ssize);;
              store_buffer dest slen new;; clone_bytes dest src
          end
        else clone_bytes dest src
    | _ =>
        distinct dest src;;
        v ← field src value; upd dest (set_value v);; mret CPLUS_SUCCESS
    end.

End Data.
