(* ===== verification/DataConv.v ===== *)
(** * DataConv: the conversions of src/data.c

    The functions [cplus_data_get_as_*] and [cplus_data_set_as_*], which read
    and write a data object through another type than its own, and the byte
    order functions at the end of the file.  The eight integer readers, and the
    eight integer writers, are one function each, at the eight types. *)

From S2P Require Import Prelude Allocator Spinlock Stdio Zlist Memmgr Data.
From stdpp Require Import base numbers list list_numbers option gmap.
From Stdlib Require Import ZArith Lia.
Open Scope Z_scope.

Module DataConv.
Import Spinlock Stdio Memmgr Data.

(** ** Reading as another type *)

(** A float converted to an integer type: undefined when it does not fit. *)
Definition float_to (t : data_type) (f : format) (bits : Z) : M Z :=
  match float_trunc f bits with
  | Some n => if n =? cast t n then mret n else undef
  | None => undef
  end.

Definition is_signed (t : data_type) : bool :=
  match t with T_INT8 | T_INT16 | T_INT32 | T_INT64 => true | _ => false end.

(** [sscanf] into the variable the function declares: 32 bits for the types up
    to 32 bits, 64 bits for the others. *)
Definition scan_as (t : data_type) (s : list Z) : option Z :=
  match t with
  | T_INT64 => scan_d 64 s
  | T_UINT64 => scan_u 64 s
  | _ => if is_signed t then scan_d 32 s else scan_u 32 s
  end.

(** The bytes of the array in front of those of the caller's variable. *)
Definition read_array (t : data_type) (obj value : Z) : M Z :=
  locked obj (
    '(len, b) ← load_buffer obj;
    let n := if sizeof t <? len then sizeof t else len in
    '(_, bs) ← copy_into (to_bytes t value)
                 (cplus_mem_cpy (Some (to_bytes t value)) (bytes <$> b) n);
    mret (of_bytes t bs)).

Definition get_as_int (t : data_type) (obj value : Z) : M (Z * Z) :=
  CHECK_OBJECT_TYPE obj;;
  dt ← field obj dtype;
  match dt with
  | T_NULL | T_UNKNOWN _ => set_errno EINVAL;; mret (CPLUS_FAIL, value)
  | T_BOOL => z ← load_bool obj; mret (CPLUS_SUCCESS, cast t z)
  | T_INT8 | T_INT16 | T_INT32 | T_UINT8 | T_UINT16 | T_UINT32 =>
      z ← load_scalar obj; mret (CPLUS_SUCCESS, cast t z)
  | T_INT64 | T_UINT64 => z ← locked obj (load_scalar obj); mret (CPLUS_SUCCESS, cast t z)
  | T_FLOAT => z ← locked obj (load_scalar obj ≫= float_to t binary32); mret (CPLUS_SUCCESS, z)
  | T_DOUBLE => z ← locked obj (load_scalar obj ≫= float_to t binary64); mret (CPLUS_SUCCESS, z)
  | T_POINTER => p ← load_scalar obj; mret (CPLUS_SUCCESS, cast t (s64 p))
  | T_STRING =>
      DATA_SPIN_LOCK obj;;
      '(_, b) ← load_buffer obj;
      s ← string_of b;
      match scan_as t s with
      | None => set_errno ENOENT;; DATA_SPIN_UNLOCK obj;; mret (CPLUS_FAIL, value)
      | Some n => DATA_SPIN_UNLOCK obj;; mret (CPLUS_SUCCESS, cast t n)
      end
  | T_BYTE_ARRAY => z ← read_array t obj value; mret (CPLUS_SUCCESS, z)
  end.

Definition cplus_data_get_as_int8 (obj value : Z) : M (Z * Z) := get_as_int T_INT8 obj value.
Definition cplus_data_get_as_int16 (obj value : Z) : M (Z * Z) := get_as_int T_INT16 obj value.
Definition cplus_data_get_as_int32 (obj value : Z) : M (Z * Z) := get_as_int T_INT32 obj value.
Definition cplus_data_get_as_int64 (obj value : Z) : M (Z * Z) := get_as_int T_INT64 obj value.
Definition cplus_data_get_as_uint8 (obj value : Z) : M (Z * Z) := get_as_int T_UINT8 obj value.
Definition cplus_data_get_as_uint16 (obj value : Z) : M (Z * Z) := get_as_int T_UINT16 obj value.
Definition cplus_data_get_as_uint32 (obj value : Z) : M (Z * Z) := get_as_int T_UINT32 obj value.
Definition cplus_data_get_as_uint64 (obj value : Z) : M (Z * Z) := get_as_int T_UINT64 obj value.

Definition cplus_data_get_as_bool (obj value : Z) : M (Z * Z) :=
  let fail := set_errno ENOMEM;; DATA_SPIN_UNLOCK obj;; mret (CPLUS_FAIL, value) in
  let done (v : Z) := DATA_SPIN_UNLOCK obj;; mret (CPLUS_SUCCESS, v) in
  CHECK_OBJECT_TYPE obj;;
  dt ← field obj dtype;
  match dt with
  | T_NULL | T_UNKNOWN _ => set_errno EINVAL;; mret (CPLUS_FAIL, value)
  | T_BOOL => z ← load_bool obj; mret (CPLUS_SUCCESS, z)
  | T_INT8 | T_INT16 | T_INT32 | T_UINT8 | T_UINT16 | T_UINT32 | T_POINTER =>
      z ← load_scalar obj; store_scalar obj (Z.lor z 0);;
      mret (CPLUS_SUCCESS, cast T_BOOL (Z.lor z 0))
  | T_INT64 | T_UINT64 =>
      z ← locked obj (load_scalar obj); mret (CPLUS_SUCCESS, cast T_BOOL z)
  | T_FLOAT =>
      f ← locked obj (load_scalar obj);
      mret (CPLUS_SUCCESS, Z.b2z (float_nonzero binary32 f))
  | T_DOUBLE =>
      f ← locked obj (load_scalar obj);
      mret (CPLUS_SUCCESS, Z.b2z (float_nonzero binary64 f))
  | T_STRING =>
      DATA_SPIN_LOCK obj;;
      '(len, b) ← load_buffer obj;
      if (len <=? 0) || bool_decide (b = None) then fail
      else
        s ← string_of b;
        if same_ignoring_case str_true s then done 1
        else if same_ignoring_case str_false s then done 0
        else fail
  | T_BYTE_ARRAY =>
      DATA_SPIN_LOCK obj;;
      '(len, b) ← load_buffer obj;
      if (len <=? 0) || bool_decide (b = None) then fail
      else
        c ← deref (λ _, b ← b; bytes b !! 0%nat);
        if 0 <? c then done 1 else if 0 =? c then done 0 else fail
  end.

(** [cplus_data_get_as_float] and [cplus_data_get_as_double]. *)
Definition get_as_real (t : data_type) (f : format) (obj value : Z) : M (Z * Z) :=
  CHECK_OBJECT_TYPE obj;;
  dt ← field obj dtype;
  match dt with
  | T_NULL | T_UNKNOWN _ => set_errno EINVAL;; mret (CPLUS_FAIL, value)
  | T_BOOL => z ← locked obj (load_bool obj); mret (CPLUS_SUCCESS, float_of_Z f z)
  | T_INT8 | T_INT16 | T_INT32 | T_INT64 | T_UINT8 | T_UINT16 | T_UINT32 | T_UINT64 =>
      z ← locked obj (load_scalar obj); mret (CPLUS_SUCCESS, float_of_Z f z)
  | T_FLOAT =>
      x ← locked obj (load_scalar obj);
      mret (CPLUS_SUCCESS, if bool_decide (t = T_FLOAT) then x else float_convert binary32 f x)
  | T_DOUBLE =>
      x ← locked obj (load_scalar obj);
      mret (CPLUS_SUCCESS, if bool_decide (t = T_DOUBLE) then x else float_convert binary64 f x)
  | T_POINTER => p ← locked obj (load_scalar obj); mret (CPLUS_SUCCESS, float_of_Z f (s64 p))
  | T_STRING =>
      DATA_SPIN_LOCK obj;;
      '(_, b) ← load_buffer obj;
      s ← string_of b;
      match scan_f f s with
      | None => set_errno ENOENT;; DATA_SPIN_UNLOCK obj;; mret (CPLUS_FAIL, value)
      | Some x => DATA_SPIN_UNLOCK obj;; mret (CPLUS_SUCCESS, x)
      end
  | T_BYTE_ARRAY => x ← read_array t obj value; mret (CPLUS_SUCCESS, x)
  end.

Definition cplus_data_get_as_float (obj value : Z) : M (Z * Z) :=
  get_as_real T_FLOAT binary32 obj value.
Definition cplus_data_get_as_double (obj value : Z) : M (Z * Z) :=
  get_as_real T_DOUBLE binary64 obj value.

(** The text of the value, as printed into the local buffer. *)
Definition text_of (dt : data_type) (obj : Z) : M (list Z) :=
  match dt with
  | T_BOOL => z ← load_bool obj; mret (if z =? 0 then str_false else str_true)
  | T_INT8 | T_INT16 | T_INT32 | T_INT64 => z ← load_scalar obj; mret (fmt_d z)
  | T_UINT8 | T_UINT16 | T_UINT32 | T_UINT64 => z ← load_scalar obj; mret (fmt_u z)
  | T_FLOAT => x ← load_scalar obj; mret (fmt_f binary32 x)
  | T_DOUBLE => x ← load_scalar obj; mret (fmt_f binary64 x)
  | T_POINTER => p ← load_scalar obj; mret (fmt_p p)
  | _ => '(_, b) ← load_buffer obj; string_of b
  end.

(** [sizeof(tmp_bufs)]. *)
Definition tmp_size : Z := 256.

Definition cplus_data_get_as_string (obj str_len : Z) (str_bufs : option (list Z))
    : M (Z * option (list Z)) :=
  CHECK_OBJECT_TYPE obj;;
  if 0 >=? str_len then set_errno EINVAL;; mret (CPLUS_FAIL, str_bufs)
  else match str_bufs with
  | None => set_errno EINVAL;; mret (CPLUS_FAIL, str_bufs)
  | Some q =>
      dt ← field obj dtype;
      match dt with
      | T_NULL | T_UNKNOWN _ => set_errno EINVAL;; mret (CPLUS_FAIL, str_bufs)
      | T_BYTE_ARRAY =>
          DATA_SPIN_LOCK obj;;
          '(len, b) ← load_buffer obj;
          if str_len <? u32 (len + 1) then
            set_errno ENOBUFS;; DATA_SPIN_UNLOCK obj;; mret (CPLUS_FAIL, str_bufs)
          else
            '(_, q') ← copy_into q (cplus_mem_cpy_ex (Some q) str_len (bytes <$> b) len);
            let i := u32 (len - 1) in
            if zlen q' <=? i then undef
            else DATA_SPIN_UNLOCK obj;; mret (s32 len, Some (<[Z.to_nat i := 0]> q'))
      | _ =>
          tmp ← locked obj (
            text ← text_of dt obj;
            printf_string (replicate (Z.to_nat tmp_size) 0) tmp_size text);
          if str_len <? u32 (fst tmp + 1) then
            set_errno ENOBUFS;; mret (CPLUS_FAIL, str_bufs)
          else
            s ← deref (λ _, cstr (snd tmp));
            '(res, q') ← printf_string q str_len s;
            mret (res, Some q')
      end
  end.

Definition cplus_data_get_as_byte_array (obj array_len : Z) (array_bufs : option (list Z))
    : M (Z * option (list Z)) :=
  CHECK_OBJECT_TYPE obj;;
  if 0 >=? array_len then set_errno EINVAL;; mret (CPLUS_FAIL, array_bufs)
  else match array_bufs with
  | None => set_errno EINVAL;; mret (CPLUS_FAIL, array_bufs)
  | Some q =>
      dt ← field obj dtype;
      let copy (len : Z) (src : option (list Z)) :=
        let n := if array_len <? len then array_len else len in
        '(_, q') ← copy_into q (cplus_mem_cpy (Some q) src n);
        mret (s32 n, Some q') in
      match dt with
      | T_NULL | T_UNKNOWN _ => set_errno EINVAL;; mret (CPLUS_FAIL, array_bufs)
      | T_STRING | T_BYTE_ARRAY =>
          locked obj ('(len, b) ← load_buffer obj; copy len (bytes <$> b))
      | _ => locked obj (z ← load_scalar obj; copy (sizeof dt) (Some (to_bytes dt z)))
      end
  end.

(** ** Writing from another type *)

Definition mark_valid (obj : Z) (res : Z) : M Z := upd obj (set_is_valid true);; mret res.

(** Print into the text buffer, grown to fit; [false] when there is no memory. *)
Definition put_text (obj : Z) (text : list Z) : M bool :=
  b ← grow_string obj (u32 (zlen text + 1));
  match b with
  | None => set_errno ENOMEM;; mret false
  | Some b =>
      '(len, _) ← load_buffer obj;
      d ← lift (cplus_str_printf (bytes b) len text);
      store_buffer obj len (Some (Block (addr b) d));;
      mret true
  end.

Definition cplus_data_set_as_bool (obj value : Z) : M Z :=
  CHECK_OBJECT_TYPE obj;;
  dt ← field obj dtype;
  match dt with
  | T_NULL | T_UNKNOWN _ => set_errno EINVAL;; mret CPLUS_FAIL
  | T_BOOL | T_INT8 | T_INT16 | T_INT32 | T_UINT8 | T_UINT16 | T_UINT32 | T_POINTER =>
      store_scalar obj (cast dt value);; mark_valid obj CPLUS_SUCCESS
  | T_INT64 | T_UINT64 =>
      locked obj (store_scalar obj (cast dt value));; mark_valid obj CPLUS_SUCCESS
  | T_FLOAT =>
      locked obj (store_scalar obj (float_of_Z binary32 value));; mark_valid obj CPLUS_SUCCESS
  | T_DOUBLE =>
      locked obj (store_scalar obj (float_of_Z binary64 value));; mark_valid obj CPLUS_SUCCESS
  | T_STRING =>
      let text := if value =? 0 then str_false else str_true in
      cplus_data_set_string obj (zlen text) (Some (text ++ [0]));; mark_valid obj CPLUS_SUCCESS
  | T_BYTE_ARRAY =>
      cplus_data_set_byte_array obj (sizeof T_BOOL) (arg T_BOOL value);;
      mark_valid obj CPLUS_SUCCESS
  end.

Definition fmt_int (t : data_type) (z : Z) : list Z := if is_signed t then fmt_d z else fmt_u z.

Definition set_as_int (t : data_type) (obj value : Z) : M Z :=
  CHECK_OBJECT_TYPE obj;;
  dt ← field obj dtype;
  match dt with
  | T_NULL | T_UNKNOWN _ => set_errno EINVAL;; mret CPLUS_FAIL
  | T_BOOL =>
      locked obj (store_scalar obj (Z.b2z (negb (0 =? value))));; mark_valid obj CPLUS_SUCCESS
  | T_INT8 | T_INT16 | T_INT32 | T_UINT8 | T_UINT16 | T_UINT32 =>
      store_scalar obj (cast dt value);; mark_valid obj CPLUS_SUCCESS
  | T_POINTER =>
      store_scalar obj (cast dt (s64 value));; mark_valid obj CPLUS_SUCCESS
  | T_INT64 | T_UINT64 =>
      locked obj (store_scalar obj (cast dt value));; mark_valid obj CPLUS_SUCCESS
  | T_FLOAT =>
      locked obj (store_scalar obj (float_of_Z binary32 value));; mark_valid obj CPLUS_SUCCESS
  | T_DOUBLE =>
      locked obj (store_scalar obj (float_of_Z binary64 value));; mark_valid obj CPLUS_SUCCESS
  | T_STRING =>
      DATA_SPIN_LOCK obj;;
      ok ← put_text obj (fmt_int t value);
      DATA_SPIN_UNLOCK obj;;
      if (ok : bool) then mark_valid obj CPLUS_SUCCESS else mret CPLUS_FAIL
  | T_BYTE_ARRAY =>
      cplus_data_set_byte_array obj (sizeof t) (arg t value);; mark_valid obj CPLUS_SUCCESS
  end.

Definition cplus_data_set_as_int8 (obj value : Z) : M Z := set_as_int T_INT8 obj value.
Definition cplus_data_set_as_int16 (obj value : Z) : M Z := set_as_int T_INT16 obj value.
Definition cplus_data_set_as_int32 (obj value : Z) : M Z := set_as_int T_INT32 obj value.
Definition cplus_data_set_as_int64 (obj value : Z) : M Z := set_as_int T_INT64 obj value.
Definition cplus_data_set_as_uint8 (obj value : Z) : M Z := set_as_int T_UINT8 obj value.
Definition cplus_data_set_as_uint16 (obj value : Z) : M Z := set_as_int T_UINT16 obj value.
Definition cplus_data_set_as_uint32 (obj value : Z) : M Z := set_as_int T_UINT32 obj value.
Definition cplus_data_set_as_uint64 (obj value : Z) : M Z := set_as_int T_UINT64 obj value.

(** The scalar a float gives to an object of type [dt]. *)
Definition scalar_of_float (dt : data_type) (f : format) (x : Z) : M Z :=
  match dt with
  | T_BOOL => mret (Z.b2z (float_nonzero f x))
  | T_POINTER => n ← float_to T_INT64 f x; mret (cast T_POINTER n)
  | T_FLOAT => mret (if bool_decide (f = binary32) then x else float_convert f binary32 x)
  | T_DOUBLE => mret (if bool_decide (f = binary64) then x else float_convert f binary64 x)
  | _ => float_to dt f x
  end.

Definition cplus_data_set_as_float (obj value : Z) : M Z :=
  CHECK_OBJECT_TYPE obj;;
  dt ← field obj dtype;
  match dt with
  | T_NULL | T_UNKNOWN _ => set_errno EINVAL;; mret CPLUS_FAIL
  | T_STRING =>
      DATA_SPIN_LOCK obj;;
      ok ← put_text obj (fmt_f binary32 value);
      DATA_SPIN_UNLOCK obj;;
      if (ok : bool) then mark_valid obj CPLUS_SUCCESS else mret CPLUS_FAIL
  | T_BYTE_ARRAY =>
      cplus_data_set_byte_array obj (sizeof T_FLOAT) (arg T_FLOAT value);;
      mark_valid obj CPLUS_SUCCESS
  | _ =>
      locked obj (z ← scalar_of_float dt binary32 value; store_scalar obj z);;
      mark_valid obj CPLUS_SUCCESS
  end.

(** [cplus_data_set_as_double] and [cplus_data_set_as_pointer] hold the lock
    around the whole switch. *)
Definition cplus_data_set_as_double (obj value : Z) : M Z :=
  CHECK_OBJECT_TYPE obj;;
  DATA_SPIN_LOCK obj;;
  dt ← field obj dtype;
  match dt with
  | T_NULL | T_UNKNOWN _ => set_errno EINVAL;; DATA_SPIN_UNLOCK obj;; mret CPLUS_FAIL
  | T_STRING =>
      ok ← put_text obj (fmt_f binary64 value);
      DATA_SPIN_UNLOCK obj;;
      if (ok : bool) then mark_valid obj CPLUS_SUCCESS else mret CPLUS_FAIL
  | T_BYTE_ARRAY =>
      cplus_data_set_byte_array obj (sizeof T_DOUBLE) (arg T_DOUBLE value);;
      DATA_SPIN_UNLOCK obj;; mark_valid obj CPLUS_SUCCESS
  | _ =>
      z ← scalar_of_float dt binary64 value; store_scalar obj z;;
      DATA_SPIN_UNLOCK obj;; mark_valid obj CPLUS_SUCCESS
  end.

Definition cplus_data_set_as_pointer (obj value : Z) : M Z :=
  CHECK_OBJECT_TYPE obj;;
  DATA_SPIN_LOCK obj;;
  dt ← field obj dtype;
  match dt with
  | T_NULL | T_UNKNOWN _ => set_errno EINVAL;; DATA_SPIN_UNLOCK obj;; mret CPLUS_FAIL
  | T_STRING =>
      ok ← put_text obj (fmt_p value);
      DATA_SPIN_UNLOCK obj;;
      if (ok : bool) then mark_valid obj CPLUS_SUCCESS else mret CPLUS_FAIL
  | T_BYTE_ARRAY =>
      cplus_data_set_byte_array obj (sizeof T_POINTER) (arg T_POINTER value);;
      DATA_SPIN_UNLOCK obj;; mark_valid obj CPLUS_SUCCESS
  | T_FLOAT =>
      store_scalar obj (float_of_Z binary32 (s64 value));;
      DATA_SPIN_UNLOCK obj;; mark_valid obj CPLUS_SUCCESS
  | T_DOUBLE =>
      store_scalar obj (float_of_Z binary64 (s64 value));;
      DATA_SPIN_UNLOCK obj;; mark_valid obj CPLUS_SUCCESS
  | _ =>
      store_scalar obj (cast dt (s64 value));;
      DATA_SPIN_UNLOCK obj;; mark_valid obj CPLUS_SUCCESS
  end.

(** What the text means for an object of a scalar type; [None] sets [EINVAL]. *)
Definition scalar_of_text (dt : data_type) (s : list Z) : option Z :=
  match dt with
  | T_BOOL =>
      if same_ignoring_case str_true s then Some 1
      else if same_ignoring_case str_false s then Some 0 else None
  | T_FLOAT => scan_f binary32 s
  | T_DOUBLE => scan_f binary64 s
  | T_POINTER => scan_p s
  | _ => cast dt <$> scan_as dt s
  end.

(** [res] starts as [CPLUS_FAIL] and only the text branch assigns it. *)
Definition cplus_data_set_as_string (obj str_len : Z) (str_bufs : option (list Z)) : M Z :=
  CHECK_OBJECT_TYPE obj;;
  match str_bufs with
  | None => set_errno EINVAL;; mret CPLUS_FAIL
  | Some src =>
      dt ← field obj dtype;
      match dt with
      | T_NULL | T_UNKNOWN _ => set_errno EINVAL;; mret CPLUS_FAIL
      | T_STRING =>
          res ← cplus_data_set_string obj str_len str_bufs; mark_valid obj res
      | T_BYTE_ARRAY =>
          cplus_data_set_byte_array obj str_len str_bufs;; mark_valid obj CPLUS_FAIL
      | _ =>
          locked obj (
            s ← deref (λ _, cstr src);
            match scalar_of_text dt s with
            | Some z => store_scalar obj z
            | None => set_errno EINVAL
            end);;
          mark_valid obj CPLUS_FAIL
      end
  end.

(** [res] is [CPLUS_FAIL] on every path. *)
Definition cplus_data_set_as_byte_array (obj array_len : Z) (array_bufs : option (list Z)) : M Z :=
  let too_short := set_errno ENOMEM;; DATA_SPIN_UNLOCK obj;; mret CPLUS_FAIL in
  CHECK_OBJECT_TYPE obj;;
  match array_bufs with
  | None => set_errno EINVAL;; mret CPLUS_FAIL
  | Some src =>
      dt ← field obj dtype;
      match dt with
      | T_NULL | T_UNKNOWN _ => set_errno EINVAL;; mret CPLUS_FAIL
      | T_STRING | T_BYTE_ARRAY =>
          DATA_SPIN_LOCK obj;;
          '(len, b) ← load_buffer obj;
          if array_len <? (if bool_decide (dt = T_STRING) then u32 (len + 1) else len)
          then too_short
          else
            (match b with
             | None => set_errno EINVAL
             | Some b =>
                 '(_, d) ← copy_into (bytes b) (cplus_mem_cpy (Some (bytes b)) (Some src) len);
                 store_buffer obj len (Some (Block (addr b) d))
             end);;
            DATA_SPIN_UNLOCK obj;; mark_valid obj CPLUS_FAIL
      | _ =>
          DATA_SPIN_LOCK obj;;
          if array_len <? sizeof dt then too_short
          else
            bs ← read_bytes (sizeof dt) src;
            store_scalar obj (of_bytes dt bs);;
            DATA_SPIN_UNLOCK obj;; mark_valid obj CPLUS_FAIL
      end
  end.

(** ** Byte order *)

Definition cplus_data_swap16 (v : Z) : Z :=
  u16 (Z.lor (Z.shiftl v 8) (Z.shiftr v 8)).

Definition cplus_data_swap32 (v : Z) : Z :=
  Z.lor (Z.lor (Z.lor (u32 (Z.shiftl v 24))
    (Z.land (u32 (Z.shiftl v 8)) 0x00FF0000))
    (Z.land (Z.shiftr v 8) 0x0000FF00))
    (Z.shiftr v 24).

Definition cplus_data_swap64 (v : Z) : Z :=
  Z.lor (Z.lor (Z.lor (Z.lor (Z.lor (Z.lor (Z.lor (u64 (Z.shiftl v 56))
    (Z.land (u64 (Z.shiftl v 40)) 0x00FF000000000000))
    (Z.land (u64 (Z.shiftl v 24)) 0x0000FF0000000000))
    (Z.land (u64 (Z.shiftl v 8)) 0x000000FF00000000))
    (Z.land (Z.shiftr v 8) 0x00000000FF000000))
    (Z.land (Z.shiftr v 24) 0x0000000000FF0000))
    (Z.land (Z.shiftr v 40) 0x000000000000FF00))
    (Z.shiftr v 56).

(** The same expressions, assigned through the pointer. *)
Definition cplus_data_reverse16 (v : Z) : Z :=
  u16 (Z.lor (Z.shiftl v 8) (Z.shiftr v 8)).

Definition cplus_data_reverse32 (v : Z) : Z :=
  Z.lor (Z.lor (Z.lor (u32 (Z.shiftl v 24))
    (Z.land (u32 (Z.shiftl v 8)) 0x00FF0000))
    (Z.land (Z.shiftr v 8) 0x0000FF00))
    (Z.shiftr v 24).

Definition cplus_data_reverse64 (v : Z) : Z :=
  Z.lor (Z.lor (Z.lor (Z.lor (Z.lor (Z.lor (Z.lor (u64 (Z.shiftl v 56))
    (Z.land (u64 (Z.shiftl v 40)) 0x00FF000000000000))
    (Z.land (u64 (Z.shiftl v 24)) 0x0000FF0000000000))
    (Z.land (u64 (Z.shiftl v 8)) 0x000000FF00000000))
    (Z.land (Z.shiftr v 8) 0x00000000FF000000))
    (Z.land (Z.shiftr v 24) 0x0000000000FF0000))
    (Z.land (Z.shiftr v 40) 0x000000000000FF00))
    (Z.shiftr v 56).

(** [CPLUS_DATA_SWAP] at an unsigned type of [n] bytes. *)
Definition CPLUS_DATA_SWAP (n v : Z) : Z :=
  match n with
  | 2 => cplus_data_swap16 v
  | 4 => cplus_data_swap32 v
  | 8 => cplus_data_swap64 v
  | _ => CPLUS_FAIL `mod` 2 ^ (8 * n)
  end.

End DataConv.
