(* ===== verification/DataInv.v ===== *)
(** * DataInv: the invariant of a data object and that its parts keep it

    [here obj os j d h e] is a world whose object at [obj] is [d]; running an
    operation rewrites [d], the heap and [errno] and leaves the other objects
    alone.  [obj_ok] is the invariant of one object; [fits] says that the blocks
    in use are exactly the object, what it owns and a frame [F], so an operation
    that keeps [fits] neither leaks, nor frees twice, nor touches what others
    own. *)

From S2P Require Import Prelude Allocator Spinlock Stdio Zlist Memmgr Data DataConv.
From stdpp Require Import base numbers list list_numbers option gmap sets.
From Stdlib Require Import ZArith Lia.
Open Scope Z_scope.

Module DataInv.
Import Spinlock Stdio Memmgr Data DataConv.

Definition here (obj : Z) (os : gmap Z data) (j : Z → nat → Z) (d : data)
    (h : Heap.heap) (e : Z) : world :=
  World (<[obj := d]> os) h j e.

Definition is_int (t : data_type) : bool :=
  match t with
  | T_INT8 | T_INT16 | T_INT32 | T_INT64 | T_UINT8 | T_UINT16 | T_UINT32 | T_UINT64 => true
  | _ => false
  end.

(** The values an object of a scalar type holds. *)
Definition scalar_ok (t : data_type) (z : Z) : Prop :=
  match t with
  | T_FLOAT => 0 ≤ z < 2 ^ 32
  | T_DOUBLE => 0 ≤ z < 2 ^ 64
  | _ => cast t z = z
  end.

Definition value_ok (t : data_type) (size : Z) (v : data_value) : Prop :=
  match t, v with
  | T_STRING, Buffer len (Some b) =>
      zlen (bytes b) = len ∧ 0 < len < 2 ^ 32 ∧ is_Some (cstr (bytes b))
  | T_BYTE_ARRAY, Buffer len (Some b) =>
      0 ≤ len ≤ size ∧ size ≤ zlen (bytes b) ∧ size < 2 ^ 32
  | (T_STRING | T_BYTE_ARRAY), Buffer len None => 0 ≤ len < 2 ^ 32
  | (T_STRING | T_BYTE_ARRAY), Scalar _ => False
  | _, Scalar z => scalar_ok t z
  | _, Buffer _ _ => False
  end.

Definition key_ok (len : Z) (k : option block) : Prop :=
  0 ≤ len < 2 ^ 32 ∧ match k with Some b => zlen (bytes b) = len | None => True end.

(** A free object in a consistent state. *)
Definition obj_ok (d : data) : Prop :=
  type d = OBJ_TYPE ∧ spinlock d = 0 ∧ key_ok (key_len d) (key d)
  ∧ value_ok (dtype d) (bufs_size d) (value d).

Definition addr_of (b : option block) : list Z :=
  match b with Some b => [addr b] | None => [] end.
Definition bufs_of (v : data_value) : list Z :=
  match v with Scalar _ => [] | Buffer _ b => addr_of b end.
Definition owned (d : data) : list Z := addr_of (key d) ++ bufs_of (value d).

(** The blocks [l], distinct, and the frame [F] are what is in use. *)
Definition fits_list (l : list Z) (h : Heap.heap) (F : gset Z) : Prop :=
  NoDup l ∧ (∀ p, p ∈ l → p ∉ F) ∧ Heap.heap_ok h (list_to_set l ∪ F).

Definition fits (obj : Z) (d : data) (h : Heap.heap) (F : gset Z) : Prop :=
  fits_list (obj :: owned d) h F.

(** ** Running *)

Section run.
Context (obj : Z) (os : gmap Z data) (j : Z → nat → Z).

Notation at_ := (here obj os j).

Lemma field_here {A} (f : data → A) d h e :
  field obj f (at_ d h e) = Done (f d, at_ d h e).
Proof. unfold field, deref, here. simpl. by rewrite lookup_insert_eq. Qed.

Lemma upd_here f d h e : upd obj f (at_ d h e) = Done (tt, at_ (f d) h e).
Proof.
  unfold upd. rewrite (bind_Done _ _ _ _ _ (field_here type d h e)).
  unfold modify, with_objs, here. simpl. do 3 f_equal.
  apply map_eq. intros k. destruct (decide (k = obj)) as [->|Hk].
  - by rewrite lookup_alter_eq, !lookup_insert_eq.
  - by rewrite lookup_alter_ne, !lookup_insert_ne.
Qed.

Lemma errno_here v d h e : set_errno v (at_ d h e) = Done (tt, at_ d h v).
Proof. reflexivity. Qed.

Lemma load_scalar_here d h e z :
  value d = Scalar z → load_scalar obj (at_ d h e) = Done (z, at_ d h e).
Proof.
  intros Hv. unfold load_scalar, deref, here. simpl.
  rewrite lookup_insert_eq. simpl. by rewrite Hv.
Qed.

Lemma store_scalar_here d h e z :
  store_scalar obj z (at_ d h e) = Done (tt, at_ (set_value (Scalar z) d) h e).
Proof. apply upd_here. Qed.

Lemma load_buffer_here d h e len b :
  value d = Buffer len b → load_buffer obj (at_ d h e) = Done ((len, b), at_ d h e).
Proof.
  intros Hv. unfold load_buffer, deref, here. simpl.
  rewrite lookup_insert_eq. simpl. by rewrite Hv.
Qed.

Lemma store_buffer_here d h e len b :
  store_buffer obj len b (at_ d h e) = Done (tt, at_ (set_value (Buffer len b) d) h e).
Proof. apply upd_here. Qed.

Lemma string_of_here d h e b s :
  cstr (bytes b) = Some s → string_of (Some b) (at_ d h e) = Done (s, at_ d h e).
Proof. intros Hs. unfold string_of, deref. simpl. by rewrite Hs. Qed.

Lemma load_bool_here d h e z :
  value d = Scalar z → cast T_BOOL z = z → load_bool obj (at_ d h e) = Done (z, at_ d h e).
Proof.
  intros Hv Hz. unfold load_bool. rewrite (bind_Done _ _ _ _ _ (load_scalar_here d h e z Hv)).
  unfold cast in Hz. destruct (Z.eqb_spec z 0); [done|]. by subst z.
Qed.

Lemma check_here d h e :
  obj ≠ 0 → type d = OBJ_TYPE →
  CHECK_OBJECT_TYPE obj (at_ d h e) = Done (tt, at_ d h e).
Proof.
  intros H0 Ht. unfold CHECK_OBJECT_TYPE. rewrite (proj2 (Z.eqb_neq _ _)) by done.
  rewrite (bind_Done _ _ _ _ _ (field_here type d h e)), Ht. by rewrite Z.eqb_refl.
Qed.

Lemma lock_here d h e :
  spinlock d = 0 →
  DATA_SPIN_LOCK obj (at_ d h e) = Done (tt, at_ (set_spinlock 1 d) h e).
Proof.
  intros Hl. unfold DATA_SPIN_LOCK.
  rewrite (bind_Done _ _ _ _ _ (field_here spinlock d h e)), Hl.
  unfold lift. simpl. apply upd_here.
Qed.

Lemma lock_taken d h e : spinlock d = 1 → DATA_SPIN_LOCK obj (at_ d h e) = Hangs.
Proof.
  intros Hl. unfold DATA_SPIN_LOCK.
  by rewrite (bind_Done _ _ _ _ _ (field_here spinlock d h e)), Hl.
Qed.

Lemma unlock_here d h e :
  DATA_SPIN_UNLOCK obj (at_ d h e) = Done (tt, at_ (set_spinlock 0 d) h e).
Proof. apply upd_here. Qed.

(** Blocks. *)
Lemma malloc_here n d h e F l :
  fits_list l h F → 0 ≤ n →
  ∃ r h' e', cplus_malloc n (at_ d h e) = Done (r, at_ d h' e') ∧
    fits_list (addr_of r ++ l) h' F ∧
    match r with
    | Some b => zlen (bytes b) = n ∧ e' = e
    | None => e' = ENOMEM
    end.
Proof.
  intros (Hnd & Hdj & Hok) Hn. unfold cplus_malloc, here. simpl.
  destruct (Heap.heap_new _ _ Hok) as (p & h' & -> & [[-> Hok'] | (Hp & Hfresh & Hok')]).
  - exists None, h', ENOMEM. by split_and!.
  - rewrite (proj2 (Z.eqb_neq _ _)) by done.
    eexists (Some _), h', e. split; [done|]. split_and!.
    + simpl. split_and!.
      * apply NoDup_cons. split; [set_solver|done].
      * intros q. rewrite elem_of_cons. intros [->|Hq]; [set_solver|auto].
      * by replace (list_to_set (p :: l) ∪ F) with ({[p]} ∪ (list_to_set l ∪ F)) by set_solver.
    + simpl. unfold zlen. rewrite length_fmap, length_seq. lia.
    + done.
Qed.

Lemma free_here p d h e F l1 l2 :
  fits_list (l1 ++ p :: l2) h F →
  ∃ h', cplus_free p (at_ d h e) = Done (CPLUS_SUCCESS, at_ d h' e) ∧ fits_list (l1 ++ l2) h' F.
Proof.
  intros (Hnd & Hdj & Hok). unfold cplus_free, here. simpl.
  assert (0 < p) as Hp by (destruct Hok as (_ & _ & Hlive); apply Hlive; set_solver).
  rewrite (proj2 (Z.eqb_neq p 0)) by lia.
  destruct (Heap.heap_release _ _ p Hok) as (h' & -> & Hok'); [set_solver|].
  exists h'. split; [done|]. apply NoDup_app in Hnd as (H1 & H2 & H3).
  apply NoDup_cons in H3 as [H3 H4]. split_and!.
  - apply NoDup_app. split_and!; [done| |done]. intros q Hq1 Hq2.
    by apply (H2 q Hq1), elem_of_cons; right.
  - intros q Hq. apply Hdj. set_solver.
  - replace (list_to_set (l1 ++ l2) ∪ F)
      with ((list_to_set (l1 ++ p :: l2) ∪ F) ∖ {[p]}); [done|].
    assert (p ∉ F) by (apply Hdj; set_solver).
    assert (p ∉ l1) by (intros Hq; apply (H2 p Hq); set_solver). set_solver.
Qed.

Lemma fits_perm l l' h F : l ≡ₚ l' → fits_list l h F → fits_list l' h F.
Proof.
  intros Hp (H1 & H2 & H3). split_and!.
  - by rewrite <- Hp.
  - intros p. rewrite <- Hp. apply H2.
  - by replace (list_to_set l' ∪ F : gset Z) with (list_to_set l ∪ F : gset Z)
      by (apply set_eq; intros q; rewrite !elem_of_union, !elem_of_list_to_set, Hp; done).
Qed.

Lemma realloc_here b n d h e F l1 l2 :
  fits_list (l1 ++ addr b :: l2) h F → 0 < n →
  ∃ r h' e', cplus_realloc (Some b) n (at_ d h e) = Done (r, at_ d h' e') ∧
    fits_list (l1 ++ addr_of r ++ l2) h' F ∧
    match r with
    | Some b' => zlen (bytes b') = n ∧ e' = e
        ∧ take (length (bytes b)) (bytes b') = take (Z.to_nat n) (bytes b)
    | None => e' = ENOMEM
    end.
Proof.
  intros Hf Hn. unfold cplus_realloc. rewrite (proj2 (Z.eqb_neq _ _)) by lia.
  destruct (malloc_here n d h e F _ Hf) as (r & h1 & e1 & E & Hf1 & Hr); [lia|].
  rewrite (bind_Done _ _ _ _ _ E).
  destruct (free_here (addr b) d h1 e1 F (addr_of r ++ l1) l2) as (h2 & E2 & Hf2).
  { by rewrite <- app_assoc. }
  rewrite (bind_Done _ _ _ _ _ E2).
  destruct r as [n'|].
  - eexists (Some _), h2, e1. split; [reflexivity|]. destruct Hr as [Hlen ->]. split_and!.
    + eapply fits_perm; [|exact Hf2]. simpl. apply Permutation_middle.
    + simpl. unfold zlen in *. rewrite length_app, length_drop, length_take. lia.
    + done.
    + simpl. unfold zlen in *. rewrite take_app.
      destruct (decide (length (bytes b) ≤ Z.to_nat n)%nat) as [Hl|Hl].
      * rewrite (take_ge (bytes b)) by lia. rewrite take_ge by done.
        replace (length (bytes b) - length (bytes b))%nat with O by lia.
        by rewrite app_nil_r.
      * rewrite length_take, Nat.min_l by lia.
        rewrite take_take, Nat.min_r by lia.
        rewrite (drop_ge (bytes n')) by lia. by rewrite take_nil, app_nil_r.
  - exists None, h2, ENOMEM. split; [done|]. split; [|done]. exact Hf2.
Qed.

(** ** Weakest preconditions

    [wp m Q d h e]: run on the object [d], [m] returns, and leaves an object,
    a heap and an [errno] that satisfy [Q]. *)
Definition wp {A} (m : M A) (Q : A → data → Heap.heap → Z → Prop) (d : data)
    (h : Heap.heap) (e : Z) : Prop :=
  ∃ a d' h' e', m (at_ d h e) = Done (a, at_ d' h' e') ∧ Q a d' h' e'.

Lemma wp_mono {A} (m : M A) (P Q : A → data → Heap.heap → Z → Prop) d h e :
  wp m P d h e → (∀ a d' h' e', P a d' h' e' → Q a d' h' e') → wp m Q d h e.
Proof. intros (a & d' & h' & e' & E & HP) HQ. exists a, d', h', e'. auto. Qed.

Lemma wp_bind {A B} (m : M A) (f : A → M B) Q d h e :
  wp m (λ a d' h' e', wp (f a) Q d' h' e') d h e → wp (m ≫= f) Q d h e.
Proof.
  intros (a & d' & h' & e' & E & b & d2 & h2 & e2 & E2 & HQ).
  exists b, d2, h2, e2. split; [|done]. by rewrite (bind_Done _ _ _ _ _ E).
Qed.

Lemma wp_ret {A} (a : A) Q d h e : Q a d h e → wp (mret a) Q d h e.
Proof. intros HQ. by exists a, d, h, e. Qed.

Lemma wp_field {A} (f : data → A) Q d h e : Q (f d) d h e → wp (field obj f) Q d h e.
Proof. intros HQ. exists (f d), d, h, e. split; [apply field_here|done]. Qed.

Lemma wp_upd f Q d h e : Q tt (f d) h e → wp (upd obj f) Q d h e.
Proof. intros HQ. exists tt, (f d), h, e. split; [apply upd_here|done]. Qed.

Lemma wp_errno v Q d h e : Q tt d h v → wp (set_errno v) Q d h e.
Proof. intros HQ. by exists tt, d, h, v. Qed.

Lemma wp_load_scalar z Q d h e :
  value d = Scalar z → Q z d h e → wp (load_scalar obj) Q d h e.
Proof. intros Hv HQ. exists z, d, h, e. split; [by apply load_scalar_here|done]. Qed.

Lemma wp_load_bool z Q d h e :
  value d = Scalar z → cast T_BOOL z = z → Q z d h e → wp (load_bool obj) Q d h e.
Proof. intros Hv Hz HQ. exists z, d, h, e. split; [by apply load_bool_here|done]. Qed.

Lemma wp_store_scalar z Q d h e :
  Q tt (set_value (Scalar z) d) h e → wp (store_scalar obj z) Q d h e.
Proof. apply wp_upd. Qed.

Lemma wp_load_buffer len b Q d h e :
  value d = Buffer len b → Q (len, b) d h e → wp (load_buffer obj) Q d h e.
Proof. intros Hv HQ. exists (len, b), d, h, e. split; [by apply load_buffer_here|done]. Qed.

Lemma wp_store_buffer len b Q d h e :
  Q tt (set_value (Buffer len b) d) h e → wp (store_buffer obj len b) Q d h e.
Proof. apply wp_upd. Qed.

Lemma wp_string_of b s Q d h e :
  cstr (bytes b) = Some s → Q s d h e → wp (string_of (Some b)) Q d h e.
Proof. intros Hs HQ. exists s, d, h, e. split; [by apply string_of_here|done]. Qed.

Lemma wp_deref {A} (f : world → option A) a Q d h e :
  f (at_ d h e) = Some a → Q a d h e → wp (deref f) Q d h e.
Proof. intros Hf HQ. exists a, d, h, e. split; [|done]. unfold deref. by rewrite Hf. Qed.

Lemma wp_lift {A} (o : outcome A) a Q d h e : o = Done a → Q a d h e → wp (lift o) Q d h e.
Proof. intros -> HQ. by exists a, d, h, e. Qed.

Lemma wp_printf_string str size s c Q d h e :
  Memmgr.cplus_str_printf str size s = Done c →
  (if INT32_MAX <? zlen s then Q (-1, c) d h EOVERFLOW else Q (zlen s, c) d h e) →
  wp (printf_string str size s) Q d h e.
Proof.
  intros E HQ. destruct (INT32_MAX <? zlen s) eqn:El.
  - exists (-1, c), d, h, EOVERFLOW. split; [|done]. unfold printf_string, lift. rewrite E, El. reflexivity.
  - exists (zlen s, c), d, h, e. split; [|done]. unfold printf_string, lift. rewrite E, El. reflexivity.
Qed.

Lemma wp_check Q d h e :
  obj ≠ 0 → type d = OBJ_TYPE → Q tt d h e → wp (CHECK_OBJECT_TYPE obj) Q d h e.
Proof. intros H0 Ht HQ. exists tt, d, h, e. split; [by apply check_here|done]. Qed.

Lemma wp_lock Q d h e :
  spinlock d = 0 → Q tt (set_spinlock 1 d) h e → wp (DATA_SPIN_LOCK obj) Q d h e.
Proof. intros Hl HQ. exists tt, (set_spinlock 1 d), h, e. split; [by apply lock_here|done]. Qed.

Lemma wp_unlock Q d h e : Q tt (set_spinlock 0 d) h e → wp (DATA_SPIN_UNLOCK obj) Q d h e.
Proof. apply wp_upd. Qed.

Lemma wp_read_bytes n p Q d h e :
  n ≤ zlen p → Q (take (Z.to_nat n) p) d h e → wp (read_bytes n p) Q d h e.
Proof. intros Hn HQ. unfold read_bytes. rewrite (proj2 (Z.leb_le _ _)) by done. by apply wp_ret. Qed.

Lemma wp_write_bytes bs p Q d h e :
  zlen bs ≤ zlen p → Q (bs ++ drop (length bs) p) d h e → wp (write_bytes bs p) Q d h e.
Proof. intros Hn HQ. unfold write_bytes. rewrite (proj2 (Z.leb_le _ _)) by done. by apply wp_ret. Qed.

Lemma wp_malloc n F l Q d h e :
  fits_list l h F → 0 ≤ n →
  (∀ b h', fits_list (addr b :: l) h' F → zlen (bytes b) = n → Q (Some b) d h' e) →
  (∀ h', fits_list l h' F → Q None d h' ENOMEM) →
  wp (cplus_malloc n) Q d h e.
Proof.
  intros Hf Hn HS HN. destruct (malloc_here n d h e F l Hf Hn) as (r & h' & e' & E & Hf' & Hr).
  exists r, d, h', e'. split; [done|]. destruct r as [b|]; [|subst e'; by apply HN].
  destruct Hr as [Hlen ->]. by apply HS.
Qed.

Lemma wp_realloc b n F l1 l2 Q d h e :
  fits_list (l1 ++ addr b :: l2) h F → 0 < n →
  (∀ b' h', fits_list (l1 ++ addr b' :: l2) h' F → zlen (bytes b') = n → 
     take (length (bytes b)) (bytes b') = take (Z.to_nat n) (bytes b) → Q (Some b') d h' e) →
  (∀ h', fits_list (l1 ++ l2) h' F → Q None d h' ENOMEM) →
  wp (cplus_realloc (Some b) n) Q d h e.
Proof.
  intros Hf Hn HS HN.
  destruct (realloc_here b n d h e F l1 l2 Hf Hn) as (r & h' & e' & E & Hf' & Hr).
  exists r, d, h', e'. split; [done|]. destruct r as [b'|]; [|subst e'; by apply HN].
  destruct Hr as (Hlen & -> & Hk). by apply HS.
Qed.

Lemma wp_copy_into dest o r Q d h e :
  o = Done r →
  match r with
  | Null => Q (false, dest) d h EINVAL
  | Ptr b => Q (true, b) d h e
  end → wp (copy_into dest o) Q d h e.
Proof.
  intros -> HQ. unfold copy_into. apply wp_bind. eapply wp_lift; [done|].
  destruct r; [apply wp_bind, wp_errno|]; by apply wp_ret.
Qed.

Lemma wp_locked {A} (m : M A) Q d h e :
  spinlock d = 0 →
  wp m (λ a d' h' e', Q a (set_spinlock 0 d') h' e') (set_spinlock 1 d) h e →
  wp (locked obj m) Q d h e.
Proof.
  intros Hl Hm. unfold locked. apply wp_bind, wp_lock; [done|]. apply wp_bind.
  eapply wp_mono; [exact Hm|]. intros a d' h' e' HQ. simpl.
  apply wp_bind, wp_unlock. by apply wp_ret.
Qed.

Lemma wp_free p l1 l2 F Q d h e :
  fits_list (l1 ++ p :: l2) h F →
  (∀ h', fits_list (l1 ++ l2) h' F → Q CPLUS_SUCCESS d h' e) → wp (cplus_free p) Q d h e.
Proof.
  intros Hf HQ. destruct (free_here p d h e F l1 l2 Hf) as (h' & E & Hf').
  exists CPLUS_SUCCESS, d, h', e. auto.
Qed.

End run.

(** One step of a run whose condition is known. *)
Ltac wp_step :=
  lazymatch goal with
  | |- wp _ _ _ (_ ≫= _) _ _ _ _ => apply wp_bind
  | |- wp _ _ _ (mret _) _ _ _ _ => apply wp_ret
  | |- wp _ _ _ (field _ _) _ _ _ _ => apply wp_field
  | |- wp _ _ _ (upd _ _) _ _ _ _ => apply wp_upd
  | |- wp _ _ _ (set_errno _) _ _ _ _ => apply wp_errno
  | |- wp _ _ _ (load_scalar _) _ _ _ _ => eapply wp_load_scalar; [reflexivity|]
  | |- wp _ _ _ (load_bool _) _ _ _ _ => eapply wp_load_bool; [reflexivity|eassumption|]
  | |- wp _ _ _ (store_scalar _ _) _ _ _ _ => apply wp_store_scalar
  | |- wp _ _ _ (load_buffer _) _ _ _ _ => eapply wp_load_buffer; [reflexivity|]
  | |- wp _ _ _ (store_buffer _ _ _) _ _ _ _ => apply wp_store_buffer
  | |- wp _ _ _ (string_of _) _ _ _ _ => eapply wp_string_of; [eassumption|]
  | |- wp _ _ _ (CHECK_OBJECT_TYPE _) _ _ _ _ => apply wp_check; [assumption|reflexivity|]
  | |- wp _ _ _ (DATA_SPIN_LOCK _) _ _ _ _ => apply wp_lock; [reflexivity|]
  | |- wp _ _ _ (DATA_SPIN_UNLOCK _) _ _ _ _ => apply wp_unlock
  | |- wp _ _ _ (locked _ _) _ _ _ _ => apply wp_locked; [reflexivity|]
  end;
  cbn [set_is_valid set_action_mode set_key_len set_key set_spinlock set_str_code
       set_bufs_size set_value type dtype is_valid action_mode key_len key spinlock
       str_code bufs_size value].
Ltac wp_go := repeat wp_step.

End DataInv.
