(* ===== verification/DataSafe.v ===== *)
(** * DataSafe: what the operations of a data object do

    One lemma per operation, or family of operations, over the weakest
    preconditions of DataInv.v: the answer, the object and the heap it leaves. *)

From S2P Require Import Prelude Allocator Spinlock Stdio Zlist Memmgr Data DataConv DataInv.
From stdpp Require Import base numbers list list_numbers option gmap sets.
From Stdlib Require Import ZArith Lia.
Open Scope Z_scope.

Module DataSafe.
Import Spinlock Stdio Memmgr Data DataConv DataInv.

(** ** Scalars *)

Definition integral (t : data_type) : bool :=
  match t with T_BOOL | T_POINTER => true | _ => is_int t end.

Lemma u64_s64 z : u64 (s64 z) = u64 z.
Proof.
  unfold u64, s64, swrap. rewrite Zminus_mod_idemp_l.
  by replace (z + 2 ^ (64 - 1) - 2 ^ (64 - 1)) with z by lia.
Qed.

Lemma cast_swrap64 t z : is_int t = true → cast t (s64 z) = cast t z.
Proof.
  intros Ht. unfold s64, swrap.
  assert (∀ w, 0 < w ≤ 64 → ∀ x, ((x + 2 ^ 63) `mod` 2 ^ 64 - 2 ^ 63) `mod` 2 ^ w = x `mod` 2 ^ w) as E.
  { intros w Hw x. rewrite <- (Zminus_mod_idemp_l (_ `mod` _)).
    assert (((x + 2 ^ 63) `mod` 2 ^ 64) `mod` 2 ^ w = (x + 2 ^ 63) `mod` 2 ^ w) as ->.
    { rewrite <- Znumtheory.Zmod_div_mod; [done|lia..|].
      exists (2 ^ (64 - w)). rewrite <- Z.pow_add_r by lia. f_equal. lia. }
    rewrite Zminus_mod_idemp_l. f_equal. lia. }
  assert (∀ w, 0 < w ≤ 64 → swrap w ((z + 2 ^ 63) `mod` 2 ^ 64 - 2 ^ 63) = swrap w z) as E'.
  { intros w Hw. unfold swrap. f_equal.
    rewrite <- Zplus_mod_idemp_l, E, Zplus_mod_idemp_l by done. done. }
  destruct t; try done; unfold cast, s8, s16, s32, s64, u8, u16, u32, u64;
    first [apply E'; lia | apply E; lia].
Qed.

Definition scalar_type (t : data_type) : bool :=
  match t with T_FLOAT | T_DOUBLE => true | _ => integral t end.

Lemma type_code_inv t : scalar_type t = true → type_of_code (type_code t) = t.
Proof. by destruct t. Qed.

Lemma zlen_to_bytes t z : zlen (to_bytes t z) = sizeof t.
Proof. unfold zlen, to_bytes. apply length_Z_to_little_endian. by destruct t. Qed.

(** The conversions of integer and pointer types are reductions modulo a power
    of two, into a range; [s8] to [s64] are [swrap]. *)
Lemma swrap_mod w x : 0 < w → swrap w (x `mod` 2 ^ w) = swrap w x.
Proof. intros. unfold swrap. by rewrite Zplus_mod_idemp_l. Qed.

Lemma of_to_bytes t z :
  scalar_type t = true → scalar_ok t z → of_bytes t (to_bytes t z) = z.
Proof.
  intros Ht Hz. unfold of_bytes, to_bytes.
  rewrite little_endian_to_Z_to_little_endian by (by destruct t).
  destruct t; try done; unfold scalar_ok, cast in Hz; cbn [sizeof];
    change (1 * 8) with 8; change (2 * 8) with 16; change (4 * 8) with 32; change (8 * 8) with 64;
    unfold s8, s16, s32, s64 in *; try (rewrite swrap_mod by lia; done);
    unfold u8, u16, u32, u64 in *; try done;
    try (rewrite Z.mod_small by lia; done).
  destruct (Z.eqb_spec z 0); [by subst z|]. by subst z.
Qed.

Lemma cast_idem t z : integral t = true → scalar_ok t (cast t z).
Proof.
  intros Ht. destruct t; try done; unfold scalar_ok, cast; unfold s8, s16, s32, s64;
    try (rewrite swrap_small; [done|lia|apply swrap_range; lia]);
    try (unfold u8, u16, u32, u64; by rewrite Zmod_mod).
  by destruct (z =? 0).
Qed.

Lemma bool_01 z : scalar_ok T_BOOL z → (z =? 0) || (z =? 1) = true.
Proof. unfold scalar_ok, cast. destruct (Z.eqb_spec z 0); [done|by intros <-]. Qed.

(** The ranges of the integer types. *)
Lemma int_range t z :
  is_int t = true → scalar_ok t z →
  if is_signed t then - 2 ^ (8 * sizeof t - 1) ≤ z < 2 ^ (8 * sizeof t - 1)
  else 0 ≤ z < 2 ^ (8 * sizeof t).
Proof.
  intros Ht Hz. destruct t; try done; unfold scalar_ok, cast in Hz; simpl; rewrite <- Hz;
    first [apply u8_range | apply u16_range | apply u32_range | apply u64_range
      | unfold s8, s16, s32, s64; apply (swrap_range 8) || apply (swrap_range 16)
          || apply (swrap_range 32) || apply (swrap_range 64); lia].
Qed.

Lemma fmt_int_text t z : is_int t = true → scalar_ok t z → text (fmt_int t z).
Proof.
  intros Ht Hz%int_range; [|done]. unfold fmt_int.
  destruct (is_signed t); [apply fmt_d_text|apply fmt_u_text; lia].
Qed.

Lemma fmt_int_length t z : is_int t = true → scalar_ok t z → zlen (fmt_int t z) ≤ 65.
Proof.
  intros Ht Hz. pose proof (int_range t z Ht Hz) as Hr. unfold fmt_int, zlen.
  destruct t; try done; cbn [is_signed sizeof] in *.
  1-4: pose proof (fmt_d_length z); lia.
  all: pose proof (fmt_u_length z); lia.
Qed.

(** Scanning what was printed gives the number back. *)
Lemma scan_as_fmt t z : is_int t = true → scalar_ok t z → cast t <$> scan_as t (fmt_int t z) = Some z.
Proof.
  intros Ht Hz. pose proof (int_range t z Ht Hz) as Hr. unfold fmt_int, scan_as.
  destruct t; try done; cbn [is_signed sizeof] in *;
    first [rewrite scan_d_fmt by lia | rewrite scan_u_fmt by lia];
    cbn [fmap option_fmap option_map]; f_equal; exact Hz.
Qed.

Section ops.
Context (obj : Z) (os : gmap Z data) (j : Z → nat → Z) (Hobj : obj ≠ 0).

Notation WP := (wp obj os j).

(** Integers, booleans and pointers are read as the C conversion. *)
Lemma get_as_int_spec t d h e z v :
  obj_ok d → integral (dtype d) = true → value d = Scalar z → is_int t = true →
  WP (get_as_int t obj v) (λ r d' h' e', r = (CPLUS_SUCCESS, cast t z) ∧ d' = d ∧ h' = h ∧ e' = e) d h e.
Proof.
  destruct d as [ty dt iv am kl k sl sc bs vl]. unfold obj_ok. simpl.
  intros (-> & -> & _ & Hv) Hdt -> Ht. unfold get_as_int. do 4 wp_step.
  destruct dt; try done; simpl in Hv; wp_go; try done.
  by rewrite cast_swrap64.
Qed.

(** What a write of a scalar leaves. *)
Definition with_scalar (z : Z) (d : data) : data := set_is_valid true (set_value (Scalar z) d).

Lemma with_scalar_ok z d h F :
  obj_ok d → scalar_type (dtype d) = true → scalar_ok (dtype d) z → fits obj d h F →
  obj_ok (with_scalar z d) ∧ fits obj (with_scalar z d) h F.
Proof.
  destruct d as [ty dt iv am kl k sl sc bs vl]. unfold obj_ok. simpl.
  intros (H1 & H2 & H3 & H4) Ht Hz Hf. split.
  - split_and!; [done..|]. by destruct dt.
  - unfold fits, owned in *. simpl in *. destruct vl as [|? b]; [done|]. by destruct dt.
Qed.

Lemma set_as_int_spec t d h e z :
  obj_ok d → integral (dtype d) = true → is_int t = true → scalar_ok t z →
  WP (set_as_int t obj z) (λ r d' h' e', r = CPLUS_SUCCESS
    ∧ d' = with_scalar (cast (dtype d) z) d ∧ h' = h ∧ e' = e) d h e.
Proof.
  destruct d as [ty dt iv am kl k sl sc bs vl]. unfold obj_ok, with_scalar. simpl.
  intros (-> & -> & _ & _) Hdt Ht Hz. unfold set_as_int, mark_valid. do 4 wp_step.
  destruct dt; try done; wp_go; split_and!; try done.
  - rewrite Z.eqb_sym. simpl. by destruct (z =? 0).
  - unfold cast. by rewrite u64_s64.
Qed.

(** [cplus_data_set_value] and the typed reads, on a scalar. *)
Lemma set_scalar_spec d h e z v2 :
  obj_ok d → scalar_type (dtype d) = true → scalar_ok (dtype d) z →
  WP (cplus_data_set_value obj (arg (dtype d) z) v2) (λ r d' h' e', r = CPLUS_SUCCESS
    ∧ d' = with_scalar z d ∧ h' = h ∧ e' = e) d h e.
Proof.
  destruct d as [ty dt iv am kl k sl sc bs vl]. unfold obj_ok, with_scalar. simpl.
  intros (-> & -> & _ & _) Hdt Hz. unfold cplus_data_set_value, arg. do 4 wp_step.
  assert (take (Z.to_nat (sizeof dt)) (to_bytes dt z) = to_bytes dt z) as E.
  { apply take_ge. pose proof (zlen_to_bytes dt z). unfold zlen in *. lia. }
  pose proof (of_to_bytes dt z Hdt Hz) as E2.
  destruct dt; try done; wp_go;
    (apply wp_read_bytes; [rewrite zlen_to_bytes; done|]); rewrite E;
    rewrite ?E2; wp_go; try done.
  rewrite (bool_01 z Hz). by wp_go.
Qed.

(** ** Text buffers *)

Lemma fits_same d d' h F : owned d = owned d' → fits obj d h F → fits obj d' h F.
Proof. unfold fits. by intros ->. Qed.

Lemma fits_snoc p l h F : fits_list (p :: l) h F → fits_list (l ++ [p]) h F.
Proof. apply fits_perm. by rewrite Permutation_app_comm. Qed.

(** The length of the buffer after room was made for [need] bytes. *)
Definition room (len need : Z) (b : option block) : Z :=
  match b with Some _ => Z.max len need | None => need end.

(** Both buffer types grow the same way: allocate the first time, reallocate
    when the size asked for is larger than [len]. *)
Lemma wp_grow len need b d h e F (m : M (option block)) :
  value d = Buffer len b → fits obj d h F → 0 ≤ need → 0 ≤ len →
  m = match b with
      | None => new ← cplus_malloc need; store_buffer obj need new;; mret new
      | Some _ =>
          if len <? need then
            new ← cplus_realloc b need; store_buffer obj need new;; mret new
          else mret b
      end →
  WP m (λ r d' h' e',
    match r with
    | Some b' => fits obj (set_value (Buffer need (Some b')) d) h' F ∧ e' = e
        ∧ (d' = set_value (Buffer need (Some b')) d ∧ zlen (bytes b') = need
             ∧ match b with Some _ => len < need | None => True end
           ∨ d' = d ∧ b = Some b' ∧ need ≤ len)
    | None => d' = set_value (Buffer need None) d ∧ fits obj d' h' F ∧ e' = ENOMEM
    end) d h e.
Proof.
  destruct d as [ty dt iv am kl k sl sc bs vl]. unfold fits, owned. simpl.
  intros -> Hf Hn Hl ->. simpl in Hf. destruct b as [b|]; simpl in Hf.
  - destruct (Z.ltb_spec len need) as [Hlt|Hlt].
    + wp_step. eapply (wp_realloc _ _ _ _ _ _ (obj :: addr_of k) []); [exact Hf|lia| |].
      * intros b' h' Hf' Hb _. wp_go. split_and!; [done|done|by left].
      * intros h' Hf'. wp_go. split_and!; [done|by simpl in Hf' |done].
    + wp_go. split_and!; [done|done|by right].
  - rewrite app_nil_r in Hf. wp_step. eapply wp_malloc; [exact Hf|done| |].
    + intros b' h' Hf' Hb. wp_go. split_and!; [by apply (fits_snoc _ (obj :: addr_of k))|done|by left].
    + intros h' Hf'. wp_go. split_and!; [done|by rewrite app_nil_r|done].
Qed.

Lemma grow_string_spec len need b d h e F :
  value d = Buffer len b → match b with Some b => zlen (bytes b) = len | None => True end →
  fits obj d h F → 0 ≤ need → 0 ≤ len →
  WP (grow_string obj need) (λ r d' h' e',
    match r with
    | Some b' => d' = set_value (Buffer (room len need b) (Some b')) d ∧ fits obj d' h' F
        ∧ e' = e ∧ zlen (bytes b') = room len need b
    | None => d' = set_value (Buffer need None) d ∧ fits obj d' h' F ∧ e' = ENOMEM
    end) d h e.
Proof.
  intros Hv Hb Hf Hn Hl. unfold grow_string. apply wp_bind.
  eapply wp_load_buffer; [exact Hv|]. cbv beta iota.
  eapply wp_mono; [by eapply (wp_grow len need b)|].
  intros r d' h' e'. destruct r as [b'|]; [|done].
  intros (Hf' & -> & [(-> & Hz & Hlt) | (-> & -> & Hle)]).
  - replace (room len need b) with need; [done|]. destruct b; simpl in *; lia.
  - simpl. rewrite Z.max_l by done. destruct d; simpl in *; subst. done.
Qed.

(** A text printed into a block that has room for it. *)
Lemma printed_ok b len s :
  text s → zlen (bytes b) = len → 0 < len →
  ∃ c, cplus_str_printf (bytes b) len s = Done c ∧ zlen c = len
    ∧ cstr c = Some (take (Z.to_nat (len - 1)) s).
Proof.
  intros Hs Hlen Hl. unfold cplus_str_printf. rewrite (proj2 (Z.eqb_neq _ _)) by lia.
  set (out := take (Z.to_nat (len - 1)) s).
  assert (zlen (out ++ [0]) ≤ len) as Ho.
  { unfold zlen, out. rewrite length_app, length_take. simpl. lia. }
  rewrite Hlen, (proj2 (Z.leb_le _ _)) by done. eexists. split; [done|]. split.
  - unfold zlen in *. rewrite length_app, length_drop. lia.
  - rewrite <- app_assoc. apply cstr_app. by apply Forall_take.
Qed.

Lemma put_text_spec len b s d h e F :
  value d = Buffer len b → match b with Some b => zlen (bytes b) = len | None => True end →
  fits obj d h F → text s → zlen s + 1 < 2 ^ 32 → 0 ≤ len →
  WP (put_text obj s) (λ r d' h' e',
    if r : bool then
      ∃ b', d' = set_value (Buffer (room len (zlen s + 1) b) (Some b')) d ∧ fits obj d' h' F ∧ e' = e
        ∧ zlen (bytes b') = room len (zlen s + 1) b ∧ cstr (bytes b') = Some s
    else d' = set_value (Buffer (zlen s + 1) None) d ∧ fits obj d' h' F ∧ e' = ENOMEM) d h e.
Proof.
  intros Hv Hb Hf Hs Hlen Hl. pose proof (zlen_nonneg s). unfold put_text.
  rewrite u32_small by lia. apply wp_bind.
  eapply wp_mono; [by eapply grow_string_spec; eauto; lia|].
  intros r d' h' e'. destruct r as [b'|].
  - intros (-> & Hf' & -> & Hb'). destruct d as [ty dt iv am kl k sl sc bs vl]. simpl in *.
    do 2 wp_step. apply wp_bind.
    assert (zlen s < room len (zlen s + 1) b) by (destruct b; simpl; lia).
    destruct (printed_ok b' _ s Hs Hb') as (c & E & Hc & Hcs); [lia|].
    eapply wp_lift; [exact E|]. wp_go.
    exists (Block (addr b') c). split_and!; [done| |done|done|].
    + revert Hf'. by apply fits_same.
    + simpl. rewrite Hcs, take_ge; [done|]. unfold zlen in *. lia.
  - intros (-> & Hf' & ->). wp_go. done.
Qed.

Definition string_is (d : data) (s : list Z) : Prop :=
  ∃ len b, value d = Buffer len (Some b) ∧ cstr (bytes b) = Some s.

Lemma obj_ok_string d len b :
  obj_ok d → dtype d = T_STRING → value d = Buffer len b →
  0 ≤ len < 2 ^ 32 ∧ match b with Some b => zlen (bytes b) = len | None => True end.
Proof.
  intros (_ & _ & _ & Hv) Ht E. rewrite Ht, E in Hv. destruct b as [b|]; simpl in Hv; [|done].
  destruct Hv as (Hv1 & Hv2 & _). lia.
Qed.

Definition same_key (d0 d : data) : Prop := key d = key d0 ∧ key_len d = key_len d0.

(** What printing a text into a string object leaves. *)
Definition printed (F : gset Z) (d0 : data) (s : list Z) (r : Z) (d : data) (h : Heap.heap) (e : Z) : Prop :=
  obj_ok d ∧ (dtype d = T_STRING ∧ same_key d0 d) ∧ fits obj d h F ∧
  (r = CPLUS_SUCCESS ∧ is_valid d = true ∧ string_is d s
   ∨ r = CPLUS_FAIL ∧ e = ENOMEM ∧ ∃ len, value d = Buffer len None).

Lemma obj_ok_buffer d : obj_ok d → dtype d = T_STRING ∨ dtype d = T_BYTE_ARRAY → ∃ len b, value d = Buffer len b.
Proof.
  intros (_ & _ & _ & Hv) [Ht | Ht]; rewrite Ht in Hv; destruct (value d) as [|len b]; try done; eauto.
Qed.

Lemma put_text_printed d h e F s (f : bool → M Z) :
  obj_ok d → dtype d = T_STRING → fits obj d h F → text s → zlen s + 1 < 2 ^ 32 →
  (∀ d h e, obj_ok (set_spinlock 0 d) → WP (f true) (λ r d' h' e',
     r = CPLUS_SUCCESS ∧ d' = set_is_valid true (set_spinlock 0 d) ∧ h' = h ∧ e' = e) d h e) →
  (∀ d h e, WP (f false) (λ r d' h' e',
     r = CPLUS_FAIL ∧ d' = set_spinlock 0 d ∧ h' = h ∧ e' = e) d h e) →
  WP (ok ← put_text obj s; f ok) (printed F d s) (set_spinlock 1 d) h e.
Proof.
  intros Hok Ht Hf Hs Hlen HT HN.
  destruct (obj_ok_buffer d Hok (or_introl Ht)) as (len & b & Hv).
  destruct (obj_ok_string d len b Hok Ht Hv) as [Hl Hb].
  pose proof (zlen_nonneg s). apply wp_bind.
  eapply wp_mono; [by eapply (put_text_spec len b s (set_spinlock 1 d) h e F); eauto; lia|].
  destruct Hok as (Hty & Hsp & Hk & _). unfold printed, same_key, obj_ok.
  destruct d as [ty dt iv am kl k sl sc bs vl]. simpl in *. subst.
  intros r d' h' e'. destruct r.
  - intros (b' & -> & Hf' & -> & Hb' & Hc).
    assert (0 < room len (zlen s + 1) b < 2 ^ 32) by (destruct b; simpl; lia).
    eapply wp_mono; [apply HT|].
    + split_and!; [done..|]. simpl. split_and!; [done|lia..|by rewrite Hc].
    + intros r d' h'' e'' (-> & -> & -> & ->). split; [|split; [done|split]].
      * split; [done|]. split; [done|]. split; [done|].
        simpl. split_and!; [done|lia..|by rewrite Hc].
      * revert Hf'. by apply fits_same.
      * left. split_and!; [done..|]. by do 2 eexists.
  - intros (-> & Hf' & ->). eapply wp_mono; [apply HN|].
    intros r d' h'' e'' (-> & -> & -> & ->). split; [|split; [done|split]].
    + split; [done|]. split; [done|]. split; [done|]. simpl. lia.
    + revert Hf'. by apply fits_same.
    + right. split_and!; [done..|]. by eexists.
Qed.

Lemma set_as_int_text t d h e F z :
  obj_ok d → dtype d = T_STRING → fits obj d h F → is_int t = true → scalar_ok t z →
  WP (set_as_int t obj z) (printed F d (fmt_int t z)) d h e.
Proof.
  intros Hok Ht Hf Hi Hz. unfold set_as_int.
  pose proof Hok as (Hty & Hsp & _). apply wp_bind, wp_check; [done..|].
  apply wp_bind, wp_field. rewrite Ht. apply wp_bind, wp_lock; [done|].
  pose proof (fmt_int_length t z Hi Hz).
  eapply put_text_printed; [done..|by apply fmt_int_text|lia| |].
  - intros. unfold mark_valid. wp_go. done.
  - intros. wp_go. done.
Qed.

(** A string object read as an integer. *)
Lemma get_as_int_text t d h e s v :
  obj_ok d → dtype d = T_STRING → string_is d s → is_int t = true →
  WP (get_as_int t obj v) (λ r d' h' e', d' = d ∧ h' = h ∧
    match cast t <$> scan_as t s with
    | Some n => r = (CPLUS_SUCCESS, n) ∧ e' = e
    | None => r = (CPLUS_FAIL, v) ∧ e' = ENOENT
    end) d h e.
Proof.
  destruct d as [ty dt iv am kl k sl sc bs vl]. unfold obj_ok, string_is. simpl.
  intros (-> & -> & _) -> (len & b & -> & Hc) Ht. unfold get_as_int. wp_go.
  destruct (scan_as t s); simpl; wp_go; done.
Qed.

(** ** Strings and byte arrays *)

Lemma read_len_arg n d h e (Q : Z → data → Heap.heap → Z → Prop) :
  0 ≤ n < 2 ^ 32 → Q n d h e → WP (read_len (to_bytes T_UINT32 n)) Q d h e.
Proof.
  intros Hn HQ. unfold read_len. apply wp_bind, wp_read_bytes.
  { by rewrite zlen_to_bytes. }
  rewrite take_ge by (pose proof (zlen_to_bytes T_UINT32 n); unfold zlen in *; simpl in *; lia).
  apply wp_ret. rewrite of_to_bytes; [done|done|]. by apply u32_small.
Qed.

(** What a string write leaves, whatever is written into the block. *)
Lemma set_string_with n v2 F len b d h e t :
  obj_ok d → dtype d = T_STRING → value d = Buffer len b → fits obj d h F →
  0 ≤ n → n + 1 < 2 ^ 32 →
  (∀ b' d' h' e', value d' = Buffer (room len (n + 1) b) (Some b') →
     zlen (bytes b') = room len (n + 1) b →
     WP (fill_string obj b' v2) (λ _ d'' h'' e'', h'' = h' ∧
       ∃ c, d'' = set_value (Buffer (room len (n + 1) b) (Some (Block (addr b') c))) d'
         ∧ zlen c = room len (n + 1) b ∧ cstr c = Some t) d' h' e') →
  WP (cplus_data_set_string obj n v2) (printed F d t) d h e.
Proof.
  intros Hok Ht Hv Hf Hn Hn2 HF.
  destruct (obj_ok_string d len b Hok Ht Hv) as [Hl Hb].
  unfold cplus_data_set_string, cplus_data_set_value, arg.
  destruct Hok as (Hty & Hsp & Hk & _). unfold printed, same_key, obj_ok.
  destruct d as [ty dt iv am kl k sl sc bs vl]. simpl in *. subst.
  do 6 wp_step. apply wp_bind, read_len_arg; [lia|]. rewrite u32_small by lia.
  apply wp_bind. eapply wp_mono.
  { eapply (grow_string_spec len (n + 1) b _ _ _ F); [reflexivity|done| |lia|lia].
    revert Hf. by apply fits_same. }
  intros r d' h' e'. destruct r as [b'|].
  - intros (-> & Hf' & -> & Hb'). apply wp_bind.
    eapply wp_mono; [apply (HF b'); [done|done]|].
    intros u d'' h'' e'' (-> & c & -> & Hc & Hcs). wp_go.
    assert (0 < room len (n + 1) b < 2 ^ 32) by (destruct b; simpl; lia).
    split; [|split; [done|split]].
    + split; [done|]. split; [done|]. split; [done|].
      simpl. split_and!; [done|lia..|by rewrite Hcs].
    + revert Hf'. by apply fits_same.
    + left. split_and!; [done..|]. by do 2 eexists.
  - intros (-> & Hf' & ->). wp_go. split; [|split; [done|split]].
    + split; [done|]. split; [done|]. split; [done|]. simpl. lia.
    + revert Hf'. by apply fits_same.
    + right. split_and!; [done..|]. by eexists.
Qed.

(** A write keeps what fits of the C string it is given. *)
Lemma set_string_spec n src s F len b d h e :
  obj_ok d → dtype d = T_STRING → value d = Buffer len b → fits obj d h F →
  0 ≤ n → n + 1 < 2 ^ 32 → cstr src = Some s →
  WP (cplus_data_set_string obj n (Some src))
    (printed F d (take (Z.to_nat (room len (n + 1) b - 1)) s)) d h e.
Proof.
  intros Hok Ht Hv Hf Hn Hn2 Hs.
  destruct (obj_ok_string d len b Hok Ht Hv) as [Hl Hb].
  eapply set_string_with; eauto. intros b' d' h' e' Hv' Hb'.
  unfold fill_string. apply wp_bind. eapply wp_load_buffer; [exact Hv'|]. cbv beta iota.
  apply wp_bind. eapply wp_deref; [exact Hs|]. apply wp_bind.
  destruct (printed_ok b' _ s (cstr_text _ _ Hs) Hb') as (c & E & Hc & Hcs);
    [destruct b; simpl; lia|].
  eapply wp_printf_string; [exact E|].
  destruct (_ <? zlen s); apply wp_store_buffer; (split; [done|]); by exists c.
Qed.

(** A write of a null pointer clears the text. *)
Lemma clear_string_spec n F len b d h e :
  obj_ok d → dtype d = T_STRING → value d = Buffer len b → fits obj d h F →
  0 ≤ n → n + 1 ≤ RSIZE_MAX_MEM → len ≤ RSIZE_MAX_MEM →
  WP (cplus_data_set_string obj n None) (printed F d []) d h e.
Proof.
  unfold RSIZE_MAX_MEM. intros Hok Ht Hv Hf Hn Hn2 Hl2.
  destruct (obj_ok_string d len b Hok Ht Hv) as [Hl Hb].
  eapply set_string_with; eauto; [lia|]. intros b' d' h' e' Hv' Hb'.
  unfold fill_string. apply wp_bind. eapply wp_load_buffer; [exact Hv'|]. cbv beta iota.
  assert (0 < room len (n + 1) b ≤ RSIZE_MAX_MEM)
    by (unfold RSIZE_MAX_MEM; destruct b; simpl; lia).
  set (r := room len (n + 1) b) in *.
  apply wp_bind. eapply wp_copy_into.
  { unfold cplus_mem_set. rewrite (proj2 (Z.ltb_ge _ _)), (proj2 (Z.eqb_neq r 0)) by lia.
    apply memcpy_ok; [lia|]. unfold zlen. rewrite length_replicate. lia. }
  cbv beta iota. apply wp_store_buffer. split; [done|]. eexists. split; [done|].
  rewrite take_ge by (by rewrite length_replicate).
  rewrite drop_ge by (unfold zlen in Hb'; lia). rewrite app_nil_r. split.
  - unfold zlen. rewrite length_replicate. lia.
  - destruct (Z.to_nat r) eqn:E; [lia|done].
Qed.

(** The text is copied out when the caller's buffer has room for it. *)
Lemma get_value_string_spec p q s d h e :
  obj_ok d → dtype d = T_STRING → string_is d s → 4 ≤ zlen p →
  let size := of_bytes T_UINT32 (take 4 p) in
  size ≤ zlen q →
  WP (cplus_data_get_value obj (Some p) (Some q)) (λ r d' h' e', d' = d ∧ h' = h ∧
    if size <? zlen s + 1 then r = (CPLUS_FAIL, Some p, Some q) ∧ e' = ENOBUFS
    else if INT32_MAX <? zlen s then r = (-1, Some p, Some (s ++ 0 :: drop (S (length s)) q)) ∧ e' = EOVERFLOW
    else r = (zlen s, Some p, Some (s ++ 0 :: drop (S (length s)) q)) ∧ e' = e) d h e.
Proof.
  intros (Hty & Hsp & _) Ht (len & b & Hv & Hc) Hp size Hq.
  destruct d as [ty dt iv am kl k sl sc bs vl]. simpl in *. subst.
  unfold cplus_data_get_value. do 6 wp_step. unfold read_len. do 2 wp_step.
  apply wp_read_bytes; [done|]. wp_go. change (of_bytes T_UINT32 (take (Z.to_nat 4) p)) with size.
  destruct (Z.ltb_spec size (zlen s + 1)); wp_go; [done|].
  eapply wp_printf_string; [apply str_printf_fits; lia|].
  destruct (_ <? zlen s); cbv iota beta; wp_go; done.
Qed.

Definition array_is (d : data) (bs : list Z) : Prop :=
  ∃ b, value d = Buffer (zlen bs) (Some b) ∧ take (length bs) (bytes b) = bs.

(** What writing bytes into a byte array leaves. *)
Definition stored (F : gset Z) (d0 : data) (bs : list Z) (r : Z) (d : data) (h : Heap.heap) (e : Z) : Prop :=
  obj_ok d ∧ (dtype d = T_BYTE_ARRAY ∧ same_key d0 d) ∧ fits obj d h F ∧
  (r = CPLUS_SUCCESS ∧ is_valid d = true ∧ array_is d bs
   ∨ r = CPLUS_FAIL ∧ e = ENOMEM ∧ value d = Buffer (zlen bs) None).

Lemma obj_ok_array d len b :
  obj_ok d → dtype d = T_BYTE_ARRAY → value d = Buffer len b →
  0 ≤ len < 2 ^ 32 ∧ match b with Some b => len ≤ zlen (bytes b) | None => True end.
Proof.
  intros (_ & _ & _ & Hv) Ht E. rewrite Ht, E in Hv. destruct b as [b|]; simpl in Hv; [lia|done].
Qed.

Lemma grow_array_spec len need b d h e F :
  value d = Buffer len b → match b with Some b => len ≤ zlen (bytes b) | None => True end →
  fits obj d h F → 0 ≤ need → 0 ≤ len →
  WP (grow_array obj need) (λ r d' h' e',
    match r with
    | Some b' =>
        d' = set_value (Buffer need (Some b')) (set_bufs_size (room len need b) d)
        ∧ fits obj d' h' F ∧ e' = e ∧ room len need b ≤ zlen (bytes b')
    | None => d' = set_value (Buffer need None) (set_bufs_size need d) ∧ fits obj d' h' F ∧ e' = ENOMEM
    end) d h e.
Proof.
  destruct d as [ty dt iv am kl k sl sc bs vl]. unfold fits, owned. simpl.
  intros -> Hb Hf Hn Hl. simpl in Hf. unfold grow_array. wp_go. destruct b as [b|]; simpl in *.
  - destruct (Z.ltb_spec len need) as [Hlt|Hlt].
    + wp_go. eapply (wp_realloc _ _ _ _ _ _ (obj :: addr_of k) []); [exact Hf|lia| |].
      * intros b' h' Hf' Hb' _. wp_go. rewrite Z.max_r by lia. split_and!; [done|done|done|lia].
      * intros h' Hf'. wp_go. split_and!; [done|by simpl in Hf'|done].
    + wp_go. rewrite Z.max_l by lia. split_and!; [done|done|done|lia].
  - rewrite app_nil_r in Hf. wp_go. eapply wp_malloc; [exact Hf|done| |].
    + intros b' h' Hf' Hb'. wp_go.
      split_and!; [done|by apply (fits_snoc _ (obj :: addr_of k))|done|lia].
    + intros h' Hf'. wp_go. split_and!; [done|by rewrite app_nil_r|done].
Qed.

(** [n] bytes from the caller, or zeros when it passes a null pointer. *)
Definition array_source (n : Z) (v2 : option (list Z)) : list Z :=
  match v2 with Some src => take (Z.to_nat n) src | None => replicate (Z.to_nat n) 0 end.

Lemma zlen_array_source n v2 :
  0 ≤ n → match v2 with Some src => n ≤ zlen src | None => True end →
  zlen (array_source n v2) = n.
Proof.
  intros Hn Hs. unfold zlen. destruct v2 as [src|]; simpl.
  - rewrite length_take. unfold zlen in Hs. lia.
  - rewrite length_replicate. lia.
Qed.

(** The bytes that reach the block. *)
Lemma filled_ok n size v2 c :
  0 ≤ n ≤ size → size ≤ zlen c → size ≤ RSIZE_MAX_MEM →
  match v2 with Some src => n ≤ zlen src | None => True end →
  ∃ r, (match v2 with
        | Some src => cplus_mem_cpy_ex (Some c) size (Some src) n
        | None => cplus_mem_set (Some c) 0 size
        end) = Done r ∧
    let c' := match r with Null => c | Ptr c' => c' end in
    zlen c' = zlen c ∧ take (Z.to_nat n) c' = array_source n v2.
Proof.
  intros Hn Hs Hr Hv. pose proof (zlen_array_source n v2) as Hlen.
  destruct (decide (size = 0)) as [->|H0].
  { assert (n = 0) as -> by lia. exists Null.
    split; [by destruct v2|]. simpl. split; [done|]. by destruct v2. }
  destruct v2 as [src|]; simpl in *.
  - rewrite (proj2 (Z.eqb_neq size 0)), (proj2 (Z.ltb_ge RSIZE_MAX_MEM size)) by lia.
    destruct (Z.eqb_spec n 0) as [->|Hn0]; [by exists Null|].
    rewrite (proj2 (Z.ltb_ge size n)) by lia.
    eexists. split; [apply memcpy_ok; lia|]. simpl. unfold zlen in *. split.
    + rewrite length_app, length_take, length_drop. lia.
    + rewrite take_app_le by (rewrite length_take; lia).
      by rewrite take_take, Nat.min_id.
  - rewrite (proj2 (Z.ltb_ge RSIZE_MAX_MEM size)), (proj2 (Z.eqb_neq size 0)) by lia.
    eexists. split.
    { apply memcpy_ok; [lia|]. unfold zlen. rewrite length_replicate. lia. }
    simpl. unfold zlen in *. rewrite (take_ge (replicate _ _)) by (by rewrite length_replicate).
    split.
    + rewrite length_app, length_replicate, length_drop. lia.
    + rewrite take_app_le by (rewrite length_replicate; lia).
      rewrite take_replicate. f_equal. lia.
Qed.

Lemma set_array_spec n v2 F len b d h e :
  obj_ok d → dtype d = T_BYTE_ARRAY → value d = Buffer len b → fits obj d h F →
  0 ≤ n ≤ RSIZE_MAX_MEM → len ≤ RSIZE_MAX_MEM →
  match v2 with Some src => n ≤ zlen src | None => True end →
  WP (cplus_data_set_byte_array obj n v2) (stored F d (array_source n v2)) d h e.
Proof.
  unfold RSIZE_MAX_MEM. intros Hok Ht Hv Hf Hn Hl2 Hs.
  destruct (obj_ok_array d len b Hok Ht Hv) as [Hl Hb].
  assert (zlen (array_source n v2) = n) as Hlen by (apply zlen_array_source; [lia|done]).
  unfold cplus_data_set_byte_array, cplus_data_set_value, arg.
  destruct Hok as (Hty & Hsp & Hk & _). unfold stored, same_key, obj_ok.
  destruct d as [ty dt iv am kl k sl sc bs vl]. simpl in *. subst ty dt sl vl.
  do 6 wp_step. apply wp_bind, read_len_arg; [lia|].
  apply wp_bind. eapply wp_mono.
  { eapply (grow_array_spec len n b _ _ _ F); [reflexivity|done| |lia|lia].
    revert Hf. by apply fits_same. }
  intros r d' h' e'. destruct r as [b'|].
  - intros (-> & Hf' & -> & Hb'). apply wp_bind. unfold fill_array. do 4 wp_step.
    assert (n ≤ room len n b ≤ 256 * 2 ^ 20) by (destruct b; simpl; lia).
    destruct (filled_ok n (room len n b) v2 (bytes b')) as (r & E & Hc1 & Hc2);
      [lia|done|unfold RSIZE_MAX_MEM; lia|done|].
    apply wp_bind. eapply wp_copy_into; [exact E|].
    destruct r as [|c]; simpl in Hc1, Hc2; wp_go.
    all: split; [|split; [done|split]].
    all: try (split; [done|]; split; [done|]; split; [done|]; simpl; lia).
    all: try (revert Hf'; by apply fits_same).
    all: left; split_and!; [done..|]; eexists; simpl; rewrite Hlen.
    all: split; [done|]; simpl; rewrite <- Hc2 at 2; f_equal; unfold zlen in Hlen; lia.
  - intros (-> & Hf' & ->). wp_go. split; [|split; [done|split]].
    + split; [done|]. split; [done|]. split; [done|]. simpl. lia.
    + revert Hf'. by apply fits_same.
    + right. by rewrite Hlen.
Qed.

(** Reading an array of at least one byte. *)
Lemma get_value_array_spec p q bs d h e :
  obj_ok d → dtype d = T_BYTE_ARRAY → array_is d bs → 4 ≤ zlen p →
  let size := of_bytes T_UINT32 (take 4 p) in
  size ≤ zlen q → size ≤ RSIZE_MAX_MEM → bs ≠ [] →
  WP (cplus_data_get_value obj (Some p) (Some q)) (λ r d' h' e', d' = d ∧ h' = h ∧
    if size <? zlen bs then r = (CPLUS_FAIL, Some p, Some q) ∧ e' = ENOBUFS
    else r = (zlen bs, Some p, Some (bs ++ drop (length bs) q)) ∧ e' = e) d h e.
Proof.
  intros (Hty & Hsp & _ & Hval) Ht (b & Hv & Hc) Hp size Hq Hs Hne.
  destruct d as [ty dt iv am kl k sl sc bsz vl]. simpl in *. subst ty dt sl vl.
  simpl in Hval. unfold RSIZE_MAX_MEM in Hs.
  assert (0 < zlen bs) by (destruct bs; [done|unfold zlen; simpl; lia]).
  unfold cplus_data_get_value. do 6 wp_step. unfold read_len. do 2 wp_step.
  apply wp_read_bytes; [done|]. wp_go. change (of_bytes T_UINT32 (take (Z.to_nat 4) p)) with size.
  destruct (Z.ltb_spec size (zlen bs)); wp_go; [done|].
  eapply wp_copy_into.
  { simpl. unfold RSIZE_MAX_MEM.
    rewrite (proj2 (Z.eqb_neq size 0)), (proj2 (Z.ltb_ge _ size)), (proj2 (Z.eqb_neq (zlen bs) 0)),
      (proj2 (Z.ltb_ge size _)) by lia.
    apply memcpy_ok; lia. }
  cbv beta iota. wp_go. assert (Z.to_nat (zlen bs) = length bs) as -> by (unfold zlen; lia).
  by rewrite Hc, s32_small by lia.
Qed.

(** ** Keys *)

(** What a key write leaves: the first [n + 1] bytes of [src], the final zero
    of the caller's string included. *)
Definition keyed (F : gset Z) (d0 : data) (n : Z) (src : list Z) (r : Z) (d : data)
    (h : Heap.heap) (e : Z) : Prop :=
  obj_ok d ∧ fits obj d h F ∧ dtype d = dtype d0 ∧ value d = value d0 ∧
  (r = CPLUS_SUCCESS ∧ (∃ b, key d = Some b ∧
      take (Z.to_nat (n + 1)) (bytes b) = take (Z.to_nat (n + 1)) src)
   ∨ r = CPLUS_FAIL ∧ key d = None).

Lemma copy_key_spec b size n src d h e :
  key d = Some b → 0 < n ≤ size → size ≤ zlen (bytes b) → size ≤ RSIZE_MAX_MEM →
  n ≤ zlen src →
  WP (copy_key obj size n src) (λ _ d' h' e', h' = h ∧ e' = e ∧
    ∃ c, d' = set_key (Some (Block (addr b) c)) d ∧ zlen c = zlen (bytes b)
      ∧ take (Z.to_nat n) c = take (Z.to_nat n) src) d h e.
Proof.
  intros Hk Hn Hs Hr Hsrc. unfold copy_key. apply wp_bind, wp_field. rewrite Hk.
  apply wp_bind. eapply wp_copy_into.
  { simpl. rewrite (proj2 (Z.eqb_neq size 0)), (proj2 (Z.ltb_ge _ size)),
      (proj2 (Z.eqb_neq n 0)), (proj2 (Z.ltb_ge size n)) by lia.
    apply memcpy_ok; lia. }
  cbv beta iota. apply wp_upd. split; [done|]. split; [done|]. eexists. split; [done|].
  unfold zlen in *. split.
  - rewrite length_app, length_take, length_drop. lia.
  - rewrite take_app_le by (rewrite length_take; lia). by rewrite take_take, Nat.min_id.
Qed.

Lemma keyed_fits d b c h F :
  fits obj (set_key (Some b) d) h F → fits obj (set_spinlock 0 (set_key (Some (Block (addr b) c)) d)) h F.
Proof. by apply fits_same. Qed.

Lemma set_key_spec n src F d h e :
  obj_ok d → fits obj d h F → 0 < n → n + 1 ≤ RSIZE_MAX_MEM → n + 1 ≤ zlen src →
  key_len d ≤ RSIZE_MAX_MEM → (key d = None → key_len d = 0) →
  WP (cplus_data_set_key obj n (Some src)) (keyed F d n src) d h e.
Proof.
  intros Hok Hf Hn Hn2 Hsrc Hkl Hk0. pose proof Hok as (Hty & Hsp & Hk & Hval).
  destruct d as [ty dt iv am kl k sl sc bs vl]. simpl in *. subst ty sl.
  destruct Hk as [Hkl0 Hkb]. unfold RSIZE_MAX_MEM in *. unfold cplus_data_set_key.
  do 2 wp_step. rewrite Z.geb_leb, (proj2 (Z.leb_gt n 0)) by lia.
  do 2 wp_step. rewrite u32_small by lia. do 2 wp_step.
  destruct (Z.leb_spec (n + 1) kl) as [Hle|Hgt].
  - destruct k as [b|]; [|specialize (Hk0 eq_refl); lia].
    apply wp_bind. eapply wp_mono.
    { apply (copy_key_spec b kl (n + 1) src); [done|lia|lia|unfold RSIZE_MAX_MEM; lia|lia]. }
    intros _ d' h' e' (-> & -> & c & -> & Hc & Ht). wp_go.
    split; [|split; [revert Hf; by apply fits_same|split; [done|split; [done|left; eauto]]]].
    split; [done|split; [done|split; [split; simpl; lia|done]]].
  - wp_go. destruct k as [b|]; simpl in *.
    + eapply (wp_realloc _ _ _ _ _ _ [obj] (bufs_of vl)); [exact Hf|lia| |].
      * intros b' h' Hf' Hb' _. wp_go.
        eapply wp_mono.
        { apply (copy_key_spec b' (n + 1) (n + 1) src); [done|lia|lia|unfold RSIZE_MAX_MEM; lia|lia]. }
        intros _ d' h'' e' (-> & -> & c & -> & Hc & Ht). wp_go.
        split; [|split; [exact Hf'|split; [done|split; [done|left; eauto]]]].
        split; [done|split; [done|split; [split; simpl; lia|done]]].
      * intros h' Hf'. wp_go.
        split; [|split; [exact Hf'|split; [done|split; [done|right; eauto]]]].
        split; [done|split; [done|split; [split; simpl; [lia|done]|done]]].
    + eapply wp_malloc; [exact Hf|lia| |].
      * intros b' h' Hf' Hb'. wp_go.
        eapply wp_mono.
        { apply (copy_key_spec b' (n + 1) (n + 1) src); [done|lia|lia|unfold RSIZE_MAX_MEM; lia|lia]. }
        intros _ d' h'' e' (-> & -> & c & -> & Hc & Ht). wp_go.
        split; [|split; [|split; [done|split; [done|left; eauto]]]].
        -- split; [done|split; [done|split; [split; simpl; lia|done]]].
        -- revert Hf'. apply fits_perm. apply Permutation_swap.
      * intros h' Hf'. wp_go.
        split; [|split; [exact Hf'|split; [done|split; [done|right; eauto]]]].
        split; [done|split; [done|split; [split; simpl; [lia|done]|done]]].
Qed.

(** ** Deletion *)

Lemma wp_free_opt b l1 l2 F (Q : () → data → Heap.heap → Z → Prop) d h e :
  fits_list (l1 ++ addr_of b ++ l2) h F →
  (∀ h', fits_list (l1 ++ l2) h' F → Q tt d h' e) → WP (free_opt b) Q d h e.
Proof.
  intros Hf HQ. destruct b as [b|]; simpl in *.
  { apply wp_bind. eapply wp_free; [exact Hf|]. intros h' Hf'. apply wp_ret. by apply HQ. }
  apply wp_ret. by apply HQ.
Qed.

Lemma free_object_spec d h e F :
  obj_ok d → fits obj d h F →
  WP (free_object obj) (λ _ _ h' e', Heap.heap_ok h' F ∧ e' = e) d h e.
Proof.
  intros (Hty & Hsp & Hk & Hval) Hf.
  destruct d as [ty dt iv am kl k sl sc bs vl]. simpl in *. subst ty sl.
  unfold free_object. do 3 wp_step. unfold fits, owned in Hf. simpl in Hf.
  eapply (wp_free_opt k [obj] (bufs_of vl)); [exact Hf|].
  intros h1 Hf1. do 3 wp_step.
  assert (∀ h2 d2, fits_list [obj] h2 F →
    WP (cplus_free obj;; mret tt) (λ _ d' h' e', Heap.heap_ok h' F ∧ e' = e) d2 h2 e) as Hlast.
  { intros h2 d2 Hf2. apply wp_bind. eapply (wp_free _ _ _ _ [] []); [exact Hf2|].
    intros h3 (_ & _ & Hok3). apply wp_ret. simpl in Hok3. by rewrite union_empty_l_L in Hok3. }
  destruct vl as [z|len b].
  - destruct dt; try done; wp_step; by apply Hlast.
  - destruct dt; try done; do 2 wp_step;
      (eapply (wp_free_opt b [obj] []); [by rewrite app_nil_r|]);
      intros h2 Hf2; by apply Hlast.
Qed.

(** Deleting an object gives back all it owned. *)
Lemma delete_spec d h e F :
  obj_ok d → fits obj d h F →
  ∃ h', cplus_data_delete obj (here obj os j d h e)
          = Done (CPLUS_SUCCESS, World (delete obj os) h' j e) ∧ Heap.heap_ok h' F.
Proof.
  intros Hok Hf.
  destruct (free_object_spec d h e F Hok Hf) as ([] & d' & h' & e' & E & Hh & ->).
  exists h'. split; [|done]. unfold cplus_data_delete.
  rewrite (bind_Done _ _ _ _ _ (check_here obj os j d h e Hobj (proj1 Hok))).
  rewrite (bind_Done _ _ _ _ _ E). unfold modify, with_objs, here, mbind, C_bind. simpl.
  by rewrite delete_insert_eq.
Qed.

End ops.

(** ** Creation *)

(** The key a constructor was asked for. *)
Definition has_key (d : data) (klen : Z) (k : option (list Z)) : Prop :=
  match k with
  | Some src =>
      if 0 <? klen then ∃ b, key d = Some b ∧
        take (Z.to_nat (klen + 1)) (bytes b) = take (Z.to_nat (klen + 1)) src
      else key d = None
  | None => key d = None
  end.

Definition key_arg (klen : Z) (k : option (list Z)) : Prop :=
  match k with
  | Some src => 0 < klen → klen + 1 ≤ RSIZE_MAX_MEM ∧ klen + 1 ≤ zlen src
  | None => True
  end.

(** What a constructor leaves: nothing, or a consistent object that owns what
    it allocated. *)
Definition made (os : gmap Z data) (j : Z → nat → Z) (F : gset Z) (t : data_type)
    (P : data_value → Prop) (klen : Z) (k : option (list Z)) (o : outcome (Z * world)) : Prop :=
  ∃ p h' e',
    (o = Done (0, World os h' j e') ∧ Heap.heap_ok h' F)
    ∨ (p ≠ 0 ∧ p ∉ F ∧ ∃ d, o = Done (p, here p os j d h' e') ∧ obj_ok d
         ∧ fits p d h' F ∧ dtype d = t ∧ P (value d) ∧ has_key d klen k).

Lemma clear_object_ok t : obj_ok (clear_object t).
Proof. split; [done|]. split; [done|]. split; [done|]. by destruct t. Qed.

Lemma delete_fresh p os j d h e F :
  p ≠ 0 → os !! p = None → obj_ok d → fits p d h F →
  ∃ h', (cplus_data_delete p;; mret 0) (here p os j d h e) = Done (0, World os h' j e)
    ∧ Heap.heap_ok h' F.
Proof.
  intros Hp Hos Hok Hf. destruct (delete_spec p os j Hp d h e F Hok Hf) as (h' & E & Hh).
  exists h'. split; [|done]. rewrite (bind_Done _ _ _ _ _ E).
  by rewrite delete_id.
Qed.

Lemma malloc_cases n os j h e F :
  Heap.heap_ok h F →
  (∃ h', cplus_malloc n (World os h j e) = Done (None, World os h' j ENOMEM) ∧ Heap.heap_ok h' F)
  ∨ (∃ b h', cplus_malloc n (World os h j e) = Done (Some b, World os h' j e)
       ∧ addr b ≠ 0 ∧ addr b ∉ F ∧ Heap.heap_ok h' ({[addr b]} ∪ F)).
Proof.
  intros Hh. unfold cplus_malloc. cbn [heap].
  destruct (Heap.heap_new h F Hh) as (p & h1 & -> & [[-> Hok] | (Hp & HpF & Hok)]).
  - left. by exists h1.
  - right. rewrite (proj2 (Z.eqb_neq p 0)) by done. by eexists (Block p _), h1.
Qed.

(** A constructor, given what the first write of the value does. *)
Lemma initialize_spec ty t v1 v2 klen k os j h e F (P : data_value → Prop) :
  type_of_code ty = t →
  Heap.heap_ok h F → (∀ p, is_Some (os !! p) → p ∈ F) →
  (∀ p h' e', p ≠ 0 → fits p (clear_object t) h' F →
     wp p os j (cplus_data_set_value p (Some v1) v2) (λ r d' h'' e'', obj_ok d' ∧ fits p d' h'' F
       ∧ dtype d' = t ∧ key d' = None ∧ key_len d' = 0 ∧ (r = CPLUS_SUCCESS → P (value d')))
       (clear_object t) h' e') →
  key_arg klen k →
  made os j F t P klen k (data_initialize_object ty (Some v1) v2 klen k (World os h j e)).
Proof.
  intros <- Hh Hos Hset Hk. unfold made, data_initialize_object.
  destruct (malloc_cases struct_size os j h e F Hh)
    as [(h1 & E & Hok1) | (b & h1 & E & Hp & HpF & Hok1)];
    rewrite (bind_Done _ _ _ _ _ E); cbv beta iota zeta.
  { exists 0, h1, ENOMEM. left. done. }
  set (p := addr b) in *.
  assert (modify (with_objs (<[p := clear_object (type_of_code ty)]>)) (World os h1 j e)
    = Done (tt, here p os j (clear_object (type_of_code ty)) h1 e)) as Em by done.
  rewrite (bind_Done _ _ _ _ _ Em).
  assert (os !! p = None) as Hosp.
  { destruct (os !! p) eqn:Ep; [|done]. destruct HpF. apply Hos. by rewrite Ep. }
  assert (fits p (clear_object (type_of_code ty)) h1 F) as Hf1.
  { unfold fits. replace (owned (clear_object (type_of_code ty))) with (@nil Z)
      by (by destruct (type_of_code ty)).
    split; [apply NoDup_singleton|]. split; [set_solver|].
    simpl. by rewrite union_empty_r_L. }
  destruct (Hset p h1 e Hp Hf1) as (r & d1 & h2 & e2 & E2 & Hok2 & Hf2 & Ht2 & Hk2 & Hkl2 & HP).
  rewrite (bind_Done _ _ _ _ _ E2). exists p.
  destruct (Z.eqb_spec r CPLUS_SUCCESS) as [Hr|Hr]; cbn [negb].
  2: { destruct (delete_fresh p os j d1 h2 e2 F Hp Hosp Hok2 Hf2) as (h3 & E3 & Hh3).
       exists h3, e2. by left. }
  specialize (HP Hr). destruct k as [src|].
  2: { exists h2, e2. right. split_and!; [done|done|]. exists d1. by do 5 (split; [done|]). }
  destruct (Z.ltb_spec 0 klen) as [Hl|Hl].
  2: { exists h2, e2. right. split_and!; [done|done|]. exists d1. do 5 (split; [done|]).
       unfold has_key. by rewrite (proj2 (Z.ltb_ge _ _)). }
  destruct (Hk Hl) as [Hkr Hks].
  assert (key_len d1 ≤ RSIZE_MAX_MEM) as Hkm by (rewrite Hkl2; done).
  destruct (set_key_spec p os j Hp klen src F d1 h2 e2 Hok2 Hf2 Hl Hkr Hks Hkm (λ _, Hkl2))
    as (r3 & d3 & h3 & e3 & E3 & Hok3 & Hf3 & Ht3 & Hv3 & Hr3).
  rewrite (bind_Done _ _ _ _ _ E3). destruct Hr3 as [[-> Hkey] | [-> Hkey]].
  - exists h3, e3. right. split_and!; [done|done|]. exists d3.
    do 3 (split; [done|]). split; [by rewrite Ht3|]. split; [by rewrite Hv3|]. unfold has_key. by rewrite (proj2 (Z.ltb_lt _ _)).
  - destruct (delete_fresh p os j d3 h3 e3 F Hp Hosp Hok3 Hf3) as (h4 & E4 & Hh4).
    exists h4, e3. by left.
Qed.

End DataSafe.
