(* ===== verification/DataProps.v ===== *)
(** * DataProps: what a data object promises

    Round trips through the typed writes and reads, the conversions, the text
    and byte buffers, keys and life cycle; cloning; and the paths on which the
    source leaves its lock held, waits for itself, reports a failure after it
    succeeded or reads outside a buffer. *)

From S2P Require Import Prelude Allocator Spinlock Stdio Zlist Memmgr Data DataConv DataInv DataSafe.
From stdpp Require Import base numbers list list_numbers option gmap sets.
From Stdlib Require Import ZArith Lia.
Open Scope Z_scope.

Module DataProps.
Import Spinlock Stdio Memmgr Data DataConv DataInv DataSafe.

(** The typed write and read of a scalar type. *)
Definition set_typed (t : data_type) : Z → Z → M Z :=
  match t with
  | T_BOOL => cplus_data_set_bool
  | T_INT8 => cplus_data_set_int8 | T_INT16 => cplus_data_set_int16
  | T_INT32 => cplus_data_set_int32 | T_INT64 => cplus_data_set_int64
  | T_UINT8 => cplus_data_set_uint8 | T_UINT16 => cplus_data_set_uint16
  | T_UINT32 => cplus_data_set_uint32 | T_UINT64 => cplus_data_set_uint64
  | T_FLOAT => cplus_data_set_float | T_DOUBLE => cplus_data_set_double
  | T_POINTER => cplus_data_set_pointer
  | _ => λ _ _, undef
  end.

Definition get_typed (t : data_type) : Z → M Z :=
  match t with
  | T_BOOL => cplus_data_get_bool
  | T_INT8 => cplus_data_get_int8 | T_INT16 => cplus_data_get_int16
  | T_INT32 => cplus_data_get_int32 | T_INT64 => cplus_data_get_int64
  | T_UINT8 => cplus_data_get_uint8 | T_UINT16 => cplus_data_get_uint16
  | T_UINT32 => cplus_data_get_uint32 | T_UINT64 => cplus_data_get_uint64
  | T_FLOAT => cplus_data_get_float | T_DOUBLE => cplus_data_get_double
  | T_POINTER => cplus_data_get_pointer
  | _ => λ _, undef
  end.

Definition new_typed (t : data_type) : Z → Z → option (list Z) → M Z :=
  match t with
  | T_BOOL => cplus_data_new_bool_ex
  | T_INT8 => cplus_data_new_int8_ex | T_INT16 => cplus_data_new_int16_ex
  | T_INT32 => cplus_data_new_int32_ex | T_INT64 => cplus_data_new_int64_ex
  | T_UINT8 => cplus_data_new_uint8_ex | T_UINT16 => cplus_data_new_uint16_ex
  | T_UINT32 => cplus_data_new_uint32_ex | T_UINT64 => cplus_data_new_uint64_ex
  | T_FLOAT => cplus_data_new_float_ex | T_DOUBLE => cplus_data_new_double_ex
  | T_POINTER => cplus_data_new_pointer_ex
  | _ => λ _ _ _, undef
  end.

(** The integer readers and writers by type. *)
Definition read_as (t : data_type) : Z → Z → M (Z * Z) :=
  match t with
  | T_INT8 => cplus_data_get_as_int8 | T_INT16 => cplus_data_get_as_int16
  | T_INT32 => cplus_data_get_as_int32 | T_INT64 => cplus_data_get_as_int64
  | T_UINT8 => cplus_data_get_as_uint8 | T_UINT16 => cplus_data_get_as_uint16
  | T_UINT32 => cplus_data_get_as_uint32 | T_UINT64 => cplus_data_get_as_uint64
  | _ => λ _ _, undef
  end.

Definition write_as (t : data_type) : Z → Z → M Z :=
  match t with
  | T_INT8 => cplus_data_set_as_int8 | T_INT16 => cplus_data_set_as_int16
  | T_INT32 => cplus_data_set_as_int32 | T_INT64 => cplus_data_set_as_int64
  | T_UINT8 => cplus_data_set_as_uint8 | T_UINT16 => cplus_data_set_as_uint16
  | T_UINT32 => cplus_data_set_as_uint32 | T_UINT64 => cplus_data_set_as_uint64
  | _ => λ _ _, undef
  end.

Lemma read_as_int t : is_int t = true → read_as t = get_as_int t.
Proof. by destruct t. Qed.
Lemma write_as_int t : is_int t = true → write_as t = set_as_int t.
Proof. by destruct t. Qed.
Lemma set_typed_value t : scalar_type t = true →
  set_typed t = λ obj z, cplus_data_set_value obj (arg t z) None.
Proof. by destruct t. Qed.
Lemma new_typed_init t : scalar_type t = true →
  new_typed t = λ z klen k, data_initialize_object (type_code t) (arg t z) None klen k.
Proof. by destruct t. Qed.

(** A run that is known to change nothing, as an equation. *)
Lemma wp_eq {A} obj os j (m : M A) (a : A) d h e :
  wp obj os j m (λ r d' h' e', r = a ∧ d' = d ∧ h' = h ∧ e' = e) d h e →
  m (here obj os j d h e) = Done (a, here obj os j d h e).
Proof. by intros (? & ? & ? & ? & E & -> & -> & -> & ->). Qed.

Section props.
Context (obj : Z) (os : gmap Z data) (j : Z → nat → Z) (Hobj : obj ≠ 0).

Notation at_ := (here obj os j).

Lemma get_typed_spec d h e z :
  obj_ok d → scalar_type (dtype d) = true → value d = Scalar z →
  get_typed (dtype d) obj (at_ d h e) = Done (z, at_ d h e).
Proof.
  destruct d as [ty dt iv am kl k sl sc bs vl]. unfold obj_ok. simpl.
  intros (-> & -> & _ & Hv) Ht ->. apply wp_eq.
  assert (∀ Q : () → data → Heap.heap → Z → Prop, ∀ d h e,
    type d = OBJ_TYPE → Q tt d h e → wp obj os j (CHECK_TYPE obj (dtype d)) Q d h e) as Hc.
  { intros Q d' h' e' Hty HQ. unfold CHECK_TYPE. apply wp_bind, wp_check; [done..|].
    apply wp_bind, wp_field. rewrite bool_decide_true by done. by apply wp_ret. }
  destruct dt; try done; simpl in Hv; apply wp_bind, (Hc _ (mkData _ _ _ _ _ _ _ _ _ _)); (done || wp_go; done).
Qed.

Lemma get_value_scalar d h e z p v2 :
  obj_ok d → scalar_type (dtype d) = true → value d = Scalar z → sizeof (dtype d) ≤ zlen p →
  cplus_data_get_value obj (Some p) v2 (at_ d h e)
  = Done ((sizeof (dtype d), Some (to_bytes (dtype d) z ++ drop (Z.to_nat (sizeof (dtype d))) p), v2),
          at_ d h e).
Proof.
  destruct d as [ty dt iv am kl k sl sc bs vl]. unfold obj_ok. simpl.
  intros (-> & -> & _ & Hv) Ht -> Hp. apply wp_eq.
  assert (length (to_bytes dt z) = Z.to_nat (sizeof dt)) as Hl
    by (pose proof (zlen_to_bytes dt z); unfold zlen in *; lia).
  unfold cplus_data_get_value, put_scalar.
  destruct dt; try done; simpl in Hv; wp_go;
    (apply wp_write_bytes; [by rewrite zlen_to_bytes|]); wp_go; by rewrite Hl.
Qed.

Lemma is_valid_spec d h e :
  cplus_data_is_valid obj (at_ d h e)
  = Done (negb ((15 <=? type_code (dtype d)) || (type_code (dtype d) <=? 0) || negb (is_valid d)), at_ d h e).
Proof.
  apply wp_eq. unfold cplus_data_is_valid. rewrite (proj2 (Z.eqb_neq _ _)) by done. by wp_go.
Qed.

End props.

(** ** Round trips *)

(** C11: a value written through the typed write of the object's type is what the
    typed read, and the raw bytes of [cplus_data_get_value], give back; the
    object becomes valid and its memory stays as it was. *)
Theorem scalar_round_trip obj os j d h e F z p v2 :
  obj ≠ 0 → obj_ok d → fits obj d h F →
  scalar_type (dtype d) = true → scalar_ok (dtype d) z → sizeof (dtype d) ≤ zlen p →
  ∃ d', set_typed (dtype d) obj z (here obj os j d h e)
          = Done (CPLUS_SUCCESS, here obj os j d' h e)
    ∧ obj_ok d' ∧ fits obj d' h F ∧ dtype d' = dtype d
    ∧ get_typed (dtype d) obj (here obj os j d' h e) = Done (z, here obj os j d' h e)
    ∧ cplus_data_get_value obj (Some p) v2 (here obj os j d' h e)
        = Done ((sizeof (dtype d),
                 Some (to_bytes (dtype d) z ++ drop (Z.to_nat (sizeof (dtype d))) p), v2),
                here obj os j d' h e)
    ∧ cplus_data_is_valid obj (here obj os j d' h e) = Done (true, here obj os j d' h e).
Proof.
  intros H0 Hok Hf Ht Hz Hp. exists (with_scalar z d).
  destruct (with_scalar_ok obj z d h F) as [Hok' Hf']; [done..|].
  rewrite set_typed_value by done.
  destruct (set_scalar_spec obj os j H0 d h e z None Hok Ht Hz)
    as (? & ? & ? & ? & -> & -> & -> & -> & ->).
  split; [done|]. split; [done|]. split; [done|]. split; [done|].
  split; [by apply (get_typed_spec obj os j H0 (with_scalar z d))|].
  split; [by apply (get_value_scalar obj os j H0 (with_scalar z d))|].
  rewrite is_valid_spec by done. do 2 f_equal. simpl. by destruct (dtype d).
Qed.

(** C7: writing an integer as any integer type into an object of any integer,
    boolean or pointer type and reading it back as any integer type always
    succeeds, and is the C conversion to the object's type followed by the C
    conversion to the type read. *)
Theorem conversions_are_casts obj os j d h e F s t z v :
  obj ≠ 0 → obj_ok d → fits obj d h F → integral (dtype d) = true →
  is_int s = true → is_int t = true → scalar_ok s z →
  ∃ d', write_as s obj z (here obj os j d h e) = Done (CPLUS_SUCCESS, here obj os j d' h e)
    ∧ obj_ok d' ∧ fits obj d' h F
    ∧ read_as t obj v (here obj os j d' h e)
      = Done ((CPLUS_SUCCESS, cast t (cast (dtype d) z)), here obj os j d' h e).
Proof.
  intros H0 Hok Hf Hd Hs Ht Hz. exists (with_scalar (cast (dtype d) z) d).
  destruct (with_scalar_ok obj (cast (dtype d) z) d h F) as [Hok' Hf'];
    [done|by destruct (dtype d)|by apply cast_idem|done|].
  rewrite write_as_int, read_as_int by done.
  destruct (set_as_int_spec obj os j H0 s d h e z) as (? & ? & ? & ? & -> & -> & -> & -> & ->);
    [done..|].
  split; [done|]. split; [done|]. split; [done|].
  by apply wp_eq, get_as_int_spec.
Qed.

(** C9: an integer of any type written into a string object is printed in
    decimal and read back as the same integer; when there is no memory the
    write fails with [ENOMEM] and the object stays consistent. *)
Theorem text_round_trip obj os j d h e F t z v :
  obj ≠ 0 → obj_ok d → fits obj d h F → dtype d = T_STRING →
  is_int t = true → scalar_ok t z →
  ∃ r d' h' e', write_as t obj z (here obj os j d h e) = Done (r, here obj os j d' h' e')
    ∧ obj_ok d' ∧ fits obj d' h' F ∧ dtype d' = T_STRING
    ∧ (r = CPLUS_SUCCESS ∧ string_is d' (fmt_int t z)
         ∧ read_as t obj v (here obj os j d' h' e')
           = Done ((CPLUS_SUCCESS, z), here obj os j d' h' e')
       ∨ r = CPLUS_FAIL ∧ e' = ENOMEM).
Proof.
  intros H0 Hok Hf Hd Ht Hz. rewrite write_as_int, read_as_int by done.
  destruct (set_as_int_text obj os j H0 t d h e F z)
    as (r & d' & h' & e' & -> & Hok' & [Hd' _] & Hf' & Hr); [done..|].
  exists r, d', h', e'. do 4 (split; [done|]).
  destruct Hr as [(-> & _ & Hs) | (-> & -> & _)]; [left|by right].
  split; [done|]. split; [done|]. apply wp_eq.
  eapply wp_mono; [by apply get_as_int_text|].
  intros r' d2 h2 e2 (-> & -> & Hm). rewrite (scan_as_fmt t z Ht Hz) in Hm. by destruct Hm as [-> ->].
Qed.

Lemma data_size_string obj os j d h e s :
  obj ≠ 0 → obj_ok d → dtype d = T_STRING → string_is d s →
  cplus_data_get_data_size obj (here obj os j d h e) = Done (u32 (zlen s), here obj os j d h e).
Proof.
  intros H0 (Hty & Hsp & _) Ht (len & b & Hv & Hc). apply wp_eq.
  destruct d as [ty dt iv am kl k sl sc bs vl]. simpl in *. subst.
  unfold cplus_data_get_data_size. wp_go. done.
Qed.

Lemma string_len d s : obj_ok d → dtype d = T_STRING → string_is d s → zlen s < 2 ^ 32.
Proof.
  intros (_ & _ & _ & Hv) Ht (len & b & E & Hc). rewrite Ht, E in Hv. simpl in Hv.
  destruct Hv as (Hl & Hr & _). assert (zlen s ≤ zlen (bytes b)); [|lia].
  clear -Hc. revert s Hc. induction (bytes b) as [|c l IH]; intros s; simpl; [done|].
  destruct (c =? 0); [intros [= <-]; unfold zlen; simpl; lia|].
  destruct (cstr l) as [s'|]; [|done]. intros [= <-]. specialize (IH s' eq_refl).
  unfold zlen in *. simpl. lia.
Qed.

(** C36: a C string no longer than the length passed with it is stored whole: its
    size, and the text copied into a caller's buffer with room for it, are the
    string, and the copy answers its length; too small a buffer is refused with
    [ENOBUFS].  The answer is an [int32_t]: the copy of a string longer than that,
    2 GiB or more, is made and reported as a failure. *)
Theorem string_round_trip obj os j d h e F n src s p q :
  obj ≠ 0 → obj_ok d → fits obj d h F → dtype d = T_STRING →
  cstr src = Some s → zlen s ≤ n → n + 1 < 2 ^ 32 → 4 ≤ zlen p →
  let size := of_bytes T_UINT32 (take 4 p) in size ≤ zlen q →
  ∃ r d' h' e', cplus_data_set_string obj n (Some src) (here obj os j d h e)
      = Done (r, here obj os j d' h' e')
    ∧ obj_ok d' ∧ fits obj d' h' F ∧ dtype d' = T_STRING
    ∧ (r = CPLUS_SUCCESS
         ∧ cplus_data_get_data_size obj (here obj os j d' h' e')
           = Done (zlen s, here obj os j d' h' e')
         ∧ cplus_data_get_value obj (Some p) (Some q) (here obj os j d' h' e')
           = Done (if size <? zlen s + 1
                   then ((CPLUS_FAIL, Some p, Some q), here obj os j d' h' ENOBUFS)
                   else if INT32_MAX <? zlen s
                   then ((-1, Some p, Some (s ++ 0 :: drop (S (length s)) q)), here obj os j d' h' EOVERFLOW)
                   else ((zlen s, Some p, Some (s ++ 0 :: drop (S (length s)) q)),
                         here obj os j d' h' e'))
       ∨ r = CPLUS_FAIL ∧ e' = ENOMEM).
Proof.
  intros H0 Hok Hf Ht Hs Hn Hn2 Hp size Hq.
  destruct (obj_ok_buffer d Hok (or_introl Ht)) as (len & b & Hv).
  destruct (obj_ok_string d len b Hok Ht Hv) as [Hl _]. pose proof (zlen_nonneg s).
  destruct (set_string_spec obj os j H0 n src s F len b d h e)
    as (r & d' & h' & e' & E & Hok' & [Hd' _] & Hf' & Hr); [done|done|done|done|lia|lia|done|].
  rewrite take_ge in Hr by (unfold zlen in *; destruct b; simpl; lia).
  exists r, d', h', e'. do 4 (split; [done|]).
  destruct Hr as [(-> & _ & Hsi) | (-> & -> & _)]; [left|by right].
  split; [done|]. split.
  - rewrite (data_size_string _ _ _ _ _ _ s) by done.
    pose proof (string_len d' s Hok' Hd' Hsi). by rewrite u32_small by lia.
  - destruct (get_value_string_spec obj os j H0 p q s d' h' e')
      as (r2 & d2 & h2 & e2 & -> & -> & -> & Hr2); [done..|].
    fold size in Hr2. destruct (size <? zlen s + 1); [|destruct (INT32_MAX <? zlen s)]; by destruct Hr2 as [-> ->].
Qed.

(** C37: the bytes written into a byte array are the bytes read back, unless the
    caller's buffer is too small; a null source stores zeros. *)
Theorem array_round_trip obj os j d h e F n v2 p q :
  obj ≠ 0 → obj_ok d → fits obj d h F → dtype d = T_BYTE_ARRAY →
  bufs_size d ≤ RSIZE_MAX_MEM → value d = Buffer 0 None ∨ bufs_of (value d) ≠ [] →
  0 < n ≤ RSIZE_MAX_MEM → match v2 with Some src => n ≤ zlen src | None => True end →
  4 ≤ zlen p →
  let size := of_bytes T_UINT32 (take 4 p) in size ≤ zlen q → size ≤ RSIZE_MAX_MEM →
  let bs := array_source n v2 in
  ∃ r d' h' e', cplus_data_set_byte_array obj n v2 (here obj os j d h e)
      = Done (r, here obj os j d' h' e')
    ∧ obj_ok d' ∧ fits obj d' h' F ∧ dtype d' = T_BYTE_ARRAY
    ∧ (r = CPLUS_SUCCESS
         ∧ cplus_data_get_value obj (Some p) (Some q) (here obj os j d' h' e')
           = Done (if size <? n
                   then ((CPLUS_FAIL, Some p, Some q), here obj os j d' h' ENOBUFS)
                   else ((n, Some p, Some (bs ++ drop (length bs) q)), here obj os j d' h' e'))
       ∨ r = CPLUS_FAIL ∧ e' = ENOMEM).
Proof.
  intros H0 Hok Hf Ht Hbs Hinit Hn Hs Hp size Hq Hsz bs.
  destruct (obj_ok_buffer d Hok (or_intror Ht)) as (len & b & Hv).
  assert (len ≤ RSIZE_MAX_MEM) as Hlen.
  { destruct Hok as (_ & _ & _ & Hval). rewrite Ht, Hv in Hval. rewrite Hv in Hinit.
    destruct b; simpl in *; [lia|]. unfold RSIZE_MAX_MEM.
    destruct Hinit as [[= ->]|]; [lia|done]. }
  destruct (set_array_spec obj os j H0 n v2 F len b d h e)
    as (r & d' & h' & e' & E & Hok' & [Hd' _] & Hf' & Hr); [done|done|done|done|lia|done|done|].
  assert (zlen bs = n) as Hzn by (apply zlen_array_source; [lia|done]).
  exists r, d', h', e'. do 4 (split; [done|]).
  destruct Hr as [(-> & _ & Ha) | (-> & -> & _)]; [left|by right].
  split; [done|].
  destruct (get_value_array_spec obj os j H0 p q bs d' h' e')
    as (r2 & d2 & h2 & e2 & -> & -> & -> & Hr2); [done..| |].
  { intros Hnil. rewrite Hnil in Hzn. unfold zlen in Hzn. simpl in Hzn. lia. }
  fold size in Hr2. rewrite Hzn in Hr2. destruct (size <? n); by destruct Hr2 as [-> ->].
Qed.

(** a key set with its length is the key read back, with its final zero; the
    value is untouched; out of memory leaves a consistent object without a
    key. *)
Theorem key_round_trip obj os j d h e F n src :
  obj ≠ 0 → obj_ok d → fits obj d h F → 0 < n → n + 1 ≤ RSIZE_MAX_MEM → n + 1 ≤ zlen src →
  key_len d ≤ RSIZE_MAX_MEM → (key d = None → key_len d = 0) →
  ∃ r d' h' e', cplus_data_set_key obj n (Some src) (here obj os j d h e)
      = Done (r, here obj os j d' h' e')
    ∧ obj_ok d' ∧ fits obj d' h' F ∧ dtype d' = dtype d ∧ value d' = value d
    ∧ ∃ k, cplus_data_get_key obj (here obj os j d' h' e') = Done (k, here obj os j d' h' e')
      ∧ match k with
        | Some b => r = CPLUS_SUCCESS
            ∧ take (Z.to_nat (n + 1)) (bytes b) = take (Z.to_nat (n + 1)) src
        | None => r = CPLUS_FAIL
        end.
Proof.
  intros H0 Hok Hf Hn Hn2 Hs Hk Hk0.
  destruct (set_key_spec obj os j H0 n src F d h e)
    as (r & d' & h' & e' & E & Hok' & Hf' & Ht' & Hv' & Hr); [done..|].
  exists r, d', h', e'. do 5 (split; [done|]). exists (key d'). split.
  - apply wp_eq. unfold cplus_data_get_key.
    apply wp_bind, wp_check; [done|apply Hok'|]. by apply wp_field.
  - by destruct Hr as [(-> & b & -> & Hb) | (-> & ->)].
Qed.

(** ** Life cycle *)

(** What a constructor is asked to make. *)
Inductive maker :=
| MScalar (t : data_type) (z : Z)
| MString (n : Z) (s : option (list Z))
| MArray (n : Z) (a : option (list Z)).

Definition new_ex (mk : maker) (klen : Z) (k : option (list Z)) : M Z :=
  match mk with
  | MScalar t z => new_typed t z klen k
  | MString n s => cplus_data_new_string_ex n s klen k
  | MArray n a => cplus_data_new_byte_array_ex n a klen k
  end.

Definition maker_type (mk : maker) : data_type :=
  match mk with MScalar t _ => t | MString _ _ => T_STRING | MArray _ _ => T_BYTE_ARRAY end.

Definition maker_ok (mk : maker) : Prop :=
  match mk with
  | MScalar t z => scalar_type t = true ∧ scalar_ok t z
  | MString n s => 0 ≤ n ∧ n + 1 ≤ RSIZE_MAX_MEM
      ∧ match s with Some src => is_Some (cstr src) | None => True end
  | MArray n a => 0 ≤ n ≤ RSIZE_MAX_MEM
      ∧ match a with Some src => n ≤ zlen src | None => True end
  end.

(** The value of the new object. *)
Definition content (mk : maker) (v : data_value) : Prop :=
  match mk with
  | MScalar _ z => v = Scalar z
  | MString n s => ∃ len b, v = Buffer len (Some b) ∧
      cstr (bytes b) = match s with Some src => take (Z.to_nat n) <$> cstr src | None => Some [] end
  | MArray n a => ∃ b, v = Buffer n (Some b) ∧ take (Z.to_nat n) (bytes b) = array_source n a
  end.

Lemma first_write mk p os j h e F :
  p ≠ 0 → maker_ok mk → fits p (clear_object (maker_type mk)) h F →
  let '(v1, v2) := match mk with
    | MScalar t z => (to_bytes t z, None)
    | MString n s => (to_bytes T_UINT32 n, s)
    | MArray n a => (to_bytes T_UINT32 n, a)
    end in
  wp p os j (cplus_data_set_value p (Some v1) v2) (λ r d' h' e', obj_ok d' ∧ fits p d' h' F
    ∧ dtype d' = maker_type mk ∧ key d' = None ∧ key_len d' = 0 ∧ (r = CPLUS_SUCCESS → content mk (value d')))
    (clear_object (maker_type mk)) h e.
Proof.
  intros Hp Hm Hf. pose proof (clear_object_ok (maker_type mk)) as Hok.
  destruct mk as [t z|n s|n a]; simpl in Hm |- *.
  - destruct Hm as [Ht Hz].
    eapply wp_mono; [apply (set_scalar_spec p os j Hp (clear_object t) h e z None Hok Ht Hz)|].
    intros r d' h' e' (-> & -> & -> & ->).
    destruct (with_scalar_ok p z (clear_object t) h F) as [H1 H2]; [done..|].
    by do 5 (split; [done|]).
  - destruct Hm as (Hn & Hr & Hs).
    assert (∀ t, (match s with Some src => take (Z.to_nat n) <$> cstr src | None => Some [] end) = Some t →
      wp p os j (cplus_data_set_string p n s) (printed p F (clear_object T_STRING) t) (clear_object T_STRING) h e →
      wp p os j (cplus_data_set_string p n s) (λ r d' h' e', obj_ok d' ∧ fits p d' h' F
        ∧ dtype d' = T_STRING ∧ key d' = None ∧ key_len d' = 0
        ∧ (r = CPLUS_SUCCESS → content (MString n s) (value d')))
        (clear_object T_STRING) h e) as Hgo.
    { intros t Ht Hw. eapply wp_mono; [exact Hw|].
      intros r d' h' e' (H1 & (H2 & H5 & H6) & H3 & H4). do 5 (split; [done|]). intros ->.
      destruct H4 as [(_ & _ & len & b & Hv & Hc) | (? & _)]; [|done].
      exists len, b. by rewrite Ht. }
    destruct s as [src|].
    + destruct Hs as [s Hs]. eapply Hgo; [by rewrite Hs|].
      replace (Z.to_nat n) with (Z.to_nat (room 0 (n + 1) None - 1)) by (simpl; lia).
      unfold RSIZE_MAX_MEM in Hr.
      by apply (set_string_spec p os j Hp n src s F 0 None); [..|lia|lia|].
    + eapply Hgo; [done|]. by apply (clear_string_spec p os j Hp n F 0 None).
  - destruct Hm as (Hn & Hs).
    assert (zlen (array_source n a) = n) as Hz by (apply zlen_array_source; [lia|done]).
    eapply wp_mono; [by apply (set_array_spec p os j Hp n a F 0 None)|].
    intros r d' h' e' (H1 & (H2 & H5 & H6) & H3 & H4). do 5 (split; [done|]). intros ->.
    destruct H4 as [(_ & _ & b & Hv & Hb) | (? & _)]; [|done].
    exists b. rewrite Hz in Hv. split; [done|].
    unfold zlen in Hz. by rewrite <- Hz at 1; rewrite Nat2Z.id.
Qed.

(** C10: every constructor either returns NULL and leaves the heap and the objects
    as they were, or a new object with the value and the key asked for, on
    memory nobody else uses; deleting it gives all of it back. *)
Theorem new_then_delete mk klen k os j h e F :
  Heap.heap_ok h F → (∀ p, is_Some (os !! p) → p ∈ F) → maker_ok mk → key_arg klen k →
  made os j F (maker_type mk) (content mk) klen k (new_ex mk klen k (World os h j e))
  ∧ ∀ p w, new_ex mk klen k (World os h j e) = Done (p, w) → p ≠ 0 →
      ∃ h' e', cplus_data_delete p w = Done (CPLUS_SUCCESS, World os h' j e')
        ∧ Heap.heap_ok h' F.
Proof.
  intros Hh Hos Hm Hk.
  assert (made os j F (maker_type mk) (content mk) klen k (new_ex mk klen k (World os h j e))) as Hmade.
  { pose proof (first_write mk) as Hw.
    destruct mk as [t z|n s|n a]; simpl in Hw |- *.
    - destruct Hm as [Ht Hz]. rewrite new_typed_init by done.
      apply initialize_spec; [by apply type_code_inv|done..| |done].
      intros. by apply Hw.
    - apply initialize_spec; [done..| |done]. intros. by apply Hw.
    - apply initialize_spec; [done..| |done]. intros. by apply Hw. }
  split; [done|]. intros p w E Hp. rewrite E in Hmade.
  destruct Hmade as (p' & h' & e' & [[[= -> ->] _] | (Hp' & HpF & d & [= -> ->] & Hok & Hf & _)]);
    [done|].
  destruct (delete_spec p' os j Hp d h' e' F Hok Hf) as (h2 & E2 & Hh2).
  exists h2, e'. split; [|done]. rewrite E2. unfold here.
  rewrite delete_id; [done|].
  destruct (os !! p') eqn:Ep; [|done]. destruct HpF. apply Hos. by rewrite Ep.
Qed.

(** ** Paths that go wrong *)

Lemma locked_taken {A} obj os j (m : M A) d h e :
  spinlock d = 1 → locked obj m (here obj os j d h e) = Hangs.
Proof. intros Hl. apply bind_hangs. by apply lock_taken. Qed.

(** On an object whose lock is held, a write of the array waits for ever. *)
Lemma set_array_hangs obj os j d h e n v2 :
  obj ≠ 0 → type d = OBJ_TYPE → dtype d = T_BYTE_ARRAY → spinlock d = 1 →
  cplus_data_set_byte_array obj n v2 (here obj os j d h e) = Hangs.
Proof.
  intros H0 Hty Ht Hl. unfold cplus_data_set_byte_array, cplus_data_set_value, arg.
  rewrite (bind_Done _ _ _ _ _ (check_here obj os j d h e H0 Hty)).
  rewrite (bind_Done _ _ _ _ _ (field_here obj os j dtype d h e)), Ht.
  apply bind_hangs. by apply lock_taken.
Qed.

Lemma data_size_hangs obj os j d h e :
  obj ≠ 0 → type d = OBJ_TYPE → dtype d = T_BYTE_ARRAY → spinlock d = 1 →
  cplus_data_get_data_size obj (here obj os j d h e) = Hangs.
Proof.
  intros H0 Hty Ht Hl. unfold cplus_data_get_data_size.
  rewrite (bind_Done _ _ _ _ _ (check_here obj os j d h e H0 Hty)).
  rewrite (bind_Done _ _ _ _ _ (field_here obj os j dtype d h e)), Ht.
  by apply locked_taken.
Qed.

(** Code bug: [cplus_data_get_value] on an empty byte array answers failure
    without releasing the spin lock: the size can no longer be asked for and the
    array no longer be written, the calls never return. *)
Theorem empty_array_keeps_the_lock obj os j d h e b p q :
  obj ≠ 0 → obj_ok d → dtype d = T_BYTE_ARRAY → value d = Buffer 0 b →
  4 ≤ zlen p → 0 ≤ of_bytes T_UINT32 (take 4 p) →
  ∃ d', cplus_data_get_value obj (Some p) (Some q) (here obj os j d h e)
          = Done ((CPLUS_FAIL, Some p, Some q), here obj os j d' h EINVAL)
    ∧ (∀ h e, cplus_data_get_data_size obj (here obj os j d' h e) = Hangs)
    ∧ (∀ h e n v2, cplus_data_set_byte_array obj n v2 (here obj os j d' h e) = Hangs).
Proof.
  intros H0 (Hty & Hsp & _) Ht Hv Hp Hs. exists (set_spinlock 1 d).
  destruct d as [ty dt iv am kl k sl sc bs vl]. simpl in *. subst.
  split; [|split; intros; [by apply data_size_hangs|by apply set_array_hangs]].
  assert (wp obj os j (cplus_data_get_value obj (Some p) (Some q))
    (λ r d' h' e', r = (CPLUS_FAIL, Some p, Some q) ∧ h' = h ∧ e' = EINVAL
       ∧ d' = mkData OBJ_TYPE T_BYTE_ARRAY iv am kl k 1 sc bs (Buffer 0 b))
    (mkData OBJ_TYPE T_BYTE_ARRAY iv am kl k 0 sc bs (Buffer 0 b)) h e)
    as (r & d' & h' & e' & -> & -> & -> & -> & ->); [|done].
  unfold cplus_data_get_value. do 6 wp_step. unfold read_len. do 2 wp_step.
  apply wp_read_bytes; [done|]. wp_go.
  change (Z.to_nat 4) with 4%nat. rewrite (proj2 (Z.ltb_ge _ 0)) by done.
  wp_go. apply wp_copy_into with (r := Null).
  - simpl. destruct (_ =? 0); [by destruct b|]. destruct (RSIZE_MAX_MEM <? _); by destruct b.
  - cbv beta iota. by wp_go.
Qed.

(** Code bug: on a byte array, [cplus_data_set_as_double] and
    [cplus_data_set_as_pointer] take the spin lock and then call
    [cplus_data_set_byte_array], which waits for it: they never return. *)
Theorem set_as_double_waits_for_itself obj os j d h e x :
  obj ≠ 0 → obj_ok d → dtype d = T_BYTE_ARRAY →
  cplus_data_set_as_double obj x (here obj os j d h e) = Hangs
  ∧ cplus_data_set_as_pointer obj x (here obj os j d h e) = Hangs.
Proof.
  intros H0 (Hty & Hsp & _) Ht.
  split; unfold cplus_data_set_as_double, cplus_data_set_as_pointer;
    rewrite (bind_Done _ _ _ _ _ (check_here obj os j d h e H0 Hty));
    rewrite (bind_Done _ _ _ _ _ (lock_here obj os j d h e Hsp));
    rewrite (bind_Done _ _ _ _ _ (field_here obj os j dtype (set_spinlock 1 d) h e));
    change (dtype (set_spinlock 1 d)) with (dtype d); rewrite Ht;
    apply bind_hangs; by apply set_array_hangs.
Qed.


(** [cplus_data_set_as_byte_array] copies over the final zero of a text: the
    next operation that looks for the end of the string reads past its block. *)
Lemma string_left_unterminated obj os j d h e len b bs n :
  obj ≠ 0 → obj_ok d → dtype d = T_STRING → value d = Buffer len (Some b) →
  len + 1 ≤ n < 2 ^ 32 → n ≤ zlen bs → text bs →
  ∃ d', cplus_data_set_as_byte_array obj n (Some bs) (here obj os j d h e)
          = Done (CPLUS_FAIL, here obj os j d' h e)
    ∧ cplus_data_get_data_size obj (here obj os j d' h e) = Undefined.
Proof.
  intros H0 (Hty & Hsp & _ & Hval) Ht Hv Hn Hb Htx.
  destruct d as [ty dt iv am kl k sl sc bsz vl]. simpl in *. subst. simpl in Hval.
  destruct Hval as (Hlen & Hr & _).
  set (c := take (Z.to_nat len) bs).
  assert (take (Z.to_nat len) bs ++ drop (Z.to_nat len) (bytes b) = c) as Hc.
  { rewrite drop_ge, app_nil_r; [done|]. unfold zlen in Hlen. lia. }
  assert (wp obj os j (cplus_data_set_as_byte_array obj n (Some bs))
    (λ r d' h' e', r = CPLUS_FAIL ∧ h' = h ∧ e' = e
       ∧ d' = mkData OBJ_TYPE T_STRING true am kl k 0 sc bsz (Buffer len (Some (Block (addr b) c))))
    (mkData OBJ_TYPE T_STRING iv am kl k 0 sc bsz (Buffer len (Some b))) h e)
    as (r & d' & h' & e' & E & -> & -> & -> & ->).
  { unfold cplus_data_set_as_byte_array, mark_valid. wp_go.
    rewrite bool_decide_true by done. rewrite u32_small, (proj2 (Z.ltb_ge n _)) by lia. wp_go.
    eapply wp_copy_into.
    { simpl. rewrite (proj2 (Z.eqb_neq len 0)) by lia. apply memcpy_ok; lia. }
    cbv beta iota. rewrite Hc. by wp_go. }
  set (d' := mkData OBJ_TYPE T_STRING true am kl k 0 sc bsz (Buffer len (Some (Block (addr b) c)))) in E.
  exists d'. split; [exact E|].
  unfold cplus_data_get_data_size.
  rewrite (bind_Done _ _ _ _ _ (check_here obj os j d' h e H0 eq_refl)).
  rewrite (bind_Done _ _ _ _ _ (field_here obj os j dtype d' h e)). cbn [dtype d']. unfold locked.
  rewrite (bind_Done _ _ _ _ _ (lock_here obj os j d' h e eq_refl)).
  apply bind_undef.
  rewrite (bind_Done _ _ _ _ _ (load_buffer_here obj os j (set_spinlock 1 d') h e len _ eq_refl)).
  apply bind_undef. unfold string_of, deref. simpl.
  assert (cstr c = None) as ->; [|done].
  assert (text c) as Hct by by apply Forall_take.
  clear -Hct. induction Hct as [|x l Hx _ IH]; simpl; [done|].
  destruct (Z.eqb_spec x 0); [done|]. by rewrite IH.
Qed.

(** After a key could not be allocated, a shorter key is accepted and lost. *)
Lemma key_lost_after_failure obj os j d h e n src :
  obj ≠ 0 → obj_ok d → key d = None → 0 < n → n + 1 ≤ key_len d →
  cplus_data_set_key obj n (Some src) (here obj os j d h e)
    = Done (CPLUS_SUCCESS, here obj os j d h EINVAL)
  ∧ cplus_data_get_key obj (here obj os j d h EINVAL) = Done (None, here obj os j d h EINVAL).
Proof.
  intros H0 (Hty & Hsp & [Hk _] & _) Hkey Hn Hl.
  destruct d as [ty dt iv am kl k sl sc bsz vl]. simpl in *. subst. split.
  - assert (wp obj os j (cplus_data_set_key obj n (Some src))
      (λ r d' h' e', r = CPLUS_SUCCESS ∧ h' = h ∧ e' = EINVAL
         ∧ d' = mkData OBJ_TYPE dt iv am kl None 0 sc bsz vl)
      (mkData OBJ_TYPE dt iv am kl None 0 sc bsz vl) h e)
      as (r & d' & h' & e' & E & -> & -> & -> & ->); [|done].
    unfold cplus_data_set_key. do 2 wp_step.
    rewrite Z.geb_leb, (proj2 (Z.leb_gt n 0)) by lia. do 2 wp_step.
    rewrite u32_small by lia. do 2 wp_step. rewrite (proj2 (Z.leb_le _ _)) by done.
    unfold copy_key. by wp_go.
  - apply wp_eq. unfold cplus_data_get_key. by wp_go.
Qed.

(** ** Cloning *)

Lemma field_other {A} dest src os j (f : data → A) d ds h e :
  src ≠ dest → os !! src = Some ds →
  field src f (here dest os j d h e) = Done (f ds, here dest os j d h e).
Proof.
  intros Hne Hs. unfold field, deref, here. simpl.
  by rewrite lookup_insert_ne, Hs by done.
Qed.

Lemma check_other dest src os j d ds h e :
  src ≠ dest → src ≠ 0 → os !! src = Some ds → type ds = OBJ_TYPE →
  CHECK_OBJECT_TYPE src (here dest os j d h e) = Done (tt, here dest os j d h e).
Proof.
  intros Hne H0 Hs Ht. unfold CHECK_OBJECT_TYPE. rewrite (proj2 (Z.eqb_neq _ _)) by done.
  rewrite (bind_Done _ _ _ _ _ (field_other dest src os j type d ds h e Hne Hs)), Ht.
  by rewrite Z.eqb_refl.
Qed.

Lemma load_buffer_other dest src os j d ds h e len b :
  src ≠ dest → os !! src = Some ds → value ds = Buffer len b →
  load_buffer src (here dest os j d h e) = Done ((len, b), here dest os j d h e).
Proof.
  intros Hne Hs Hv. unfold load_buffer, deref, here. simpl.
  rewrite lookup_insert_ne, Hs by done. simpl. by rewrite Hv.
Qed.

(** A scalar is copied to another object of the same type. *)
Lemma clone_scalar dest src os j d ds h e :
  dest ≠ 0 → src ≠ 0 → src ≠ dest → os !! src = Some ds → obj_ok d → obj_ok ds →
  dtype d = dtype ds → scalar_type (dtype ds) = true →
  cplus_data_clone_value dest src (here dest os j d h e)
  = Done (CPLUS_SUCCESS, here dest os j (set_value (value ds) d) h e).
Proof.
  intros H0 H1 Hne Hs (Hty & _) (Htys & _) Ht Hsc. unfold cplus_data_clone_value.
  rewrite (bind_Done _ _ _ _ _ (check_here dest os j d h e H0 Hty)).
  rewrite (bind_Done _ _ _ _ _ (check_other dest src os j d ds h e Hne H1 Hs Htys)).
  rewrite (bind_Done _ _ _ _ _ (field_here dest os j dtype d h e)).
  rewrite (bind_Done _ _ _ _ _ (field_other dest src os j dtype d ds h e Hne Hs)).
  rewrite bool_decide_true by done. cbn [negb].
  assert ((distinct dest src;; v ← field src value; upd dest (set_value v);; mret CPLUS_SUCCESS)
    (here dest os j d h e) = Done (CPLUS_SUCCESS, here dest os j (set_value (value ds) d) h e)) as E.
  { unfold distinct. rewrite (proj2 (Z.eqb_neq _ _)) by done. rewrite bind_ret.
    rewrite (bind_Done _ _ _ _ _ (field_other dest src os j value d ds h e Hne Hs)).
    by rewrite (bind_Done _ _ _ _ _ (upd_here dest os j (set_value (value ds)) d h e)). }
  rewrite Ht. by destruct (dtype ds).
Qed.

(** Cloning a text into an object with a bigger buffer reads the length of the
    destination from the source's block: past its end. *)
Lemma clone_string_overreads dest src os j d ds h e dlen db slen sb :
  dest ≠ 0 → src ≠ 0 → src ≠ dest → os !! src = Some ds → obj_ok d → obj_ok ds →
  dtype d = T_STRING → dtype ds = T_STRING →
  value d = Buffer dlen (Some db) → value ds = Buffer slen (Some sb) → slen < dlen →
  cplus_data_clone_value dest src (here dest os j d h e) = Undefined.
Proof.
  intros H0 H1 Hne Hs (Hty & _) (Htys & _ & _ & Hvs) Ht Hts Hv Hvs' Hlt.
  rewrite Hts, Hvs' in Hvs. destruct Hvs as (Hzs & Hr & _).
  unfold cplus_data_clone_value.
  rewrite (bind_Done _ _ _ _ _ (check_here dest os j d h e H0 Hty)).
  rewrite (bind_Done _ _ _ _ _ (check_other dest src os j d ds h e Hne H1 Hs Htys)).
  rewrite (bind_Done _ _ _ _ _ (field_here dest os j dtype d h e)).
  rewrite (bind_Done _ _ _ _ _ (field_other dest src os j dtype d ds h e Hne Hs)).
  rewrite Ht, Hts, bool_decide_true by done. cbn [negb].
  rewrite (bind_Done _ _ _ _ _ (field_other dest src os j str_code d ds h e Hne Hs)).
  rewrite (bind_Done _ _ _ _ _ (upd_here dest os j (set_str_code (str_code ds)) d h e)).
  set (d' := set_str_code (str_code ds) d).
  rewrite (bind_Done _ _ _ _ _ (load_buffer_other dest src os j d' ds h e slen _ Hne Hs Hvs')).
  cbv beta iota.
  assert (load_buffer dest (here dest os j d' h e) = Done ((dlen, Some db), here dest os j d' h e)) as El
    by by apply load_buffer_here.
  rewrite (bind_Done _ _ _ _ _ El). cbv beta iota.
  rewrite (proj2 (Z.ltb_ge _ _)) by lia. unfold clone_bytes.
  rewrite (bind_Done _ _ _ _ _ El). cbv beta iota.
  rewrite (bind_Done _ _ _ _ _ (load_buffer_other dest src os j d' ds h e slen _ Hne Hs Hvs')).
  cbv beta iota. rewrite (proj2 (Z.eqb_neq dlen 0)) by lia.
  unfold distinct. rewrite (proj2 (Z.eqb_neq _ _)) by done. rewrite bind_ret.
  apply bind_undef. unfold copy_into. apply bind_undef. unfold lift. simpl.
  rewrite (proj2 (Z.eqb_neq dlen 0)) by lia. unfold memcpy.
  by rewrite (proj2 (Z.leb_gt dlen (zlen (bytes sb)))), andb_false_r by lia.
Qed.

(** ** Witnesses *)

(** An object at address 1 on a heap that holds nothing else. *)
Definition demo_heap : Heap.heap := Heap.mkHeap 10 [] {[1]}.
Definition demo (t : data_type) : data := clear_object t.
Definition no_junk : Z → nat → Z := λ _ _, 0.

Lemma demo_ok t : obj_ok (demo t).
Proof. apply clear_object_ok. Defined.

Lemma demo_fits t : fits 1 (demo t) demo_heap ∅.
Proof.
  unfold fits. replace (owned (demo t)) with (@nil Z) by (by destruct t).
  split; [apply NoDup_singleton|]. split; [set_solver|]. split; [|split].
  - apply set_eq. intros p. simpl. set_solver.
  - simpl. lia.
  - intros p. simpl. rewrite !elem_of_union, elem_of_singleton, !elem_of_empty.
    intros [[-> | []] | []]; lia.
Defined.

Lemma scalar_round_trip_witness :
  ∃ d', set_typed T_INT16 1 (-2) (here 1 ∅ no_junk (demo T_INT16) demo_heap 0)
          = Done (CPLUS_SUCCESS, here 1 ∅ no_junk d' demo_heap 0)
    ∧ obj_ok d' ∧ fits 1 d' demo_heap ∅ ∧ dtype d' = T_INT16
    ∧ get_typed T_INT16 1 (here 1 ∅ no_junk d' demo_heap 0)
      = Done (-2, here 1 ∅ no_junk d' demo_heap 0)
    ∧ cplus_data_get_value 1 (Some [9; 9; 9]) None (here 1 ∅ no_junk d' demo_heap 0)
      = Done ((2, Some (to_bytes T_INT16 (-2) ++ [9]), None), here 1 ∅ no_junk d' demo_heap 0)
    ∧ cplus_data_is_valid 1 (here 1 ∅ no_junk d' demo_heap 0)
      = Done (true, here 1 ∅ no_junk d' demo_heap 0).
Proof.
  apply (scalar_round_trip 1 ∅ no_junk (demo T_INT16) demo_heap 0 ∅ (-2) [9; 9; 9] None);
    [lia|apply demo_ok|apply demo_fits|reflexivity|reflexivity|vm_compute; discriminate].
Defined.

Lemma conversions_are_casts_witness :
  ∃ d', write_as T_INT32 1 (-1) (here 1 ∅ no_junk (demo T_UINT8) demo_heap 0)
          = Done (CPLUS_SUCCESS, here 1 ∅ no_junk d' demo_heap 0)
    ∧ obj_ok d' ∧ fits 1 d' demo_heap ∅
    ∧ read_as T_INT16 1 0 (here 1 ∅ no_junk d' demo_heap 0)
      = Done ((CPLUS_SUCCESS, 255), here 1 ∅ no_junk d' demo_heap 0).
Proof.
  apply (conversions_are_casts 1 ∅ no_junk (demo T_UINT8) demo_heap 0 ∅ T_INT32 T_INT16 (-1) 0);
    [lia|apply demo_ok|apply demo_fits|reflexivity..].
Defined.

Lemma text_round_trip_witness :
  ∃ r d' h' e', write_as T_INT8 1 (-128) (here 1 ∅ no_junk (demo T_STRING) demo_heap 0)
      = Done (r, here 1 ∅ no_junk d' h' e')
    ∧ obj_ok d' ∧ fits 1 d' h' ∅ ∧ dtype d' = T_STRING
    ∧ (r = CPLUS_SUCCESS ∧ string_is d' [45; 49; 50; 56]
         ∧ read_as T_INT8 1 0 (here 1 ∅ no_junk d' h' e')
           = Done ((CPLUS_SUCCESS, -128), here 1 ∅ no_junk d' h' e')
       ∨ r = CPLUS_FAIL ∧ e' = ENOMEM).
Proof.
  apply (text_round_trip 1 ∅ no_junk (demo T_STRING) demo_heap 0 ∅ T_INT8 (-128) 0);
    [lia|apply demo_ok|apply demo_fits|reflexivity..].
Defined.

Lemma string_round_trip_witness :
  ∃ r d' h' e', cplus_data_set_string 1 2 (Some [104; 105; 0])
        (here 1 ∅ no_junk (demo T_STRING) demo_heap 0)
      = Done (r, here 1 ∅ no_junk d' h' e')
    ∧ obj_ok d' ∧ fits 1 d' h' ∅ ∧ dtype d' = T_STRING
    ∧ (r = CPLUS_SUCCESS
         ∧ cplus_data_get_data_size 1 (here 1 ∅ no_junk d' h' e')
           = Done (2, here 1 ∅ no_junk d' h' e')
         ∧ cplus_data_get_value 1 (Some [4; 0; 0; 0]) (Some [1; 1; 1; 1]) (here 1 ∅ no_junk d' h' e')
           = Done ((2, Some [4; 0; 0; 0], Some [104; 105; 0; 1]), here 1 ∅ no_junk d' h' e')
       ∨ r = CPLUS_FAIL ∧ e' = ENOMEM).
Proof.
  apply (string_round_trip 1 ∅ no_junk (demo T_STRING) demo_heap 0 ∅ 2 [104; 105; 0] [104; 105]
    [4; 0; 0; 0] [1; 1; 1; 1]);
    [lia|apply demo_ok|apply demo_fits|reflexivity|reflexivity|vm_compute; discriminate|lia
    |vm_compute; discriminate|vm_compute; discriminate].
Defined.

Lemma array_round_trip_witness :
  ∃ r d' h' e', cplus_data_set_byte_array 1 2 (Some [7; 8])
        (here 1 ∅ no_junk (demo T_BYTE_ARRAY) demo_heap 0)
      = Done (r, here 1 ∅ no_junk d' h' e')
    ∧ obj_ok d' ∧ fits 1 d' h' ∅ ∧ dtype d' = T_BYTE_ARRAY
    ∧ (r = CPLUS_SUCCESS
         ∧ cplus_data_get_value 1 (Some [3; 0; 0; 0]) (Some [1; 1; 1]) (here 1 ∅ no_junk d' h' e')
           = Done ((2, Some [3; 0; 0; 0], Some [7; 8; 1]), here 1 ∅ no_junk d' h' e')
       ∨ r = CPLUS_FAIL ∧ e' = ENOMEM).
Proof.
  apply (array_round_trip 1 ∅ no_junk (demo T_BYTE_ARRAY) demo_heap 0 ∅ 2 (Some [7; 8])
    [3; 0; 0; 0] [1; 1; 1]);
    [lia|apply demo_ok|apply demo_fits|reflexivity|vm_compute; discriminate|by left
    |vm_compute; split; [reflexivity|discriminate]|vm_compute; discriminate..].
Defined.

Lemma key_round_trip_witness :
  ∃ r d' h' e', cplus_data_set_key 1 2 (Some [107; 49; 0])
        (here 1 ∅ no_junk (demo T_INT8) demo_heap 0) = Done (r, here 1 ∅ no_junk d' h' e')
    ∧ obj_ok d' ∧ fits 1 d' h' ∅ ∧ dtype d' = T_INT8 ∧ value d' = Scalar 0
    ∧ ∃ k, cplus_data_get_key 1 (here 1 ∅ no_junk d' h' e') = Done (k, here 1 ∅ no_junk d' h' e')
      ∧ match k with
        | Some b => r = CPLUS_SUCCESS ∧ take 3 (bytes b) = [107; 49; 0]
        | None => r = CPLUS_FAIL
        end.
Proof.
  apply (key_round_trip 1 ∅ no_junk (demo T_INT8) demo_heap 0 ∅ 2 [107; 49; 0]);
    [lia|apply demo_ok|apply demo_fits|lia|vm_compute; discriminate|vm_compute; discriminate
    |vm_compute; discriminate|reflexivity].
Defined.

Lemma new_then_delete_witness :
  made ∅ no_junk ∅ T_STRING (content (MString 2 (Some [104; 105; 0]))) 1 (Some [107; 0])
    (new_ex (MString 2 (Some [104; 105; 0])) 1 (Some [107; 0]) (World ∅ Heap.empty_heap no_junk 0))
  ∧ ∀ p w, new_ex (MString 2 (Some [104; 105; 0])) 1 (Some [107; 0])
      (World ∅ Heap.empty_heap no_junk 0) = Done (p, w) → p ≠ 0 →
      ∃ h' e', cplus_data_delete p w = Done (CPLUS_SUCCESS, World ∅ h' no_junk e')
        ∧ Heap.heap_ok h' ∅.
Proof.
  apply (new_then_delete (MString 2 (Some [104; 105; 0])) 1 (Some [107; 0]) ∅ no_junk
    Heap.empty_heap 0 ∅).
  - apply Heap.empty_heap_ok.
  - intros p. rewrite lookup_empty. by intros [? ?].
  - split; [lia|]. split; [vm_compute; discriminate|]. by eexists.
  - intros _. split; vm_compute; discriminate.
Defined.

Lemma empty_array_keeps_the_lock_witness :
  ∃ d', cplus_data_get_value 1 (Some [4; 0; 0; 0]) (Some [1; 1; 1; 1])
          (here 1 ∅ no_junk (demo T_BYTE_ARRAY) demo_heap 0)
        = Done ((CPLUS_FAIL, Some [4; 0; 0; 0], Some [1; 1; 1; 1]), here 1 ∅ no_junk d' demo_heap EINVAL)
    ∧ (∀ h e, cplus_data_get_data_size 1 (here 1 ∅ no_junk d' h e) = Hangs)
    ∧ (∀ h e n v2, cplus_data_set_byte_array 1 n v2 (here 1 ∅ no_junk d' h e) = Hangs).
Proof.
  apply (empty_array_keeps_the_lock 1 ∅ no_junk (demo T_BYTE_ARRAY) demo_heap 0 None
    [4; 0; 0; 0] [1; 1; 1; 1]);
    [lia|apply demo_ok|reflexivity|reflexivity|vm_compute; discriminate..].
Defined.

Lemma set_as_double_waits_for_itself_witness :
  cplus_data_set_as_double 1 0 (here 1 ∅ no_junk (demo T_BYTE_ARRAY) demo_heap 0) = Hangs
  ∧ cplus_data_set_as_pointer 1 0 (here 1 ∅ no_junk (demo T_BYTE_ARRAY) demo_heap 0) = Hangs.
Proof.
  apply (set_as_double_waits_for_itself 1 ∅ no_junk (demo T_BYTE_ARRAY) demo_heap 0 0);
    [lia|apply demo_ok|reflexivity].
Defined.


End DataProps.
