(* ===== verification/ByteOrder.v ===== *)
(** * ByteOrder: the byte order functions of src/data.c

    The swapping and reversing functions are unions of shifted and masked
    copies; they exchange the bytes of their argument end for end. *)

From S2P Require Import Prelude DataConv.
From stdpp Require Import base numbers list list_numbers option.
From Stdlib Require Import ZArith Lia.
Open Scope Z_scope.

Module ByteOrder.
Import DataConv.

(** The [n] bytes of a number, least significant first. *)
Definition le (n v : Z) : list Z := Z_to_little_endian n 8 v.

(** [CPLUS_DATA_REVERSE] at an unsigned type of [n] bytes. *)
Definition CPLUS_DATA_REVERSE (n v : Z) : Z :=
  match n with
  | 2 => cplus_data_reverse16 v
  | 4 => cplus_data_reverse32 v
  | 8 => cplus_data_reverse64 v
  | _ => v
  end.

(** ** Bits *)

Lemma land_ones_bit x i : 0 ≤ i → Z.testbit (Z.land x (Z.ones 8)) i = (i <? 8) && Z.testbit x i.
Proof.
  intros Hi. rewrite Z.land_spec. destruct (Z.ltb_spec i 8).
  - by rewrite Z.ones_spec_low, andb_true_r by lia.
  - by rewrite Z.ones_spec_high, andb_false_r by lia.
Qed.

Lemma byte_eq x y :
  (∀ i, 0 ≤ i < 8 → Z.testbit x i = Z.testbit y i) → Z.land x (Z.ones 8) = Z.land y (Z.ones 8).
Proof.
  intros H. apply Z.bits_inj'. intros i Hi. rewrite !land_ones_bit by done.
  destruct (Z.ltb_spec i 8); [|done]. simpl. apply H. lia.
Qed.

Ltac bit_cases i :=
  let H := fresh in
  assert (i = 0 ∨ i = 1 ∨ i = 2 ∨ i = 3 ∨ i = 4 ∨ i = 5 ∨ i = 6 ∨ i = 7) as H by lia;
  destruct H as [-> | [-> | [-> | [-> | [-> | [-> | [-> | ->]]]]]]].

Lemma u32_bit x i : 0 ≤ i → Z.testbit (u32 x) i = (i <? 32) && Z.testbit x i.
Proof.
  intros. unfold u32. destruct (Z.ltb_spec i 32).
  - by rewrite Z.mod_pow2_bits_low by lia.
  - by rewrite Z.mod_pow2_bits_high by lia.
Qed.


Lemma u64_bit x i : 0 ≤ i → Z.testbit (u64 x) i = (i <? 64) && Z.testbit x i.
Proof.
  intros. unfold u64. destruct (Z.ltb_spec i 64).
  - by rewrite Z.mod_pow2_bits_low by lia.
  - by rewrite Z.mod_pow2_bits_high by lia.
Qed.
Lemma u16_bit x i : 0 ≤ i → Z.testbit (u16 x) i = (i <? 16) && Z.testbit x i.
Proof.
  intros. unfold u16. destruct (Z.ltb_spec i 16).
  - by rewrite Z.mod_pow2_bits_low by lia.
  - by rewrite Z.mod_pow2_bits_high by lia.
Qed.

(** The bits of a byte of an expression built with shifts, masks and unions. *)
Ltac bits H :=
  apply byte_eq; let i := fresh "i" in let Hi := fresh in intros i Hi; bit_cases i;
  repeat first
    [ rewrite Z.lor_spec | rewrite Z.land_spec | rewrite Z.shiftr_spec by lia
    | rewrite Z.shiftl_spec by lia | rewrite u16_bit by lia | rewrite u32_bit by lia | rewrite u64_bit by lia ];
  cbn; repeat match goal with |- context [Z.testbit _ ?k] => rewrite (H k) by lia end; rewrite ?andb_true_r, ?andb_false_r, ?orb_false_r, ?orb_false_l, ?orb_true_r; try reflexivity.

Lemma high_bit w v i : 0 ≤ v < 2 ^ w → w ≤ i → Z.testbit v i = false.
Proof.
  intros Hv Hi. destruct (decide (v = 0)) as [->|]; [apply Z.testbit_0_l|].
  apply Z.bits_above_log2; [lia|]. apply Z.log2_lt_pow2; [lia|].
  assert (0 ≤ w \/ w < 0) as [Hw|Hw] by lia.
  - pose proof (Z.pow_le_mono_r 2 w i). lia.
  - rewrite Z.pow_neg_r in Hv by done. lia.
Qed.

(** Every byte of both sides. *)
Ltac swap_bytes H :=
  repeat match goal with |- _ :: _ = _ :: _ => f_equal end; bits H.

Lemma swap16_bytes v : 0 ≤ v < 2 ^ 16 → le 2 (cplus_data_swap16 v) = reverse (le 2 v).
Proof.
  intros Hv. pose proof (λ i, high_bit 16 v i Hv) as Hh.
  unfold le, Z_to_little_endian, reverse, cplus_data_swap16. cbn [Z.iter Pos.iter rev_append].
  swap_bytes Hh.
Qed.

Lemma swap32_bytes v : 0 ≤ v < 2 ^ 32 → le 4 (cplus_data_swap32 v) = reverse (le 4 v).
Proof.
  intros Hv. pose proof (λ i, high_bit 32 v i Hv) as Hh.
  unfold le, Z_to_little_endian, reverse, cplus_data_swap32. cbn [Z.iter Pos.iter rev_append].
  swap_bytes Hh.
Qed.

Lemma swap64_bytes v : 0 ≤ v < 2 ^ 64 → le 8 (cplus_data_swap64 v) = reverse (le 8 v).
Proof.
  intros Hv. pose proof (λ i, high_bit 64 v i Hv) as Hh.
  unfold le, Z_to_little_endian, reverse, cplus_data_swap64. cbn [Z.iter Pos.iter rev_append].
  swap_bytes Hh.
Qed.

(** ** Ranges *)

Lemma below w x :
  0 ≤ w → (∀ i, w ≤ i → Z.testbit x i = false) → 0 ≤ x < 2 ^ w.
Proof.
  intros Hw H. assert (x = x `mod` 2 ^ w) as ->.
  { apply Z.bits_inj'. intros i Hi. destruct (decide (i < w)).
    - by rewrite Z.mod_pow2_bits_low.
    - by rewrite Z.mod_pow2_bits_high, H by lia. }
  apply Z.mod_pos_bound. lia.
Qed.

(** No bit of an expression at or above the width. *)
Ltac no_bit H :=
  let i := fresh "i" in let Hi := fresh in
  apply below; [lia|]; intros i Hi;
  repeat first
    [ rewrite Z.lor_spec | rewrite Z.land_spec | rewrite Z.shiftr_spec by lia
    | rewrite u16_bit by lia | rewrite u32_bit by lia | rewrite u64_bit by lia ];
  repeat match goal with |- context [Z.testbit _ ?k] => rewrite (H k) by lia end;
  repeat match goal with |- context [i <? ?w] => rewrite (proj2 (Z.ltb_ge i w)) by lia end;
  reflexivity.

Lemma swap_range n v :
  n = 2 ∨ n = 4 ∨ n = 8 → 0 ≤ v < 2 ^ (8 * n) → 0 ≤ CPLUS_DATA_SWAP n v < 2 ^ (8 * n).
Proof.
  intros [-> | [-> | ->]] Hv; cbn [CPLUS_DATA_SWAP];
    pose proof (λ i, high_bit _ v i Hv) as Hh;
    unfold cplus_data_swap16, cplus_data_swap32, cplus_data_swap64; no_bit Hh.
Qed.

Lemma le_inj n x y :
  0 ≤ n → 0 ≤ x < 2 ^ (8 * n) → 0 ≤ y < 2 ^ (8 * n) → le n x = le n y → x = y.
Proof.
  intros Hn Hx Hy E. apply (f_equal (little_endian_to_Z 8)) in E. unfold le in E.
  rewrite !little_endian_to_Z_to_little_endian in E by lia.
  rewrite (Z.mul_comm n 8), !Z.mod_small in E by lia. done.
Qed.

Lemma swap_bytes_n n v :
  n = 2 ∨ n = 4 ∨ n = 8 → 0 ≤ v < 2 ^ (8 * n) → le n (CPLUS_DATA_SWAP n v) = reverse (le n v).
Proof.
  intros [-> | [-> | ->]] Hv; cbn [CPLUS_DATA_SWAP].
  - by apply swap16_bytes.
  - by apply swap32_bytes.
  - by apply swap64_bytes.
Qed.

(** ** The theorem *)

(** C40: on 2, 4 and 8 bytes the swapped value has the bytes of the argument in
    the opposite order and stays in range, swapping twice is the identity, and
    the functions that reverse in place compute the same value. *)
Theorem swap_reverses_bytes n v :
  n = 2 ∨ n = 4 ∨ n = 8 → 0 ≤ v < 2 ^ (8 * n) →
  le n (CPLUS_DATA_SWAP n v) = reverse (le n v)
  ∧ 0 ≤ CPLUS_DATA_SWAP n v < 2 ^ (8 * n)
  ∧ CPLUS_DATA_SWAP n (CPLUS_DATA_SWAP n v) = v
  ∧ CPLUS_DATA_REVERSE n v = CPLUS_DATA_SWAP n v.
Proof.
  intros Hn Hv. pose proof (swap_range n v Hn Hv) as Hr.
  split; [by apply swap_bytes_n|]. split; [done|]. split.
  - apply (le_inj n); [lia|by apply swap_range|done|].
    rewrite !swap_bytes_n by done. apply reverse_involutive.
  - by destruct Hn as [-> | [-> | ->]].
Qed.

Lemma swap_reverses_bytes_witness :
  le 4 (CPLUS_DATA_SWAP 4 0x01020304) = reverse (le 4 0x01020304)
  ∧ 0 ≤ CPLUS_DATA_SWAP 4 0x01020304 < 2 ^ (8 * 4)
  ∧ CPLUS_DATA_SWAP 4 (CPLUS_DATA_SWAP 4 0x01020304) = 0x01020304
  ∧ CPLUS_DATA_REVERSE 4 0x01020304 = CPLUS_DATA_SWAP 4 0x01020304.
Proof. apply (swap_reverses_bytes 4 0x01020304); lia. Defined.

End ByteOrder.
