(* ===== verification/Pevent.v ===== *)
(** * Pevent: events with memory (src/pevent.c)

    An event is a flag under a mutex, with a condition variable for those who
    wait for it.  A broadcast event stays set until it is reset; the others are
    consumed by the first call that waits for them.  Any number of threads call
    the functions; their steps are the ones at which they can meet: taking the
    mutex, the section the mutex protects, going to sleep (which releases the
    mutex), waking up, taking the mutex again, and releasing it.  The
    condition variable may wake a sleeper for no reason, and wakes at least one
    sleeper when it is signalled. *)

From S2P Require Import Prelude Systime Locks.
From stdpp Require Import base numbers list option gmap fin_maps.
From Stdlib Require Import ZArith Lia.
Import Systime Pthread.
Open Scope Z_scope.

Module Pevent.

Definition OBJ_TYPE : Z := OBJ_NONE + CTRL + 0.

(** The flags of [struct pevent]; the pointers of the structure lead to them,
    or to those of [struct named_pevent] when the event has a name. *)
Record pevent := mkPevent {
  type : Z;
  setted : bool;
  broadcast : bool;
  status : bool }.

Definition set_setted (b : bool) (e : pevent) : pevent :=
  mkPevent (type e) b (broadcast e) (status e).

(** ** The sections the mutex protects *)

(** A call returns its value and what it stored in [errno], if anything. *)
Record result := Result { ret : Z; err : option Z }.

(** What a section ends with: the call is over but for the unlocking, having
    signalled nobody, one or all of the sleepers; or it sleeps on the condition
    variable, with or without a deadline. *)
Inductive notify := Nobody | One | All.
Inductive ending :=
| Leave (n : notify) (r : result)
| SleepOn (deadline : option timespec).

Definition consume (e : pevent) : pevent :=
  if broadcast e then e else set_setted false e.

(** [pthread_cond_wait] or [pthread_cond_timedwait] of the loop of
    [unlock_and_wait_cond]: the deadline is taken from the clock here, that is
    anew in every turn. *)
Definition cond_wait (timeout now : Z) : ending :=
  if CPLUS_INFINITE_TIMEOUT =? timeout then SleepOn None
  else SleepOn (snd (cplus_systime_get_abstick_after_msec
                       (Some (Timespec (now `div` 1000000000) (now `mod` 1000000000)))
                       timeout)).

(** [cplus_pevent_wait] after [unlock_and_wait_cond]. *)
Definition wait_result (res : Z) : result :=
  if negb (0 =? res) then Result CPLUS_FAIL (Some res) else Result CPLUS_SUCCESS (Some 0).

(** [unlock_and_wait_cond] up to the condition variable. *)
Definition unlock_and_wait_cond (timeout now : Z) (e : pevent) : pevent * ending :=
  if negb (setted e) then
    if 0 =? timeout then (e, Leave Nobody (wait_result EAGAIN))
    else (e, cond_wait timeout now)
  else (consume e, Leave Nobody (wait_result 0)).

(** [unlock_and_wait_cond] from the condition variable on, which answered
    [res]: another turn of the loop, or the end of it. *)
Definition after_cond_wait (timeout now res : Z) (e : pevent) : pevent * ending :=
  if (0 =? res) && negb (setted e) then (e, cond_wait timeout now)
  else (if 0 =? res then consume e else e, Leave Nobody (wait_result res)).

Definition cplus_pevent_set (e : pevent) : pevent * ending :=
  (set_setted true e, Leave (if broadcast e then All else One) (Result 0 None)).

Definition cplus_pevent_reset (e : pevent) : pevent * ending :=
  (set_setted false e, Leave Nobody (Result 0 None)).

Definition cplus_pevent_get_status (e : pevent) : pevent * ending :=
  (e, Leave Nobody (Result (Z.b2z (setted e)) None)).

(** ** Threads *)

Inductive call := Wait (timeout : Z) | SetEvent | ResetEvent | GetStatus.

#[export] Instance call_eq_dec : EqDecision call.
Proof. solve_decision. Defined.
#[export] Instance result_eq_dec : EqDecision result.
Proof. solve_decision. Defined.

(** How a call takes the mutex. *)
Definition lock_mode (c : call) : wait :=
  match c with Wait timeout => if 0 =? timeout then Try else Forever | _ => Forever end.

Definition section_of (c : call) (now : Z) (e : pevent) : pevent * ending :=
  match c with
  | Wait timeout => unlock_and_wait_cond timeout now e
  | SetEvent => cplus_pevent_set e
  | ResetEvent => cplus_pevent_reset e
  | GetStatus => cplus_pevent_get_status e
  end.

(** Where a thread is: outside; at the mutex; in the section; asleep until a
    deadline, if there is one; woken with the answer [res], at the mutex again;
    awake, in the section again; at the release of the mutex; back from the
    call; or ended by the assertion on the type. *)
Inductive pc :=
| Idle
| Entering (c : call)
| Inside (c : call)
| Asleep (timeout : Z) (deadline : option timespec)
| Waking (timeout res : Z)
| Awake (timeout res : Z)
| Leaving (c : call) (r : result)
| Returned (c : call) (r : result)
| Crashed.

Record world := World {
  evt : pevent;
  owner : mutex;
  pcs : gmap nat pc;
  now : Z }.

Definition pc_of (w : world) (t : nat) : pc := default Idle (pcs w !! t).
Definition set_pc (t : nat) (p : pc) (w : world) : world :=
  World (evt w) (owner w) (<[t := p]> (pcs w)) (now w).
Definition set_owner (m : mutex) (w : world) : world := World (evt w) m (pcs w) (now w).
Definition set_evt (e : pevent) (w : world) : world := World e (owner w) (pcs w) (now w).

(** ** Steps *)

Definition asleep (p : pc) : bool := match p with Asleep _ _ => true | _ => false end.
Definition wake (p : pc) : pc := match p with Asleep timeout _ => Waking timeout 0 | _ => p end.

(** The sleepers a signal wakes: the one [chosen], where there is one. *)
Definition signal (chosen : option nat) (ps : gmap nat pc) : option (gmap nat pc) :=
  match chosen with
  | Some s => if asleep (default Idle (ps !! s)) then Some (alter wake s ps) else None
  | None => if decide (map_Forall (λ _ p, asleep p = false) ps) then Some ps else None
  end.

Definition notified (n : notify) (chosen : option nat) (ps : gmap nat pc) : option (gmap nat pc) :=
  match n with
  | Nobody => Some ps
  | One => signal chosen ps
  | All => Some (wake <$> ps)
  end.

(** The end of a section of call [c]: sleeping releases the mutex. *)
Definition finish (t : nat) (c : call) (timeout : Z) (chosen : option nat)
    (x : pevent * ending) (w : world) : option world :=
  match x.2 with
  | Leave n r =>
      ps ← notified n chosen (pcs w);
      Some (World x.1 (owner w) (<[t := Leaving c r]> ps) (now w))
  | SleepOn d =>
      match mutex_unlock t (owner w) with
      | Done (_, m) => Some (World x.1 m (<[t := Asleep timeout d]> (pcs w)) (now w))
      | _ => None
      end
  end.

Definition timeout_of (c : call) : Z := match c with Wait timeout => timeout | _ => 0 end.

(** A step of thread [t] on its own; [chosen] is used by a signal. *)
Definition move (t : nat) (chosen : option nat) (w : world) : option world :=
  match pc_of w t with
  | Entering c =>
      match mutex_lock t (lock_mode c) (owner w) with
      | Done (res, m) =>
          if 0 =? res then Some (set_pc t (Inside c) (set_owner m w))
          else Some (set_pc t (Returned c (Result CPLUS_FAIL (Some res))) w)
      | _ => None
      end
  | Inside c => finish t c (timeout_of c) chosen (section_of c (now w) (evt w)) w
  | Waking timeout res =>
      match mutex_lock t Forever (owner w) with
      | Done (_, m) => Some (set_pc t (Awake timeout res) (set_owner m w))
      | _ => None
      end
  | Awake timeout res =>
      finish t (Wait timeout) timeout chosen (after_cond_wait timeout (now w) res (evt w)) w
  | Leaving c r =>
      match mutex_unlock t (owner w) with
      | Done (_, m) => Some (set_pc t (Returned c r) (set_owner m w))
      | _ => None
      end
  | _ => None
  end.

Inductive label :=
| Call (t : nat) (c : call)
| Move (t : nat) (chosen : option nat)
| Spurious (t : nat)
| Expire (t : nat)
| Tick (ns : Z).

Definition exec (l : label) (w : world) : option world :=
  match l with
  | Call t c =>
      match pc_of w t with
      | Idle | Returned _ _ =>
          Some (set_pc t (if type (evt w) =? OBJ_TYPE then Entering c else Crashed) w)
      | _ => None
      end
  | Move t chosen => move t chosen w
  | Spurious t =>
      match pc_of w t with
      | Asleep timeout _ => Some (set_pc t (Waking timeout 0) w)
      | _ => None
      end
  | Expire t =>
      match pc_of w t with
      | Asleep timeout (Some d) =>
          if ns_of d <=? now w then Some (set_pc t (Waking timeout ETIMEDOUT) w) else None
      | _ => None
      end
  | Tick ns => if 0 <? ns then Some (World (evt w) (owner w) (pcs w) (now w + ns)) else None
  end.

Definition step (w w' : world) : Prop := ∃ l, exec l w = Some w'.

(** The call that a step completes. *)
Definition completed (l : label) (w' : world) : list (call * result) :=
  match l with
  | Move t _ => match pc_of w' t with Returned c r => [(c, r)] | _ => [] end
  | _ => []
  end.

(** A run, and the calls it completes, in order. *)
Fixpoint run (ls : list label) (w : world) : option (world * list (call * result)) :=
  match ls with
  | [] => Some (w, [])
  | l :: ls =>
      w' ← exec l w;
      '(w'', log) ← run ls w';
      Some (w'', completed l w' ++ log)
  end.

(** The world of an event just made by [cplus_pevent_new], with no thread in it. *)
Definition start (e : pevent) (time : Z) : world := World e None ∅ time.

(** ** The abstract event

    What the calls mean to their callers: one flag, and calls that happen at
    once.  [apply b s c r]: an event in state [s], of the broadcast kind or not
    ([b]), lets call [c] answer [r], and is in the state given then. *)
Definition apply (b s : bool) (c : call) (r : result) : option bool :=
  match c with
  | Wait timeout =>
      if decide (r = Result CPLUS_SUCCESS (Some 0)) then if s then Some b else None
      else if decide (r = Result CPLUS_FAIL (Some EAGAIN)) then
        if (0 =? timeout) && negb s then Some s else None
      else if decide (r = Result CPLUS_FAIL (Some EBUSY)) then
        if 0 =? timeout then Some s else None
      else if decide (r = Result CPLUS_FAIL (Some ETIMEDOUT)) then
        if negb (0 =? timeout) && negb (CPLUS_INFINITE_TIMEOUT =? timeout) then Some s else None
      else None
  | SetEvent => if decide (r = Result 0 None) then Some true else None
  | ResetEvent => if decide (r = Result 0 None) then Some false else None
  | GetStatus => if decide (r = Result (Z.b2z s) None) then Some s else None
  end.

Fixpoint apply_all (b s : bool) (log : list (call * result)) : option bool :=
  match log with
  | [] => Some s
  | (c, r) :: log => s' ← apply b s c r; apply_all b s' log
  end.

(** ** The steps as rules *)

(** Thread [t] is in a section of call [c], which ends as [x] says. *)
Inductive in_section (w : world) (t : nat) : call → Z → pevent * ending → Prop :=
| inside c :
    pc_of w t = Inside c → in_section w t c (timeout_of c) (section_of c (now w) (evt w))
| awake timeout res :
    pc_of w t = Awake timeout res →
    in_section w t (Wait timeout) timeout (after_cond_wait timeout (now w) res (evt w)).

Definition outside (p : pc) : Prop :=
  match p with Idle | Returned _ _ => True | _ => False end.

Inductive rule (w : world) : label → world → Prop :=
| r_call t c :
    outside (pc_of w t) →
    rule w (Call t c) (set_pc t (if type (evt w) =? OBJ_TYPE then Entering c else Crashed) w)
| r_enter t ch c :
    pc_of w t = Entering c → owner w = None →
    rule w (Move t ch) (set_pc t (Inside c) (set_owner (Some t) w))
| r_busy t ch o :
    pc_of w t = Entering (Wait 0) → owner w = Some o →
    rule w (Move t ch)
      (set_pc t (Returned (Wait 0) (Result CPLUS_FAIL (Some EBUSY))) w)
| r_leave t ch c timeout e n r ps :
    in_section w t c timeout (e, Leave n r) → notified n ch (pcs w) = Some ps →
    rule w (Move t ch) (World e (owner w) (<[t := Leaving c r]> ps) (now w))
| r_sleep t ch c timeout e d :
    in_section w t c timeout (e, SleepOn d) → owner w = Some t →
    rule w (Move t ch) (World e None (<[t := Asleep timeout d]> (pcs w)) (now w))
| r_retake t ch timeout res :
    pc_of w t = Waking timeout res → owner w = None →
    rule w (Move t ch) (set_pc t (Awake timeout res) (set_owner (Some t) w))
| r_unlock t ch c r :
    pc_of w t = Leaving c r → owner w = Some t →
    rule w (Move t ch) (set_pc t (Returned c r) (set_owner None w))
| r_spurious t timeout d :
    pc_of w t = Asleep timeout d →
    rule w (Spurious t) (set_pc t (Waking timeout 0) w)
| r_expire t timeout d :
    pc_of w t = Asleep timeout (Some d) → ns_of d ≤ now w →
    rule w (Expire t) (set_pc t (Waking timeout ETIMEDOUT) w)
| r_tick ns :
    0 < ns → rule w (Tick ns) (World (evt w) (owner w) (pcs w) (now w + ns)).

Lemma finish_rule w w' t ch c timeout x :
  in_section w t c timeout x → finish t c timeout ch x w = Some w' →
  rule w (Move t ch) w'.
Proof.
  intros Hin H. destruct x as [e [n r|d]]; unfold finish in H; simpl in H.
  - destruct (notified n ch (pcs w)) as [ps|] eqn:E; simplify_eq/=. by eapply r_leave.
  - unfold mutex_unlock in H. destruct (owner w) as [o|] eqn:E; [|done].
    destruct (decide (o = t)); simplify_eq. by eapply r_sleep.
Qed.

Lemma exec_rule l w w' : exec l w = Some w' → rule w l w'.
Proof.
  destruct l as [t c|t ch|t|t|ns]; simpl.
  - destruct (pc_of w t) eqn:E; intros; simplify_eq; apply r_call; by rewrite E.
  - unfold move. destruct (pc_of w t) as [|c|c|to d|to res|to res|c r|c r|] eqn:E; try done.
    + destruct (owner w) as [o|] eqn:Eo; simpl.
      * unfold lock_mode. destruct c as [timeout| | |]; try done.
        destruct (Z.eqb_spec 0 timeout) as [<-|]; [|done]. intros [= <-]. by eapply r_busy.
      * intros [= <-]. by apply r_enter.
    + apply finish_rule. by constructor.
    + destruct (owner w) as [o|] eqn:Eo; simpl; [done|]. intros [= <-]. by apply r_retake.
    + apply finish_rule. by constructor.
    + unfold mutex_unlock. destruct (owner w) as [o|] eqn:Eo; [|done].
      destruct (decide (o = t)); [|done]. intros [= <-]. subst. by apply r_unlock.
  - destruct (pc_of w t) eqn:E; intros; simplify_eq. by eapply r_spurious.
  - destruct (pc_of w t) as [| | |to [d|]| | | | |] eqn:E; try done.
    destruct (Z.leb_spec (ns_of d) (now w)); intros; simplify_eq. by eapply r_expire.
  - destruct (Z.ltb_spec 0 ns); intros; simplify_eq. by apply r_tick.
Qed.

(** ** Threads and the mutex *)

Lemma pc_of_put e o t p ps n t' :
  pc_of (World e o (<[t := p]> ps) n) t' = if decide (t = t') then p else default Idle (ps !! t').
Proof. unfold pc_of. simpl. rewrite lookup_insert. by case_decide. Qed.

Lemma pc_of_set t p w t' : pc_of (set_pc t p w) t' = if decide (t = t') then p else pc_of w t'.
Proof. apply pc_of_put. Qed.

(** Read the position of a thread that was just moved. *)
Ltac here := rewrite ?pc_of_set, ?pc_of_put, ?decide_True by done.

Definition holding (p : pc) : bool :=
  match p with Inside _ | Awake _ _ | Leaving _ _ => true | _ => false end.

(** A thread sleeps, or comes back from sleep, only in a call that may wait;
    only calls with a deadline time out. *)
Definition pc_ok (p : pc) : Prop :=
  match p with
  | Asleep timeout d => timeout ≠ 0 ∧ (d = None ↔ timeout = CPLUS_INFINITE_TIMEOUT)
  | Waking timeout res | Awake timeout res =>
      timeout ≠ 0 ∧ (res = 0 ∨ res = ETIMEDOUT ∧ timeout ≠ CPLUS_INFINITE_TIMEOUT)
  | _ => True
  end.

(** What a notification does to one thread. *)
Lemma notified_pc n ch ps ps' t :
  notified n ch ps = Some ps' →
  default Idle (ps' !! t) = default Idle (ps !! t)
  ∨ default Idle (ps' !! t) = wake (default Idle (ps !! t)).
Proof.
  destruct n; simpl; [intros [= <-]; by left| |].
  - unfold signal. destruct ch as [s|].
    + destruct (asleep _); intros; simplify_eq.
      destruct (decide (s = t)) as [->|]; [|left; by rewrite lookup_alter_ne].
      right. rewrite lookup_alter_eq. by destruct (ps !! t).
    + destruct (decide _); intros; simplify_eq. by left.
  - intros [= <-]. right. rewrite lookup_fmap. by destruct (ps !! t).
Qed.

Lemma wake_same p : p = wake p ∨ ∃ timeout d, p = Asleep timeout d ∧ wake p = Waking timeout 0.
Proof. destruct p; simpl; eauto. Qed.

Lemma wake_holding p : holding (wake p) = holding p.
Proof. by destruct p. Qed.

Lemma wake_ok p : pc_ok p → pc_ok (wake p).
Proof. destruct p; simpl; naive_solver. Qed.

Lemma notified_holding n ch ps ps' t :
  notified n ch ps = Some ps' →
  holding (default Idle (ps' !! t)) = holding (default Idle (ps !! t)).
Proof. intros [->| ->]%(notified_pc _ _ _ _ t); [done|apply wake_holding]. Qed.

(** Exactly the owner of the mutex is in a section. *)
Definition exclusive (w : world) : Prop :=
  ∀ t, owner w = Some t ↔ holding (pc_of w t) = true.

Lemma exclusive_free w t p :
  exclusive w → holding (pc_of w t) = false → holding p = false →
  exclusive (set_pc t p w).
Proof.
  intros Hx Ht Hp t'. unfold set_pc. rewrite pc_of_put. simpl.
  case_decide; [subst|apply Hx]. rewrite Hp. split; [|done]. intros Ho%Hx. congruence.
Qed.

Lemma exclusive_take w t p :
  exclusive w → owner w = None → holding p = true →
  exclusive (set_pc t p (set_owner (Some t) w)).
Proof.
  intros Hx Ho Hp t'. unfold set_pc, set_owner. rewrite pc_of_put. simpl.
  case_decide; [by subst|]. split; [congruence|].
  intros Ht'. apply Hx in Ht'. congruence.
Qed.

Lemma exclusive_release w t p e :
  exclusive w → owner w = Some t → holding p = false →
  exclusive (World e None (<[t := p]> (pcs w)) (now w)).
Proof.
  intros Hx Ho Hp t'. rewrite pc_of_put. simpl. split; [done|].
  case_decide; [by rewrite Hp|]. intros Ht'. apply Hx in Ht'. congruence.
Qed.

Lemma in_section_holding w t c timeout x :
  in_section w t c timeout x → holding (pc_of w t) = true.
Proof. destruct 1 as [? H|? ? H]; by rewrite H. Qed.

Lemma exclusive_step w l w' : exclusive w → rule w l w' → exclusive w'.
Proof.
  intros Hx. destruct 1 as [t c H|t ch c H Ho|t ch o H Ho|t ch c to e n r ps H Hn
    |t ch c to e d H Ho|t ch to res H Ho|t ch c r H Ho|t to d H|t to d H Hd|ns H].
  - apply exclusive_free; [done| |by destruct (_ =? _)]. by destruct (pc_of w t).
  - by apply exclusive_take.
  - apply exclusive_free; [done| |done]. by rewrite H.
  - intros t'. rewrite pc_of_put. simpl. case_decide.
    + subst t'. split; [done|]. intros _. apply Hx. by eapply in_section_holding.
    + rewrite (notified_holding _ _ _ _ t' Hn). apply Hx.
  - by apply exclusive_release.
  - by apply exclusive_take.
  - by apply (exclusive_release w t (Returned c r) (evt w)).
  - apply exclusive_free; [done| |done]. by rewrite H.
  - apply exclusive_free; [done| |done]. by rewrite H.
  - done.
Qed.

(** The outcomes of a section. *)
Lemma cond_wait_ok timeout now d :
  timeout ≠ 0 → cond_wait timeout now = SleepOn d → pc_ok (Asleep timeout d).
Proof.
  intros Ht. unfold cond_wait. destruct (Z.eqb_spec CPLUS_INFINITE_TIMEOUT timeout) as [E|E].
  - intros [= <-]. simpl. by rewrite <- E.
  - simpl. intros [= <-]. split; [done|]. split; [done|congruence].
Qed.

Lemma sleep_ok w t c timeout e d :
  in_section w t c timeout (e, SleepOn d) → pc_ok (pc_of w t) →
  e = evt w ∧ setted (evt w) = false ∧ pc_ok (Asleep timeout d) ∧ c = Wait timeout.
Proof.
  intros H Hok. inversion H as [c' Hc E1 E2 E3|to res Hc E1 E2 E3]; subst.
  - destruct c as [to| | |]; try done. simpl in E3. unfold unlock_and_wait_cond in E3.
    destruct (setted (evt w)) eqn:Hs; simpl in E3; [by inversion E3|].
    destruct (Z.eqb_spec 0 to) as [|Hto]; [by inversion E3|].
    inversion E3 as [[Ea Eb]]. split; [done|]. split; [done|]. split; [|done].
    by apply (cond_wait_ok to (now w)).
  - rewrite Hc in Hok. unfold after_cond_wait in E3.
    destruct (0 =? res) eqn:Er; [|by inversion E3].
    destruct (setted (evt w)) eqn:Hs; simpl in E3; [by inversion E3|].
    inversion E3 as [[Ea Eb]]. split; [done|]. split; [done|]. split; [|done].
    apply (cond_wait_ok timeout (now w)); [apply Hok|done].
Qed.

Lemma apply_wait b s timeout res e :
  timeout ≠ 0 → res = 0 ∧ (s = true ∧ e = b)
    ∨ res = ETIMEDOUT ∧ timeout ≠ CPLUS_INFINITE_TIMEOUT ∧ e = s →
  apply b s (Wait timeout) (wait_result res) = Some e.
Proof.
  intros Ht [(-> & -> & ->) | (-> & Hf & ->)]; [done|]. simpl.
  by rewrite (proj2 (Z.eqb_neq 0 timeout)), (proj2 (Z.eqb_neq CPLUS_INFINITE_TIMEOUT timeout)) by done.
Qed.

Lemma setted_consume e : setted e = true → setted (consume e) = broadcast e.
Proof. unfold consume. destruct (broadcast e) eqn:E; [done|]. reflexivity. Qed.

(** The answer of a section is one the abstract event may give. *)
Lemma leave_ok w t c timeout e n r :
  in_section w t c timeout (e, Leave n r) → pc_ok (pc_of w t) →
  apply (broadcast (evt w)) (setted (evt w)) c r = Some (setted e)
  ∧ broadcast e = broadcast (evt w) ∧ type e = type (evt w).
Proof.
  assert (Hc : ∀ e, broadcast (consume e) = broadcast e ∧ type (consume e) = type e)
    by (intros e'; unfold consume; by destruct (broadcast e') eqn:?).
  intros H Hok. inversion H as [c' Hp E1 E2 E3|to res Hp E1 E2 E3]; subst.
  - destruct c as [to| | |]; [|unfold section_of, cplus_pevent_set, cplus_pevent_reset,
      cplus_pevent_get_status in E3; inversion E3; subst; simpl; by rewrite ?decide_True..].
    simpl in E3. unfold unlock_and_wait_cond in E3.
    destruct (setted (evt w)) eqn:Hs; simpl in E3.
    + inversion E3; subst. rewrite setted_consume by done. split; [done|apply Hc].
    + destruct (Z.eqb_spec 0 to) as [<-|Hto].
      * inversion E3; subst. by rewrite Hs.
      * unfold cond_wait in E3. destruct (_ =? _) in E3; inversion E3.
  - rewrite Hp in Hok. destruct Hok as [Hto Hres]. unfold after_cond_wait in E3.
    destruct Hres as [->|[-> Hf]]; simpl in E3.
    + destruct (setted (evt w)) eqn:Hs; simpl in E3.
      * inversion E3; subst. rewrite setted_consume by done. split; [|apply Hc].
        apply apply_wait; tauto.
      * unfold cond_wait in E3. destruct (_ =? _) in E3; inversion E3.
    + inversion E3; subst. split; [|done]. apply apply_wait; tauto.
Qed.

(** ** The invariant *)

Record ok (b : bool) (w : world) : Prop := {
  ok_exclusive : exclusive w;
  ok_threads : ∀ t, pc_ok (pc_of w t);
  ok_kind : broadcast (evt w) = b;
  ok_type : type (evt w) = OBJ_TYPE }.

Lemma threads_ok_set w t p e o n :
  (∀ t, pc_ok (pc_of w t)) → pc_ok p →
  ∀ t', pc_ok (pc_of (World e o (<[t := p]> (pcs w)) n) t').
Proof. intros H Hp t'. rewrite pc_of_put. case_decide; [done|apply (H t')]. Qed.

Lemma ok_step b w l w' : ok b w → rule w l w' → ok b w'.
Proof.
  intros [Hx Ht Hb Hty] Hr. pose proof (exclusive_step _ _ _ Hx Hr) as Hx'. revert Hx'.
  destruct Hr as [t c H|t ch c H Ho|t ch o H Ho|t ch c to e n r ps H Hn
    |t ch c to e d H Ho|t ch to res H Ho|t ch c r H Ho|t to d H|t to d H Hd|ns H];
    intros Hx'; try (specialize (Ht t) as Ht0).
  4: { destruct (leave_ok _ _ _ _ _ _ _ H Ht0) as (_ & Eb & Et).
       split; simpl; [done| |congruence..]. intros t'. rewrite pc_of_put.
       case_decide; [done|].
       destruct (notified_pc _ _ _ _ t' Hn) as [-> | ->]; [apply (Ht t')|].
       apply wake_ok, (Ht t'). }
  4: { destruct (sleep_ok _ _ _ _ _ _ H Ht0) as (-> & _ & Hd & _).
       split; simpl; [done| |done..]. by apply threads_ok_set. }
  all: split; [done| |done..].
  all: try (apply threads_ok_set; [done|]).
  all: try (by destruct (type (evt w) =? OBJ_TYPE)).
  all: try (rewrite H in Ht0); try done.
  - split; [apply Ht0|by left].
  - split; [apply Ht0|]. right. split; [done|]. intros E. apply Ht0 in E. done.
Qed.

Definition new_event (e : pevent) : Prop := type e = OBJ_TYPE.

Lemma ok_start e time : new_event e → ok (broadcast e) (start e time).
Proof. intros H. split; [|done..]. intros t. split; done. Qed.

(** Induction along a run, for what only depends on the steps. *)
Lemma run_inv (P : world → Prop) ls w w' log :
  (∀ w l w', P w → rule w l w' → P w') → P w → run ls w = Some (w', log) → P w'.
Proof.
  intros HP. revert w w' log. induction ls as [|l ls IH]; intros w w' log Hw; simpl.
  - by intros [= <- <-].
  - destruct (exec l w) as [w1|] eqn:E1; [|done]. simpl.
    destruct (run ls w1) as [[w2 log']|] eqn:E2; [|done]. simpl. intros [= <- <-].
    eapply IH; [|done]. eapply HP; [done|by apply exec_rule].
Qed.

(** ** Refinement *)

(** The answer of the owner of the mutex that is about to unlock it. *)
Definition pending (w : world) : option (call * result) :=
  t ← owner w; match pc_of w t with Leaving c r => Some (c, r) | _ => None end.

(** The abstract event is in state [s]: in the state of the flag, but for the
    pending answer. *)
Definition settled (b s : bool) (w : world) : Prop :=
  match pending w with
  | None => s = setted (evt w)
  | Some (c, r) => apply b s c r = Some (setted (evt w))
  end.

Lemma pending_set w t p :
  owner w ≠ Some t → pending (set_pc t p w) = pending w.
Proof.
  intros Ho. unfold pending, set_pc. simpl. destruct (owner w) as [o|]; [|done]. simpl.
  rewrite pc_of_put. case_decide; [congruence|done].
Qed.

Lemma pending_inside w t :
  exclusive w → holding (pc_of w t) = true → (∀ c r, pc_of w t ≠ Leaving c r) →
  pending w = None.
Proof.
  intros Hx Ht Hp. apply Hx in Ht. unfold pending. rewrite Ht. simpl.
  destruct (pc_of w t) eqn:E; try done. by destruct (Hp c r).
Qed.

Lemma in_section_not_leaving w t c timeout x :
  in_section w t c timeout x → ∀ c r, pc_of w t ≠ Leaving c r.
Proof. destruct 1; congruence. Qed.

Lemma not_owner w t : exclusive w → holding (pc_of w t) = false → owner w ≠ Some t.
Proof. intros Hx H Ho%Hx. congruence. Qed.

Lemma settled_step b s w l w' :
  ok b w → settled b s w → rule w l w' →
  ∃ s', apply_all b s (completed l w') = Some s' ∧ settled b s' w'.
Proof.
  intros [Hx Ht Hb Hty] Hs Hr. unfold settled in *.
  destruct Hr as [t c H|t ch c H Ho|t ch o H Ho|t ch c to e n r ps H Hn
    |t ch c to e d H Ho|t ch to res H Ho|t ch c r H Ho|t to d H|t to d H Hd|ns H]; simpl.
  - exists s. split; [done|]. rewrite pending_set; [done|].
    apply not_owner; [done|]. by destruct (pc_of w t).
  - exists s. here. split; [done|].
    unfold pending in Hs |- *. rewrite Ho in Hs. simpl. here. done.
  - exists s. here. split; [done|].
    rewrite pending_set; [done|]. apply not_owner; [done|]. by rewrite H.
  - exists s. here. split; [done|].
    pose proof (in_section_holding _ _ _ _ _ H) as Hh.
    rewrite (pending_inside w t) in Hs; [|done..|by eapply in_section_not_leaving].
    apply Hx in Hh. unfold pending. simpl. rewrite Hh. simpl.
    here. subst. by apply (leave_ok w t c to e n r).
  - exists s. here. split; [done|].
    rewrite (pending_inside w t) in Hs; [|done|by eapply in_section_holding|by eapply in_section_not_leaving].
    destruct (sleep_ok _ _ _ _ _ _ H (Ht t)) as (-> & _). done.
  - exists s. here. split; [done|].
    unfold pending in Hs |- *. rewrite Ho in Hs. simpl. here. done.
  - here. unfold pending in Hs. rewrite Ho in Hs. simpl in Hs.
    rewrite H in Hs. exists (setted (evt w)). simpl. rewrite Hs. split; [done|]. done.
  - exists s. split; [done|]. rewrite pending_set; [done|]. apply not_owner; [done|]. by rewrite H.
  - exists s. split; [done|]. rewrite pending_set; [done|]. apply not_owner; [done|]. by rewrite H.
  - by exists s.
Qed.

Lemma apply_all_app b s l1 l2 :
  apply_all b s (l1 ++ l2) = (s' ← apply_all b s l1; apply_all b s' l2).
Proof.
  revert s. induction l1 as [|[c r] l1 IH]; intros s; simpl; [done|].
  destruct (apply b s c r); simpl; [apply IH|done].
Qed.

Lemma run_settled b ls w w' log s :
  ok b w → settled b s w → run ls w = Some (w', log) →
  ∃ s', apply_all b s log = Some s' ∧ settled b s' w'.
Proof.
  revert w w' log s. induction ls as [|l ls IH]; intros w w' log s Hok Hs; simpl.
  { intros [= <- <-]. by exists s. }
  destruct (exec l w) as [w1|] eqn:E1; [|done]. simpl.
  destruct (run ls w1) as [[w2 log']|] eqn:E2; [|done]. simpl. intros [= <- <-].
  apply exec_rule in E1.
  destruct (settled_step _ _ _ _ _ Hok Hs E1) as (s1 & Ha & Hs1).
  destruct (IH w1 w2 log' s1 (ok_step _ _ _ _ Hok E1) Hs1 E2) as (s2 & Hb & Hs2).
  exists s2. rewrite apply_all_app, Ha. done.
Qed.

End Pevent.
