(* ===== verification/PeventProps.v ===== *)
(** * PeventProps: what an event promises

    Every run of any number of threads answers like the abstract event of
    Pevent.v; no wake-up is lost; under a fair scheduler a wait on a set
    broadcast event returns; and a wait with a deadline can last for ever. *)

From S2P Require Import Prelude Systime Locks Pevent.
From stdpp Require Import base numbers list option gmap fin_maps.
From Stdlib Require Import ZArith Lia.
Import Systime Pthread Pevent.
Open Scope Z_scope.

Module PeventProps.

(** ** Refinement *)

(** C20: the answers of every run of every number of threads, in the order in
    which the calls return, are answers the abstract event gives: a wait
    succeeds only on a set flag, and takes it unless the event is of the
    broadcast kind; it fails only because it may not wait and the flag is clear
    or the mutex busy, or because its deadline has passed.  At the end the
    abstract flag is the flag of the object, but for the call that is about to
    unlock the mutex. *)
Theorem event_refines e time ls w log :
  new_event e → run ls (start e time) = Some (w, log) →
  ∃ s, apply_all (broadcast e) (setted e) log = Some s ∧ settled (broadcast e) s w.
Proof. intros He. by apply run_settled; [apply ok_start|]. Qed.

(** Thread 1 waits and goes to sleep, thread 2 sets the event, thread 1 wakes
    up and takes it, thread 3 tries to wait and is refused. *)
Definition handover : list label :=
  [Call 1 (Wait CPLUS_INFINITE_TIMEOUT); Move 1 None; Move 1 None;
   Call 2 SetEvent; Move 2 None; Move 2 (Some 1%nat); Move 2 None;
   Move 1 None; Move 1 None; Move 1 None;
   Call 3 (Wait 0); Move 3 None; Move 3 None; Move 3 None].

Definition auto_event : pevent := mkPevent OBJ_TYPE false false false.

Definition handover_log : list (call * result) :=
  [(SetEvent, Result 0 None);
   (Wait CPLUS_INFINITE_TIMEOUT, Result CPLUS_SUCCESS (Some 0));
   (Wait 0, Result CPLUS_FAIL (Some EAGAIN))].

Lemma event_refines_witness :
  ∃ w, run handover (start auto_event 0) = Some (w, handover_log)
  ∧ ∃ s, apply_all false false handover_log = Some s ∧ settled false s w.
Proof.
  destruct (run handover (start auto_event 0)) as [[w log]|] eqn:E; [|vm_compute in E; discriminate].
  assert (log = handover_log) as -> by (vm_compute in E; by inversion E).
  exists w. split; [done|]. by apply (event_refines auto_event 0 handover w).
Defined.

(** *** Every success was paid for *)

Definition is_set (x : call * result) : bool :=
  match x.1 with SetEvent => true | _ => false end.
Definition is_taken (x : call * result) : bool :=
  match x.1 with Wait _ => bool_decide (x.2 = Result CPLUS_SUCCESS (Some 0)) | _ => false end.

Definition count (f : call * result → bool) (log : list (call * result)) : nat :=
  length (filter (λ x, f x = true) log).

Lemma count_cons f x log : count f (x :: log) = ((if f x then 1 else 0) + count f log)%nat.
Proof. unfold count. rewrite filter_cons. destruct (f x); case_decide; done. Qed.

Lemma apply_count s c r s' :
  apply false s c r = Some s' →
  ((if is_taken (c, r) then 1 else 0) + Nat.b2n s' ≤ (if is_set (c, r) then 1 else 0) + Nat.b2n s)%nat.
Proof.
  destruct c as [timeout| | |]; simpl.
  - unfold is_taken. simpl. destruct (decide (r = Result CPLUS_SUCCESS (Some 0))) as [->|Hr].
    + rewrite bool_decide_true by done. destruct s; intros; simplify_eq. simpl. lia.
    + rewrite bool_decide_false by done. intros E.
      assert (s = s') as ->; [|lia]. repeat (case_decide || case_match); congruence.
  - case_decide; intros; simplify_eq. simpl. destruct s; simpl; lia.
  - case_decide; intros; simplify_eq. simpl. lia.
  - case_decide; intros; simplify_eq. simpl. lia.
Qed.

Lemma apply_all_count log s s' :
  apply_all false s log = Some s' →
  (count is_taken log + Nat.b2n s' ≤ count is_set log + Nat.b2n s)%nat.
Proof.
  revert s. induction log as [|[c r] log IH]; intros s; simpl; [intros [= ->]; done|].
  destruct (apply false s c r) as [s1|] eqn:E; [|done]. simpl. intros H%IH.
  apply apply_count in E. rewrite !count_cons. lia.
Qed.

(** an event that is not of the broadcast kind hands a wait its success at
    most once for every set: in every run the waits that succeeded are no more
    than the sets that returned, and one if the event was set at the start. *)
Theorem sets_pay_for_waits e time ls w log :
  new_event e → broadcast e = false → run ls (start e time) = Some (w, log) →
  (count is_taken log ≤ count is_set log + Nat.b2n (setted e))%nat.
Proof.
  intros He Hb Hrun.
  destruct (run_settled _ _ _ _ _ (setted e) (ok_start e time He) eq_refl Hrun) as (s & Ha & _).
  rewrite Hb in Ha. apply apply_all_count in Ha. lia.
Qed.

Lemma sets_pay_for_waits_witness :
  ∃ w, run handover (start auto_event 0) = Some (w, handover_log)
  ∧ (count is_taken handover_log ≤ count is_set handover_log + 0)%nat.
Proof.
  destruct (run handover (start auto_event 0)) as [[w log]|] eqn:E; [|vm_compute in E; discriminate].
  assert (log = handover_log) as -> by (vm_compute in E; by inversion E).
  exists w. split; [done|]. by apply (sets_pay_for_waits auto_event 0 handover w).
Defined.

(** ** No wake-up is lost *)

(** A thread on its way back from the condition variable, to look at the flag. *)
Definition answered (p : pc) : bool :=
  match p with Waking _ res | Awake _ res => 0 =? res | _ => false end.

(** A set flag finds nobody asleep, unless one of the threads that were woken
    has still to look. *)
Definition heard (w : world) : Prop :=
  setted (evt w) = true →
  (∀ t, asleep (pc_of w t) = false)
  ∨ broadcast (evt w) = false ∧ ∃ t, answered (pc_of w t) = true.

Lemma heard_set w t p o n :
  heard w → asleep p = false →
  (answered (pc_of w t) = true → answered p = true ∨ broadcast (evt w) = true) →
  heard (World (evt w) o (<[t := p]> (pcs w)) n).
Proof.
  intros Hh Hp Ha Hs. simpl in Hs. destruct (Hh Hs) as [Hn|[Hb [t0 Ht0]]].
  - left. intros t'. here. case_decide; [done|apply (Hn t')].
  - right. split; [done|]. destruct (decide (t = t0)) as [->|Hne].
    + exists t0. here. destruct (Ha Ht0) as [?|E]; [done|]. simpl in E. congruence.
    + exists t0. here. rewrite decide_False by done. done.
Qed.

(** What a section that is left has done to the flag. *)
Lemma leave_flag w t c timeout e n r :
  in_section w t c timeout (e, Leave n r) → pc_ok (pc_of w t) →
  setted e = false
  ∨ n = Nobody ∧ e = evt w ∧ (answered (pc_of w t) = true → broadcast (evt w) = true)
  ∨ answered (pc_of w t) = false ∧ n = (if broadcast (evt w) then All else One)
    ∧ broadcast e = broadcast (evt w).
Proof.
  assert (Hc : setted (consume (evt w)) = false
    ∨ consume (evt w) = evt w ∧ broadcast (evt w) = true)
    by (unfold consume; destruct (broadcast (evt w)); [right|left]; done).
  intros H Hok. inversion H as [c' Hp E1 E2 E3|to res Hp E1 E2 E3]; subst.
  - rewrite Hp. destruct c as [to| | |]; simpl in E3.
    + unfold unlock_and_wait_cond in E3. destruct (setted (evt w)) eqn:Hs; simpl in E3.
      * inversion E3; subst. naive_solver.
      * left. destruct (0 =? to); [by inversion E3; subst|].
        unfold cond_wait in E3. destruct (_ =? _) in E3; inversion E3.
    + unfold cplus_pevent_set in E3. inversion E3; subst. by right; right.
    + unfold cplus_pevent_reset in E3. inversion E3; subst. by left.
    + unfold cplus_pevent_get_status in E3. inversion E3; subst. by right; left.
  - rewrite Hp in Hok |- *. destruct Hok as [Hto Hres]. unfold after_cond_wait in E3.
    destruct Hres as [->|[-> Hf]]; simpl in E3.
    + destruct (setted (evt w)) eqn:Hs; simpl in E3.
      * inversion E3; subst. naive_solver.
      * unfold cond_wait in E3. destruct (_ =? _) in E3; inversion E3.
    + inversion E3; subst. by right; left.
Qed.

Lemma asleep_wake p : asleep (wake p) = false.
Proof. by destruct p. Qed.

(** After a notification by [t], which is not itself asleep. *)
Lemma heard_notified w t ch c r e ps :
  asleep (pc_of w t) = false → answered (pc_of w t) = false →
  broadcast e = broadcast (evt w) →
  notified (if broadcast (evt w) then All else One) ch (pcs w) = Some ps →
  heard (World e (owner w) (<[t := Leaving c r]> ps) (now w)).
Proof.
  intros Ht Ha Hb Hn _. simpl. rewrite Hb.
  destruct (broadcast (evt w)); simpl in Hn.
  - left. intros t'. here. case_decide; [done|]. inversion Hn; subst. rewrite lookup_fmap.
    destruct (pcs w !! t'); simpl; [apply asleep_wake|done].
  - unfold signal in Hn. destruct ch as [s|].
    + destruct (asleep (default Idle (pcs w !! s))) eqn:Es; [|done]. inversion Hn; subst.
      right. split; [done|]. exists s. here. case_decide as Hts.
      * subst. unfold pc_of in Ht. congruence.
      * rewrite lookup_alter_eq. destruct (pcs w !! s) as [p|]; [|done]. simpl in *. by destruct p.
    + destruct (decide _) as [Hall|]; [|done]. inversion Hn; subst. left. intros t'. here.
      case_decide; [done|]. destruct (pcs w !! t') as [p|] eqn:E; [|done]. by apply (Hall t').
Qed.

Lemma heard_step b w l w' : ok b w → heard w → rule w l w' → heard w'.
Proof.
  intros [Hx Ht Hb Hty] Hh Hr.
  destruct Hr as [t c H|t ch c H Ho|t ch o H Ho|t ch c to e n r ps H Hn
    |t ch c to e d H Ho|t ch to res H Ho|t ch c r H Ho|t to d H|t to d H Hd|ns H].
  4: { assert (asleep (pc_of w t) = false) as Hna.
       { pose proof (in_section_holding _ _ _ _ _ H). by destruct (pc_of w t). }
       destruct (leave_flag _ _ _ _ _ _ _ H (Ht t)) as [Hs|[(-> & -> & Ha)|(Ha & -> & He)]].
       - intros Hs'. simpl in Hs'. congruence.
       - inversion Hn; subst. apply heard_set; [done|done|]. intros ?. right. by apply Ha.
       - by apply (heard_notified w t ch c r e ps). }
  4: { destruct (sleep_ok _ _ _ _ _ _ H (Ht t)) as (-> & Hs & _). intros Hs'. simpl in Hs'. congruence. }
  all: first [exact Hh | apply (heard_set w t); [exact Hh|try done|]].
  - by destruct (type (evt w) =? OBJ_TYPE).
  - by destruct (pc_of w t).
  - by rewrite H.
  - by rewrite H.
  - rewrite H. by left.
  - by rewrite H.
  - by rewrite H.
  - by rewrite H.
Qed.

Lemma heard_start e time : heard (start e time).
Proof. intros _. left. done. Qed.

(** C22: in every state of every run, if the flag is set then either nobody is
    asleep on the condition variable, or the event is not of the broadcast kind
    and a thread that was woken is about to look at the flag.  A thread cannot
    go on sleeping because a set was signalled to nobody. *)
Theorem no_lost_wakeup e time ls w log :
  new_event e → run ls (start e time) = Some (w, log) → setted (evt w) = true →
  (∀ t, asleep (pc_of w t) = false)
  ∨ broadcast (evt w) = false ∧ ∃ t, answered (pc_of w t) = true.
Proof.
  intros He Hrun. change (heard w).
  cut (ok (broadcast e) w ∧ heard w); [tauto|].
  eapply (run_inv (λ w, ok (broadcast e) w ∧ heard w)); [|by split; [apply ok_start|apply heard_start]|done].
  intros w1 l w2 [H1 H2] Hr. split; [by eapply ok_step|by eapply heard_step].
Qed.

(** Two threads sleep; the set wakes one of them. *)
Definition two_sleepers : list label :=
  [Call 1 (Wait CPLUS_INFINITE_TIMEOUT); Move 1 None; Move 1 None;
   Call 2 (Wait 1000); Move 2 None; Move 2 None;
   Call 3 SetEvent; Move 3 None; Move 3 (Some 2%nat)].

Lemma no_lost_wakeup_witness :
  ∃ w, run two_sleepers (start auto_event 0) = Some (w, [])
  ∧ setted (evt w) = true
  ∧ ((∀ t, asleep (pc_of w t) = false)
     ∨ broadcast (evt w) = false ∧ ∃ t, answered (pc_of w t) = true).
Proof.
  destruct (run two_sleepers (start auto_event 0)) as [[w log]|] eqn:E; [|vm_compute in E; discriminate].
  assert (log = [] ∧ setted (evt w) = true) as [-> Hs] by (vm_compute in E; by inversion E).
  exists w. split; [done|]. split; [done|].
  by apply (no_lost_wakeup auto_event 0 two_sleepers w [] eq_refl E Hs).
Defined.

(** ** Deadlines *)

Lemma run_app ls1 ls2 w w1 w2 log1 log2 :
  run ls1 w = Some (w1, log1) → run ls2 w1 = Some (w2, log2) →
  run (ls1 ++ ls2) w = Some (w2, log1 ++ log2).
Proof.
  revert w log1. induction ls1 as [|l ls1 IH]; intros w log1 H1 H2; simpl in *.
  - by inversion H1; subst.
  - destruct (exec l w) as [w'|]; [|done]. simpl in *.
    destruct (run ls1 w') as [[w'' log']|] eqn:E; [|done]. simpl in *. inversion H1; subst.
    rewrite (IH w' log' E H2). simpl. by rewrite app_assoc.
Qed.

(** Thread 1 waits for at most 100 ms, and sleeps. *)
Definition sleep_100 : list label := [Call 1 (Wait 100); Move 1 None; Move 1 None].

(** 99 ms later thread 2 sets the event, which wakes thread 1, but thread 3
    polls it before thread 1 has the mutex. *)
Definition stolen : list label :=
  [Tick 99000000; Call 2 SetEvent; Move 2 None; Move 2 (Some 1%nat); Move 2 None;
   Call 3 (Wait 0); Move 3 None; Move 3 None; Move 3 None;
   Move 1 None; Move 1 None].

Definition stolen_log : list (call * result) :=
  [(SetEvent, Result 0 None); (Wait 0, Result CPLUS_SUCCESS (Some 0))].

Definition deadline_from (time : Z) : option timespec :=
  snd (cplus_systime_get_abstick_after_msec
         (Some (Timespec (time `div` 1000000000) (time `mod` 1000000000))) 100).

Definition robbed (time : Z) : world :=
  World auto_event None
    {[ 1%nat := Asleep 100 (deadline_from time);
       2%nat := Returned SetEvent (Result 0 None);
       3%nat := Returned (Wait 0) (Result CPLUS_SUCCESS (Some 0)) ]} time.

Lemma stolen_again time : run stolen (robbed time) = Some (robbed (time + 99000000), stolen_log).
Proof. reflexivity. Qed.

Lemma stolen_first time :
  run (sleep_100 ++ stolen) (start auto_event time) = Some (robbed (time + 99000000), stolen_log).
Proof. reflexivity. Qed.

Definition stolen_times (n : nat) : list label := concat (replicate n stolen).

Lemma stolen_many n time :
  ∃ log, run (stolen_times n) (robbed time) = Some (robbed (time + Z.of_nat n * 99000000), log).
Proof.
  revert time. induction n as [|n IH]; intros time.
  - exists []. unfold stolen_times. simpl. by rewrite Z.add_0_r.
  - destruct (IH (time + 99000000)) as [log H].
    exists (stolen_log ++ log). change (stolen_times (S n)) with (stolen ++ stolen_times n).
    rewrite (run_app _ _ _ _ _ _ _ (stolen_again time) H). do 3 f_equal. lia.
Qed.

(** Neither a call of thread [t], nor a spurious wake-up. *)
Definition plain (t : nat) (l : label) : Prop :=
  match l with Call t' _ => t' ≠ t | Spurious _ => False | _ => True end.

(** Code bug: a wait with a deadline can last for ever.  The loop computes
    the deadline anew in every turn, so a wake-up whose event another thread
    takes first starts the time again: a call with a timeout of 100 ms can
    still be asleep after any number of periods of 99 ms, without a spurious
    wake-up. *)
Theorem timed_wait_outlasts n :
  ∃ ls w log d, run (Call 1 (Wait 100) :: ls) (start auto_event 0) = Some (w, log)
  ∧ Forall (plain 1) ls
  ∧ pc_of w 1 = Asleep 100 d ∧ now w = Z.of_nat (S n) * 99000000.
Proof.
  destruct (stolen_many n (0 + 99000000)) as [log H].
  exists (tail sleep_100 ++ stolen ++ stolen_times n). eexists _, _, _.
  split; [|split; [|split]].
  - change (Call 1 (Wait 100) :: tail sleep_100 ++ stolen ++ stolen_times n)
      with ((sleep_100 ++ stolen) ++ stolen_times n).
    exact (run_app _ _ _ _ _ _ _ (stolen_first 0) H).
  - assert (Hst : Forall (plain 1) stolen) by (repeat constructor; done).
    rewrite !Forall_app. split; [by repeat constructor|]. split; [done|].
    clear H. induction n as [|n IH]; [by constructor|].
    change (stolen_times (S n)) with (stolen ++ stolen_times n). by apply Forall_app.
  - reflexivity.
  - simpl. lia.
Qed.

End PeventProps.
