(* ===== verification/PeventLive.v ===== *)
(** * PeventLive: waits that return

    Infinite executions of the threads of Pevent.v under a fair scheduler: a
    thread that is in a section keeps running, and a thread at the mutex gets it
    if the mutex is free again and again. *)

From S2P Require Import Prelude Systime Locks Pevent PeventProps.
From stdpp Require Import base numbers list option gmap fin_maps.
From Stdlib Require Import ZArith Lia.
Import Systime Pthread Pevent PeventProps.
Open Scope Z_scope.

Module PeventLive.

Definition execution (w : nat → world) (l : nat → label) : Prop :=
  ∀ n, exec (l n) (w n) = Some (w (S n)).

Definition moves (t : nat) (l : label) : Prop := ∃ ch, l = Move t ch.

#[export] Instance moves_dec t l : Decision (moves t l).
Proof.
  destruct l as [| t' ch | | |]; try (right; intros [? ?]; done).
  destruct (decide (t = t')) as [->|Hne]; [left; by exists ch|].
  right. intros [? ?]. congruence.
Defined.

Definition at_mutex (p : pc) : bool :=
  match p with Entering _ | Waking _ _ => true | _ => false end.

(** The scheduler is fair to those who hold the mutex, and the mutex to those
    who ask for it. *)
Record fair (w : nat → world) (l : nat → label) : Prop := {
  fair_holder t n : holding (pc_of (w n) t) = true → ∃ m, (n ≤ m)%nat ∧ moves t (l m);
  fair_mutex t n :
    at_mutex (pc_of (w n) t) = true →
    (∀ m, ∃ k, (m ≤ k)%nat ∧ owner (w k) = None) →
    ∃ m, (n ≤ m)%nat ∧ moves t (l m) }.

(** A thread at the mutex or in a section only moves by itself. *)
Definition running (p : pc) : bool := at_mutex p || holding p.

Lemma running_stays w l w' t :
  rule w l w' → running (pc_of w t) = true → ¬ moves t l → pc_of w' t = pc_of w t.
Proof.
  intros Hr Ht Hm.
  assert (Hne : ∀ t' ch, l = Move t' ch → t' ≠ t) by (intros t' ch -> ->; apply Hm; by exists ch).
  destruct Hr as [t' c H|t' ch c H Ho|t' ch o H Ho|t' ch c to e n r ps H Hn
    |t' ch c to e d H Ho|t' ch to res H Ho|t' ch c r H Ho|t' to d H|t' to d H Hd|ns H];
    rewrite ?pc_of_put, ?pc_of_set.
  4: { rewrite decide_False by (by eapply Hne). destruct (notified_pc _ _ _ _ t Hn) as [-> | ->]; [done|].
       unfold pc_of in Ht |- *. by destruct (default Idle (pcs w !! t)). }
  all: first [done | rewrite decide_False by (by eapply Hne); done | case_decide; [subst t'|done]].
  - by destruct (pc_of w t).
  - by rewrite H in Ht.
  - by rewrite H in Ht.
Qed.

(** Where the section of a call takes a thread. *)
Definition after_section (t : nat) (c : call) (timeout : Z) (x : pevent * ending) (w w' : world) : Prop :=
  evt w' = x.1 ∧
  match x.2 with
  | Leave _ r => pc_of w' t = Leaving c r ∧ owner w' = owner w
  | SleepOn d => pc_of w' t = Asleep timeout d ∧ owner w' = None
  end.

(** The next position of a thread that moves. *)
Definition moved (t : nat) (w w' : world) : Prop :=
  match pc_of w t with
  | Entering c =>
      owner w = None ∧ pc_of w' t = Inside c
      ∨ c = Wait 0 ∧ pc_of w' t = Returned c (Result CPLUS_FAIL (Some EBUSY))
  | Inside c => after_section t c (timeout_of c) (section_of c (now w) (evt w)) w w'
  | Waking timeout res => pc_of w' t = Awake timeout res
  | Awake timeout res =>
      after_section t (Wait timeout) timeout (after_cond_wait timeout (now w) res (evt w)) w w'
  | Leaving c r => pc_of w' t = Returned c r ∧ owner w' = None
  | _ => False
  end.

Lemma rule_moved w l w' t : rule w l w' → moves t l → moved t w w'.
Proof.
  intros Hr [ch ->]. unfold moved.
  inversion Hr as [|? ? c H Ho|? ? o H Ho|? ? c to e n r ps H Hn|? ? c to e d H Ho
    |? ? to res H Ho|? ? c r H Ho| | |]; subst.
  - rewrite H. left. by here.
  - rewrite H. right. by here.
  - inversion H as [? Hp E1 E2 E3|? ? Hp E1 E2 E3]; subst; rewrite Hp; rewrite E3;
      (split; [done|]; simpl; by here).
  - inversion H as [? Hp E1 E2 E3|? ? Hp E1 E2 E3]; subst; rewrite Hp; rewrite E3;
      (split; [done|]; simpl; by here).
  - rewrite H. by here.
  - rewrite H. by here.
Qed.

Definition success : result := Result CPLUS_SUCCESS (Some 0).

(** Some wait has just been given its success. *)
Definition taken (w : world) : Prop := ∃ t timeout, pc_of w t = Leaving (Wait timeout) success.

Definition no_reset (w : world) : Prop := ∀ t, pc_of w t ≠ Inside ResetEvent.

(** Only a reset, or a wait that succeeds, clears the flag. *)
Lemma flag_stays b w l w' :
  ok b w → rule w l w' → no_reset w → setted (evt w) = true →
  setted (evt w') = true ∨ b = false ∧ taken w'.
Proof.
  intros [Hx Ht Hb Hty] Hr Hn Hs. destruct Hr as [| | |t ch c to e nn r ps H Hnn
    |t ch c to e d H Ho| | | | |]; [by left|by left|by left| | |by left..].
  - assert (Hc : r = wait_result 0 → (∃ to', c = Wait to') → e = consume (evt w) →
      setted e = true ∨ b = false ∧ taken (World e (owner w) (<[t:=Leaving c r]> ps) (now w))).
    { intros -> [to' ->] ->. unfold consume. rewrite Hb. destruct b; [by left|]. right.
      split; [done|]. exists t, to'. by here. }
    inversion H as [c' Hp E1 E2 E3|to' res Hp E1 E2 E3]; subst.
    + destruct c as [to| | |]; simpl in E3.
      * unfold unlock_and_wait_cond in E3. rewrite Hs in E3. simpl in E3.
        inversion E3; subst. apply Hc; eauto.
      * unfold cplus_pevent_set in E3. inversion E3. by left.
      * by destruct (Hn t).
      * unfold cplus_pevent_get_status in E3. inversion E3; subst. by left.
    + unfold after_cond_wait in E3. rewrite Hs in E3. simpl in E3. rewrite andb_false_r in E3.
      destruct (Z.eqb_spec 0 res) as [<-|]; inversion E3; subst; [apply Hc; eauto|by left].
  - destruct (sleep_ok _ _ _ _ _ _ H (Ht t)) as (-> & _). by left.
Qed.

Section Executions.

Context (w : nat → world) (l : nat → label) (b : bool).
Context (Hexec : execution w l) (Hok : ok b (w 0%nat)).

Lemma live_exec_step n : rule (w n) (l n) (w (S n)).
Proof. apply exec_rule, Hexec. Qed.

Lemma exec_ok n : ok b (w n).
Proof. induction n as [|n IH]; [done|]. eapply ok_step; [done|apply live_exec_step]. Qed.

(** The state in which a thread makes its next move. *)
Lemma next_move t n m :
  (n ≤ m)%nat → moves t (l m) → running (pc_of (w n) t) = true →
  ∃ k, (n ≤ k)%nat ∧ moves t (l k) ∧ pc_of (w k) t = pc_of (w n) t.
Proof.
  intros Hle Hm. remember (m - n)%nat as d eqn:Ed. revert n Hle Ed.
  induction d as [|d IH]; intros n Hle Ed Ht.
  - replace m with n in Hm by lia. by exists n.
  - destruct (decide (moves t (l n))) as [Hn|Hn]; [by exists n|].
    pose proof (running_stays _ _ _ t (live_exec_step n) Ht Hn) as E.
    destruct (IH (S n)) as (k & Hk & Hmk & Ek); [lia|lia|by rewrite E|].
    exists k. split; [lia|]. split; [done|congruence].
Qed.

Context (Hfair : fair w l).

Lemma section_moves t n :
  holding (pc_of (w n) t) = true →
  ∃ k, (n ≤ k)%nat ∧ moves t (l k) ∧ pc_of (w k) t = pc_of (w n) t.
Proof.
  intros Ht. destruct (fair_holder w l Hfair t n Ht) as (m & Hle & Hm).
  apply (next_move t n m); [done|done|]. unfold running. rewrite Ht. apply orb_true_r.
Qed.

Lemma next_moved t k : moves t (l k) → moved t (w k) (w (S k)).
Proof. intros Hk. eapply rule_moved; [apply live_exec_step|done]. Qed.

Lemma leaving_returns t n c r :
  pc_of (w n) t = Leaving c r →
  ∃ m, (n ≤ m)%nat ∧ pc_of (w m) t = Returned c r ∧ owner (w m) = None.
Proof.
  intros Hp. destruct (section_moves t n) as (k & Hk & Hm & E); [by rewrite Hp|].
  pose proof (next_moved t k Hm) as Hs. unfold moved in Hs. rewrite E, Hp in Hs.
  exists (S k). split; [lia|done].
Qed.

(** Whoever is in a section gets out of the mutex. *)
Lemma mutex_free_often n : ∃ m, (n ≤ m)%nat ∧ owner (w m) = None.
Proof.
  destruct (owner (w n)) as [t|] eqn:Eo; [|by exists n].
  assert (Ht : holding (pc_of (w n) t) = true) by (by apply (ok_exclusive _ _ (exec_ok n))).
  destruct (section_moves t n Ht) as (k & Hk & Hm & E).
  pose proof (next_moved t k Hm) as Hs. unfold moved in Hs. rewrite E in Hs.
  assert (Hsec : ∀ c to x, after_section t c to x (w k) (w (S k)) →
    ∃ m, (n ≤ m)%nat ∧ owner (w m) = None).
  { intros c to [e [nn r|d]] [_ H]; simpl in H.
    - destruct H as [Hp _]. destruct (leaving_returns t (S k) c r Hp) as (m & Hle & _ & Hmo).
      exists m. split; [lia|done].
    - exists (S k). split; [lia|apply H]. }
  destruct (pc_of (w n) t) eqn:Ep; try done.
  - by eapply Hsec.
  - by eapply Hsec.
  - exists (S k). split; [lia|apply Hs].
Qed.

(** Whoever is at the mutex or in a section moves on. *)
Lemma running_moves t n :
  running (pc_of (w n) t) = true →
  ∃ k, (n ≤ k)%nat ∧ pc_of (w k) t = pc_of (w n) t ∧ moved t (w k) (w (S k)).
Proof.
  intros Ht.
  assert (∃ k, (n ≤ k)%nat ∧ moves t (l k) ∧ pc_of (w k) t = pc_of (w n) t) as (k & Hk & Hm & E).
  { pose proof Ht as Ht'. apply orb_true_iff in Ht' as [Hmu|Hh]; [|by apply section_moves].
    destruct (fair_mutex w l Hfair t n Hmu mutex_free_often) as (m & Hle & Hm).
    by apply (next_move t n m). }
  exists k. split; [done|]. split; [done|]. by eapply next_moved.
Qed.

(** A section that is left leads to the return of the call. *)
Lemma section_returns t k c to e nn r :
  after_section t c to (e, Leave nn r) (w k) (w (S k)) →
  ∃ m, (k ≤ m)%nat ∧ pc_of (w m) t = Returned c r.
Proof.
  intros [_ [Hp _]]. destruct (leaving_returns t (S k) c r Hp) as (m & Hle & Hr & _).
  exists m. split; [lia|done].
Qed.

(** *** Calls that do not wait *)

Definition may_sleep (c : call) : bool :=
  match c with Wait timeout => negb (0 =? timeout) | _ => false end.

Lemma section_leaves c time e :
  may_sleep c = false → ∃ nn r, (section_of c time e).2 = Leave nn r.
Proof.
  destruct c as [to| | |]; simpl; [|by eauto..]. intros H. unfold unlock_and_wait_cond.
  destruct (setted e); simpl; [by eauto|]. destruct (0 =? to); [by eauto|done].
Qed.

Lemma inside_returns t n c :
  pc_of (w n) t = Inside c → may_sleep c = false →
  ∃ m r, (n ≤ m)%nat ∧ pc_of (w m) t = Returned c r.
Proof.
  intros Hp Hc. destruct (running_moves t n) as (k & Hk & E & Hs); [by rewrite Hp|].
  unfold moved in Hs. rewrite E, Hp in Hs.
  destruct (section_leaves c (now (w k)) (evt (w k)) Hc) as (nn & r & Hx).
  destruct (section_of c (now (w k)) (evt (w k))) as [e x]. simpl in Hx. subst x.
  destruct (section_returns _ _ _ _ _ _ _ Hs) as (m & Hle & Hm). exists m, r. split; [lia|done].
Qed.

Lemma call_returns t n c :
  pc_of (w n) t = Entering c → may_sleep c = false →
  ∃ m r, (n ≤ m)%nat ∧ pc_of (w m) t = Returned c r.
Proof.
  intros Hp Hc. destruct (running_moves t n) as (k & Hk & E & Hs); [by rewrite Hp|].
  unfold moved in Hs. rewrite E, Hp in Hs. destruct Hs as [[_ Hi]|[_ Hr]].
  - destruct (inside_returns t (S k) c Hi Hc) as (m & r & Hle & Hm). exists m, r. split; [lia|done].
  - exists (S k). eexists. split; [lia|done].
Qed.

(** *** Calls that wait *)

(** From [n] on nobody resets the event. *)
Definition no_reset_from (n : nat) : Prop := ∀ m, (n ≤ m)%nat → no_reset (w m).

Lemma no_reset_later n m : no_reset_from n → (n ≤ m)%nat → no_reset_from m.
Proof. intros H Hle k Hk. apply H. lia. Qed.

(** Between two states the flag stays, or somebody takes it. *)
Lemma flag_until n m :
  (n ≤ m)%nat → no_reset_from n → setted (evt (w n)) = true →
  setted (evt (w m)) = true ∨ b = false ∧ ∃ k, (n ≤ k)%nat ∧ taken (w k).
Proof.
  intros Hle Hn Hs. induction Hle as [|m Hle IH]; [by left|].
  destruct IH as [IH|[Hb IH]]; [|by right].
  destruct (flag_stays b (w m) (l m) (w (S m))) as [H|[Hb H]];
    [apply exec_ok|apply live_exec_step|by apply Hn|done|by left|].
  right. split; [done|]. exists (S m). split; [lia|done].
Qed.

(** A thread that will look at the flag because it just called, or because it
    was woken. *)
Definition looking (timeout : Z) (p : pc) : Prop :=
  p = Entering (Wait timeout) ∧ timeout ≠ 0 ∨ p = Inside (Wait timeout)
  ∨ p = Waking timeout 0 ∨ p = Awake timeout 0.

(** The state in which it looks. *)
Lemma looks t n timeout :
  looking timeout (pc_of (w n) t) →
  ∃ k, (n ≤ k)%nat ∧ (pc_of (w k) t = Inside (Wait timeout) ∨ pc_of (w k) t = Awake timeout 0)
       ∧ moved t (w k) (w (S k)).
Proof.
  assert (Hsec : ∀ n, pc_of (w n) t = Inside (Wait timeout) ∨ pc_of (w n) t = Awake timeout 0 →
    ∃ k, (n ≤ k)%nat ∧ (pc_of (w k) t = Inside (Wait timeout) ∨ pc_of (w k) t = Awake timeout 0)
       ∧ moved t (w k) (w (S k))).
  { intros n' Hp. destruct (running_moves t n') as (k & Hk & E & Hs); [by destruct Hp as [-> | ->]|].
    exists k. split; [done|]. by rewrite E. }
  intros [[Hp Ht]|[Hp|[Hp|Hp]]]; [| |  |by apply Hsec; right].
  - destruct (running_moves t n) as (k & Hk & E & Hs); [by rewrite Hp|].
    unfold moved in Hs. rewrite E, Hp in Hs.
    destruct Hs as [[_ Hs]|[Hs _]]; [|by inversion Hs].
    destruct (Hsec (S k)) as (k' & Hk' & Hs'); [by left|]. exists k'. split; [lia|done].
  - apply Hsec. by left.
  - destruct (running_moves t n) as (k & Hk & E & Hs); [by rewrite Hp|].
    unfold moved in Hs. rewrite E, Hp in Hs.
    destruct (Hsec (S k)) as (k' & Hk' & Hs'); [by right|]. exists k'. split; [lia|done].
Qed.

(** Looking at a set flag is success. *)
Lemma looks_set t k timeout :
  pc_of (w k) t = Inside (Wait timeout) ∨ pc_of (w k) t = Awake timeout 0 →
  moved t (w k) (w (S k)) → setted (evt (w k)) = true →
  after_section t (Wait timeout) timeout (consume (evt (w k)), Leave Nobody success)
    (w k) (w (S k)).
Proof.
  intros Hp Hs Hf. unfold moved in Hs. destruct Hp as [Hp|Hp]; rewrite Hp in Hs.
  - simpl in Hs. unfold unlock_and_wait_cond in Hs. by rewrite Hf in Hs.
  - unfold after_cond_wait in Hs. by rewrite Hf in Hs.
Qed.

(** A set flag at which somebody will look is taken. *)
Lemma flag_taken t n timeout :
  no_reset_from n → setted (evt (w n)) = true → looking timeout (pc_of (w n) t) →
  ∃ k, (n ≤ k)%nat ∧ taken (w k).
Proof.
  intros Hn Hs Hl. destruct (looks t n timeout Hl) as (k & Hk & Hp & Hm).
  destruct (flag_until n k Hk Hn Hs) as [Hf|[_ (k' & Hk' & Ht)]]; [|by exists k'].
  destruct (looks_set t k timeout Hp Hm Hf) as [_ [Hr _]].
  exists (S k). split; [lia|]. by exists t, timeout.
Qed.

Lemma wait_on_set_returns t n timeout :
  b = true → no_reset_from n → setted (evt (w n)) = true → looking timeout (pc_of (w n) t) →
  ∃ m, (n ≤ m)%nat ∧ pc_of (w m) t = Returned (Wait timeout) success.
Proof.
  intros Hb Hn Hs Hl. destruct (looks t n timeout Hl) as (k & Hk & Hp & Hm).
  destruct (flag_until n k Hk Hn Hs) as [Hf|[Hb' _]]; [|congruence].
  destruct (section_returns _ _ _ _ _ _ _ (looks_set t k timeout Hp Hm Hf)) as (m & Hle & Hr).
  exists m. split; [lia|done].
Qed.

(** A thread whose wait has no deadline, and has not been answered. *)
Definition waits_forever (p : pc) : Prop :=
  match p with
  | Entering (Wait timeout) | Inside (Wait timeout) | Asleep timeout _
  | Waking timeout _ | Awake timeout _ => timeout = CPLUS_INFINITE_TIMEOUT
  | _ => False
  end.

Lemma forever_looking t n :
  waits_forever (pc_of (w n) t) → asleep (pc_of (w n) t) = false →
  looking CPLUS_INFINITE_TIMEOUT (pc_of (w n) t).
Proof.
  pose proof (ok_threads _ _ (exec_ok n) t) as Ht. revert Ht. unfold looking.
  destruct (pc_of (w n) t) as [|[to| | |]|[to| | |]|to d|to res|to res| | |]; simpl; try done.
  - intros _ -> _. left. split; [done|]. done.
  - intros _ -> _. right. by left.
  - intros [_ [-> |[_ H]]] -> _; [|done]. right. right. by left.
  - intros [_ [-> |[_ H]]] -> _; [|done]. by right; right; right.
Qed.

Context (Hheard : heard (w 0%nat)).

Lemma exec_heard n : heard (w n).
Proof.
  induction n as [|n IH]; [done|]. eapply heard_step; [apply exec_ok|done|apply live_exec_step].
Qed.

End Executions.

(** ** Liveness *)

(** C21: under a fair scheduler a set event is noticed.  If the flag is set and is
    not reset from then on, a wait without a deadline that has begun returns
    with success when the event is of the broadcast kind; otherwise some wait is
    given its success. *)
Theorem set_is_noticed e time w l n t :
  new_event e → w 0%nat = start e time → execution w l → fair w l →
  setted (evt (w n)) = true → no_reset_from w n → waits_forever (pc_of (w n) t) →
  ∃ m, (n ≤ m)%nat ∧
    if broadcast e then pc_of (w m) t = Returned (Wait CPLUS_INFINITE_TIMEOUT) success
    else taken (w m).
Proof.
  intros He H0 Hx Hf Hs Hn Hw.
  assert (Hok : ok (broadcast e) (w 0%nat)) by (rewrite H0; by apply ok_start).
  assert (Hh : heard (w 0%nat)) by (rewrite H0; apply heard_start).
  destruct (exec_heard w l (broadcast e) Hx Hok Hh n Hs) as [Ha|[Hb [t0 Ht0]]].
  - assert (Hl := forever_looking w l (broadcast e) Hx Hok t n Hw (Ha t)).
    destruct (broadcast e) eqn:Hb.
    + by eapply (wait_on_set_returns w l true Hx Hok Hf).
    + by eapply (flag_taken w l false Hx Hok Hf).
  - pose proof (ok_kind _ _ (exec_ok w l (broadcast e) Hx Hok n)) as Hk.
    rewrite <- Hk, Hb. 
    assert (∃ timeout, looking timeout (pc_of (w n) t0)) as [timeout Hl].
    { unfold looking. destruct (pc_of (w n) t0); try done; simpl in Ht0; apply Z.eqb_eq in Ht0; subst; eauto 6. }
    by eapply (flag_taken w l (broadcast e) Hx Hok Hf).
Qed.

(** setting, resetting, reading the status and polling never block: under a
    fair scheduler each of these calls returns. *)
Theorem polling_returns e time w l n t c :
  new_event e → w 0%nat = start e time → execution w l → fair w l →
  may_sleep c = false → pc_of (w n) t = Entering c →
  ∃ m r, (n ≤ m)%nat ∧ pc_of (w m) t = Returned c r.
Proof.
  intros He H0 Hx Hf Hc Hp.
  assert (Hok : ok (broadcast e) (w 0%nat)) by (rewrite H0; by apply ok_start).
  by apply (call_returns w l (broadcast e) Hx Hok Hf).
Qed.

(** ** Executions that come to rest

    A finite run, after which the clock ticks and nothing else happens. *)

Fixpoint trace (ls : list label) (w : world) (n : nat) : world :=
  match n with
  | O => w
  | S n =>
      match ls with
      | [] => trace [] (World (evt w) (owner w) (pcs w) (now w + 1)) n
      | l :: ls => match exec l w with Some w' => trace ls w' n | None => w end
      end
  end.
Definition labels (ls : list label) (n : nat) : label := nth n ls (Tick 1).

Lemma labels_nil n : labels [] n = Tick 1.
Proof. by destruct n. Qed.

Lemma trace_rest w n :
  exec (Tick 1) (trace [] w n) = Some (trace [] w (S n))
  ∧ pcs (trace [] w n) = pcs w ∧ evt (trace [] w n) = evt w.
Proof.
  revert w. induction n as [|n IH]; intros w; [done|].
  destruct (IH (World (evt w) (owner w) (pcs w) (now w + 1))) as (H1 & H2 & H3). done.
Qed.

Lemma run_cons l ls w w' log :
  run (l :: ls) w = Some (w', log) →
  ∃ w1 log', exec l w = Some w1 ∧ run ls w1 = Some (w', log').
Proof.
  simpl. destruct (exec l w) as [w1|]; [|done]. simpl.
  destruct (run ls w1) as [[w2 log']|] eqn:E; [|done]. intros [= -> _]. by exists w1, log'.
Qed.

Lemma trace_execution ls w w' log :
  run ls w = Some (w', log) → execution (trace ls w) (labels ls).
Proof.
  intros H n. revert ls w log H. induction n as [|n IH]; intros ls w log H.
  - destruct ls as [|l ls]; [done|]. apply run_cons in H as (w1 & log' & E & H).
    unfold labels. simpl. rewrite E. by destruct ls.
  - destruct ls as [|l ls].
    + rewrite labels_nil. apply trace_rest.
    + apply run_cons in H as (w1 & log' & E & H).
      change (labels (l :: ls) (S n)) with (labels ls n). simpl. rewrite E. by eapply IH.
Qed.

Lemma trace_end ls w w' log n :
  run ls w = Some (w', log) → (length ls ≤ n)%nat → pcs (trace ls w n) = pcs w'.
Proof.
  revert w log n. induction ls as [|l ls IH]; intros w log n H Hn.
  - simpl in H. inversion H; subst. apply trace_rest.
  - apply run_cons in H as (w1 & log' & E & H). destruct n as [|n]; simpl in Hn; [lia|].
    simpl. rewrite E. eapply IH; [done|lia].
Qed.

(** Threads that end outside the calls have had all their moves. *)
Lemma settled_fair ls w w' log :
  run ls w = Some (w', log) → (∀ t, running (pc_of w' t) = false) →
  fair (trace ls w) (labels ls).
Proof.
  intros Hrun Hend.
  assert (Hex := trace_execution _ _ _ _ Hrun).
  assert (H : ∀ t d n, (length ls ≤ n + d)%nat → running (pc_of (trace ls w n) t) = true →
    ∃ m, (n ≤ m)%nat ∧ moves t (labels ls m)).
  { intros t. induction d as [|d IH]; intros n Hn Ht.
    - specialize (Hend t). unfold pc_of in Ht, Hend.
      rewrite (trace_end ls w w' log) in Ht by (done || lia). congruence.
    - destruct (decide (moves t (labels ls n))) as [Hm|Hm]; [by exists n|].
      pose proof (running_stays _ _ _ t (exec_rule _ _ _ (Hex n)) Ht Hm) as E.
      destruct (IH (S n)) as (m & Hle & Hm'); [lia|by rewrite E|]. exists m. split; [lia|done]. }
  split; intros t n Ht; [|intros _]; apply (H t (length ls)); [lia| |lia|];
    unfold running; rewrite Ht; [apply orb_true_r|done].
Qed.

(** Thread 1 sleeps, thread 2 sets the event, and thread 1 comes back. *)
Definition bright : pevent := mkPevent OBJ_TYPE false true false.
Definition noticed : list label :=
  [Call 1 (Wait CPLUS_INFINITE_TIMEOUT); Move 1 None; Move 1 None;
   Call 2 SetEvent; Move 2 None; Move 2 None; Move 2 None;
   Move 1 None; Move 1 None; Move 1 None].

Lemma noticed_run : ∃ w log, run noticed (start bright 0) = Some (w, log)
  ∧ ∀ t, running (pc_of w t) = false.
Proof.
  destruct (run noticed (start bright 0)) as [[w log]|] eqn:E; [|vm_compute in E; discriminate].
  exists w, log. split; [done|]. 
  assert (map_to_list (pcs w) = [(2%nat, Returned SetEvent (Result 0 None));
    (1%nat, Returned (Wait CPLUS_INFINITE_TIMEOUT) success)]) as Hp
    by (vm_compute in E; inversion E; by vm_compute).
  intros t. unfold pc_of. destruct (pcs w !! t) as [p|] eqn:Et; [|done].
  apply elem_of_map_to_list in Et. rewrite Hp in Et.
  repeat (apply elem_of_cons in Et as [Et|Et]; [by inversion Et|]).
  by apply elem_of_nil in Et.
Qed.

(** Without a call of reset there is no thread in one. *)
Definition resetting (p : pc) : bool :=
  match p with Entering ResetEvent | Inside ResetEvent => true | _ => false end.

Lemma resetting_step w l w' :
  rule w l w' → (∀ t, l ≠ Call t ResetEvent) →
  (∀ t, resetting (pc_of w t) = false) → ∀ t, resetting (pc_of w' t) = false.
Proof.
  intros Hr Hl Hn t0. specialize (Hn t0) as Hn0.
  destruct Hr as [t c H|t ch c H Ho|t ch o H Ho|t ch c to e nn r ps H Hnn
    |t ch c to e d H Ho|t ch to res H Ho|t ch c r H Ho|t to d H|t to d H Hd|ns H];
    rewrite ?pc_of_put, ?pc_of_set; try case_decide; try done; subst.
  - specialize (Hl t0). by destruct (type (evt w) =? OBJ_TYPE), c.
  - rewrite H in Hn0. by destruct c.
  - destruct (notified_pc _ _ _ _ t0 Hnn) as [-> | ->]; [done|].
    unfold pc_of in Hn0. by destruct (default Idle (pcs w !! t0)).
Qed.

Lemma resetting_never w l :
  execution w l → (∀ n t, l n ≠ Call t ResetEvent) → (∀ t, resetting (pc_of (w 0%nat) t) = false) →
  no_reset_from w 0.
Proof.
  intros Hx Hl H0.
  assert (H : ∀ n t, resetting (pc_of (w n) t) = false).
  { induction n as [|n IH]; [done|]. eapply resetting_step; [apply exec_rule, Hx|done|done]. }
  intros m _ t E. specialize (H m t). by rewrite E in H.
Qed.

Lemma labels_not ls n x : Forall (λ l, l ≠ x) ls → x ≠ Tick 1 → labels ls n ≠ x.
Proof.
  intros Hf Hx. unfold labels. destruct (nth_in_or_default n ls (Tick 1)) as [H| ->]; [|done].
  rewrite Forall_forall in Hf. apply Hf. by apply list_elem_of_In.
Qed.

Lemma noticed_no_reset : no_reset_from (trace noticed (start bright 0)) 7.
Proof.
  destruct noticed_run as (w & log & Hrun & _).
  apply (no_reset_later _ 0); [|lia].
  eapply resetting_never; [by eapply trace_execution| |done].
  intros n t. apply labels_not; [|done]. by repeat constructor.
Qed.

Lemma set_is_noticed_witness :
  ∃ m, (7 ≤ m)%nat ∧
    pc_of (trace noticed (start bright 0) m) 1%nat = Returned (Wait CPLUS_INFINITE_TIMEOUT) success.
Proof.
  destruct noticed_run as (w & log & Hrun & Hrest).
  apply (set_is_noticed bright 0 (trace noticed (start bright 0)) (labels noticed) 7 1);
    [done|done|by eapply trace_execution|by eapply settled_fair|by vm_compute
    |apply noticed_no_reset|by vm_compute].
Defined.

Lemma polling_returns_witness :
  ∃ m r, (4 ≤ m)%nat ∧ pc_of (trace noticed (start bright 0) m) 2%nat = Returned SetEvent r.
Proof.
  destruct noticed_run as (w & log & Hrun & Hrest).
  apply (polling_returns bright 0 (trace noticed (start bright 0)) (labels noticed) 4 2 SetEvent);
    [done|done|by eapply trace_execution|by eapply settled_fair|done|by vm_compute].
Defined.

End PeventLive.
