(* ===== verification/Sharedmem.v ===== *)
(** * Sharedmem: named shared memory (src/sharedmem.c)

    The kernel keeps the names, the objects behind them, the descriptors of
    every process and the mappings of every process.  The calls of the operating
    system are modelled by what they do to these; a call of a process that fails
    for a reason outside of them does so because [faults] says so. *)

From S2P Require Import Prelude Zlist Stdio Memmgr.
From stdpp Require Import base numbers list option gmap.
From Stdlib Require Import ZArith Lia.
Import Stdio Memmgr.
Open Scope Z_scope.

Module Sharedmem.

Definition OBJ_TYPE : Z := OBJ_NONE + SYS + 0.
Definition GB : Z := 1073741824.
Definition INVALID_FD : Z := -1.
Definition SHAREDMEM_MAX_SIZE : Z := 1 * GB.
Definition SHAREDMEM_NAME_MAX_SIZE : Z := 63.
(** ["/.cplus.shm_"], the pattern before the name. *)
Definition SHAREDMEM_NAMED_PATTERN : list Z :=
  [47; 46; 99; 112; 108; 117; 115; 46; 115; 104; 109; 95].
Definition SHAREDMEM_NAMED_PATTERN_SIZE : Z := 15 - 3.

(** ** The kernel *)

(** What a descriptor stands for: a shared memory object, or anything else the
    process has opened. *)
Inductive file := Shm (inode : nat) | Other (id : nat).

Record kernel := Kernel {
  names : gmap (list Z) nat;             (* names of shared memory objects *)
  sizes : gmap nat Z;                    (* their sizes *)
  fds : gmap (Z * Z) file;               (* descriptors of processes *)
  maps : gmap nat (Z * nat * Z);         (* mappings: process, object, size *)
  errno : Z }.

Definition set_names (x : gmap (list Z) nat) (k : kernel) : kernel :=
  Kernel x (sizes k) (fds k) (maps k) (errno k).
Definition set_sizes (x : gmap nat Z) (k : kernel) : kernel :=
  Kernel (names k) x (fds k) (maps k) (errno k).
Definition set_fds (x : gmap (Z * Z) file) (k : kernel) : kernel :=
  Kernel (names k) (sizes k) x (maps k) (errno k).
Definition set_maps (x : gmap nat (Z * nat * Z)) (k : kernel) : kernel :=
  Kernel (names k) (sizes k) (fds k) x (errno k).
Definition set_errno (x : Z) (k : kernel) : kernel :=
  Kernel (names k) (sizes k) (fds k) (maps k) x.

Definition fail {A} (e : Z) (a : A) : C kernel A := modify (set_errno e);; mret a.

Definition EEXIST : Z := 17.
Definition EBADF : Z := 9.

(** Which calls fail although the kernel could serve them. *)
Record faults := Faults {
  no_memory : bool;               (* malloc *)
  open_error : option Z;          (* shm_open, with this errno *)
  fstat_error : option Z;
  ftruncate_error : option Z;
  mmap_error : option Z }.
Definition no_faults : faults := Faults false None None None None.

(** The lowest descriptor process [me] does not use. *)
Definition lowest_fd (me : Z) (fs : gmap (Z * Z) file) : Z :=
  match list_find (λ d, fs !! (me, d) = None) (seqZ 0 (Z.of_nat (size fs) + 1)) with
  | Some (_, d) => d
  | None => INVALID_FD
  end.

Definition new_fd (me : Z) (f : file) : C kernel Z :=
  d ← gets (λ k, lowest_fd me (fds k));
  modify (λ k, set_fds (<[(me, d) := f]> (fds k)) k);;
  mret d.

(** [shm_open(name, O_CREAT | O_EXCL | O_RDWR)]: a new object has no bytes. *)
Definition shm_open_new (me : Z) (F : faults) (nm : list Z) : C kernel Z :=
  match open_error F with
  | Some e => fail e INVALID_FD
  | None =>
      k ← gets id;
      match names k !! nm with
      | Some _ => fail EEXIST INVALID_FD
      | None =>
          let i := fresh (dom (sizes k)) in
          modify (set_names (<[nm := i]> (names k)));;
          modify (set_sizes (<[i := 0]> (sizes k)));;
          new_fd me (Shm i)
      end
  end.

(** [shm_open(name, O_RDWR)]. *)
Definition shm_open (me : Z) (F : faults) (nm : list Z) : C kernel Z :=
  match open_error F with
  | Some e => fail e INVALID_FD
  | None =>
      k ← gets id;
      match names k !! nm with
      | Some i => new_fd me (Shm i)
      | None => fail ENOENT INVALID_FD
      end
  end.

(** The object a descriptor of [me] stands for. *)
Definition fd_inode (me d : Z) (k : kernel) : option nat :=
  match fds k !! (me, d) with Some (Shm i) => Some i | _ => None end.

Definition ftruncate (me : Z) (F : faults) (d size : Z) : C kernel Z :=
  match ftruncate_error F with
  | Some e => fail e (-1)
  | None =>
      o ← gets (fd_inode me d);
      match o with
      | Some i => modify (λ k, set_sizes (<[i := size]> (sizes k)) k);; mret 0
      | None => fail EBADF (-1)
      end
  end.

(** [fstat]: the size, when it succeeds. *)
Definition fstat (me : Z) (F : faults) (d : Z) : C kernel (option Z) :=
  match fstat_error F with
  | Some e => fail e None
  | None =>
      o ← gets (λ k, fd_inode me d k ≫= λ i, sizes k !! i);
      match o with Some n => mret (Some n) | None => fail EBADF None end
  end.

(** [mmap] of a shared object: [None] is [MAP_FAILED]. *)
Definition mmap (me : Z) (F : faults) (size d : Z) : C kernel (option nat) :=
  match mmap_error F with
  | Some e => fail e None
  | None =>
      if size =? 0 then fail EINVAL None
      else
        o ← gets (fd_inode me d);
        match o with
        | Some i =>
            a ← gets (λ k, fresh (dom (maps k)));
            modify (λ k, set_maps (<[a := (me, i, size)]> (maps k)) k);;
            mret (Some a)
        | None => fail EBADF None
        end
  end.

Definition munmap (a : nat) : C kernel unit := modify (λ k, set_maps (delete a (maps k)) k).

Definition close (me d : Z) : C kernel unit :=
  k ← gets id;
  match fds k !! (me, d) with
  | Some _ => modify (set_fds (delete (me, d) (fds k)))
  | None => modify (set_errno EBADF)
  end.

Definition shm_unlink (nm : list Z) : C kernel unit :=
  k ← gets id;
  match names k !! nm with
  | Some _ => modify (set_names (delete nm (names k)))
  | None => modify (set_errno ENOENT)
  end.

(** ** The object *)

Record shared_mem := mkSharedMem {
  type : Z;
  fd : Z;
  addr : option nat;
  size : Z;
  is_owner : bool;
  owner_id : Z;
  name : list Z }.

Definition set_fd (x : Z) (s : shared_mem) : shared_mem :=
  mkSharedMem (type s) x (addr s) (size s) (is_owner s) (owner_id s) (name s).
Definition set_addr (x : option nat) (s : shared_mem) : shared_mem :=
  mkSharedMem (type s) (fd s) x (size s) (is_owner s) (owner_id s) (name s).
Definition set_size (x : Z) (s : shared_mem) : shared_mem :=
  mkSharedMem (type s) (fd s) (addr s) x (is_owner s) (owner_id s) (name s).
Definition set_owner (x : Z) (s : shared_mem) : shared_mem :=
  mkSharedMem (type s) (fd s) (addr s) (size s) true x (name s).

Definition CHECK_OBJECT_TYPE (s : shared_mem) : C kernel unit := assert_c (type s =? OBJ_TYPE).

Definition cplus_sharedmem_is_owner (me : Z) (s : shared_mem) : C kernel bool :=
  CHECK_OBJECT_TYPE s;; mret (is_owner s && (me =? owner_id s)).

Definition cplus_sharedmem_get_size (s : shared_mem) : C kernel Z :=
  CHECK_OBJECT_TYPE s;; mret (s32 (size s)).

(** The text at the pointer the function returns. *)
Definition cplus_sharedmem_get_name (s : shared_mem) : C kernel (option (list Z)) :=
  CHECK_OBJECT_TYPE s;;
  mret (cstr (drop (Z.to_nat (zlen SHAREDMEM_NAMED_PATTERN + 2 - 2)) (name s))).

Definition cplus_sharedmem_alloc (s : shared_mem) : C kernel (option nat) :=
  CHECK_OBJECT_TYPE s;; mret (addr s).

Definition cplus_sharedmem_delete (me : Z) (s : shared_mem) : C kernel Z :=
  CHECK_OBJECT_TYPE s;;
  match addr s with Some a => munmap a | None => mret tt end;;
  (if negb (INVALID_FD =? fd s) then close me (fd s) else mret tt);;
  (if is_owner s && (me =? owner_id s) then
     match cstr (name s) with Some nm => shm_unlink nm | None => undef end
   else mret tt);;
  mret CPLUS_SUCCESS.

(** [goto exit]. *)
Definition discard (me : Z) (s : shared_mem) : C kernel (option shared_mem) :=
  cplus_sharedmem_delete me s;; mret None.

(** The object before the system is asked for anything, [size] as the caller
    asks; its [name] is printed into 64 zero bytes, and the path is what
    [shm_open] reads there. *)
Definition blank (sz : Z) (nm : list Z) : shared_mem :=
  mkSharedMem OBJ_TYPE INVALID_FD None sz false (-1) nm.

Definition print_name (nm : list Z) : C kernel (list Z) := λ k,
  match cplus_str_printf (replicate 64 0) SHAREDMEM_NAME_MAX_SIZE
          (SHAREDMEM_NAMED_PATTERN ++ nm) with
  | Done b => Done (b, k)
  | Aborts => Aborts | Hangs => Hangs | Undefined => Undefined
  end.

Definition path_of (b : list Z) : C kernel (list Z) := deref (λ _, cstr b).

(** The end the three constructors share: map the object and close the
    descriptor, whose number stays in the structure. *)
Definition map_it (me : Z) (F : faults) (s : shared_mem) : C kernel (option shared_mem) :=
  a ← mmap me F (size s) (fd s);
  match a with
  | None => discard me s
  | Some a =>
      (if negb (INVALID_FD =? fd s) then close me (fd s) else mret tt);;
      mret (Some (set_addr (Some a) s))
  end.

(** Give the object just created its size, as its owner. *)
Definition size_it (me : Z) (F : faults) (s : shared_mem) : C kernel (option shared_mem) :=
  let s := set_owner me s in
  r ← ftruncate me F (fd s) (size s);
  if r =? -1 then discard me s else map_it me F s.

(** Take the size of the object just opened. *)
Definition measure_it (me : Z) (F : faults) (s : shared_mem) : C kernel (option shared_mem) :=
  n ← fstat me F (fd s);
  match n with
  | None => discard me s
  | Some n => map_it me F (set_size (u32 n) s)
  end.

Definition sharedmem_create (me : Z) (F : faults) (nm : list Z) (sz : Z) :
    C kernel (option shared_mem) :=
  if no_memory F then fail ENOMEM None
  else
    b ← print_name nm;
    p ← path_of b;
    d ← shm_open_new me F p;
    let s := set_fd d (blank sz b) in
    if INVALID_FD =? d then discard me s else size_it me F s.

Definition sharedmem_open (me : Z) (F : faults) (nm : list Z) : C kernel (option shared_mem) :=
  if no_memory F then fail ENOMEM None
  else
    b ← print_name nm;
    p ← path_of b;
    d ← shm_open me F p;
    let s := set_fd d (blank 0 b) in
    if INVALID_FD =? d then discard me s else measure_it me F s.

(** [F'] are the faults of the second [shm_open]. *)
Definition sharedmem_new (me : Z) (F F' : faults) (nm : list Z) (sz : Z) :
    C kernel (option shared_mem) :=
  if no_memory F then fail ENOMEM None
  else
    b ← print_name nm;
    p ← path_of b;
    d ← shm_open me F p;
    if negb (INVALID_FD =? d) then measure_it me F (set_fd d (blank sz b))
    else
      e ← gets errno;
      if e =? ENOENT then
        d ← shm_open_new me F' p;
        let s := set_fd d (blank sz b) in
        if INVALID_FD =? d then discard me s else size_it me F s
      else discard me (blank sz b).

(** The checks of the public constructors; [None] is the null pointer. *)
Definition name_ok (nm : list Z) : bool :=
  negb (SHAREDMEM_NAME_MAX_SIZE <? zlen nm + SHAREDMEM_NAMED_PATTERN_SIZE).
Definition size_ok (sz : Z) : bool := negb ((sz <? 1) || (SHAREDMEM_MAX_SIZE <? sz)).

Definition cplus_sharedmem_create (me : Z) (F : faults) (nm : option (list Z)) (sz : Z) :
    C kernel (option shared_mem) :=
  match nm with
  | None => fail EINVAL None
  | Some nm =>
      if negb (name_ok nm) then fail EINVAL None
      else if negb (size_ok sz) then fail EINVAL None
      else sharedmem_create me F nm sz
  end.

Definition cplus_sharedmem_open (me : Z) (F : faults) (nm : option (list Z)) :
    C kernel (option shared_mem) :=
  match nm with
  | None => fail EINVAL None
  | Some nm =>
      if negb (name_ok nm) then fail EINVAL None else sharedmem_open me F nm
  end.

Definition cplus_sharedmem_new (me : Z) (F F' : faults) (nm : option (list Z)) (sz : Z) :
    C kernel (option shared_mem) :=
  match nm with
  | None => fail EINVAL None
  | Some nm =>
      if negb (name_ok nm) then fail EINVAL None
      else if negb (size_ok sz) then fail EINVAL None
      else sharedmem_new me F F' nm sz
  end.

Definition cplus_sharedmem_check (obj : option Z) : bool :=
  match obj with Some t => t =? OBJ_TYPE | None => false end.

(** ** Descriptors *)

Lemma lowest_fd_free me fs :
  fs !! (me, lowest_fd me fs) = None ∧ 0 ≤ lowest_fd me fs.
Proof.
  unfold lowest_fd. destruct (list_find _ _) as [[i d]|] eqn:E.
  - apply list_find_Some in E as (Hi & Hd & _). split; [done|].
    apply list_elem_of_lookup_2 in Hi. apply elem_of_seqZ in Hi. lia.
  - apply list_find_None in E. exfalso.
    set (ks := (λ d, (me, d)) <$> seqZ 0 (Z.of_nat (base.size fs) + 1)).
    assert (Hsub : list_to_set ks ⊆ dom fs).
    { intros x Hx. apply elem_of_list_to_set in Hx. unfold ks in Hx.
      apply list_elem_of_fmap in Hx as (d & -> & Hd). rewrite Forall_forall in E.
      specialize (E d Hd). apply elem_of_dom. destruct (fs !! (me, d)); [by eexists|done]. }
    apply subseteq_size in Hsub. rewrite size_list_to_set, size_dom in Hsub.
    + unfold ks in Hsub. rewrite length_fmap, length_seqZ in Hsub. lia.
    + unfold ks. apply (NoDup_fmap_2 (λ d, (me, d))). apply NoDup_seqZ.
Qed.

Lemma lowest_fd_valid me fs : (INVALID_FD =? lowest_fd me fs) = false.
Proof. apply Z.eqb_neq. unfold INVALID_FD. pose proof (lowest_fd_free me fs). lia. Qed.

(** The descriptor just opened is closed again. *)
Lemma open_close me fs f :
  delete (me, lowest_fd me fs) (<[(me, lowest_fd me fs) := f]> fs) = fs.
Proof. apply delete_insert_id. apply lowest_fd_free. Qed.

(** ** Names *)

(** The path a name leads to: what fits in the buffer. *)
Definition path (nm : list Z) : list Z := take 62 (SHAREDMEM_NAMED_PATTERN ++ nm).

Definition printed (nm : list Z) : list Z :=
  path nm ++ 0 :: replicate (63 - length (path nm)) 0.

#[global] Arguments path : simpl never.
#[global] Arguments printed : simpl never.

Lemma length_path nm : (length (path nm) ≤ 62)%nat.
Proof. unfold path. rewrite length_take. lia. Qed.

Lemma print_name_run nm k : print_name nm k = Done (printed nm, k).
Proof.
  unfold print_name, cplus_str_printf. change (SHAREDMEM_NAME_MAX_SIZE =? 0) with false.
  change (Z.to_nat (SHAREDMEM_NAME_MAX_SIZE - 1)) with 62%nat. fold (path nm).
  pose proof (length_path nm). unfold zlen.
  rewrite (proj2 (Z.leb_le _ _)) by (rewrite length_app, length_replicate; cbn [length]; lia).
  unfold printed. rewrite length_app, drop_replicate, <- app_assoc. cbn [length app].
  do 5 f_equal. lia.
Qed.

Lemma path_text nm : text nm → text (path nm).
Proof.
  intros H. unfold path, text. apply Forall_take, Forall_app. split; [|done].
  by repeat (constructor; [done|]).
Qed.

Lemma path_of_run nm k : text nm → path_of (printed nm) k = Done (path nm, k).
Proof.
  intros H. unfold path_of, deref, printed. by rewrite cstr_app by by apply path_text.
Qed.

Lemma path_short nm : zlen nm ≤ 50 → path nm = SHAREDMEM_NAMED_PATTERN ++ nm.
Proof.
  intros H. unfold path. apply take_ge. rewrite length_app. unfold zlen in H. simpl. lia.
Qed.

(** ** The constructors on a kernel that serves them *)

Definition kernel_ok (k : kernel) : Prop :=
  ∀ nm i, names k !! nm = Some i → is_Some (sizes k !! i).

(** The object a constructor hands out: its descriptor is closed already. *)
Definition made (d : Z) (a : nat) (sz : Z) (own : bool) (me : Z) (nm : list Z) : shared_mem :=
  mkSharedMem OBJ_TYPE d (Some a) sz own (if own then me else -1) (printed nm).

Definition mapping (k : kernel) : nat := fresh (dom (maps k)).
Definition inode (k : kernel) : nat := fresh (dom (sizes k)).

(** The kernel after a creation. *)
Definition created (me : Z) (nm : list Z) (sz : Z) (k : kernel) : kernel :=
  Kernel (<[path nm := inode k]> (names k)) (<[inode k := sz]> (sizes k)) (fds k)
    (<[mapping k := (me, inode k, sz)]> (maps k)) (errno k).

Lemma map_it_run me s k i :
  fds k !! (me, fd s) = Some (Shm i) → size s ≠ 0 → fd s ≠ INVALID_FD →
  map_it me no_faults s k =
    Done (Some (set_addr (Some (mapping k)) s),
          set_fds (delete (me, fd s) (fds k))
            (set_maps (<[mapping k := (me, i, size s)]> (maps k)) k)).
Proof.
  intros Hf Hs Hd. unfold map_it, mmap, fd_inode, close. crun. simpl.
  rewrite (proj2 (Z.eqb_neq _ _) Hs). crun. rewrite Hf. crun.
  rewrite (proj2 (Z.eqb_neq INVALID_FD (fd s))) by done. simpl. crun. simpl. by rewrite Hf.
Qed.

Lemma sharedmem_create_run me nm sz k :
  text nm → 1 ≤ sz → names k !! path nm = None →
  sharedmem_create me no_faults nm sz k =
    Done (Some (made (lowest_fd me (fds k)) (mapping k) sz true me nm), created me nm sz k).
Proof.
  intros Ht Hs Hn. unfold sharedmem_create. change (no_memory no_faults) with false. cbv iota.
  rewrite (bind_Done _ _ _ _ _ (print_name_run nm k)).
  rewrite (bind_Done _ _ _ _ _ (path_of_run nm k Ht)).
  unfold shm_open_new, new_fd, size_it. crun. simpl. rewrite Hn. crun. simpl.
  rewrite lowest_fd_valid. unfold ftruncate, fd_inode. crun. simpl.
  rewrite lookup_insert_eq. crun. simpl.
  change (0 =? -1) with false. cbv iota.
  rewrite (map_it_run me _ _ (inode k)); simpl;
    [|apply lookup_insert_eq|lia|pose proof (lowest_fd_free me (fds k)); unfold INVALID_FD; lia].
  unfold made, created, set_fds, set_maps. simpl. rewrite open_close, insert_insert_eq. done.
Qed.

(** The kernel after an object is opened: one more mapping. *)
Definition opened (me : Z) (i : nat) (sz : Z) (k : kernel) : kernel :=
  set_maps (<[mapping k := (me, i, sz)]> (maps k)) k.

Lemma measure_run me nm sz0 sz i k :
  1 ≤ sz ≤ SHAREDMEM_MAX_SIZE → sizes k !! i = Some sz →
  measure_it me no_faults (set_fd (lowest_fd me (fds k)) (blank sz0 (printed nm)))
    (set_fds (<[(me, lowest_fd me (fds k)) := Shm i]> (fds k)) k) =
    Done (Some (made (lowest_fd me (fds k)) (mapping k) sz false me nm), opened me i sz k).
Proof.
  intros Hs Hi. unfold measure_it, fstat, fd_inode. crun. simpl.
  rewrite lookup_insert_eq. crun. simpl. rewrite Hi. crun.
  unfold SHAREDMEM_MAX_SIZE, GB in Hs. rewrite u32_small by lia.
  rewrite (map_it_run me _ _ i); simpl;
    [|apply lookup_insert_eq|lia|pose proof (lowest_fd_free me (fds k)); unfold INVALID_FD; lia].
  unfold made, opened, set_fds, set_maps. simpl. by rewrite open_close.
Qed.

Lemma sharedmem_open_run me nm sz i k :
  text nm → names k !! path nm = Some i → sizes k !! i = Some sz →
  1 ≤ sz ≤ SHAREDMEM_MAX_SIZE →
  sharedmem_open me no_faults nm k =
    Done (Some (made (lowest_fd me (fds k)) (mapping k) sz false me nm), opened me i sz k).
Proof.
  intros Ht Hn Hi Hs. unfold sharedmem_open. change (no_memory no_faults) with false. cbv iota.
  rewrite (bind_Done _ _ _ _ _ (print_name_run nm k)).
  rewrite (bind_Done _ _ _ _ _ (path_of_run nm k Ht)).
  unfold shm_open, new_fd. crun. simpl. rewrite Hn. crun. rewrite lowest_fd_valid.
  by apply measure_run.
Qed.

Lemma sharedmem_open_absent me nm k :
  text nm → names k !! path nm = None →
  sharedmem_open me no_faults nm k = Done (None, set_errno ENOENT k).
Proof.
  intros Ht Hn. unfold sharedmem_open. change (no_memory no_faults) with false. cbv iota.
  rewrite (bind_Done _ _ _ _ _ (print_name_run nm k)).
  rewrite (bind_Done _ _ _ _ _ (path_of_run nm k Ht)).
  unfold shm_open. crun. simpl. by rewrite Hn.
Qed.

Lemma sharedmem_create_present me nm sz i k :
  text nm → names k !! path nm = Some i →
  sharedmem_create me no_faults nm sz k = Done (None, set_errno EEXIST k).
Proof.
  intros Ht Hn. unfold sharedmem_create. change (no_memory no_faults) with false. cbv iota.
  rewrite (bind_Done _ _ _ _ _ (print_name_run nm k)).
  rewrite (bind_Done _ _ _ _ _ (path_of_run nm k Ht)).
  unfold shm_open_new. crun. simpl. by rewrite Hn.
Qed.

(** [new] creates what is not there, and opens what is. *)
Lemma sharedmem_new_create me nm sz k :
  text nm → 1 ≤ sz → names k !! path nm = None →
  sharedmem_new me no_faults no_faults nm sz k =
    Done (Some (made (lowest_fd me (fds k)) (mapping k) sz true me nm),
          set_errno ENOENT (created me nm sz k)).
Proof.
  intros Ht Hs Hn. unfold sharedmem_new. change (no_memory no_faults) with false. cbv iota.
  rewrite (bind_Done _ _ _ _ _ (print_name_run nm k)).
  rewrite (bind_Done _ _ _ _ _ (path_of_run nm k Ht)).
  unfold shm_open. crun. simpl. rewrite Hn. crun. simpl.
  change (negb (INVALID_FD =? INVALID_FD)) with false. change (ENOENT =? ENOENT) with true. cbv iota.
  pose proof (sharedmem_create_run me nm sz (set_errno ENOENT k) Ht Hs Hn) as H.
  unfold sharedmem_create in H. change (no_memory no_faults) with false in H. cbv iota in H.
  rewrite (bind_Done _ _ _ _ _ (print_name_run nm (set_errno ENOENT k))) in H.
  rewrite (bind_Done _ _ _ _ _ (path_of_run nm (set_errno ENOENT k) Ht)) in H.
  crun_in H. exact H.
Qed.

Lemma sharedmem_new_open me nm sz0 sz i k :
  text nm → names k !! path nm = Some i → sizes k !! i = Some sz →
  1 ≤ sz ≤ SHAREDMEM_MAX_SIZE →
  sharedmem_new me no_faults no_faults nm sz0 k =
    Done (Some (made (lowest_fd me (fds k)) (mapping k) sz false me nm), opened me i sz k).
Proof.
  intros Ht Hn Hi Hs. unfold sharedmem_new. change (no_memory no_faults) with false. cbv iota.
  rewrite (bind_Done _ _ _ _ _ (print_name_run nm k)).
  rewrite (bind_Done _ _ _ _ _ (path_of_run nm k Ht)).
  unfold shm_open, new_fd. crun. simpl. rewrite Hn. crun. rewrite lowest_fd_valid. cbv beta iota.
  by apply measure_run.
Qed.

(** [delete] by the process that has the object. *)
Lemma delete_run me d a sz own nm k :
  text nm → d ≠ INVALID_FD → (own = true → is_Some (names k !! path nm)) →
  cplus_sharedmem_delete me (made d a sz own me nm) k =
    Done (CPLUS_SUCCESS,
          Kernel (if own then delete (path nm) (names k) else names k) (sizes k)
            (delete (me, d) (fds k)) (delete a (maps k))
            (if fds k !! (me, d) is Some _ then errno k else EBADF)).
Proof.
  intros Ht Hd Hn. unfold cplus_sharedmem_delete, made, munmap, close, CHECK_OBJECT_TYPE.
  assert (Hc : cstr (printed nm) = Some (path nm)) by by apply cstr_app, path_text.
  revert Hc. generalize (printed nm). intros b Hc. simpl.
  change (OBJ_TYPE =? OBJ_TYPE) with true. crun.
  rewrite (proj2 (Z.eqb_neq INVALID_FD d)) by done. simpl. unfold set_fds, set_maps, set_errno.
  destruct (fds k !! (me, d)) eqn:Ef; simpl.
  - destruct own; simpl; [|done]. rewrite Z.eqb_refl. simpl. rewrite Hc. unfold shm_unlink. crun.
    simpl. destruct Hn as [i Hi]; [done|]. by rewrite Hi.
  - rewrite (delete_id (fds k)) by done.
    destruct own; simpl; [|done]. rewrite Z.eqb_refl. simpl. rewrite Hc. unfold shm_unlink. crun.
    simpl. destruct Hn as [i Hi]; [done|]. by rewrite Hi.
Qed.

(** [delete] in another process than the owner, as after [fork]. *)
Lemma delete_elsewhere_run me owner d a sz own nm k :
  me ≠ owner → d ≠ INVALID_FD →
  cplus_sharedmem_delete me (made d a sz own owner nm) k =
    Done (CPLUS_SUCCESS,
          Kernel (names k) (sizes k) (delete (me, d) (fds k)) (delete a (maps k))
            (if fds k !! (me, d) is Some _ then errno k else EBADF)).
Proof.
  intros Hm Hd. unfold cplus_sharedmem_delete, made, munmap, close, CHECK_OBJECT_TYPE.
  generalize (printed nm). intros b. simpl.
  change (OBJ_TYPE =? OBJ_TYPE) with true. crun.
  rewrite (proj2 (Z.eqb_neq INVALID_FD d)) by done. simpl. unfold set_fds, set_maps, set_errno.
  assert (own && (me =? (if own then owner else -1)) = false) as ->
    by (destruct own; [apply Z.eqb_neq|]; done).
  destruct (fds k !! (me, d)) eqn:Ef; simpl; [done|]. by rewrite (delete_id (fds k)) by done.
Qed.

(** ** What the object promises *)

Definition fits (nm : list Z) : Prop := text nm ∧ zlen nm ≤ 51.

Lemma fits_ok nm : fits nm → name_ok nm = true.
Proof.
  intros [_ H]. unfold name_ok, SHAREDMEM_NAME_MAX_SIZE, SHAREDMEM_NAMED_PATTERN_SIZE.
  rewrite (proj2 (Z.ltb_ge _ _)) by lia. done.
Qed.

Lemma size_ok_range sz : 1 ≤ sz ≤ SHAREDMEM_MAX_SIZE → size_ok sz = true.
Proof.
  intros H. unfold size_ok. rewrite (proj2 (Z.ltb_ge sz 1)), (proj2 (Z.ltb_ge SHAREDMEM_MAX_SIZE sz)) by lia.
  done.
Qed.

Lemma create_run me nm sz k :
  fits nm → 1 ≤ sz ≤ SHAREDMEM_MAX_SIZE → names k !! path nm = None →
  cplus_sharedmem_create me no_faults (Some nm) sz k =
    Done (Some (made (lowest_fd me (fds k)) (mapping k) sz true me nm), created me nm sz k).
Proof.
  intros Hf Hs Hn. unfold cplus_sharedmem_create. rewrite fits_ok, size_ok_range by done. simpl.
  apply sharedmem_create_run; [apply Hf|lia|done].
Qed.

Lemma open_run me nm sz i k :
  fits nm → names k !! path nm = Some i → sizes k !! i = Some sz → 1 ≤ sz ≤ SHAREDMEM_MAX_SIZE →
  cplus_sharedmem_open me no_faults (Some nm) k =
    Done (Some (made (lowest_fd me (fds k)) (mapping k) sz false me nm), opened me i sz k).
Proof.
  intros Hf Hn Hi Hs. unfold cplus_sharedmem_open. rewrite fits_ok by done. simpl.
  apply sharedmem_open_run; [apply Hf|done..].
Qed.

Lemma mapping_new k : maps k !! mapping k = None.
Proof. unfold mapping. apply (not_elem_of_dom (D := gset nat)). apply is_fresh. Qed.

(** processes that use the same name share one object.  What one process
    creates another opens at the size it was given; a second creation is refused
    while the name is there; when the creator deletes its object the name is
    gone, but the other process keeps its mapping of the same memory. *)
Theorem shared_life p q r nm sz k :
  fits nm → 1 ≤ sz ≤ SHAREDMEM_MAX_SIZE → names k !! path nm = None → p ≠ q →
  ∃ s1 s2 a1 a2 i k1 k2 k3,
    cplus_sharedmem_create p no_faults (Some nm) sz k = Done (Some s1, k1)
  ∧ cplus_sharedmem_open q no_faults (Some nm) k1 = Done (Some s2, k2)
  ∧ addr s1 = Some a1 ∧ addr s2 = Some a2 ∧ a1 ≠ a2
  ∧ maps k2 !! a1 = Some (p, i, sz) ∧ maps k2 !! a2 = Some (q, i, sz)
  ∧ cplus_sharedmem_is_owner p s1 k2 = Done (true, k2)
  ∧ cplus_sharedmem_is_owner q s2 k2 = Done (false, k2)
  ∧ cplus_sharedmem_create r no_faults (Some nm) sz k2 = Done (None, set_errno EEXIST k2)
  ∧ cplus_sharedmem_delete p s1 k2 = Done (CPLUS_SUCCESS, k3)
  ∧ maps k3 !! a1 = None ∧ maps k3 !! a2 = Some (q, i, sz)
  ∧ cplus_sharedmem_open r no_faults (Some nm) k3 = Done (None, set_errno ENOENT k3).
Proof.
  intros Hf Hs Hn Hpq. pose proof (proj1 Hf) as Ht.
  set (k1 := created p nm sz k). set (k2 := opened q (inode k) sz k1).
  set (d := lowest_fd p (fds k)).
  assert (Hd : d ≠ INVALID_FD) by (pose proof (lowest_fd_free p (fds k)); unfold d, INVALID_FD; lia).
  assert (Hn1 : names k1 !! path nm = Some (inode k)) by apply lookup_insert_eq.
  assert (Ha : mapping k ≠ mapping k1).
  { intros E. pose proof (mapping_new k1) as H. rewrite <- E in H.
    unfold k1, created in H. simpl in H. by rewrite lookup_insert_eq in H. }
  eexists _, _, (mapping k), (mapping k1), (inode k), k1, k2, _.
  split; [by apply create_run|]. split; [apply (open_run q nm sz (inode k)); try done; apply lookup_insert_eq|].
  split; [done|]. split; [done|]. split; [done|].
  split; [simpl; rewrite lookup_insert_ne by done; apply lookup_insert_eq|].
  split; [apply lookup_insert_eq|].
  split. { unfold cplus_sharedmem_is_owner, CHECK_OBJECT_TYPE, made. cbn [type is_owner owner_id].
    change (OBJ_TYPE =? OBJ_TYPE) with true. by rewrite Z.eqb_refl. }
  split. { unfold cplus_sharedmem_is_owner, CHECK_OBJECT_TYPE, made. cbn [type is_owner owner_id].
    by change (OBJ_TYPE =? OBJ_TYPE) with true. }
  split. { unfold cplus_sharedmem_create. rewrite fits_ok, size_ok_range by done. simpl.
    by apply (sharedmem_create_present r nm sz (inode k)). }
  split; [apply delete_run; [done|done|by eexists]|]. simpl.
  split; [apply lookup_delete_eq|].
  split; [rewrite lookup_delete_ne by done; apply lookup_insert_eq|].
  unfold cplus_sharedmem_open. rewrite fits_ok by done. simpl.
  apply sharedmem_open_absent; [done|]. simpl. apply lookup_delete_eq.
Qed.

Definition empty_kernel : kernel := Kernel ∅ ∅ ∅ ∅ 0.
(** ["log"]. *)
Definition name_log : list Z := [108; 111; 103].

Lemma fits_log : fits name_log.
Proof. split; [by repeat constructor|vm_compute; congruence]. Qed.

Lemma shared_life_witness :
  fits name_log ∧ ∃ s1 s2 a1 a2 i k1 k2 k3,
    cplus_sharedmem_create 1 no_faults (Some name_log) 4096 empty_kernel = Done (Some s1, k1)
  ∧ cplus_sharedmem_open 2 no_faults (Some name_log) k1 = Done (Some s2, k2)
  ∧ addr s1 = Some a1 ∧ addr s2 = Some a2 ∧ a1 ≠ a2
  ∧ maps k2 !! a1 = Some (1, i, 4096) ∧ maps k2 !! a2 = Some (2, i, 4096)
  ∧ cplus_sharedmem_is_owner 1 s1 k2 = Done (true, k2)
  ∧ cplus_sharedmem_is_owner 2 s2 k2 = Done (false, k2)
  ∧ cplus_sharedmem_create 3 no_faults (Some name_log) 4096 k2 = Done (None, set_errno EEXIST k2)
  ∧ cplus_sharedmem_delete 1 s1 k2 = Done (CPLUS_SUCCESS, k3)
  ∧ maps k3 !! a1 = None ∧ maps k3 !! a2 = Some (2, i, 4096)
  ∧ cplus_sharedmem_open 3 no_faults (Some name_log) k3 = Done (None, set_errno ENOENT k3).
Proof.
  split; [apply fits_log|].
  apply (shared_life 1 2 3 name_log 4096 empty_kernel fits_log);
    [unfold SHAREDMEM_MAX_SIZE, GB; lia|done|done].
Defined.

(** Code bug: the constructors close the descriptor but leave its number in
    the structure, and [cplus_sharedmem_delete] closes that number again.  The
    next file the process opens gets the number, so deleting the object closes
    a file that has nothing to do with it. *)
Theorem delete_closes_stranger me nm sz k f :
  fits nm → 1 ≤ sz ≤ SHAREDMEM_MAX_SIZE → names k !! path nm = None →
  ∃ s k1 d k2 k3,
    cplus_sharedmem_create me no_faults (Some nm) sz k = Done (Some s, k1)
  ∧ new_fd me f k1 = Done (d, k2) ∧ fds k2 !! (me, d) = Some f
  ∧ cplus_sharedmem_delete me s k2 = Done (CPLUS_SUCCESS, k3)
  ∧ fds k3 !! (me, d) = None.
Proof.
  intros Hf Hs Hn. set (d := lowest_fd me (fds k)).
  assert (Hd : d ≠ INVALID_FD) by (pose proof (lowest_fd_free me (fds k)); unfold d, INVALID_FD; lia).
  eexists _, _, d, _, _. split; [by apply create_run|]. split; [reflexivity|]. simpl.
  split; [apply lookup_insert_eq|].
  split; [apply delete_run; [apply Hf|done|]|].
  - intros _. simpl. rewrite lookup_insert_eq. by eexists.
  - simpl. apply lookup_delete_eq.
Qed.

Lemma delete_closes_stranger_witness :
  fits name_log ∧ ∃ s k1 d k2 k3,
    cplus_sharedmem_create 1 no_faults (Some name_log) 4096 empty_kernel = Done (Some s, k1)
  ∧ new_fd 1 (Other 7) k1 = Done (d, k2) ∧ fds k2 !! (1, d) = Some (Other 7)
  ∧ cplus_sharedmem_delete 1 s k2 = Done (CPLUS_SUCCESS, k3)
  ∧ fds k3 !! (1, d) = None.
Proof.
  split; [apply fits_log|].
  apply (delete_closes_stranger 1 name_log 4096 empty_kernel (Other 7) fits_log);
    [unfold SHAREDMEM_MAX_SIZE, GB; lia|done].
Defined.

(** The name an object was made with is the name it gives. *)
Theorem name_round_trip me nm sz k :
  text nm → zlen nm ≤ 50 → 1 ≤ sz ≤ SHAREDMEM_MAX_SIZE → names k !! path nm = None →
  ∃ s k1, cplus_sharedmem_create me no_faults (Some nm) sz k = Done (Some s, k1)
  ∧ cplus_sharedmem_get_name s k1 = Done (Some nm, k1)
  ∧ cplus_sharedmem_get_size s k1 = Done (sz, k1).
Proof.
  intros Ht Hl Hs Hn. eexists _, _. split; [apply create_run; [split; [done|lia]|done|done]|].
  unfold cplus_sharedmem_get_name, cplus_sharedmem_get_size, CHECK_OBJECT_TYPE, made.
  cbn [type name size]. change (OBJ_TYPE =? OBJ_TYPE) with true. crun. split.
  - unfold printed. rewrite path_short by done. rewrite <- app_assoc.
    change (Z.to_nat (zlen SHAREDMEM_NAMED_PATTERN + 2 - 2)) with (length SHAREDMEM_NAMED_PATTERN).
    rewrite drop_app_length. by rewrite cstr_app.
  - unfold SHAREDMEM_MAX_SIZE, GB in Hs. by rewrite s32_small by lia.
Qed.

(** Code bug: the check on the length of a name lets 51 bytes pass, but the
    buffer is printed with room for 50.  Two names that differ only in the last
    byte lead to the same object: the second cannot be created, and opening it
    gives the memory of the first. *)
Theorem long_names_collide me nm c1 c2 sz k :
  text (nm ++ [c1]) → text (nm ++ [c2]) → zlen nm = 50 → 1 ≤ sz ≤ SHAREDMEM_MAX_SIZE →
  names k !! path nm = None →
  ∃ s1 s2 k1 k2 i,
    cplus_sharedmem_create me no_faults (Some (nm ++ [c1])) sz k = Done (Some s1, k1)
  ∧ cplus_sharedmem_create me no_faults (Some (nm ++ [c2])) sz k1 = Done (None, set_errno EEXIST k1)
  ∧ cplus_sharedmem_open me no_faults (Some (nm ++ [c2])) k1 = Done (Some s2, k2)
  ∧ (maps k2 !! mapping k) = Some (me, i, sz) ∧ addr s1 = Some (mapping k)
  ∧ (maps k2 !! mapping k1) = Some (me, i, sz) ∧ addr s2 = Some (mapping k1).
Proof.
  intros H1 H2 Hl Hs Hn.
  assert (Hp : ∀ c, path (nm ++ [c]) = path nm).
  { intros c. unfold path. rewrite app_assoc, take_app_le; [done|].
    rewrite length_app. unfold zlen in Hl. simpl. lia. }
  assert (Hf : ∀ c, text (nm ++ [c]) → fits (nm ++ [c])).
  { intros c Hc. split; [done|]. unfold zlen in *. rewrite length_app. simpl. lia. }
  set (k1 := created me (nm ++ [c1]) sz k).
  assert (Hn1 : names k1 !! path (nm ++ [c2]) = Some (inode k))
    by (simpl; rewrite !Hp; apply lookup_insert_eq).
  assert (Ha : mapping k ≠ mapping k1).
  { intros E. pose proof (mapping_new k1) as H. rewrite <- E in H.
    unfold k1, created in H. simpl in H. by rewrite lookup_insert_eq in H. }
  eexists _, _, k1, _, (inode k).
  split; [apply create_run; [by apply Hf|done|by rewrite Hp]|].
  split. { unfold cplus_sharedmem_create. rewrite fits_ok, size_ok_range by auto. simpl.
    by apply (sharedmem_create_present me _ sz (inode k)). }
  split; [apply (open_run me _ sz (inode k)); [by apply Hf|done|apply lookup_insert_eq|done]|].
  simpl. rewrite lookup_insert_ne by done. rewrite !lookup_insert_eq. done.
Qed.

Definition name_50 : list Z := replicate 50 120.

Lemma long_names_collide_witness :
  ∃ s1 s2 k1 k2 i,
    cplus_sharedmem_create 1 no_faults (Some (name_50 ++ [97])) 64 empty_kernel = Done (Some s1, k1)
  ∧ cplus_sharedmem_create 1 no_faults (Some (name_50 ++ [98])) 64 k1 = Done (None, set_errno EEXIST k1)
  ∧ cplus_sharedmem_open 1 no_faults (Some (name_50 ++ [98])) k1 = Done (Some s2, k2)
  ∧ (maps k2 !! mapping empty_kernel) = Some (1, i, 64) ∧ addr s1 = Some (mapping empty_kernel)
  ∧ (maps k2 !! mapping k1) = Some (1, i, 64) ∧ addr s2 = Some (mapping k1).
Proof.
  apply (long_names_collide 1 name_50 97 98 64 empty_kernel);
    [by repeat constructor|by repeat constructor|done|unfold SHAREDMEM_MAX_SIZE, GB; lia|done].
Defined.

End Sharedmem.
