(* ===== verification/Named.v ===== *)
(** * Named: objects of the operating system in named shared memory

    The locks and the mutexes with a name live in a shared memory object
    (Sharedmem.v), those without in the structure of their owner.  What both
    constructors do with a name, with the memory and with its end is here, for any
    kind of object: it starts as zeros, which is the static initialiser of
    glibc; the constructor initialises it, the owner destroys it. *)

From S2P Require Import Prelude Zlist Stdio Memmgr Sharedmem.
From stdpp Require Import base numbers list option gmap.
From Stdlib Require Import ZArith Lia.
Import Stdio Memmgr.
Open Scope Z_scope.

Module Named.

(** What the memory of an object holds. *)
Inductive memory (T : Type) := Live (t : T) | Destroyed.
Arguments Live {T} t.
Arguments Destroyed {T}.

(** Where the pointer of a structure leads, if it has been set. *)
Inductive place (T : Type) := Unset | Inline (m : memory T) | Shared (inode : nat).
Arguments Unset {T}.
Arguments Inline {T} m.
Arguments Shared {T} inode.

(** The kernel, and what the shared memory objects hold that are not zeros. *)
Record world (T : Type) := World {
  kern : Sharedmem.kernel;
  cells : gmap nat (memory T) }.
Arguments World {T} kern cells.
Arguments kern {T} w : rename.
Arguments cells {T} w : rename.

(** [enum INIT_MODE]. *)
Inductive INIT_MODE := INIT_NONE | INIT_CREATE | INIT_OPEN | INIT_HYBRID.

(** The checks of every constructor with a name: [EINVAL] without a name, or
    with one that is too long next to the pattern. *)
Definition too_long (max psize : Z) (nm : list Z) : bool := max <? zlen nm + psize.

Section named.
Context {T : Type} (zero : T) (idle : T → bool).

Definition set_kern (k : Sharedmem.kernel) (w : world T) : world T := World k (cells w).
Definition set_cells (c : gmap nat (memory T)) (w : world T) : world T := World (kern w) c.

(** A call of sharedmem.c. *)
Definition shm {A} (m : C Sharedmem.kernel A) : C (world T) A := λ w,
  match m (kern w) with
  | Done (a, k) => Done (a, set_kern k w)
  | Aborts => Aborts | Hangs => Hangs | Undefined => Undefined
  end.
Definition set_errno (e : Z) : C (world T) unit :=
  modify (λ w, set_kern (Sharedmem.set_errno e (kern w)) w).

Definition memory_at (i : nat) (w : world T) : memory T := default (Live zero) (cells w !! i).
Definition put (i : nat) (m : memory T) (w : world T) : world T := set_cells (<[i := m]> (cells w)) w.

(** The object the memory leads to. *)
Definition inode_of (s : Sharedmem.shared_mem) (w : world T) : option nat :=
  match Sharedmem.addr s with
  | Some a =>
      match Sharedmem.maps (kern w) !! a with Some (_, i, _) => Some i | None => None end
  | None => None
  end.

(** Destroying an object that is in use, or twice, is undefined. *)
Definition destroy (m : memory T) : C (world T) unit :=
  match m with Live t => if idle t then mret tt else undef | Destroyed => undef end.

(** [if (pointer) { destroy(pointer); }] *)
Definition release (p : place T) : C (world T) unit :=
  match p with
  | Unset => mret tt
  | Inline m => destroy m
  | Shared i => m ← gets (memory_at i); destroy m;; modify (put i Destroyed)
  end.

(** The end of an object: the owner of the memory destroys what is in it. *)
Definition delete_memory (me : Z) (p : place T) (s : option Sharedmem.shared_mem) : C (world T) Z :=
  match s with
  | Some s =>
      own ← shm (Sharedmem.cplus_sharedmem_is_owner me s);
      (if (own : bool) then release p else mret tt);;
      shm (Sharedmem.cplus_sharedmem_delete me s)
  | None => release p;; mret CPLUS_SUCCESS
  end.

(** Reading and writing through the pointer of a structure; a write to an inline
    object changes the structure. *)
Definition load (p : place T) : C (world T) T :=
  match p with
  | Inline (Live t) => mret t
  | Shared i => deref (λ w, match memory_at i w with Live t => Some t | Destroyed => None end)
  | _ => undef
  end.
Definition store (p : place T) (t : T) : C (world T) (place T) :=
  match p with
  | Inline _ => mret (Inline (Live t))
  | Shared i => modify (put i (Live t));; mret p
  | Unset => undef
  end.

(** [cplus_str_printf] of the pattern and the name into 32 zero bytes with room
    for 31. *)
Definition print_name (pattern nm : list Z) : C (world T) (list Z) := λ w,
  match cplus_str_printf (replicate 32 0) 31 (pattern ++ nm) with
  | Done b => Done (b, w)
  | Aborts => Aborts | Hangs => Hangs | Undefined => Undefined
  end.

(** The shared memory under the name in [b]; [F'] are the faults of the second
    attempt of the hybrid mode. *)
Definition open_shared (me : Z) (F F' : Sharedmem.faults) (size : Z) (b : list Z) (mode : INIT_MODE) :
    C (world T) (option Sharedmem.shared_mem) :=
  nm ← deref (λ _, cstr b);
  match mode with
  | INIT_CREATE => shm (Sharedmem.cplus_sharedmem_create me F (Some nm) size)
  | INIT_OPEN => shm (Sharedmem.cplus_sharedmem_open me F (Some nm))
  | INIT_HYBRID => shm (Sharedmem.cplus_sharedmem_new me F F' (Some nm) size)
  | INIT_NONE => set_errno EINVAL;; mret None
  end.

Lemma memory_at_put i m w : memory_at i (put i m w) = m.
Proof. unfold memory_at, put. cbn [cells set_cells]. by rewrite lookup_insert_eq. Qed.

(** ** The name *)

(** What is kept of the pattern and the name. *)
Definition shm_name (pattern nm : list Z) : list Z := take 30 (pattern ++ nm).
Definition printed (pattern nm : list Z) : list Z :=
  shm_name pattern nm ++ 0 :: replicate (31 - length (shm_name pattern nm)) 0.
#[global] Arguments shm_name : simpl never.
#[global] Arguments printed : simpl never.

Lemma length_shm_name pattern nm : (length (shm_name pattern nm) ≤ 30)%nat.
Proof. unfold shm_name. rewrite length_take. lia. Qed.

Lemma name_buffer_run pattern nm w : print_name pattern nm w = Done (printed pattern nm, w).
Proof.
  unfold print_name, cplus_str_printf. change (31 =? 0) with false.
  change (Z.to_nat (31 - 1)) with 30%nat. fold (shm_name pattern nm).
  pose proof (length_shm_name pattern nm). unfold zlen.
  rewrite (proj2 (Z.leb_le _ _)) by (rewrite length_app, length_replicate; cbn [length]; lia).
  unfold printed. rewrite length_app, drop_replicate, <- app_assoc. cbn [length app].
  do 5 f_equal. lia.
Qed.

Lemma shm_name_fits pattern nm : text pattern → text nm → Sharedmem.fits (shm_name pattern nm).
Proof.
  intros Hp H. split.
  - unfold shm_name, text. apply Forall_take, Forall_app. by split.
  - pose proof (length_shm_name pattern nm). unfold zlen. lia.
Qed.

(** The name of the object in the kernel. *)
Definition shm_path (pattern nm : list Z) : list Z := Sharedmem.path (shm_name pattern nm).

(** ** Opening on a kernel that serves *)

(** The structure of sharedmem.c for the name, when [k] is the kernel before. *)
Definition made (me : Z) (pattern nm : list Z) (size : Z) (own : bool) (k : Sharedmem.kernel) :
    Sharedmem.shared_mem :=
  Sharedmem.made (Sharedmem.lowest_fd me (Sharedmem.fds k)) (Sharedmem.mapping k)
    size own me (shm_name pattern nm).

(** Whether the caller gets the memory, as its owner or not, and the kernel
    after. *)
Definition serve (me : Z) (pattern nm : list Z) (size : Z) (mode : INIT_MODE) (k : Sharedmem.kernel) :
    option (bool * Sharedmem.kernel) :=
  match mode, Sharedmem.names k !! shm_path pattern nm with
  | INIT_CREATE, None => Some (true, Sharedmem.created me (shm_name pattern nm) size k)
  | INIT_HYBRID, None =>
      Some (true, Sharedmem.set_errno ENOENT (Sharedmem.created me (shm_name pattern nm) size k))
  | INIT_OPEN, Some i | INIT_HYBRID, Some i => Some (false, Sharedmem.opened me i size k)
  | _, _ => None
  end.

(** The name leads nowhere, or to memory of the size of an object. *)
Definition sized (pattern nm : list Z) (size : Z) (k : Sharedmem.kernel) : Prop :=
  ∀ i, Sharedmem.names k !! shm_path pattern nm = Some i → Sharedmem.sizes k !! i = Some size.

Lemma open_shared_run me pattern nm size mode w own k :
  text pattern → text nm → 1 ≤ size ≤ Sharedmem.SHAREDMEM_MAX_SIZE →
  sized pattern nm size (kern w) →
  serve me pattern nm size mode (kern w) = Some (own, k) →
  open_shared me Sharedmem.no_faults Sharedmem.no_faults size (printed pattern nm) mode w =
    Done (Some (made me pattern nm size own (kern w)), set_kern k w).
Proof.
  intros Hp Ht Hs Hz. pose proof (shm_name_fits _ _ Hp Ht) as Hf.
  unfold open_shared. rewrite (bind_Done _ _ w (shm_name pattern nm) w).
  2: { unfold deref, printed. rewrite cstr_app by apply Hf. done. }
  unfold serve, shm_path, made.
  destruct mode; [done|..]; destruct (Sharedmem.names (kern w) !! _) as [i|] eqn:En; try done;
    intros [= <- <-]; unfold shm.
  - by rewrite Sharedmem.create_run.
  - by rewrite (Sharedmem.open_run _ _ size i) by auto.
  - unfold Sharedmem.cplus_sharedmem_new.
    rewrite Sharedmem.fits_ok, Sharedmem.size_ok_range by done. cbn [negb].
    rewrite (Sharedmem.sharedmem_new_open _ _ size size i); [done|apply Hf|done|by apply Hz|done].
  - unfold Sharedmem.cplus_sharedmem_new.
    rewrite Sharedmem.fits_ok, Sharedmem.size_ok_range by done. cbn [negb].
    rewrite Sharedmem.sharedmem_new_create; [done|apply Hf|lia|done].
Qed.

(** What the kernel knows of the name after: the object, at its size. *)
Lemma serve_names me pattern nm size mode k own k' :
  serve me pattern nm size mode k = Some (own, k') → sized pattern nm size k →
  ∃ i, Sharedmem.names k' !! shm_path pattern nm = Some i ∧ sized pattern nm size k'
    ∧ (if own then Sharedmem.names k !! shm_path pattern nm = None ∧ i = Sharedmem.inode k
       else Sharedmem.names k !! shm_path pattern nm = Some i)
    ∧ Sharedmem.maps k' !! Sharedmem.mapping k = Some (me, i, size).
Proof.
  unfold serve, sized. intros H Hz.
  destruct mode; [done|..]; destruct (Sharedmem.names k !! _) as [i|] eqn:En; try done;
    injection H as <- <-.
  - exists (Sharedmem.inode k). unfold Sharedmem.created. simpl. unfold shm_path in *.
    rewrite !lookup_insert_eq. split_and!; try done; intros j [= <-]; by rewrite lookup_insert_eq.
  - exists i. unfold Sharedmem.opened. simpl. rewrite lookup_insert_eq, En. split_and!; try done; intros j [= <-]; by apply Hz.

  - exists i. unfold Sharedmem.opened. simpl. rewrite lookup_insert_eq, En. split_and!; try done; intros j [= <-]; by apply Hz.

  - exists (Sharedmem.inode k). unfold Sharedmem.created. simpl. unfold shm_path in *.
    rewrite !lookup_insert_eq. split_and!; try done; intros j [= <-]; by rewrite lookup_insert_eq.
Qed.

Lemma is_owner_run me pattern nm size own k w :
  shm (Sharedmem.cplus_sharedmem_is_owner me (made me pattern nm size own k)) w = Done (own, w).
Proof.
  unfold shm, Sharedmem.cplus_sharedmem_is_owner, Sharedmem.CHECK_OBJECT_TYPE, made, Sharedmem.made.
  cbn [Sharedmem.type Sharedmem.is_owner Sharedmem.owner_id].
  change (Sharedmem.OBJ_TYPE =? Sharedmem.OBJ_TYPE) with true. crun.
  destruct own, w as [k' c]; cbn; [by rewrite Z.eqb_refl|done].
Qed.

Lemma alloc_run me pattern nm size own k w :
  shm (Sharedmem.cplus_sharedmem_alloc (made me pattern nm size own k)) w =
    Done (Some (Sharedmem.mapping k), w).
Proof.
  unfold shm, Sharedmem.cplus_sharedmem_alloc, Sharedmem.CHECK_OBJECT_TYPE, made, Sharedmem.made.
  cbn [Sharedmem.type Sharedmem.addr].
  change (Sharedmem.OBJ_TYPE =? Sharedmem.OBJ_TYPE) with true. crun. by destruct w.
Qed.

End named.
End Named.
