(* ===== verification/PeventNew.v ===== *)
(** * PeventNew: making and deleting events (src/pevent.c)

    An event without a name keeps its mutex, condition variable and flags in the
    structure; one with a name keeps them in a shared memory object, where
    every process that opens the name finds them (Named.v). *)

From S2P Require Import Prelude Zlist Stdio Memmgr Locks Sharedmem Named Pevent.
From stdpp Require Import base numbers list option gmap.
From Stdlib Require Import ZArith Lia.
Import Stdio Memmgr Pthread Named.
Open Scope Z_scope.

Module PeventNew.

Definition OBJ_TYPE : Z := Pevent.OBJ_TYPE.
Definition PEVENT_NAME_MAX_SIZE : Z := 31.
(** ["pevent."], the pattern before the name. *)
Definition PEVENT_NAME_PATTERN : list Z := [112; 101; 118; 101; 110; 116; 46].
Definition PEVENT_NAME_PATTERN_SIZE : Z := 10 - 3.
(** [sizeof(struct named_pevent)]: a mutex, a condition variable, three flags. *)
Definition sizeof_named_pevent : Z := 96.

(** What the event uses, in the structure or in shared memory: the flags, and
    the mutex with its holder. *)
Record named_pevent := mkNamed {
  setted : bool;
  broadcast : bool;
  status : bool;
  holder : mutex }.

Definition zero : named_pevent := mkNamed false false false None.
(** Destroying a mutex somebody holds is undefined. *)
Definition idle (p : named_pevent) : bool := bool_decide (holder p = None).

(** [struct pevent]: where the pointers lead, if they have been set. *)
Record pevent := mkPevent {
  type : Z;
  at_ : place named_pevent;
  shared_mem : option Sharedmem.shared_mem }.

Notation world := (Named.world named_pevent).

(** Which calls of the constructor fail. *)
Record faults := Faults {
  no_memory : bool;
  mutex_fails : bool;           (* initialisation of the mutex, or its attributes *)
  cond_fails : bool;            (* of the condition variable, or its attributes *)
  shm_faults : Sharedmem.faults;
  shm_faults' : Sharedmem.faults }.
Definition no_faults : faults := Faults false false false Sharedmem.no_faults Sharedmem.no_faults.

Definition CHECK_OBJECT_TYPE (e : pevent) : C world unit := assert_c (type e =? OBJ_TYPE).

Definition cplus_pevent_delete (me : Z) (e : pevent) : C world Z :=
  CHECK_OBJECT_TYPE e;;
  delete_memory zero idle me (at_ e) (shared_mem e);;
  mret CPLUS_SUCCESS.

Definition discard (me : Z) (e : pevent) : C world (option pevent) :=
  cplus_pevent_delete me e;; mret None.

(** [cplus_pevent_set] in the constructor: nobody waits for an event without a
    name yet; one with a name may be busy. *)
Definition set_now (p : named_pevent) : C world named_pevent :=
  match holder p with
  | None => mret (mkNamed true (broadcast p) (status p) None)
  | Some _ => hang
  end.
Definition cplus_pevent_set (e : pevent) : C world pevent :=
  CHECK_OBJECT_TYPE e;;
  p ← load zero (at_ e);
  p ← set_now p;
  q ← store (at_ e) p;
  mret (mkPevent (type e) q (shared_mem e)).

(** The event of an open shared memory object, which its owner initialises. *)
Definition shared_init (me : Z) (F : faults) (s : Sharedmem.shared_mem) (broadcast status : bool) :
    C world (option pevent) :=
  i ← deref (inode_of s);
  own ← shm (Sharedmem.cplus_sharedmem_is_owner me s);
  if (own : bool) then
    if mutex_fails F then discard me (mkPevent OBJ_TYPE Unset (Some s))
    else if cond_fails F then discard me (mkPevent OBJ_TYPE Unset (Some s))
    else
      p ← store (Shared i) (mkNamed false broadcast status None);
      mret (Some (mkPevent OBJ_TYPE p (Some s)))
  else mret (Some (mkPevent OBJ_TYPE (Shared i) (Some s))).

(** The event before it is set, with and without a name. *)
Definition inline_init (me : Z) (F : faults) (broadcast status : bool) : C world (option pevent) :=
  if mutex_fails F then discard me (mkPevent OBJ_TYPE Unset None)
  else if cond_fails F then discard me (mkPevent OBJ_TYPE Unset None)
  else mret (Some (mkPevent OBJ_TYPE (Inline (Live (mkNamed false broadcast status None))) None)).

Definition named_init (me : Z) (F : faults) (nm : list Z) (broadcast status : bool)
    (mode : INIT_MODE) : C world (option pevent) :=
  b ← print_name PEVENT_NAME_PATTERN nm;
  s ← open_shared me (shm_faults F) (shm_faults' F) sizeof_named_pevent b mode;
  match s with
  | None => discard me (mkPevent OBJ_TYPE Unset None)
  | Some s => shared_init me F s broadcast status
  end.

Definition pevent_initialize_object (me : Z) (F : faults) (name : option (list Z))
    (broadcast status : bool) (mode : INIT_MODE) : C world (option pevent) :=
  if no_memory F then mret None
  else
    e ← match name with
        | None => inline_init me F broadcast status
        | Some nm => named_init me F nm broadcast status mode
        end;
    match e with
    | None => mret None
    | Some e => if status then e ← cplus_pevent_set e; mret (Some e) else mret (Some e)
    end.

Definition cplus_pevent_new (me : Z) (F : faults) (broadcast status : bool) : C world (option pevent) :=
  pevent_initialize_object me F None broadcast status INIT_NONE.

(** The checks of the constructors with a name. *)
Definition with_name (name : option (list Z)) (m : list Z → C world (option pevent)) :
    C world (option pevent) :=
  match name with
  | None => set_errno EINVAL;; mret None
  | Some nm =>
      if too_long PEVENT_NAME_MAX_SIZE PEVENT_NAME_PATTERN_SIZE nm
      then set_errno EINVAL;; mret None
      else m nm
  end.

Definition cplus_pevent_new_xp (me : Z) (F : faults) (name : option (list Z)) (broadcast status : bool) :=
  with_name name (λ nm, pevent_initialize_object me F (Some nm) broadcast status INIT_HYBRID).
Definition cplus_pevent_create_xp (me : Z) (F : faults) (name : option (list Z)) (broadcast status : bool) :=
  with_name name (λ nm, pevent_initialize_object me F (Some nm) broadcast status INIT_CREATE).
Definition cplus_pevent_open_xp (me : Z) (F : faults) (name : option (list Z)) :=
  with_name name (λ nm, pevent_initialize_object me F (Some nm) false false INIT_OPEN).

Definition cplus_pevent_check (obj : option Z) : bool :=
  match obj with Some t => t =? OBJ_TYPE | None => false end.

(** ** What the constructors make *)

(** The flags of an event with its mutex free, as the threads of Pevent.v start
    from. *)
Definition flags_of (t : Z) (p : named_pevent) : Pevent.pevent :=
  Pevent.mkPevent t (setted p) (broadcast p) (status p).

Lemma new_run me b s w :
  cplus_pevent_new me no_faults b s w =
    Done (Some (mkPevent OBJ_TYPE (Inline (Live (mkNamed s b s None))) None), w).
Proof. by destruct s. Qed.

Lemma event_pattern : text PEVENT_NAME_PATTERN.
Proof. by repeat constructor. Qed.

Lemma event_size : 1 ≤ sizeof_named_pevent ≤ Sharedmem.SHAREDMEM_MAX_SIZE.
Proof. unfold sizeof_named_pevent, Sharedmem.SHAREDMEM_MAX_SIZE, Sharedmem.GB. lia. Qed.

Notation serve me nm := (Named.serve me PEVENT_NAME_PATTERN nm sizeof_named_pevent).
Notation sized nm := (Named.sized PEVENT_NAME_PATTERN nm sizeof_named_pevent).
Notation memory_of me nm := (Named.made me PEVENT_NAME_PATTERN nm sizeof_named_pevent).
Notation shm_path nm := (Named.shm_path PEVENT_NAME_PATTERN nm).

Definition object (i : nat) (s : option Sharedmem.shared_mem) : pevent := mkPevent OBJ_TYPE (Shared i) s.

Lemma set_run i s b st w q :
  memory_at zero i w = Live (mkNamed q b st None) →
  cplus_pevent_set (object i s) w = Done (object i s, put i (Live (mkNamed true b st None)) w).
Proof.
  intros E. unfold cplus_pevent_set, CHECK_OBJECT_TYPE, object, load.
  change (type _ =? OBJ_TYPE) with true. cbn [at_ shared_mem]. crun. by rewrite E.
Qed.

(** A name that is served leads to the event: a new one as it was asked for, an
    old one as it is, and set if [status] asks for it. *)
Lemma event_run me nm b s mode w own k' :
  text nm → sized nm (kern w) → serve me nm mode (kern w) = Some (own, k') →
  (own = false → s = false) →
  ∃ i, Sharedmem.names k' !! shm_path nm = Some i ∧ sized nm k'
    ∧ (own = false → Sharedmem.names (kern w) !! shm_path nm = Some i)
    ∧ pevent_initialize_object me no_faults (Some nm) b s mode w =
        Done (Some (object i (Some (memory_of me nm own (kern w)))),
              World k' (if own then <[i := Live (mkNamed s b s None)]> (cells w) else cells w)).
Proof.
  intros Ht Hz Hs Hset. destruct (serve_names _ _ _ _ _ _ _ _ Hs Hz) as (i & Hn & Hz' & Ho & Hm).
  exists i. split; [done|]. split; [done|]. split; [by intros ->|].
  unfold pevent_initialize_object. change (no_memory no_faults) with false. cbv iota.
  set (w1 := World k' (if own then <[i := Live (mkNamed false b s None)]> (cells w) else cells w)).
  rewrite (bind_Done _ _ w (Some (object i (Some (memory_of me nm own (kern w))))) w1).
  - destruct s; [|by destruct own]. destruct own; [|by specialize (Hset eq_refl)].
    assert (Hm1 : memory_at zero i w1 = Live (mkNamed false b true None))
      by (unfold memory_at; simpl; by rewrite lookup_insert_eq).
    rewrite (bind_Done _ _ _ _ _ (set_run i _ b true w1 false Hm1)).
    unfold put, set_cells, w1. cbn [cells kern]. by rewrite insert_insert_eq.
  - unfold named_init. rewrite (bind_Done _ _ _ _ _ (name_buffer_run _ _ _)).
    rewrite (bind_Done _ _ _ _ _
      (open_shared_run _ _ _ _ _ _ _ _ event_pattern Ht event_size Hz Hs)).
    unfold shared_init. rewrite (bind_Done _ _ (set_kern k' w) i (set_kern k' w)).
    2: { unfold deref, inode_of, Named.made, Sharedmem.made. cbn [Sharedmem.addr set_kern kern].
         by rewrite Hm. }
    rewrite (bind_Done _ _ _ _ _ (is_owner_run _ _ _ _ _ _ _)). by destruct own, w.
Qed.

(** an event created by one process under a name is the event another
    process opens under that name: both lead to the same flags and mutex, which
    are those the creator asked for, and what the second process sets the first
    one sees. *)
Theorem named_events_meet p q nm b s w :
  text nm → zlen nm ≤ 24 → Sharedmem.names (kern w) !! shm_path nm = None →
  ∃ i e1 e2 w1 w2 w3,
    cplus_pevent_create_xp p no_faults (Some nm) b s w = Done (Some e1, w1)
  ∧ cplus_pevent_open_xp q no_faults (Some nm) w1 = Done (Some e2, w2)
  ∧ at_ e1 = Shared i ∧ at_ e2 = Shared i
  ∧ memory_at zero i w2 = Live (mkNamed s b s None)
  ∧ cplus_pevent_set e2 w2 = Done (e2, w3)
  ∧ memory_at zero i w3 = Live (mkNamed true b s None).
Proof.
  intros Ht Hl Hn. assert (Hz : sized nm (kern w)) by (intros i; by rewrite Hn).
  assert (∃ k1, serve p nm INIT_CREATE (kern w) = Some (true, k1)) as (k1 & Hs1)
    by (unfold Named.serve; rewrite Hn; by eexists).
  destruct (event_run p nm b s INIT_CREATE w true k1 Ht Hz Hs1 ltac:(done)) as (i & Hn1 & Hz1 & _ & E1).
  set (w1 := World k1 (<[i := Live (mkNamed s b s None)]> (cells w))) in E1.
  assert (∃ k2, serve q nm INIT_OPEN (kern w1) = Some (false, k2)) as (k2 & Hs2)
    by (unfold Named.serve; simpl; rewrite Hn1; by eexists).
  destruct (event_run q nm false false INIT_OPEN w1 false k2 Ht Hz1 Hs2 ltac:(done))
    as (i' & _ & _ & Ho & E2).
  specialize (Ho eq_refl). simpl in Ho. rewrite Hn1 in Ho. injection Ho as <-.
  unfold cplus_pevent_create_xp, cplus_pevent_open_xp, with_name, too_long,
    PEVENT_NAME_MAX_SIZE, PEVENT_NAME_PATTERN_SIZE.
  rewrite (proj2 (Z.ltb_ge _ _)) by lia.
  assert (Hm : memory_at zero i (World k2 (cells w1)) = Live (mkNamed s b s None))
    by (unfold memory_at; simpl; by rewrite lookup_insert_eq).
  eexists i, _, _, w1, _, _. split; [exact E1|]. split; [exact E2|]. split; [done|]. split; [done|].
  split; [exact Hm|]. split; [exact (set_run _ _ _ _ _ _ Hm)|]. apply memory_at_put.
Qed.

Definition empty_world : world := World Sharedmem.empty_kernel ∅.

Lemma named_events_meet_witness :
  ∃ i e1 e2 w1 w2 w3,
    cplus_pevent_create_xp 1 no_faults (Some Sharedmem.name_log) true false empty_world = Done (Some e1, w1)
  ∧ cplus_pevent_open_xp 2 no_faults (Some Sharedmem.name_log) w1 = Done (Some e2, w2)
  ∧ at_ e1 = Shared i ∧ at_ e2 = Shared i
  ∧ memory_at zero i w2 = Live (mkNamed false true false None)
  ∧ cplus_pevent_set e2 w2 = Done (e2, w3)
  ∧ memory_at zero i w3 = Live (mkNamed true true false None).
Proof.
  apply (named_events_meet 1 2 Sharedmem.name_log true false empty_world);
    [by repeat constructor|vm_compute; congruence|done].
Defined.

End PeventNew.
