(* ===== verification/LockNew.v ===== *)
(** * LockNew: making, sharing and deleting locks (src/rwlock.c, src/mutex.c)

    The constructors and the deletion of the two locks, with their memory in the
    structure or in a named shared memory object (Named.v), and their functions
    on an object wherever its memory is: the functions of Locks.v on the lock
    found there.  The structure belongs to one process, the shared lock to all. *)

From S2P Require Import Prelude Zlist Stdio Memmgr Locks Sharedmem Named.
From stdpp Require Import base numbers list option gmap.
From Stdlib Require Import ZArith Lia.
Import Stdio Memmgr Pthread Named.
Open Scope Z_scope.

(** Which calls of a constructor fail. *)
Record faults := Faults {
  no_memory : bool;
  attr_fails : bool;              (* pthread_..attr_init *)
  attr_fails' : bool;             (* the attempt for shared memory *)
  kind_fails : bool;              (* pthread_rwlockattr_setkind_np *)
  pshared_fails : bool;           (* pthread_..attr_setpshared *)
  init_fails : bool;              (* pthread_.._init *)
  shm_faults : Sharedmem.faults;
  shm_faults' : Sharedmem.faults }.
Definition no_faults : faults :=
  Faults false false false false false false Sharedmem.no_faults Sharedmem.no_faults.

(** ** Reader-writer locks *)
Module RwlockNew.

Definition OBJ_TYPE : Z := Rwlock.OBJ_TYPE.
Definition RWLOCK_NAME_MAX_SIZE : Z := 31.
(** ["rwlock."], the pattern before the name. *)
Definition RWLOCK_NAME_PATTERN : list Z := [114; 119; 108; 111; 99; 107; 46].
Definition RWLOCK_NAME_PATTERN_SIZE : Z := 10 - 3.
(** [sizeof(struct named_rwlock)]. *)
Definition sizeof_named_rwlock : Z := 56.

(** [PTHREAD_RWLOCK_PREFER_READER_NP] and the others. *)
Definition PREFER_READER_NP : Z := 0.
Definition PREFER_WRITER_NP : Z := 1.
Definition PREFER_WRITER_NONRECURSIVE_NP : Z := 2.

(** A [pthread_rwlock_t] with what it was initialised to. *)
Record cell := Cell { lk : rw; kind : Z; pshared : bool }.
Definition zero : cell := Cell rw_idle PREFER_READER_NP false.
Definition idle (c : cell) : bool := bool_decide (writer (lk c) = None ∧ readers (lk c) = []).

(** [pthread_rwlockattr_t]. *)
Record attr := Attr { akind : Z; apshared : bool }.
Definition default_attr : attr := Attr PREFER_READER_NP false.

(** [struct rwlock]. *)
Record rwlock := mkRwlock {
  type : Z;
  at_ : place cell;
  st_locked : bool;
  count_rdlocked : Z;
  shared_mem : option Sharedmem.shared_mem }.

Notation world := (Named.world cell).

(** [struct cplus_rwlock_config], its enumerations as numbers. *)
Record config := Config { name : option (list Z); mode : Z; ckind : Z }.
Definition MODE_NONE : Z := 0.
Definition MODE_CREATE : Z := 1.
Definition MODE_OPEN : Z := 2.
Definition MODE_HYBRID : Z := 3.
Definition KIND_NONE : Z := 0.
Definition KIND_PREFER_READER : Z := 1.
Definition KIND_PREFER_WRITER : Z := 2.
Definition KIND_PREFER_WRITER_NONRECURSIVE : Z := 3.
Definition KIND_MAX : Z := 4.

Definition convert_rwlock_kind (k : Z) : Z :=
  if k =? KIND_PREFER_WRITER then PREFER_WRITER_NP
  else if k =? KIND_PREFER_WRITER_NONRECURSIVE then PREFER_WRITER_NONRECURSIVE_NP
  else PREFER_READER_NP.

Definition cplus_rwlock_delete (me : Z) (o : option rwlock) : C world Z :=
  match o with
  | None => abort
  | Some o =>
      assert_c (type o =? OBJ_TYPE);;
      delete_memory zero idle me (at_ o) (shared_mem o);;
      mret CPLUS_SUCCESS
  end.

(** [exit:]. *)
Definition discard (me : Z) (o : option rwlock) : C world (option rwlock) :=
  cplus_rwlock_delete me o;; mret None.

(** The structure with its lock inside, not initialised. *)
Definition blank (s : option Sharedmem.shared_mem) : rwlock :=
  mkRwlock OBJ_TYPE (Inline (Live zero)) false 0 s.

(** The attributes after the first part: [None] leaves by [exit]. *)
Definition kind_attr (F : faults) (k : Z) : option (option attr) :=
  if (k <? KIND_MAX) && negb (k =? KIND_NONE) then
    if attr_fails F then Some None
    else if kind_fails F then None
    else Some (Some (Attr (convert_rwlock_kind k) false))
  else Some None.

(** The attributes the owner of shared memory asks for. *)
Definition pshared_attr (F : faults) (a : option attr) : option (option attr) :=
  match a, attr_fails' F with
  | None, true => Some None
  | _, _ =>
      if pshared_fails F then None
      else Some (Some (Attr (akind (default default_attr a)) true))
  end.

(** [pthread_rwlock_init]. *)
Definition init (me : Z) (F : faults) (o : rwlock) (a : option attr) : C world (option rwlock) :=
  if init_fails F then discard me (Some o)
  else
    let a := default default_attr a in
    p ← store (at_ o) (Cell rw_idle (akind a) (apshared a));
    mret (Some (mkRwlock (type o) p (st_locked o) (count_rdlocked o) (shared_mem o))).

Definition init_mode (m : Z) : INIT_MODE :=
  if m =? MODE_CREATE then INIT_CREATE
  else if m =? MODE_OPEN then INIT_OPEN
  else if m =? MODE_HYBRID then INIT_HYBRID else INIT_NONE.

(** With shared memory in hand. *)
Definition shared_init (me : Z) (F : faults) (a : option attr) (s : Sharedmem.shared_mem) :
    C world (option rwlock) :=
  p ← shm (Sharedmem.cplus_sharedmem_alloc s);
  match p with
  | None => discard me (Some (blank (Some s)))
  | Some _ =>
      i ← deref (inode_of s);
      let o := mkRwlock OBJ_TYPE (Shared i) false 0 (Some s) in
      own ← shm (Sharedmem.cplus_sharedmem_is_owner me s);
      if negb own then mret (Some o)
      else
        match pshared_attr F a with
        | None => discard me (Some o)
        | Some a => init me F o a
        end
  end.

Definition rwlock_initialize_object (me : Z) (F : faults) (c : config) : C world (option rwlock) :=
  if no_memory F then set_errno ENOMEM;; discard me None
  else
    match kind_attr F (ckind c) with
    | None => discard me (Some (blank None))
    | Some a =>
        match name c, negb (mode c =? MODE_NONE) with
        | Some nm, true =>
            b ← print_name RWLOCK_NAME_PATTERN nm;
            s ← open_shared me (shm_faults F) (shm_faults' F) sizeof_named_rwlock b
                  (init_mode (mode c));
            match s with
            | None => discard me (Some (blank None))
            | Some s => shared_init me F a s
            end
        | _, _ => init me F (blank None) a
        end
    end.

Definition with_name (nm : option (list Z)) (m : list Z → C world (option rwlock)) :
    C world (option rwlock) :=
  match nm with
  | None => set_errno EINVAL;; mret None
  | Some nm =>
      if too_long RWLOCK_NAME_MAX_SIZE RWLOCK_NAME_PATTERN_SIZE nm
      then set_errno EINVAL;; mret None else m nm
  end.

Definition cplus_rwlock_xp_new (me : Z) (F : faults) (nm : option (list Z)) : C world (option rwlock) :=
  with_name nm (λ nm, rwlock_initialize_object me F (Config (Some nm) MODE_HYBRID KIND_NONE)).
Definition cplus_rwlock_xp_create (me : Z) (F : faults) (nm : option (list Z)) : C world (option rwlock) :=
  with_name nm (λ nm, rwlock_initialize_object me F (Config (Some nm) MODE_CREATE KIND_NONE)).
Definition cplus_rwlock_xp_open (me : Z) (F : faults) (nm : option (list Z)) : C world (option rwlock) :=
  with_name nm (λ nm, rwlock_initialize_object me F (Config (Some nm) MODE_OPEN KIND_NONE)).
(** A null configuration is read. *)
Definition cplus_rwlock_new_config (me : Z) (F : faults) (c : option config) : C world (option rwlock) :=
  match c with None => undef | Some c => rwlock_initialize_object me F c end.
Definition cplus_rwlock_new (me : Z) (F : faults) : C world (option rwlock) :=
  rwlock_initialize_object me F (Config None MODE_NONE KIND_NONE).

(** A function of Locks.v on the object: the lock is where the pointer leads,
    the rest in the structure. *)
Definition on_lock {A} (o : rwlock) (m : C Rwlock.st A) : C world (A * rwlock) :=
  c ← load zero (at_ o);
  e ← gets (Sharedmem.errno ∘ kern);
  match m (Rwlock.mkRwlock (type o) (lk c) (st_locked o) (count_rdlocked o), e) with
  | Done (a, (r, e)) =>
      p ← store (at_ o) (Cell (Rwlock.lock r) (kind c) (pshared c));
      set_errno e;;
      mret (a, mkRwlock (Rwlock.type r) p (Rwlock.st_locked r) (Rwlock.count_rdlocked r) (shared_mem o))
  | Aborts => abort | Hangs => hang | Undefined => undef
  end.

(** The functions of rwlock.c check the type before they look at the lock, and
    unlocking looks at it only if the structure says it is locked. *)
Definition checked {A} (o : rwlock) (m : C world A) : C world A := assert_c (type o =? OBJ_TYPE);; m.
Definition cplus_rwlock_unlock (me : nat) (o : rwlock) : C world (Z * rwlock) :=
  checked o (if st_locked o then on_lock o (Rwlock.cplus_rwlock_unlock me) else mret (CPLUS_FAIL, o)).
Definition cplus_rwlock_wrlock (me : nat) (timeout : Z) (o : rwlock) : C world (Z * rwlock) :=
  checked o (on_lock o (Rwlock.cplus_rwlock_wrlock me timeout)).
Definition cplus_rwlock_rdlock (me : nat) (timeout : Z) (o : rwlock) : C world (Z * rwlock) :=
  checked o (on_lock o (Rwlock.cplus_rwlock_rdlock me timeout)).

End RwlockNew.

(** ** Mutexes *)
Module MutexNew.

Definition OBJ_TYPE : Z := Mutex.OBJ_TYPE.
Definition MUTEX_NAME_MAX_SIZE : Z := 31.
(** ["mutex."], the pattern before the name. *)
Definition MUTEX_NAME_PATTERN : list Z := [109; 117; 116; 101; 120; 46].
Definition MUTEX_NAME_PATTERN_SIZE : Z := 9 - 3.
(** [sizeof(struct named_mutex)]. *)
Definition sizeof_named_mutex : Z := 40.

(** A [pthread_mutex_t] with what it was initialised to. *)
Record cell := Cell { owner : Pthread.mutex; pshared : bool }.
Definition zero : cell := Cell None false.
Definition idle (c : cell) : bool := bool_decide (owner c = None).

(** [struct mutex]. *)
Record mutex := mkMutex {
  type : Z;
  at_ : place cell;
  shared_mem : option Sharedmem.shared_mem }.

Notation world := (Named.world cell).

Definition cplus_mutex_delete (me : Z) (o : mutex) : C world Z :=
  assert_c (type o =? OBJ_TYPE);;
  delete_memory zero idle me (at_ o) (shared_mem o);;
  mret CPLUS_SUCCESS.

(** [exit:]. *)
Definition discard (me : Z) (o : mutex) : C world (option mutex) :=
  cplus_mutex_delete me o;; mret None.

(** With shared memory in hand; its address is not checked. *)
Definition shared_init (me : Z) (F : faults) (s : Sharedmem.shared_mem) : C world (option mutex) :=
  i ← deref (inode_of s);
  own ← shm (Sharedmem.cplus_sharedmem_is_owner me s);
  if negb own then mret (Some (mkMutex OBJ_TYPE (Shared i) (Some s)))
  else if attr_fails F || pshared_fails F || init_fails F
  then discard me (mkMutex OBJ_TYPE Unset (Some s))
  else
    p ← store (Shared i) (Cell None true);
    mret (Some (mkMutex OBJ_TYPE p (Some s))).

(** [malloc] sets [errno]. *)
Definition mutex_initialize_object (me : Z) (F : faults) (name : option (list Z)) (mode : INIT_MODE) :
    C world (option mutex) :=
  if no_memory F then set_errno ENOMEM;; mret None
  else
    match name with
    | None =>
        if init_fails F then discard me (mkMutex OBJ_TYPE Unset None)
        else mret (Some (mkMutex OBJ_TYPE (Inline (Live zero)) None))
    | Some nm =>
        b ← print_name MUTEX_NAME_PATTERN nm;
        s ← open_shared me (shm_faults F) (shm_faults' F) sizeof_named_mutex b mode;
        match s with
        | None => discard me (mkMutex OBJ_TYPE Unset None)
        | Some s => shared_init me F s
        end
    end.

Definition cplus_mutex_new (me : Z) (F : faults) : C world (option mutex) :=
  mutex_initialize_object me F None INIT_NONE.

Definition with_name (nm : option (list Z)) (m : list Z → C world (option mutex)) :
    C world (option mutex) :=
  match nm with
  | None => set_errno EINVAL;; mret None
  | Some nm =>
      if too_long MUTEX_NAME_MAX_SIZE MUTEX_NAME_PATTERN_SIZE nm
      then set_errno EINVAL;; mret None else m nm
  end.
Definition cplus_mutex_new_xp (me : Z) (F : faults) (nm : option (list Z)) : C world (option mutex) :=
  with_name nm (λ nm, mutex_initialize_object me F (Some nm) INIT_HYBRID).
Definition cplus_mutex_create_xp (me : Z) (F : faults) (nm : option (list Z)) : C world (option mutex) :=
  with_name nm (λ nm, mutex_initialize_object me F (Some nm) INIT_CREATE).
Definition cplus_mutex_open_xp (me : Z) (F : faults) (nm : option (list Z)) : C world (option mutex) :=
  with_name nm (λ nm, mutex_initialize_object me F (Some nm) INIT_OPEN).

(** A function of Locks.v on the mutex where the pointer leads. *)
Definition on_mutex (o : mutex) (m : C Mutex.st Z) : C world (Z * mutex) :=
  c ← load zero (at_ o);
  e ← gets (Sharedmem.errno ∘ kern);
  match m (Mutex.mkMutex (type o) (owner c), e) with
  | Done (a, (r, e)) =>
      p ← store (at_ o) (Cell (Mutex.lock r) (pshared c));
      set_errno e;;
      mret (a, mkMutex (type o) p (shared_mem o))
  | Aborts => abort | Hangs => hang | Undefined => undef
  end.
Definition cplus_mutex_lock (me : nat) (timeout : Z) (o : mutex) : C world (Z * mutex) :=
  assert_c (type o =? OBJ_TYPE);; on_mutex o (Mutex.cplus_mutex_lock me timeout).
Definition cplus_mutex_unlock (me : nat) (o : mutex) : C world (Z * mutex) :=
  assert_c (type o =? OBJ_TYPE);; on_mutex o (Mutex.cplus_mutex_unlock me).
Definition cplus_crit_sect_enter (me : nat) (o : mutex) : C world (Z * mutex) :=
  on_mutex o (Mutex.cplus_crit_sect_enter me).
Definition cplus_crit_sect_exit (me : nat) (o : mutex) : C world (Z * mutex) :=
  on_mutex o (Mutex.cplus_crit_sect_exit me).

End MutexNew.
