(* ===== verification/LockShare.v ===== *)
(** * LockShare: what processes that use one name share

    Any number of processes that open a lock by the same name have one lock: in
    every run of their calls it excludes writers from everybody else, across the
    processes, and so does a named mutex.  Then the ends of the objects, and
    where the names and the error paths go wrong. *)

From S2P Require Import Prelude Zlist Stdio Memmgr Locks Sharedmem Named LockNew.
From stdpp Require Import base numbers list option gmap.
From Stdlib Require Import ZArith Lia.
Import Stdio Memmgr Pthread Named.
Open Scope Z_scope.

(** ** Reader-writer locks *)
Module RwlockShare.
Import RwlockNew.

(** *** What a constructor makes *)

Lemma rw_pattern_text : text RWLOCK_NAME_PATTERN.
Proof. by repeat constructor. Qed.

Lemma rw_size_fine : 1 ≤ sizeof_named_rwlock ≤ Sharedmem.SHAREDMEM_MAX_SIZE.
Proof. unfold sizeof_named_rwlock, Sharedmem.SHAREDMEM_MAX_SIZE, Sharedmem.GB. lia. Qed.

Notation serve me nm := (Named.serve me RWLOCK_NAME_PATTERN nm sizeof_named_rwlock).
Notation sized nm := (Named.sized RWLOCK_NAME_PATTERN nm sizeof_named_rwlock).
Notation memory_of me nm := (Named.made me RWLOCK_NAME_PATTERN nm sizeof_named_rwlock).
Notation shm_path nm := (Named.shm_path RWLOCK_NAME_PATTERN nm).

(** The kind a configuration asks for. *)
Definition asked (k : Z) : Z :=
  if (k <? KIND_MAX) && negb (k =? KIND_NONE) then convert_rwlock_kind k else PREFER_READER_NP.

Definition shared_lock (i : nat) (s : Sharedmem.shared_mem) : rwlock :=
  mkRwlock OBJ_TYPE (Shared i) false 0 (Some s).

(** Who opens the name first initialises the lock. *)
Definition cells_after (own : bool) (i : nat) (k : Z) (w : world) : gmap nat (memory cell) :=
  if own then <[i := Live (Cell rw_idle (asked k) true)]> (cells w) else cells w.

Lemma init_mode_some m : init_mode m ≠ INIT_NONE → (m =? MODE_NONE) = false.
Proof.
  unfold init_mode, MODE_NONE, MODE_CREATE, MODE_OPEN, MODE_HYBRID. intros H.
  destruct (Z.eqb_spec m 1), (Z.eqb_spec m 2), (Z.eqb_spec m 3); try lia. done.
Qed.

Lemma rw_named_run me nm m k w own k' :
  text nm → sized nm (kern w) → serve me nm (init_mode m) (kern w) = Some (own, k') →
  ∃ i, Sharedmem.names k' !! shm_path nm = Some i ∧ sized nm k'
    ∧ (own = false → Sharedmem.names (kern w) !! shm_path nm = Some i)
    ∧ rwlock_initialize_object me no_faults (Config (Some nm) m k) w =
        Done (Some (shared_lock i (memory_of me nm own (kern w))), World k' (cells_after own i k w)).
Proof.
  intros Ht Hz Hs. destruct (serve_names _ _ _ _ _ _ _ _ Hs Hz) as (i & Hn & Hz' & Ho & Hm).
  exists i. split; [done|]. split; [done|]. split; [by intros ->|].
  unfold rwlock_initialize_object. change (no_memory no_faults) with false. cbv iota.
  assert (Hk : kind_attr no_faults (ckind (Config (Some nm) m k))
    = Some (if (k <? KIND_MAX) && negb (k =? KIND_NONE)
            then Some (Attr (convert_rwlock_kind k) false) else None)).
  { unfold kind_attr. cbn [ckind]. by destruct ((k <? KIND_MAX) && negb (k =? KIND_NONE)). }
  rewrite Hk. cbn [name mode].
  rewrite init_mode_some by (intros E; by rewrite E in Hs). cbn [negb]. cbv beta iota.
  rewrite (bind_Done _ _ _ _ _ (name_buffer_run _ _ _)).
  rewrite (bind_Done _ _ _ _ _
    (open_shared_run _ _ _ _ _ _ _ _ rw_pattern_text Ht rw_size_fine Hz Hs)).
  unfold shared_init. rewrite (bind_Done _ _ _ _ _ (alloc_run _ _ _ _ _ _ _)).
  rewrite (bind_Done _ _ (set_kern k' w) i (set_kern k' w)).
  2: { unfold deref, inode_of, Named.made, Sharedmem.made. cbn [Sharedmem.addr set_kern kern].
       by rewrite Hm. }
  rewrite (bind_Done _ _ _ _ _ (is_owner_run _ _ _ _ _ _ _)).
  unfold cells_after, asked. destruct own; cbn [negb]; [|by destruct w].
  by destruct ((k <? KIND_MAX) && negb (k =? KIND_NONE)).
Qed.

(** *** Processes that open one name *)

(** Processes, each with the thread that will use the lock. *)
Fixpoint join (nm : list Z) (ps : list (nat * Z)) (objs : gmap nat rwlock) (w : world) :
    option (gmap nat rwlock * world) :=
  match ps with
  | [] => Some (objs, w)
  | (t, p) :: ps =>
      match cplus_rwlock_xp_new p no_faults (Some nm) w with
      | Done (Some o, w) => join nm ps (<[t := o]> objs) w
      | _ => None
      end
  end.

(** The calls of a thread, and what it knows of its lock from their answers. *)
Definition label : Type := nat * Rwlock.call * Z.
Definition call_lock (t : nat) (c : Rwlock.call) (timeout : Z) (o : rwlock) : C world (Z * rwlock) :=
  match c with
  | Rwlock.Rd => cplus_rwlock_rdlock t timeout o
  | Rwlock.Wr => cplus_rwlock_wrlock t timeout o
  | Rwlock.Un => cplus_rwlock_unlock t o
  end.

(** A run of calls: a call that has to wait is not a step yet. *)
Fixpoint run (ls : list label) (objs : gmap nat rwlock) (w : world) :
    option (list label * gmap nat rwlock * world) :=
  match ls with
  | [] => Some ([], objs, w)
  | (t, c, timeout) :: ls =>
      match objs !! t with
      | None => None
      | Some o =>
          match call_lock t c timeout o w with
          | Done (r, o, w) =>
              match run ls (<[t := o]> objs) w with
              | Some (log, objs, w) => Some ((t, c, r) :: log, objs, w)
              | None => None
              end
          | _ => None
          end
      end
  end.

Definition after (c : Rwlock.call) (r : Z) (e : Rwlock.entered) : Rwlock.entered :=
  if r =? CPLUS_SUCCESS
  then match Rwlock.transition c e with Some (_, e) => e | None => e end
  else e.
Definition follow (log : list label) (e : Rwlock.entered) (t : nat) : Rwlock.entered :=
  foldl (λ e '(t', c, r), if decide (t' = t) then after c r e else e) e log.
Definition inside (log : list label) (t : nat) : Rwlock.entered := follow log Rwlock.Free t.

(** *** One lock and the threads inside it *)

Definition cnt (t : nat) (l : list nat) : nat := length (filter (λ x, x = t) l).
Definition reads (e : Rwlock.entered) : nat := match e with Rwlock.Reading n => n | _ => 0 end.

(** The lock is held by the threads that think they hold it. *)
Record agrees (l : rw) (ent : nat → Rwlock.entered) : Prop := {
  ag_writer t : writer l = Some t ↔ ent t = Rwlock.Writing;
  ag_readers t : cnt t (readers l) = reads (ent t);
  ag_alone : writer l ≠ None → readers l = [] }.

Definition update (t : nat) (e : Rwlock.entered) (ent : nat → Rwlock.entered) : nat → Rwlock.entered :=
  λ t', if decide (t = t') then e else ent t'.

(** The fields of the structure of one thread. *)
Definition fields (e : Rwlock.entered) (st : bool) (n : Z) : Prop :=
  n = Z.of_nat (reads e) ∧ (st = true ↔ e ≠ Rwlock.Free)
  ∧ match e with Rwlock.Reading k => (0 < k)%nat | _ => True end.

Lemma cnt_cons t x l : cnt t (x :: l) = (if decide (x = t) then S (cnt t l) else cnt t l).
Proof. unfold cnt. rewrite filter_cons. by destruct (decide (x = t)). Qed.

Lemma cnt_delete t t' l i :
  l !! i = Some t → cnt t' l = (if decide (t = t') then S (cnt t' (delete i l)) else cnt t' (delete i l)).
Proof.
  intros H. apply delete_Permutation in H as E. unfold cnt at 1. rewrite E. by apply cnt_cons.
Qed.

Lemma cnt_find t l : cnt t l ≠ 0%nat → ∃ i, list_find (λ x, x = t) l = Some (i, t) ∧ l !! i = Some t.
Proof.
  intros H. destruct (list_find (λ x, x = t) l) as [[i x]|] eqn:E.
  - apply list_find_Some in E as H'. destruct H' as (Hl & -> & _). by exists i.
  - apply list_find_None in E. exfalso. apply H. unfold cnt.
    induction E as [|x l Hx _ IH]; [done|]. rewrite filter_cons, decide_False by done.
    apply IH. intros Hc. apply H. by rewrite cnt_cons, decide_False.
Qed.

Lemma lock_ok_free l ent t : agrees l ent → ent t = Rwlock.Free → writer l ≠ Some t.
Proof. intros H E Hw. apply (ag_writer _ _ H) in Hw. congruence. Qed.

(** A thread that asks for reading: it gets in unless somebody writes. *)
Lemma rw_rdlock_agrees t w l ent :
  agrees l ent → writer l = None →
  rw_rdlock t w l = Done (0, Rw None (t :: readers l))
  ∧ agrees (Rw None (t :: readers l)) (update t (Rwlock.Reading (S (reads (ent t)))) ent).
Proof.
  intros H Hw. unfold rw_rdlock. rewrite Hw. split; [done|]. unfold update.
  split; cbn [writer readers]; [intros t'|intros t'|done].
  - destruct (decide (t = t')) as [<-|Hn]; [done|]. rewrite <- (ag_writer _ _ H t'), Hw. done.
  - rewrite cnt_cons, (ag_readers _ _ H). by destruct (decide (t = t')) as [<-|].
Qed.

Lemma rw_rdlock_refused t w l r l' :
  writer l ≠ None → rw_rdlock t w l = Done (r, l') → r ≠ 0 ∧ l' = l.
Proof.
  unfold rw_rdlock, refuse. destruct (writer l) as [o|]; [intros _|done].
  destruct w; [destruct (decide (o = t))|..|destruct (decide (o = t))]; by intros [= <- <-].
Qed.

(** A thread that asks for writing gets in if nobody is inside. *)
Lemma rw_wrlock_agrees t w l ent :
  agrees l ent → writer l = None → readers l = [] →
  rw_wrlock t w l = Done (0, Rw (Some t) []) ∧ agrees (Rw (Some t) []) (update t Rwlock.Writing ent).
Proof.
  intros H Hw Hr. unfold rw_wrlock. rewrite Hw, Hr. split; [done|]. unfold update.
  split; cbn [writer readers]; [intros t'|intros t'|done].
  - destruct (decide (t = t')) as [<-|Hn]; [done|]. rewrite <- (ag_writer _ _ H t'), Hw.
    split; [by intros [= ->]|done].
  - destruct (decide (t = t')) as [<-|Hn]; [done|]. by rewrite <- (ag_readers _ _ H), Hr.
Qed.

Lemma rw_wrlock_refused t w l r l' :
  ¬ (writer l = None ∧ readers l = []) → rw_wrlock t w l = Done (r, l') → r ≠ 0 ∧ l' = l.
Proof.
  unfold rw_wrlock, refuse. destruct (writer l) as [o|], (readers l) as [|x rs]; intros Hn; [| |tauto|];
    destruct w; try destruct (decide (o = t)); by intros [= <- <-].
Qed.

(** A thread that leaves. *)
Lemma rw_unlock_writer t l ent :
  agrees l ent → ent t = Rwlock.Writing →
  rw_unlock t l = Done (0, Rw None []) ∧ agrees (Rw None []) (update t Rwlock.Free ent).
Proof.
  intros H E. apply (ag_writer _ _ H) in E as Hw. unfold rw_unlock. rewrite Hw.
  rewrite decide_True by done. assert (Hr : readers l = []) by (apply (ag_alone _ _ H); by rewrite Hw).
  rewrite Hr. split; [done|]. unfold update. split; cbn [writer readers]; [intros t'|intros t'|done].
  - destruct (decide (t = t')) as [<-|Hn]; [done|]. rewrite <- (ag_writer _ _ H t'), Hw.
    split; [done|by intros [= ->]].
  - destruct (decide (t = t')) as [<-|Hn]; [done|]. by rewrite <- (ag_readers _ _ H), Hr.
Qed.

Lemma rw_unlock_reader t l ent n :
  agrees l ent → ent t = Rwlock.Reading (S n) →
  ∃ l', rw_unlock t l = Done (0, l')
    ∧ agrees l' (update t (if decide (n = 0)%nat then Rwlock.Free else Rwlock.Reading n) ent).
Proof.
  intros H E. assert (Hc : cnt t (readers l) = S n) by (by rewrite (ag_readers _ _ H), E).
  destruct (cnt_find t (readers l)) as (i & Hf & Hi); [lia|].
  assert (Hw : writer l = None).
  { destruct (writer l) eqn:Ew; [|done]. pose proof (ag_alone _ _ H) as Hr. rewrite Ew in Hr.
    rewrite Hr in Hi by done. done. }
  unfold rw_unlock. rewrite Hw, Hf. eexists. split; [done|]. unfold update.
  split; cbn [writer readers]; [intros t'|intros t'|done].
  - destruct (decide (t = t')) as [<-|Hn].
    + split; [done|]. by destruct (decide (n = 0)%nat).
    + by rewrite <- (ag_writer _ _ H t'), Hw.
  - pose proof (cnt_delete t t' _ _ Hi) as Hd. rewrite (ag_readers _ _ H) in Hd.
    destruct (decide (t = t')) as [<-|Hn]; [|done]. rewrite E in Hd. cbn [reads] in Hd.
    destruct (decide (n = 0)%nat); cbn [reads]; lia.
Qed.

(** *** A call on the object *)

Definition then_ {A B} (x : outcome (Z * rw)) (f : Z → rw → outcome (A * B)) : outcome (A * B) :=
  match x with
  | Done (r, l) => f r l
  | Aborts => Aborts | Hangs => Hangs | Undefined => Undefined
  end.

Lemma rd_run t tm l st n e :
  Rwlock.cplus_rwlock_rdlock t tm (Rwlock.mkRwlock OBJ_TYPE l st n, e) =
    then_ (rw_rdlock t (wait_of tm) l) (λ r l,
      if 0 =? r then Done (CPLUS_SUCCESS, (Rwlock.mkRwlock OBJ_TYPE l true (u32 (n + 1)), e))
      else Done (CPLUS_FAIL, (Rwlock.mkRwlock OBJ_TYPE l st n, r))).
Proof.
  unfold Rwlock.cplus_rwlock_rdlock, Rwlock.CHECK_OBJECT_TYPE, Rwlock.posix. crun. simpl.
  change (OBJ_TYPE =? Rwlock.OBJ_TYPE) with true. crun.
  destruct (rw_rdlock t (wait_of tm) l) as [[r l']| | |]; [|done..]. simpl.
  by destruct (0 =? r).
Qed.

Lemma wr_run t tm l st n e :
  Rwlock.cplus_rwlock_wrlock t tm (Rwlock.mkRwlock OBJ_TYPE l st n, e) =
    then_ (rw_wrlock t (wait_of tm) l) (λ r l,
      if 0 =? r then Done (CPLUS_SUCCESS, (Rwlock.mkRwlock OBJ_TYPE l true n, e))
      else Done (CPLUS_FAIL, (Rwlock.mkRwlock OBJ_TYPE l st n, r))).
Proof.
  unfold Rwlock.cplus_rwlock_wrlock, Rwlock.CHECK_OBJECT_TYPE, Rwlock.posix. crun. simpl.
  change (OBJ_TYPE =? Rwlock.OBJ_TYPE) with true. crun.
  destruct (rw_wrlock t (wait_of tm) l) as [[r l']| | |]; [|done..]. simpl.
  by destruct (0 =? r).
Qed.

Lemma un_run t l l' n e :
  rw_unlock t l = Done (0, l') → 0 ≤ n ≤ UINT32_MAX →
  Rwlock.cplus_rwlock_unlock t (Rwlock.mkRwlock OBJ_TYPE l true n, e) =
    Done (CPLUS_SUCCESS,
      (Rwlock.mkRwlock OBJ_TYPE l' (negb ((n =? 0) || (n =? 1))) (if n =? 0 then 0 else n - 1), e)).
Proof.
  intros E Hn. unfold UINT32_MAX in Hn.
  unfold Rwlock.cplus_rwlock_unlock, Rwlock.CHECK_OBJECT_TYPE, Rwlock.posix. crun. simpl.
  change (OBJ_TYPE =? Rwlock.OBJ_TYPE) with true. crun. simpl. rewrite E. simpl.
  change (0 =? 0) with true. cbv iota. rewrite (Z.eqb_sym n 0).
  destruct (Z.eqb_spec 0 n) as [<-|H0]; [done|]. unfold Rwlock.upd. crun. simpl.
  rewrite u32_small by lia. rewrite (Z.eqb_sym 0 (n - 1)).
  destruct (Z.eqb_spec (n - 1) 0), (Z.eqb_spec n 1); try lia; done.
Qed.

Definition object (i : nat) (sm : option Sharedmem.shared_mem) (st : bool) (n : Z) : rwlock :=
  mkRwlock OBJ_TYPE (Shared i) st n sm.

Lemma on_lock_run {A} i sm st n c (m : C Rwlock.st A) w :
  memory_at zero i w = Live c →
  on_lock (object i sm st n) m w =
    match m (Rwlock.mkRwlock OBJ_TYPE (lk c) st n, Sharedmem.errno (kern w)) with
    | Done (a, (r, e)) =>
        Done ((a, mkRwlock (Rwlock.type r) (Shared i) (Rwlock.st_locked r) (Rwlock.count_rdlocked r) sm),
              set_kern (Sharedmem.set_errno e (kern w))
                (put i (Live (Cell (Rwlock.lock r) (kind c) (pshared c))) w))
    | Aborts => Aborts | Hangs => Hangs | Undefined => Undefined
    end.
Proof.
  intros E. unfold on_lock, object. cbn [at_ type st_locked count_rdlocked shared_mem].
  rewrite (bind_Done _ _ w c w). 2: { unfold load, deref. by rewrite E. }
  crun. destruct (m _) as [[a [r e]]| | |]; done.
Qed.

Lemma agrees_ext l ent ent' : (∀ t, ent t = ent' t) → agrees l ent → agrees l ent'.
Proof.
  intros H [H1 H2 H3]. split; [intros t; rewrite <- H; apply H1|intros t; rewrite <- H; apply H2|done].
Qed.
Lemma agrees_same l ent t : agrees l ent → agrees l (update t (ent t) ent).
Proof. apply agrees_ext. intros t'. unfold update. by destruct (decide (t = t')) as [->|]. Qed.

(** What is known after a call of thread [t]. *)
Definition stepped (t : nat) (e' : Rwlock.entered) (ent : nat → Rwlock.entered) (i : nat)
    (sm : option Sharedmem.shared_mem) (o : rwlock) (w : world) : Prop :=
  ∃ st n c, o = object i sm st n ∧ memory_at zero i w = Live c
    ∧ fields e' st n ∧ agrees (lk c) (update t e' ent).

Lemma stepped_same t ent i sm st n c w k :
  memory_at zero i w = Live c → fields (ent t) st n → agrees (lk c) ent →
  stepped t (ent t) ent i sm (object i sm st n) (set_kern k (put i (Live c) w)).
Proof.
  intros Hm Hf Ha. exists st, n, c. split_and!; [done|apply memory_at_put|done|by apply agrees_same].
Qed.

Lemma refused_keeps t i sm st n c w r ent k :
  r ≠ CPLUS_SUCCESS → memory_at zero i w = Live c → fields (ent t) st n → agrees (lk c) ent →
  ∀ cl, stepped t (after cl r (ent t)) ent i sm (object i sm st n)
    (set_kern k (put i (Live (Cell (lk c) (kind c) (pshared c))) w)).
Proof.
  intros Hr Hm Hf Ha cl. unfold after. rewrite (proj2 (Z.eqb_neq _ _) Hr).
  destruct c as [l kd ps]. by apply stepped_same.
Qed.

Section step.
Context (i t : nat) (sm : option Sharedmem.shared_mem) (st : bool) (n : Z) (c : cell)
  (ent : nat → Rwlock.entered) (w : world).
Hypothesis Hm : memory_at zero i w = Live c.
Hypothesis Hf : fields (ent t) st n.
Hypothesis Ha : agrees (lk c) ent.
Hypothesis Hb : Z.of_nat (reads (ent t)) < UINT32_MAX.

Lemma rd_step tm r o' w' :
  cplus_rwlock_rdlock t tm (object i sm st n) w = Done ((r, o'), w') →
  stepped t (after Rwlock.Rd r (ent t)) ent i sm o' w'.
Proof using Hm Hf Ha Hb.
  unfold cplus_rwlock_rdlock, checked. change (type (object i sm st n) =? OBJ_TYPE) with true. crun.
  rewrite (on_lock_run _ _ _ _ c), rd_run by done. unfold then_.
  destruct (rw_rdlock t (wait_of tm) (lk c)) as [[q l']| | |] eqn:E; [|done..].
  destruct (writer (lk c)) as [x|] eqn:Ew.
  - apply rw_rdlock_refused in E as [Hq ->]; [|by rewrite Ew].
    destruct (Z.eqb_spec 0 q); [congruence|]. intros [= <- <- <-].
    by apply (refused_keeps _ _ _ _ _ _ _ CPLUS_FAIL).
  - destruct (rw_rdlock_agrees t (wait_of tm) _ _ Ha Ew) as [E' Hag]. rewrite E' in E.
    injection E as <- <-. change (0 =? 0) with true. cbv iota. intros [= <- <- <-].
    destruct Hf as (-> & Hs & He). unfold UINT32_MAX in Hb. eexists true, _, (Cell _ _ _).
    split; [reflexivity|]. split; [apply memory_at_put|]. cbn [lk].
    assert (Hafter : after Rwlock.Rd CPLUS_SUCCESS (ent t) = Rwlock.Reading (S (reads (ent t)))).
    { unfold after. change (CPLUS_SUCCESS =? CPLUS_SUCCESS) with true. cbv iota.
      destruct (ent t) eqn:E; [done| |done]. apply (ag_writer _ _ Ha) in E. congruence. }
    rewrite Hafter. split; [|done]. split_and!; [|done|cbn; lia].
    rewrite u32_small by lia. cbn [reads]. lia.
Qed.

Lemma wr_step tm r o' w' :
  cplus_rwlock_wrlock t tm (object i sm st n) w = Done ((r, o'), w') →
  stepped t (after Rwlock.Wr r (ent t)) ent i sm o' w'.
Proof using Hm Hf Ha Hb.
  unfold cplus_rwlock_wrlock, checked. change (type (object i sm st n) =? OBJ_TYPE) with true. crun.
  rewrite (on_lock_run _ _ _ _ c), wr_run by done. unfold then_.
  destruct (rw_wrlock t (wait_of tm) (lk c)) as [[q l']| | |] eqn:E; [|done..].
  destruct (decide (writer (lk c) = None ∧ readers (lk c) = [])) as [[Ew Er]|Hn].
  - destruct (rw_wrlock_agrees t (wait_of tm) _ _ Ha Ew Er) as [E' Hag]. rewrite E' in E.
    injection E as <- <-. change (0 =? 0) with true. cbv iota. intros [= <- <- <-].
    assert (Hfree : ent t = Rwlock.Free).
    { pose proof (ag_readers _ _ Ha t) as Hr. rewrite Er in Hr. destruct Hf as (_ & _ & He).
      destruct (ent t) eqn:E; [done| |cbn in Hr; lia]. apply (ag_writer _ _ Ha) in E. congruence. }
    destruct Hf as (-> & Hs & _). rewrite Hfree. eexists true, _, (Cell _ _ _).
    split; [reflexivity|]. split; [apply memory_at_put|]. by split.
  - apply rw_wrlock_refused in E as [Hq ->]; [|done].
    destruct (Z.eqb_spec 0 q); [congruence|]. intros [= <- <- <-].
    by apply (refused_keeps _ _ _ _ _ _ _ CPLUS_FAIL).
Qed.

Lemma un_step r o' w' :
  cplus_rwlock_unlock t (object i sm st n) w = Done ((r, o'), w') →
  stepped t (after Rwlock.Un r (ent t)) ent i sm o' w'.
Proof using Hm Hf Ha Hb.
  unfold cplus_rwlock_unlock, checked. change (type (object i sm st n) =? OBJ_TYPE) with true. crun.
  change (st_locked (object i sm st n)) with st. pose proof Hf as (Hn & Hs & He).
  destruct (ent t) as [| |k] eqn:E.
  - destruct st; [by destruct Hs as [Hs _]; specialize (Hs eq_refl)|]. intros [= <- <- <-].
    exists false, n, c. split_and!; [done|done|by rewrite <- E, E|]. rewrite <- E. by apply agrees_same.
  - rewrite (proj2 Hs) by done. cbv iota. rewrite (on_lock_run _ _ _ _ c) by done.
    destruct (rw_unlock_writer t _ _ Ha E) as [Eu Hag]. cbn [reads] in Hn. subst n.
    rewrite (un_run _ _ _ _ _ Eu) by (unfold UINT32_MAX; lia). intros [= <- <- <-].
    exists false, 0, (Cell (Rw None []) (kind c) (pshared c)). split_and!; [done|apply memory_at_put|done|done].
  - rewrite (proj2 Hs) by done. cbv iota. rewrite (on_lock_run _ _ _ _ c) by done.
    destruct k as [|k]; [lia|]. cbn [reads] in Hn, Hb.
    destruct (rw_unlock_reader t _ _ k Ha E) as (l' & Eu & Hag).
    rewrite (un_run _ _ _ _ _ Eu) by lia. intros [= <- <- <-].
    eexists _, _, (Cell l' (kind c) (pshared c)). split; [reflexivity|].
    split; [apply memory_at_put|]. cbn [lk].
    assert (Hafter : after Rwlock.Un CPLUS_SUCCESS (Rwlock.Reading (S k))
      = if decide (k = 0)%nat then Rwlock.Free else Rwlock.Reading k) by (by destruct k).
    rewrite Hafter. split; [|done]. subst n. rewrite (proj2 (Z.eqb_neq _ 0)) by lia.
    destruct (decide (k = 0)%nat) as [->|Hk]; [done|].
    rewrite (proj2 (Z.eqb_neq _ 1)) by lia. split_and!; [cbn [reads]; lia|done|lia].
Qed.

Lemma rw_call_step cl tm r o' w' :
  call_lock t cl tm (object i sm st n) w = Done ((r, o'), w') →
  stepped t (after cl r (ent t)) ent i sm o' w'.
Proof using Hm Hf Ha Hb. destruct cl; [apply rd_step|apply wr_step|apply un_step]. Qed.

End step.

(** *** Runs *)

(** The structures of the threads and the lock they share, when [ent] says who
    is inside. *)
Record shares (i : nat) (objs : gmap nat rwlock) (w : world) (ent : nat → Rwlock.entered) : Prop := {
  sh_cell : ∃ c, memory_at zero i w = Live c ∧ agrees (lk c) ent;
  sh_objs t o : objs !! t = Some o → ∃ sm st n, o = object i sm st n ∧ fields (ent t) st n;
  sh_out t : objs !! t = None → ent t = Rwlock.Free }.

Lemma reads_after c r e : (reads (after c r e) ≤ S (reads e))%nat.
Proof.
  unfold after. destruct (r =? CPLUS_SUCCESS); [|lia].
  destruct c, e as [| |n]; cbn [Rwlock.transition reads]; try lia.
  destruct n as [|[|n]]; cbn [reads]; lia.
Qed.

Lemma shares_call i objs w ent t c tm o r o' w' :
  shares i objs w ent → objs !! t = Some o → Z.of_nat (reads (ent t)) < UINT32_MAX →
  call_lock t c tm o w = Done ((r, o'), w') →
  shares i (<[t := o']> objs) w' (update t (after c r (ent t)) ent).
Proof.
  intros [(cl & Hm & Ha) Ho Hout] Hl Hb E. destruct (Ho _ _ Hl) as (sm & st & n & -> & Hf).
  destruct (rw_call_step _ _ _ _ _ _ _ _ Hm Hf Ha Hb _ _ _ _ _ E)
    as (st' & n' & c' & -> & Hm' & Hf' & Ha').
  split; [by exists c'|..]; intros t'; unfold update; destruct (decide (t = t')) as [<-|Hn].
  - rewrite lookup_insert_eq. intros ? [= <-]. by exists sm, st', n'.
  - rewrite lookup_insert_ne by done. apply Ho.
  - by rewrite lookup_insert_eq.
  - rewrite lookup_insert_ne by done. apply Hout.
Qed.

Lemma rw_run_shares i ls b : ∀ objs w ent log objs' w',
  shares i objs w ent → (∀ t, (reads (ent t) ≤ b)%nat) → Z.of_nat (b + length ls) ≤ UINT32_MAX →
  run ls objs w = Some (log, objs', w') →
  shares i objs' w' (λ t, follow log (ent t) t) ∧ dom objs' = dom objs.
Proof.
  revert b. induction ls as [|[[t c] tm] ls IH]; intros b objs w ent log objs' w' Hs Hr Hb E.
  { by injection E as <- <- <-. }
  cbn [run] in E. destruct (objs !! t) as [o|] eqn:El; [|done].
  destruct (call_lock t c tm o w) as [[[r o'] w1]| | |] eqn:Ec; [|done..].
  destruct (run ls (<[t := o']> objs) w1) as [[[log' objs1] w2]|] eqn:Er; [|done].
  injection E as <- <- <-. cbn [length] in Hb.
  assert (Ht : Z.of_nat (reads (ent t)) < UINT32_MAX) by (specialize (Hr t); lia).
  pose proof (shares_call _ _ _ _ _ _ _ _ _ _ _ Hs El Ht Ec) as Hs'.
  assert (Hb' : ∀ t', (reads (update t (after c r (ent t)) ent t') ≤ S b)%nat).
  { intros t'. unfold update. destruct (decide (t = t')) as [<-|_];
      [pose proof (reads_after c r (ent t)); specialize (Hr t); lia|specialize (Hr t'); lia]. }
  destruct (IH (S b) _ _ _ log' objs1 w2 Hs' Hb' ltac:(lia) Er) as [[Hc Ho Hout] Hd].
  assert (Hf : ∀ t', follow log' (update t (after c r (ent t)) ent t') t'
                   = follow ((t, c, r) :: log') (ent t') t').
  { intros t'. unfold follow. cbn [foldl]. unfold update.
    by destruct (decide (t = t')) as [<-|_]. }
  split; [split|].
  - destruct Hc as (cl & Hm & Ha). exists cl. split; [done|]. by apply (agrees_ext _ _ _ Hf).
  - intros t' o1 H. rewrite <- Hf. by apply Ho.
  - intros t' H. rewrite <- Hf. by apply Hout.
  - rewrite Hd, dom_insert_L. apply elem_of_dom_2 in El. set_solver.
Qed.

Lemma xp_new_run p nm w :
  text nm → zlen nm ≤ 24 → sized nm (kern w) →
  ∃ own i s w', cplus_rwlock_xp_new p no_faults (Some nm) w = Done (Some (shared_lock i s), w')
    ∧ s = memory_of p nm own (kern w)
    ∧ Sharedmem.names (kern w') !! shm_path nm = Some i ∧ sized nm (kern w')
    ∧ cells w' = cells_after own i KIND_NONE w
    ∧ Sharedmem.names (kern w) !! shm_path nm = (if own : bool then None else Some i).
Proof.
  intros Ht Hl Hz. unfold cplus_rwlock_xp_new, with_name, too_long, RWLOCK_NAME_MAX_SIZE, RWLOCK_NAME_PATTERN_SIZE.
  rewrite (proj2 (Z.ltb_ge _ _)) by lia.
  assert (∃ own k', serve p nm (init_mode MODE_HYBRID) (kern w) = Some (own, k')
    ∧ (own = true → Sharedmem.names (kern w) !! shm_path nm = None)) as (own & k' & Hs & Hown).
  { unfold Named.serve. change (init_mode MODE_HYBRID) with INIT_HYBRID. cbv iota.
    destruct (Sharedmem.names (kern w) !! _); by repeat eexists. }
  destruct (rw_named_run p nm MODE_HYBRID KIND_NONE w own k' Ht Hz Hs) as (i & Hn & Hz' & Ho & E).
  exists own, i, (memory_of p nm own (kern w)), (World k' (cells_after own i KIND_NONE w)). split_and!; try done.
  destruct own; auto.
Qed.

Lemma fields_free : fields Rwlock.Free false 0.
Proof. done. Qed.

Lemma rw_join_shares nm i : text nm → zlen nm ≤ 24 → ∀ ps objs w,
  Sharedmem.names (kern w) !! shm_path nm = Some i → sized nm (kern w) →
  shares i objs w (λ _, Rwlock.Free) →
  ∃ objs' w', join nm ps objs w = Some (objs', w') ∧ shares i objs' w' (λ _, Rwlock.Free)
    ∧ dom objs' = dom objs ∪ list_to_set ps.*1.
Proof.
  intros Ht Hl ps. induction ps as [|[t p] ps IH]; intros objs w Hn Hz Hs.
  { exists objs, w. split_and!; [done..|]. set_solver. }
  destruct (xp_new_run p nm w Ht Hl Hz) as (own & i' & s & w1 & E & _ & Hn1 & Hz1 & Hc & Hown).
  rewrite Hn in Hown. destruct own; [done|]. injection Hown as <-.
  cbn [join]. rewrite E.
  destruct (IH (<[t := shared_lock i s]> objs) w1 Hn1 Hz1) as (objs' & w' & Ej & Hs' & Hd).
  { destruct Hs as [(c & Hm & Ha) Ho Hout]. split.
    - exists c. split; [|done]. unfold memory_at in *. by rewrite Hc.
    - intros t' o. destruct (decide (t = t')) as [<-|Hne].
      + rewrite lookup_insert_eq. intros [= <-]. by exists (Some s), false, 0.
      + rewrite lookup_insert_ne by done. apply Ho.
    - done. }
  exists objs', w'. split_and!; [done..|]. rewrite Hd, dom_insert_L. set_solver.
Qed.

Lemma rw_join_new nm ps w :
  text nm → zlen nm ≤ 24 → Sharedmem.names (kern w) !! shm_path nm = None → ps ≠ [] →
  ∃ i objs w', join nm ps ∅ w = Some (objs, w') ∧ shares i objs w' (λ _, Rwlock.Free)
    ∧ dom objs = list_to_set ps.*1.
Proof.
  intros Ht Hl Hn Hps. destruct ps as [|[t p] ps]; [done|].
  assert (Hz : sized nm (kern w)) by (intros i; by rewrite Hn).
  destruct (xp_new_run p nm w Ht Hl Hz) as (own & i & s & w1 & E & _ & Hn1 & Hz1 & Hc & Hown).
  rewrite Hn in Hown. destruct own; [|done].
  destruct (rw_join_shares nm i Ht Hl ps {[t := shared_lock i s]} w1 Hn1 Hz1)
    as (objs & w' & Ej & Hs & Hd).
  { split.
    - exists (Cell rw_idle (asked KIND_NONE) true). unfold memory_at. rewrite Hc. simpl.
      by rewrite lookup_insert_eq.
    - intros t' o H. apply lookup_singleton_Some in H as [<- <-]. by exists (Some s), false, 0.
    - done. }
  exists i, objs, w'. cbn [join]. rewrite E. rewrite insert_empty. split_and!; [done..|].
  rewrite Hd, dom_singleton_L. set_solver.
Qed.

(** A writer that does not wait gets in exactly when nobody is inside. *)
Lemma try_write i objs w ent t :
  shares i objs w ent → t ∈ dom objs →
  ∃ o, objs !! t = Some o ∧
    ((∃ o' w', cplus_rwlock_wrlock t 0 o w = Done ((CPLUS_SUCCESS, o'), w'))
     ↔ ∀ t', ent t' = Rwlock.Free).
Proof.
  intros [(c & Hm & Ha) Ho Hout] Ht. apply elem_of_dom in Ht as [o Hl]. exists o. split; [done|].
  destruct (Ho _ _ Hl) as (sm & st & n & -> & _).
  unfold cplus_rwlock_wrlock, checked. change (type (object i sm st n) =? OBJ_TYPE) with true. crun.
  rewrite (on_lock_run _ _ _ _ c), wr_run by done. unfold then_. change (wait_of 0) with Try. split.
  - intros (o' & w' & E).
    destruct (rw_wrlock t Try (lk c)) as [[q l']| | |] eqn:Eq; [|done..].
    destruct (decide (writer (lk c) = None ∧ readers (lk c) = [])) as [[Ew Er]|Hn].
    + intros t'. destruct (objs !! t') as [o1|] eqn:E1; [|by apply Hout].
      destruct (Ho _ _ E1) as (? & ? & ? & _ & (_ & _ & Hp)).
      pose proof (ag_readers _ _ Ha t') as Hr. rewrite Er in Hr.
      destruct (ent t') eqn:E'; [done| |cbn in Hr; lia]. apply (ag_writer _ _ Ha) in E'. congruence.
    + apply rw_wrlock_refused in Eq as [Hq _]; [|done]. by destruct (Z.eqb_spec 0 q).
  - intros Hfree. assert (Ew : writer (lk c) = None).
    { destruct (writer (lk c)) as [x|] eqn:Ew; [|done]. apply (ag_writer _ _ Ha) in Ew.
      by rewrite Hfree in Ew. }
    assert (Er : readers (lk c) = []).
    { destruct (readers (lk c)) as [|x l] eqn:Er; [done|].
      pose proof (ag_readers _ _ Ha x) as Hr. rewrite Er, Hfree, cnt_cons, decide_True in Hr; done. }
    destruct (rw_wrlock_agrees t Try _ _ Ha Ew Er) as [-> _]. by eexists _, _.
Qed.

(** C23: processes that open one name share one lock.  However many of them
    call [cplus_rwlock_xp_new] with the name, in any order, and whatever they then
    call with whatever timeouts, a thread that was let in for writing is alone:
    every other thread was refused or has left; and a thread that asks to write
    without waiting is let in exactly when nobody is inside. *)
Theorem named_lock_excludes nm ps w :
  text nm → zlen nm ≤ 24 → Sharedmem.names (kern w) !! shm_path nm = None → ps ≠ [] →
  ∃ objs w1, join nm ps ∅ w = Some (objs, w1) ∧
    ∀ ls log objs' w', run ls objs w1 = Some (log, objs', w') → Z.of_nat (length ls) ≤ UINT32_MAX →
      (∀ t t', t ≠ t' → inside log t = Rwlock.Writing → inside log t' = Rwlock.Free)
      ∧ (∀ t, t ∈ ps.*1 → ∃ o, objs' !! t = Some o ∧
           ((∃ o' w2, cplus_rwlock_wrlock t 0 o w' = Done ((CPLUS_SUCCESS, o'), w2))
            ↔ ∀ t', inside log t' = Rwlock.Free)).
Proof.
  intros Ht Hl Hn Hps. destruct (rw_join_new nm ps w Ht Hl Hn Hps) as (i & objs & w1 & Ej & Hs & Hd).
  exists objs, w1. split; [done|]. intros ls log objs' w' Er Hb.
  destruct (rw_run_shares i ls 0 _ _ _ _ _ _ Hs ltac:(done) Hb Er) as [Hs' Hd']. split.
  - intros t t' Hne Hw. destruct Hs' as [(c & Hm & Ha) Ho Hout].
    destruct (objs' !! t') as [o|] eqn:E; [|by apply Hout].
    destruct (Ho _ _ E) as (? & ? & ? & _ & (_ & _ & Hp)).
    apply (ag_writer _ _ Ha) in Hw. pose proof (ag_readers _ _ Ha t') as Hr.
    rewrite (ag_alone _ _ Ha) in Hr by (by rewrite Hw). unfold inside.
    destruct (follow log Rwlock.Free t') eqn:Ei; [done| |cbn in Hr; lia].
    apply (ag_writer _ _ Ha) in Ei. congruence.
  - intros t Hin. apply (try_write i _ _ _ t Hs'). rewrite Hd', Hd. by apply elem_of_list_to_set.
Qed.

Definition empty_world : world := World Sharedmem.empty_kernel ∅.

Lemma named_lock_excludes_witness :
  ∃ objs w1, join Sharedmem.name_log [(1%nat, 101); (2%nat, 102)] ∅ empty_world = Some (objs, w1) ∧
    ∀ ls log objs' w', run ls objs w1 = Some (log, objs', w') → Z.of_nat (length ls) ≤ UINT32_MAX →
      (∀ t t', t ≠ t' → inside log t = Rwlock.Writing → inside log t' = Rwlock.Free)
      ∧ (∀ t, t ∈ [1%nat; 2%nat] → ∃ o, objs' !! t = Some o ∧
           ((∃ o' w2, cplus_rwlock_wrlock t 0 o w' = Done ((CPLUS_SUCCESS, o'), w2))
            ↔ ∀ t', inside log t' = Rwlock.Free)).
Proof.
  apply (named_lock_excludes Sharedmem.name_log [(1%nat, 101); (2%nat, 102)] empty_world);
    [by repeat constructor|vm_compute; congruence|done|done].
Defined.

(** A run of two processes: the second is refused until the first has left. *)
Example two_processes :
  match join Sharedmem.name_log [(1%nat, 101); (2%nat, 102)] ∅ empty_world with
  | Some (objs, w) =>
      option_map (λ x, x.1.1)
        (run [(1%nat, Rwlock.Wr, 0); (2%nat, Rwlock.Rd, 0); (2%nat, Rwlock.Wr, 10);
              (1%nat, Rwlock.Un, 0); (2%nat, Rwlock.Wr, 0)] objs w)
  | None => None
  end = Some [(1%nat, Rwlock.Wr, 0); (2%nat, Rwlock.Rd, -1); (2%nat, Rwlock.Wr, -1);
              (1%nat, Rwlock.Un, 0); (2%nat, Rwlock.Wr, 0)].
Proof. vm_compute. reflexivity. Qed.

(** *** The ends *)

Lemma idle_new k b : idle (Cell rw_idle k b) = true.
Proof. done. Qed.

(** A lock without a name has the kind that was asked for, and its deletion
    leaves nothing behind; one that cannot be initialised leaves nothing either. *)
Theorem unnamed_lock_even me F k w :
  no_memory F = false → attr_fails F = false →
  ∃ r w1, cplus_rwlock_new_config me F (Some (Config None MODE_NONE k)) w = Done (r, w1) ∧ w1 = w
  ∧ match r with
    | Some o => at_ o = Inline (Live (Cell rw_idle (asked k) false))
                ∧ cplus_rwlock_delete me (Some o) w1 = Done (CPLUS_SUCCESS, w)
    | None => init_fails F = true ∨ kind_fails F = true
    end.
Proof.
  intros Hm Hat. unfold cplus_rwlock_new_config, rwlock_initialize_object. rewrite Hm. cbv iota.
  unfold kind_attr, asked. cbn [ckind name mode]. rewrite Hat.
  destruct ((k <? KIND_MAX) && negb (k =? KIND_NONE)); [destruct (kind_fails F) eqn:Ek|].
  - exists None, w. split_and!; [done..|by right].
  - unfold init. destruct (init_fails F) eqn:Ei.
    + exists None, w. split_and!; [done..|by left].
    + by eexists (Some _), w.
  - unfold init. destruct (init_fails F) eqn:Ei.
    + exists None, w. split_and!; [done..|by left].
    + by eexists (Some _), w.
Qed.

(** Opening a name nobody has created answers null with [ENOENT], and keeps no
    memory, descriptor or name. *)
Theorem open_absent_lock p nm w :
  text nm → zlen nm ≤ 24 → Sharedmem.names (kern w) !! shm_path nm = None →
  cplus_rwlock_xp_open p no_faults (Some nm) w =
    Done (None, set_kern (Sharedmem.set_errno ENOENT (kern w)) w).
Proof.
  intros Ht Hl Hn. unfold cplus_rwlock_xp_open, with_name, too_long, RWLOCK_NAME_MAX_SIZE, RWLOCK_NAME_PATTERN_SIZE.
  rewrite (proj2 (Z.ltb_ge _ _)) by lia.
  unfold rwlock_initialize_object. change (no_memory no_faults) with false. cbv iota.
  change (kind_attr no_faults _) with (Some (None (A := attr))). cbn [name mode].
  change (negb (MODE_OPEN =? MODE_NONE)) with true. cbv iota beta.
  rewrite (bind_Done _ _ _ _ _ (name_buffer_run _ _ _)).
  pose proof (shm_name_fits _ _ rw_pattern_text Ht) as Hf.
  assert (E : open_shared p Sharedmem.no_faults Sharedmem.no_faults sizeof_named_rwlock
      (Named.printed RWLOCK_NAME_PATTERN nm) INIT_OPEN w
    = Done (None, set_kern (Sharedmem.set_errno ENOENT (kern w)) w)).
  { unfold open_shared. rewrite (bind_Done _ _ w (shm_name RWLOCK_NAME_PATTERN nm) w).
    2: { unfold deref, Named.printed. rewrite cstr_app by apply Hf. done. }
    unfold shm, Sharedmem.cplus_sharedmem_open. rewrite Sharedmem.fits_ok by done. cbn [negb].
    by rewrite Sharedmem.sharedmem_open_absent by (apply Hf || done). }
  by rewrite (bind_Done _ _ _ _ _ E).
Qed.

(** Code bug: without memory for the structure the constructors do not answer
    null: the error path deletes the null pointer, whose type is asserted. *)
Theorem lock_without_memory_aborts me F c w :
  no_memory F = true → cplus_rwlock_new_config me F (Some c) w = Aborts.
Proof.
  intros H. unfold cplus_rwlock_new_config, rwlock_initialize_object. rewrite H. done.
Qed.

Lemma long_path nm c : zlen nm = 23 → shm_name RWLOCK_NAME_PATTERN (nm ++ [c]) = shm_name RWLOCK_NAME_PATTERN nm.
Proof.
  intros H. unfold shm_name. rewrite app_assoc, take_app_le; [done|].
  rewrite length_app. unfold zlen in H. simpl. lia.
Qed.

(** Code bug: names of 24 bytes pass the check on their length, but the last
    byte is not printed: two locks whose names differ only there are one. *)
Theorem long_lock_names_collide p q nm c1 c2 w :
  text (nm ++ [c1]) → text (nm ++ [c2]) → zlen nm = 23 →
  Sharedmem.names (kern w) !! shm_path nm = None →
  ∃ i s1 s2 w1 w2, cplus_rwlock_xp_new p no_faults (Some (nm ++ [c1])) w = Done (Some (shared_lock i s1), w1)
  ∧ cplus_rwlock_xp_new q no_faults (Some (nm ++ [c2])) w1 = Done (Some (shared_lock i s2), w2).
Proof.
  intros H1 H2 Hl Hn.
  assert (Hp : ∀ c, shm_path (nm ++ [c]) = shm_path nm)
    by (intros c; unfold Named.shm_path; by rewrite long_path).
  assert (Hlen : ∀ c, zlen (nm ++ [c]) ≤ 24) by (intros c; unfold zlen in *; rewrite length_app; simpl; lia).
  assert (Hz : sized (nm ++ [c1]) (kern w)) by (intros i; by rewrite Hp, Hn).
  destruct (xp_new_run p _ w H1 (Hlen _) Hz) as (own & i & s & w1 & E & _ & Hn1 & Hz1 & _ & _).
  assert (Hz2 : sized (nm ++ [c2]) (kern w1)).
  { intros j. rewrite Hp, <- (Hp c1). apply Hz1. }
  destruct (xp_new_run q _ w1 H2 (Hlen _) Hz2) as (own2 & i2 & s2 & w2 & E2 & _ & _ & _ & _ & Ho).
  rewrite Hp, <- (Hp c1), Hn1 in Ho. destruct own2; [done|]. injection Ho as <-.
  by exists i, s, s2, w1, w2.
Qed.

(** The deletion of a shared lock by the process that made it. *)
Lemma delete_owner_run p nm k0 i w c :
  text nm → is_Some (Sharedmem.names (kern w) !! shm_path nm) → memory_at zero i w = Live c →
  if idle c
  then ∃ w', cplus_rwlock_delete p (Some (shared_lock i (memory_of p nm true k0))) w = Done (CPLUS_SUCCESS, w')
       ∧ memory_at zero i w' = Destroyed
  else cplus_rwlock_delete p (Some (shared_lock i (memory_of p nm true k0))) w = Undefined.
Proof.
  intros Ht Hn Hm. unfold cplus_rwlock_delete, delete_memory, shared_lock, release. crun.
  cbn [type at_ shared_mem]. change (OBJ_TYPE =? OBJ_TYPE) with true. cbv beta iota.
  rewrite is_owner_run. cbv beta iota. rewrite Hm. unfold destroy. destruct (idle c); [|done].
  crun. unfold shm, Named.made. rewrite Sharedmem.delete_run.
  - eexists. split; [done|]. apply memory_at_put.
  - apply (shm_name_fits _ _ rw_pattern_text Ht).
  - pose proof (Sharedmem.lowest_fd_free p (Sharedmem.fds k0)). unfold Sharedmem.INVALID_FD. lia.
  - done.
Qed.

(** Code bug: the process that made the lock destroys it when it deletes its
    object, although others still have it mapped: their next call is made on a
    destroyed lock, and if one of them is inside the deletion itself is
    undefined. *)
Theorem deletion_breaks_sharers p q nm t tm w :
  text nm → zlen nm ≤ 24 → Sharedmem.names (kern w) !! shm_path nm = None → p ≠ q →
  ∃ o1 o2 w1 w2 w3, cplus_rwlock_xp_new p no_faults (Some nm) w = Done (Some o1, w1)
  ∧ cplus_rwlock_xp_new q no_faults (Some nm) w1 = Done (Some o2, w2)
  ∧ cplus_rwlock_delete p (Some o1) w2 = Done (CPLUS_SUCCESS, w3)
  ∧ cplus_rwlock_wrlock t tm o2 w3 = Undefined
  ∧ ∃ o2' w2', cplus_rwlock_wrlock t 0 o2 w2 = Done ((CPLUS_SUCCESS, o2'), w2')
    ∧ cplus_rwlock_delete p (Some o1) w2' = Undefined.
Proof.
  intros Ht Hl Hn Hpq.
  assert (Hz : sized nm (kern w)) by (intros j; by rewrite Hn).
  destruct (xp_new_run p nm w Ht Hl Hz) as (own & i & s & w1 & E1 & Hs & Hn1 & Hz1 & Hc & Hown).
  rewrite Hn in Hown. destruct own; [|done].
  destruct (xp_new_run q nm w1 Ht Hl Hz1) as (own2 & i2 & s2 & w2 & E2 & _ & Hn2 & Hz2 & Hc2 & Hown2).
  rewrite Hn1 in Hown2. destruct own2; [done|]. injection Hown2 as <-.
  set (c := Cell rw_idle (asked KIND_NONE) true).
  assert (Hm : memory_at zero i w2 = Live c)
    by (unfold memory_at; rewrite Hc2; simpl; rewrite Hc; simpl; by rewrite lookup_insert_eq).
  subst s. pose proof (delete_owner_run p nm (kern w) i w2 c Ht ltac:(by eexists) Hm) as (w3 & E3 & Hm3).
  eexists _, _, w1, w2, w3. split; [exact E1|]. split; [exact E2|]. split; [exact E3|]. split.
  - unfold cplus_rwlock_wrlock, checked, on_lock, load. cbn [at_ shared_lock].
    change (type (shared_lock i s2) =? OBJ_TYPE) with true. crun. by rewrite Hm3.
  - unfold cplus_rwlock_wrlock, checked. change (type (shared_lock i s2) =? OBJ_TYPE) with true.
    change (shared_lock i s2) with (object i (Some s2) false 0). crun.
    rewrite (on_lock_run _ _ _ _ c), wr_run by done. eexists _, _. split; [reflexivity|].
    apply (delete_owner_run p nm (kern w) i _ (Cell (Rw (Some t) []) (kind c) (pshared c)) Ht).
    + by eexists.
    + apply memory_at_put.
Qed.

Definition name_23 : list Z := replicate 23 120.

Lemma unnamed_lock_even_witness :
  ∃ r w1, cplus_rwlock_new_config 1 no_faults (Some (Config None MODE_NONE KIND_PREFER_WRITER)) empty_world
      = Done (r, w1) ∧ w1 = empty_world
  ∧ match r with
    | Some o => at_ o = Inline (Live (Cell rw_idle (asked KIND_PREFER_WRITER) false))
                ∧ cplus_rwlock_delete 1 (Some o) w1 = Done (CPLUS_SUCCESS, empty_world)
    | None => init_fails no_faults = true ∨ kind_fails no_faults = true
    end.
Proof. by apply (unnamed_lock_even 1 no_faults KIND_PREFER_WRITER empty_world). Defined.

Lemma open_absent_lock_witness :
  cplus_rwlock_xp_open 1 no_faults (Some Sharedmem.name_log) empty_world =
    Done (None, set_kern (Sharedmem.set_errno ENOENT (kern empty_world)) empty_world).
Proof. apply open_absent_lock; [by repeat constructor|vm_compute; congruence|done]. Defined.

Lemma lock_without_memory_aborts_witness :
  cplus_rwlock_new_config 1
    (Faults true false false false false false Sharedmem.no_faults Sharedmem.no_faults)
    (Some (Config None MODE_NONE KIND_NONE)) empty_world = Aborts.
Proof. by apply lock_without_memory_aborts. Defined.

Lemma long_lock_names_collide_witness :
  ∃ i s1 s2 w1 w2,
    cplus_rwlock_xp_new 1 no_faults (Some (name_23 ++ [97])) empty_world = Done (Some (shared_lock i s1), w1)
  ∧ cplus_rwlock_xp_new 2 no_faults (Some (name_23 ++ [98])) w1 = Done (Some (shared_lock i s2), w2).
Proof.
  apply (long_lock_names_collide 1 2 name_23 97 98 empty_world);
    [by repeat constructor|by repeat constructor|done|done].
Defined.

Lemma deletion_breaks_sharers_witness :
  ∃ o1 o2 w1 w2 w3, cplus_rwlock_xp_new 1 no_faults (Some Sharedmem.name_log) empty_world = Done (Some o1, w1)
  ∧ cplus_rwlock_xp_new 2 no_faults (Some Sharedmem.name_log) w1 = Done (Some o2, w2)
  ∧ cplus_rwlock_delete 1 (Some o1) w2 = Done (CPLUS_SUCCESS, w3)
  ∧ cplus_rwlock_wrlock 7 0 o2 w3 = Undefined
  ∧ ∃ o2' w2', cplus_rwlock_wrlock 7 0 o2 w2 = Done ((CPLUS_SUCCESS, o2'), w2')
    ∧ cplus_rwlock_delete 1 (Some o1) w2' = Undefined.
Proof.
  apply (deletion_breaks_sharers 1 2 Sharedmem.name_log 7 0 empty_world);
    [by repeat constructor|vm_compute; congruence|done|done].
Defined.

End RwlockShare.

(** ** Mutexes *)
Module MutexShare.
Import MutexNew.

Lemma mx_pattern_text : text MUTEX_NAME_PATTERN.
Proof. by repeat constructor. Qed.

Lemma mx_size_fine : 1 ≤ sizeof_named_mutex ≤ Sharedmem.SHAREDMEM_MAX_SIZE.
Proof. unfold sizeof_named_mutex, Sharedmem.SHAREDMEM_MAX_SIZE, Sharedmem.GB. lia. Qed.

Notation serve me nm := (Named.serve me MUTEX_NAME_PATTERN nm sizeof_named_mutex).
Notation sized nm := (Named.sized MUTEX_NAME_PATTERN nm sizeof_named_mutex).
Notation memory_of me nm := (Named.made me MUTEX_NAME_PATTERN nm sizeof_named_mutex).
Notation shm_path nm := (Named.shm_path MUTEX_NAME_PATTERN nm).

Definition object (i : nat) (s : option Sharedmem.shared_mem) : mutex := mkMutex OBJ_TYPE (Shared i) s.

Definition cells_after (own : bool) (i : nat) (w : world) : gmap nat (memory cell) :=
  if own then <[i := Live (Cell None true)]> (cells w) else cells w.

Lemma mx_named_run me nm mode w own k' :
  text nm → sized nm (kern w) → serve me nm mode (kern w) = Some (own, k') →
  ∃ i, Sharedmem.names k' !! shm_path nm = Some i ∧ sized nm k'
    ∧ Sharedmem.names (kern w) !! shm_path nm = (if own : bool then None else Some i)
    ∧ mutex_initialize_object me no_faults (Some nm) mode w =
        Done (Some (object i (Some (memory_of me nm own (kern w)))), World k' (cells_after own i w)).
Proof.
  intros Ht Hz Hs. destruct (serve_names _ _ _ _ _ _ _ _ Hs Hz) as (i & Hn & Hz' & Ho & Hm).
  exists i. split; [done|]. split; [done|]. split; [destruct own; tauto|].
  unfold mutex_initialize_object. change (no_memory no_faults) with false. cbv iota.
  rewrite (bind_Done _ _ _ _ _ (name_buffer_run _ _ _)).
  rewrite (bind_Done _ _ _ _ _
    (open_shared_run _ _ _ _ _ _ _ _ mx_pattern_text Ht mx_size_fine Hz Hs)).
  unfold shared_init.
  rewrite (bind_Done _ _ (set_kern k' w) i (set_kern k' w)).
  2: { unfold deref, inode_of, Named.made, Sharedmem.made. cbn [Sharedmem.addr set_kern kern].
       by rewrite Hm. }
  rewrite (bind_Done _ _ _ _ _ (is_owner_run _ _ _ _ _ _ _)).
  unfold cells_after. by destruct own, w.
Qed.

Lemma new_xp_run p nm w :
  text nm → zlen nm ≤ 25 → sized nm (kern w) →
  ∃ own i s w', cplus_mutex_new_xp p no_faults (Some nm) w = Done (Some (object i (Some s)), w')
    ∧ Sharedmem.names (kern w') !! shm_path nm = Some i ∧ sized nm (kern w')
    ∧ cells w' = cells_after own i w
    ∧ Sharedmem.names (kern w) !! shm_path nm = (if own : bool then None else Some i).
Proof.
  intros Ht Hl Hz. unfold cplus_mutex_new_xp, with_name, too_long, MUTEX_NAME_MAX_SIZE, MUTEX_NAME_PATTERN_SIZE.
  rewrite (proj2 (Z.ltb_ge _ _)) by lia.
  assert (∃ own k', serve p nm INIT_HYBRID (kern w) = Some (own, k')) as (own & k' & Hs).
  { unfold Named.serve. destruct (Sharedmem.names (kern w) !! _); by repeat eexists. }
  destruct (mx_named_run p nm INIT_HYBRID w own k' Ht Hz Hs) as (i & Hn & Hz' & Ho & E).
  exists own, i, (memory_of p nm own (kern w)), (World k' (cells_after own i w)). by split_and!.
Qed.

(** *** Processes that open one name *)

Fixpoint join (nm : list Z) (ps : list (nat * Z)) (objs : gmap nat mutex) (w : world) :
    option (gmap nat mutex * world) :=
  match ps with
  | [] => Some (objs, w)
  | (t, p) :: ps =>
      match cplus_mutex_new_xp p no_faults (Some nm) w with
      | Done (Some o, w) => join nm ps (<[t := o]> objs) w
      | _ => None
      end
  end.

Inductive call := Lock (timeout : Z) | Unlock | Enter | Exit.
Definition call_mutex (t : nat) (c : call) : mutex → C world (Z * mutex) :=
  match c with
  | Lock timeout => cplus_mutex_lock t timeout
  | Unlock => cplus_mutex_unlock t
  | Enter => cplus_crit_sect_enter t
  | Exit => cplus_crit_sect_exit t
  end.

(** A run of calls that are defined: no thread unlocks what it does not hold. *)
Fixpoint run (ls : list (nat * call)) (objs : gmap nat mutex) (w : world) :
    option (list (nat * call * Z) * gmap nat mutex * world) :=
  match ls with
  | [] => Some ([], objs, w)
  | (t, c) :: ls =>
      match objs !! t with
      | None => None
      | Some o =>
          match call_mutex t c o w with
          | Done (r, o, w) =>
              match run ls (<[t := o]> objs) w with
              | Some (log, objs, w) => Some ((t, c, r) :: log, objs, w)
              | None => None
              end
          | _ => None
          end
      end
  end.

(** Who holds the mutex, from the answers. *)
Definition after (t : nat) (c : call) (r : Z) (h : option nat) : option nat :=
  if r =? CPLUS_SUCCESS
  then match c with Lock _ | Enter => Some t | Unlock | Exit => None end
  else h.
Definition holder (log : list (nat * call * Z)) (h : option nat) : option nat :=
  foldl (λ h '(t, c, r), after t c r h) h log.

Record shares (i : nat) (objs : gmap nat mutex) (w : world) (h : option nat) : Prop := {
  sh_cell : ∃ b, memory_at zero i w = Live (Cell h b);
  sh_objs t o : objs !! t = Some o → ∃ s, o = object i s }.

Lemma on_mutex_run i s h b (m : C Mutex.st Z) w :
  memory_at zero i w = Live (Cell h b) →
  on_mutex (object i s) m w =
    match m (Mutex.mkMutex OBJ_TYPE h, Sharedmem.errno (kern w)) with
    | Done (a, (r, e)) =>
        Done ((a, object i s),
              set_kern (Sharedmem.set_errno e (kern w)) (put i (Live (Cell (Mutex.lock r) b)) w))
    | Aborts => Aborts | Hangs => Hangs | Undefined => Undefined
    end.
Proof.
  intros E. unfold on_mutex, object. cbn [at_ type shared_mem].
  rewrite (bind_Done _ _ w (Cell h b) w). 2: { unfold load, deref. by rewrite E. }
  crun. cbn [owner pshared]. destruct (m _) as [[a [r e]]| | |]; done.
Qed.

(** What a call does to the mutex. *)
Lemma mx_call_step t c i s h b r o' w w' :
  memory_at zero i w = Live (Cell h b) → call_mutex t c (object i s) w = Done ((r, o'), w') →
  o' = object i s ∧ memory_at zero i w' = Live (Cell (after t c r h) b)
  ∧ (∀ tm, c = Lock tm → r = CPLUS_SUCCESS → h = None).
Proof.
  intros Hm.
  destruct c as [tm| | |]; cbn [call_mutex];
    unfold cplus_mutex_lock, cplus_mutex_unlock, cplus_crit_sect_enter, cplus_crit_sect_exit;
    change (type (object i s) =? OBJ_TYPE) with true; crun;
    rewrite (on_mutex_run _ _ h b) by done;
    unfold Mutex.cplus_mutex_lock, Mutex.cplus_mutex_unlock, Mutex.cplus_crit_sect_enter,
      Mutex.cplus_crit_sect_exit, Mutex.CHECK_OBJECT_TYPE, Mutex.posix, mutex_lock, mutex_unlock, refuse;
    crun; simpl; change (OBJ_TYPE =? Mutex.OBJ_TYPE) with true; crun; cbn [Mutex.lock fst];
    (destruct h as [x|]; [first [destruct (wait_of tm)|destruct (decide (x = t))|idtac]|]; simpl;
     intros E; simplify_eq; (split; [done|split; [apply memory_at_put|done]])).
Qed.

Lemma mx_run_shares i ls : ∀ objs w h log objs' w',
  shares i objs w h → run ls objs w = Some (log, objs', w') →
  shares i objs' w' (holder log h) ∧ dom objs' = dom objs.
Proof.
  induction ls as [|[t c] ls IH]; intros objs w h log objs' w' Hs E; [by injection E as <- <- <-|].
  cbn [run] in E. destruct (objs !! t) as [o|] eqn:El; [|done].
  destruct (call_mutex t c o w) as [[[r o'] w1]| | |] eqn:Ec; [|done..].
  destruct (run ls (<[t := o']> objs) w1) as [[[log' objs1] w2]|] eqn:Er; [|done].
  injection E as <- <- <-. destruct Hs as [(b & Hm) Ho]. destruct (Ho _ _ El) as (s & ->).
  destruct (mx_call_step _ _ _ _ _ _ _ _ _ _ Hm Ec) as (-> & Hm' & _).
  rewrite insert_id in Er by done.
  apply (IH objs w1 (after t c r h) log' objs1 w2); [|done]. split; [by exists b|done].
Qed.

Lemma mx_join_shares nm i : text nm → zlen nm ≤ 25 → ∀ ps objs w,
  Sharedmem.names (kern w) !! shm_path nm = Some i → sized nm (kern w) → shares i objs w None →
  ∃ objs' w', join nm ps objs w = Some (objs', w') ∧ shares i objs' w' None
    ∧ dom objs' = dom objs ∪ list_to_set ps.*1.
Proof.
  intros Ht Hl ps. induction ps as [|[t p] ps IH]; intros objs w Hn Hz Hs.
  { exists objs, w. split_and!; [done..|]. set_solver. }
  destruct (new_xp_run p nm w Ht Hl Hz) as (own & i' & s & w1 & E & Hn1 & Hz1 & Hc & Hown).
  rewrite Hn in Hown. destruct own; [done|]. injection Hown as <-.
  cbn [join]. rewrite E.
  destruct (IH (<[t := object i (Some s)]> objs) w1 Hn1 Hz1) as (objs' & w' & Ej & Hs' & Hd).
  { destruct Hs as [(b & Hm) Ho]. split.
    - exists b. unfold memory_at in *. by rewrite Hc.
    - intros t' o. destruct (decide (t = t')) as [<-|Hne].
      + rewrite lookup_insert_eq. intros [= <-]. by exists (Some s).
      + rewrite lookup_insert_ne by done. apply Ho. }
  exists objs', w'. split_and!; [done..|]. rewrite Hd, dom_insert_L. set_solver.
Qed.

Lemma mx_join_new nm ps w :
  text nm → zlen nm ≤ 25 → Sharedmem.names (kern w) !! shm_path nm = None → ps ≠ [] →
  ∃ i objs w', join nm ps ∅ w = Some (objs, w') ∧ shares i objs w' None
    ∧ dom objs = list_to_set ps.*1.
Proof.
  intros Ht Hl Hn Hps. destruct ps as [|[t p] ps]; [done|].
  assert (Hz : sized nm (kern w)) by (intros i; by rewrite Hn).
  destruct (new_xp_run p nm w Ht Hl Hz) as (own & i & s & w1 & E & Hn1 & Hz1 & Hc & Hown).
  rewrite Hn in Hown. destruct own; [|done].
  destruct (mx_join_shares nm i Ht Hl ps {[t := object i (Some s)]} w1 Hn1 Hz1)
    as (objs & w' & Ej & Hs & Hd).
  { split.
    - exists true. unfold memory_at. rewrite Hc. simpl. by rewrite lookup_insert_eq.
    - intros t' o H. apply lookup_singleton_Some in H as [<- <-]. by exists (Some s). }
  exists i, objs, w'. cbn [join]. rewrite E, insert_empty. split_and!; [done..|].
  rewrite Hd, dom_singleton_L. set_solver.
Qed.

(** Processes that open a mutex by one name exclude each other: in every run of
    defined calls a thread takes the mutex only when the last that took it has
    left, and whenever nobody holds it a thread that does not wait gets it. *)
Theorem named_mutex_excludes nm ps w :
  text nm → zlen nm ≤ 25 → Sharedmem.names (kern w) !! shm_path nm = None → ps ≠ [] →
  ∃ objs w1, join nm ps ∅ w = Some (objs, w1) ∧
    ∀ ls log objs' w', run ls objs w1 = Some (log, objs', w') →
      ∀ t, t ∈ ps.*1 → ∃ o, objs' !! t = Some o ∧
        ((∃ o' w2, cplus_mutex_lock t 0 o w' = Done ((CPLUS_SUCCESS, o'), w2)) ↔ holder log None = None).
Proof.
  intros Ht Hl Hn Hps. destruct (mx_join_new nm ps w Ht Hl Hn Hps) as (i & objs & w1 & Ej & Hs & Hd).
  exists objs, w1. split; [done|]. intros ls log objs' w' Er t Hin.
  destruct (mx_run_shares i ls _ _ _ _ _ _ Hs Er) as [[(b & Hm) Ho] Hd'].
  assert (is_Some (objs' !! t)) as [o E]
    by (apply elem_of_dom; rewrite Hd', Hd; by apply elem_of_list_to_set).
  exists o. split; [done|]. destruct (Ho _ _ E) as (s & ->). split.
  - intros (o' & w2 & Ec).
    by apply (mx_call_step t (Lock 0) _ _ _ _ _ _ _ _ Hm) in Ec as (_ & _ & H); apply (H 0).
  - intros Hh. rewrite Hh in Hm. unfold cplus_mutex_lock.
    change (type (object i s) =? OBJ_TYPE) with true. crun.
    rewrite (on_mutex_run _ _ None b) by done. by eexists _, _.
Qed.

Definition empty_world : world := World Sharedmem.empty_kernel ∅.

Lemma named_mutex_excludes_witness :
  ∃ objs w1, join Sharedmem.name_log [(1%nat, 101); (2%nat, 102)] ∅ empty_world = Some (objs, w1) ∧
    ∀ ls log objs' w', run ls objs w1 = Some (log, objs', w') →
      ∀ t, t ∈ [1%nat; 2%nat] → ∃ o, objs' !! t = Some o ∧
        ((∃ o' w2, cplus_mutex_lock t 0 o w' = Done ((CPLUS_SUCCESS, o'), w2)) ↔ holder log None = None).
Proof.
  apply (named_mutex_excludes Sharedmem.name_log [(1%nat, 101); (2%nat, 102)] empty_world);
    [by repeat constructor|vm_compute; congruence|done|done].
Defined.

End MutexShare.
