(* ===== verification/Semaphore.v ===== *)
(** * Semaphore: counting semaphores (src/semaphore.c)

    Module [Semaphore] is one semaphore used by a fixed number of threads: the
    value, and where each thread is in its call.  The steps are the calls of the
    operating system, so pushing several units takes several of them.  Module
    [Make] holds the constructors, with the semaphores of the system by name. *)

From S2P Require Import Prelude Zlist Stdio Memmgr Systime.
From stdpp Require Import base numbers list option gmap.
From Stdlib Require Import ZArith Lia.
Import Stdio Memmgr Systime.
Open Scope Z_scope.

Definition SEMVMX : Z := 32767.
Definition SEM_VALUE_MAX : Z := 2147483647.
Definition EOVERFLOW : Z := 75.

Module Semaphore.

Definition OBJ_TYPE : Z := OBJ_NONE + CTRL + 2.
Definition SEMAPHORE_MAX_VALUE : Z := SEMVMX.

(** ** Threads *)

Inductive call := Push (count : Z) | WaitPoll (timeout : Z) | GetValue.

Record result := Result { ret : Z; err : option Z }.
#[export] Instance result_eq_dec : EqDecision result.
Proof. solve_decision. Defined.

(** Outside; at the first step of a call; in the loop of [push] with [rest]
    units of [count] to go; in [sem_wait] or [sem_timedwait]; back; or ended by
    the assertion on the type. *)
Inductive pc :=
| Idle
| Entering (c : call)
| Posting (count rest : Z)
| Blocked (timeout : Z) (deadline : option timespec)
| Returned (c : call) (r : result)
| Crashed.

Record world := World {
  type : Z;
  value : Z;                 (* of the semaphore [psem] points to *)
  threads : list pc;
  now : Z }.                 (* the wall clock, in microseconds *)

Definition set_thread (t : nat) (p : pc) (w : world) : world :=
  World (type w) (value w) (<[t := p]> (threads w)) (now w).
Definition set_value (v : Z) (w : world) : world := World (type w) v (threads w) (now w).

(** ** The calls *)

(** The checks of [cplus_semaphore_push], given what [sem_getvalue] read. *)
Definition push_refused (value count : Z) : bool :=
  let remain := s32 (SEMAPHORE_MAX_VALUE - value) in
  (SEMAPHORE_MAX_VALUE <? remain) || ((count <? 1) || (remain <? count)).

(** [sem_post]. *)
Definition sem_post (v : Z) : Z * Z := if v <? SEM_VALUE_MAX then (0, v + 1) else (-1, v).

(** The first step of a call.  [cplus_semaphore_wait_poll] asks the clock for
    its deadline before it waits. *)
Definition enter (t : nat) (c : call) (w : world) : world :=
  if negb (type w =? OBJ_TYPE) then set_thread t Crashed w
  else
    match c with
    | Push count =>
        if push_refused (value w) count
        then set_thread t (Returned c (Result (-1) (Some EINVAL))) w
        else set_thread t (Posting count count) w
    | GetValue => set_thread t (Returned c (Result (value w) None)) w
    | WaitPoll timeout =>
        if 0 =? timeout then
          if 0 <? value w
          then set_thread t (Returned c (Result 0 None)) (set_value (value w - 1) w)
          else set_thread t (Returned c (Result (-1) (Some EAGAIN))) w
        else if CPLUS_INFINITE_TIMEOUT =? timeout then set_thread t (Blocked timeout None) w
        else
          set_thread t (Blocked timeout (snd (cplus_systime_get_abstime_after_msec
            (Some (Timeval (now w `div` 1000000) (now w `mod` 1000000))) timeout))) w
    end.

(** A turn of [while ((count --) > 0)]. *)
Definition post (t : nat) (count rest : Z) (w : world) : world :=
  if 0 <? rest then
    let '(res, v) := sem_post (value w) in
    if negb (0 =? res)
    then set_thread t (Returned (Push count) (Result CPLUS_FAIL (Some EOVERFLOW))) w
    else set_thread t (Posting count (rest - 1)) (set_value v w)
  else set_thread t (Returned (Push count) (Result CPLUS_SUCCESS None)) w.

Inductive label :=
| Call (t : nat) (c : call)
| Move (t : nat)
| Expire (t : nat)
| Interrupt (t : nat)
| Tick (us : Z).

Definition exec (l : label) (w : world) : option world :=
  match l with
  | Call t c =>
      match threads w !! t with
      | Some Idle | Some (Returned _ _) => Some (set_thread t (Entering c) w)
      | _ => None
      end
  | Move t =>
      match threads w !! t with
      | Some (Entering c) => Some (enter t c w)
      | Some (Posting count rest) => Some (post t count rest w)
      | Some (Blocked timeout d) =>
          if 0 <? value w
          then Some (set_thread t (Returned (WaitPoll timeout) (Result 0 None))
                       (set_value (value w - 1) w))
          else None
      | _ => None
      end
  | Expire t =>
      match threads w !! t with
      | Some (Blocked timeout (Some d)) =>
          if (value w =? 0) && (ns_of d <=? now w * 1000)
          then Some (set_thread t (Returned (WaitPoll timeout) (Result (-1) (Some ETIMEDOUT))) w)
          else None
      | _ => None
      end
  | Interrupt t =>
      match threads w !! t with
      | Some (Blocked timeout _) =>
          Some (set_thread t (Returned (WaitPoll timeout) (Result (-1) (Some EINTR))) w)
      | _ => None
      end
  | Tick us => if 0 <? us then Some (World (type w) (value w) (threads w) (now w + us)) else None
  end.

Definition thread_of (l : label) : option nat :=
  match l with Call t _ | Move t | Expire t | Interrupt t => Some t | Tick _ => None end.

(** The call a step completes. *)
Definition completed (l : label) (w' : world) : list (call * result) :=
  match thread_of l with
  | Some t => match threads w' !! t with Some (Returned c r) => [(c, r)] | _ => [] end
  | None => []
  end.

Fixpoint run (ls : list label) (w : world) : option (world * list (call * result)) :=
  match ls with
  | [] => Some (w, [])
  | l :: ls =>
      w' ← exec l w;
      '(w'', log) ← run ls w';
      Some (w'', completed l w' ++ log)
  end.

(** A new semaphore, and [n] threads. *)
Definition start (init : Z) (n : nat) (time : Z) : world :=
  World OBJ_TYPE init (replicate n Idle) time.

(** ** Accounting

    What the calls that returned have put in and taken out, what a thread in the
    loop of [push] has put in so far, and what it may still put in. *)

Definition put_in (x : call * result) : Z :=
  match x with (Push count, r) => if ret r =? 0 then count else 0 | _ => 0 end.
Definition taken_out (x : call * result) : Z :=
  match x with (WaitPoll _, r) => if ret r =? 0 then 1 else 0 | _ => 0 end.

Fixpoint total {A} (f : A → Z) (l : list A) : Z :=
  match l with [] => 0 | x :: l => f x + total f l end.

Definition so_far (p : pc) : Z := match p with Posting count rest => count - rest | _ => 0 end.

Lemma total_app {A} (f : A → Z) l1 l2 : total f (l1 ++ l2) = total f l1 + total f l2.
Proof. induction l1; simpl; lia. Qed.

Lemma total_insert {A} (f : A → Z) l i x y :
  l !! i = Some x → total f (<[i := y]> l) = total f l - f x + f y.
Proof.
  revert i. induction l as [|z l IH]; intros [|i]; simpl; try done.
  - intros [= ->]. lia.
  - intros H. rewrite (IH i) by done. lia.
Qed.

Lemma total_replicate {A} (f : A → Z) n x : f x = 0 → total f (replicate n x) = 0.
Proof. intros H. induction n; simpl; lia. Qed.

Definition to_go (p : pc) : Z := match p with Posting _ rest => rest | _ => 0 end.

(** A thread in the loop has passed the checks. *)
Definition pc_ok (p : pc) : Prop :=
  match p with Posting count rest => 0 ≤ rest ≤ count ∧ count ≤ SEMVMX | _ => True end.

(** The invariant, for [n] threads: what may still be posted fits. *)
Record ok (n : nat) (w : world) : Prop := {
  ok_type : type w = OBJ_TYPE;
  ok_count : length (threads w) = n;
  ok_threads : Forall pc_ok (threads w);
  ok_value : 0 ≤ value w;
  ok_bound : value w + total to_go (threads w) ≤ Z.of_nat n * SEMVMX }.

Definition balance (w : world) : Z := value w - total so_far (threads w).

Lemma to_go_bound l : Forall pc_ok l → 0 ≤ total to_go l ≤ Z.of_nat (length l) * SEMVMX.
Proof.
  induction 1 as [|p l Hp _ IH]; simpl; [lia|]. unfold SEMVMX in *.
  destruct p; simpl in *; unfold SEMVMX in *; lia.
Qed.

(** A step replaces one thread and the value. *)
Lemma ok_replace n w t p p' v :
  ok n w → threads w !! t = Some p → pc_ok p' → 0 ≤ v →
  v + to_go p' ≤ value w + to_go p →
  ok n (set_thread t p' (set_value v w)).
Proof.
  intros [Ht Hc Hp Hv Hb] Hl Hp' Hv' Hle. split; simpl; [done| | |done|].
  - by rewrite length_insert.
  - by apply Forall_insert.
  - rewrite (total_insert _ _ _ p) by done. lia.
Qed.

Lemma set_value_same w : set_value (value w) w = w.
Proof. by destruct w. Qed.

Lemma ok_move n w t p p' :
  ok n w → threads w !! t = Some p → pc_ok p' → to_go p' ≤ to_go p →
  ok n (set_thread t p' w).
Proof.
  intros H Hl Hp' Hle. rewrite <- (set_value_same w). apply (ok_replace n w t p); [done..|apply H|lia].
Qed.

Lemma balance_replace w t p p' v :
  threads w !! t = Some p →
  balance (set_thread t p' (set_value v w)) = balance w + (v - value w) - (so_far p' - so_far p).
Proof. intros H. unfold balance. simpl. rewrite (total_insert _ _ _ p) by done. lia. Qed.

Lemma balance_move w t p p' :
  threads w !! t = Some p → balance (set_thread t p' w) = balance w - (so_far p' - so_far p).
Proof. intros H. rewrite <- (set_value_same w) at 1. rewrite (balance_replace w t p) by done. lia. Qed.

(** A push that is not refused leaves room for itself. *)
Lemma push_accepted v count :
  0 ≤ v ≤ SEM_VALUE_MAX → push_refused v count = false → 1 ≤ count ∧ v + count ≤ SEMVMX.
Proof.
  unfold push_refused, SEMAPHORE_MAX_VALUE, SEMVMX, SEM_VALUE_MAX. intros Hv.
  rewrite s32_small by lia. rewrite !orb_false_iff, !Z.ltb_ge. lia.
Qed.

Lemma others_bound l i p :
  Forall pc_ok l → l !! i = Some p → total to_go l ≤ to_go p + (Z.of_nat (length l) - 1) * SEMVMX.
Proof.
  intros Hf. revert i. induction Hf as [|q l Hq Hf IH]; intros [|i]; simpl; try done.
  - intros [= ->]. pose proof (to_go_bound l Hf). unfold SEMVMX in *. lia.
  - intros H. specialize (IH i H). unfold SEMVMX in *.
    destruct q; simpl in *; unfold SEMVMX in *; lia.
Qed.

Definition gain (log : list (call * result)) : Z := total put_in log - total taken_out log.

(** What a step that moves thread [t] to [p'] completes. *)
Definition outcome_of (p : pc) : list (call * result) :=
  match p with Returned c r => [(c, r)] | _ => [] end.

Lemma completed_set l w t p p' v :
  thread_of l = Some t → threads w !! t = Some p →
  completed l (set_thread t p' (set_value v w)) = outcome_of p'.
Proof.
  intros Ht Hl. unfold completed. rewrite Ht. simpl. rewrite list_lookup_insert_eq; [done|].
  by eapply lookup_lt_Some.
Qed.

(** What a step must keep: the invariant, and the account. *)
Definition kept (n : nat) (l : label) (w w' : world) : Prop :=
  ok n w' ∧ balance w' = balance w + gain (completed l w').

Lemma kept_replace n l w t p p' v :
  ok n w → thread_of l = Some t → threads w !! t = Some p → pc_ok p' → 0 ≤ v →
  v + to_go p' ≤ value w + to_go p →
  v - value w = gain (outcome_of p') + so_far p' - so_far p →
  kept n l w (set_thread t p' (set_value v w)).
Proof.
  intros Hok Hl Ht Hp' Hv Hle Hg. split; [by apply (ok_replace n w t p)|].
  rewrite (completed_set l w t p), (balance_replace w t p) by done. lia.
Qed.

Lemma kept_move n l w t p p' :
  ok n w → thread_of l = Some t → threads w !! t = Some p → pc_ok p' → to_go p' ≤ to_go p →
  gain (outcome_of p') + so_far p' = so_far p →
  kept n l w (set_thread t p' w).
Proof.
  intros Hok Hl Ht Hp' Hle Hg. rewrite <- (set_value_same w) at 2.
  apply (kept_replace n l w t p); [done..|apply Hok|lia|lia].
Qed.

(** Only the thread that passes the checks of a push gains room. *)
Lemma kept_accept n l w t c count :
  ok n w → thread_of l = Some t → threads w !! t = Some (Entering c) →
  1 ≤ count → value w + count ≤ SEMVMX →
  kept n l w (set_thread t (Posting count count) w).
Proof.
  intros [Ht Hc Hp Hv Hb] Hl Hw H1 H2. pose proof (others_bound _ _ _ Hp Hw) as Ho. simpl in Ho.
  split.
  - split; simpl; [done|by rewrite length_insert| |done|].
    + apply Forall_insert; [done|]. simpl. unfold SEMVMX in *. lia.
    + rewrite (total_insert _ _ _ (Entering c)) by done. simpl. lia.
  - rewrite <- (set_value_same w) at 3. rewrite (completed_set l w t (Entering c)) by done.
    rewrite (balance_move w t (Entering c)) by done. unfold gain. simpl. lia.
Qed.

(** The side conditions of a step. *)
Ltac account :=
  first [ done | unfold gain; simpl; change (0 =? 0) with true; change (-1 =? 0) with false;
    change (CPLUS_FAIL =? 0) with false; change (CPLUS_SUCCESS =? 0) with true; simpl; lia ].

Lemma enter_kept n l w t c :
  ok n w → Z.of_nat n * SEMVMX ≤ SEM_VALUE_MAX →
  thread_of l = Some t → threads w !! t = Some (Entering c) → kept n l w (enter t c w).
Proof.
  intros Hok Hn Hl Ht. pose proof Hok as [Hty _ Hp Hv Hb].
  pose proof (to_go_bound _ Hp) as Hg.
  unfold enter. rewrite Hty. change (OBJ_TYPE =? OBJ_TYPE) with true. simpl.
  destruct c as [count|timeout|].
  - destruct (push_refused (value w) count) eqn:E.
    + apply (kept_move n l w t (Entering (Push count))); account.
    + apply push_accepted in E; [|lia]. by eapply kept_accept; [done..| |]; lia.
  - destruct (0 =? timeout).
    + destruct (Z.ltb_spec 0 (value w)).
      * apply (kept_replace n l w t (Entering (WaitPoll timeout))); account.
      * apply (kept_move n l w t (Entering (WaitPoll timeout))); account.
    + by destruct (CPLUS_INFINITE_TIMEOUT =? timeout);
        apply (kept_move n l w t (Entering (WaitPoll timeout))).
  - apply (kept_move n l w t (Entering GetValue)); account.
Qed.

Lemma post_kept n l w t count rest :
  ok n w → Z.of_nat n * SEMVMX ≤ SEM_VALUE_MAX →
  thread_of l = Some t → threads w !! t = Some (Posting count rest) →
  kept n l w (post t count rest w).
Proof.
  intros Hok Hn Hl Ht. pose proof Hok as [Hty Hc Hp Hv Hb].
  pose proof (others_bound _ _ _ Hp Ht) as Ho.
  assert (Hpc : pc_ok (Posting count rest)) by by eapply Forall_lookup_1.
  pose proof (to_go_bound _ Hp) as Hg. simpl in Hpc.
  unfold post. destruct (Z.ltb_spec 0 rest).
  - assert (rest ≤ total to_go (threads w)).
    { assert (Hf : Forall pc_ok (<[t := Idle]> (threads w))) by by apply Forall_insert.
      apply to_go_bound in Hf. rewrite (total_insert _ _ _ _ Idle Ht) in Hf. simpl in Hf. lia. }
    unfold sem_post. rewrite (proj2 (Z.ltb_lt _ _)) by lia. change (negb (0 =? 0)) with false.
    cbv iota. apply (kept_replace n l w t (Posting count rest)); account.
  - assert (rest = 0) as -> by lia.
    apply (kept_move n l w t (Posting count 0)); account.
Qed.

Lemma exec_kept n l w w' :
  ok n w → Z.of_nat n * SEMVMX ≤ SEM_VALUE_MAX → exec l w = Some w' → kept n l w w'.
Proof.
  intros Hok Hn. destruct l as [t c|t|t|t|us]; simpl.
  - destruct (threads w !! t) as [p|] eqn:E; [|done].
    destruct p; intros; simplify_eq; eapply kept_move; account.
  - destruct (threads w !! t) as [[|c|count rest|timeout d| |]|] eqn:E; try done.
    + intros [= <-]. by apply enter_kept.
    + intros [= <-]. by apply post_kept.
    + destruct (Z.ltb_spec 0 (value w)); [|done]. intros [= <-].
      apply (kept_replace n _ w t (Blocked timeout d)); account.
  - destruct (threads w !! t) as [[| | |timeout [d|]| |]|] eqn:E; try done.
    destruct (_ && _); [|done]. intros [= <-]. eapply kept_move; account.
  - destruct (threads w !! t) as [[| | |timeout d| |]|] eqn:E; try done.
    intros [= <-]. eapply kept_move; account.
  - destruct (0 <? us); [|done]. intros [= <-]. split; [by destruct Hok|].
    unfold balance, gain, completed. simpl. lia.
Qed.

Lemma gain_app l1 l2 : gain (l1 ++ l2) = gain l1 + gain l2.
Proof. unfold gain. rewrite !total_app. lia. Qed.

Lemma run_kept n ls w w' log :
  ok n w → Z.of_nat n * SEMVMX ≤ SEM_VALUE_MAX → run ls w = Some (w', log) →
  ok n w' ∧ balance w' = balance w + gain log.
Proof.
  intros Hok Hn. revert w w' log Hok. induction ls as [|l ls IH]; intros w w' log Hok; simpl.
  { intros [= <- <-]. split; [done|]. unfold gain. simpl. lia. }
  destruct (exec l w) as [w1|] eqn:E1; [|done]. simpl.
  destruct (run ls w1) as [[w2 log']|] eqn:E2; [|done]. simpl. intros [= <- <-].
  destruct (exec_kept n l w w1 Hok Hn E1) as [Hok1 Hb1].
  destruct (IH _ _ _ Hok1 E2) as [Hok2 Hb2]. split; [done|]. rewrite gain_app. lia.
Qed.

Lemma sem_ok_start init n time :
  (1 ≤ n)%nat → 0 ≤ init ≤ SEMVMX → ok n (start init n time).
Proof.
  intros Hn Hi. split; simpl; [done|apply length_replicate| |lia|].
  - by apply Forall_replicate.
  - rewrite total_replicate by done. unfold SEMVMX in *. lia.
Qed.

(** C27: no unit is lost or made up.  In every run of [n] threads the value is the
    initial one plus what the pushes that succeeded have put in and what those
    still in their loop have put in so far, less one for every wait that
    succeeded; it never falls below zero nor rises above [n] times the maximum
    the checks allow. *)
Theorem units_accounted init n time ls w log :
  (1 ≤ n)%nat → 0 ≤ init ≤ SEMVMX → Z.of_nat n * SEMVMX ≤ SEM_VALUE_MAX →
  run ls (start init n time) = Some (w, log) →
  value w + total taken_out log = init + total put_in log + total so_far (threads w)
  ∧ 0 ≤ value w ≤ Z.of_nat n * SEMVMX.
Proof.
  intros Hn Hi Hm Hrun.
  destruct (run_kept n _ _ _ _ (sem_ok_start init n time Hn Hi) Hm Hrun) as [Hok Hb].
  unfold balance, gain in Hb. simpl in Hb. rewrite total_replicate in Hb by done.
  pose proof (to_go_bound _ (ok_threads _ _ Hok)). destruct Hok. lia.
Qed.

(** Thread 0 sleeps in a wait, thread 1 pushes two units, thread 0 takes one. *)
Definition handover : list label :=
  [Call 0 (WaitPoll 500); Move 0; Call 1 (Push 2); Move 1; Move 1; Move 0; Move 1; Move 1].
Definition handover_log : list (call * result) :=
  [(WaitPoll 500, Result 0 None); (Push 2, Result 0 None)].

Lemma units_accounted_witness :
  ∃ w, run handover (start 0 2 0) = Some (w, handover_log)
  ∧ value w + 1 = 0 + 2 + total so_far (threads w) ∧ 0 ≤ value w ≤ 2 * SEMVMX.
Proof.
  destruct (run handover (start 0 2 0)) as [[w log]|] eqn:E; [|vm_compute in E; discriminate].
  assert (log = handover_log) as -> by (vm_compute in E; by inversion E).
  exists w. split; [done|].
  apply (units_accounted 0 2 0 handover w handover_log); [lia|unfold SEMVMX; lia|vm_compute; congruence|done].
Defined.

Definition overfill : list label :=
  [Call 0 (Push 2); Move 0; Call 1 (Push 2); Move 1;
   Move 0; Move 0; Move 0; Move 1; Move 1; Move 1].

(** Code bug: the limit on the value is checked before the units are posted
    and not again: two threads that push at the same time both pass the check
    and succeed, and the value ends above [SEMAPHORE_MAX_VALUE]; from then on
    every push is refused. *)
Theorem pushes_pass_the_limit :
  ∃ w, run overfill (start (SEMAPHORE_MAX_VALUE - 2) 2 0) =
         Some (w, [(Push 2, Result CPLUS_SUCCESS None); (Push 2, Result CPLUS_SUCCESS None)])
  ∧ value w = SEMAPHORE_MAX_VALUE + 2
  ∧ ∀ count, push_refused (value w) count = true.
Proof.
  eexists. split; [vm_compute; reflexivity|]. split; [reflexivity|]. intros count.
  change (push_refused _ count) with
    ((SEMVMX <? -2) || ((count <? 1) || (-2 <? count))).
  change (SEMVMX <? -2) with false. simpl.
  destruct (Z.ltb_spec count 1), (Z.ltb_spec (-2) count); simpl; lia.
Qed.

End Semaphore.

(** ** The constructors *)
Module Make.

Definition OBJ_TYPE : Z := Semaphore.OBJ_TYPE.
Definition SEMAPHORE_MAX_VALUE : Z := Semaphore.SEMAPHORE_MAX_VALUE.
Definition SEM_VALUE_MAX : Z := Semaphore.SEM_VALUE_MAX.
Definition SEMAPHORE_NAME_SIZE : Z := 31.
(** ["cplus.sema_"], the pattern before the name. *)
Definition SEMAPHORE_NAME_PATTERN : list Z := [99; 112; 108; 117; 115; 46; 115; 101; 109; 97; 95].
Definition SEMAPHORE_NAME_PATTERN_SIZE : Z := 14 - 3.
Definition EEXIST : Z := 17.

(** The semaphores of the system by name, and their values. *)
Record world := World {
  names : gmap (list Z) nat;
  values : gmap nat Z;
  errno : Z }.
Definition set_errno (e : Z) (w : world) : world := World (names w) (values w) e.

(** Where [psem] points: nowhere, to the semaphore in the structure, with its
    value, or to one the system keeps. *)
Inductive sem := SEM_FAILED | Nonamed (value : Z) | Named (id : nat).

Record semaphore := mkSemaphore {
  type : Z;
  psem : sem;
  is_named : bool;
  is_owner : bool;
  name : list Z }.

(** The system refuses a name with a slash behind its beginning, and a new value
    that no semaphore can have. *)
Definition ill_named (nm : list Z) : bool := existsb (Z.eqb 47) nm.
Definition sem_open_new (nm : list Z) (count : Z) : C world sem := λ w,
  if ill_named nm || (count <? 0) || (SEM_VALUE_MAX <? count) then Done (SEM_FAILED, set_errno EINVAL w)
  else match names w !! nm with
  | Some _ => Done (SEM_FAILED, set_errno EEXIST w)
  | None =>
      let i := fresh (dom (values w)) in
      Done (Named i, World (<[nm := i]> (names w)) (<[i := count]> (values w)) (errno w))
  end.
Definition sem_open (nm : list Z) : C world sem := λ w,
  if ill_named nm then Done (SEM_FAILED, set_errno EINVAL w)
  else match names w !! nm with
  | Some i => Done (Named i, w)
  | None => Done (SEM_FAILED, set_errno ENOENT w)
  end.
Definition sem_unlink (nm : list Z) : C world unit :=
  modify (λ w, World (delete nm (names w)) (values w) (errno w)).

(** [None] is the null pointer. *)
Definition CHECK_OBJECT_TYPE (o : option semaphore) : C world semaphore :=
  match o with
  | Some s => assert_c (type s =? OBJ_TYPE);; mret s
  | None => abort
  end.

Definition cplus_semaphore_delete (o : option semaphore) : C world Z :=
  s ← CHECK_OBJECT_TYPE o;
  match psem s with
  | SEM_FAILED => mret tt
  | _ =>
      if is_named s && is_owner s then
        match cstr (name s) with Some nm => sem_unlink nm | None => undef end
      else mret tt
  end;;
  mret CPLUS_SUCCESS.

(** [exit:]. *)
Definition discard (o : option semaphore) : C world (option semaphore) :=
  cplus_semaphore_delete o;; mret None.

Definition print_name (nm : list Z) : C world (list Z) := λ w,
  match cplus_str_printf (replicate 32 0) SEMAPHORE_NAME_SIZE (SEMAPHORE_NAME_PATTERN ++ nm) with
  | Done b => Done (b, w)
  | Aborts => Aborts | Hangs => Hangs | Undefined => Undefined
  end.

(** [memory]: whether the structure can be allocated. *)
Definition semaphore_xp_create (memory : bool) (nm : list Z) (count : Z) : C world (option semaphore) :=
  if memory then
    b ← print_name nm;
    p ← deref (λ _, cstr b);
    q ← sem_open_new p count;
    match q with
    | SEM_FAILED => discard (Some (mkSemaphore OBJ_TYPE SEM_FAILED false false b))
    | _ => mret (Some (mkSemaphore OBJ_TYPE q true true b))
    end
  else discard None.

Definition semaphore_xp_open (memory : bool) (nm : list Z) : C world (option semaphore) :=
  if memory then
    b ← print_name nm;
    p ← deref (λ _, cstr b);
    q ← sem_open p;
    match q with
    | SEM_FAILED => discard (Some (mkSemaphore OBJ_TYPE SEM_FAILED false false b))
    | _ => mret (Some (mkSemaphore OBJ_TYPE q true false b))
    end
  else discard None.

Definition semaphore_xp_new (memory memory' : bool) (nm : list Z) (count : Z) :
    C world (option semaphore) :=
  s ← semaphore_xp_open memory nm;
  match s with
  | Some _ => mret s
  | None =>
      e ← gets errno;
      if ENOENT =? e then semaphore_xp_create memory' nm count else mret None
  end.

Definition count_ok (count : Z) : bool := negb ((count <? 0) || (SEMAPHORE_MAX_VALUE <? count)).
Definition refuse : C world (option semaphore) := modify (set_errno EINVAL);; mret None.

Definition cplus_semaphore_new (memory init_ok : bool) (count : Z) : C world (option semaphore) :=
  if negb (count_ok count) then refuse
  else if memory then
    let b := replicate 32 0 in
    if init_ok then mret (Some (mkSemaphore OBJ_TYPE (Nonamed count) false false b))
    else discard (Some (mkSemaphore OBJ_TYPE SEM_FAILED false false b))
  else discard None.

(** The checks on the name. *)
Definition with_name (name : option (list Z)) (m : list Z → C world (option semaphore)) :
    C world (option semaphore) :=
  match name with
  | None => refuse
  | Some nm =>
      if SEMAPHORE_NAME_SIZE <? zlen nm + SEMAPHORE_NAME_PATTERN_SIZE then refuse else m nm
  end.

Definition cplus_semaphore_new_xp (memory memory' : bool) (name : option (list Z)) (count : Z) :=
  with_name name (λ nm,
    if negb (count_ok count) then refuse else semaphore_xp_new memory memory' nm count).
Definition cplus_semaphore_create_xp (memory : bool) (name : option (list Z)) (count : Z) :=
  with_name name (λ nm,
    if negb (count_ok count) then refuse else semaphore_xp_create memory nm count).
Definition cplus_semaphore_open_xp (memory : bool) (name : option (list Z)) :=
  with_name name (semaphore_xp_open memory).

Definition cplus_semaphore_check (obj : option Z) : bool :=
  match obj with Some t => t =? OBJ_TYPE | None => false end.

(** *** What the constructors make *)

Definition sem_name (nm : list Z) : list Z := take 30 (SEMAPHORE_NAME_PATTERN ++ nm).
Definition printed (nm : list Z) : list Z :=
  sem_name nm ++ 0 :: replicate (31 - length (sem_name nm)) 0.
#[global] Arguments sem_name : simpl never.
#[global] Arguments printed : simpl never.

Lemma sem_name_run nm w : print_name nm w = Done (printed nm, w).
Proof.
  unfold print_name, cplus_str_printf. change (SEMAPHORE_NAME_SIZE =? 0) with false.
  change (Z.to_nat (SEMAPHORE_NAME_SIZE - 1)) with 30%nat. fold (sem_name nm).
  assert (length (sem_name nm) ≤ 30)%nat by (unfold sem_name; rewrite length_take; lia). unfold zlen.
  rewrite (proj2 (Z.leb_le _ _)) by (rewrite length_app, length_replicate; cbn [length]; lia).
  unfold printed. rewrite length_app, drop_replicate, <- app_assoc. cbn [length app].
  do 5 f_equal. lia.
Qed.

Lemma sem_name_printed nm : text nm → cstr (printed nm) = Some (sem_name nm).
Proof.
  intros H. apply cstr_app. unfold sem_name, text. apply Forall_take, Forall_app. split; [|done].
  by repeat (constructor; [done|]).
Qed.

(** The calls of the system do not refuse the name, nor the value. *)
Definition named_well (nm : list Z) : Prop := text nm ∧ 47 ∉ nm.

Lemma named_well_run nm : named_well nm → ill_named (sem_name nm) = false.
Proof.
  intros [_ H]. apply not_true_is_false. unfold ill_named. rewrite existsb_exists. intros (c & Hin & Hc%Z.eqb_eq).
  apply list_elem_of_In in Hin. unfold sem_name in Hin. apply elem_of_take in Hin as (i & Hi & _). subst c.
  apply list_elem_of_lookup_2, elem_of_app in Hi as [Hi|Hi]; [|done].
  revert Hi. apply (bool_decide_unpack _). vm_compute. exact I.
Qed.

Lemma count_ok_run count : count_ok count = true → (count <? 0) || (SEM_VALUE_MAX <? count) = false.
Proof.
  unfold count_ok, SEM_VALUE_MAX, SEMAPHORE_MAX_VALUE, Semaphore.SEM_VALUE_MAX, Semaphore.SEMAPHORE_MAX_VALUE, Semaphore.SEMVMX.
  destruct (Z.ltb_spec count 0), (Z.ltb_spec 32767 count); try done. intros _. apply Z.ltb_ge. lia.
Qed.

(** The two calls, for a name that is or is not there. *)
Lemma xp_create_run nm count w :
  named_well nm → count_ok count = true →
  semaphore_xp_create true nm count w =
    match names w !! sem_name nm with
    | Some _ => Done (None, set_errno EEXIST w)
    | None =>
        let i := fresh (dom (values w)) in
        Done (Some (mkSemaphore OBJ_TYPE (Named i) true true (printed nm)),
              World (<[sem_name nm := i]> (names w)) (<[i := count]> (values w)) (errno w))
    end.
Proof.
  intros H Hn. unfold semaphore_xp_create. rewrite (bind_Done _ _ _ _ _ (sem_name_run nm w)).
  rewrite (bind_Done _ _ w (sem_name nm) w) by (unfold deref; by rewrite sem_name_printed by apply H).
  unfold sem_open_new. crun. rewrite named_well_run, <- orb_assoc, count_ok_run by done. simpl. by destruct (names w !! sem_name nm).
Qed.

Lemma xp_open_run nm w :
  named_well nm →
  semaphore_xp_open true nm w =
    match names w !! sem_name nm with
    | Some i => Done (Some (mkSemaphore OBJ_TYPE (Named i) true false (printed nm)), w)
    | None => Done (None, set_errno ENOENT w)
    end.
Proof.
  intros H. unfold semaphore_xp_open. rewrite (bind_Done _ _ _ _ _ (sem_name_run nm w)).
  rewrite (bind_Done _ _ w (sem_name nm) w) by (unfold deref; by rewrite sem_name_printed by apply H).
  unfold sem_open. crun. rewrite named_well_run by done. by destruct (names w !! sem_name nm).
Qed.

Lemma delete_named nm own i w :
  text nm →
  cplus_semaphore_delete (Some (mkSemaphore OBJ_TYPE (Named i) true own (printed nm))) w =
    Done (CPLUS_SUCCESS, if own then World (delete (sem_name nm) (names w)) (values w) (errno w) else w).
Proof.
  intros H. unfold cplus_semaphore_delete, CHECK_OBJECT_TYPE.
  pose proof (sem_name_printed nm H) as Hc. revert Hc. generalize (printed nm). intros b Hc.
  simpl. change (OBJ_TYPE =? OBJ_TYPE) with true. crun. simpl. destruct own; [|done]. by rewrite Hc.
Qed.

Definition fits (nm : list Z) : Prop := named_well nm ∧ zlen nm ≤ 20.

Lemma with_name_run nm m : fits nm → with_name (Some nm) m = m nm.
Proof.
  intros [_ H]. unfold with_name, SEMAPHORE_NAME_SIZE, SEMAPHORE_NAME_PATTERN_SIZE.
  by rewrite (proj2 (Z.ltb_ge _ _)) by lia.
Qed.

(** the life of a named semaphore.  What one process creates with [new_xp]
    another finds with [new_xp], whatever initial count it asks for; deleting
    the second leaves the name, deleting the first removes it, so that the next
    [new_xp] makes a semaphore of its own. *)
Theorem named_life nm c1 c2 w :
  fits nm → count_ok c1 = true → count_ok c2 = true → names w !! sem_name nm = None →
  ∃ i s1 s2 w1 w2,
    cplus_semaphore_new_xp true true (Some nm) c1 w = Done (Some s1, w1)
  ∧ cplus_semaphore_new_xp true true (Some nm) c2 w1 = Done (Some s2, w1)
  ∧ psem s1 = Named i ∧ psem s2 = Named i ∧ values w1 !! i = Some c1
  ∧ cplus_semaphore_delete (Some s2) w1 = Done (CPLUS_SUCCESS, w1)
  ∧ cplus_semaphore_delete (Some s1) w1 = Done (CPLUS_SUCCESS, w2)
  ∧ cplus_semaphore_open_xp true (Some nm) w2 = Done (None, set_errno ENOENT w2).
Proof.
  intros Hf H1 H2 Hn. pose proof (proj1 Hf) as Hw. pose proof (proj1 Hw) as Ht.
  set (i := fresh (dom (values w))).
  set (w1 := World (<[sem_name nm := i]> (names w)) (<[i := c1]> (values w)) ENOENT).
  assert (Hn1 : names w1 !! sem_name nm = Some i) by apply lookup_insert_eq.
  eexists i, _, _, w1, _.
  split. { unfold cplus_semaphore_new_xp. rewrite with_name_run, H1 by done. simpl.
    unfold semaphore_xp_new. rewrite (bind_Done _ _ w None (set_errno ENOENT w)).
    - crun. change (ENOENT =? errno (set_errno ENOENT w)) with true. cbv iota. rewrite xp_create_run by done.
      simpl. rewrite Hn. reflexivity.
    - rewrite xp_open_run by done. by rewrite Hn. }
  split. { unfold cplus_semaphore_new_xp. rewrite with_name_run, H2 by done. simpl.
    unfold semaphore_xp_new.
    rewrite (bind_Done _ _ w1 (Some (mkSemaphore OBJ_TYPE (Named i) true false (printed nm))) w1); [done|].
    rewrite xp_open_run by done. by rewrite Hn1. }
  split; [done|]. split; [done|]. split; [apply lookup_insert_eq|].
  split; [by rewrite delete_named|]. split; [by rewrite delete_named|].
  unfold cplus_semaphore_open_xp. rewrite with_name_run, xp_open_run by done. simpl.
  by rewrite lookup_delete_eq.
Qed.

Definition name_log : list Z := [108; 111; 103].

Lemma named_life_witness :
  ∃ i s1 s2 w1 w2,
    cplus_semaphore_new_xp true true (Some name_log) 3 (World ∅ ∅ 0) = Done (Some s1, w1)
  ∧ cplus_semaphore_new_xp true true (Some name_log) 5 w1 = Done (Some s2, w1)
  ∧ psem s1 = Named i ∧ psem s2 = Named i ∧ values w1 !! i = Some 3
  ∧ cplus_semaphore_delete (Some s2) w1 = Done (CPLUS_SUCCESS, w1)
  ∧ cplus_semaphore_delete (Some s1) w1 = Done (CPLUS_SUCCESS, w2)
  ∧ cplus_semaphore_open_xp true (Some name_log) w2 = Done (None, set_errno ENOENT w2).
Proof.
  apply (named_life name_log 3 5 (World ∅ ∅ 0)); [|done..].
  split; [split; [by repeat constructor|apply (bool_decide_unpack _); vm_compute; exact I]|vm_compute; congruence].
Defined.

(** Code bug: without memory for the structure the constructors do not
    return a null pointer: their failure path deletes it, and the assertion of
    [cplus_semaphore_delete] ends the program. *)
Theorem no_memory_aborts nm count init_ok w :
  fits nm → count_ok count = true →
  cplus_semaphore_new false init_ok count w = Aborts
  ∧ cplus_semaphore_create_xp false (Some nm) count w = Aborts
  ∧ cplus_semaphore_open_xp false (Some nm) w = Aborts.
Proof.
  intros Hf Hc. unfold cplus_semaphore_new, cplus_semaphore_create_xp, cplus_semaphore_open_xp.
  by rewrite !with_name_run, Hc by done.
Qed.

Lemma no_memory_aborts_witness :
  cplus_semaphore_new false true 3 (World ∅ ∅ 0) = Aborts
  ∧ cplus_semaphore_create_xp false (Some name_log) 3 (World ∅ ∅ 0) = Aborts
  ∧ cplus_semaphore_open_xp false (Some name_log) (World ∅ ∅ 0) = Aborts.
Proof.
  apply (no_memory_aborts name_log 3 true (World ∅ ∅ 0)); [|done].
  split; [split; [by repeat constructor|apply (bool_decide_unpack _); vm_compute; exact I]|vm_compute; congruence].
Defined.

End Make.
