(* ===== verification/Keyed.v ===== *)
(** * Keyed: lists of data objects found by their keys (end of src/llist.c)

    The helpers at the end of llist.c store the data objects of data.c in a
    list and find them by key.  The list and the data objects share the
    program's [errno]; here the data objects are part of what the list's nodes
    come from, so that the functions of Llist.v run on the joint state as they
    are.  The search takes its comparator as a call, because the comparator
    reads the key of the object. *)

From S2P Require Import Prelude Allocator Locks Zlist Stdio Memmgr Llist LlistInv LlistSpec Data.
From stdpp Require Import base numbers list option gmap sets.
From Stdlib Require Import ZArith Lia.
Open Scope Z_scope.

Module Keyed.
Import Lock Stdio Llist LlistInv LlistSpec.

(** ** The joint state *)

Definition pair_new {A} `{Allocator A} (s : A * Data.world) : outcome (Z * (A * Data.world)) :=
  match al_new (fst s) with
  | Done (p, a) => Done (p, (a, snd s))
  | Aborts => Aborts | Hangs => Hangs | Undefined => Undefined
  end.
Definition pair_release {A} `{Allocator A} (p : Z) (s : A * Data.world) : outcome (A * Data.world) :=
  match al_release p (fst s) with
  | Done a => Done (a, snd s)
  | Aborts => Aborts | Hangs => Hangs | Undefined => Undefined
  end.

Lemma pair_new_spec {A} `{Allocator A} (s : A * Data.world) live :
  al_ok (fst s) live →
  ∃ p s', pair_new s = Done (p, s') ∧
    ((p = 0 ∧ al_ok (fst s') live) ∨ (p ≠ 0 ∧ p ∉ live ∧ al_ok (fst s') ({[p]} ∪ live))).
Proof.
  intros Hok. unfold pair_new. destruct (al_new_spec _ _ Hok) as (p & a & -> & Hp).
  by exists p, (a, snd s).
Qed.

Lemma pair_release_spec {A} `{Allocator A} (s : A * Data.world) live p :
  al_ok (fst s) live → p ∈ live →
  ∃ s', pair_release p s = Done s' ∧ al_ok (fst s') (live ∖ {[p]}).
Proof.
  intros Hok Hp. unfold pair_release. destruct (al_release_spec _ _ _ Hok Hp) as (a & -> & Ha).
  by exists (a, snd s).
Qed.

(** The nodes come from the allocator of the list; the objects are carried. *)
#[export] Instance pair_allocator {A} `{Allocator A} : Allocator (A * Data.world) := {|
  al_new := pair_new;
  al_release := pair_release;
  al_ok := λ s, al_ok (fst s);
  al_new_spec := pair_new_spec;
  al_release_spec := pair_release_spec;
  al_nonnull := λ s, al_nonnull (fst s) |}.

Section ops.
Context {A : Type} `{Allocator A} (me : nat).

Notation S := (st (A * Data.world)).
Notation M := (C S).

Definition world_of (s : S) : Data.world := snd (src s).
(** There is one [errno], the field of the list's state. *)
Definition with_world (w : Data.world) (s : S) : S :=
  with_errno (Data.errno w)
    (with_src (fst (src s), Data.with_errno (Data.errno (world_of s)) w) s).

(** A call of data.c, with the [errno] of the program. *)
Definition on_data {B} (m : C Data.world B) : M B := λ s,
  match m (Data.with_errno (errno s) (world_of s)) with
  | Done (x, w) => Done (x, with_world w s)
  | Aborts => Aborts | Hangs => Hangs | Undefined => Undefined
  end.

(** ** The comparator *)

(** [strcmp]: the difference of the first bytes that differ. *)
Fixpoint strcmp (a b : list Z) : Z :=
  match a, b with
  | [], [] => 0
  | x :: _, [] => x
  | [], y :: _ => - y
  | x :: a, y :: b => if x =? y then strcmp a b else x - y
  end.

Definition find_node_by_key (key : option (list Z)) (data1 : Z) : C Data.world Z :=
  data_key ← Data.cplus_data_get_key data1;
  match data_key, key with
  | Some b, Some key => k ← Data.string_of (Some b); mret (strcmp k key)
  | _, _ => mret 1
  end.

(** ** Searching with a comparator that is a call *)

Definition get_node_if (comparator : Z → M Z) : M Z :=
  r ← scan (λ p, v ← get_data p;
                 if v =? 0 then mret None
                 else
                   c ← comparator v;
                   if c =? 0 then q ← at_current; mret (Some q) else mret None);
  match r with
  | Some p => mret p
  | None => set_errno ENOENT;; mret 0
  end.

Definition pop_if (comparator : Z → M Z) : M Z :=
  reset_cur_node;;
  e ← is_empty;
  if (e : bool) then set_errno ENOENT;; mret 0
  else
    r ← scan (λ p, v ← get_data p;
                   if v =? 0 then mret None
                   else
                     c ← comparator v;
                     if c =? 0 then
                       target ← at_current; q ← at_current;
                       remove_node q;; mret (Some target)
                     else mret None);
    match r with
    | Some p => mret p
    | None => set_errno ENOENT;; mret 0
    end.

(** [cplus_llist_get_if(obj, find_node_by_key, key)] and [cplus_llist_pop_if]. *)
Definition get_if_key (key : list Z) : M Z :=
  CHECK_OBJECT_TYPE;;
  locked me shared (data_of (get_node_if (λ v, on_data (find_node_by_key (Some key) v)))).
Definition pop_if_key (key : list Z) : M Z :=
  CHECK_OBJECT_TYPE;;
  locked me exclusive (data_of_freed (pop_if (λ v, on_data (find_node_by_key (Some key) v)))).

(** ** The helpers

    A key is a string, [None] the null pointer; the calls of data.c take it with
    its final zero. *)

Definition cplus_llist_add_data (ty : Z) (key : option (list Z)) (value1 value2 : option (list Z)) : M Z :=
  CHECK_OBJECT_TYPE;;
  check_fn key 0 (λ key,
    check_fn value1 0 (λ v1,
      data ← get_if_key key;
      ok ← on_data (Data.cplus_data_check data);
      if negb ok then
        data ← on_data (Data.cplus_data_new_ex ty (Some v1) value2 (zlen key) (Some (key ++ [0])));
        (if negb (data =? 0) then cplus_llist_push_back me data;; mret tt else mret tt);;
        mret data
      else
        on_data (Data.cplus_data_set_value data (Some v1) value2);;
        mret data)).

Definition cplus_llist_find_data (key : option (list Z)) : M Z :=
  CHECK_OBJECT_TYPE;; check_fn key 0 get_if_key.

Definition cplus_llist_update_data (key : option (list Z)) (data : Z) : M Z :=
  CHECK_OBJECT_TYPE;;
  check_fn key 0 (λ key,
    ok ← on_data (Data.cplus_data_check data);
    check_if (negb ok) 0 (
      target ← get_if_key key;
      cloned ← (if negb (target =? 0) then on_data (Data.cplus_data_clone_value target data)
                else mret CPLUS_SUCCESS);
      if negb (cloned =? CPLUS_SUCCESS) then mret 0
      else
        r ← on_data (Data.cplus_data_set_key data (zlen key) (Some (key ++ [0])));
        r ← (if r =? CPLUS_SUCCESS then cplus_llist_push_back me data else mret CPLUS_FAIL);
        mret (if r =? CPLUS_SUCCESS then data else target))).

(** [obj] is not null here; [find_node_by_key] is only called by
    [cplus_llist_pop_if], which checks the type of the list. *)
Definition cplus_llist_remove_data (key : option (list Z)) : M Z :=
  check_fn key CPLUS_FAIL (λ key,
    data ← pop_if_key key;
    (if negb (data =? 0) then on_data (Data.cplus_data_delete data);; mret tt else mret tt);;
    mret CPLUS_SUCCESS).

(** The typed variants pass the address of their parameter. *)
Definition add_scalar (t : Data.data_type) (key : option (list Z)) (v : Z) : M Z :=
  cplus_llist_add_data (Data.type_code t) key (Data.arg t v) None.
Definition cplus_llist_add_data_bool (key : option (list Z)) (v : Z) : M Z := add_scalar Data.T_BOOL key v.
Definition cplus_llist_add_data_int8 (key : option (list Z)) (v : Z) : M Z := add_scalar Data.T_INT8 key v.
Definition cplus_llist_add_data_int16 (key : option (list Z)) (v : Z) : M Z := add_scalar Data.T_INT16 key v.
Definition cplus_llist_add_data_int32 (key : option (list Z)) (v : Z) : M Z := add_scalar Data.T_INT32 key v.
Definition cplus_llist_add_data_int64 (key : option (list Z)) (v : Z) : M Z := add_scalar Data.T_INT64 key v.
Definition cplus_llist_add_data_uint8 (key : option (list Z)) (v : Z) : M Z := add_scalar Data.T_UINT8 key v.
Definition cplus_llist_add_data_uint16 (key : option (list Z)) (v : Z) : M Z := add_scalar Data.T_UINT16 key v.
Definition cplus_llist_add_data_uint32 (key : option (list Z)) (v : Z) : M Z := add_scalar Data.T_UINT32 key v.
Definition cplus_llist_add_data_uint64 (key : option (list Z)) (v : Z) : M Z := add_scalar Data.T_UINT64 key v.
Definition cplus_llist_add_data_float (key : option (list Z)) (v : Z) : M Z := add_scalar Data.T_FLOAT key v.
Definition ccplus_llist_add_data_double (key : option (list Z)) (v : Z) : M Z := add_scalar Data.T_DOUBLE key v.
Definition cplus_llist_add_data_pointer (key : option (list Z)) (v : Z) : M Z := add_scalar Data.T_POINTER key v.
Definition cplus_llist_add_data_string (key : option (list Z)) (str_bufs : option (list Z)) (str_len : Z) : M Z :=
  cplus_llist_add_data (Data.type_code Data.T_STRING) key (Data.arg Data.T_UINT32 str_len) str_bufs.

End ops.
End Keyed.
