(* ===== verification/KeyedInv.v ===== *)
(** * KeyedInv: the list and the data objects do not disturb each other

    The calls of Llist.v leave the data objects as they are, the calls of
    data.c leave the list as it is, and searching with the key comparator is
    searching with the function that compares the keys. *)

From S2P Require Import Prelude Allocator Locks Zlist Stdio Memmgr Llist LlistInv LlistSpec Data Keyed.
From stdpp Require Import base numbers list option gmap sets.
From Stdlib Require Import ZArith Lia.
Open Scope Z_scope.

Module KeyedInv.
Import Lock Stdio Llist LlistInv LlistSpec Keyed.

Section keyed.
Context {A : Type} `{Allocator A} (me : nat).

Notation S := (st (A * Data.world)).
Notation M := (C S).
Implicit Types s : S.

(** ** List calls leave the objects alone *)

Definition keeps {B} (m : M B) : Prop :=
  ∀ s r s', m s = Done (r, s') → world_of s' = world_of s.

Lemma keeps_ret {B} (x : B) : keeps (mret x).
Proof. intros s r s' [= <- <-]. done. Qed.

Lemma keeps_bind {B D} (m : M B) (f : B → M D) :
  keeps m → (∀ x, keeps (f x)) → keeps (m ≫= f).
Proof.
  intros Hm Hf s r s'. unfold mbind, C_bind. destruct (m s) as [[x s1]| | |] eqn:E; try done.
  intros E2. rewrite (Hf _ _ _ _ E2). by eapply Hm.
Qed.

Lemma keeps_field {B} (f : linked_list → B) : keeps (field f).
Proof. by intros s r s' [= <- <-]. Qed.
Lemma keeps_gets {B} (f : S → B) : keeps (gets f).
Proof. by intros s r s' [= <- <-]. Qed.
Lemma keeps_upd f : keeps (upd f).
Proof. by intros s r s' [= <- <-]. Qed.
Lemma keeps_set_nodes f : keeps (set_nodes f).
Proof. by intros s r s' [= <- <-]. Qed.
Lemma keeps_errno e : keeps (set_errno e).
Proof. by intros s r s' [= <- <-]. Qed.
Lemma keeps_load {B} p (f : llist_node → B) : keeps (load p f).
Proof. intros s r s'. unfold load, deref. by destruct (f <$> nodes s !! p); intros; simplify_eq. Qed.
Lemma keeps_hang {B} : keeps (@hang S B). Proof. done. Qed.
Lemma keeps_undef {B} : keeps (@undef S B). Proof. done. Qed.
Lemma keeps_assert b : keeps (@assert_c S b). Proof. destruct b; [apply keeps_ret|done]. Qed.
Lemma keeps_lock_op f : keeps (lock_op f).
Proof.
  intros s r s'. unfold lock_op. destruct (f _) as [[x [l e]]| | |]; try done. by intros [= <- <-].
Qed.
Lemma keeps_take_block : keeps take_block.
Proof.
  intros s r s'. unfold take_block. simpl. unfold pair_new.
  destruct (al_new (fst (src s))) as [[p a]| | |]; try done. by intros [= <- <-].
Qed.
Lemma keeps_free_node p : keeps (free_node p).
Proof.
  unfold free_node. destruct (p =? 0); [apply keeps_ret|]. intros s r s'. simpl. unfold pair_release.
  destruct (al_release p (fst (src s))) as [a| | |]; try done. by intros [= <- <-].
Qed.

End keyed.

Create HintDb keeps.
#[export] Hint Resolve keeps_ret keeps_field keeps_gets keeps_upd keeps_set_nodes keeps_errno
  keeps_load keeps_hang keeps_undef keeps_assert keeps_lock_op keeps_take_block keeps_free_node : keeps.

(** Take a program apart into its steps. *)
Ltac keep :=
  repeat match goal with
  | |- keeps (_ ≫= _) => apply keeps_bind
  | |- ∀ _, _ => intros ?
  | |- keeps (if ?b then _ else _) => destruct b
  | |- keeps (match ?x with _ => _ end) => destruct x
  | |- keeps _ => solve [auto with keeps]
  end.

Section calls.
Context {A : Type} `{Allocator A} (me : nat).

Notation S := (st (A * Data.world)).
Notation M := (C S).
Implicit Types s : S.

Lemma keeps_at_current : keeps (A := A) at_current.
Proof. unfold at_current. keep. Qed.
Hint Resolve keeps_at_current : keeps.
Lemma keeps_store p f : keeps (A := A) (store p f).
Proof. unfold store. keep. Qed.
Hint Resolve keeps_store : keeps.
Lemma keeps_reset : keeps (A := A) reset_cur_node.
Proof. unfold reset_cur_node. keep. Qed.
Hint Resolve keeps_reset : keeps.
Lemma keeps_is_empty : keeps (A := A) is_empty.
Proof. unfold is_empty. keep. Qed.
Hint Resolve keeps_is_empty : keeps.
Lemma keeps_forward : keeps (A := A) forward.
Proof. unfold forward. keep. Qed.
Lemma keeps_backward : keeps (A := A) backward.
Proof. unfold backward. keep. Qed.
Hint Resolve keeps_forward keeps_backward : keeps.

Lemma keeps_walk fuel (f : M unit) j : keeps f → keeps (walk fuel f j).
Proof. intros Hf. induction fuel as [|fuel IH]; simpl; keep. Qed.
Lemma keeps_get_node_of j : keeps (A := A) (get_node_of j).
Proof. unfold get_node_of. keep; apply keeps_walk; auto with keeps. Qed.
Hint Resolve keeps_get_node_of : keeps.

Lemma keeps_scan {R} (visit : Z → M (option R)) : (∀ p, keeps (visit p)) → keeps (scan visit).
Proof.
  intros Hv. assert (Hl : ∀ fuel, keeps (scan_loop fuel visit)).
  { induction fuel as [|fuel IH]; simpl; keep. }
  unfold scan. keep.
Qed.

Lemma keeps_remove_node p : keeps (A := A) (remove_node p).
Proof. unfold remove_node. keep. Qed.
Hint Resolve keeps_remove_node : keeps.
Lemma keeps_push_at j p : keeps (A := A) (push_at j p).
Proof. unfold push_at, get_size. keep. Qed.
Lemma keeps_new_node v : keeps (A := A) (new_node v).
Proof. unfold new_node. keep. Qed.
Hint Resolve keeps_push_at keeps_new_node : keeps.

Lemma keeps_locked {B} x (m : M B) : keeps m → keeps (locked me x m).
Proof. intros Hm. unfold locked. keep. Qed.
Lemma keeps_check : keeps (A := A) CHECK_OBJECT_TYPE.
Proof. unfold CHECK_OBJECT_TYPE. keep. Qed.
Hint Resolve keeps_check : keeps.

Ltac keep_call := keep; first [apply keeps_scan | apply keeps_locked | idtac]; keep.

Lemma keeps_get_if f : keeps (A := A) (cplus_llist_get_if me f).
Proof.
  unfold cplus_llist_get_if, check_fn, data_of, Llist.get_node_if, get_data. do 3 keep_call.
Qed.

Lemma keeps_pop_if f : keeps (A := A) (cplus_llist_pop_if me f).
Proof.
  unfold cplus_llist_pop_if, check_fn, data_of_freed, Llist.pop_if, get_data. do 3 keep_call.
Qed.

Lemma keeps_push_back v : keeps (A := A) (cplus_llist_push_back me v).
Proof.
  unfold cplus_llist_push_back, cplus_llist_push_at, cplus_llist_get_size, check_if, get_size.
  do 3 keep_call.
Qed.

(** ** The comparator *)

(** An object whose key, if it has one, is a string. *)
Definition readable (w : Data.world) (p : Z) : Prop :=
  p ≠ 0 ∧ ∃ d, Data.objs w !! p = Some d ∧ Data.type d = Data.OBJ_TYPE
    ∧ ∀ b, Data.key d = Some b → is_Some (cstr (Data.bytes b)).

Definition key_at (w : Data.world) (p : Z) : option (list Z) :=
  d ← Data.objs w !! p; b ← Data.key d; cstr (Data.bytes b).

Definition hit (w : Data.world) (key : list Z) (p : Z) : bool :=
  bool_decide (key_at w p = Some key).

(** What the comparator answers. *)
Definition compare (w : Data.world) (key : list Z) (p : Z) : Z :=
  match key_at w p with Some k => strcmp k key | None => 1 end.

Lemma strcmp_0 a b : text a → text b → strcmp a b = 0 ↔ a = b.
Proof.
  revert b. induction a as [|x a IH]; intros [|y b] Ha Hb; simpl.
  - done.
  - apply Forall_cons in Hb as [Hb _]. split; [lia|done].
  - apply Forall_cons in Ha as [Ha _]. split; [lia|done].
  - apply Forall_cons in Ha as [_ Ha]. apply Forall_cons in Hb as [_ Hb].
    destruct (Z.eqb_spec x y) as [<-|Hn].
    + rewrite (IH b Ha Hb). split; [by intros ->|by intros [= ->]].
    + split; [lia|by intros [= ? _]].
Qed.

Lemma compare_hit w key p : text key → (compare w key p =? 0) = hit w key p.
Proof.
  intros Hk. unfold compare, hit. destruct (key_at w p) as [k|] eqn:E.
  - assert (text k) as Ht.
    { unfold key_at in E. destruct (Data.objs w !! p) as [d|]; [|done]. simpl in E.
      destruct (Data.key d) as [b|]; [|done]. simpl in E. by eapply cstr_text. }
    apply eq_true_iff_eq. rewrite Z.eqb_eq, bool_decide_eq_true, strcmp_0 by done. naive_solver.
  - by rewrite bool_decide_false by done.
Qed.

Lemma get_key_run w p d :
  p ≠ 0 → Data.objs w !! p = Some d → Data.type d = Data.OBJ_TYPE →
  Data.cplus_data_get_key p w = Done (Data.key d, w).
Proof.
  intros Hp Hd Hty.
  assert (Hf : ∀ B (f : Data.data → B), Data.field p f w = Done (f d, w)).
  { intros B f. unfold Data.field, deref. by rewrite Hd. }
  unfold Data.cplus_data_get_key, Data.CHECK_OBJECT_TYPE. rewrite (proj2 (Z.eqb_neq p 0)) by done.
  rewrite (bind_Done _ _ w tt w); [apply Hf|].
  rewrite (bind_Done _ _ _ _ _ (Hf _ Data.type)), Hty. done.
Qed.

Lemma find_key_run w key p e :
  readable w p →
  find_node_by_key (Some key) p (Data.with_errno e w) =
    Done (compare w key p, Data.with_errno e w).
Proof.
  intros (Hp & d & Hd & Hty & Hk). unfold find_node_by_key.
  rewrite (bind_Done _ _ _ _ _ (get_key_run (Data.with_errno e w) p d Hp Hd Hty)).
  unfold compare, key_at. rewrite Hd. simpl. destruct (Data.key d) as [b|]; [|done].
  destruct (Hk b eq_refl) as [k Ek]. simpl. rewrite Ek.
  unfold Data.string_of. erewrite bind_Done; [done|]. unfold deref. simpl. by rewrite Ek.
Qed.

Lemma with_world_same s : with_world (Data.with_errno (errno s) (world_of s)) s = s.
Proof. by destruct s as [l n [a [o h j e']] e]. Qed.

Lemma on_data_find key p s :
  readable (world_of s) p →
  on_data (find_node_by_key (Some key) p) s = Done (compare (world_of s) key p, s).
Proof.
  intros Hr. unfold on_data. rewrite find_key_run by done. by rewrite with_world_same.
Qed.

(** ** The search *)

(** Two programs agree when their first steps do, and then the rest. *)
Lemma bind_ext {X Y B} (m1 m2 : C X B) (f1 f2 : B → C X Y) (t : X) :
  m1 t = m2 t → (∀ b t1, m2 t = Done (b, t1) → f1 b t1 = f2 b t1) →
  (m1 ≫= f1) t = (m2 ≫= f2) t.
Proof.
  intros Hm Hf. unfold mbind, C_bind. rewrite Hm. destruct (m2 t) as [[b t1]| | |]; auto.
Qed.

Section ext.
Context {R : Type} (m : gmap Z llist_node) (x : A * Data.world) (visit1 visit2 : Z → M (option R)).

Definition here_is s : Prop := nodes s = m ∧ src s = x.

Context (Hsame : ∀ p s, here_is s → visit1 p s = visit2 p s).
Context (Hmiss : ∀ p s s', here_is s → visit2 p s = Done (None, s') → here_is s').

Lemma load_here {B} p (f : llist_node → B) s b s' : load p f s = Done (b, s') → s' = s.
Proof. unfold load, deref. destruct (f <$> nodes s !! p); by intros; simplify_eq. Qed.

Lemma at_current_here s p s' : at_current s = Done (p, s') → s' = s.
Proof.
  unfold at_current, field. crun. destruct (current (ll s)); simpl; try apply load_here.
  by intros [= _ ->].
Qed.

Lemma forward_here s b s' : here_is s → forward s = Done (b, s') → here_is s'.
Proof.
  intros [<- <-]. unfold forward, at_current, load, field, upd. crun. simpl.
  destruct (current (ll s)) as [|q|q]; simpl.
  - destruct (nodes s !! head (ll s)); simpl; [|done]. by intros [= _ <-].
  - destruct (nodes s !! q) as [nd|]; simpl; [|done].
    destruct (nodes s !! next nd); simpl; [|done]. by intros [= _ <-].
  - destruct (nodes s !! q) as [nd|]; simpl; [|done].
    destruct (nodes s !! prev nd); simpl; [|done]. by intros [= _ <-].
Qed.

Lemma scan_loop_same fuel s : here_is s → scan_loop fuel visit1 s = scan_loop fuel visit2 s.
Proof.
  revert s. induction fuel as [|fuel IH]; intros s Hs; simpl.
  all: apply bind_ext; [done|]; intros p ? ->%at_current_here; destruct (p =? 0); [done|].
  all: apply bind_ext; [by apply Hsame|]; intros [r|] s2 Hs2; [done|].
  all: apply (Hmiss p s s2 Hs) in Hs2; clear Hs s; rename Hs2 into Hs.
  all: apply bind_ext; [done|]; intros q ? ->%at_current_here.
  all: apply bind_ext; [done|]; intros n ? ->%load_here; destruct (n =? 0); [done|].
  { done. }
  apply bind_ext; [done|]. intros b s4 Hs4. apply IH. by eapply forward_here.
Qed.

Lemma scan_same s : here_is s → scan visit1 s = scan visit2 s.
Proof. intros [<- <-]. unfold scan. crun. apply scan_loop_same. done. Qed.

End ext.

(** Every item of the list can be asked for its key. *)
Definition askable s : Prop :=
  ∀ p nd, nodes s !! p = Some nd → data nd = 0 ∨ readable (world_of s) (data nd).

Lemma askable_here s1 s : here_is (nodes s) (src s) s1 → askable s → askable s1 ∧ world_of s1 = world_of s.
Proof. intros [Hn Hs]. unfold askable, world_of. by rewrite Hn, Hs. Qed.

Lemma list_lock_here f s b s' : lock_op f s = Done (b, s') → here_is (nodes s) (src s) s'.
Proof. unfold lock_op. destruct (f _) as [[x [l e]]| | |]; try done. by intros [= _ <-]. Qed.

Lemma locked_same {B} x (body1 body2 : M B) s :
  (∀ s', here_is (nodes s) (src s) s' → body1 s' = body2 s') →
  locked me x body1 s = locked me x body2 s.
Proof.
  intros Hb. unfold locked. apply bind_ext; [done|]. intros b s1 Hs1%list_lock_here.
  apply bind_ext; [by apply Hb|done].
Qed.

Lemma list_check_here s b s' : CHECK_OBJECT_TYPE s = Done (b, s') → s' = s.
Proof.
  unfold CHECK_OBJECT_TYPE, field, assert_c, abort. crun. destruct (alive (ll s)); [|done].
  crun. destruct (type (ll s) =? OBJ_TYPE); [|done]. by intros [= _ ->].
Qed.

(** What both searches do with a node. *)
Lemma visit_same {R} (found : M (option R)) w key p s :
  askable s → world_of s = w →
  (v ← get_data p;
   if v =? 0 then mret None
   else c ← on_data (find_node_by_key (Some key) v); if c =? 0 then found else mret None) s =
  (v ← get_data p; if matches (compare w key) v then found else mret None) s.
Proof.
  intros Ha <-. apply bind_ext; [done|]. intros v s' E. assert (s' = s) as -> by (by eapply load_here).
  unfold get_data, load, deref in E. unfold matches.
  destruct (nodes s !! p) as [nd|] eqn:En; simpl in E; [|done]. simplify_eq.
  destruct (Z.eqb_spec (data nd) 0) as [|Hv]; [done|].
  destruct (Ha p nd En) as [|Hr]; [done|].
  by rewrite (bind_Done _ _ _ _ _ (on_data_find key _ s Hr)).
Qed.

Lemma visit_key_miss {R} (found : M R) (f : Z → bool) m x p s s' :
  here_is m x s →
  (v ← get_data p; if f v then found ≫= (λ q, mret (Some q)) else mret None) s = Done (None, s') →
  here_is m x s'.
Proof.
  intros Hs E. unfold mbind at 1, C_bind at 1 in E.
  destruct (get_data p s) as [[v s1]| | |] eqn:E1; try done.
  assert (s1 = s) as -> by (by eapply load_here). destruct (f v); [|by injection E as <-].
  unfold mbind, C_bind in E. by destruct (found s) as [[]| | |].
Qed.

Lemma get_if_key_eq key s :
  askable s →
  get_if_key me key s = cplus_llist_get_if me (Some (compare (world_of s) key)) s.
Proof.
  intros Ha. unfold get_if_key, cplus_llist_get_if. apply bind_ext; [done|]. intros b s1 E1.
  apply list_check_here in E1 as ->.
  simpl. apply locked_same. intros s2 Hs2. destruct (askable_here _ _ Hs2 Ha) as [Ha2 Hw2].
  unfold data_of. apply bind_ext; [|done]. unfold get_node_if, Llist.get_node_if.
  apply bind_ext; [|done]. apply (scan_same (nodes s) (src s)); [..|done].
  - intros p s3 Hs3. destruct (askable_here _ _ Hs3 Ha) as [Ha3 Hw3]. by apply visit_same.
  - intros p s3 s4 Hs3. by apply visit_key_miss.
Qed.

Lemma pop_if_key_eq key s :
  askable s →
  pop_if_key me key s = cplus_llist_pop_if me (Some (compare (world_of s) key)) s.
Proof.
  intros Ha. unfold pop_if_key, cplus_llist_pop_if. apply bind_ext; [done|].
  intros b s1 ->%list_check_here.
  simpl. apply locked_same. intros s2 Hs2. unfold data_of_freed.
  apply bind_ext; [|done]. unfold pop_if, Llist.pop_if.
  apply bind_ext; [done|]. intros u s3 E3.
  assert (here_is (nodes s) (src s) s3) as Hs3.
  { revert E3. unfold reset_cur_node, upd. crun. by intros [= _ <-]. }
  apply bind_ext; [done|]. intros e s4 E4.
  assert (s4 = s3) as ->.
  { revert E4. unfold is_empty, field. crun. by intros [= _ ->]. }
  destruct e; [done|]. apply bind_ext; [|done]. apply (scan_same (nodes s) (src s)); [..|done].
  - intros p s5 Hs5. destruct (askable_here _ _ Hs5 Ha) as [Ha5 Hw5]. by apply visit_same.
  - intros p s5 s6 Hs5 E6.
    apply (visit_key_miss (target ← at_current; q ← at_current; remove_node q;; mret target)
             (matches (compare (world_of s) key)) _ _ p s5); [done|].
    rewrite <- E6. apply bind_ext; [done|]. intros v t _. destruct (matches _ v); [|done].
    rewrite run_assoc. apply bind_ext; [done|]. intros q t1 _. rewrite run_assoc. apply bind_ext; [done|].
    intros q' t2 _. by rewrite run_assoc.
Qed.

End calls.
End KeyedInv.
