(* ===== verification/KeyedSpec.v ===== *)
(** * KeyedSpec: the helpers of llist.c keep a map from keys to values

    [world_ok] is the invariant of all the data objects together: the blocks in
    use are those of the objects and nothing else.  [represents s m] says that
    the list and its objects hold the finite map [m]; the lemmas say that each
    helper answers and changes the list as the map does. *)

From S2P Require Import Prelude Allocator Spinlock Locks Zlist Stdio Memmgr Llist.
From S2P Require Import LlistInv LlistSpec Data DataConv DataInv DataSafe Keyed KeyedInv.
From stdpp Require Import base numbers list option gmap sets fin_maps.
From Stdlib Require Import ZArith Lia.
Open Scope Z_scope.

Module KeyedSpec.
Import Stdio Data DataConv DataInv DataSafe.

(** ** All the objects together *)

Definition blocks (os : gmap Z data) : list Z := map_to_list os ≫= λ x, x.1 :: owned x.2.

Definition world_ok (w : world) : Prop :=
  fits_list (blocks (objs w)) (heap w) ∅ ∧ map_Forall (λ p d, p ≠ 0 ∧ obj_ok d) (objs w).

Lemma blocks_insert os p d :
  os !! p = None → blocks (<[p := d]> os) ≡ₚ (p :: owned d) ++ blocks os.
Proof. intros Hp. unfold blocks. by rewrite map_to_list_insert. Qed.

Lemma blocks_at os p d : os !! p = Some d → blocks os ≡ₚ (p :: owned d) ++ blocks (delete p os).
Proof.
  intros Hp. rewrite <- (blocks_insert (delete p os) p d) by apply lookup_delete_eq.
  by rewrite insert_delete_id.
Qed.

Lemma in_blocks os p : is_Some (os !! p) → p ∈ blocks os.
Proof. intros [d Hd]. rewrite (blocks_at os p d Hd). set_solver. Qed.

Lemma fits_app l1 l2 h :
  fits_list (l1 ++ l2) h ∅ ↔ NoDup l2 ∧ fits_list l1 h (list_to_set l2).
Proof.
  unfold fits_list. rewrite NoDup_app, list_to_set_app_L, !union_empty_r_L.
  assert (∀ p, p ∈ (list_to_set l2 : gset Z) ↔ p ∈ l2) as Hl by set_solver.
  setoid_rewrite Hl. split.
  - by intros ((? & ? & ?) & _ & ?).
  - intros (? & ? & ? & ?). split_and!; [done..|set_solver|done].
Qed.

(** One object and the frame of the others. *)
Lemma world_at w p d :
  world_ok w → objs w !! p = Some d →
  w = here p (delete p (objs w)) (junk w) d (heap w) (errno w)
  ∧ p ≠ 0 ∧ obj_ok d ∧ fits p d (heap w) (list_to_set (blocks (delete p (objs w)))).
Proof.
  intros [Hf Ha] Hd. destruct (Ha p d Hd) as [Hp Hok].
  split; [|split; [done|split; [done|]]].
  - destruct w as [os h j e]. unfold here. simpl in *. by rewrite insert_delete_id.
  - apply fits_app. apply (fits_perm _ _ _ _ (blocks_at _ _ _ Hd)), Hf.
Qed.

Lemma world_put os p d j h e :
  os !! p = None → p ≠ 0 → obj_ok d → map_Forall (λ p d, p ≠ 0 ∧ obj_ok d) os →
  NoDup (blocks os) → fits p d h (list_to_set (blocks os)) → world_ok (here p os j d h e).
Proof.
  intros Hos Hp Hok Ha Hnd Hf. split; simpl.
  - eapply fits_perm; [symmetry; by apply blocks_insert|]. by apply fits_app.
  - by apply map_Forall_insert.
Qed.

Lemma others_ok w p :
  world_ok w → map_Forall (λ p d, p ≠ 0 ∧ obj_ok d) (delete p (objs w))
  ∧ NoDup (blocks (delete p (objs w))).
Proof.
  intros [Hf Ha]. split; [by apply map_Forall_delete|]. destruct (objs w !! p) as [d|] eqn:Hd.
  - apply (fits_perm _ _ _ _ (blocks_at _ _ _ Hd)) in Hf as Hf2. by apply fits_app in Hf2 as [? _].
  - rewrite delete_id by done. apply Hf.
Qed.

Lemma world_heap w : world_ok w → Heap.heap_ok (heap w) (list_to_set (blocks (objs w))).
Proof. intros [(_ & _ & Hh) _]. by rewrite union_empty_r_L in Hh. Qed.

Lemma world_bare os h j e :
  map_Forall (λ p d, p ≠ 0 ∧ obj_ok d) os → NoDup (blocks os) →
  Heap.heap_ok h (list_to_set (blocks os)) → world_ok (World os h j e).
Proof.
  intros Ha Hn Hh. split; [|done]. split; [done|]. split; [set_solver|]. by rewrite union_empty_r_L.
Qed.

Lemma world_errno w e : world_ok w → world_ok (with_errno e w).
Proof. by destruct w. Qed.

(** ** Calls of data.c on one object of many *)

(** The object at [p] becomes [f d], the others stay. *)
Definition changed (w : world) (p : Z) (d : data) (w' : world) : Prop :=
  objs w' = <[p := d]> (objs w) ∧ world_ok w'.

Lemma set_scalar_all w p d z :
  world_ok w → objs w !! p = Some d → scalar_type (dtype d) = true → scalar_ok (dtype d) z →
  ∃ w', cplus_data_set_value p (arg (dtype d) z) None w = Done (CPLUS_SUCCESS, w')
    ∧ changed w p (with_scalar z d) w' ∧ errno w' = errno w.
Proof.
  intros Hw Hd Ht Hz. destruct (world_at w p d Hw Hd) as (Ew & Hp & Hok & Hf).
  destruct (set_scalar_spec p (delete p (objs w)) (junk w) Hp d (heap w) (errno w) z None Hok Ht Hz)
    as (r & d' & h' & e' & E & -> & -> & -> & ->).
  destruct (with_scalar_ok p z d (heap w) _ Hok Ht Hz Hf) as [Hok' Hf'].
  destruct (others_ok w p Hw) as [Ha Hn].
  eexists. rewrite Ew at 1. split; [exact E|]. split; [|done]. split.
  - simpl. by rewrite insert_delete_eq.
  - apply world_put; [apply lookup_delete_eq|done..].
Qed.

Lemma delete_all w p d :
  world_ok w → objs w !! p = Some d →
  ∃ w', cplus_data_delete p w = Done (CPLUS_SUCCESS, w') ∧ objs w' = delete p (objs w)
    ∧ world_ok w' ∧ errno w' = errno w.
Proof.
  intros Hw Hd. destruct (world_at w p d Hw Hd) as (Ew & Hp & Hok & Hf).
  destruct (delete_spec p (delete p (objs w)) (junk w) Hp d (heap w) (errno w) _ Hok Hf)
    as (h' & E & Hh). destruct (others_ok w p Hw) as [Ha Hn].
  eexists. rewrite Ew at 1. split; [exact E|]. simpl.
  rewrite delete_id by apply lookup_delete_eq. split; [done|]. split; [|done]. by apply world_bare.
Qed.

(** What a constructor leaves among the objects. *)
Lemma made_all w t P klen k o :
  world_ok w → made (objs w) (junk w) (list_to_set (blocks (objs w))) t P klen k o →
  ∃ r w', o = Done (r, w') ∧ world_ok w' ∧
    ((r = 0 ∧ objs w' = objs w)
     ∨ (r ≠ 0 ∧ objs w !! r = None ∧ ∃ d, objs w' = <[r := d]> (objs w) ∧ type d = OBJ_TYPE
          ∧ dtype d = t ∧ P (value d) ∧ has_key d klen k)).
Proof.
  intros Hw (p & h' & e' & Hm). destruct (others_ok w p Hw) as [_ _].
  destruct Hw as [(Hn & _) Ha]. destruct Hm as [[-> Hh] | (Hp & HpF & d & -> & Hok & Hf & Ht & HP & Hk)].
  - eexists _, _. split; [done|]. split; [by apply world_bare|]. by left.
  - assert (objs w !! p = None) as Hnp.
    { destruct (objs w !! p) eqn:E; [|done]. destruct HpF.
      apply elem_of_list_to_set, in_blocks. by rewrite E. }
    eexists _, _. split; [done|]. split; [by apply world_put|]. right.
    split; [done|]. split; [done|]. exists d. split_and!; try done. apply Hok.
Qed.

Lemma has_key_cstr d key klen :
  text key → 0 < klen → klen = zlen key → has_key d klen (Some (key ++ [0])) →
  ∃ b, Data.key d = Some b ∧ cstr (bytes b) = Some key.
Proof.
  intros Ht Hl ->. unfold has_key. rewrite (proj2 (Z.ltb_lt _ _)) by done.
  intros (b & Hb & E). exists b. split; [done|].
  rewrite (take_ge (key ++ [0])) in E by (rewrite length_app; unfold zlen; simpl; lia).
  rewrite <- (take_drop (Z.to_nat (zlen key + 1)) (bytes b)), E, <- app_assoc. by apply cstr_app.
Qed.

Lemma new_scalar_all w t z key :
  world_ok w → scalar_type t = true → scalar_ok t z →
  text key → 0 < zlen key → zlen key + 1 ≤ RSIZE_MAX_MEM →
  ∃ r w', cplus_data_new_ex (type_code t) (arg t z) None (zlen key) (Some (key ++ [0])) w = Done (r, w')
    ∧ world_ok w' ∧
    ((r = 0 ∧ objs w' = objs w)
     ∨ (r ≠ 0 ∧ objs w !! r = None ∧ ∃ d, objs w' = <[r := d]> (objs w) ∧ type d = OBJ_TYPE
          ∧ dtype d = t ∧ value d = Scalar z ∧ ∃ b, Data.key d = Some b ∧ cstr (bytes b) = Some key)).
Proof.
  intros Hw Ht Hz Hk Hl Hm.
  destruct (made_all w t (λ v, v = Scalar z) (zlen key) (Some (key ++ [0]))
    (cplus_data_new_ex (type_code t) (arg t z) None (zlen key) (Some (key ++ [0])) w) Hw)
    as (r & w' & E & Hw' & Hr).
  - replace w with (World (objs w) (heap w) (junk w) (errno w)) at 4 by (by destruct w).
    apply initialize_spec; [by apply type_code_inv|by apply world_heap| | |].
    + intros p Hp. by apply elem_of_list_to_set, in_blocks.
    + intros p h' e' Hp Hf.
      destruct (set_scalar_spec p (objs w) (junk w) Hp (clear_object t) h' e' z None
        (clear_object_ok t)) as (r & d' & h2 & e2 & E & -> & -> & -> & ->); [by destruct t|by destruct t|].
      replace (dtype (clear_object t)) with t in E by (by destruct t).
      eexists _, _, _, _. split; [exact E|].
      destruct (with_scalar_ok p z (clear_object t) h' (list_to_set (blocks (objs w))) (clear_object_ok t))
        as [Hok' Hf']; [by destruct t..|].
      split_and!; try done; by destruct t.
    + split; [done|]. rewrite zlen_app. done.
  - exists r, w'. split; [done|]. split; [done|].
    destruct Hr as [?|(? & ? & d & ? & ? & ? & ? & Hkey)]; [by left|right].
    split; [done|]. split; [done|]. exists d. split_and!; try done.
    by apply (has_key_cstr d key (zlen key)).
Qed.

(** ** The list and its objects *)

Section map.
Context {A : Type} `{Allocator A} (me : nat).
Import Llist LlistInv LlistSpec Keyed KeyedInv.

Notation S := (st (A * world)).
Implicit Types (s : S) (v : view) (m : gmap (list Z) (data_type * Z)).

(** The object at [p] holds the scalar [z] of type [t] under [key]. *)
Definition entry (w : world) (p : Z) (key : list Z) (tz : data_type * Z) : Prop :=
  ∃ d, objs w !! p = Some d ∧ key_at w p = Some key ∧ scalar_type (dtype d) = true
    ∧ dtype d = tz.1 ∧ value d = Scalar tz.2.

Record holds_map s v m : Prop := HoldsMap {
  hm_models : models s v;
  hm_world : world_ok (world_of s);
  hm_nodup : NoDup (items v);
  hm_item p : p ∈ items v → ∃ key tz, entry (world_of s) p key tz ∧ m !! key = Some tz;
  hm_key key : is_Some (m !! key) → ∃ p, p ∈ items v ∧ key_at (world_of s) p = Some key;
  hm_once p q key : p ∈ items v → q ∈ items v →
    key_at (world_of s) p = Some key → key_at (world_of s) q = Some key → p = q }.

Definition represents s m : Prop := ∃ v, holds_map s v m.

Lemma models_world w s v : models s v → models (with_world w s) v.
Proof.
  intros (a & (Hs & Hc) & Hl). exists a. split; [|done]. split; [|done].
  destruct Hs. by constructor.
Qed.

(** A call of data.c on the joint state. *)
Lemma on_data_ok {B} (f : C world B) s x w' :
  f (Data.with_errno (errno s) (world_of s)) = Done (x, w') → world_ok w' →
  ∃ s', on_data f s = Done (x, s') ∧ objs (world_of s') = objs w' ∧ world_ok (world_of s')
    ∧ ∀ v, models s v → models s' v.
Proof.
  intros E Hw. exists (with_world w' s). unfold on_data. rewrite E. split; [done|].
  split; [done|]. split; [by apply (world_errno w')|]. intros v. apply models_world.
Qed.

Lemma holds_readable s v m p : holds_map s v m → p ∈ items v → readable (world_of s) p.
Proof.
  intros Hm Hp. destruct (hm_item _ _ _ Hm p Hp) as (key & tz & (d & Hd & Hk & _) & _).
  destruct (proj2 (hm_world _ _ _ Hm) p d Hd) as [Hne Hok]. split; [done|]. exists d.
  split; [done|]. split; [apply Hok|]. intros b Hb. unfold key_at in Hk.
  rewrite Hd in Hk. simpl in Hk. rewrite Hb in Hk. simpl in Hk. by rewrite Hk.
Qed.

Lemma holds_askable s v m : holds_map s v m → askable s.
Proof.
  intros Hm p nd Hp. right. destruct (hm_models _ _ _ Hm) as (a & (Hs & _) & _).
  assert (p ∈ a) as (j & Hj & <-)%elem_zat.
  { assert (p ∈ dom (nodes s)) as Hd by (by apply elem_of_dom; exists nd).
    rewrite (sh_dom _ _ _ _ Hs) in Hd. set_solver. }
  destruct (shape_at _ s a _ j Hs Hj) as [E _]. rewrite E in Hp. injection Hp as <-. simpl.
  apply (holds_readable s v m); [done|]. apply zat_elem. by rewrite (sh_len _ _ _ _ Hs).
Qed.

(** What the comparator finds. *)
Lemma holds_search s v m key :
  holds_map s v m → text key →
  match m !! key with
  | None => zfind (matches (compare (world_of s) key)) (items v) = None
  | Some tz => ∃ j, zfind (matches (compare (world_of s) key)) (items v) = Some j
      ∧ 0 ≤ j < zlen (items v) ∧ entry (world_of s) (zat (items v) j) key tz
  end.
Proof.
  intros Hm Ht. set (w := world_of s).
  assert (Hit : ∀ p, p ∈ items v → matches (compare w key) p = true ↔ key_at w p = Some key).
  { intros p Hp. destruct (holds_readable s v m p Hm Hp) as [Hne _]. unfold matches.
    rewrite (proj2 (Z.eqb_neq p 0)) by done. rewrite compare_hit by done. apply bool_decide_eq_true. }
  assert (Hin : ∀ p tz, p ∈ items v → key_at w p = Some key → m !! key = Some tz → entry w p key tz).
  { intros p tz Hp Hk Htz. destruct (hm_item _ _ _ Hm p Hp) as (key' & tz' & He & Htz').
    assert (key' = key) as -> by (destruct He as (d & _ & Hk' & _); fold w in Hk'; congruence).
    by assert (tz' = tz) as -> by congruence. }
  destruct (zfind (matches (compare w key)) (items v)) as [j|] eqn:E.
  - apply zfind_Some in E as (Hj & Hmt & _). pose proof (zat_elem _ _ Hj) as Hp.
    apply Hit in Hmt; [|done].
    destruct (hm_item _ _ _ Hm _ Hp) as (key' & tz & He & Htz).
    assert (key' = key) as -> by (destruct He as (d & _ & Hk' & _); fold w in Hk'; congruence).
    rewrite Htz. by exists j.
  - destruct (m !! key) as [tz|] eqn:Em; [|done].
    destruct (hm_key _ _ _ Hm key) as (p & Hp & Hk); [by rewrite Em|].
    pose proof (proj2 (Hit p Hp) Hk) as Hmt. apply elem_zat in Hp as (j & Hj & <-).
    by rewrite (proj1 (zfind_None _ _) E j Hj) in Hmt.
Qed.

Lemma holds_map_same s v m s' v' :
  holds_map s v m → models s' v' → items v' = items v → world_of s' = world_of s → holds_map s' v' m.
Proof. intros [] Hm Hi Hw. split; rewrite ?Hi, ?Hw; done. Qed.

Lemma yields_models {B} (f : C S B) s v r eo v' :
  models s v → yields f s r eo v' → ∃ s', f s = Done (r, s') ∧ models s' v'.
Proof.
  intros (a & _ & Hl) (s1 & E & [a1 Hr1] & Hlk & _). exists s1. split; [done|].
  exists a1. split; [done|]. by rewrite Hlk.
Qed.

Lemma get_if_key_run s v m key :
  holds_map s v m → text key →
  ∃ r s' v', get_if_key me key s = Done (r, s') ∧ holds_map s' v' m ∧ items v' = items v
    ∧ world_of s' = world_of s
    ∧ match m !! key with None => r = 0 | Some tz => r ∈ items v ∧ entry (world_of s) r key tz end.
Proof.
  intros Hm Ht. pose proof (holds_search s v m key Hm Ht) as Hf.
  rewrite (get_if_key_eq me key s (holds_askable _ _ _ Hm)).
  destruct (get_if_does me s v (Some (compare (world_of s) key)) (hm_models _ _ _ Hm))
    as (r & eo & v' & Hs & Hy).
  destruct (yields_models _ _ _ _ _ _ (hm_models _ _ _ Hm) Hy) as (s' & E & Hm').
  pose proof (keeps_get_if me _ _ _ _ E) as Hw. exists r, s', v'.
  unfold as_spec in Hs. simpl in Hs. unfold search in Hs.
  assert (items v' = items v) as Hi.
  { destruct (zfind _ _); by injection Hs as _ _ <-. }
  split; [done|]. split; [by eapply holds_map_same|]. split; [done|]. split; [done|].
  destruct (m !! key) as [tz|].
  - destruct Hf as (j & Ej & Hj & He). rewrite Ej in Hs. injection Hs as <- _ _.
    split; [by apply zat_elem|done].
  - rewrite Hf in Hs. by injection Hs.
Qed.

Lemma pop_if_key_run s v m key :
  holds_map s v m → text key →
  ∃ r s' v', pop_if_key me key s = Done (r, s') ∧ models s' v' ∧ world_of s' = world_of s
    ∧ match m !! key with
      | None => r = 0 ∧ items v' = items v
      | Some tz => items v ≡ₚ r :: items v' ∧ entry (world_of s) r key tz
      end.
Proof.
  intros Hm Ht. pose proof (holds_search s v m key Hm Ht) as Hf.
  rewrite (pop_if_key_eq me key s (holds_askable _ _ _ Hm)).
  destruct (pop_if_does me s v (Some (compare (world_of s) key)) (hm_models _ _ _ Hm))
    as (r & eo & v' & Hs & Hy).
  destruct (yields_models _ _ _ _ _ _ (hm_models _ _ _ Hm) Hy) as (s' & E & Hm').
  pose proof (keeps_pop_if me _ _ _ _ E) as Hw. exists r, s', v'.
  split; [done|]. split; [done|]. split; [done|].
  unfold as_spec in Hs. simpl in Hs. unfold search in Hs.
  destruct (m !! key) as [tz|].
  - destruct Hf as (j & Ej & Hj & He). rewrite Ej in Hs. injection Hs as <- _ <-.
    split; [by apply zdel_Permutation|done].
  - rewrite Hf in Hs. by injection Hs as <- _ <-.
Qed.

(** ** Find and remove *)

Lemma find_map s m key :
  represents s m → text key →
  ∃ r s', cplus_llist_find_data me (Some key) s = Done (r, s') ∧ represents s' m
    ∧ match m !! key with None => r = 0 | Some tz => entry (world_of s') r key tz end.
Proof.
  intros [v Hm] Ht. unfold cplus_llist_find_data, check_fn.
  rewrite (check_type _ _ v (hm_models _ _ _ Hm)).
  destruct (get_if_key_run s v m key Hm Ht) as (r & s' & v' & E & Hm' & _ & Hw & Hr).
  exists r, s'. split; [done|]. split; [by exists v'|]. rewrite Hw. by destruct (m !! key); destruct_and?.
Qed.

Lemma entry_same w w' p key tz :
  objs w' !! p = objs w !! p → entry w p key tz → entry w' p key tz.
Proof. intros E. unfold entry, key_at. by rewrite E. Qed.
Lemma key_at_same w w' p : objs w' !! p = objs w !! p → key_at w' p = key_at w p.
Proof. intros E. unfold key_at. by rewrite E. Qed.
Lemma entry_key w p key tz : entry w p key tz → key_at w p = Some key.
Proof. by intros (d & ? & ? & _). Qed.

Lemma remove_map s m key :
  represents s m → text key →
  ∃ s', cplus_llist_remove_data me (Some key) s = Done (CPLUS_SUCCESS, s') ∧ represents s' (delete key m).
Proof.
  intros [v Hm] Ht. unfold cplus_llist_remove_data, check_fn.
  destruct (pop_if_key_run s v m key Hm Ht) as (r & s1 & v1 & E & Hm1 & Hw & Hr).
  rewrite (bind_Done _ _ _ _ _ E). destruct (m !! key) as [tz|] eqn:Em.
  2: { destruct Hr as [-> Hi]. exists s1. split; [done|]. rewrite delete_id by done.
       exists v1. by eapply holds_map_same. }
  destruct Hr as [Hp He]. pose proof He as (d & Hd & _).
  assert (r ∈ items v) as Hrv by (rewrite Hp; set_solver).
  assert (r ≠ 0) as Hr0 by apply (holds_readable s v m r Hm Hrv).
  destruct (delete_all (Data.with_errno (errno s1) (world_of s1)) r d) as (w2 & E2 & Ho & Hw2 & _);
    [by rewrite Hw; apply world_errno, (hm_world _ _ _ Hm)|by rewrite Hw|].
  destruct (on_data_ok _ _ _ _ E2 Hw2) as (s2 & E3 & Ho2 & Hw3 & Hk).
  rewrite (proj2 (Z.eqb_neq r 0)) by done. cbn [negb]. exists s2.
  rewrite run_assoc, (bind_Done _ _ _ _ _ E3). split; [done|].
  rewrite Ho in Ho2. cbn in Ho2. rewrite Hw in Ho2. exists v1.
  assert (Hnd : NoDup (r :: items v1)) by (rewrite <- Hp; apply (hm_nodup _ _ _ Hm)).
  apply NoDup_cons in Hnd as [Hnr Hnd].
  assert (Hsub : ∀ p, p ∈ items v1 → p ≠ r ∧ p ∈ items v
    ∧ objs (world_of s2) !! p = objs (world_of s) !! p).
  { intros p Hp1. assert (p ≠ r) by (by intros ->). rewrite Ho2, lookup_delete_ne by done.
    split_and!; [done|rewrite Hp; set_solver|done]. }
  assert (Hother : ∀ p, p ∈ items v1 → key_at (world_of s) p ≠ Some key).
  { intros p (Hne & Hpv & _)%Hsub Hkp. apply Hne.
    by apply (hm_once _ _ _ Hm p r key); [..|eapply entry_key]. }
  split; [by apply Hk|done|done| | |].
  - intros p Hp1. destruct (Hsub p Hp1) as (_ & Hpv & Hsame).
    destruct (hm_item _ _ _ Hm p Hpv) as (key' & tz' & He' & Hm').
    exists key', tz'. split; [by eapply entry_same|]. rewrite lookup_delete_ne; [done|].
    intros <-. by apply (Hother p Hp1), (entry_key _ _ _ tz').
  - intros key' [tz' [Hne Hm']%lookup_delete_Some].
    destruct (hm_key _ _ _ Hm key') as (p & Hpv & Hkp); [by rewrite Hm'|].
    assert (p ∈ items v1) as Hp1.
    { rewrite Hp in Hpv. apply elem_of_cons in Hpv as [->|]; [|done].
      apply entry_key in He. congruence. }
    exists p. split; [done|]. destruct (Hsub p Hp1) as (_ & _ & Ep). by rewrite (key_at_same _ _ _ Ep).
  - intros p q key' Hp1 Hq1. destruct (Hsub p Hp1) as (_ & Hpv & Ep), (Hsub q Hq1) as (_ & Hqv & Eq).
    rewrite (key_at_same _ _ _ Ep), (key_at_same _ _ _ Eq). by apply (hm_once _ _ _ Hm).
Qed.

(** ** Add *)

(** The objects of the list are as they were. *)
Lemma holds_map_others s v m s' v' :
  holds_map s v m → models s' v' → items v' = items v → world_ok (world_of s') →
  (∀ p, p ∈ items v → objs (world_of s') !! p = objs (world_of s) !! p) → holds_map s' v' m.
Proof.
  intros Hm Hm' Hi Hw Ho. split; rewrite ?Hi; try done; [apply Hm|..].
  - intros p Hp. destruct (hm_item _ _ _ Hm p Hp) as (key & tz & He & Hk). exists key, tz.
    split; [|done]. by eapply entry_same; [apply Ho|].
  - intros key Hk. destruct (hm_key _ _ _ Hm key Hk) as (p & Hp & E). exists p. split; [done|].
    by rewrite (key_at_same _ _ _ (Ho p Hp)).
  - intros p q key Hp Hq. rewrite (key_at_same _ _ _ (Ho p Hp)), (key_at_same _ _ _ (Ho q Hq)).
    by apply (hm_once _ _ _ Hm).
Qed.

Lemma entry_scalar w w' p d z key tz :
  objs w !! p = Some d → objs w' !! p = Some (with_scalar z d) → entry w p key tz →
  entry w' p key (tz.1, z).
Proof.
  intros Hd Hd' (d0 & Hd0 & Hk & Ht & Hty & _). exists (with_scalar z d).
  assert (d0 = d) as -> by congruence. split; [done|]. split; [|by destruct d].
  unfold key_at in *. rewrite Hd in Hk. by rewrite Hd'.
Qed.

Lemma holds_map_write s v m s' v' p d key tz z :
  holds_map s v m → models s' v' → items v' = items v → world_ok (world_of s') →
  p ∈ items v → objs (world_of s) !! p = Some d → entry (world_of s) p key tz →
  objs (world_of s') = <[p := with_scalar z d]> (objs (world_of s)) →
  holds_map s' v' (<[key := (tz.1, z)]> m) ∧ entry (world_of s') p key (tz.1, z).
Proof.
  intros Hm Hm' Hi Hw Hp Hd He Ho.
  assert (entry (world_of s') p key (tz.1, z)) as He'.
  { apply (entry_scalar (world_of s) _ p d); [done| |done]. by rewrite Ho, lookup_insert_eq. }
  split; [|done].
  assert (Hoth : ∀ q, q ≠ p → objs (world_of s') !! q = objs (world_of s) !! q).
  { intros q Hq. by rewrite Ho, lookup_insert_ne. }
  assert (Hkeys : ∀ q, key_at (world_of s') q = key_at (world_of s) q).
  { intros q. destruct (decide (q = p)) as [->|Hq]; [|by apply key_at_same, Hoth].
    by rewrite (entry_key _ _ _ _ He), (entry_key _ _ _ _ He'). }
  split; rewrite ?Hi; try done; [apply Hm|..].
  - intros q Hq. destruct (decide (q = p)) as [->|Hne].
    + exists key, (tz.1, z). by rewrite lookup_insert_eq.
    + destruct (hm_item _ _ _ Hm q Hq) as (key' & tz' & Hq' & Hk'). exists key', tz'.
      split; [by eapply entry_same; [apply Hoth|]|]. rewrite lookup_insert_ne; [done|].
      intros <-. apply Hne. apply (hm_once _ _ _ Hm q p key); [done..| |]; by eapply entry_key.
  - intros key' Hk'. destruct (decide (key' = key)) as [->|Hne].
    + exists p. split; [done|]. by eapply entry_key.
    + rewrite lookup_insert_ne in Hk' by done.
      destruct (hm_key _ _ _ Hm key' Hk') as (q & Hq & E). exists q. by rewrite Hkeys.
  - intros q q' key'. rewrite !Hkeys. apply (hm_once _ _ _ Hm).
Qed.

Lemma holds_map_snoc s v m s' v' r key tz :
  holds_map s v m → models s' v' → items v' = items v ++ [r] → world_ok (world_of s') →
  m !! key = None → objs (world_of s) !! r = None →
  (∀ q, q ≠ r → objs (world_of s') !! q = objs (world_of s) !! q) →
  entry (world_of s') r key tz → holds_map s' v' (<[key := tz]> m).
Proof.
  intros Hm Hm' Hi Hw Hk Hr Ho He.
  assert (Hin : ∀ p, p ∈ items v → p ≠ r ∧ objs (world_of s') !! p = objs (world_of s) !! p).
  { intros p Hp. destruct (hm_item _ _ _ Hm p Hp) as (? & ? & (d & Hd & _) & _).
    assert (p ≠ r) by (intros ->; congruence). split; [done|by apply Ho]. }
  assert (Hkey : ∀ p, p ∈ items v → key_at (world_of s') p = key_at (world_of s) p
      ∧ key_at (world_of s') p ≠ Some key).
  { intros p Hp. destruct (Hin p Hp) as [_ E]. rewrite (key_at_same _ _ _ E). split; [done|].
    destruct (hm_item _ _ _ Hm p Hp) as (key' & tz' & He' & Hk'). rewrite (entry_key _ _ _ _ He').
    intros [= ->]. congruence. }
  split; rewrite ?Hi; try done.
  - apply NoDup_app. split; [apply Hm|]. split; [|apply NoDup_singleton].
    intros p Hp ->%list_elem_of_singleton. by apply (Hin r Hp).
  - intros p [Hp | ->%list_elem_of_singleton]%elem_of_app.
    + destruct (hm_item _ _ _ Hm p Hp) as (key' & tz' & He' & Hk'). exists key', tz'.
      split; [by eapply entry_same; [apply Hin|]|]. rewrite lookup_insert_ne; [done|congruence].
    + exists key, tz. by rewrite lookup_insert_eq.
  - intros key' Hk'. setoid_rewrite elem_of_app. destruct (decide (key' = key)) as [->|Hne].
    + exists r. split; [right; set_solver|]. by eapply entry_key.
    + rewrite lookup_insert_ne in Hk' by done.
      destruct (hm_key _ _ _ Hm key' Hk') as (q & Hq & E). exists q. split; [by left|].
      by rewrite (proj1 (Hkey q Hq)).
  - intros p q key' [Hp | ->%list_elem_of_singleton]%elem_of_app
      [Hq | ->%list_elem_of_singleton]%elem_of_app E1 E2; [| | |done].
    + rewrite (proj1 (Hkey p Hp)) in E1. rewrite (proj1 (Hkey q Hq)) in E2. by apply (hm_once _ _ _ Hm p q key').
    + rewrite (entry_key _ _ _ _ He) in E2. injection E2 as <-. by destruct (Hkey p Hp).
    + rewrite (entry_key _ _ _ _ He) in E1. injection E1 as <-. by destruct (Hkey q Hq).
Qed.

Lemma check_run p d s :
  p ≠ 0 → objs (world_of s) !! p = Some d → Data.type d = Data.OBJ_TYPE →
  ∃ s', on_data (cplus_data_check p) s = Done (true, s') ∧ s' = s.
Proof.
  intros Hp Hd Ht. exists s. split; [|done]. unfold on_data, cplus_data_check.
  rewrite (proj2 (Z.eqb_neq p 0)) by done. unfold Data.field, deref, mbind, C_bind. simpl.
  rewrite Hd. simpl. rewrite Ht. simpl. by rewrite with_world_same.
Qed.

Lemma check_null_run s : on_data (cplus_data_check 0) s = Done (false, s).
Proof. unfold on_data, cplus_data_check. simpl. by rewrite with_world_same. Qed.

Lemma push_back_run s v r :
  models s v → r ≠ 0 → zlen (items v) + 1 < 2147483648 →
  ∃ x s' v', cplus_llist_push_back me r s = Done (x, s') ∧ models s' v' ∧ world_of s' = world_of s
    ∧ (x = CPLUS_SUCCESS ∧ items v' = items v ++ [r] ∨ x = CPLUS_FAIL ∧ items v' = items v).
Proof.
  intros Hm Hr Hl. destruct (exec_does me s v (PushBack r) Hm) as (x & eo & v' & Hq & Hy).
  { split; [|done]. intros j. simpl. rewrite (proj2 (Z.eqb_neq r 0)) by done. intros [= <-].
    split; [done|]. right. by left. }
  destruct (yields_models _ _ _ _ _ _ Hm Hy) as (s' & E & Hm'). exists x, s', v'.
  split; [done|]. split; [done|]. split; [by eapply keeps_push_back|].
  destruct Hq as [Hs | (_ & -> & _ & ->)]; [|by right]. left.
  simpl in Hs. unfold spec_push, out_of_interval in Hs.
  rewrite (proj2 (Z.eqb_neq r 0)) in Hs by done.
  pose proof (zlen_nonneg (items v)). rewrite (proj2 (Z.ltb_ge (zlen (items v)) 0)) in Hs by done.
  rewrite Z.ltb_irrefl in Hs. simpl in Hs. injection Hs as <- _ <-. split; [done|]. apply zins_zlen.
Qed.

Lemma holds_size s v m : holds_map s v m → zlen (items v) = count (ll s).
Proof.
  intros Hm. destruct (hm_models _ _ _ Hm) as (a & (Hs & _) & _).
  by rewrite (sh_count _ _ _ _ Hs), (sh_len _ _ _ _ Hs).
Qed.

(** A fresh entry: it goes to the end of the list, or stays outside. *)
Lemma add_fresh s v m t key z :
  holds_map s v m → m !! key = None → scalar_type t = true → scalar_ok t z →
  text key → 0 < zlen key → zlen key + 1 ≤ RSIZE_MAX_MEM → zlen (items v) + 1 < 2147483648 →
  ∃ r s' m', (data ← on_data (cplus_data_new_ex (type_code t) (arg t z) None (zlen key) (Some (key ++ [0])));
      (if negb (data =? 0) then cplus_llist_push_back me data;; mret tt else mret tt);;
      mret data) s = Done (r, s')
    ∧ represents s' m'
    ∧ (r = 0 ∧ m' = m
       ∨ entry (world_of s') r key (t, z) ∧ (m' = <[key := (t, z)]> m ∨ m' = m)).
Proof.
  intros Hm Hk Ht Hz Htx Hl1 Hl2 Hn.
  destruct (new_scalar_all (Data.with_errno (errno s) (world_of s)) t z key)
    as (r & w1 & E1 & Hw1 & Hr); [by apply world_errno, Hm|done..|].
  destruct (on_data_ok _ _ _ _ E1 Hw1) as (s1 & E2 & Ho1 & Hw1' & Hk1).
  specialize (Hk1 v (hm_models _ _ _ Hm)). rewrite (bind_Done _ _ _ _ _ E2). cbn [objs Data.with_errno] in Hr.
  destruct Hr as [[-> Ho] | (Hr & Hnew & d & Ho & Hty & Hdt & Hv & b & Hb & Hcs)]; rewrite Ho in Ho1.
  { exists 0, s1, m. split; [done|]. split; [|by left]. exists v.
    apply (holds_map_others s v m); try done. intros p Hp. by rewrite Ho1. }
  rewrite (proj2 (Z.eqb_neq r 0)) by done. cbn [negb].
  destruct (push_back_run s1 v r Hk1 Hr Hn) as (x & s2 & v2 & E3 & Hm2 & Hw2 & Hx).
  exists r, s2. rewrite !run_assoc, (bind_Done _ _ _ _ _ E3).
  assert (Hoth : ∀ q, q ≠ r → objs (world_of s2) !! q = objs (world_of s) !! q).
  { intros q Hq. by rewrite Hw2, Ho1, lookup_insert_ne. }
  assert (entry (world_of s2) r key (t, z)) as He.
  { exists d. rewrite Hw2. unfold key_at. rewrite Ho1, lookup_insert_eq. simpl. rewrite Hb. simpl.
    by rewrite Hdt. }
  assert (world_ok (world_of s2)) as Hwo by (by rewrite Hw2).
  destruct Hx as [[_ Hi] | [_ Hi]].
  - exists (<[key := (t, z)]> m). split; [done|]. split; [|by right; split; [|left]].
    exists v2. by apply (holds_map_snoc s v m _ _ r).
  - exists m. split; [done|]. split; [|by right; split; [|right]]. exists v2.
    apply (holds_map_others s v m); try done. intros p Hp. apply Hoth.
    destruct (hm_item _ _ _ Hm p Hp) as (? & ? & (d' & Hd' & _) & _). intros ->. congruence.
Qed.

Lemma add_map s m t key z :
  represents s m → scalar_type t = true → scalar_ok t z →
  text key → 0 < zlen key → zlen key + 1 ≤ RSIZE_MAX_MEM → count (ll s) + 1 < 2147483648 →
  (∀ tz, m !! key = Some tz → tz.1 = t) →
  ∃ r s' m', add_scalar me t (Some key) z s = Done (r, s') ∧ represents s' m'
    ∧ (r = 0 ∧ m !! key = None ∧ m' = m
       ∨ entry (world_of s') r key (t, z) ∧ (m' = <[key := (t, z)]> m ∨ m !! key = None ∧ m' = m)).
Proof.
  intros [v Hm] Ht Hz Htx Hl1 Hl2 Hn Hsame. unfold add_scalar, cplus_llist_add_data, check_fn, arg.
  rewrite (check_type _ _ v (hm_models _ _ _ Hm)).
  destruct (get_if_key_run s v m key Hm Htx) as (p & s1 & v1 & E & Hm1 & Hi & Hw & Hp).
  rewrite <- (holds_size _ _ _ Hm), <- Hi in Hn.
  rewrite (bind_Done _ _ _ _ _ E). destruct (m !! key) as [tz|] eqn:Ek.
  - destruct Hp as [Hpv He]. rewrite <- Hi in Hpv. rewrite <- Hw in He.
    pose proof He as (d & Hd & _ & Hst & Hdt & _).
    rewrite (Hsame _ eq_refl) in Hdt. subst t.
    destruct (holds_readable _ _ _ _ Hm1 Hpv) as (Hne & d' & Hd' & Hty & _).
    assert (d' = d) as -> by congruence.
    destruct (check_run p d s1 Hne Hd Hty) as (? & E2 & ->).
    rewrite (bind_Done _ _ _ _ _ E2). cbn [negb].
    destruct (set_scalar_all (Data.with_errno (errno s1) (world_of s1)) p d z)
      as (w2 & E3 & [Ho Hw2] & _); [by apply world_errno, Hm1|done..|].
    destruct (on_data_ok _ _ _ _ E3 Hw2) as (s2 & E4 & Ho2 & Hw2' & Hk2).
    rewrite Ho in Ho2. unfold arg in E4. rewrite (bind_Done _ _ _ _ _ E4).
    destruct (holds_map_write s1 v1 m s2 v1 p d key tz z) as [Hm2 He2]; try done.
    { apply Hk2, Hm1. }
    rewrite (Hsame _ eq_refl) in Hm2, He2.
    exists p, s2, (<[key := (dtype d, z)]> m). split; [done|]. split; [by exists v1|].
    right. split; [done|by left].
  - subst p. rewrite (bind_Done _ _ _ _ _ (check_null_run s1)). cbn [negb].
    destruct (add_fresh s1 v1 m t key z) as (r & s' & m' & E2 & Hr' & Hc); try done.
    exists r, s', m'. split; [done|]. split; [done|].
    destruct Hc as [[-> ->] | [? [->| ->]]]; [by left|right; split; [done|]..]; [by left|by right].
Qed.

End map.

End KeyedSpec.
