(* ===== verification/KeyedProps.v ===== *)
(** * KeyedProps: what the keyed helpers of llist.c do to a list

    The refinement of a finite map, and two ways the helpers break it. *)

From S2P Require Import Prelude Allocator Spinlock Locks Zlist Stdio Memmgr Llist LlistInv.
From S2P Require Import LlistSpec LlistProps Data DataConv DataInv DataSafe DataProps Keyed KeyedInv KeyedSpec.
From stdpp Require Import base numbers list option gmap sets fin_maps.
From Stdlib Require Import ZArith Lia.
Open Scope Z_scope.

Module KeyedProps.
Import Heap Stdio Data DataConv DataInv DataSafe Llist LlistInv LlistSpec Keyed KeyedInv KeyedSpec.

(** ** The map *)

Inductive request :=
| Find (key : list Z)
| Add (t : data_type) (key : list Z) (z : Z)
| Remove (key : list Z).

Section requests.
Context {A : Type} `{Allocator A} (me : nat).

Notation S := (st (A * world)).
Implicit Types (s : S) (m : gmap (list Z) (data_type * Z)).

Definition serve (c : request) : C S Z :=
  match c with
  | Find key => cplus_llist_find_data me (Some key)
  | Add t key z => add_scalar me t (Some key) z
  | Remove key => cplus_llist_remove_data me (Some key)
  end.

(** A key is a string; an added one is not empty, and an old key keeps its type. *)
Definition servable s m (c : request) : Prop :=
  match c with
  | Find key | Remove key => text key
  | Add t key z =>
      scalar_type t = true ∧ scalar_ok t z ∧ text key ∧ 0 < zlen key ∧ zlen key + 1 ≤ RSIZE_MAX_MEM
      ∧ count (ll s) + 1 < 2147483648 ∧ ∀ tz, m !! key = Some tz → tz.1 = t
  end.

(** What the request answers and the map that is left.  Without memory for the
    object an addition answers 0; without memory for the node it answers an
    object that the list does not hold. *)
Definition served (w : world) m (c : request) (r : Z) m' : Prop :=
  match c with
  | Find key => m' = m ∧ match m !! key with None => r = 0 | Some tz => entry w r key tz end
  | Add t key z =>
      (r = 0 ∧ m !! key = None ∧ m' = m)
      ∨ (entry w r key (t, z) ∧ (m' = <[key := (t, z)]> m ∨ m !! key = None ∧ m' = m))
  | Remove key => r = CPLUS_SUCCESS ∧ m' = delete key m
  end.

(** C4: the keyed helpers implement a finite map from strings to typed scalars:
    finding answers the object that holds the value or null, adding inserts or
    overwrites, removing deletes; no call is undefined, and the memory in use
    stays exactly what the objects own. *)
Theorem keyed_map s m c :
  represents s m → servable s m c →
  ∃ r s' m', serve c s = Done (r, s') ∧ represents s' m' ∧ served (world_of s') m c r m'.
Proof.
  intros Hs Hc. destruct c as [key|t key z|key]; simpl in *.
  - destruct (find_map me s m key Hs Hc) as (r & s' & E & Hs' & Hr). by exists r, s', m.
  - destruct Hc as (H1 & H2 & H3 & H4 & H5 & H6 & H7). by apply add_map.
  - destruct (remove_map me s m key Hs Hc) as (s' & E & Hs'). by exists CPLUS_SUCCESS, s', (delete key m).
Qed.

Lemma short_value_undef p d w q v2 :
  p ≠ 0 → objs w !! p = Some d → Data.type d = Data.OBJ_TYPE → spinlock d = 0 →
  scalar_type (dtype d) = true → zlen q < sizeof (dtype d) →
  cplus_data_set_value p (Some q) v2 w = Undefined.
Proof.
  intros Hp Hd Hty Hl Hs Hq.
  assert (w = here p (objs w) (junk w) d (heap w) (Data.errno w)) as ->.
  { destruct w. unfold here. simpl in *. by rewrite insert_id. }
  unfold cplus_data_set_value. rewrite (bind_Done _ _ _ _ _ (DataInv.check_here p _ _ d _ _ Hp Hty)).
  cbv beta iota zeta. rewrite (bind_Done _ _ _ _ _ (field_here p _ _ dtype d _ _)).
  assert (Hr : ∀ w, read_bytes (sizeof (dtype d)) q w = Undefined).
  { intros w0. unfold read_bytes. by rewrite (proj2 (Z.leb_gt _ _)). }
  destruct (dtype d); try done; simpl in Hr |- *.
  all: try (apply bind_undef; apply Hr).
  all: unfold Data.locked; apply bind_undef.
  all: rewrite (bind_Done _ _ _ _ _ (DataInv.lock_here p _ _ d _ _ Hl)).
  all: apply bind_undef, bind_undef; apply Hr.
Qed.

(** Code bug: adding a value under a key that holds a wider type copies as
    many bytes as the old type has from the parameter, past its end. *)
Theorem narrow_add_overreads s m t key z tz :
  represents s m → text key → m !! key = Some tz → sizeof t < sizeof tz.1 →
  add_scalar me t (Some key) z s = Undefined.
Proof.
  intros [v Hm] Ht Hk Hsz. unfold add_scalar, cplus_llist_add_data, check_fn, arg.
  rewrite (check_type _ _ v (hm_models _ _ _ Hm)).
  destruct (get_if_key_run me s v m key Hm Ht) as (p & s1 & v1 & E & Hm1 & Hi & Hw & Hp).
  rewrite Hk in Hp. destruct Hp as [Hpv (d & Hd & _ & Hst & Hdt & _)].
  rewrite <- Hi in Hpv. rewrite <- Hw in Hd. rewrite (bind_Done _ _ _ _ _ E).
  destruct (hm_world _ _ _ Hm1) as [_ Ha]. destruct (Ha p d Hd) as [Hne Hok].
  destruct (check_run p d s1 Hne Hd (proj1 Hok)) as (s0 & E2 & E0). subst s0.
  rewrite (bind_Done _ _ _ _ _ E2). cbn [negb]. unfold mbind, C_bind, on_data.
  rewrite (short_value_undef p d); [done|done|done|apply Hok|apply Hok|done|]. by rewrite zlen_to_bytes, Hdt.
Qed.

Lemma represents_empty s : represents s ∅ → count (ll s) = 0.
Proof.
  intros [v Hm]. rewrite <- (holds_size _ _ _ Hm). destruct (items v) as [|p l] eqn:E; [done|].
  destruct (hm_item _ _ _ Hm p) as (? & ? & _ & Hk); [rewrite E; set_solver|done].
Qed.

End requests.

(** ** Concrete runs *)

Definition store : st (Heap.heap * world) :=
  empty_list Lock.NoLock (Heap.empty_heap, World ∅ Heap.empty_heap DataProps.no_junk 0) 0.

Lemma store_empty : represents store ∅.
Proof.
  exists LlistProps.no_items. split; try done; [|split; [|done]|..].
  - apply LlistProps.empty_models; [done|]. apply Heap.empty_heap_ok.
  - split; [constructor|]. split; [intros p; by rewrite elem_of_nil|]. apply Heap.empty_heap_ok.
  - constructor.
  - intros p. by rewrite elem_of_nil.
  - by intros key [? ?].
Qed.

Definition k : list Z := [107].

Lemma keyed_map_witness :
  ∃ r s' m', serve 1 (Add T_INT32 k 7) store = Done (r, s') ∧ represents s' m'
    ∧ served (world_of s') ∅ (Add T_INT32 k 7) r m'.
Proof.
  apply (keyed_map 1 store ∅ (Add T_INT32 k 7)); [apply store_empty|].
  split_and!; try done. by repeat constructor.
Defined.

Lemma one_long :
  ∃ s, add_scalar 1 T_INT64 (Some k) 5 store = Done (1, s) ∧ represents s {[k := (T_INT64, 5)]}.
Proof.
  destruct (add_map 1 store ∅ T_INT64 k 5) as (r & s & m & E & Hs & Hr);
    [apply store_empty|done|done|by repeat constructor|done..|].
  assert (match add_scalar 1 T_INT64 (Some k) 5 store with
    | Done (r, s) => (r =? 1) && (count (ll s) =? 1) | _ => false end = true) as Hc by (by vm_compute).
  rewrite E in Hc. apply andb_true_iff in Hc as [->%Z.eqb_eq Hn%Z.eqb_eq].
  exists s. split; [done|]. destruct Hr as [[? _] | [_ [-> | [_ ->]]]]; [done|done|].
  apply represents_empty in Hs. lia.
Qed.

Lemma narrow_add_overreads_witness :
  ∃ s, add_scalar 1 T_INT64 (Some k) 5 store = Done (1, s) ∧ add_scalar 1 T_INT8 (Some k) 3 s = Undefined.
Proof.
  destruct one_long as (s & E & Hs). exists s. split; [done|].
  apply (narrow_add_overreads 1 s {[k := (T_INT64, 5)]} T_INT8 k 3 (T_INT64, 5));
    [done|by repeat constructor|apply lookup_singleton_eq|done].
Defined.

(** [cplus_llist_update_data] of a key that is there, then two removals. *)
Definition update_then_remove : C (st (Heap.heap * world)) (list Z) :=
  old ← add_scalar 1 T_INT32 (Some k) 5;
  new ← on_data (cplus_data_new_int32 8);
  r ← cplus_llist_update_data 1 (Some k) new;
  n ← cplus_llist_get_size 1;
  cplus_llist_remove_data 1 (Some k);;
  again ← cplus_llist_find_data 1 (Some k);
  '(_, v) ← on_data (get_as_int T_INT32 again 0);
  mret [old; new; r; n; again; v].

(** Code bug: updating a key that is in the list copies the value into the
    old object and then also pushes the new one under the same key: the list
    holds the key twice, and after it is removed it is still found. *)
Theorem update_duplicates :
  ∃ s, update_then_remove store = Done ([1; 3; 3; 2; 3; 8], s).
Proof. vm_compute. by eexists. Qed.

End KeyedProps.
