(* ===== verification/Group.v ===== *)
(** * Group: group nodes (src/data.c, the functions on groups)

    A group is a list with a name: a data object whose key is the name and whose
    value is a pointer to the list.  Lists and data objects have their memory from
    one heap; the nodes of a list have theirs from the source of the list. *)

From S2P Require Import Prelude Allocator Locks Zlist Stdio Memmgr Llist LlistInv LlistSpec LlistProps Data DataInv DataSafe DataProps.
From stdpp Require Import base numbers list option gmap sets.
From Stdlib Require Import ZArith Lia.
Import Stdio.
Open Scope Z_scope.

Module Group.
Import DataInv.
#[local] Existing Instance Llist.source_allocator.
#[local] Existing Instance Data.data_type_eq_dec.

(** The data objects, with the heap and [errno], and the lists by address. *)
Record world := World { store : Data.world; lists : gmap Z (Llist.st Llist.node_source) }.

Definition set_store (x : Data.world) (w : world) : world := World x (lists w).
Definition set_lists (f : gmap Z (Llist.st Llist.node_source) → gmap Z (Llist.st Llist.node_source)) (w : world) : world :=
  World (store w) (f (lists w)).

(** A call of data.c or of the heap. *)
Definition on_data {A} (m : C Data.world A) : C world A := λ w,
  match m (store w) with
  | Done (a, x) => Done (a, set_store x w)
  | Aborts => Aborts | Hangs => Hangs | Undefined => Undefined
  end.

(** A call of llist.c on the list at [p]; there is one [errno]. *)
Definition on_list {A} (p : Z) (m : C (Llist.st Llist.node_source) A) : C world A := λ w,
  match lists w !! p with
  | None => Undefined
  | Some l =>
      match m (Llist.with_errno (Data.errno (store w)) l) with
      | Done (a, l) => Done (a, World (Data.with_errno (Llist.errno l) (store w)) (<[p := l]> (lists w)))
      | Aborts => Aborts | Hangs => Hangs | Undefined => Undefined
      end
  end.

(** [sizeof(struct linked_list)]. *)
Definition LIST_SIZE : Z := 56.

Definition with_object (b : bool) (r : Llist.resources) : Llist.resources :=
  Llist.Resources b (Llist.pool_object_ok r) (Llist.arena r) (Llist.bytes r) (Llist.lock_ok r) (Llist.node_heap r).

(** [cplus_llist_new] with the object on the heap. *)
Definition llist_new (r : Llist.resources) : C world Z :=
  b ← on_data (Data.cplus_malloc LIST_SIZE);
  e ← gets (λ w, Data.errno (store w));
  match Llist.cplus_llist_new (with_object (bool_decide (is_Some b)) r) e, b with
  | Done (Some l, e), Some b =>
      on_data (Data.set_errno e);; modify (set_lists <[Data.addr b := l]>);; mret (Data.addr b)
  | Done (_, e), _ => on_data (Data.set_errno e);; mret 0
  | Aborts, _ => abort | Hangs, _ => hang | Undefined, _ => undef
  end.

(** [cplus_llist_delete], whose last call gives the object back. *)
Definition llist_delete (me : nat) (p : Z) : C world Z :=
  res ← on_list p (Llist.cplus_llist_delete me);
  (if CPLUS_SUCCESS =? res then on_data (Data.cplus_free p);; modify (set_lists (delete p)) else mret tt);;
  mret res.

(** The tag at an address. *)
Definition type_at (w : world) (p : Z) : option Z :=
  match Data.objs (store w) !! p with
  | Some d => Some (Data.type d)
  | None => Llist.type ∘ Llist.ll <$> lists w !! p
  end.
(** [obj && GET_OBJECT_TYPE(obj) == type] *)
Definition has_type (type p : Z) : C world bool :=
  if p =? 0 then mret false else t ← deref (λ w, type_at w p); mret (t =? type).

(** [name] is the text with its zero. *)
Definition cplus_data_create_group_node (r : Llist.resources) (name : list Z) : C world Z :=
  data_group ← llist_new r;
  if data_group =? 0 then mret 0
  else
    n ← deref (λ _, zlen <$> cstr name);
    on_data (Data.cplus_data_new_pointer_ex data_group n (Some name)).

Definition cplus_data_get_group (data_group_node : Z) : C world Z :=
  b ← has_type Data.OBJ_TYPE data_group_node;
  if (b : bool) then
    data_group ← on_data (Data.cplus_data_get_pointer data_group_node);
    c ← has_type Llist.OBJ_TYPE data_group;
    mret (if (c : bool) then data_group else 0)
  else mret 0.

Definition cplus_data_delete_group_node (me : nat) (data_group_node : Z) : C world Z :=
  b ← has_type Data.OBJ_TYPE data_group_node;
  if (b : bool) then
    data_group ← cplus_data_get_group data_group_node;
    c ← has_type Llist.OBJ_TYPE data_group;
    (if (c : bool) then llist_delete me data_group;; mret tt else mret tt);;
    on_data (Data.cplus_data_delete data_group_node);;
    mret CPLUS_SUCCESS
  else mret CPLUS_FAIL.

(** ** A group and its end *)

Lemma on_data_done {A} (m : C Data.world A) w a x :
  m (store w) = Done (a, x) → on_data m w = Done (a, set_store x w).
Proof. intros E. unfold on_data. by rewrite E. Qed.

(** The state: the objects [os] and the lists [ls], which together with [F] use
    the heap. *)
Definition at_ (os : gmap Z Data.data) (j : Z → nat → Z) (ls : gmap Z (Llist.st Llist.node_source))
    (h : Heap.heap) (e : Z) : world := World (Data.World os h j e) ls.

Lemma cstr_length b s : cstr b = Some s → zlen s + 1 ≤ zlen b.
Proof.
  revert s. induction b as [|c b IH]; intros s; cbn [cstr]; [done|]. destruct (c =? 0).
  - intros [= <-]. unfold zlen. cbn [length]. lia.
  - destruct (cstr b) as [s'|] eqn:E; cbn; [|done]. intros [= <-]. specialize (IH s' eq_refl).
    unfold zlen in *. cbn [length]. lia.
Qed.

Section group.
Context (os : gmap Z Data.data) (j : Z → nat → Z) (ls : gmap Z (Llist.st Llist.node_source)) (F : gset Z).
Context (Hos : ∀ p, is_Some (os !! p) → p ∈ F) (Hls : ∀ p, is_Some (ls !! p) → p ∈ F).

Lemma os_fresh p : p ∉ F → os !! p = None.
Proof using Hos. intros H. apply eq_None_not_Some. by intros ?%Hos. Qed.
Lemma ls_fresh p : p ∉ F → ls !! p = None.
Proof using Hls. intros H. apply eq_None_not_Some. by intros ?%Hls. Qed.

(** A new list: none for lack of memory, or one at a fresh address. *)
Lemma llist_new_run r h e :
  Heap.heap_ok h F → Heap.heap_ok (Llist.node_heap r) ∅ →
  (∃ h', llist_new r (at_ os j ls h e) = Done (0, at_ os j ls h' ENOMEM) ∧ Heap.heap_ok h' F)
  ∨ (∃ q l h' e', llist_new r (at_ os j ls h e) = Done (q, at_ os j (<[q := l]> ls) h' e')
      ∧ q = Heap.fresh h ∧ q ≠ 0 ∧ q ∉ F ∧ Heap.heap_ok h' ({[q]} ∪ F) ∧ LlistSpec.models l LlistProps.no_items).
Proof.
  intros Hh Hn. unfold llist_new.
  destruct (DataSafe.malloc_cases LIST_SIZE os j h e F Hh) as [(h1 & E & Hok)|(b & h1 & E & Hp & HpF & Hok)];
    rewrite (bind_Done _ _ _ _ _ (on_data_done _ (at_ os j ls h e) _ _ E)).
  - left. exists h1. split; [|done]. rewrite (bind_Done _ _ _ ENOMEM (at_ os j ls h1 ENOMEM)) by done. done.
  - right. rewrite (bind_Done _ _ _ e (at_ os j ls h1 e)) by done.
    exists (Data.addr b), (Llist.empty_list Lock.NoLock (Llist.FromHeap (Llist.node_heap r)) EINVAL), h1, EINVAL.
    split; [reflexivity|]. split_and!; [|done..|by apply LlistProps.empty_models].
    revert E. unfold Data.cplus_malloc, Heap.cplus_malloc. cbn.
    destruct (match Heap.oom h with [] => true | b :: _ => b end); cbn; [|done].
    destruct (Z.eqb_spec (Heap.fresh h) 0); [done|]. by intros [= <- _].
Qed.

Lemma has_type_at type p w t : p ≠ 0 → type_at w p = Some t → has_type type p w = Done (t =? type, w).
Proof.
  intros Hp Ht. unfold has_type. rewrite (proj2 (Z.eqb_neq _ _)) by done.
  by rewrite (bind_Done _ _ w t w) by (unfold deref; by rewrite Ht).
Qed.

(** What a group node and its list are. *)
Record group (p : Z) (d : Data.data) (q : Z) (l : Llist.st Llist.node_source) (v : LlistSpec.view) : Prop := Group {
  g_node : obj_ok d;
  g_type : Data.dtype d = Data.T_POINTER;
  g_value : Data.value d = Data.Scalar q;
  g_list : LlistSpec.models l v;
  g_null : p ≠ 0 ∧ q ≠ 0;
  g_apart : p ≠ q;
  g_new : os !! q = None ∧ os !! p = None ∧ ls !! q = None }.

Definition with_group (p : Z) (d : Data.data) (q : Z) (l : Llist.st Llist.node_source) (h : Heap.heap) (e : Z) : world :=
  at_ (<[p := d]> os) j (<[q := l]> ls) h e.

Lemma models_type l v : LlistSpec.models l v → Llist.type (Llist.ll l) = Llist.OBJ_TYPE.
Proof. intros (a & (Hs & _) & _). apply Hs. Qed.

Lemma get_group_run p d q l v h e :
  group p d q l v → cplus_data_get_group p (with_group p d q l h e) = Done (q, with_group p d q l h e).
Proof.
  intros [Hd Ht Hv Hl [Hp Hq] Hpq (Hq1 & Hp1 & Hq2)]. unfold cplus_data_get_group.
  rewrite (bind_Done _ _ (with_group p d q l h e) true (with_group p d q l h e)).
  2:{ rewrite (has_type_at _ _ _ (Data.type d)); [|done|].
      - by rewrite (proj1 Hd).
      - unfold type_at. cbn. by rewrite lookup_insert_eq. }
  cbv iota. pose proof (DataProps.get_typed_spec p os j Hp d h e q Hd) as E. rewrite Ht in E. specialize (E eq_refl Hv).
  rewrite (bind_Done _ _ (with_group p d q l h e) q (with_group p d q l h e)).
  2:{ exact (on_data_done _ (with_group p d q l h e) _ _ E). }
  rewrite (bind_Done _ _ _ true (with_group p d q l h e)); [done|].
  rewrite (has_type_at _ _ _ (Llist.type (Llist.ll l))); [by rewrite (models_type _ _ Hl)|done|].
  unfold type_at. cbn. by rewrite lookup_insert_ne, Hq1, lookup_insert_eq.
Qed.

(** The list is freed, and then the node. *)
Lemma llist_delete_run me p d q l v h e :
  group p d q l v → Heap.heap_ok h ({[q]} ∪ (list_to_set (p :: owned d) ∪ F)) → q ∉ (p :: owned d) → q ∉ F →
  ∃ h' e', llist_delete me q (with_group p d q l h e)
             = Done (CPLUS_SUCCESS, at_ (<[p := d]> os) j ls h' e')
    ∧ Heap.heap_ok h' (list_to_set (p :: owned d) ∪ F).
Proof.
  intros [Hd Ht Hv Hl [Hp Hq] Hpq (Hq1 & Hp1 & Hq2)] Hh Hnot HF. unfold llist_delete.
  assert (Hm : LlistSpec.models (Llist.with_errno e l) v).
  { destruct Hl as (a & Hr & Hi). exists a. split; [by apply LlistInv.rep_errno|done]. }
  destruct (LlistProps.delete_frees_all me _ _ Hm) as (l' & E & _).
  rewrite (bind_Done _ _ _ CPLUS_SUCCESS
    (with_group p d q l' h (Llist.errno l'))).
  2:{ unfold on_list, with_group, at_. cbn [lists store]. rewrite lookup_insert_eq.
      change (Data.errno _) with e. rewrite E. by rewrite insert_insert_eq. }
  change (CPLUS_SUCCESS =? CPLUS_SUCCESS) with true. cbv iota.
  destruct (Heap.heap_release h _ q Hh) as (h' & Eh & Hh'); [set_solver|]. exists h', (Llist.errno l').
  split.
  - rewrite (bind_Done _ _ _ tt (at_ (<[p := d]> os) j ls h' (Llist.errno l'))); [done|].
    rewrite (bind_Done _ _ _ CPLUS_SUCCESS (with_group p d q l' h' (Llist.errno l'))).
    2:{ unfold on_data, Data.cplus_free. cbn. rewrite (proj2 (Z.eqb_neq q 0)) by done. by rewrite Eh. }
    unfold modify, set_lists, with_group, at_. cbn [lists store]. by rewrite delete_insert_id.
  - replace (list_to_set (p :: owned d) ∪ F) with (({[q]} ∪ (list_to_set (p :: owned d) ∪ F)) ∖ {[q]}); [done|].
    rewrite <- (not_elem_of_list_to_set (C := gset Z)) in Hnot. set_solver.
Qed.

(** Whatever has become of the list, deleting the node gives all back. *)
Lemma delete_group_run me p d q l v h e :
  group p d q l v → fits p d h ({[q]} ∪ F) → q ∉ F →
  ∃ h' e', cplus_data_delete_group_node me p (with_group p d q l h e) = Done (CPLUS_SUCCESS, at_ os j ls h' e')
    ∧ Heap.heap_ok h' F.
Proof.
  intros Hg (Hnd & Hfr & Hh) HF. pose proof (get_group_run _ _ _ _ _ h e Hg) as Eg.
  destruct (llist_delete_run me p d q l v h e Hg) as (h1 & e1 & E1 & Hh1); [by rewrite (assoc_L (∪)), (comm_L (∪) {[q]}), <- (assoc_L (∪))| |done|].
  { intros Hq. apply (Hfr _ Hq). set_solver. }
  destruct Hg as [Hd Ht Hv Hl [Hp Hq] Hpq (Hq1 & Hp1 & Hq2)]. unfold cplus_data_delete_group_node.
  rewrite (bind_Done _ _ (with_group p d q l h e) true (with_group p d q l h e)).
  2:{ rewrite (has_type_at _ _ _ (Data.type d)); [by rewrite (proj1 Hd)|done|].
      unfold type_at. cbn. by rewrite lookup_insert_eq. }
  cbv iota. rewrite (bind_Done _ _ _ _ _ Eg).
  rewrite (bind_Done _ _ _ true (with_group p d q l h e)).
  2:{ rewrite (has_type_at _ _ _ (Llist.type (Llist.ll l))); [by rewrite (models_type _ _ Hl)|done|].
      unfold type_at. cbn. by rewrite lookup_insert_ne, Hq1, lookup_insert_eq. }
  cbv iota. rewrite (bind_Done _ _ _ tt (at_ (<[p := d]> os) j ls h1 e1)) by (by rewrite (bind_Done _ _ _ _ _ E1)).
  destruct (DataSafe.delete_spec p os j Hp d h1 e1 F Hd) as (h2 & E2 & Hh2).
  { split; [done|]. split; [|done]. intros x Hx HxF. apply (Hfr _ Hx). set_solver. }
  exists h2, e1. split; [|done]. rewrite delete_id in E2 by done.
  by rewrite (bind_Done _ _ _ _ _ (on_data_done _ (at_ (<[p := d]> os) j ls h1 e1) _ _ E2)).
Qed.

(** a group node that is made has the name as its key and gives its list,
    which is empty; and deleting it, with anything in the list, gives back the
    node, the name, the list and its nodes.  (Code bug: when the list can be made
    and the node cannot, the list is lost.) *)
Theorem group_life me r name nm h e :
  Heap.heap_ok h F → Heap.heap_ok (Llist.node_heap r) ∅ → Heap.fresh h < 2 ^ 64 →
  cstr name = Some nm → zlen nm < RSIZE_MAX_MEM →
  ∃ p w, cplus_data_create_group_node r name (at_ os j ls h e) = Done (p, w)
    ∧ ((p = 0 ∧ ∃ h' e', w = at_ os j ls h' e' ∧ Heap.heap_ok h' F)
       ∨ (p = 0 ∧ ∃ q l h' e', w = at_ os j (<[q := l]> ls) h' e' ∧ q ∉ F ∧ Heap.heap_ok h' ({[q]} ∪ F))
       ∨ ∃ d q l h' e', w = with_group p d q l h' e' ∧ DataSafe.has_key d (zlen nm) (Some name)
           ∧ LlistSpec.models l LlistProps.no_items ∧ cplus_data_get_group p w = Done (q, w)
           ∧ ∀ l' v e1, LlistSpec.models l' v →
               ∃ h2 e2, cplus_data_delete_group_node me p (with_group p d q l' h' e1)
                          = Done (CPLUS_SUCCESS, at_ os j ls h2 e2) ∧ Heap.heap_ok h2 F).
Proof.
  intros Hh Hn Hfit Hname Hlen. unfold cplus_data_create_group_node.
  destruct (llist_new_run r h e Hh Hn) as [(h1 & E & Hh1)|(q & l & h1 & e1 & E & Hq & Hq0 & HqF & Hh1 & Hm)];
    rewrite (bind_Done _ _ _ _ _ E).
  { exists 0, (at_ os j ls h1 ENOMEM). split; [done|]. left. by eauto. }
  rewrite (proj2 (Z.eqb_neq q 0)) by done.
  rewrite (bind_Done _ _ _ (zlen nm) (at_ os j (<[q := l]> ls) h1 e1)) by (unfold deref; by rewrite Hname).
  assert (H0q : 0 < q) by (destruct Hh1 as (_ & _ & Hl); apply Hl; set_solver).
  assert (Hmk : DataProps.maker_ok (DataProps.MScalar Data.T_POINTER q)).
  { split; [done|]. cbn. apply u64_small. subst q. lia. }
  destruct (DataSafe.initialize_spec (Data.type_code Data.T_POINTER) Data.T_POINTER (Data.to_bytes Data.T_POINTER q) None
    (zlen nm) (Some name) os j h1 e1 ({[q]} ∪ F) (DataProps.content (DataProps.MScalar Data.T_POINTER q)))
    as (p & h2 & e2 & [[E2 Hh2]|(Hp & HpF & d & E2 & Hd & Hf & Ht & Hv & Hk)]); [done|done|set_solver| | |..].
  - intros p h2 e2 Hp Hf. by apply (DataProps.first_write (DataProps.MScalar Data.T_POINTER q)).
  - intros _. pose proof (cstr_length _ _ Hname). lia.
  - eexists 0, _. split; [exact (on_data_done _ (at_ os j (<[q := l]> ls) h1 e1) _ _ E2)|].
    right; left. split; [done|]. exists q, l, h2, e2. by split_and!.
  - exists p, (with_group p d q l h2 e2). split; [exact (on_data_done _ (at_ os j (<[q := l]> ls) h1 e1) _ _ E2)|].
    right; right.
    assert (Hg : ∀ l' v, LlistSpec.models l' v → group p d q l' v).
    { intros l' v Hl'. split; [done|done|exact Hv|done|done|set_solver|].
      split_and!; [by apply os_fresh|apply os_fresh; set_solver|by apply ls_fresh]. }
    exists d, q, l, h2, e2. split; [done|]. split; [done|]. split; [done|].
    split; [eapply get_group_run; by apply Hg|]. intros l' v e3 Hl'.
    destruct (delete_group_run me p d q l' v h2 e3 (Hg _ _ Hl') Hf HqF) as (h3 & e4 & E3 & Hh3). by eauto.
Qed.
End group.

(** Code bug: a group is asked for with an object of another type, which is
    not refused: the check of the typed read ends the program; and the pointer of
    a node that is no group is followed to look for a tag. *)
Theorem no_group_is_not_refused p d w :
  p ≠ 0 → Data.objs (store w) !! p = Some d → Data.type d = Data.OBJ_TYPE →
  (Data.dtype d ≠ Data.T_POINTER → cplus_data_get_group p w = Aborts)
  ∧ (∀ q, Data.dtype d = Data.T_POINTER → Data.value d = Data.Scalar q → q ≠ 0 → type_at w q = None →
       cplus_data_get_group p w = Undefined).
Proof.
  intros Hp Hd Hty. unfold cplus_data_get_group.
  assert (E : has_type Data.OBJ_TYPE p w = Done (true, w)).
  { rewrite (has_type_at _ _ _ (Data.type d)); [by rewrite Hty|done|]. unfold type_at. by rewrite Hd. }
  assert (Ec : ∀ t, Data.CHECK_TYPE p t (store w) = if bool_decide (t = Data.dtype d) then Done (tt, store w) else Aborts).
  { intros t. unfold Data.CHECK_TYPE, Data.CHECK_OBJECT_TYPE. rewrite (proj2 (Z.eqb_neq _ _)) by done.
    unfold Data.field, deref, mbind, C_bind. rewrite Hd. cbn. rewrite Hty, Z.eqb_refl. cbn. rewrite Hd. cbn. by case_bool_decide. }
  split.
  - intros Ht. rewrite (bind_Done _ _ _ _ _ E). unfold on_data, Data.cplus_data_get_pointer, mbind, C_bind.
    rewrite Ec. by rewrite bool_decide_eq_false_2 by congruence.
  - intros q Ht Hv Hq Hno. rewrite (bind_Done _ _ _ _ _ E).
    rewrite (bind_Done _ _ w q w).
    + apply bind_undef. unfold has_type. rewrite (proj2 (Z.eqb_neq _ _)) by done.
      apply bind_undef. unfold deref. by rewrite Hno.
    + unfold on_data, Data.cplus_data_get_pointer, mbind, C_bind. rewrite Ec, bool_decide_eq_true_2 by done.
      unfold Data.load_scalar, Data.field, deref, mbind, C_bind. rewrite Hd. cbn. rewrite Hv. by destruct w.
Qed.

(** ** A group at work *)

Definition node_memory : Llist.resources := Llist.Resources true false 0 (λ _, 0) false Heap.empty_heap.
Definition name : list Z := [103; 49; 0].

Lemma group_life_witness :
  ∃ p w, cplus_data_create_group_node node_memory name (at_ ∅ DataProps.no_junk ∅ Heap.empty_heap 0) = Done (p, w)
    ∧ ((p = 0 ∧ ∃ h' e', w = at_ ∅ DataProps.no_junk ∅ h' e' ∧ Heap.heap_ok h' ∅)
       ∨ (p = 0 ∧ ∃ q l h' e', w = at_ ∅ DataProps.no_junk (<[q := l]> ∅) h' e' ∧ q ∉ (∅ : gset Z) ∧ Heap.heap_ok h' ({[q]} ∪ ∅))
       ∨ ∃ d q l h' e', w = with_group ∅ DataProps.no_junk ∅ p d q l h' e' ∧ DataSafe.has_key d 2 (Some name)
           ∧ LlistSpec.models l LlistProps.no_items ∧ cplus_data_get_group p w = Done (q, w)
           ∧ ∀ l' v e1, LlistSpec.models l' v →
               ∃ h2 e2, cplus_data_delete_group_node 1 p (with_group ∅ DataProps.no_junk ∅ p d q l' h' e1)
                          = Done (CPLUS_SUCCESS, at_ ∅ DataProps.no_junk ∅ h2 e2) ∧ Heap.heap_ok h2 ∅).
Proof.
  apply (group_life ∅ DataProps.no_junk ∅ ∅) with (nm := [103; 49]).
  - intros p [x Hx]. by rewrite lookup_empty in Hx.
  - intros p [x Hx]. by rewrite lookup_empty in Hx.
  - apply Heap.empty_heap_ok.
  - apply Heap.empty_heap_ok.
  - reflexivity.
  - reflexivity.
  - reflexivity.
Defined.

(** Memory for the list and not for the node: the list stays. *)
Example failed_group_leaks :
  match cplus_data_create_group_node node_memory name
    (at_ ∅ DataProps.no_junk ∅ (Heap.mkHeap 8 [true; false] ∅) 0) with
  | Done (p, w) => (p, Heap.used (Data.heap (store w)))
  | _ => (1, ∅)
  end = (0, {[8]}).
Proof. vm_compute. reflexivity. Qed.

End Group.
