(* ===== verification/Memdebug.v ===== *)
(** * Memdebug: the memory manager of the debug build (src/memmgr.c, src/sys.c)

    With [__CPLUS_MEM_MANAGER__] every block carries a word in front of it and
    one behind it, and a linked list records who allocated what.  A pointer is a
    block and an offset in it, the client's pointer being at offset 4.  The
    blocks come from an allocator of [Allocator.v]; [junk] is what fresh memory
    holds.  What is printed is kept as a list of notices. *)

From S2P Require Import Prelude Allocator Zlist.
From stdpp Require Import base numbers list list_numbers option gmap sets.
From Stdlib Require Import ZArith Lia.
Open Scope Z_scope.

(** ** Path helper (src/sys.c) *)

Module Sys.

(** [strrchr]: what follows the last [c], if there is one. *)
Fixpoint after_last (c : Z) (s : list Z) : option (list Z) :=
  match s with
  | [] => None
  | x :: s' =>
      match after_last c s' with
      | Some t => Some t
      | None => if x =? c then Some s' else None
      end
  end.

Definition cplus_sys_skip_file_path (filepath : list Z) : list Z :=
  match after_last 92 filepath with
  | Some target => target
  | None => match after_last 47 filepath with Some target => target | None => filepath end
  end.

Lemma after_last_None c s : after_last c s = None ↔ c ∉ s.
Proof.
  induction s as [|x s IH]; simpl; [set_solver|]. rewrite not_elem_of_cons.
  destruct (after_last c s); [naive_solver|]. destruct (Z.eqb_spec x c); naive_solver.
Qed.

Lemma after_last_Some c s t : after_last c s = Some t ↔ c ∉ t ∧ ∃ p, s = p ++ c :: t.
Proof.
  split.
  - revert t. induction s as [|x s IH]; intros t; simpl; [done|].
    destruct (after_last c s) as [t'|] eqn:E.
    + intros [= <-]. destruct (IH t' eq_refl) as (Ht & p & ->). split; [done|]. by exists (x :: p).
    + apply after_last_None in E. destruct (Z.eqb_spec x c) as [->|]; [|done]. intros [= <-].
      split; [done|]. by exists [].
  - intros (Ht & p & ->). induction p as [|x p IH]; simpl; [|by rewrite IH].
    rewrite (proj2 (after_last_None c t)) by done. by rewrite Z.eqb_refl.
Qed.

End Sys.

Module Memdebug.
Import Sys.

Definition MAX_FILE_NAME : Z := 31.
Definition MAX_FUNC_NAME : Z := 63.
Definition BEGCHK : Z := 0x1A2A3A4A.
Definition ENDCHK : Z := 0x5B6B7B8B.
Definition CLRCHK : Z := 0xABABABAB.
(** [sizeof(uint32_t)]. *)
Definition word : Z := 4.

(** ** Data *)

Definition address : Type := Z * Z.

Record extra_info := Info {
  mem_ref : address;
  mem_size : Z;
  line : Z;
  next : Z;
  file : list Z;
  function : list Z }.
Definition set_next (p : Z) (i : extra_info) : extra_info :=
  Info (mem_ref i) (mem_size i) (line i) p (file i) (function i).

(** A line of [meminfo_record_format]. *)
Definition record : Type := address * Z * list Z * Z * list Z.
Definition shown (i : extra_info) : record :=
  (mem_ref i, mem_size i, file i, line i, function i).

Inductive notice :=
| SizeOverflow (original written overtake : Z)
| DoubleFree (r : record)
| InvalidPointer (r : record)
| Overflow (r : record)
| ReportTitle
| ReportRecord (r : record)
| ReportSummary (last_count : Z).

Record st (A : Type) := St {
  src : A;
  mem : gmap Z (list Z);
  infos : gmap Z extra_info;
  ptr_info_start : Z;
  ptr_info_last : Z;
  inused_mem_num : Z;
  rwlock : bool;
  out : list notice;
  errno : Z }.
Arguments St {A}.
Arguments src {A}.
Arguments mem {A}.
Arguments infos {A}.
Arguments ptr_info_start {A}.
Arguments ptr_info_last {A}.
Arguments inused_mem_num {A}.
Arguments rwlock {A}.
Arguments out {A}.
Arguments errno {A}.

Section ops.
Context {A : Type} `{Allocator A} (junk : Z → nat → Z).

Notation S := (st A).
Notation M := (C (st A)).

Definition with_src (a : A) (s : S) : S :=
  St a (mem s) (infos s) (ptr_info_start s) (ptr_info_last s) (inused_mem_num s) (rwlock s) (out s) (errno s).
Definition with_mem (m : gmap Z (list Z)) (s : S) : S :=
  St (src s) m (infos s) (ptr_info_start s) (ptr_info_last s) (inused_mem_num s) (rwlock s) (out s) (errno s).
Definition with_infos (i : gmap Z extra_info) (s : S) : S :=
  St (src s) (mem s) i (ptr_info_start s) (ptr_info_last s) (inused_mem_num s) (rwlock s) (out s) (errno s).
Definition with_start (p : Z) (s : S) : S :=
  St (src s) (mem s) (infos s) p (ptr_info_last s) (inused_mem_num s) (rwlock s) (out s) (errno s).
Definition with_last (p : Z) (s : S) : S :=
  St (src s) (mem s) (infos s) (ptr_info_start s) p (inused_mem_num s) (rwlock s) (out s) (errno s).
Definition with_num (n : Z) (s : S) : S :=
  St (src s) (mem s) (infos s) (ptr_info_start s) (ptr_info_last s) n (rwlock s) (out s) (errno s).
Definition with_lock (b : bool) (s : S) : S :=
  St (src s) (mem s) (infos s) (ptr_info_start s) (ptr_info_last s) (inused_mem_num s) b (out s) (errno s).
Definition with_out (l : list notice) (s : S) : S :=
  St (src s) (mem s) (infos s) (ptr_info_start s) (ptr_info_last s) (inused_mem_num s) (rwlock s) l (errno s).
Definition with_errno (e : Z) (s : S) : S :=
  St (src s) (mem s) (infos s) (ptr_info_start s) (ptr_info_last s) (inused_mem_num s) (rwlock s) (out s) e.

Definition set_errno (e : Z) : M unit := modify (with_errno e).
Definition print (n : notice) : M unit := modify (λ s, with_out (out s ++ [n]) s).

(** One thread: a lock that is held is never released. *)
Definition lock_table : M unit := λ s, if rwlock s then Hangs else Done (tt, with_lock true s).
Definition unlock_table : M unit := modify (with_lock false).

Definition check_not_null {P B} (p : option P) (v : B) (k : P → M B) : M B :=
  match p with None => set_errno EINVAL;; mret v | Some p => k p end.

(** ** The C library *)

Definition new_block : M Z := λ s,
  match al_new (src s) with
  | Done (p, a) => Done (p, if p =? 0 then with_errno ENOMEM (with_src a s) else with_src a s)
  | Aborts => Aborts | Hangs => Hangs | Undefined => Undefined
  end.
Definition release_block (p : Z) : M unit := λ s,
  match al_release p (src s) with
  | Done a => Done (tt, with_src a s)
  | Aborts => Aborts | Hangs => Hangs | Undefined => Undefined
  end.

Definition fresh_bytes (p size : Z) : list Z := (λ i, u8 (junk p i)) <$> seq 0 (Z.to_nat size).

(** [malloc]: the block, at its offset 0. *)
Definition malloc (size : Z) : M Z :=
  p ← new_block;
  if p =? 0 then mret 0
  else modify (λ s, with_mem (<[p := fresh_bytes p size]> (mem s)) s);; mret p.

Definition free (p : Z) : M unit :=
  deref (λ s, mem s !! p);; modify (λ s, with_mem (delete p (mem s)) s);; release_block p.

(** A block that grows moves; size 0 frees. *)
Definition realloc (p size : Z) : M Z :=
  old ← deref (λ s, mem s !! p);
  if size =? 0 then free p;; mret 0
  else
    q ← malloc size;
    if q =? 0 then mret 0
    else
      let keep := take (Z.to_nat size) old in
      modify (λ s, with_mem (alter (λ bs, keep ++ drop (length keep) bs) q (mem s)) s);;
      free p;; mret q.

(** The word at an address. *)
Definition read_word (a : address) : M Z :=
  bs ← deref (λ s, mem s !! a.1);
  if (0 <=? a.2) && (a.2 + word <=? zlen bs) then
    mret (little_endian_to_Z 8 (take 4 (drop (Z.to_nat a.2) bs)))
  else undef.
Definition write_word (a : address) (v : Z) : M unit :=
  bs ← deref (λ s, mem s !! a.1);
  if (0 <=? a.2) && (a.2 + word <=? zlen bs) then
    modify (λ s, with_mem (<[a.1 := take (Z.to_nat a.2) bs ++ Z_to_little_endian 4 8 v
                                     ++ drop (Z.to_nat a.2 + 4) bs]> (mem s)) s)
  else undef.

(** The start of a block, from a pointer into it. *)
Definition base_of (a : address) : M Z := if a.2 =? 0 then mret a.1 else undef.

Definition load {B} (p : Z) (f : extra_info → B) : M B := deref (λ s, f <$> infos s !! p).
Definition store (p : Z) (f : extra_info → extra_info) : M unit :=
  load p next;; modify (λ s, with_infos (alter f p (infos s)) s).

(** ** The table *)

(** [snprintf(buf, max, "%s", s)]. *)
Definition clip (max : Z) (s : list Z) : list Z := take (Z.to_nat (max - 1)) s.

Definition link (ex : Z) : M unit :=
  start ← gets ptr_info_start;
  if start =? 0 then
    modify (with_start ex);;
    modify (λ s, with_last (ptr_info_start s) s)
  else
    last ← gets ptr_info_last;
    store last (set_next ex);;
    last ← load last next;
    modify (with_last last).

Definition add_mem_info (ref : address) (size : Z) (file function : option (list Z)) (line : Z) : M Z :=
  check_not_null file CPLUS_FAIL (λ file,
    check_not_null function CPLUS_FAIL (λ function,
      ex ← new_block;
      if negb (ex =? 0) then
        modify (λ s, with_infos (<[ex := Info ref size line 0
          (clip MAX_FILE_NAME (cplus_sys_skip_file_path file)) (clip MAX_FUNC_NAME function)]> (infos s)) s);;
        lock_table;;
        link ex;;
        modify (λ s, with_num (s32 (inused_mem_num s + 1)) s);;
        unlock_table;;
        mret CPLUS_SUCCESS
      else
        set_errno ENOMEM;; mret ENOMEM)).

(** The list has at most as many nodes as the map. *)
Fixpoint find_loop (fuel : nat) (mem_addr : address) (ptr_temp : Z) : M Z :=
  if ptr_temp =? 0 then unlock_table;; mret 0
  else
    r ← load ptr_temp mem_ref;
    if bool_decide (r = mem_addr) then unlock_table;; mret ptr_temp
    else
      n ← load ptr_temp next;
      match fuel with O => hang | Datatypes.S fuel => find_loop fuel mem_addr n end.

(** The callers never pass null. *)
Definition find_mem_info (mem_addr : address) : M Z :=
  ptr_temp ← gets ptr_info_start;
  n ← gets (λ s, size (infos s));
  lock_table;;
  find_loop n mem_addr ptr_temp.

(** Take [ptr_temp], that follows [prev], out of the list. *)
Definition unlink (ptr_temp prev : Z) : M unit :=
  start ← gets ptr_info_start;
  if ptr_temp =? start then
    n ← load ptr_temp next; modify (with_start n)
  else
    last ← gets ptr_info_last;
    if ptr_temp =? last then
      modify (with_last prev);;
      store prev (set_next 0)
    else
      n ← load ptr_temp next;
      store prev (set_next n).

Fixpoint erase_loop (fuel : nat) (mem_addr : address) (ptr_temp prev : Z) : M unit :=
  if ptr_temp =? 0 then mret tt
  else
    r ← load ptr_temp mem_ref;
    if bool_decide (r = mem_addr) then
      unlink ptr_temp prev;;
      load ptr_temp next;;
      modify (λ s, with_infos (delete ptr_temp (infos s)) s);;
      release_block ptr_temp;;
      modify (λ s, with_num (s32 (inused_mem_num s - 1)) s)
    else
      n ← load ptr_temp next;
      match fuel with O => hang | Datatypes.S fuel => erase_loop fuel mem_addr n ptr_temp end.

Definition erase_mem_info (mem_addr : address) : M Z :=
  ptr_temp ← gets ptr_info_start;
  n ← gets (λ s, size (infos s));
  lock_table;;
  erase_loop n mem_addr ptr_temp 0;;
  unlock_table;;
  mret CPLUS_SUCCESS.

(** ** Checks *)

Definition check_size (mem_addr : address) (sz : Z) : M Z :=
  target ← find_mem_info mem_addr;
  if target =? 0 then mret CPLUS_SUCCESS
  else
    m ← load target mem_size;
    if m <? sz then print (SizeOverflow (s32 m) (s32 sz) (s32 (u32 (sz - m))));; mret CPLUS_FAIL
    else mret CPLUS_SUCCESS.

Definition complain (kind : record → notice) (info : Z) : M Z :=
  r ← load info shown; print (kind r);; mret CPLUS_FAIL.

Definition check_boundary (entire : address) : M Z :=
  let target := (entire.1, entire.2 + word) in
  info ← find_mem_info target;
  if info =? 0 then mret CPLUS_SUCCESS
  else
    begin_tag ← read_word entire;
    if CLRCHK =? begin_tag then complain DoubleFree info
    else if negb (BEGCHK =? begin_tag) then complain InvalidPointer info
    else
      m ← load info mem_size;
      end_tag ← read_word (target.1, target.2 + m);
      if negb (end_tag =? ENDCHK) then complain Overflow info
      else mret CPLUS_SUCCESS.

(** ** The manager *)

(** The two words around [size] bytes, and the record. *)
Definition wrap (m size : Z) (file function : option (list Z)) (line : Z) : M address :=
  write_word (m, 0) BEGCHK;;
  let target := (m, word) in
  write_word (target.1, target.2 + size) ENDCHK;;
  add_mem_info target size file function line;;
  mret target.

Definition cplus_mgr_malloc (sz : Z) (file function : option (list Z)) (line : Z) : M (option address) :=
  if sz =? 0 then mret None
  else
    m ← malloc (sz + 2 * word);
    if m =? 0 then mret None
    else target ← wrap m sz file function line; mret (Some target).

Definition cplus_mgr_realloc (ptr : option address) (sz : Z) (file function : option (list Z)) (line : Z) :
    M (option address) :=
  check_not_null ptr None (λ ptr,
    let entire := (ptr.1, ptr.2 - word) in
    ok ← check_boundary entire;
    assert_c (CPLUS_SUCCESS =? ok);;
    erase_mem_info ptr;;
    let new_size := if sz =? 0 then 0 else u32 (sz + 2 * word) in
    p ← base_of entire;
    m ← realloc p new_size;
    if m =? 0 then
      (if negb (sz =? 0) then free p else mret tt);;
      set_errno ENOMEM;;
      mret None
    else target ← wrap m sz file function line; mret (Some target)).

Definition cplus_mgr_check_size (ptr : option address) (sz : Z) : M Z :=
  check_not_null ptr CPLUS_FAIL (λ ptr,
    if sz <=? 0 then set_errno EINVAL;; mret CPLUS_FAIL else check_size ptr sz).

Definition cplus_mgr_check_boundary (ptr : option address) : M Z :=
  check_not_null ptr CPLUS_FAIL (λ ptr, check_boundary (ptr.1, ptr.2 - word)).

Fixpoint report_loop (fuel : nat) (ptr_temp used_num : Z) (print_title : bool) : M Z :=
  if ptr_temp =? 0 then mret used_num
  else
    (if print_title then print ReportTitle else mret tt);;
    r ← load ptr_temp shown;
    print (ReportRecord r);;
    n ← load ptr_temp next;
    match fuel with O => hang | Datatypes.S fuel => report_loop fuel n (s32 (used_num + 1)) false end.

Definition cplus_mgr_report_in_file : M Z :=
  n ← gets (λ s, size (infos s));
  lock_table;;
  start ← gets ptr_info_start;
  used_num ← report_loop n start 0 true;
  unlock_table;;
  (if negb (used_num =? 0) then print (ReportSummary used_num) else mret tt);;
  mret used_num.

Definition cplus_mgr_report : M Z := cplus_mgr_report_in_file.

Definition cplus_mgr_free (ptr : option address) : M Z :=
  check_not_null ptr EINVAL (λ ptr,
    let entire := (ptr.1, ptr.2 - word) in
    ok ← check_boundary entire;
    assert_c (CPLUS_SUCCESS =? ok);;
    write_word entire CLRCHK;;
    erase_mem_info ptr;;
    p ← base_of entire;
    free p;;
    mret CPLUS_SUCCESS).

End ops.
End Memdebug.
