(* ===== verification/MemdebugInv.v ===== *)
(** * MemdebugInv: the table of the memory manager and its invariant

    [table s l] says that the linked list of the manager holds the records [l],
    oldest first, one for each tracked block, and that the allocator knows
    exactly the nodes and the blocks.  The lemmas run the internal functions of
    memmgr.c under it. *)

From S2P Require Import Prelude Allocator Zlist Memdebug.
From stdpp Require Import base numbers list list_numbers option gmap sets.
From Stdlib Require Import ZArith Lia.
Open Scope Z_scope.

Module MemdebugInv.
Import Memdebug.

(** ** The list *)

(** The nodes from [p] to [e] are [l]. *)
Fixpoint seg (m : gmap Z extra_info) (p : Z) (l : list (Z * record)) (e : Z) : Prop :=
  match l with
  | [] => p = e
  | (q, r) :: l => p = q ∧ q ≠ 0 ∧ ∃ i, m !! q = Some i ∧ shown i = r ∧ seg m (next i) l e
  end.

Lemma seg_app m p l1 l2 e : seg m p (l1 ++ l2) e ↔ ∃ q, seg m p l1 q ∧ seg m q l2 e.
Proof.
  revert p. induction l1 as [|[q r] l1 IH]; intros p; simpl; [naive_solver|]. split.
  - intros (-> & Hq & i & Hi & Hr & (q' & H1 & H2)%IH). exists q'. naive_solver.
  - intros (q' & (-> & Hq & i & Hi & Hr & H1) & H2). split_and!; [done..|]. exists i.
    rewrite IH. naive_solver.
Qed.

Lemma seg_other m m' p l e :
  (∀ q, q ∈ l.*1 → m' !! q = m !! q) → seg m p l e → seg m' p l e.
Proof.
  revert p. induction l as [|[q r] l IH]; intros p Hm; simpl; [done|].
  intros (-> & Hq & i & Hi & Hr & Hs). split_and!; [done..|]. exists i.
  rewrite Hm by (simpl; set_solver). split_and!; [done..|]. apply IH; [|done].
  intros q' Hq'. apply Hm. simpl. set_solver.
Qed.

(** The list and its last node. *)
Record tab (m : gmap Z extra_info) (start la : Z) (l : list (Z * record)) : Prop := Tab {
  tab_seg : seg m start l 0;
  tab_nodup : NoDup l.*1;
  tab_dom : dom m = list_to_set l.*1;
  tab_last : ∀ l' q r, l = l' ++ [(q, r)] → la = q }.

Lemma tab_start m start la l : tab m start la l → start = 0 ↔ l = [].
Proof.
  intros Ht. pose proof (tab_seg _ _ _ _ Ht) as Hs. destruct l as [|[q r] l]; simpl in Hs; naive_solver.
Qed.

Lemma tab_at m start la l1 q r l2 :
  tab m start la (l1 ++ (q, r) :: l2) →
  q ≠ 0 ∧ q ∉ l1.*1 ∧ q ∉ l2.*1 ∧ (∀ x, x ∈ l1.*1 → x ∉ l2.*1) ∧ NoDup (l1 ++ l2).*1
  ∧ ∃ i, m !! q = Some i ∧ shown i = r ∧ seg m start l1 q ∧ seg m (next i) l2 0.
Proof.
  intros Ht. pose proof (tab_nodup _ _ _ _ Ht) as Hn. rewrite fmap_app in Hn. simpl in Hn.
  apply NoDup_app in Hn as (Hn1 & Hd & Hn2). apply NoDup_cons in Hn2 as [Hq Hn2].
  pose proof (tab_seg _ _ _ _ Ht) as (q' & Hs1 & Hs2)%seg_app. simpl in Hs2.
  destruct Hs2 as (-> & Hq0 & i & Hi & Hr & Hs2).
  split; [done|]. split; [intros Hin; apply (Hd q Hin); left|]. split; [done|].
  assert (∀ x, x ∈ l1.*1 → x ∉ l2.*1) as Hd2 by (intros x Hx Hx2; apply (Hd x Hx); by right).
  split; [done|]. split; [|by exists i]. rewrite fmap_app. apply NoDup_app. done.
Qed.

(** A new last node. *)
Lemma tab_snoc m start la l i ex :
  tab m start la l → m !! ex = None → ex ≠ 0 → next i = 0 →
  let m' := <[ex := i]> m in
  tab (if start =? 0 then m' else alter (set_next ex) la m')
      (if start =? 0 then ex else start) ex (l ++ [(ex, shown i)]).
Proof.
  intros Ht Hex Hex0 Hi m'.
  assert (ex ∉ l.*1) as Hnew.
  { intros Hin. apply not_elem_of_dom in Hex. rewrite (tab_dom _ _ _ _ Ht) in Hex. set_solver. }
  assert (NoDup (l ++ [(ex, shown i)]).*1) as Hnd.
  { rewrite fmap_app. apply NoDup_app. split; [apply Ht|]. split; [|apply NoDup_singleton]. set_solver. }
  assert (∀ l' q r, l ++ [(ex, shown i)] = l' ++ [(q, r)] → ex = q) as Hlast.
  { intros l' q r E. apply app_inj_tail in E as [_ [= -> _]]. done. }
  subst m'. destruct (Z.eqb_spec start 0) as [Hs|Hs].
  - apply (tab_start _ _ _ _ Ht) in Hs as Hl. subst l. split; [|done| |done].
    + simpl. split_and!; [done..|]. exists i. by rewrite lookup_insert_eq.
    + rewrite dom_insert_L, (tab_dom _ _ _ _ Ht). simpl. set_solver.
  - destruct l as [|x l0] using rev_ind.
    { destruct Hs. by apply (tab_start _ _ _ _ Ht). } clear IHl0.
    destruct x as [q r]. rewrite (tab_last _ _ _ _ Ht l0 q r eq_refl).
    destruct (tab_at _ _ _ l0 q r [] Ht) as (Hq0 & Hq1 & _ & _ & _ & j & Hj & Hjr & Hs1 & _).
    rewrite fmap_app in Hnew. simpl in Hnew.
    assert (q ≠ ex) by set_solver. assert (ex ∉ l0.*1) by set_solver.
    split; [|done| |done].
    + rewrite <- app_assoc. apply seg_app. exists q. split.
      * apply (seg_other m); [|done]. intros x Hx. assert (x ≠ q ∧ x ≠ ex) as [? ?] by set_solver.
        by rewrite lookup_alter_ne, lookup_insert_ne.
      * simpl. split_and!; [done..|]. exists (set_next ex j). split; [|split; [done|]].
        -- rewrite lookup_alter_eq, lookup_insert_ne by done. by rewrite Hj.
        -- simpl. split_and!; [done..|]. exists i. rewrite lookup_alter_ne by done.
           by rewrite lookup_insert_eq.
    + rewrite dom_alter_L, dom_insert_L, (tab_dom _ _ _ _ Ht), !fmap_app. simpl. set_solver.
Qed.

(** The first node goes. *)
Lemma tab_tail m start la q r l i :
  tab m start la ((q, r) :: l) → m !! q = Some i → tab (delete q m) (next i) la l.
Proof.
  intros Ht Hi. destruct (tab_at _ _ _ [] q r l Ht) as (_ & _ & Hq & _ & Hn & j & Hj & _ & _ & Hs).
  assert (j = i) as -> by congruence. split; [|done| |].
  - apply (seg_other m); [|done]. intros x Hx. rewrite lookup_delete_ne; [done|]. by intros <-.
  - rewrite dom_delete_L, (tab_dom _ _ _ _ Ht). simpl.
    assert (q ∉ (list_to_set l.*1 : gset Z)) by set_solver. set_solver.
  - intros l' x rx ->. by apply (tab_last _ _ _ _ Ht ((q, r) :: l') x rx).
Qed.

(** A node after [pv] goes. *)
Lemma tab_skip m start la l0 pv rv q r l i :
  tab m start la (l0 ++ (pv, rv) :: (q, r) :: l) → m !! q = Some i →
  tab (delete q (alter (set_next (next i)) pv m)) start (if q =? la then pv else la)
      (l0 ++ (pv, rv) :: l).
Proof.
  intros Ht Hi.
  destruct (tab_at _ _ _ l0 pv rv _ Ht) as (Hp0 & Hp1 & Hp2 & Hd & _ & j & Hj & Hjr & Hs1 & Hs2).
  simpl in Hs2, Hp2, Hd. destruct Hs2 as (Hjn & Hq0 & i' & Hi' & Hir & Hs3).
  assert (i' = i) as -> by congruence.
  assert (l0 ++ (pv, rv) :: (q, r) :: l = (l0 ++ [(pv, rv)]) ++ (q, r) :: l) as E by (by rewrite <- app_assoc).
  rewrite E in Ht. destruct (tab_at _ _ _ _ q r l Ht) as (_ & Hq1 & Hq2 & _ & Hn & _).
  rewrite fmap_app in Hq1. simpl in Hq1. rewrite <- app_assoc in Hn. simpl in Hn.
  assert (q ≠ pv) by set_solver. assert (pv ∉ l.*1) by set_solver. assert (q ∉ l0.*1) by set_solver.
  assert (Hoth : ∀ x, x ≠ q → x ≠ pv → delete q (alter (set_next (next i)) pv m) !! x = m !! x).
  { intros x Hx Hxp. by rewrite lookup_delete_ne, lookup_alter_ne. }
  split; [|done| |].
  - apply seg_app. exists pv. split; [|simpl; split_and!; [done..|]].
    + apply (seg_other m); [|done]. intros x Hx. apply Hoth; by intros ->.
    + exists (set_next (next i) j). rewrite lookup_delete_ne by done.
      rewrite lookup_alter_eq, Hj. split_and!; [done..|]. simpl.
      apply (seg_other m); [|done]. intros x Hx. apply Hoth; by intros ->.
  - rewrite dom_delete_L, dom_alter_L, (tab_dom _ _ _ _ Ht), !fmap_app. simpl. set_solver.
  - intros l' x rx El. destruct l as [|y l2] using rev_ind.
    + rewrite (tab_last _ _ _ _ Ht (l0 ++ [(pv, rv)]) q r eq_refl), Z.eqb_refl.
      apply app_inj_tail in El as [_ [= -> _]]. done.
    + clear IHl2. destruct y as [y ry]. 
      replace (l0 ++ (pv, rv) :: l2 ++ [(y, ry)]) with ((l0 ++ (pv, rv) :: l2) ++ [(y, ry)]) in El
        by (by rewrite <- app_assoc).
      apply app_inj_tail in El as [_ [= -> _]].
      rewrite (tab_last _ _ _ _ Ht ((l0 ++ [(pv, rv)]) ++ (q, r) :: l2) x ry).
      2: { by rewrite <- !app_assoc. }
      destruct (Z.eqb_spec q x) as [->|]; [|done]. rewrite fmap_app in Hq2. set_solver.
Qed.

(** ** The state *)

(** ** Words in a block *)

Definition word_at (bs : list Z) (o : Z) : Z := little_endian_to_Z 8 (take 4 (drop (Z.to_nat o) bs)).
Definition put_word (bs : list Z) (o v : Z) : list Z :=
  take (Z.to_nat o) bs ++ Z_to_little_endian 4 8 v ++ drop (Z.to_nat o + 4) bs.

Lemma length_word v : length (Z_to_little_endian 4 8 v) = 4%nat.
Proof. apply Nat2Z.inj. by rewrite length_Z_to_little_endian. Qed.

Lemma zlen_put bs o v : 0 ≤ o → o + 4 ≤ zlen bs → zlen (put_word bs o v) = zlen bs.
Proof.
  intros Ho Hl. unfold put_word, zlen in *. rewrite !length_app, length_word, length_take, length_drop. lia.
Qed.

Lemma word_put bs o v : 0 ≤ o → o + 4 ≤ zlen bs → word_at (put_word bs o v) o = v `mod` 2 ^ 32.
Proof.
  intros Ho Hl. unfold word_at, put_word, zlen in *.
  rewrite drop_app_length' by (rewrite length_take; lia).
  rewrite take_app_length' by (by rewrite length_word).
  rewrite little_endian_to_Z_to_little_endian by done. done.
Qed.

Lemma take_drop_ext {X} (a b : list X) n k :
  (∀ i, (n ≤ i < n + k)%nat → a !! i = b !! i) → take k (drop n a) = take k (drop n b).
Proof.
  intros Hi. apply list_eq. intros i. destruct (decide (i < k)%nat).
  - rewrite !lookup_take_lt, !lookup_drop by done. apply Hi. lia.
  - by rewrite !lookup_take_ge by lia.
Qed.

Lemma lookup_put bs o v i :
  0 ≤ o → o + 4 ≤ zlen bs → (i < Z.to_nat o ∨ Z.to_nat o + 4 ≤ i)%nat → put_word bs o v !! i = bs !! i.
Proof.
  intros Ho Hl Hi. unfold put_word, zlen in *.
  assert (length (take (Z.to_nat o) bs) = Z.to_nat o) as Et by (rewrite length_take; lia).
  destruct Hi as [Hi|Hi].
  - rewrite lookup_app_l, lookup_take_lt by lia. done.
  - rewrite lookup_app_r, lookup_app_r by (rewrite ?length_word, Et; lia).
    rewrite lookup_drop, length_word, Et. f_equal. lia.
Qed.

Lemma word_other bs o v o' :
  0 ≤ o → o + 4 ≤ zlen bs → 0 ≤ o' → o' + 4 ≤ o ∨ o + 4 ≤ o' →
  word_at (put_word bs o v) o' = word_at bs o'.
Proof.
  intros Ho Hl Ho' Hd. unfold word_at. f_equal. apply take_drop_ext. intros i Hi.
  apply lookup_put; [done..|]. lia.
Qed.

Section inv.
Context {A : Type} `{Allocator A}.
Notation S := (st A).
Implicit Types s : S.

(** The size of a tracked block and the words around it. *)
Definition sized (m : gmap Z (list Z)) (r : record) : Prop :=
  let '(a, size, _, _, _) := r in
  a.2 = word ∧ 0 ≤ size < 2 ^ 32 ∧ ∃ bs, m !! a.1 = Some bs ∧ zlen bs = size + 2 * word.

Definition ref_of (r : record) : address := let '(a, _, _, _, _) := r in a.
Definition size_of (r : record) : Z := let '(_, n, _, _, _) := r in n.

Record table s (l : list (Z * record)) : Prop := Table {
  tb_tab : tab (infos s) (ptr_info_start s) (ptr_info_last s) l;
  tb_num : inused_mem_num s = s32 (zlen l.*1);
  tb_free : rwlock s = false;
  tb_src : al_ok (src s) (dom (infos s) ∪ dom (mem s));
  tb_apart : dom (infos s) ## dom (mem s);
  tb_refs : NoDup (ref_of <$> l.*2);
  tb_sized : Forall (sized (mem s)) l.*2 }.

(** The state without its lock. *)
Lemma unlock_lock s : rwlock s = false → with_lock false (with_lock true s) = s.
Proof. destruct s. simpl. by intros ->. Qed.

Lemma lock_run s : rwlock s = false → lock_table s = Done (tt, with_lock true s).
Proof. intros E. unfold lock_table. by rewrite E. Qed.

Lemma load_run {B} p (f : extra_info → B) s i : infos s !! p = Some i → load p f s = Done (f i, s).
Proof. intros E. unfold load, deref. by rewrite E. Qed.

(** Looking a pointer up. *)
Definition found (l : list (Z * record)) (a : address) : Z :=
  default 0 (fst <$> find (λ x, bool_decide (ref_of x.2 = a)) l).

Lemma find_loop_run fuel a p l s :
  seg (infos s) p l 0 → (length l ≤ fuel)%nat →
  find_loop fuel a p s = Done (found l a, with_lock false s).
Proof.
  revert fuel p. induction l as [|[q r] l IH]; intros fuel p Hs Hf; simpl in Hs.
  - subst p. by destruct fuel.
  - destruct Hs as (-> & Hq & i & Hi & Hr & Hs). destruct fuel as [|fuel]; [simpl in Hf; lia|].
    simpl. rewrite (proj2 (Z.eqb_neq q 0)) by done.
    rewrite (bind_Done _ _ _ _ _ (load_run q mem_ref s i Hi)).
    assert (ref_of r = mem_ref i) as Hri by (by rewrite <- Hr).
    unfold found. simpl. rewrite Hri. destruct (bool_decide (mem_ref i = a)); [done|].
    rewrite (bind_Done _ _ _ _ _ (load_run q next s i Hi)). apply IH; [done|]. simpl in Hf. lia.
Qed.

Lemma tab_size m start la l : tab m start la l → size m = length l.
Proof.
  intros Ht. rewrite <- size_dom, (tab_dom _ _ _ _ Ht), size_list_to_set by apply Ht.
  by rewrite length_fmap.
Qed.

Lemma find_run s l a : table s l → find_mem_info a s = Done (found l a, s).
Proof.
  intros Ht. unfold find_mem_info, gets. crun. rewrite lock_run by apply Ht.
  erewrite find_loop_run; [|apply (tab_seg _ _ _ _ (tb_tab _ _ Ht))|].
  - by rewrite unlock_lock by apply Ht.
  - by rewrite (tab_size _ _ _ _ (tb_tab _ _ Ht)).
Qed.

(** ** Recording a block *)

Definition known s : gset Z := dom (infos s) ∪ dom (mem s).

Lemma new_block_run s :
  al_ok (src s) (known s) →
  ∃ p a, new_block s = Done (p, if p =? 0 then with_errno ENOMEM (with_src a s) else with_src a s)
    ∧ (p = 0 ∧ al_ok a (known s) ∨ p ≠ 0 ∧ p ∉ known s ∧ al_ok a ({[p]} ∪ known s)).
Proof.
  intros Hok. destruct (al_new_spec _ _ Hok) as (p & a & E & Hp). exists p, a. split; [|done].
  unfold new_block. by rewrite E.
Qed.

Lemma table_errno s l e : table s l → table (with_errno e s) l.
Proof. by intros []. Qed.
Lemma table_out s l o : table s l → table (with_out o s) l.
Proof. by intros []. Qed.

Definition record_of (a : address) (size : Z) (fi fu : list Z) (ln : Z) : record :=
  (a, size, clip MAX_FILE_NAME (Sys.cplus_sys_skip_file_path fi), ln, clip MAX_FUNC_NAME fu).

Lemma link_run s ex m0 i :
  infos s = <[ex := i]> m0 → (ptr_info_start s ≠ 0 → ptr_info_last s ≠ ex ∧ is_Some (m0 !! ptr_info_last s)) →
  link ex s = Done (tt,
    if ptr_info_start s =? 0 then with_last ex (with_start ex s)
    else with_last ex (with_infos (alter (set_next ex) (ptr_info_last s) (infos s)) s)).
Proof.
  intros Hm Hl. unfold link. crun. destruct (Z.eqb_spec (ptr_info_start s) 0) as [|Hs]; [done|].
  destruct (Hl Hs) as [Hne [j Hj]]. unfold store, load. crun. rewrite Hm, lookup_insert_ne by done.
  rewrite Hj. simpl. by rewrite Hm, lookup_alter_eq, lookup_insert_ne, Hj.
Qed.

Lemma tab_last_in m start la l : tab m start la l → start ≠ 0 → is_Some (m !! la).
Proof.
  intros Ht Hs. destruct l as [|[q r] l0] using rev_ind.
  { destruct Hs. by apply (tab_start _ _ _ _ Ht). }
  rewrite (tab_last _ _ _ _ Ht l0 q r eq_refl). apply elem_of_dom.
  rewrite (tab_dom _ _ _ _ Ht), fmap_app. simpl. set_solver.
Qed.

Lemma add_run s l a size fi fu ln :
  table s l → sized (mem s) (record_of a size fi fu ln) → a ∉ (ref_of <$> l.*2) →
  ∃ r s', add_mem_info a size (Some fi) (Some fu) ln s = Done (r, s')
    ∧ mem s' = mem s ∧ out s' = out s
    ∧ ((∃ ex, table s' (l ++ [(ex, record_of a size fi fu ln)])) ∨ table s' l).
Proof.
  intros Ht Hsz Ha. unfold add_mem_info, check_not_null.
  destruct (new_block_run s (tb_src _ _ Ht)) as (ex & b & E & Hb).
  rewrite (bind_Done _ _ _ _ _ E). destruct Hb as [[-> Hb] | (Hex & Hnew & Hb)].
  { cbn [Z.eqb negb]. do 2 eexists. split; [reflexivity|]. split; [done|]. split; [done|]. right.
    destruct Ht. by split. }
  rewrite (proj2 (Z.eqb_neq ex 0)) by done. cbn [negb].
  set (i := Info a size ln 0 _ _). unfold known in Hnew. apply not_elem_of_union in Hnew as [Hn1 Hn2].
  assert (infos s !! ex = None) as Hni by (by apply not_elem_of_dom).
  set (s1 := with_lock true (with_infos (<[ex := i]> (infos s)) (with_src b s))).
  pose proof (tab_snoc _ _ _ _ i ex (tb_tab _ _ Ht) Hni Hex eq_refl) as Htab. cbv zeta in Htab.
  assert (link ex s1 = Done (tt, if ptr_info_start s =? 0 then with_last ex (with_start ex s1)
    else with_last ex (with_infos (alter (set_next ex) (ptr_info_last s) (<[ex := i]> (infos s))) s1))) as El.
  { apply (link_run s1 ex (infos s) i); [done|]. intros Hs.
    pose proof (tab_last_in _ _ _ _ (tb_tab _ _ Ht) Hs) as Hin. split; [|done].
    intros Heq. simpl in Heq. rewrite Heq, Hni in Hin. by destruct Hin. }
  crun. cbn [infos with_src]. rewrite lock_run by apply Ht. fold s1. rewrite El.
  set (l2 := l ++ [(ex, record_of a size fi fu ln)]) in *.
  assert (Hnum : s32 (inused_mem_num s + 1) = s32 (zlen l2.*1)).
  { subst l2. rewrite (tb_num _ _ Ht), s32_add_l, fmap_app, zlen_app. done. }
  assert (Hok : al_ok b ({[ex]} ∪ dom (infos s) ∪ dom (mem s))) by (by rewrite <- union_assoc_L).
  assert (Hap : {[ex]} ∪ dom (infos s) ## dom (mem s)) by (pose proof (tb_apart _ _ Ht); set_solver).
  assert (Hnd : NoDup (ref_of <$> l2.*2)).
  { subst l2. rewrite !fmap_app. apply NoDup_app. split; [apply Ht|]. split; [|apply NoDup_singleton].
    intros x Hx ->%list_elem_of_singleton. done. }
  assert (Hss : Forall (sized (mem s)) l2.*2).
  { subst l2. rewrite fmap_app. apply Forall_app. split; [apply Ht|]. by apply Forall_singleton. }
  destruct (ptr_info_start s =? 0) eqn:E0; (do 2 eexists; split; [reflexivity|]);
    (split; [done|]; split; [done|]); left; exists ex; (split; simpl; [exact Htab|done|done|..]);
    rewrite ?dom_alter_L, ?dom_insert_L; done.
Qed.

(** ** Forgetting a block *)

Definition last_node (pv : Z) (l : list (Z * record)) : Z := default pv (last l.*1).

Lemma erase_walk fuel a p pv l q s :
  seg (infos s) p l q → (∀ x, x ∈ l → ref_of x.2 ≠ a) → (length l ≤ fuel)%nat →
  erase_loop fuel a p pv s = erase_loop (fuel - length l) a q (last_node pv l) s.
Proof.
  revert fuel p pv. induction l as [|[x r] l IH]; intros fuel p pv Hs Ha Hf; simpl in Hs.
  - subst p. simpl. by rewrite Nat.sub_0_r.
  - destruct Hs as (-> & Hx & i & Hi & Hr & Hs). destruct fuel as [|fuel]; [simpl in Hf; lia|].
    simpl. rewrite (proj2 (Z.eqb_neq x 0)) by done.
    rewrite (bind_Done _ _ _ _ _ (load_run x mem_ref s i Hi)).
    assert (ref_of r = mem_ref i) as Hri by (by rewrite <- Hr).
    rewrite bool_decide_false.
    2: { rewrite <- Hri. by apply (Ha (x, r)); left. }
    rewrite (bind_Done _ _ _ _ _ (load_run x next s i Hi)). rewrite (IH _ _ x); [|done| |simpl in Hf; lia].
    + f_equal. unfold last_node. rewrite fmap_cons, last_cons. simpl. by destruct (last l.*1).
    + intros y Hy. apply Ha. by right.
Qed.

(** The state after the node [q], that follows [l1] and holds [i], is unlinked. *)
Definition unlinked (l1 : list (Z * record)) (q : Z) (i : extra_info) s : S :=
  match last l1.*1 with
  | None => with_start (next i) s
  | Some pv => with_infos (alter (set_next (next i)) pv (infos s))
                 (if q =? ptr_info_last s then with_last pv s else s)
  end.

Lemma unlink_run l1 q r l2 i s :
  tab (infos s) (ptr_info_start s) (ptr_info_last s) (l1 ++ (q, r) :: l2) → infos s !! q = Some i →
  unlink q (last_node 0 l1) s = Done (tt, unlinked l1 q i s).
Proof.
  intros Ht Hi. unfold unlink, unlinked, last_node. crun.
  destruct (tab_at _ _ _ l1 q r l2 Ht) as (Hq0 & Hq1 & Hq2 & _ & _ & i' & Hi' & _ & Hs1 & Hs2).
  assert (i' = i) as -> by congruence.
  destruct l1 as [|[pv rv] l0] using rev_ind; [|clear IHl0].
  - simpl in Hs1. rewrite Hs1, Z.eqb_refl. unfold load. crun. by rewrite Hi.
  - rewrite fmap_app in Hq1 |- *. simpl in Hq1 |- *. rewrite last_snoc. simpl.
    pose proof Ht as Ht2. rewrite <- app_assoc in Ht2.
    destruct (tab_at _ _ _ l0 pv rv ((q, r) :: l2) Ht2) as (_ & _ & _ & _ & _ & j & Hj & _).
    assert (ptr_info_start s ∈ l0.*1 ++ [pv]) as Hst
      by (destruct l0 as [|[x rx] l0]; simpl in Hs1 |- *; destruct Hs1 as (E & _); rewrite E; left).
    destruct (Z.eqb_spec q (ptr_info_start s)) as [E|_]; [by destruct Hq1; rewrite E|].
    destruct (Z.eqb_spec q (ptr_info_last s)) as [Hla|Hla].
    + assert (next i = 0) as ->.
      { destruct l2 as [|[y ry] l3] using rev_ind; [done|]. clear IHl3. destruct Hq2.
        rewrite Hla, (tab_last _ _ _ _ Ht ((l0 ++ [(pv, rv)]) ++ (q, r) :: l3) y ry).
        - rewrite fmap_app. simpl. set_solver.
        - by rewrite <- !app_assoc. }
      unfold store, load. crun. simpl. by rewrite Hj.
    + unfold store, load. crun. rewrite Hi. simpl. by rewrite Hj.
Qed.

Lemma unlinked_tab l1 q r l2 i s :
  tab (infos s) (ptr_info_start s) (ptr_info_last s) (l1 ++ (q, r) :: l2) → infos s !! q = Some i →
  let s' := unlinked l1 q i s in
  tab (delete q (infos s')) (ptr_info_start s') (ptr_info_last s') (l1 ++ l2)
  ∧ dom (infos s') = dom (infos s) ∧ src s' = src s ∧ mem s' = mem s ∧ out s' = out s
  ∧ rwlock s' = rwlock s ∧ inused_mem_num s' = inused_mem_num s ∧ errno s' = errno s.
Proof.
  intros Ht Hi. unfold unlinked. destruct l1 as [|[pv rv] l0] using rev_ind; [|clear IHl0].
  - simpl. split; [|done]. by eapply tab_tail.
  - rewrite fmap_app. simpl. rewrite last_snoc. rewrite <- app_assoc in Ht |- *. simpl in Ht |- *.
    pose proof (tab_skip _ _ _ l0 pv rv q r l2 i Ht Hi) as Hk.
    destruct (q =? ptr_info_last s); simpl; (split; [done|]); by rewrite dom_alter_L.
Qed.

Definition forget (a : address) (l : list (Z * record)) : list (Z * record) :=
  filter (λ x, ref_of x.2 ≠ a) l.

Lemma forget_none a (l : list (Z * record)) : a ∉ (ref_of <$> l.*2) → forget a l = l.
Proof.
  intros Ha. unfold forget. induction l as [|x l IH]; [done|]. simpl in Ha.
  rewrite filter_cons_True by (intros E; apply Ha; rewrite <- E; left). f_equal. apply IH. set_solver.
Qed.

Lemma forget_one a (l1 : list (Z * record)) q r l2 :
  NoDup (ref_of <$> (l1 ++ (q, r) :: l2).*2) → ref_of r = a →
  a ∉ (ref_of <$> l1.*2) ∧ forget a (l1 ++ (q, r) :: l2) = l1 ++ l2.
Proof.
  rewrite !fmap_app. simpl. intros (_ & Hd & [Hr _]%NoDup_cons)%NoDup_app Ha.
  assert (a ∉ (ref_of <$> l1.*2)) as H1 by (intros Hin; apply (Hd a Hin); rewrite Ha; left).
  split; [done|]. unfold forget. rewrite filter_app, filter_cons_False by (simpl; tauto).
  f_equal; apply forget_none; [done|]. by rewrite <- Ha.
Qed.

Lemma split_at a (l : list (Z * record)) :
  a ∈ (ref_of <$> l.*2) → ∃ l1 q r l2, l = l1 ++ (q, r) :: l2 ∧ ref_of r = a.
Proof.
  intros (r & -> & ([q r'] & -> & Hx)%list_elem_of_fmap)%list_elem_of_fmap.
  apply list_elem_of_split in Hx as (l1 & l2 & ->). by exists l1, q, r', l2.
Qed.

Lemma table_forget_sized m a l : Forall (sized m) l.*2 → Forall (sized m) (forget a l).*2.
Proof.
  rewrite !Forall_fmap. unfold forget. intros Hf. apply Forall_forall. intros x [_ Hx]%list_elem_of_filter.
  by apply (proj1 (Forall_forall _ _) Hf).
Qed.

Lemma erase_hit fuel a q pv s i s2 n b :
  q ≠ 0 → infos s !! q = Some i → mem_ref i = a → unlink q pv s = Done (tt, s2) →
  next <$> infos s2 !! q = Some n → al_release q (src s2) = Done b →
  erase_loop fuel a q pv s = Done (tt,
    with_num (s32 (inused_mem_num s2 - 1)) (with_src b (with_infos (delete q (infos s2)) s2))).
Proof.
  intros Hq Hi Ha Hu Hn Hb.
  assert (∀ f, (if q =? 0 then mret tt else
    r ← load q mem_ref;
    if bool_decide (r = a) then
      unlink q pv;;
      load q next;;
      modify (λ s, with_infos (delete q (infos s)) s);;
      release_block q;;
      modify (λ s, with_num (s32 (inused_mem_num s - 1)) s)
    else f) s = Done (tt,
    with_num (s32 (inused_mem_num s2 - 1)) (with_src b (with_infos (delete q (infos s2)) s2)))) as E.
  { intros f. rewrite (proj2 (Z.eqb_neq q 0)) by done.
    rewrite (bind_Done _ _ _ _ _ (load_run q mem_ref s i Hi)), bool_decide_true by done.
    rewrite (bind_Done _ _ _ _ _ Hu). unfold load, release_block. crun. rewrite Hn. simpl. by rewrite Hb. }
  destruct fuel; apply E.
Qed.

Lemma erase_run s l a :
  table s l → ∃ s', erase_mem_info a s = Done (CPLUS_SUCCESS, s') ∧ table s' (forget a l)
    ∧ mem s' = mem s ∧ out s' = out s ∧ errno s' = errno s.
Proof.
  intros Ht. unfold erase_mem_info, gets. crun. rewrite lock_run by apply Ht.
  rewrite (tab_size _ _ _ _ (tb_tab _ _ Ht)). set (s1 := with_lock true s).
  destruct (decide (a ∈ (ref_of <$> l.*2))) as [Ha|Ha].
  - apply split_at in Ha as (l1 & q & r & l2 & -> & Hr).
    destruct (forget_one a l1 q r l2 (tb_refs _ _ Ht) Hr) as [Hl1 ->].
    destruct (tab_at _ _ _ l1 q r l2 (tb_tab _ _ Ht)) as (Hq0 & _ & _ & _ & _ & i & Hi & Hir & Hs1 & _).
    rewrite (erase_walk _ a _ 0 l1 q s1); [|done| |rewrite length_app; lia].
    2: { intros x Hx E. apply Hl1. rewrite <- E. apply list_elem_of_fmap_2, list_elem_of_fmap_2, Hx. }
    assert (Hi1 : infos s1 !! q = Some i) by done.
    pose proof (unlink_run l1 q r l2 i s1 (tb_tab _ _ Ht) Hi1) as Eu.
    destruct (unlinked_tab l1 q r l2 i s1 (tb_tab _ _ Ht) Hi1) as (Htab & Hd & Hsrc & Hm & Ho & Hl & Hn & He).
    set (s2 := unlinked l1 q i s1) in *.
    assert (∃ n, next <$> infos s2 !! q = Some n) as [n Hq2].
    { assert (q ∈ dom (infos s2)) as [j Hj]%elem_of_dom; [|rewrite Hj; by eexists].
      rewrite Hd. apply elem_of_dom. by exists i. }
    destruct (al_release_spec (src s2) (known s) q) as (b & Eb & Hb).
    { rewrite Hsrc. apply (tb_src _ _ Ht). }
    { unfold known. apply elem_of_union_l, elem_of_dom. by exists i. }
    exists (with_lock false (with_num (s32 (inused_mem_num s2 - 1))
              (with_src b (with_infos (delete q (infos s2)) s2)))).
    split.
    + by rewrite (erase_hit _ a q _ s1 i s2 n b Hq0 Hi1) by (done || by rewrite <- Hr, <- Hir).
    + split; [|simpl; by rewrite Hm, Ho, He]. split; simpl; [exact Htab| |done| | | |].
      * rewrite Hn. simpl. rewrite (tb_num _ _ Ht).
        change (s32 (zlen (l1 ++ (q, r) :: l2).*1) - 1) with (s32 (zlen (l1 ++ (q, r) :: l2).*1) + -1).
        rewrite s32_add_l. f_equal. rewrite !fmap_app, !zlen_app. cbn [fmap list_fmap].
        rewrite zlen_cons. lia.
      * rewrite dom_delete_L, Hd, Hm. simpl. unfold known in Hb. pose proof (tb_apart _ _ Ht) as Hap.
        assert (q ∉ dom (mem s)) as Hqm.
        { intros Hin. apply (Hap q); [|done]. apply elem_of_dom. by exists i. }
        replace (dom (infos s) ∖ {[q]} ∪ dom (mem s)) with ((dom (infos s) ∪ dom (mem s)) ∖ {[q]}) by set_solver.
        done.
      * rewrite dom_delete_L, Hd, Hm. pose proof (tb_apart _ _ Ht). simpl. set_solver.
      * pose proof (tb_refs _ _ Ht) as Hnd. rewrite !fmap_app in Hnd |- *. simpl in Hnd.
        apply NoDup_app in Hnd as (H1 & H2 & [_ H3]%NoDup_cons). apply NoDup_app.
        split_and!; [done| |done]. intros x Hx Hx2. apply (H2 x Hx). by right.
      * rewrite Hm. pose proof (tb_sized _ _ Ht) as Hf. rewrite !fmap_app in Hf |- *. simpl in Hf.
        apply Forall_app in Hf as [? [_ ?]%Forall_cons]. by apply Forall_app.
  - rewrite forget_none by done. exists s. rewrite (erase_walk _ a _ 0 l 0 s1); [|apply (tb_tab _ _ Ht)| |done].
    2: { intros x Hx E. apply Ha. rewrite <- E. apply list_elem_of_fmap_2, list_elem_of_fmap_2, Hx. }
    split; [|done]. destruct (_ - _)%nat; simpl; subst s1; by rewrite unlock_lock by apply Ht.
Qed.

(** ** Blocks *)

Lemma read_run b o bs s :
  mem s !! b = Some bs → 0 ≤ o → o + word ≤ zlen bs → read_word (b, o) s = Done (word_at bs o, s).
Proof.
  intros Hb Ho Hl. unfold read_word. crun. simpl. rewrite Hb.
  by rewrite (proj2 (Z.leb_le 0 o)), (proj2 (Z.leb_le (o + word) (zlen bs))).
Qed.

Lemma write_run b o bs v s :
  mem s !! b = Some bs → 0 ≤ o → o + word ≤ zlen bs →
  write_word (b, o) v s = Done (tt, with_mem (<[b := put_word bs o v]> (mem s)) s).
Proof.
  intros Hb Ho Hl. unfold write_word. crun. simpl. rewrite Hb.
  by rewrite (proj2 (Z.leb_le 0 o)), (proj2 (Z.leb_le (o + word) (zlen bs))).
Qed.

Lemma sized_mem m m' r :
  (∀ bs, m !! (ref_of r).1 = Some bs → ∃ bs', m' !! (ref_of r).1 = Some bs' ∧ zlen bs' = zlen bs) →
  sized m r → sized m' r.
Proof.
  destruct r as [[[[a n] f] x] u]. simpl. intros Hm (Ha & Hn & bs & Hb & Hl).
  destruct (Hm bs Hb) as (bs' & Hb' & Hl'). split; [done|]. split; [done|]. exists bs'. by rewrite Hl'.
Qed.

(** A write that keeps the length of a block. *)
Lemma table_write s l b bs bs' :
  table s l → mem s !! b = Some bs → zlen bs' = zlen bs → table (with_mem (<[b := bs']> (mem s)) s) l.
Proof.
  intros Ht Hb Hl. assert (dom (<[b := bs']> (mem s)) = dom (mem s)) as Hd.
  { rewrite dom_insert_L. assert (b ∈ dom (mem s)) by (apply elem_of_dom; by exists bs). set_solver. }
  split; simpl; rewrite ?Hd; try apply Ht. eapply Forall_impl; [apply Ht|]. intros r.
  apply sized_mem. intros bs0 Hb0. destruct (decide ((ref_of r).1 = b)) as [E|Hne].
  - rewrite E in Hb0 |- *. exists bs'. rewrite lookup_insert_eq. split; [done|]. congruence.
  - exists bs0. by rewrite lookup_insert_ne.
Qed.

(** The blocks of the table are in use. *)
Lemma table_ref_live s l a : table s l → a ∈ (ref_of <$> l.*2) → a.2 = word ∧ is_Some (mem s !! a.1).
Proof.
  intros Ht (r & -> & Hr)%list_elem_of_fmap.
  pose proof (proj1 (Forall_forall _ _) (tb_sized _ _ Ht) r Hr) as Hs.
  destruct r as [[[[a n] f] x] u]. destruct Hs as (Ha & _ & bs & Hb & _). simpl. by rewrite Hb.
Qed.

Lemma malloc_run junk s l n :
  table s l →
  ∃ p s', malloc junk n s = Done (p, s') ∧ table s' l ∧ out s' = out s ∧
    (p = 0 ∧ mem s' = mem s
     ∨ p ≠ 0 ∧ mem s !! p = None ∧ mem s' = <[p := fresh_bytes junk p n]> (mem s)).
Proof.
  intros Ht. unfold malloc. destruct (new_block_run s (tb_src _ _ Ht)) as (p & b & E & Hb).
  rewrite (bind_Done _ _ _ _ _ E). destruct Hb as [[-> Hb] | (Hp & Hnew & Hb)].
  - exists 0. eexists. split; [reflexivity|]. split; [|by split; [|left]]. destruct Ht. by split.
  - rewrite (proj2 (Z.eqb_neq p 0)) by done. exists p. eexists. split; [reflexivity|].
    unfold known in Hnew. apply not_elem_of_union in Hnew as [Hn1 Hn2].
    assert (mem s !! p = None) as Hnm by (by apply not_elem_of_dom).
    split; [|split; [done|]; right; by split_and!].
    split; simpl; try apply Ht.
    + rewrite dom_insert_L. unfold known in Hb.
      replace (dom (infos s) ∪ ({[p]} ∪ dom (mem s))) with ({[p]} ∪ (dom (infos s) ∪ dom (mem s))) by set_solver.
      done.
    + rewrite dom_insert_L. pose proof (tb_apart _ _ Ht). set_solver.
    + eapply Forall_impl; [apply Ht|]. intros r. apply sized_mem. intros bs Hbs. exists bs.
      rewrite lookup_insert_ne; [done|]. intros ->. congruence.
Qed.

(** The words around [n] bytes are as the manager left them. *)
Definition guarded (bs : list Z) (n : Z) : Prop :=
  zlen bs = n + 2 * word ∧ word_at bs 0 = BEGCHK ∧ word_at bs (word + n) = ENDCHK.

(** What the client sees of a block. *)
Definition payload (bs : list Z) (n : Z) : list Z := take (Z.to_nat n) (drop 4 bs).

Lemma wrap_run s l p bs n fi fu ln :
  table s l → mem s !! p = Some bs → zlen bs = n + 2 * word → 0 ≤ n < 2 ^ 32 →
  (p, word) ∉ (ref_of <$> l.*2) →
  ∃ s' bs', wrap p n (Some fi) (Some fu) ln s = Done ((p, word), s')
    ∧ mem s' = <[p := bs']> (mem s) ∧ out s' = out s ∧ guarded bs' n ∧ payload bs' n = payload bs n
    ∧ ((∃ ex, table s' (l ++ [(ex, record_of (p, word) n fi fu ln)])) ∨ table s' l).
Proof.
  intros Ht Hp Hl Hn Hnew. unfold wrap.
  set (bs1 := put_word bs 0 BEGCHK). set (bs2 := put_word bs1 (word + n) ENDCHK).
  assert (zlen bs1 = zlen bs) as H1 by (apply zlen_put; unfold word in *; lia).
  assert (zlen bs2 = zlen bs) as H2 by (rewrite <- H1; apply zlen_put; unfold word in *; lia).
  rewrite (bind_Done _ _ _ _ _ (write_run p 0 bs BEGCHK s Hp ltac:(lia) ltac:(unfold word in *; lia))).
  fold bs1. set (s1 := with_mem (<[p := bs1]> (mem s)) s).
  assert (mem s1 !! p = Some bs1) as Hp1 by (apply lookup_insert_eq). cbv zeta. cbn [fst snd].
  rewrite (bind_Done _ _ _ _ _ (write_run p (word + n) bs1 ENDCHK s1 Hp1
    ltac:(unfold word in *; lia) ltac:(unfold word in *; lia))).
  fold bs2. set (s2 := with_mem (<[p := bs2]> (mem s1)) s1).
  assert (table s2 l) as Ht2.
  { apply (table_write s1 l p bs1); [|done|congruence]. by apply (table_write s l p bs). }
  destruct (add_run s2 l (p, word) n fi fu ln Ht2) as (r & s3 & E & Hm & Ho & Hc); [|done|].
  { split; [done|]. split; [done|]. exists bs2. split; [apply lookup_insert_eq|congruence]. }
  rewrite (bind_Done _ _ _ _ _ E). exists s3, bs2. split; [done|].
  split; [rewrite Hm; simpl; by rewrite insert_insert_eq|]. split; [by rewrite Ho|].
  split; [|split; [|done]].
  - split; [congruence|]. split.
    + subst bs2. rewrite word_other by (unfold word in *; lia). subst bs1.
      rewrite word_put by (unfold word in *; lia). done.
    + subst bs2. rewrite word_put by (unfold word in *; lia). done.
  - unfold payload. apply take_drop_ext. intros i Hi. subst bs2.
    rewrite lookup_put by (unfold word in *; lia). subst bs1. apply lookup_put; unfold word in *; lia.
Qed.

Lemma free_run s l p bs :
  table s l → mem s !! p = Some bs → (p, word) ∉ (ref_of <$> l.*2) →
  ∃ s', free p s = Done (tt, s') ∧ table s' l ∧ mem s' = delete p (mem s) ∧ out s' = out s.
Proof.
  intros Ht Hp Hr. unfold free, release_block. crun. rewrite Hp. cbn [src with_mem].
  assert (p ∈ dom (mem s)) as Hd by (apply elem_of_dom; by exists bs).
  destruct (al_release_spec (src s) (known s) p (tb_src _ _ Ht)) as (b & -> & Hb); [by apply elem_of_union_r|].
  eexists. split; [reflexivity|]. split; [|done]. pose proof (tb_apart _ _ Ht) as Hap.
  split; simpl; try apply Ht.
  - rewrite dom_delete_L. unfold known in Hb.
    replace (dom (infos s) ∪ dom (mem s) ∖ {[p]}) with ((dom (infos s) ∪ dom (mem s)) ∖ {[p]}); [done|].
    set_solver.
  - rewrite dom_delete_L. set_solver.
  - apply Forall_forall. intros r Hin. pose proof (proj1 (Forall_forall _ _) (tb_sized _ _ Ht) r Hin) as Hs.
    eapply sized_mem; [|exact Hs]. intros bs0 Hbs. exists bs0. rewrite lookup_delete_ne; [done|].
    intros ->. apply Hr. apply list_elem_of_fmap. exists r. split; [|done].
    destruct r as [[[[a n] f] x] u]. destruct Hs as (Ha & _). simpl. destruct a as [a1 a2]. simpl in *.
    by rewrite Ha.
Qed.

(** ** Checks *)

Lemma found_one a l1 q r l2 :
  a ∉ (ref_of <$> l1.*2) → ref_of r = a → found (l1 ++ (q, r) :: l2) a = q.
Proof.
  intros Ha Hr. unfold found. induction l1 as [|[x rx] l1 IH]; simpl.
  - by rewrite bool_decide_true.
  - simpl in Ha. apply not_elem_of_cons in Ha as [Ha1 Ha2]. rewrite bool_decide_false by (by intros <-). by apply IH.
Qed.

Lemma found_none a l : a ∉ (ref_of <$> l.*2) → found l a = 0.
Proof.
  intros Ha. unfold found. induction l as [|[x rx] l IH]; [done|]. simpl in Ha |- *.
  apply not_elem_of_cons in Ha as [Ha1 Ha2]. rewrite bool_decide_false by (by intros <-). by apply IH.
Qed.

(** What is said of a tracked block. *)
Definition verdict (bs : list Z) (r : record) : option notice :=
  if CLRCHK =? word_at bs 0 then Some (DoubleFree r)
  else if negb (BEGCHK =? word_at bs 0) then Some (InvalidPointer r)
  else if negb (word_at bs (word + size_of r) =? ENDCHK) then Some (Overflow r)
  else None.

Definition said (o : option notice) : list notice := match o with None => [] | Some n => [n] end.

Lemma verdict_guarded bs r :
  zlen bs = size_of r + 2 * word → verdict bs r = None ↔ guarded bs (size_of r).
Proof.
  intros Hl. unfold verdict, guarded.
  destruct (Z.eqb_spec CLRCHK (word_at bs 0)) as [E|E].
  { split; [done|]. intros (_ & H1 & _). by rewrite <- E in H1. }
  destruct (Z.eqb_spec BEGCHK (word_at bs 0)) as [E1|E1]; simpl; [|naive_solver].
  destruct (Z.eqb_spec (word_at bs (word + size_of r)) ENDCHK); simpl; naive_solver.
Qed.

(** A tracked pointer: its record and its block. *)
Definition tracked (T : list record) (m : gmap Z (list Z)) (a : address) (r : record) (bs : list Z) : Prop :=
  r ∈ T ∧ ref_of r = a ∧ m !! a.1 = Some bs.

Lemma tracked_sized s l a r bs :
  table s l → tracked l.*2 (mem s) a r bs →
  a.2 = word ∧ 0 ≤ size_of r < 2 ^ 32 ∧ zlen bs = size_of r + 2 * word ∧ a ∈ (ref_of <$> l.*2).
Proof.
  intros Ht (Hr & Ha & Hb). pose proof (proj1 (Forall_forall _ _) (tb_sized _ _ Ht) r Hr) as Hs.
  destruct r as [[[[a' n] f] x] u]. simpl in Ha. subst a'. destruct Hs as (H1 & H2 & bs' & Hb' & Hl).
  assert (bs' = bs) as -> by congruence. split; [done|]. split; [done|]. split; [done|].
  apply list_elem_of_fmap. by exists (a, n, f, x, u).
Qed.

Lemma tracked_node s l a r bs :
  table s l → tracked l.*2 (mem s) a r bs →
  ∃ i, find_mem_info a s = Done (found l a, s) ∧ found l a ≠ 0
    ∧ infos s !! found l a = Some i ∧ shown i = r.
Proof.
  intros Ht (Hr & Ha & Hb). rewrite (find_run s l a Ht).
  apply list_elem_of_fmap in Hr as ([q r'] & -> & Hx). simpl in *.
  apply list_elem_of_split in Hx as (l1 & l2 & ->).
  destruct (forget_one a l1 q r' l2 (tb_refs _ _ Ht) Ha) as [Hl1 _]. rewrite (found_one a l1 q r' l2 Hl1 Ha).
  destruct (tab_at _ _ _ l1 q r' l2 (tb_tab _ _ Ht)) as (Hq0 & _ & _ & _ & _ & i & Hi & Hir & _).
  by exists i.
Qed.

Lemma boundary_run s l a r bs :
  table s l → tracked l.*2 (mem s) a r bs →
  check_boundary (a.1, a.2 - word) s
    = match verdict bs r with
      | None => Done (CPLUS_SUCCESS, s)
      | Some n => Done (CPLUS_FAIL, with_out (out s ++ [n]) s)
      end.
Proof.
  intros Ht Hr. destruct (tracked_sized s l a r bs Ht Hr) as (Ha2 & Hn & Hl & _).
  destruct (tracked_node s l a r bs Ht Hr) as (i & Ef & Hq & Hi & Hir). destruct Hr as (_ & _ & Hb).
  unfold check_boundary. cbv zeta. cbn [fst snd]. rewrite Ha2.
  replace (a.1, word - word + word) with a by (destruct a as [b o]; simpl in Ha2; by subst o).
  rewrite (bind_Done _ _ _ _ _ Ef), (proj2 (Z.eqb_neq _ 0)) by done.
  change (word - word) with 0.
  rewrite (bind_Done _ _ _ _ _ (read_run a.1 0 bs s Hb ltac:(lia) ltac:(unfold word in *; lia))).
  assert (∀ kind, complain kind (found l a) s = Done (CPLUS_FAIL, with_out (out s ++ [kind r]) s)) as Hc.
  { intros kind. unfold complain. rewrite (bind_Done _ _ _ _ _ (load_run _ shown s i Hi)), Hir. done. }
  unfold verdict. destruct (CLRCHK =? word_at bs 0); [apply Hc|].
  destruct (negb (BEGCHK =? word_at bs 0)); [apply Hc|].
  rewrite (bind_Done _ _ _ _ _ (load_run _ mem_size s i Hi)).
  assert (mem_size i = size_of r) as -> by (by rewrite <- Hir).
  rewrite (bind_Done _ _ _ _ _ (read_run a.1 (0 + word + size_of r) bs s Hb
    ltac:(unfold word in *; lia) ltac:(unfold word in *; lia))).
  change (0 + word + size_of r) with (word + size_of r).
  by destruct (negb (word_at bs (word + size_of r) =? ENDCHK)); [apply Hc|].
Qed.

Lemma boundary_unknown s l a :
  table s l → a ∉ (ref_of <$> l.*2) → check_boundary (a.1, a.2 - word) s = Done (CPLUS_SUCCESS, s).
Proof.
  intros Ht Ha. unfold check_boundary. cbv zeta. cbn [fst snd].
  replace (a.1, a.2 - word + word) with a by (destruct a; simpl; f_equal; lia).
  rewrite (bind_Done _ _ _ _ _ (find_run s l a Ht)). by rewrite (found_none a l Ha).
Qed.

Lemma check_size_run s l a r bs n :
  table s l → tracked l.*2 (mem s) a r bs →
  check_size a n s = if size_of r <? n
    then Done (CPLUS_FAIL, with_out (out s ++ [SizeOverflow (s32 (size_of r)) (s32 n) (s32 (u32 (n - size_of r)))]) s)
    else Done (CPLUS_SUCCESS, s).
Proof.
  intros Ht Hr. destruct (tracked_node s l a r bs Ht Hr) as (i & Ef & Hq & Hi & Hir).
  unfold check_size. rewrite (bind_Done _ _ _ _ _ Ef), (proj2 (Z.eqb_neq _ 0)) by done.
  rewrite (bind_Done _ _ _ _ _ (load_run _ mem_size s i Hi)).
  assert (mem_size i = size_of r) as -> by (by rewrite <- Hir). by destruct (size_of r <? n).
Qed.

(** ** The report *)

Definition report_lines (T : list record) : list notice :=
  match T with [] => [] | _ => ReportTitle :: (ReportRecord <$> T) end.

Lemma report_loop_run fuel p l u (title : bool) s :
  seg (infos s) p l 0 → (length l ≤ fuel)%nat →
  report_loop fuel p (s32 u) title s = Done (s32 (u + zlen l.*1),
    with_out (out s ++ (if title then report_lines l.*2 else ReportRecord <$> l.*2)) s).
Proof.
  revert fuel p u title s. induction l as [|[q r] l IH]; intros fuel p u title s Hs Hf; simpl in Hs.
  - subst p. replace (u + zlen ([] : list (Z * record)).*1) with u by (unfold zlen; simpl; lia).
    assert ((if title then report_lines ([] : list (Z * record)).*2
      else ReportRecord <$> ([] : list (Z * record)).*2) = []) as -> by (by destruct title).
    rewrite app_nil_r. destruct s, fuel; done.
  - destruct Hs as (-> & Hq & i & Hi & Hr & Hs). destruct fuel as [|fuel]; [simpl in Hf; lia|].
    simpl. rewrite (proj2 (Z.eqb_neq q 0)) by done.
    set (s1 := if title then with_out (out s ++ [ReportTitle]) s else s).
    assert ((if title then print ReportTitle else mret tt) s = Done (tt, s1)) as E1 by (by destruct title).
    assert (infos s1 = infos s) as Hi1 by (by destruct title).
    rewrite (bind_Done _ _ _ _ _ E1), (bind_Done _ _ _ _ _ (load_run q shown s1 i ltac:(by rewrite Hi1))).
    unfold print at 1. crun. unfold load. crun. cbn [infos with_out]. rewrite Hi1, Hi. simpl.
    rewrite s32_add_l, IH; [|simpl; by rewrite Hi1|simpl in Hf; lia].
    replace (u + 1 + zlen l.*1) with (u + zlen (q :: l.*1)) by (rewrite zlen_cons; lia).
    f_equal. f_equal.
    subst s1. destruct title; simpl; unfold with_out; simpl; rewrite <- ?app_assoc, Hr; done.
Qed.

Lemma report_run s l :
  table s l →
  let n := s32 (zlen l.*1) in
  cplus_mgr_report s = Done (n, with_out (out s ++ report_lines l.*2
    ++ (if n =? 0 then [] else [ReportSummary n])) s).
Proof.
  intros Ht n. unfold cplus_mgr_report, cplus_mgr_report_in_file, gets. crun.
  rewrite lock_run by apply Ht.
  rewrite (report_loop_run _ _ l 0); [|apply Ht|by rewrite (tab_size _ _ _ _ (tb_tab _ _ Ht))].
  change (0 + zlen l.*1) with (zlen l.*1). fold n. unfold unlock_table. crun.
  pose proof (tb_free _ _ Ht) as Hf. destruct s. simpl in *. rewrite Hf.
  destruct (n =? 0); unfold with_out; simpl; by rewrite ?app_nil_r, <- ?app_assoc.
Qed.

End inv.
End MemdebugInv.
