(* ===== verification/MemdebugProps.v ===== *)
(** * MemdebugProps: what the debug memory manager promises

    The manager keeps the table of the blocks in use, reports exactly the blocks
    that were not freed and catches writes around a block; a second free of the
    same block and a reallocation by almost 4 GiB escape it. *)

From S2P Require Import Prelude Allocator Zlist Memdebug MemdebugInv.
From stdpp Require Import base numbers list list_numbers option gmap sets.
From Stdlib Require Import ZArith Lia.
Open Scope Z_scope.

Module MemdebugProps.
Import Heap Memdebug MemdebugInv.

Definition without (a : address) (T : list record) : list record := filter (λ r, ref_of r ≠ a) T.

Lemma forget_records a l : (forget a l).*2 = without a l.*2.
Proof.
  unfold forget, without. induction l as [|[q r] l IH]; [done|]. rewrite fmap_cons.
  destruct (decide (ref_of r ≠ a)).
  - rewrite (filter_cons_True _ (q, r)), (filter_cons_True _ (q, r).2) by done.
    rewrite fmap_cons. by rewrite IH.
  - by rewrite (filter_cons_False _ (q, r)), (filter_cons_False _ (q, r).2).
Qed.

Inductive call :=
| Malloc (n : Z) (file function : list Z) (line : Z)
| Realloc (a : address) (n : Z) (file function : list Z) (line : Z)
| Free (a : address)
| CheckBoundary (a : address)
| CheckSize (a : address) (n : Z)
| Report
| Poke (b : Z) (o v : Z).

Inductive answer := Pointer (p : option address) | Number (n : Z).

Section props.
Context {A : Type} `{Allocator A} (junk : Z → nat → Z).
Notation S := (st A).
Implicit Types (s : S) (T : list record) (m : gmap Z (list Z)).

(** The records of the table, oldest first. *)
Definition view s T : Prop := ∃ l, table s l ∧ l.*2 = T.

(** A byte the client writes somewhere in a block. *)
Definition poke (b o v : Z) : C S unit :=
  bs ← deref (λ s, mem s !! b);
  if (0 <=? o) && (o <? zlen bs) then
    modify (λ s, with_mem (<[b := <[Z.to_nat o := v]> bs]> (mem s)) s)
  else undef.

Definition run (c : call) : C S answer :=
  match c with
  | Malloc n fi fu ln => p ← cplus_mgr_malloc junk n (Some fi) (Some fu) ln; mret (Pointer p)
  | Realloc a n fi fu ln => p ← cplus_mgr_realloc junk (Some a) n (Some fi) (Some fu) ln; mret (Pointer p)
  | Free a => r ← cplus_mgr_free (Some a); mret (Number r)
  | CheckBoundary a => r ← cplus_mgr_check_boundary (Some a); mret (Number r)
  | CheckSize a n => r ← cplus_mgr_check_size (Some a) n; mret (Number r)
  | Report => r ← cplus_mgr_report; mret (Number r)
  | Poke b o v => poke b o v;; mret (Number 0)
  end.

(** Calls on tracked pointers; what is freed or reallocated is not damaged. *)
Definition allowed T m (c : call) : Prop :=
  match c with
  | Malloc n _ _ _ => 0 ≤ n < 2 ^ 32
  | Realloc a n _ _ _ =>
      0 ≤ n < 2 ^ 32 - 2 * word ∧ ∃ r bs, tracked T m a r bs ∧ guarded bs (size_of r)
  | Free a => ∃ r bs, tracked T m a r bs ∧ guarded bs (size_of r)
  | CheckBoundary a => ∃ r bs, tracked T m a r bs
  | CheckSize a n => 0 < n < 2 ^ 32 ∧ ∃ r bs, tracked T m a r bs
  | Report => True
  | Poke b o v => ∃ bs, m !! b = Some bs ∧ 0 ≤ o < zlen bs
  end.

(** A new block of [n] bytes in the memory [m], recorded if there was memory for
    the record. *)
Definition given T m (n : Z) (fi fu : list Z) (ln : Z) (ans : answer) T' m' (bs : list Z) : Prop :=
  ∃ p, ans = Pointer (Some (p, word)) ∧ m' = <[p := bs]> m ∧ guarded bs n
    ∧ (T' = T ++ [record_of (p, word) n fi fu ln] ∨ T' = T).

Definition effect T m (c : call) (ans : answer) T' m' (printed : list notice) : Prop :=
  match c with
  | Malloc n fi fu ln => printed = [] ∧
      (ans = Pointer None ∧ T' = T ∧ m' = m
       ∨ 0 < n ∧ ∃ bs, given T m n fi fu ln ans T' m' bs)
  | Realloc a n fi fu ln => printed = [] ∧
      (ans = Pointer None ∧ T' = without a T ∧ m' = delete a.1 m
       ∨ 0 < n ∧ ∃ r old bs, tracked T m a r old
           ∧ given (without a T) (delete a.1 m) n fi fu ln ans T' m' bs
           ∧ let k := Z.to_nat (Z.min n (size_of r)) in
             take k (payload bs n) = take k (payload old (size_of r)))
  | Free a => printed = [] ∧ ans = Number CPLUS_SUCCESS ∧ T' = without a T ∧ m' = delete a.1 m
  | CheckBoundary a => T' = T ∧ m' = m ∧ ∀ r bs, tracked T m a r bs →
      printed = said (verdict bs r)
      ∧ (ans = Number CPLUS_SUCCESS ∧ guarded bs (size_of r)
         ∨ ans = Number CPLUS_FAIL ∧ ¬ guarded bs (size_of r))
  | CheckSize a n => T' = T ∧ m' = m ∧ ∀ r bs, tracked T m a r bs →
      ans = Number (if size_of r <? n then CPLUS_FAIL else CPLUS_SUCCESS)
  | Report => T' = T ∧ m' = m ∧
      let k := s32 (Z.of_nat (length T)) in
      ans = Number k ∧ printed = report_lines T ++ (if k =? 0 then [] else [ReportSummary k])
  | Poke b o v => printed = [] ∧ T' = T ∧ m' = alter <[Z.to_nat o := v]> b m
  end.

(** ** The runs *)

Lemma fresh_ref s l p : table s l → mem s !! p = None → (p, word) ∉ (ref_of <$> l.*2).
Proof using Type. intros Ht Hp [_ [? Hin]]%(table_ref_live _ _ _ Ht). simpl in Hin. congruence. Qed.

Lemma zlen_fresh p n : 0 ≤ n → zlen (fresh_bytes junk p n) = n.
Proof. intros. unfold zlen, fresh_bytes. rewrite length_fmap, length_seq. lia. Qed.

Lemma mgr_malloc_run s l n fi fu ln :
  table s l → 0 ≤ n < 2 ^ 32 →
  ∃ p s' T', cplus_mgr_malloc junk n (Some fi) (Some fu) ln s = Done (p, s')
    ∧ view s' T' ∧ out s' = out s
    ∧ (p = None ∧ T' = l.*2 ∧ mem s' = mem s
       ∨ 0 < n ∧ ∃ bs, given l.*2 (mem s) n fi fu ln (Pointer p) T' (mem s') bs).
Proof.
  intros Ht Hn. unfold cplus_mgr_malloc. destruct (Z.eqb_spec n 0) as [->|Hn0].
  { exists None, s, l.*2. split; [done|]. split; [by exists l|]. split; [done|]. by left. }
  destruct (malloc_run junk s l (n + 2 * word) Ht) as (p & s1 & E & Ht1 & Ho & Hp).
  crun. rewrite E. destruct Hp as [[-> Hm] | (Hp & Hnone & Hm)].
  { exists None, s1, l.*2. split; [done|]. split; [by exists l|]. split; [done|]. by left. }
  rewrite (proj2 (Z.eqb_neq p 0)) by done.
  destruct (wrap_run s1 l p (fresh_bytes junk p (n + 2 * word)) n fi fu ln Ht1)
    as (s2 & bs & E2 & Hm2 & Ho2 & Hg & _ & Hc).
  { by rewrite Hm, lookup_insert_eq. }
  { apply zlen_fresh. unfold word. lia. }
  { done. }
  { by apply (fresh_ref s). }
  rewrite E2. rewrite Hm in Hm2. rewrite insert_insert_eq in Hm2.
  assert (∀ T', (T' = l.*2 ++ [record_of (p, word) n fi fu ln] ∨ T' = l.*2) →
    given l.*2 (mem s) n fi fu ln (Pointer (Some (p, word))) T' (mem s2) bs) as Hgiven.
  { intros T' HT. exists p. by rewrite Hm2. }
  destruct Hc as [[ex Ht2] | Ht2].
  - eexists _, s2, _. split; [reflexivity|]. split; [by eexists|]. split; [congruence|]. right.
    split; [lia|]. exists bs. apply Hgiven. left. by rewrite fmap_app.
  - eexists _, s2, _. split; [reflexivity|]. split; [by eexists|]. split; [congruence|]. right.
    split; [lia|]. exists bs. apply Hgiven. by right.
Qed.

Lemma without_ref a l : a ∉ (ref_of <$> (forget a l).*2).
Proof using Type.
  rewrite forget_records. unfold without. intros (r & -> & [Hr _]%list_elem_of_filter)%list_elem_of_fmap. done.
Qed.

(** The common start of [cplus_mgr_free] and [cplus_mgr_realloc]. *)
Lemma guarded_check s l a r bs {B} (k : C S B) :
  table s l → tracked l.*2 (mem s) a r bs → guarded bs (size_of r) →
  (ok ← check_boundary (a.1, a.2 - word); assert_c (CPLUS_SUCCESS =? ok);; k) s = k s.
Proof using Type.
  intros Ht Hr Hg. rewrite (bind_Done _ _ s CPLUS_SUCCESS s); [done|].
  rewrite (boundary_run s l a r bs Ht Hr).
  destruct (tracked_sized s l a r bs Ht Hr) as (_ & _ & Hl & _).
  by rewrite (proj2 (verdict_guarded bs r Hl)).
Qed.

Lemma mgr_free_run s l a r bs :
  table s l → tracked l.*2 (mem s) a r bs → guarded bs (size_of r) →
  ∃ s', cplus_mgr_free (Some a) s = Done (CPLUS_SUCCESS, s') ∧ table s' (forget a l)
    ∧ mem s' = delete a.1 (mem s) ∧ out s' = out s.
Proof using Type.
  intros Ht Hr Hg. destruct (tracked_sized s l a r bs Ht Hr) as (Ha2 & Hn & Hl & _).
  pose proof Hr as (_ & _ & Hb). unfold cplus_mgr_free, check_not_null. cbv zeta.
  rewrite (guarded_check s l a r bs _ Ht Hr Hg). rewrite Ha2. change (word - word) with 0.
  rewrite (bind_Done _ _ _ _ _ (write_run a.1 0 bs CLRCHK s Hb ltac:(lia) ltac:(unfold word in *; lia))).
  set (bs1 := put_word bs 0 CLRCHK). set (s1 := with_mem (<[a.1 := bs1]> (mem s)) s).
  assert (table s1 l) as Ht1.
  { apply (table_write s l a.1 bs); [done|done|]. apply zlen_put; unfold word in *; lia. }
  destruct (erase_run s1 l a Ht1) as (s2 & E2 & Ht2 & Hm2 & Ho2 & _).
  rewrite (bind_Done _ _ _ _ _ E2). unfold base_of. cbn [fst snd]. rewrite Z.eqb_refl, bind_ret.
  destruct (free_run s2 (forget a l) a.1 bs1 Ht2) as (s3 & E3 & Ht3 & Hm3 & Ho3).
  { rewrite Hm2. apply lookup_insert_eq. }
  { rewrite <- Ha2. destruct a. apply without_ref. }
  rewrite (bind_Done _ _ _ _ _ E3). exists s3. split; [done|]. split; [done|].
  rewrite Hm3, Hm2, Ho3, Ho2. simpl. by rewrite delete_insert_eq.
Qed.

Lemma realloc_run s l p bs n :
  table s l → mem s !! p = Some bs → (p, word) ∉ (ref_of <$> l.*2) → 0 ≤ n →
  ∃ q s', realloc junk p n s = Done (q, s') ∧ table s' l ∧ out s' = out s ∧
    (q = 0 ∧ mem s' = (if n =? 0 then delete p (mem s) else mem s)
     ∨ q ≠ 0 ∧ n ≠ 0 ∧ mem s !! q = None ∧ ∃ bs', mem s' = <[q := bs']> (delete p (mem s))
         ∧ zlen bs' = n ∧ ∀ i, (i < Z.to_nat n)%nat → (i < length bs)%nat → bs' !! i = bs !! i).
Proof.
  intros Ht Hp Hr Hn. unfold realloc.
  rewrite (bind_Done _ _ s bs s) by (unfold deref; by rewrite Hp).
  destruct (Z.eqb_spec n 0) as [->|Hn0].
  - destruct (free_run s l p bs Ht Hp Hr) as (s1 & E & Ht1 & Hm & Ho). rewrite (bind_Done _ _ _ _ _ E).
    exists 0, s1. split; [done|]. split; [done|]. split; [done|]. by left.
  - destruct (malloc_run junk s l n Ht) as (q & s1 & E & Ht1 & Ho & Hq). rewrite (bind_Done _ _ _ _ _ E).
    destruct Hq as [[-> Hm] | (Hq & Hnone & Hm)].
    { exists 0, s1. split; [done|]. split; [done|]. split; [done|]. by left. }
    rewrite (proj2 (Z.eqb_neq q 0)) by done.
    set (keep := take (Z.to_nat n) bs). set (new := fresh_bytes junk q n).
    assert (length new = Z.to_nat n) as Hnew by (unfold new, fresh_bytes; by rewrite length_fmap, length_seq).
    assert (length keep = min (Z.to_nat n) (length bs)) as Hkeep by apply length_take.
    set (bs' := keep ++ drop (length keep) new).
    assert (length bs' = Z.to_nat n) as Hbs' by (subst bs'; rewrite length_app, length_drop; lia).
    assert (q ≠ p) as Hqp by (intros ->; congruence).
    set (s2 := with_mem (<[q := bs']> (mem s1)) s1).
    assert (modify (λ s, with_mem (alter (λ bs, keep ++ drop (length keep) bs) q (mem s)) s) s1
      = Done (tt, s2)) as E2.
    { unfold modify, s2. do 2 f_equal. f_equal. rewrite Hm, alter_insert_eq, insert_insert_eq. done. }
    rewrite (bind_Done _ _ _ _ _ E2).
    assert (table s2 l) as Ht2.
    { apply (table_write s1 l q new); [done|by rewrite Hm; apply lookup_insert_eq|]. unfold zlen. by rewrite Hbs', Hnew. }
    assert (mem s2 = <[q := bs']> (mem s)) as Hm2 by (simpl; by rewrite Hm, insert_insert_eq).
    destruct (free_run s2 l p bs Ht2) as (s3 & E3 & Ht3 & Hm3 & Ho3); [by rewrite Hm2, lookup_insert_ne|done|].
    rewrite (bind_Done _ _ _ _ _ E3). exists q, s3. split; [done|]. split; [done|]. split; [by rewrite Ho3|].
    right. split; [done|]. split; [done|]. split; [done|]. exists bs'. split.
    { rewrite Hm3, Hm2. by rewrite delete_insert_ne. }
    split; [unfold zlen; rewrite Hbs'; lia|]. intros i Hi Hib. subst bs' keep.
    by rewrite lookup_app_l, lookup_take_lt by lia.
Qed.

Lemma mgr_realloc_run s l a r old n fi fu ln :
  table s l → tracked l.*2 (mem s) a r old → guarded old (size_of r) → 0 ≤ n < 2 ^ 32 - 2 * word →
  ∃ p s' T', cplus_mgr_realloc junk (Some a) n (Some fi) (Some fu) ln s = Done (p, s')
    ∧ view s' T' ∧ out s' = out s
    ∧ (p = None ∧ T' = without a l.*2 ∧ mem s' = delete a.1 (mem s)
       ∨ 0 < n ∧ ∃ bs, given (without a l.*2) (delete a.1 (mem s)) n fi fu ln (Pointer p) T' (mem s') bs
           ∧ let k := Z.to_nat (Z.min n (size_of r)) in
             take k (payload bs n) = take k (payload old (size_of r))).
Proof.
  intros Ht Hr Hg Hn. destruct (tracked_sized s l a r old Ht Hr) as (Ha2 & Hrn & Hl & _).
  pose proof Hr as (_ & _ & Hb). unfold cplus_mgr_realloc, check_not_null. cbv zeta.
  rewrite (guarded_check s l a r old _ Ht Hr Hg).
  destruct (erase_run s l a Ht) as (s1 & E1 & Ht1 & Hm1 & Ho1 & _).
  rewrite (bind_Done _ _ _ _ _ E1). unfold base_of. cbn [fst snd]. rewrite Ha2, Z.eqb_refl, bind_ret.
  set (ns := if n =? 0 then 0 else u32 (n + 2 * word)).
  assert (ns = if n =? 0 then 0 else n + 2 * word) as Hns.
  { subst ns. destruct (n =? 0); [done|]. apply u32_small. unfold word in *. lia. }
  assert ((a.1, word) ∉ (ref_of <$> (forget a l).*2)) as Hnr by (rewrite <- Ha2; destruct a; apply without_ref).
  assert (mem s1 !! a.1 = Some old) as Hb1 by (by rewrite Hm1).
  destruct (realloc_run s1 (forget a l) a.1 old ns Ht1 Hb1 Hnr) as (q & s2 & E2 & Ht2 & Ho2 & Hq).
  { rewrite Hns. unfold word. destruct (n =? 0); lia. }
  rewrite (bind_Done _ _ _ _ _ E2). destruct Hq as [[-> Hm2] | (Hq & Hns0 & Hnone & bs & Hm2 & Hlb & Hsame)].
  - change (0 =? 0) with true. cbv iota. destruct (Z.eqb_spec n 0) as [->|Hn0]; cbn [negb].
    + exists None. eexists _, _. split; [reflexivity|]. split; [eexists; split; [|reflexivity]; by apply table_errno|].
      split; [simpl; congruence|]. left. rewrite forget_records. split_and!; [done..|]. simpl. by rewrite Hm2, Hns, Hm1.
    + assert (ns =? 0 = false) as Hf by (rewrite Hns; unfold word; apply Z.eqb_neq; lia). rewrite Hf in Hm2.
      destruct (free_run s2 (forget a l) a.1 old Ht2) as (s3 & E3 & Ht3 & Hm3 & Ho3); [by rewrite Hm2|done|].
      rewrite (bind_Done _ _ _ _ _ E3). exists None. eexists _, _. split; [reflexivity|].
      split; [eexists; split; [|reflexivity]; by apply table_errno|]. split; [simpl; congruence|]. left.
      rewrite forget_records. split_and!; [done..|]. simpl. by rewrite Hm3, Hm2, Hm1.
  - rewrite (proj2 (Z.eqb_neq q 0)) by done.
    destruct (Z.eqb_spec n 0) as [->|Hn0]; [done|]. rewrite Hns in Hlb, Hsame.
    destruct (wrap_run s2 (forget a l) q bs n fi fu ln Ht2) as (s3 & bs3 & E3 & Hm3 & Ho3 & Hg3 & Hp3 & Hc);
      [by rewrite Hm2, lookup_insert_eq|done|unfold word in Hn; lia| |].
    { intros Hin. destruct (table_ref_live s1 _ _ Ht1 Hin) as [_ [? Hq1]]. simpl in Hq1. congruence. }
    rewrite (bind_Done _ _ _ _ _ E3). rewrite Hm2, insert_insert_eq, Hm1 in Hm3.
    assert (∀ T', (T' = without a l.*2 ++ [record_of (q, word) n fi fu ln] ∨ T' = without a l.*2) →
      0 < n ∧ ∃ bs, given (without a l.*2) (delete a.1 (mem s)) n fi fu ln (Pointer (Some (q, word))) T' (mem s3) bs
           ∧ let k := Z.to_nat (Z.min n (size_of r)) in
             take k (payload bs n) = take k (payload old (size_of r))) as Hres.
    { intros T' HT. split; [lia|]. exists bs3. split; [by exists q|]. cbv zeta. rewrite Hp3.
      unfold payload. rewrite !take_take, !Nat.min_l by lia. apply take_drop_ext. intros i Hi.
      apply Hsame; unfold zlen, word in *; lia. }
    destruct Hc as [[ex Ht3] | Ht3].
    + exists (Some (q, word)), s3. eexists. split; [done|]. split; [by eexists|]. split; [congruence|].
      right. apply Hres. left. by rewrite fmap_app, forget_records.
    + exists (Some (q, word)), s3. eexists. split; [done|]. split; [by eexists|]. split; [congruence|].
      right. apply Hres. right. by rewrite forget_records.
Qed.

(** ** The promises *)

Lemma view_tracked s l : table s l → view s l.*2.
Proof. intros Ht. by exists l. Qed.

(** A call does to the table what [effect] says. *)
Definition step_ok s T (c : call) : Prop :=
  ∃ ans s' T' printed, run c s = Done (ans, s') ∧ view s' T' ∧ out s' = out s ++ printed
    ∧ effect T (mem s) c ans T' (mem s') printed.

Lemma tracked_unique s l a r bs r' bs' :
  table s l → tracked l.*2 (mem s) a r bs → tracked l.*2 (mem s) a r' bs' → r' = r ∧ bs' = bs.
Proof.
  intros Ht Hr Hr'. destruct (tracked_node s l a r bs Ht Hr) as (i & _ & _ & Hi & <-).
  destruct (tracked_node s l a r' bs' Ht Hr') as (i' & _ & _ & Hi' & <-).
  destruct Hr as (_ & _ & Hb), Hr' as (_ & _ & Hb'). split; congruence.
Qed.

Lemma boundary_step s l a r bs : table s l → tracked l.*2 (mem s) a r bs → step_ok s l.*2 (CheckBoundary a).
Proof.
  intros Ht Hr. unfold step_ok. simpl. unfold cplus_mgr_check_boundary, check_not_null.
  pose proof (boundary_run s l a r bs Ht Hr) as E. destruct (tracked_sized s l a r bs Ht Hr) as (_ & _ & Hl & _).
  pose proof (verdict_guarded bs r Hl) as Hv. destruct (verdict bs r) as [nt|] eqn:Ev;
    rewrite (bind_Done _ _ _ _ _ E); eexists _, _, _, (said (verdict bs r)); rewrite Ev;
    (split; [reflexivity|]); simpl.
  - split; [apply view_tracked; by apply table_out|]. split; [done|]. split_and!; [done..|].
    intros r' bs' Hr'. destruct (tracked_unique s l a r bs r' bs' Ht Hr Hr') as [-> ->]. rewrite Ev.
    split; [done|]. right. split; [done|]. by intros Hg%Hv.
  - split; [by apply view_tracked|]. rewrite app_nil_r. split; [done|]. split_and!; [done..|].
    intros r' bs' Hr'. destruct (tracked_unique s l a r bs r' bs' Ht Hr Hr') as [-> ->]. rewrite Ev.
    split; [done|]. left. split; [done|]. by apply Hv.
Qed.

Lemma size_step s l a r bs n :
  table s l → tracked l.*2 (mem s) a r bs → 0 < n → step_ok s l.*2 (CheckSize a n).
Proof.
  intros Ht Hr Hn. unfold step_ok. simpl. unfold cplus_mgr_check_size, check_not_null.
  rewrite (proj2 (Z.leb_gt n 0)) by lia. pose proof (check_size_run s l a r bs n Ht Hr) as E.
  destruct (size_of r <? n) eqn:En; rewrite (bind_Done _ _ _ _ _ E).
  - eexists _, _, _, [_]. split; [reflexivity|]. split; [apply view_tracked; by apply table_out|].
    split; [reflexivity|]. split_and!; [done..|]. intros r' bs' Hr'.
    destruct (tracked_unique s l a r bs r' bs' Ht Hr Hr') as [-> _]. by rewrite En.
  - eexists _, _, _, []. split; [reflexivity|]. split; [by apply view_tracked|].
    rewrite app_nil_r. split; [done|]. split_and!; [done..|]. intros r' bs' Hr'.
    destruct (tracked_unique s l a r bs r' bs' Ht Hr Hr') as [-> _]. by rewrite En.
Qed.

Lemma poke_step s l b o v bs :
  table s l → mem s !! b = Some bs → 0 ≤ o < zlen bs → step_ok s l.*2 (Poke b o v).
Proof.
  intros Ht Hb Ho. unfold step_ok. simpl. unfold poke, mbind, C_bind, deref. rewrite Hb.
  rewrite (proj2 (Z.leb_le 0 o)), (proj2 (Z.ltb_lt o (zlen bs))) by lia. simpl.
  eexists _, _, _, []. split; [reflexivity|]. split.
  { apply view_tracked, (table_write s l b bs); [done|done|]. unfold zlen. by rewrite length_insert. }
  split; [simpl; by rewrite app_nil_r|]. split_and!; [done..|]. simpl. apply map_eq. intros x.
  destruct (decide (x = b)) as [->|Hx].
  - by rewrite lookup_insert_eq, lookup_alter_eq, Hb.
  - by rewrite lookup_insert_ne, lookup_alter_ne.
Qed.

(** C19: under the memory manager every allowed call answers as the table of live
    blocks says, and leaves the table of the blocks that are live then: a fresh
    guarded block is recorded at the end, a freed one disappears, a reallocated
    one keeps its bytes, the report lists exactly the recorded blocks in order
    and their number; no client write inside a block changes the table. *)
Theorem manager_step s T c :
  view s T → allowed T (mem s) c →
  ∃ ans s' T' printed, run c s = Done (ans, s') ∧ view s' T' ∧ out s' = out s ++ printed
    ∧ effect T (mem s) c ans T' (mem s') printed.
Proof.
  intros (l & Ht & <-) Hall. destruct c as [n fi fu ln|a n fi fu ln|a|a|a n| |b o v]; simpl in Hall |- *.
  - destruct (mgr_malloc_run s l n fi fu ln Ht Hall) as (p & s' & T' & E & Hv & Ho & Hc).
    rewrite (bind_Done _ _ _ _ _ E). exists (Pointer p), s', T', []. rewrite app_nil_r.
    split_and!; [done..|]. destruct Hc as [(-> & ?) | ?]; [left|right]; done.
  - destruct Hall as (Hn & r & bs & Hr & Hg).
    destruct (mgr_realloc_run s l a r bs n fi fu ln Ht Hr Hg Hn) as (p & s' & T' & E & Hv & Ho & Hc).
    rewrite (bind_Done _ _ _ _ _ E). exists (Pointer p), s', T', []. rewrite app_nil_r.
    split_and!; [done..|]. destruct Hc as [(-> & ?) | (? & bs' & ?)]; [left; done|right]. split; [done|].
    by exists r, bs, bs'.
  - destruct Hall as (r & bs & Hr & Hg). destruct (mgr_free_run s l a r bs Ht Hr Hg) as (s' & E & Ht' & Hm & Ho).
    rewrite (bind_Done _ _ _ _ _ E). eexists _, s', _, []. rewrite app_nil_r. split; [reflexivity|].
    split; [by apply view_tracked|]. by rewrite forget_records.
  - destruct Hall as (r & bs & Hr). by apply (boundary_step s l a r bs).
  - destruct Hall as (Hn & r & bs & Hr). apply (size_step s l a r bs n); [done|done|lia].
  - pose proof (report_run s l Ht) as E. cbv zeta in E. rewrite (bind_Done _ _ _ _ _ E).
    eexists _, _, _, _. split; [reflexivity|]. split; [apply view_tracked; by apply table_out|].
    split; [reflexivity|]. split; [done|]. split; [done|]. cbv zeta.
    replace (zlen l.*1) with (Z.of_nat (length l.*2)) by (unfold zlen; by rewrite !length_fmap). done.
  - destruct Hall as (bs & Hb & Ho). by apply (poke_step s l b o v bs).
Qed.

(** Four bytes that make the same word are the same bytes. *)
Lemma word_bytes bs o : 
  Forall (λ x, 0 ≤ x < 256) bs → 0 ≤ o → o + 4 ≤ zlen bs →
  take 4 (drop (Z.to_nat o) bs) = Z_to_little_endian 4 8 (word_at bs o).
Proof using Type.
  intros Hf Ho Hl. unfold word_at. symmetry. unfold zlen in Hl.
  apply Z_to_little_endian_to_Z; [rewrite length_take, length_drop; lia|done|].
  change (2 ^ 8) with 256. by apply Forall_take, Forall_drop.
Qed.

Lemma poke_changes_word bs o n v :
  Forall (λ x, 0 ≤ x < 256) bs → 0 ≤ v < 256 → 0 ≤ o → o + 4 ≤ zlen bs →
  o ≤ n < o + 4 → bs !! Z.to_nat n ≠ Some v →
  word_at (<[Z.to_nat n := v]> bs) o ≠ word_at bs o.
Proof using Type.
  intros Hf Hv Ho Hl Hn Hd E.
  pose proof (word_bytes bs o Hf Ho Hl) as E1.
  assert (Forall (λ x, 0 ≤ x < 256) (<[Z.to_nat n := v]> bs)) as Hf' by (by apply Forall_insert).
  assert (o + 4 ≤ zlen (<[Z.to_nat n := v]> bs)) as Hl' by (unfold zlen in *; by rewrite length_insert).
  pose proof (word_bytes _ o Hf' Ho Hl') as E2. rewrite E, <- E1 in E2.
  apply (f_equal (.!! (Z.to_nat n - Z.to_nat o)%nat)) in E2.
  rewrite !lookup_take_lt, !lookup_drop in E2 by lia.
  replace (Z.to_nat o + (Z.to_nat n - Z.to_nat o))%nat with (Z.to_nat n) in E2 by lia.
  rewrite list_lookup_insert_eq in E2; [congruence|]. unfold zlen in Hl. lia.
Qed.

(** a write of another byte into one of the four bytes before or after the
    client's part of a block is caught: the check of the pointer fails and says
    so, and freeing it aborts the program. *)
Theorem overrun_is_caught s l a r bs o v :
  table s l → tracked l.*2 (mem s) a r bs → guarded bs (size_of r) →
  Forall (λ x, 0 ≤ x < 256) bs → 0 ≤ v < 256 →
  (0 ≤ o < 4 ∨ word + size_of r ≤ o < 2 * word + size_of r) → bs !! Z.to_nat o ≠ Some v →
  ∃ s1 n s2, poke a.1 o v s = Done (tt, s1)
    ∧ cplus_mgr_check_boundary (Some a) s1 = Done (CPLUS_FAIL, s2) ∧ out s2 = out s ++ [n]
    ∧ cplus_mgr_free (Some a) s1 = Aborts.
Proof using Type.
  intros Ht Hr Hg Hf Hv Ho Hd. destruct (tracked_sized s l a r bs Ht Hr) as (Ha2 & Hn & Hl & _).
  pose proof Hr as (Hr1 & Hr2 & Hb). set (bs1 := <[Z.to_nat o := v]> bs).
  assert (zlen bs1 = zlen bs) as Hl1 by (unfold zlen, bs1; by rewrite length_insert).
  set (s1 := with_mem (<[a.1 := bs1]> (mem s)) s).
  assert (poke a.1 o v s = Done (tt, s1)) as Ep.
  { unfold poke, mbind, C_bind, deref. rewrite Hb. unfold word in *.
    rewrite (proj2 (Z.leb_le 0 o)), (proj2 (Z.ltb_lt o (zlen bs))) by lia. done. }
  assert (table s1 l) as Ht1 by (by apply (table_write s l a.1 bs)).
  assert (tracked l.*2 (mem s1) a r bs1) as Hr1' by (split_and!; [done..|apply lookup_insert_eq]).
  assert (¬ guarded bs1 (size_of r)) as Hng.
  { intros (_ & G1 & G2). destruct Hg as (_ & G3 & G4). unfold word in *. destruct Ho as [Ho|Ho].
    - apply (poke_changes_word bs 0 o v Hf Hv); [lia..|done|]. fold bs1. congruence.
    - apply (poke_changes_word bs (4 + size_of r) o v Hf Hv); [lia..|done|]. fold bs1. congruence. }
  pose proof (boundary_run s1 l a r bs1 Ht1 Hr1') as E.
  destruct (verdict bs1 r) as [n|] eqn:Ev.
  2: { destruct Hng. apply verdict_guarded; [congruence|done]. }
  exists s1, n. eexists. split; [done|]. split; [exact E|]. split; [done|].
  unfold cplus_mgr_free, check_not_null. cbv zeta. by rewrite (bind_Done _ _ _ _ _ E).
Qed.

(** Code bug: freeing a block twice is not noticed, although the manager has
    a message for it: the record is gone after the first call, and the second
    one writes its mark into freed memory. *)
Theorem double_free_unnoticed s l a r bs :
  table s l → tracked l.*2 (mem s) a r bs → guarded bs (size_of r) →
  ∃ s', cplus_mgr_free (Some a) s = Done (CPLUS_SUCCESS, s')
    ∧ out s' = out s ∧ cplus_mgr_free (Some a) s' = Undefined.
Proof using Type.
  intros Ht Hr Hg. destruct (mgr_free_run s l a r bs Ht Hr Hg) as (s' & E & Ht' & Hm & Ho).
  exists s'. split; [done|]. split; [done|]. unfold cplus_mgr_free, check_not_null. cbv zeta.
  rewrite (bind_Done _ _ _ _ _ (boundary_unknown s' _ a Ht' (without_ref a l))).
  rewrite (bind_Done _ _ s' tt s') by done.
  unfold write_word, mbind, C_bind, deref. cbn [fst snd]. by rewrite Hm, lookup_delete_eq.
Qed.

(** A word past the end. *)
Lemma write_out b o bs v s :
  mem s !! b = Some bs → zlen bs < o + word → write_word (b, o) v s = Undefined.
Proof using Type.
  intros Hb Hl. unfold write_word. rewrite (bind_Done _ _ s bs s) by (unfold deref; cbn [fst]; by rewrite Hb).
  cbn [snd]. rewrite (proj2 (Z.leb_gt (o + word) (zlen bs))) by done. by rewrite andb_false_r.
Qed.

(** Code bug: the size of a reallocation is computed in 32 bits: a request of
    the last 8 sizes never gives a block; without memory it answers null, else it
    writes behind the small block it got, and for the smallest of these sizes it
    frees the old block twice. *)
Theorem huge_realloc s l a r bs n fi fu ln :
  table s l → tracked l.*2 (mem s) a r bs → guarded bs (size_of r) →
  2 ^ 32 - 2 * word ≤ n < 2 ^ 32 →
  cplus_mgr_realloc junk (Some a) n fi fu ln s = Undefined
  ∨ n ≠ 2 ^ 32 - 2 * word ∧ ∃ s', cplus_mgr_realloc junk (Some a) n fi fu ln s = Done (None, s').
Proof.
  intros Ht Hr Hg Hn. destruct (tracked_sized s l a r bs Ht Hr) as (Ha2 & _ & _ & _).
  pose proof Hr as (_ & _ & Hb). unfold cplus_mgr_realloc, check_not_null. cbv zeta.
  rewrite (guarded_check s l a r bs _ Ht Hr Hg).
  destruct (erase_run s l a Ht) as (s1 & E1 & Ht1 & Hm1 & _).
  rewrite (bind_Done _ _ _ _ _ E1). unfold base_of. cbn [fst snd]. rewrite Ha2, Z.eqb_refl, bind_ret.
  unfold word in *. rewrite (proj2 (Z.eqb_neq n 0)) by lia. cbn [negb].
  assert (u32 (n + 2 * 4) = n + 8 - 2 ^ 32) as Hu.
  { unfold u32. symmetry. apply (Z.mod_unique _ _ 1); lia. }
  rewrite Hu. set (ns := n + 8 - 2 ^ 32) in *.
  assert ((a.1, 4) ∉ (ref_of <$> (forget a l).*2)) as Hnr by (rewrite <- Ha2; destruct a; apply without_ref).
  assert (mem s1 !! a.1 = Some bs) as Hb1 by (by rewrite Hm1).
  destruct (realloc_run s1 (forget a l) a.1 bs ns Ht1 Hb1 Hnr ltac:(lia)) as (q & s2 & E2 & Ht2 & _ & Hq).
  rewrite (bind_Done _ _ _ _ _ E2). destruct Hq as [[-> Hm2] | (Hq & _ & _ & bs2 & Hm2 & Hl2 & _)].
  - change (0 =? 0) with true. cbv iota. destruct (Z.eqb_spec ns 0) as [Hns|Hns].
    + left. unfold free, mbind, C_bind, deref. by rewrite Hm2, lookup_delete_eq.
    + right. split; [lia|]. destruct (free_run s2 (forget a l) a.1 bs Ht2) as (s3 & E3 & _); [by rewrite Hm2|done|].
      rewrite (bind_Done _ _ _ _ _ E3). by eexists.
  - left. rewrite (proj2 (Z.eqb_neq q 0)) by done. unfold wrap. cbn [fst snd].
    assert (mem s2 !! q = Some bs2) as Hq2 by (by rewrite Hm2, lookup_insert_eq).
    apply bind_undef. destruct (Z.le_gt_cases (0 + 4) (zlen bs2)) as [H4|H4].
    + rewrite (bind_Done _ _ _ _ _ (write_run q 0 bs2 BEGCHK s2 Hq2 ltac:(lia) H4)).
      apply bind_undef, (write_out _ _ (put_word bs2 0 BEGCHK)); [apply lookup_insert_eq|].
      rewrite zlen_put; unfold word; lia.
    + apply bind_undef, (write_out _ _ bs2); [done|unfold word; lia].
Qed.

End props.
(** ** A concrete run *)

Definition zeros : Z → nat → Z := λ _ _, 0.
Definition start : st Heap.heap := St Heap.empty_heap ∅ ∅ 0 0 0 false [] 0.

Lemma start_view : view start [].
Proof.
  exists []. split; [|done]. split; simpl; try done.
  - split; try done; [apply NoDup_nil_2|]. by intros [] ? ?.
  - apply NoDup_nil_2.
Qed.

(** "a/b.c" and "f". *)
Definition here_file : list Z := [97; 47; 98; 46; 99].
Definition here_function : list Z := [102].
Definition one : record := record_of (1, word) 2 here_file here_function 7.
Definition one_bytes : list Z := [0x4A; 0x3A; 0x2A; 0x1A; 0; 0; 0x8B; 0x7B; 0x6B; 0x5B].

Lemma manager_step_witness :
  ∃ ans s' T' printed, run zeros (Malloc 2 here_file here_function 7) start = Done (ans, s') ∧ view s' T'
    ∧ out s' = out start ++ printed
    ∧ effect [] (mem start) (Malloc 2 here_file here_function 7) ans T' (mem s') printed.
Proof. apply (manager_step zeros start [] (Malloc 2 here_file here_function 7)); [apply start_view|done]. Defined.

Lemma one_block :
  ∃ s l, cplus_mgr_malloc zeros 2 (Some here_file) (Some here_function) 7 start = Done (Some (1, word), s)
    ∧ table s l ∧ tracked l.*2 (mem s) (1, word) one one_bytes.
Proof.
  destruct start_view as (l0 & Ht & Hl0).
  destruct (mgr_malloc_run zeros start l0 2 here_file here_function 7 Ht) as (p & s & T & E & (l & Hl & <-) & _ & Hc);
    [done|].
  assert (match cplus_mgr_malloc zeros 2 (Some here_file) (Some here_function) 7 start with
    | Done (p, s) => bool_decide (p = Some (1, word)) && bool_decide (mem s !! 1 = Some one_bytes)
        && (inused_mem_num s =? 1) | _ => false end = true) as Hv by (by vm_compute).
  rewrite E in Hv. apply andb_true_iff in Hv as [[->%bool_decide_eq_true Hb%bool_decide_eq_true]%andb_true_iff Hn%Z.eqb_eq].
  exists s, l. split; [done|]. split; [done|]. split; [|done].
  destruct Hc as [(? & _) | (_ & bs & q & [= <-] & _ & _ & HT)]; [done|]. rewrite Hl0 in HT.
  destruct HT as [-> | HT]; [simpl; left|].
  rewrite (tb_num _ _ Hl) in Hn. unfold zlen in Hn. rewrite length_fmap, <- (length_fmap snd), HT in Hn. done.
Qed.

Lemma one_guarded : guarded one_bytes (size_of one).
Proof. done. Qed.

Lemma overrun_is_caught_witness :
  ∃ s, cplus_mgr_malloc zeros 2 (Some here_file) (Some here_function) 7 start = Done (Some (1, word), s)
    ∧ ∃ s1 n s2, poke 1 6 65 s = Done (tt, s1)
      ∧ cplus_mgr_check_boundary (Some (1, word)) s1 = Done (CPLUS_FAIL, s2) ∧ out s2 = out s ++ [n]
      ∧ cplus_mgr_free (Some (1, word)) s1 = Aborts.
Proof.
  destruct one_block as (s & l & E & Ht & Hr). exists s. split; [done|].
  apply (overrun_is_caught s l (1, word) one one_bytes 6 65 Ht Hr one_guarded);
    [by repeat constructor|done|by right|done].
Defined.

Lemma double_free_unnoticed_witness :
  ∃ s s', cplus_mgr_malloc zeros 2 (Some here_file) (Some here_function) 7 start = Done (Some (1, word), s)
    ∧ cplus_mgr_free (Some (1, word)) s = Done (CPLUS_SUCCESS, s')
    ∧ out s' = out s ∧ cplus_mgr_free (Some (1, word)) s' = Undefined.
Proof.
  destruct one_block as (s & l & E & Ht & Hr).
  destruct (double_free_unnoticed s l (1, word) one one_bytes Ht Hr one_guarded) as (s' & ?).
  by exists s, s'.
Defined.

Lemma huge_realloc_witness :
  ∃ s, cplus_mgr_malloc zeros 2 (Some here_file) (Some here_function) 7 start = Done (Some (1, word), s)
    ∧ (cplus_mgr_realloc zeros (Some (1, word)) 4294967295 None None 8 s = Undefined
       ∨ 4294967295 ≠ 2 ^ 32 - 2 * word
         ∧ ∃ s', cplus_mgr_realloc zeros (Some (1, word)) 4294967295 None None 8 s = Done (None, s')).
Proof.
  destruct one_block as (s & l & E & Ht & Hr). exists s. split; [done|].
  by apply (huge_realloc zeros s l (1, word) one one_bytes 4294967295 None None 8 Ht Hr one_guarded).
Defined.

End MemdebugProps.
