(* ===== verification/Ipc.v ===== *)
(** * Ipc: packets over a local socket (src/ipc_server.c, first half)

    A packet is a begin tag, a sequence number, a command, the length of the
    data in network order, the data and an end tag.  [ipc_send_packet] writes
    one, [ipc_recv_packet] reads one at a time, and [ipc_packet_analyze] is the
    incremental parser of a connection, which keeps its stage between two
    receptions.  What a completed packet leads to is a parameter of the parser;
    [packet_analyze_completed] is the one a connection uses. *)

From S2P Require Import Prelude Allocator Zlist Memmgr.
From stdpp Require Import base numbers list list_numbers option.
From Stdlib Require Import ZArith Lia.
Open Scope Z_scope.

Module Ipc.
Import Memmgr.

Definition DEFAULT_RECEVICE_BUFFER_SIZE : Z := 512.
Definition MAX_PACKET_DATA_SIZE : Z := 16 * DEFAULT_RECEVICE_BUFFER_SIZE.
Definition DEFAULT_RESPONSE_BUFS_SIZE : Z := 8192.
Definition DEFAULT_PACKET_DATA_SIZE : Z := 512.
Definition IPC_CONN_PACKET_TAG_SIZE : Z := 3.
(** "STX" and "ETX". *)
Definition IPC_CONN_PACKET_BEGIN_TAG : list Z := [83; 84; 88].
Definition IPC_CONN_PACKET_END_TAG : list Z := [69; 84; 88].

Inductive IPC_CONN_RECV_STAGE :=
| STAGE_RECV_HEAD | STAGE_RECV_SEQN | STAGE_RECV_CMD | STAGE_RECV_DATA_LEN
| STAGE_RECV_DATA | STAGE_RECV_TAIL | STAGE_RECV_COMPLETED.

Definition IPC_CMD_HEARTBEAT : Z := 0.
Definition IPC_CMD_ONEWAY : Z := 1.
Definition IPC_CMD_REQUEST : Z := 2.
Definition IPC_CMD_RESPONSE : Z := 3.
Definition IPC_CMD_ACK : Z := 4.
Definition IPC_CMD_MAX : Z := 5.

(** [htonl], the most significant byte first. *)
Definition network_order (n : Z) : list Z :=
  [u8 (Z.shiftr n 24); u8 (Z.shiftr n 16); u8 (Z.shiftr n 8); u8 n].

(** [data] is an address, 0 for null. *)
Record ipc_conn_packet := Packet { seqn : Z; cmd : Z; data_len : Z; data : Z }.
Definition set_seqn (v : Z) (p : ipc_conn_packet) := Packet v (cmd p) (data_len p) (data p).
Definition set_cmd (v : Z) (p : ipc_conn_packet) := Packet (seqn p) v (data_len p) (data p).
Definition set_data_len (v : Z) (p : ipc_conn_packet) := Packet (seqn p) (cmd p) v (data p).
Definition set_data (v : Z) (p : ipc_conn_packet) := Packet (seqn p) (cmd p) (data_len p) v.

(** ** The parser's part of a connection

    [user] is what the completion of a packet works on. *)
Record ipc_conn (A X : Type) := Conn {
  src : A;
  user : X;
  is_async : bool;
  recv_stage : IPC_CONN_RECV_STAGE;
  evt_packet_received : option bool;
  packet : ipc_conn_packet;
  recv_count : Z;
  recv_bufs : list Z;
  recv_bufs_size : Z;
  recv_bufs_offset : Z;
  sub_offset : Z;
  packet_databufs : option (Z * list Z);
  packet_databufs_size : Z;
  packet_databufs_offset : Z }.
Arguments Conn {A X}.
Arguments src {A X}.
Arguments user {A X}.
Arguments is_async {A X}.
Arguments recv_stage {A X}.
Arguments evt_packet_received {A X}.
Arguments packet {A X}.
Arguments recv_count {A X}.
Arguments recv_bufs {A X}.
Arguments recv_bufs_size {A X}.
Arguments recv_bufs_offset {A X}.
Arguments sub_offset {A X}.
Arguments packet_databufs {A X}.
Arguments packet_databufs_size {A X}.
Arguments packet_databufs_offset {A X}.

Section parser.
Context {A X : Type} `{Allocator A} (junk : Z → nat → Z).

Notation S := (ipc_conn A X).
Notation M := (C (ipc_conn A X)).

Definition with_src (v : A) (c : S) : S :=
  Conn v (user c) (is_async c) (recv_stage c) (evt_packet_received c) (packet c) (recv_count c) (recv_bufs c)
    (recv_bufs_size c) (recv_bufs_offset c) (sub_offset c) (packet_databufs c) (packet_databufs_size c) (packet_databufs_offset c).
Definition with_user (v : X) (c : S) : S :=
  Conn (src c) v (is_async c) (recv_stage c) (evt_packet_received c) (packet c) (recv_count c) (recv_bufs c)
    (recv_bufs_size c) (recv_bufs_offset c) (sub_offset c) (packet_databufs c) (packet_databufs_size c) (packet_databufs_offset c).
Definition with_stage (v : IPC_CONN_RECV_STAGE) (c : S) : S :=
  Conn (src c) (user c) (is_async c) v (evt_packet_received c) (packet c) (recv_count c) (recv_bufs c)
    (recv_bufs_size c) (recv_bufs_offset c) (sub_offset c) (packet_databufs c) (packet_databufs_size c) (packet_databufs_offset c).
Definition with_evt (v : bool) (c : S) : S :=
  Conn (src c) (user c) (is_async c) (recv_stage c) (Some v) (packet c) (recv_count c) (recv_bufs c)
    (recv_bufs_size c) (recv_bufs_offset c) (sub_offset c) (packet_databufs c) (packet_databufs_size c) (packet_databufs_offset c).
Definition with_packet (f : ipc_conn_packet → ipc_conn_packet) (c : S) : S :=
  Conn (src c) (user c) (is_async c) (recv_stage c) (evt_packet_received c) (f (packet c)) (recv_count c) (recv_bufs c)
    (recv_bufs_size c) (recv_bufs_offset c) (sub_offset c) (packet_databufs c) (packet_databufs_size c) (packet_databufs_offset c).
Definition with_offset (v : Z) (c : S) : S :=
  Conn (src c) (user c) (is_async c) (recv_stage c) (evt_packet_received c) (packet c) (recv_count c) (recv_bufs c)
    (recv_bufs_size c) v (sub_offset c) (packet_databufs c) (packet_databufs_size c) (packet_databufs_offset c).
Definition with_sub (v : Z) (c : S) : S :=
  Conn (src c) (user c) (is_async c) (recv_stage c) (evt_packet_received c) (packet c) (recv_count c) (recv_bufs c)
    (recv_bufs_size c) (recv_bufs_offset c) v (packet_databufs c) (packet_databufs_size c) (packet_databufs_offset c).
Definition with_databufs (v : option (Z * list Z)) (c : S) : S :=
  Conn (src c) (user c) (is_async c) (recv_stage c) (evt_packet_received c) (packet c) (recv_count c) (recv_bufs c)
    (recv_bufs_size c) (recv_bufs_offset c) (sub_offset c) v (packet_databufs_size c) (packet_databufs_offset c).
Definition with_databufs_size (v : Z) (c : S) : S :=
  Conn (src c) (user c) (is_async c) (recv_stage c) (evt_packet_received c) (packet c) (recv_count c) (recv_bufs c)
    (recv_bufs_size c) (recv_bufs_offset c) (sub_offset c) (packet_databufs c) v (packet_databufs_offset c).
Definition with_databufs_offset (v : Z) (c : S) : S :=
  Conn (src c) (user c) (is_async c) (recv_stage c) (evt_packet_received c) (packet c) (recv_count c) (recv_bufs c)
    (recv_bufs_size c) (recv_bufs_offset c) (sub_offset c) (packet_databufs c) (packet_databufs_size c) v.
(** A reception: [bs] at the offset of the buffer. *)
Definition with_received (bs : list Z) (c : S) : S :=
  Conn (src c) (user c) (is_async c) (recv_stage c) (evt_packet_received c) (packet c) (zlen bs)
    (take (Z.to_nat (recv_bufs_offset c)) (recv_bufs c) ++ bs
       ++ drop (Z.to_nat (recv_bufs_offset c) + length bs) (recv_bufs c))
    (recv_bufs_size c) (recv_bufs_offset c) (sub_offset c) (packet_databufs c) (packet_databufs_size c) (packet_databufs_offset c).

(** ** Memory *)

Definition block : Type := Z * list Z.

Definition cplus_malloc (size : Z) : M (option block) := λ c,
  match al_new (src c) with
  | Done (p, a) =>
      Done (if p =? 0 then None else Some (p, (λ i, u8 (junk p i)) <$> seq 0 (Z.to_nat size)), with_src a c)
  | Aborts => Aborts | Hangs => Hangs | Undefined => Undefined
  end.

Definition cplus_free (p : Z) : M unit := λ c,
  match al_release p (src c) with
  | Done a => Done (tt, with_src a c)
  | Aborts => Aborts | Hangs => Hangs | Undefined => Undefined
  end.

(** The old block is gone in any case. *)
Definition cplus_realloc (b : block) (size : Z) : M (option block) :=
  n ← cplus_malloc size;
  cplus_free b.1;;
  mret (match n with
        | None => None
        | Some (q, bs) =>
            let keep := take (Z.to_nat size) b.2 in Some (q, keep ++ drop (length keep) bs)
        end).

(** [cplus_mem_set(ptr, 0x00, count)] on a block of [count] bytes. *)
Definition clear (b : option block) (count : Z) : option block :=
  match b with
  | None => None
  | Some (p, bs) =>
      Some (p, if (RSIZE_MAX_MEM <? count) || (count =? 0) then bs else replicate (length bs) 0)
  end.

(** ** The stages *)

Definition byte_here : M Z := deref (λ c, recv_bufs c !! Z.to_nat (recv_bufs_offset c)).
Definition consume (n : Z) : M unit :=
  modify (λ c, with_offset (u32 (recv_bufs_offset c + n)) c).
Definition goto (st : IPC_CONN_RECV_STAGE) : M unit := modify (with_stage st).
Definition set_sub (n : Z) : M unit := modify (with_sub n).
(** Drop this packet, look for a new one. *)
Definition drop_packet : M unit := goto STAGE_RECV_HEAD;; set_sub 0.

(** The event of a synchronous connection. *)
Definition signal (b : bool) : M unit :=
  modify (λ c, match evt_packet_received c with None => c | Some _ => with_evt b c end).

Definition recv_head : M unit :=
  b ← byte_here; sub ← gets sub_offset;
  t ← deref (λ _, IPC_CONN_PACKET_BEGIN_TAG !! Z.to_nat sub);
  (if t =? b then
     set_sub (u32 (sub + 1));;
     (if IPC_CONN_PACKET_TAG_SIZE <=? u32 (sub + 1) then
        signal false;; goto STAGE_RECV_SEQN;; set_sub 0
      else mret tt)
   else drop_packet);;
  consume 1.

Definition recv_seqn : M unit :=
  b ← byte_here; modify (with_packet (set_seqn b));; goto STAGE_RECV_CMD;; consume 1.

Definition recv_cmd : M unit :=
  b ← byte_here; modify (with_packet (set_cmd b));; goto STAGE_RECV_DATA_LEN;; consume 1.

Definition recv_data_len : M unit :=
  sub ← gets sub_offset;
  (if sub =? 0 then modify (with_packet (set_data_len 0)) else mret tt);;
  if sub <? 4 then
    b ← byte_here; n ← gets (λ c, data_len (packet c));
    let n := if sub =? 0 then n else u32 (Z.shiftl n 8) in
    modify (with_packet (set_data_len (u32 (n + b))));;
    set_sub (u32 (sub + 1));;
    consume 1
  else
    set_sub 0;;
    n ← gets (λ c, data_len (packet c));
    (if MAX_PACKET_DATA_SIZE <? n then drop_packet else mret tt);;
    goto (if 0 <? n then STAGE_RECV_DATA else STAGE_RECV_TAIL).

(** A block of [n] bytes, or the old one grown to [n]. *)
Definition grow_databufs (b : option block) (n : Z) : M (option block) :=
  match b with None => cplus_malloc n | Some b => cplus_realloc b n end.

(** Make room for the data. *)
Definition need_databufs : M unit :=
  n ← gets (λ c, data_len (packet c)); size ← gets packet_databufs_size; b ← gets packet_databufs;
  if size <? n then
    nb ← grow_databufs b n;
    modify (with_databufs (clear nb n));;
    match nb with Some _ => modify (with_databufs_size n) | None => mret tt end
  else
    match b with
    | Some _ => mret tt
    | None => nb ← cplus_malloc size; modify (with_databufs (clear nb size))
    end.

Definition copy_data (p : Z) (bs : list Z) (diff : Z) : M unit := λ c,
  match cplus_mem_cpy_ex (Some (drop (Z.to_nat (packet_databufs_offset c)) bs)) diff
          (Some (drop (Z.to_nat (recv_bufs_offset c)) (recv_bufs c))) diff with
  | Done Null => Done (tt, c)
  | Done (Ptr d) => Done (tt, with_databufs (Some (p, take (Z.to_nat (packet_databufs_offset c)) bs ++ d)) c)
  | Aborts => Aborts | Hangs => Hangs | Undefined => Undefined
  end.

Definition recv_data : M unit :=
  need_databufs;;
  b ← gets packet_databufs;
  match b with
  | None => drop_packet
  | Some (p, bs) =>
      modify (with_packet (set_data p));;
      diff ← gets (λ c, Z.min (u32 (data_len (packet c) - packet_databufs_offset c))
                          (u32 (recv_bufs_size c - recv_bufs_offset c)));
      copy_data p bs diff;;
      modify (λ c, with_databufs_offset (u32 (packet_databufs_offset c + diff)) c);;
      consume diff;;
      left ← gets (λ c, u32 (data_len (packet c) - packet_databufs_offset c));
      if left =? 0 then goto STAGE_RECV_TAIL;; modify (with_databufs_offset 0) else mret tt
  end.

(** The data a completed packet points to, if they can be read. *)
Definition contents (c : S) : option (list Z) :=
  let p := packet c in
  if data_len p =? 0 then Some []
  else
    '(q, bs) ← packet_databufs c;
    if (q =? data p) && (data_len p <=? zlen bs) then Some (take (Z.to_nat (data_len p)) bs) else None.

(** [on_completed] works on the packet, its data and the rest of the connection. *)
Definition complete (on_completed : option (ipc_conn_packet → option (list Z) → X → outcome X)) : M unit := λ c,
  match on_completed with
  | None => Done (tt, c)
  | Some f =>
      match f (packet c) (contents c) (user c) with
      | Done x => Done (tt, with_user x c)
      | Aborts => Aborts | Hangs => Hangs | Undefined => Undefined
      end
  end.

Definition recv_tail (on_completed : option (ipc_conn_packet → option (list Z) → X → outcome X)) : M unit :=
  b ← byte_here; sub ← gets sub_offset;
  t ← deref (λ _, IPC_CONN_PACKET_END_TAG !! Z.to_nat sub);
  if t =? b then
    set_sub (u32 (sub + 1));;
    if IPC_CONN_PACKET_TAG_SIZE <=? u32 (sub + 1) then
      drop_packet;;
      complete on_completed;;
      signal true;;
      (* The [break] of an asynchronous connection skips the step. *)
      skip ← gets (λ c, match evt_packet_received c with Some _ => is_async c | None => false end);
      if (skip : bool) then mret tt else consume 1
    else consume 1
  else drop_packet;; consume 1.

Definition analyze_step (on_completed : option (ipc_conn_packet → option (list Z) → X → outcome X)) : M unit :=
  st ← gets recv_stage;
  match st with
  | STAGE_RECV_HEAD | STAGE_RECV_COMPLETED => recv_head
  | STAGE_RECV_SEQN => recv_seqn
  | STAGE_RECV_CMD => recv_cmd
  | STAGE_RECV_DATA_LEN => recv_data_len
  | STAGE_RECV_DATA => recv_data
  | STAGE_RECV_TAIL => recv_tail on_completed
  end.

Fixpoint analyze_loop (on_completed : option (ipc_conn_packet → option (list Z) → X → outcome X))
    (fuel : nat) (walker_count : Z) : M unit :=
  o ← gets recv_bufs_offset;
  if o <? walker_count then
    match fuel with
    | O => hang
    | Datatypes.S fuel => analyze_step on_completed;; analyze_loop on_completed fuel walker_count
    end
  else mret tt.

(** At most four turns for a byte. *)
Definition ipc_packet_analyze (on_completed : option (ipc_conn_packet → option (list Z) → X → outcome X)) : M unit :=
  walker_count ← gets (λ c, u32 (u32 (recv_count c) + recv_bufs_offset c));
  fuel ← gets (λ c, Z.to_nat (4 * (walker_count - recv_bufs_offset c)));
  analyze_loop on_completed fuel walker_count.

End parser.

(** ** Sending and receiving one packet

    The kernel's answers to [send] and [recv] are scripts: how many bytes it
    takes or gives at most, or the [errno] of a failure; at the end of a script
    it takes or gives all it can. *)

Record wire := Wire {
  sent : list Z;
  sends : list (Z + Z);
  inbox : list Z;
  recvs : list (Z + Z);
  werrno : Z }.

Definition with_werrno (e : Z) (w : wire) : wire := Wire (sent w) (sends w) (inbox w) (recvs w) e.

(** [cplus_socket_send] on an open socket. *)
Definition cplus_socket_send (bs : list Z) : C wire Z := λ w,
  if s32 (zlen bs) <=? 0 then Done (CPLUS_FAIL, with_werrno EINVAL w)
  else
    match sends w with
    | [] => Done (zlen bs, Wire (sent w ++ bs) [] (inbox w) (recvs w) (werrno w))
    | inl n :: rest =>
        let k := Z.max 0 (Z.min n (zlen bs)) in
        Done (k, Wire (sent w ++ take (Z.to_nat k) bs) rest (inbox w) (recvs w) (werrno w))
    | inr e :: rest => Done (CPLUS_FAIL, Wire (sent w) rest (inbox w) (recvs w) e)
    end.

(** [cplus_socket_recv] of at most [len] bytes: the count and the bytes. *)
Definition cplus_socket_recv (len : Z) : C wire (Z * list Z) := λ w,
  if s32 len <=? 0 then Done ((CPLUS_FAIL, []), with_werrno EINVAL w)
  else
    let got n rest :=
      let bs := take (Z.to_nat (Z.max 0 (Z.min n (s32 len)))) (inbox w) in
      Done ((zlen bs, bs), Wire (sent w) (sends w) (drop (length bs) (inbox w)) rest (werrno w)) in
    match recvs w with
    | [] => got (s32 len) []
    | inl n :: rest => got n rest
    | inr e :: rest => Done ((CPLUS_FAIL, []), Wire (sent w) (sends w) (inbox w) rest e)
    end.

(** One part of a packet: [k] if all of it was taken. *)
Definition send_all (bs : list Z) (k : C wire Z) : C wire Z :=
  n ← cplus_socket_send bs; if zlen bs =? n then k else mret CPLUS_FAIL.

(** The data of [packet], [None] for the null pointer. *)
Definition ipc_send_packet (seqn cmd data_len : Z) (data : option (list Z)) : C wire Z :=
  if (s32 cmd <? IPC_CMD_HEARTBEAT) || (IPC_CMD_MAX - 1 <? s32 cmd) then
    modify (with_werrno EINVAL);; mret CPLUS_FAIL
  else if (0 <? data_len) && bool_decide (data = None) then
    modify (with_werrno EINVAL);; mret CPLUS_FAIL
  else
    send_all IPC_CONN_PACKET_BEGIN_TAG (
      send_all [seqn] (
        send_all [cmd] (
          send_all (network_order data_len) (
            match data with
            | Some d =>
                if 0 <? data_len then
                  if data_len <=? zlen d then
                    n ← cplus_socket_send (take (Z.to_nat data_len) d);
                    if (n <? 0) || negb (data_len =? u32 n) then mret CPLUS_FAIL
                    else send_all IPC_CONN_PACKET_END_TAG (mret n)
                  else undef
                else send_all IPC_CONN_PACKET_END_TAG (mret 0)
            | None => send_all IPC_CONN_PACKET_END_TAG (mret 0)
            end)))).

(** ** The connection around its parser *)

Inductive IPC_CONN_STATUS := NOT_CONNECTED | CONNECTED | TIMEOUT | FAULT.

(** What the callbacks of a connection are told. *)
Inductive notice := OnDisconnected | OnError (e : Z).

Record link (A X : Type) := Link {
  parser : ipc_conn A X;
  status : IPC_CONN_STATUS;
  sock_error : Z;
  sock : bool;
  told : list notice }.
Arguments Link {A X}.
Arguments parser {A X}.
Arguments status {A X}.
Arguments sock_error {A X}.
Arguments sock {A X}.
Arguments told {A X}.

(** The answer of the kernel to the reception of a connection. *)
Inductive reception := Received (bs : list Z) | Closed | Failed (e : Z).

Section conn.
Context {A X : Type} `{Allocator A} (junk : Z → nat → Z).
Notation S := (ipc_conn A X).

Definition rewind (c : S) : S :=
  if recv_bufs_size c <=? recv_bufs_offset c then with_offset 0 c else c.

Definition with_count (n : Z) (c : S) : S :=
  Conn (src c) (user c) (is_async c) (recv_stage c) (evt_packet_received c) (packet c) n (recv_bufs c)
    (recv_bufs_size c) (recv_bufs_offset c) (sub_offset c) (packet_databufs c) (packet_databufs_size c) (packet_databufs_offset c).

(** What [ipc_conn_create] makes of a connection, with its buffer cleared. *)
Definition ipc_conn_create (a : A) (x : X) (is_async : bool) : S :=
  Conn a x is_async STAGE_RECV_HEAD (if is_async then None else Some false) (Packet 0 0 0 0) 0
    (replicate (Z.to_nat DEFAULT_RECEVICE_BUFFER_SIZE) 0) DEFAULT_RECEVICE_BUFFER_SIZE 0 0 None DEFAULT_PACKET_DATA_SIZE 0.

(** What a failed reception makes of the status. *)
Definition status_after (e : Z) (st : IPC_CONN_STATUS) : IPC_CONN_STATUS :=
  if e =? ETIMEDOUT then TIMEOUT
  else if e =? ENOTCONN then NOT_CONNECTED
  else if e =? EINTR then st
  else FAULT.

(** [ipc_conn_proc]; the section of the server is entered and left around the
    changes of the status. *)
Definition ipc_conn_proc (on_completed : option (ipc_conn_packet → option (list Z) → X → outcome X))
    (answer : reception) (l : link A X) : outcome (link A X) :=
  match status l with
  | NOT_CONNECTED => Done l
  | _ =>
      let c := rewind (parser l) in
      match answer with
      | Closed => Done (Link (with_count 0 c) NOT_CONNECTED (sock_error l) false (told l ++ [OnDisconnected]))
      | Failed e => Done (Link (with_count CPLUS_FAIL c) (status_after e (status l)) e (sock l) (told l ++ [OnError e]))
      | Received bs =>
          match ipc_packet_analyze junk on_completed (with_received bs c) with
          | Done (_, c) => Done (Link c CONNECTED 0 (sock l) (told l))
          | Aborts => Aborts | Hangs => Hangs | Undefined => Undefined
          end
      end
  end.

(** The turns of the task of an asynchronous connection. *)
Fixpoint conn_run (on_completed : option (ipc_conn_packet → option (list Z) → X → outcome X))
    (answers : list reception) (l : link A X) : outcome (link A X) :=
  match answers with
  | [] => Done l
  | answer :: answers =>
      match ipc_conn_proc on_completed answer l with
      | Done l => conn_run on_completed answers l
      | Aborts => Aborts | Hangs => Hangs | Undefined => Undefined
      end
  end.

End conn.

(** ** Completed packets

    [on_received] is the user's callback: from the data and the room for the
    answer it gives a result, the room the answer takes and what it wrote. *)
Record answerer (U : Type) := Answerer {
  net : wire;
  response_data : option (list Z);
  response_data_size : Z;
  client : U }.
Arguments Answerer {U}.
Arguments net {U}.
Arguments response_data {U}.
Arguments response_data_size {U}.
Arguments client {U}.

Section completed.
Context {U : Type}.

Definition handler : Type := U → list Z → Z → Z * Z * list Z * U.

(** What the callback wrote, over the old contents of its room. *)
Definition written (old new : list Z) (room : Z) : list Z :=
  let w := take (Z.to_nat room) new in w ++ drop (length w) old.

Definition reply (x : answerer U) (sq cm len : Z) (d : option (list Z)) : outcome (answerer U) :=
  match ipc_send_packet sq cm len d (net x) with
  | Done (_, w) => Done (Answerer w (response_data x) (response_data_size x) (client x))
  | Aborts => Aborts | Hangs => Hangs | Undefined => Undefined
  end.

(** [memory] says whether there is memory for the response. *)
Definition packet_analyze_completed (memory : bool) (on_received : option handler)
    (p : ipc_conn_packet) (d : option (list Z)) (x : answerer U) : outcome (answerer U) :=
  if cmd p =? IPC_CMD_HEARTBEAT then reply x (seqn p) IPC_CMD_ACK 0 None
  else if (cmd p =? IPC_CMD_ONEWAY) || (cmd p =? IPC_CMD_REQUEST) || (cmd p =? IPC_CMD_RESPONSE) then
    match on_received, d with
    | None, _ => Done x
    | _, None => Undefined
    | Some h, Some d =>
        let size := response_data_size x in
        match (match response_data x with
               | Some old => Some old
               | None => if memory then Some (replicate (Z.to_nat size) 0) else None
               end) with
        | None => Done x
        | Some old =>
            let '(res, out, bs, u) := h (client x) d size in
            let x := Answerer (net x) (Some (written old bs size)) size u in
            if res =? CPLUS_FAIL then Done x
            else
              let again := size <? out in
              let '(res2, x) :=
                if again then
                  if memory then
                    let '(res2, out2, bs2, u2) := h u d out in
                    (Some res2, Answerer (net x) (Some (written (replicate (Z.to_nat out) 0) bs2 out)) out2 u2)
                  else (None, Answerer (net x) None size u)
                else (Some res, x) in
              match res2 with
              | None => Done x
              | Some res2 =>
                  if res2 =? CPLUS_FAIL then Done x
                  else if cmd p =? IPC_CMD_REQUEST then
                    if response_data_size x =? 0 then Done x
                    else reply x (seqn p) IPC_CMD_RESPONSE out (response_data x)
                  else if cmd p =? IPC_CMD_RESPONSE then reply x (seqn p) IPC_CMD_ACK 0 None
                  else Done x
              end
        end
    end
  else Done x.

End completed.

(** ** Sequence numbers *)

Definition TOLERANCE_TO_DIFF_SEQUENCE : Z := 3.
Definition ACCUMULATE_SEQUENCE_NUMBER (s : Z) : Z := if 255 <=? s then 0 else s + 1.

(** How far a response is behind the request, as [cplus_ipc_client_send_request]
    computes it. *)
Definition seqn_diff (request response : Z) : Z :=
  if response <? request then u32 (request - response) else u32 (255 - request + response).

End Ipc.
