(* ===== verification/IpcParse.v ===== *)
(** * IpcParse: the incremental parser against a parser of single bytes

    [rstep] is the packet format as an automaton that reads one byte at a time.
    [speaks c r] relates a connection to a state of the automaton; the parser of
    ipc_server.c, which takes the data in pieces, keeps it in step with the
    bytes received. *)

From S2P Require Import Prelude Allocator Zlist Memmgr Ipc.
From stdpp Require Import base numbers list list_numbers option gmap sets.
From Stdlib Require Import ZArith Lia.
Open Scope Z_scope.

Module IpcParse.
Import Memmgr Ipc.

(** ** The reference automaton *)

Record pkt := Pkt { p_seqn : Z; p_cmd : Z; p_data : list Z }.

Inductive ref :=
| RHead (k : Z)
| RSeqn
| RCmd (s : Z)
| RLen (s c k n : Z)
| RBody (s c n : Z) (got : list Z)
| RTail (s c : Z) (body : list Z) (k : Z).

Definition rstep (r : ref) (b : Z) : ref * list pkt :=
  match r with
  | RHead k =>
      if bool_decide (IPC_CONN_PACKET_BEGIN_TAG !! Z.to_nat k = Some b) then
        (if k =? 2 then RSeqn else RHead (k + 1), [])
      else (RHead 0, [])
  | RSeqn => (RCmd b, [])
  | RCmd s => (RLen s b 0 0, [])
  | RLen s c k n =>
      let n := n * 256 + b in
      (if k =? 3 then (if n =? 0 then RTail s c [] 0 else RBody s c n []) else RLen s c (k + 1) n, [])
  | RBody s c n got =>
      let got := got ++ [b] in
      (if zlen got =? n then RTail s c got 0 else RBody s c n got, [])
  | RTail s c body k =>
      if bool_decide (IPC_CONN_PACKET_END_TAG !! Z.to_nat k = Some b) then
        if k =? 2 then (RHead 0, [Pkt s c body]) else (RTail s c body (k + 1), [])
      else (RHead 0, [])
  end.

Fixpoint rrun (r : ref) (bs : list Z) : ref * list pkt :=
  match bs with
  | [] => (r, [])
  | b :: bs =>
      let '(r1, ps1) := rstep r b in let '(r2, ps2) := rrun r1 bs in (r2, ps1 ++ ps2)
  end.

(** The packet that is held: from its end to the begin of the next one. *)
Definition heard (x : ref * list pkt) (o : option pkt) : option pkt :=
  match x with (RSeqn, _) => None | (_, p :: _) => Some p | (_, []) => o end.

Fixpoint rlast (r : ref) (bs : list Z) (o : option pkt) : option pkt :=
  match bs with
  | [] => o
  | b :: bs => rlast (rstep r b).1 bs (heard (rstep r b) o)
  end.

Lemma rlast_app r bs1 bs2 o : rlast r (bs1 ++ bs2) o = rlast (rrun r bs1).1 bs2 (rlast r bs1 o).
Proof.
  revert r o. induction bs1 as [|b bs1 IH]; intros r o; [done|]. simpl. rewrite IH.
  destruct (rstep r b) as [r1 ps1]. simpl. by destruct (rrun r1 bs1).
Qed.

Lemma rrun_app r bs1 bs2 :
  rrun r (bs1 ++ bs2) =
    let '(r1, ps1) := rrun r bs1 in let '(r2, ps2) := rrun r1 bs2 in (r2, ps1 ++ ps2).
Proof.
  revert r. induction bs1 as [|b bs1 IH]; intros r; simpl.
  - by destruct (rrun r bs2).
  - destruct (rstep r b) as [r1 ps1]. rewrite IH. destruct (rrun r1 bs1) as [r2 ps2].
    destruct (rrun r2 bs2) as [r3 ps3]. by rewrite app_assoc.
Qed.

Lemma zlen_one b : zlen [b] = 1. Proof. done. Qed.

(** The data in one piece. *)
Lemma rrun_body s c n got bs :
  zlen got + zlen bs ≤ n → bs ≠ [] →
  rrun (RBody s c n got) bs =
    (if zlen got + zlen bs =? n then RTail s c (got ++ bs) 0 else RBody s c n (got ++ bs), []).
Proof.
  revert got. induction bs as [|b bs IH]; intros got Hn Hb; [done|]. simpl.
  rewrite zlen_app, zlen_one. rewrite zlen_cons in Hn |- *. destruct bs as [|b' bs].
  - change (zlen [] + 1) with 1. by destruct (zlen got + 1 =? n).
  - rewrite zlen_cons in Hn |- *. pose proof (zlen_nonneg bs).
    rewrite (proj2 (Z.eqb_neq (zlen got + 1) n)) by lia.
    rewrite IH; [|rewrite zlen_app, zlen_one, zlen_cons; lia|done].
    rewrite zlen_app, zlen_one, zlen_cons, <- app_assoc. simpl.
    replace (zlen got + 1 + (zlen bs + 1)) with (zlen got + (zlen bs + 1 + 1)) by lia.
    by destruct (zlen got + (zlen bs + 1 + 1) =? n).
Qed.

Lemma rlast_body s c n got bs e : zlen got + zlen bs ≤ n → rlast (RBody s c n got) bs e = e.
Proof.
  revert got e. induction bs as [|b bs IH]; intros got e Hn; [done|]. simpl.
  rewrite zlen_app, zlen_one. rewrite zlen_cons in Hn. pose proof (zlen_nonneg bs).
  destruct (Z.eqb_spec (zlen got + 1) n) as [E|E]; simpl.
  - destruct bs; [done|]. rewrite zlen_cons in *. pose proof (zlen_nonneg bs). lia.
  - rewrite IH; [done|]. rewrite zlen_app, zlen_one. lia.
Qed.

(** The packet as it is sent. *)
Definition encode (p : pkt) : list Z :=
  IPC_CONN_PACKET_BEGIN_TAG ++ [p_seqn p; p_cmd p]
  ++ network_order (zlen (p_data p)) ++ p_data p ++ IPC_CONN_PACKET_END_TAG.

Lemma network_value n :
  0 ≤ n < 2 ^ 32 →
  ((u8 (Z.shiftr n 24) * 256 + u8 (Z.shiftr n 16)) * 256 + u8 (Z.shiftr n 8)) * 256 + u8 n = n.
Proof.
  intros Hn. rewrite !Z.shiftr_div_pow2 by lia. unfold u8.
  change (2 ^ 24) with 16777216. change (2 ^ 16) with 65536. change (2 ^ 8) with 256.
  Z.to_euclidean_division_equations. lia.
Qed.

Lemma rrun_header s c n :
  0 ≤ n < 2 ^ 32 →
  rrun (RHead 0) (IPC_CONN_PACKET_BEGIN_TAG ++ [s; c] ++ network_order n)
    = (if n =? 0 then RTail s c [] 0 else RBody s c n [], []).
Proof.
  intros Hn. assert (∀ a b d e, rrun (RHead 0) (IPC_CONN_PACKET_BEGIN_TAG ++ [s; c] ++ [a; b; d; e])
    = (if ((a * 256 + b) * 256 + d) * 256 + e =? 0 then RTail s c [] 0
       else RBody s c (((a * 256 + b) * 256 + d) * 256 + e) [], [])) as E by done.
  unfold network_order. by rewrite E, network_value.
Qed.

(** Up to the end tag. *)
Definition front (p : pkt) : list Z :=
  IPC_CONN_PACKET_BEGIN_TAG ++ [p_seqn p; p_cmd p] ++ network_order (zlen (p_data p)) ++ p_data p.

Lemma rrun_front p :
  zlen (p_data p) < 2 ^ 32 → rrun (RHead 0) (front p) = (RTail (p_seqn p) (p_cmd p) (p_data p) 0, []).
Proof.
  intros Hn. pose proof (zlen_nonneg (p_data p)). unfold front.
  replace (_ ++ _) with ((IPC_CONN_PACKET_BEGIN_TAG ++ [p_seqn p; p_cmd p] ++ network_order (zlen (p_data p)))
    ++ p_data p) by (by rewrite <- !app_assoc).
  rewrite rrun_app, rrun_header by lia. destruct (p_data p) as [|b bs] eqn:Ed; [done|]. rewrite <- Ed.
  rewrite (proj2 (Z.eqb_neq _ 0)) by (rewrite Ed, zlen_cons; pose proof (zlen_nonneg bs); lia).
  rewrite rrun_body; [|change (zlen []) with 0; lia|by rewrite Ed].
  change (zlen []) with 0. rewrite Z.add_0_l, Z.eqb_refl. reflexivity.
Qed.

Lemma encode_front p : encode p = front p ++ IPC_CONN_PACKET_END_TAG.
Proof. unfold encode, front. by rewrite <- !app_assoc. Qed.

(** An automaton that waits for a packet reads what was sent. *)
Lemma rrun_encode p :
  zlen (p_data p) < 2 ^ 32 → rrun (RHead 0) (encode p) = (RHead 0, [p]).
Proof. intros Hn. rewrite encode_front, rrun_app, rrun_front by done. by destruct p. Qed.

(** Without its last byte it is not yet a packet. *)
Lemma rlast_quiet r bs : (rrun r bs).2 = [] → rlast r bs None = None.
Proof.
  revert r. induction bs as [|b bs IH]; intros r; [done|]. simpl.
  destruct (rstep r b) as [r1 ps1]. destruct (rrun r1 bs) as [r2 ps2] eqn:E. simpl. intros [-> ->]%app_nil.
  destruct r1; simpl; apply IH; by rewrite E.
Qed.

Lemma encode_pending p pre post :
  zlen (p_data p) < 2 ^ 32 → encode p = pre ++ post → post ≠ [] →
  (rrun (RHead 0) pre).2 = [] ∧ rlast (RHead 0) pre None = None.
Proof.
  intros Hn He Hne. enough ((rrun (RHead 0) pre).2 = []) as E by (split; [done|by apply rlast_quiet]).
  destruct post as [|b post _] using rev_ind; [done|]. clear Hne.
  rewrite encode_front in He. change IPC_CONN_PACKET_END_TAG with ([69; 84] ++ [88]) in He. rewrite !app_assoc in He.
  apply app_inj_tail in He as [He _].
  assert ((rrun (RHead 0) (pre ++ post)).2 = []) as E by (by rewrite <- He, rrun_app, rrun_front).
  rewrite rrun_app in E. destruct (rrun (RHead 0) pre) as [r1 ps1]. destruct (rrun r1 post) as [r2 ps2].
  by apply app_nil in E as [-> _].
Qed.

Lemma encode_held p : zlen (p_data p) < 2 ^ 32 → rlast (RHead 0) (encode p) None = Some p.
Proof. intros Hn. rewrite encode_front, rlast_app, rrun_front by done. by destruct p. Qed.

(** Several packets in a row. *)
Lemma rrun_encodes ps :
  Forall (λ p, zlen (p_data p) < 2 ^ 32) ps → rrun (RHead 0) (ps ≫= encode) = (RHead 0, ps).
Proof.
  induction 1 as [|p ps Hp _ IH]; [reflexivity|].
  rewrite bind_cons, rrun_app, rrun_encode, IH by exact Hp. reflexivity.
Qed.

(** ** The connection in step with the automaton *)

Section speaks.
Context {A X : Type} `{Allocator A} (junk : Z → nat → Z) (L : gset Z).

(** Completing a packet always works, on the packet and its data, and keeps
    the invariant [I] of the user. *)
Context (I : X → Prop) (f : ipc_conn_packet → option (list Z) → X → outcome X) (g : X → pkt → X).
Context (f_works : ∀ p d x, I x → let p' := Pkt (seqn p) (cmd p) d in f p (Some d) x = Done (g x p') ∧ I (g x p')).

(** There is always memory. *)
Context (ample : A → Prop).
Context (ample_new : ∀ a live, al_ok a live → ample a →
  ∃ p a', al_new a = Done (p, a') ∧ p ≠ 0 ∧ p ∉ live ∧ al_ok a' ({[p]} ∪ live) ∧ ample a').
Context (ample_release : ∀ a live p, al_ok a live → ample a → p ∈ live →
  ∃ a', al_release p a = Done a' ∧ al_ok a' (live ∖ {[p]}) ∧ ample a').

Notation S := (ipc_conn A X).
Implicit Types (c : S) (r : ref).

Definition addrs (b : option block) : gset Z := match b with Some (p, _) => {[p]} | None => ∅ end.

(** The buffers are whole and the connection owns its data buffer; [L] is what
    others own. *)
Record shape c : Prop := Shape {
  sh_user : I (user c);
  sh_src : al_ok (src c) (addrs (packet_databufs c) ∪ L);
  sh_ample : ample (src c);
  sh_bufs : zlen (recv_bufs c) = recv_bufs_size c;
  sh_size : 0 < recv_bufs_size c ≤ RSIZE_MAX_MEM;
  sh_offset : 0 ≤ recv_bufs_offset c ≤ recv_bufs_size c;
  sh_data : match packet_databufs c with
            | Some (p, bs) => p ≠ 0 ∧ p ∉ L ∧ zlen bs = packet_databufs_size c
            | None => True
            end;
  sh_dsize : 0 < packet_databufs_size c < 2 ^ 32;
  sh_evt : evt_packet_received c = None ∨ is_async c = false }.

Definition at_stage c (st : IPC_CONN_RECV_STAGE) (sub doff : Z) : Prop :=
  recv_stage c = st ∧ sub_offset c = sub ∧ packet_databufs_offset c = doff.

Definition names c (s cm n : Z) : Prop :=
  seqn (packet c) = s ∧ cmd (packet c) = cm ∧ data_len (packet c) = n.

Definition speaks c r : Prop :=
  match r with
  | RHead k => 0 ≤ k < 3 ∧ at_stage c STAGE_RECV_HEAD k 0
  | RSeqn => at_stage c STAGE_RECV_SEQN 0 0
  | RCmd s => at_stage c STAGE_RECV_CMD 0 0 ∧ seqn (packet c) = s
  | RLen s cm k n => 0 ≤ k < 4 ∧ 0 ≤ n < 256 ^ k ∧ at_stage c STAGE_RECV_DATA_LEN k 0
      ∧ seqn (packet c) = s ∧ cmd (packet c) = cm ∧ (k ≠ 0 → data_len (packet c) = n)
  | RBody s cm n got => names c s cm n ∧ zlen got < n < 2 ^ 32
      ∧ (got = [] ∧ at_stage c STAGE_RECV_DATA_LEN 4 0
         ∨ at_stage c STAGE_RECV_DATA 0 (zlen got)
           ∧ (got ≠ [] → ∃ p bs, packet_databufs c = Some (p, bs) ∧ n ≤ zlen bs ∧ take (length got) bs = got))
  | RTail s cm body k => names c s cm (zlen body)
      ∧ (body = [] ∧ k = 0 ∧ at_stage c STAGE_RECV_DATA_LEN 4 0
         ∨ 0 ≤ k < 3 ∧ at_stage c STAGE_RECV_TAIL k 0 ∧ contents c = Some body)
  end.

(** The connection holds the packet [o], and its event, if it has one, says
    whether it does. *)
Definition tells (sync : bool) c (o : option pkt) : Prop :=
  evt_packet_received c = (if sync then Some (bool_decide (is_Some o)) else None)
  ∧ match o with
    | Some p => recv_stage c = STAGE_RECV_HEAD ∧ names c (p_seqn p) (p_cmd p) (zlen (p_data p))
                ∧ contents c = Some (p_data p)
    | None => True
    end.

Lemma tells_busy y c c1 o :
  recv_stage c ≠ STAGE_RECV_HEAD → evt_packet_received c1 = evt_packet_received c →
  tells y c o → tells y c1 o ∧ o = None.
Proof using Type. intros Hst He [Hev Ho]. destruct o as [p|]; [by destruct Ho|]. unfold tells. by rewrite He. Qed.

Lemma tells_same y c c1 o :
  (recv_stage c1, evt_packet_received c1, packet c1, packet_databufs c1)
    = (recv_stage c, evt_packet_received c, packet c, packet_databufs c) → tells y c o → tells y c1 o.
Proof using Type. intros [= E1 E2 E3 E4]. unfold tells, names, contents. by rewrite E1, E2, E3, E4. Qed.

(** [n] bytes later, when the packets [ps] were completed and the packet held
    went through [k]. *)
Definition after c c1 (n : Z) (ps : list pkt) (k : option pkt → option pkt) : Prop :=
  (∀ y o, tells y c o → tells y c1 (k o)) ∧ shape c1 ∧ recv_bufs c1 = recv_bufs c ∧ recv_bufs_size c1 = recv_bufs_size c
  ∧ recv_bufs_offset c1 = recv_bufs_offset c + n ∧ user c1 = foldl g (user c) ps
  ∧ recv_count c1 = recv_count c.

(** The length is complete but not yet looked at. *)
Definition pending c : bool :=
  match recv_stage c with STAGE_RECV_DATA_LEN => sub_offset c =? 4 | _ => false end.

Lemma small_offset c b : shape c → recv_bufs c !! Z.to_nat (recv_bufs_offset c) = Some b →
  0 ≤ recv_bufs_offset c < recv_bufs_size c ∧ u32 (recv_bufs_offset c + 1) = recv_bufs_offset c + 1.
Proof.
  intros [] Hb. apply lookup_lt_Some in Hb. unfold zlen, RSIZE_MAX_MEM in *. split; [lia|]. apply u32_small. lia.
Qed.

Lemma shape_step c c1 n :
  shape c → 0 ≤ n → recv_bufs_offset c + n ≤ recv_bufs_size c →
  (src c1, packet_databufs c1, packet_databufs_size c1, recv_bufs c1, recv_bufs_size c1, is_async c1)
    = (src c, packet_databufs c, packet_databufs_size c, recv_bufs c, recv_bufs_size c, is_async c) →
  recv_bufs_offset c1 = recv_bufs_offset c + n →
  (evt_packet_received c = None → evt_packet_received c1 = None) → I (user c1) → shape c1.
Proof using Type.
  intros [] Hn Ho [= E1 E2 E3 E4 E5 E6] Eo Ee HI. split; rewrite ?E1, ?E2, ?E3, ?E4, ?E5, ?E6; try done; [lia|].
  destruct sh_evt0; auto.
Qed.

(** Tags are matched byte by byte. *)
Lemma tag_at (tag : list Z) k : length tag = 3%nat → 0 ≤ k < 3 → ∃ t, tag !! Z.to_nat k = Some t.
Proof using Type. intros Hl Hk. apply lookup_lt_is_Some. lia. Qed.

Ltac keeps_packet :=
  let o := fresh "o" in let Ho := fresh "Ho" in
  let y := fresh "y" in
  intros y o Ho; first [by apply (tells_same _ _ _ _ eq_refl Ho) | by eapply tells_busy; [..|exact Ho] | by (destruct y, Ho; split) | idtac].
Ltac one_byte Hs :=
  eexists; split; [reflexivity|]; split;
    [split; [keeps_packet|split; [apply (shape_step _ _ 1 Hs); simpl; done || lia|done]]|].

Lemma step_head c k b :
  shape c → speaks c (RHead k) → recv_bufs c !! Z.to_nat (recv_bufs_offset c) = Some b →
  ∃ c1, analyze_step junk (Some f) c = Done (tt, c1) ∧ after c c1 1 (rstep (RHead k) b).2 (heard (rstep (RHead k) b))
    ∧ speaks c1 (rstep (RHead k) b).1.
Proof using Type.
  intros Hs (Hk & Hst & Hsub & Hdo) Hb. destruct (small_offset c b Hs Hb) as [Ho Hu]. pose proof (sh_user _ Hs) as HI.
  destruct (tag_at IPC_CONN_PACKET_BEGIN_TAG k eq_refl Hk) as [t Et]. unfold rstep. rewrite Et.
  unfold analyze_step, recv_head, byte_here. crun. rewrite Hst, Hb, Hsub, Et.
  destruct c as [a x asy st ev pk rc bufs size o sub db dsz doff]. simpl in *. subst st sub doff.
  destruct (Z.eqb_spec t b) as [->|Htb]; [rewrite bool_decide_true by done|rewrite bool_decide_false by congruence].
  - rewrite u32_small by lia. destruct (Z.eqb_spec k 2) as [->|Hk2].
    + change (IPC_CONN_PACKET_TAG_SIZE <=? 2 + 1) with true. cbv iota. unfold signal, goto, set_sub, consume. crun.
      destruct ev; simpl; unfold with_offset; simpl; rewrite Hu; one_byte Hs; done.
    + assert (3 <=? k + 1 = false) as E by (apply Z.leb_gt; lia).
      change IPC_CONN_PACKET_TAG_SIZE with 3. rewrite E. unfold consume. crun.
      unfold with_offset. simpl. rewrite Hu. one_byte Hs. split; [lia|done].
  - unfold drop_packet, goto, set_sub, consume. crun. unfold with_offset. simpl. rewrite Hu. one_byte Hs. done.
Qed.

Lemma step_seqn c b :
  shape c → speaks c RSeqn → recv_bufs c !! Z.to_nat (recv_bufs_offset c) = Some b →
  ∃ c1, analyze_step junk (Some f) c = Done (tt, c1) ∧ after c c1 1 [] id ∧ speaks c1 (RCmd b).
Proof using Type.
  intros Hs (Hst & Hsub & Hdo) Hb. destruct (small_offset c b Hs Hb) as [Ho Hu]. pose proof (sh_user _ Hs) as HI.
  unfold analyze_step, recv_seqn, byte_here, goto, consume. crun. rewrite Hst, Hb.
  destruct c as [a x asy st ev pk rc bufs size o sub db dsz doff]. simpl in *. subst st sub doff.
  unfold with_offset. simpl. rewrite Hu. one_byte Hs. done.
Qed.

Lemma step_cmd c s b :
  shape c → speaks c (RCmd s) → recv_bufs c !! Z.to_nat (recv_bufs_offset c) = Some b →
  ∃ c1, analyze_step junk (Some f) c = Done (tt, c1) ∧ after c c1 1 [] id ∧ speaks c1 (RLen s b 0 0).
Proof using Type.
  intros Hs ((Hst & Hsub & Hdo) & Hsq) Hb. destruct (small_offset c b Hs Hb) as [Ho Hu]. pose proof (sh_user _ Hs) as HI.
  unfold analyze_step, recv_cmd, byte_here, goto, consume. crun. rewrite Hst, Hb.
  destruct c as [a x asy st ev pk rc bufs size o sub db dsz doff]. simpl in *. subst st sub doff.
  unfold with_offset. simpl. rewrite Hu. one_byte Hs. split_and!; done.
Qed.

Lemma step_len c s cm k n b :
  shape c → speaks c (RLen s cm k n) → recv_bufs c !! Z.to_nat (recv_bufs_offset c) = Some b → 0 ≤ b < 256 →
  ∃ c1, analyze_step junk (Some f) c = Done (tt, c1) ∧ after c c1 1 [] id
    ∧ speaks c1 (rstep (RLen s cm k n) b).1.
Proof using Type.
  intros Hs (Hk & Hn & (Hst & Hsub & Hdo) & Hsq & Hcm & Hdl) Hb Hbr. destruct (small_offset c b Hs Hb) as [Ho Hu]. pose proof (sh_user _ Hs) as HI.
  unfold analyze_step, recv_data_len, byte_here, set_sub, consume. crun. rewrite Hst, Hsub.
  destruct c as [a x asy st ev pk rc bufs size o sub db dsz doff]. simpl in *. subst st sub doff.
  rewrite (proj2 (Z.ltb_lt k 4)) by lia.
  assert (Hn' : 0 ≤ n * 256 + b < 256 ^ (k + 1)) by (rewrite Z.pow_add_r by lia; lia).
  assert (256 ^ (k + 1) ≤ 2 ^ 32) as Hp.
  { change (2 ^ 32) with (256 ^ 4). apply Z.pow_le_mono_r; lia. }
  assert (Hend : ∀ pk0, seqn pk0 = s → cmd pk0 = cm → data_len pk0 = n * 256 + b →
    let c1 := Conn a x asy STAGE_RECV_DATA_LEN ev pk0 rc bufs size (o + 1) (k + 1) db dsz 0 in
    after (Conn a x asy STAGE_RECV_DATA_LEN ev pk rc bufs size o k db dsz 0) c1 1 [] id
    ∧ speaks c1 (rstep (RLen s cm k n) b).1).
  { intros pk0 H1 H2 H3 c1. split; [split; [keeps_packet|split; [apply (shape_step _ _ 1 Hs); simpl; done || lia|done]]|].
    simpl. destruct (Z.eqb_spec k 3) as [->|Hk3].
    - change (256 ^ (3 + 1)) with (2 ^ 32) in Hn'. destruct (Z.eqb_spec (n * 256 + b) 0) as [E|Hnz].
      + split; [split_and!; [done|done|]; simpl; by rewrite H3, E|]. by left.
      + split; [done|]. split; [change (zlen []) with 0; lia|]. by left.
    - split; [lia|]. split; [done|]. split; [done|]. done. }
  assert (Hn32 : u32 (n * 256 + b) = n * 256 + b) by (apply u32_small; change 4294967296 with (2 ^ 32); lia).
  assert (Hk1 : u32 (k + 1) = k + 1) by (apply u32_small; lia).
  destruct (Z.eqb_spec k 0) as [->|Hk0].
  - simpl. rewrite Hb. unfold with_offset. simpl. eexists. split; [reflexivity|]. rewrite Hu.
    apply Hend; [done|done|]. simpl in Hn |- *. replace n with 0 by lia. apply u32_small. lia.
  - simpl. rewrite Hb. unfold with_offset. simpl. eexists. split; [reflexivity|]. rewrite Hu, Hk1.
    apply Hend; [done|done|]. simpl. rewrite (Hdl Hk0), Z.shiftl_mul_pow2 by lia. change (2 ^ 8) with 256.
    rewrite (u32_small (n * 256)); [done|]. change 4294967296 with (2 ^ 32). lia.
Qed.

(** The length is complete: to the data, or to the tail. *)
Lemma step_pending c r :
  shape c → speaks c r → pending c = true →
  ∃ c1, analyze_step junk (Some f) c = Done (tt, c1) ∧ after c c1 0 [] id ∧ speaks c1 r ∧ pending c1 = false.
Proof using Type.
  intros Hs Hr Hp. pose proof (sh_user _ Hs) as HI. unfold pending in Hp. destruct (recv_stage c) eqn:Hst; try done.
  apply Z.eqb_eq in Hp as Hsub. unfold analyze_step, recv_data_len, drop_packet, goto, set_sub. crun. rewrite Hst, Hsub.
  destruct c as [a x asy st ev pk rc bufs size o sub db dsz doff]. simpl in *. subst st sub.
  change (4 =? 0) with false. change (4 <? 4) with false. cbv iota. simpl.
  set (c1 := Conn a x asy (if 0 <? data_len pk then STAGE_RECV_DATA else STAGE_RECV_TAIL) ev pk rc bufs size o 0 db dsz doff).
  exists c1. split; [by destruct (MAX_PACKET_DATA_SIZE <? data_len pk)|].
  split; [|split].
  - split; [keeps_packet|]. split; [apply (shape_step _ _ 0 Hs); simpl; try done; pose proof (sh_offset _ Hs); simpl in *; lia|].
    split_and!; try done. simpl. lia.
  - destruct r as [k| |s|s cm k n|s cm n got|s cm body k]; simpl in Hr; unfold at_stage in Hr; simpl in Hr;
      try solve [destruct_and?; done || lia].
    + destruct Hr as ((Hs1 & Hs2 & Hs3) & Hn & [(-> & _ & _ & Hd) | ((? & _) & _)]); [|done].
      simpl in *. split; [done|]. split; [done|]. right. subst c1. rewrite (proj2 (Z.ltb_lt 0 _)) by (change (zlen []) with 0 in Hn; lia).
      split; [done|]. done.
    + destruct Hr as ((Hs1 & Hs2 & Hs3) & [(-> & -> & _ & _ & Hd) | (_ & (? & _) & _)]); [|done].
      simpl in *. split; [done|]. right. split; [lia|]. subst c1. rewrite Hs3. split; [done|].
      unfold contents. simpl. by rewrite Hs3.
  - unfold pending. simpl. by destruct (0 <? data_len pk).
Qed.


(** Room for the data. *)
Definition roomy c (a : A) (p : Z) (bs : list Z) (sz : Z) : S :=
  with_databufs_size sz (with_databufs (Some (p, bs)) (with_src a c)).

Lemma clear_zlen p bs n : ∃ bs', clear (Some (p, bs)) n = Some (p, bs') ∧ zlen bs' = zlen bs.
Proof using Type.
  unfold clear. destruct ((RSIZE_MAX_MEM <? n) || (n =? 0)); (eexists; split; [reflexivity|]); [done|].
  unfold zlen. by rewrite length_replicate.
Qed.

Lemma malloc_room c n :
  shape c → 0 ≤ n →
  ∃ p a bs, cplus_malloc junk n c = Done (Some (p, bs), with_src a c) ∧ p ≠ 0 ∧ zlen bs = n
    ∧ p ∉ addrs (packet_databufs c) ∪ L ∧ al_ok a ({[p]} ∪ (addrs (packet_databufs c) ∪ L)) ∧ ample a.
Proof.
  intros Hs Hn. destruct (ample_new _ _ (sh_src _ Hs) (sh_ample _ Hs)) as (p & a & E & Hp & Hnew & Hok & Ha).
  exists p, a. eexists. unfold cplus_malloc. rewrite E, (proj2 (Z.eqb_neq p 0)) by done. split; [reflexivity|].
  split; [done|]. split; [|done]. unfold zlen. rewrite length_fmap, length_seq. lia.
Qed.

Lemma need_run c n :
  shape c → data_len (packet c) = n → 0 < n < 2 ^ 32 →
  ∃ a p bs sz, need_databufs junk c = Done (tt, roomy c a p bs sz) ∧ shape (roomy c a p bs sz) ∧ n ≤ zlen bs
    ∧ ∀ q bs0, packet_databufs c = Some (q, bs0) → n ≤ zlen bs0 → p = q ∧ bs = bs0.
Proof.
  intros Hs Hn Hr. unfold need_databufs. crun. rewrite Hn.
  pose proof (sh_data _ Hs) as Hd. pose proof (sh_dsize _ Hs) as Hsz. pose proof (sh_src _ Hs) as Hsrc.
  assert (Hroomy : ∀ a p bs sz, al_ok a ({[p]} ∪ L) → ample a → p ≠ 0 → p ∉ L → zlen bs = sz → 0 < sz < 2 ^ 32 →
    shape (roomy c a p bs sz)) by (intros; destruct Hs; by split).
  destruct (Z.ltb_spec (packet_databufs_size c) n) as [Hlt|Hge].
  - destruct (packet_databufs c) as [[q bs0]|] eqn:Eb; simpl.
    + destruct Hd as (Hq0 & HqL & Hlen).
      destruct (malloc_room c n Hs ltac:(lia)) as (p & a & bs & E & Hp & Hl & Hnew & Hok & Ha).
      rewrite Eb in Hnew, Hok. simpl in Hnew, Hok. unfold cplus_realloc. crun. rewrite E. unfold cplus_free. simpl.
      destruct (ample_release a ({[p]} ∪ ({[q]} ∪ L)) q Hok Ha) as (a2 & -> & Hok2 & Ha2); [set_solver|].
      set (keep := take (Z.to_nat n) bs0).
      destruct (clear_zlen p (keep ++ drop (length keep) bs) n) as (bs' & Ec & Hl').
      assert (length keep ≤ Z.to_nat n)%nat as Hkeep by (subst keep; rewrite length_take; lia).
      assert (zlen bs' = n) as Hbs'.
      { rewrite Hl'. unfold zlen in *. rewrite length_app, length_drop. lia. }
      exists a2, p, bs', n. rewrite Ec. split; [done|]. split; [|split; [lia|]].
      * apply Hroomy; try done; [|set_solver].
        replace ({[p]} ∪ L) with (({[p]} ∪ ({[q]} ∪ L)) ∖ {[q]} : gset Z); [done|]. set_solver.
      * intros q' bs1 [= <- <-] Hle. lia.
    + destruct (malloc_room c n Hs ltac:(lia)) as (p & a & bs & E & Hp & Hl & Hnew & Hok & Ha).
      rewrite Eb in Hnew, Hok. simpl in Hnew, Hok. rewrite E.
      destruct (clear_zlen p bs n) as (bs' & Ec & Hl'). rewrite Ec.
      exists a, p, bs', n. split; [done|]. split; [|split; [lia|done]].
      apply Hroomy; try done; [by rewrite union_empty_l_L in Hok|set_solver|lia].
  - destruct (packet_databufs c) as [[q bs0]|] eqn:Eb.
    + destruct Hd as (Hq0 & HqL & Hlen). exists (src c), q, bs0, (packet_databufs_size c).
      split; [destruct c; simpl in *; by subst|]. split; [apply Hroomy; try done; apply Hs|].
      split; [lia|]. by intros ? ? [= -> ->].
    + destruct (malloc_room c (packet_databufs_size c) Hs ltac:(lia)) as (p & a & bs & E & Hp & Hl & Hnew & Hok & Ha).
      rewrite Eb in Hnew, Hok. simpl in Hnew, Hok. rewrite E.
      destruct (clear_zlen p bs (packet_databufs_size c)) as (bs' & Ec & Hl'). rewrite Ec.
      exists a, p, bs', (packet_databufs_size c). split; [done|]. split; [|split; [lia|done]].
      apply Hroomy; try done; [by rewrite union_empty_l_L in Hok|set_solver|lia].
Qed.

Lemma copy_run c p bs d :
  0 < d ≤ RSIZE_MAX_MEM → 0 ≤ packet_databufs_offset c → packet_databufs_offset c + d ≤ zlen bs →
  0 ≤ recv_bufs_offset c → recv_bufs_offset c + d ≤ zlen (recv_bufs c) →
  copy_data p bs d c = Done (tt, with_databufs (Some (p,
    take (Z.to_nat (packet_databufs_offset c)) bs
    ++ take (Z.to_nat d) (drop (Z.to_nat (recv_bufs_offset c)) (recv_bufs c))
    ++ drop (Z.to_nat d) (drop (Z.to_nat (packet_databufs_offset c)) bs))) c).
Proof using Type.
  intros Hd Ho Hl Hs Hsl. unfold copy_data, cplus_mem_cpy_ex.
  rewrite (proj2 (Z.eqb_neq d 0)), (proj2 (Z.ltb_ge RSIZE_MAX_MEM d)), (proj2 (Z.ltb_ge d d)) by lia.
  rewrite memcpy_ok; [done|..]; unfold zlen in *; rewrite length_drop; lia.
Qed.

Lemma step_data c s cm n got :
  shape c → speaks c (RBody s cm n got) → pending c = false → recv_bufs_offset c < recv_bufs_size c →
  let d := Z.min (n - zlen got) (recv_bufs_size c - recv_bufs_offset c) in
  let piece := take (Z.to_nat d) (drop (Z.to_nat (recv_bufs_offset c)) (recv_bufs c)) in
  ∃ c1, analyze_step junk (Some f) c = Done (tt, c1) ∧ after c c1 d [] id
    ∧ speaks c1 (if zlen got + d =? n then RTail s cm (got ++ piece) 0 else RBody s cm n (got ++ piece))
    ∧ pending c1 = false.
Proof.
  intros Hs ((Hsq & Hcm & Hdl) & Hn & Hst) Hp Ho d piece.
  destruct Hst as [(-> & Hst & Hsub & _) | ((Hst & Hsub & Hdo) & Hgot)].
  { unfold pending in Hp. by rewrite Hst, Hsub in Hp. }
  pose proof (sh_offset _ Hs) as Hoff. pose proof (sh_size _ Hs) as Hsize. pose proof (sh_bufs _ Hs) as Hbufs.
  pose proof (zlen_nonneg got) as Hg0. assert (0 < d) as Hd0 by lia.
  destruct (need_run c n Hs Hdl ltac:(lia)) as (a & p & bs & sz & E & Hs1 & Hroom & Hold).
  unfold analyze_step. crun. rewrite Hst. unfold recv_data.
  rewrite (bind_Done _ _ _ _ _ E). set (c1 := roomy c a p bs sz) in *.
  unfold gets at 1. rewrite (bind_Done _ _ c1 (Some (p, bs)) c1) by done.
  set (c2 := with_packet (set_data p) c1).
  rewrite (bind_Done _ _ c1 tt c2) by done.
  assert (u32 (data_len (packet c2) - packet_databufs_offset c2) = n - zlen got) as E1.
  { simpl. rewrite Hdl, Hdo. apply u32_small. lia. }
  assert (u32 (recv_bufs_size c2 - recv_bufs_offset c2) = recv_bufs_size c - recv_bufs_offset c) as E2.
  { simpl. apply u32_small. unfold RSIZE_MAX_MEM in Hsize. lia. }
  rewrite (bind_Done _ _ c2 d c2) by (unfold gets; by rewrite E1, E2).
  assert (take (length got) bs = got) as Hkeep.
  { destruct (decide (got = [])) as [->|Hne]; [done|]. destruct (Hgot Hne) as (q & bs0 & Eb & Hnb & Ht).
    by destruct (Hold q bs0 Eb Hnb) as [-> ->]. }
  rewrite (bind_Done _ _ _ _ _ (copy_run c2 p bs d ltac:(lia) ltac:(simpl; lia) ltac:(simpl; lia) ltac:(simpl; lia)
    ltac:(simpl; lia))).
  assert (Z.to_nat (packet_databufs_offset c2) = length got) as Edo by (simpl; rewrite Hdo; unfold zlen; lia).
  rewrite Edo, Hkeep. simpl recv_bufs_offset. simpl recv_bufs. fold piece.
  assert (zlen piece = d) as Hpiece.
  { subst piece. unfold zlen in *. rewrite length_take, length_drop. lia. }
  set (bs2 := got ++ piece ++ drop (Z.to_nat d) (drop (length got) bs)).
  assert (zlen bs2 = zlen bs) as Hbs2.
  { subst bs2. unfold zlen in *. rewrite !length_app, !length_drop. lia. }
  unfold consume, goto. crun. unfold with_databufs at 1, with_databufs_offset at 1, with_offset at 1. simpl.
  rewrite Hdo, (u32_small (zlen got + d)) by lia.
  rewrite (u32_small (recv_bufs_offset c + d)) by (unfold RSIZE_MAX_MEM in Hsize; lia).
  rewrite Hdl, u32_small by lia.
  assert (Hafter : ∀ c3, src c3 = a → packet_databufs c3 = Some (p, bs2) → packet_databufs_size c3 = sz →
    recv_bufs c3 = recv_bufs c → recv_bufs_size c3 = recv_bufs_size c →
    recv_bufs_offset c3 = recv_bufs_offset c + d → evt_packet_received c3 = evt_packet_received c →
    is_async c3 = is_async c → user c3 = user c → recv_count c3 = recv_count c → after c c3 d [] id).
  { intros c3 H1 H2 H3 H4 H5 H6 H7 H8 H9 H10. destruct Hs1 as [R0 R1 R2 R3 R4 R5 R6 R7 R8]. simpl in *.
    destruct R6 as (R61 & R62 & R63). split; [intros y0 o0 Ho0; eapply tells_busy; [by rewrite Hst|done|exact Ho0]|]. split; [split|split_and!; done];
      rewrite ?H1, ?H2, ?H3, ?H4, ?H5, ?H6, ?H7, ?H8, ?H9; try done; [lia|]. split_and!; [done|done|congruence]. }
  assert (Htake : take (length got + length piece) bs2 = got ++ piece).
  { subst bs2. rewrite app_assoc. rewrite take_app_length'; [done|]. by rewrite length_app. }
  assert (length got + length piece = Z.to_nat (zlen got + d))%nat as Elen by (rewrite <- Hpiece; unfold zlen; lia).
  destruct (Z.eqb_spec (n - (zlen got + d)) 0) as [E0|E0].
  - rewrite (proj2 (Z.eqb_eq (zlen got + d) n)) by lia. eexists. split; [reflexivity|].
    split; [by apply Hafter|]. split; [|done]. split.
    + split_and!; [done|done|]. simpl. rewrite Hdl, zlen_app, Hpiece. lia.
    + right. split; [lia|]. split; [done|]. unfold contents. simpl. rewrite Hdl.
      rewrite (proj2 (Z.eqb_neq n 0)), Z.eqb_refl, (proj2 (Z.leb_le n (zlen bs2))) by lia. simpl.
      replace n with (zlen got + d) by lia. by rewrite <- Elen, Htake.
  - rewrite (proj2 (Z.eqb_neq (zlen got + d) n)) by lia. eexists. split; [reflexivity|].
    split; [by apply Hafter|]. split; [|done]. split; [done|]. split; [rewrite zlen_app, Hpiece; lia|].
    right. rewrite zlen_app, Hpiece. split; [done|]. intros _. exists p, bs2. split; [done|]. split; [lia|].
    rewrite length_app. done.
Qed.

Lemma step_tail c s cm body k b :
  shape c → speaks c (RTail s cm body k) → pending c = false →
  recv_bufs c !! Z.to_nat (recv_bufs_offset c) = Some b →
  ∃ c1, analyze_step junk (Some f) c = Done (tt, c1) ∧ after c c1 1 (rstep (RTail s cm body k) b).2 (heard (rstep (RTail s cm body k) b))
    ∧ speaks c1 (rstep (RTail s cm body k) b).1.
Proof using f_works.
  intros Hs ((Hsq & Hcm & Hdl) & Hst) Hp Hb. destruct (small_offset c b Hs Hb) as [Ho Hu]. pose proof (sh_user _ Hs) as HI.
  destruct Hst as [(_ & _ & Hst & Hsub & _) | (Hk & (Hst & Hsub & Hdo) & Hcont)].
  { unfold pending in Hp. by rewrite Hst, Hsub in Hp. }
  destruct (tag_at IPC_CONN_PACKET_END_TAG k eq_refl Hk) as [t Et]. unfold rstep. rewrite Et.
  unfold analyze_step, recv_tail, byte_here, drop_packet, goto, set_sub, consume. crun. rewrite Hst, Hb, Hsub, Et.
  destruct (Z.eqb_spec t b) as [->|Htb]; [rewrite bool_decide_true by done|rewrite bool_decide_false by congruence].
  - rewrite u32_small by lia. destruct (Z.eqb_spec k 2) as [->|Hk2].
    + change (IPC_CONN_PACKET_TAG_SIZE <=? 2 + 1) with true. cbv iota.
      set (c2 := with_sub 0 (with_stage STAGE_RECV_HEAD (with_sub (2 + 1) c))).
      assert (complete (Some f) c2 = Done (tt, with_user (g (user c) (Pkt s cm body)) c2)) as E.
      { unfold complete. change (contents c2) with (contents c). rewrite Hcont.
        change (packet c2) with (packet c). change (user c2) with (user c).
        destruct (f_works (packet c) body (user c) HI) as [-> _]. by rewrite Hsq, Hcm. }
      destruct (f_works (packet c) body (user c) HI) as [_ HI2]. rewrite Hsq, Hcm in HI2.
      cbv beta. fold c2. rewrite E. unfold signal. crun.
      pose proof (sh_evt _ Hs) as He. destruct c as [a x asy st ev pk rc bufs size o sub db dsz doff].
      subst c2. simpl in *. subst doff.
      destruct ev as [e|]; simpl.
      * destruct He as [He| ->]; [done|]. unfold with_offset. simpl. rewrite Hu. one_byte Hs. done.
      * unfold with_offset. simpl. rewrite Hu. one_byte Hs. done.
    + assert (IPC_CONN_PACKET_TAG_SIZE <=? k + 1 = false) as E by (apply Z.leb_gt; unfold IPC_CONN_PACKET_TAG_SIZE; lia).
      rewrite E. destruct c as [a x asy st ev pk rc bufs size o sub db dsz doff]. simpl in *. subst st sub doff.
      unfold with_offset. simpl. rewrite Hu. one_byte Hs. split; [done|]. right. split; [lia|done].
  - destruct c as [a x asy st ev pk rc bufs size o sub db dsz doff]. simpl in *. subst st sub doff.
    unfold with_offset. simpl. rewrite Hu. one_byte Hs. done.
Qed.

(** ** A whole reception *)

Definition remaining c (walker : Z) : list Z :=
  take (Z.to_nat (walker - recv_bufs_offset c)) (drop (Z.to_nat (recv_bufs_offset c)) (recv_bufs c)).

(** Some of the data are there and some are not. *)
Definition mid r : Prop := match r with RBody _ _ _ (_ :: _) => True | _ => False end.

Lemma after_trans c c1 c2 n1 n2 ps1 ps2 k1 k2 :
  after c c1 n1 ps1 k1 → after c1 c2 n2 ps2 k2 → after c c2 (n1 + n2) (ps1 ++ ps2) (k2 ∘ k1).
Proof using Type.
  intros (H0 & _ & H2 & H3 & H4 & H5 & H6) (K0 & K1 & K2 & K3 & K4 & K5 & K6).
  split; [intros y o Ho; by apply K0, H0|]. split; [done|].
  split_and!; [congruence|congruence|lia| |congruence]. by rewrite K5, H5, foldl_app.
Qed.

Lemma after_evt c c1 n ps k1 k2 : after c c1 n ps k1 → (∀ e, k2 e = k1 e) → after c c1 n ps k2.
Proof using Type.
  intros (H0 & Hrest) Hk. split; [|done]. intros y o Ho. rewrite Hk. by apply H0.
Qed.

Lemma remaining_eq c walker :
  0 ≤ recv_bufs_offset c ≤ walker →
  remaining c walker = drop (Z.to_nat (recv_bufs_offset c)) (take (Z.to_nat walker) (recv_bufs c)).
Proof using Type. intros Ho. unfold remaining. rewrite take_drop_commute. do 2 f_equal. lia. Qed.

Lemma remaining_after c c1 n ps k walker :
  shape c → after c c1 n ps k → 0 ≤ n → recv_bufs_offset c + n ≤ walker →
  remaining c1 walker = drop (Z.to_nat n) (remaining c walker).
Proof using Type.
  intros Hs (_ & _ & H2 & _ & H4 & _) Hn Hw. pose proof (sh_offset _ Hs).
  rewrite !remaining_eq by lia. rewrite H2, H4, drop_drop. f_equal. lia.
Qed.

Lemma zlen_remaining c walker :
  shape c → recv_bufs_offset c ≤ walker ≤ recv_bufs_size c → zlen (remaining c walker) = walker - recv_bufs_offset c.
Proof using Type.
  intros [] Hw. unfold remaining, zlen in *. rewrite length_take, length_drop. lia.
Qed.

(** A turn that does not take data reads one byte. *)
Lemma step_byte c r b :
  shape c → speaks c r → pending c = false → (∀ s cm n got, r ≠ RBody s cm n got) →
  recv_bufs c !! Z.to_nat (recv_bufs_offset c) = Some b → 0 ≤ b < 256 →
  ∃ c1, analyze_step junk (Some f) c = Done (tt, c1) ∧ after c c1 1 (rstep r b).2 (heard (rstep r b)) ∧ speaks c1 (rstep r b).1.
Proof using f_works.
  intros Hs Hr Hp Hnb Hb Hbr. destruct r as [k| |s|s cm k n|s cm n got|s cm body k].
  - by apply step_head.
  - by apply step_seqn.
  - by apply step_cmd.
  - destruct (step_len c s cm k n b Hs Hr Hb Hbr) as (c1 & E & Ha & Hr1). exists c1. split; [done|]. split; [|done].
    eapply after_evt; [exact Ha|]. intros e. simpl. by destruct (k =? 3), (n * 256 + b =? 0).
  - by destruct (Hnb s cm n got).
  - by apply step_tail.
Qed.

(** A turn that reads something. *)
Lemma step_some c r walker :
  shape c → speaks c r → pending c = false → recv_bufs_offset c < walker ≤ recv_bufs_size c →
  Forall (λ b, 0 ≤ b < 256) (remaining c walker) →
  walker = recv_bufs_size c ∨ ¬ mid (rrun r (remaining c walker)).1 →
  ∃ c1 n ps r1 k, analyze_step junk (Some f) c = Done (tt, c1) ∧ after c c1 n ps k ∧ speaks c1 r1
    ∧ 0 < n ≤ walker - recv_bufs_offset c
    ∧ rrun r (remaining c walker) =
        ((rrun r1 (drop (Z.to_nat n) (remaining c walker))).1,
         ps ++ (rrun r1 (drop (Z.to_nat n) (remaining c walker))).2)
    ∧ ∀ e, rlast r (remaining c walker) e = rlast r1 (drop (Z.to_nat n) (remaining c walker)) (k e).
Proof.
  intros Hs Hr Hp Hw Hbytes Hcut. pose proof (zlen_remaining c walker Hs ltac:(lia)) as Hlen.
  pose proof (sh_offset _ Hs) as Hoff. pose proof (sh_bufs _ Hs) as Hbufs.
  set (bs := remaining c walker) in *.
  assert (Hbyte : (∀ s cm n got, r ≠ RBody s cm n got) → ∃ b bs', bs = b :: bs' ∧ 0 ≤ b < 256 ∧
    recv_bufs c !! Z.to_nat (recv_bufs_offset c) = Some b).
  { intros _. destruct bs as [|b bs'] eqn:Eb; [change (zlen []) with 0 in Hlen; lia|].
    apply Forall_cons in Hbytes as [Hb _]. exists b, bs'. split; [done|]. split; [done|].
    pose proof (f_equal (.!! 0%nat) Eb) as E0. unfold bs, remaining in E0.
    rewrite lookup_take_lt, lookup_drop, Nat.add_0_r in E0 by lia. done. }
  assert (Hone : (∀ s cm n got, r ≠ RBody s cm n got) → ∃ c1 n ps r1 k,
    analyze_step junk (Some f) c = Done (tt, c1) ∧ after c c1 n ps k ∧ speaks c1 r1
    ∧ 0 < n ≤ walker - recv_bufs_offset c
    ∧ rrun r bs = ((rrun r1 (drop (Z.to_nat n) bs)).1, ps ++ (rrun r1 (drop (Z.to_nat n) bs)).2)
    ∧ ∀ e, rlast r bs e = rlast r1 (drop (Z.to_nat n) bs) (k e)).
  { intros Hnb. destruct (Hbyte Hnb) as (b & bs' & Eb & Hbr & Hb).
    destruct (step_byte c r b Hs Hr Hp Hnb Hb Hbr) as (c1 & E & Ha & Hr1).
    exists c1, 1, (rstep r b).2, (rstep r b).1, (heard (rstep r b)). split; [done|]. split; [done|]. split; [done|]. split; [lia|].
    rewrite Eb. simpl. rewrite drop_0. split; [|done].
    destruct (rstep r b) as [r1 ps1]. simpl. by destruct (rrun r1 bs'). }
  destruct r as [k| |s|s cm k n|s cm n got|s cm body k]; try (by apply Hone).
  destruct (step_data c s cm n got Hs Hr Hp ltac:(lia)) as (c1 & E & Ha & Hr1 & _). cbv zeta in E, Ha, Hr1.
  set (d := Z.min (n - zlen got) (recv_bufs_size c - recv_bufs_offset c)) in *.
  destruct Hr as (_ & Hgot & _).
  assert (bs ≠ []) as Hne by (intros Eb; rewrite Eb in Hlen; change (zlen []) with 0 in Hlen; lia).
  assert (d ≤ walker - recv_bufs_offset c) as Hd.
  { destruct Hcut as [->|Hcut]; [lia|]. destruct (Z.le_gt_cases (n - zlen got) (walker - recv_bufs_offset c)); [lia|].
    destruct Hcut. rewrite rrun_body by (done || lia). rewrite (proj2 (Z.eqb_neq _ _)) by lia. simpl.
    destruct (got ++ bs) eqn:Eg; [|done]. apply app_eq_nil in Eg as [_ ?]. done. }
  assert (take (Z.to_nat d) bs = take (Z.to_nat d) (drop (Z.to_nat (recv_bufs_offset c)) (recv_bufs c))) as Ep.
  { unfold bs, remaining. rewrite take_take. f_equal. lia. }
  set (piece := take (Z.to_nat d) bs) in *. rewrite <- Ep in Hr1.
  assert (zlen piece = d) as Hpl by (subst piece; unfold zlen in *; rewrite length_take; lia).
  eexists c1, d, [], _, id. split; [done|]. split; [done|]. split; [exact Hr1|]. split; [lia|].
  assert (piece ≠ []) as Hpn by (intros E0; rewrite E0 in Hpl; change (zlen []) with 0 in Hpl; lia).
  split; [|intros e]; rewrite <- (take_drop (Z.to_nat d) bs) at 1; fold piece.
  - rewrite rrun_app, rrun_body, Hpl by (done || lia). by destruct (rrun _ (drop (Z.to_nat d) bs)).
  - by rewrite rlast_app, rlast_body, rrun_body, Hpl by (done || lia).
Qed.

Lemma analyze_loop_run fuel c r walker :
  shape c → speaks c r → recv_bufs_offset c ≤ walker ≤ recv_bufs_size c →
  Forall (λ b, 0 ≤ b < 256) (remaining c walker) →
  walker = recv_bufs_size c ∨ ¬ mid (rrun r (remaining c walker)).1 →
  2 * (walker - recv_bufs_offset c) + (if pending c then 1 else 0) ≤ Z.of_nat fuel →
  ∃ c1, analyze_loop junk (Some f) fuel walker c = Done (tt, c1)
    ∧ after c c1 (walker - recv_bufs_offset c) (rrun r (remaining c walker)).2 (rlast r (remaining c walker))
    ∧ speaks c1 (rrun r (remaining c walker)).1.
Proof.
  revert c r. induction fuel as [|fuel IH]; intros c r Hs Hr Hw Hbytes Hcut Hfuel.
  all: pose proof (zlen_remaining c walker Hs Hw) as Hlen.
  all: destruct (Z.ltb_spec (recv_bufs_offset c) walker) as [Ho|Ho].
  1: { destruct (pending c); lia. }
  1, 3: exists c; assert (recv_bufs_offset c = walker) as Ew by lia;
    assert (remaining c walker = []) as -> by (apply zlen_0; lia); simpl; unfold gets; crun;
    rewrite (proj2 (Z.ltb_ge _ _)) by lia; split; [done|]; split; [|done];
    split_and!; [done|done|done|done|lia|done|done].
  simpl. unfold gets. rewrite (bind_Done _ _ c (recv_bufs_offset c) c) by done.
  rewrite (proj2 (Z.ltb_lt _ _)) by done.
  destruct (pending c) eqn:Hp.
  - destruct (step_pending c r Hs Hr Hp) as (c1 & E & Ha & Hr1 & Hp1).
    rewrite (bind_Done _ _ _ _ _ E). pose proof Ha as (_ & Hs1 & Hb1 & Hz1 & Ho1 & _).
    pose proof (remaining_after c c1 0 [] id walker Hs Ha ltac:(lia) ltac:(lia)) as Hrem. simpl in Hrem.
    destruct (IH c1 r) as (c2 & E2 & Ha2 & Hr2); rewrite ?Hrem, ?Hp1, ?Ho1, ?Hz1; try done; try lia.
    rewrite Hrem in Ha2, Hr2. exists c2. split; [done|]. split; [|done].
    replace (walker - recv_bufs_offset c) with (0 + (walker - recv_bufs_offset c1)) by lia.
    by apply (after_trans c c1 c2 0 _ [] _ id).
  - destruct (step_some c r walker Hs Hr Hp ltac:(lia) Hbytes Hcut) as (c1 & n & ps & r1 & k & E & Ha & Hr1 & Hn & Hrun & Hsig).
    rewrite (bind_Done _ _ _ _ _ E). pose proof Ha as (_ & Hs1 & Hb1 & Hz1 & Ho1 & _).
    pose proof (remaining_after c c1 n ps k walker Hs Ha ltac:(lia) ltac:(lia)) as Hrem.
    destruct (IH c1 r1) as (c2 & E2 & Ha2 & Hr2); rewrite ?Hrem, ?Ho1, ?Hz1; try done; try lia.
    + by apply Forall_drop.
    + destruct Hcut as [Hcut|Hcut]; [by left|right]. by rewrite Hrun in Hcut.
    + destruct (pending c1); lia.
    + rewrite Hrem in Ha2, Hr2. rewrite Hrun. exists c2. split; [done|]. split; [|done]. simpl.
      replace (walker - recv_bufs_offset c) with (n + (walker - recv_bufs_offset c1)) by lia.
      eapply after_evt; [by apply (after_trans c c1 c2)|]. intros e. by rewrite Hsig.
Qed.

End speaks.
End IpcParse.
