(* ===== verification/IpcClient.v ===== *)
(** * IpcClient: requests of a client (src/ipc_server.c, second half)

    A client sends over the socket its connection receives from.  A
    synchronous client waits for the answer in [cplus_ipc_client_send_request],
    which runs its connection until the event of a received packet is set; the
    receptions and the ticks between them are the script it is given. *)

From S2P Require Import Prelude Allocator Zlist Memmgr Ipc.
From stdpp Require Import base numbers list list_numbers option.
From Stdlib Require Import ZArith Lia.
Open Scope Z_scope.

Module IpcClient.
Import Memmgr Ipc.

(** ** One packet from the socket *)

Section recv_packet.
Context {A : Type} `{Allocator A}.

Definition on_wire {B} (m : C wire B) : C (A * wire) B := λ s,
  match m s.2 with
  | Done (b, w) => Done (b, (s.1, w))
  | Aborts => Aborts | Hangs => Hangs | Undefined => Undefined
  end.

Definition malloc : C (A * wire) Z := λ s,
  match al_new s.1 with
  | Done (p, a) => Done (p, (a, s.2))
  | Aborts => Aborts | Hangs => Hangs | Undefined => Undefined
  end.

Definition free (p : Z) : C (A * wire) unit := λ s,
  match al_release p s.1 with
  | Done a => Done (tt, (a, s.2))
  | Aborts => Aborts | Hangs => Hangs | Undefined => Undefined
  end.

(** What the call gives back: the result, the packet and the output buffer. *)
Definition received : Type := Z * ipc_conn_packet * option (list Z).

(** Exactly [n] bytes, or nothing more is read. *)
Definition recv_all (n : Z) (k : list Z → C (A * wire) received) (otherwise : C (A * wire) received) :
    C (A * wire) received :=
  '(m, bs) ← on_wire (cplus_socket_recv n); if n =? m then k bs else otherwise.

(** [ntohl]. *)
Definition host_order (bs : list Z) : Z := foldl (λ n b, u32 (n * 256 + b)) 0 bs.

Definition failed (packet : ipc_conn_packet) (out : option (list Z)) : C (A * wire) received :=
  mret (CPLUS_FAIL, packet, out).

(** From the end tag on; the data are freed if there are any. *)
Definition recv_end (packet : ipc_conn_packet) (recv_count recv_data : Z) (out : option (list Z)) :
    C (A * wire) received :=
  let finish res : C (A * wire) received :=
    (if recv_data =? 0 then mret tt else free recv_data);; mret (res, packet, out) in
  recv_all IPC_CONN_PACKET_TAG_SIZE
    (λ tag, finish (if bool_decide (tag ≠ IPC_CONN_PACKET_END_TAG) then CPLUS_FAIL else recv_count))
    (finish CPLUS_FAIL).

(** The data, if there is an output buffer for them. *)
Definition recv_body (packet : ipc_conn_packet) (output_bufs_len : Z) (output_bufs : option (list Z)) :
    C (A * wire) received :=
  match output_bufs with
  | Some out =>
      if (0 <? data_len packet) && (0 <? output_bufs_len) then
        recv_data ← malloc;
        if recv_data =? 0 then recv_end packet 0 0 output_bufs
        else
          '(recv_count, bs) ← on_wire (cplus_socket_recv (data_len packet));
          if (recv_count <=? 0) || negb (data_len packet =? u32 recv_count) then
            free recv_data;; failed packet output_bufs
          else
            match cplus_mem_cpy_ex output_bufs output_bufs_len (Some bs) (data_len packet) with
            | Done r =>
                free recv_data;;
                recv_end packet recv_count recv_data (Some match r with Ptr d => d | Null => out end)
            | Aborts => abort | Hangs => hang | Undefined => undef
            end
      else recv_end packet 0 0 output_bufs
  | None => recv_end packet 0 0 output_bufs
  end.

(** The timeouts are in the answers of the kernel. *)
Definition ipc_recv_packet (packet : ipc_conn_packet) (output_bufs_len : Z) (output_bufs : option (list Z)) :
    C (A * wire) received :=
  recv_all IPC_CONN_PACKET_TAG_SIZE (λ tag,
    if bool_decide (tag ≠ IPC_CONN_PACKET_BEGIN_TAG) then failed packet output_bufs
    else
      recv_all 1 (λ s,
        recv_all 1 (λ c,
          recv_all 4 (λ n,
            recv_body (set_data_len (host_order n) (set_cmd (zat c 0) (set_seqn (zat s 0) packet)))
              output_bufs_len output_bufs)
            (failed (set_cmd (zat c 0) (set_seqn (zat s 0) packet)) output_bufs))
          (failed (set_seqn (zat s 0) packet) output_bufs))
        (failed packet output_bufs))
    (failed packet output_bufs).

End recv_packet.

(** ** The client *)

Record ipc_client (A : Type) := Client {
  clt_async : bool;
  clt_seqn : Z;
  ipc_conn : link A (answerer unit);
  recv_timeout : Z }.
Arguments Client {A}.
Arguments clt_async {A}.
Arguments clt_seqn {A}.
Arguments ipc_conn {A}.
Arguments recv_timeout {A}.

Section client.
Context {A : Type} `{Allocator A} (junk : Z → nat → Z).
Notation S := (ipc_client A).

Definition with_seqn (v : Z) (c : S) : S := Client (clt_async c) v (ipc_conn c) (recv_timeout c).
Definition with_conn (v : link A (answerer unit)) (c : S) : S := Client (clt_async c) (clt_seqn c) v (recv_timeout c).
Definition with_timeout (v : Z) (c : S) : S := Client (clt_async c) (clt_seqn c) (ipc_conn c) v.

Definition with_parser (f : Ipc.ipc_conn A (answerer unit) → Ipc.ipc_conn A (answerer unit)) (c : S) : S :=
  let l := ipc_conn c in with_conn (Link (f (parser l)) (status l) (sock_error l) (sock l) (told l)) c.

(** The socket of the client is the one of its connection. *)
Definition wire_of (c : S) : wire := net (user (parser (ipc_conn c))).
Definition with_wire (w : wire) (c : S) : S :=
  with_parser (λ p, with_user (Answerer w (response_data (user p)) (response_data_size (user p)) tt) p) c.
Definition with_errno (e : Z) (c : S) : S := with_wire (with_werrno e (wire_of c)) c.

Definition on_socket {B} (m : C wire B) : C S B := λ c,
  match m (wire_of c) with
  | Done (b, w) => Done (b, with_wire w c)
  | Aborts => Aborts | Hangs => Hangs | Undefined => Undefined
  end.

(** The next sequence number of the client. *)
Definition next_seqn : C S Z :=
  modify (λ c, with_seqn (ACCUMULATE_SEQUENCE_NUMBER (clt_seqn c)) c);; gets clt_seqn.

(** [ipc_recv_packet] without an output buffer, as the heartbeat uses it. *)
Definition recv_answer : C S (Z * ipc_conn_packet) := λ c,
  match ipc_recv_packet (Packet 0 0 0 0) 0 None (src (parser (ipc_conn c)), wire_of c) with
  | Done (count, p, _, (a, w)) => Done ((count, p), with_parser (with_src a) (with_wire w c))
  | Aborts => Aborts | Hangs => Hangs | Undefined => Undefined
  end.

Definition cplus_ipc_client_send_heartbeat : C S Z :=
  sq ← next_seqn;
  count ← on_socket (ipc_send_packet (u8 sq) IPC_CMD_HEARTBEAT 0 None);
  if 0 <=? count then
    '(count, p) ← recv_answer;
    if (0 <=? count) && ((u8 sq =? seqn p) && (IPC_CMD_ACK =? cmd p)) then mret CPLUS_SUCCESS else mret CPLUS_FAIL
  else mret CPLUS_FAIL.

Definition cplus_ipc_client_send_oneway (input_bufs_len : Z) (input_bufs : option (list Z)) : C S Z :=
  sq ← next_seqn; on_socket (ipc_send_packet (u8 sq) IPC_CMD_ONEWAY input_bufs_len input_bufs).

(** [cplus_pevent_wait] with no time to wait, on an event nobody else uses. *)
Definition poll_event : C S Z :=
  e ← deref (λ c, evt_packet_received (parser (ipc_conn c)));
  if (e : bool) then mret CPLUS_SUCCESS else modify (with_errno EAGAIN);; mret CPLUS_FAIL.

Definition reset_event : C S unit := modify (with_parser (with_evt false)).

(** One turn of the connection; a synchronous client has no callback. *)
Definition proc (answer : reception) : C S unit := λ c,
  match ipc_conn_proc junk (Some (packet_analyze_completed true None)) answer (ipc_conn c) with
  | Done l => Done (tt, with_conn l c)
  | Aborts => Aborts | Hangs => Hangs | Undefined => Undefined
  end.

(** The loop of [cplus_ipc_client_send_request]: an answer of the kernel and
    the ticks it took for a turn; without an answer the reception blocks. *)
Fixpoint await (request_seqn : Z) (answers : list (reception * Z)) : C S Z :=
  match answers with
  | [] => hang
  | (answer, elapsed_period) :: answers =>
      proc answer;;
      count ← gets (λ c, recv_count (parser (ipc_conn c)));
      if count <=? 0 then mret CPLUS_FAIL
      else
        t ← gets recv_timeout;
        if t <=? elapsed_period then modify (with_errno ETIMEDOUT);; mret CPLUS_FAIL
        else
          modify (with_timeout (t - elapsed_period));;
          w ← poll_event;
          if w =? CPLUS_FAIL then
            e ← gets (λ c, werrno (wire_of c));
            if EAGAIN =? e then await request_seqn answers else mret CPLUS_FAIL
          else
            got ← gets (λ c, seqn (packet (parser (ipc_conn c))));
            if request_seqn =? got then mret CPLUS_SUCCESS
            else if seqn_diff request_seqn got <? TOLERANCE_TO_DIFF_SEQUENCE then
              reset_event;; await request_seqn answers
            else modify (with_errno EILSEQ);; mret CPLUS_FAIL
  end.

(** The data of the received packet: a null pointer before the first data. *)
Definition packet_data (c : Ipc.ipc_conn A (answerer unit)) : option (option (list Z)) :=
  if data (packet c) =? 0 then Some None else Some <$> contents c.

(** The result and the output buffer. *)
Definition cplus_ipc_client_send_request (answers : list (reception * Z))
    (input_bufs_len : Z) (input_bufs : option (list Z))
    (output_bufs_len : Z) (output_bufs : option (list Z)) (timeout : Z) : C S (Z * option (list Z)) :=
  sq ← next_seqn;
  count ← on_socket (ipc_send_packet (u8 sq) IPC_CMD_REQUEST input_bufs_len input_bufs);
  async ← gets clt_async;
  if 0 <? count then
    if (async : bool) then mret (CPLUS_SUCCESS, output_bufs)
    else
      modify (with_timeout timeout);;
      res ← await (u8 sq) answers;
      reset_event;;
      e ← gets (λ c, sock_error (ipc_conn c));
      if (res =? CPLUS_FAIL) || negb (e =? 0) then
        (if e =? 0 then mret tt else modify (with_errno e));; mret (CPLUS_FAIL, output_bufs)
      else
        match output_bufs with
        | None => modify (with_errno EINVAL);; mret (CPLUS_FAIL, output_bufs)
        | Some out =>
            if output_bufs_len <=? 0 then modify (with_errno EINVAL);; mret (CPLUS_FAIL, output_bufs)
            else
              d ← deref (λ c, packet_data (parser (ipc_conn c)));
              n ← gets (λ c, data_len (packet (parser (ipc_conn c))));
              match cplus_mem_cpy_ex output_bufs output_bufs_len d n with
              | Done r => mret (s32 n, Some match r with Ptr d => d | Null => out end)
              | Aborts => abort | Hangs => hang | Undefined => undef
              end
        end
  else mret (CPLUS_SUCCESS, output_bufs).

End client.
End IpcClient.
