(* ===== verification/IpcProps.v ===== *)
(** * IpcProps: packets arrive as they were sent, and requests are answered

    The parser of a connection against the reference automaton of IpcParse.v
    over whole receptions, the sender against [encode], the client's request
    over both, and what goes wrong. *)

From S2P Require Import Prelude Allocator Zlist Memmgr Ipc IpcParse IpcClient.
From stdpp Require Import base numbers list list_numbers option gmap sets.
From Stdlib Require Import ZArith Lia.
Open Scope Z_scope.

Module IpcProps.
Import Heap Memmgr Ipc IpcParse IpcClient.

(** ** Receptions

    A reception ends at the end of the buffer, or not within the data of a
    packet. *)
Fixpoint uncut (size offset : Z) (r : ref) (chunks : list (list Z)) : Prop :=
  match chunks with
  | [] => True
  | bs :: chunks =>
      let o := if size <=? offset then 0 else offset in
      bs ≠ [] ∧ o + zlen bs ≤ size ∧ (o + zlen bs = size ∨ ¬ mid (rrun r bs).1)
      ∧ uncut size (o + zlen bs) (rrun r bs).1 chunks
  end.

Lemma uncut_nonempty size o r chunks : uncut size o r chunks → Forall (λ bs, bs ≠ []) chunks.
Proof. revert o r. induction chunks as [|bs chunks IH]; intros o r; [done|]. intros (H1 & _ & _ & H2). eauto. Qed.

Definition bytes (bs : list Z) : Prop := Forall (λ b, 0 ≤ b < 256) bs.

Section receptions.
Context {A X : Type} `{Allocator A} (junk : Z → nat → Z) (L : gset Z).
Context (I : X → Prop) (f : ipc_conn_packet → option (list Z) → X → outcome X) (g : X → pkt → X).
Context (f_works : ∀ p d x, I x → let p' := Pkt (seqn p) (cmd p) d in f p (Some d) x = Done (g x p') ∧ I (g x p')).
Context (ample : A → Prop).
Context (ample_new : ∀ a live, al_ok a live → ample a →
  ∃ p a', al_new a = Done (p, a') ∧ p ≠ 0 ∧ p ∉ live ∧ al_ok a' ({[p]} ∪ live) ∧ ample a').
Context (ample_release : ∀ a live p, al_ok a live → ample a → p ∈ live →
  ∃ a', al_release p a = Done a' ∧ al_ok a' (live ∖ {[p]}) ∧ ample a').

Notation S := (Ipc.ipc_conn A X).
Notation shape := (shape L I ample).
Implicit Types (c : S) (r : ref).

(** [c1] is [c] after [n] bytes, the packets [ps] and with the packet held
    changed by [k]. *)
Record later c c1 (n : Z) (ps : list pkt) (k : option pkt → option pkt) : Prop := Later {
  la_shape : shape c1;
  la_tells : ∀ y o, tells y c o → tells y c1 (k o);
  la_size : recv_bufs_size c1 = recv_bufs_size c;
  la_offset : recv_bufs_offset c1 = recv_bufs_offset c + n;
  la_user : user c1 = foldl g (user c) ps }.

Lemma zlen_received c bs :
  shape c → recv_bufs_offset c + zlen bs ≤ recv_bufs_size c →
  zlen (recv_bufs (with_received bs c)) = recv_bufs_size c.
Proof using Type.
  intros [] Hfit. unfold zlen in *. simpl. rewrite !length_app, length_take, length_drop. lia.
Qed.

Lemma shape_received c bs :
  shape c → recv_bufs_offset c + zlen bs ≤ recv_bufs_size c → shape (with_received bs c).
Proof using Type. intros Hs Hfit. pose proof (zlen_received c bs Hs Hfit). destruct Hs. by split. Qed.

Lemma remaining_received c bs :
  shape c → recv_bufs_offset c + zlen bs ≤ recv_bufs_size c →
  remaining (with_received bs c) (zlen bs + recv_bufs_offset c) = bs.
Proof using Type.
  intros [] Hfit. unfold remaining, with_received. cbn [recv_bufs recv_bufs_offset].
  rewrite drop_app_length' by (unfold zlen in *; rewrite length_take; lia).
  apply take_app_length'. unfold zlen. lia.
Qed.

(** A reception is read to its end. *)
Lemma analyze_run c r bs :
  shape c → speaks c r → bs ≠ [] → bytes bs → recv_bufs_offset c + zlen bs ≤ recv_bufs_size c →
  recv_bufs_offset c + zlen bs = recv_bufs_size c ∨ ¬ mid (rrun r bs).1 →
  ∃ c1, ipc_packet_analyze junk (Some f) (with_received bs c) = Done (tt, c1)
    ∧ later c c1 (zlen bs) (rrun r bs).2 (rlast r bs) ∧ speaks c1 (rrun r bs).1 ∧ recv_count c1 = zlen bs.
Proof.
  intros Hs Hr Hne Hb Hfit Hcut. pose proof (sh_offset _ _ _ _ Hs). pose proof (sh_size _ _ _ _ Hs) as Hsz.
  unfold RSIZE_MAX_MEM in Hsz. pose proof (zlen_nonneg bs).
  assert (0 < zlen bs) by (pose proof (zlen_0 bs); destruct (Z.eq_dec (zlen bs) 0); [tauto|lia]).
  set (c0 := with_received bs c). set (walker := zlen bs + recv_bufs_offset c).
  assert (u32 (u32 (recv_count c0) + recv_bufs_offset c0) = walker) as Hw.
  { simpl. rewrite u32_add_l. apply u32_small. lia. }
  pose proof (remaining_received c bs Hs Hfit) as Hrem.
  destruct (analyze_loop_run junk L I f g f_works ample ample_new ample_release
    (Z.to_nat (4 * (walker - recv_bufs_offset c))) c0 r walker) as (c1 & E & Ha & Hr1).
  - by apply shape_received.
  - destruct r; exact Hr.
  - simpl. lia.
  - unfold c0, walker. by rewrite Hrem.
  - unfold c0, walker. rewrite Hrem. simpl. destruct Hcut; [left; lia|by right].
  - simpl. destruct (pending c0); lia.
  - unfold c0, walker in *. rewrite Hrem in *. exists c1. split.
    + unfold ipc_packet_analyze, gets. rewrite (bind_Done _ _ _ _ _ eq_refl), Hw.
      rewrite (bind_Done _ _ _ _ _ eq_refl). exact E.
    + destruct Ha as (K0 & K1 & _ & K3 & K4 & K5 & K6). split; [|done].
      split; [done|intros y o Ho; apply K0; by eapply tells_same|done| |done]. rewrite K4. simpl. lia.
Qed.

Lemma encode_bytes p :
  0 ≤ p_seqn p < 256 → 0 ≤ p_cmd p < 256 → bytes (p_data p) → bytes (encode p).
Proof using Type.
  intros H1 H2 H3. unfold encode.
  repeat (apply Forall_cons; split; [lia|]).
  repeat (apply Forall_cons; split; [apply u8_range|]). apply Forall_app. split; [done|].
  repeat (apply Forall_cons; split; [lia|]). constructor.
Qed.

(** ** The connection *)

Definition ready (l : link A X) r : Prop := status l ≠ NOT_CONNECTED ∧ shape (parser l) ∧ speaks (parser l) r.

Lemma shape_rewind c : shape c → shape (rewind c).
Proof using Type.
  intros Hs. unfold rewind. destruct (_ <=? _); [|done]. pose proof (sh_size _ _ _ _ Hs). destruct Hs. split; simpl; done || lia.
Qed.

Lemma offset_rewind c : recv_bufs_offset (rewind c) = if recv_bufs_size c <=? recv_bufs_offset c then 0 else recv_bufs_offset c.
Proof using Type. unfold rewind. by destruct (_ <=? _). Qed.

Lemma speaks_rewind c r : speaks c r → speaks (rewind c) r.
Proof using Type. unfold rewind. by destruct (_ <=? _), r. Qed.

Lemma tells_rewind y c o : tells y c o → tells y (rewind c) o.
Proof using Type. unfold rewind. by destruct (_ <=? _). Qed.

Lemma fields_rewind c : recv_bufs_size (rewind c) = recv_bufs_size c
  ∧ user (rewind c) = user c.
Proof using Type. unfold rewind. by destruct (_ <=? _). Qed.

Lemma proc_run l r bs chunks :
  ready l r → uncut (recv_bufs_size (parser l)) (recv_bufs_offset (parser l)) r (bs :: chunks) → bytes bs →
  ∃ l1, ipc_conn_proc junk (Some f) (Received bs) l = Done l1 ∧ ready l1 (rrun r bs).1
    ∧ uncut (recv_bufs_size (parser l1)) (recv_bufs_offset (parser l1)) (rrun r bs).1 chunks
    ∧ (∀ y o, tells y (parser l) o → tells y (parser l1) (rlast r bs o))
    ∧ user (parser l1) = foldl g (user (parser l)) (rrun r bs).2
    ∧ (status l1, sock_error l1, sock l1, told l1, recv_count (parser l1))
        = (CONNECTED, 0, sock l, told l, zlen bs).
Proof.
  intros (Hst & Hs & Hr) (Hne & Hfit & Hcut & Hrest) Hb. set (c := rewind (parser l)).
  destruct (fields_rewind (parser l)) as (F1 & F3). pose proof (offset_rewind (parser l)) as F4.
  destruct (analyze_run c r bs) as (c1 & E & [] & Hr1 & Hcount);
    [by apply shape_rewind|by apply speaks_rewind|done|done|by unfold c; rewrite F1, F4|by unfold c; rewrite F1, F4|].
  exists (Link c1 CONNECTED 0 (sock l) (told l)). unfold ipc_conn_proc. fold c. rewrite E. unfold c in *.
  split; [by destruct (status l)|]. split; [done|]. simpl. rewrite la_size0, la_offset0, la_user0, F1, F3, F4.
  rewrite Hcount. split; [done|]. split; [|done]. intros y o Ho. by apply la_tells0, tells_rewind.
Qed.

(** Any number of receptions. *)
Lemma conn_run_receptions chunks l r :
  ready l r → uncut (recv_bufs_size (parser l)) (recv_bufs_offset (parser l)) r chunks → bytes (concat chunks) →
  ∃ l1, conn_run junk (Some f) (Received <$> chunks) l = Done l1 ∧ ready l1 (rrun r (concat chunks)).1
    ∧ user (parser l1) = foldl g (user (parser l)) (rrun r (concat chunks)).2
    ∧ (sock l1, told l1) = (sock l, told l).
Proof.
  revert l r. induction chunks as [|bs chunks IH]; intros l r Hl Hu Hb; [by exists l|].
  apply Forall_app in Hb as [Hb Hbs].
  destruct (proc_run l r bs chunks Hl Hu Hb) as (l1 & E & Hl1 & Hu1 & _ & Hx1 & [= _ _ Es1 Et1 _]).
  destruct (IH l1 _ Hl1 Hu1 Hbs) as (l2 & E2 & Hl2 & Hx2 & [= Es2 Et2]).
  exists l2. simpl. rewrite E, rrun_app. destruct (rrun r bs) as [r1 ps1]. simpl in *.
  destruct (rrun r1 (concat chunks)) as [r2 ps2]. simpl in *.
  split; [done|]. split; [done|]. split; [by rewrite Hx2, Hx1, foldl_app|congruence].
Qed.

(** Whole packets, in any receptions that do not cut them. *)
Lemma conn_run_packets (l : link A X) (ps : list pkt) (chunks : list (list Z)) :
  ready l (RHead 0) → Forall (λ p, 0 ≤ p_seqn p < 256 ∧ 0 ≤ p_cmd p < 256 ∧ bytes (p_data p) ∧ zlen (p_data p) < 2 ^ 32) ps →
  concat chunks = ps ≫= encode →
  uncut (recv_bufs_size (parser l)) (recv_bufs_offset (parser l)) (RHead 0) chunks →
  ∃ l1, conn_run junk (Some f) (Received <$> chunks) l = Done l1
    ∧ user (parser l1) = foldl g (user (parser l)) ps ∧ ready l1 (RHead 0) ∧ told l1 = told l.
Proof.
  intros Hl Hps Hc Hu.
  assert (rrun (RHead 0) (concat chunks) = (RHead 0, ps)) as Erun.
  { rewrite Hc. apply rrun_encodes. eapply Forall_impl; [exact Hps|]. naive_solver. }
  destruct (conn_run_receptions chunks l (RHead 0) Hl Hu) as (l1 & E & Hl1 & Hx & [= _ Et]).
  { rewrite Hc. unfold bytes. apply Forall_bind. eapply Forall_impl; [exact Hps|]. intros p0 (? & ? & ? & ?).
    by apply encode_bytes. }
  rewrite Erun in Hl1, Hx. by exists l1.
Qed.

(** C8: packets sent one after the other arrive as they were sent, in order
    and once each, and the connection then waits for the next one: for every
    division of their bytes into receptions of which each fills what is left
    of the buffer or does not end within the data of a packet. *)
Theorem packets_arrive (l : link A X) (ps : list pkt) (chunks : list (list Z)) :
  ready l (RHead 0) → Forall (λ p, 0 ≤ p_seqn p < 256 ∧ 0 ≤ p_cmd p < 256 ∧ bytes (p_data p) ∧ zlen (p_data p) < 2 ^ 32) ps →
  concat chunks = ps ≫= encode →
  uncut (recv_bufs_size (parser l)) (recv_bufs_offset (parser l)) (RHead 0) chunks →
  ∃ l1, conn_run junk (Some f) (Received <$> chunks) l = Done l1
    ∧ user (parser l1) = foldl g (user (parser l)) ps ∧ ready l1 (RHead 0) ∧ told l1 = told l.
Proof. apply conn_run_packets. Qed.

End receptions.

(** ** On the heap *)

Definition ample_heap (a : Heap.heap) : Prop := Heap.oom a = [].

Lemma heap_ample_new (a : Heap.heap) live :
  al_ok a live → ample_heap a →
  ∃ p a', al_new a = Done (p, a') ∧ p ≠ 0 ∧ p ∉ live ∧ al_ok a' ({[p]} ∪ live) ∧ ample_heap a'.
Proof.
  intros Hok Ha. destruct (al_new_spec a live Hok) as (p & a' & E & Hp). exists p, a'. split; [done|].
  simpl in E. unfold Heap.cplus_malloc in E. rewrite Ha in E. injection E as <- <-.
  destruct Hp as [[E0 _]|(? & ? & ?)]; [|split_and!; try done; unfold ample_heap; simpl; by rewrite Ha].
  destruct Hok as (_ & ? & _). simpl in E0. lia.
Qed.

Lemma heap_ample_release (a : Heap.heap) live p :
  al_ok a live → ample_heap a → p ∈ live →
  ∃ a', al_release p a = Done a' ∧ al_ok a' (live ∖ {[p]}) ∧ ample_heap a'.
Proof.
  intros Hok Ha Hp. destruct (al_release_spec a live p Hok Hp) as (a' & E & Hok'). exists a'. split; [done|]. split; [done|].
  simpl in E. unfold Heap.cplus_free in E. by destruct (decide _); simplify_eq.
Qed.

(** A new connection. *)
Lemma new_conn_ready {X} (I : X → Prop) (x : X) (y : bool) (so : bool) :
  I x → ready ∅ I ample_heap (Link (ipc_conn_create Heap.empty_heap x y) CONNECTED 0 so []) (RHead 0).
Proof.
  intros HI. split; [done|]. split; [split; simpl|]; try done.
  by destruct y; [left|right].
Qed.


(** ** The sender *)

(** [m] writes [bs], or stops within them; with a kernel that takes all it is
    given it writes them all and returns [res]. *)
Definition writes (bs : list Z) (res : Z) (m : C wire Z) : Prop := ∀ w,
  ∃ n pre w1, m w = Done (n, w1) ∧ sent w1 = sent w ++ pre ∧ pre `prefix_of` bs
    ∧ (inbox w1, recvs w1) = (inbox w, recvs w)
    ∧ (n ≠ CPLUS_FAIL → n = res ∧ pre = bs)
    ∧ (sends w = [] → n = res ∧ pre = bs ∧ sends w1 = []).

Lemma send_one bs w : 0 < zlen bs < 2 ^ 31 → ∃ n pre w1, cplus_socket_send bs w = Done (n, w1)
  ∧ sent w1 = sent w ++ pre ∧ pre `prefix_of` bs ∧ (inbox w1, recvs w1) = (inbox w, recvs w)
  ∧ (n = zlen bs → pre = bs) ∧ - 1 ≤ n ≤ zlen bs ∧ (sends w = [] → n = zlen bs ∧ sends w1 = []).
Proof.
  intros Hb. unfold cplus_socket_send. rewrite s32_small by lia. rewrite (proj2 (Z.leb_gt _ 0)) by lia.
  destruct (sends w) as [|[n|e] rest].
  - exists (zlen bs), bs. eexists. split; [done|]. simpl. split_and!; try done || lia.
  - eexists _, (take (Z.to_nat (Z.max 0 (Z.min n (zlen bs)))) bs), _. split; [done|]. simpl.
    split_and!; try done || lia; [apply prefix_take|]. intros E. rewrite E. apply take_ge. unfold zlen. lia.
  - eexists _, [], _. split; [done|]. simpl. unfold CPLUS_FAIL.
    split_and!; try done || lia; [by rewrite app_nil_r|apply prefix_nil].
Qed.

Lemma writes_ret res : res ≠ CPLUS_FAIL → writes [] res (mret res).
Proof. intros Hr w. exists res, [], w. by rewrite app_nil_r. Qed.

(** One part, and the rest. *)
Lemma writes_part bs rest res (ok : Z → bool) k :
  0 < zlen bs < 2 ^ 31 → (∀ n, -1 ≤ n ≤ zlen bs → ok n = true ↔ n = zlen bs) → writes rest res (k (zlen bs)) →
  writes (bs ++ rest) res (n ← cplus_socket_send bs; if ok n then k n else mret CPLUS_FAIL).
Proof.
  intros Hb Hok Hk w. destruct (send_one bs w Hb) as (n & pre & w1 & E & Es & Hpre & [= Hi1 Hi2] & Hall & Hr & Hw).
  rewrite (bind_Done _ _ _ _ _ E). destruct (ok n) eqn:Hn.
  - apply Hok in Hn as ->; [|done]. specialize (Hall eq_refl) as ->.
    destruct (Hk w1) as (n2 & pre2 & w2 & E2 & Es2 & Hpre2 & [= Hi3 Hi4] & Hs2 & Hf2).
    exists n2, (bs ++ pre2), w2. split; [done|]. split; [by rewrite Es2, Es, app_assoc|].
    split; [by apply prefix_app|]. split; [congruence|]. split.
    + intros [-> ->]%Hs2. done.
    + intros (_ & [-> [-> ?]]%Hf2)%Hw. done.
  - exists CPLUS_FAIL, pre, w1. split; [done|]. split; [done|]. split; [by apply prefix_app_r|].
    split; [congruence|]. split; [done|]. intros [En _]%Hw. apply Hok in En; [|done]. congruence.
Qed.

Lemma writes_all bs rest res k :
  0 < zlen bs < 2 ^ 31 → writes rest res k → writes (bs ++ rest) res (send_all bs k).
Proof.
  intros Hb Hk. unfold send_all. apply (writes_part bs rest res (λ n, zlen bs =? n) (λ _, k)); [done| |done].
  intros n _. rewrite Z.eqb_eq. split; congruence.
Qed.

Lemma writes_end res : res ≠ CPLUS_FAIL → writes IPC_CONN_PACKET_END_TAG res (send_all IPC_CONN_PACKET_END_TAG (mret res)).
Proof. intros Hr. rewrite <- (app_nil_r IPC_CONN_PACKET_END_TAG) at 1. apply writes_all; [done|by apply writes_ret]. Qed.

Lemma writes_data d :
  zlen d < 2 ^ 31 → writes (d ++ IPC_CONN_PACKET_END_TAG) (zlen d)
    (if 0 <? zlen d then
       n ← cplus_socket_send d;
       if (n <? 0) || negb (zlen d =? u32 n) then mret CPLUS_FAIL else send_all IPC_CONN_PACKET_END_TAG (mret n)
     else send_all IPC_CONN_PACKET_END_TAG (mret 0)).
Proof.
  intros Hd. pose proof (zlen_nonneg d). destruct (Z.ltb_spec 0 (zlen d)) as [Hp|Hp].
  - assert (writes (d ++ IPC_CONN_PACKET_END_TAG) (zlen d)
      (n ← cplus_socket_send d; if negb ((n <? 0) || negb (zlen d =? u32 n))
        then send_all IPC_CONN_PACKET_END_TAG (mret n) else mret CPLUS_FAIL)) as Hw.
    { apply (writes_part d _ _ (λ n, negb ((n <? 0) || negb (zlen d =? u32 n)))
        (λ n, send_all IPC_CONN_PACKET_END_TAG (mret n))); [lia| |apply writes_end; unfold CPLUS_FAIL; lia].
      intros n Hn. destruct (Z.ltb_spec n 0); simpl; [split; [done|lia]|]. rewrite negb_involutive, u32_small by lia.
      rewrite Z.eqb_eq. split; congruence. }
    intros w. destruct (Hw w) as (n & pre & w1 & E & Hrest). exists n, pre, w1. split; [|done].
    rewrite <- E. unfold mbind, C_bind. destruct (cplus_socket_send d w) as [[n0 w0]| | |]; try done.
    by destruct (_ || _).
  - assert (d = []) as -> by (apply zlen_0; lia). by apply writes_end.
Qed.

(** The header and what follows. *)
Lemma writes_header s c n rest res k :
  writes rest res k →
  writes (IPC_CONN_PACKET_BEGIN_TAG ++ [s] ++ [c] ++ network_order n ++ rest) res
    (send_all IPC_CONN_PACKET_BEGIN_TAG (send_all [s] (send_all [c] (send_all (network_order n) k)))).
Proof. intros Hk. by repeat (apply writes_all; [done|]). Qed.

Lemma command_checked c : 0 ≤ c ≤ IPC_CMD_ACK → (s32 c <? IPC_CMD_HEARTBEAT) || (IPC_CMD_MAX - 1 <? s32 c) = false.
Proof.
  intros Hc. unfold IPC_CMD_ACK in Hc. rewrite s32_small by lia. unfold IPC_CMD_HEARTBEAT, IPC_CMD_MAX.
  apply orb_false_iff. split; apply Z.ltb_ge; lia.
Qed.

Lemma send_packet_writes s c n d :
  0 ≤ c ≤ IPC_CMD_ACK → 0 ≤ n ≤ zlen d → n < 2 ^ 31 →
  writes (encode (Pkt s c (take (Z.to_nat n) d))) n (ipc_send_packet s c n (Some d)).
Proof.
  intros Hc Hn Hn2. set (d' := take (Z.to_nat n) d).
  assert (zlen d' = n) as El by (unfold d', zlen in *; rewrite length_take; lia).
  unfold ipc_send_packet. rewrite command_checked by done. rewrite bool_decide_false, andb_false_r by done.
  rewrite (proj2 (Z.leb_le n (zlen d))) by lia. fold d'. unfold encode. simpl p_data. rewrite El.
  apply writes_header. pose proof (writes_data d' ltac:(lia)) as Hw. by rewrite El in Hw.
Qed.

Lemma send_empty_writes s c : 0 ≤ c ≤ IPC_CMD_ACK → writes (encode (Pkt s c [])) 0 (ipc_send_packet s c 0 None).
Proof.
  intros Hc. unfold ipc_send_packet. rewrite command_checked by done. rewrite andb_false_l. unfold encode.
  apply writes_header. by apply writes_end.
Qed.

(** sending a packet writes a beginning of its bytes and nothing else; when
    it succeeds, and always when the kernel takes all it is given, it writes
    them all and answers the length of the data. *)
Theorem send_writes_packet (s c n : Z) (d : list Z) (w : wire) :
  0 ≤ c ≤ IPC_CMD_ACK → 0 ≤ n ≤ zlen d → n < 2 ^ 31 →
  ∃ res pre w1, ipc_send_packet s c n (Some d) w = Done (res, w1)
    ∧ sent w1 = sent w ++ pre ∧ pre `prefix_of` encode (Pkt s c (take (Z.to_nat n) d))
    ∧ (res ≠ CPLUS_FAIL → res = n ∧ pre = encode (Pkt s c (take (Z.to_nat n) d)))
    ∧ (sends w = [] → res = n).
Proof.
  intros Hc Hn Hn2. destruct (send_packet_writes s c n d Hc Hn Hn2 w) as (res & pre & w1 & E & Hs & Hp & _ & Hr & Hw).
  exists res, pre, w1. split_and!; try done. by intros [-> _]%Hw.
Qed.

(** ** A client without a callback *)

(** What a packet makes of it: a heartbeat is acknowledged. *)
Definition quiet {U} (x : answerer U) (p : pkt) : answerer U :=
  if p_cmd p =? IPC_CMD_HEARTBEAT then
    match reply x (p_seqn p) IPC_CMD_ACK 0 None with Done x1 => x1 | _ => x end
  else x.

Lemma quiet_works {U} (p : ipc_conn_packet) (d : list Z) (x : answerer U) :
  packet_analyze_completed true None p (Some d) x = Done (quiet x (Pkt (seqn p) (cmd p) d)) ∧ True.
Proof.
  split; [|done].
  unfold packet_analyze_completed, quiet. cbn [p_cmd p_seqn]. destruct (cmd p =? IPC_CMD_HEARTBEAT); [|by destruct (_ || _)].
  unfold reply. by destruct (send_empty_writes (seqn p) IPC_CMD_ACK ltac:(done) (net x)) as (res & pre & w1 & -> & _).
Qed.

Section client.
Context {A : Type} `{Allocator A} (junk : Z → nat → Z) (L : gset Z) (ample : A → Prop).
Context (ample_new : ∀ a live, al_ok a live → ample a →
  ∃ p a', al_new a = Done (p, a') ∧ p ≠ 0 ∧ p ∉ live ∧ al_ok a' ({[p]} ∪ live) ∧ ample a').
Context (ample_release : ∀ a live p, al_ok a live → ample a → p ∈ live →
  ∃ a', al_release p a = Done a' ∧ al_ok a' (live ∖ {[p]}) ∧ ample a').

Notation ready := (ready L (λ _, True) ample).

(** A synchronous client between two receptions, at [r] and with [t] ticks
    left, holding the packet [o]. *)
Record waiting (c : ipc_client A) (r : ref) (t : Z) (o : option pkt) : Prop := Waiting {
  wa_ready : ready (ipc_conn c) r;
  wa_tells : tells true (parser (ipc_conn c)) o;
  wa_time : recv_timeout c = t }.

(** What a reception leaves alone. *)
Definition same_client (c c1 : ipc_client A) : Prop :=
  clt_async c1 = clt_async c ∧ clt_seqn c1 = clt_seqn c ∧ told (ipc_conn c1) = told (ipc_conn c)
  ∧ sent (wire_of c1) = sent (wire_of c).

Lemma same_trans c c1 c2 : same_client c c1 → same_client c1 c2 → same_client c c2.
Proof using Type. intros (? & ? & ? & ?) (? & ? & ? & ?). split_and!; congruence. Qed.

Lemma ready_user (l : link A (answerer unit)) r f :
  ready l r → ready (Link (with_user (f (user (parser l))) (parser l)) (status l) (sock_error l) (sock l) (told l)) r.
Proof using Type. intros (H1 & [] & H3). split; [done|]. split; [by split|]. by destruct r. Qed.

Lemma waiting_wire c r t o w : waiting c r t o → waiting (with_wire w c) r t o.
Proof using Type.
  intros [H1 H2 H3]. split; [|by eapply tells_same|done].
  by apply (ready_user _ _ (λ u, Answerer w (response_data u) (response_data_size u) tt)).
Qed.

Lemma waiting_errno c r t o e :
  waiting c r t o → waiting (with_errno e c) r t o ∧ same_client c (with_errno e c).
Proof using Type. intros Hw. split; [by apply waiting_wire|done]. Qed.

Lemma foldl_quiet ps (x : answerer unit) :
  Forall (λ p, p_cmd p ≠ IPC_CMD_HEARTBEAT) ps → foldl quiet x ps = x.
Proof using Type.
  induction 1 as [|p ps Hp _ IH]; [done|]. simpl. unfold quiet at 2. by rewrite (proj2 (Z.eqb_neq _ _) Hp).
Qed.

(** The buffer of the connection. *)
Definition fits (c : ipc_client A) : ref → list (list Z) → Prop :=
  uncut (recv_bufs_size (parser (ipc_conn c))) (recv_bufs_offset (parser (ipc_conn c))).

(** One reception of a waiting client. *)
Lemma client_proc c r t o bs chunks :
  waiting c r t o → fits c r (bs :: chunks) → bytes bs → Forall (λ p, p_cmd p ≠ IPC_CMD_HEARTBEAT) (rrun r bs).2 →
  ∃ c1, proc junk (Received bs) c = Done (tt, c1) ∧ waiting c1 (rrun r bs).1 t (rlast r bs o)
    ∧ fits c1 (rrun r bs).1 chunks ∧ recv_count (parser (ipc_conn c1)) = zlen bs ∧ sock_error (ipc_conn c1) = 0
    ∧ same_client c c1.
Proof.
  intros [H1 H2 H3] Hf Hb Hps.
  destruct (proc_run junk L (λ _, True) (packet_analyze_completed true None) quiet (λ p d x _, quiet_works p d x) ample ample_new ample_release
    (ipc_conn c) r bs chunks H1 Hf Hb) as (l1 & E & Hl1 & Hu1 & Ht1 & Hx & [= Es Ee Ek Et Ec]).
  exists (with_conn l1 c). unfold proc. rewrite E. split; [done|]. split; [split; [done|by apply Ht1|done]|].
  split; [done|]. split; [done|]. split; [done|]. split_and!; [done|done|done|].
  unfold wire_of. simpl. by rewrite Hx, foldl_quiet.
Qed.

(** The loop of a request ends with the packet that was asked for. *)
Lemma await_run chunks ts c r t sq p :
  waiting c r t None → fits c r chunks → bytes (concat chunks) →
  Forall (λ p, p_cmd p ≠ IPC_CMD_HEARTBEAT) (rrun r (concat chunks)).2 →
  length ts = length chunks → Forall (λ n, 0 ≤ n) ts → foldr Z.add 0 ts < t →
  (∀ l1 l2, chunks = l1 ++ l2 → l2 ≠ [] → rlast r (concat l1) None = None) →
  rlast r (concat chunks) None = Some p → p_seqn p = sq →
  ∃ c1 t1, await junk sq (zip (Received <$> chunks) ts) c = Done (CPLUS_SUCCESS, c1)
    ∧ waiting c1 (rrun r (concat chunks)).1 t1 (Some p) ∧ sock_error (ipc_conn c1) = 0 ∧ same_client c c1.
Proof.
  revert ts c r t. induction chunks as [|bs chunks IH]; intros [|n ts] c r t Hw Hf Hb Hps Hl Hts Hsum Hq Hp Hsq; try done.
  simpl in Hb, Hps, Hsum. apply Forall_app in Hb as [Hb Hbs]. rewrite rrun_app in Hps.
  apply Forall_cons in Hts as [Hn Hts].
  assert (0 ≤ foldr Z.add 0 ts) as Hts0 by (clear -Hts; induction Hts; simpl; lia).
  assert (Hne : bs ≠ []) by apply Hf.
  destruct (client_proc c r t None bs chunks Hw Hf Hb) as (c1 & E & Hw1 & Hf1 & Hc1 & He1 & Hs1).
  { destruct (rrun r bs) as [r1 ps1], (rrun r1 (concat chunks)) as [r2 ps2]. by apply Forall_app in Hps as [? _]. }
  simpl. rewrite (bind_Done _ _ _ _ _ E). unfold gets at 1. rewrite (bind_Done _ _ _ _ _ eq_refl), Hc1.
  rewrite (proj2 (Z.leb_gt (zlen bs) 0)) by (pose proof (zlen_nonneg bs); pose proof (zlen_0 bs);
    destruct (Z.eq_dec (zlen bs) 0); [tauto|lia]).
  unfold gets at 1. rewrite (bind_Done _ _ _ _ _ eq_refl), (wa_time _ _ _ _ Hw1), (proj2 (Z.leb_gt t n)) by lia.
  unfold modify at 1. rewrite (bind_Done _ _ _ _ _ eq_refl). set (c2 := with_timeout (t - n) c1).
  assert (Hw2 : waiting c2 (rrun r bs).1 (t - n) (rlast r bs None)) by (destruct Hw1; by split).
  simpl in Hp |- *. rewrite rlast_app in Hp. pose proof (wa_tells _ _ _ _ Hw2) as [Hev Hheld].
  destruct (decide (chunks = [])) as [->|Hmore].
  - simpl in Hp |- *. rewrite app_nil_r in *. rewrite Hp in *. unfold poll_event.
    crun. rewrite Hev. simpl in Hheld |- *. destruct Hheld as (_ & (Hseq & _) & _). simpl in Hseq.
    rewrite Hseq, Hsq, Z.eqb_refl. exists c2, (t - n). done.
  - pose proof (Hq [bs] chunks eq_refl Hmore) as E0. simpl in E0. rewrite app_nil_r in E0.
    rewrite E0 in *. unfold poll_event at 1. crun. rewrite Hev. simpl.
    destruct (waiting_errno _ _ _ _ EAGAIN Hw2) as [Hw3 Hs3].
    destruct (IH ts _ _ _ Hw3 Hf1 Hbs) as (c4 & t4 & E4 & Hw4 & He4 & Hs4); try done; try lia.
    + destruct (rrun r bs) as [r1 ps1]. simpl in *. destruct (rrun r1 (concat chunks)). by apply Forall_app in Hps as [_ ?].
    + by injection Hl.
    + intros l1 l2 -> Hl2. specialize (Hq (bs :: l1) l2 eq_refl Hl2). simpl in Hq. by rewrite rlast_app, E0 in Hq.
    + exists c4, t4. rewrite rrun_app. split; [done|]. destruct (rrun r bs) as [r1 ps1]. simpl in *.
      destruct (rrun r1 (concat chunks)). split; [done|]. split; [done|].
      by apply (same_trans _ c1), (same_trans _ c2), (same_trans _ (with_errno EAGAIN c2)).
Qed.

Lemma next_range s : 0 ≤ s < 256 → 0 ≤ ACCUMULATE_SEQUENCE_NUMBER s < 256.
Proof using Type. intros Hs. unfold ACCUMULATE_SEQUENCE_NUMBER. destruct (Z.leb_spec 255 s); lia. Qed.

(** A whole packet goes out. *)
Lemma client_sends c r t o s cm n input :
  waiting c r t o → sends (wire_of c) = [] → 0 ≤ cm ≤ IPC_CMD_ACK → 0 ≤ n ≤ zlen input → n < 2 ^ 31 →
  ∃ c1, on_socket (ipc_send_packet s cm n (Some input)) c = Done (n, c1) ∧ waiting c1 r t o
    ∧ sent (wire_of c1) = sent (wire_of c) ++ encode (Pkt s cm (take (Z.to_nat n) input))
    ∧ (clt_async c1, clt_seqn c1, ipc_conn c1) = (clt_async c, clt_seqn c, ipc_conn (with_wire (wire_of c1) c))
    ∧ fits c1 = fits c.
Proof using Type.
  intros Hw Hs Hc Hn Hn2. destruct (send_packet_writes s cm n input Hc Hn Hn2 (wire_of c)) as (m & pre & w1 & E & Ew & _ & _ & _ & Hf).
  destruct (Hf Hs) as (-> & -> & _). exists (with_wire w1 c). unfold on_socket. rewrite E. split; [done|].
  split; [by apply waiting_wire|]. done.
Qed.

(** The data of the packet held. *)
Lemma held_data c r t p :
  waiting c r t (Some p) → p_data p ≠ [] → packet_data (parser (ipc_conn c)) = Some (Some (p_data p))
    ∧ data_len (packet (parser (ipc_conn c))) = zlen (p_data p).
Proof using Type.
  intros [(_ & Hs & _) [_ (_ & (_ & _ & Hl) & Hc)] _] Hne. split; [|done].
  unfold packet_data. rewrite Hc. pose proof (sh_data _ _ _ _ Hs) as Hd.
  unfold contents in Hc. rewrite Hl in Hc.
  rewrite (proj2 (Z.eqb_neq (zlen (p_data p)) 0)) in Hc by (by intros E%zlen_0).
  destruct (packet_databufs _) as [[q bs]|]; [|done]. simpl in Hc.
  destruct (Z.eqb_spec q (data (packet (parser (ipc_conn c))))) as [<-|]; [|done].
  by rewrite (proj2 (Z.eqb_neq q 0)) by apply Hd.
Qed.

Lemma reset_run c r t o :
  waiting c r t o → ∃ c1, reset_event c = Done (tt, c1) ∧ waiting c1 r t None
    ∧ (clt_seqn c1, wire_of c1, sock_error (ipc_conn c1)) = (clt_seqn c, wire_of c, sock_error (ipc_conn c))
    ∧ packet_data (parser (ipc_conn c1)) = packet_data (parser (ipc_conn c))
    ∧ packet (parser (ipc_conn c1)) = packet (parser (ipc_conn c)).
Proof using Type.
  intros [(H1 & [] & H3) [H4 _] H5]. eexists. split; [reflexivity|]. split; [|done].
  split; [|by split|done]. split; [done|]. split; [split; try done|by destruct r].
  simpl. destruct sh_evt0 as [E|]; [by rewrite E in H4|by right].
Qed.

(** C6: a request of a synchronous client to a kernel that takes all it is
    given.  When the response comes in before the timeout, in any receptions
    of which each fills what is left of the buffer or does not end within the
    data, the call has sent the request with the next sequence number, answers
    the length of the response's data, and leaves the data in the output
    buffer and the client ready for the next request. *)
Theorem request_returns_response (c : ipc_client A) (n : Z) (input : list Z) (p : pkt) (chunks : list (list Z))
    (ts : list Z) (out_len : Z) (out : list Z) (timeout t : Z) :
  clt_async c = false → waiting c (RHead 0) t None → sends (wire_of c) = [] → 0 ≤ clt_seqn c < 256 →
  0 < n ≤ zlen input → n < 2 ^ 31 →
  p_seqn p = ACCUMULATE_SEQUENCE_NUMBER (clt_seqn c) → p_cmd p = IPC_CMD_RESPONSE →
  bytes (p_data p) → 0 < zlen (p_data p) ≤ out_len → out_len ≤ zlen out → out_len ≤ RSIZE_MAX_MEM →
  concat chunks = encode p → fits c (RHead 0) chunks →
  length ts = length chunks → Forall (λ n, 0 ≤ n) ts → foldr Z.add 0 ts < timeout →
  ∃ c1 t1, cplus_ipc_client_send_request junk (zip (Received <$> chunks) ts) n (Some input) out_len (Some out) timeout c
      = Done ((zlen (p_data p), Some (p_data p ++ drop (length (p_data p)) out)), c1)
    ∧ waiting c1 (RHead 0) t1 None ∧ clt_seqn c1 = p_seqn p
    ∧ sent (wire_of c1) = sent (wire_of c) ++ encode (Pkt (p_seqn p) IPC_CMD_REQUEST (take (Z.to_nat n) input)).
Proof.
  intros Hasy Hw Hsends Hseq Hn Hn2 Hps Hcmd Hb Hd Hout Hmax Hch Hf Hl Hts Hsum.
  pose proof (next_range _ Hseq) as Hsq. set (sq := ACCUMULATE_SEQUENCE_NUMBER (clt_seqn c)) in *.
  assert (Hdata : zlen (p_data p) < 2 ^ 32) by (unfold RSIZE_MAX_MEM in Hmax; lia).
  assert (Hne : p_data p ≠ []) by (intros E; rewrite E in Hd; change (zlen []) with 0 in Hd; lia).
  set (c0 := with_seqn sq c). assert (Hw0 : waiting c0 (RHead 0) t None) by (destruct Hw; by split).
  destruct (client_sends c0 _ _ _ sq IPC_CMD_REQUEST n input Hw0 Hsends ltac:(done) ltac:(lia) Hn2)
    as (c1 & E1 & Hw1 & Hsent & [= Ha1 Hs1 _] & Hfits).
  assert (Hw2 : waiting (with_timeout timeout c1) (RHead 0) timeout None) by (destruct Hw1; by split).
  assert (Hrun : rrun (RHead 0) (concat chunks) = (RHead 0, [p])) by (rewrite Hch; by apply rrun_encode).
  destruct (await_run chunks ts _ (RHead 0) timeout sq p Hw2) as (c3 & t3 & E3 & Hw3 & He3 & _ & Hsq3 & _ & Hs3); try done.
  - change (fits c1 (RHead 0) chunks). by rewrite Hfits.
  - rewrite Hch. by apply encode_bytes; rewrite ?Hps, ?Hcmd.
  - rewrite Hrun. constructor; [by rewrite Hcmd|done].
  - intros l1 l2 -> Hl2. rewrite concat_app in Hch. refine (proj2 (encode_pending p _ (concat l2) Hdata (eq_sym Hch) _)).
    destruct l2 as [|b l2]; [done|]. apply uncut_nonempty in Hf. apply Forall_app in Hf as [_ [Hb0 _]%Forall_cons].
    simpl. intros [-> _]%app_nil. done.
  - rewrite Hch. by apply encode_held.
  - rewrite Hrun in Hw3. destruct (reset_run _ _ _ _ Hw3) as (c4 & E4 & Hw4 & [= Hs4 Hwi4 Hse4] & Hpd & Hpk).
    destruct (held_data _ _ _ _ Hw3 Hne) as [Hd3 Hl3]. exists c4, t3. split.
    + unfold cplus_ipc_client_send_request, next_seqn.
      rewrite (bind_Done _ _ c sq c0) by done. rewrite u8_small by done. rewrite (bind_Done _ _ _ _ _ E1).
      unfold gets at 1. rewrite (bind_Done _ _ _ _ _ eq_refl), (proj2 (Z.ltb_lt 0 n)), Ha1 by lia.
      change (clt_async c0) with (clt_async c). rewrite Hasy.
      unfold modify at 1. rewrite (bind_Done _ _ _ _ _ eq_refl), (bind_Done _ _ _ _ _ E3), (bind_Done _ _ _ _ _ E4).
      unfold gets at 1. rewrite (bind_Done _ _ _ _ _ eq_refl), Hse4, He3.
      change ((CPLUS_SUCCESS =? CPLUS_FAIL) || negb (0 =? 0)) with false. cbv iota.
      rewrite (proj2 (Z.leb_gt out_len 0)) by lia. unfold deref at 1. crun. rewrite Hpd, Hd3. rewrite Hpk, Hl3.
      unfold cplus_mem_cpy_ex. rewrite (proj2 (Z.eqb_neq out_len 0)), (proj2 (Z.ltb_ge RSIZE_MAX_MEM out_len)),
        (proj2 (Z.eqb_neq (zlen (p_data p)) 0)), (proj2 (Z.ltb_ge out_len (zlen (p_data p)))) by lia.
      rewrite memcpy_ok by lia. unfold RSIZE_MAX_MEM in Hmax. rewrite s32_small by lia.
      unfold zlen. rewrite Nat2Z.id, firstn_all. done.
    + split; [done|]. rewrite Hs4, Hsq3, Hps. split; [exact Hs1|]. rewrite Hwi4, Hs3. exact Hsent.
Qed.



End client.
(** Two packets in one reception, to a connection that keeps what it gets. *)
Definition keep (p : ipc_conn_packet) (d : option (list Z)) (x : list pkt) : outcome (list pkt) :=
  match d with Some d => Done (x ++ [Pkt (seqn p) (cmd p) d]) | None => Undefined end.

Theorem packets_arrive_witness :
  let ps := [Pkt 1 IPC_CMD_ONEWAY [10; 20; 30]; Pkt 2 IPC_CMD_ACK []] in
  let l := Link (ipc_conn_create Heap.empty_heap [] true) CONNECTED 0 true [] in
  ∃ l1, conn_run (λ _ _, 0) (Some keep) [Received (ps ≫= encode)] l = Done l1 ∧ user (parser l1) = ps.
Proof.
  intros ps l.
  destruct (packets_arrive (λ _ _, 0) ∅ (λ _, True) keep (λ x p, x ++ [p]) (λ p d x _, conj eq_refl I)
    ample_heap heap_ample_new heap_ample_release l ps [ps ≫= encode]) as (l1 & E & Ex & _).
  - by apply new_conn_ready.
  - repeat (apply Forall_cons; split); [..|constructor]; (split; [by vm_compute|]; split; [by vm_compute|]; split; [|by vm_compute]);
      unfold bytes; simpl; repeat (apply Forall_cons; split; [lia|]); constructor.
  - reflexivity.
  - split; [done|]. split; [by vm_compute|]. split; [right; vm_compute; tauto|done].
  - exists l1. split; [exact E|]. rewrite Ex. reflexivity.
Defined.

Theorem send_writes_packet_witness :
  ∃ res pre w1, ipc_send_packet 1 IPC_CMD_ONEWAY 2 (Some [10; 20; 30]) (Wire [] [] [] [] 0) = Done (res, w1)
    ∧ sent w1 = pre ∧ res = 2.
Proof.
  destruct (send_writes_packet 1 IPC_CMD_ONEWAY 2 [10; 20; 30] (Wire [] [] [] [] 0)) as (res & pre & w1 & E & Es & _ & _ & Hr);
    [by vm_compute|by vm_compute|done|].
  exists res, pre, w1. split; [exact E|]. split; [exact Es|by apply Hr].
Defined.

(** A synchronous client and a response of three bytes in two receptions. *)
Theorem request_returns_response_witness :
  let c := Client false 4 (Link (ipc_conn_create Heap.empty_heap (Answerer (Wire [] [] [] [] 0) None 8192 tt) false)
             CONNECTED 0 true []) 0 in
  let p := Pkt 5 IPC_CMD_RESPONSE [7; 8; 9] in
  ∃ c1, cplus_ipc_client_send_request (λ _ _, 0) [(Received (take 6 (encode p)), 1); (Received (drop 6 (encode p)), 2)]
      1 (Some [42]) 4 (Some [0; 0; 0; 0]) 10 c = Done ((3, Some [7; 8; 9; 0]), c1).
Proof.
  intros c p.
  destruct (request_returns_response (λ _ _, 0) ∅ ample_heap heap_ample_new heap_ample_release c 1 [42] p
    [take 6 (encode p); drop 6 (encode p)] [1; 2] 4 [0; 0; 0; 0] 10 0) as (c1 & t1 & E & _).
  1, 3, 7, 8, 13, 15: reflexivity.
  2, 3, 4, 6, 7, 8: by vm_compute.
  - split; [by apply new_conn_ready|by split|reflexivity].
  - unfold bytes. simpl. repeat (apply Forall_cons; split; [lia|]). constructor.
  - split; [done|]. split; [by vm_compute|]. split; [right; vm_compute; tauto|].
    split; [done|]. split; [by vm_compute|]. split; [right; vm_compute; tauto|done].
  - repeat constructor; lia.
  - by vm_compute.
  - exists c1. exact E.
Defined.

End IpcProps.
