(* ===== verification/IpcServe.v ===== *)
(** * IpcServe: a server answers the requests of a connection

    The composition of the parser with [packet_analyze_completed] for a
    callback that computes its answer from the data of the request, and what
    goes wrong in ipc_server.c. *)

From S2P Require Import Prelude Allocator Zlist Memmgr Ipc IpcParse IpcClient IpcProps.
From stdpp Require Import base numbers list list_numbers option gmap sets.
From Stdlib Require Import ZArith Lia.
Open Scope Z_scope.

Module IpcServe.
Import Heap Memmgr Ipc IpcParse IpcClient IpcProps.

Section serve.
Context {U : Type}.

(** A callback that answers [answer d]: it says how much room that takes and
    writes it if there is room. *)
Definition serves (answer : list Z → list Z) (h : handler (U := U)) : Prop := ∀ u d room, ∃ u1,
  h u d room = (CPLUS_SUCCESS, zlen (answer d), if zlen (answer d) <=? room then answer d else [], u1).

(** What a packet is answered with. *)
Definition responses (answer : list Z → list Z) (p : pkt) : list pkt :=
  if p_cmd p =? IPC_CMD_HEARTBEAT then [Pkt (p_seqn p) IPC_CMD_ACK []]
  else if p_cmd p =? IPC_CMD_REQUEST then [Pkt (p_seqn p) IPC_CMD_RESPONSE (answer (p_data p))]
  else if p_cmd p =? IPC_CMD_RESPONSE then [Pkt (p_seqn p) IPC_CMD_ACK []]
  else [].

(** The kernel takes all it is given and the response buffer is whole. *)
Definition serving (x : answerer U) : Prop :=
  sends (net x) = [] ∧ 0 < response_data_size x
  ∧ ∀ old, response_data x = Some old → zlen old = response_data_size x.

Lemma reply_serving x s c n d :
  0 ≤ c ≤ IPC_CMD_ACK → 0 ≤ n ≤ zlen d → n < 2 ^ 31 → serving x →
  ∃ x1, reply x s c n (Some d) = Done x1 ∧ serving x1
    ∧ sent (net x1) = sent (net x) ++ encode (Pkt s c (take (Z.to_nat n) d)).
Proof.
  intros Hc Hn Hn2 (Hs & Hx). unfold reply.
  destruct (send_packet_writes s c n d Hc Hn Hn2 (net x)) as (res & pre & w1 & -> & Ew & _ & _ & _ & Hf).
  destruct (Hf Hs) as (_ & -> & Hs1). by eexists.
Qed.

Lemma reply_empty x s c :
  0 ≤ c ≤ IPC_CMD_ACK → serving x →
  ∃ x1, reply x s c 0 None = Done x1 ∧ serving x1 ∧ sent (net x1) = sent (net x) ++ encode (Pkt s c []).
Proof.
  intros Hc (Hs & Hx). unfold reply.
  destruct (send_empty_writes s c Hc (net x)) as (res & pre & w1 & -> & Ew & _ & _ & _ & Hf).
  destruct (Hf Hs) as (_ & -> & Hs1). by eexists.
Qed.

Context (answer : list Z → list Z) (h : handler (U := U)) (h_serves : serves answer h).
Context (answer_fits : ∀ d, zlen (answer d) < 2 ^ 31).

Lemma written_all old new room : zlen old = room → zlen new ≤ room →
  zlen (written old new room) = room ∧ take (length new) (written old new room) = new.
Proof using Type.
  intros Ho Hn. unfold written. rewrite (take_ge new) by (unfold zlen in *; lia). split.
  - unfold zlen in *. rewrite length_app, length_drop. lia.
  - by apply take_app_length'.
Qed.

(** The answer is in the response buffer. *)
Definition holds_answer (x : answerer U) (a : list Z) : Prop :=
  serving x ∧ ∃ buf, response_data x = Some buf ∧ zlen a ≤ zlen buf ∧ take (length a) buf = a.

Lemma holds_written old a room w u :
  sends w = [] → zlen old = room → zlen a ≤ room → 0 < room →
  holds_answer (Answerer w (Some (written old a room)) room u) a.
Proof using Type.
  intros Hw Ho Ha Hr. destruct (written_all old a room Ho Ha) as [H1 H2].
  split; [split; [done|split; [done|]]; by intros ? [= <-]|]. exists (written old a room). split; [done|]. split; [lia|done].
Qed.

Lemma respond p d x :
  cmd p ≠ IPC_CMD_HEARTBEAT → holds_answer x (answer d) →
  ∃ x1, (if cmd p =? IPC_CMD_REQUEST then
           if response_data_size x =? 0 then Done x
           else reply x (seqn p) IPC_CMD_RESPONSE (zlen (answer d)) (response_data x)
         else if cmd p =? IPC_CMD_RESPONSE then reply x (seqn p) IPC_CMD_ACK 0 None
         else Done x) = Done x1
    ∧ serving x1 ∧ sent (net x1) = sent (net x) ++ (responses answer (Pkt (seqn p) (cmd p) d) ≫= encode).
Proof using answer_fits.
  intros E0 (Hx & buf & Eb & Hl & Ht). unfold responses. cbn [p_cmd p_seqn p_data].
  rewrite (proj2 (Z.eqb_neq _ _) E0). pose proof (zlen_nonneg (answer d)).
  destruct (cmd p =? IPC_CMD_REQUEST); [|destruct (cmd p =? IPC_CMD_RESPONSE)].
  - rewrite (proj2 (Z.eqb_neq _ 0)), Eb, bind_singleton by (destruct Hx; lia).
    destruct (reply_serving x (seqn p) IPC_CMD_RESPONSE (zlen (answer d)) buf) as (x1 & E & Hx1 & Hs1);
      [done|done|apply answer_fits|done|].
    exists x1. split; [done|]. split; [done|]. rewrite Hs1. unfold zlen. by rewrite Nat2Z.id, Ht.
  - rewrite bind_singleton. by apply reply_empty.
  - exists x. by rewrite app_nil_r.
Qed.

Lemma completed_answers p d x :
  serving x →
  ∃ x1, packet_analyze_completed true (Some h) p (Some d) x = Done x1 ∧ serving x1
    ∧ sent (net x1) = sent (net x) ++ (responses answer (Pkt (seqn p) (cmd p) d) ≫= encode).
Proof.
  intros Hx. unfold packet_analyze_completed.
  destruct (Z.eqb_spec (cmd p) IPC_CMD_HEARTBEAT) as [E0|E0].
  { unfold responses. cbn [p_cmd p_seqn p_data]. rewrite E0, Z.eqb_refl, bind_singleton. by apply reply_empty. }
  destruct (_ || _) eqn:Ecmd.
  2: { unfold responses. cbn [p_cmd]. apply orb_false_iff in Ecmd as [[_ E2]%orb_false_iff E3].
    rewrite E2, E3, (proj2 (Z.eqb_neq _ _) E0). exists x. by rewrite app_nil_r. }
  pose proof Hx as (Hw & Hsize & Hbuf). set (size := response_data_size x) in *.
  set (room := match response_data x with Some old => Some old | None => _ end).
  assert (∃ old, room = Some old ∧ zlen old = size) as (old & -> & Ho).
  { unfold room. destruct (response_data x) as [old|]; [eauto|]. eexists. split; [done|].
    unfold zlen. rewrite length_replicate. lia. }
  destruct (h_serves (client x) d size) as (u1 & ->). change (CPLUS_SUCCESS =? CPLUS_FAIL) with false. cbv iota.
  destruct (Z.ltb_spec size (zlen (answer d))) as [Hgrow|Hfit].
  - cbv zeta. destruct (h_serves u1 d (zlen (answer d))) as (u2 & ->). rewrite Z.leb_refl. cbv iota beta.
    change (CPLUS_SUCCESS =? CPLUS_FAIL) with false. cbv iota.
    apply (respond p d (Answerer (net x) (Some (written (replicate (Z.to_nat (zlen (answer d))) 0) (answer d)
      (zlen (answer d)))) (zlen (answer d)) u2)); [done|].
    apply holds_written; [done| |done|lia]. unfold zlen. rewrite length_replicate. lia.
  - rewrite (proj2 (Z.leb_le _ _)) by done. cbv zeta. change (CPLUS_SUCCESS =? CPLUS_FAIL) with false. cbv iota.
    apply (respond p d (Answerer (net x) (Some (written old (answer d) size)) size u1)); [done|]. by apply holds_written.
Qed.

End serve.

(** What a packet makes of the user of a connection. *)
Definition served {U} (h : handler (U := U)) (x : answerer U) (p : pkt) : answerer U :=
  match packet_analyze_completed true (Some h) (Packet (p_seqn p) (p_cmd p) (zlen (p_data p)) 0) (Some (p_data p)) x with
  | Done x1 => x1 | _ => x
  end.

Lemma served_works {U} answer (h : handler (U := U)) :
  serves answer h → (∀ d, zlen (answer d) < 2 ^ 31) → ∀ p d x, serving x →
  let p' := Pkt (seqn p) (cmd p) d in
  packet_analyze_completed true (Some h) p (Some d) x = Done (served h x p') ∧ serving (served h x p')
  ∧ sent (net (served h x p')) = sent (net x) ++ (responses answer p' ≫= encode).
Proof.
  intros Hh Ha p d x Hx p'. destruct (completed_answers answer h Hh Ha p d x Hx) as (x1 & E & Hx1 & Hs).
  assert (served h x p' = x1) as -> by (unfold served, p'; cbn [p_seqn p_cmd p_data];
    unfold packet_analyze_completed in *; cbn [cmd seqn]; by rewrite E).
  done.
Qed.

Lemma served_all {U} answer (h : handler (U := U)) :
  serves answer h → (∀ d, zlen (answer d) < 2 ^ 31) → ∀ ps x, serving x →
  sent (net (foldl (served h) x ps)) = sent (net x) ++ ((ps ≫= responses answer) ≫= encode).
Proof.
  intros Hh Ha ps. induction ps as [|p ps IH]; intros x Hx; [by rewrite app_nil_r|].
  destruct p as [s c d]. destruct (served_works answer h Hh Ha (Packet s c 0 0) d x Hx) as (_ & Hx1 & Hs). simpl in Hx1, Hs.
  simpl. rewrite IH, Hs by done. by rewrite bind_app, app_assoc.
Qed.

Section server.
Context {A U : Type} `{Allocator A} (junk : Z → nat → Z) (L : gset Z) (ample : A → Prop).
Context (ample_new : ∀ a live, al_ok a live → ample a →
  ∃ p a', al_new a = Done (p, a') ∧ p ≠ 0 ∧ p ∉ live ∧ al_ok a' ({[p]} ∪ live) ∧ ample a').
Context (ample_release : ∀ a live p, al_ok a live → ample a → p ∈ live →
  ∃ a', al_release p a = Done a' ∧ al_ok a' (live ∖ {[p]}) ∧ ample a').

(** C5: the connection of a server answers the packets it receives, in order:
    a request with the callback's answer under the request's sequence number,
    a heartbeat and a response with an acknowledgement, a one-way packet with
    nothing.  That holds however long the answers are (the response buffer
    grows), for every division of the bytes into receptions of which each fills
    what is left of the buffer or does not end within the data of a packet. *)
Theorem requests_are_answered (answer : list Z → list Z) (h : handler (U := U)) (l : link A (answerer U))
    (ps : list pkt) (chunks : list (list Z)) :
  serves answer h → (∀ d, zlen (answer d) < 2 ^ 31) →
  ready L serving ample l (RHead 0) →
  Forall (λ p, 0 ≤ p_seqn p < 256 ∧ 0 ≤ p_cmd p < 256 ∧ bytes (p_data p) ∧ zlen (p_data p) < 2 ^ 32) ps →
  concat chunks = ps ≫= encode →
  uncut (recv_bufs_size (parser l)) (recv_bufs_offset (parser l)) (RHead 0) chunks →
  ∃ l1, conn_run junk (Some (packet_analyze_completed true (Some h))) (Received <$> chunks) l = Done l1
    ∧ sent (net (user (parser l1))) = sent (net (user (parser l))) ++ ((ps ≫= responses answer) ≫= encode)
    ∧ ready L serving ample l1 (RHead 0) ∧ told l1 = told l.
Proof.
  intros Hh Ha Hl Hps Hc Hu.
  assert (f_works : ∀ p d x, serving x → let p' := Pkt (seqn p) (cmd p) d in
    packet_analyze_completed true (Some h) p (Some d) x = Done (served h x p') ∧ serving (served h x p')).
  { intros p d x Hx. by destruct (served_works answer h Hh Ha p d x Hx) as (? & ? & _). }
  destruct (conn_run_packets junk L serving _ _ f_works ample ample_new ample_release l ps chunks Hl Hps Hc Hu)
    as (l1 & E & Hx & Hl1 & Ht).
  exists l1. split; [done|]. split; [|done]. rewrite Hx. apply (served_all answer); [done..|]. apply (sh_user _ _ _ _ (proj1 (proj2 Hl))).
Qed.

End server.

(** A server that answers with the first three bytes from the back. *)
Theorem requests_are_answered_witness :
  let a d := take 3 (rev d) in
  let h : handler (U := unit) := λ u d room, (CPLUS_SUCCESS, zlen (a d), if zlen (a d) <=? room then a d else [], u) in
  let l := Link (ipc_conn_create Heap.empty_heap (Answerer (Wire [] [] [] [] 0) None 8192 tt) true) CONNECTED 0 true [] in
  let p := Pkt 7 IPC_CMD_REQUEST [1; 2; 3] in
  ∃ l1, conn_run (λ _ _, 0) (Some (packet_analyze_completed true (Some h))) [Received (encode p)] l = Done l1
    ∧ sent (net (user (parser l1))) = encode (Pkt 7 IPC_CMD_RESPONSE [3; 2; 1]).
Proof.
  intros a h l p.
  destruct (requests_are_answered (λ _ _, 0) ∅ ample_heap heap_ample_new heap_ample_release a h
    l [p] [encode p]) as (l1 & E & Es & _).
  - intros u d room. by exists u.
  - intros d. unfold zlen, a. rewrite length_take. lia.
  - apply new_conn_ready. done.
  - apply Forall_singleton. split; [by vm_compute|]. split; [by vm_compute|]. split; [|by vm_compute].
    unfold bytes. simpl. repeat (apply Forall_cons; split; [lia|]). constructor.
  - reflexivity.
  - simpl. split; [done|]. split; [vm_compute; discriminate|]. split; [right; vm_compute; tauto|done].
  - exists l1. split; [exact E|]. rewrite Es. reflexivity.
Defined.

End IpcServe.
