(* ===== verification/IpcEdge.v ===== *)
(** * IpcEdge: heartbeats, witnesses and what goes wrong between two ends

    The single-packet reader against the sender, the witnesses of the theorems
    on connections, and the cases in which packets or answers are lost. *)

From S2P Require Import Prelude Allocator Zlist Memmgr Ipc IpcParse IpcClient IpcProps.
From stdpp Require Import base numbers list list_numbers option gmap sets.
From Stdlib Require Import ZArith Lia.
Open Scope Z_scope.

Module IpcEdge.
Import Heap Memmgr Ipc IpcParse IpcClient IpcProps.

(** ** Reading one packet *)

(** The kernel gives all it has. *)
Lemma recv_run bs rest w :
  0 < zlen bs < 2 ^ 31 → inbox w = bs ++ rest → recvs w = [] →
  cplus_socket_recv (zlen bs) w = Done ((zlen bs, bs), Wire (sent w) (sends w) rest [] (werrno w)).
Proof.
  intros Hb Hi Hr. unfold cplus_socket_recv. rewrite s32_small by lia.
  rewrite (proj2 (Z.leb_gt _ 0)), Hr, Hi by lia. cbv zeta.
  replace (Z.to_nat (Z.max 0 (Z.min (zlen bs) (zlen bs)))) with (length bs) by (unfold zlen; lia).
  by rewrite take_app_length, drop_app_length.
Qed.

Lemma host_network n : 0 ≤ n < 2 ^ 32 → host_order (network_order n) = n.
Proof.
  intros Hn. unfold host_order, network_order. cbn [foldl].
  pose proof (network_value n Hn) as E. pose proof (u8_range (Z.shiftr n 24)). pose proof (u8_range (Z.shiftr n 16)).
  pose proof (u8_range (Z.shiftr n 8)). pose proof (u8_range n). change (2 ^ 32) with 4294967296 in Hn.
  rewrite Z.add_0_l, (u32_small (u8 _)), (u32_small (_ * 256 + u8 (Z.shiftr n 16))), (u32_small (_ * 256 + u8 (Z.shiftr n 8))),
    u32_small by lia. exact E.
Qed.

Section reader.
Context {A : Type} `{Allocator A}.

Lemma recv_all_run bs rest (k : list Z → C (A * wire) received) o a w :
  0 < zlen bs < 2 ^ 31 → inbox w = bs ++ rest → recvs w = [] →
  recv_all (zlen bs) k o (a, w) = k bs (a, Wire (sent w) (sends w) rest [] (werrno w)).
Proof.
  intros Hb Hi Hr. unfold recv_all, on_wire. crun. simpl. rewrite (recv_run bs rest w Hb Hi Hr). simpl. by rewrite Z.eqb_refl.
Qed.

(** The wire after what was sent has been read. *)
Definition left_over (w : wire) (rest : list Z) : wire := Wire (sent w) (sends w) rest [] (werrno w).

Lemma recv_header s c n more k (out : option (list Z)) q a w :
  0 ≤ n < 2 ^ 32 → recvs w = [] →
  inbox w = IPC_CONN_PACKET_BEGIN_TAG ++ [s] ++ [c] ++ network_order n ++ more →
  ipc_recv_packet q k out (a, w) =
    recv_body (Packet s c n (data q)) k out (a, left_over w more).
Proof.
  intros Hn Hr Hi. unfold ipc_recv_packet.
  change IPC_CONN_PACKET_TAG_SIZE with (zlen IPC_CONN_PACKET_BEGIN_TAG).
  rewrite (recv_all_run IPC_CONN_PACKET_BEGIN_TAG _ _ _ _ _ ltac:(done) Hi Hr).
  rewrite bool_decide_false by (intros Hx; by apply Hx). change 1 with (zlen [s]) at 1.
  rewrite (recv_all_run [s] ([c] ++ network_order n ++ more)) by done. change 1 with (zlen [c]) at 1.
  rewrite (recv_all_run [c] (network_order n ++ more)) by done. change 4 with (zlen (network_order n)) at 1.
  rewrite (recv_all_run (network_order n) more) by done. by rewrite host_network.
Qed.

Lemma recv_end_run q n p out rest a w :
  recvs w = [] → inbox w = IPC_CONN_PACKET_END_TAG ++ rest →
  recv_end q n p out (a, w) =
    ((if p =? 0 then mret tt else free p);; mret (n, q, out)) (a, left_over w rest).
Proof.
  intros Hr Hi. unfold recv_end.
  change IPC_CONN_PACKET_TAG_SIZE with (zlen IPC_CONN_PACKET_END_TAG). by rewrite (recv_all_run IPC_CONN_PACKET_END_TAG rest).
Qed.

(** An empty packet is read back. *)
Lemma recv_empty s c rest (out : option (list Z)) k q a w :
  recvs w = [] → inbox w = encode (Pkt s c []) ++ rest →
  ipc_recv_packet q k out (a, w) = Done (0, Packet s c 0 (data q), out, (a, left_over w rest)).
Proof.
  intros Hr Hi. rewrite (recv_header s c 0 (IPC_CONN_PACKET_END_TAG ++ rest)) by done.
  assert (recv_body (Packet s c 0 (data q)) k out (a, left_over w (IPC_CONN_PACKET_END_TAG ++ rest))
    = recv_end (Packet s c 0 (data q)) 0 0 out (a, left_over w (IPC_CONN_PACKET_END_TAG ++ rest))) as -> by (by destruct out).
  by rewrite (recv_end_run _ _ _ _ rest).
Qed.

(** a heartbeat to a kernel that takes and gives all it can.  The client
    sends it with its next sequence number, reads the empty packet that came
    back and nothing more, and succeeds exactly when that packet is the
    acknowledgement of its number. *)
Theorem heartbeat_answered (c : ipc_client A) (s cm : Z) (rest : list Z) :
  0 ≤ clt_seqn c < 256 → sends (wire_of c) = [] → recvs (wire_of c) = [] →
  inbox (wire_of c) = encode (Pkt s cm []) ++ rest →
  let sq := ACCUMULATE_SEQUENCE_NUMBER (clt_seqn c) in
  ∃ c1, cplus_ipc_client_send_heartbeat c =
      Done (if bool_decide (s = sq ∧ cm = IPC_CMD_ACK) then CPLUS_SUCCESS else CPLUS_FAIL, c1)
    ∧ sent (wire_of c1) = sent (wire_of c) ++ encode (Pkt sq IPC_CMD_HEARTBEAT [])
    ∧ inbox (wire_of c1) = rest ∧ clt_seqn c1 = sq.
Proof.
  intros Hseq Hs Hr Hi sq. pose proof (next_range _ Hseq : 0 ≤ sq < 256) as Hsq.
  destruct (send_empty_writes sq IPC_CMD_HEARTBEAT ltac:(done) (wire_of c)) as (n & pre & w1 & E & Ew & _ & [= Ei1 Er1] & _ & Hf).
  destruct (Hf Hs) as (-> & -> & _).
  unfold cplus_ipc_client_send_heartbeat, next_seqn. crun. cbn [clt_seqn with_seqn]. fold sq. rewrite u8_small by done.
  unfold on_socket at 1. change (wire_of (with_seqn sq c)) with (wire_of c). rewrite E. cbv beta iota.
  change (0 <=? 0) with true. cbv iota. unfold recv_answer.
  rewrite (recv_empty s cm rest None 0 (Packet 0 0 0 0) _ _ (eq_trans Er1 Hr) (eq_trans Ei1 Hi)). cbv beta iota. cbn [seqn cmd].
  eexists. split.
  - destruct (bool_decide_reflect (s = sq ∧ cm = IPC_CMD_ACK)) as [[-> ->]|Hno]; [by rewrite !Z.eqb_refl|].
    change (0 <=? 0) with true. rewrite andb_true_l.
    assert ((sq =? s) && (IPC_CMD_ACK =? cm) = false) as ->; [|done].
    apply andb_false_iff. rewrite !Z.eqb_neq. destruct (Z.eq_dec sq s); [right|by left]. intros <-. by apply Hno.
  - split; [|done]. done.
Qed.

End reader.
Theorem heartbeat_answered_witness :
  let w := Wire [] [] (encode (Pkt 5 IPC_CMD_ACK [])) [] 0 in
  let c := Client false 4 (Link (ipc_conn_create Heap.empty_heap (Answerer w None 8192 tt) false) CONNECTED 0 true []) 0 in
  ∃ c1, cplus_ipc_client_send_heartbeat c = Done (CPLUS_SUCCESS, c1)
    ∧ sent (wire_of c1) = encode (Pkt 5 IPC_CMD_HEARTBEAT []).
Proof.
  intros w c. destruct (heartbeat_answered c 5 IPC_CMD_ACK []) as (c1 & E & Es & _); [split; by vm_compute|reflexivity..|].
  exists c1. split; [exact E|exact Es].
Defined.

(** ** What goes wrong *)

(** Code bug: a packet whose data are divided between two receptions is
    lost, though it is delivered when it comes in one piece.  The data stage
    copies up to the end of the buffer instead of up to what was received. *)
Theorem split_data_lost :
  let p := Pkt 1 IPC_CMD_ONEWAY [10; 20; 30; 40] in
  let l := Link (ipc_conn_create Heap.empty_heap [] true) CONNECTED 0 true [] in
  let delivered chunks := match conn_run (λ _ _, 0) (Some keep) (Received <$> chunks) l with
                          | Done l1 => Some (user (parser l1)) | _ => None end in
  delivered [encode p] = Some [p]
  ∧ delivered [take 9 (encode p); drop 9 (encode p)] = Some [p]
  ∧ delivered [take 11 (encode p); drop 11 (encode p)] = Some [].
Proof. vm_compute. done. Qed.

(** Code bug: the check for the length of the data has no effect: a length
    over MAX_PACKET_DATA_SIZE resets the stage, and the next statement sets it
    to the reception of the data. *)
Theorem oversized_not_dropped {A X} `{Allocator A} junk f (c : Ipc.ipc_conn A X) :
  recv_stage c = STAGE_RECV_DATA_LEN → sub_offset c = 4 → MAX_PACKET_DATA_SIZE < data_len (packet c) →
  ∃ c1, analyze_step junk f c = Done (tt, c1) ∧ recv_stage c1 = STAGE_RECV_DATA ∧ packet c1 = packet c.
Proof.
  intros Hst Hsub Hn. unfold analyze_step, recv_data_len, drop_packet, goto, set_sub. crun. rewrite Hst, Hsub.
  change (4 =? 0) with false. change (4 <? 4) with false. cbv iota. cbn [packet with_sub].
  rewrite (proj2 (Z.ltb_lt _ _) Hn), (proj2 (Z.ltb_lt 0 _)) by (unfold MAX_PACKET_DATA_SIZE, DEFAULT_RECEVICE_BUFFER_SIZE in Hn; lia).
  eexists. split; [reflexivity|done].
Qed.

Theorem oversized_not_dropped_witness :
  let c := with_stage STAGE_RECV_DATA_LEN (with_sub 4 (with_packet (set_data_len 4294967295)
             (ipc_conn_create Heap.empty_heap tt true))) in
  ∃ c1, analyze_step (λ _ _, 0) None c = Done (tt, c1) ∧ recv_stage c1 = STAGE_RECV_DATA.
Proof.
  intros c. destruct (oversized_not_dropped (λ _ _, 0) None c) as (c1 & E & Es & _); [reflexivity..|].
  exists c1. split; [exact E|exact Es].
Defined.

(** Code bug: the response to one of the two requests before this one is
    to be dropped, the loop then waits on; but when the sequence numbers have
    wrapped in between, the difference is computed wrongly and the request
    fails instead. *)
Theorem late_response_across_wrap (request k : Z) :
  0 ≤ request < 256 → 1 ≤ k < TOLERANCE_TO_DIFF_SEQUENCE →
  let response := (request - k) `mod` 256 in
  seqn_diff request response = (if k <=? request then k else 511 - k)
  ∧ (seqn_diff request response <? TOLERANCE_TO_DIFF_SEQUENCE) = (k <=? request).
Proof.
  intros Hr Hk response. unfold TOLERANCE_TO_DIFF_SEQUENCE in *.
  enough (seqn_diff request response = (if k <=? request then k else 511 - k)) as E.
  { split; [done|]. rewrite E. destruct (Z.leb_spec k request); [apply Z.ltb_lt; lia|apply Z.ltb_ge; lia]. }
  unfold seqn_diff, response. destruct (Z.leb_spec k request) as [Hle|Hgt].
  - rewrite Z.mod_small by lia. rewrite (proj2 (Z.ltb_lt _ _)), u32_small by lia. lia.
  - replace ((request - k) `mod` 256) with (request - k + 256) by (rewrite <- (Z.mod_add _ 1), Z.mod_small; lia).
    rewrite (proj2 (Z.ltb_ge _ _)), u32_small by lia. lia.
Qed.

Theorem late_response_across_wrap_witness : seqn_diff 0 255 = 510 ∧ seqn_diff 1 0 = 1.
Proof.
  split; [exact (proj1 (late_response_across_wrap 0 1 ltac:(lia) ltac:(done)))|
          exact (proj1 (late_response_across_wrap 1 1 ltac:(lia) ltac:(done)))].
Defined.

(** Code bug: a request whose packet cannot be sent is reported as a
    success, without a response and whatever the output buffer holds. *)
Theorem failed_request_succeeds {A} `{Allocator A} junk (c : ipc_client A) e rest answers n input m out timeout :
  sends (wire_of c) = inr e :: rest → 0 < n ≤ zlen input →
  ∃ c1, cplus_ipc_client_send_request junk answers n (Some input) m out timeout c = Done ((CPLUS_SUCCESS, out), c1)
    ∧ sent (wire_of c1) = sent (wire_of c).
Proof.
  intros Hs Hn. unfold cplus_ipc_client_send_request, next_seqn. crun.
  set (sq := ACCUMULATE_SEQUENCE_NUMBER (clt_seqn c)). cbn [clt_seqn with_seqn].
  unfold on_socket at 1. change (wire_of (with_seqn sq c)) with (wire_of c).
  assert (ipc_send_packet (u8 sq) IPC_CMD_REQUEST n (Some input) (wire_of c) =
    Done (CPLUS_FAIL, Wire (sent (wire_of c)) rest (inbox (wire_of c)) (recvs (wire_of c)) e)) as ->.
  { unfold ipc_send_packet. rewrite bool_decide_false, andb_false_r by done. unfold send_all at 1, cplus_socket_send.
    change (s32 (zlen IPC_CONN_PACKET_BEGIN_TAG) <=? 0) with false. cbv iota.
    change ((s32 IPC_CMD_REQUEST <? IPC_CMD_HEARTBEAT) || (IPC_CMD_MAX - 1 <? s32 IPC_CMD_REQUEST)) with false. cbv iota.
    crun. by rewrite Hs. }
  cbv beta iota. change (0 <? CPLUS_FAIL) with false. cbv iota. eexists. split; [reflexivity|done].
Qed.

Theorem failed_request_succeeds_witness :
  let w := Wire [] [inr 32] [] [] 0 in
  let c := Client false 4 (Link (ipc_conn_create Heap.empty_heap (Answerer w None 8192 tt) false) CONNECTED 0 true []) 0 in
  ∃ c1, cplus_ipc_client_send_request (λ _ _, 0) [] 1 (Some [42]) 4 (Some [0; 0; 0; 0]) 10 c
    = Done ((CPLUS_SUCCESS, Some [0; 0; 0; 0]), c1).
Proof.
  intros w c. destruct (failed_request_succeeds (λ _ _, 0) c 32 [] [] 1 [42] 4 (Some [0; 0; 0; 0]) 10) as (c1 & E & _);
    [reflexivity|by vm_compute|]. exists c1. exact E.
Defined.

(** Code bug: reading a packet with data into an output buffer releases
    the block for the data twice, before the end tag and after it. *)
Theorem recv_packet_frees_twice (h : heap) (p : pkt) (k : Z) (out rest : list Z) (q : ipc_conn_packet) (w : wire) :
  al_ok h (used h) → oom h = [] → recvs w = [] → inbox w = encode p ++ rest →
  0 < zlen (p_data p) < 2 ^ 31 → 0 < k → ipc_recv_packet q k (Some out) (h, w) = Undefined.
Proof.
  intros (_ & Hfresh & _) Hoom Hr Hi Hd Hk.
  assert (Hi2 : inbox w = IPC_CONN_PACKET_BEGIN_TAG ++ [p_seqn p] ++ [p_cmd p] ++ network_order (zlen (p_data p))
    ++ p_data p ++ IPC_CONN_PACKET_END_TAG ++ rest) by (rewrite Hi; unfold encode; by rewrite <- !app_assoc).
  rewrite (recv_header _ _ (zlen (p_data p)) _ k (Some out) q h w ltac:(lia) Hr Hi2).
  unfold recv_body. cbn [data_len]. rewrite (proj2 (Z.ltb_lt 0 _)), (proj2 (Z.ltb_lt 0 k)) by lia.
  assert (al_new h = Done (fresh h, mkHeap (fresh h + 1) [] ({[fresh h]} ∪ used h))) as Enew.
  { simpl. unfold Heap.cplus_malloc. by rewrite Hoom. }
  unfold malloc at 1. crun. cbn [fst snd andb]. rewrite Enew.
  cbv beta iota. rewrite (proj2 (Z.eqb_neq (fresh h) 0)) by lia. unfold on_wire at 1. cbn [fst snd].
  rewrite (recv_run (p_data p) (IPC_CONN_PACKET_END_TAG ++ rest)) by (done || lia). cbv beta iota.
  rewrite (proj2 (Z.leb_gt (zlen (p_data p)) 0)), u32_small, Z.eqb_refl by lia. cbn [orb negb].
  destruct (cplus_mem_cpy_ex (Some out) k (Some (p_data p)) (zlen (p_data p))) as [r| | |] eqn:E; try done.
  - set (h1 := mkHeap _ _ _). set (w1 := Wire _ _ _ _ _).
    assert (Efree : free (Heap.fresh h) (h1, w1) = Done (tt, (mkHeap (Heap.fresh h + 1) [] (({[Heap.fresh h]} ∪ used h) ∖ {[Heap.fresh h]}), w1))).
    { unfold free. cbn [fst snd]. simpl al_release. unfold Heap.cplus_free, h1. cbn [used]. by rewrite decide_True by set_solver. }
    rewrite Efree, (recv_end_run _ _ _ _ rest) by done. rewrite (proj2 (Z.eqb_neq (Heap.fresh h) 0)) by lia.
    unfold free. crun. cbn [fst snd]. simpl al_release. unfold Heap.cplus_free. cbn [used].
    by rewrite decide_False by set_solver.
  - unfold cplus_mem_cpy_ex, memcpy in E. repeat case_match; done.
  - unfold cplus_mem_cpy_ex, memcpy in E. repeat case_match; done.
Qed.

Theorem recv_packet_frees_twice_witness :
  ipc_recv_packet (Packet 0 0 0 0) 8 (Some (replicate 8 0))
    (empty_heap, Wire [] [] (encode (Pkt 5 IPC_CMD_RESPONSE [7; 8; 9])) [] 0) = Undefined.
Proof.
  apply (recv_packet_frees_twice empty_heap (Pkt 5 IPC_CMD_RESPONSE [7; 8; 9]) 8 (replicate 8 0) []);
    [exact empty_heap_ok|reflexivity|reflexivity|reflexivity|by vm_compute|lia].
Defined.

End IpcEdge.
