(* ===== verification/IpcLife.v ===== *)
(** * IpcLife: servers, clients and their connections (src/ipc_server.c, first and last part)

    How servers, clients and connections are made and deleted, and the task of a
    server that accepts connections and removes the dead ones.  What is made is
    acquired, what is deleted is released: [live] lists what is held, and
    releasing what is not held is undefined, except that a pool takes any block
    back (Mempool.v).  A task that is stopped ends in time unless it waits for its
    socket; then it depends on what comes, and that is a parameter:
    [cplus_task_stop] below.  What a connection receives is in
    Ipc.v; here a reception changes its status and what it holds.  What a thread
    does between [cplus_crit_sect_enter] and [cplus_crit_sect_exit] on
    [ipc_conn_sect] is one step. *)

From S2P Require Import Prelude Allocator Ipc.
From stdpp Require Import base numbers list option.
From Stdlib Require Import ZArith Lia.
Open Scope Z_scope.

Module IpcLife.
Import Ipc.

Definition OBJ_TYPE_SERVER : Z := OBJ_NONE + SYS + 7.
Definition OBJ_TYPE_CLIENT : Z := OBJ_NONE + SYS + 8.

(** What can be held: the parts of a server and of a client, sockets, and the
    parts of a connection, by its number. *)
Inductive resource :=
| Server | ConnList | ConnPool | ConnSect | AcceptTask | Client
| Socket (k : nat)
| PoolBlock (c : nat) | HeapBlock (c : nat) | RecvBufs (c : nat) | ConnTask (c : nat) | ConnEvent (c : nat)
| ResponseData (c : nat) | PacketData (c : nat).
#[export] Instance resource_eq_dec : EqDecision resource.
Proof. solve_decision. Defined.

(** [struct cplus_ipc_cb_funcs]: which callbacks are given. *)
Record cb_funcs := CbFuncs { on_connected : bool; on_error : bool; on_disconnected : bool; on_received : bool }.
Definition no_cb : cb_funcs := CbFuncs false false false false.
Inductive callback := Connected (k : nat) | Disconnected (k : nat) | Error (k : nat) (e : Z).

(** [struct ipc_conn], without what the parser works on. *)
Record conn := mkConn {
  cid : nat;
  ipc_serv : bool;                         (* a connection of a server *)
  is_async : bool;
  conn_status : IPC_CONN_STATUS;
  conn_sock : option nat;
  conn_task : bool;
  evt_packet_received : bool;
  has_recv_bufs : bool;
  response_data : bool;
  packet_databufs : bool;
  cb : cb_funcs }.

Definition set_status (x : IPC_CONN_STATUS) (c : conn) := mkConn (cid c) (ipc_serv c) (is_async c) x (conn_sock c) (conn_task c) (evt_packet_received c) (has_recv_bufs c) (response_data c) (packet_databufs c) (cb c).
Definition set_sock (x : option nat) (c : conn) := mkConn (cid c) (ipc_serv c) (is_async c) (conn_status c) x (conn_task c) (evt_packet_received c) (has_recv_bufs c) (response_data c) (packet_databufs c) (cb c).
Definition set_task (x : bool) (c : conn) := mkConn (cid c) (ipc_serv c) (is_async c) (conn_status c) (conn_sock c) x (evt_packet_received c) (has_recv_bufs c) (response_data c) (packet_databufs c) (cb c).
Definition set_evt (x : bool) (c : conn) := mkConn (cid c) (ipc_serv c) (is_async c) (conn_status c) (conn_sock c) (conn_task c) x (has_recv_bufs c) (response_data c) (packet_databufs c) (cb c).
Definition set_bufs (x : bool) (c : conn) := mkConn (cid c) (ipc_serv c) (is_async c) (conn_status c) (conn_sock c) (conn_task c) (evt_packet_received c) x (response_data c) (packet_databufs c) (cb c).
Definition set_data (r p : bool) (c : conn) := mkConn (cid c) (ipc_serv c) (is_async c) (conn_status c) (conn_sock c) (conn_task c) (evt_packet_received c) (has_recv_bufs c) r p (cb c).

(** The accepting task: before the critical section; before
    [cplus_socket_accept]; with a new connection in hand, before it is marked as
    connected, before it is put on the list, and before the callback, which gets
    the accepted socket [k]. *)
Inductive place := Reaping | Accepting | Marking (k : nat) (c : conn) | Pushing (k : nat) (c : conn) | Calling (k : nat).

Record world := World {
  live : list resource;
  next : nat;                              (* no connection or socket has this number *)
  free : nat;                              (* blocks of the pool *)
  conns : list conn;                       (* [ipc_conn_list] *)
  acceptor : place;
  called : list callback }.
Definition set_live (l : list resource) (w : world) := World l (next w) (free w) (conns w) (acceptor w) (called w).
Definition set_next (n : nat) (w : world) := World (live w) n (free w) (conns w) (acceptor w) (called w).
Definition set_free (n : nat) (w : world) := World (live w) (next w) n (conns w) (acceptor w) (called w).
Definition set_conns (l : list conn) (w : world) := World (live w) (next w) (free w) l (acceptor w) (called w).
Definition set_acceptor (p : place) (w : world) := World (live w) (next w) (free w) (conns w) p (called w).
Definition call (x : callback) (w : world) := World (live w) (next w) (free w) (conns w) (acceptor w) (called w ++ [x]).

Definition acquire (r : resource) : C world unit := modify (λ w, set_live (r :: live w) w).
Fixpoint drop_one (r : resource) (l : list resource) : option (list resource) :=
  match l with
  | [] => None
  | x :: l => if decide (x = r) then Some l else l ← drop_one r l; Some (x :: l)
  end.
Definition release (r : resource) : C world unit := λ w,
  match drop_one r (live w) with Some l => Done (tt, set_live l w) | None => Undefined end.
(** [if (p) { release(p); }] *)
Definition release_if (b : bool) (r : resource) : C world unit := if b then release r else mret tt.
Definition fresh_id : C world nat := n ← gets next; modify (set_next (S n));; mret n.

(** [cplus_mempool_free(ipc_conn_pool, conn)]: the pool does not know whether the
    block is in use. *)
Definition pool_free (c : nat) : C world unit := modify (λ w,
  set_free (S (free w)) (match drop_one (PoolBlock c) (live w) with Some l => set_live l w | None => w end)).

(** ** Receiving *)

(** The buffer [r] of a connection, which it has or not, is allocated, and made
    larger, as often as [oks] says; each time memory may be had or not.  When it
    cannot be made larger [cplus_realloc] frees it. *)
Fixpoint allocate (r : resource) (oks : list bool) (has : bool) : C world bool :=
  match oks with
  | [] => mret has
  | ok :: oks =>
      (if has then (if ok then mret tt else release r) else (if ok then acquire r else mret tt));;
      allocate r oks ok
  end.

#[export] Instance status_eq_dec : EqDecision IPC_CONN_STATUS.
Proof. solve_decision. Defined.

(** What a reception makes of a connection; [data] and [response]: how the
    allocations of these buffers went that the packets it completes ask for. *)
Definition receive (answer : reception) (data response : list bool) (c : conn) : C world conn :=
  k ← deref (λ _, conn_sock c);
  match answer with
  | Closed =>
      (if on_disconnected (cb c) then modify (call (Disconnected k)) else mret tt);;
      release (Socket k);;
      mret (set_status NOT_CONNECTED (set_sock None c))
  | Failed e =>
      (if on_error (cb c) then modify (call (Error k e)) else mret tt);;
      mret (set_status (status_after e (conn_status c)) c)
  | Received _ =>
      p ← allocate (PacketData (cid c)) data (packet_databufs c);
      r ← allocate (ResponseData (cid c)) response (response_data c);
      mret (set_status CONNECTED (set_data r p c))
  end.

(** A turn of the task of a connection ([ipc_conn_proc]). *)
Definition conn_turn (answer : reception) (data response : list bool) (c : conn) : C world conn :=
  if decide (conn_status c = NOT_CONNECTED) then mret c else receive answer data response c.

(** ** Connections *)

(** [cplus_task_stop] of task.c.  When the function of the task has come to the end
    of its turn in the time of the stop, the thread is joined and the task
    released.  When it has not, the thread is cancelled, which takes effect some
    time later, and the task is deleted at once: the cleanup handler of the
    thread reads it, and nothing orders the one before the other. *)
Definition cplus_task_stop (r : resource) (ended : bool) : C world unit := if ended then release r else undef.

(** What becomes of the task of a connection during its stop: it is between two
    turns, or its call of [cplus_socket_recv], which has no time limit, returns,
    or it does not. *)
Inductive notice :=
| BetweenTurns
| Hears (answer : reception) (data response : list bool)
| Silent.

(** The status is NOT_CONNECTED by now.  It was so before the deletion when the
    connection was found closed: then the turns of the task return at once. *)
Definition stop_conn_task (before : IPC_CONN_STATUS) (n : notice) (c : conn) : C world conn :=
  match (if decide (before = NOT_CONNECTED) then BetweenTurns else n) with
  | BetweenTurns => cplus_task_stop (ConnTask (cid c)) true;; mret c
  | Hears answer data response =>
      c ← receive answer data response c; cplus_task_stop (ConnTask (cid c)) true;; mret c
  | Silent => cplus_task_stop (ConnTask (cid c)) false;; mret c
  end.

Definition ipc_conn_delete (n : notice) (o : option conn) : C world Z :=
  match o with
  | None => mret CPLUS_SUCCESS
  | Some c =>
      let before := conn_status c in
      let c := set_status NOT_CONNECTED c in
      c ← (if conn_task c then stop_conn_task before n c else mret c);
      release_if (has_recv_bufs c) (RecvBufs (cid c));;
      release_if (evt_packet_received c) (ConnEvent (cid c));;
      release_if (response_data c) (ResponseData (cid c));;
      release_if (packet_databufs c) (PacketData (cid c));;
      match conn_sock c with Some k => release (Socket k) | None => mret tt end;;
      (if ipc_serv c then pool_free (cid c) else release (HeapBlock (cid c)));;
      mret CPLUS_SUCCESS
  end.

(** A connection that could not be made has no task. *)
Definition discard (o : option conn) : C world (option conn) := ipc_conn_delete Silent o;; mret None.

(** Which parts of a connection can be made. *)
Record can_make := CanMake { block_ok : bool; bufs_ok : bool; task_ok : bool; event_ok : bool }.

(** The block of a connection: of the pool of a server, or of the heap. *)
Definition conn_block (serv : bool) (ok : bool) : C world (option nat) :=
  if serv then
    n ← gets free;
    match n with
    | O => mret None
    | S n => i ← fresh_id; acquire (PoolBlock i);; modify (set_free n);; mret (Some i)
    end
  else if ok then i ← fresh_id; acquire (HeapBlock i);; mret (Some i) else mret None.

Definition ipc_conn_create (serv : bool) (sock : nat) (async : bool) (f : cb_funcs) (m : can_make) :
    C world (option conn) :=
  b ← conn_block serv (block_ok m);
  match b with
  | None => discard None
  | Some i =>
      let c := mkConn i serv async NOT_CONNECTED (Some sock) false false false false false f in
      if bufs_ok m then
        acquire (RecvBufs i);;
        let c := set_bufs true c in
        if async then
          if task_ok m then acquire (ConnTask i);; mret (Some (set_task true c)) else discard (Some c)
        else
          if event_ok m then acquire (ConnEvent i);; mret (Some (set_evt true c)) else discard (Some c)
      else discard (Some c)
  end.

(** ** The accepting task *)

Definition find_disconnect_conn (c : conn) : Z := match conn_status c with NOT_CONNECTED => 0 | _ => 1 end.

(** [while ((conn = cplus_llist_pop_if(ipc_conn_list, find_disconnect_conn)))]: what
    is removed was found closed, so nothing needs to come for its task. *)
Fixpoint reap (fuel : nat) : C world unit :=
  match fuel with
  | O => hang
  | S fuel =>
      l ← gets conns;
      match list_find (λ c, find_disconnect_conn c = 0) l with
      | None => mret tt
      | Some (i, c) => modify (set_conns (delete i l));; ipc_conn_delete Silent (Some c);; reap fuel
      end
  end.

(** [ipc_server_proc] in steps; [accepted]: whether [cplus_socket_accept] gives a
    connection. *)
Definition server_step (max_conn : nat) (f : cb_funcs) (accepted : bool) (m : can_make) : C world unit :=
  p ← gets acceptor;
  match p with
  | Reaping =>
      l ← gets conns;
      reap (S (length l));;
      l ← gets conns;
      if bool_decide (length l < max_conn)%nat then modify (set_acceptor Accepting) else mret tt
  | Accepting =>
      if accepted then
        k ← fresh_id; acquire (Socket k);;
        c ← ipc_conn_create true k true f m;
        modify (set_acceptor (match c with Some c => Marking k c | None => Reaping end))
      else modify (set_acceptor Reaping)
  | Marking k c => modify (set_acceptor (Pushing k (set_status CONNECTED c)))
  | Pushing k c =>
      modify (λ w, set_conns (c :: conns w) w);;
      modify (set_acceptor (if on_connected f then Calling k else Reaping))
  | Calling k => modify (call (Connected k));; modify (set_acceptor Reaping)
  end.

(** The connection a number stands for: on the list, or in the hand of the
    accepting task. *)
Definition in_hand (p : place) : option conn :=
  match p with Marking _ c | Pushing _ c => Some c | _ => None end.
Definition put_in_hand (c : conn) (p : place) : place :=
  match p with Marking k _ => Marking k c | Pushing k _ => Pushing k c | p => p end.

Definition any_conn_turn (i : nat) (answer : reception) (data response : list bool) : C world unit :=
  l ← gets conns;
  p ← gets acceptor;
  match list_find (λ c, cid c = i) l with
  | Some (j, c) =>
      c ← conn_turn answer data response c;
      modify (λ w, set_conns (<[j := c]> (conns w)) w)
  | None =>
      match in_hand p with
      | Some c =>
          if decide (cid c = i) then
            c ← conn_turn answer data response c;
            modify (λ w, set_acceptor (put_in_hand c (acceptor w)) w)
          else mret tt
      | None => mret tt
      end
  end.

(** ** Runs of the tasks of a server *)

Inductive label :=
| Acceptor (accepted : bool) (m : can_make)
| ConnTurn (i : nat) (answer : reception) (data response : list bool).

Definition exec (max : nat) (f : cb_funcs) (l : label) : C world unit :=
  match l with
  | Acceptor accepted m => server_step max f accepted m
  | ConnTurn i answer data response => any_conn_turn i answer data response
  end.
Fixpoint run (max : nat) (f : cb_funcs) (ls : list label) : C world unit :=
  match ls with [] => mret tt | l :: ls => exec max f l;; run max f ls end.

(** ** Servers *)

(** [struct ipc_server]. *)
Record ipc_server := mkServer {
  max_conn : nat;
  accept_socket : option nat;
  has_list : bool;
  has_pool : bool;
  has_sect : bool;
  has_task : bool;
  callbacks : cb_funcs }.

(** [while ((conn = cplus_llist_pop_back(ipc_conn_list)))]: the connection is
    deleted, and its block given back to the pool.  [heard]: what becomes of the
    task of a connection when it is stopped; turns the tasks of the others take
    meanwhile touch nothing of this connection, and are as good before. *)
Fixpoint delete_conns (heard : nat → notice) (fuel : nat) : C world unit :=
  match fuel with
  | O => hang
  | S fuel =>
      l ← gets conns;
      match list.last l with
      | None => mret tt
      | Some c =>
          modify (set_conns (removelast l));;
          ipc_conn_delete (heard (cid c)) (Some c);;
          pool_free (cid c);;
          delete_conns heard fuel
      end
  end.

(** The stop of the accepting task: [late] is what it and the tasks of the
    connections do meanwhile.  Its turn ends when it is back at the beginning; in
    [cplus_socket_accept], which has no time limit, it waits for a client. *)
Definition stop_accept_task (s : ipc_server) (late : list label) : C world unit :=
  run (max_conn s) (callbacks s) late;;
  p ← gets acceptor;
  cplus_task_stop AcceptTask (match p with Reaping => true | _ => false end).

Definition ipc_server_delete (late : list label) (heard : nat → notice) (o : option ipc_server) : C world Z :=
  match o with
  | None => mret CPLUS_SUCCESS
  | Some s =>
      (if has_task s then stop_accept_task s late else mret tt);;
      (if has_list s then
         l ← gets conns; delete_conns heard (S (length l));; release ConnList
       else mret tt);;
      release_if (has_pool s) ConnPool;;
      release_if (has_sect s) ConnSect;;
      match accept_socket s with Some k => release (Socket k) | None => mret tt end;;
      release Server;;
      mret CPLUS_SUCCESS
  end.
(** The object was checked to be a server. *)
Definition cplus_ipc_server_delete (late : list label) (heard : nat → notice) (s : ipc_server) : C world Z :=
  ipc_server_delete late heard (Some s).

(** Which calls of [ipc_server_new] succeed. *)
Record server_calls := ServerCalls {
  memory : bool; socket_made : bool; bound : bool; list_made : bool; pool_made : bool; sect_made : bool;
  listens : bool; task_made : bool }.

(** A server that could not be made has no task and no connections. *)
Definition server_exit (s : ipc_server) : C world (option ipc_server) :=
  ipc_server_delete [] (λ _, Silent) (Some s);; mret None.

Definition ipc_server_new (m : server_calls) (max_connection : nat) (f : cb_funcs) : C world (option ipc_server) :=
  if negb (memory m) then mret None
  else
    acquire Server;;
    let s := mkServer max_connection None false false false false f in
    if negb (socket_made m) then server_exit s
    else
      k ← fresh_id; acquire (Socket k);;
      let s := mkServer max_connection (Some k) false false false false f in
      if negb (bound m) then server_exit s
      else if negb (list_made m) then server_exit s
      else
        acquire ConnList;;
        let s := mkServer max_connection (Some k) true false false false f in
        if negb (pool_made m) then server_exit s
        else
          acquire ConnPool;;
          modify (set_free max_connection);;
          let s := mkServer max_connection (Some k) true true false false f in
          if negb (sect_made m) then server_exit s
          else
            acquire ConnSect;;
            let s := mkServer max_connection (Some k) true true true false f in
            if negb (listens m) then server_exit s
            else if negb (task_made m) then server_exit s
            else
              acquire AcceptTask;;
              mret (Some (mkServer max_connection (Some k) true true true true f)).

(** The checks of the constructor; [None] is a null pointer. *)
Definition cplus_ipc_server_new (m : server_calls) (name : option (list Z)) (max_connection : nat)
    (f : option cb_funcs) : C world (option ipc_server) :=
  match name, f with
  | Some _, Some f => if (max_connection =? 0)%nat then mret None else ipc_server_new m max_connection f
  | _, _ => mret None
  end.

(** ** Clients *)

(** [struct ipc_client]. *)
Record ipc_client := mkClient {
  client_async : bool;
  server_socket : option nat;
  client_conn : option conn;
  client_on_connected : bool }.

Definition ipc_client_delete (n : notice) (o : option ipc_client) : C world Z :=
  match o with
  | None => mret CPLUS_SUCCESS
  | Some s =>
      match client_conn s with Some c => ipc_conn_delete n (Some c) | None => mret CPLUS_SUCCESS end;;
      release Client;;
      mret CPLUS_SUCCESS
  end.
Definition cplus_ipc_client_delete (n : notice) (s : ipc_client) : C world Z := ipc_client_delete n (Some s).

(** A client that could not be made has no connection. *)
Definition client_error (s : ipc_client) : C world (option ipc_client) := ipc_client_delete Silent (Some s);; mret None.

(** Which calls of [ipc_client_new] succeed; [heartbeat]: whether the server
    answered the first heartbeat. *)
Record client_calls := ClientCalls {
  client_memory : bool; client_socket_made : bool; connected : bool; heartbeat : bool; parts : can_make }.

Definition ipc_client_new (m : client_calls) (f : option cb_funcs) : C world (option ipc_client) :=
  if negb (client_memory m) then mret None
  else
    acquire Client;;
    if negb (client_socket_made m) then client_error (mkClient false None None false)
    else
      k ← fresh_id; acquire (Socket k);;
      let oc := match f with Some f => on_connected f | None => false end in
      let async := match f with Some f => on_received f | None => false end in
      let s := mkClient async (Some k) None oc in
      if negb (connected m) then client_error s
      else if negb (heartbeat m) then release (Socket k);; client_error s
      else
        c ← ipc_conn_create false k async no_cb (parts m);
        match c with
        | None => client_error s
        | Some c =>
            (if oc then modify (call (Connected k)) else mret tt);;
            mret (Some (mkClient async (Some k) (Some (set_status CONNECTED c)) oc))
        end.

Definition cplus_ipc_client_new (m : client_calls) (name : option (list Z)) (f : option cb_funcs) :
    C world (option ipc_client) :=
  match name with Some _ => ipc_client_new m f | None => mret None end.

(** The checks read the type behind any pointer. *)
Definition cplus_ipc_server_check (obj : option Z) : outcome bool :=
  match obj with Some t => Done (t =? OBJ_TYPE_SERVER) | None => Undefined end.
Definition cplus_ipc_client_check (obj : option Z) : outcome bool :=
  match obj with Some t => Done (t =? OBJ_TYPE_CLIENT) | None => Undefined end.

End IpcLife.
