(* ===== verification/IpcLifeProps.v ===== *)
(** * IpcLifeProps: what servers and clients hold

    Every run of a server releases only what it holds and holds exactly its parts
    and those of its connections, of which there are never more than it allows;
    the constructors are even, but for the socket of a client that is refused;
    the deletions are even exactly when the tasks they stop end in time; and where
    connections are kept, lost or released twice. *)

From S2P Require Import Prelude Allocator Ipc IpcLife.
From AAC_tactics Require Import AAC.
From AAC_tactics Require Instances.
From stdpp Require Import base numbers list option sets.
From Stdlib Require Import ZArith Lia.
Open Scope Z_scope.

Module IpcLifeProps.
Import Ipc IpcLife.
Import Instances.Lists.

(** Two lists of the same parts. *)
#[local] Instance permutation_lift {A} : AAC_lift (@Permutation A) (@Permutation A).
Proof. split; apply _. Qed.
Ltac same_parts :=
  cbn [app]; rewrite ?app_nil_r;
  repeat match goal with
    |- context [?x :: ?l] => lazymatch l with [] => fail | _ => change (x :: l) with ([x] ++ l) end
  end;
  first [done|aac_reflexivity].

(** ** Releasing *)

Lemma drop_one_perm r l k : drop_one r l = Some k → l ≡ₚ r :: k.
Proof.
  revert k. induction l as [|x l IH]; intros k; cbn [drop_one]; [done|].
  destruct (decide (x = r)) as [->|Hn]; [by intros [= ->]|].
  destruct (drop_one r l) as [l'|] eqn:E; cbn [mbind option_bind]; [|done]. intros [= <-].
  rewrite (IH l' eq_refl). apply perm_swap.
Qed.

Lemma drop_one_in r l : r ∈ l → is_Some (drop_one r l).
Proof.
  induction l as [|x l IH]; [set_solver|]. cbn [drop_one]. intros H.
  destruct (decide (x = r)) as [|Hn]; [by eexists|].
  destruct IH as [k Hk]; [set_solver|]. rewrite Hk. by eexists.
Qed.

Lemma release_run r w L :
  live w ≡ₚ r :: L → ∃ l, release r w = Done (tt, set_live l w) ∧ l ≡ₚ L.
Proof.
  intros H. unfold release. destruct (drop_one_in r (live w)) as [l E]; [rewrite H; set_solver|].
  rewrite E. exists l. split; [done|]. apply drop_one_perm in E. rewrite H in E.
  by apply Permutation_cons_inv in E.
Qed.

Lemma pool_free_run c w L :
  live w ≡ₚ PoolBlock c :: L →
  ∃ l, pool_free c w = Done (tt, set_free (S (free w)) (set_live l w)) ∧ l ≡ₚ L.
Proof.
  intros H. unfold pool_free, modify. destruct (drop_one_in (PoolBlock c) (live w)) as [l E]; [rewrite H; set_solver|].
  rewrite E. exists l. split; [done|]. apply drop_one_perm in E. rewrite H in E.
  by apply Permutation_cons_inv in E.
Qed.

(** A block that is not in use only changes the count of the pool. *)
Lemma pool_free_again c w : PoolBlock c ∉ live w → pool_free c w = Done (tt, set_free (S (free w)) w).
Proof.
  intros H. unfold pool_free, modify. destruct (drop_one _ (live w)) as [l|] eqn:E; [|done].
  apply drop_one_perm in E. exfalso. apply H. rewrite E. set_solver.
Qed.

Definition part (b : bool) (r : resource) : list resource := if b then [r] else [].

Lemma release_if_run b r w L :
  live w ≡ₚ part b r ++ L → ∃ l, release_if b r w = Done (tt, set_live l w) ∧ l ≡ₚ L.
Proof.
  destruct b; cbn [part app release_if]; [apply release_run|]. intros H. exists (live w). split; [by destruct w|done].
Qed.

(** ** Connections *)

Definition sock_part (o : option nat) : list resource := match o with Some k => [Socket k] | None => [] end.
Definition block_part (c : conn) : resource := if ipc_serv c then PoolBlock (cid c) else HeapBlock (cid c).

(** What a connection holds, in the order of its deletion. *)
Definition other_parts (c : conn) : list resource :=
  part (has_recv_bufs c) (RecvBufs (cid c)) ++ part (evt_packet_received c) (ConnEvent (cid c)) ++ part (response_data c) (ResponseData (cid c))
  ++ part (packet_databufs c) (PacketData (cid c)) ++ sock_part (conn_sock c) ++ [block_part c].
Definition parts_of (c : conn) : list resource := part (conn_task c) (ConnTask (cid c)) ++ other_parts c.

(** The pool after a connection has gone. *)
Definition freed (c : conn) (n : nat) : nat := if ipc_serv c then S n else n.

(** What comes after the stop of the task. *)
Definition rest_of_conn (c : conn) : C world Z :=
  release_if (has_recv_bufs c) (RecvBufs (cid c));;
  release_if (evt_packet_received c) (ConnEvent (cid c));;
  release_if (response_data c) (ResponseData (cid c));;
  release_if (packet_databufs c) (PacketData (cid c));;
  match conn_sock c with Some k => release (Socket k) | None => mret tt end;;
  (if ipc_serv c then pool_free (cid c) else release (HeapBlock (cid c)));;
  mret CPLUS_SUCCESS.

Lemma rest_of_conn_run c w L :
  live w ≡ₚ other_parts c ++ L →
  ∃ l, rest_of_conn c w = Done (CPLUS_SUCCESS, set_free (freed c (free w)) (set_live l w)) ∧ l ≡ₚ L.
Proof.
  intros H. unfold other_parts in H. rewrite <- !app_assoc in H. unfold rest_of_conn.
  destruct (release_if_run _ _ _ _ H) as (l2 & E2 & H2). rewrite (bind_Done _ _ _ _ _ E2).
  destruct (release_if_run _ _ (set_live l2 w) _ H2) as (l3 & E3 & H3). rewrite (bind_Done _ _ _ _ _ E3).
  destruct (release_if_run _ _ (set_live l3 w) _ H3) as (l4 & E4 & H4). rewrite (bind_Done _ _ _ _ _ E4).
  destruct (release_if_run _ _ (set_live l4 w) _ H4) as (l5 & E5 & H5). rewrite (bind_Done _ _ _ _ _ E5).
  assert (∃ l6, match conn_sock c with Some k => release (Socket k) | None => mret tt end (set_live l5 w)
            = Done (tt, set_live l6 w) ∧ l6 ≡ₚ block_part c :: L) as (l6 & E6 & H6).
  { destruct (conn_sock c) as [k|]; [by apply (release_run _ (set_live l5 w))|by exists l5]. }
  rewrite (bind_Done _ _ _ _ _ E6).
  unfold block_part, freed in *. destruct (ipc_serv c).
  - destruct (pool_free_run _ (set_live l6 w) _ H6) as (l7 & E7 & H7). exists l7. split; [|done].
    by rewrite (bind_Done _ _ _ _ _ E7).
  - destruct (release_run _ (set_live l6 w) _ H6) as (l7 & E7 & H7). exists l7. split; [|done].
    rewrite (bind_Done _ _ _ _ _ E7). by destruct w.
Qed.

(** What comes does not matter when there is no task, or its turns return at once. *)
Lemma conn_delete_run n c w L :
  conn_task c = false ∨ conn_status c = NOT_CONNECTED ∨ n = BetweenTurns → live w ≡ₚ parts_of c ++ L →
  ∃ l, ipc_conn_delete n (Some c) w = Done (CPLUS_SUCCESS, set_free (freed c (free w)) (set_live l w)) ∧ l ≡ₚ L.
Proof.
  intros Hn H. unfold parts_of in H. rewrite <- app_assoc in H. unfold ipc_conn_delete.
  set (c0 := set_status NOT_CONNECTED c).
  assert (∃ l, (if conn_task c0 then stop_conn_task (conn_status c) n c0 else mret c0) w = Done (c0, set_live l w)
    ∧ l ≡ₚ other_parts c ++ L) as (l & E & Hl).
  { change (conn_task c0) with (conn_task c). destruct (conn_task c).
    - destruct (release_run _ _ _ H) as (l & E & Hl). exists l. split; [|done].
      unfold stop_conn_task. replace (if decide _ then BetweenTurns else n) with BetweenTurns.
      + unfold cplus_task_stop. by rewrite (bind_Done _ _ _ _ _ E).
      + case_decide; [done|]. destruct Hn as [?|[?|?]]; done.
    - exists (live w). split; [by destruct w|done]. }
  rewrite (bind_Done _ _ _ _ _ E). apply (rest_of_conn_run c0 (set_live l w) L Hl).
Qed.

(** A task that nothing wakes up is used after its deletion. *)
Lemma conn_delete_silent c w :
  conn_task c = true → conn_status c ≠ NOT_CONNECTED → ipc_conn_delete Silent (Some c) w = Undefined.
Proof. intros Ht Hs. unfold ipc_conn_delete, stop_conn_task. cbn [conn_task set_status]. by rewrite Ht, decide_False. Qed.

(** A connection of a server: it has its socket unless it is known to be dead. *)
Definition conn_ok (c : conn) : Prop :=
  ipc_serv c = true ∧ conn_task c = true ∧ (conn_status c ≠ NOT_CONNECTED → is_Some (conn_sock c)).

(** Everything but what is held and what the callbacks were told. *)
Definition same_rest (w w' : world) : Prop :=
  next w' = next w ∧ free w' = free w ∧ conns w' = conns w ∧ acceptor w' = acceptor w.

Lemma parts_sock c k : conn_sock c = Some k → parts_of c ≡ₚ Socket k :: parts_of (set_status NOT_CONNECTED (set_sock None c)).
Proof.
  intros H. unfold parts_of, other_parts, block_part. cbn. rewrite H. cbn [sock_part app].
  by rewrite <- !Permutation_middle.
Qed.

(** A connection without its two buffers for packets. *)
Definition unbuffered (c : conn) : list resource := parts_of (set_data false false c).
Lemma parts_data c r p :
  parts_of (set_data r p c) ≡ₚ part p (PacketData (cid c)) ++ part r (ResponseData (cid c)) ++ unbuffered c.
Proof.
  unfold unbuffered, parts_of, other_parts, block_part. cbn.
  destruct r, p; same_parts.
Qed.
Lemma parts_buffered c :
  parts_of c ≡ₚ part (packet_databufs c) (PacketData (cid c)) ++ part (response_data c) (ResponseData (cid c)) ++ unbuffered c.
Proof. rewrite <- parts_data. by destruct c. Qed.

Lemma allocate_run r oks has w L :
  live w ≡ₚ part has r ++ L →
  ∃ has' l, allocate r oks has w = Done (has', set_live l w) ∧ l ≡ₚ part has' r ++ L.
Proof.
  revert has w. induction oks as [|ok oks IH]; intros has w H; cbn [allocate].
  { exists has, (live w). split; [by destruct w|done]. }
  assert (∃ l1, (if has then (if ok then mret tt else release r) else (if ok then acquire r else mret tt)) w
    = Done (tt, set_live l1 w) ∧ l1 ≡ₚ part ok r ++ L) as (l1 & E & H1).
  { destruct has, ok; cbn [part app] in *.
    - exists (live w). split; [by destruct w|done].
    - by apply release_run.
    - exists (r :: live w). split; [done|by rewrite H].
    - exists (live w). split; [by destruct w|done]. }
  rewrite (bind_Done _ _ _ _ _ E). apply (IH ok (set_live l1 w) H1).
Qed.

Lemma say_if_run (b : bool) x w :
  ∃ l, (if b then modify (call x) else (mret tt : C world unit)) w
       = Done (tt, World (live w) (next w) (free w) (conns w) (acceptor w) l).
Proof. destruct b; [by eexists|]. exists (called w). by destruct w. Qed.

Lemma receive_run answer data response c k w L :
  conn_sock c = Some k → live w ≡ₚ parts_of c ++ L →
  ∃ c' w', receive answer data response c w = Done (c', w')
    ∧ (cid c', ipc_serv c', conn_task c') = (cid c, ipc_serv c, conn_task c)
    ∧ (conn_status c' ≠ NOT_CONNECTED → is_Some (conn_sock c'))
    ∧ live w' ≡ₚ parts_of c' ++ L ∧ same_rest w w'.
Proof.
  intros Hk HL. unfold receive. rewrite (bind_Done _ _ w k w) by (unfold deref; by rewrite Hk).
  destruct answer as [bs| |e].
  - rewrite parts_buffered, <- !app_assoc in HL.
    destruct (allocate_run (PacketData (cid c)) data (packet_databufs c) w _ HL) as (p & l1 & E1 & H1).
    rewrite (bind_Done _ _ _ _ _ E1).
    destruct (allocate_run (ResponseData (cid c)) response (response_data c) (set_live l1 w)
      (part p (PacketData (cid c)) ++ unbuffered c ++ L)) as (r & l2 & E2 & H2); [cbn; rewrite H1; same_parts|].
    rewrite (bind_Done _ _ _ _ _ E2). eexists _, _. split; [reflexivity|]. split; [done|]. split; [by eexists|].
    split; [|done]. change (parts_of (set_status CONNECTED (set_data r p c))) with (parts_of (set_data r p c)).
    rewrite parts_data. cbn. rewrite H2. same_parts.
  - destruct (say_if_run (on_disconnected (cb c)) (Disconnected k) w) as [l El].
    rewrite (bind_Done _ _ _ _ _ El). set (w1 := World _ _ _ _ _ l).
    assert (HL1 : live w1 ≡ₚ Socket k :: parts_of (set_status NOT_CONNECTED (set_sock None c)) ++ L)
      by (cbn [live w1]; by rewrite HL, (parts_sock _ _ Hk)).
    destruct (release_run _ w1 _ HL1) as (l2 & E2 & H2). rewrite (bind_Done _ _ _ _ _ E2).
    eexists _, _. split; [reflexivity|]. split; [done|]. split; [done|]. split; [done|]. by repeat split.
  - destruct (say_if_run (on_error (cb c)) (Error k e) w) as [l El].
    rewrite (bind_Done _ _ _ _ _ El). eexists _, _. split; [reflexivity|]. split; [done|]. split; [by eexists|].
    split; [done|]. by repeat split.
Qed.

Lemma conn_turn_run answer data response c w L :
  conn_ok c → live w ≡ₚ parts_of c ++ L →
  ∃ c' w', conn_turn answer data response c w = Done (c', w')
    ∧ conn_ok c' ∧ cid c' = cid c ∧ live w' ≡ₚ parts_of c' ++ L ∧ same_rest w w'
    ∧ (conn_status c = NOT_CONNECTED → c' = c ∧ w' = w).
Proof.
  intros Hok HL. unfold conn_turn. destruct (decide (conn_status c = NOT_CONNECTED)) as [Hn|Hn].
  { exists c, w. split_and!; try done. }
  destruct Hok as (Hs & Ht & Hsock). destruct (Hsock Hn) as [k Hk].
  destruct (receive_run answer data response c k w L Hk HL) as (c' & w' & E & [= Hi Hs' Ht'] & ? & ? & ?).
  exists c', w'. split; [done|]. split; [|by split_and!]. split; [congruence|]. split; [congruence|done].
Qed.

(** The deletion of a connection whose task ends in time. *)
Lemma conn_delete_noticed n c w L :
  conn_ok c → (conn_status c ≠ NOT_CONNECTED → n ≠ Silent) → live w ≡ₚ parts_of c ++ L →
  ∃ w', ipc_conn_delete n (Some c) w = Done (CPLUS_SUCCESS, w') ∧ live w' ≡ₚ L
    ∧ (next w', free w', conns w', acceptor w') = (next w, S (free w), conns w, acceptor w).
Proof.
  intros (Hs & Ht & Hsock) Hn HL.
  assert (Hquiet : conn_status c = NOT_CONNECTED ∨ n = BetweenTurns → ∃ w', ipc_conn_delete n (Some c) w = Done (CPLUS_SUCCESS, w')
    ∧ live w' ≡ₚ L ∧ (next w', free w', conns w', acceptor w') = (next w, S (free w), conns w, acceptor w)).
  { intros Hq. destruct (conn_delete_run n c w _ (or_intror Hq) HL) as (l & E & Hl). rewrite E.
    eexists. split; [reflexivity|]. unfold freed. rewrite Hs. done. }
  destruct (decide (conn_status c = NOT_CONNECTED)) as [Hd|Hd]; [by apply Hquiet; left|].
  destruct n as [|answer data response|]; [by apply Hquiet; right| |by destruct (Hn Hd)]. clear Hquiet Hn.
  destruct (Hsock Hd) as [k Hk]. set (c0 := set_status NOT_CONNECTED c).
  destruct (receive_run answer data response c0 k w L Hk HL) as (c' & w1 & E & [= Hi Hs' Ht'] & _ & H1 & (Hf1 & Hf2 & Hf3 & Hf4)).
  unfold parts_of in H1. rewrite Ht', Hi in H1. cbn in H1. rewrite Ht in H1. cbn [part app] in H1.
  destruct (release_run _ _ _ H1) as (l & El & Hl).
  destruct (rest_of_conn_run c' (set_live l w1) (L) Hl) as (l2 & E2 & Hl2).
  eexists. split.
  { unfold ipc_conn_delete. fold c0. change (conn_task c0) with (conn_task c). rewrite Ht.
    assert (stop_conn_task (conn_status c) (Hears answer data response) c0 w = Done (c', set_live l w1)) as Es.
    { unfold stop_conn_task. rewrite decide_False by done. rewrite (bind_Done _ _ _ _ _ E).
      change (cplus_task_stop (ConnTask (cid c')) true) with (release (ConnTask (cid c'))). rewrite Hi.
      by rewrite (bind_Done _ _ _ _ _ El). }
    rewrite (bind_Done _ _ _ _ _ Es). exact E2. }
  cbn. unfold freed. rewrite Hs'. change (ipc_serv c0) with (ipc_serv c). rewrite Hs. split; [done|]. congruence.
Qed.

(** The block of a connection, when there is one. *)
Lemma conn_block_run serv ok w :
  (∃ i w', conn_block serv ok w = Done (Some i, w')
     ∧ live w' = (if serv then PoolBlock i else HeapBlock i) :: live w
     ∧ free w = (if serv then S (free w') else free w') ∧ conns w' = conns w ∧ acceptor w' = acceptor w
     ∧ called w' = called w ∧ i = next w ∧ next w' = S (next w))
  ∨ (conn_block serv ok w = Done (None, w) ∧ (serv = true → free w = 0%nat)).
Proof.
  unfold conn_block. destruct serv.
  - rewrite (bind_Done _ _ w (free w) w) by done. destruct (free w) as [|n]; [by right|].
    left. by eexists _, _.
  - destruct ok; [|by right]. left. by eexists _, _.
Qed.

Lemma discard_run c w L :
  conn_status c = NOT_CONNECTED → live w ≡ₚ parts_of c ++ L →
  ∃ l, discard (Some c) w = Done (None, set_free (freed c (free w)) (set_live l w)) ∧ l ≡ₚ L.
Proof.
  intros Hd H. destruct (conn_delete_run Silent c w L (or_intror (or_introl Hd)) H) as (l & E & HL). exists l. split; [|done].
  unfold discard. by rewrite (bind_Done _ _ _ _ _ E).
Qed.

(** A connection has been made of the socket [k], or has been given back with it. *)
Definition made (serv async : bool) (k : nat) (f : cb_funcs) (L : list resource) (w : world)
    (o : option conn) (w' : world) : Prop :=
  conns w' = conns w ∧ acceptor w' = acceptor w ∧ called w' = called w ∧ (next w ≤ next w')%nat
  ∧ match o with
    | Some c => (next w ≤ cid c < next w')%nat ∧ ipc_serv c = serv ∧ conn_task c = async ∧ conn_sock c = Some k
        ∧ conn_status c = NOT_CONNECTED ∧ cb c = f ∧ live w' ≡ₚ parts_of c ++ L ∧ free w = freed c (free w')
    | None => free w' = free w ∧ live w' ≡ₚ L
    end.

Lemma discard_made serv async k f L w c w2 :
  ipc_serv c = serv → conn_status c = NOT_CONNECTED → live w2 ≡ₚ parts_of c ++ L → free w = freed c (free w2) →
  conns w2 = conns w → acceptor w2 = acceptor w → called w2 = called w → (next w ≤ next w2)%nat →
  ∃ o w', discard (Some c) w2 = Done (o, w') ∧ made serv async k f L w o w'.
Proof.
  intros Hs Hst H2 Hf Hc Ha Hd Hn. destruct (discard_run c w2 L Hst H2) as (l & E & Hl).
  eexists None, _. split; [exact E|]. by split_and!.
Qed.

(** A connection is made with all it needs, or what it took is given back, its
    socket included; without a block the socket is not. *)
Lemma conn_create_run serv k async f m w L :
  live w ≡ₚ Socket k :: L → (serv = true → free w ≠ 0%nat) →
  (∃ o w', ipc_conn_create serv k async f m w = Done (o, w') ∧ made serv async k f L w o w')
  ∨ serv = false ∧ block_ok m = false ∧ ipc_conn_create serv k async f m w = Done (None, w).
Proof.
  intros HL Hfree. unfold ipc_conn_create.
  destruct (conn_block_run serv (block_ok m) w) as [(i & w1 & Eb & Hl1 & Hf1 & Hc1 & Ha1 & Hd1 & Hi1 & Hn1)|[Eb Hnone]].
  2:{ right. rewrite (bind_Done _ _ _ _ _ Eb).
      destruct serv; [by destruct (Hfree eq_refl), (Hnone eq_refl)|]. split_and!; try done.
      unfold conn_block in Eb. by destruct (block_ok m). }
  left. rewrite (bind_Done _ _ _ _ _ Eb). cbn zeta iota beta.
  assert (H0 : live w1 ≡ₚ Socket k :: (if serv then PoolBlock i else HeapBlock i) :: L)
    by (rewrite Hl1, HL; apply perm_swap).
  destruct (bufs_ok m).
  2:{ apply discard_made; done || lia. }
  rewrite (bind_Done _ _ _ tt (set_live (RecvBufs i :: live w1) w1)) by done.
  assert (H1 : RecvBufs i :: live w1 ≡ₚ RecvBufs i :: Socket k :: (if serv then PoolBlock i else HeapBlock i) :: L)
    by by rewrite H0.
  destruct async; [destruct (task_ok m)|destruct (event_ok m)]; try (apply discard_made; (done || (cbn; lia))).
  all: eexists (Some _), _; split; [reflexivity|]; unfold made, parts_of, other_parts, block_part; cbn; split_and!; try done; try lia.
  all: rewrite H0; (done || apply perm_swap).
Qed.

(** ** The accepting task *)

Definition parts_of_all (l : list conn) : list resource := concat (parts_of <$> l).

#[local] Arguments parts_of_all : simpl never.

Lemma parts_of_all_perm l k : l ≡ₚ k → parts_of_all l ≡ₚ parts_of_all k.
Proof. intros H. unfold parts_of_all. by rewrite H. Qed.

Definition dead (c : conn) : Prop := conn_status c = NOT_CONNECTED.
#[local] Instance dead_dec c : Decision (dead c).
Proof. unfold dead. apply _. Defined.

Lemma find_disconnect_dead c : find_disconnect_conn c = 0 ↔ dead c.
Proof. unfold find_disconnect_conn, dead. by destruct (conn_status c). Qed.

Lemma filter_kept {A} (P : A → Prop) `{!∀ x, Decision (P x)} l : Forall P l → filter P l = l.
Proof. induction 1; [done|]. rewrite filter_cons_True by done. by f_equal. Qed.

(** The critical section removes the dead connections, and returns. *)
Lemma reap_run fuel w L :
  (length (conns w) < fuel)%nat → Forall conn_ok (conns w) → live w ≡ₚ parts_of_all (conns w) ++ L →
  ∃ w', reap fuel w = Done (tt, w') ∧ conns w' = filter (λ c, ¬ dead c) (conns w)
    ∧ live w' ≡ₚ parts_of_all (conns w') ++ L
    ∧ (free w' + length (conns w') = free w + length (conns w))%nat
    ∧ acceptor w' = acceptor w ∧ called w' = called w ∧ next w' = next w.
Proof.
  revert w. induction fuel as [|fuel IH]; intros w Hlen Hok HL; [lia|].
  cbn [reap]. rewrite (bind_Done _ _ w (conns w) w) by done.
  destruct (list_find _ (conns w)) as [[i c]|] eqn:E.
  - apply list_find_Some in E as (Hi & Hd & _). apply find_disconnect_dead in Hd.
    pose proof (delete_Permutation _ _ _ Hi) as HP.
    rewrite (bind_Done _ _ w tt (set_conns (delete i (conns w)) w)) by done.
    destruct (conn_delete_run Silent c (set_conns (delete i (conns w)) w) (parts_of_all (delete i (conns w)) ++ L))
      as (l & El & Hl); [by right; left| |].
    { cbn [live set_conns]. rewrite HL, (parts_of_all_perm _ _ HP). unfold parts_of_all. cbn.
      by rewrite <- app_assoc. }
    rewrite (bind_Done _ _ _ _ _ El).
    rewrite (Permutation_length HP) in Hlen. cbn in Hlen.
    assert (Hc : conn_ok c) by by (eapply Forall_lookup_1 in Hok).
    rewrite HP, Forall_cons in Hok.
    edestruct (IH (set_free (freed c (free w)) (set_live l (set_conns (delete i (conns w)) w))))
      as (w' & Ew & Hc' & Hl' & Hf' & Ha' & Hd' & Hn'); [cbn; lia|by apply Hok|exact Hl|].
    exists w'. split; [exact Ew|]. split_and!; try done.
    + rewrite Hc'. cbn. rewrite <- (take_drop_middle _ _ _ Hi) at 2. rewrite delete_take_drop.
      rewrite !filter_app, filter_cons_False; [done|]. tauto.
    + rewrite Hf', (Permutation_length HP). cbn. unfold freed. destruct Hc as [-> _]. lia.
  - exists w. split; [done|]. split_and!; try done. apply list_find_None in E.
    symmetry. apply filter_kept. eapply Forall_impl; [exact E|]. cbn. intros c. by rewrite find_disconnect_dead.
Qed.

(** The connections of a server: the one in hand and those of the list. *)
Definition all_conns (w : world) : list conn := option_list (in_hand (acceptor w)) ++ conns w.

(** What a server holds: [rest] and the parts of its connections; the blocks of
    the pool are those free and those of its connections. *)
Record held (max : nat) (rest : list resource) (w : world) : Prop := Held {
  held_live : live w ≡ₚ parts_of_all (all_conns w) ++ rest;
  held_free : (free w + length (all_conns w) = max)%nat;
  held_ok : Forall conn_ok (all_conns w);
  held_ids : NoDup (cid <$> all_conns w);
  held_fresh : Forall (λ c, (cid c < next w)%nat) (all_conns w);
  held_room : acceptor w = Accepting → (length (conns w) < max)%nat;
  held_marked : ∀ k c, acceptor w = Marking k c → conn_sock c = Some k ∧ dead c }.

Ltac open_held HI Ha :=
  destruct HI as [HL Hf Hok Hids Hfresh Hroom Hm]; unfold all_conns in HL, Hf, Hok, Hids, Hfresh;
  rewrite ?Ha in HL, Hf, Hok, Hids, Hfresh; cbn in HL, Hf, Hok, Hids, Hfresh.

Lemma held_reap max rest w :
  held max rest w → acceptor w = Reaping →
  ∃ w', reap (S (length (conns w))) w = Done (tt, w') ∧ held max rest w' ∧ acceptor w' = Reaping
    ∧ conns w' = filter (λ c, ¬ dead c) (conns w) ∧ called w' = called w.
Proof.
  intros HI Ha. open_held HI Ha.
  destruct (reap_run (S (length (conns w))) w (rest)) as (w' & E & Hc & Hl & Hf' & Ha' & Hd' & Hn');
    [lia|done..|].
  exists w'. split; [exact E|]. split; [|by rewrite Ha'].
  pose proof (sublist_filter (λ c, ¬ dead c) (conns w)) as Hsub. rewrite <- Hc in Hsub.
  split; unfold all_conns; rewrite ?Ha', ?Ha; cbn; try done; [lia|..].
  - rewrite !Forall_forall in *. intros c Hin. by apply Hok, (sublist_subseteq _ _ Hsub).
  - eapply sublist_NoDup; [exact Hids|by rewrite Hsub].
  - rewrite Hn', !Forall_forall in *. intros c Hin. by apply Hfresh, (sublist_subseteq _ _ Hsub).
Qed.

Lemma held_accept max rest f accepted m w :
  held max rest w → acceptor w = Accepting →
  ∃ w', server_step max f accepted m w = Done (tt, w') ∧ held max rest w'.
Proof.
  intros HI Ha. unfold server_step. rewrite (bind_Done _ _ w (acceptor w) w), Ha by done.
  open_held HI Ha. specialize (Hroom Ha). destruct accepted.
  2:{ eexists. split; [reflexivity|]. by split. }
  set (k := next w). set (w1 := set_live (Socket k :: live w) (set_next (S k) w)).
  rewrite (bind_Done _ _ w k (set_next (S k) w)) by done. rewrite (bind_Done _ _ _ tt w1) by done.
  destruct (conn_create_run true k true f m w1 (parts_of_all (conns w) ++ rest)) as [(o & w2 & E2 & M)|[? _]];
    [cbn; by rewrite HL|cbn; lia| |done].
  rewrite (bind_Done _ _ _ _ _ E2). eexists. split; [reflexivity|].
  destruct M as (Hc & _ & _ & Hn & M). cbn in Hc, Hn.
  assert (Hfresh2 : Forall (λ c, (cid c < next w2)%nat) (conns w))
    by (eapply Forall_impl; [exact Hfresh|]; cbn; lia).
  destruct o as [c|].
  - destruct M as (Hi & Hs & Ht & Hk & Hst & _ & Hl & Hf2). unfold freed in Hf2. rewrite Hs in Hf2. cbn in Hf2, Hi.
    split; unfold all_conns; cbn; rewrite ?Hc; try done; try lia.
    + unfold parts_of_all in *. cbn. by rewrite <- app_assoc.
    + constructor; [|done]. split; [done|]. split; [done|]. by eexists.
    + constructor; [|done]. intros (c' & E & Hin)%list_elem_of_fmap.
      rewrite Forall_forall in Hfresh. specialize (Hfresh _ Hin). lia.
    + constructor; [lia|done].
    + by intros ? ? [= <- <-].
  - destruct M as [Hf2 Hl]. cbn in Hf2. split; unfold all_conns; cbn; rewrite ?Hc; try done. lia.
Qed.

(** A step of the accepting task releases nothing it does not hold, and keeps the
    account. *)
Lemma held_step max rest f accepted m w :
  held max rest w → ∃ w', server_step max f accepted m w = Done (tt, w') ∧ held max rest w'.
Proof.
  intros HI. destruct (acceptor w) as [| |k c|k c|k] eqn:Ha; [|by apply held_accept|..];
    unfold server_step; rewrite (bind_Done _ _ w (acceptor w) w), Ha by done.
  - rewrite (bind_Done _ _ w (conns w) w) by done.
    destruct (held_reap _ _ _ HI Ha) as (w1 & E1 & H1 & Ha1 & _). rewrite (bind_Done _ _ _ _ _ E1).
    rewrite (bind_Done _ _ w1 (conns w1) w1) by done.
    case_bool_decide as Hlt; [|by exists w1].
    eexists. split; [reflexivity|]. open_held H1 Ha1. by split.
  - open_held HI Ha. destruct (Hm _ _ Ha) as [Hk Hd].
    eexists. split; [reflexivity|]. split; unfold all_conns; cbn; try done.
    { rewrite Forall_cons in *. destruct Hok as [(? & ? & ?) ?]. split; [|done]. split; [done|]. split; [done|]. by eexists. }
    by rewrite Forall_cons in *.
  - open_held HI Ha. eexists. split; [reflexivity|].
    by split; unfold all_conns; destruct (on_connected f); cbn.
  - open_held HI Ha. eexists. split; [reflexivity|]. by split.
Qed.

(** A turn of the task of one of the connections. *)
Lemma held_turn max rest answer data response w pre c post :
  held max rest w → all_conns w = pre ++ c :: post →
  ∃ c' w1, conn_turn answer data response c w = Done (c', w1) ∧ same_rest w w1
    ∧ (dead c → c' = c)
    ∧ (∀ w', live w' = live w1 → next w' = next w → free w' = free w → all_conns w' = pre ++ c' :: post →
        length (conns w') = length (conns w) → (acceptor w' = Accepting → acceptor w = Accepting) →
        (∀ k x, acceptor w' = Marking k x → conn_sock x = Some k ∧ dead x) → held max rest w').
Proof.
  intros [HL Hf Hok Hids Hfresh Hroom _] Hall. rewrite Hall in *.
  assert (Hc : conn_ok c) by (by apply Forall_app in Hok as [_ [? _]%Forall_cons]).
  assert (HP : ∀ x, parts_of_all (pre ++ x :: post) ≡ₚ parts_of x ++ parts_of_all (pre ++ post))
    by (intros x; by rewrite <- (parts_of_all_perm (x :: pre ++ post)) by apply Permutation_middle).
  assert (HL' : live w ≡ₚ parts_of c ++ parts_of_all (pre ++ post) ++ rest) by (rewrite HL, HP; same_parts).
  destruct (conn_turn_run answer data response c w _ Hc HL') as (c' & w1 & E & Hc' & Hi & Hl & Hch & Hd).
  exists c', w1. split; [exact E|]. split; [done|]. split; [intros H; by apply Hd|].
  intros w' Hl' Hn' Hf' Hall' Hlen Ha Hm. split; rewrite ?Hall', ?Hl', ?Hn', ?Hf'; try done.
  - rewrite HP, Hl. same_parts.
  - rewrite <- Hf. by rewrite !length_app.
  - rewrite !Forall_app, !Forall_cons in *. tauto.
  - rewrite !fmap_app, !fmap_cons in *. by rewrite Hi.
  - rewrite !Forall_app, !Forall_cons, Hi in *. done.
  - rewrite Hlen. tauto.
Qed.

Lemma held_conn_step max rest i answer data response w :
  held max rest w → ∃ w', any_conn_turn i answer data response w = Done (tt, w') ∧ held max rest w'.
Proof.
  intros HI. unfold any_conn_turn. rewrite (bind_Done _ _ w (conns w) w), (bind_Done _ _ w (acceptor w) w) by done.
  destruct (list_find _ (conns w)) as [[j c]|] eqn:Ef.
  - apply list_find_Some in Ef as (Hj & _ & _).
    destruct (held_turn max rest answer data response w (option_list (in_hand (acceptor w)) ++ take j (conns w)) c
      (drop (S j) (conns w)) HI) as (c' & w1 & E & (H1 & H2 & H3 & H4) & _ & Hnext).
    { unfold all_conns. by rewrite <- app_assoc, take_drop_middle. }
    rewrite (bind_Done _ _ _ _ _ E). eexists. split; [reflexivity|]. apply Hnext; try done; cbn.
    + unfold all_conns. cbn. rewrite H3, H4, <- app_assoc. f_equal.
      apply insert_take_drop. by eapply lookup_lt_Some.
    + by rewrite length_insert, H3.
    + by rewrite H4.
    + rewrite H4. apply HI.
  - destruct (in_hand (acceptor w)) as [c|] eqn:Eh; [|by exists w].
    destruct (decide (cid c = i)); [|by exists w].
    destruct (held_turn max rest answer data response w [] c (conns w) HI)
      as (c' & w1 & E & (H1 & H2 & H3 & H4) & Hd & Hnext); [unfold all_conns; by rewrite Eh|].
    rewrite (bind_Done _ _ _ _ _ E). eexists. split; [reflexivity|]. apply Hnext; try done; cbn.
    + unfold all_conns. cbn. rewrite H3, H4. by destruct (acceptor w).
    + by rewrite H3.
    + rewrite H4. by destruct (acceptor w).
    + rewrite H4. intros k x Hx. destruct (acceptor w) as [| |k' c2|k' c2|] eqn:Ha; try done.
      cbn in Hx, Eh. injection Hx as <- <-. injection Eh as ->. destruct (held_marked _ _ _ HI _ _ Ha) as [Hk Hdead].
      by rewrite (Hd Hdead).
Qed.

Lemma held_exec max rest f l w :
  held max rest w → ∃ w', exec max f l w = Done (tt, w') ∧ held max rest w'.
Proof. destruct l; [apply held_step|apply held_conn_step]. Qed.

Lemma held_run max rest f ls w :
  held max rest w → ∃ w', run max f ls w = Done (tt, w') ∧ held max rest w'.
Proof.
  revert w. induction ls as [|l ls IH]; intros w HI; cbn [run]; [by exists w|].
  destruct (held_exec max rest f l w HI) as (w1 & E1 & H1). rewrite (bind_Done _ _ _ _ _ E1). by apply IH.
Qed.

(** ** Servers *)

(** What a server holds itself, in the order of its deletion. *)
Definition server_parts (s : ipc_server) : list resource :=
  part (has_task s) AcceptTask ++ part (has_list s) ConnList ++ part (has_pool s) ConnPool
  ++ part (has_sect s) ConnSect ++ sock_part (accept_socket s) ++ [Server].

(** What comes after the list of connections. *)
Definition rest_of_delete (s : ipc_server) : C world Z :=
  release_if (has_pool s) ConnPool;;
  release_if (has_sect s) ConnSect;;
  match accept_socket s with Some k => release (Socket k) | None => mret tt end;;
  release Server;;
  mret CPLUS_SUCCESS.

Lemma rest_of_delete_run s w L :
  live w ≡ₚ part (has_pool s) ConnPool ++ part (has_sect s) ConnSect ++ sock_part (accept_socket s) ++ [Server] ++ L →
  ∃ l, rest_of_delete s w = Done (CPLUS_SUCCESS, set_live l w) ∧ l ≡ₚ L.
Proof.
  intros H. unfold rest_of_delete.
  destruct (release_if_run _ _ w _ H) as (l1 & E1 & H1). rewrite (bind_Done _ _ _ _ _ E1).
  destruct (release_if_run _ _ (set_live l1 w) _ H1) as (l2 & E2 & H2). rewrite (bind_Done _ _ _ _ _ E2).
  assert (∃ l3, match accept_socket s with Some k => release (Socket k) | None => mret tt end (set_live l2 w)
            = Done (tt, set_live l3 w) ∧ l3 ≡ₚ Server :: L) as (l3 & E3 & H3).
  { destruct (accept_socket s) as [k|]; [by apply (release_run _ (set_live l2 w))|by exists l2]. }
  rewrite (bind_Done _ _ _ _ _ E3).
  destruct (release_run _ (set_live l3 w) _ H3) as (l4 & E4 & H4). exists l4. split; [|done].
  by rewrite (bind_Done _ _ _ _ _ E4).
Qed.

Lemma pool_block_part c x : PoolBlock x ∈ parts_of c → x = cid c.
Proof.
  unfold parts_of, other_parts, block_part, part, sock_part. rewrite !elem_of_app. intros H.
  destruct (conn_task c), (has_recv_bufs c), (evt_packet_received c), (response_data c), (packet_databufs c),
    (conn_sock c), (ipc_serv c); set_solver.
Qed.

Lemma pool_block_parts l x : PoolBlock x ∈ parts_of_all l → x ∈ cid <$> l.
Proof.
  intros (k & (c & -> & Hc)%list_elem_of_In%list_elem_of_fmap & Hx)%list_elem_of_In%List.in_concat.
  apply list_elem_of_In, pool_block_part in Hx as ->. by apply list_elem_of_fmap_2.
Qed.

(** The task of the connection waits for something that does not come. *)
Definition silent (heard : nat → notice) (c : conn) : Prop := conn_status c ≠ NOT_CONNECTED ∧ heard (cid c) = Silent.
#[export] Instance silent_dec heard c : Decision (silent heard c).
Proof. apply and_dec; [apply _|]. destruct (heard (cid c)); first [by left|by right]. Defined.

(** Each connection gives back what it holds, and its block to the pool twice. *)
Lemma delete_conns_run heard fuel w rest :
  (length (conns w) < fuel)%nat → Forall conn_ok (conns w) → NoDup (cid <$> conns w) →
  (∀ c, PoolBlock c ∉ rest) → live w ≡ₚ parts_of_all (conns w) ++ rest →
  (Forall (λ c, ¬ silent heard c) (conns w) →
   ∃ w', delete_conns heard fuel w = Done (tt, w') ∧ live w' ≡ₚ rest ∧ conns w' = []
     ∧ free w' = (free w + 2 * length (conns w))%nat)
  ∧ (Exists (silent heard) (conns w) → delete_conns heard fuel w = Undefined).
Proof.
  revert w. induction fuel as [|fuel IH]; intros w Hlen Hok Hids Hrest HL; [lia|].
  cbn [delete_conns]. rewrite (bind_Done _ _ w (conns w) w) by done.
  destruct (conns w) as [|c k _] eqn:Ek using rev_ind.
  { split; [|by intros ?%Exists_nil]. intros _. exists w. by rewrite Ek, HL, Nat.add_0_r. }
  rewrite list.last_snoc, removelast_last. rewrite (bind_Done _ _ w tt (set_conns k w)) by done.
  rewrite Forall_app, Forall_singleton in Hok. destruct Hok as [Hok Hc].
  rewrite fmap_app, NoDup_app in Hids. destruct Hids as (Hids & Hnot & _).
  rewrite length_app in Hlen. cbn in Hlen.
  destruct (decide (silent heard c)) as [[Hs Hn]|Hs].
  { split; [rewrite Forall_app, Forall_singleton; intros [_ []]; done|]. intros _.
    rewrite Hn. destruct Hc as (_ & Ht & _). by apply bind_undef, conn_delete_silent. }
  destruct (conn_delete_noticed (heard (cid c)) c (set_conns k w) (parts_of_all k ++ rest) Hc)
    as (w1 & E & Hl & [= _ Hf1 Hc1 _]); [intros Hst Hsi; by apply Hs|..].
  { cbn. rewrite HL, (parts_of_all_perm (k ++ [c]) (c :: k)) by (by rewrite Permutation_app_comm).
    unfold parts_of_all. cbn. same_parts. }
  rewrite (bind_Done _ _ _ _ _ E).
  rewrite (bind_Done _ _ w1 tt (set_free (S (free w1)) w1)).
  2:{ apply pool_free_again. rewrite Hl, elem_of_app. intros [Hin|Hin].
      - apply pool_block_parts in Hin. apply (Hnot _ Hin). set_solver.
      - by apply (Hrest (cid c)). }
  cbn in Hc1, Hf1. destruct (IH (set_free (S (free w1)) w1)) as [H1 H2]; cbn; rewrite ?Hc1; [lia|done|done|done| |].
  { rewrite Hl. same_parts. }
  cbn in H1, H2. rewrite Hc1 in H1, H2. split.
  - intros [Hk _]%Forall_app. destruct (H1 Hk) as (w' & E' & Hl' & Hc' & Hf'). exists w'. split; [done|]. split; [done|].
    split; [done|]. rewrite Hf', Hf1, length_app. cbn. lia.
  - intros [Hk|Hk%Exists_cons]%Exists_app; [by apply H2|]. destruct Hk as [?|?%Exists_nil]; done.
Qed.

#[local] Instance reaping_dec p : Decision (p = Reaping).
Proof. destruct p; first [by left|by right]. Defined.

(** The stop of the accepting task. *)
Lemma stop_accept_run s late w w3 L :
  run (max_conn s) (callbacks s) late w = Done (tt, w3) → live w3 ≡ₚ AcceptTask :: L →
  (acceptor w3 = Reaping → ∃ l, stop_accept_task s late w = Done (tt, set_live l w3) ∧ l ≡ₚ L)
  ∧ (acceptor w3 ≠ Reaping → stop_accept_task s late w = Undefined).
Proof.
  intros E HL. unfold stop_accept_task. rewrite (bind_Done _ _ _ _ _ E), (bind_Done _ _ w3 (acceptor w3) w3) by done.
  split; [intros ->; by apply (release_run AcceptTask w3)|]. by destruct (acceptor w3).
Qed.

(** Without connections. *)
Lemma server_delete_empty heard s w L :
  conns w = [] → acceptor w = Reaping → live w ≡ₚ server_parts s ++ L →
  ∃ l, ipc_server_delete [] heard (Some s) w = Done (CPLUS_SUCCESS, set_live l w) ∧ l ≡ₚ L.
Proof.
  intros Hc Ha H. unfold server_parts in H. rewrite <- !app_assoc in H. unfold ipc_server_delete.
  set (after := part (has_pool s) ConnPool ++ part (has_sect s) ConnSect ++ sock_part (accept_socket s) ++ [Server] ++ L) in H.
  assert (∃ l1, (if has_task s then stop_accept_task s [] else mret tt) w = Done (tt, set_live l1 w)
    ∧ l1 ≡ₚ part (has_list s) ConnList ++ after) as (l1 & E1 & H1).
  { destruct (has_task s).
    - destruct (stop_accept_run s [] w w _ (eq_refl _) H) as [Hs _]. by apply Hs.
    - exists (live w). by destruct w. }
  rewrite (bind_Done _ _ _ _ _ E1).
  assert (∃ l2, (if has_list s then l ← gets conns; delete_conns heard (S (length l));; release ConnList else mret tt)
            (set_live l1 w) = Done (tt, set_live l2 w) ∧ l2 ≡ₚ after) as (l2 & E2 & H2).
  { destruct (has_list s); cbn [part app] in H1; [|by exists l1].
    rewrite (bind_Done _ _ _ (conns w) (set_live l1 w)), Hc by done.
    rewrite (bind_Done _ _ _ tt (set_live l1 w)); [by apply (release_run _ (set_live l1 w))|].
    cbn. unfold mbind, C_bind, gets. cbn. by rewrite Hc. }
  rewrite (bind_Done _ _ _ _ _ E2). apply (rest_of_delete_run s (set_live l2 w) L H2).
Qed.

(** With the connections that are left when the accepting task has been told. *)
Lemma server_delete_run late heard max f k w w3 L :
  let s := mkServer max (Some k) true true true true f in
  held max (server_parts s ++ L) w → (∀ c, PoolBlock c ∉ L) → run max f late w = Done (tt, w3) →
  (acceptor w3 = Reaping ∧ Forall (λ c, ¬ silent heard c) (conns w3) →
   ∃ w4, ipc_server_delete late heard (Some s) w = Done (CPLUS_SUCCESS, w4) ∧ live w4 ≡ₚ L ∧ conns w4 = []
     ∧ free w4 = (max + length (conns w3))%nat)
  ∧ (acceptor w3 ≠ Reaping ∨ Exists (silent heard) (conns w3) → ipc_server_delete late heard (Some s) w = Undefined).
Proof.
  intros s H HL E. destruct (held_run max _ f late w H) as (w3' & E' & H3). rewrite E in E'. injection E' as <-.
  destruct H3 as [Hl Hf Hok Hids _ _ _].
  destruct (stop_accept_run s late w w3 (parts_of_all (all_conns w3) ++ drop 1 (server_parts s) ++ L) E)
    as [Hyes Hno]; [rewrite Hl; cbn; same_parts|].
  unfold ipc_server_delete. change (has_task s) with true. cbv iota.
  destruct (decide (acceptor w3 = Reaping)) as [Ha|Ha].
  2:{ split; [by intros [? _]|]. intros _. by apply bind_undef, Hno. }
  destruct (Hyes Ha) as (l1 & E1 & H1). rewrite (bind_Done _ _ _ _ _ E1).
  unfold all_conns in *. rewrite Ha in *. cbn [in_hand option_list app] in *.
  set (after := part true ConnPool ++ part true ConnSect ++ sock_part (Some k) ++ [Server] ++ L).
  destruct (delete_conns_run heard (S (length (conns w3))) (set_live l1 w3) (ConnList :: after)) as [Hgood Hbad];
    [cbn; lia|done..|unfold after; set_solver|cbn; rewrite H1; unfold after; same_parts|].
  change (has_list s) with true. cbv iota.
  split.
  - intros [_ Hall]. destruct (Hgood Hall) as (w4 & E4 & H4 & Hc4 & Hf4).
    assert (Hl4 : live w4 ≡ₚ ConnList :: after) by (rewrite H4; same_parts).
    destruct (release_run _ _ _ Hl4) as (l5 & E5 & H5).
    rewrite (bind_Done _ _ _ tt (set_live l5 w4)).
    2:{ rewrite (bind_Done _ _ _ (conns w3) (set_live l1 w3)) by done. by rewrite (bind_Done _ _ _ _ _ E4). }
    destruct (rest_of_delete_run s (set_live l5 w4) (L)) as (l6 & E6 & H6).
    { cbn [live set_live]. rewrite H5. unfold after. unfold s; cbn; same_parts. }
    eexists. split; [exact E6|]. split; [exact H6|]. split; [done|]. cbn in *. lia.
  - intros [?|Hex]; [done|]. specialize (Hbad Hex).
    apply bind_undef. rewrite (bind_Done _ _ _ (conns w3) (set_live l1 w3)) by done. by apply bind_undef.
Qed.

Lemma server_exit_run s w L :
  conns w = [] → acceptor w = Reaping → live w ≡ₚ server_parts s ++ L →
  ∃ l, server_exit s w = Done (None, set_live l w) ∧ l ≡ₚ L.
Proof.
  intros Hc Ha H. destruct (server_delete_empty (λ _, Silent) s w L Hc Ha H) as (l & E & Hl). exists l. split; [|done].
  unfold server_exit. by rewrite (bind_Done _ _ _ _ _ E).
Qed.

(** A server with all its parts. *)
Definition whole (s : ipc_server) (max : nat) (f : cb_funcs) : Prop :=
  ∃ k, s = mkServer max (Some k) true true true true f.

(** A server has been made, or what was taken for it has been given back. *)
Definition server_made (max : nat) (f : cb_funcs) (w : world) (o : option ipc_server) (w' : world) : Prop :=
  conns w' = [] ∧ acceptor w' = Reaping
  ∧ match o with
    | Some s => whole s max f ∧ free w' = max ∧ live w' ≡ₚ server_parts s ++ live w
    | None => live w' ≡ₚ live w
    end.

Lemma server_exit_made s max f w w1 :
  conns w1 = [] → acceptor w1 = Reaping → live w1 ≡ₚ server_parts s ++ live w →
  ∃ o w', server_exit s w1 = Done (o, w') ∧ server_made max f w o w'.
Proof. intros H1 H2 H3. destruct (server_exit_run s w1 _ H1 H2 H3) as (l & E & Hl). by exists None, (set_live l w1). Qed.

Lemma server_new_run m max f w :
  conns w = [] → acceptor w = Reaping → ∃ o w', ipc_server_new m max f w = Done (o, w') ∧ server_made max f w o w'.
Proof.
  intros Hc Ha. unfold ipc_server_new.
  assert (Hrev : ∀ l, ConnSect :: ConnPool :: ConnList :: l ≡ₚ ConnList :: ConnPool :: ConnSect :: l)
    by (intros l; apply (Permutation_app_tail l (symmetry (Permutation_rev [ConnList; ConnPool; ConnSect])))).
  destruct (memory m); cbn [negb]; [|by exists None, w].
  rewrite (bind_Done _ _ w tt (set_live (Server :: live w) w)) by done.
  destruct (socket_made m); cbn [negb]; [|by apply server_exit_made].
  set (k := next w). set (w1 := set_live (Socket k :: Server :: live w) (set_next (S k) w)).
  rewrite (bind_Done _ _ _ k (set_next (S k) (set_live (Server :: live w) w))) by done.
  rewrite (bind_Done _ _ _ tt w1) by done.
  destruct (bound m); cbn [negb]; [|by apply server_exit_made].
  destruct (list_made m); cbn [negb]; [|by apply server_exit_made].
  set (w2 := set_live (ConnList :: live w1) w1). rewrite (bind_Done _ _ w1 tt w2) by done.
  destruct (pool_made m); cbn [negb]; [|by apply server_exit_made].
  rewrite (bind_Done _ _ w2 tt (set_live (ConnPool :: live w2) w2)) by done.
  set (w3 := set_free max (set_live (ConnPool :: live w2) w2)). rewrite (bind_Done _ _ _ tt w3) by done.
  destruct (sect_made m); cbn [negb]; [|apply server_exit_made; try done; apply perm_swap].
  set (w4 := set_live (ConnSect :: live w3) w3). rewrite (bind_Done _ _ w3 tt w4) by done.
  destruct (listens m); cbn [negb]; [|apply server_exit_made; try done; apply Hrev].
  destruct (task_made m); cbn [negb]; [|apply server_exit_made; try done; apply Hrev].
  rewrite (bind_Done _ _ w4 tt (set_live (AcceptTask :: live w4) w4)) by done.
  eexists _, _. split; [reflexivity|]. split_and!; try done; [by eexists|].
  apply perm_skip. apply Hrev.
Qed.

(** A new server keeps its account. *)
Lemma server_new_held m max f w s w1 :
  conns w = [] → acceptor w = Reaping → ipc_server_new m max f w = Done (Some s, w1) →
  held max (server_parts s ++ live w) w1 ∧ acceptor w1 = Reaping ∧ whole s max f.
Proof.
  intros Hc Ha E. destruct (server_new_run m max f w Hc Ha) as (o & w' & E' & Hc' & Ha' & M).
  rewrite E in E'. injection E' as <- <-. destruct M as (Hw & Hf & Hl).
  split; [|done]. split; unfold all_conns; rewrite ?Ha', ?Hc'; cbn; try done; [lia|constructor].
Qed.

(** C24: a server that could be made can run for ever: whatever its clients send,
    when they go, and whatever cannot be had for a new connection or its buffers,
    nothing is released that is not held, what is held is the server and its
    connections, and there are never more connections than [max_connection]. *)
Theorem server_runs m max f w s w1 ls :
  conns w = [] → acceptor w = Reaping → ipc_server_new m max f w = Done (Some s, w1) →
  ∃ w2, run max f ls w1 = Done (tt, w2)
    ∧ live w2 ≡ₚ parts_of_all (all_conns w2) ++ server_parts s ++ live w
    ∧ (length (all_conns w2) ≤ max)%nat ∧ NoDup (cid <$> all_conns w2).
Proof.
  intros Hc Ha E. destruct (server_new_held m max f w s w1 Hc Ha E) as (H1 & _ & _).
  destruct (held_run max _ f ls w1 H1) as (w2 & E2 & H2). exists w2. split; [exact E2|].
  pose proof (held_free _ _ _ H2). split_and!; [apply H2|lia|apply H2].
Qed.

(** the turn of the accepting task removes the connections that were found
    closed and no others, gives back all they held, and accepts again exactly
    when fewer than [max_connection] are left. *)
Theorem reaping_turn max rest f accepted m w :
  held max rest w → acceptor w = Reaping →
  ∃ w', server_step max f accepted m w = Done (tt, w')
    ∧ conns w' = filter (λ c, conn_status c ≠ NOT_CONNECTED) (conns w)
    ∧ live w' ≡ₚ parts_of_all (conns w') ++ rest
    ∧ (acceptor w' = Accepting ↔ (length (conns w') < max)%nat).
Proof.
  intros HI Ha. unfold server_step. rewrite (bind_Done _ _ w (acceptor w) w), Ha by done.
  rewrite (bind_Done _ _ w (conns w) w) by done.
  destruct (held_reap _ _ _ HI Ha) as (w1 & E1 & H1 & Ha1 & Hc1 & _). rewrite (bind_Done _ _ _ _ _ E1).
  rewrite (bind_Done _ _ w1 (conns w1) w1) by done.
  assert (Hl1 : live w1 ≡ₚ parts_of_all (conns w1) ++ rest)
    by (rewrite (held_live _ _ _ H1); unfold all_conns; by rewrite Ha1).
  case_bool_decide as Hlt; eexists; (split; [reflexivity|]); split_and!; try done. by rewrite Ha1.
Qed.

(** ** Clients *)

Definition client_parts (s : ipc_client) : list resource :=
  match client_conn s with Some c => parts_of c | None => [] end ++ [Client].

Lemma client_delete_run n s w L :
  live w ≡ₚ client_parts s ++ L →
  (∀ c, client_conn s = Some c → ipc_serv c = false ∧ (conn_task c = true → n = BetweenTurns)) →
  ∃ l, ipc_client_delete n (Some s) w = Done (CPLUS_SUCCESS, set_live l w) ∧ l ≡ₚ L.
Proof.
  intros H Hs. unfold client_parts in H. rewrite <- app_assoc in H. unfold ipc_client_delete.
  assert (∃ l, match client_conn s with Some c => ipc_conn_delete n (Some c) | None => mret CPLUS_SUCCESS end w
     = Done (CPLUS_SUCCESS, set_live l w) ∧ l ≡ₚ Client :: L) as (l & E & Hl).
  { destruct (client_conn s) as [c|]; [|exists (live w); by destruct w].
    destruct (Hs c eq_refl) as [Hv Ht].
    destruct (conn_delete_run n c w _ ltac:(destruct (conn_task c); auto) H) as (l & E & Hl). exists l. split; [|done]. rewrite E.
    unfold freed. rewrite Hv. by destruct w. }
  rewrite (bind_Done _ _ _ _ _ E). destruct (release_run _ (set_live l w) _ Hl) as (l' & E' & Hl').
  exists l'. split; [|done]. by rewrite (bind_Done _ _ _ _ _ E').
Qed.

(** What a constructor that fails does not give back: the socket, when the server
    refuses the client, or when there is no block for the connection. *)
Definition client_leak (m : client_calls) (k : nat) : list resource :=
  part (client_memory m && client_socket_made m
        && (negb (connected m) || heartbeat m && negb (block_ok (parts m)))) (Socket k).

(** A client is connected by a connection of its own, with no callbacks. *)
Definition client_ready (s : ipc_client) : Prop :=
  ∃ c k, client_conn s = Some c ∧ server_socket s = Some k ∧ conn_sock c = Some k
    ∧ conn_status c = CONNECTED ∧ ipc_serv c = false ∧ conn_task c = client_async s ∧ cb c = no_cb.

Definition client_made (m : client_calls) (w : world) (o : option ipc_client) (w' : world) : Prop :=
  match o with
  | Some s => client_ready s ∧ live w' ≡ₚ client_parts s ++ live w
  | None => live w' ≡ₚ client_leak m (next w) ++ live w
  end.

Lemma client_error_made m async so oc w w1 :
  live w1 ≡ₚ Client :: client_leak m (next w) ++ live w →
  ∃ o w', client_error (mkClient async so None oc) w1 = Done (o, w') ∧ client_made m w o w'.
Proof.
  intros H. destruct (client_delete_run Silent (mkClient async so None oc) w1 (client_leak m (next w) ++ live w)) as (l & E & Hl);
    [done..|]. exists None, (set_live l w1). split; [|exact Hl]. unfold client_error. by rewrite (bind_Done _ _ _ _ _ E).
Qed.

Lemma client_new_run m f w :
  ∃ o w', ipc_client_new m f w = Done (o, w') ∧ client_made m w o w'.
Proof.
  unfold ipc_client_new. destruct (client_memory m) eqn:Em; cbn [negb].
  2:{ exists None, w. split; [done|]. unfold client_made, client_leak. by rewrite Em. }
  rewrite (bind_Done _ _ w tt (set_live (Client :: live w) w)) by done.
  destruct (client_socket_made m) eqn:Es; cbn [negb].
  2:{ apply client_error_made. unfold client_leak. by rewrite Em, Es. }
  set (k := next w). set (w1 := set_live (Socket k :: Client :: live w) (set_next (S k) w)).
  rewrite (bind_Done _ _ _ k (set_next (S k) (set_live (Client :: live w) w))) by done.
  rewrite (bind_Done _ _ _ tt w1) by done. cbv zeta.
  destruct (connected m) eqn:Ec; cbn [negb].
  2:{ apply client_error_made. unfold client_leak. rewrite Em, Es, Ec. cbn. apply perm_swap. }
  destruct (heartbeat m) eqn:Eh; cbn [negb].
  2:{ destruct (release_run (Socket k) w1 _ (reflexivity _)) as (l & E & Hl). rewrite (bind_Done _ _ _ _ _ E).
      apply client_error_made. unfold client_leak. by rewrite Em, Es, Ec, Eh. }
  destruct (block_ok (parts m)) eqn:Eb.
  2:{ rewrite (bind_Done _ _ _ None w1) by (unfold ipc_conn_create, conn_block; by rewrite Eb).
      apply client_error_made. unfold client_leak. rewrite Em, Es, Ec, Eh, Eb. cbn. apply perm_swap. }
  destruct (conn_create_run false k (match f with Some f => on_received f | None => false end) no_cb (parts m) w1
    (Client :: live w)) as [(o & w2 & E & M)|(_ & ? & E)]; [done|done| |congruence]. rewrite (bind_Done _ _ _ _ _ E).
  destruct M as (_ & _ & _ & _ & M). destruct o as [c|].
  2:{ destruct M as [_ Hl]. apply client_error_made. unfold client_leak. by rewrite Em, Es, Ec, Eh, Eb. }
  destruct M as (_ & Hs & Ht & Hk & _ & Hcb & Hl & _).
  destruct (say_if_run (match f with Some f => on_connected f | None => false end) (Connected k) w2) as [l El].
  rewrite (bind_Done _ _ _ _ _ El). eexists (Some _), _. split; [reflexivity|]. split.
  - eexists _, k. by split_and!.
  - cbn [live]. rewrite Hl. unfold client_parts. cbn [client_conn]. by rewrite <- app_assoc.
Qed.

(** a client that is made has a connection of its own, and deleting it gives
    back all that was taken for it, when the client is synchronous or its task is
    between two turns; when the task waits and nothing comes in the time of the
    stop, it is used after its deletion.  When the client cannot be made everything
    has been given back, but for the socket when the server refuses the connection
    or there is no memory for it. *)
Theorem client_account m f w :
  ∃ o w', ipc_client_new m f w = Done (o, w')
    ∧ match o with
      | Some s => client_ready s
          ∧ (∀ n, (client_async s = true → n = BetweenTurns) →
             ∃ w2, cplus_ipc_client_delete n s w' = Done (CPLUS_SUCCESS, w2) ∧ live w2 ≡ₚ live w)
          ∧ (client_async s = true → cplus_ipc_client_delete Silent s w' = Undefined)
      | None => live w' ≡ₚ client_leak m (next w) ++ live w
      end.
Proof.
  destruct (client_new_run m f w) as (o & w' & E & M). exists o, w'. split; [exact E|].
  destruct o as [s|]; [|exact M]. destruct M as [(c & k & Hc & Hk & Hck & Hst & Hs & Ht & Hcb) Hl].
  split; [by exists c, k|]. split.
  - intros n Hn. destruct (client_delete_run n s w' _ Hl) as (l & El & Hl2); [|by eexists].
    intros c' Hc'. rewrite Hc in Hc'. injection Hc' as <-. split; [done|]. by rewrite Ht.
  - intros Ha. unfold cplus_ipc_client_delete, ipc_client_delete. rewrite Hc.
    apply bind_undef, conn_delete_silent; [by rewrite Ht|by rewrite Hst].
Qed.

(** ** Deleting a server *)

(** whatever fails, making a server and deleting it before its task has begun a
    turn, or failing to make it, gives back all that was taken. *)
Theorem server_account m name max f w heard :
  conns w = [] → acceptor w = Reaping →
  ∃ o w', cplus_ipc_server_new m name max f w = Done (o, w')
    ∧ match o with
      | Some s => (∃ f', f = Some f' ∧ whole s max f') ∧ (0 < max)%nat
          ∧ ∃ w2, cplus_ipc_server_delete [] heard s w' = Done (CPLUS_SUCCESS, w2) ∧ live w2 ≡ₚ live w
      | None => live w' ≡ₚ live w
      end.
Proof.
  intros Hc Ha. unfold cplus_ipc_server_new. destruct name as [nm|]; [|by exists None, w].
  destruct f as [f|]; [|by exists None, w]. destruct (max =? 0)%nat eqn:E0; [by exists None, w|].
  apply Nat.eqb_neq in E0. destruct (server_new_run m max f w Hc Ha) as (o & w' & E & Hc' & Ha' & M).
  exists o, w'. split; [exact E|]. destruct o as [s|]; [|exact M]. destruct M as (Hw & _ & Hl).
  split; [by exists f|]. split; [lia|]. destruct (server_delete_empty heard s w' _ Hc' Ha' Hl) as (l & El & Hl2). by eexists.
Qed.

(** C25: the deletion of a server after any run [ls].  While the accepting task is
    stopped the tasks go on with [late].  When the turn of the accepting task has
    ended by then, and each connection that is still connected has its task
    between two turns or something comes for it while it is stopped, all is given
    back, the connections with it; only the block of each connection is given
    back to the pool twice.  In any other case
    (a server without a client waits in [cplus_socket_accept], the task of a
    connection in [cplus_socket_recv]) a stop runs out of time, and a task is
    used after its deletion. *)
Theorem server_life m max f w s w1 ls w2 late heard :
  conns w = [] → acceptor w = Reaping → (∀ c, PoolBlock c ∉ live w) →
  ipc_server_new m max f w = Done (Some s, w1) → run max f ls w1 = Done (tt, w2) →
  ∃ w3, run max f late w2 = Done (tt, w3)
    ∧ let in_time := acceptor w3 = Reaping
        ∧ ∀ c, c ∈ conns w3 → conn_status c ≠ NOT_CONNECTED → heard (cid c) ≠ Silent in
      (in_time → ∃ w4, cplus_ipc_server_delete late heard s w2 = Done (CPLUS_SUCCESS, w4)
         ∧ live w4 ≡ₚ live w ∧ conns w4 = [] ∧ free w4 = (max + length (conns w3))%nat)
      ∧ (¬ in_time → cplus_ipc_server_delete late heard s w2 = Undefined).
Proof.
  intros Hc Ha Hpool E Er. destruct (server_new_held m max f w s w1 Hc Ha E) as (H1 & _ & [k ->]).
  destruct (held_run max _ f ls w1 H1) as (w2' & E2 & H2). rewrite Er in E2. injection E2 as <-.
  destruct (held_run max _ f late w2 H2) as (w3 & E3 & _). exists w3. split; [exact E3|].
  destruct (server_delete_run late heard max f k w2 w3 (live w) H2 Hpool E3) as [Hgood Hbad]. split.
  - intros [Hr Hh]. apply Hgood. split; [done|]. apply Forall_forall. intros c Hin [Hst Hsi]. by apply (Hh c Hin Hst).
  - intros Hn. apply Hbad. destruct (decide (acceptor w3 = Reaping)) as [Hr|Hr]; [right|by left].
    destruct (decide (Exists (silent heard) (conns w3))) as [|Hno]; [done|].
    exfalso. apply Hn. split; [done|]. intros c Hin Hst Hsi. apply Hno, Exists_exists. by exists c.
Qed.

(** ** At work *)

Definition start : world := World [] 0 0 [] Reaping [].
Definition all_ok : server_calls := ServerCalls true true true true true true true true.
Definition all_parts : can_make := CanMake true true true true.
Definition all_cb : cb_funcs := CbFuncs true true true true.
Definition server1 : ipc_server := mkServer 1 (Some 0%nat) true true true true all_cb.
Definition started : world := World [AcceptTask; ConnSect; ConnPool; ConnList; Socket 0; Server] 1 1 [] Reaping [].

Example server1_new : cplus_ipc_server_new all_ok (Some [47]) 1 (Some all_cb) start = Done (Some server1, started).
Proof. vm_compute. reflexivity. Qed.

(** A client connects and is served; while it is there the server accepts no other. *)
Definition one_client : list label :=
  [Acceptor false all_parts; Acceptor true all_parts; Acceptor false all_parts; Acceptor false all_parts;
   Acceptor false all_parts; ConnTurn 2 (Received []) [true] []; Acceptor false all_parts].
Definition served : world := state_of started (run 1 all_cb one_client started).
Example served_is : (called served, acceptor served, conns served)
  = ([Connected 1], Reaping, [mkConn 2 true true CONNECTED (Some 1%nat) true false true false true all_cb]).
Proof. vm_compute. reflexivity. Qed.
Example served_run : run 1 all_cb one_client started = Done (tt, served).
Proof. vm_compute. reflexivity. Qed.

(** Code bug: a client that goes at once can be reported as gone before it is
    reported as connected, and the callback gets a socket that was deleted. *)
Theorem connected_after_disconnected :
  ∃ ls w2, run 1 all_cb ls started = Done (tt, w2) ∧ called w2 = [Disconnected 1; Connected 1]
    ∧ Socket 1 ∉ live w2.
Proof.
  exists [Acceptor false all_parts; Acceptor true all_parts; Acceptor false all_parts; Acceptor false all_parts;
    ConnTurn 2 Closed [] []; Acceptor false all_parts].
  eexists. split; [vm_compute; reflexivity|]. split; [reflexivity|]. cbn. set_solver.
Qed.

(** ** Witnesses *)

Lemma server_runs_witness :
  ∃ w2, run 1 all_cb (one_client ++ [ConnTurn 2 (Received []) [false] []; ConnTurn 2 Closed [] []; Acceptor false all_parts])
      started = Done (tt, w2)
    ∧ live w2 ≡ₚ parts_of_all (all_conns w2) ++ server_parts server1 ++ live start
    ∧ (length (all_conns w2) ≤ 1)%nat ∧ NoDup (cid <$> all_conns w2).
Proof. apply (server_runs all_ok 1 all_cb start server1); vm_compute; reflexivity. Defined.

Lemma server_account_witness :
  ∃ o w', cplus_ipc_server_new all_ok (Some [47]) 1 (Some all_cb) start = Done (o, w')
    ∧ match o with
      | Some s => (∃ f', Some all_cb = Some f' ∧ whole s 1 f') ∧ (0 < 1)%nat
          ∧ ∃ w2, cplus_ipc_server_delete [] (λ _, Silent) s w' = Done (CPLUS_SUCCESS, w2) ∧ live w2 ≡ₚ live start
      | None => live w' ≡ₚ live start
      end.
Proof. apply (server_account all_ok (Some [47]) 1 (Some all_cb) start); reflexivity. Defined.

(** The client goes while its connection is being deleted; or it stays, and says nothing. *)
Definition client_goes (i : nat) : notice := Hears Closed [] [].
Example server1_made : ipc_server_new all_ok 1 all_cb start = Done (Some server1, started).
Proof. vm_compute. reflexivity. Qed.
Lemma after_none max f w w' : run max f [] w = Done (tt, w') → w = w'.
Proof. by intros [= ->]. Qed.

Lemma server_life_witness :
  (∃ w4, cplus_ipc_server_delete [] client_goes server1 served = Done (CPLUS_SUCCESS, w4) ∧ live w4 ≡ₚ live start
     ∧ conns w4 = [] ∧ free w4 = (1 + length (conns served))%nat)
  ∧ cplus_ipc_server_delete [] (λ _, Silent) server1 served = Undefined.
Proof.
  split.
  - destruct (server_life all_ok 1 all_cb start server1 started one_client served [] client_goes
      eq_refl eq_refl ltac:(intros c; cbn; set_solver) server1_made served_run) as (w3 & E & H & _).
    destruct (after_none _ _ _ _ E). apply H. split; [vm_compute; reflexivity|]. discriminate.
  - destruct (server_life all_ok 1 all_cb start server1 started one_client served [] (λ _, Silent)
      eq_refl eq_refl ltac:(intros c; cbn; set_solver) server1_made served_run) as (w3 & E & _ & H).
    destruct (after_none _ _ _ _ E). apply H. intros [_ H1].
    apply (H1 (mkConn 2 true true CONNECTED (Some 1%nat) true false true false true all_cb)); [vm_compute; left|discriminate|reflexivity].
Defined.

(** The connection of [served] has been closed by its client. *)
Definition dead_conn : conn := mkConn 2 true true NOT_CONNECTED None true false true false true all_cb.
Definition closed : world := World (parts_of dead_conn) 3 0 [dead_conn] Reaping [].

Lemma reaping_turn_witness :
  ∃ w', server_step 1 all_cb false all_parts closed = Done (tt, w')
    ∧ conns w' = filter (λ c, conn_status c ≠ NOT_CONNECTED) (conns closed)
    ∧ live w' ≡ₚ parts_of_all (conns w') ++ []
    ∧ (acceptor w' = Accepting ↔ (length (conns w') < 1)%nat).
Proof.
  apply (reaping_turn 1 [] all_cb false all_parts closed); [|reflexivity].
  split; cbn; try done; try lia; repeat constructor; cbn; try lia; try set_solver.
Defined.

End IpcLifeProps.
