(* ===== verification/Task.v ===== *)
(** * Task: a thread that runs a function (src/task.c)

    A task is an object with four events and a thread, [task_executor], which
    waits to be started and then runs the function of the task over and over
    until it is told to stop; with an infinite duration it runs it once and
    deletes the object itself.  A call on an event is one step (the calls of
    pevent.c are atomic: Pevent.v), [evt_finish] resets itself, the others do
    not.  The world holds the object, until it is deleted, where the executor
    is, and where the threads are that call the functions of the task. *)

From S2P Require Import Prelude.
From stdpp Require Import base numbers list option gmap.
From Stdlib Require Import ZArith Lia.
Open Scope Z_scope.

Module Task.

Definition OBJ_TYPE : Z := OBJ_NONE + SYS + 2.
Definition MAX_WAIT_STOP_TIME : Z := 60 * 1000.

Record task := mkTask {
  callback : bool;
  duration : Z;
  evt_start : bool;
  evt_stop : bool;
  evt_finish : bool;
  evt_pause : bool }.
Definition set_duration (v : Z) (t : task) := mkTask (callback t) v (evt_start t) (evt_stop t) (evt_finish t) (evt_pause t).
Definition set_start (v : bool) (t : task) := mkTask (callback t) (duration t) v (evt_stop t) (evt_finish t) (evt_pause t).
Definition set_stop (v : bool) (t : task) := mkTask (callback t) (duration t) (evt_start t) v (evt_finish t) (evt_pause t).
Definition set_finish (v : bool) (t : task) := mkTask (callback t) (duration t) (evt_start t) (evt_stop t) v (evt_pause t).
Definition set_pause (v : bool) (t : task) := mkTask (callback t) (duration t) (evt_start t) (evt_stop t) (evt_finish t) v.

(** ** Making a task *)

Record task_config := Config { with_callback : bool; period : Z; suspend : bool; stacksize : Z }.

(** What a task is made of, and the events that were released on the way. *)
Inductive made := Made (t : task) | NotMade (released : nat).

(** The events that are made before the first one that cannot be. *)
Fixpoint made_events (events : list bool) : nat :=
  match events with true :: events => S (made_events events) | _ => 0%nat end.

(** [events]: which of the four events can be made; [error]: what
    [pthread_create] answers. *)
Definition task_initialize_object (config : task_config) (memory : bool) (events : list bool) (error : Z) : made :=
  if memory then
    let good := made_events (take 4 events) in
    if (good =? 4)%nat then
      if error =? 0 then
        Made (mkTask (with_callback config) (period config) (negb (suspend config)) false false true)
      else NotMade 4
    else NotMade good
  else NotMade 0.

Definition cplus_task_oneshot_ex (callback : bool) : task_config := Config callback CPLUS_INFINITE_TIMEOUT false 0.
Definition cplus_task_oneshot : task_config := cplus_task_oneshot_ex false.
Definition cplus_task_new (duration : Z) : task_config := Config false duration true 0.

(** [rlim]: the smallest and the largest stack the system allows. *)
Definition cplus_task_new_ex (config : task_config) (rlim_min rlim_cur : Z) (memory : bool) (events : list bool)
    (error : Z) : made :=
  if negb (stacksize config =? 0) && negb ((rlim_min <=? stacksize config) && (stacksize config <=? rlim_cur)) then NotMade 0
  else task_initialize_object config memory events error.

(** [cplus_task_check] of a null pointer or an object with a type. *)
Definition cplus_task_check (obj : option Z) : bool :=
  match obj with Some type => type =? OBJ_TYPE | None => false end.

(** ** For the function of a task

    [own] is the task whose executor the calling thread is, if it is one. *)

Definition cplus_task_set_loop_finish (own : option task) : Z * option task := (CPLUS_SUCCESS, set_finish true <$> own).
Definition cplus_task_reset_loop_finish (own : option task) : Z * option task := (CPLUS_SUCCESS, set_finish false <$> own).
Definition cplus_task_set_loop_duration (d : Z) (own : option task) : Z * option task := (CPLUS_SUCCESS, set_duration d <$> own).
Definition cplus_task_get_loop_duration (own : option task) : Z := default 0 (duration <$> own).
(** The tick at the start of the turn, if a turn was started. *)
Definition cplus_task_get_loop_last_timestamp (stamp : option Z) : Z := default 0 stamp.

(** ** Where the threads are *)

(** The executor: at the wait for [evt_start]; at the three conditions of the
    loop; before the reset of [evt_finish], in the function, after it; at the
    duration; in the pause between two turns; at the last [evt_finish]; in the
    cleanup handler; gone. *)
Inductive place :=
| EWaitStart | ECheckStop | EStatus | EWaitPause | EResetFinish | ERun | ESetFinish | EDuration | ENap
| ELastFinish | ECleanup | EExited.

#[export] Instance place_eq_dec : EqDecision place.
Proof. solve_decision. Defined.

Inductive call :=
| Start | Stop (timeout : Z) | Pause (pause : bool) | WaitStart (timeout : Z) | WaitFinish (timeout : Z)
| SetDuration (duration : Z) | GetDuration | Delete.

#[export] Instance call_eq_dec : EqDecision call.
Proof. solve_decision. Defined.

(** A caller: outside; in [task_initialize_object] after [pthread_create]; at
    the beginning of a call; on the way through [cplus_task_stop]; before the
    change of [cplus_task_pause]; back with a result and [errno]. *)
Inductive caller :=
| Outside
| Creating (duration : Z)
| Begin (c : call)
| StopLook (timeout : Z)
| StopStart (timeout : Z)
| StopWait (timeout : Z)
| StopCancel (timeout : Z)
| StopJoin (timeout : Z)
| StopDelete (timeout res : Z) (errno : option Z)
| PauseSet (pause : bool)
| Back (c : call) (res : Z) (errno : option Z).

(** [dangling]: somebody used the object after its deletion. *)
Record world := World {
  object : option task;
  executor : place;
  cancelled : bool;
  callers : gmap nat caller;
  runs : nat;
  callbacks : nat;
  dangling : bool }.

Definition set_object (o : option task) (w : world) := World o (executor w) (cancelled w) (callers w) (runs w) (callbacks w) (dangling w).
Definition goto (p : place) (w : world) := World (object w) p (cancelled w) (callers w) (runs w) (callbacks w) (dangling w).
Definition cancel (w : world) := World (object w) (executor w) true (callers w) (runs w) (callbacks w) (dangling w).
Definition move_to (u : nat) (p : caller) (w : world) := World (object w) (executor w) (cancelled w) (<[u := p]> (callers w)) (runs w) (callbacks w) (dangling w).
Definition count_run (w : world) := World (object w) (executor w) (cancelled w) (callers w) (S (runs w)) (callbacks w) (dangling w).
Definition count_callback (w : world) := World (object w) (executor w) (cancelled w) (callers w) (runs w) (S (callbacks w)) (dangling w).
Definition set_dangling (w : world) := World (object w) (executor w) (cancelled w) (callers w) (runs w) (callbacks w) true.
Definition caller_of (w : world) (u : nat) : caller := default Outside (callers w !! u).

(** A step that uses the object; [None]: the thread has to wait. *)
Definition on_object (w : world) (k : task → option world) : option world :=
  match object w with Some t => k t | None => Some (set_dangling w) end.

Definition change (f : task → task) (w : world) : world := set_object (f <$> object w) w.

(** ** The executor *)

(** [cancel_in_routine], which [pthread_exit] runs too. *)
Definition cancel_in_routine (w : world) : option world :=
  on_object w (λ t,
    if CPLUS_INFINITE_TIMEOUT =? duration t then
      Some (goto EExited (set_object None (if callback t then count_callback w else w)))
    else Some (goto EExited w)).

(** A step of [task_executor]; [elapsed] is used where the clock is read. *)
Definition task_executor (elapsed : Z) (w : world) : option world :=
  match executor w with
  | EWaitStart => on_object w (λ t, if evt_start t then Some (goto ECheckStop w) else None)
  | ECheckStop => on_object w (λ t, Some (goto (if evt_stop t then ELastFinish else EStatus) w))
  | EStatus => on_object w (λ t, Some (goto (if evt_pause t then EResetFinish else EWaitPause) w))
  | EWaitPause => on_object w (λ t, if evt_pause t then Some (goto EResetFinish w) else None)
  | EResetFinish => on_object w (λ t, Some (goto ERun (change (set_finish false) w)))
  | ERun => on_object w (λ t, Some (goto ESetFinish (count_run w)))
  | ESetFinish => on_object w (λ t, Some (goto EDuration (change (set_finish true) w)))
  | EDuration =>
      on_object w (λ t,
        if CPLUS_INFINITE_TIMEOUT =? duration t then Some (goto ELastFinish w)
        else Some (goto (if elapsed <? duration t then ENap else ECheckStop) w))
  | ENap => on_object w (λ t, Some (goto ECheckStop w))
  | ELastFinish => on_object w (λ t, Some (goto ECleanup (change (set_finish true) w)))
  | ECleanup => cancel_in_routine w
  | EExited => None
  end.

(** ** The callers *)

(** [cplus_pevent_wait] with no time to wait, or with some. *)
Definition wait_event (u : nat) (c : call) (timeout : Z) (e : bool) (w w' : world) : option world :=
  if e then Some (move_to u (Back c CPLUS_SUCCESS None) w')
  else if timeout =? 0 then Some (move_to u (Back c CPLUS_FAIL (Some EAGAIN)) w)
  else None.

Definition cplus_task_stop (u : nat) (timeout : Z) (w : world) : option world :=
  let tout := if CPLUS_INFINITE_TIMEOUT =? timeout then MAX_WAIT_STOP_TIME else timeout in
  on_object w (λ t,
    (* The thread of a task made without an error is not 0. *)
    if CPLUS_INFINITE_TIMEOUT =? duration t then Some (move_to u (Back (Stop timeout) CPLUS_SUCCESS None) w)
    else Some (move_to u (StopLook tout) (change (set_stop true) w))).

Definition cplus_task_pause (u : nat) (pause : bool) (w : world) : option world :=
  on_object w (λ t,
    if xorb pause (negb (evt_pause t)) then Some (move_to u (PauseSet pause) w)
    else Some (move_to u (Back (Pause pause) CPLUS_SUCCESS None) w)).

Definition begin (u : nat) (c : call) (w : world) : option world :=
  match c with
  | Start => on_object w (λ t, Some (move_to u (Back c CPLUS_SUCCESS None) (change (set_start true) w)))
  | Stop timeout => cplus_task_stop u timeout w
  | Pause pause => cplus_task_pause u pause w
  | WaitStart timeout => on_object w (λ t, wait_event u c timeout (evt_start t) w w)
  | WaitFinish timeout => on_object w (λ t, wait_event u c timeout (evt_finish t) w (change (set_finish false) w))
  | SetDuration d => on_object w (λ t, Some (move_to u (Back c CPLUS_SUCCESS None) (change (set_duration d) w)))
  | GetDuration => on_object w (λ t, Some (move_to u (Back c (duration t) None) w))
  | Delete => on_object w (λ t, Some (move_to u (Back c CPLUS_SUCCESS None) (set_object None w)))
  end.

(** A step of caller [u]. *)
Definition caller_step (u : nat) (w : world) : option world :=
  match caller_of w u with
  | Outside | Back _ _ _ => None
  | Creating d =>
      (* [pthread_detach(task->thread)] *)
      if CPLUS_INFINITE_TIMEOUT =? d then on_object w (λ t, Some (move_to u Outside w))
      else Some (move_to u Outside w)
  | Begin c => begin u c w
  | StopLook timeout =>
      on_object w (λ t, Some (move_to u (if evt_start t then StopWait timeout else StopStart timeout) w))
  | StopStart timeout => on_object w (λ t, Some (move_to u (StopWait timeout) (change (set_start true) w)))
  | StopWait timeout =>
      on_object w (λ t,
        if evt_finish t then Some (move_to u (StopJoin timeout) (change (set_finish false) w))
        else if timeout =? 0 then Some (move_to u (StopCancel timeout) w)
        else None)
  | StopCancel timeout =>
      on_object w (λ t, Some (move_to u (StopDelete timeout CPLUS_FAIL (Some (if timeout =? 0 then EBUSY else ETIMEDOUT))) (cancel w)))
  | StopJoin timeout =>
      on_object w (λ t, if decide (executor w = EExited) then Some (move_to u (StopDelete timeout CPLUS_SUCCESS None) w)
                    else None)
  | StopDelete timeout res e =>
      on_object w (λ t, Some (move_to u (Back (Stop timeout) res e) (set_object None w)))
  | PauseSet pause =>
      on_object w (λ t, Some (move_to u (Back (Pause pause) CPLUS_SUCCESS None) (change (set_pause (negb pause)) w)))
  end.

(** The time of a waiting caller is over. *)
Definition expire (u : nat) (w : world) : option world :=
  match caller_of w u with
  | StopWait timeout => if timeout =? 0 then None else Some (move_to u (StopCancel timeout) w)
  | Begin (WaitStart timeout as c) | Begin (WaitFinish timeout as c) =>
      if (timeout =? 0) || (CPLUS_INFINITE_TIMEOUT =? timeout) then None
      else Some (move_to u (Back c CPLUS_FAIL (Some ETIMEDOUT)) w)
  | _ => None
  end.

(** ** Steps *)

Inductive label :=
| Exec (elapsed : Z)
| Cancelled
| Call (u : nat) (c : call)
| Move (u : nat)
| Expire (u : nat).

Definition outside (p : caller) : bool := match p with Outside | Back _ _ _ => true | _ => false end.
Definition gone (p : place) : bool := match p with ECleanup | EExited => true | _ => false end.

Definition exec (l : label) (w : world) : option world :=
  match l with
  | Exec elapsed => task_executor elapsed w
  | Cancelled =>
      (* The cancellation is asynchronous: it may take effect anywhere. *)
      if cancelled w && negb (gone (executor w)) then Some (goto ECleanup w) else None
  | Call u c => if outside (caller_of w u) then Some (move_to u (Begin c) w) else None
  | Move u => caller_step u w
  | Expire u => expire u w
  end.

Fixpoint run (ls : list label) (w : world) : option world :=
  match ls with [] => Some w | l :: ls => w' ← exec l w; run ls w' end.

(** The world after [pthread_create]; caller 0 is the creator. *)
Definition created (t : task) : world :=
  World (Some t) EWaitStart false {[0%nat := Creating (duration t)]} 0 0 false.

End Task.
