(* ===== verification/TaskProps.v ===== *)
(** * TaskProps: stopping a task

    One owner that starts, pauses, waits for and stops a looping task, with an
    executor that moves at any speed: no step uses the object after its
    deletion, and a stop that is given the time it needs succeeds within a
    bounded number of steps.  A task of infinite duration runs once, then its
    callback, and deletes itself.  Then the ways a task is used after its deletion. *)

From S2P Require Import Prelude Task.
From stdpp Require Import base numbers list option gmap sets.
From Stdlib Require Import ZArith Lia.
Open Scope Z_scope.

Module TaskProps.
Import Task.

Lemma caller_moved u p w v : caller_of (move_to u p w) v = if decide (u = v) then p else caller_of w v.
Proof. unfold caller_of, move_to. simpl. rewrite lookup_insert. by case_decide. Qed.

(** ** The discipline of an owner *)

Definition stopped (p : caller) : bool := match p with Back (Stop _) _ _ => true | _ => false end.

(** Only caller 0 calls, not after a stop; no infinite duration; the time of
    its stop does not run out. *)
Definition permitted (w : world) (l : label) : Prop :=
  match l with
  | Call u c => u = 0%nat ∧ stopped (caller_of w 0) = false ∧ c ≠ Delete ∧ c ≠ Stop 0
      ∧ c ≠ SetDuration CPLUS_INFINITE_TIMEOUT
  | Expire u => match caller_of w u with StopWait _ => False | _ => True end
  | _ => True
  end.

Inductive reaches (w0 : world) : nat → world → Prop :=
| reaches_here : reaches w0 0 w0
| reaches_step n w l w' : reaches w0 n w → permitted w l → exec l w = Some w' → reaches w0 (S n) w'.

(** What the caller's place says of the object. *)
Definition caller_ok (t : task) (e : place) (p : caller) : Prop :=
  match p with
  | Creating d => d ≠ CPLUS_INFINITE_TIMEOUT ∧ evt_stop t = false
  | Begin c => c ≠ Delete ∧ c ≠ Stop 0 ∧ c ≠ SetDuration CPLUS_INFINITE_TIMEOUT ∧ evt_stop t = false
  | StopLook n | StopStart n => n ≠ 0 ∧ evt_stop t = true ∧ (gone e = true → evt_finish t = true)
  | StopWait n => n ≠ 0 ∧ evt_stop t = true ∧ evt_start t = true ∧ (gone e = true → evt_finish t = true)
  | StopJoin _ => evt_stop t = true ∧ evt_start t = true
  | StopDelete _ res err => evt_stop t = true ∧ e = EExited ∧ res = CPLUS_SUCCESS ∧ err = None
  | StopCancel _ => False
  | Outside | PauseSet _ | Back _ _ _ => evt_stop t = false
  end.

Definition last (e : place) : bool := match e with ELastFinish | ECleanup | EExited => true | _ => false end.

Record inv (w : world) : Prop := Inv {
  inv_dangling : dangling w = false;
  inv_cancelled : cancelled w = false;
  inv_callers : ∀ u, u ≠ 0%nat → caller_of w u = Outside;
  inv_object :
    match object w with
    | Some t => duration t ≠ CPLUS_INFINITE_TIMEOUT ∧ (last (executor w) = true → evt_stop t = true)
        ∧ stopped (caller_of w 0) = false ∧ caller_ok t (executor w) (caller_of w 0)
    | None => executor w = EExited ∧ ∃ n, caller_of w 0 = Back (Stop n) CPLUS_SUCCESS None
    end }.

Lemma inv_created t :
  duration t ≠ CPLUS_INFINITE_TIMEOUT → evt_stop t = false → inv (created t).
Proof.
  intros Hd Hs. split; [done|done| |].
  - intros u Hu. unfold created, caller_of. simpl. by rewrite lookup_singleton_ne.
  - simpl. done.
Qed.

(** The executor moves to [e], and leaves the object at [t1]. *)
Lemma inv_executor w w' t t1 e :
  inv w → object w = Some t → object w' = Some t1 → executor w' = e → executor w ≠ EExited →
  (cancelled w', callers w', dangling w') = (cancelled w, callers w, dangling w) →
  (duration t1, evt_stop t1, evt_start t1) = (duration t, evt_stop t, evt_start t) →
  (last e = true → evt_stop t = true) →
  (gone e = true → evt_finish t1 = true ∨ gone (executor w) = true ∧ evt_finish t1 = evt_finish t) → inv w'.
Proof.
  intros [Hd Hc Hu Ho] Et Et1 <- Hx [= E1 E2 E3] [= F1 F2 F3] Hlast Hgone. rewrite Et in Ho.
  assert (Ecal : ∀ u, caller_of w' u = caller_of w u) by (intros u; unfold caller_of; by rewrite E2).
  destruct Ho as (Hdur & _ & Hst & Hcal).
  split; [congruence|congruence|intros u; rewrite Ecal; apply Hu|]. rewrite Et1, Ecal, F1, F2.
  split; [done|]. split; [done|]. split; [done|].
  assert (Hfin : (gone (executor w) = true → evt_finish t = true) → gone (executor w') = true → evt_finish t1 = true)
    by (intros H0 [?|[? ->]]%Hgone; auto).
  destruct (caller_of w 0); simpl in *; rewrite ?F2, ?F3; try done; destruct_and?; split_and?; auto; by subst.
Qed.

Lemma inv_exec n w w' : inv w → task_executor n w = Some w' → inv w'.
Proof.
  intros Hi E. pose proof Hi as [Hd Hc Hu Ho]. unfold task_executor, cancel_in_routine, on_object in E.
  destruct (object w) as [t|] eqn:Et; [|by destruct Ho as [Ee _]; rewrite Ee in E].
  destruct Ho as (Hdur & Hlast & Hst & Hcal).
  assert (CPLUS_INFINITE_TIMEOUT =? duration t = false) as Hfin by (apply Z.eqb_neq; congruence).
  destruct (executor w) eqn:Ee; rewrite ?Hfin in E;
    try (destruct (evt_start t) eqn:E1; [|done]); try (destruct (evt_pause t) eqn:E2); try done; try (destruct (evt_stop t) eqn:E3);
    try (destruct (n <? duration t));
    simplify_eq;
    (eapply inv_executor; [exact Hi|exact Et|simpl; unfold change; rewrite ?Et; reflexivity|reflexivity|congruence|done|done|..]);
    simpl in *; try done; try congruence; intros _; first [by left|by right; rewrite Ee|by rewrite E3; apply Hlast].
Qed.

(** Caller 0 moves to [p], and leaves the object at [t1]. *)
Lemma inv_caller w w' t t1 p :
  inv w → object w = Some t → object w' = Some t1 → callers w' = <[0%nat := p]> (callers w) →
  (executor w', cancelled w', dangling w') = (executor w, cancelled w, dangling w) →
  duration t1 ≠ CPLUS_INFINITE_TIMEOUT → (evt_stop t = true → evt_stop t1 = true) →
  stopped p = false → caller_ok t1 (executor w) p → inv w'.
Proof.
  intros [Hd Hc Hu Ho] Et Et1 Ep [= E1 E2 E3] Hdur Hs Hst Hp. rewrite Et in Ho. destruct Ho as (_ & Hlast & _ & _).
  assert (Ecal : ∀ u, caller_of w' u = if decide (0%nat = u) then p else caller_of w u).
  { intros u. unfold caller_of. rewrite Ep, lookup_insert. by case_decide. }
  split; [congruence|congruence| |].
  - intros u Hu0. rewrite Ecal, decide_False by done. by apply Hu.
  - rewrite Et1, Ecal, decide_True, E1 by done. auto.
Qed.

(** The first step of a call. *)
Lemma inv_begin c w w' : inv w → caller_of w 0 = Begin c → begin 0 c w = Some w' → inv w'.
Proof.
  intros Hi Ec E. pose proof Hi as [_ _ _ Ho].
  destruct (object w) as [t|] eqn:Et; [|by destruct Ho as (_ & n & E0); rewrite E0 in Ec].
  destruct Ho as (Hdur & Hlast & Hst & Hcal). rewrite Ec in Hcal. destruct Hcal as (Hc1 & Hc2 & Hc3 & Hstop).
  assert (CPLUS_INFINITE_TIMEOUT =? duration t = false) as Hfin by (apply Z.eqb_neq; congruence).
  assert (Hgone : gone (executor w) = true → false = true) by (destruct (executor w); simpl in *; try done; rewrite Hstop in Hlast; auto).
  unfold begin, cplus_task_stop, cplus_task_pause, wait_event, on_object in E. rewrite Et in E.
  destruct c; try done; rewrite ?Hfin in E; repeat case_match; simplify_eq;
    (eapply inv_caller; [exact Hi|exact Et|simpl; unfold change; rewrite ?Et; reflexivity|simpl; reflexivity|done|..]);
    simpl; try done; try congruence;
    (split; [first [done|congruence]|split; [done|by intros ?%Hgone]]).
Qed.

(** A step of the caller. *)
Lemma inv_caller_step u w w' : inv w → caller_step u w = Some w' → inv w'.
Proof.
  intros Hi E. pose proof Hi as [_ _ Hu Ho].
  destruct (decide (u = 0%nat)) as [->|Hn]; [|unfold caller_step in E; by rewrite (Hu u Hn) in E].
  destruct (caller_of w 0) eqn:Ec; unfold caller_step in E; rewrite Ec in E; try done;
    try (by eapply inv_begin);
    (destruct (object w) as [t|] eqn:Et; [|by destruct Ho as (_ & ? & ?)]);
    destruct Ho as (Hdur & Hlast & Hst & Hcal); simpl in Hcal; try done; unfold on_object in E; rewrite ?Et in E.
  - assert (CPLUS_INFINITE_TIMEOUT =? duration0 = false) as Hfin by (apply Z.eqb_neq; naive_solver).
    rewrite Hfin in E. simplify_eq. eapply inv_caller; simpl; try done. by destruct Hcal.
  - destruct Hcal as (H1 & H2 & H3). simplify_eq. destruct (evt_start t) eqn:Es;
      (eapply inv_caller; [exact Hi|exact Et|exact Et|reflexivity|done|done|done|done|]); simpl; auto.
  - destruct Hcal as (H1 & H2 & H3). simplify_eq.
    eapply inv_caller; [exact Hi|exact Et|simpl; unfold change; rewrite Et; reflexivity|reflexivity|done|done|done|done|]; simpl; auto.
  - destruct Hcal as (H1 & H2 & H3 & H4). rewrite (proj2 (Z.eqb_neq timeout 0)) in E by done.
    destruct (evt_finish t) eqn:Ef; [|done]. simplify_eq.
    eapply inv_caller; [exact Hi|exact Et|simpl; unfold change; rewrite Et; reflexivity|reflexivity|done|done|done|done|]; simpl; auto.
  - destruct Hcal as (H1 & H2). case_decide; [|done]. simplify_eq.
    eapply inv_caller; [exact Hi|exact Et|exact Et|reflexivity|done|done|done|done|]; simpl; auto.
  - destruct Hcal as (H1 & H2 & -> & ->). simplify_eq. destruct Hi. split; [done|done| |].
    + intros v Hv. rewrite caller_moved, decide_False by done. by apply Hu.
    + simpl. split; [done|]. exists timeout. by rewrite caller_moved, decide_True.
  - simplify_eq.
    eapply inv_caller; [exact Hi|exact Et|simpl; unfold change; rewrite Et; reflexivity|reflexivity|done|done|done|done|]; simpl; auto.
Qed.

Lemma inv_step w l w' : inv w → permitted w l → exec l w = Some w' → inv w'.
Proof.
  intros Hi Hp E. pose proof Hi as [_ Hc Hu Ho]. destruct l as [n| |u c|u|u]; simpl in E.
  - by eapply inv_exec.
  - by rewrite Hc in E.
  - destruct Hp as (-> & Hst & Hc1 & Hc2 & Hc3). destruct (outside (caller_of w 0)) eqn:Eo; [|done]. simplify_eq.
    destruct (object w) as [t|] eqn:Et; [|destruct Ho as (_ & m & E0); by rewrite E0 in Hst].
    destruct Ho as (Hdur & _ & _ & Hcal).
    eapply inv_caller; [exact Hi|exact Et|exact Et|reflexivity|done|done|done|done|]. simpl.
    split_and!; try done. by destruct (caller_of w 0).
  - by eapply inv_caller_step.
  - destruct (decide (u = 0%nat)) as [->|Hn]; [|unfold expire in E; by rewrite (Hu u Hn) in E].
    destruct (object w) as [tk|] eqn:Et; [|destruct Ho as (_ & ? & E0); unfold expire in E; by rewrite E0 in E].
    destruct Ho as (Hdur & _ & _ & Hcal). unfold expire in E. simpl in Hp.
    destruct (caller_of w 0) eqn:Ec; try done; repeat case_match; simplify_eq;
      (eapply inv_caller; [exact Hi|exact Et|exact Et|reflexivity|done|done|done|done|]); simpl; apply Hcal.
Qed.

Lemma inv_reaches w0 n w : inv w0 → reaches w0 n w → inv w.
Proof. intros Hi. induction 1; [done|]. by eapply inv_step. Qed.

(** C12: an owner that calls start, pause, the waits, the durations and stop of
    a looping task in any order, one at a time and nothing after the stop, and
    whose stop is given the time it needs: however the executor moves, nobody
    uses the object after its deletion, and it is deleted only when the
    executor has exited, by a stop that answers success. *)
Theorem stop_is_clean (t : task) (n : nat) (w : world) :
  duration t ≠ CPLUS_INFINITE_TIMEOUT → evt_stop t = false → reaches (created t) n w →
  dangling w = false
  ∧ (object w = None → executor w = EExited ∧ ∃ m, caller_of w 0 = Back (Stop m) CPLUS_SUCCESS None).
Proof.
  intros Hd Hs Hr. destruct (inv_reaches _ _ _ (inv_created t Hd Hs) Hr) as [H1 _ _ Ho].
  split; [done|]. intros E. by rewrite E in Ho.
Qed.

(** ** A stop ends *)

(** The turns an executor that was told to stop has left, at most. *)
Definition rank (e : place) : nat :=
  match e with
  | EExited => 0 | ECleanup => 1 | ELastFinish => 2 | ECheckStop => 3 | EWaitStart => 4 | ENap => 4 | EDuration => 5
  | ESetFinish => 6 | ERun => 7 | EResetFinish => 8 | EWaitPause => 9 | EStatus => 10
  end.

(** The steps a stop has left. *)
Definition crank (p : caller) : nat :=
  match p with StopLook _ => 5 | StopStart _ => 4 | StopWait _ => 3 | StopJoin _ => 2 | StopDelete _ _ _ => 1 | _ => 0 end.

Definition todo (w : world) : nat := rank (executor w) + crank (caller_of w 0).

(** The runs of the function, with the one that is coming. *)
Definition budget (w : world) : nat := runs w + (if decide (7 ≤ rank (executor w))%nat then 1 else 0).

(** A stop is on its way, and the task is not paused. *)
Record stopping (w : world) : Prop := Stopping {
  st_inv : inv w;
  st_on : (0 < crank (caller_of w 0))%nat;
  st_pause : ∃ t, object w = Some t ∧ evt_pause t = true }.

Lemma stopping_told w : stopping w → ∃ t, object w = Some t ∧ evt_pause t = true ∧ evt_stop t = true
  ∧ caller_ok t (executor w) (caller_of w 0) ∧ duration t ≠ CPLUS_INFINITE_TIMEOUT.
Proof.
  intros [[_ _ _ Ho] Hon (t & Et & Hp)]. rewrite Et in Ho. destruct Ho as (Hd & _ & _ & Hc).
  exists t. split_and!; try done. destruct (caller_of w 0); simpl in Hon, Hc; try lia; tauto.
Qed.

(** A step of the executor brings it nearer to its end. *)
Lemma executor_nearer n w w' :
  stopping w → task_executor n w = Some w' → stopping w' ∧ (todo w' < todo w)%nat ∧ (budget w' ≤ budget w)%nat.
Proof.
  intros Hs E. destruct (stopping_told w Hs) as (t & Et & Hp & Hst & _ & Hd).
  destruct Hs as [Hi Hon _]. pose proof (inv_exec _ _ _ Hi E) as Hi'.
  assert (CPLUS_INFINITE_TIMEOUT =? duration t = false) as Hfin by (apply Z.eqb_neq; congruence).
  unfold task_executor, cancel_in_routine, on_object in E. rewrite Et in E. unfold todo, budget.
  destruct (executor w) eqn:Ee; try done; rewrite ?Hfin, ?Hst, ?Hp in E; try (destruct (evt_start t); [|done]);
    try (destruct (n <? duration t)); simplify_eq; simpl;
    (split; [split; [done|exact Hon|simpl; rewrite ?Et; simpl; eexists; done]|]);
    change (caller_of _ 0) with (caller_of w 0); lia.
Qed.

(** So does a step of the stop. *)
Lemma caller_nearer u w w' :
  stopping w → caller_step u w = Some w' →
  (todo w' < todo w)%nat ∧ budget w' = budget w ∧ (stopping w' ∨ object w' = None).
Proof.
  intros Hs E. destruct (stopping_told w Hs) as (t & Et & Hp & Hst & Hc & Hd).
  destruct Hs as [Hi Hon _]. pose proof (inv_caller_step _ _ _ Hi E) as Hi'. pose proof Hi as [_ _ Hu _].
  destruct (decide (u = 0%nat)) as [->|Hn]; [|unfold caller_step in E; by rewrite (Hu u Hn) in E].
  unfold caller_step, on_object in E. rewrite Et in E. unfold todo, budget.
  destruct (caller_of w 0) eqn:Ec; simpl in Hon, Hc; try lia; try done; repeat case_match; simplify_eq; simpl;
    rewrite caller_moved, decide_True by done; simpl;
    (split; [lia|]; split; [done|]); first [by right|left];
    (split; [done|rewrite caller_moved, decide_True by done; simpl; lia|simpl; rewrite ?Et; simpl; eexists; done]).
Qed.

Lemma executor_moves w t :
  object w = Some t → evt_start t = true → evt_pause t = true → executor w ≠ EExited →
  ∃ w', task_executor 0 w = Some w'.
Proof.
  intros Et Hs Hp Hx. unfold task_executor, cancel_in_routine, on_object. rewrite Et, Hs, Hp.
  destruct (executor w); try done; repeat case_match; by eexists.
Qed.

(** Somebody can always move. *)
Lemma stopping_moves w : stopping w → ∃ l w', permitted w l ∧ exec l w = Some w'.
Proof.
  intros Hs. destruct (stopping_told w Hs) as (t & Et & Hp & Hst & Hc & Hd). destruct Hs as [Hi Hon _].
  destruct (caller_of w 0) eqn:Ec; simpl in Hon, Hc; try lia; try done;
    try (exists (Move 0); unfold exec, caller_step, on_object; rewrite Ec, Et; by eexists).
  - destruct Hc as (H1 & _ & H2 & H3). destruct (evt_finish t) eqn:Ef.
    + exists (Move 0). unfold exec, caller_step, on_object. rewrite Ec, Et, Ef. by eexists.
    + destruct (executor_moves w t Et H2 Hp) as (w' & E); [|by exists (Exec 0), w'].
      intros Hx. rewrite Hx in H3. by specialize (H3 eq_refl).
  - destruct Hc as (_ & H2). destruct (decide (executor w = EExited)) as [Hx|Hx].
    + exists (Move 0). unfold exec, caller_step, on_object. rewrite Ec, Et, decide_True by done. by eexists.
    + destruct (executor_moves w t Et H2 Hp Hx) as (w' & E). by exists (Exec 0), w'.
Qed.

(** Nothing else happens during a stop. *)
Lemma stopping_step w l w' :
  stopping w → permitted w l → exec l w = Some w' →
  (todo w' < todo w)%nat ∧ (budget w' ≤ budget w)%nat ∧ (stopping w' ∨ object w' = None).
Proof.
  intros Hs Hp E. pose proof Hs as [[_ Hc Hu _] Hon _]. destruct l as [n| |u c|u|u]; simpl in E, Hp.
  - destruct (executor_nearer n w w' Hs E) as (? & ? & ?). auto.
  - by rewrite Hc in E.
  - destruct Hp as (-> & _). destruct (caller_of w 0); simpl in Hon, E; done || lia.
  - destruct (caller_nearer u w w' Hs E) as (? & -> & ?). auto.
  - destruct (decide (u = 0%nat)) as [->|Hn]; [|unfold expire in E; by rewrite (Hu u Hn) in E].
    unfold expire in E. destruct (caller_of w 0); simpl in Hon, E, Hp; try done; lia.
Qed.

(** After its end nobody moves. *)
Lemma ended w l w' : inv w → object w = None → permitted w l → exec l w = Some w' → False.
Proof.
  intros [_ Hc Hu Ho] Et Hp E. rewrite Et in Ho. destruct Ho as (Hx & m & Hb).
  assert (∀ u, caller_step u w = None ∧ expire u w = None) as Hno.
  { intros u. unfold caller_step, expire. destruct (decide (u = 0%nat)) as [->|Hn]; [by rewrite Hb|by rewrite (Hu u Hn)]. }
  destruct l as [n| |u c|u|u]; simpl in E, Hp.
  - unfold task_executor in E. by rewrite Hx in E.
  - by rewrite Hc in E.
  - destruct Hp as (_ & Hp & _). by rewrite Hb in Hp.
  - by rewrite (proj1 (Hno u)) in E.
  - by rewrite (proj2 (Hno u)) in E.
Qed.

(** C14: a stop of a task that is not paused ends.  From the moment it has set
    the event, the executor and the stop have 15 steps together, in any order;
    the function runs at most once more; and as long as the stop has not
    answered success, one of them can move. *)
Theorem stop_completes (t : task) (n k : nat) (w w' : world) (tout : Z) (t1 : task) :
  duration t ≠ CPLUS_INFINITE_TIMEOUT → evt_stop t = false → reaches (created t) n w →
  caller_of w 0 = StopLook tout → object w = Some t1 → evt_pause t1 = true → reaches w k w' →
  (k ≤ 15)%nat ∧ (runs w' ≤ S (runs w))%nat
  ∧ ((∃ l w'', permitted w' l ∧ exec l w' = Some w'')
     ∨ object w' = None ∧ executor w' = EExited ∧ ∃ m, caller_of w' 0 = Back (Stop m) CPLUS_SUCCESS None).
Proof.
  intros Hd Hs Hr Hc Et Hp Hk. pose proof (inv_reaches _ _ _ (inv_created t Hd Hs) Hr) as Hi.
  assert (Hstop : stopping w) by (split; [done|rewrite Hc; simpl; lia|eauto]).
  assert (todo w ≤ 15)%nat as H15 by (unfold todo; rewrite Hc; simpl; destruct (executor w); simpl; lia).
  assert (budget w ≤ S (runs w))%nat as Hb by (unfold budget; case_decide; lia).
  assert (inv w' ∧ (todo w' + k ≤ todo w)%nat ∧ (budget w' ≤ budget w)%nat ∧ (stopping w' ∨ object w' = None)) as (Hi' & Ht & Hb' & Hw').
  { clear - Hstop Hk. induction Hk as [|k w1 l w2 _ (Hi & Ht & Hb & Hw) Hl E]; [split_and!; [apply Hstop|lia|lia|by left]|].
    split; [by eapply inv_step|]. destruct Hw as [Hw|Hw]; [|by destruct (ended w1 l w2 Hi Hw Hl E)].
    destruct (stopping_step w1 l w2 Hw Hl E) as (? & ? & ?). split_and!; [lia|lia|done]. }
  assert (runs w' ≤ budget w')%nat by (unfold budget; case_decide; lia).
  split; [lia|]. split; [lia|].
  destruct Hw' as [Hw'|Hw']; [left; by apply stopping_moves|right]. destruct Hi' as [_ _ _ Ho]. by rewrite Hw' in Ho.
Qed.

(** A task that is started, runs once and is stopped. *)
Definition looping : task := mkTask false 10 false false false true.

#[export] Instance permitted_dec w l : Decision (permitted w l).
Proof. destruct l as [n| |u c|u|u]; simpl; try apply _. destruct (caller_of w u); apply _. Defined.

Fixpoint follow (ls : list label) (w : world) : option world :=
  match ls with
  | [] => Some w
  | l :: ls => if decide (permitted w l) then exec l w ≫= follow ls else None
  end.

Lemma follow_reaches w0 ls n w w' : reaches w0 n w → follow ls w = Some w' → reaches w0 (n + length ls) w'.
Proof.
  revert n w. induction ls as [|l ls IH]; intros n w Hr E; simpl in E; [simplify_eq; by rewrite Nat.add_0_r|].
  case_decide as Hl; [|done]. destruct (exec l w) as [w1|] eqn:E1; [|done]. simpl in E |- *.
  rewrite <- Nat.add_succ_comm. apply (IH _ w1); [|done]. by eapply reaches_step.
Qed.

(** Started, run once, stopped from the pause between two turns. *)
Definition starting : list label :=
  [Move 0; Call 0 Start; Move 0; Exec 0; Exec 0; Exec 0; Exec 0; Exec 0; Exec 0; Exec 3; Call 0 (Stop 500); Move 0].
Definition ending : list label := [Exec 0; Move 0; Exec 0; Move 0; Exec 0; Exec 0; Move 0; Move 0].

Theorem stop_is_clean_witness :
  ∃ w, follow (starting ++ ending) (created looping) = Some w ∧ dangling w = false ∧ object w = None
    ∧ executor w = EExited.
Proof.
  eexists. split; [vm_compute; reflexivity|].
  assert (Hr : reaches (created looping) (0 + length (starting ++ ending)) _) by
    (eapply (follow_reaches _ (starting ++ ending)); [apply reaches_here|vm_compute; reflexivity]).
  destruct (stop_is_clean looping _ _ ltac:(done) eq_refl Hr) as [H1 H2].
  split; [exact H1|]. split; [reflexivity|exact (proj1 (H2 eq_refl))].
Defined.

Theorem stop_completes_witness :
  let w := default (created looping) (follow starting (created looping)) in
  let w' := default w (follow ending w) in
  caller_of w 0 = StopLook 500 ∧ object w' = None ∧ (length ending ≤ 15)%nat ∧ (runs w' ≤ S (runs w))%nat.
Proof.
  intros w w'.
  assert (Hr : reaches (created looping) (0 + length starting) w) by
    (apply (follow_reaches _ starting _ _ _ (reaches_here _)); vm_compute; reflexivity).
  assert (Hk : reaches w (0 + length ending) w') by
    (apply (follow_reaches _ ending _ _ _ (reaches_here _)); vm_compute; reflexivity).
  destruct (stop_completes looping _ _ w w' 500 (default looping (object w)) ltac:(done) eq_refl Hr eq_refl eq_refl eq_refl Hk)
    as (H1 & H2 & _).
  split; [reflexivity|]. split; [reflexivity|]. split; [exact H1|exact H2].
Defined.

(** ** One shot *)

Definition oneshot (b : bool) : task :=
  match task_initialize_object (cplus_task_oneshot_ex b) true [true; true; true; true] 0 with
  | Made t => t | NotMade _ => looping
  end.

(** What others may do with a task that deletes itself: call its functions while
    it is there, but not delete it or change its duration, and be back before the
    executor deletes it. *)
Definition careful (w : world) (l : label) : Prop :=
  match l with
  | Call u c => is_Some (object w) ∧ match c with Delete | SetDuration _ => False | _ => True end
  | Exec _ => executor w = ECleanup → map_Forall (λ _ p, outside p = true) (callers w)
  | _ => True
  end.

Inductive carefully (w0 : world) : nat → world → Prop :=
| carefully_here : carefully w0 0 w0
| carefully_step n w l w' : carefully w0 n w → careful w l → exec l w = Some w' → carefully w0 (S n) w'.

(** Whether the function has been run. *)
Definition ran (e : place) : bool :=
  match e with ESetFinish | EDuration | ELastFinish | ECleanup | EExited => true | _ => false end.

(** Where a caller may be. *)
Definition caller_careful (p : caller) : Prop :=
  match p with
  | Outside | Back _ _ _ | PauseSet _ => True
  | Creating d => d = CPLUS_INFINITE_TIMEOUT
  | Begin c => match c with Delete | SetDuration _ => False | _ => True end
  | _ => False
  end.

Record once (b : bool) (w : world) : Prop := Once {
  once_dangling : dangling w = false;
  once_cancelled : cancelled w = false;
  once_callers : map_Forall (λ _ p, caller_careful p) (callers w);
  once_runs : runs w = (if ran (executor w) then 1 else 0)%nat;
  once_object :
    match object w with
    | Some t => duration t = CPLUS_INFINITE_TIMEOUT ∧ callback t = b ∧ evt_stop t = false ∧ callbacks w = 0%nat
        ∧ executor w ≠ EExited ∧ executor w ≠ ENap
    | None => executor w = EExited ∧ callbacks w = (if b then 1 else 0)%nat
        ∧ map_Forall (λ _ p, outside p = true) (callers w)
    end }.

Lemma caller_in (P : caller → Prop) w u : map_Forall (λ _ p, P p) (callers w) → P Outside → P (caller_of w u).
Proof. intros H H0. unfold caller_of. destruct (callers w !! u) eqn:E; [by eapply H|done]. Qed.

Lemma once_made config memory events error t :
  task_initialize_object config memory events error = Made t → period config = CPLUS_INFINITE_TIMEOUT →
  once (with_callback config) (created t).
Proof.
  unfold task_initialize_object. intros E Hp. repeat case_match; simplify_eq. split; simpl; try done.
  intros u p Hu. unfold created in Hu. simpl in Hu. apply lookup_singleton_Some in Hu as [_ <-]. done.
Qed.

(** The executor moves. *)
Lemma once_exec b n w w' : once b w → careful w (Exec n) → task_executor n w = Some w' → once b w'.
Proof.
  intros [Hd Hc Hu Hr Ho] Hok E. unfold task_executor, cancel_in_routine, on_object in E.
  destruct (object w) as [t|] eqn:Et; [|by destruct Ho as [Ee _]; rewrite Ee in E].
  destruct Ho as (Hdur & Hb & Hs & Hcb & Hx & Hn). simpl in Hok.
  destruct (executor w) eqn:Ee; rewrite ?Hdur, ?Hs, ?Z.eqb_refl in E; try done;
    repeat case_match; simplify_eq; split; simpl; rewrite ?Et; simpl; try done; try (by rewrite Hr); try (by split_and!);
    (split_and!; [done|congruence|by apply Hok]).
Qed.

(** A caller moves to [p] and leaves the object at [t1]. *)
Lemma once_move b w u p t t1 :
  once b w → object w = Some t → caller_careful p →
  (duration t1, callback t1, evt_stop t1) = (duration t, callback t, evt_stop t) →
  once b (move_to u p (change (λ _, t1) w)).
Proof.
  intros [Hd Hc Hu Hr Ho] Et Hp [= E1 E2 E3]. rewrite Et in Ho. destruct Ho as (Hdur & Hb & Hs & Hrest).
  split; simpl; try done; [by apply map_Forall_insert_2|].
  rewrite Et. simpl. split_and!; try congruence; apply Hrest.
Qed.

Lemma once_stay b w u p : once b w → is_Some (object w) → caller_careful p → once b (move_to u p w).
Proof.
  intros H [t Et] Hp. replace (move_to u p w) with (move_to u p (change (λ _, t) w)); [by eapply once_move|].
  unfold change. rewrite Et. destruct w. simpl in *. by subst.
Qed.

Lemma once_caller b u w w' : once b w → caller_step u w = Some w' → once b w'.
Proof.
  intros H E. pose proof H as [_ _ Hu _ Ho]. pose proof (caller_in _ _ u Hu I) as Hp.
  destruct (object w) as [t|] eqn:Et.
  2:{ pose proof (caller_in _ _ u (proj2 (proj2 Ho)) eq_refl) as Hout. unfold caller_step in E. by destruct (caller_of w u). }
  destruct Ho as (Hdur & _).
  assert (Hstay : ∀ p, caller_careful p → once b (move_to u p w)) by (intros; by apply once_stay; [..|by eexists|]).
  assert (Hmove : ∀ p f, caller_careful p → (duration (f t), callback (f t), evt_stop (f t)) = (duration t, callback t, evt_stop t) →
    once b (move_to u p (change f w))).
  { intros p f Hq Hf. replace (change f w) with (change (λ _, f t) w) by (unfold change; by rewrite Et). by eapply once_move. }
  unfold caller_step in E. destruct (caller_of w u) as [|d|c| | | | | | |pause|]; try done; simpl in Hp.
  - unfold on_object in E. rewrite Et, Hp, Z.eqb_refl in E. simplify_eq. by apply Hstay.
  - unfold begin, cplus_task_stop, cplus_task_pause, on_object, wait_event in E. rewrite Et, ?Hdur in E.
    destruct c; try done; repeat case_match; simplify_eq; first [by apply Hstay|by apply Hmove].
  - unfold on_object in E. rewrite Et in E. simplify_eq. by apply Hmove.
Qed.

Lemma once_step b w l w' : once b w → careful w l → exec l w = Some w' → once b w'.
Proof.
  intros H Hok E. pose proof H as [_ Hc Hu _ Ho]. destruct l as [n| |u c|u|u]; simpl in E.
  - by eapply once_exec.
  - by rewrite Hc in E.
  - destruct (outside (caller_of w u)); [|done]. simplify_eq. destruct Hok. by apply once_stay.
  - by eapply once_caller.
  - pose proof (caller_in _ _ u Hu I) as Hp. unfold expire in E. destruct (caller_of w u) as [| |c| | | | | | | |] eqn:Ec; try done.
    destruct (object w) as [t|] eqn:Et.
    2:{ pose proof (caller_in _ _ u (proj2 (proj2 Ho)) eq_refl) as Hout. by rewrite Ec in Hout. }
    destruct c; try done; case_match; simplify_eq; (apply once_stay; [done|by eexists|done]).
Qed.

(** The steps an executor that is not held up has left. *)
Definition steps_left (e : place) : nat :=
  match e with
  | EWaitStart => 9 | ECheckStop => 8 | EStatus | EWaitPause => 7 | EResetFinish => 6 | ERun => 5 | ESetFinish => 4
  | EDuration => 3 | ELastFinish => 2 | ECleanup => 1 | ENap | EExited => 0
  end.

Lemma once_moves b w t :
  once b w → object w = Some t → evt_start t = true → evt_pause t = true →
  ∃ w', exec (Exec 0) w = Some w' ∧ (steps_left (executor w') < steps_left (executor w))%nat
    ∧ (executor w' = EExited ∨ ∃ t', object w' = Some t' ∧ evt_start t' = true ∧ evt_pause t' = true).
Proof.
  intros [_ _ _ _ Ho] Et Hs Hp. rewrite Et in Ho. destruct Ho as (Hdur & _ & Hst & _ & Hx & Hn).
  cbn [exec]. unfold task_executor, cancel_in_routine, on_object. rewrite Et, Hs, Hp, Hst, Hdur, Z.eqb_refl.
  destruct (executor w) eqn:Ee; try done; (eexists; split; [reflexivity|]); simpl; (split; [lia|]);
    first [by left|right]; unfold change; simpl; rewrite ?Et; simpl; by eexists.
Qed.

Lemma executor_callers n w w' : task_executor n w = Some w' → callers w' = callers w.
Proof.
  unfold task_executor, cancel_in_routine, on_object. intros E.
  destruct (executor w), (object w) as [t|]; try done; repeat case_match; by simplify_eq.
Qed.

Lemma once_ends b w0 n w t :
  carefully w0 n w → once b w → object w = Some t → evt_start t = true → evt_pause t = true →
  map_Forall (λ _ p, outside p = true) (callers w) →
  ∃ k w', (k ≤ steps_left (executor w))%nat ∧ carefully w0 (n + k) w' ∧ executor w' = EExited.
Proof.
  remember (steps_left (executor w)) as m eqn:Em. assert (steps_left (executor w) ≤ m)%nat as Hm by lia. clear Em.
  revert n w t Hm. induction m as [|m IH]; intros n w t Hm Hr H Et Hs Hp Hout;
    destruct (once_moves b w t H Et Hs Hp) as (w1 & E1 & Hl & Hw1); [lia|].
  assert (careful w (Exec 0)) as Hok by (by intros _).
  pose proof (carefully_step _ _ _ _ _ Hr Hok E1) as Hr1.
  destruct Hw1 as [He|(t1 & Et1 & Hs1 & Hp1)].
  { exists 1%nat, w1. split; [lia|]. by rewrite Nat.add_1_r. }
  destruct (IH (S n) w1 t1) as (k & w' & Hk & Hr' & He); [lia|done|by eapply once_step|done..| |].
  { by rewrite (executor_callers _ _ _ E1). }
  exists (S k), w'. split; [lia|]. by rewrite Nat.add_succ_r.
Qed.

(** C38: a task of infinite duration, whatever the callers do that is careful of
    it and however the executor moves: the function is never run a second time,
    the callback, if there is one, is called only after it, and the object is
    deleted by the executor in its last step, when both have been, and never used
    after that.  Once it is started, is not paused and its callers are back, the
    executor comes to its end in at most nine steps. *)
Theorem oneshot_runs_once config memory events error t n w :
  task_initialize_object config memory events error = Made t → period config = CPLUS_INFINITE_TIMEOUT →
  carefully (created t) n w →
  dangling w = false ∧ (callbacks w ≤ runs w ≤ 1)%nat ∧ (object w = None ↔ executor w = EExited)
  ∧ (executor w = EExited → runs w = 1%nat ∧ callbacks w = (if with_callback config then 1 else 0)%nat)
  ∧ ∀ t1, object w = Some t1 → evt_start t1 = true → evt_pause t1 = true →
      map_Forall (λ _ p, outside p = true) (callers w) →
      ∃ k w', (k ≤ 9)%nat ∧ carefully (created t) (n + k) w' ∧ executor w' = EExited.
Proof.
  intros Hm Hp Hr.
  assert (once (with_callback config) w) as H.
  { clear - Hm Hp Hr. induction Hr; [by eapply once_made|by eapply once_step]. }
  split; [apply H|]. split_and!.
  - destruct H as [_ _ _ -> Ho]. destruct (object w); [destruct Ho as (_ & _ & _ & -> & _); lia|].
    destruct Ho as (-> & -> & _). simpl. destruct (with_callback config); lia.
  - destruct H as [_ _ _ -> _]. destruct (ran _); lia.
  - destruct H as [_ _ _ _ Ho]. destruct (object w); [|tauto]. split; [done|]. by intros E; destruct Ho as (_ & _ & _ & _ & ? & _).
  - intros E. destruct H as [_ _ _ Hr' Ho]. rewrite E in *. destruct (object w); [|by destruct Ho as (_ & -> & _)].
    by destruct Ho as (_ & _ & _ & _ & ? & _).
  - intros t1 Et Hs Hpa Hout. destruct (once_ends _ _ _ _ _ Hr H Et Hs Hpa Hout) as (k & w' & Hk & Hr' & He).
    exists k, w'. split; [|done]. destruct (executor w); simpl in Hk; lia.
Qed.

#[export] Instance careful_dec w l : Decision (careful w l).
Proof. destruct l as [n| |u c|u|u]; simpl; try apply _. apply and_dec; [apply _|]. destruct c; apply _. Defined.

Fixpoint follow_carefully (ls : list label) (w : world) : option world :=
  match ls with
  | [] => Some w
  | l :: ls => if decide (careful w l) then exec l w ≫= follow_carefully ls else None
  end.

Lemma follow_carefully_reaches w0 ls n w w' :
  carefully w0 n w → follow_carefully ls w = Some w' → carefully w0 (n + length ls) w'.
Proof.
  revert n w. induction ls as [|l ls IH]; intros n w Hr E; simpl in E; [simplify_eq; by rewrite Nat.add_0_r|].
  case_decide as Hl; [|done]. destruct (exec l w) as [w1|] eqn:E1; [|done]. simpl in E |- *.
  rewrite <- Nat.add_succ_comm. apply (IH _ w1); [|done]. by eapply carefully_step.
Qed.

(** One that is asked for its duration before its creator is back. *)
Definition asking : list label := [Exec 0; Call 1 GetDuration; Exec 0; Move 1; Move 0].
Definition asked : world := default (created (oneshot true)) (follow_carefully asking (created (oneshot true))).

Theorem oneshot_runs_once_witness :
  caller_of asked 1 = Back GetDuration CPLUS_INFINITE_TIMEOUT None ∧ dangling asked = false
  ∧ ∃ k w', (k ≤ 9)%nat ∧ carefully (created (oneshot true)) (0 + length asking + k) w' ∧ executor w' = EExited.
Proof.
  assert (carefully (created (oneshot true)) (0 + length asking) asked) as Hr
    by (apply (follow_carefully_reaches _ asking _ _ _ (carefully_here _)); vm_compute; reflexivity).
  destruct (oneshot_runs_once (cplus_task_oneshot_ex true) true [true; true; true; true] 0 (oneshot true) _ asked eq_refl eq_refl Hr)
    as (H1 & _ & _ & _ & H2).
  split; [vm_compute; reflexivity|]. split; [exact H1|]. apply (H2 (oneshot true)); [vm_compute; reflexivity..|].
  apply (bool_decide_unpack _). vm_compute. exact I.
Defined.

(** ** Uses after the deletion *)

(** Code bug: the creator of a one-shot task may read the object after the
    executor has deleted it: [pthread_detach] is given [task->thread] only
    after the thread was made. *)
Theorem oneshot_creator_dangles (b : bool) :
  ∃ w, run (replicate 9 (Exec 0) ++ [Move 0]) (created (oneshot b)) = Some w ∧ dangling w = true.
Proof. destruct b; eexists; (split; [vm_compute; reflexivity|reflexivity]). Qed.

(** Code bug: a stop whose time runs out cancels the executor, which is
    asynchronous, and deletes the object at once: the next step of an executor
    that has not exited uses the deleted object. *)
Theorem timed_out_stop_dangles (w : world) (t : task) (timeout elapsed : Z) :
  caller_of w 0 = StopWait timeout → timeout ≠ 0 → object w = Some t → executor w ≠ EExited →
  ∃ w1 w2, run [Expire 0; Move 0; Move 0] w = Some w1 ∧ object w1 = None
    ∧ caller_of w1 0 = Back (Stop timeout) CPLUS_FAIL (Some ETIMEDOUT)
    ∧ exec (Exec elapsed) w1 = Some w2 ∧ dangling w2 = true.
Proof.
  intros Hc Ht Et Hx.
  set (w0 := move_to 0 (StopDelete timeout CPLUS_FAIL (Some ETIMEDOUT)) (cancel (move_to 0 (StopCancel timeout) w))).
  set (w1 := move_to 0 (Back (Stop timeout) CPLUS_FAIL (Some ETIMEDOUT)) (set_object None w0)).
  assert (∃ w2, task_executor elapsed w1 = Some w2 ∧ dangling w2 = true) as (w2 & E2 & Hw2).
  { unfold task_executor, cancel_in_routine, on_object. change (executor w1) with (executor w). simpl.
    destruct (executor w); done || by eexists. }
  assert (expire 0 w = Some (move_to 0 (StopCancel timeout) w)) as E1.
  { unfold expire. by rewrite Hc, (proj2 (Z.eqb_neq timeout 0)). }
  assert (caller_step 0 (move_to 0 (StopCancel timeout) w) = Some w0) as E3.
  { unfold caller_step. rewrite caller_moved, decide_True by done. unfold on_object. simpl object. rewrite Et.
    by rewrite (proj2 (Z.eqb_neq timeout 0)). }
  assert (caller_step 0 w0 = Some w1) as E4.
  { unfold caller_step. unfold w0 at 1. rewrite caller_moved, decide_True by done. unfold on_object. simpl object. by rewrite Et. }
  exists w1, w2. split; [simpl; rewrite E1; simpl; rewrite E3; simpl; by rewrite E4|].
  split; [done|]. split; [by unfold w1; rewrite caller_moved, decide_True|done].
Qed.

(** Code bug: a stop does not resume a paused task.  An executor that
    waits to be resumed stays where it is, and the stop can only time out. *)
Theorem paused_stop_waits (w : world) (t : task) (timeout : Z) (l : label) (w' : world) :
  executor w = EWaitPause → object w = Some t → evt_pause t = false → evt_finish t = false → cancelled w = false →
  caller_of w 0 = StopWait timeout → timeout ≠ 0 → (∀ u, u ≠ 0%nat → caller_of w u = Outside) →
  exec l w = Some w' → l = Expire 0 ∨ ∃ u c, l = Call u c ∧ u ≠ 0%nat.
Proof.
  intros Hx Et Hp Hf Hc Hcal Ht Hu E. destruct l as [n| |u c|u|u]; simpl in E.
  - unfold task_executor, on_object in E. by rewrite Hx, Et, Hp in E.
  - by rewrite Hc in E.
  - right. exists u, c. split; [done|]. intros ->. by rewrite Hcal in E.
  - destruct (decide (u = 0%nat)) as [->|Hn]; [|unfold caller_step in E; by rewrite (Hu u Hn) in E].
    unfold caller_step, on_object in E. by rewrite Hcal, Et, Hf, (proj2 (Z.eqb_neq timeout 0) Ht) in E.
  - destruct (decide (u = 0%nat)) as [->|Hn]; [by left|]. unfold expire in E. by rewrite (Hu u Hn) in E.
Qed.

(** Paused, then stopped with the default time. *)
Definition pausing : list label :=
  [Move 0; Call 0 Start; Move 0; Call 0 (Pause true); Move 0; Move 0; Exec 0; Exec 0; Exec 0;
   Call 0 (Stop CPLUS_INFINITE_TIMEOUT); Move 0; Move 0].

Definition paused : world := default (created looping) (run pausing (created looping)).

Theorem timed_out_stop_dangles_witness :
  ∃ w1, run (pausing ++ [Expire 0; Move 0; Move 0]) (created looping) = Some w1
    ∧ caller_of w1 0 = Back (Stop MAX_WAIT_STOP_TIME) CPLUS_FAIL (Some ETIMEDOUT)
    ∧ ∃ w2, exec (Exec 0) w1 = Some w2 ∧ dangling w2 = true.
Proof.
  destruct (timed_out_stop_dangles paused (default looping (object paused)) MAX_WAIT_STOP_TIME 0 eq_refl ltac:(done) eq_refl ltac:(done))
    as (w1 & w2 & E1 & _ & E2 & E3 & E4).
  exists w1. split; [exact E1|]. split; [exact E2|]. exists w2. split; [exact E3|exact E4].
Defined.

Theorem paused_stop_waits_witness :
  run pausing (created looping) = Some paused ∧ exec (Exec 0) paused = None ∧ exec (Move 0) paused = None
  ∧ ∀ l w', exec l paused = Some w' → l = Expire 0 ∨ ∃ u c, l = Call u c ∧ u ≠ 0%nat.
Proof.
  split; [vm_compute; reflexivity|]. split; [reflexivity|]. split; [reflexivity|]. intros l w' E.
  apply (paused_stop_waits paused (default looping (object paused)) MAX_WAIT_STOP_TIME l w'); try reflexivity; [done| |exact E].
  intros u Hu. unfold caller_of.
  assert (callers paused = {[0%nat := StopWait MAX_WAIT_STOP_TIME]}) as -> by (vm_compute; reflexivity).
  by rewrite lookup_singleton_ne.
Defined.

End TaskProps.
