(* ===== verification/TaskPool.v ===== *)
(** * TaskPool: workers that run the tasks of a queue (src/taskpool.c)

    The pool is the queue, a linked list of blocks of a memory pool, a
    semaphore that counts the tasks, and the list of the workers, each a task
    (Task.v) whose function is [task_worker].  The list and the memory pool are
    used through their specifications (LlistSpec.v, Mempool.v): a call that
    breaks their contract is recorded in [broken].  What a thread does between
    [cplus_crit_sect_enter] and [cplus_crit_sect_exit] on [task_access_sect] is
    one step; [worker_access_sect] is held over many steps. *)

From S2P Require Import Prelude Zlist Mempool LlistSpec Semaphore.
From stdpp Require Import base numbers list option gmap.
From Stdlib Require Import ZArith Lia.
Open Scope Z_scope.

Module TaskPool.

Definition OBJ_TYPE : Z := OBJ_NONE + SYS + 3.
Definition MAX_TASK_COUNT : Z := 255.
Definition MAX_WORKER_COUNT : Z := 32.
Definition TIMEOUT_FOR_TERMINAL_WORKER : Z := 1000 * 15.

(** Functions and their arguments are addresses; 0 is the null pointer. *)
Record cplus_taskpool_task := Task { proc : Z; param1 : Z; param2 : Z; callback : Z }.
#[export] Instance task_eq_dec : EqDecision cplus_taskpool_task.
Proof. solve_decision. Defined.

(** A worker, in a turn of its task: between two turns; in
    [cplus_semaphore_wait_poll]; before the critical section; before the
    function, and before the callback, of the task it fetched. *)
Inductive place :=
| BetweenTurns | Waiting | Fetching | Running (t : cplus_taskpool_task) | CallingBack (t : cplus_taskpool_task).
#[export] Instance pool_place_eq_dec : EqDecision place.
Proof. solve_decision. Defined.

(** [evt_pause] is the event of the task of the worker: false when paused. *)
Record worker := Worker { at_place : place; evt_pause : bool }.

Record taskpool := Pool {
  stack_size : Z;
  get_task_cycling : bool;
  max_task_count : Z;                      (* the size of the list and of the pool of blocks *)
  mem_start : Z;                           (* of the pool of blocks *)
  task_list : LlistSpec.view;
  task_pool : list Z;                      (* the free blocks, by index *)
  contents : gmap Z cplus_taskpool_task;   (* of the blocks, by index *)
  remain_taskpool : Z;
  worker_access_sect : option nat;
  worker_list : list worker }.

Definition set_list (v : LlistSpec.view) (p : taskpool) := Pool (stack_size p) (get_task_cycling p) (max_task_count p) (mem_start p) v (task_pool p) (contents p) (remain_taskpool p) (worker_access_sect p) (worker_list p).
Definition set_free (l : list Z) (p : taskpool) := Pool (stack_size p) (get_task_cycling p) (max_task_count p) (mem_start p) (task_list p) l (contents p) (remain_taskpool p) (worker_access_sect p) (worker_list p).
Definition set_contents (i : Z) (t : cplus_taskpool_task) (p : taskpool) := Pool (stack_size p) (get_task_cycling p) (max_task_count p) (mem_start p) (task_list p) (task_pool p) (<[i := t]> (contents p)) (remain_taskpool p) (worker_access_sect p) (worker_list p).
Definition set_remain (n : Z) (p : taskpool) := Pool (stack_size p) (get_task_cycling p) (max_task_count p) (mem_start p) (task_list p) (task_pool p) (contents p) n (worker_access_sect p) (worker_list p).
Definition set_sect (u : option nat) (p : taskpool) := Pool (stack_size p) (get_task_cycling p) (max_task_count p) (mem_start p) (task_list p) (task_pool p) (contents p) (remain_taskpool p) u (worker_list p).
Definition set_workers (l : list worker) (p : taskpool) := Pool (stack_size p) (get_task_cycling p) (max_task_count p) (mem_start p) (task_list p) (task_pool p) (contents p) (remain_taskpool p) (worker_access_sect p) l.

(** ** The queue *)

(** [sizeof(struct cplus_taskpool_task)]. *)
Definition task_size : Z := 32.
Definition block_of (p : taskpool) (i : Z) : Z := mem_start p + task_size * i.
Definition index_of (p : taskpool) (a : Z) : Z := (a - mem_start p) `div` task_size.
Definition task_at (p : taskpool) (a : Z) : option cplus_taskpool_task := contents p !! index_of p a.

(** Every section below answers [None] when it breaks the contract of the list
    or of the memory pool. *)
Definition list_call (c : LlistSpec.command) (p : taskpool) : Z * taskpool :=
  let '(r, _, v) := LlistSpec.spec (task_list p) c in (r, set_list v p).

Definition pool_free (a : Z) (p : taskpool) : option taskpool :=
  '(_, l) ← Mempool.spec_step (max_task_count p) task_size (Mempool.Free (index_of p a)) (task_pool p);
  Some (set_free l p).

(** The list has room for [max_task_count] nodes. *)
Definition push_front (a : Z) (p : taskpool) : Z * taskpool :=
  if zlen (LlistSpec.items (task_list p)) <? max_task_count p then list_call (LlistSpec.PushFront a) p
  else (CPLUS_FAIL, p).

Definition cplus_taskpool_add_task_ex (t : cplus_taskpool_task) (p : taskpool) : option (Z * option Z * taskpool) :=
  let (task_count, _) := list_call LlistSpec.GetSize p in
  if task_count <? MAX_TASK_COUNT then
    '(block, l) ← Mempool.spec_step (max_task_count p) task_size Mempool.Alloc (task_pool p);
    match block with
    | Some i => let (res, p') := push_front (block_of p i) (set_contents i t (set_free l p)) in Some (res, None, p')
    | None => Some (CPLUS_FAIL, Some ENOMEM, p)
    end
  else Some (CPLUS_FAIL, Some ENOMEM, p).

(** The tasks [comparator] has seen, the answer of [cplus_llist_pop_if]. *)
Definition matching (comparator : cplus_taskpool_task → Z) (p : taskpool) (a : Z) : Z :=
  match task_at p a with Some t => comparator t | None => 0 end.

Definition cplus_taskpool_remove_task (comparator : cplus_taskpool_task → Z) (p : taskpool)
    : option (option cplus_taskpool_task * taskpool) :=
  let (a, p') := list_call (LlistSpec.PopIf (Some (matching comparator p))) p in
  if a =? 0 then Some (None, p') else p'' ← pool_free a p'; Some (task_at p a, p'').

Definition cplus_taskpool_get_task_count (p : taskpool) : Z := fst (list_call LlistSpec.GetSize p).

(** [while ((task = cplus_llist_pop_back(tp->task_list)))], in at most [fuel] turns;
    the tasks in the order they went. *)
Fixpoint clear_tasks (fuel : nat) (p : taskpool) : option (list cplus_taskpool_task * taskpool) :=
  match fuel with
  | O => None
  | S fuel =>
      let (a, p') := list_call LlistSpec.PopBack p in
      if a =? 0 then Some ([], p')
      else
        t ← task_at p a;
        p'' ← pool_free a p';
        '(l, p3) ← clear_tasks fuel p''; Some (t :: l, p3)
  end.
Definition cplus_taskpool_clear_task (p : taskpool) : option (list cplus_taskpool_task * taskpool) :=
  clear_tasks (S (length (LlistSpec.items (task_list p)))) p.

(** The critical section of [task_worker]: the task that was fetched, if any.
    Without a task to fetch [task_t] stays zero, and nothing is run. *)
Definition fetch_task (p : taskpool) : option (option cplus_taskpool_task * taskpool) :=
  let (task_count, _) := list_call LlistSpec.GetSize p in
  if 0 <? task_count then
    let (a, p') := list_call (if get_task_cycling p then LlistSpec.GetCyclingNext else LlistSpec.PopBack) p in
    if a =? 0 then Some (None, p')
    else
      t ← task_at p a;
      if get_task_cycling p then Some (Some t, p')
      else p'' ← pool_free a p'; Some (Some t, p'')
  else Some (None, p).

(** ** Making a pool *)

Record cplus_taskpool_config := Config {
  worker_count : Z; config_max_task_count : Z; config_stack_size : Z; config_cycling : bool }.

(** A new worker: its task was started. *)
Definition new_worker : worker := Worker BetweenTurns true.

(** A pool, or what was released: the parts of the pool, and the workers that were stopped. *)
Inductive made := Made (p : taskpool) | NotMade (released stopped : nat).

(** [parts]: which of the seven parts can be made; [executors]: which tasks. *)
Fixpoint made_parts (parts : list bool) : nat :=
  match parts with true :: parts => S (made_parts parts) | _ => 0%nat end.

Definition taskpool_initialize_object (config : cplus_taskpool_config) (memory : bool) (start : Z)
    (parts executors : list bool) : made :=
  if memory then
    let good := made_parts (take 7 parts) in
    if (good =? 7)%nat then
      let n := Z.to_nat (worker_count config) in
      let started := made_parts (take n executors) in
      if (started =? n)%nat then
        Made (Pool (config_stack_size config) (config_cycling config) (config_max_task_count config) start
                (LlistSpec.View [] 0 false) (seqZ 0 (config_max_task_count config)) ∅ 0 None (replicate n new_worker))
      else NotMade 7 started
    else NotMade good 0
  else NotMade 0 0.

(** [None]: refused, with [EINVAL]. *)
Definition cplus_taskpool_new (n : Z) : option cplus_taskpool_config :=
  if MAX_WORKER_COUNT <? n then None else Some (Config n MAX_TASK_COUNT 0 false).

Definition cplus_taskpool_new_ex (config : cplus_taskpool_config) (PTHREAD_STACK_MIN : Z) : option cplus_taskpool_config :=
  if (config_max_task_count config <? 1) || (MAX_TASK_COUNT <? config_max_task_count config) then None
  else if MAX_WORKER_COUNT <? worker_count config then None
  else Some (Config (worker_count config) (config_max_task_count config)
    (if negb (config_stack_size config =? 0) then Z.max PTHREAD_STACK_MIN (config_stack_size config) else 0) (config_cycling config)).

Definition cplus_taskpool_check (obj : option Z) : bool :=
  match obj with Some type => type =? OBJ_TYPE | None => false end.

(** ** The threads that use the pool *)

Inductive call :=
| AddTask (t : option cplus_taskpool_task)
| RemoveTask (comparator : option (cplus_taskpool_task → Z))
| ClearTask
| GetTaskCount
| GetWorkerCount
| ResetWorkerCount (n : Z)
| AllPause (pause : bool)
| DeletePool (timeout : Z).

Definition cplus_taskpool_add_task (proc param1 : Z) : call := AddTask (Some (Task proc param1 0 0)).
Definition cplus_taskpool_delete : call := DeletePool TIMEOUT_FOR_TERMINAL_WORKER.

(** A client: outside; at the beginning of a call; in [cplus_semaphore_push],
    at its check and at its post; in [cplus_taskpool_remove_task], after the
    size was read; in the loops of [cplus_taskpool_reset_worker_count], with
    the turns to go; at its end; in the loop of [cplus_taskpool_all_pause], at
    a worker; in the first loop of [cplus_taskpool_delete_ex], and after it;
    back with a result and [errno]. *)
Inductive client :=
| Outside
| Begin (c : call)
| PushCheck
| PushPost
| Removing (comparator : cplus_taskpool_task → Z)
| Shrinking (n : Z) (to_go : nat)
| Growing (n : Z) (to_go : nat)
| CountAgain (n : Z)
| Pausing (pause : bool) (index : nat)
| Stopping (timeout : Z)
| Freeing
| Back (res : Z) (errno : option Z).

(** What happened to the tasks. *)
Inductive event :=
| Added (t : cplus_taskpool_task)
| Fetched (t : cplus_taskpool_task)
| Removed (t : cplus_taskpool_task)
| Ran (t : cplus_taskpool_task)
| CalledBack (t : cplus_taskpool_task).

(** [pool]: until it is deleted; [trace]: the latest event first; [broken]:
    somebody broke the contract of the list or of the memory pool, or used the
    pool after its deletion. *)
Record world := World {
  pool : option taskpool;
  clients : list client;
  trace : list event;
  broken : bool }.

Definition set_pool (p : taskpool) (w : world) : world := World (Some p) (clients w) (trace w) (broken w).
Definition no_pool (w : world) : world := World None (clients w) (trace w) (broken w).
Definition move_to (u : nat) (c : client) (w : world) : world := World (pool w) (<[u := c]> (clients w)) (trace w) (broken w).
Definition record (e : event) (w : world) : world := World (pool w) (clients w) (e :: trace w) (broken w).
Definition records (l : list event) (w : world) : world := World (pool w) (clients w) (l ++ trace w) (broken w).
Definition break (w : world) : world := World (pool w) (clients w) (trace w) true.
Definition client_of (w : world) (u : nat) : option client := clients w !! u.

(** A step that uses the pool; [None]: the thread has to wait. *)
Definition on_pool (w : world) (k : taskpool → option world) : option world :=
  match pool w with Some p => k p | None => Some (break w) end.

(** ** The workers *)

Definition set_place (i : nat) (x : worker) (l : place) (p : taskpool) : taskpool :=
  set_workers (<[i := Worker l (evt_pause x)]> (worker_list p)) p.

(** A step of [task_worker] in worker [i]. *)
Definition task_worker (i : nat) (w : world) : option world :=
  on_pool w (λ p,
    x ← worker_list p !! i;
    match at_place x with
    | BetweenTurns =>
        if evt_pause x then Some (set_pool (set_place i x (if get_task_cycling p then Fetching else Waiting) p) w) else None
    | Waiting =>
        if 0 <? remain_taskpool p then Some (set_pool (set_place i x Fetching (set_remain (remain_taskpool p - 1) p)) w) else None
    | Fetching =>
        match fetch_task p with
        | Some (Some t, p') => Some (record (Fetched t) (set_pool (set_place i x (Running t) p') w))
        | Some (None, p') => Some (set_pool (set_place i x BetweenTurns p') w)
        | None => Some (break w)
        end
    | Running t =>
        let w' := set_pool (set_place i x (CallingBack t) p) w in
        Some (if negb (proc t =? 0) then record (Ran t) w' else w')
    | CallingBack t =>
        let w' := set_pool (set_place i x BetweenTurns p) w in
        Some (if negb (callback t =? 0) then record (CalledBack t) w' else w')
    end).

(** The wait of worker [i] ends without a unit: its time is over, or a signal came. *)
Definition wait_fails (i : nat) (w : world) : option world :=
  on_pool w (λ p,
    x ← worker_list p !! i;
    if decide (at_place x = Waiting) then Some (set_pool (set_place i x BetweenTurns p) w) else None).

(** ** The clients *)

Definition answer (u : nat) (res : Z) (w : world) : world := move_to u (Back res None) w.

(** [cplus_crit_sect_enter(tp->worker_access_sect)]. *)
Definition enter_workers (u : nat) (p : taskpool) (k : taskpool → option world) : option world :=
  match worker_access_sect p with None => k (set_sect (Some u) p) | Some _ => None end.

Definition pool_worker_count (p : taskpool) : Z := Z.of_nat (length (worker_list p)).

(** The first step of [cplus_taskpool_reset_worker_count]. *)
Definition reset_turns (n : Z) (p : taskpool) : client :=
  let current := pool_worker_count p in
  if n <? current then Shrinking n (Z.to_nat (current - n)) else Growing n (Z.to_nat (n - current)).

Definition begin (u : nat) (c : call) (w : world) : option world :=
  on_pool w (λ p,
    match c with
    | AddTask None | RemoveTask None => Some (move_to u (Back CPLUS_FAIL (Some EINVAL)) w)
    | AddTask (Some t) =>
        match cplus_taskpool_add_task_ex t p with
        | Some (res, e, p') =>
            let w' := set_pool p' w in
            if res =? CPLUS_SUCCESS then
              Some (record (Added t) (if get_task_cycling p then answer u CPLUS_SUCCESS w' else move_to u PushCheck w'))
            else Some (move_to u (Back res e) w')
        | None => Some (break w)
        end
    | RemoveTask (Some comparator) =>
        if 0 <? cplus_taskpool_get_task_count p then Some (move_to u (Removing comparator) w)
        else Some (answer u CPLUS_SUCCESS w)
    | ClearTask =>
        match cplus_taskpool_clear_task p with
        | Some (l, p') => Some (records (rev (Removed <$> l)) (answer u CPLUS_SUCCESS (set_pool p' w)))
        | None => Some (break w)
        end
    | GetTaskCount => Some (answer u (cplus_taskpool_get_task_count p) w)
    | GetWorkerCount =>
        enter_workers u p (λ p', Some (answer u (pool_worker_count p') w))
    | ResetWorkerCount n =>
        if MAX_WORKER_COUNT <? n then Some (move_to u (Back CPLUS_FAIL (Some EINVAL)) w)
        else enter_workers u p (λ p', Some (move_to u (reset_turns n p) (set_pool p' w)))
    | AllPause pause => enter_workers u p (λ p', Some (move_to u (Pausing pause 0) (set_pool p' w)))
    | DeletePool timeout => enter_workers u p (λ p', Some (move_to u (Stopping timeout) (set_pool p' w)))
    end).

(** A worker that is popped from the list is stopped: it ends between two turns
    (Task.v).  Whether the stop of a paused worker finds it before its wait for
    [evt_pause] is left open. *)
Definition stop_last (p : taskpool) (k : taskpool → option world) : option world :=
  match last (worker_list p) with
  | Some x => if decide (at_place x = BetweenTurns) then k (set_workers (removelast (worker_list p)) p) else None
  | None => k p
  end.

(** [cplus_taskpool_delete_ex]: a turn of its first loop, or the end of it; and what
    follows, with the tasks that were waiting. *)
Definition delete_workers (u : nat) (w : world) (p : taskpool) : option world :=
  match worker_list p with
  | [] => Some (move_to u Freeing (set_pool (set_sect None p) w))
  | _ => stop_last p (λ p', Some (set_pool p' w))
  end.
Definition delete_rest (u : nat) (w : world) (p : taskpool) : option world :=
  match cplus_taskpool_clear_task p with
  | Some (l, _) => Some (records (rev (Removed <$> l)) (answer u CPLUS_SUCCESS (no_pool w)))
  | None => Some (break w)
  end.

(** A step of client [u]; [created]: a task can be made, where one is. *)
Definition client_step (u : nat) (created : bool) (w : world) : option world :=
  match client_of w u with
  | None | Some Outside | Some (Back _ _) => None
  | Some (Begin c) => begin u c w
  | Some PushCheck =>
      on_pool w (λ p,
        if Semaphore.push_refused (remain_taskpool p) 1 then Some (move_to u (Back CPLUS_SUCCESS (Some EINVAL)) w)
        else Some (move_to u PushPost w))
  | Some PushPost =>
      on_pool w (λ p, Some (answer u CPLUS_SUCCESS (set_pool (set_remain (snd (Semaphore.sem_post (remain_taskpool p))) p) w)))
  | Some (Removing comparator) =>
      on_pool w (λ p,
        match cplus_taskpool_remove_task comparator p with
        | Some (t, p') => Some (records (Removed <$> option_list t) (answer u CPLUS_SUCCESS (set_pool p' w)))
        | None => Some (break w)
        end)
  | Some (Shrinking n (S k)) => on_pool w (λ p, stop_last p (λ p', Some (move_to u (Shrinking n k) (set_pool p' w))))
  | Some (Growing n (S k)) =>
      on_pool w (λ p,
        if created then
          if Z.of_nat (length (worker_list p)) <? MAX_WORKER_COUNT then
            Some (move_to u (Growing n k) (set_pool (set_workers (new_worker :: worker_list p) p) w))
          else Some (break w)
        else Some (move_to u (CountAgain n) w))
  | Some (Shrinking n O) | Some (Growing n O) => Some (move_to u (CountAgain n) w)
  | Some (CountAgain n) =>
      on_pool w (λ p, Some (answer u (if pool_worker_count p =? n then CPLUS_SUCCESS else CPLUS_FAIL) (set_pool (set_sect None p) w)))
  | Some (Pausing pause i) =>
      on_pool w (λ p,
        match worker_list p !! i with
        | Some x => Some (move_to u (Pausing pause (S i)) (set_pool (set_workers (<[i := Worker (at_place x) (negb pause)]> (worker_list p)) p) w))
        | None => Some (answer u CPLUS_SUCCESS (set_pool (set_sect None p) w))
        end)
  | Some (Stopping timeout) => on_pool w (delete_workers u w)
  | Some Freeing => on_pool w (delete_rest u w)
  end.

(** The time of the stop of the last worker is over: the worker is cancelled
    where it is. *)
Definition stop_expires (u : nat) (w : world) : option world :=
  on_pool w (λ p,
    let p' := set_workers (removelast (worker_list p)) p in
    match client_of w u, worker_list p with
    | _, [] => None
    | Some (Shrinking n (S k)), _ => Some (move_to u (Shrinking n k) (set_pool p' w))
    | Some (Stopping timeout), _ => Some (set_pool p' w)
    | _, _ => None
    end).

(** ** Steps *)

Inductive label :=
| Call (u : nat) (c : call)
| Move (u : nat) (created : bool)
| Work (i : nat)
| Unserved (i : nat)
| Kill (u : nat).

Definition outside (c : client) : bool := match c with Outside | Back _ _ => true | _ => false end.

Definition exec (l : label) (w : world) : option world :=
  match l with
  | Call u c => match client_of w u with Some x => if outside x then Some (move_to u (Begin c) w) else None | None => None end
  | Move u created => client_step u created w
  | Work i => task_worker i w
  | Unserved i => wait_fails i w
  | Kill u => stop_expires u w
  end.

Fixpoint run (ls : list label) (w : world) : option world :=
  match ls with [] => Some w | l :: ls => w' ← exec l w; run ls w' end.

(** A new pool, and [n] threads that may use it. *)
Definition start (p : taskpool) (n : nat) : world := World (Some p) (replicate n Outside) [] false.

End TaskPool.
