(* ===== verification/TaskPoolInv.v ===== *)
(** * TaskPoolInv: the invariant of the task pool

    The queue of a pool as a list of tasks, newest first ([holds]); what every
    critical section does to it, within the contracts of the linked list and
    of the memory pool; who may change the list of the workers ([sections]);
    the account of the tasks ([accounts]); every step keeps all three ([inv]).
    Then the units of the semaphore and what the workers hold ([sound]), which
    every step keeps but the cancellation of a worker. *)

From S2P Require Import Prelude Zlist Mempool Llist LlistSpec Semaphore TaskPool.
From stdpp Require Import base numbers list option gmap.
From Stdlib Require Import ZArith Lia.
Open Scope Z_scope.

Module TaskPoolInv.
Import TaskPool.

(** ** The queue as a list of tasks *)

(** The list of pool [p] holds the blocks [idx] with the tasks [ts]. *)
Record holds (p : taskpool) (idx : list Z) (ts : list cplus_taskpool_task) : Prop := Holds {
  h_max : 1 ≤ max_task_count p ≤ MAX_TASK_COUNT;
  h_start : 0 < mem_start p;
  h_items : LlistSpec.items (task_list p) = block_of p <$> idx;
  h_blocks : idx ++ task_pool p ≡ₚ seqZ 0 (max_task_count p);
  h_tasks : Forall2 (λ i t, contents p !! i = Some t) idx ts;
  h_cursor : 0 ≤ LlistSpec.pos (task_list p) ∧
             (LlistSpec.pos (task_list p) < zlen idx ∨ LlistSpec.pos (task_list p) = 0) }.

Lemma index_block p i : index_of p (block_of p i) = i.
Proof. unfold index_of, block_of, task_size. rewrite Z.add_simpl_l, Z.mul_comm, Z.div_mul; lia. Qed.

Lemma blocks_in_range p idx ts i :
  holds p idx ts → i ∈ idx ++ task_pool p → 0 ≤ i < max_task_count p.
Proof. intros H Hi. rewrite (h_blocks _ _ _ H) in Hi. apply elem_of_seqZ in Hi. lia. Qed.

Lemma blocks_nodup p idx ts : holds p idx ts → NoDup (idx ++ task_pool p).
Proof. intros H. rewrite (h_blocks _ _ _ H). apply NoDup_seqZ. Qed.

Lemma block_nonzero p idx ts i : holds p idx ts → i ∈ idx → block_of p i ≠ 0.
Proof.
  intros H Hi. assert (0 ≤ i) by (eapply blocks_in_range; [exact H|set_solver]).
  pose proof (h_start _ _ _ H). unfold block_of, task_size. lia.
Qed.

Lemma queue_length p idx ts : holds p idx ts → length ts = length idx.
Proof. intros H. symmetry. eapply Forall2_length, H. Qed.

Lemma zlen_fmap p (idx : list Z) : zlen (block_of p <$> idx) = zlen idx.
Proof. unfold zlen. by rewrite length_fmap. Qed.

Lemma queue_size p idx ts : holds p idx ts → zlen (LlistSpec.items (task_list p)) = Z.of_nat (length ts).
Proof. intros H. rewrite (h_items _ _ _ H), zlen_fmap, (queue_length p idx ts H). done. Qed.

Lemma zat_fmap (f : Z → Z) idx j i : idx !! j = Some i → zat (f <$> idx) (Z.of_nat j) = f i.
Proof.
  intros Hj. assert (Hf : (f <$> idx) !! j = Some (f i)) by (by rewrite list_lookup_fmap, Hj).
  pose proof (lookup_lt_Some _ _ _ Hf) as Hl.
  assert (Hz : zat (f <$> idx) (Z.of_nat j) = f i); [|done].
  assert (H0 : 0 ≤ Z.of_nat j < zlen (f <$> idx)) by (unfold zlen; lia).
  apply zat_in in H0. rewrite Nat2Z.id, Hf in H0. by injection H0.
Qed.

Lemma task_at_block p idx ts j i t :
  holds p idx ts → idx !! j = Some i → ts !! j = Some t → task_at p (block_of p i) = Some t.
Proof.
  intros H Hi Ht. unfold task_at. rewrite index_block. apply (Forall2_lookup_lr _ _ _ j i t (h_tasks _ _ _ H) Hi Ht).
Qed.

Lemma holds_lookup p idx ts j :
  holds p idx ts → (j < length ts)%nat →
  ∃ i t, idx !! j = Some i ∧ ts !! j = Some t ∧ task_at p (block_of p i) = Some t ∧ block_of p i ≠ 0
    ∧ zat (LlistSpec.items (task_list p)) (Z.of_nat j) = block_of p i.
Proof.
  intros H Hj. destruct (lookup_lt_is_Some_2 ts j Hj) as [t Ht].
  rewrite (queue_length p idx ts H) in Hj. destruct (lookup_lt_is_Some_2 idx j Hj) as [i Hi].
  exists i, t. split_and!; [done..|by eapply task_at_block| |].
  - eapply block_nonzero; [done|]. by eapply list_elem_of_lookup_2.
  - rewrite (h_items _ _ _ H). by apply zat_fmap.
Qed.

(** ** Steps that leave the queue alone *)

Definition same_queue (p p' : taskpool) : Prop :=
  get_task_cycling p' = get_task_cycling p ∧ max_task_count p' = max_task_count p ∧ mem_start p' = mem_start p
  ∧ task_list p' = task_list p ∧ task_pool p' = task_pool p ∧ contents p' = contents p.

Lemma holds_same p p' idx ts : same_queue p p' → holds p idx ts → holds p' idx ts.
Proof.
  intros (_ & Hm & Hs & Hl & Hp & Hc) [? ? Hi ? ? ?]. split; rewrite ?Hm, ?Hs, ?Hl, ?Hp, ?Hc; try done.
  rewrite Hi. apply list_fmap_ext. intros _ x _. unfold block_of. by rewrite Hs.
Qed.

(** Everything but the queue. *)
Definition same_others (p p' : taskpool) : Prop :=
  get_task_cycling p' = get_task_cycling p ∧ remain_taskpool p' = remain_taskpool p
  ∧ worker_access_sect p' = worker_access_sect p ∧ worker_list p' = worker_list p.

(** ** Taking an item out *)

Lemma holds_delete p idx ts j i v :
  holds p idx ts → idx !! j = Some i →
  LlistSpec.items v = zdel (Z.of_nat j) (LlistSpec.items (task_list p)) → LlistSpec.pos v = 0 →
  ∃ p', pool_free (block_of p i) (set_list v p) = Some p' ∧ holds p' (delete j idx) (delete j ts) ∧ same_others p p'.
Proof.
  intros H Hi Hv Hp. pose proof (blocks_nodup p idx ts H) as Hn. apply NoDup_app in Hn as (_ & Hn & _).
  assert (Hin : i ∈ idx) by (by eapply list_elem_of_lookup_2).
  assert (0 ≤ i < max_task_count p) by (eapply blocks_in_range; [exact H|set_solver]).
  unfold pool_free. change (index_of (set_list v p) (block_of p i)) with (index_of p (block_of p i)).
  rewrite index_block. cbn [Mempool.spec_step]. rewrite decide_True by (split; [done|by apply Hn]). cbn [mbind option_bind].
  eexists. split; [reflexivity|]. split; [|done]. destruct H as [Hm Hs Hit Hb Ht Hc].
  split; cbn [max_task_count mem_start task_list task_pool contents set_list set_free]; [done|done| | | |].
  - rewrite Hv, Hit. unfold zdel. rewrite Nat2Z.id. unfold block_of. clear. revert j.
    induction idx as [|x idx IH]; intros [|j]; simpl; [done..|]. by rewrite <- IH.
  - rewrite <- Hb, <- Permutation_middle. rewrite (delete_Permutation idx j i Hi) at 2. done.
  - clear -Ht. revert j. induction Ht as [|x t idx ts Hx Ht IH]; intros [|j]; simpl; [constructor..|done|].
    by constructor.
  - rewrite Hp. split; [done|]. by right.
Qed.

(** ** The critical sections *)

Lemma queue_fits p idx ts :
  holds p idx ts → Z.of_nat (length ts) + Z.of_nat (length (task_pool p)) = max_task_count p.
Proof.
  intros H. rewrite (queue_length p idx ts H). pose proof (h_blocks _ _ _ H) as Hb. apply Permutation_length in Hb.
  rewrite length_app, length_seqZ in Hb. pose proof (h_max _ _ _ H). lia.
Qed.

Lemma tasks_insert (m : gmap Z cplus_taskpool_task) i t idx ts :
  i ∉ idx → Forall2 (λ j u, m !! j = Some u) idx ts → Forall2 (λ j u, <[i := t]> m !! j = Some u) idx ts.
Proof.
  intros Hi. induction 1 as [|j u idx ts Hj _ IH]; constructor.
  - rewrite lookup_insert_ne; set_solver.
  - apply IH. set_solver.
Qed.

(** A task is put at the front, or there is no room. *)
Lemma add_spec p idx ts t :
  holds p idx ts →
  ∃ res e p', cplus_taskpool_add_task_ex t p = Some (res, e, p') ∧ same_others p p'
    ∧ ((Z.of_nat (length ts) < max_task_count p ∧ res = CPLUS_SUCCESS ∧ e = None ∧ ∃ i, holds p' (i :: idx) (t :: ts))
       ∨ (Z.of_nat (length ts) = max_task_count p ∧ res = CPLUS_FAIL ∧ e = Some ENOMEM ∧ p' = p)).
Proof.
  intros H. pose proof (queue_fits p idx ts H) as Hf. pose proof (queue_size p idx ts H) as Hz.
  pose proof (h_max _ _ _ H) as Hm. unfold cplus_taskpool_add_task_ex, list_call. cbn [LlistSpec.spec]. rewrite Hz.
  destruct (Z.ltb_spec (Z.of_nat (length ts)) MAX_TASK_COUNT).
  2:{ exists CPLUS_FAIL, (Some ENOMEM), p. split; [done|]. split; [done|]. right. split_and!; [lia|done..]. }
  destruct (task_pool p) as [|i free] eqn:Ep; cbn [Mempool.spec_step mbind option_bind].
  { exists CPLUS_FAIL, (Some ENOMEM), p. split; [done|]. split; [done|]. right. simpl in Hf. split_and!; [lia|done..]. }
  simpl in Hf. assert (Hi : 0 ≤ i < max_task_count p).
  { eapply blocks_in_range; [exact H|]. rewrite Ep. set_solver. }
  assert (Hin : i ∉ idx).
  { pose proof (blocks_nodup p idx ts H) as Hn. rewrite Ep in Hn. apply NoDup_app in Hn as (_ & Hn & _). set_solver. }
  unfold push_front. cbn [task_list set_contents set_free max_task_count]. rewrite Hz.
  rewrite (proj2 (Z.ltb_lt _ _)) by lia. unfold list_call.
  cbn [LlistSpec.spec task_list set_contents set_free]. unfold LlistSpec.spec_push.
  assert (block_of p i ≠ 0) as Hb0 by (pose proof (h_start _ _ _ H); unfold block_of, task_size; lia).
  rewrite (proj2 (Z.eqb_neq _ _) Hb0). rewrite Hz.
  replace (Llist.out_of_interval 0 0 (Z.of_nat (length ts))) with false
    by (unfold Llist.out_of_interval; symmetry; rewrite orb_false_iff, !Z.ltb_ge; lia).
  cbn [orb]. change (0 =? 0) with true. cbn [orb]. cbv iota beta.
  do 3 eexists. split; [reflexivity|]. split; [done|]. left. split_and!; [lia|done|done|]. exists i.
  destruct H as [_ Hs Hit Hb Ht Hc].
  split; cbn [max_task_count mem_start task_list task_pool contents set_list set_free set_contents LlistSpec.items LlistSpec.pos]; [done|done| | | |].
  - rewrite zins_0, Hit. done.
  - rewrite <- Hb, Ep, <- Permutation_middle. done.
  - constructor; [by rewrite lookup_insert_eq|]. by apply tasks_insert.
  - unfold zlen. simpl. lia.
Qed.

(** The oldest task is taken from the back of the queue. *)
Lemma pop_back_spec p idx ts t :
  holds p idx (ts ++ [t]) →
  ∃ i v p', list_call LlistSpec.PopBack p = (block_of p i, set_list v p) ∧ block_of p i ≠ 0
    ∧ task_at p (block_of p i) = Some t ∧ pool_free (block_of p i) (set_list v p) = Some p'
    ∧ same_others p p' ∧ ∃ idx', holds p' idx' ts.
Proof.
  intros H. destruct (holds_lookup p idx (ts ++ [t]) (length ts) H) as (i & t' & Hi & Ht & Hat & H0 & Hz); [rewrite length_app; simpl; lia|].
  rewrite lookup_app_r, Nat.sub_diag in Ht by lia. injection Ht as <-.
  pose proof (queue_size p idx _ H) as Hs. rewrite length_app in Hs. simpl in Hs.
  assert (Hn : zlen (LlistSpec.items (task_list p)) - 1 = Z.of_nat (length ts)) by lia.
  set (v := LlistSpec.View (zdel (Z.of_nat (length ts)) (LlistSpec.items (task_list p))) 0 false).
  destruct (holds_delete p idx (ts ++ [t]) (length ts) i v H Hi eq_refl eq_refl) as (p' & E & H' & Ho).
  exists i, v, p'. split_and!; [|done..|].
  - unfold list_call. cbn [LlistSpec.spec]. unfold LlistSpec.spec_pop.
    replace (Llist.out_of_interval _ 0 _) with false by (unfold Llist.out_of_interval; symmetry; rewrite orb_false_iff, !Z.ltb_ge; lia).
    rewrite (proj2 (Z.eqb_neq _ _)) by lia. rewrite Z.eqb_refl, orb_true_r, Hn, Hz. done.
  - rewrite delete_middle, app_nil_r in H'. by eexists.
Qed.

Lemma pop_back_empty p idx : holds p idx [] → list_call LlistSpec.PopBack p = (0, p).
Proof.
  intros H. pose proof (queue_size p idx [] H) as Hs. simpl in Hs. unfold list_call. cbn [LlistSpec.spec].
  unfold LlistSpec.spec_pop. rewrite Hs. simpl. by destruct p.
Qed.

(** Clearing takes every task, the oldest first. *)
Lemma clear_spec fuel p idx ts :
  holds p idx ts → (length ts < fuel)%nat →
  ∃ p' idx', clear_tasks fuel p = Some (rev ts, p') ∧ same_others p p' ∧ holds p' idx' [].
Proof.
  revert p idx ts. induction fuel as [|fuel IH]; [lia|]. intros p idx ts H Hl. simpl.
  destruct ts as [|t ts _] using rev_ind.
  - rewrite (pop_back_empty p idx H). exists p, idx. done.
  - destruct (pop_back_spec p idx ts t H) as (i & v & p1 & -> & H0 & Ht & E & Ho & idx1 & H1).
    rewrite (proj2 (Z.eqb_neq _ _) H0), Ht. cbn [mbind option_bind]. rewrite E. cbn [mbind option_bind].
    rewrite length_app in Hl. simpl in Hl.
    destruct (IH p1 idx1 ts H1) as (p2 & idx2 & E2 & Ho2 & H2); [lia|]. rewrite E2. cbn [mbind option_bind].
    exists p2, idx2. rewrite rev_app_distr. split; [done|]. split; [|done].
    destruct Ho as (?&?&?&?), Ho2 as (?&?&?&?). split_and!; congruence.
Qed.

Lemma clear_task_spec p idx ts :
  holds p idx ts →
  ∃ p' idx', cplus_taskpool_clear_task p = Some (rev ts, p') ∧ same_others p p' ∧ holds p' idx' [].
Proof.
  intros H. apply (clear_spec _ p idx ts H). pose proof (queue_size p idx ts H) as Hs. unfold zlen in Hs. lia.
Qed.

(** The first task the comparator answers 0 for is removed, if there is one. *)
Lemma remove_spec comparator p idx ts :
  holds p idx ts →
  ∃ o p', cplus_taskpool_remove_task comparator p = Some (o, p') ∧ same_others p p'
    ∧ ((o = None ∧ ∃ idx', holds p' idx' ts)
       ∨ ∃ j t idx', ts !! j = Some t ∧ o = Some t ∧ holds p' idx' (delete j ts)).
Proof.
  intros H. unfold cplus_taskpool_remove_task, list_call. cbn [LlistSpec.spec]. unfold LlistSpec.search.
  destruct (zfind _ _) as [j|] eqn:E.
  - apply zfind_Some in E as (Hj & _ & _). pose proof (queue_size p idx ts H) as Hs.
    destruct (holds_lookup p idx ts (Z.to_nat j) H) as (i & t & Hi & Ht & Hat & H0 & Hz); [lia|].
    rewrite Z2Nat.id in Hz by lia. rewrite Hz, (proj2 (Z.eqb_neq _ _) H0).
    destruct (holds_delete p idx ts (Z.to_nat j) i (LlistSpec.View (zdel j (LlistSpec.items (task_list p))) 0 false) H Hi)
      as (p' & E & H' & Ho); [by rewrite Z2Nat.id by lia|done|].
    rewrite E. cbn [mbind option_bind]. exists (Some t), p'. rewrite Hat. split; [done|]. split; [done|]. right. eauto 10.
  - exists None. eexists. split; [reflexivity|]. split; [done|]. left. split; [done|]. exists idx.
    destruct H as [? ? Hit ? ? ?]. split; try done.
    cbn [task_list set_list LlistSpec.pos LlistSpec.move]. unfold LlistSpec.last_pos. rewrite Hit, zlen_fmap.
    pose proof (zlen_nonneg idx). lia.
Qed.

(** A worker takes the oldest task, or finds the queue empty. *)
Lemma fetch_spec p idx ts :
  holds p idx ts → get_task_cycling p = false →
  ∃ o p', fetch_task p = Some (o, p') ∧ same_others p p'
    ∧ ((o = None ∧ ts = [] ∧ p' = p) ∨ ∃ t ts' idx', ts = ts' ++ [t] ∧ o = Some t ∧ holds p' idx' ts').
Proof.
  intros H Hc. pose proof (queue_size p idx ts H) as Hs. unfold fetch_task, list_call at 1. cbn [LlistSpec.spec]. rewrite Hs.
  destruct ts as [|t ts _] using rev_ind.
  - simpl. exists None, p. split; [done|]. split; [done|]. by left.
  - rewrite length_app, (proj2 (Z.ltb_lt _ _)) by (simpl; lia). rewrite Hc.
    destruct (pop_back_spec p idx ts t H) as (i & v & p1 & -> & H0 & Ht & E & Ho & idx1 & H1).
    rewrite (proj2 (Z.eqb_neq _ _) H0), Ht. cbn [mbind option_bind]. rewrite E. cbn [mbind option_bind].
    exists (Some t), p1. split; [done|]. split; [done|]. right. eauto 10.
Qed.

(** In a cycling pool a worker copies the task at the cursor, which moves on
    by one, round the queue. *)
Lemma fetch_cycling p idx ts :
  holds p idx ts → get_task_cycling p = true →
  ∃ o p', fetch_task p = Some (o, p') ∧ same_others p p' ∧ holds p' idx ts
    ∧ o = ts !! Z.to_nat (LlistSpec.pos (task_list p))
    ∧ LlistSpec.pos (task_list p') = (if LlistSpec.pos (task_list p) + 1 <? Z.of_nat (length ts) then LlistSpec.pos (task_list p) + 1 else 0).
Proof.
  intros H Hc. pose proof (queue_size p idx ts H) as Hs. pose proof (h_cursor _ _ _ H) as Hcur.
  unfold fetch_task, list_call at 1. cbn [LlistSpec.spec]. rewrite Hs, Hc.
  assert (Hlen : zlen idx = Z.of_nat (length ts)) by (unfold zlen; by rewrite (queue_length p idx ts H)).
  rewrite Hlen in Hcur. destruct (Z.ltb_spec 0 (Z.of_nat (length ts))) as [Hn|Hn].
  - unfold list_call. cbn [LlistSpec.spec]. rewrite Hs, (proj2 (Z.eqb_neq _ _)) by lia.
    destruct (holds_lookup p idx ts (Z.to_nat (LlistSpec.pos (task_list p))) H) as (i & t & Hi & Ht & Hat & H0 & Hz); [lia|].
    rewrite Z2Nat.id in Hz by lia. rewrite Hz, (proj2 (Z.eqb_neq _ _) H0), Hat. cbn [mbind option_bind].
    do 2 eexists. split; [reflexivity|]. split; [done|]. split; [|by rewrite Ht].
    destruct H. split; try done. cbn [task_list set_list LlistSpec.pos LlistSpec.move]. rewrite Hlen.
    destruct (Z.ltb_spec (LlistSpec.pos (task_list p) + 1) (Z.of_nat (length ts))); lia.
  - exists None, p. destruct ts; [|simpl in Hn; lia]. split_and!; try done. simpl.
    assert (LlistSpec.pos (task_list p) = 0) as -> by (simpl in Hcur; lia). done.
Qed.

(** ** The account of the tasks *)

Definition added (e : event) : option cplus_taskpool_task := match e with Added t => Some t | _ => None end.
Definition fetched (e : event) : option cplus_taskpool_task := match e with Fetched t => Some t | _ => None end.
Definition removed (e : event) : option cplus_taskpool_task := match e with Removed t => Some t | _ => None end.

(** The tasks that left the queue [ts] with a worker; in a cycling pool they stay. *)
Definition taken (cycling : bool) (tr : list event) : list cplus_taskpool_task := if cycling then [] else omap fetched tr.

(** Nothing lost, nothing made up, and in order, newest first. *)
Definition accounts (cycling : bool) (tr : list event) (ts : list cplus_taskpool_task) : Prop :=
  omap added tr ≡ₚ ts ++ taken cycling tr ++ omap removed tr ∧ sublist (ts ++ taken cycling tr) (omap added tr).

(** Events that are not about the queue. *)
Definition about_queue (e : event) : bool := match e with Ran _ | CalledBack _ => false | _ => true end.

Lemma accounts_skip c tr ts e : about_queue e = false → accounts c tr ts → accounts c (e :: tr) ts.
Proof. by destruct e, c. Qed.

Lemma accounts_add c tr ts t : accounts c tr ts → accounts c (Added t :: tr) (t :: ts).
Proof.
  intros [H1 H2]. split.
  - simpl. rewrite H1. by destruct c.
  - replace (taken c (Added t :: tr)) with (taken c tr) by by destruct c. simpl. by constructor.
Qed.

Lemma accounts_fetch tr ts t : accounts false tr (ts ++ [t]) → accounts false (Fetched t :: tr) ts.
Proof. unfold accounts. simpl. by rewrite <- !app_assoc. Qed.

Lemma accounts_fetch_cycling tr ts t : accounts true tr ts → accounts true (Fetched t :: tr) ts.
Proof. done. Qed.

Lemma accounts_remove c tr ts j t :
  ts !! j = Some t → accounts c tr ts → accounts c (Removed t :: tr) (delete j ts).
Proof.
  intros Hj [H1 H2]. unfold accounts. replace (taken c (Removed t :: tr)) with (taken c tr) by by destruct c.
  simpl. split.
  - rewrite H1, (delete_Permutation ts j t Hj) at 1. simpl. by rewrite <- !Permutation_middle.
  - etrans; [|exact H2]. apply sublist_app; [apply sublist_delete|done].
Qed.

Lemma accounts_clear c tr ts : accounts c tr ts → accounts c (rev (Removed <$> rev ts) ++ tr) [].
Proof.
  intros [H1 H2]. replace (rev (Removed <$> rev ts)) with (Removed <$> ts)
    by (change (Removed <$> rev ts) with (map Removed (rev ts)); by rewrite map_rev, rev_involutive).
  assert (∀ (f : event → option cplus_taskpool_task), (∀ t, f (Removed t) = None) → omap f ((Removed <$> ts) ++ tr) = omap f tr) as E.
  { intros f Hf. clear -Hf. induction ts as [|t ts IH]; [done|]. simpl. by rewrite Hf. }
  assert (omap removed ((Removed <$> ts) ++ tr) = ts ++ omap removed tr) as Er.
  { clear. induction ts as [|t ts IH]; [done|]. simpl. by rewrite <- IH. }
  unfold accounts. replace (taken c ((Removed <$> ts) ++ tr)) with (taken c tr) by (destruct c; [done|unfold taken; by rewrite E]).
  rewrite (E added), Er by done. simpl. split.
  - rewrite H1. apply Permutation_app_swap_app.
  - etrans; [|exact H2]. by apply sublist_inserts_l.
Qed.

(** ** Who changes the workers *)

(** A client in the section of the workers holds it, and the workers it has
    still to stop or to make are those that are missing. *)
Definition in_section (p : taskpool) (u : nat) (c : client) : Prop :=
  match c with
  | Shrinking n k => worker_access_sect p = Some u ∧ (0 ≤ n → pool_worker_count p = n + Z.of_nat k)
  | Growing n k => worker_access_sect p = Some u ∧ pool_worker_count p + Z.of_nat k = n ∧ n ≤ MAX_WORKER_COUNT
  | CountAgain _ | Pausing _ _ | Stopping _ => worker_access_sect p = Some u
  | _ => True
  end.

Definition sections (w : world) (p : taskpool) : Prop :=
  pool_worker_count p ≤ MAX_WORKER_COUNT ∧ ∀ u c, clients w !! u = Some c → in_section p u c.

Lemma in_section_same p p' u c :
  worker_access_sect p' = worker_access_sect p → pool_worker_count p' = pool_worker_count p →
  in_section p u c → in_section p' u c.
Proof. intros E1 E2. destruct c; simpl; rewrite ?E1, ?E2; done. Qed.

Lemma in_section_other p p' u u' c :
  worker_access_sect p = None ∨ worker_access_sect p = Some u → u' ≠ u → in_section p u' c → in_section p' u' c.
Proof. intros Hs Hn. destruct c; simpl; try done; destruct Hs; naive_solver. Qed.

(** Client [u] moves, and nothing of the workers changes. *)
Lemma sections_move w w' p p' u c :
  sections w p → clients w' = <[u := c]> (clients w) → worker_access_sect p' = worker_access_sect p →
  pool_worker_count p' = pool_worker_count p → in_section p' u c → sections w' p'.
Proof.
  intros [H1 H2] Hc Es Ew Hi. split; [lia|]. intros u' c' E. rewrite Hc in E. apply list_lookup_insert_Some in E as [(-> & -> & _)|(Hn & E)]; [done|].
  eapply in_section_same; [done..|]. by apply H2.
Qed.

(** Client [u], which is in the section or enters it, changes the workers. *)
Lemma sections_change w w' p p' u c :
  sections w p → worker_access_sect p = None ∨ worker_access_sect p = Some u → clients w' = <[u := c]> (clients w) →
  pool_worker_count p' ≤ MAX_WORKER_COUNT → in_section p' u c → sections w' p'.
Proof.
  intros [H1 H2] Hs Hc Hw Hi. split; [done|]. intros u' c' E. rewrite Hc in E.
  apply list_lookup_insert_Some in E as [(-> & -> & _)|(Hn & E)]; [done|]. eapply in_section_other; [done..|]. by apply H2.
Qed.

(** Nobody moves. *)
Lemma sections_stay w w' p p' :
  sections w p → clients w' = clients w → worker_access_sect p' = worker_access_sect p →
  pool_worker_count p' = pool_worker_count p → sections w' p'.
Proof.
  intros [H1 H2] Hc Es Ew. split; [lia|]. intros u c E. rewrite Hc in E. eapply in_section_same; [done..|]. by apply H2.
Qed.

(** ** The invariant *)

Record good (cycling : bool) (w : world) (p : taskpool) : Prop := Good {
  g_broken : broken w = false;
  g_cycling : get_task_cycling p = cycling;
  g_sections : sections w p;
  g_queue : ∃ idx ts, holds p idx ts ∧ accounts cycling (trace w) ts }.

Definition inv (cycling : bool) (w : world) : Prop :=
  match pool w with
  | Some p => good cycling w p
  | None => accounts cycling (trace w) []
  end.

(** A step that leaves the queue alone, and may tell of tasks that run. *)
Lemma inv_same c w w' p p' es :
  good c w p → pool w' = Some p' → broken w' = broken w → same_queue p p' → trace w' = es ++ trace w →
  Forall (λ e, about_queue e = false) es → sections w' p' → inv c w'.
Proof.
  intros [Hb Hc Hs (idx & ts & H & Ha)] Ep Eb Eq Et He Hs'. unfold inv. rewrite Ep. split.
  - congruence.
  - destruct Eq as (-> & _). done.
  - done.
  - exists idx, ts. split; [by eapply holds_same|]. rewrite Et. clear -He Ha. induction He as [|e es He _ IH]; [done|].
    simpl. by apply accounts_skip.
Qed.

(** A step of a critical section on the tasks. *)
Lemma inv_queue c w w' p p' idx' ts' :
  good c w p → pool w' = Some p' → broken w' = broken w → get_task_cycling p' = get_task_cycling p →
  holds p' idx' ts' → accounts c (trace w') ts' → sections w' p' → inv c w'.
Proof.
  intros [Hb Hc Hs _] Ep Eb Ec H Ha Hs'. unfold inv. rewrite Ep. split; [congruence|congruence|done|eauto].
Qed.

Lemma set_worker_count i x p : pool_worker_count (set_workers (<[i := x]> (worker_list p)) p) = pool_worker_count p.
Proof. unfold pool_worker_count. simpl. by rewrite length_insert. Qed.

Lemma set_place_count i x l p : pool_worker_count (set_place i x l p) = pool_worker_count p.
Proof. apply set_worker_count. Qed.

Lemma same_place i x l p : same_queue p (set_place i x l p).
Proof. done. Qed.

Lemma holds_place i x l p idx ts : holds p idx ts → holds (set_place i x l p) idx ts.
Proof. by apply holds_same. Qed.

Lemma others_count p p' : same_others p p' → pool_worker_count p' = pool_worker_count p.
Proof. intros (_ & _ & _ & E). unfold pool_worker_count. by rewrite E. Qed.

Lemma inv_worker c w p i w' : good c w p → pool w = Some p → task_worker i w = Some w' → inv c w'.
Proof.
  intros Hg Ep E. pose proof (g_sections _ _ _ Hg) as Hs. unfold task_worker, on_pool in E. rewrite Ep in E.
  destruct (worker_list p !! i) as [x|]; [|done]. cbn [mbind option_bind] in E.
  destruct (at_place x) as [| | |t|t].
  - destruct (evt_pause x); [|done]. injection E as <-.
    eapply (inv_same c w _ p _ []); [done|reflexivity|done|done|done|constructor|].
    eapply (sections_stay _ _ _ _ Hs); [done|done|apply set_place_count].
  - destruct (0 <? remain_taskpool p); [|done]. injection E as <-.
    eapply (inv_same c w _ p _ []); [done|reflexivity|done|done|done|constructor|].
    eapply (sections_stay _ _ _ _ Hs); [done|done|]. by rewrite set_place_count.
  - destruct (g_queue _ _ _ Hg) as (idx & ts & H & Ha). destruct c.
    + destruct (fetch_cycling p idx ts H (g_cycling _ _ _ Hg)) as (o & p' & Ef & Ho & H' & _). rewrite Ef in E.
      destruct o as [t|]; injection E as <-;
        (eapply (inv_queue _ w _ p); [done|reflexivity|done|apply Ho|by apply holds_place|done|]);
        (eapply (sections_stay _ _ _ _ Hs); [done|apply Ho|rewrite set_place_count; by apply others_count]).
    + destruct (fetch_spec p idx ts H (g_cycling _ _ _ Hg)) as (o & p' & Ef & Ho & HH). rewrite Ef in E.
      destruct HH as [(-> & -> & ->)|(t & ts' & idx' & -> & -> & H')]; injection E as <-.
      * eapply (inv_same _ w _ p _ []); [done|reflexivity|done|done|done|constructor|].
        eapply (sections_stay _ _ _ _ Hs); [done|done|apply set_place_count].
      * eapply (inv_queue _ w _ p); [done|reflexivity|done|apply Ho|by apply holds_place|by apply accounts_fetch|].
        eapply (sections_stay _ _ _ _ Hs); [done|apply Ho|rewrite set_place_count; by apply others_count].
  - destruct (negb _); injection E as <-;
      [eapply (inv_same c w _ p _ [Ran t])|eapply (inv_same c w _ p _ [])];
      try (by repeat constructor); try reflexivity; try done; (eapply (sections_stay _ _ _ _ Hs); [done|done|apply set_place_count]).
  - destruct (negb _); injection E as <-;
      [eapply (inv_same c w _ p _ [CalledBack t])|eapply (inv_same c w _ p _ [])];
      try (by repeat constructor); try reflexivity; try done; (eapply (sections_stay _ _ _ _ Hs); [done|done|apply set_place_count]).
Qed.

(** A client moves, and the pool stays what it is but for the section and the workers. *)
Lemma inv_move c w p w' p' u x :
  good c w p → pool w' = Some p' → same_queue p p' → clients w' = <[u := x]> (clients w) → trace w' = trace w →
  broken w' = broken w → worker_access_sect p' = worker_access_sect p → pool_worker_count p' = pool_worker_count p →
  in_section p' u x → inv c w'.
Proof.
  intros Hg Ep Eq Ec Et Eb Es Ew Hx. eapply (inv_same c w w' p p' []); [done..|].
  eapply sections_move; [apply Hg|done..].
Qed.

Lemma inv_change c w p w' p' u x :
  good c w p → worker_access_sect p = None ∨ worker_access_sect p = Some u →
  pool w' = Some p' → same_queue p p' → clients w' = <[u := x]> (clients w) → trace w' = trace w →
  broken w' = broken w → pool_worker_count p' ≤ MAX_WORKER_COUNT → in_section p' u x → inv c w'.
Proof.
  intros Hg Hu Ep Eq Ec Et Eb Hw Hx. eapply (inv_same c w w' p p' []); [done..|].
  eapply sections_change; [apply Hg|done..].
Qed.

(** A client does a section on the tasks. *)
Lemma inv_section c w p w' p' u x idx' ts' :
  good c w p → pool w' = Some p' → same_others p p' → holds p' idx' ts' → accounts c (trace w') ts' →
  clients w' = <[u := x]> (clients w) → broken w' = broken w → in_section p' u x → inv c w'.
Proof.
  intros Hg Ep Ho H Ha Ec Eb Hx. eapply inv_queue; [done|done|done|apply Ho|done|done|].
  eapply sections_move; [apply Hg|done|apply Ho|by apply others_count|done].
Qed.

Lemma reset_turns_ok n p u :
  n ≤ MAX_WORKER_COUNT → in_section (set_sect (Some u) p) u (reset_turns n p).
Proof.
  intros Hn. unfold reset_turns. destruct (Z.ltb_spec n (pool_worker_count p)); simpl; (split; [done|]);
    change (pool_worker_count (set_sect (Some u) p)) with (pool_worker_count p); lia.
Qed.

Lemma inv_begins c w p u x w' : good c w p → pool w = Some p → begin u x w = Some w' → inv c w'.
Proof.
  intros Hg Ep E. unfold begin, on_pool in E. rewrite Ep in E.
  assert (Hc : pool_worker_count p ≤ MAX_WORKER_COUNT) by apply Hg.
  assert (∀ w0 x0, move_to u x0 w = w0 → (∀ p0, in_section p0 u x0) → inv c w0) as Hmove.
  { intros w0 x0 <- Hx. by eapply (inv_move c w p). }
  assert (∀ k, enter_workers u p k = Some w' → worker_access_sect p = None ∧ k (set_sect (Some u) p) = Some w') as Henter.
  { unfold enter_workers. intros k. by destruct (worker_access_sect p). }
  destruct (g_queue _ _ _ Hg) as (idx & ts & H & Ha).
  destruct x as [[t|]|[f|]| | | |n|b|timeout]; try (injection E as E; by eapply Hmove).
  - destruct (add_spec p idx ts t H) as (res & e & p' & Ea & Ho & HH). rewrite Ea in E.
    destruct HH as [(_ & -> & -> & i & H')|(_ & -> & -> & ->)]; simpl in E.
    + destruct (get_task_cycling p); injection E as <-;
        (eapply (inv_section _ w p _ p'); [done|reflexivity|done|done|by apply accounts_add|reflexivity|done|done]).
    + injection E as <-. by eapply (inv_move c w p _ p).
  - destruct (0 <? _); injection E as E; by eapply Hmove.
  - destruct (clear_task_spec p idx ts H) as (p' & idx' & Ec & Ho & H'). rewrite Ec in E. injection E as <-.
    eapply (inv_section _ w p _ p'); [done|reflexivity|done|done|by apply accounts_clear|reflexivity|done|done].
  - apply Henter in E as [_ E]. injection E as E. by eapply Hmove.
  - destruct (Z.ltb_spec MAX_WORKER_COUNT n); [injection E as E; by eapply Hmove|].
    apply Henter in E as [Hs E]. injection E as <-.
    eapply (inv_change c w p _ (set_sect (Some u) p)); [done|by left|done..|by apply reset_turns_ok].
  - apply Henter in E as [Hs E]. injection E as <-. by eapply (inv_change c w p _ (set_sect (Some u) p)); [done|left|..].
  - apply Henter in E as [Hs E]. injection E as <-. by eapply (inv_change c w p _ (set_sect (Some u) p)); [done|left|..].
Qed.

Lemma count_removelast p : worker_list p ≠ [] → pool_worker_count (set_workers (removelast (worker_list p)) p) = pool_worker_count p - 1.
Proof.
  unfold pool_worker_count. simpl. destruct (worker_list p) as [|x l] using rev_ind; [done|].
  intros _. rewrite removelast_last, length_app. simpl. lia.
Qed.

Lemma stop_last_cases p k w' :
  stop_last p k = Some w' →
  worker_list p = [] ∧ k p = Some w'
  ∨ worker_list p ≠ [] ∧ (∃ x, last (worker_list p) = Some x ∧ at_place x = BetweenTurns) ∧ k (set_workers (removelast (worker_list p)) p) = Some w'.
Proof.
  unfold stop_last. destruct (last (worker_list p)) as [x|] eqn:E.
  - destruct (decide _); [|done]. right. split; [by intros E'; rewrite E' in E|]. eauto.
  - left. split; [by apply last_None|done].
Qed.

(** The workers a client that shrinks the pool has left to stop. *)
Lemma shrink_ok p p' u n k :
  in_section p u (Shrinking n (S k)) → same_queue p p' → worker_access_sect p' = worker_access_sect p →
  (0 ≤ n → pool_worker_count p' = pool_worker_count p - 1) → in_section p' u (Shrinking n k).
Proof. simpl. intros (Hs & Hc) _ Es Ew. rewrite Es. split; [done|]. lia. Qed.

Lemma inv_client c w p u b w' : good c w p → pool w = Some p → client_step u b w = Some w' → inv c w'.
Proof.
  intros Hg Ep E. unfold client_step, delete_workers, delete_rest, on_pool in E. rewrite Ep in E.
  destruct (client_of w u) as [x|] eqn:Ex; [|done].
  assert (Hc : pool_worker_count p ≤ MAX_WORKER_COUNT) by apply Hg.
  pose proof (proj2 (g_sections _ _ _ Hg) u x Ex) as Hx.
  destruct (g_queue _ _ _ Hg) as (idx & ts & H & Ha).
  destruct x as [|x| | |f|n [|k]|n [|k]|n|pause i|timeout| |]; simpl in E; try done.
  - by eapply inv_begins.
  - destruct (Semaphore.push_refused _ _); injection E as <-; by eapply (inv_move c w p).
  - injection E as <-. by eapply (inv_move c w p).
  - destruct (remove_spec f p idx ts H) as (o & p' & Er & Ho & HH). rewrite Er in E. injection E as <-.
    destruct HH as [(-> & idx' & H')|(j & t & idx' & Hj & -> & H')];
      (eapply (inv_section _ w p _ p'); [done|reflexivity|done|done| |reflexivity|done|done]); [done|by apply accounts_remove].
  - injection E as <-. eapply (inv_move c w p); try done. apply Hx.
  - apply stop_last_cases in E as [(El & E)|(El & _ & E)]; injection E as <-.
    + eapply (inv_change c w p _ p); try done; [right; apply Hx|]. eapply shrink_ok; try done.
      intros Hn. simpl in Hx. unfold pool_worker_count in *. rewrite El in *. simpl in Hx. lia.
    + pose proof (count_removelast p El). eapply (inv_change c w p); try done; [right; apply Hx|lia|].
      by eapply shrink_ok.
  - injection E as <-. eapply (inv_move c w p); try done. apply Hx.
  - destruct Hx as (Hs & Hn & Hm). destruct b; [|injection E as <-; by eapply (inv_move c w p)].
    rewrite (proj2 (Z.ltb_lt _ _)) in E by (unfold pool_worker_count in Hn; lia). injection E as <-.
    assert (pool_worker_count (set_workers (new_worker :: worker_list p) p) = pool_worker_count p + 1) as Ew
      by (unfold pool_worker_count; simpl; lia).
    eapply (inv_change c w p); try done; [by right|lia|]. simpl. rewrite Ew. split_and!; [done|lia|done].
  - injection E as <-. eapply (inv_change c w p); try done. by right.
  - destruct (worker_list p !! i) as [y|] eqn:Ey; injection E as <-.
    + eapply (inv_move c w p); try done. apply set_worker_count.
    + eapply (inv_change c w p); try done. by right.
  - destruct (worker_list p) as [|y l] eqn:El.
    + injection E as <-. eapply (inv_change c w p); try done. by right.
    + apply stop_last_cases in E as [(El' & _)|(El' & _ & E)]; [congruence|].
      injection E as <-. pose proof (count_removelast p El').
      assert (clients w = <[u := Stopping timeout]> (clients w)) as Ec by (symmetry; by apply list_insert_id).
      eapply (inv_change c w p); try done; [by right|lia].
  - destruct (clear_task_spec p idx ts H) as (p' & idx' & Ec & Ho & H'). rewrite Ec in E. injection E as <-.
    unfold inv. simpl. by apply accounts_clear.
Qed.

Lemma inv_expires c w p u w' : good c w p → pool w = Some p → stop_expires u w = Some w' → inv c w'.
Proof.
  intros Hg Ep E. unfold stop_expires, on_pool in E. rewrite Ep in E.
  destruct (client_of w u) as [x|] eqn:Ex; [|by destruct (worker_list p)].
  pose proof (proj2 (g_sections _ _ _ Hg) u x Ex) as Hx. assert (Hc : pool_worker_count p ≤ MAX_WORKER_COUNT) by apply Hg.
  destruct (worker_list p) as [|y l] eqn:El; [by repeat case_match|]. assert (El' : worker_list p ≠ []) by congruence.
  pose proof (count_removelast p El') as Ew. rewrite El in Ew. cbn [removelast] in Ew.
  destruct x as [|x| | |f|n [|k]|n k|n|pause i|timeout| |]; try done; injection E as <-.
  - eapply (inv_change c w p); try done; [right; apply Hx|lia|]. by eapply shrink_ok.
  - assert (clients w = <[u := Stopping timeout]> (clients w)) as Ec by (symmetry; by apply list_insert_id).
    eapply (inv_change c w p); try done; [by right|lia].
Qed.

Lemma inv_expose c w : inv c w → (∃ p, pool w = Some p ∧ good c w p) ∨ (pool w = None ∧ accounts c (trace w) []).
Proof. unfold inv. destruct (pool w); [left; eauto|by right]. Qed.

(** Without a pool every step that would use it only breaks the contract. *)
Lemma inv_exec_none c l w w' : pool w = None → inv c w → exec l w = Some w' → inv c w'.
Proof.
  unfold inv. intros Ep. rewrite Ep. intros Ha E.
  assert (pool w' = None ∧ trace w' = trace w) as [-> ->]; [|done].
  destruct l as [u x|u b|i|i|u]; simpl in E;
    unfold client_step, delete_workers, delete_rest, begin, task_worker, wait_fails, stop_expires, on_pool in E; rewrite ?Ep in E;
    repeat case_match; simplify_eq; done.
Qed.

Lemma pool_inv_exec c l w w' : inv c w → exec l w = Some w' → inv c w'.
Proof.
  intros Hi E. destruct (inv_expose c w Hi) as [(p & Ep & Hg)|(Ep & Ha)]; [|by eapply inv_exec_none].
  destruct l as [u x|u b|i|i|u]; simpl in E.
  - destruct (client_of w u) as [y|]; [|done]. destruct (outside y); [|done]. injection E as <-.
    by eapply (inv_move c w p).
  - by eapply inv_client.
  - by eapply inv_worker.
  - unfold wait_fails, on_pool in E. rewrite Ep in E. destruct (worker_list p !! i) as [x|]; [|done]. cbn [mbind option_bind] in E.
    destruct (decide _); [|done]. injection E as <-. eapply (inv_same c w _ p _ []); [done|reflexivity|done|done|done|constructor|].
    eapply sections_stay; [apply Hg|done|done|apply set_place_count].
  - by eapply inv_expires.
Qed.

Lemma inv_run c ls w w' : inv c w → run ls w = Some w' → inv c w'.
Proof.
  revert w. induction ls as [|l ls IH]; intros w Hi E; simpl in E; [by injection E as <-|].
  destruct (exec l w) as [w1|] eqn:E1; [|done]. simpl in E. eapply IH; [by eapply pool_inv_exec|done].
Qed.

(** ** New pools *)

(** [p] was made by [cplus_taskpool_new_ex], or by [cplus_taskpool_new] which
    does the same with 255 tasks, no stack size and no cycling. *)
Definition is_new (p : taskpool) : Prop :=
  ∃ config config' stack_min start parts executors,
    cplus_taskpool_new_ex config stack_min = Some config' ∧ 0 < start
    ∧ taskpool_initialize_object config' true start parts executors = Made p.

Lemma new_pool p :
  is_new p → holds p [] [] ∧ remain_taskpool p = 0 ∧ pool_worker_count p ≤ MAX_WORKER_COUNT
  ∧ worker_access_sect p = None ∧ Forall (λ x, x = new_worker) (worker_list p).
Proof.
  intros (config & config' & stack_min & start & parts & executors & E & Hs & M).
  unfold cplus_taskpool_new_ex in E. destruct (_ || _) eqn:E1; [done|]. apply orb_false_iff in E1 as [E1%Z.ltb_ge E2%Z.ltb_ge].
  destruct (Z.ltb_spec MAX_WORKER_COUNT (worker_count config)) as [|Hw]; [done|]. injection E as <-.
  unfold taskpool_initialize_object in M. destruct (_ =? _)%nat; [|done]. destruct (_ =? _)%nat; [|done]. injection M as <-.
  simpl in *. split_and!; [|done| |done|by apply Forall_replicate].
  - split; simpl; [lia|done|done|done|constructor|]. unfold zlen. simpl. lia.
  - unfold pool_worker_count. simpl. rewrite length_replicate. unfold MAX_WORKER_COUNT in *. lia.
Qed.

Lemma sections_new p n : pool_worker_count p ≤ MAX_WORKER_COUNT → sections (start p n) p.
Proof. intros Hw. split; [done|]. intros u c E. apply lookup_replicate in E as [-> _]. done. Qed.

Lemma inv_new p n : is_new p → inv (get_task_cycling p) (start p n).
Proof.
  intros (H & _ & Hw & _)%new_pool. split; [done|done|by apply sections_new|]. exists [], []. split; [done|].
  by destruct (get_task_cycling p).
Qed.

(** The tasks in the queue, newest first. *)
Definition queue (w : world) : list cplus_taskpool_task :=
  match pool w with Some p => omap (task_at p) (LlistSpec.items (task_list p)) | None => [] end.

Lemma holds_queue p idx ts : holds p idx ts → omap (task_at p) (LlistSpec.items (task_list p)) = ts.
Proof.
  intros H. rewrite (h_items _ _ _ H). pose proof (h_tasks _ _ _ H) as Ht. revert Ht. clear H.
  induction 1 as [|i t idx ts Hi _ IH]; [done|]. simpl. unfold task_at at 1. rewrite index_block, Hi. by f_equal.
Qed.

Lemma inv_queue_accounts c w : inv c w → accounts c (trace w) (queue w).
Proof.
  unfold inv, queue. destruct (pool w) as [p|]; [|done]. intros [_ _ _ (idx & ts & H & Ha)].
  by rewrite (holds_queue p idx ts H).
Qed.

(** ** Units, and what the workers hold *)

Definition fetching (x : worker) : option unit := if decide (at_place x = Fetching) then Some () else None.
Definition running (x : worker) : option cplus_taskpool_task := match at_place x with Running t => Some t | _ => None end.
Definition holding (x : worker) : option cplus_taskpool_task :=
  match at_place x with Running t | CallingBack t => Some t | _ => None end.

(** A function of where a worker is, that is empty between two turns. *)
Definition of_place {A} (f : worker → option A) : Prop :=
  (∀ b, f (Worker BetweenTurns b) = None) ∧ ∀ l b b', f (Worker l b) = f (Worker l b').

Lemma of_place_fetching : of_place fetching. Proof. done. Qed.
Lemma of_place_running : of_place running. Proof. done. Qed.
Lemma of_place_holding : of_place holding. Proof. done. Qed.

Definition pushing (c : client) : Z := match c with PushCheck | PushPost => 1 | _ => 0 end.

(** Units in the semaphore, in the hands of workers, and on the way from
    clients, less the tasks in the queue. *)
Definition slack (w : world) (p : taskpool) : Z :=
  remain_taskpool p + Z.of_nat (length (omap fetching (worker_list p))) + Semaphore.total pushing (clients w)
  - zlen (LlistSpec.items (task_list p)).

Definition covered (w : world) (p : taskpool) : Prop := 0 ≤ slack w p ∧ 0 ≤ remain_taskpool p.

(** Every fetched task was run, or is about to. *)
Definition nonnull_proc (t : cplus_taskpool_task) : Prop := proc t ≠ 0.
Definition nonnull_callback (t : cplus_taskpool_task) : Prop := callback t ≠ 0.
#[export] Instance nonnull_proc_dec t : Decision (nonnull_proc t).
Proof. unfold nonnull_proc. apply _. Defined.
#[export] Instance nonnull_callback_dec t : Decision (nonnull_callback t).
Proof. unfold nonnull_callback. apply _. Defined.

Definition ran (e : event) : option cplus_taskpool_task := match e with Ran t => Some t | _ => None end.
Definition called_back (e : event) : option cplus_taskpool_task := match e with CalledBack t => Some t | _ => None end.

Definition served (tr : list event) (ws : list worker) : Prop :=
  filter nonnull_proc (omap fetched tr) ≡ₚ omap ran tr ++ filter nonnull_proc (omap running ws)
  ∧ filter nonnull_callback (omap fetched tr) ≡ₚ omap called_back tr ++ filter nonnull_callback (omap holding ws).

(** ** What a step of a client does to the workers *)

Definition quiet (p p' : taskpool) : Prop :=
  ∀ A (f : worker → option A), of_place f → omap f (worker_list p') = omap f (worker_list p).

Lemma quiet_same p p' : worker_list p' = worker_list p → quiet p p'.
Proof. intros E A f _. by rewrite E. Qed.

Lemma quiet_removelast p x :
  last (worker_list p) = Some x → at_place x = BetweenTurns → quiet p (set_workers (removelast (worker_list p)) p).
Proof.
  intros [l E]%last_Some Hx A f [Hf _]. simpl. rewrite E, removelast_last, omap_app. simpl.
  destruct x as [y b]. simpl in Hx. subst y. by rewrite Hf, app_nil_r.
Qed.

Lemma quiet_new p : quiet p (set_workers (new_worker :: worker_list p) p).
Proof. intros A f [Hf _]. simpl. unfold new_worker. by rewrite Hf. Qed.

Lemma quiet_pause p i x b :
  worker_list p !! i = Some x → quiet p (set_workers (<[i := Worker (at_place x) b]> (worker_list p)) p).
Proof.
  intros Hi A f [_ Hf]. simpl. rewrite insert_take_drop by (by eapply lookup_lt_Some). rewrite <- (take_drop_middle _ _ _ Hi) at 3.
  rewrite !omap_app. simpl. destruct x as [y b']. simpl. by rewrite (Hf y b b').
Qed.

(** Events of clients: no task is fetched or run. *)
Definition of_client (e : event) : bool := match e with Added _ | Removed _ => true | _ => false end.

Lemma served_client es tr ws ws' :
  Forall (λ e, of_client e = true) es → served tr ws →
  omap running ws' = omap running ws → omap holding ws' = omap holding ws → served (es ++ tr) ws'.
Proof.
  intros He Hs E1 E2. unfold served. rewrite E1, E2.
  induction He as [|e es He _ IH]; [done|]. by destruct e.
Qed.

(** What a step of a client does: [units] more units are covered. *)
Record client_effect (w w' : world) (p p' : taskpool) : Prop := {
  ce_quiet : quiet p p';
  ce_trace : ∃ es, trace w' = es ++ trace w ∧ Forall (λ e, of_client e = true) es;
  ce_units : slack w p ≤ slack w' p' ∨ SEMVMX ≤ remain_taskpool p';
  ce_remain : remain_taskpool p ≤ remain_taskpool p' }.

Lemma total_move u (x : client) w y :
  client_of w u = Some x →
  Semaphore.total pushing (<[u := y]> (clients w)) = Semaphore.total pushing (clients w) - pushing x + pushing y.
Proof. apply Semaphore.total_insert. Qed.

Lemma effect_move w p w' p' u x y es :
  client_of w u = Some x → clients w' = <[u := y]> (clients w) → trace w' = es ++ trace w →
  Forall (λ e, of_client e = true) es → quiet p p' →
  remain_taskpool p ≤ remain_taskpool p' →
  remain_taskpool p + pushing x - zlen (LlistSpec.items (task_list p))
    ≤ remain_taskpool p' + pushing y - zlen (LlistSpec.items (task_list p')) →
  client_effect w w' p p'.
Proof.
  intros Ex Ec Et He Hq Hr Hu. split; [done|eauto| |done]. left. unfold slack.
  rewrite Ec, (total_move u x w y Ex), (Hq _ fetching of_place_fetching). lia.
Qed.

Lemma client_begins c w p u x w' p' :
  good c w p → pool w = Some p → client_of w u = Some (Begin x) → begin u x w = Some w' → pool w' = Some p' →
  c = false → client_effect w w' p p'.
Proof.
  intros Hg Ep Ex E Ep' ->. unfold begin, on_pool in E. rewrite Ep in E.
  assert (∀ y, move_to u y w = w' → pushing y = 0 → client_effect w w' p p') as Hmove.
  { intros y <- Hy. simpl in Ep'. rewrite Ep in Ep'. injection Ep' as <-.
    by apply (effect_move w p _ p u (Begin x) y []); [..|simpl; lia]. }
  assert (∀ k, enter_workers u p k = Some w' → k (set_sect (Some u) p) = Some w') as Henter.
  { unfold enter_workers. intros k. by destruct (worker_access_sect p). }
  destruct (g_queue _ _ _ Hg) as (idx & ts & H & Ha). pose proof (queue_size p idx ts H) as Hz.
  destruct x as [[t|]|[f|]| | | |m|b|timeout]; try (injection E as E; by eapply Hmove).
  - destruct (add_spec p idx ts t H) as (res & e & p1 & Ea & Ho & HH). rewrite Ea in E.
    destruct HH as [(_ & -> & -> & i & H')|(_ & -> & -> & ->)]; simpl in E.
    + rewrite (g_cycling _ _ _ Hg) in E. injection E as <-. injection Ep' as <-.
      destruct Ho as (_ & Hr & _ & Hw). pose proof (queue_size p1 _ _ H') as Hz'. simpl in Hz'.
      eapply (effect_move w p _ p1 u _ PushCheck [Added t]); try done; [by repeat constructor|by apply quiet_same|by rewrite Hr|].
      simpl. rewrite Hr, Hz, Hz'. lia.
    + injection E as <-. eapply (Hmove (Back CPLUS_FAIL (Some ENOMEM))); [|done].
      unfold set_pool, move_to. simpl. by rewrite <- Ep.
  - destruct (0 <? _); injection E as E; by eapply Hmove.
  - destruct (clear_task_spec p idx ts H) as (p1 & idx' & Ec & Ho & H'). rewrite Ec in E. injection E as <-. injection Ep' as <-.
    destruct Ho as (_ & Hr & _ & Hw). pose proof (queue_size p1 _ _ H') as Hz'. simpl in Hz'.
    eapply (effect_move w p _ p1 u _ (Back CPLUS_SUCCESS None)); try done; [|by apply quiet_same|by rewrite Hr|simpl; rewrite Hr, Hz, Hz'; lia].
    clear. apply Forall_rev. induction (rev ts); simpl; by constructor.
  - apply Henter in E. injection E as E. by eapply Hmove.
  - destruct (Z.ltb_spec MAX_WORKER_COUNT m); [injection E as E; by eapply Hmove|].
    apply Henter in E. injection E as <-. injection Ep' as <-.
    eapply (effect_move w p _ _ u _ _ []); try done. simpl. unfold reset_turns. by destruct (m <? _).
  - apply Henter in E. injection E as <-. injection Ep' as <-. by eapply (effect_move w p _ _ u _ _ []).
  - apply Henter in E. injection E as <-. injection Ep' as <-. by eapply (effect_move w p _ _ u _ _ []).
Qed.

Lemma client_steps w p u b w' p' :
  good false w p → covered w p → pool w = Some p → client_step u b w = Some w' → pool w' = Some p' → client_effect w w' p p'.
Proof.
  intros Hg [_ Hr0] Ep E Ep'. unfold client_step, delete_workers, delete_rest, on_pool in E. rewrite Ep in E.
  destruct (client_of w u) as [x|] eqn:Ex; [|done].
  destruct (g_queue _ _ _ Hg) as (idx & ts & H & Ha). pose proof (queue_size p idx ts H) as Hz.
  assert (∀ y w1 p1, clients w1 = <[u := y]> (clients w) → trace w1 = trace w → quiet p p1 →
    remain_taskpool p1 = remain_taskpool p → task_list p1 = task_list p → pushing x ≤ pushing y → client_effect w w1 p p1) as Hmove.
  { intros y w1 p1 Ec Et Hq Hr Hl Hy. apply (effect_move w p w1 p1 u x y []); try done; [lia|]. rewrite Hr, Hl. lia. }
  destruct x as [|x| | |f|n [|k]|n [|k]|n|pause i|timeout| |]; simpl in E; try done.
  - by eapply client_begins.
  - unfold Semaphore.push_refused in E. destruct (_ || _) eqn:Er; injection E as <-; simpl in Ep'; rewrite Ep in Ep'; injection Ep' as <-.
    + split; [done|by exists []| |done]. right.
      revert Er. unfold Semaphore.SEMAPHORE_MAX_VALUE, SEMVMX.
      destruct (decide (32767 ≤ remain_taskpool p)); [done|]. rewrite s32_small by lia.
      rewrite !orb_true_iff, !Z.ltb_lt. lia.
    + by eapply Hmove.
  - injection E as <-. injection Ep' as <-. unfold Semaphore.sem_post, SEM_VALUE_MAX.
    destruct (Z.ltb_spec (remain_taskpool p) 2147483647).
    + eapply (effect_move w p _ _ u PushPost _ []); try done; simpl; lia.
    + split; [done|by exists []| |done]. right. simpl. unfold SEMVMX. lia.
  - destruct (remove_spec f p idx ts H) as (o & p1 & Er & Ho & HH). rewrite Er in E. injection E as <-. injection Ep' as <-.
    destruct Ho as (_ & Hr & _ & Hw).
    eapply (effect_move w p _ p1 u (Removing f) (Back CPLUS_SUCCESS None)); try done;
      [by destruct o; repeat constructor|by apply quiet_same|by rewrite Hr|]. simpl. rewrite Hr, Hz.
    destruct HH as [(-> & idx' & H')|(j & t & idx' & Hj & -> & H')]; rewrite (queue_size p1 _ _ H'); [lia|].
    rewrite length_delete by done. lia.
  - injection E as <-. simpl in Ep'. rewrite Ep in Ep'. injection Ep' as <-. by eapply Hmove.
  - apply stop_last_cases in E as [(El & E)|(El & (y & Hy & Hyp) & E)]; injection E as <-; injection Ep' as <-.
    + by eapply Hmove.
    + eapply Hmove; try done. by eapply quiet_removelast.
  - injection E as <-. simpl in Ep'. rewrite Ep in Ep'. injection Ep' as <-. by eapply Hmove.
  - destruct b; [destruct (_ <? _)|]; injection E as <-; simpl in Ep'.
    + injection Ep' as <-. eapply Hmove; try done. apply quiet_new.
    + rewrite Ep in Ep'. injection Ep' as <-. eapply (Hmove (Growing n (S k))); try done. simpl. symmetry. by apply list_insert_id.
    + rewrite Ep in Ep'. injection Ep' as <-. by eapply Hmove.
  - injection E as <-. injection Ep' as <-. by eapply Hmove.
  - destruct (worker_list p !! i) as [y|] eqn:Ey; injection E as <-; injection Ep' as <-.
    + eapply Hmove; try done. by apply quiet_pause.
    + by eapply Hmove.
  - destruct (worker_list p) as [|y l] eqn:El.
    + injection E as <-. injection Ep' as <-. by eapply Hmove.
    + apply stop_last_cases in E as [(El' & _)|(_ & (z & Hz' & Hzp) & E)]; [congruence|].
      injection E as <-. injection Ep' as <-. eapply (Hmove (Stopping timeout)); try done; [simpl; symmetry; by apply list_insert_id|].
      by eapply quiet_removelast.
  - destruct (cplus_taskpool_clear_task p) as [[l p1]|]; injection E as <-; simpl in Ep'; [done|].
    rewrite Ep in Ep'. injection Ep' as <-. eapply (Hmove Freeing); try done. simpl. symmetry. by apply list_insert_id.
Qed.

(** ** What a step of a worker does *)

Lemma omap_insert_Permutation {A B} (f : A → option B) l i x y :
  l !! i = Some x →
  omap f l ≡ₚ option_list (f x) ++ omap f (delete i l)
  ∧ omap f (<[i := y]> l) ≡ₚ option_list (f y) ++ omap f (delete i l).
Proof.
  intros Hi. rewrite insert_take_drop by (by eapply lookup_lt_Some). rewrite delete_take_drop.
  rewrite <- (take_drop_middle _ _ _ Hi) at 1. rewrite !omap_app. simpl.
  split; [destruct (f x)|destruct (f y)]; simpl; by rewrite ?Permutation_middle.
Qed.

Lemma pay {A} (F G Q X R Y Z : list A) :
  G ≡ₚ Q ++ X ++ Z → F ++ X ≡ₚ R ++ Y → F ++ G ≡ₚ (R ++ Q) ++ Y ++ Z.
Proof.
  intros -> H. rewrite (Permutation_app_swap_app F Q), (app_assoc F), H, <- !app_assoc.
  by rewrite (Permutation_app_swap_app Q R).
Qed.

(** Worker [i] goes to [l]; [es] is what is recorded. *)
Lemma served_step tr ws i x l es :
  ws !! i = Some x → served tr ws →
  filter nonnull_proc (omap fetched es) ++ filter nonnull_proc (option_list (running x))
    ≡ₚ omap ran es ++ filter nonnull_proc (option_list (running (Worker l (evt_pause x)))) →
  filter nonnull_callback (omap fetched es) ++ filter nonnull_callback (option_list (holding x))
    ≡ₚ omap called_back es ++ filter nonnull_callback (option_list (holding (Worker l (evt_pause x)))) →
  served (es ++ tr) (<[i := Worker l (evt_pause x)]> ws).
Proof.
  intros Hi [H1 H2] E1 E2.
  destruct (omap_insert_Permutation running ws i x (Worker l (evt_pause x)) Hi) as [R1 R2].
  destruct (omap_insert_Permutation holding ws i x (Worker l (evt_pause x)) Hi) as [C1 C2].
  split.
  - rewrite R2, !omap_app, !filter_app. eapply pay; [|exact E1]. by rewrite H1, R1, filter_app.
  - rewrite C2, !omap_app, !filter_app. eapply pay; [|exact E2]. by rewrite H2, C1, filter_app.
Qed.

Definition got (x : worker) : Z := Z.of_nat (length (option_list (fetching x))).

Lemma slack_change w w' p p' i x l :
  worker_list p !! i = Some x → worker_list p' = <[i := Worker l (evt_pause x)]> (worker_list p) → clients w' = clients w →
  slack w' p' = slack w p + (remain_taskpool p' - remain_taskpool p) + (got (Worker l (evt_pause x)) - got x)
                - (zlen (LlistSpec.items (task_list p')) - zlen (LlistSpec.items (task_list p))).
Proof.
  intros Hi Ew Ec. unfold slack, got. rewrite Ew, Ec.
  destruct (omap_insert_Permutation fetching _ i x (Worker l (evt_pause x)) Hi) as [F1 F2].
  apply Permutation_length in F1, F2. rewrite !length_app in *. lia.
Qed.

Lemma pushing_nonneg l : 0 ≤ Semaphore.total pushing l.
Proof. induction l as [|c l IH]; simpl; [lia|]. destruct c; simpl; lia. Qed.

(** The units cover the queue, and every fetched task was run or is about to be. *)
Definition sound (w : world) : Prop :=
  match pool w with Some p => covered w p ∧ served (trace w) (worker_list p) | None => True end.

Lemma worker_sound w p i w' :
  good false w p → pool w = Some p → sound w → task_worker i w = Some w' → sound w'.
Proof.
  intros Hg Ep Hsound E. unfold sound in Hsound. rewrite Ep in Hsound. destruct Hsound as [[Hc Hr] Hs].
  unfold task_worker, on_pool in E. rewrite Ep in E.
  destruct (worker_list p !! i) as [x|] eqn:Hi; [|done]. cbn [mbind option_bind] in E.
  assert (∀ es l p1 w1, pool w1 = Some p1 → worker_list p1 = <[i := Worker l (evt_pause x)]> (worker_list p) →
    clients w1 = clients w → trace w1 = es ++ trace w → 0 ≤ remain_taskpool p1 →
    0 ≤ slack w p + (remain_taskpool p1 - remain_taskpool p) + (got (Worker l (evt_pause x)) - got x)
         - (zlen (LlistSpec.items (task_list p1)) - zlen (LlistSpec.items (task_list p))) →
    filter nonnull_proc (omap fetched es) ++ filter nonnull_proc (option_list (running x))
      ≡ₚ omap ran es ++ filter nonnull_proc (option_list (running (Worker l (evt_pause x)))) →
    filter nonnull_callback (omap fetched es) ++ filter nonnull_callback (option_list (holding x))
      ≡ₚ omap called_back es ++ filter nonnull_callback (option_list (holding (Worker l (evt_pause x)))) →
    sound w1) as G.
  { intros es l p1 w1 E1 Ew Ec Et Hr1 Hsl E2 E3. unfold sound. rewrite E1. split; [split; [|done]|].
    - by rewrite (slack_change w w1 p p1 i x l).
    - rewrite Et, Ew. by apply served_step. }
  destruct x as [[| | |t|t] b]; cbn [at_place evt_pause] in *.
  - destruct b; [|done]. injection E as <-. rewrite (g_cycling _ _ _ Hg).
    eapply (G [] Waiting (set_place i _ Waiting p)); try done. simpl. unfold got. simpl. lia.
  - destruct (Z.ltb_spec 0 (remain_taskpool p)); [|done]. injection E as <-.
    eapply (G [] Fetching); try reflexivity; unfold got; simpl; lia.
  - destruct (g_queue _ _ _ Hg) as (idx & ts & H & Ha). pose proof (queue_size p idx ts H) as Hz.
    destruct (fetch_spec p idx ts H (g_cycling _ _ _ Hg)) as (o & p1 & Ef & Ho & HH). rewrite Ef in E.
    destruct Ho as (_ & Er & _ & Ew). 
    destruct HH as [(-> & -> & ->)|(t & ts' & idx' & -> & -> & H')]; injection E as <-.
    + eapply (G [] BetweenTurns); try reflexivity; simpl; [lia|].
      pose proof (pushing_nonneg (clients w)). unfold slack, got. rewrite Hz.
      rewrite (proj1 (omap_insert_Permutation fetching _ i _ (Worker Fetching b) Hi)). simpl. lia.
    + pose proof (queue_size p1 _ _ H') as Hz1. rewrite length_app in Hz. simpl in Hz.
      eapply (G [Fetched t] (Running t)); try reflexivity.
      * simpl. by rewrite Ew.
      * simpl. lia.
      * simpl. rewrite Hz1, Hz, Er. unfold got. simpl. lia.
      * simpl. by rewrite app_nil_r.
      * simpl. by rewrite app_nil_r.
  - destruct (decide (proc t = 0)) as [Hp|Hp].
    + rewrite Hp in E. injection E as <-. eapply (G [] (CallingBack t)); try reflexivity; try done; unfold got; simpl; try lia.
      rewrite filter_cons_False; [done|]. by intros ?.
    + rewrite (proj2 (Z.eqb_neq _ _) Hp) in E. injection E as <-.
      eapply (G [Ran t] (CallingBack t)); try reflexivity; try done; unfold got; simpl; try lia.
      by rewrite filter_cons_True by done.
  - destruct (decide (callback t = 0)) as [Hp|Hp].
    + rewrite Hp in E. injection E as <-. eapply (G [] BetweenTurns); try reflexivity; try done; unfold got; simpl; try lia.
      rewrite filter_cons_False; [done|]. by intros ?.
    + rewrite (proj2 (Z.eqb_neq _ _) Hp) in E. injection E as <-.
      eapply (G [CalledBack t] BetweenTurns); try reflexivity; try done; unfold got; simpl; try lia.
      by rewrite filter_cons_True by done.
Qed.

(** A run in which every stop was given its time. *)
Definition in_time (l : label) : Prop := match l with Kill _ => False | _ => True end.

Lemma client_sound w p u b w' :
  good false w p → pool w = Some p → sound w → client_step u b w = Some w' → inv false w' → sound w'.
Proof.
  intros Hg Ep Hs E Hi. unfold sound in *. rewrite Ep in Hs. destruct Hs as [Hc Hs].
  destruct (pool w') as [p'|] eqn:Ep'; [|done].
  destruct (client_steps w p u b w' p' Hg Hc Ep E Ep') as [Hq (es & Et & He) Hu Hr]. split.
  - split; [|unfold covered in Hc; lia]. destruct Hu as [Hu|Hu]; [unfold covered in Hc; lia|].
    unfold inv in Hi. rewrite Ep' in Hi. destruct Hi as [_ _ _ (idx & ts & H & _)].
    pose proof (queue_size p' idx ts H). pose proof (queue_fits p' idx ts H). pose proof (h_max _ _ _ H).
    pose proof (pushing_nonneg (clients w')). unfold slack, SEMVMX, MAX_TASK_COUNT in *. lia.
  - rewrite Et. eapply served_client; [done|done|by apply Hq|by apply Hq].
Qed.

Lemma sound_exec l w w' : inv false w → sound w → in_time l → exec l w = Some w' → sound w'.
Proof.
  intros Hi Hs Hl E. pose proof (pool_inv_exec _ _ _ _ Hi E) as Hi'.
  destruct (inv_expose _ w Hi) as [(p & Ep & Hg)|(Ep & Ha)].
  2:{ unfold sound. destruct (pool w') eqn:Ep'; [|done].
      destruct l as [u x|u b|i|i|u]; simpl in E;
        unfold client_step, delete_workers, delete_rest, begin, task_worker, wait_fails, stop_expires, on_pool in E; rewrite ?Ep in E;
        repeat case_match; simplify_eq; simpl in Ep'; congruence. }
  destruct l as [u x|u b|i|i|u]; simpl in E; [| | | |done].
  - destruct (client_of w u) as [y|] eqn:Ey; [|done]. destruct (outside y) eqn:Ho; [|done]. injection E as <-.
    unfold sound in *. simpl. rewrite Ep in *. destruct Hs as [[Hc Hr] Hs]. split; [split; [|done]|done].
    unfold slack in *. simpl. rewrite (total_move u y w) by done. destruct y; try done; simpl; lia.
  - by eapply client_sound.
  - by eapply worker_sound.
  - unfold wait_fails, on_pool in E. rewrite Ep in E. destruct (worker_list p !! i) as [x|] eqn:Ex; [|done]. cbn [mbind option_bind] in E.
    destruct (decide _) as [Hx|]; [|done]. injection E as <-. destruct x as [y b]. simpl in Hx. subst y.
    unfold sound in *. simpl. rewrite Ep in Hs. destruct Hs as [[Hc Hr] Hs]. split.
    + split; [|done]. rewrite (slack_change w (set_pool (set_place i (Worker Waiting b) BetweenTurns p) w) p (set_place i (Worker Waiting b) BetweenTurns p) i _ BetweenTurns Ex eq_refl eq_refl). unfold got. simpl. lia.
    + by apply (served_step (trace w) (worker_list p) i (Worker Waiting b) BetweenTurns [] Ex Hs).
Qed.

Lemma sound_run ls w w' :
  inv false w → sound w → Forall in_time ls → run ls w = Some w' → inv false w' ∧ sound w'.
Proof.
  intros Hi Hs Hl. revert w Hi Hs. induction Hl as [|l ls Hl _ IH]; intros w Hi Hs E; simpl in E; [by injection E as <-|].
  destruct (exec l w) as [w1|] eqn:E1; [|done]. simpl in E.
  eapply IH; [by eapply pool_inv_exec|by eapply sound_exec|done].
Qed.

Lemma sound_new p n : is_new p → sound (start p n).
Proof.
  intros (H & Hr & Hw & _ & Hf)%new_pool. unfold sound. simpl. pose proof (queue_size p [] [] H) as Hz. simpl in Hz.
  assert (∀ A (f : worker → option A), of_place f → omap f (worker_list p) = []) as E.
  { intros A f [Hb _]. induction Hf as [|x l -> _ IH]; [done|]. simpl. unfold new_worker. rewrite Hb. exact IH. }
  split; [split|].
  - unfold slack. simpl. rewrite Hr, Hz, (E _ fetching of_place_fetching), Semaphore.total_replicate by done. simpl. lia.
  - by rewrite Hr.
  - split; simpl; by rewrite (E _ _ of_place_running) || rewrite (E _ _ of_place_holding).
Qed.

End TaskPoolInv.
