(* ===== verification/TaskPoolProps.v ===== *)
(** * TaskPoolProps: the task pool loses, invents and repeats no task

    The account of the tasks in every run; the number of workers; every fetched
    task runs once; the queue drains; a cycling pool serves its tasks in turn;
    what a full queue answers. *)

From S2P Require Import Prelude Zlist Mempool Llist LlistSpec Semaphore TaskPool TaskPoolInv.
From stdpp Require Import base numbers list option gmap.
From Stdlib Require Import ZArith Lia.
Open Scope Z_scope.

Module TaskPoolProps.
Import TaskPool TaskPoolInv.


(** a reset of the number of workers answers success exactly when it leaves
    as many workers as it was asked for, whatever the other threads do
    meanwhile, and whether the workers it stops end in time or are cancelled; a
    smaller number is always reached, a larger one when every task can be made,
    and there are never more than 32 workers. *)
Theorem reset_reaches_count p n ls w u m p' :
  is_new p → run ls (start p n) = Some w → pool w = Some p' →
  pool_worker_count p' ≤ MAX_WORKER_COUNT
  ∧ (client_of w u = Some (Shrinking m 0) → 0 ≤ m → pool_worker_count p' = m)
  ∧ (client_of w u = Some (Growing m 0) → pool_worker_count p' = m)
  ∧ (∀ b, client_of w u = Some (CountAgain m) →
       ∃ w', client_step u b w = Some w'
         ∧ client_of w' u = Some (Back (if decide (pool_worker_count p' = m) then CPLUS_SUCCESS else CPLUS_FAIL) None)).
Proof.
  intros Hn Hr Ep. pose proof (inv_run _ ls _ w (inv_new p n Hn) Hr) as Hi.
  unfold inv in Hi. rewrite Ep in Hi. destruct Hi as [_ _ [Hw Hs] _]. split_and!; [done| | |].
  - intros E Hm. destruct (Hs u _ E) as (_ & Hc). lia.
  - intros E. destruct (Hs u _ E) as (_ & Hc & _). lia.
  - intros b E. unfold client_step, delete_workers, delete_rest, on_pool. rewrite E, Ep. eexists. split; [reflexivity|].
    unfold client_of, answer, move_to. simpl. rewrite list_lookup_insert_eq by (by eapply lookup_lt_Some).
    destruct (Z.eqb_spec (pool_worker_count p') m); by case_decide.
Qed.

(** C30: as long as no worker is cancelled: the function of every task a worker
    has fetched was called once, or that worker is about to call it, and its
    callback likewise; a null function or callback is not called. *)
Theorem fetched_tasks_run_once p n ls w p' :
  is_new p → get_task_cycling p = false → Forall in_time ls → run ls (start p n) = Some w → pool w = Some p' →
  filter nonnull_proc (omap fetched (trace w)) ≡ₚ omap ran (trace w) ++ filter nonnull_proc (omap running (worker_list p'))
  ∧ filter nonnull_callback (omap fetched (trace w))
    ≡ₚ omap called_back (trace w) ++ filter nonnull_callback (omap holding (worker_list p')).
Proof.
  intros Hn Hc Hl Hr Ep. pose proof (inv_new p n Hn) as Hi. rewrite Hc in Hi.
  destruct (sound_run ls _ w Hi (sound_new p n Hn) Hl Hr) as [_ Hs]. unfold sound in Hs. rewrite Ep in Hs. apply Hs.
Qed.

(** ** The queue drains *)

(** The steps a worker has left until it waits at the semaphore. *)
Definition turn_left (x : worker) : Z :=
  match at_place x with BetweenTurns => 1 | Waiting => 0 | Fetching => 4 | Running _ => 3 | CallingBack _ => 2 end.
Definition work_left (p : taskpool) : Z := 5 * remain_taskpool p + Semaphore.total turn_left (worker_list p).

Lemma turn_left_nonneg l : 0 ≤ Semaphore.total turn_left l.
Proof. induction l as [|x l IH]; simpl; [lia|]. unfold turn_left at 1. destruct (at_place x); lia. Qed.

Lemma turn_left_move p i x l :
  worker_list p !! i = Some x →
  Semaphore.total turn_left (worker_list (set_place i x l p))
  = Semaphore.total turn_left (worker_list p) - turn_left x + turn_left (Worker l (evt_pause x)).
Proof. intros Hi. simpl. by rewrite (Semaphore.total_insert _ _ _ x). Qed.

Lemma work_step i w p w' :
  good false w p → pool w = Some p → task_worker i w = Some w' →
  clients w' = clients w ∧ ∃ p', pool w' = Some p' ∧ work_left p' + 1 ≤ work_left p.
Proof.
  intros Hg Ep E. unfold task_worker, on_pool in E. rewrite Ep in E.
  destruct (worker_list p !! i) as [x|] eqn:Hi; [|done]. cbn [mbind option_bind] in E.
  assert (∀ l p1 w1, pool w1 = Some (set_place i x l p1) → clients w1 = clients w → worker_list p1 = worker_list p →
    5 * remain_taskpool p1 + turn_left (Worker l (evt_pause x)) + 1 ≤ 5 * remain_taskpool p + turn_left x →
    clients w1 = clients w ∧ ∃ p', pool w1 = Some p' ∧ work_left p' + 1 ≤ work_left p) as G.
  { intros l p1 w1 E1 Ec Ew Hle. split; [done|]. eexists. split; [done|]. unfold work_left.
    rewrite turn_left_move by (by rewrite Ew). rewrite Ew. simpl. lia. }
  destruct x as [[| | |t|t] b]; cbn [at_place evt_pause] in *.
  - destruct b; [|done]. injection E as <-. rewrite (g_cycling _ _ _ Hg). eapply G; try reflexivity. unfold turn_left. simpl. lia.
  - destruct (Z.ltb_spec 0 (remain_taskpool p)); [|done]. injection E as <-. eapply G; try reflexivity. unfold turn_left. simpl. lia.
  - destruct (g_queue _ _ _ Hg) as (idx & ts & H & Ha).
    destruct (fetch_spec p idx ts H (g_cycling _ _ _ Hg)) as (o & p1 & Ef & (_ & Er & _ & Ew) & _). rewrite Ef in E.
    destruct o as [t|]; injection E as <-; (eapply G; [reflexivity|done|done|]); rewrite Er; unfold turn_left; simpl; lia.
  - destruct (negb _); injection E as <-; (eapply G; try reflexivity); unfold turn_left; simpl; lia.
  - destruct (negb _); injection E as <-; (eapply G; try reflexivity); unfold turn_left; simpl; lia.
Qed.

Lemma work_run js w p w' :
  inv false w → sound w → pool w = Some p → run (Work <$> js) w = Some w' →
  inv false w' ∧ sound w' ∧ clients w' = clients w ∧ ∃ p', pool w' = Some p' ∧ work_left p' + Z.of_nat (length js) ≤ work_left p.
Proof.
  revert w p. induction js as [|i js IH]; intros w p Hi Hs Ep E; simpl in E.
  { injection E as <-. split_and!; [done..|]. exists p. simpl. split; [done|lia]. }
  destruct (task_worker i w) as [w1|] eqn:E1; [|done]. simpl in E.
  assert (good false w p) as Hg by (unfold inv in Hi; by rewrite Ep in Hi).
  destruct (work_step i w p w1 Hg Ep E1) as (Hc & p1 & Ep1 & Hw).
  destruct (IH w1 p1) as (Hi' & Hs' & Hc' & p' & Ep' & Hw'); [by eapply (pool_inv_exec _ (Work i))|by eapply worker_sound|done|done|].
  split_and!; [done|done|congruence|]. exists p'. split; [done|]. simpl. lia.
Qed.

(** A worker that cannot move. *)
Lemma work_stuck w p i x :
  good false w p → pool w = Some p → worker_list p !! i = Some x → task_worker i w = None →
  at_place x = BetweenTurns ∧ evt_pause x = false ∨ at_place x = Waiting ∧ remain_taskpool p ≤ 0.
Proof.
  intros Hg Ep Hi E. unfold task_worker, on_pool in E. rewrite Ep, Hi in E. cbn [mbind option_bind] in E.
  destruct (at_place x).
  - left. by destruct (evt_pause x).
  - right. destruct (Z.ltb_spec 0 (remain_taskpool p)); done || lia.
  - by repeat case_match.
  - done.
  - done.
Qed.

Lemma omap_nil {A B} (f : A → option B) l : (∀ i x, l !! i = Some x → f x = None) → omap f l = [].
Proof.
  intros H. induction l as [|x l IH]; [done|]. simpl. rewrite (H 0%nat x eq_refl). apply IH. intros i. apply (H (S i)).
Qed.

Lemma pushing_outside l : Forall (λ c, outside c = true) l → Semaphore.total pushing l = 0.
Proof. induction 1 as [|c l Hc _ IH]; simpl; [done|]. destruct c; simpl in *; lia || done. Qed.

(** C15: the queue drains.  When all clients are back, the workers have a bounded
    number of steps left, however they interleave; and when none of them can
    move any more and one of them is not paused, the queue is empty and every
    task that was added was removed or run, in the order of adding. *)
Theorem pool_drains p n ls w p1 js w' :
  is_new p → get_task_cycling p = false → Forall in_time ls → run ls (start p n) = Some w → pool w = Some p1 →
  Forall (λ c, outside c = true) (clients w) → run (Work <$> js) w = Some w' →
  Z.of_nat (length js) ≤ work_left p1
  ∧ ((∀ i, task_worker i w' = None) →
     (∃ p' x, pool w' = Some p' ∧ x ∈ worker_list p' ∧ evt_pause x = true) →
     queue w' = [] ∧ omap added (trace w') ≡ₚ omap fetched (trace w') ++ omap removed (trace w')
     ∧ sublist (omap fetched (trace w')) (omap added (trace w'))
     ∧ omap ran (trace w') ≡ₚ filter nonnull_proc (omap fetched (trace w'))
     ∧ omap called_back (trace w') ≡ₚ filter nonnull_callback (omap fetched (trace w'))).
Proof.
  intros Hn Hc Hl Hr Ep Hout Hw. pose proof (inv_new p n Hn) as Hi. rewrite Hc in Hi.
  destruct (sound_run ls _ w Hi (sound_new p n Hn) Hl Hr) as [Hi1 Hs1].
  destruct (work_run js w p1 w' Hi1 Hs1 Ep Hw) as (Hi' & Hs' & Ec & p' & Ep' & Hle).
  assert (covered w' p' ∧ served (trace w') (worker_list p')) as [[Hcov Hrem] Hserved] by (unfold sound in Hs'; by rewrite Ep' in Hs').
  split. { pose proof (turn_left_nonneg (worker_list p')). unfold work_left in *. lia. }
  intros Hstuck (p2 & x & Ep2 & Hx & Hpause). rewrite Ep' in Ep2. injection Ep2 as <-.
  pose proof (inv_queue_accounts _ _ Hi') as [Ha1 Ha2]. unfold inv in Hi'. rewrite Ep' in Hi'.
  assert (∀ i y, worker_list p' !! i = Some y → at_place y = BetweenTurns ∧ evt_pause y = false ∨ at_place y = Waiting ∧ remain_taskpool p' ≤ 0) as Hall.
  { intros i y Hy. eapply work_stuck; [done..|apply Hstuck]. }
  apply list_elem_of_lookup_1 in Hx as [i Hi0]. destruct (Hall i x Hi0) as [[_ E]|[_ Hr0]]; [congruence|].
  assert (omap fetching (worker_list p') = [] ∧ omap running (worker_list p') = [] ∧ omap holding (worker_list p') = []) as (Ef & Eg & Eh).
  { split_and!; apply omap_nil; intros j [y b] Hy; by destruct (Hall j _ Hy) as [[E _]|[E _]]; simpl in E; subst y. }
  assert (queue w' = []) as Eq.
  { destruct Hi' as [_ _ _ (idx & ts & H & _)]. unfold queue. rewrite Ep', (holds_queue p' idx ts H).
    apply length_zero_iff_nil. pose proof (queue_size p' idx ts H). unfold slack in Hcov.
    rewrite Ef, Ec, (pushing_outside (clients w) Hout) in Hcov. simpl in Hcov. lia. }
  rewrite Eq in Ha1, Ha2. destruct Hserved as [S1 S2]. rewrite Eg, app_nil_r in S1. rewrite Eh, app_nil_r in S2. done.
Qed.

(** ** Adding, and cycling *)

(** adding a task puts it at the front of the queue when there is room, and
    otherwise fails with [ENOMEM] and leaves the pool as it is. *)
Theorem add_task_answers p n ls w p' u b t :
  is_new p → run ls (start p n) = Some w → pool w = Some p' → client_of w u = Some (Begin (AddTask (Some t))) →
  ∃ w', client_step u b w = Some w'
    ∧ if Z.of_nat (length (queue w)) <? max_task_count p' then
        queue w' = t :: queue w ∧ trace w' = Added t :: trace w
        ∧ client_of w' u = Some (if get_task_cycling p' then Back CPLUS_SUCCESS None else PushCheck)
      else pool w' = pool w ∧ trace w' = trace w ∧ client_of w' u = Some (Back CPLUS_FAIL (Some ENOMEM)).
Proof.
  intros Hn Hr Ep E. pose proof (inv_run _ ls _ w (inv_new p n Hn) Hr) as Hi. unfold inv in Hi. rewrite Ep in Hi.
  destruct Hi as [_ _ _ (idx & ts & H & _)]. pose proof (lookup_lt_Some _ _ _ E) as Hu.
  unfold client_step, delete_workers, delete_rest, begin, on_pool, queue. rewrite E, Ep, (holds_queue p' idx ts H).
  destruct (add_spec p' idx ts t H) as (res & e & p1 & -> & (Hc & _) & [(Hl & -> & -> & i & H')|(Hl & -> & -> & ->)]); simpl.
  - rewrite (proj2 (Z.ltb_lt _ _) Hl). eexists. split; [reflexivity|].
    destruct (get_task_cycling p'); simpl; (split; [by eapply holds_queue|]); (split; [done|]);
      unfold client_of; simpl; by rewrite list_lookup_insert_eq.
  - rewrite (proj2 (Z.ltb_ge _ _)) by lia. eexists. split; [reflexivity|]. split; [done|]. split; [done|].
    unfold client_of. simpl. by rewrite list_lookup_insert_eq.
Qed.

(** What [k] workers fetch, one after the other. *)
Fixpoint fetch_times (k : nat) (p : taskpool) : option (list (option cplus_taskpool_task) * taskpool) :=
  match k with
  | O => Some ([], p)
  | S k => '(o, p1) ← fetch_task p; '(l, p2) ← fetch_times k p1; Some (o :: l, p2)
  end.

Lemma next_in_turn c n j : 0 < n → 0 ≤ c < n → ((if c + 1 <? n then c + 1 else 0) + j) `mod` n = (c + (j + 1)) `mod` n.
Proof.
  intros Hn Hc. destruct (Z.ltb_spec (c + 1) n).
  - f_equal. lia.
  - replace (c + (j + 1)) with (j + 1 * n) by lia. by rewrite Z.mod_add, Z.add_0_l by lia.
Qed.

Lemma fetch_times_spec k p idx ts :
  holds p idx ts → get_task_cycling p = true → ts ≠ [] →
  ∃ l p', fetch_times k p = Some (l, p') ∧ holds p' idx ts
    ∧ ∀ j, (j < k)%nat → l !! j = Some (ts !! Z.to_nat ((LlistSpec.pos (task_list p) + Z.of_nat j) `mod` Z.of_nat (length ts))).
Proof.
  revert p. induction k as [|k IH]; intros p H Hc Hts; [exists [], p; split_and!; [done|done|lia]|].
  destruct (fetch_cycling p idx ts H Hc) as (o & p1 & E1 & (Hc1 & _) & H1 & -> & Hp1).
  destruct (IH p1 H1 (eq_trans Hc1 Hc) Hts) as (l & p2 & E2 & H2 & Hl).
  assert (0 < Z.of_nat (length ts)) as Hn by (destruct ts; [done|simpl; lia]).
  assert (0 ≤ LlistSpec.pos (task_list p) < Z.of_nat (length ts)) as Hcur.
  { pose proof (h_cursor _ _ _ H) as Hcur. unfold zlen in Hcur. rewrite <- (queue_length p idx ts H) in Hcur. lia. }
  eexists _, p2. simpl. rewrite E1. simpl. rewrite E2. simpl. split; [reflexivity|]. split; [done|].
  intros [|j] Hj; simpl.
  - by rewrite Z.add_0_r, Z.mod_small by lia.
  - rewrite Hl by lia. rewrite Hp1, next_in_turn by lia. do 5 f_equal. lia.
Qed.

(** a cycling pool serves its tasks in turn: [k] fetches, whatever happened
    before, give the tasks of the queue one after the other from the cursor on,
    and round again, and take none of them out. *)
Theorem cycling_serves_in_turn p0 n ls w p k :
  is_new p0 → get_task_cycling p0 = true → run ls (start p0 n) = Some w → pool w = Some p → queue w ≠ [] →
  ∃ l p', fetch_times k p = Some (l, p') ∧ queue (set_pool p' w) = queue w
    ∧ ∀ j, (j < k)%nat →
        l !! j = Some (queue w !! Z.to_nat ((LlistSpec.pos (task_list p) + Z.of_nat j) `mod` Z.of_nat (length (queue w)))).
Proof.
  intros Hn Hc Hr Ep Hq. pose proof (inv_run _ ls _ w (inv_new p0 n Hn) Hr) as Hi. unfold inv in Hi. rewrite Ep, Hc in Hi.
  destruct Hi as [_ Hcyc _ (idx & ts & H & _)]. unfold queue in *. rewrite Ep, (holds_queue p idx ts H) in *.
  destruct (fetch_times_spec k p idx ts H Hcyc Hq) as (l & p' & E & H' & Hl).
  exists l, p'. split; [done|]. split; [by eapply holds_queue|done].
Qed.

(** ** An example *)

Definition example_config (cycling : bool) : cplus_taskpool_config := Config 2 3 0 cycling.
Definition example_pool (cycling : bool) : taskpool :=
  match taskpool_initialize_object (example_config cycling) true 4096 (replicate 7 true) [true; true] with
  | Made p => p
  | NotMade _ _ => Pool 0 false 1 1 (LlistSpec.View [] 0 false) [] ∅ 0 None []
  end.

Lemma example_new b : is_new (example_pool b).
Proof.
  exists (example_config b), (example_config b), 16384, 4096, (replicate 7 true), [true; true].
  split; [reflexivity|]. split; [lia|]. destruct b; vm_compute; reflexivity.
Qed.

Definition task_n (i : Z) : cplus_taskpool_task := Task (100 + i) i 0 (200 + i).
Definition adding (i : Z) : list label := [Call 0 (AddTask (Some (task_n i))); Move 0 true; Move 0 true; Move 0 true].
Definition turn (i : nat) : list label := replicate 5 (Work i).

(** Three tasks, a fourth that does not fit, one removed, the others served by two workers. *)
Definition morning : list label :=
  adding 1 ++ adding 2 ++ adding 3 ++ [Call 0 (AddTask (Some (task_n 4))); Move 0 true]
  ++ [Call 1 (RemoveTask (Some (λ t, param1 t - 2))); Move 1 true; Move 1 true].
Definition after_morning (b : bool) : world := default (start (example_pool b) 2) (run morning (start (example_pool b) 2)).
Definition noon : list nat := [0%nat; 1%nat; 0%nat; 1%nat; 1%nat; 0%nat; 0%nat; 1%nat; 1%nat; 0%nat] ++ [0%nat; 0%nat; 0%nat; 0%nat; 1%nat].
Definition after_noon : world := default (after_morning false) (run (Work <$> noon) (after_morning false)).

Definition pool_of (w : world) : taskpool := default (example_pool false) (pool w).


Theorem fetched_tasks_run_once_witness :
  let w := default (after_morning false) (run (turn 0) (after_morning false)) in
  run (morning ++ turn 0) (start (example_pool false) 2) = Some w ∧ omap ran (trace w) = [task_n 1]
  ∧ filter nonnull_proc (omap fetched (trace w)) ≡ₚ omap ran (trace w) ++ filter nonnull_proc (omap running (worker_list (pool_of w))).
Proof.
  intros w. assert (E : run (morning ++ turn 0) (start (example_pool false) 2) = Some w) by (vm_compute; reflexivity).
  assert (Ep : pool w = Some (pool_of w)) by (vm_compute; reflexivity).
  split; [exact E|]. split; [vm_compute; reflexivity|].
  refine (proj1 (fetched_tasks_run_once _ 2 _ w _ (example_new false) eq_refl _ E Ep)).
  repeat constructor.
Defined.

Theorem pool_drains_witness :
  run (Work <$> noon) (after_morning false) = Some after_noon
  ∧ queue after_noon = [] ∧ omap ran (trace after_noon) = [task_n 1; task_n 3].
Proof.
  assert (E : run morning (start (example_pool false) 2) = Some (after_morning false)) by (vm_compute; reflexivity).
  assert (E' : run (Work <$> noon) (after_morning false) = Some after_noon) by (vm_compute; reflexivity).
  assert (Ep : pool (after_morning false) = Some (pool_of (after_morning false))) by (vm_compute; reflexivity).
  assert (Ep' : pool after_noon = Some (pool_of after_noon)) by (vm_compute; reflexivity).
  assert (Eo : Forall (λ c, outside c = true) (clients (after_morning false))) by (vm_compute; repeat constructor).
  assert (El : Forall in_time morning) by repeat constructor.
  destruct (pool_drains _ 2 morning _ _ noon after_noon (example_new false) eq_refl El E Ep Eo E') as [_ H].
  split; [exact E'|]. split; [|vm_compute; reflexivity]. apply H.
  - intros [|[|i]]; vm_compute; reflexivity.
  - exists (pool_of after_noon), (Worker Waiting true). split; [exact Ep'|]. split; [vm_compute; constructor|reflexivity].
Defined.

Theorem reset_reaches_count_witness :
  let ls := [Call 0 (ResetWorkerCount 1); Move 0 true; Move 0 true; Move 0 true] in
  ∃ w, run ls (start (example_pool false) 2) = Some w ∧ pool_worker_count (pool_of w) = 1
    ∧ pool_worker_count (pool_of w) ≤ MAX_WORKER_COUNT
    ∧ ∃ w', client_step 0 true w = Some w' ∧ client_of w' 0 = Some (Back CPLUS_SUCCESS None).
Proof.
  intros ls. set (w := default (after_morning false) (run ls (start (example_pool false) 2))).
  assert (E : run ls (start (example_pool false) 2) = Some w) by (vm_compute; reflexivity).
  assert (Ep : pool w = Some (pool_of w)) by (vm_compute; reflexivity).
  destruct (reset_reaches_count _ 2 ls w 0 1 _ (example_new false) E Ep) as (H1 & _ & _ & H2).
  exists w. split; [exact E|]. split; [vm_compute; reflexivity|]. split; [exact H1|].
  destruct (H2 true) as (w' & E1 & E2); [vm_compute; reflexivity|]. exists w'. split; [exact E1|].
  rewrite E2. vm_compute. reflexivity.
Defined.

Theorem add_task_answers_witness :
  let ls := adding 1 ++ adding 2 ++ adding 3 ++ [Call 0 (AddTask (Some (task_n 4)))] in
  ∃ w, run ls (start (example_pool false) 2) = Some w ∧ length (queue w) = 3%nat
    ∧ ∃ w', client_step 0 true w = Some w' ∧ pool w' = pool w ∧ client_of w' 0 = Some (Back CPLUS_FAIL (Some ENOMEM)).
Proof.
  intros ls. set (w := default (after_morning false) (run ls (start (example_pool false) 2))).
  assert (E : run ls (start (example_pool false) 2) = Some w) by (vm_compute; reflexivity).
  assert (Ep : pool w = Some (pool_of w)) by (vm_compute; reflexivity).
  assert (Eq : length (queue w) = 3%nat) by (vm_compute; reflexivity).
  assert (Em : max_task_count (pool_of w) = 3) by (vm_compute; reflexivity).
  destruct (add_task_answers _ 2 ls w _ 0 true (task_n 4) (example_new false) E Ep ltac:(vm_compute; reflexivity)) as (w' & E1 & H).
  rewrite Eq, Em in H. destruct H as (H1 & _ & H2).
  exists w. split; [exact E|]. split; [exact Eq|]. exists w'. split; [exact E1|]. split; [exact H1|exact H2].
Defined.

Theorem cycling_serves_in_turn_witness :
  let ls := [Call 0 (AddTask (Some (task_n 1))); Move 0 true; Call 0 (AddTask (Some (task_n 2))); Move 0 true] in
  ∃ w l p', run ls (start (example_pool true) 2) = Some w ∧ queue w = [task_n 2; task_n 1]
    ∧ fetch_times 3 (pool_of w) = Some (l, p') ∧ queue (set_pool p' w) = queue w
    ∧ l !! 2%nat = Some (Some (task_n 2)).
Proof.
  intros ls. set (w := default (after_morning true) (run ls (start (example_pool true) 2))).
  assert (E : run ls (start (example_pool true) 2) = Some w) by (vm_compute; reflexivity).
  assert (Ep : pool w = Some (pool_of w)) by (vm_compute; reflexivity).
  assert (Eq : queue w = [task_n 2; task_n 1]) by (vm_compute; reflexivity).
  assert (Ec : LlistSpec.pos (task_list (pool_of w)) = 0) by (vm_compute; reflexivity).
  destruct (cycling_serves_in_turn _ 2 ls w _ 3 (example_new true) eq_refl E Ep) as (l & p' & E1 & E2 & H); [by rewrite Eq|].
  exists w, l, p'. split; [exact E|]. split; [exact Eq|]. split; [exact E1|]. split; [exact E2|].
  rewrite (H 2%nat ltac:(lia)), Eq, Ec. reflexivity.
Defined.

End TaskPoolProps.
