(* ===== verification/File.v ===== *)
(** * File: files (src/file.c)

    The world is the file system, the descriptors of the process and its heap.
    The calls of the operating system are modelled by what they do to these:
    names stand for inodes, a descriptor has a position.  The process owns the
    files it makes, and its umask leaves the bits of the owner.  Of the flags of
    [open] those are kept that the model tells apart: [O_CREAT], [O_EXCL],
    [O_TRUNC], [O_APPEND] and the access mode. *)

From S2P Require Import Prelude Zlist.
From stdpp Require Import base numbers list option gmap.
From Stdlib Require Import ZArith Lia.
Open Scope Z_scope.

Module File.

Definition OBJ_TYPE : Z := OBJ_NONE + SYS + 5.
Definition INVALID_FD : Z := -1.
Definition S_IFREG : Z := 0x8000.
Definition S_IFSOCK : Z := 0xC000.
Definition ENXIO : Z := 6.
Definition EBADF : Z := 9.
Definition EACCES : Z := 13.
Definition EFAULT : Z := 14.
Definition EEXIST : Z := 17.
Definition ENOSPC : Z := 28.
Definition O_CREAT : Z := 64.
Definition O_EXCL : Z := 128.
Definition O_TRUNC : Z := 512.
Definition O_APPEND : Z := 1024.
Definition CPLUS_FILE_ACCESS_RDONLY : Z := 0.
Definition CPLUS_FILE_ACCESS_WRONLY : Z := 1.
Definition CPLUS_FILE_ACCESS_RDWR : Z := 2.
Definition CPLUS_FILE_FLAG_CREATE : Z := O_CREAT.
Definition CPLUS_FILE_MODE_ALL : Z := 511.
Inductive cplus_file_pos := CPLUS_FILE_POS_START | CPLUS_FILE_POS_CURR | CPLUS_FILE_POS_END.

(** ** The system *)

Record inode := Inode { kind : Z; bytes : list Z; readable : bool; writable : bool; executable : bool }.
Record description := Desc { ino : nat; offset : Z; oflag : Z }.

(** The structure and the two buffers it points to; of a data buffer the bytes
    that were written to it. *)
Record file := mkFile {
  fd : Z; file_path : option nat; access : Z; flag : Z; mode : Z; data_bufs_size : Z; data_bufs : option nat }.
Inductive block := Object (f : file) | Path (path : list Z) | Data (size : Z) (content : list Z).

(** [accepts]: how many bytes a write takes at most, if it cannot take all;
    [freeram]: the answer of [sysinfo]; [oom]: which of the next allocations fail. *)
Record world := World {
  names : gmap (list Z) nat;
  inodes : gmap nat inode;
  fds : gmap Z description;
  accepts : option Z;
  freeram : option Z;
  heap : gmap nat block;
  oom : list bool;
  errno : Z }.

Definition set_names (x : gmap (list Z) nat) (w : world) := World x (inodes w) (fds w) (accepts w) (freeram w) (heap w) (oom w) (errno w).
Definition set_inodes (x : gmap nat inode) (w : world) := World (names w) x (fds w) (accepts w) (freeram w) (heap w) (oom w) (errno w).
Definition set_fds (x : gmap Z description) (w : world) := World (names w) (inodes w) x (accepts w) (freeram w) (heap w) (oom w) (errno w).
Definition set_heap (x : gmap nat block) (w : world) := World (names w) (inodes w) (fds w) (accepts w) (freeram w) x (oom w) (errno w).
Definition set_oom (x : list bool) (w : world) := World (names w) (inodes w) (fds w) (accepts w) (freeram w) (heap w) x (errno w).
Definition set_errno (x : Z) (w : world) := World (names w) (inodes w) (fds w) (accepts w) (freeram w) (heap w) (oom w) x.

Definition fail {A} (e : Z) (a : A) : C world A := modify (set_errno e);; mret a.
Definition has (flags bit : Z) : bool := negb (Z.land flags bit =? 0).

(** The access mode of a descriptor. *)
Definition may_read (flags : Z) : bool := (Z.land flags 3 =? 0) || (Z.land flags 3 =? 2).
Definition may_write (flags : Z) : bool := (Z.land flags 3 =? 1) || (Z.land flags 3 =? 2).
Definition permitted (n : inode) (flags : Z) : bool :=
  (negb (may_read flags) || readable n) && (negb (may_write flags) || writable n).

(** The lowest descriptor that is not in use. *)
Definition lowest_fd (fs : gmap Z description) : Z :=
  match list_find (λ d, fs !! d = None) (seqZ 0 (Z.of_nat (size fs) + 1)) with
  | Some (_, d) => d
  | None => INVALID_FD
  end.

Definition new_fd (i : nat) (flags : Z) : C world Z :=
  d ← gets (λ w, lowest_fd (fds w));
  modify (λ w, set_fds (<[d := Desc i 0 flags]> (fds w)) w);;
  mret d.

Definition open (path : list Z) (flags mode : Z) : C world Z :=
  w ← gets id;
  match names w !! path with
  | Some i =>
      if has flags O_CREAT && has flags O_EXCL then fail EEXIST INVALID_FD
      else
        match inodes w !! i with
        | Some n =>
            if negb (kind n =? S_IFREG) then fail ENXIO INVALID_FD
            else if negb (permitted n flags) then fail EACCES INVALID_FD
            else
              (if has flags O_TRUNC then
                 modify (set_inodes (<[i := Inode (kind n) [] (readable n) (writable n) (executable n)]> (inodes w)))
               else mret tt);;
              new_fd i flags
        | None => fail ENOENT INVALID_FD
        end
  | None =>
      if has flags O_CREAT then
        let i := fresh (dom (inodes w)) in
        modify (set_names (<[path := i]> (names w)));;
        modify (set_inodes (<[i := Inode S_IFREG [] (has mode 256) (has mode 128) (has mode 64)]> (inodes w)));;
        new_fd i flags
      else fail ENOENT INVALID_FD
  end.

Definition close (d : Z) : C world Z :=
  w ← gets id;
  match fds w !! d with
  | Some _ => modify (set_fds (delete d (fds w)));; mret 0
  | None => fail EBADF (-1)
  end.

Definition fsync (d : Z) : C world Z :=
  w ← gets id; match fds w !! d with Some _ => mret 0 | None => fail EBADF (-1) end.

(** The open file of a descriptor. *)
Definition opened (w : world) (d : Z) : option (description * inode) :=
  x ← fds w !! d; n ← inodes w !! ino x; Some (x, n).

Definition set_offset (d : Z) (x : description) (p : Z) (w : world) : world :=
  set_fds (<[d := Desc (ino x) p (oflag x)]> (fds w)) w.
Definition set_bytes (i : nat) (n : inode) (l : list Z) (w : world) : world :=
  set_inodes (<[i := Inode (kind n) l (readable n) (writable n) (executable n)]> (inodes w)) w.

(** The bytes of a file from [p] on, at most [n] of them. *)
Definition slice (l : list Z) (p n : Z) : list Z := take (Z.to_nat n) (drop (Z.to_nat p) l).

(** The bytes of a file after [data] was written at [p]; a gap is filled with zeros. *)
Definition overwrite (l : list Z) (p : Z) (data : list Z) : list Z :=
  let l' := l ++ replicate (Z.to_nat (p - zlen l)) 0 in
  take (Z.to_nat p) l' ++ data ++ drop (Z.to_nat (p + zlen data)) l'.

Definition read (d n : Z) : C world (Z * list Z) :=
  w ← gets id;
  match opened w d with
  | Some (x, f) =>
      if may_read (oflag x) then
        let l := slice (bytes f) (offset x) n in
        modify (set_offset d x (offset x + zlen l));; mret (zlen l, l)
      else fail EBADF (-1, [])
  | None => fail EBADF (-1, [])
  end.

Definition write (d : Z) (data : list Z) : C world Z :=
  w ← gets id;
  match opened w d with
  | Some (x, f) =>
      if may_write (oflag x) then
        let l := match accepts w with Some n => take (Z.to_nat n) data | None => data end in
        if zlen l =? 0 then fail ENOSPC (-1)
        else
          let p := if has (oflag x) O_APPEND then zlen (bytes f) else offset x in
          modify (set_bytes (ino x) f (overwrite (bytes f) p l));;
          modify (set_offset d x (p + zlen l));;
          mret (zlen l)
      else fail EBADF (-1)
  | None => fail EBADF (-1)
  end.

Definition lseek (d off : Z) (whence : cplus_file_pos) : C world Z :=
  w ← gets id;
  match opened w d with
  | Some (x, f) =>
      let p := match whence with
               | CPLUS_FILE_POS_START => off
               | CPLUS_FILE_POS_CURR => offset x + off
               | CPLUS_FILE_POS_END => zlen (bytes f) + off
               end in
      if p <? 0 then fail EINVAL (-1) else modify (set_offset d x p);; mret p
  | None => fail EBADF (-1)
  end.

Definition ftruncate (d n : Z) : C world Z :=
  w ← gets id;
  match opened w d with
  | Some (x, f) =>
      if may_write (oflag x) then
        modify (set_bytes (ino x) f (take (Z.to_nat n) (bytes f ++ replicate (Z.to_nat (n - zlen (bytes f))) 0)));; mret 0
      else fail EINVAL (-1)
  | None => fail EBADF (-1)
  end.

Definition unlink (path : list Z) : C world Z :=
  w ← gets id;
  match names w !! path with
  | Some _ => modify (set_names (delete path (names w)));; mret 0
  | None => fail ENOENT (-1)
  end.

Definition lookup_path (w : world) (path : list Z) : option inode := i ← names w !! path; inodes w !! i.

Definition cplus_malloc (b : block) : C world (option nat) := λ w,
  match oom w with
  | true :: rest => Done (None, set_errno ENOMEM (set_oom rest w))
  | _ => let a := fresh (dom (heap w)) in Done (Some a, set_oom (tail (oom w)) (set_heap (<[a := b]> (heap w)) w))
  end.
Definition cplus_free (a : nat) : C world unit := λ w,
  match heap w !! a with Some _ => Done (tt, set_heap (delete a (heap w)) w) | None => Undefined end.
Definition free_opt (a : option nat) : C world unit := match a with Some a => cplus_free a | None => mret tt end.

(** ** The functions *)

(** [CHECK_OBJECT_TYPE] and the structure. *)
Definition the_file (o : nat) : C world file :=
  deref (λ w, match heap w !! o with Some (Object f) => Some f | _ => None end).
Definition put_file (o : nat) (f : file) : C world unit := modify (λ w, set_heap (<[o := Object f]> (heap w)) w).
Definition set_fd (d : Z) (f : file) : file := mkFile d (file_path f) (access f) (flag f) (mode f) (data_bufs_size f) (data_bufs f).
Definition set_path (p : option nat) (f : file) : file := mkFile (fd f) p (access f) (flag f) (mode f) (data_bufs_size f) (data_bufs f).
Definition set_data (n : Z) (a : option nat) (f : file) : file := mkFile (fd f) (file_path f) (access f) (flag f) (mode f) n a.

Definition is_file (path : list Z) : C world bool :=
  gets (λ w, match lookup_path w path with Some n => has (kind n) S_IFREG | None => false end).
Definition is_exist (path : list Z) : C world bool :=
  gets (λ w, match lookup_path w path with Some _ => true | None => false end).
Definition is_readable (path : list Z) : C world bool :=
  gets (λ w, match lookup_path w path with Some n => readable n | None => false end).
Definition is_writable (path : list Z) : C world bool :=
  gets (λ w, match lookup_path w path with Some n => writable n | None => false end).
Definition is_executable (path : list Z) : C world bool :=
  gets (λ w, match lookup_path w path with Some n => executable n | None => false end).

(** [pos] and [size] are [int32_t]. *)
Definition get_size (f : file) : C world Z :=
  p ← lseek (fd f) 0 CPLUS_FILE_POS_CURR;
  if negb (s32 p =? -1) then
    n ← lseek (fd f) 0 CPLUS_FILE_POS_END;
    lseek (fd f) (s32 p) CPLUS_FILE_POS_START;;
    mret (s32 n)
  else mret 0.

Definition reset_pos (f : file) : C world Z := p ← lseek (fd f) 0 CPLUS_FILE_POS_START; mret (s32 p).

Definition is_enough (need_size : Z) : C world bool :=
  gets (λ w, match freeram w with Some n => need_size <? n | None => false end).

Definition cplus_file_delete (o : nat) : C world Z :=
  f ← the_file o;
  fsync (fd f);;
  r ← close (fd f);
  (if 0 =? r then free_opt (file_path f);; free_opt (data_bufs f);; cplus_free o else mret tt);;
  mret r.

Definition file_initialize_object (path : list Z) (acc fl md : Z) : C world (option nat) :=
  o ← cplus_malloc (Object (mkFile 0 None acc fl md 0 None));
  match o with
  | Some o =>
      d ← open path (Z.lor acc fl) md;
      f ← the_file o;
      put_file o (set_fd d f);;
      if INVALID_FD =? d then cplus_file_delete o;; mret None
      else
        p ← cplus_malloc (Path path);
        put_file o (set_path p (set_fd d f));;
        mret (Some o)
  | None => mret None
  end.

Definition cplus_file_new_ex (path : list Z) (acc fl md : Z) : C world (option nat) := file_initialize_object path acc fl md.
Definition cplus_file_new (path : list Z) (acc : Z) : C world (option nat) :=
  file_initialize_object path acc CPLUS_FILE_FLAG_CREATE CPLUS_FILE_MODE_ALL.

(** The path of an object; without one the system calls get a null pointer. *)
Definition path_of (f : file) : C world (option (list Z)) :=
  match file_path f with
  | None => mret None
  | Some a => deref (λ w, match heap w !! a with Some (Path p) => Some (Some p) | _ => None end)
  end.

Definition cplus_file_open (o : nat) : C world Z :=
  f ← the_file o;
  if INVALID_FD =? fd f then
    p ← path_of f;
    match p with
    | None => fail EFAULT CPLUS_FAIL
    | Some path =>
        e ← is_exist path;
        d ← open path (Z.lor (access f) (if negb e then Z.lor (flag f) CPLUS_FILE_FLAG_CREATE else flag f)) (mode f);
        put_file o (set_fd d f);;
        mret (if INVALID_FD =? d then CPLUS_FAIL else CPLUS_SUCCESS)
    end
  else mret CPLUS_FAIL.

Definition cplus_file_close (o : nat) : C world Z :=
  f ← the_file o;
  r ← close (fd f);
  (if 0 =? r then put_file o (set_fd INVALID_FD f) else mret tt);;
  mret r.

Definition cplus_file_remove (path : option (list Z)) : C world Z :=
  match path with
  | None => fail EINVAL CPLUS_FAIL
  | Some path =>
      e ← is_exist path;
      if (e : bool) then r ← unlink path; mret (if 0 =? r then CPLUS_SUCCESS else CPLUS_FAIL) else mret CPLUS_FAIL
  end.

(** The answer, and the bytes that were put in the buffer. *)
Definition cplus_file_read (o : nat) (size : Z) (buffer : bool) : C world (Z * list Z) :=
  f ← the_file o;
  if negb buffer || (size <=? 0) then fail EINVAL (CPLUS_FAIL, [])
  else '(r, l) ← read (fd f) size; mret (s32 r, l).

Definition cplus_file_write (o : nat) (size : Z) (buffer : option (list Z)) : C world Z :=
  f ← the_file o;
  match buffer with
  | None => fail EINVAL CPLUS_FAIL
  | Some data =>
      if size <=? 0 then fail EINVAL CPLUS_FAIL
      else if zlen data <? size then undef
      else r ← write (fd f) (take (Z.to_nat size) data); mret (s32 r)
  end.

Definition cplus_file_sync (o : nat) : C world Z := f ← the_file o; fsync (fd f).
Definition cplus_file_resize (o : nat) (size : Z) : C world Z :=
  f ← the_file o; if size <=? 0 then fail EINVAL CPLUS_FAIL else ftruncate (fd f) size.
Definition cplus_file_move_pos (o : nat) (pos : cplus_file_pos) (offset : Z) : C world Z :=
  f ← the_file o; p ← lseek (fd f) offset pos; mret (s32 p).
Definition cplus_file_get_cur_pos (o : nat) : C world Z :=
  f ← the_file o; p ← lseek (fd f) 0 CPLUS_FILE_POS_CURR; mret (s32 p).
Definition cplus_file_reset_pos (o : nat) : C world Z := f ← the_file o; reset_pos f.
Definition cplus_file_get_data_size (o : nat) : C world Z := f ← the_file o; get_size f.

(** A buffer with the whole file, which the object keeps. *)
Definition cplus_file_get_data (o : nat) : C world (option nat) :=
  f ← the_file o;
  put_file o (set_data (data_bufs_size f) None f);;
  f_size ← get_size f;
  if 0 <? f_size then
    put_file o (set_data (u32 f_size) None f);;
    e ← is_enough (u32 f_size);
    if negb (e : bool) then mret None
    else
      a ← cplus_malloc (Data (u32 f_size) []);
      put_file o (set_data (u32 f_size) a f);;
      match a with
      | None => mret None
      | Some a =>
          p ← lseek (fd f) 0 CPLUS_FILE_POS_CURR;
          (if negb (s32 p =? -1) then
             lseek (fd f) 0 CPLUS_FILE_POS_START;;
             '(_, l) ← read (fd f) (u32 f_size);
             modify (λ w, set_heap (<[a := Data (u32 f_size) l]> (heap w)) w);;
             lseek (fd f) (s32 p) CPLUS_FILE_POS_START;;
             mret tt
           else mret tt);;
          mret (Some a)
      end
  else mret None.

Definition cplus_file_get_file_path (o : nat) : C world (option (list Z)) := f ← the_file o; path_of f.
Definition cplus_file_get_fd (o : nat) : C world Z := f ← the_file o; mret (fd f).
Definition cplus_file_check (obj : option Z) : bool := match obj with Some type => type =? OBJ_TYPE | None => false end.

(** A null path: [CHECK_NOT_NULL] returns [CPLUS_FAIL], as a [bool]. *)
Definition not_null (path : option (list Z)) (test : list Z → C world bool) : C world bool :=
  match path with Some p => test p | None => fail EINVAL (negb (CPLUS_FAIL =? 0)) end.
Definition cplus_file_is_file (path : option (list Z)) : C world bool := not_null path is_file.
Definition cplus_file_is_exist (path : option (list Z)) : C world bool := not_null path is_exist.
Definition cplus_file_is_readable (path : option (list Z)) : C world bool := not_null path is_readable.
Definition cplus_file_is_writable (path : option (list Z)) : C world bool := not_null path is_writable.
(** [access(NULL, X_OK)] fails with [EFAULT]. *)
Definition cplus_file_is_executable (path : option (list Z)) : C world bool :=
  match path with Some p => is_executable p | None => fail EFAULT false end.

End File.
