(* ===== verification/FileProps.v ===== *)
(** * FileProps: what a file object promises

    An open file refines a byte sequence with a position; a buffer of
    [cplus_file_get_data] holds the whole file and leaves the position; a new
    object and its deletion are even; and where they are not. *)

From S2P Require Import Prelude Zlist File.
From stdpp Require Import base numbers list option gmap.
From Stdlib Require Import ZArith Lia.
Open Scope Z_scope.

Module FileProps.
Import File.

(** ** The abstract file *)

Record view := View { content : list Z; pos : Z }.

Inductive command :=
| Read (n : Z) | Write (data : list Z) | Move (whence : cplus_file_pos) (off : Z) | Reset | GetPos | GetSize | Resize (n : Z).

Definition resized (l : list Z) (n : Z) : list Z := take (Z.to_nat n) (l ++ replicate (Z.to_nat (n - zlen l)) 0).

(** The answer, the bytes that are read, and the file afterwards; [flags] are
    those it was opened with. *)
Definition spec (flags : Z) (v : view) (c : command) : Z * list Z * view :=
  match c with
  | Read n =>
      if (0 <? n) && may_read flags then
        let l := slice (content v) (pos v) n in (zlen l, l, View (content v) (pos v + zlen l))
      else (-1, [], v)
  | Write data =>
      if (0 <? zlen data) && may_write flags then
        let p := if has flags O_APPEND then zlen (content v) else pos v in
        (zlen data, [], View (overwrite (content v) p data) (p + zlen data))
      else (-1, [], v)
  | Move whence off =>
      let p := match whence with
               | CPLUS_FILE_POS_START => off
               | CPLUS_FILE_POS_CURR => pos v + off
               | CPLUS_FILE_POS_END => zlen (content v) + off
               end in
      if p <? 0 then (-1, [], v) else (p, [], View (content v) p)
  | Reset => (0, [], View (content v) 0)
  | GetPos => (pos v, [], v)
  | GetSize => (zlen (content v), [], v)
  | Resize n => if (0 <? n) && may_write flags then (0, [], View (resized (content v) n) (pos v)) else (-1, [], v)
  end.

(** Positions and sizes are handed out as [int32_t]. *)
Definition small (v : view) : Prop := 0 ≤ pos v < 2147483648 ∧ zlen (content v) < 2147483648.

Fixpoint spec_run (flags : Z) (v : view) (cs : list command) : list (Z * list Z) * list view :=
  match cs with
  | [] => ([], [])
  | c :: cs =>
      let '(r, l, v') := spec flags v c in
      let '(rs, vs) := spec_run flags v' cs in ((r, l) :: rs, v' :: vs)
  end.

(** The same on the object. *)
Definition exec (o : nat) (c : command) : C world (Z * list Z) :=
  match c with
  | Read n => cplus_file_read o n true
  | Write data => r ← cplus_file_write o (zlen data) (Some data); mret (r, [])
  | Move whence off => r ← cplus_file_move_pos o whence off; mret (r, [])
  | Reset => r ← cplus_file_reset_pos o; mret (r, [])
  | GetPos => r ← cplus_file_get_cur_pos o; mret (r, [])
  | GetSize => r ← cplus_file_get_data_size o; mret (r, [])
  | Resize n => r ← cplus_file_resize o n; mret (r, [])
  end.

Fixpoint exec_run (o : nat) (cs : list command) : C world (list (Z * list Z)) :=
  match cs with [] => mret [] | c :: cs => x ← exec o c; xs ← exec_run o cs; mret (x :: xs) end.

(** Object [o] is open with [flags] on a file that holds [v]. *)
Definition rep (o : nat) (flags : Z) (w : world) (v : view) : Prop :=
  ∃ f x n, heap w !! o = Some (Object f) ∧ fds w !! fd f = Some x ∧ inodes w !! ino x = Some n
    ∧ oflag x = flags ∧ accepts w = None ∧ content v = bytes n ∧ pos v = offset x.

Lemma the_file_ok w o f : heap w !! o = Some (Object f) → the_file o w = Done (f, w).
Proof. intros E. unfold the_file. crun. by rewrite E. Qed.

Lemma opened_ok w d x n : fds w !! d = Some x → inodes w !! ino x = Some n → opened w d = Some (x, n).
Proof. intros E1 E2. unfold opened. rewrite E1. simpl. by rewrite E2. Qed.

(** Moving the position of a descriptor. *)
Lemma rep_offset o flags w v f x n p :
  heap w !! o = Some (Object f) → fds w !! fd f = Some x → inodes w !! ino x = Some n → oflag x = flags →
  accepts w = None → content v = bytes n →
  rep o flags (set_offset (fd f) x p w) (View (content v) p).
Proof.
  intros H1 H2 H3 H4 H5 H6. exists f, (Desc (ino x) p (oflag x)), n. simpl. rewrite lookup_insert_eq. done.
Qed.

Lemma rep_bytes o flags w v f x n l p :
  heap w !! o = Some (Object f) → fds w !! fd f = Some x → inodes w !! ino x = Some n → oflag x = flags →
  accepts w = None → content v = bytes n →
  rep o flags (set_offset (fd f) x p (set_bytes (ino x) n l w)) (View l p).
Proof.
  intros H1 H2 H3 H4 H5 H6.
  exists f, (Desc (ino x) p (oflag x)), (Inode (kind n) l (readable n) (writable n) (executable n)).
  simpl. rewrite !lookup_insert_eq. done.
Qed.

Lemma lseek_ok w d x n off whence :
  fds w !! d = Some x → inodes w !! ino x = Some n →
  let p := match whence with
           | CPLUS_FILE_POS_START => off
           | CPLUS_FILE_POS_CURR => offset x + off
           | CPLUS_FILE_POS_END => zlen (bytes n) + off
           end in
  lseek d off whence w = if p <? 0 then Done (-1, set_errno EINVAL w) else Done (p, set_offset d x p w).
Proof. intros H1 H2 p. unfold lseek. crun. cbn [id]. rewrite (opened_ok w d x n) by done. fold p. by destruct (p <? 0). Qed.

Lemma file_rep_errno o flags w v e : rep o flags w v → rep o flags (set_errno e w) v.
Proof. done. Qed.

Lemma size_zlen_take (l : list Z) : take (Z.to_nat (zlen l)) l = l.
Proof. unfold zlen. by rewrite Nat2Z.id, firstn_all. Qed.

(** Asking for the size moves the position to the end and back. *)
Lemma get_size_ok o flags w v f x n :
  heap w !! o = Some (Object f) → fds w !! fd f = Some x → inodes w !! ino x = Some n → oflag x = flags →
  accepts w = None → content v = bytes n → pos v = offset x → small v →
  ∃ w', get_size f w = Done (zlen (content v), w') ∧ rep o flags w' v ∧ heap w' = heap w ∧ oom w' = oom w ∧ freeram w' = freeram w
    ∧ inodes w' = inodes w ∧ fds w' !! fd f = Some (Desc (ino x) (offset x) (oflag x)).
Proof.
  intros H1 H2 H3 H4 H5 H6 H7 [Hp Hc]. destruct v as [c p]. simpl in *. subst p c. pose proof (zlen_nonneg (bytes n)).
  unfold get_size. crun. rewrite (lseek_ok w _ x n) by done. rewrite Z.add_0_r, (proj2 (Z.ltb_ge _ _)) by lia.
  rewrite s32_small, (proj2 (Z.eqb_neq _ _)) by lia. cbn [negb].
  rewrite (lseek_ok _ _ (Desc (ino x) (offset x) (oflag x)) n) by (simpl; rewrite ?lookup_insert_eq; done).
  rewrite Z.add_0_r, (proj2 (Z.ltb_ge _ _)) by lia.
  rewrite (lseek_ok _ _ (Desc (ino x) (zlen (bytes n)) (oflag x)) n) by (simpl; rewrite ?lookup_insert_eq; done).
  rewrite (proj2 (Z.ltb_ge _ _)) by lia. rewrite s32_small by lia.
  eexists. split; [reflexivity|]. split_and!; try done; [|by simpl; rewrite lookup_insert_eq].
  exists f, (Desc (ino x) (offset x) (oflag x)), n. simpl. rewrite !lookup_insert_eq. done.
Qed.

Lemma file_step o flags w v c :
  rep o flags w v → small v → small (spec flags v c).2 →
  ∃ w', exec o c w = Done ((spec flags v c).1, w') ∧ rep o flags w' (spec flags v c).2.
Proof.
  intros Hrep Hs Hs'. pose proof Hrep as (f & x & n & H1 & H2 & H3 & H4 & H5 & H6 & H7).
  destruct c as [m|data|whence off| | | |m]; unfold exec.
  - unfold cplus_file_read. rewrite (bind_Done _ _ w f w) by by apply the_file_ok.
    cbn [negb orb]. unfold spec in *. rewrite (Z.leb_antisym 0 m). destruct (0 <? m); cbn [negb andb] in *;
      [|crun; eexists; split; [reflexivity|done]].
    unfold read. crun. cbn [id]. rewrite (opened_ok w _ x n), H4 by done.
    destruct (may_read flags); [|eexists; split; [reflexivity|done]].
    rewrite <- H6, <- H7. cbn [snd fst content] in *. rewrite s32_small.
    2:{ unfold small in *. simpl in Hs'. pose proof (zlen_nonneg (slice (content v) (pos v) m)). lia. }
    eexists. split; [reflexivity|]. by eapply rep_offset.
  - unfold cplus_file_write. crun. rewrite (the_file_ok w o f) by done. unfold spec in *.
    rewrite (Z.leb_antisym 0 (zlen data)). destruct (Z.ltb_spec 0 (zlen data)) as [Hd|]; cbn [negb andb] in *;
      [|eexists; split; [reflexivity|done]].
    rewrite Z.ltb_irrefl, size_zlen_take. unfold write. crun. cbn [id]. rewrite (opened_ok w _ x n), H4, H5 by done.
    destruct (may_write flags); [|eexists; split; [reflexivity|done]].
    rewrite (proj2 (Z.eqb_neq (zlen data) 0)) by lia. rewrite <- H6, <- H7. cbn [snd fst] in *.
    rewrite s32_small. 2:{ unfold small in *. simpl in Hs'. pose proof (zlen_nonneg (content v)). destruct (has flags O_APPEND); lia. }
    eexists. split; [reflexivity|]. by eapply rep_bytes.
  - unfold cplus_file_move_pos. crun. rewrite (the_file_ok w o f), (lseek_ok w _ x n) by done. unfold spec in *.
    rewrite <- H6, <- H7. destruct whence;
      match goal with |- context [?p <? 0] => destruct (Z.ltb_spec p 0) end; try (eexists; split; [reflexivity|done]);
      cbn [fst snd] in *; unfold small in Hs'; simpl in Hs'; rewrite s32_small by lia;
      (eexists; split; [reflexivity|by eapply rep_offset]).
  - unfold cplus_file_reset_pos, reset_pos. crun. rewrite (the_file_ok w o f), (lseek_ok w _ x n) by done. simpl.
    eexists. split; [reflexivity|]. by eapply rep_offset.
  - unfold cplus_file_get_cur_pos. crun. rewrite (the_file_ok w o f), (lseek_ok w _ x n) by done.
    unfold small in *. rewrite H7 in *. rewrite Z.add_0_r, (proj2 (Z.ltb_ge _ _)) by lia. rewrite s32_small by lia.
    cbn [spec fst snd]. rewrite H7. eexists. split; [reflexivity|]. destruct v as [c p]. simpl in *. subst p.
    by eapply (rep_offset _ _ w (View c (offset x))).
  - unfold cplus_file_get_data_size. crun. rewrite (the_file_ok w o f) by done.
    destruct (get_size_ok o flags w v f x n) as (w' & -> & H & _); [done..|]. eexists. split; [reflexivity|done].
  - unfold cplus_file_resize. crun. rewrite (the_file_ok w o f) by done. unfold spec in *.
    rewrite (Z.leb_antisym 0 m). destruct (0 <? m); cbn [negb andb] in *; [|eexists; split; [reflexivity|done]].
    unfold ftruncate. crun. cbn [id]. rewrite (opened_ok w _ x n), H4 by done.
    destruct (may_write flags); [|eexists; split; [reflexivity|done]].
    eexists. split; [reflexivity|]. cbn [snd fst]. rewrite H6.
    eexists f, x, _. simpl. rewrite lookup_insert_eq. done.
Qed.

(** C17: an open file is a sequence of bytes with a position.  Any sequence of
    reads, writes, moves of the position, questions for it and for the size,
    and changes of the size, answers what the sequence and the position say, as
    long as both stay below 2^31. *)
Theorem file_refines o flags w v cs :
  rep o flags w v → Forall small (v :: (spec_run flags v cs).2) →
  ∃ w', exec_run o cs w = Done ((spec_run flags v cs).1, w').
Proof.
  revert w v. induction cs as [|c cs IH]; intros w v Hrep Hs; [by eexists|]. simpl in *.
  destruct (spec flags v c) as [[r l] v'] eqn:E. destruct (spec_run flags v' cs) as [rs vs] eqn:Er. simpl in *.
  inversion_clear Hs as [|? ? Hv Hvs]. inversion Hvs as [|? ? Hv' Hvs']; subst.
  destruct (file_step o flags w v c Hrep Hv) as (w1 & E1 & H1); [by rewrite E|]. rewrite E in E1, H1. simpl in *.
  destruct (IH w1 v' H1) as (w2 & E2); [by rewrite Er|]. rewrite Er in E2. simpl in E2.
  rewrite (bind_Done _ _ _ _ _ E1), (bind_Done _ _ _ _ _ E2). by eexists.
Qed.

(** ** What was written is read *)

Lemma zlen_replicate n (x : Z) : zlen (replicate n x) = Z.of_nat n.
Proof. unfold zlen. by rewrite length_replicate. Qed.

Lemma slice_overwrite l p data : 0 ≤ p → slice (overwrite l p data) p (zlen data) = data.
Proof.
  intros Hp. unfold slice, overwrite. set (l' := l ++ _).
  assert (length (take (Z.to_nat p) l') = Z.to_nat p) as E.
  { rewrite length_take. unfold l'. rewrite length_app, length_replicate. unfold zlen. lia. }
  rewrite drop_app_le by lia. rewrite <- E at 1. rewrite drop_all. simpl.
  unfold zlen. rewrite Nat2Z.id. by rewrite take_app_length.
Qed.

(** Outside the range that is written nothing changes. *)
Lemma overwrite_outside l p data i :
  0 ≤ p → (Z.of_nat i < p ∨ p + zlen data ≤ Z.of_nat i) → (i < length l)%nat → overwrite l p data !! i = l !! i.
Proof.
  intros Hp Hi Hl. unfold overwrite. set (l' := l ++ _).
  assert (length (take (Z.to_nat p) l') = Z.to_nat p) as E.
  { rewrite length_take. unfold l'. rewrite length_app, length_replicate. unfold zlen. lia. }
  assert (l' !! i = l !! i) as El by (unfold l'; by rewrite lookup_app_l).
  destruct Hi as [Hi|Hi].
  - rewrite lookup_app_l, lookup_take_lt by lia. done.
  - unfold zlen in Hi. rewrite lookup_app_r, lookup_app_r, lookup_drop, E by lia. rewrite <- El. f_equal. unfold zlen. lia.
Qed.

(** what is written at a position is read back from there, and the rest of
    the file stays what it was. *)
Theorem write_then_read o flags w v data :
  rep o flags w v → may_read flags = true → may_write flags = true → has flags O_APPEND = false →
  0 < zlen data → small v → zlen (content v) + pos v + zlen data < 2147483648 →
  ∃ w', exec_run o [Write data; Move CPLUS_FILE_POS_START (pos v); Read (zlen data)] w
        = Done ([(zlen data, []); (pos v, []); (zlen data, data)], w')
    ∧ ∃ l, rep o flags w' (View l (pos v + zlen data))
         ∧ ∀ i, (i < length (content v))%nat → (Z.of_nat i < pos v ∨ pos v + zlen data ≤ Z.of_nat i) → l !! i = content v !! i.
Proof.
  intros Hrep Hr Hw Ha Hd Hs Hsum. pose proof Hs as [Hp Hc]. pose proof (zlen_nonneg (content v)).
  assert (Hlen : 0 ≤ zlen (overwrite (content v) (pos v) data) < 2147483648).
  { split; [apply zlen_nonneg|]. unfold overwrite, zlen. rewrite !length_app, length_take, length_drop, length_app, length_replicate.
    unfold zlen in *. lia. }
  set (l := overwrite (content v) (pos v) data) in *. set (q := pos v + zlen data).
  assert (S1 : spec flags v (Write data) = (zlen data, [], View l q)) by (simpl; rewrite (proj2 (Z.ltb_lt _ _) Hd), Hw, Ha; done).
  assert (S2 : spec flags (View l q) (Move CPLUS_FILE_POS_START (pos v)) = (pos v, [], View l (pos v)))
    by (simpl; rewrite (proj2 (Z.ltb_ge _ _)) by lia; done).
  assert (S3 : spec flags (View l (pos v)) (Read (zlen data)) = (zlen data, data, View l q)).
  { cbn [spec]. rewrite (proj2 (Z.ltb_lt _ _) Hd), Hr. cbn [andb content pos].
    assert (slice l (pos v) (zlen data) = data) as -> by (apply slice_overwrite; lia). done. }
  destruct (file_step o flags w v (Write data) Hrep Hs) as (w1 & E1 & H1); [rewrite S1; split; simpl; unfold q; lia|].
  rewrite S1 in E1, H1. cbn [fst snd] in E1, H1.
  destruct (file_step o flags w1 _ (Move CPLUS_FILE_POS_START (pos v)) H1) as (w2 & E2 & H2); [split; simpl; unfold q; lia|rewrite S2; split; simpl; lia|].
  rewrite S2 in E2, H2. cbn [fst snd] in E2, H2.
  destruct (file_step o flags w2 _ (Read (zlen data)) H2) as (w3 & E3 & H3); [split; simpl; lia|rewrite S3; split; simpl; unfold q; lia|].
  rewrite S3 in E3, H3. cbn [fst snd] in E3, H3.
  exists w3. split.
  - cbn [exec_run]. unfold mbind, C_bind, mret, C_ret. by rewrite E1, E2, E3.
  - exists l. split; [done|]. intros i Hi Hout. apply overwrite_outside; [lia|done|done].
Qed.

(** ** The whole file at once *)

Lemma slice_all l : slice l 0 (zlen l) = l.
Proof. unfold slice. simpl. by rewrite drop_0, size_zlen_take. Qed.

(** the buffer of [cplus_file_get_data] holds the whole file, wherever the
    position is, which stays where it was; it belongs to the object. *)
Theorem get_data_whole o flags w v m :
  rep o flags w v → may_read flags = true → small v → 0 < zlen (content v) → oom w = [] →
  freeram w = Some m → zlen (content v) < m →
  ∃ a w', cplus_file_get_data o w = Done (Some a, w') ∧ heap w' !! a = Some (Data (zlen (content v)) (content v))
    ∧ rep o flags w' v ∧ (∃ f, heap w' !! o = Some (Object f) ∧ data_bufs f = Some a).
Proof.
  intros Hrep Hr Hs Hlen Ho Hm Hlt. pose proof Hs as [Hp Hc].
  destruct Hrep as (f & x & n & H1 & H2 & H3 & H4 & H5 & H6 & H7).
  unfold cplus_file_get_data. crun. rewrite (the_file_ok w o f) by done. unfold put_file at 1. crun.
  set (w1 := set_heap (<[o := Object (set_data (data_bufs_size f) None f)]> (heap w)) w).
  destruct (get_size_ok o flags w1 v (set_data (data_bufs_size f) None f) x n)
    as (w2 & E2 & (f2 & x2 & n2 & _ & _ & _ & _ & Hacc & _) & Hh & Hoo & Hf & Hin & Hfd); [simpl; by rewrite lookup_insert_eq|done..|].
  change (get_size f w1) with (get_size (set_data (data_bufs_size f) None f) w1). rewrite E2.
  rewrite (proj2 (Z.ltb_lt _ _) Hlen). unfold put_file. crun. unfold is_enough. crun.
  rewrite (u32_small (zlen (content v))) by lia.
  change (freeram (set_heap _ w2)) with (freeram w2). rewrite Hf. change (freeram w1) with (freeram w). rewrite Hm.
  rewrite (proj2 (Z.ltb_lt _ _) Hlt). cbn [negb].
  set (w3 := set_heap (<[o := Object (set_data (zlen (content v)) None f)]> (heap w2)) w2).
  unfold cplus_malloc. change (oom w3) with (oom w2). rewrite Hoo. change (oom w1) with (oom w). rewrite Ho.
  set (a := fresh (dom (heap w3))).
  assert (Ha : heap w3 !! a = None) by (apply not_elem_of_dom, is_fresh).
  assert (Hao : a ≠ o) by (intros ->; simpl in Ha; by rewrite lookup_insert_eq in Ha).
  set (w4 := set_heap _ _).
  set (x1 := Desc (ino x) (offset x) (oflag x)) in *.
  change (fd (set_data (data_bufs_size f) None f)) with (fd f) in Hfd. change (fd (set_data _ _ f)) with (fd f). set (d := fd f) in *.
  assert (I4 : inodes w4 !! ino x = Some n) by (change (inodes w4) with (inodes w2); by rewrite Hin).
  rewrite (lseek_ok w4 d x1 n) by done. cbn [offset x1]. rewrite Z.add_0_r, (proj2 (Z.ltb_ge _ _)) by lia.
  rewrite s32_small, (proj2 (Z.eqb_neq _ _)) by lia. cbn [negb].
  rewrite (lseek_ok _ d x1 n) by (simpl; rewrite ?lookup_insert_eq; done). rewrite Z.ltb_irrefl.
  unfold read. crun. cbn [id].
  rewrite (opened_ok _ d (Desc (ino x) 0 (oflag x)) n) by (simpl; rewrite ?lookup_insert_eq; done). cbn [oflag offset]. rewrite H4, Hr.
  rewrite <- H6, slice_all.
  rewrite (lseek_ok _ d (Desc (ino x) (0 + zlen (content v)) flags) n) by (simpl; rewrite ?lookup_insert_eq, ?H4; done).
  rewrite (proj2 (Z.ltb_ge _ _)) by lia.
  exists a. eexists. split; [reflexivity|]. split; [simpl; by rewrite lookup_insert_eq|]. split.
  - exists (set_data (zlen (content v)) (Some a) f), (Desc (ino x) (offset x) flags), n. simpl.
    rewrite lookup_insert_ne, !lookup_insert_eq by done. split_and!; done || by rewrite H7.
  - exists (set_data (zlen (content v)) (Some a) f). simpl. rewrite lookup_insert_ne, lookup_insert_eq by done. done.
Qed.

(** ** Making and deleting *)

Lemma lowest_free fs d : lowest_fd fs = d → d ≠ INVALID_FD → fs !! d = None.
Proof. unfold lowest_fd. destruct (list_find _ _) as [[i d']|] eqn:E; [|done]. apply list_find_Some in E as (_ & H & _). by intros <-. Qed.

(** What [open] does, when it succeeds: a new descriptor. *)
Lemma open_done path flags md w d w' :
  open path flags md w = Done (d, w') → d ≠ INVALID_FD →
  heap w' = heap w ∧ oom w' = oom w ∧ fds w !! d = None ∧ ∃ i, fds w' = <[d := Desc i 0 flags]> (fds w).
Proof.
  unfold open. crun. cbn [id].
  assert (∀ i w0, new_fd i flags w0 = Done (d, w') → d ≠ INVALID_FD → fds w0 !! d = None ∧ heap w' = heap w0 ∧ oom w' = oom w0
    ∧ fds w' = <[d := Desc i 0 flags]> (fds w0)) as G.
  { unfold new_fd. crun. intros i w0 E Hd. injection E as E1 <-. rewrite E1. split_and!; [by apply lowest_free|done..]. }
  intros E Hd. destruct (names w !! path) as [i|].
  - destruct (has flags O_CREAT && has flags O_EXCL); [by injection E as <- <-|].
    destruct (inodes w !! i) as [n|]; [|by injection E as <- <-].
    destruct (negb (kind n =? S_IFREG)); [by injection E as <- <-|]. destruct (negb (permitted n flags)); [by injection E as <- <-|].
    destruct (has flags O_TRUNC); apply G in E as (H1 & H2 & H3 & H4); try done; simpl in *; eauto 10.
  - destruct (has flags O_CREAT); [|by injection E as <- <-]. apply G in E as (H1 & H2 & H3 & H4); [|done]. simpl in *. eauto 10.
Qed.

Definition drop_block (a : option nat) (h : gmap nat block) : gmap nat block := match a with Some a => delete a h | None => h end.
Definition has_block (a : option nat) (h : gmap nat block) : Prop := match a with Some a => is_Some (h !! a) | None => True end.

Lemma free_opt_ok a w : has_block a (heap w) → free_opt a w = Done (tt, set_heap (drop_block a (heap w)) w).
Proof. destruct a as [a|]; simpl; [intros [b E]; unfold cplus_free; by rewrite E|by destruct w]. Qed.

(** Deleting an open object frees what it holds, and its descriptor. *)
Lemma delete_ok w o f x :
  heap w !! o = Some (Object f) → fds w !! fd f = Some x → has_block (file_path f) (heap w) →
  has_block (data_bufs f) (drop_block (file_path f) (heap w)) →
  is_Some (drop_block (data_bufs f) (drop_block (file_path f) (heap w)) !! o) →
  ∃ w', cplus_file_delete o w = Done (0, w') ∧ fds w' = delete (fd f) (fds w)
    ∧ heap w' = delete o (drop_block (data_bufs f) (drop_block (file_path f) (heap w))).
Proof.
  intros Ho Hx Hp Hd Hb. unfold cplus_file_delete. crun. rewrite (the_file_ok w o f) by done.
  unfold fsync, close. crun. cbn [id]. rewrite Hx. cbv iota beta. rewrite Hx. cbv iota beta.
  change (0 =? 0) with true. cbv iota beta.
  rewrite free_opt_ok by done. rewrite free_opt_ok by done.
  unfold cplus_free. destruct Hb as [b Hb]. cbn [heap set_heap set_fds]. rewrite Hb. eexists. split; [reflexivity|done].
Qed.

Lemma malloc_ok b w :
  ∃ a w', cplus_malloc b w = Done (a, w') ∧ fds w' = fds w
    ∧ match a with Some a => heap w !! a = None ∧ heap w' = <[a := b]> (heap w) | None => heap w' = heap w end.
Proof.
  unfold cplus_malloc. destruct (oom w) as [|[] l]; do 2 eexists; (split; [reflexivity|]); (split; [done|]); try done;
    (split; [apply not_elem_of_dom, is_fresh|done]).
Qed.

(** a new object and its deletion are even: whatever path, access, flags and
    mode it was made with, and if the memory for its path lacked, deleting it
    answers 0, and the heap and the descriptors are what they were. *)
Theorem new_then_delete_file path acc fl md w o w1 :
  cplus_file_new_ex path acc fl md w = Done (Some o, w1) →
  ∃ w2, cplus_file_delete o w1 = Done (0, w2) ∧ heap w2 = heap w ∧ fds w2 = fds w.
Proof.
  unfold cplus_file_new_ex, file_initialize_object. crun. set (f0 := mkFile 0 None acc fl md 0 None).
  destruct (malloc_ok (Object f0) w) as (o0 & w0 & -> & F0 & H0). destruct o0 as [o'|]; [|done]. destruct H0 as [Hf H0].
  destruct (open path (Z.lor acc fl) md w0) as [[d w3]| | |] eqn:Eo; try done.
  destruct (decide (d = INVALID_FD)) as [->|Hd'].
  { destruct (the_file o' w3) as [[f' w4]| | |]; try done. unfold put_file. crun.
    rewrite Z.eqb_refl. by destruct (cplus_file_delete o' _) as [[? ?]| | |]. }
  destruct (open_done _ _ _ _ _ _ Eo Hd') as (Hh3 & Ho3 & Hfd & i & Hi).
  rewrite (the_file_ok w3 o' f0) by (rewrite Hh3, H0; by rewrite lookup_insert_eq).
  unfold put_file. crun. rewrite (proj2 (Z.eqb_neq INVALID_FD d)) by done.
  set (w4 := set_heap (<[o' := Object (set_fd d f0)]> (heap w3)) w3).
  assert (Hh4 : heap w4 = <[o' := Object (set_fd d f0)]> (heap w)) by (simpl; by rewrite Hh3, H0, insert_insert_eq).
  destruct (malloc_ok (Path path) w4) as (a & w5 & -> & F5 & H5). intros [= <- <-].
  set (w6 := set_heap _ w5). set (f6 := set_path a (set_fd d f0)) in *.
  assert (Hd6 : fds w6 !! fd f6 = Some (Desc i 0 (Z.lor acc fl))) by (simpl; rewrite F5; simpl; by rewrite Hi, lookup_insert_eq).
  assert (Hfds : delete (fd f6) (fds w6) = fds w) by (simpl; rewrite F5; simpl; by rewrite Hi, delete_insert_id, F0).
  assert (Ho6 : heap w6 !! o' = Some (Object f6)) by (simpl; by rewrite lookup_insert_eq).
  assert (a ≠ Some o') as Hao.
  { destruct a as [a|]; [|done]. intros [= ->]. destruct H5 as [H5 _]. by rewrite Hh4, lookup_insert_eq in H5. }
  destruct (delete_ok w6 o' f6 _ Ho6 Hd6) as (w7 & E7 & F7 & H7).
  - simpl. destruct a as [a|]; [|done]. simpl. destruct H5 as [_ ->]. rewrite lookup_insert_ne, lookup_insert_eq by congruence. eauto.
  - done.
  - simpl. destruct a as [a|]; simpl; rewrite ?lookup_delete_ne, lookup_insert_eq by congruence; eauto.
  - exists w7. split; [done|]. split; [|congruence]. rewrite H7. simpl. destruct a as [a|]; simpl.
    + destruct H5 as [Ha ->]. assert (a ≠ o') by congruence. rewrite Hh4 in Ha |- *. rewrite lookup_insert_ne in Ha by done.
      apply map_eq. intros j. destruct (decide (j = o')) as [->|Hj]; [by rewrite lookup_delete_eq|]. rewrite lookup_delete_ne by done.
      destruct (decide (j = a)) as [->|Hja]; [by rewrite lookup_delete_eq|]. by rewrite lookup_delete_ne, !lookup_insert_ne by done.
    + rewrite H5, Hh4. by rewrite insert_insert_eq, delete_insert_id.
Qed.

(** Code bug: an object whose file cannot be opened is not freed: the
    deletion on the way out starts with closing a descriptor there is none of,
    and gives up when that fails; [errno] does not tell why the open failed. *)
Theorem failed_new_leaks path acc fl md w :
  names w !! path = None → has (Z.lor acc fl) O_CREAT = false → fds w !! INVALID_FD = None → oom w = [] →
  ∃ w' o f, cplus_file_new_ex path acc fl md w = Done (None, w') ∧ heap w !! o = None ∧ heap w' = <[o := Object f]> (heap w)
    ∧ errno w' = EBADF.
Proof.
  intros Hn Hc Hd Ho. unfold cplus_file_new_ex, file_initialize_object, cplus_malloc. crun. rewrite Ho.
  set (o := fresh (dom (heap w))). set (f0 := mkFile 0 None acc fl md 0 None).
  unfold open. crun. cbn [id names set_heap set_oom]. rewrite Hn, Hc. unfold fail. crun.
  unfold the_file at 1. crun. cbn [heap set_errno set_heap set_oom]. rewrite lookup_insert_eq. unfold put_file. crun.
  rewrite Z.eqb_refl. unfold cplus_file_delete. crun.
  rewrite (the_file_ok _ o (set_fd INVALID_FD f0)) by (simpl; by rewrite lookup_insert_eq).
  unfold fsync, close. crun. cbn [id fd set_fd fds set_heap set_errno set_oom]. rewrite Hd. unfold fail. crun. cbn [id fds set_heap set_errno set_oom].
  rewrite Hd. unfold fail. crun. change (0 =? -1) with false. cbv iota beta.
  eexists _, o, (set_fd INVALID_FD f0). split; [reflexivity|]. split; [apply not_elem_of_dom, is_fresh|]. simpl. by rewrite insert_insert_eq.
Qed.

(** Code bug: an object that was closed cannot be deleted: the deletion
    fails and frees nothing. *)
Theorem closed_not_deleted w o f :
  heap w !! o = Some (Object f) → is_Some (fds w !! fd f) → fds w !! INVALID_FD = None →
  ∃ w1 w2, cplus_file_close o w = Done (0, w1) ∧ cplus_file_delete o w1 = Done (-1, w2)
    ∧ heap w2 = <[o := Object (set_fd INVALID_FD f)]> (heap w).
Proof.
  intros Ho [x Hx] Hi. unfold cplus_file_close. crun. rewrite (the_file_ok w o f) by done. unfold close. crun. cbn [id].
  rewrite Hx. cbv iota beta. change (0 =? 0) with true. unfold put_file. crun. eexists _, _. split; [reflexivity|].
  unfold cplus_file_delete. crun. rewrite (the_file_ok _ o (set_fd INVALID_FD f)) by (simpl; by rewrite lookup_insert_eq).
  assert (Hi' : delete (fd f) (fds w) !! INVALID_FD = None) by (apply lookup_delete_None; by right).
  unfold fsync, close. crun. cbn [id fd set_fd fds set_heap set_fds]. rewrite Hi'. unfold fail. crun.
  cbn [id fds set_heap set_errno set_fds]. rewrite Hi'. unfold fail. crun. split; reflexivity.
Qed.

(** ** An example *)

Definition no_files : world := World ∅ ∅ ∅ None (Some 1000000) ∅ [] 0.
Definition hello : list Z := [72; 101; 108; 108; 111].

Definition script : C world (option nat * list (Z * list Z) * option nat * option nat) :=
  o ← cplus_file_new [116; 120; 116] CPLUS_FILE_ACCESS_RDWR;
  match o with
  | Some o =>
      rs ← exec_run o [Write hello; Move CPLUS_FILE_POS_START 1; Write [69]; GetSize; Reset; Read 3; Resize 2; GetPos];
      a ← cplus_file_get_data o; b ← cplus_file_get_data o; mret (Some o, rs, a, b)
  | None => mret (None, [], None, None)
  end.

(** Code bug: asking twice for the whole file leaks the first buffer, which
    outlives the object. *)
Theorem second_get_data_leaks :
  ∃ o rs a b w, script no_files = Done ((Some o, rs, Some a, Some b), w) ∧ a ≠ b
    ∧ ∃ w', cplus_file_delete o w = Done (0, w') ∧ heap w' !! a = Some (Data 2 [72; 69]) ∧ heap w' !! b = None.
Proof.
  eexists _, _, _, _, _. split; [vm_compute; reflexivity|]. split; [done|].
  eexists. split; [vm_compute; reflexivity|]. split; vm_compute; reflexivity.
Qed.

(** Code bug: a null path exists, is a file, is readable and writable: the
    check returns [CPLUS_FAIL], which as a [bool] is true.  And a socket is a
    file, because its type has the bit of [S_IFREG]. *)
Theorem null_is_a_file w path n :
  lookup_path w path = Some n → kind n = S_IFSOCK →
  value_of (cplus_file_is_exist None w) = Done true ∧ value_of (cplus_file_is_file None w) = Done true
  ∧ value_of (cplus_file_is_readable None w) = Done true ∧ value_of (cplus_file_is_writable None w) = Done true
  ∧ value_of (cplus_file_is_executable None w) = Done false
  ∧ value_of (cplus_file_is_file (Some path) w) = Done true.
Proof. intros E K. split_and!; try reflexivity. unfold cplus_file_is_file, not_null, is_file. crun. by rewrite E, K. Qed.

Definition after_new : world := state_of no_files (cplus_file_new [116; 120; 116] CPLUS_FILE_ACCESS_RDWR no_files).
Definition rw_create : Z := Z.lor CPLUS_FILE_ACCESS_RDWR CPLUS_FILE_FLAG_CREATE.
Definition first : nat := fresh (∅ : gset nat).

Lemma after_new_rep : rep first rw_create after_new (View [] 0).
Proof. eexists _, _, _. split_and!; vm_compute; reflexivity. Qed.

Theorem file_refines_witness :
  ∃ w', exec_run first [Write hello; Reset; Read 2; GetSize] after_new = Done ([(5, []); (0, []); (2, [72; 101]); (5, [])], w').
Proof.
  apply (file_refines first rw_create after_new (View [] 0) [Write hello; Reset; Read 2; GetSize] after_new_rep).
  repeat constructor; vm_compute; intros; discriminate.
Defined.

Theorem write_then_read_witness :
  ∃ w', exec_run first [Write hello; Move CPLUS_FILE_POS_START 0; Read 5] after_new = Done ([(5, []); (0, []); (5, hello)], w').
Proof.
  destruct (write_then_read first rw_create after_new (View [] 0) hello after_new_rep eq_refl eq_refl eq_refl) as (w' & E & _).
  - reflexivity.
  - repeat constructor; vm_compute; intros; discriminate.
  - reflexivity.
  - exists w'. exact E.
Defined.

Definition after_write : world := state_of no_files (exec first (Write hello) after_new).

Theorem get_data_whole_witness :
  ∃ a w', cplus_file_get_data first after_write = Done (Some a, w') ∧ heap w' !! a = Some (Data 5 hello).
Proof.
  assert (H : rep first rw_create after_write (View hello 5)) by (eexists _, _, _; split_and!; vm_compute; reflexivity).
  destruct (get_data_whole first rw_create after_write (View hello 5) 1000000 H eq_refl) as (a & w' & E1 & E2 & _); try reflexivity.
  - repeat constructor; vm_compute; intros; discriminate.
  - exists a, w'. split; [exact E1|exact E2].
Defined.

Theorem new_then_delete_file_witness :
  ∃ w2, cplus_file_delete first after_new = Done (0, w2) ∧ heap w2 = ∅ ∧ fds w2 = ∅.
Proof.
  apply (new_then_delete_file [116; 120; 116] CPLUS_FILE_ACCESS_RDWR CPLUS_FILE_FLAG_CREATE CPLUS_FILE_MODE_ALL no_files first after_new).
  vm_compute. reflexivity.
Defined.

Theorem failed_new_leaks_witness :
  ∃ w' o f, cplus_file_new_ex [110; 111] CPLUS_FILE_ACCESS_RDONLY 0 CPLUS_FILE_MODE_ALL no_files = Done (None, w')
    ∧ heap w' = <[o := Object f]> ∅ ∧ errno w' = EBADF.
Proof.
  destruct (failed_new_leaks [110; 111] CPLUS_FILE_ACCESS_RDONLY 0 CPLUS_FILE_MODE_ALL no_files) as (w' & o & f & E1 & _ & E2 & E3);
    try reflexivity. exists w', o, f. split; [exact E1|]. split; [exact E2|exact E3].
Defined.

Theorem closed_not_deleted_witness :
  ∃ w1 w2, cplus_file_close first after_new = Done (0, w1) ∧ cplus_file_delete first w1 = Done (-1, w2).
Proof.
  set (f := match heap after_new !! first with Some (Object f) => f | _ => mkFile 0 None 0 0 0 0 None end).
  destruct (closed_not_deleted after_new first f) as (w1 & w2 & E1 & E2 & _).
  - vm_compute. reflexivity.
  - exists (Desc first 0 rw_create). vm_compute. reflexivity.
  - vm_compute. reflexivity.
  - exists w1, w2. split; [exact E1|exact E2].
Defined.

Theorem null_is_a_file_witness :
  let w := World {[ [115] := 0%nat ]} {[ 0%nat := Inode S_IFSOCK [] true true false ]} ∅ None None ∅ [] 0 in
  value_of (cplus_file_is_file None w) = Done true ∧ value_of (cplus_file_is_file (Some [115]) w) = Done true.
Proof.
  intros w. destruct (null_is_a_file w [115] (Inode S_IFSOCK [] true true false)) as (_ & H1 & _ & _ & _ & H2); [vm_compute; reflexivity|reflexivity|].
  split; [exact H1|exact H2].
Defined.

End FileProps.
