(* ===== verification/Socket.v ===== *)
(** * Socket: sockets (src/socket.c)

    What the functions ask of the system, and what they make of its answers.
    The system is any function from the calls so far to the next answer; it is
    a parameter, like the conversion of addresses by [inet_pton] and
    [inet_ntop].  The structure is passed as a value. *)

From S2P Require Import Prelude Zlist Stdio Memmgr DataConv.
From stdpp Require Import base numbers list option.
From Stdlib Require Import ZArith Lia.
Import Stdio Memmgr.
Open Scope Z_scope.

Module Socket.

Definition OBJ_TYPE : Z := OBJ_NONE + SYS + 6.
Definition INVALID_SOCKET : Z := -1.
(** ["/var/tmp/cplus_socket_"], the pattern before the name. *)
Definition LOCAL_SOCKET_NAME_PATTERN : list Z :=
  [47; 118; 97; 114; 47; 116; 109; 112; 47; 99; 112; 108; 117; 115; 95; 115; 111; 99; 107; 101; 116; 95].
Definition MAX_ADDRESS_SIZE : Z := 64.
Definition SUN_PATH_SIZE : Z := 108.
Definition SOMAXCONN : Z := 4096.
Definition ENOTSUP : Z := 95.

(** The enumerations of cplus_socket.h. *)
Definition CPLUS_SOCKET_DOMAIN_IPV4 : Z := 0.
Definition CPLUS_SOCKET_DOMAIN_IPV6 : Z := 1.
Definition CPLUS_SOCKET_DOMAIN_LOCAL : Z := 2.
Definition CPLUS_SOCKET_DOMAIN_UNSPEC : Z := 3.
Definition CPLUS_SOCKET_DOMAIN_UNKNOWN : Z := 4.
Definition CPLUS_SOCKET_STYLE_STREAM : Z := 0.
Definition CPLUS_SOCKET_STYLE_DGRAM : Z := 1.
Definition CPLUS_SOCKET_STYLE_UNKNOWN : Z := 2.
Definition CPLUS_SOCKET_IP_PROTOCOL_NONE : Z := 0.
Definition CPLUS_SOCKET_IP_PROTOCOL_TCP : Z := 1.
Definition CPLUS_SOCKET_IP_PROTOCOL_UDP : Z := 2.
Definition CPLUS_SOCKET_IP_PROTOCOL_UNKNOWN : Z := 3.
Inductive cplus_socket_type := TCP_IPV4 | TCP_IPV6 | UDP_IPV4 | UDP_IPV6 | STREAM_LOCAL | DGRAM_LOCAL | DUEL_STACK | UNKNOWN.

(** Constants of the system. *)
Definition AF_UNSPEC : Z := 0.
Definition AF_UNIX : Z := 1.
Definition AF_INET : Z := 2.
Definition AF_INET6 : Z := 10.
Definition SOCK_STREAM : Z := 1.
Definition SOCK_DGRAM : Z := 2.
Definition IPPROTO_IP : Z := 0.
Definition IPPROTO_TCP : Z := 6.
Definition IPPROTO_UDP : Z := 17.
Inductive how := SHUT_RD | SHUT_WR | SHUT_RDWR.

(** ** The system *)

(** [union socketaddr]: what the calls look at.  The port is in network order;
    [sun_path] has 108 bytes. *)
Inductive sockaddr := NoAddr | In (s_addr : list Z) (sin_port : Z) | In6 (s6_addr : list Z) (sin6_port : Z) | Un (sun_path : list Z).

(** A message of one byte, with a descriptor in its control part. *)
Record msghdr := Msg { msg_name : option sockaddr; passed : option Z; iov : list Z }.

Inductive syscall :=
| Malloc | Free
| SysSocket (domain style protocol : Z)
| SysShutdown (fd : Z) (mode : how)
| SysClose (fd : Z)
| SysUnlink (path : list Z)
| SysBind (fd : Z) (a : sockaddr) (size : Z)
| SysConnect (fd : Z) (a : sockaddr) (size : Z)
| SysListen (fd n : Z)
| SysAccept (fd : Z)
| SysSelect (reading : bool) (nfds fds sec usec : Z)
| SysRecv (fd len : Z)
| SysRecvfrom (fd len : Z) (size : Z)
| SysSend (fd : Z) (data : list Z)
| SysSendto (fd : Z) (data : list Z) (a : sockaddr) (size : Z)
| SysSendmsg (fd : Z) (m : msghdr)
| SysRecvmsg (fd : Z)
| SysReuseAddr (fd value : Z).

(** The control part of a received message. *)
Inductive control := NoControl | Rights (fd : Z) | OtherControl.

(** The result, [errno] when it is negative, and what was received. *)
Record reply := Reply { ret : Z; err : Z; received : list Z; from : sockaddr; got : control }.

(** The calls so far, the latest first. *)
Record system := System { calls : list syscall; errno : Z }.

(** [inet_pton] and [inet_ntop], for version 4 or 6. *)
Class Inet := {
  inet_pton : Z → list Z → option (list Z);
  inet_ntop : Z → list Z → list Z }.

Definition fail {A} (e : Z) (a : A) : C system A := modify (λ s, System (calls s) e);; mret a.
Definition set_errno (e : Z) : C system unit := modify (λ s, System (calls s) e).

(** ** The structure *)

Record socket := mkSocket {
  fd : Z; domain : Z; style : Z; ip_protocol : Z; is_connected : bool; address_bufs : list Z }.
Definition set_fd (d : Z) (s : socket) : socket := mkSocket d (domain s) (style s) (ip_protocol s) (is_connected s) (address_bufs s).
Definition set_connected (b : bool) (s : socket) : socket := mkSocket (fd s) (domain s) (style s) (ip_protocol s) b (address_bufs s).
Definition set_address (a : list Z) (s : socket) : socket := mkSocket (fd s) (domain s) (style s) (ip_protocol s) (is_connected s) a.

Section socket.
Context `{Inet} (kernel : list syscall → reply).

Definition sys (c : syscall) : C system reply := λ s,
  let r := kernel (c :: calls s) in
  Done (r, System (c :: calls s) (if ret r <? 0 then err r else errno s)).
Definition sys_ (c : syscall) : C system Z := r ← sys c; mret (ret r).

(** A text printed into a buffer of the library. *)
Definition print (buf : list Z) (size : Z) (text : list Z) : C system (list Z) := λ s,
  match cplus_str_printf buf size text with
  | Done b => Done (b, s) | Aborts => Aborts | Hangs => Hangs | Undefined => Undefined
  end.
Definition text_of (buf : list Z) : C system (list Z) := deref (λ _, cstr buf).

Definition cplus_socket_delete (s : socket) : C system Z :=
  (if negb (INVALID_SOCKET =? fd s) then sys (SysShutdown (fd s) SHUT_RDWR);; sys (SysClose (fd s));; mret tt else mret tt);;
  (if CPLUS_SOCKET_DOMAIN_LOCAL =? domain s then p ← text_of (address_bufs s); sys (SysUnlink p);; mret tt else mret tt);;
  sys Free;;
  mret CPLUS_SUCCESS.

Definition domain_in (d : Z) : option Z :=
  if d =? CPLUS_SOCKET_DOMAIN_IPV4 then Some AF_INET
  else if d =? CPLUS_SOCKET_DOMAIN_IPV6 then Some AF_INET6
  else if d =? CPLUS_SOCKET_DOMAIN_LOCAL then Some AF_UNIX
  else if d =? CPLUS_SOCKET_DOMAIN_UNSPEC then Some AF_UNSPEC
  else None.
Definition style_in (s : Z) : option Z :=
  if s =? CPLUS_SOCKET_STYLE_STREAM then Some SOCK_STREAM else if s =? CPLUS_SOCKET_STYLE_DGRAM then Some SOCK_DGRAM else None.
Definition ip_protocol_in (p : Z) : option Z :=
  if p =? CPLUS_SOCKET_IP_PROTOCOL_NONE then Some IPPROTO_IP
  else if p =? CPLUS_SOCKET_IP_PROTOCOL_TCP then Some IPPROTO_TCP
  else if p =? CPLUS_SOCKET_IP_PROTOCOL_UDP then Some IPPROTO_UDP
  else None.

(** [goto exit]. *)
Definition discard (s : socket) : C system (option socket) := cplus_socket_delete s;; mret None.

Definition socket_initialize_object (create_socket : bool) (dom sty proto : Z) : C system (option socket) :=
  m ← sys_ Malloc;
  if m =? 0 then mret None
  else
    let s := mkSocket INVALID_SOCKET dom sty proto false (replicate 64 0) in
    match domain_in dom, style_in sty, ip_protocol_in proto with
    | Some d, Some t, Some p =>
        if create_socket then
          x ← sys_ (SysSocket d t p);
          if INVALID_SOCKET =? x then discard (set_fd x s) else mret (Some (set_fd x s))
        else mret (Some s)
    | _, _, _ => set_errno EINVAL;; discard s
    end.

Definition out_of (x low high : Z) : bool := (x <? low) || (high <? x).

Definition cplus_socket_new_ex (dom sty proto : Z) : C system (option socket) :=
  if out_of dom 0 (CPLUS_SOCKET_DOMAIN_UNKNOWN - 1) then fail EINVAL None
  else if out_of sty 0 (CPLUS_SOCKET_STYLE_UNKNOWN - 1) then fail EINVAL None
  else if out_of proto 0 (CPLUS_SOCKET_IP_PROTOCOL_UNKNOWN - 1) then fail EINVAL None
  else socket_initialize_object true dom sty proto.

Definition cplus_socket_new (type : cplus_socket_type) : C system (option socket) :=
  match type with
  | UNKNOWN => fail EINVAL None
  | TCP_IPV4 => cplus_socket_new_ex CPLUS_SOCKET_DOMAIN_IPV4 CPLUS_SOCKET_STYLE_STREAM CPLUS_SOCKET_IP_PROTOCOL_TCP
  | TCP_IPV6 => cplus_socket_new_ex CPLUS_SOCKET_DOMAIN_IPV6 CPLUS_SOCKET_STYLE_STREAM CPLUS_SOCKET_IP_PROTOCOL_TCP
  | UDP_IPV4 => cplus_socket_new_ex CPLUS_SOCKET_DOMAIN_IPV4 CPLUS_SOCKET_STYLE_DGRAM CPLUS_SOCKET_IP_PROTOCOL_UDP
  | UDP_IPV6 => cplus_socket_new_ex CPLUS_SOCKET_DOMAIN_IPV6 CPLUS_SOCKET_STYLE_DGRAM CPLUS_SOCKET_IP_PROTOCOL_UDP
  | STREAM_LOCAL => cplus_socket_new_ex CPLUS_SOCKET_DOMAIN_LOCAL CPLUS_SOCKET_STYLE_STREAM CPLUS_SOCKET_IP_PROTOCOL_NONE
  | DGRAM_LOCAL => cplus_socket_new_ex CPLUS_SOCKET_DOMAIN_LOCAL CPLUS_SOCKET_STYLE_DGRAM CPLUS_SOCKET_IP_PROTOCOL_NONE
  | DUEL_STACK => fail ENOTSUP None
  end.

(** The checks the two shutdown functions share: [None] to go on. *)
Definition shutdown_checks (s : socket) : option (Z * option Z) :=
  if INVALID_SOCKET =? fd s then Some (CPLUS_FAIL, Some EINVAL)
  else if negb (is_connected s) then Some (CPLUS_SUCCESS, Some EINVAL)
  else if negb (CPLUS_SOCKET_STYLE_STREAM =? style s) then Some (CPLUS_SUCCESS, Some EINVAL)
  else None.

Definition cplus_socket_shutdown (s : socket) : C system Z :=
  match shutdown_checks s with
  | Some (r, e) => fail (default 0 e) r
  | None => sys_ (SysShutdown (fd s) SHUT_RDWR)
  end.

(** [mode]: read, write, both, or a value that is none of these. *)
Definition cplus_socket_shutdown_ex (s : socket) (mode : option how) : C system Z :=
  match shutdown_checks s, mode with
  | Some (r, e), _ => fail (default 0 e) r
  | None, Some m => sys_ (SysShutdown (fd s) m)
  | None, None => fail EINVAL CPLUS_FAIL
  end.

Definition cplus_socket_close (s : socket) : C system (Z * socket) :=
  if INVALID_SOCKET =? fd s then fail EINVAL (CPLUS_FAIL, s)
  else r ← sys_ (SysClose (fd s)); mret (if 0 =? r then (CPLUS_SUCCESS, set_fd INVALID_SOCKET s) else (CPLUS_FAIL, s)).

(** [htons] and [ntohs], on the conversion to [uint16_t]. *)
Definition htons (port : Z) : Z := Z.lor (Z.shiftr (u16 port) 8) (Z.shiftl (Z.land (u16 port) 255) 8).
Definition ntohs (port : Z) : Z := htons port.

(** The address and its size; [None]: refused, with the reason. *)
Definition to_socket_addr (dom : Z) (from_addr : option (list Z)) (from_port : Z) : C system (option (sockaddr * Z)) :=
  match from_addr with
  | None => mret (Some (NoAddr, 0))
  | Some a =>
      if dom =? CPLUS_SOCKET_DOMAIN_IPV4 then
        match inet_pton AF_INET a with
        | Some b => mret (Some (In b (htons from_port), 16))
        | None => fail EINVAL None
        end
      else if dom =? CPLUS_SOCKET_DOMAIN_IPV6 then
        match inet_pton AF_INET6 a with
        | Some b => mret (Some (In6 b (htons from_port), 28))
        | None => fail EINVAL None
        end
      else if dom =? CPLUS_SOCKET_DOMAIN_LOCAL then
        p ← print (replicate 108 0) (SUN_PATH_SIZE - 1) (LOCAL_SOCKET_NAME_PATTERN ++ a);
        mret (Some (Un p, 110))
      else fail ENOTSUP None
  end.

(** [FD_ZERO] and [FD_SET] on a set of the stack: the set with the one descriptor,
    as bits, or a write outside of it. *)
Definition FD_SETSIZE : Z := 1024.
Definition FD_SET (d : Z) : C system Z := if (0 <=? d) && (d <? FD_SETSIZE) then mret (Z.setbit 0 d) else undef.

(** [select] on one descriptor, in the set for reading or in the one for writing. *)
Definition ready (reading : bool) (d timeout : Z) : C system Z :=
  if negb (CPLUS_INFINITE_TIMEOUT =? timeout) then
    let timeout := Z.max 1 timeout in
    fds ← FD_SET d;
    r ← sys_ (SysSelect reading (d + 1) fds (timeout `div` 1000) (timeout `mod` 1000 * 1000));
    if r <=? 0 then (if 0 =? r then set_errno ETIMEDOUT else mret tt);; mret CPLUS_FAIL
    else mret CPLUS_SUCCESS
  else mret CPLUS_SUCCESS.
Definition ready_to_recv (d timeout : Z) : C system Z := ready true d timeout.
Definition ready_to_send (d timeout : Z) : C system Z := ready false d timeout.

Definition cplus_socket_check (obj : option Z) : bool := match obj with Some type => type =? OBJ_TYPE | None => false end.

(** The name of the socket as the structure keeps it. *)
Definition own_name (s : socket) (addr : list Z) : C system (list Z) :=
  if CPLUS_SOCKET_DOMAIN_LOCAL =? domain s
  then print (address_bufs s) (MAX_ADDRESS_SIZE - 1) (LOCAL_SOCKET_NAME_PATTERN ++ addr)
  else print (address_bufs s) (MAX_ADDRESS_SIZE - 1) addr.

Definition cplus_socket_bind (s : socket) (addr : option (list Z)) (port : Z) : C system (Z * socket) :=
  if INVALID_SOCKET =? fd s then fail EINVAL (CPLUS_FAIL, s)
  else
    a ← to_socket_addr (domain s) addr port;
    match a with
    | None => mret (CPLUS_FAIL, s)
    | Some (sa, size) =>
        match addr with
        | None => undef                       (* a null pointer for [%s] *)
        | Some name =>
            b ← own_name s name;
            (if CPLUS_SOCKET_DOMAIN_LOCAL =? domain s then p ← text_of b; sys (SysUnlink p);; mret tt else mret tt);;
            r ← sys_ (SysBind (fd s) sa size);
            mret (r, set_address b s)
        end
    end.

Definition cplus_socket_connect (s : socket) (addr : option (list Z)) (port : Z) : C system (Z * socket) :=
  if INVALID_SOCKET =? fd s then fail EINVAL (CPLUS_FAIL, s)
  else
    a ← to_socket_addr (domain s) addr port;
    match a with
    | None => mret (CPLUS_FAIL, s)
    | Some (sa, size) =>
        r ← sys_ (SysConnect (fd s) sa size);
        mret (r, if 0 =? r then set_connected true s else s)
    end.

Definition cplus_socket_listen (s : socket) (max_conn : Z) : C system Z :=
  if INVALID_SOCKET =? fd s then fail EINVAL CPLUS_FAIL else sys_ (SysListen (fd s) (Z.min max_conn SOMAXCONN)).

(** The new socket, and the listening one. *)
Definition cplus_socket_accept (s : socket) (timeout : Z) : C system (option socket * socket) :=
  if INVALID_SOCKET =? fd s then fail EINVAL (None, s)
  else
    r ← ready_to_recv (fd s) timeout;
    if negb (CPLUS_SUCCESS =? r) then mret (None, s)
    else
      c ← sys_ (SysAccept (fd s));
      if INVALID_SOCKET =? c then mret (None, s)
      else
        n ← socket_initialize_object false (domain s) (style s) (ip_protocol s);
        match n with
        | Some n => mret (Some (set_fd c n), set_connected true s)
        | None => undef
        end.

Definition addr_size (dom : Z) : Z :=
  if dom =? CPLUS_SOCKET_DOMAIN_IPV4 then 16 else if dom =? CPLUS_SOCKET_DOMAIN_IPV6 then 28
  else if dom =? CPLUS_SOCKET_DOMAIN_LOCAL then 110 else 0.

Fixpoint skip_space (l : list Z) : list Z := match l with c :: l' => if isspace c then skip_space l' else l | [] => [] end.
Fixpoint word (l : list Z) : list Z := match l with c :: l => if isspace c then [] else c :: word l | [] => [] end.

(** [sscanf(path, "/var/tmp/cplus_socket_%s", local_name)]: after the pattern
    and white space, the bytes up to the next white space. *)
Definition scan_name (path : list Z) : option (list Z) :=
  if decide (take (length LOCAL_SOCKET_NAME_PATTERN) path = LOCAL_SOCKET_NAME_PATTERN) then
    match word (skip_space (drop (length LOCAL_SOCKET_NAME_PATTERN) path)) with [] => None | name => Some name end
  else None.

(** What the address of a sender is reported as: the text for a buffer of
    [size] bytes, if there is one, and the port. *)
Definition fits (size : Z) (text : list Z) : option (list Z) := if zlen text + 1 <=? size - 1 then Some text else None.
Definition report_addr (dom : Z) (size : Z) (a : sockaddr) : option (list Z) * option Z :=
  match a with
  | In b port => if dom =? CPLUS_SOCKET_DOMAIN_IPV4 then (fits size (inet_ntop AF_INET b), Some (ntohs port)) else (None, None)
  | In6 b port => if dom =? CPLUS_SOCKET_DOMAIN_IPV6 then (fits size (inet_ntop AF_INET6 b), Some (ntohs port)) else (None, None)
  | Un path =>
      if dom =? CPLUS_SOCKET_DOMAIN_LOCAL then
        (name ← cstr path ≫= scan_name; if size =? 1 then None else Some (take (Z.to_nat (size - 2)) name), Some 0)
      else (None, None)
  | NoAddr => (None, None)
  end.

(** [buffer]: the size of the one for the address, when the caller asks for it. *)
Definition cplus_socket_recvfrom (s : socket) (data_bufs : bool) (data_len : Z) (buffer : option Z) (timeout : Z)
    : C system (Z * list Z * (option (list Z) * option Z)) :=
  if (INVALID_SOCKET =? fd s) || negb data_bufs || (data_len <=? 0) then fail EINVAL (CPLUS_FAIL, [], (None, None))
  else
    r ← ready_to_recv (fd s) timeout;
    if negb (CPLUS_SUCCESS =? r) then mret (CPLUS_FAIL, [], (None, None))
    else
      match buffer with
      | Some size =>
          if 0 <? size then
            x ← sys (SysRecvfrom (fd s) data_len (addr_size (domain s)));
            mret (ret x, received x, if 0 <? ret x then report_addr (domain s) size (from x) else (None, None))
          else x ← sys (SysRecv (fd s) data_len); mret (ret x, received x, (None, None))
      | None => x ← sys (SysRecv (fd s) data_len); mret (ret x, received x, (None, None))
      end.

Definition cplus_socket_recv (s : socket) (data_bufs : bool) (data_len timeout : Z) : C system (Z * list Z) :=
  '(r, l, _) ← cplus_socket_recvfrom s data_bufs data_len None timeout; mret (r, l).

Definition cplus_socket_sendto (s : socket) (data : option (list Z)) (data_len : Z) (addr : option (list Z)) (port : Z) : C system Z :=
  match data with
  | Some l =>
      if (INVALID_SOCKET =? fd s) || (data_len <=? 0) then fail EINVAL CPLUS_FAIL
      else
        a ← to_socket_addr (domain s) addr port;
        match a with
        | None => mret CPLUS_FAIL
        | Some (sa, size) =>
            r ← ready_to_send (fd s) CPLUS_INFINITE_TIMEOUT;
            if negb (CPLUS_SUCCESS =? r) then mret CPLUS_FAIL
            else if zlen l <? data_len then undef
            else sys_ (SysSendto (fd s) (take (Z.to_nat data_len) l) sa size)
        end
  | None => fail EINVAL CPLUS_FAIL
  end.

Definition cplus_socket_send (s : socket) (data : option (list Z)) (data_len : Z) : C system Z :=
  match data with
  | Some l =>
      if (INVALID_SOCKET =? fd s) || (data_len <=? 0) then fail EINVAL CPLUS_FAIL
      else
        r ← ready_to_send (fd s) CPLUS_INFINITE_TIMEOUT;
        if negb (CPLUS_SUCCESS =? r) then mret CPLUS_FAIL
        else if zlen l <? data_len then undef
        else sys_ (SysSend (fd s) (take (Z.to_nat data_len) l))
  | None => fail EINVAL CPLUS_FAIL
  end.

Definition socket_sendmsg (s : socket) (m : msghdr) : C system Z :=
  if INVALID_SOCKET =? fd s then fail EINVAL CPLUS_FAIL
  else
    r ← ready_to_send (fd s) CPLUS_INFINITE_TIMEOUT;
    if negb (CPLUS_SUCCESS =? r) then mret CPLUS_FAIL else sys_ (SysSendmsg (fd s) m).

(** The one caller asks for no address. *)
Definition socket_recvmsg (s : socket) (timeout : Z) : C system (Z * control) :=
  if INVALID_SOCKET =? fd s then fail EINVAL (CPLUS_FAIL, NoControl)
  else
    r ← ready_to_recv (fd s) timeout;
    if negb (CPLUS_SUCCESS =? r) then mret (CPLUS_FAIL, NoControl)
    else x ← sys (SysRecvmsg (fd s)); mret (ret x, got x).

Definition cplus_socket_setopt_reuse_addr (s : socket) (enable : bool) : C system Z :=
  if INVALID_SOCKET =? fd s then fail EINVAL CPLUS_FAIL
  else r ← sys_ (SysReuseAddr (fd s) (if enable then 1 else 0)); mret (if 0 =? r then CPLUS_SUCCESS else CPLUS_FAIL).

Definition cplus_socket_send_fd (s : socket) (sendfd : Z) (addr : option (list Z)) (port : Z) : C system Z :=
  a ← to_socket_addr (domain s) addr port;
  match a with
  | None => mret CPLUS_FAIL
  | Some (sa, _) =>
      r ← socket_sendmsg s (Msg (match addr with Some _ => Some sa | None => None end) (Some sendfd) [0]);
      mret (if 1 =? r then CPLUS_SUCCESS else CPLUS_FAIL)
  end.

(** The answer, and what [*recvfd] is set to, if it is. *)
Definition cplus_socket_recv_fd (s : socket) (timeout : Z) : C system (Z * option Z) :=
  '(r, d) ← socket_recvmsg s timeout;
  if 0 <? r then
    match d with
    | OtherControl => mret (CPLUS_FAIL, None)
    | Rights d => mret (if r =? 1 then CPLUS_SUCCESS else CPLUS_FAIL, Some d)
    | NoControl => mret (if r =? 1 then CPLUS_SUCCESS else CPLUS_FAIL, Some INVALID_SOCKET)
    end
  else mret (r, None).

End socket.
End Socket.
