(* ===== verification/SocketProps.v ===== *)
(** * SocketProps: what the sockets ask of the system, and what they make of it

    A socket gives back what it took; addresses survive the way to the peer and
    back; a wait takes the time it was given, for descriptors that fit in a set; a descriptor is passed on; and
    where the functions do not do what their names say. *)

From S2P Require Import Prelude Zlist Stdio Memmgr Socket.
From stdpp Require Import base numbers list option sets.
From Stdlib Require Import ZArith Lia.
Import Stdio Memmgr.
Open Scope Z_scope.

Module SocketProps.
Import Socket.

(** ** Names and addresses *)

Lemma pattern_length : length LOCAL_SOCKET_NAME_PATTERN = 22%nat.
Proof. done. Qed.

Definition no_space (l : list Z) : Prop := Forall (λ c, isspace c = false) l.

Lemma word_all l : no_space l → word l = l.
Proof. induction 1 as [|c l Hc _ IH]; [done|]. simpl. by rewrite Hc, IH. Qed.

Lemma skip_space_none l : no_space l → skip_space l = l.
Proof. destruct 1 as [|c l Hc _]; [done|]. simpl. by rewrite Hc. Qed.

Lemma scan_pattern name : no_space name → name ≠ [] → scan_name (LOCAL_SOCKET_NAME_PATTERN ++ name) = Some name.
Proof.
  intros Hn Hne. unfold scan_name. rewrite take_app_length, decide_True by done. rewrite drop_app_length.
  rewrite skip_space_none, word_all by done. by destruct name.
Qed.

Lemma htons_involutive port : 0 ≤ port < 65536 → ntohs (htons port) = port.
Proof.
  intros Hp. set (bs := seqZ 0 256).
  assert (H : forallb (λ h, forallb (λ l, ntohs (htons (256 * h + l)) =? 256 * h + l) bs) bs = true) by (vm_compute; reflexivity).
  pose proof (Z.div_mod port 256 ltac:(lia)). pose proof (Z.mod_pos_bound port 256 ltac:(lia)).
  assert (0 ≤ port `div` 256 < 256) by (split; [apply Z.div_pos; lia|apply Z.div_lt_upper_bound; lia]).
  rewrite forallb_forall in H. specialize (H (port `div` 256)). rewrite forallb_forall in H.
  replace port with (256 * (port `div` 256) + port `mod` 256) by lia.
  apply Z.eqb_eq, H; apply list_elem_of_In, elem_of_seqZ; lia.
Qed.

Lemma print_fits n size t s : zlen t < size → size ≤ Z.of_nat n → text t →
  ∃ b, print (replicate n 0) size t s = Done (b, s) ∧ cstr b = Some t.
Proof.
  intros H1 H2 Ht. unfold print. rewrite str_printf_fits by (unfold zlen in *; rewrite ?length_replicate; lia).
  eexists. split; [reflexivity|]. by apply cstr_app.
Qed.

Lemma text_pattern name : text name → text (LOCAL_SOCKET_NAME_PATTERN ++ name).
Proof. intros H. apply Forall_app. split; [repeat constructor; discriminate|done]. Qed.

(** An address that is reported as it is written: for the Internet domains, in
    the form [inet_ntop] writes; for local sockets a name without white space
    that fits. *)
Definition plain `{Inet} (dom : Z) (a : list Z) : Prop :=
  (dom = CPLUS_SOCKET_DOMAIN_IPV4 ∧ ∃ b, inet_pton AF_INET a = Some b ∧ inet_ntop AF_INET b = a)
  ∨ (dom = CPLUS_SOCKET_DOMAIN_IPV6 ∧ ∃ b, inet_pton AF_INET6 a = Some b ∧ inet_ntop AF_INET6 b = a)
  ∨ (dom = CPLUS_SOCKET_DOMAIN_LOCAL ∧ text a ∧ no_space a ∧ a ≠ [] ∧ zlen a < 85).

(** C35: an address and a port that are given to [bind], [connect] or [sendto]
    are what the receiver of a packet from there is told, if its buffer has two
    bytes more than the address; local sockets have port 0. *)
Theorem address_round_trip `{Inet} dom a port size s :
  plain dom a → 0 ≤ port < 65536 → zlen a + 2 ≤ size →
  ∃ sa n, to_socket_addr dom (Some a) port s = Done (Some (sa, n), s)
    ∧ report_addr dom size sa = (Some a, Some (if dom =? CPLUS_SOCKET_DOMAIN_LOCAL then 0 else port)).
Proof.
  intros Hp Hport Hsize. unfold to_socket_addr.
  assert (Hfit : fits size a = Some a) by (unfold fits; by rewrite (proj2 (Z.leb_le _ _)) by lia).
  destruct Hp as [(-> & b & E1 & E2)|[(-> & b & E1 & E2)|(-> & Ht & Hs & Hn & Hl)]]; simpl.
  - rewrite E1. do 2 eexists. split; [reflexivity|]. simpl. by rewrite E2, Hfit, htons_involutive.
  - rewrite E1. do 2 eexists. split; [reflexivity|]. simpl. by rewrite E2, Hfit, htons_involutive.
  - destruct (print_fits 108 (SUN_PATH_SIZE - 1) (LOCAL_SOCKET_NAME_PATTERN ++ a) s) as (b & E & Hb).
    { rewrite zlen_app. unfold SUN_PATH_SIZE. change (zlen LOCAL_SOCKET_NAME_PATTERN) with 22. lia. }
    { unfold SUN_PATH_SIZE. lia. }
    { by apply text_pattern. }
    rewrite (bind_Done _ _ _ _ _ E). do 2 eexists. split; [reflexivity|]. unfold report_addr. rewrite Z.eqb_refl, Hb. cbn [mbind option_bind].
    rewrite scan_pattern by done. cbn [mbind option_bind]. pose proof (zlen_nonneg a). rewrite (proj2 (Z.eqb_neq size 1)).
    + rewrite take_ge; [done|]. unfold zlen in *. lia.
    + destruct a; [done|]. unfold zlen in *. simpl in *. lia.
Qed.

(** ** Waiting *)

Lemma FD_SET_bit d i : 0 ≤ d → Z.testbit (Z.setbit 0 d) i = true ↔ i = d.
Proof. intros Hd. rewrite Z.setbit_eqb, Z.bits_0, orb_false_r by done. split; [by intros ?%Z.eqb_eq|intros ->; apply Z.eqb_refl]. Qed.

(** C33: a wait asks the system about its one descriptor, in the set for reading
    or for writing, for as many milliseconds as it was given, at least one, as
    whole seconds and microseconds; it succeeds when the descriptor is ready, and
    fails with [ETIMEDOUT] when the time is over; without a limit it asks for
    nothing.  A descriptor that the set has no room for, from 1024 on or below
    0, is written outside of the set before the system is asked. *)
Theorem wait_takes_its_time kernel (reading : bool) d timeout s :
  0 ≤ timeout < 4294967296 →
  let wait := if reading then ready_to_recv kernel d timeout s else ready_to_send kernel d timeout s in
  if timeout =? CPLUS_INFINITE_TIMEOUT then wait = Done (CPLUS_SUCCESS, s)
  else if (0 <=? d) && (d <? FD_SETSIZE) then
    ∃ fds sec usec s', let asked := SysSelect reading (d + 1) fds sec usec :: calls s in
      wait = Done (if 0 <? ret (kernel asked) then CPLUS_SUCCESS else CPLUS_FAIL, s')
      ∧ calls s' = asked ∧ (∀ i, Z.testbit fds i = true ↔ i = d)
      ∧ sec * 1000000 + usec = Z.max 1 timeout * 1000 ∧ 0 ≤ usec < 1000000
      ∧ (ret (kernel asked) = 0 → errno s' = ETIMEDOUT)
  else wait = Undefined.
Proof.
  intros Ht wait. assert (wait = ready kernel reading d timeout s) as -> by (subst wait; by destruct reading).
  unfold ready. rewrite (Z.eqb_sym timeout). destruct (Z.eqb_spec CPLUS_INFINITE_TIMEOUT timeout); cbn [negb]; [done|].
  unfold FD_SET. destruct ((0 <=? d) && (d <? FD_SETSIZE)) eqn:Ed; [|done]. apply andb_true_iff in Ed as [Ed%Z.leb_le _].
  set (t := Z.max 1 timeout). exists (Z.setbit 0 d), (t `div` 1000), (t `mod` 1000 * 1000). unfold sys_, sys. crun.
  pose proof (λ i, FD_SET_bit d i Ed) as Hbit. set (r := kernel _). pose proof (Z.div_mod t 1000 ltac:(lia)). pose proof (Z.mod_pos_bound t 1000 ltac:(lia)).
  destruct (Z.leb_spec (ret r) 0), (Z.ltb_spec 0 (ret r)); try lia.
  - destruct (Z.eqb_spec 0 (ret r)); unfold set_errno; crun; (eexists; split; [reflexivity|]); split_and!; (done || lia).
  - eexists. split; [reflexivity|]. split_and!; (done || lia).
Qed.

(** ** Making and deleting *)

(** a new socket is one descriptor of the system, or nothing is left of it;
    deleting it shuts it down and closes it once, and frees the structure. *)
Theorem socket_life kernel type s :
  (∃ s', cplus_socket_new kernel type s = Done (None, s')
     ∧ (∀ d, SysClose d ∈ calls s' → SysClose d ∈ calls s)
     ∧ (calls s' = calls s ∨ calls s' = Malloc :: calls s
        ∨ ∃ l dom sty proto, calls s' = Free :: l ++ SysSocket dom sty proto :: Malloc :: calls s ∧ Forall (λ c, ∃ p, c = SysUnlink p) l))
  ∨ (∃ k s' dom sty proto, cplus_socket_new kernel type s = Done (Some k, s') ∧ fd k ≠ INVALID_SOCKET
     ∧ calls s' = SysSocket dom sty proto :: Malloc :: calls s ∧ ret (kernel (calls s')) = fd k
     ∧ ∃ s'', cplus_socket_delete kernel k s' = Done (CPLUS_SUCCESS, s'')
         ∧ ∃ l, calls s'' = Free :: l ++ SysClose (fd k) :: SysShutdown (fd k) SHUT_RDWR :: calls s' ∧ Forall (λ c, ∃ p, c = SysUnlink p) l).
Proof.
  assert (∀ dom sty proto d t p, domain_in dom = Some d → style_in sty = Some t → ip_protocol_in proto = Some p →
    out_of dom 0 3 = false → out_of sty 0 1 = false → out_of proto 0 2 = false →
    (∃ s', cplus_socket_new_ex kernel dom sty proto s = Done (None, s')
     ∧ (∀ d, SysClose d ∈ calls s' → SysClose d ∈ calls s)
     ∧ (calls s' = Malloc :: calls s
        ∨ ∃ l dom sty proto, calls s' = Free :: l ++ SysSocket dom sty proto :: Malloc :: calls s ∧ Forall (λ c, ∃ p, c = SysUnlink p) l))
    ∨ (∃ k s' a b c, cplus_socket_new_ex kernel dom sty proto s = Done (Some k, s') ∧ fd k ≠ INVALID_SOCKET
     ∧ calls s' = SysSocket a b c :: Malloc :: calls s ∧ ret (kernel (calls s')) = fd k
     ∧ ∃ s'', cplus_socket_delete kernel k s' = Done (CPLUS_SUCCESS, s'')
         ∧ ∃ l, calls s'' = Free :: l ++ SysClose (fd k) :: SysShutdown (fd k) SHUT_RDWR :: calls s' ∧ Forall (λ c, ∃ p, c = SysUnlink p) l)) as G.
  { intros dom sty proto d t p E1 E2 E3 O1 O2 O3. unfold cplus_socket_new_ex. change (CPLUS_SOCKET_DOMAIN_UNKNOWN - 1) with 3.
    change (CPLUS_SOCKET_STYLE_UNKNOWN - 1) with 1. change (CPLUS_SOCKET_IP_PROTOCOL_UNKNOWN - 1) with 2. rewrite O1, O2, O3.
    unfold socket_initialize_object, sys_, sys. crun. destruct (Z.eqb_spec (ret (kernel (Malloc :: calls s))) 0).
    { left. eexists. split; [reflexivity|]. split; [|by left]. simpl. set_solver. }
    rewrite E1, E2, E3. unfold sys_, sys. crun. simpl calls. set (r := kernel (SysSocket d t p :: _)).
    destruct (Z.eqb_spec INVALID_SOCKET (ret r)) as [Er|Er].
    - left. unfold discard, cplus_socket_delete. crun. simpl fd. rewrite <- Er, Z.eqb_refl. simpl.
      destruct (CPLUS_SOCKET_DOMAIN_LOCAL =? dom).
      + unfold text_of, sys. crun. simpl. eexists. split; [reflexivity|]. simpl. split; [set_solver|].
        right. exists [SysUnlink []], d, t, p. split; [done|]. repeat constructor. by eexists.
      + unfold sys. crun. eexists. split; [reflexivity|]. simpl. split; [set_solver|]. right. by exists [], d, t, p.
    - right. eexists _, _, d, t, p. split; [reflexivity|]. simpl. split; [congruence|]. split; [done|]. split; [done|].
      unfold cplus_socket_delete, sys, text_of. crun. simpl. rewrite (proj2 (Z.eqb_neq INVALID_SOCKET (ret r))) by done. simpl.
      destruct (CPLUS_SOCKET_DOMAIN_LOCAL =? dom); simpl; (eexists; split; [reflexivity|]); simpl.
      + exists [SysUnlink []]. split; [done|]. repeat constructor. by eexists.
      + by exists []. }
  destruct type; simpl;
    try (left; eexists; split; [reflexivity|]; split; [done|by left]);
    match goal with |- context [cplus_socket_new_ex kernel ?d ?t ?p] =>
      destruct (G d t p _ _ _ eq_refl eq_refl eq_refl eq_refl eq_refl eq_refl) as [(s' & H1 & H2 & H3)|H']; [left; exists s'; auto|right; exact H'] end.
Qed.

(** ** Where the functions do not do what their names say *)

(** Code bug: a socket that was accepted is not marked connected, the
    listening one is: shutting down the accepted one reports success and asks
    the system for nothing. *)
Theorem accepted_not_shut_down kernel k timeout s n k' s' t :
  cplus_socket_accept kernel k timeout s = Done (Some n, k', s') →
  is_connected n = false ∧ is_connected k' = true
  ∧ ∃ t', cplus_socket_shutdown kernel n t = Done (CPLUS_SUCCESS, t') ∧ calls t' = calls t.
Proof.
  unfold cplus_socket_accept. intros E. assert (is_connected n = false ∧ is_connected k' = true ∧ fd n ≠ INVALID_SOCKET) as (H1 & H2 & H3).
  { destruct (INVALID_SOCKET =? fd k); [done|]. crun_in E. destruct (ready_to_recv kernel (fd k) timeout s) as [[r s1]| | |]; try done.
    destruct (negb (CPLUS_SUCCESS =? r)); [done|]. unfold sys_, sys in E. crun_in E.
    destruct (Z.eqb_spec INVALID_SOCKET (ret (kernel (SysAccept (fd k) :: calls s1)))); [done|].
    destruct (socket_initialize_object kernel false (domain k) (style k) (ip_protocol k) _) as [[[n'|] s2]| | |] eqn:En; try done.
    injection E as <- <- <-. split; [|done]. revert En. unfold socket_initialize_object, sys_, sys. crun.
    destruct (_ =? 0); [done|]. destruct (domain_in _); [|unfold discard, set_errno; crun; by destruct (cplus_socket_delete _ _ _) as [[? ?]| | |]].
    destruct (style_in _); [|unfold discard, set_errno; crun; by destruct (cplus_socket_delete _ _ _) as [[? ?]| | |]].
    destruct (ip_protocol_in _); [|unfold discard, set_errno; crun; by destruct (cplus_socket_delete _ _ _) as [[? ?]| | |]].
    by intros [= <- _]. }
  split; [done|]. split; [done|]. unfold cplus_socket_shutdown, shutdown_checks.
  rewrite (proj2 (Z.eqb_neq _ _)) by congruence. rewrite H1. unfold fail. crun. by eexists.
Qed.

(** Code bug: receiving a descriptor when the peer has closed the
    connection reports success and sets nothing. *)
Theorem no_fd_at_end kernel k s :
  fd k ≠ INVALID_SOCKET → ret (kernel (SysRecvmsg (fd k) :: calls s)) = 0 →
  ∃ s', cplus_socket_recv_fd kernel k CPLUS_INFINITE_TIMEOUT s = Done (CPLUS_SUCCESS, None, s').
Proof.
  intros Hf Hr. unfold cplus_socket_recv_fd, socket_recvmsg. rewrite (proj2 (Z.eqb_neq _ _)) by congruence.
  unfold ready_to_recv, ready. rewrite Z.eqb_refl. cbn [negb]. unfold sys. crun. change (CPLUS_SUCCESS =? CPLUS_SUCCESS) with true.
  cbn [negb]. crun. rewrite Hr. by eexists.
Qed.

Lemma print_cut n size t s : size ≤ zlen t → 0 < size → size ≤ Z.of_nat n → text t →
  ∃ b, (∀ buf, length buf = n → print buf size t s = Done (b ++ drop (Z.to_nat size) buf, s)) ∧ length b = Z.to_nat size
    ∧ ∀ r, cstr (b ++ r) = Some (take (Z.to_nat (size - 1)) t).
Proof.
  intros H1 H2 H3 Ht. exists (take (Z.to_nat (size - 1)) t ++ [0]).
  assert (length (take (Z.to_nat (size - 1)) t ++ [0]) = Z.to_nat size) as El.
  { rewrite length_app, length_take. simpl. unfold zlen in H1. lia. }
  split; [|split; [done|]].
  - intros buf Hb. unfold print, cplus_str_printf. rewrite (proj2 (Z.eqb_neq size 0)) by lia.
    unfold zlen. rewrite El, Hb, (proj2 (Z.leb_le _ _)) by lia. done.
  - intros r. rewrite <- app_assoc. apply cstr_app. by apply Forall_take.
Qed.

(** Code bug: of a name of a local socket the structure keeps 40 bytes, and
    the system is given up to 84: for a longer name another file is removed
    before the socket is bound, and again when it is deleted, and the name of
    the socket stays. *)
Theorem long_name_stays `{Inet} kernel k name s :
  domain k = CPLUS_SOCKET_DOMAIN_LOCAL → fd k ≠ INVALID_SOCKET → length (address_bufs k) = 64%nat →
  text name → 40 < zlen name < 85 →
  let kept := take 62 (LOCAL_SOCKET_NAME_PATTERN ++ name) in
  ∃ b r k' s', cplus_socket_bind kernel k (Some name) 0 s = Done (r, k', s') ∧ r = ret (kernel (calls s'))
    ∧ calls s' = SysBind (fd k) (Un b) 110 :: SysUnlink kept :: calls s
    ∧ cstr b = Some (LOCAL_SOCKET_NAME_PATTERN ++ name) ∧ kept ≠ LOCAL_SOCKET_NAME_PATTERN ++ name
    ∧ ∃ s'', cplus_socket_delete kernel k' s' = Done (CPLUS_SUCCESS, s'')
        ∧ calls s'' = Free :: SysUnlink kept :: SysClose (fd k) :: SysShutdown (fd k) SHUT_RDWR :: calls s'.
Proof.
  intros Hd Hf Hl Ht Hn kept. set (t := LOCAL_SOCKET_NAME_PATTERN ++ name) in *.
  assert (Htt : text t) by by apply text_pattern.
  assert (Hlen : zlen t = 22 + zlen name) by (unfold t; by rewrite zlen_app).
  destruct (print_fits 108 (SUN_PATH_SIZE - 1) t s) as (b & Eb & Hb); [unfold SUN_PATH_SIZE; lia|unfold SUN_PATH_SIZE; lia|done|].
  destruct (print_cut 64 (MAX_ADDRESS_SIZE - 1) t s) as (c & Ec & _ & Hc); [unfold MAX_ADDRESS_SIZE; lia|done|unfold MAX_ADDRESS_SIZE; lia|done|].
  specialize (Ec _ Hl). change (Z.to_nat (MAX_ADDRESS_SIZE - 1 - 1)) with 62%nat in Hc. fold kept in Hc.
  set (own := c ++ drop (Z.to_nat (MAX_ADDRESS_SIZE - 1)) (address_bufs k)) in *.
  specialize (Hc (drop (Z.to_nat (MAX_ADDRESS_SIZE - 1)) (address_bufs k))). fold own in Hc.
  assert (Ea : to_socket_addr CPLUS_SOCKET_DOMAIN_LOCAL (Some name) 0 s = Done (Some (Un b, 110), s)).
  { unfold to_socket_addr. simpl. by rewrite (bind_Done _ _ _ _ _ Eb). }
  exists b. eexists _, (set_address own k), _. split.
  { unfold cplus_socket_bind. rewrite (proj2 (Z.eqb_neq _ _)), Hd by congruence. crun. rewrite Ea. cbv iota beta.
    unfold own_name. rewrite Hd, Z.eqb_refl. fold t. rewrite Ec. cbv iota beta.
    unfold text_of, sys_, sys. crun. rewrite Hc. reflexivity. }
  split; [reflexivity|]. split; [reflexivity|]. split; [done|]. split.
  - intros E. assert (length kept = length t) as E' by (by rewrite E). unfold kept in E'. rewrite length_take in E'. unfold zlen in *. lia.
  - unfold cplus_socket_delete, sys, text_of. crun. cbn [fd set_address domain address_bufs].
    rewrite (proj2 (Z.eqb_neq _ _)) by congruence. rewrite Hd. cbn [negb]. rewrite Z.eqb_refl, Hc. eexists. split; reflexivity.
Qed.

(** ** Examples *)

(** Addresses that are their own text, and a system that answers every call with [r]. *)
Definition same_text : Inet := {| inet_pton := λ _ a, Some a; inet_ntop := λ _ b, b |}.
Definition answering (r : Z) : list syscall → reply := λ _, Reply r 0 [] NoAddr NoControl.
Definition quiet : system := System [] 0.

Theorem address_round_trip_witness :
  ∃ sa n, @to_socket_addr same_text CPLUS_SOCKET_DOMAIN_IPV4 (Some [49; 46; 49]) 8080 quiet = Done (Some (sa, n), quiet)
    ∧ @report_addr same_text CPLUS_SOCKET_DOMAIN_IPV4 16 sa = (Some [49; 46; 49], Some 8080).
Proof.
  destruct (@address_round_trip same_text CPLUS_SOCKET_DOMAIN_IPV4 [49; 46; 49] 8080 16 quiet) as (sa & n & E1 & E2).
  - left. split; [reflexivity|]. exists [49; 46; 49]. split; reflexivity.
  - lia.
  - vm_compute. discriminate.
  - exists sa, n. split; [exact E1|exact E2].
Defined.

Theorem wait_takes_its_time_witness :
  (∃ fds sec usec s', ready_to_recv (answering 0) 3 2500 quiet = Done (CPLUS_FAIL, s') ∧ errno s' = ETIMEDOUT
     ∧ calls s' = [SysSelect true 4 fds sec usec] ∧ sec * 1000000 + usec = 2500000)
  ∧ ready_to_send (answering 0) 1024 2500 quiet = Undefined.
Proof.
  split; [|exact (wait_takes_its_time (answering 0) false 1024 2500 quiet ltac:(lia))].
  destruct (wait_takes_its_time (answering 0) true 3 2500 quiet ltac:(lia)) as (fds & sec & usec & s' & E1 & Ec & _ & E2 & _ & E3).
  exists fds, sec, usec, s'. split; [exact E1|]. split; [exact (E3 eq_refl)|]. split; [exact Ec|]. rewrite E2. reflexivity.
Defined.

Definition listener : socket := mkSocket 4 CPLUS_SOCKET_DOMAIN_LOCAL CPLUS_SOCKET_STYLE_STREAM CPLUS_SOCKET_IP_PROTOCOL_NONE false (replicate 64 0).

Theorem accepted_not_shut_down_witness :
  ∃ n k' s', cplus_socket_accept (answering 5) listener CPLUS_INFINITE_TIMEOUT quiet = Done (Some n, k', s')
    ∧ ∃ t', cplus_socket_shutdown (answering 5) n s' = Done (CPLUS_SUCCESS, t') ∧ calls t' = calls s'.
Proof.
  eexists _, _, _. split; [vm_compute; reflexivity|].
  refine (proj2 (proj2 (accepted_not_shut_down (answering 5) listener CPLUS_INFINITE_TIMEOUT quiet _ _ _ _ _))).
  vm_compute. reflexivity.
Defined.

Theorem no_fd_at_end_witness :
  ∃ s', cplus_socket_recv_fd (answering 0) listener CPLUS_INFINITE_TIMEOUT quiet = Done (CPLUS_SUCCESS, None, s').
Proof. apply no_fd_at_end; [discriminate|reflexivity]. Defined.

Definition long_name : list Z := replicate 50 97.

Theorem long_name_stays_witness :
  ∃ r k' s', @cplus_socket_bind same_text (answering 0) listener (Some long_name) 0 quiet = Done (r, k', s')
    ∧ take 62 (LOCAL_SOCKET_NAME_PATTERN ++ long_name) ≠ LOCAL_SOCKET_NAME_PATTERN ++ long_name.
Proof.
  destruct (@long_name_stays same_text (answering 0) listener long_name quiet) as (b & r & k' & s' & E1 & _ & _ & _ & E2 & _).
  - reflexivity.
  - discriminate.
  - reflexivity.
  - repeat constructor; discriminate.
  - vm_compute. split; congruence.
  - exists r, k', s'. split; [exact E1|exact E2].
Defined.

End SocketProps.
