(* ===== verification/EventServer.v ===== *)
(** * EventServer: counting events through an eventfd (src/event_server.c)

    The server makes an eventfd and a task that polls it; clients add to its
    counter, through the descriptor of the server or one they were passed over a
    local socket.  First the constructors and the passing of the descriptor, on
    the functions of Socket.v, which see the system as in there; then the
    counter at work: the polling task and any number of adding threads, a system
    call a step. *)

From S2P Require Import Prelude Zlist Socket.
From stdpp Require Import base numbers list option gmap.
From Stdlib Require Import ZArith Lia.
Open Scope Z_scope.

Module EventServer.
Import Socket.

Definition OBJ_TYPE_SERVER : Z := OBJ_NONE + SYS + 9.
Definition OBJ_TYPE_CLIENT : Z := OBJ_NONE + SYS + 10.
Definition INVALID_FD : Z := -1.
Definition DURATION_FOR_POLL_PROC : Z := 100.
Definition DURATION_FOR_ACCEPT_TASK : Z := 100.
(** ["fd_pass"] and ["RECV_FD"]. *)
Definition DEFAULT_EVENT_SERVER_NAME : list Z := [102; 100; 95; 112; 97; 115; 115].
Definition CHECK_RECV_FD : list Z := [82; 69; 67; 86; 95; 70; 68].
Definition DEFAULT_LISTEN_COUNT : Z := 10.
Definition TIMEOUT_FOR_RECV_PASS_FD_ACK : Z := 5000.
Definition TIMEOUT_FOR_RECV_FD : Z := 3000.

Definition CPLUS_EVENT_SERVER_FLAG_NONE : Z := 0.
Definition CPLUS_EVENT_SERVER_FLAG_CLOEXEC : Z := 1.
Definition CPLUS_EVENT_SERVER_FLAG_NONBLOCK : Z := 2.
Definition CPLUS_EVENT_SERVER_FLAG_SYNC : Z := 4.
Definition EFD_SEMAPHORE : Z := 1.
Definition EFD_NONBLOCK : Z := 2048.
Definition EFD_CLOEXEC : Z := 524288.

Definition has (flag bit : Z) : bool := negb (Z.land flag bit =? 0).

Definition convert_efd_flag (flag : Z) : Z :=
  if flag =? CPLUS_EVENT_SERVER_FLAG_NONE then 0
  else
    let v := 0 in
    let v := if has flag CPLUS_EVENT_SERVER_FLAG_CLOEXEC then Z.lor v EFD_CLOEXEC else v in
    let v := if has flag CPLUS_EVENT_SERVER_FLAG_NONBLOCK then Z.lor v EFD_NONBLOCK else v in
    if has flag CPLUS_EVENT_SERVER_FLAG_SYNC then Z.lor v EFD_SEMAPHORE else v.

(** Which callbacks there are. *)
Record callbacks := Callbacks { on_error : bool; on_timeout : bool; on_read : bool }.

(** A task, and whether it was started. *)
Record event_server := mkServer {
  efd : Z; enable_ipc : bool; skt_server : option socket; accept_task : option bool; init_val : Z; flag : Z;
  start : bool; poll_task : option bool; funcs : callbacks }.
Definition set_efd (d : Z) (s : event_server) := mkServer d (enable_ipc s) (skt_server s) (accept_task s) (init_val s) (flag s) (start s) (poll_task s) (funcs s).
Definition set_socket (k : option socket) (s : event_server) := mkServer (efd s) (enable_ipc s) k (accept_task s) (init_val s) (flag s) (start s) (poll_task s) (funcs s).
Definition set_accept (t : option bool) (s : event_server) := mkServer (efd s) (enable_ipc s) (skt_server s) t (init_val s) (flag s) (start s) (poll_task s) (funcs s).
Definition set_poll (t : option bool) (s : event_server) := mkServer (efd s) (enable_ipc s) (skt_server s) (accept_task s) (init_val s) (flag s) (start s) t (funcs s).
Definition set_start (b : bool) (s : event_server) := mkServer (efd s) (enable_ipc s) (skt_server s) (accept_task s) (init_val s) (flag s) b (poll_task s) (funcs s).

Record event_client := mkClient { server_efd : Z; skt_client : option socket }.

Section event_server.
Context `{Inet} (kernel : list syscall → reply).

(** ** Making and deleting

    [eventfd]: the answer of the system to an initial value and flags;
    [tasks]: whether the polling and the accepting task can be made. *)

Definition delete_socket (k : option socket) : C system unit :=
  match k with Some k => cplus_socket_delete kernel k;; mret tt | None => mret tt end.

(** The stops of the two tasks (Task.v) come before the socket is deleted and
    before the eventfd is closed. *)
Definition cplus_event_server_delete (s : event_server) : C system Z :=
  delete_socket (skt_server s);;
  (if negb (INVALID_FD =? efd s) then sys kernel (SysClose (efd s));; mret tt else mret tt);;
  sys kernel Free;;
  mret CPLUS_SUCCESS.

Definition server_error (s : event_server) : C system (option event_server) := cplus_event_server_delete s;; mret None.

(** Both tasks are started, those there are. *)
Definition started (s : event_server) : event_server :=
  set_poll ((λ _, true) <$> poll_task s) (set_accept ((λ _, true) <$> accept_task s) s).

(** The local socket and its task, with [enable_ipc]. *)
Definition open_ipc (accept_made : bool) (s : event_server) (k : event_server → C system (option event_server)) : C system (option event_server) :=
  if enable_ipc s then
    x ← cplus_socket_new kernel STREAM_LOCAL;
    match x with
    | None => server_error s
    | Some x =>
        cplus_socket_setopt_reuse_addr kernel x true;;
        '(r, x) ← cplus_socket_bind kernel x (Some DEFAULT_EVENT_SERVER_NAME) 0;
        let s := set_socket (Some x) s in
        if negb (CPLUS_SUCCESS =? r) then server_error s
        else
          l ← cplus_socket_listen kernel x DEFAULT_LISTEN_COUNT;
          if negb (CPLUS_SUCCESS =? l) then server_error s
          else if accept_made then k (set_accept (Some false) s) else server_error s
    end
  else k s.

Record cplus_event_server_config := Config {
  config_ipc : bool; config_init : Z; config_flag : Z; config_start : bool }.

Definition event_server_initialize_object (config : cplus_event_server_config) (cb : callbacks)
    (eventfd : Z → Z → Z) (tasks : bool * bool) : C system (option event_server) :=
  m ← sys_ kernel Malloc;
  if m =? 0 then mret None
  else
    let d := eventfd (config_init config) (convert_efd_flag (config_flag config)) in
    let s := mkServer d (config_ipc config) None None (config_init config) (config_flag config) (config_start config) None cb in
    if INVALID_FD =? d then server_error s
    else if negb tasks.1 then server_error s
    else
      open_ipc tasks.2 (set_poll (Some false) s) (λ s, mret (Some (if start s then started s else s))).

Definition cplus_event_server_new (init flag : Z) (cb : callbacks) (eventfd : Z → Z → Z) (tasks : bool * bool) : C system (option event_server) :=
  event_server_initialize_object (Config false init flag false) cb eventfd tasks.
Definition cplus_event_server_new_config (config : cplus_event_server_config) (cb : callbacks) (eventfd : Z → Z → Z) (tasks : bool * bool)
    : C system (option event_server) :=
  event_server_initialize_object config cb eventfd tasks.

Definition cplus_event_server_start (s : event_server) : Z * event_server :=
  if negb (start s) then (CPLUS_SUCCESS, set_start true (started s)) else (CPLUS_SUCCESS, s).

Definition cplus_event_server_get_efd (s : event_server) : Z := efd s.
Definition cplus_event_server_check (type : Z) : bool := type =? OBJ_TYPE_SERVER.
Definition cplus_event_client_check (type : Z) : bool := type =? OBJ_TYPE_CLIENT.

(** A turn of the accepting task. *)
Definition accept_proc (s : event_server) (listening : socket) : C system socket :=
  '(k, listening) ← cplus_socket_accept kernel listening CPLUS_INFINITE_TIMEOUT;
  match k with
  | Some k =>
      cplus_socket_send_fd kernel k (efd s) None 0;;
      cplus_socket_recv kernel k true 32 TIMEOUT_FOR_RECV_PASS_FD_ACK;;
      cplus_socket_delete kernel k;;
      mret listening
  | None => mret listening
  end.

Definition cplus_event_client_delete (c : event_client) : C system Z :=
  delete_socket (skt_client c);; sys kernel Free;; mret CPLUS_SUCCESS.

Definition client_error (c : event_client) : C system (option event_client) := cplus_event_client_delete c;; mret None.

Definition cplus_event_client_attach (s : event_server) : C system (option event_client) :=
  m ← sys_ kernel Malloc;
  if m =? 0 then mret None
  else
    let c := mkClient (efd s) None in
    if INVALID_FD =? server_efd c then client_error c else mret (Some c).

Definition cplus_event_client_connect : C system (option event_client) :=
  m ← sys_ kernel Malloc;
  if m =? 0 then mret None
  else
    k ← cplus_socket_new kernel STREAM_LOCAL;
    match k with
    | None => client_error (mkClient INVALID_FD None)
    | Some k =>
        '(r, k) ← cplus_socket_connect kernel k (Some DEFAULT_EVENT_SERVER_NAME) 0;
        let c := mkClient INVALID_FD (Some k) in
        if negb (CPLUS_SUCCESS =? r) then client_error c
        else
          '(r, d) ← cplus_socket_recv_fd kernel k TIMEOUT_FOR_RECV_FD;
          let recv_fd := default INVALID_FD d in
          if negb (CPLUS_SUCCESS =? r) then client_error c
          else
            n ← cplus_socket_send kernel k (Some CHECK_RECV_FD) (zlen CHECK_RECV_FD);
            if negb (zlen CHECK_RECV_FD =? n) then client_error c
            else
              let c := mkClient recv_fd (Some k) in
              if INVALID_FD =? server_efd c then client_error c
              else
                r ← cplus_socket_delete kernel k;
                mret (Some (if CPLUS_SUCCESS =? r then mkClient recv_fd None else c))
    end.

End event_server.

(** ** The counter at work *)

Definition EFD_MAX : Z := 18446744073709551614.

(** Where the polling task is: before [poll], and between [poll] and [read]. *)
Inductive poller := Polling | Readable.

(** An adding thread: outside, before its [write], or back with a result. *)
Inductive adder := Outside | Adding (count : Z) | Added (count : Z) (res : Z).

(** [reported]: what [on_read] was called with; [taken]: what [read] gave. *)
Record world := World {
  counter : Z;
  flags : Z;
  cb : callbacks;
  at_poll : poller;
  adders : list adder;
  reported : list Z;
  taken : list Z;
  errors : nat }.
Definition set_counter (n : Z) (w : world) := World n (flags w) (cb w) (at_poll w) (adders w) (reported w) (taken w) (errors w).
Definition set_at (p : poller) (w : world) := World (counter w) (flags w) (cb w) p (adders w) (reported w) (taken w) (errors w).
Definition set_adder (u : nat) (a : adder) (w : world) := World (counter w) (flags w) (cb w) (at_poll w) (<[u := a]> (adders w)) (reported w) (taken w) (errors w).
Definition report (v : Z) (w : world) := World (counter w) (flags w) (cb w) (at_poll w) (adders w) (s32 v :: reported w) (v :: taken w) (errors w).
Definition count_error (w : world) := World (counter w) (flags w) (cb w) (at_poll w) (adders w) (reported w) (taken w) (S (errors w)).

(** [read] of an eventfd: 1 from a semaphore, else the counter; nothing of 0. *)
Definition efd_read (w : world) : option (Z * world) :=
  if counter w =? 0 then None
  else let v := if has (flags w) EFD_SEMAPHORE then 1 else counter w in Some (v, set_counter (counter w - v) w).

(** A step of [event_poll_proc]. *)
Definition event_poll_proc (w : world) : option world :=
  match at_poll w with
  | Polling => if 0 <? counter w then Some (if on_read (cb w) then set_at Readable w else w) else None
  | Readable =>
      match efd_read w with
      | Some (v, w') => Some (report v (set_at Polling w'))
      | None => if has (flags w) EFD_NONBLOCK then Some (set_at Polling w) else None
      end
  end.

(** [poll] fails. *)
Definition poll_fails (w : world) : option world :=
  match at_poll w with Polling => Some (if on_error (cb w) then count_error w else w) | Readable => None end.

(** The [write] of [cplus_event_client_add_count]. *)
Definition cplus_event_client_add_count (u : nat) (w : world) : option world :=
  match adders w !! u with
  | Some (Adding count) =>
      if count =? 18446744073709551615 then Some (set_adder u (Added count CPLUS_FAIL) w)
      else if counter w + count <=? EFD_MAX then Some (set_adder u (Added count CPLUS_SUCCESS) (set_counter (counter w + count) w))
      else if has (flags w) EFD_NONBLOCK then Some (set_adder u (Added count CPLUS_FAIL) w)
      else None
  | _ => None
  end.

Inductive label := Call (u : nat) (count : Z) | Write (u : nat) | Poll | PollError.

Definition exec (l : label) (w : world) : option world :=
  match l with
  | Call u count =>
      match adders w !! u with
      | Some Outside | Some (Added _ _) => Some (set_adder u (Adding (u64 count)) w)
      | _ => None
      end
  | Write u => cplus_event_client_add_count u w
  | Poll => event_poll_proc w
  | PollError => poll_fails w
  end.

Fixpoint run (ls : list label) (w : world) : option (world * list (Z * Z)) :=
  match ls with
  | [] => Some (w, [])
  | l :: ls =>
      w1 ← exec l w;
      '(w2, log) ← run ls w1;
      Some (w2, match l with
                | Write u => match adders w1 !! u with Some (Added c r) => [(c, r)] | _ => [] end
                | _ => []
                end ++ log)
  end.

(** A server that was started, and [n] threads with clients of it. *)
Definition running (s : event_server) (n : nat) : world :=
  World (init_val s) (convert_efd_flag (flag s)) (funcs s) Polling (replicate n Outside) [] [] 0.

End EventServer.
