(* ===== verification/EventServerProps.v ===== *)
(** * EventServerProps: no event is lost on the way

    What clients add is what the server reads and the counter still holds; the
    callback sees it, but for the narrowing to 32 bits; a client that connects
    has the descriptor it was passed; and what its deletion leaves open. *)

From S2P Require Import Prelude Zlist Stdio Memmgr Semaphore Socket EventServer.
From stdpp Require Import base numbers list option sets.
From Stdlib Require Import ZArith Lia.
Open Scope Z_scope.

Module EventServerProps.
Import Socket EventServer.

(** ** The account of the counter *)

Definition put_in (x : Z * Z) : Z := if x.2 =? CPLUS_SUCCESS then x.1 else 0.

Definition adding_ok (a : adder) : Prop := match a with Adding c => 0 ≤ c < 18446744073709551616 | _ => True end.

Record ok (fl : Z) (w : world) : Prop := Ok {
  ok_flags : flags w = fl;
  ok_counter : 0 ≤ counter w ≤ EFD_MAX;
  ok_adders : Forall adding_ok (adders w);
  ok_reported : reported w = s32 <$> taken w;
  ok_taken : Forall (λ v, 0 < v ≤ EFD_MAX ∧ (has fl EFD_SEMAPHORE = true → v = 1)) (taken w) }.

(** What has gone through the counter. *)
Definition balance (w : world) : Z := counter w + Semaphore.total id (taken w).

Lemma poll_kept fl w w' : ok fl w → event_poll_proc w = Some w' → ok fl w' ∧ balance w' = balance w.
Proof.
  intros [Hf Hc Ha Hr Ht] E. unfold event_poll_proc in E. destruct (at_poll w).
  - destruct (0 <? counter w); [|done]. injection E as <-. by destruct (on_read (cb w)).
  - unfold efd_read in E. destruct (Z.eqb_spec (counter w) 0).
    + destruct (has (flags w) EFD_NONBLOCK); [|done]. by injection E as <-.
    + injection E as <-. rewrite Hf. unfold balance. simpl. split; [|lia].
      split; simpl; [done|destruct (has fl EFD_SEMAPHORE); lia|done|by rewrite Hr|].
      constructor; [|done]. destruct (has fl EFD_SEMAPHORE); (split; [lia|done]).
Qed.

(** A step, and what it completes. *)
Definition completed (l : label) (w : world) : list (Z * Z) :=
  match l with Write u => match adders w !! u with Some (Added c r) => [(c, r)] | _ => [] end | _ => [] end.

Lemma server_exec_kept fl l w w' :
  ok fl w → exec l w = Some w' → ok fl w' ∧ balance w' = balance w + Semaphore.total put_in (completed l w').
Proof.
  intros Hok E. pose proof Hok as [Hf Hc Ha Hr Ht]. destruct l as [u count|u| |]; simpl in E.
  - destruct (adders w !! u) as [a|] eqn:Ea; [|done].
    assert (w' = set_adder u (Adding (u64 count)) w) as -> by (destruct a; simplify_eq; done).
    split; [|unfold balance; simpl; lia]. split; simpl; try done.
    apply Forall_insert; [done|]. pose proof (u64_range count). simpl. lia.
  - unfold cplus_event_client_add_count in E. destruct (adders w !! u) as [[|count|]|] eqn:Ea; try done.
    assert (0 ≤ count < 18446744073709551616) as Hcount by (by apply (Forall_lookup_1 _ _ _ _ Ha Ea)).
    pose proof (lookup_lt_Some _ _ _ Ea) as Hu.
    assert (∀ n r, 0 ≤ n ≤ EFD_MAX → w' = set_adder u (Added count r) (set_counter n w) →
      n = counter w + put_in (count, r) → ok fl w' ∧ balance w' = balance w + Semaphore.total put_in (completed (Write u) w')) as G.
    { intros n r Hn -> En. split.
      - split; simpl; try done. by apply Forall_insert.
      - unfold balance. simpl. rewrite list_lookup_insert_eq by done. simpl. lia. }
    assert (set_counter (counter w) w = w) as Hw by by destruct w.
    destruct (count =? 18446744073709551615).
    { injection E as <-. eapply (G (counter w) CPLUS_FAIL); [done|by rewrite Hw|]. unfold put_in. simpl. lia. }
    destruct (Z.leb_spec (counter w + count) EFD_MAX).
    { injection E as <-. eapply (G (counter w + count) CPLUS_SUCCESS); [lia|done|done]. }
    destruct (has (flags w) EFD_NONBLOCK); [|done]. injection E as <-.
    eapply (G (counter w) CPLUS_FAIL); [done|by rewrite Hw|]. unfold put_in. simpl. lia.
  - destruct (poll_kept fl w w' Hok E). simpl. split; [done|lia].
  - unfold poll_fails in E. destruct (at_poll w); [|done]. injection E as <-.
    destruct (on_error (cb w)); unfold balance; simpl; (split; [done|lia]).
Qed.

Lemma server_run_kept fl ls w w' log :
  ok fl w → run ls w = Some (w', log) → ok fl w' ∧ balance w' = balance w + Semaphore.total put_in log.
Proof.
  revert w w' log. induction ls as [|l ls IH]; intros w w' log Hok; simpl; [intros [= <- <-]; simpl; split; [done|lia]|].
  destruct (exec l w) as [w1|] eqn:E1; [|done]. simpl.
  destruct (run ls w1) as [[w2 log']|] eqn:E2; [|done]. simpl. intros [= <- <-].
  destruct (server_exec_kept fl l w w1 Hok E1) as [Hok1 Hb1]. destruct (IH _ _ _ Hok1 E2) as [Hok2 Hb2]. split; [done|].
  rewrite Semaphore.total_app. fold (completed l w1). lia.
Qed.

Lemma running_ok s n : 0 ≤ init_val s < 4294967296 → ok (convert_efd_flag (flag s)) (running s n).
Proof. intros H. split; simpl; [done|unfold EFD_MAX; lia|by apply Forall_replicate|done|done]. Qed.

(** C29: no event is lost or made up.  Whatever the polling task and any number of
    adding threads do, and in which order: what was there at first and what the
    calls that succeeded added is what the server has read and what the counter
    still holds; a server with the flag for it reads one at a time; the callback
    was called once for every read, with the value read, as an [int32_t]. *)
Theorem counts_accounted s n ls w log :
  0 ≤ init_val s < 4294967296 → run ls (running s n) = Some (w, log) →
  init_val s + Semaphore.total put_in log = Semaphore.total id (taken w) + counter w
  ∧ 0 ≤ counter w ≤ EFD_MAX ∧ reported w = s32 <$> taken w
  ∧ Forall (λ v, 0 < v ∧ (has (convert_efd_flag (flag s)) EFD_SEMAPHORE = true → v = 1)) (taken w).
Proof.
  intros Hi Hr. destruct (server_run_kept _ ls _ w log (running_ok s n Hi) Hr) as [[Hf Hc Ha Hrep Ht] Hb].
  unfold balance in Hb. simpl in Hb. split_and!; [lia|lia|lia|done|]. eapply Forall_impl; [exact Ht|]. simpl. intros v [? ?]. split; [lia|done].
Qed.

(** the server gets on: when there is something in the counter and a
    callback, two steps of the polling task report it, all of it or one. *)
Theorem poll_reports s n ls w log :
  0 ≤ init_val s < 4294967296 → run ls (running s n) = Some (w, log) → on_read (cb w) = true → 0 < counter w →
  ∃ w', run (match at_poll w with Polling => [Poll; Poll] | Readable => [Poll] end) w = Some (w', [])
    ∧ at_poll w' = Polling
    ∧ let v := if has (convert_efd_flag (flag s)) EFD_SEMAPHORE then 1 else counter w in
      reported w' = s32 v :: reported w ∧ counter w' = counter w - v.
Proof.
  intros Hi Hr Hon Hc. destruct (server_run_kept _ ls _ w log (running_ok s n Hi) Hr) as [[Hf _ _ _ _] _].
  assert (∀ w0, counter w0 = counter w → flags w0 = flags w → reported w0 = reported w → at_poll w0 = Readable →
    ∃ w', event_poll_proc w0 = Some w' ∧ at_poll w' = Polling
      ∧ let v := if has (convert_efd_flag (flag s)) EFD_SEMAPHORE then 1 else counter w in
        reported w' = s32 v :: reported w ∧ counter w' = counter w - v) as G.
  { intros w0 E1 E2 E3 E4. unfold event_poll_proc, efd_read. rewrite E4, E1, E2, Hf, (proj2 (Z.eqb_neq _ _)) by lia.
    eexists. split; [reflexivity|]. simpl. by rewrite E3. }
  destruct (at_poll w) eqn:Ep; simpl.
  - destruct (G (set_at Readable w)) as (w' & E & H); [done..|].
    assert (event_poll_proc w = Some (set_at Readable w)) as E1 by (unfold event_poll_proc; by rewrite Ep, (proj2 (Z.ltb_lt _ _) Hc), Hon).
    exists w'. rewrite E1. simpl. rewrite E. done.
  - destruct (G w) as (w' & E & H); [done..|]. exists w'. rewrite E. done.
Qed.

(** Code bug: the value is narrowed to 32 bits for the callback: a count
    that is a multiple of 2^32 is reported as 0, one of 2^31 as negative. *)
Theorem big_count_reported_wrong :
  let s := mkServer 3 false None None 0 CPLUS_EVENT_SERVER_FLAG_NONE true (Some true) (Callbacks false false true) in
  ∃ w w', run [Call 0 4294967296; Write 0; Poll; Poll] (running s 1) = Some (w, [(4294967296, CPLUS_SUCCESS)]) ∧ reported w = [0]
    ∧ run [Call 0 2147483648; Write 0; Poll; Poll] (running s 1) = Some (w', [(2147483648, CPLUS_SUCCESS)]) ∧ reported w' = [-2147483648].
Proof. intros s. eexists _, _. split_and!; vm_compute; reflexivity. Qed.

(** ** Connecting *)

(** A function only adds to the calls. *)
Definition grows {A} (m : C system A) : Prop := ∀ s x s', m s = Done (x, s') → ∀ c, c ∈ calls s → c ∈ calls s'.

Lemma grows_bind {A B} (m : C system A) (f : A → C system B) : grows m → (∀ x, grows (f x)) → grows (m ≫= f).
Proof.
  intros Hm Hf s x s' E c Hc. unfold mbind, C_bind in E. destruct (m s) as [[y s1]| | |] eqn:Em; try done.
  eapply (Hf y); [exact E|]. by eapply Hm.
Qed.
Lemma grows_ret {A} (x : A) : grows (mret x).
Proof. intros s y s' E. unfold mret, C_ret in E. by injection E as _ <-. Qed.
Lemma grows_sys kernel c : grows (sys kernel c).
Proof. intros s x s' E d Hd. unfold sys in E. injection E as _ <-. simpl. set_solver. Qed.
Lemma grows_sys_ kernel c : grows (sys_ kernel c).
Proof. apply grows_bind; [apply grows_sys|intros; apply grows_ret]. Qed.
Lemma grows_errno e : grows (set_errno e).
Proof. intros s x s' E. unfold set_errno, modify in E. by injection E as _ <-. Qed.
Lemma grows_fail {A} e (x : A) : grows (fail e x).
Proof. apply grows_bind; [apply (grows_errno e)|intros; apply grows_ret]. Qed.
Lemma grows_print b n t : grows (print b n t).
Proof. intros s x s' E. unfold print in E. destruct (Memmgr.cplus_str_printf b n t); try done. by injection E as _ <-. Qed.
Lemma grows_text b : grows (text_of b).
Proof. intros s x s' E. unfold text_of, deref in E. destruct (Stdio.cstr b); try done. by injection E as _ <-. Qed.
Lemma grows_undef {A} : grows (@undef system A).
Proof. by intros s x s' E. Qed.

#[local] Hint Resolve @grows_bind @grows_ret grows_sys grows_sys_ grows_errno @grows_fail grows_print grows_text @grows_undef : grows.
#[local] Hint Extern 1 (grows (if _ then _ else _)) => case_match : grows.
#[local] Hint Extern 1 (grows (match _ with _ => _ end)) => case_match : grows.

Lemma grows_delete kernel k : grows (cplus_socket_delete kernel k).
Proof. unfold cplus_socket_delete. auto 20 with grows. Qed.
Lemma grows_ready kernel b d t : grows (ready kernel b d t).
Proof. unfold ready, FD_SET. auto 20 with grows. Qed.
#[local] Hint Resolve grows_delete grows_ready : grows.

Lemma grows_delete_client kernel c : grows (cplus_event_client_delete kernel c).
Proof. unfold cplus_event_client_delete, delete_socket. auto 20 with grows. Qed.

(** A descriptor that was received came with a message. *)
Lemma recv_fd_received kernel k t s d s' :
  cplus_socket_recv_fd kernel k t s = Done (CPLUS_SUCCESS, d, s') → default INVALID_FD d ≠ INVALID_FD →
  fd k ≠ INVALID_SOCKET
  ∧ ∃ cs, got (kernel (SysRecvmsg (fd k) :: cs)) = Rights (default INVALID_FD d) ∧ SysRecvmsg (fd k) ∈ calls s'.
Proof.
  unfold cplus_socket_recv_fd, socket_recvmsg, ready_to_recv. intros E Hd.
  destruct (Z.eqb_spec INVALID_SOCKET (fd k)); [by unfold fail in E; crun_in E|]. split; [done|]. crun_in E.
  destruct (ready kernel true (fd k) t s) as [[r s1]| | |]; try done. destruct (negb (CPLUS_SUCCESS =? r)); [done|].
  unfold sys in E. crun_in E. exists (calls s1). set (x := kernel _) in *.
  destruct (0 <? ret x); [|by injection E as _ <- _].
  destruct (got x); [injection E as _ <- _; done| |done]. injection E as _ <- <-. simpl. split; [done|set_solver].
Qed.

Lemma send_sent kernel k l s s' :
  cplus_socket_send kernel k (Some l) (zlen l) s = Done (zlen l, s') → 0 < zlen l → SysSend (fd k) l ∈ calls s'.
Proof.
  unfold cplus_socket_send, ready_to_send. intros E Hl. rewrite (proj2 (Z.leb_gt _ _)), orb_false_r in E by lia.
  assert (CPLUS_FAIL ≠ zlen l) as Hn by (unfold CPLUS_FAIL; lia).
  destruct (INVALID_SOCKET =? fd k); [unfold fail in E; crun_in E; congruence|]. crun_in E.
  destruct (ready kernel false (fd k) CPLUS_INFINITE_TIMEOUT s) as [[r s1]| | |]; try done.
  destruct (negb (CPLUS_SUCCESS =? r)); [congruence|]. rewrite Z.ltb_irrefl in E. unfold sys_, sys in E. crun_in E.
  injection E as _ <-. simpl. unfold zlen. rewrite Nat2Z.id, firstn_all. set_solver.
Qed.

Lemma delete_closes kernel k s r s' :
  cplus_socket_delete kernel k s = Done (r, s') → fd k ≠ INVALID_SOCKET → r = CPLUS_SUCCESS ∧ SysClose (fd k) ∈ calls s'.
Proof.
  unfold cplus_socket_delete. intros E Hd. rewrite (proj2 (Z.eqb_neq INVALID_SOCKET _)) in E by congruence.
  cbn [negb] in E. unfold sys, text_of in E. crun_in E. simpl in E.
  destruct (CPLUS_SOCKET_DOMAIN_LOCAL =? domain k); [destruct (Stdio.cstr (address_bufs k)); [|done]|];
    injection E as <- <-; simpl; (split; [done|set_solver]).
Qed.

(** a client that connects holds a descriptor the system passed it over a
    connection that was acknowledged and closed, and keeps no socket; it is
    not made otherwise. *)
Theorem connected_client `{Inet} kernel s c s' :
  cplus_event_client_connect kernel s = Done (Some c, s') →
  skt_client c = None ∧ server_efd c ≠ INVALID_FD
  ∧ ∃ k cs, got (kernel (SysRecvmsg k :: cs)) = Rights (server_efd c)
      ∧ SysRecvmsg k ∈ calls s' ∧ SysSend k CHECK_RECV_FD ∈ calls s' ∧ SysClose k ∈ calls s'.
Proof.
  assert (∀ c0 s0 s1, client_error kernel c0 s0 = Done (Some c, s1) → False) as Herr.
  { intros c0 s0 s1. unfold client_error. crun. by destruct (cplus_event_client_delete kernel c0 s0) as [[? ?]| | |]. }
  unfold cplus_event_client_connect. crun. intros E. destruct (sys_ kernel Malloc s) as [[m s1]| | |]; try done.
  destruct (m =? 0); [done|]. destruct (cplus_socket_new kernel STREAM_LOCAL s1) as [[[k0|] s2]| | |]; try done; try (by apply Herr in E).
  destruct (cplus_socket_connect kernel k0 _ 0 s2) as [[[r k] s3]| | |]; try done.
  destruct (negb (CPLUS_SUCCESS =? r)); [by apply Herr in E|].
  destruct (cplus_socket_recv_fd kernel k TIMEOUT_FOR_RECV_FD s3) as [[[r2 d] s4]| | |] eqn:Er; try done.
  destruct (Z.eqb_spec CPLUS_SUCCESS r2) as [<-|]; cbn [negb] in E; [|by apply Herr in E].
  destruct (cplus_socket_send kernel k _ _ s4) as [[n s5]| | |] eqn:Es; try done.
  destruct (Z.eqb_spec (zlen CHECK_RECV_FD) n) as [<-|]; cbn [negb] in E; [|by apply Herr in E].
  cbn [server_efd] in E. destruct (Z.eqb_spec INVALID_FD (default INVALID_FD d)) as [|Hd]; [by apply Herr in E|].
  destruct (cplus_socket_delete kernel k s5) as [[r3 s6]| | |] eqn:Ed; try done.
  destruct (recv_fd_received _ _ _ _ _ _ Er) as (Hk & cs & Hg & Hin); [congruence|].
  destruct (delete_closes _ _ _ _ _ Ed Hk) as [-> Hclose]. rewrite Z.eqb_refl in E. injection E as <- <-.
  split; [done|]. split; [simpl; congruence|]. exists (fd k), cs. split; [done|].
  assert (grows (cplus_socket_send kernel k (Some CHECK_RECV_FD) (zlen CHECK_RECV_FD))) as Hgs
    by (unfold cplus_socket_send, ready_to_send; auto 20 with grows).
  split_and!; [|by eapply grows_delete, send_sent|done]. eapply grows_delete; [done|]. by eapply Hgs.
Qed.

(** Code bug: the deletion of a client that connected leaves the descriptor
    it was passed open: it asks the system for nothing but the memory. *)
Theorem deleted_client_leaks kernel c s :
  skt_client c = None → ∃ s', cplus_event_client_delete kernel c s = Done (CPLUS_SUCCESS, s') ∧ calls s' = Free :: calls s.
Proof. intros E. unfold cplus_event_client_delete, delete_socket, sys. rewrite E. crun. by eexists. Qed.

(** ** Examples *)

Definition example_server : event_server :=
  mkServer 3 false None None 2 CPLUS_EVENT_SERVER_FLAG_NONE true (Some true) (Callbacks false false true).
Definition adds : list label := [Call 0 5; Call 1 7; Write 1; Poll; Write 0; Poll; Call 1 1; Write 1].
Definition after_adds : world := World 1 0 (Callbacks false false true) Polling [Added 5 CPLUS_SUCCESS; Added 1 CPLUS_SUCCESS] [14] [14] 0.

Theorem counts_accounted_witness :
  run adds (running example_server 2) = Some (after_adds, [(7, CPLUS_SUCCESS); (5, CPLUS_SUCCESS); (1, CPLUS_SUCCESS)])
  ∧ 2 + Semaphore.total put_in [(7, CPLUS_SUCCESS); (5, CPLUS_SUCCESS); (1, CPLUS_SUCCESS)]
    = Semaphore.total id (taken after_adds) + counter after_adds.
Proof.
  split; [vm_compute; reflexivity|].
  refine (proj1 (counts_accounted example_server 2 adds after_adds _ _ _)); [simpl; lia|vm_compute; reflexivity].
Defined.

Theorem poll_reports_witness :
  ∃ w', run [Poll; Poll] after_adds = Some (w', []) ∧ reported w' = [1; 14].
Proof.
  destruct (poll_reports example_server 2 adds after_adds [(7, CPLUS_SUCCESS); (5, CPLUS_SUCCESS); (1, CPLUS_SUCCESS)])
    as (w' & E1 & _ & E2 & _); [simpl; lia|vm_compute; reflexivity|reflexivity|reflexivity|].
  exists w'. split; [exact E1|]. rewrite E2. vm_compute. reflexivity.
Defined.

(** A system that passes descriptor 9. *)
Definition passing : list syscall → reply := λ cs,
  match cs with
  | SysSocket _ _ _ :: _ => Reply 5 0 [] NoAddr NoControl
  | SysRecvmsg _ :: _ => Reply 1 0 [] NoAddr (Rights 9)
  | SysSend _ l :: _ => Reply (zlen l) 0 [] NoAddr NoControl
  | (Malloc | SysSelect _ _ _ _ _) :: _ => Reply 1 0 [] NoAddr NoControl
  | _ => Reply 0 0 [] NoAddr NoControl
  end.
Definition no_addresses : Inet := {| inet_pton := λ _ _, None; inet_ntop := λ _ b, b |}.

Theorem connected_client_witness :
  ∃ s', @cplus_event_client_connect no_addresses passing (System [] 0) = Done (Some (mkClient 9 None), s')
    ∧ ∃ k, SysSend k CHECK_RECV_FD ∈ calls s' ∧ SysClose k ∈ calls s'.
Proof.
  eexists. split; [vm_compute; reflexivity|].
  edestruct (@connected_client no_addresses passing (System [] 0) (mkClient 9 None)) as (_ & _ & k & cs & _ & _ & H1 & H2);
    [vm_compute; reflexivity|]. exists k. split; [exact H1|exact H2].
Defined.

Theorem deleted_client_leaks_witness :
  ∃ s', cplus_event_client_delete passing (mkClient 9 None) (System [] 0) = Done (CPLUS_SUCCESS, s') ∧ calls s' = [Free].
Proof. exact (deleted_client_leaks passing (mkClient 9 None) (System [] 0) eq_refl). Defined.

End EventServerProps.
