(* ===== verification/Syslog.v ===== *)
(** * Syslog: messages to the terminal and to a file (src/syslog.c)

    A logger prints messages of a high enough level to [stdout] and keeps them,
    in blocks of a memory pool, on a list that a task writes to a file once a
    second.  The list and the pool are used through their specifications
    (LlistSpec.v, Mempool.v); a call that breaks their contract is undefined.
    Every function works between [cplus_crit_sect_enter] and
    [cplus_crit_sect_exit] on [message_sect], so each call of a thread and each
    turn of the task is one step.  What [vsnprintf] makes of the format and the
    arguments, and the local time, are inputs. *)

From S2P Require Import Prelude Zlist Stdio Memmgr Systime Mempool LlistSpec.
From stdpp Require Import base numbers list option gmap strings.
From Stdlib Require Import ZArith Lia.
Import Stdio Memmgr Systime.
Open Scope Z_scope.

Module Syslog.

Definition OBJ_TYPE : Z := OBJ_NONE + SYS + 4.
Definition MAX_PROGRAM_NAME_SIZE : Z := 31.
Definition MAX_FILE_PATH_SIZE : Z := 127.
Definition MAX_FILE_FOLDER_PATH_SIZE : Z := 31.
Definition MAX_MESSAGE_BUFFER_SIZE : Z := 1023.
Definition MAX_MESSAGE_COUNT : Z := 512.
Definition MAX_DEBUG_LEVEL_ENVNAME_SIZE : Z := 63.
Definition ENOTSUP : Z := 95.

(** [CPLUS_DEBUG_LEVEL]. *)
Definition LEVEL_NONE : Z := 0.
Definition LEVEL_FATAL : Z := 1.
Definition LEVEL_ERROR : Z := 2.
Definition LEVEL_WARN : Z := 3.
Definition LEVEL_INFO : Z := 4.
Definition LEVEL_DEBUG : Z := 5.
Definition LEVEL_TRACE : Z := 6.

Definition bytes (s : string) : list Z := (λ c, Z.of_N (Ascii.N_of_ascii c)) <$> String.list_ascii_of_string s.
Definition NL : Z := 10.
Definition ESC : Z := 27.
Definition colored (code : string) (s : list Z) : list Z :=
  ESC :: bytes code ++ s ++ ESC :: bytes "[0m".
Definition RED : list Z → list Z := colored "[31m".
Definition GREEN : list Z → list Z := colored "[32m".
Definition YELLOW : list Z → list Z := colored "[33m".
Definition BLUE : list Z → list Z := colored "[36m".
Definition PURPLE : list Z → list Z := colored "[35m".

Definition debug_level_strings : list (list Z) :=
  bytes <$> [""; "FATAL"; "ERROR"; "WARN "; "INFO "; "DEBUG"; "TRACE"]%string.
Definition debug_level_color_strings : list (list Z) :=
  [bytes ""; RED (bytes "FATAL"); RED (bytes "ERROR"); PURPLE (bytes "WARN "); BLUE (bytes "INFO ");
   bytes "DEBUG"; bytes "TRACE"].
Definition month_strings : list (list Z) :=
  bytes <$> ["Jan"; "Feb"; "Mar"; "Apr"; "May"; "Jun"; "Jul"; "Aug"; "Sep"; "Oct"; "Nov"; "Dec"]%string.

(** [%0nd] of a [uint32_t]. *)
Definition fmt_0d (n : nat) (v : Z) : list Z := pad n (fmt_d (s32 v)).

Definition clock_text (st : systime) : list Z :=
  fmt_0d 2 (hours st) ++ 58 :: fmt_0d 2 (minutes st) ++ 58 :: fmt_0d 2 (second st)
  ++ 46 :: fmt_0d 3 (millisecond st) ++ fmt_0d 3 (microsecond st).
(** [LOG_TIMESTAMP_FORMAT]. *)
Definition LOG_TIMESTAMP (month level : list Z) (st : systime) : list Z :=
  month ++ 32 :: fmt_0d 2 (day_of_month st) ++ 32 :: clock_text st ++ 32 :: level ++ [32].
(** [DEBUD_COLOR_MSG_FORMAT] and [DEBUD_MSG_FORMAT]. *)
Definition DEBUD_COLOR_MSG (st : systime) (name level : list Z) : list Z :=
  GREEN (91 :: clock_text st ++ bytes "] ") ++ YELLOW name ++ bytes ": " ++ level ++ [32].
Definition DEBUD_MSG (st : systime) (name level : list Z) : list Z :=
  91 :: clock_text st ++ bytes "] " ++ name ++ bytes ": " ++ level ++ [32].

(** ** The logger *)

(** What does not change once the logger is made. *)
Record syslog := mkSyslog {
  debug_level : Z;
  logger_level : Z;
  enable_color : bool;
  program_name : list Z;
  file_folder_path : list Z;
  mem_start : Z }.                         (* of the pool of blocks *)

Record world := World {
  message_list : LlistSpec.view;
  message_buffer_pool : list Z;            (* the free blocks, by index *)
  contents : gmap Z (list Z);              (* of the blocks, by index *)
  stdout : list Z;
  written : list (list Z * list Z);        (* what was written to which file, in order *)
  errno : Z }.

Definition set_list (v : LlistSpec.view) (w : world) := World v (message_buffer_pool w) (contents w) (stdout w) (written w) (errno w).
Definition set_free (l : list Z) (w : world) := World (message_list w) l (contents w) (stdout w) (written w) (errno w).
Definition set_contents (i : Z) (b : list Z) (w : world) := World (message_list w) (message_buffer_pool w) (<[i := b]> (contents w)) (stdout w) (written w) (errno w).
Definition emit (b : list Z) (w : world) := World (message_list w) (message_buffer_pool w) (contents w) (stdout w ++ b) (written w) (errno w).
Definition file_write (path b : list Z) (w : world) := World (message_list w) (message_buffer_pool w) (contents w) (stdout w) (written w ++ [(path, b)]) (errno w).
Definition set_errno (e : Z) (w : world) := World (message_list w) (message_buffer_pool w) (contents w) (stdout w) (written w) e.

(** *** Blocks and the list *)

Definition block_size : Z := MAX_MESSAGE_BUFFER_SIZE + 1.
Definition block_of (s : syslog) (i : Z) : Z := mem_start s + block_size * i.
Definition index_of (s : syslog) (a : Z) : Z := (a - mem_start s) `div` block_size.
Definition block (i : Z) (w : world) : list Z := default (replicate 1024 0) (contents w !! i).

Definition mempool_alloc : C world (option Z) := λ w,
  match Mempool.spec_step MAX_MESSAGE_COUNT block_size Mempool.Alloc (message_buffer_pool w) with
  | Some (b, l) => Done (b, set_free l w)
  | None => Undefined
  end.
Definition mempool_free (i : Z) : C world unit := λ w,
  match Mempool.spec_step MAX_MESSAGE_COUNT block_size (Mempool.Free i) (message_buffer_pool w) with
  | Some (_, l) => Done (tt, set_free l w)
  | None => Undefined
  end.
Definition list_call (c : LlistSpec.command) : C world Z := λ w,
  let '(r, _, v) := LlistSpec.spec (message_list w) c in Done (r, set_list v w).
(** The list has room for [MAX_MESSAGE_COUNT] nodes. *)
Definition push_front (a : Z) : C world Z := λ w,
  if zlen (LlistSpec.items (message_list w)) <? MAX_MESSAGE_COUNT
  then list_call (LlistSpec.PushFront a) w else Done (CPLUS_FAIL, w).

(** [cplus_str_printf(block + off, size, ...)]: the length of the text. *)
Definition print_at (i off size : Z) (text : list Z) : C world Z := λ w,
  let b := block i w in
  match cplus_str_printf (drop (Z.to_nat off) b) size text with
  | Done b' => Done (zlen text, set_contents i (take (Z.to_nat off) b ++ b') w)
  | Aborts => Aborts | Hangs => Hangs | Undefined => Undefined
  end.

(** The text in a block. *)
Definition text_of (i : Z) : C world (list Z) := deref (λ w, cstr (block i w)).

(** *** Logging *)

Definition syslog_logger_print (s : syslog) (debug_lev : Z) (msg : Z) (stime : systime) : C world Z :=
  n ← list_call LlistSpec.GetSize;
  if n <? MAX_MESSAGE_COUNT then
    b ← mempool_alloc;
    match b with
    | None => mret 0
    | Some i =>
        month ← deref (λ _, if month stime <? 1 then None else month_strings !! Z.to_nat (month stime - 1));
        level ← deref (λ _, debug_level_strings !! Z.to_nat debug_lev);
        len ← print_at i 0 MAX_MESSAGE_BUFFER_SIZE (LOG_TIMESTAMP month level stime);
        m ← text_of msg;
        len' ← print_at i len (MAX_MESSAGE_BUFFER_SIZE - len) m;
        push_front (block_of s i);;
        mret (len + len')
    end
  else mret 0.

(** The last byte of the format decides, and an empty one has none. *)
Definition append_new_line (str : list Z) : C world unit :=
  match last str with
  | None => undef
  | Some c => if c =? NL then mret tt else modify (emit [NL])
  end.

Definition debug_header (s : syslog) (debug_lev : Z) (st : systime) : option (list Z) :=
  if enable_color s
  then level ← debug_level_color_strings !! Z.to_nat debug_lev; Some (DEBUD_COLOR_MSG st (program_name s) level)
  else level ← debug_level_strings !! Z.to_nat debug_lev; Some (DEBUD_MSG st (program_name s) level).

(** The part for the file: the block with the message. *)
Definition log_to_list (s : syslog) (debug_lev : Z) (text : list Z) (stime : systime) : C world (option Z) :=
  if debug_lev <=? logger_level s then
    b ← mempool_alloc;
    match b with
    | Some j =>
        print_at j 0 MAX_MESSAGE_BUFFER_SIZE text;;
        syslog_logger_print s debug_lev j stime;;
        mret (Some j)
    | None => mret None
    end
  else mret None.

(** The part for the terminal. *)
Definition log_to_stdout (s : syslog) (debug_lev : Z) (format text : list Z) (b : option Z) (st : systime) :
    C world unit :=
  if debug_lev <=? debug_level s then
    h ← deref (λ _, debug_header s debug_lev st);
    modify (emit h);;
    m ← match b with Some j => text_of j | None => mret text end;
    modify (emit m);;
    append_new_line format
  else mret tt.

(** [text]: what the format and the arguments print; the clock is read for the
    list and for the terminal. *)
Definition DEBUG_PRINT (s : syslog) (debug_lev : Z) (format text : list Z) (stime st : systime) : C world Z :=
  if (LEVEL_NONE =? debug_level s) && (LEVEL_NONE =? logger_level s)
  then modify (set_errno ENOTSUP);; mret (-1)
  else
    b ← log_to_list s debug_lev text stime;
    log_to_stdout s debug_lev format text b st;;
    match b with Some j => mempool_free j | None => mret tt end;;
    mret CPLUS_SUCCESS.

Definition cplus_syslog_fatal (s : syslog) := DEBUG_PRINT s LEVEL_FATAL.
Definition cplus_syslog_error (s : syslog) := DEBUG_PRINT s LEVEL_ERROR.
Definition cplus_syslog_warn (s : syslog) := DEBUG_PRINT s LEVEL_WARN.
Definition cplus_syslog_info (s : syslog) := DEBUG_PRINT s LEVEL_INFO.
Definition cplus_syslog_debug (s : syslog) := DEBUG_PRINT s LEVEL_DEBUG.
Definition cplus_syslog_trace (s : syslog) := DEBUG_PRINT s LEVEL_TRACE.

Definition cplus_syslog_get_debug_level (s : syslog) : Z := debug_level s.
Definition cplus_syslog_get_logger_level (s : syslog) : Z := logger_level s.

(** *** The task *)

(** The name of the file of the day, as much as fits in [file_path]. *)
Definition file_path (s : syslog) (st : systime) : list Z :=
  take (Z.to_nat (MAX_FILE_PATH_SIZE - 1))
    (take 32 (file_folder_path s) ++ 47 :: take 32 (program_name s) ++ 95 :: fmt_0d 2 (month st)
     ++ fmt_0d 2 (day_of_month st) ++ fmt_0d 4 (year st) ++ bytes ".log").

(** [while ((msg_buf = cplus_llist_pop_back(message_list)))]; [put] is how much of
    the bytes [write] takes. *)
Fixpoint flush (fuel : nat) (s : syslog) (path : list Z) (put : list Z → list Z) : C world unit :=
  match fuel with
  | O => hang
  | S fuel =>
      a ← list_call LlistSpec.PopBack;
      if a =? 0 then mret tt
      else
        m ← text_of (index_of s a);
        modify (file_write path (put m));;
        match last m with
        | None => undef
        | Some c => if c =? NL then mret tt else modify (file_write path (put [NL]))
        end;;
        mempool_free (index_of s a);;
        flush fuel s path put
  end.

(** [opened]: whether the file can be opened. *)
Definition custom_logger_executer (s : syslog) (stime : systime) (opened : bool) (put : list Z → list Z) :
    C world unit :=
  n ← list_call LlistSpec.GetSize;
  if 0 <? n then
    if opened then flush (S (Z.to_nat n)) s (file_path s stime) put else mret tt
  else mret tt.

(** ** Making and deleting a logger *)

(** The parts a logger holds. *)
Record parts := Parts { worker : bool; buffer_pool : bool; msg_list : bool; msg_sect : bool }.
Inductive release := StopTask | DeletePool | DeleteList | DeleteSect | FreeObject.

(** What [cplus_syslog_delete] releases. *)
Definition cplus_syslog_delete (p : parts) : list release :=
  (if worker p then [StopTask] else []) ++ (if buffer_pool p then [DeletePool] else [])
  ++ (if msg_list p then [DeleteList] else []) ++ (if msg_sect p then [DeleteSect] else []) ++ [FreeObject].

(** [atoi]. *)
Definition atoi (l : list Z) : Z := default 0 (scan_d 32 l).

Definition debug_level_envname (name : list Z) : list Z :=
  take (Z.to_nat MAX_DEBUG_LEVEL_ENVNAME_SIZE) (bytes "cplus_syslog_" ++ name ++ bytes "_debug_level").
Definition logger_level_envname (name : list Z) : list Z :=
  take (Z.to_nat MAX_DEBUG_LEVEL_ENVNAME_SIZE) (bytes "cplus_syslog_" ++ name ++ bytes "_logger_level").

(** What the system gives: memory, the environment, a folder, and the parts. *)
Record system := System {
  memory : bool;
  invocation_name : list Z;
  getenv : list Z → option (list Z);
  mkdir_ok : bool;                         (* made, or there already *)
  can_make : parts;
  pool_start : Z }.

Inductive made := Made (s : syslog) (p : parts) | NotMade (released : list release).

Definition empty_world (out : list Z) (e : Z) : world :=
  World (LlistSpec.View [] 0 false) (seqZ 0 MAX_MESSAGE_COUNT) ∅ out [] e.

(** [None]: no name was given. *)
Definition syslog_initialize_object (y : system) (custom_program_name : option (list Z)) : made :=
  if memory y then
    let name := take (Z.to_nat MAX_PROGRAM_NAME_SIZE) (default (invocation_name y) custom_program_name) in
    if msg_sect (can_make y) then
      let dl := default 4 (atoi <$> getenv y (debug_level_envname name)) in
      let ll := default 0 (atoi <$> getenv y (logger_level_envname name)) in
      let s := mkSyslog dl ll true name (bytes "/tmp/log") (pool_start y) in
      if negb (LEVEL_NONE =? ll) then
        if negb (mkdir_ok y) then NotMade (cplus_syslog_delete (Parts false false false true))
        else if negb (buffer_pool (can_make y)) then NotMade (cplus_syslog_delete (Parts false false false true))
        else if negb (msg_list (can_make y)) then NotMade (cplus_syslog_delete (Parts false true false true))
        else if negb (worker (can_make y)) then NotMade (cplus_syslog_delete (Parts false true true true))
        else Made s (Parts true true true true)
      else Made s (Parts false false false true)
    else NotMade (cplus_syslog_delete (Parts false false false false))
  else NotMade [].

Definition cplus_syslog_new (y : system) : made := syslog_initialize_object y None.
Definition cplus_syslog_new_ex (y : system) (name : option (list Z)) : made := syslog_initialize_object y name.
Definition cplus_syslog_check (obj : option Z) : bool :=
  match obj with Some t => t =? OBJ_TYPE | None => false end.

End Syslog.
