(* ===== verification/SyslogProps.v ===== *)
(** * SyslogProps: what happens to a message

    A logger refines a bounded queue: in every run of calls and turns of its task
    the file gets the accepted messages, each once, in the order they were logged
    and ended by a new line, and the terminal gets every message of its level.
    Then what the queue refuses, and what is lost or broken at the edges. *)

From S2P Require Import Prelude Zlist Stdio Memmgr Systime Mempool Llist LlistSpec Syslog.
From stdpp Require Import base numbers list option gmap strings.
From Stdlib Require Import ZArith Lia.
Import Stdio Memmgr Systime Syslog.
Open Scope Z_scope.

Module SyslogProps.

(** ** The abstract logger *)

(** Pending messages, oldest first; the terminal; the writes to files. *)
Record log := Log {
  pending : list (list Z);
  terminal : list Z;
  files : list (list Z * list Z);
  log_errno : Z }.

Definition month_text (st : systime) : list Z := default [] (month_strings !! Z.to_nat (month st - 1)).
Definition level_text (lev : Z) : list Z := default [] (debug_level_strings !! Z.to_nat lev).

(** What is kept of a message for the file. *)
Definition record_of (lev : Z) (st : systime) (text : list Z) : list Z :=
  take 1022 (LOG_TIMESTAMP (month_text st) (level_text lev) st ++ text).

Definition end_line (l : list Z) : list Z := if decide (last l = Some NL) then [] else [NL].
Definition header_of (s : syslog) (lev : Z) (st : systime) : list Z := default [] (debug_header s lev st).

(** One message less than the pool has blocks. *)
Definition room : nat := 511.

Definition spec_log (s : syslog) (lev : Z) (format text : list Z) (t1 t2 : systime) (σ : log) : Z * log :=
  if (LEVEL_NONE =? debug_level s) && (LEVEL_NONE =? logger_level s)
  then (-1, Log (pending σ) (terminal σ) (files σ) ENOTSUP)
  else
    (CPLUS_SUCCESS,
     Log (if (lev <=? logger_level s) && bool_decide (length (pending σ) < room)%nat
          then pending σ ++ [record_of lev t1 text] else pending σ)
         (if lev <=? debug_level s
          then terminal σ ++ header_of s lev t2
               ++ (if lev <=? logger_level s then take 1022 text else text) ++ end_line format
          else terminal σ)
         (files σ) (log_errno σ)).

(** The writes of one message to a file. *)
Definition writes (path m : list Z) : list (list Z * list Z) :=
  (path, m) :: (if decide (last m = Some NL) then [] else [(path, [NL])]).

Definition spec_turn (s : syslog) (st : systime) (opened : bool) (σ : log) : log :=
  if opened
  then Log [] (terminal σ) (files σ ++ concat (writes (file_path s st) <$> pending σ)) (log_errno σ)
  else σ.

(** *** Runs *)

Inductive label :=
| Message (lev : Z) (format text : list Z) (t1 t2 : systime)
| Turn (st : systime) (opened : bool).

Definition exec (s : syslog) (l : label) : C world Z :=
  match l with
  | Message lev format text t1 t2 => DEBUG_PRINT s lev format text t1 t2
  | Turn st opened => custom_logger_executer s st opened id;; mret 0
  end.
Fixpoint run (s : syslog) (ls : list label) : C world (list Z) :=
  match ls with
  | [] => mret []
  | l :: ls => r ← exec s l; rs ← run s ls; mret (r :: rs)
  end.

Definition spec_exec (s : syslog) (l : label) (σ : log) : Z * log :=
  match l with
  | Message lev format text t1 t2 => spec_log s lev format text t1 t2 σ
  | Turn st opened => (0, spec_turn s st opened σ)
  end.
Fixpoint spec_run (s : syslog) (ls : list label) (σ : log) : list Z * log :=
  match ls with
  | [] => ([], σ)
  | l :: ls => let (r, σ) := spec_exec s l σ in let (rs, σ) := spec_run s ls σ in (r :: rs, σ)
  end.

(** What a caller gives: one of the six levels, a format, a text and the time. *)
Definition time_ok (st : systime) : Prop :=
  1 ≤ month st ≤ 12 ∧ 0 ≤ day_of_month st < 32 ∧ 0 ≤ hours st < 24 ∧ 0 ≤ minutes st < 60
  ∧ 0 ≤ second st < 61 ∧ 0 ≤ millisecond st < 1000 ∧ 0 ≤ microsecond st < 1000.
Definition call_ok (l : label) : Prop :=
  match l with
  | Message lev format txt t1 t2 => LEVEL_FATAL ≤ lev ≤ LEVEL_TRACE ∧ format ≠ [] ∧ text txt ∧ time_ok t1
  | Turn _ _ => True
  end.

(** ** The header of a message *)

Definition clean (k : nat) (l : list Z) : bool := forallb (λ c, negb (c =? 0)) l && (length l <=? k)%nat.

Lemma clean_spec k l : clean k l = true → text l ∧ (length l ≤ k)%nat.
Proof.
  unfold clean. rewrite andb_true_iff, forallb_forall, Nat.leb_le. intros [H Hl]. split; [|done].
  apply Forall_forall. intros x Hx. apply list_elem_of_In in Hx. apply H in Hx.
  by destruct (Z.eqb_spec x 0).
Qed.

Lemma fmt_small v n : 0 ≤ v < 1000 → n = 2%nat ∨ n = 3%nat → text (fmt_0d n v) ∧ (length (fmt_0d n v) ≤ 3)%nat.
Proof.
  intros Hv Hn. apply clean_spec.
  assert (H : forallb (λ v, clean 3 (fmt_0d 2 v) && clean 3 (fmt_0d 3 v)) (seqZ 0 1000) = true) by by vm_compute.
  rewrite forallb_forall in H. specialize (H v). rewrite <- list_elem_of_In, elem_of_seqZ, andb_true_iff in H.
  destruct Hn as [-> | ->]; apply H; lia.
Qed.

Lemma month_ok st : time_ok st →
  (if month st <? 1 then None else month_strings !! Z.to_nat (month st - 1)) = Some (month_text st)
  ∧ clean 3 (month_text st) = true.
Proof.
  intros [H _]. rewrite (proj2 (Z.ltb_ge _ _)) by lia. unfold month_text.
  assert (Hn : (Z.to_nat (month st - 1) < 12)%nat) by lia.
  generalize dependent (Z.to_nat (month st - 1)). intros n Hn.
  do 12 (destruct n as [|n]; [by vm_compute|]). lia.
Qed.

Lemma level_ok lev : LEVEL_FATAL ≤ lev ≤ LEVEL_TRACE →
  debug_level_strings !! Z.to_nat lev = Some (level_text lev) ∧ clean 5 (level_text lev) = true.
Proof.
  unfold LEVEL_FATAL, LEVEL_TRACE, level_text. intros H.
  assert (Hn : (Z.to_nat lev < 7)%nat) by lia. generalize dependent (Z.to_nat lev). intros n Hn.
  do 7 (destruct n as [|n]; [by vm_compute|]). lia.
Qed.

Lemma header_ok s lev st : LEVEL_FATAL ≤ lev ≤ LEVEL_TRACE → debug_header s lev st = Some (header_of s lev st).
Proof.
  unfold LEVEL_FATAL, LEVEL_TRACE, header_of, debug_header. intros H.
  assert (Hn : (Z.to_nat lev < 7)%nat) by lia. generalize dependent (Z.to_nat lev). intros n Hn.
  destruct (enable_color s); do 7 (destruct n as [|n]; [done|]); lia.
Qed.

Lemma timestamp_ok lev st : LEVEL_FATAL ≤ lev ≤ LEVEL_TRACE → time_ok st →
  text (LOG_TIMESTAMP (month_text st) (level_text lev) st)
  ∧ (1 ≤ length (LOG_TIMESTAMP (month_text st) (level_text lev) st) ≤ 40)%nat.
Proof.
  intros Hl Ht. destruct (month_ok st Ht) as [_ Hm]. apply clean_spec in Hm as [Hm Hml].
  destruct (level_ok lev Hl) as [_ Hv]. apply clean_spec in Hv as [Hv Hvl].
  destruct Ht as (_ & ? & ? & ? & ? & ? & ?).
  destruct (fmt_small (day_of_month st) 2%nat ltac:(lia) (or_introl eq_refl)) as [? ?].
  destruct (fmt_small (hours st) 2%nat ltac:(lia) (or_introl eq_refl)) as [? ?].
  destruct (fmt_small (minutes st) 2%nat ltac:(lia) (or_introl eq_refl)) as [? ?].
  destruct (fmt_small (second st) 2%nat ltac:(lia) (or_introl eq_refl)) as [? ?].
  destruct (fmt_small (millisecond st) 3%nat ltac:(lia) (or_intror eq_refl)) as [? ?].
  destruct (fmt_small (microsecond st) 3%nat ltac:(lia) (or_intror eq_refl)) as [? ?].
  unfold LOG_TIMESTAMP, clock_text, text in *. split.
  - repeat first [done | apply Forall_nil_2 | apply Forall_app; split | apply Forall_cons; split].
  - repeat (rewrite length_app || cbn [length]). lia.
Qed.

(** ** Blocks *)

Definition sized_blocks (w : world) : Prop := ∀ i, length (block i w) = 1024%nat.

Lemma block_set i j b w : block i (set_contents j b w) = if decide (j = i) then b else block i w.
Proof.
  unfold block, set_contents. cbn [contents]. destruct (decide (j = i)) as [->|Hn].
  - by rewrite lookup_insert_eq.
  - by rewrite lookup_insert_ne.
Qed.

Lemma print_at_run i off size txt w :
  sized_blocks w → 0 ≤ off → 1 ≤ size → off + size ≤ 1024 →
  ∃ rest, print_at i off size txt w =
      Done (zlen txt, set_contents i
        (take (Z.to_nat off) (block i w) ++ take (Z.to_nat (size - 1)) txt ++ 0 :: rest) w)
    ∧ length (take (Z.to_nat off) (block i w) ++ take (Z.to_nat (size - 1)) txt ++ 0 :: rest) = 1024%nat.
Proof.
  intros Hs H0 H1 H2. unfold print_at, cplus_str_printf. pose proof (Hs i) as Hl.
  rewrite (proj2 (Z.eqb_neq size 0)) by lia.
  rewrite (proj2 (Z.leb_le _ _)).
  2: { unfold zlen. rewrite length_app, length_take, length_drop, Hl. cbn [length]. lia. }
  exists (drop (length (take (Z.to_nat (size - 1)) txt ++ [0])) (drop (Z.to_nat off) (block i w))).
  rewrite <- app_assoc. cbn [app]. split; [done|].
  repeat (progress (rewrite ?length_app, ?length_drop, ?length_take; cbn [length])). rewrite Hl. lia.
Qed.

(** A text printed into a block is the text of the block, as much as fits. *)
Lemma print_start i txt w :
  sized_blocks w → text txt →
  ∃ b, print_at i 0 MAX_MESSAGE_BUFFER_SIZE txt w = Done (zlen txt, set_contents i b w)
    ∧ length b = 1024%nat ∧ cstr b = Some (take 1022 txt)
    ∧ take (length (take 1022 txt)) b = take 1022 txt.
Proof.
  intros Hs Ht. destruct (print_at_run i 0 MAX_MESSAGE_BUFFER_SIZE txt w Hs) as (rest & E & Hl);
    [unfold MAX_MESSAGE_BUFFER_SIZE; lia..|].
  change (Z.to_nat (MAX_MESSAGE_BUFFER_SIZE - 1)) with 1022%nat in *. change (Z.to_nat 0) with 0%nat in *.
  eexists. split; [exact E|]. split; [exact Hl|]. split.
  - apply (cstr_app (take 1022 txt) rest). by apply Forall_take.
  - apply (take_app_length (take 1022 txt) (0 :: rest)).
Qed.

(** A second text printed behind the first. *)
Lemma print_behind i h txt w :
  sized_blocks w → text h → text txt → (length h ≤ 40)%nat → take (length h) (block i w) = h →
  ∃ b, print_at i (zlen h) (MAX_MESSAGE_BUFFER_SIZE - zlen h) txt w = Done (zlen txt, set_contents i b w)
    ∧ length b = 1024%nat ∧ cstr b = Some (take 1022 (h ++ txt)).
Proof.
  intros Hs Hh Ht Hl Hb. unfold zlen.
  destruct (print_at_run i (zlen h) (MAX_MESSAGE_BUFFER_SIZE - zlen h) txt w Hs) as (rest & E & Hlen);
    [unfold zlen, MAX_MESSAGE_BUFFER_SIZE; lia..|].
  unfold zlen in *. rewrite Nat2Z.id, Hb in *.
  assert (Z.to_nat (MAX_MESSAGE_BUFFER_SIZE - Z.of_nat (length h) - 1) = 1022 - length h)%nat as Hn
    by (unfold MAX_MESSAGE_BUFFER_SIZE; lia).
  rewrite Hn in *. eexists. split; [exact E|]. split; [exact Hlen|].
  rewrite app_assoc, cstr_app.
  - by rewrite take_app, (take_ge h) by lia.
  - apply Forall_app. split; [done|]. by apply Forall_take.
Qed.

(** ** The state and the abstract logger *)

Definition holds_text (w : world) (i : Z) (m : list Z) : Prop := cstr (block i w) = Some m ∧ m ≠ [].

Record rep (s : syslog) (w : world) (σ : log) (idx : list Z) : Prop := {
  r_start : 0 < mem_start s;
  r_items : LlistSpec.items (message_list w) = block_of s <$> idx;
  r_blocks : idx ++ message_buffer_pool w ≡ₚ seqZ 0 MAX_MESSAGE_COUNT;
  r_texts : Forall2 (holds_text w) idx (rev (pending σ));
  r_sized : sized_blocks w;
  r_room : (length (pending σ) ≤ room)%nat;
  r_out : stdout w = terminal σ ∧ written w = files σ ∧ errno w = log_errno σ }.

Lemma syslog_index s i : index_of s (block_of s i) = i.
Proof.
  unfold index_of, block_of, block_size, MAX_MESSAGE_BUFFER_SIZE.
  rewrite Z.add_simpl_l, Z.mul_comm, Z.div_mul; lia.
Qed.

Section reps.
Context (s : syslog) (w : world) (σ : log) (idx : list Z).
Hypothesis R : rep s w σ idx.

Lemma rep_length : length idx = length (pending σ).
Proof using R. destruct R. rewrite (Forall2_length _ _ _ r_texts0). apply length_rev. Qed.

Lemma rep_free : (length (message_buffer_pool w) + length (pending σ))%nat = 512%nat.
Proof using R.
  pose proof (r_blocks _ _ _ _ R) as H. apply Permutation_length in H.
  rewrite length_app, length_seqZ, rep_length in H. unfold MAX_MESSAGE_COUNT in H. lia.
Qed.

Lemma rep_nodup : NoDup (idx ++ message_buffer_pool w).
Proof using R. rewrite (r_blocks _ _ _ _ R). apply NoDup_seqZ. Qed.

Lemma sl_rep_range i : i ∈ idx ++ message_buffer_pool w → 0 ≤ i < MAX_MESSAGE_COUNT.
Proof using R. rewrite (r_blocks _ _ _ _ R), elem_of_seqZ. lia. Qed.

Lemma rep_size : zlen (LlistSpec.items (message_list w)) = Z.of_nat (length (pending σ)).
Proof using R. rewrite (r_items _ _ _ _ R). unfold zlen. by rewrite length_fmap, rep_length. Qed.

Lemma block_nonnull i : 0 ≤ i → block_of s i ≠ 0.
Proof using R. pose proof (r_start _ _ _ _ R). unfold block_of, block_size, MAX_MESSAGE_BUFFER_SIZE. lia. Qed.

Lemma get_size_run : list_call LlistSpec.GetSize w = Done (Z.of_nat (length (pending σ)), w).
Proof using R. unfold list_call. cbn [LlistSpec.spec]. rewrite rep_size. by destruct w. Qed.

End reps.

(** Texts stay where blocks outside of the list are written. *)
Lemma texts_set idx ms i b w :
  i ∉ idx → Forall2 (holds_text w) idx ms → Forall2 (holds_text (set_contents i b w)) idx ms.
Proof.
  intros Hi. induction 1 as [|j m idx ms [Hj Hm] _ IH]; constructor.
  - split; [|done]. rewrite block_set, decide_False; [done|]. set_solver.
  - apply IH. set_solver.
Qed.

Lemma texts_same idx ms w w' :
  contents w' = contents w → Forall2 (holds_text w) idx ms → Forall2 (holds_text w') idx ms.
Proof.
  intros H F. eapply Forall2_impl; [exact F|]. unfold holds_text, block. intros i m. by rewrite H.
Qed.

Lemma sized_set i b w : sized_blocks w → length b = 1024%nat → sized_blocks (set_contents i b w).
Proof. intros Hs Hb j. rewrite block_set. by destruct (decide (i = j)). Qed.

(** ** A message *)

Definition add_pending (m : list Z) (σ : log) : log :=
  Log (pending σ ++ [m]) (terminal σ) (files σ) (log_errno σ).

Lemma take_take_app (h txt : list Z) : take 1022 (h ++ take 1022 txt) = take 1022 (h ++ txt).
Proof.
  rewrite !take_app, take_take. by rewrite Nat.min_l by lia.
Qed.

Lemma record_nonempty lev st txt : LEVEL_FATAL ≤ lev ≤ LEVEL_TRACE → time_ok st → record_of lev st txt ≠ [].
Proof.
  intros Hl Ht. destruct (timestamp_ok lev st Hl Ht) as [_ [H _]]. unfold record_of.
  destruct (LOG_TIMESTAMP _ _ st); [cbn in H; lia|done].
Qed.

(** The last block is not enough for two: the message is not kept. *)
Lemma rep_no_room s w σ idx j b :
  rep s w σ idx → message_buffer_pool w = [j] → length b = 1024%nat →
  rep s (set_free [j] (set_contents j b (set_free [] w))) σ idx.
Proof.
  intros R Hf Hb. pose proof (rep_nodup _ _ _ _ R) as Hn. rewrite Hf in Hn.
  apply NoDup_app in Hn as (_ & Hn & _). destruct R as [? ? Hbl Ht Hsz ? ?].
  split; try done.
  - by rewrite <- Hbl, Hf.
  - apply (texts_same _ _ (set_contents j b w)); [done|]. apply texts_set; [|done]. set_solver.
  - intros i. apply (sized_set j b w Hsz Hb).
Qed.

(** The message goes to the front of the list, in its own block. *)
Lemma rep_push s w σ idx j i free b c m :
  rep s w σ idx → message_buffer_pool w = j :: i :: free → length b = 1024%nat → length c = 1024%nat →
  cstr c = Some m → m ≠ [] →
  ∃ r w', push_front (block_of s i) (set_contents i c (set_free free (set_contents j b w))) = Done (r, w')
    ∧ rep s (set_free (j :: message_buffer_pool w') w') (add_pending m σ) (i :: idx)
    ∧ block j w' = b.
Proof.
  intros R Hf Hb Hc Hm Hm0. pose proof (rep_free _ _ _ _ R) as Hlen. rewrite Hf in Hlen. cbn [length] in Hlen.
  pose proof (rep_nodup _ _ _ _ R) as Hn. rewrite Hf in Hn. apply NoDup_app in Hn as (_ & Hn & Hnf).
  apply NoDup_cons in Hnf as [Hji _].
  pose proof (sl_rep_range _ _ _ _ R i) as Hi. rewrite Hf in Hi. specialize (Hi ltac:(set_solver)).
  pose proof (rep_size _ _ _ _ R) as Hz.
  unfold push_front, list_call. cbn [message_list set_contents set_free]. rewrite Hz.
  rewrite (proj2 (Z.ltb_lt _ _)) by (unfold MAX_MESSAGE_COUNT; lia).
  cbn [LlistSpec.spec]. unfold LlistSpec.spec_push.
  rewrite (proj2 (Z.eqb_neq _ _) (block_nonnull _ _ _ _ R i ltac:(lia))), Hz.
  replace (Llist.out_of_interval 0 0 _) with false
    by (unfold Llist.out_of_interval; symmetry; rewrite orb_false_iff, !Z.ltb_ge; lia).
  cbn [orb]. change (0 =? 0) with true. cbn [orb]. cbv iota beta.
  do 2 eexists. split; [reflexivity|]. split.
  2: { change (block j (set_contents i c (set_contents j b w)) = b).
       rewrite block_set, decide_False, block_set, decide_True; [done..|set_solver]. }
  destruct R as [Hs Hit Hbl Ht Hsz Hr Ho].
  split; cbn [set_free set_list set_contents message_list message_buffer_pool stdout written errno
    LlistSpec.items add_pending pending terminal files log_errno]; try done.
  - by rewrite zins_0, Hit.
  - rewrite <- Hbl, Hf. cbn [app]. etransitivity; [apply Permutation_middle|]. f_equiv. apply perm_swap.
  - rewrite rev_app_distr. cbn [rev app].
    assert (Hb' : ∀ k, k = i → block k (set_contents i c (set_contents j b w)) = c)
      by (intros k ->; by rewrite block_set, decide_True).
    constructor; [split; [exact (eq_trans (f_equal cstr (Hb' i eq_refl)) Hm)|done]|].
    apply (texts_same _ _ (set_contents i c (set_contents j b w))); [done|].
    apply texts_set; [set_solver|]. apply texts_set; [set_solver|done].
  - intros k. apply (sized_set i c (set_contents j b w)); [by apply sized_set|done].
  - rewrite length_app. cbn [length]. unfold room. lia.
Qed.

Lemma log_to_list_run s w σ idx lev txt t1 :
  rep s w σ idx → LEVEL_FATAL ≤ lev ≤ LEVEL_TRACE → text txt → time_ok t1 → lev ≤ logger_level s →
  ∃ j w' idx', log_to_list s lev txt t1 w = Done (Some j, w')
    ∧ rep s (set_free (j :: message_buffer_pool w') w')
        (if bool_decide (length (pending σ) < room)%nat then add_pending (record_of lev t1 txt) σ else σ) idx'
    ∧ cstr (block j w') = Some (take 1022 txt).
Proof.
  intros R Hlev Ht Htm Hll. unfold log_to_list. rewrite (proj2 (Z.leb_le _ _)) by done.
  pose proof (rep_free _ _ _ _ R) as Hlen. pose proof (r_room _ _ _ _ R) as Hroom. unfold room in *.
  destruct (message_buffer_pool w) as [|j free] eqn:Hf; cbn [length] in Hlen; [lia|].
  rewrite (bind_Done _ _ _ (Some j) (set_free free w)) by (unfold mempool_alloc; by rewrite Hf).
  assert (Hsz : sized_blocks (set_free free w)) by exact (r_sized _ _ _ _ R).
  destruct (print_start j txt _ Hsz Ht) as (b & E & Hb & Hcb & _).
  rewrite (bind_Done _ _ _ _ _ E). set (w2 := set_contents j b (set_free free w)) in *.
  assert (Hsz2 : sized_blocks w2) by by apply sized_set.
  assert (Esize : list_call LlistSpec.GetSize w2 = Done (Z.of_nat (length (pending σ)), w2)).
  { unfold list_call. cbn [LlistSpec.spec]. change (message_list w2) with (message_list w).
    rewrite (rep_size _ _ _ _ R). done. }
  assert (Hbj : block j w2 = b) by (unfold w2; by rewrite block_set, decide_True).
  unfold syslog_logger_print.
  destruct free as [|i free].
  - cbn [length] in Hlen. rewrite bool_decide_eq_false_2 by lia.
    exists j, w2, idx. split; [|split; [|by rewrite Hbj]].
    + erewrite bind_Done; [reflexivity|]. rewrite (bind_Done _ _ _ _ _ Esize).
      rewrite (proj2 (Z.ltb_lt _ _)) by (unfold MAX_MESSAGE_COUNT; lia). reflexivity.
    + by apply rep_no_room.
  - cbn [length] in Hlen. rewrite bool_decide_eq_true_2 by lia.
    destruct (month_ok t1 Htm) as [Emonth _]. destruct (level_ok lev Hlev) as [Elevel _].
    destruct (timestamp_ok lev t1 Hlev Htm) as [Hh Hhl].
    set (h := LOG_TIMESTAMP (month_text t1) (level_text lev) t1) in *.
    assert (Hij : i ≠ j).
    { pose proof (rep_nodup _ _ _ _ R) as Hn. rewrite Hf in Hn. apply NoDup_app in Hn as (_ & _ & Hn).
      apply NoDup_cons in Hn as [Hn _]. set_solver. }
    assert (Hsz3 : sized_blocks (set_free free w2)) by exact Hsz2.
    destruct (print_start i h _ Hsz3 Hh) as (c & Ec & Hc & _ & Hpre).
    rewrite (take_ge h) in Hpre by lia.
    set (w4 := set_contents i c (set_free free w2)) in *.
    assert (Hsz4 : sized_blocks w4) by by apply sized_set.
    destruct (print_behind i h (take 1022 txt) w4 Hsz4 Hh) as (d & Ed & Hd & Hcd);
      [by apply Forall_take|lia|unfold w4; by rewrite block_set, decide_True|].
    rewrite take_take_app in Hcd. fold (record_of lev t1 txt) in Hcd.
    destruct (rep_push s w σ idx j i free b d _ R Hf Hb Hd Hcd) as (r & w' & Ep & R' & Hbj');
      [by apply record_nonempty|].
    exists j, w', (i :: idx). split; [|split; [exact R'|by rewrite Hbj']].
    erewrite bind_Done; [reflexivity|]. rewrite (bind_Done _ _ _ _ _ Esize).
    rewrite (proj2 (Z.ltb_lt _ _)) by (unfold MAX_MESSAGE_COUNT; lia).
    rewrite (bind_Done _ _ w2 (Some i) (set_free free w2)) by done.
    rewrite (bind_Done _ _ _ (month_text t1) (set_free free w2)) by (unfold deref; by rewrite Emonth).
    rewrite (bind_Done _ _ _ (level_text lev) (set_free free w2)) by (unfold deref; by rewrite Elevel).
    rewrite (bind_Done _ _ _ _ _ Ec).
    rewrite (bind_Done _ _ w4 (take 1022 txt) w4).
    2: { unfold text_of, deref, w4. rewrite block_set, decide_False by done.
         change (block j (set_free free w2)) with (block j w2). by rewrite Hbj, Hcb. }
    rewrite (bind_Done _ _ _ _ _ Ed).
    rewrite (bind_Done _ _ _ r w'); [reflexivity|].
    rewrite <- Ep. unfold w4, w2. f_equal.
    unfold set_contents, set_free. cbn [contents message_list message_buffer_pool stdout written errno].
    f_equal. by rewrite insert_insert_eq.
Qed.

Definition add_terminal (b : list Z) (σ : log) : log :=
  Log (pending σ) (terminal σ ++ b) (files σ) (log_errno σ).

Lemma rep_emit s w σ idx b : rep s w σ idx → rep s (emit b w) (add_terminal b σ) idx.
Proof.
  intros [? ? ? ? ? ? (Ho & ? & ?)]. split; try done. cbn [emit stdout add_terminal terminal]. by rewrite Ho.
Qed.

Lemma append_new_line_run format w :
  format ≠ [] → append_new_line format w = Done (tt, emit (end_line format) w).
Proof.
  intros H. unfold append_new_line, end_line.
  destruct (last format) as [c|] eqn:E; [|by apply last_None in E].
  destruct (Z.eqb_spec c NL) as [->|Hc].
  - rewrite decide_True by done. unfold emit. rewrite app_nil_r. by destruct w.
  - by rewrite decide_False by congruence.
Qed.

Lemma log_to_stdout_run s lev format txt b m t2 w :
  LEVEL_FATAL ≤ lev ≤ LEVEL_TRACE → format ≠ [] →
  match b with Some j => cstr (block j w) = Some m | None => m = txt end →
  log_to_stdout s lev format txt b t2 w =
    Done (tt, if lev <=? debug_level s then emit (header_of s lev t2 ++ m ++ end_line format) w else w).
Proof.
  intros Hl Hf Hm. unfold log_to_stdout. destruct (lev <=? debug_level s); [|done].
  rewrite (bind_Done _ _ w (header_of s lev t2) w) by (unfold deref; by rewrite header_ok).
  set (w1 := emit (header_of s lev t2) w).
  rewrite (bind_Done _ _ w tt w1) by done.
  rewrite (bind_Done _ _ w1 m w1).
  2: { destruct b as [j|]; [|by rewrite Hm]. unfold text_of, deref.
       change (block j w1) with (block j w). by rewrite Hm. }
  rewrite (bind_Done _ _ w1 tt (emit m w1)) by done.
  rewrite append_new_line_run by done. unfold emit, w1. cbn [emit stdout message_list message_buffer_pool contents written errno].
  by rewrite !app_assoc.
Qed.

(** The block is freed again. *)
Lemma sl_free_run s w σ idx j :
  rep s (set_free (j :: message_buffer_pool w) w) σ idx →
  mempool_free j w = Done (tt, set_free (j :: message_buffer_pool w) w).
Proof.
  intros R. pose proof (rep_nodup _ _ _ _ R) as Hn. cbn [message_buffer_pool set_free] in Hn.
  apply NoDup_app in Hn as (_ & _ & Hn). apply NoDup_cons in Hn as [Hn _].
  pose proof (sl_rep_range _ _ _ _ R j) as Hj. cbn [message_buffer_pool set_free] in Hj.
  specialize (Hj ltac:(set_solver)).
  unfold mempool_free. cbn [Mempool.spec_step]. by rewrite decide_True.
Qed.

Lemma log_step s w σ idx lev format txt t1 t2 :
  rep s w σ idx → call_ok (Message lev format txt t1 t2) →
  ∃ w' idx', DEBUG_PRINT s lev format txt t1 t2 w = Done ((spec_log s lev format txt t1 t2 σ).1, w')
    ∧ rep s w' (spec_log s lev format txt t1 t2 σ).2 idx'.
Proof.
  intros R (Hlev & Hf & Ht & Htm). unfold DEBUG_PRINT, spec_log.
  destruct ((LEVEL_NONE =? debug_level s) && (LEVEL_NONE =? logger_level s)).
  { do 2 eexists. split; [reflexivity|]. destruct R as [? ? ? ? ? ? (? & ? & ?)]. by split. }
  destruct (Z.leb_spec lev (logger_level s)) as [Hle|Hgt].
  - destruct (log_to_list_run s w σ idx lev txt t1 R Hlev Ht Htm Hle) as (j & w' & idx' & E & R' & Hj).
    rewrite (bind_Done _ _ _ _ _ E).
    rewrite (bind_Done _ _ _ _ _ (log_to_stdout_run s lev format txt (Some j) _ t2 w' Hlev Hf Hj)).
    set (out := header_of s lev t2 ++ take 1022 txt ++ end_line format).
    set (σ' := if bool_decide (length (pending σ) < room)%nat then add_pending (record_of lev t1 txt) σ else σ) in *.
    exists (set_free (j :: message_buffer_pool w') (if lev <=? debug_level s then emit out w' else w')), idx'.
    assert (Hp : pending σ' = if true && bool_decide (length (pending σ) < room)%nat
                              then pending σ ++ [record_of lev t1 txt] else pending σ)
      by (unfold σ'; by destruct (bool_decide _)).
    assert (Hfl : files σ' = files σ ∧ log_errno σ' = log_errno σ ∧ terminal σ' = terminal σ)
      by (unfold σ'; by destruct (bool_decide _)).
    destruct Hfl as (Hfl & He & Hte). cbn [fst snd]. rewrite <- Hp, <- Hfl, <- He, <- Hte.
    destruct (lev <=? debug_level s).
    + assert (R2 : rep s (set_free (j :: message_buffer_pool w') (emit out w')) (add_terminal out σ') idx')
        by exact (rep_emit _ _ _ _ out R').
      split; [|exact R2]. by rewrite (bind_Done _ _ _ _ _ (sl_free_run s (emit out w') _ idx' j R2)).
    + split; [|by destruct σ']. by rewrite (bind_Done _ _ _ _ _ (sl_free_run s w' _ idx' j R')).
  - rewrite (bind_Done _ _ w None w) by (unfold log_to_list; by rewrite (proj2 (Z.leb_gt _ _)) by lia).
    rewrite (bind_Done _ _ _ _ _ (log_to_stdout_run s lev format txt None txt t2 w Hlev Hf eq_refl)).
    exists (if lev <=? debug_level s then emit (header_of s lev t2 ++ txt ++ end_line format) w else w), idx.
    split; [done|]. cbn [fst snd andb]. destruct (lev <=? debug_level s); [|by destruct σ].
    exact (rep_emit _ _ _ _ _ R).
Qed.

(** ** A turn of the task *)

Lemma pop_back_run s w v t fs e idx i m ms :
  rep s w (Log (m :: ms) t fs e) (idx ++ [i]) → v = LlistSpec.View (block_of s <$> idx) 0 false →
  list_call LlistSpec.PopBack w = Done (block_of s i, set_list v w) ∧ block_of s i ≠ 0 ∧ holds_text w i m
  ∧ ∀ l, mempool_free i (World v (message_buffer_pool w) (contents w) (stdout w) l (errno w))
         = Done (tt, World v (i :: message_buffer_pool w) (contents w) (stdout w) l (errno w))
      ∧ rep s (World v (i :: message_buffer_pool w) (contents w) (stdout w) l (errno w)) (Log ms t l e) idx.
Proof.
  intros R ->. pose proof (rep_length _ _ _ _ R) as Hlen. rewrite length_app in Hlen. cbn [length pending] in Hlen.
  pose proof (rep_size _ _ _ _ R) as Hz. cbn [length pending] in Hz.
  pose proof (sl_rep_range _ _ _ _ R i ltac:(set_solver)) as Hi.
  pose proof (rep_nodup _ _ _ _ R) as Hn. rewrite <- app_assoc in Hn. apply NoDup_app in Hn as (_ & _ & Hn).
  apply NoDup_cons in Hn as [Hn _]. cbn [app] in Hn.
  pose proof (block_nonnull _ _ _ _ R i ltac:(lia)) as H0.
  destruct R as [Hs Hit Hbl Ht Hsz Hr (Hst & Hwr & He)]. cbn [pending terminal files log_errno] in *.
  rewrite fmap_app in Hit. cbn [rev] in Ht. apply Forall2_app_inv in Ht as [Ht Hm]; [|rewrite length_rev; lia].
  apply Forall2_cons_1 in Hm as [Hm _].
  split; [|split; [done|split; [done|]]].
  - unfold list_call. cbn [LlistSpec.spec]. unfold LlistSpec.spec_pop. rewrite Hz.
    replace (Llist.out_of_interval _ 0 _) with false
      by (unfold Llist.out_of_interval; symmetry; rewrite orb_false_iff, !Z.ltb_ge; lia).
    rewrite (proj2 (Z.eqb_neq _ _)) by lia. rewrite Z.eqb_refl, orb_true_r, Hit. cbn [fmap list_fmap].
    replace (Z.of_nat (S (length ms)) - 1) with (Z.of_nat (length (block_of s <$> idx))) by (rewrite length_fmap; lia).
    assert (zat ((block_of s <$> idx) ++ [block_of s i]) (Z.of_nat (length (block_of s <$> idx))) = block_of s i) as ->.
    { unfold zat. rewrite (proj2 (Z.ltb_ge _ _)), Nat2Z.id by lia. by rewrite list_lookup_middle. }
    unfold zdel. by rewrite Nat2Z.id, delete_middle, app_nil_r.
  - intros l. split.
    + unfold mempool_free. cbn [Mempool.spec_step message_buffer_pool]. by rewrite decide_True.
    + split; cbn [message_list message_buffer_pool stdout written errno LlistSpec.items pending terminal files log_errno];
        try done; [by rewrite <- Hbl, <- app_assoc|cbn [length] in Hr; lia].
Qed.

Lemma flush_run s path : ∀ fuel w t fs e idx ms,
  rep s w (Log ms t fs e) idx → (length ms < fuel)%nat →
  ∃ w', flush fuel s path id w = Done (tt, w') ∧ rep s w' (Log [] t (fs ++ concat (writes path <$> ms)) e) [].
Proof.
  induction fuel as [|fuel IH]; [lia|]. intros w t fs e idx ms R Hl.
  pose proof (rep_length _ _ _ _ R) as Hlen. cbn [pending] in Hlen. cbn [flush].
  destruct ms as [|m ms].
  - destruct idx; [|done]. exists w. cbn [fmap list_fmap concat]. rewrite app_nil_r. split; [|done].
    pose proof (r_items _ _ _ _ R) as Hi. cbn [fmap list_fmap] in Hi.
    rewrite (bind_Done _ _ w 0 w); [done|]. unfold list_call. cbn [LlistSpec.spec]. unfold LlistSpec.spec_pop. rewrite Hi. simpl. by destruct w.
  - destruct idx as [|i idx _] using rev_ind; [done|].
    destruct (pop_back_run s w _ t fs e idx i m ms R eq_refl) as (E & H0 & [Hm Hm0] & Hfree).
    rewrite (bind_Done _ _ _ _ _ E). rewrite (proj2 (Z.eqb_neq _ _) H0), syslog_index.
    set (v := LlistSpec.View (block_of s <$> idx) 0 false) in *.
    rewrite (bind_Done _ _ _ m (set_list v w)) by (unfold text_of, deref; change (block i (set_list v w)) with (block i w); by rewrite Hm).
    rewrite (bind_Done _ _ _ tt (file_write path m (set_list v w))) by done.
    assert (Hfs : written w = fs) by apply R.
    destruct (last m) as [c|] eqn:El; [|by apply last_None in El].
    assert (∃ w1, (if c =? NL then mret tt else modify (file_write path (id [NL]))) (file_write path m (set_list v w)) = Done (tt, w1)
      ∧ w1 = World v (message_buffer_pool w) (contents w) (stdout w) (fs ++ writes path m) (errno w)) as (w1 & E1 & ->).
    { unfold writes. rewrite El. destruct (Z.eqb_spec c NL) as [->|Hc].
      - rewrite decide_True by done. eexists. split; [reflexivity|]. by rewrite <- Hfs.
      - rewrite decide_False by congruence. eexists. split; [reflexivity|].
        unfold file_write. cbn [set_list message_list message_buffer_pool contents stdout written errno].
        by rewrite <- Hfs, <- app_assoc. }
    rewrite (bind_Done _ _ _ _ _ E1). destruct (Hfree (fs ++ writes path m)) as [E2 R2].
    rewrite (bind_Done _ _ _ _ _ E2).
    destruct (IH _ _ _ _ _ _ R2) as (w' & E3 & R3); [cbn [length] in Hl; lia|].
    exists w'. split; [exact E3|]. cbn [fmap list_fmap concat]. by rewrite app_assoc.
Qed.

Lemma turn_step s w σ idx st opened :
  rep s w σ idx →
  ∃ w' idx', custom_logger_executer s st opened id w = Done (tt, w') ∧ rep s w' (spec_turn s st opened σ) idx'.
Proof.
  intros R. unfold custom_logger_executer, spec_turn.
  rewrite (bind_Done _ _ _ _ _ (get_size_run _ _ _ _ R)).
  destruct σ as [ms t fs e]. cbn [pending terminal files log_errno] in *.
  destruct (Z.ltb_spec 0 (Z.of_nat (length ms))) as [Hn|Hn].
  - destruct opened; [|by exists w, idx].
    destruct (flush_run s (file_path s st) (S (Z.to_nat (Z.of_nat (length ms)))) w t fs e idx ms R ltac:(lia))
      as (w' & E & R'). by exists w', [].
  - destruct ms; [|cbn [length] in Hn; lia]. exists w, idx. split; [done|].
    cbn [fmap list_fmap concat]. rewrite app_nil_r. by destruct opened.
Qed.

Lemma step_refines s w σ idx l :
  rep s w σ idx → call_ok l →
  ∃ w' idx', exec s l w = Done ((spec_exec s l σ).1, w') ∧ rep s w' (spec_exec s l σ).2 idx'.
Proof.
  intros R Hc. destruct l as [lev format txt t1 t2|st opened]; [by eapply log_step|].
  destruct (turn_step s w σ idx st opened R) as (w' & idx' & E & R'). exists w', idx'. split; [|done].
  cbn [exec]. by rewrite (bind_Done _ _ _ _ _ E).
Qed.

Lemma run_refines s ls : ∀ w σ idx,
  rep s w σ idx → Forall call_ok ls →
  ∃ w' idx', run s ls w = Done ((spec_run s ls σ).1, w') ∧ rep s w' (spec_run s ls σ).2 idx'.
Proof.
  induction ls as [|l ls IH]; intros w σ idx R Hc; [by exists w, idx|].
  apply Forall_cons in Hc as [Hl Hc].
  destruct (step_refines s w σ idx l R Hl) as (w1 & idx1 & E1 & R1).
  destruct (IH w1 _ idx1 R1 Hc) as (w2 & idx2 & E2 & R2). exists w2, idx2.
  cbn [run spec_run]. rewrite (bind_Done _ _ _ _ _ E1), (bind_Done _ _ _ _ _ E2).
  destruct (spec_exec s l σ) as [r σ1]. cbn [fst snd] in *. by destruct (spec_run s ls σ1).
Qed.

Lemma new_rep s out e : 0 < mem_start s → rep s (empty_world out e) (Log [] out [] e) [].
Proof.
  intros H. split; try done. unfold room. cbn. lia.
Qed.

(** *** What the queue does to the messages *)

(** The messages that get through, and the files, of a run of the abstract logger:
    the accepted ones are the written ones and the pending ones. *)
Definition accepted (s : syslog) (l : label) (σ : log) : list (list Z) :=
  match l with
  | Message lev _ txt t1 _ =>
      if (lev <=? logger_level s) && bool_decide (length (pending σ) < room)%nat
         && negb ((LEVEL_NONE =? debug_level s) && (LEVEL_NONE =? logger_level s))
      then [record_of lev t1 txt] else []
  | Turn _ _ => []
  end.
Fixpoint all_accepted (s : syslog) (ls : list label) (σ : log) : list (list Z) :=
  match ls with
  | [] => []
  | l :: ls => accepted s l σ ++ all_accepted s ls (spec_exec s l σ).2
  end.

(** The bytes of a message in the file, ended by a new line. *)
Definition line_of (m : list Z) : list Z := m ++ end_line m.

Lemma writes_bytes path ms : concat (snd <$> concat (writes path <$> ms)) = concat (line_of <$> ms).
Proof.
  induction ms as [|m ms IH]; [done|]. cbn [fmap list_fmap concat]. rewrite fmap_app, concat_app, IH. f_equal.
  unfold writes, line_of, end_line. destruct (decide (last m = Some NL)); cbn [fmap list_fmap concat snd]; by rewrite ?app_nil_r.
Qed.

Lemma spec_bytes s ls : ∀ σ,
  concat (snd <$> files (spec_run s ls σ).2) ++ concat (line_of <$> pending (spec_run s ls σ).2)
  = concat (snd <$> files σ) ++ concat (line_of <$> pending σ ++ all_accepted s ls σ).
Proof.
  induction ls as [|l ls IH]; intros σ; cbn [spec_run all_accepted fst snd]; [by rewrite app_nil_r|].
  specialize (IH (spec_exec s l σ).2). destruct (spec_exec s l σ) as [r σ1] eqn:E.
  cbn [snd] in IH. destruct (spec_run s ls σ1) as [rs σ2]. cbn [fst snd] in *. rewrite IH. clear IH.
  destruct l as [lev format txt t1 t2|st opened]; cbn [spec_exec accepted] in *.
  - unfold spec_log in E. destruct ((LEVEL_NONE =? debug_level s) && (LEVEL_NONE =? logger_level s)).
    + injection E as <- <-. cbn [pending files]. by rewrite andb_false_r.
    + injection E as <- <-. cbn [pending files negb]. rewrite andb_true_r.
      destruct ((lev <=? logger_level s) && bool_decide _); [|done]. by rewrite <- app_assoc.
  - injection E as <- <-. unfold spec_turn. destruct opened; [|done]. cbn [pending files app].
    by rewrite !fmap_app, !concat_app, writes_bytes, <- app_assoc.
Qed.


(** A turn of the task that can open its file leaves nothing pending. *)
Theorem turn_writes_all s ls st out e :
  0 < mem_start s → Forall call_ok ls →
  ∃ rs w, run s (ls ++ [Turn st true]) (empty_world out e) = Done (rs, w)
  ∧ LlistSpec.items (message_list w) = []
  ∧ concat (snd <$> written w) = concat (line_of <$> all_accepted s (ls ++ [Turn st true]) (Log [] out [] e)).
Proof.
  intros Hm Hc.
  assert (Hc' : Forall call_ok (ls ++ [Turn st true])) by (apply Forall_app; split; [done|by constructor]).
  destruct (run_refines s _ _ _ _ (new_rep s out e Hm) Hc') as (w & idx & E & R).
  pose proof (spec_bytes s (ls ++ [Turn st true]) (Log [] out [] e)) as Hb.
  assert (Hp : ∀ l σ, pending (spec_run s (l ++ [Turn st true]) σ).2 = []).
  { induction l as [|x l IH]; intros σ; cbn [app spec_run]; [done|].
    destruct (spec_exec s x σ) as [r σ1]. specialize (IH σ1). by destruct (spec_run s (l ++ _) σ1). }
  exists (spec_run s (ls ++ [Turn st true]) (Log [] out [] e)).1, w. split; [exact E|].
  destruct (r_out _ _ _ _ R) as (_ & Hw & _). pose proof (rep_size _ _ _ _ R) as Hz.
  rewrite Hp in Hz, Hb. split.
  - apply zlen_0. exact Hz.
  - rewrite Hw. cbn [fmap list_fmap concat files pending app] in Hb. by rewrite app_nil_r in Hb.
Qed.

(** Code bug: the list and the pool have room for [MAX_MESSAGE_COUNT] messages,
    but the message is printed into one block and copied into another, so with
    one place left it is dropped, and the call answers [CPLUS_SUCCESS]. *)
Theorem last_place_unused s ls lev format txt t1 t2 out e :
  0 < mem_start s → Forall call_ok (ls ++ [Message lev format txt t1 t2]) → lev ≤ logger_level s →
  ∃ rs w, run s ls (empty_world out e) = Done (rs, w)
  ∧ zlen (LlistSpec.items (message_list w)) < MAX_MESSAGE_COUNT
  ∧ (zlen (LlistSpec.items (message_list w)) = MAX_MESSAGE_COUNT - 1 →
     ∃ w', DEBUG_PRINT s lev format txt t1 t2 w = Done (CPLUS_SUCCESS, w')
       ∧ zlen (LlistSpec.items (message_list w')) = MAX_MESSAGE_COUNT - 1).
Proof.
  intros Hm Hc Hle. apply Forall_app in Hc as [Hc Hl]. apply Forall_cons_1 in Hl as [Hl _].
  destruct (run_refines s ls _ _ _ (new_rep s out e Hm) Hc) as (w & idx & E & R).
  eexists _, w. split; [exact E|]. pose proof (rep_size _ _ _ _ R) as Hz. pose proof (r_room _ _ _ _ R) as Hr.
  unfold room, MAX_MESSAGE_COUNT in *. split; [lia|]. intros Hfull.
  destruct (log_step s w _ idx lev format txt t1 t2 R Hl) as (w' & idx' & E' & R').
  pose proof (rep_size _ _ _ _ R') as Hz'. revert E' Hz'. unfold spec_log.
  destruct Hl as ([Hlev _] & _). unfold LEVEL_FATAL in Hlev.
  rewrite (proj2 (Z.eqb_neq LEVEL_NONE (logger_level s))) by (unfold LEVEL_NONE; lia). rewrite andb_false_r.
  cbn [fst snd pending]. rewrite bool_decide_eq_false_2 by (unfold room; lia). rewrite andb_false_r.
  intros E' Hz'. exists w'. split; [done|lia].
Qed.

(** Code bug: an empty format has no last byte, but the byte before it is read. *)
Theorem empty_format_undefined s lev txt t1 t2 w :
  LEVEL_FATAL ≤ lev ≤ LEVEL_TRACE → lev ≤ debug_level s → logger_level s < lev →
  DEBUG_PRINT s lev [] txt t1 t2 w = Undefined.
Proof.
  intros Hl Hd Hg. unfold DEBUG_PRINT. unfold LEVEL_FATAL in Hl.
  rewrite (proj2 (Z.eqb_neq LEVEL_NONE (debug_level s))) by (unfold LEVEL_NONE; lia). cbn [andb].
  rewrite (bind_Done _ _ w None w) by (unfold log_to_list; by rewrite (proj2 (Z.leb_gt _ _)) by lia).
  unfold log_to_stdout. rewrite (proj2 (Z.leb_le _ _)) by done. unfold mbind, C_bind.
  unfold deref. by rewrite header_ok.
Qed.

(** Code bug: the format and not the text decides about the new line.  A text
    that is cut to the size of a block ends its line only if the format does not
    end with one: otherwise the next message is printed on the same line. *)
Theorem cut_line_runs_on s ls lev format txt t1 t2 out e :
  0 < mem_start s → Forall call_ok (ls ++ [Message lev format txt t1 t2]) →
  lev ≤ logger_level s → lev ≤ debug_level s → last format = Some NL → (1022 ≤ length txt)%nat →
  ∃ rs w w', run s ls (empty_world out e) = Done (rs, w)
  ∧ DEBUG_PRINT s lev format txt t1 t2 w = Done (CPLUS_SUCCESS, w')
  ∧ stdout w' = stdout w ++ header_of s lev t2 ++ take 1022 txt.
Proof.
  intros Hm Hc Hle Hd Hf Hlong. apply Forall_app in Hc as [Hc Hl]. apply Forall_cons_1 in Hl as [Hl _].
  destruct (run_refines s ls _ _ _ (new_rep s out e Hm) Hc) as (w & idx & E & R).
  destruct (log_step s w _ idx lev format txt t1 t2 R Hl) as (w' & idx' & E' & R').
  eexists _, w, w'. split; [exact E|]. destruct (r_out _ _ _ _ R) as (Ho & _).
  destruct (r_out _ _ _ _ R') as (Ho' & _). rewrite Ho, Ho'. revert E'. unfold spec_log.
  destruct Hl as ([Hlev _] & _). unfold LEVEL_FATAL in Hlev.
  rewrite (proj2 (Z.eqb_neq LEVEL_NONE (logger_level s))) by (unfold LEVEL_NONE; lia). rewrite andb_false_r.
  rewrite (proj2 (Z.leb_le _ _) Hd), (proj2 (Z.leb_le _ _) Hle). cbn [fst snd terminal].
  intros E'. split; [exact E'|]. unfold end_line. rewrite decide_True by done. by rewrite app_nil_r.
Qed.

(** *** The constructor *)

(** A logger takes its levels from the environment, where its name says, and
    keeps no part of itself when one cannot be made. *)
Theorem levels_from_environment y custom dl ll :
  memory y = true → can_make y = Parts true true true true → mkdir_ok y = true →
  let name := take 31 (default (invocation_name y) custom) in
  getenv y (debug_level_envname name) = Some (fmt_d dl) →
  getenv y (logger_level_envname name) = Some (fmt_d ll) →
  - 2 ^ 31 ≤ dl < 2 ^ 31 → - 2 ^ 31 ≤ ll < 2 ^ 31 →
  ∃ s p, cplus_syslog_new_ex y custom = Made s p
  ∧ cplus_syslog_get_debug_level s = dl ∧ cplus_syslog_get_logger_level s = ll
  ∧ program_name s = name ∧ (worker p = true ↔ ll ≠ LEVEL_NONE).
Proof.
  intros Hm Hp Hk name Ed El Hd Hl. unfold cplus_syslog_new_ex, syslog_initialize_object.
  rewrite Hm, Hp, Hk. cbn [msg_sect negb buffer_pool msg_list worker].
  change (Z.to_nat MAX_PROGRAM_NAME_SIZE) with 31%nat. fold name. rewrite Ed, El. cbn [fmap option_fmap option_map default].
  unfold atoi. rewrite !scan_d_fmt by (done || lia). cbn [default from_option id].
  destruct (Z.eqb_spec LEVEL_NONE ll) as [H|H]; cbn [negb]; do 2 eexists; (split; [reflexivity|]); cbn [worker];
    split_and!; try done; (split; [done|congruence]).
Qed.

(** ** Witnesses *)

Definition noon : systime := mkSystime 1 1 2024 1 1 12 0 0 5 7.
Definition a_logger : syslog := mkSyslog 4 5 true (bytes "prog") (bytes "/tmp/log") 4096.
Definition some_calls : list label :=
  [Message LEVEL_ERROR (bytes "%s") (bytes "down") noon noon; Turn noon true;
   Message LEVEL_TRACE (bytes "x") (bytes "x") noon noon; Message LEVEL_DEBUG (bytes "up") (bytes "up") noon noon].

Lemma noon_ok : time_ok noon.
Proof. unfold time_ok, noon. cbn. lia. Qed.

Lemma some_calls_ok : Forall call_ok some_calls.
Proof.
  unfold some_calls. repeat constructor; unfold LEVEL_FATAL, LEVEL_TRACE, LEVEL_ERROR, LEVEL_DEBUG, call_ok; try lia; try done;
    apply noon_ok.
Qed.

(** The file after the turn: one line. *)
Example file_of_some_calls :
  match run a_logger some_calls (empty_world [] 0) with
  | Done (_, w) => written w
  | _ => []
  end = [(bytes "/tmp/log/prog_01012024.log", bytes "Jan 01 12:00:00.005007 ERROR down");
         (bytes "/tmp/log/prog_01012024.log", [NL])].
Proof. vm_compute. reflexivity. Qed.


Lemma turn_writes_all_witness :
  ∃ rs w, run a_logger (some_calls ++ [Turn noon true]) (empty_world [] 0) = Done (rs, w)
  ∧ LlistSpec.items (message_list w) = []
  ∧ concat (snd <$> written w)
    = concat (line_of <$> all_accepted a_logger (some_calls ++ [Turn noon true]) (Log [] [] [] 0)).
Proof. apply (turn_writes_all a_logger some_calls noon [] 0); [done|apply some_calls_ok]. Defined.

Lemma one_more_ok l : call_ok l → Forall call_ok (some_calls ++ [l]).
Proof. intros H. apply Forall_app. split; [apply some_calls_ok|by constructor]. Qed.

Definition long_text : list Z := replicate 1100 120.
Lemma long_ok : call_ok (Message LEVEL_ERROR [37; 115; 10] long_text noon noon).
Proof.
  split; [unfold LEVEL_FATAL, LEVEL_ERROR, LEVEL_TRACE; lia|]. split; [done|]. split; [|apply noon_ok].
  by apply Forall_replicate.
Qed.

Lemma last_place_unused_witness :
  ∃ rs w, run a_logger some_calls (empty_world [] 0) = Done (rs, w)
  ∧ zlen (LlistSpec.items (message_list w)) < MAX_MESSAGE_COUNT
  ∧ (zlen (LlistSpec.items (message_list w)) = MAX_MESSAGE_COUNT - 1 →
     ∃ w', DEBUG_PRINT a_logger LEVEL_ERROR [37; 115; 10] long_text noon noon w = Done (CPLUS_SUCCESS, w')
       ∧ zlen (LlistSpec.items (message_list w')) = MAX_MESSAGE_COUNT - 1).
Proof.
  apply (last_place_unused a_logger some_calls LEVEL_ERROR [37; 115; 10] long_text noon noon [] 0);
    [done|apply one_more_ok, long_ok|by vm_compute].
Defined.

Lemma empty_format_undefined_witness :
  DEBUG_PRINT (mkSyslog 4 0 true [] [] 0) LEVEL_ERROR [] [] noon noon (empty_world [] 0) = Undefined.
Proof. apply empty_format_undefined; unfold LEVEL_FATAL, LEVEL_ERROR, LEVEL_TRACE; cbn; lia. Defined.

Lemma cut_line_runs_on_witness :
  ∃ rs w w', run a_logger some_calls (empty_world [] 0) = Done (rs, w)
  ∧ DEBUG_PRINT a_logger LEVEL_ERROR [37; 115; 10] long_text noon noon w = Done (CPLUS_SUCCESS, w')
  ∧ stdout w' = stdout w ++ header_of a_logger LEVEL_ERROR noon ++ take 1022 long_text.
Proof.
  apply (cut_line_runs_on a_logger some_calls LEVEL_ERROR [37; 115; 10] long_text noon noon [] 0);
    [done|apply one_more_ok, long_ok|by vm_compute|by vm_compute|done|].
  unfold long_text. rewrite length_replicate. lia.
Defined.

Definition a_system : system :=
  System true (bytes "prog") (λ n, Some (if decide (n = debug_level_envname (bytes "prog")) then fmt_d 6 else fmt_d 2))
    true (Parts true true true true) 4096.

Lemma levels_from_environment_witness :
  ∃ s p, cplus_syslog_new_ex a_system None = Made s p
  ∧ cplus_syslog_get_debug_level s = 6 ∧ cplus_syslog_get_logger_level s = 2
  ∧ program_name s = bytes "prog" ∧ (worker p = true ↔ 2 ≠ LEVEL_NONE).
Proof. apply (levels_from_environment a_system None 6 2); try (done || lia); by vm_compute. Defined.

End SyslogProps.
