(* ===== verification/Object.v ===== *)
(** * Object: deleting any object (src/cplus.c, first part)

    Every object starts with the tag of its type, which the checks of the
    components compare.  [cplus_object_delete] asks each check in turn and calls
    the deletion of the first that answers; the checks and the tags are those of
    the components, the deletions are given for a common state. *)

From S2P Require Import Prelude Mempool Sharedmem Task TaskPool Syslog Data Llist PeventNew Locks Semaphore Socket IpcLife File EventServer.
From stdpp Require Import base numbers list option sets.
From Stdlib Require Import ZArith Lia.
Open Scope Z_scope.

Module Object.

(** The types of objects, in the order in which they are asked for. *)
Inductive kind :=
| MEMPOOL | SHAREDMEM | TASK | TASKPOOL | SYSLOG | DATA | LLIST | PEVENT | RWLOCK | SEMAPHORE | MUTEX | SOCKET
| IPC_SERVER | IPC_CLIENT | FILE | EVENT_SERVER | EVENT_CLIENT.
#[export] Instance kind_eq_dec : EqDecision kind.
Proof. solve_decision. Defined.

(** The tag that the constructors write. *)
Definition type_of (k : kind) : Z :=
  match k with
  | MEMPOOL => Mempool.OBJ_TYPE | SHAREDMEM => Sharedmem.OBJ_TYPE | TASK => Task.OBJ_TYPE
  | TASKPOOL => TaskPool.OBJ_TYPE | SYSLOG => Syslog.OBJ_TYPE | DATA => Data.OBJ_TYPE | LLIST => Llist.OBJ_TYPE
  | PEVENT => Pevent.Pevent.OBJ_TYPE | RWLOCK => Rwlock.OBJ_TYPE | SEMAPHORE => Semaphore.OBJ_TYPE
  | MUTEX => Mutex.OBJ_TYPE | SOCKET => Socket.OBJ_TYPE | IPC_SERVER => IpcLife.OBJ_TYPE_SERVER
  | IPC_CLIENT => IpcLife.OBJ_TYPE_CLIENT | FILE => File.OBJ_TYPE | EVENT_SERVER => EventServer.OBJ_TYPE_SERVER
  | EVENT_CLIENT => EventServer.OBJ_TYPE_CLIENT
  end.

(** [cplus_data_check]; Data.v has it on the memory. *)
Definition cplus_data_check (obj : option Z) : bool :=
  match obj with Some type => type =? Data.OBJ_TYPE | None => false end.

(** The check of each component.  Those of servers and clients read the tag
    behind any pointer. *)
Definition check (k : kind) (obj : option Z) : outcome bool :=
  match k with
  | MEMPOOL => Done (Mempool.cplus_mempool_check obj)
  | SHAREDMEM => Done (Sharedmem.cplus_sharedmem_check obj)
  | TASK => Done (Task.cplus_task_check obj)
  | TASKPOOL => Done (TaskPool.cplus_taskpool_check obj)
  | SYSLOG => Done (Syslog.cplus_syslog_check obj)
  | DATA => Done (cplus_data_check obj)
  | LLIST => Done (Llist.cplus_llist_check obj)
  | PEVENT => Done (PeventNew.cplus_pevent_check obj)
  | RWLOCK => Done (Rwlock.cplus_rwlock_check obj)
  | SEMAPHORE => Done (Make.cplus_semaphore_check obj)
  | MUTEX => Done (Mutex.cplus_mutex_check obj)
  | SOCKET => Done (Socket.cplus_socket_check obj)
  | IPC_SERVER => IpcLife.cplus_ipc_server_check obj
  | IPC_CLIENT => IpcLife.cplus_ipc_client_check obj
  | FILE => Done (File.cplus_file_check obj)
  | EVENT_SERVER => match obj with Some t => Done (EventServer.cplus_event_server_check t) | None => Undefined end
  | EVENT_CLIENT => match obj with Some t => Done (EventServer.cplus_event_client_check t) | None => Undefined end
  end.

(** What the common state has: an [errno], and the deletion of each component. *)
Record components (S : Type) := Components {
  set_errno : Z → S → S;
  delete : kind → C S Z }.
Arguments set_errno {_}.
Arguments delete {_}.

Section delete.
Context {S : Type} (cs : components S).

(** [if (check(object)) { return delete(object); } else ...] *)
Fixpoint delete_first (ks : list kind) (obj : option Z) : C S Z :=
  match ks with
  | [] => mret CPLUS_FAIL
  | k :: ks => λ s,
      match check k obj with
      | Done true => delete cs k s
      | Done false => delete_first ks obj s
      | Aborts => Aborts | Hangs => Hangs | Undefined => Undefined
      end
  end.

(** The chain of the code; the check for a log is there twice. *)
Definition chain : list kind :=
  [MEMPOOL; SHAREDMEM; TASK; TASKPOOL; SYSLOG; SYSLOG; DATA; LLIST; PEVENT; RWLOCK; SEMAPHORE; MUTEX; SOCKET;
   IPC_SERVER; IPC_CLIENT; FILE; EVENT_SERVER; EVENT_CLIENT].

Definition cplus_object_delete (obj : option Z) : C S Z :=
  match obj with
  | None => modify (set_errno cs EINVAL);; mret CPLUS_FAIL
  | Some _ => delete_first chain obj
  end.

(** ** The right deletion is called *)

Lemma type_inj k k' : type_of k = type_of k' → k = k'.
Proof. destruct k, k'; (reflexivity || discriminate). Qed.

Lemma kind_check k t : check k (Some t) = Done (t =? type_of k).
Proof. by destruct k. Qed.

Lemma delete_first_hit ks k s :
  k ∈ ks → delete_first ks (Some (type_of k)) s = delete cs k s.
Proof.
  induction ks as [|k' ks IH]; [set_solver|]. intros H. cbn [delete_first]. rewrite kind_check.
  destruct (Z.eqb_spec (type_of k) (type_of k')) as [<-%type_inj|Hn]; [done|].
  apply IH. set_solver.
Qed.

Lemma delete_first_miss ks t s :
  (∀ k, t ≠ type_of k) → delete_first ks (Some t) s = Done (CPLUS_FAIL, s).
Proof.
  intros H. induction ks as [|k ks IH]; [done|]. cbn [delete_first]. rewrite kind_check.
  by rewrite (proj2 (Z.eqb_neq _ _) (H k)).
Qed.

End delete.

(** The kind of an object with the tag [t]. *)
Definition kind_of (t : Z) : option kind := List.find (λ k, t =? type_of k) chain.

(** C26: no two kinds of objects have one tag, the tags fit the 16 bits that are
    compared, and deleting an object calls the deletion of its kind, whatever its
    kind; what is no object is refused, and nothing is done to it. *)
Theorem object_delete_by_type {S} (cs : components S) (obj : option Z) (s : S) :
  (∀ k k', type_of k = type_of k' → k = k')
  ∧ (∀ k, 0 < type_of k < 2 ^ 16 ∧ kind_of (type_of k) = Some k)
  ∧ cplus_object_delete cs obj s
    = match obj with
      | None => Done (CPLUS_FAIL, set_errno cs EINVAL s)
      | Some t => match kind_of t with Some k => delete cs k s | None => Done (CPLUS_FAIL, s) end
      end.
Proof.
  split; [apply type_inj|]. split; [intros []; by vm_compute|].
  destruct obj as [t|]; [|done]. unfold cplus_object_delete, kind_of.
  destruct (List.find _ chain) as [k|] eqn:E.
  - apply List.find_some in E as [Hin ->%Z.eqb_eq]. apply delete_first_hit. by apply list_elem_of_In.
  - apply delete_first_miss. intros k ->. eapply List.find_none in E; [|apply list_elem_of_In].
    + by rewrite Z.eqb_refl in E.
    + destruct k; set_solver.
Qed.

End Object.
