(* ===== verification/Atomic.v ===== *)
(** * Atomic: operations on shared words (src/atomic.c, src/cplus/cplus_atomic.h)

    The macros are compiled to the [__atomic] intrinsics with sequential
    consistency (GCC 4.7 and later), so a call is one step on the memory, and a
    run of several threads is a sequence of calls in the order of their effects.
    A memory maps addresses to words of [w] bits. *)

From S2P Require Import Prelude.
From stdpp Require Import base numbers list option gmap.
From Stdlib Require Import ZArith Lia.
Open Scope Z_scope.

Module Atomic.

#[local] Notation mem := (gmap Z Z).

Section words.
Context (w : Z).

Definition wrap (z : Z) : Z := z `mod` 2 ^ w.

Definition load (ptr : Z) : C mem Z := deref (λ m, m !! ptr).
(** Only a word that is there can be written. *)
Definition store (ptr v : Z) : C mem unit := load ptr;; modify <[ptr := wrap v]>.

Definition cplus_atomic_read (ptr : Z) : C mem Z := load ptr.
Definition cplus_atomic_write (ptr value : Z) : C mem unit := store ptr value.
Definition cplus_atomic_exchange (ptr value : Z) : C mem Z := x ← load ptr; store ptr value;; mret x.

(** [__atomic_fetch_<op>] and [__atomic_<op>_fetch]. *)
Definition fetch (f : Z → Z → Z) (ptr value : Z) : C mem Z := x ← load ptr; store ptr (f x value);; mret x.
Definition op_fetch (f : Z → Z → Z) (ptr value : Z) : C mem Z :=
  x ← load ptr; store ptr (f x value);; mret (wrap (f x value)).

Definition nand (x v : Z) : Z := Z.lnot (Z.land x v).

Definition cplus_atomic_add := op_fetch Z.add.
Definition cplus_atomic_and := op_fetch Z.land.
Definition cplus_atomic_xor := op_fetch Z.lxor.
Definition cplus_atomic_or := op_fetch Z.lor.
Definition cplus_atomic_nand := op_fetch nand.
Definition cplus_atomic_fetch_add := fetch Z.add.
Definition cplus_atomic_fetch_and := fetch Z.land.
Definition cplus_atomic_fetch_xor := fetch Z.lxor.
Definition cplus_atomic_fetch_or := fetch Z.lor.
Definition cplus_atomic_fetch_nand := fetch nand.

(** The value that was found is written to [*expect] when the exchange fails. *)
Definition cplus_atomic_compare_exchange (ptr expect_ptr value_ptr : Z) : C mem bool :=
  v ← load value_ptr;
  e ← load expect_ptr;
  x ← load ptr;
  if x =? e then store ptr v;; mret true else store expect_ptr x;; mret false.

(** A run: calls in the order of their effects, and what each returned. *)
Fixpoint run {A} (calls : list (C mem A)) : C mem (list A) :=
  match calls with
  | [] => mret []
  | c :: calls => x ← c; xs ← run calls; mret (x :: xs)
  end.

Lemma word_store ptr v m x : m !! ptr = Some x → store ptr v m = Done (tt, <[ptr := wrap v]> m).
Proof. intros H. unfold store, load, deref, mbind, C_bind. by rewrite H. Qed.
Lemma word_load ptr m x : m !! ptr = Some x → load ptr m = Done (x, m).
Proof. intros H. unfold load, deref. by rewrite H. Qed.

Lemma fetch_run f ptr v m x : m !! ptr = Some x → fetch f ptr v m = Done (x, <[ptr := wrap (f x v)]> m).
Proof.
  intros H. unfold fetch. rewrite (bind_Done _ _ _ _ _ (word_load _ _ _ H)).
  by rewrite (bind_Done _ _ _ _ _ (word_store _ _ _ _ H)).
Qed.
Lemma op_fetch_run f ptr v m x :
  m !! ptr = Some x → op_fetch f ptr v m = Done (wrap (f x v), <[ptr := wrap (f x v)]> m).
Proof.
  intros H. unfold op_fetch. rewrite (bind_Done _ _ _ _ _ (word_load _ _ _ H)).
  by rewrite (bind_Done _ _ _ _ _ (word_store _ _ _ _ H)).
Qed.
Lemma exchange_run ptr v m x :
  m !! ptr = Some x → cplus_atomic_exchange ptr v m = Done (x, <[ptr := wrap v]> m).
Proof. intros H. apply (fetch_run (λ _ v, v) ptr v m x H). Qed.

End words.

(** [cplus_atomic_read_ptr] and its like, on pointers of 64 bits. *)
Definition cplus_atomic_read_ptr (ptr : Z) : C mem Z := cplus_atomic_read ptr.
Definition cplus_atomic_write_ptr (ptr value : Z) : C mem unit := cplus_atomic_write 64 ptr value.
Definition cplus_atomic_exchange_ptr (ptr value : Z) : C mem Z := cplus_atomic_exchange 64 ptr value.

(** ** Several threads on one word *)

Lemma wrap_range w z : 0 ≤ w → 0 ≤ wrap w z < 2 ^ w.
Proof. intros H. apply Z.mod_pos_bound. by apply Z.pow_pos_nonneg. Qed.
Lemma wrap_small w z : 0 ≤ z < 2 ^ w → wrap w z = z.
Proof. intros H. by apply Z.mod_small. Qed.
Lemma wrap_add w x y : wrap w (wrap w x + y) = wrap w (x + y).
Proof. unfold wrap. by rewrite Zplus_mod_idemp_l. Qed.

Definition sum (vs : list Z) : Z := foldr Z.add 0 vs.

Lemma sum_perm vs vs' : vs ≡ₚ vs' → sum vs = sum vs'.
Proof. induction 1; unfold sum in *; cbn; lia. Qed.

Lemma adds_run w ptr vs m x :
  m !! ptr = Some (wrap w x) →
  ∃ rs, run (cplus_atomic_add w ptr <$> vs) m = Done (rs, <[ptr := wrap w (x + sum vs)]> m).
Proof.
  revert m x. induction vs as [|v vs IH]; intros m x H.
  - exists []. cbn [fmap list_fmap run sum foldr]. by rewrite Z.add_0_r, insert_id.
  - cbn [fmap list_fmap run]. rewrite (bind_Done _ _ _ _ _ (op_fetch_run w Z.add ptr v m _ H)), wrap_add.
    destruct (IH (<[ptr := wrap w (x + v)]> m) (x + v)) as [rs E]; [apply lookup_insert_eq|].
    rewrite (bind_Done _ _ _ _ _ E). eexists. unfold mret, C_ret. do 2 f_equal.
    rewrite insert_insert_eq. by replace (x + v + sum vs) with (x + sum (v :: vs)) by (unfold sum; cbn; lia).
Qed.

(** additions are not lost: when any number of threads add to a word, the
    word has the sum of what it was and of all that was added, modulo [2^w], in
    whatever order the additions take effect. *)
Theorem additions_add_up w ptr x vs vs' (m : mem) :
  0 ≤ x < 2 ^ w → m !! ptr = Some x → vs ≡ₚ vs' →
  ∃ rs, run (cplus_atomic_add w ptr <$> vs') m = Done (rs, <[ptr := wrap w (x + sum vs)]> m).
Proof.
  intros Hx H HP. rewrite (sum_perm _ _ HP). apply adds_run. by rewrite wrap_small.
Qed.

Lemma tickets_run w ptr n m x :
  m !! ptr = Some (wrap w x) →
  run (replicate n (cplus_atomic_fetch_add w ptr 1)) m
  = Done ((λ i, wrap w (x + Z.of_nat i)) <$> seq 0 n, <[ptr := wrap w (x + Z.of_nat n)]> m).
Proof.
  revert m x. induction n as [|n IH]; intros m x H; [cbn; by rewrite Z.add_0_r, insert_id|].
  cbn [replicate run]. rewrite (bind_Done _ _ _ _ _ (fetch_run w Z.add ptr 1 m _ H)), wrap_add.
  rewrite (bind_Done _ _ _ _ _ (IH (<[ptr := wrap w (x + 1)]> m) (x + 1) (lookup_insert_eq _ _ _))).
  cbn [mret C_ret seq fmap list_fmap]. rewrite Z.add_0_r, insert_insert_eq, <- fmap_S_seq, <- list_fmap_compose.
  unfold mret, C_ret. replace (x + 1 + Z.of_nat n) with (x + Z.of_nat (S n)) by lia.
  rewrite (list_fmap_ext _ ((λ i, wrap w (x + Z.of_nat i)) ∘ S) (seq 0 n)); [done|].
  intros i k _. cbn. f_equal. lia.
Qed.

(** a counter that is advanced with [cplus_atomic_fetch_add] gives each
    caller another number, as long as it is not advanced all the way round. *)
Theorem tickets_are_distinct w ptr x n (m : mem) :
  0 ≤ w → 0 ≤ x < 2 ^ w → m !! ptr = Some x → Z.of_nat n ≤ 2 ^ w →
  ∃ rs m', run (replicate n (cplus_atomic_fetch_add w ptr 1)) m = Done (rs, m') ∧ NoDup rs ∧ length rs = n.
Proof.
  intros Hw Hx H Hn. eexists _, _. split; [apply tickets_run; by rewrite wrap_small|].
  split; [|by rewrite length_fmap, length_seq].
  apply NoDup_fmap_2_strong; [|apply NoDup_seq]. intros i j Hi%elem_of_seq Hj%elem_of_seq E. unfold wrap in E.
  assert (E' : (x + Z.of_nat i - (x + Z.of_nat j)) `mod` 2 ^ w = 0) by (rewrite Zminus_mod, E, Z.sub_diag; apply Zmod_0_l).
  apply Z.mod_divide in E' as [q Hq]; [|lia]. destruct (Z.lt_trichotomy q 0) as [Hlt|[->|Hlt]]; [|lia|].
  all: pose proof (Zmult_le_compat_r (Z.abs q) 1 (2 ^ w)); exfalso; nia.
Qed.

Lemma exchanges_run w ptr vs m x :
  Forall (λ v, 0 ≤ v < 2 ^ w) vs → m !! ptr = Some x →
  ∃ rs y, run (cplus_atomic_exchange w ptr <$> vs) m = Done (rs, <[ptr := y]> m) ∧ rs ++ [y] = x :: vs.
Proof.
  revert m x. induction vs as [|v vs IH]; intros m x Hvs H; [exists [], x; cbn [fmap list_fmap run]; by rewrite insert_id|].
  apply Forall_cons in Hvs as [Hv Hvs]. cbn [fmap list_fmap run].
  rewrite (bind_Done _ _ _ _ _ (exchange_run w ptr v m x H)), (wrap_small w v Hv).
  destruct (IH (<[ptr := v]> m) v Hvs (lookup_insert_eq _ _ _)) as (rs & y & E & Hr).
  rewrite (bind_Done _ _ _ _ _ E). exists (x :: rs), y. rewrite insert_insert_eq. split; [done|]. cbn. by rewrite Hr.
Qed.

(** threads that exchange pointers pass each of them on exactly once: what
    the calls returned and what is left is what was there and what they stored. *)
Theorem exchanges_conserve ptr x vs (m : mem) :
  Forall (λ v, 0 ≤ v < 2 ^ 64) vs → m !! ptr = Some x →
  ∃ rs y m', run (cplus_atomic_exchange_ptr ptr <$> vs) m = Done (rs, m')
    ∧ cplus_atomic_read_ptr ptr m' = Done (y, m') ∧ rs ++ [y] ≡ₚ x :: vs.
Proof.
  intros Hvs H. destruct (exchanges_run 64 ptr vs m x Hvs H) as (rs & y & E & Hr). exists rs, y, (<[ptr := y]> m).
  split; [exact E|]. split; [|by rewrite Hr]. unfold cplus_atomic_read_ptr, cplus_atomic_read.
  apply word_load, lookup_insert_eq.
Qed.

(** a compare and exchange succeeds exactly when the word has the value that
    was expected; it then stores the new value, and otherwise it hands the value
    it found to the caller and leaves the word alone. *)
Theorem compare_exchange_spec w ptr expect_ptr value_ptr x e v (m : mem) :
  m !! ptr = Some x → m !! expect_ptr = Some e → m !! value_ptr = Some v → 0 ≤ x < 2 ^ w → 0 ≤ v < 2 ^ w →
  cplus_atomic_compare_exchange w ptr expect_ptr value_ptr m
  = if decide (x = e) then Done (true, <[ptr := v]> m) else Done (false, <[expect_ptr := x]> m).
Proof.
  intros Hp He Hv Hx Hr. unfold cplus_atomic_compare_exchange.
  rewrite (bind_Done _ _ _ _ _ (word_load _ _ _ Hv)), (bind_Done _ _ _ _ _ (word_load _ _ _ He)),
    (bind_Done _ _ _ _ _ (word_load _ _ _ Hp)).
  destruct (Z.eqb_spec x e) as [Heq|Hn]; [rewrite decide_True by done|rewrite decide_False by done].
  - by rewrite (bind_Done _ _ _ _ _ (word_store w _ _ _ _ Hp)), wrap_small.
  - by rewrite (bind_Done _ _ _ _ _ (word_store w _ _ _ _ He)), wrap_small.
Qed.

(** ** Witnesses *)

Definition word (x : Z) : mem := {[ 8 := x; 16 := 5; 24 := 9 ]}.

Lemma additions_add_up_witness :
  ∃ rs, run (cplus_atomic_add 32 8 <$> [3; 2; -1]) (word (2 ^ 32 - 1))
        = Done (rs, <[8 := wrap 32 (2 ^ 32 - 1 + sum [2; 3; -1])]> (word (2 ^ 32 - 1))).
Proof. apply (additions_add_up 32 8 (2 ^ 32 - 1) [2; 3; -1]); [lia|reflexivity|apply perm_swap]. Defined.

Lemma tickets_are_distinct_witness :
  ∃ rs m', run (replicate 256 (cplus_atomic_fetch_add 8 8 1)) (word 255) = Done (rs, m') ∧ NoDup rs ∧ length rs = 256%nat.
Proof. apply (tickets_are_distinct 8 8 255 256); [lia|lia|reflexivity|lia]. Defined.

Lemma exchanges_conserve_witness :
  ∃ rs y m', run (cplus_atomic_exchange_ptr 8 <$> [10; 11]) (word 1) = Done (rs, m')
    ∧ cplus_atomic_read_ptr 8 m' = Done (y, m') ∧ rs ++ [y] ≡ₚ [1; 10; 11].
Proof. apply (exchanges_conserve 8 1); [repeat constructor; lia|reflexivity]. Defined.

Lemma compare_exchange_spec_witness :
  cplus_atomic_compare_exchange 32 8 16 24 (word 6) = Done (false, <[16 := 6]> (word 6)).
Proof. apply (compare_exchange_spec 32 8 16 24 6 5 9); [reflexivity..|lia|lia]. Defined.

End Atomic.
