(* ===== verification/Unittest.v ===== *)
(** * Unittest: the runner of the unit tests (src/unittest.c, src/common.h)

    The test programs of the library register their cases in a chain of blocks
    and are run once each, in the order of registration.  This file models the
    expectations of common.h ([UNITTEST_EXPECT_EQ], [UNITTEST_EXPECT_NE]), the
    chain and the run of unittest.c, and the wait for child processes.  A test is
    a program over the world [W] it works on; HelperTests.v and the other files
    of tests give the worlds. *)

From S2P Require Import Prelude Allocator Memmgr.
From stdpp Require Import base numbers list option gmap sets strings.
From Stdlib Require Import ZArith Lia Znumtheory.
Open Scope Z_scope.

Module Unittest.
Import Heap Memmgr.

Definition UNITTEST_NAME_MAX_SIZE : Z := 63.
Definition ENOTSUP : Z := 95.

(** ** Expectations *)

(** [(typeof(actual))v] for the types the tests compare; a pointer is a [u64]. *)
Definition as_bool (v : Z) : Z := if v =? 0 then 0 else 1.

(** What a test prints. *)
Inductive notice :=
| Expected (line : Z)
| Unexpected (line actual expect : Z)
| CaseName (test_case_name test_name : list Z)
| TestResult (passed : bool)
| ChildEnd (passed : bool) (total : Z).

(** The variables of a running test: the flag [failed] of the runner, the globals
    [retval_testfunc] and [total_failed_count], the process, and what was printed,
    the last first. *)
Record tstate (W : Type) := TState {
  world : W;
  failed : bool;
  retval_testfunc : Z;
  total_failed_count : Z;
  pid : Z;
  out : list notice }.
Arguments TState {W}.
Arguments world {W}.
Arguments failed {W}.
Arguments retval_testfunc {W}.
Arguments total_failed_count {W}.
Arguments pid {W}.
Arguments out {W}.

Section expect.
Context {W : Type}.
Notation S := (tstate W).
Notation T := (C (tstate W)).

Definition with_world (w : W) (s : S) : S :=
  TState w (failed s) (retval_testfunc s) (total_failed_count s) (pid s) (out s).
Definition with_failed (b : bool) (s : S) : S :=
  TState (world s) b (retval_testfunc s) (total_failed_count s) (pid s) (out s).
Definition with_retval (v : Z) (s : S) : S :=
  TState (world s) (failed s) v (total_failed_count s) (pid s) (out s).
Definition with_total (n : Z) (s : S) : S :=
  TState (world s) (failed s) (retval_testfunc s) n (pid s) (out s).
Definition with_out (l : list notice) (s : S) : S :=
  TState (world s) (failed s) (retval_testfunc s) (total_failed_count s) (pid s) l.

(** A call of the library within a test. *)
Definition lift {A} (m : C W A) : T A := λ s,
  match m (world s) with
  | Done (a, w) => Done (a, with_world w s)
  | Aborts => Aborts | Hangs => Hangs | Undefined => Undefined
  end.

Definition print (n : notice) : T unit := modify (λ s, with_out (n :: out s) s).

(** [*failed = true; total_failed_count ++;] *)
Definition count_failure : T unit :=
  modify (λ s, with_failed true (with_total (s32 (total_failed_count s + 1)) s)).

(** The part the two macros share: [bad] compares what is expected and what was
    returned, both of the type of [actual].  The call may leave more than the
    value that is compared, [value] takes that out of its result. *)
Definition expectation {A} (bad : Z → Z → bool) (line : Z) (ty : Z → Z) (expect : Z)
    (actual : C W A) (value : A → Z) : T A :=
  a ← lift actual;
  modify (with_retval (s64 (value a)));;
  r ← gets retval_testfunc;
  (if (ty ENOTSUP =? ty r : bool) then mret tt
   else
     print (Expected line);;
     if (bad (ty expect) (ty r) : bool) then
       print (Unexpected line r (s64 expect));;
       count_failure
     else mret tt);;
  mret a.

Definition differ (e r : Z) : bool := negb (e =? r).

Definition UNITTEST_EXPECT_EQ (line : Z) (ty : Z → Z) (expect : Z) (actual : C W Z) : T Z :=
  expectation differ line ty expect actual id.
Definition UNITTEST_EXPECT_NE (line : Z) (ty : Z → Z) (expect : Z) (actual : C W Z) : T Z :=
  expectation Z.eqb line ty expect actual id.

(** An expectation of [CPLUS_NULL != (var = actual)] or of [CPLUS_NULL == (var = actual)]:
    a comparison of type [int], which leaves the pointer in [var]. *)
Definition not_null (p : Z) : Z := Z.b2z (negb (p =? 0)).
Definition is_null (p : Z) : Z := Z.b2z (p =? 0).
Definition EXPECT_EQ_SET (line expect : Z) (value : Z → Z) (actual : C W Z) : T Z :=
  expectation differ line s32 expect actual value.
Definition EXPECT_NE_SET (line expect : Z) (value : Z → Z) (actual : C W Z) : T Z :=
  expectation Z.eqb line s32 expect actual value.

(** An expectation of a call that also writes through a pointer: what it wrote. *)
Definition EXPECT_EQ_OUT {A} (line : Z) (ty : Z → Z) (expect : Z) (actual : C W (Z * A)) : T A :=
  r ← expectation differ line ty expect actual fst; mret (snd r).

End expect.

(** ** The chain of test cases *)

Record test_case (W : Type) := TestCase {
  test_case_name : list Z;
  test_name : list Z;
  test_case_func : C (tstate W) unit;
  next : Z }.
Arguments TestCase {W}.
Arguments test_case_name {W}.
Arguments test_name {W}.
Arguments test_case_func {W}.
Arguments next {W}.

(** The globals of unittest.c: [test_cases] points to the first case, the cases
    are blocks of the heap. *)
Record st (W : Type) := St {
  test_cases : Z;
  cases : gmap Z (test_case W);
  heap_of : heap;
  parents_id : Z;
  test : tstate W }.
Arguments St {W}.
Arguments test_cases {W}.
Arguments cases {W}.
Arguments heap_of {W}.
Arguments parents_id {W}.
Arguments test {W}.

Section runner.
Context {W : Type}.
Notation S := (st W).
Notation M := (C (st W)).

(** What the bytes of a name were when its block was allocated. *)
Variable raw : list Z.

Definition with_head (p : Z) (s : S) : S := St p (cases s) (heap_of s) (parents_id s) (test s).
Definition with_cases (c : gmap Z (test_case W)) (s : S) : S :=
  St (test_cases s) c (heap_of s) (parents_id s) (test s).
Definition with_heap (h : heap) (s : S) : S :=
  St (test_cases s) (cases s) h (parents_id s) (test s).
Definition with_test (t : tstate W) (s : S) : S :=
  St (test_cases s) (cases s) (heap_of s) (parents_id s) t.

Definition set_next (p : Z) (c : test_case W) : test_case W :=
  TestCase (test_case_name c) (test_name c) (test_case_func c) p.

Definition malloc : M Z := λ s,
  match cplus_malloc (heap_of s) with
  | Done (p, h) => Done (p, with_heap h s)
  | Aborts => Aborts | Hangs => Hangs | Undefined => Undefined
  end.

(** [free(p)] of a test case. *)
Definition free_case (p : Z) : M unit := λ s,
  match cplus_free p (heap_of s) with
  | Done h => Done (tt, with_cases (delete p (cases s)) (with_heap h s))
  | Aborts => Aborts | Hangs => Hangs | Undefined => Undefined
  end.

Definition print_name (nm : list Z) : M (list Z) := λ s,
  match cplus_str_printf raw UNITTEST_NAME_MAX_SIZE nm with
  | Done r => Done (r, s)
  | Aborts => Aborts | Hangs => Hangs | Undefined => Undefined
  end.

Definition case_field {B} (p : Z) (f : test_case W → B) : M B := deref (λ s, f <$> cases s !! p).

(** [for (last_case = test_cases; last_case->next; last_case = last_case->next) { }] *)
Fixpoint last_of (fuel : nat) (last_case : Z) : M Z :=
  n ← case_field last_case next;
  if n =? 0 then mret last_case
  else match fuel with O => hang | Datatypes.S fuel => last_of fuel n end.

Definition unittest_add_test_case (case_name name : list Z) (test_func : C (tstate W) unit) : M Z :=
  cs ← malloc;
  if cs =? 0 then mret cs
  else
    n1 ← print_name case_name;
    n2 ← print_name name;
    modify (λ s, with_cases (<[cs := TestCase n1 n2 test_func 0]> (cases s)) s);;
    first ← gets test_cases;
    (if first =? 0 then modify (with_head cs)
     else
       fuel ← gets (λ s, size (cases s));
       last_case ← last_of fuel first;
       case_field last_case next;;
       modify (λ s, with_cases (alter (set_next cs) last_case (cases s)) s));;
    mret cs.

(** ** The run *)

Definition on_test {A} (m : C (tstate W) A) : M A := λ s,
  match m (test s) with
  | Done (a, t) => Done (a, with_test t s)
  | Aborts => Aborts | Hangs => Hangs | Undefined => Undefined
  end.

(** The child process frees what it does not run. *)
Fixpoint clean (fuel : nat) : M unit :=
  h ← gets test_cases;
  if h =? 0 then mret tt
  else match fuel with
       | O => hang
       | Datatypes.S fuel =>
           next_case ← case_field h next;
           free_case h;;
           modify (with_head next_case);;
           clean fuel
       end.

(** After a case: true when the process ended with [exit(0)]. *)
Definition end_case (fuel : nat) : M bool :=
  parent ← gets parents_id;
  me ← gets (pid ∘ test);
  bad ← gets (failed ∘ test);
  total ← gets (total_failed_count ∘ test);
  if (me =? parent : bool) then
    on_test (print (TestResult (negb bad)));;
    mret false
  else
    clean fuel;;
    on_test (print (ChildEnd (negb bad) total));;
    mret true.

(** One turn of the loop of [unittest_run]. *)
Definition run_case (fuel : nat) (h : Z) : M bool :=
  next_case ← case_field h next;
  n1 ← case_field h test_case_name;
  n2 ← case_field h test_name;
  on_test (print (CaseName n1 n2));;
  on_test (modify (with_failed false));;
  f ← case_field h test_case_func;
  on_test f;;
  free_case h;;
  modify (with_head next_case);;
  end_case fuel.

Fixpoint run_loop (fuel : nat) : M bool :=
  h ← gets test_cases;
  if h =? 0 then mret false
  else match fuel with
       | O => hang
       | Datatypes.S fuel =>
           ended ← run_case fuel h;
           if (ended : bool) then mret true else run_loop fuel
       end.

Definition unittest_run : M bool := n ← gets (λ s, size (cases s)); run_loop n.

End runner.

(** ** A test program

    The names of a case are the arguments of the macros as texts.  [main] has the
    cases of one file; it answers true in a child that ended with [exit(0)]. *)
Definition cstr (s : string) : list Z :=
  (λ c, Z.of_N (Ascii.N_of_ascii c)) <$> String.list_ascii_of_string s.

Section program.
Context {W : Type}.

Definition named_test : Type := string * string * C (tstate W) unit.

(** [UNITTEST_ADD_TESTCASE] for each case, on blocks whose bytes were [raw]. *)
Fixpoint add_tests (raw : list Z) (l : list named_test) : C (st W) unit :=
  match l with
  | [] => mret tt
  | (a, b, f) :: l => unittest_add_test_case raw (cstr a) (cstr b) f;; add_tests raw l
  end.

Definition main (l : list named_test) : C (st W) bool :=
  add_tests (replicate 64 0) l;; unittest_run.

(** A new process, in the world [w]. *)
Definition process (w : W) : st W := St 0 ∅ empty_heap 1000 (TState w false 0 0 1000 []).

(** The lines and values of the expectations that were not met, the first last,
    and how many cases passed. *)
Definition unmet (l : list notice) : list (Z * Z * Z) :=
  omap (λ n, match n with Unexpected line a e => Some (line, a, e) | _ => None end) l.
Definition passes (l : list notice) : nat :=
  length (omap (λ n, match n with TestResult true => Some tt | _ => None end) l).
Definition checks (l : list notice) : nat :=
  length (omap (λ n, match n with Expected line => Some line | _ => None end) l).

(** The cases that passed, the expectations checked, the expectations not met and
    [total_failed_count], when the program ends. *)
Definition report_of (l : list named_test) (w : W) : outcome (nat * nat * list (Z * Z * Z) * Z) :=
  match main l (process w) with
  | Done (_, s) =>
      let o := out (test s) in Done (passes o, checks o, unmet o, total_failed_count (test s))
  | Aborts => Aborts | Hangs => Hangs | Undefined => Undefined
  end.

(** The lines of the expectations a test compared. *)
Definition checked_lines (f : C (tstate W) unit) (w : W) : list Z :=
  match f (TState w false 0 0 1000 []) with
  | Done (_, t) => omap (λ n, match n with Expected line => Some line | _ => None end) (out t)
  | _ => []
  end.

End program.

(** ** Waiting for a child

    [waitpid n] is what [waitpid(-1, 0, WNOHANG)] answers at turn [n].  The
    result is the value returned, [errno] when it is set, and the number of naps
    of half a second; [None] is a wait that goes on. *)
Fixpoint wait_loop (fuel : nat) (waitpid : nat → Z) (n : nat) (timeout : Z)
    : option (Z * option Z * nat) :=
  if 0 <? timeout then
    if (0 <? waitpid n) || (timeout <=? 0) then Some (CPLUS_SUCCESS, None, n)
    else match fuel with
         | O => None
         | Datatypes.S fuel => wait_loop fuel waitpid (Datatypes.S n) (u32 (timeout - 500))
         end
  else Some (CPLUS_FAIL, Some ETIMEDOUT, n).

Definition unittest_wait_child_proc_end (fuel : nat) (waitpid : nat → Z) (timeout : Z)
    : option (Z * option Z * nat) := wait_loop fuel waitpid 0 (u32 timeout).

End Unittest.
