(* ===== verification/UnittestProps.v ===== *)
(** * UnittestProps: what the runner of the tests does with them

    The chain of blocks is a list of registered cases; the run executes them once
    each, in order, and gives back every block, in the parent and in a child that
    ends.  The wait for children ends only for some times.  An expectation of the
    type [bool] compares nothing when the answer is true. *)

From S2P Require Import Prelude Allocator Zlist Memmgr Unittest.
From stdpp Require Import base numbers list option gmap sets.
From Stdlib Require Import ZArith Lia Znumtheory.
Open Scope Z_scope.

Module UnittestProps.
Import Heap Zlist Memmgr Unittest.

(** ** Expectations *)

Section expect.
Context {W : Type}.

(** What an expectation does when the call returns [v]. *)
Definition judged (bad : Z → Z → bool) (line : Z) (ty : Z → Z) (expect v : Z) (s : tstate W) : tstate W :=
  let s := with_retval (s64 v) s in
  if ty ENOTSUP =? ty (s64 v) then s
  else if bad (ty expect) (ty (s64 v)) then
    with_failed true (with_total (s32 (total_failed_count s + 1))
      (with_out (Unexpected line (s64 v) (s64 expect) :: Expected line :: out s) s))
  else with_out (Expected line :: out s) s.

Lemma expectation_run {A} bad line ty expect (m : C W A) (value : A → Z) (s : tstate W) a w :
  m (world s) = Done (a, w) →
  expectation bad line ty expect m value s
  = Done (a, judged bad line ty expect (value a) (with_world w s)).
Proof.
  intros E. unfold expectation, judged. erewrite bind_Done by (unfold lift; by rewrite E).
  crun. cbn [with_retval retval_testfunc]. destruct (ty ENOTSUP =? ty (s64 (value a))); [done|].
  unfold print, count_failure. crun. cbn [with_out retval_testfunc].
  destruct (bad (ty expect) (ty (s64 (value a)))); done.
Qed.

End expect.

(** ** The chain *)

Section chain.
Context {W : Type}.

Fixpoint chain (cs : gmap Z (test_case W)) (p : Z) (l : list (Z * test_case W)) : Prop :=
  match l with
  | [] => p = 0
  | (a, c) :: l => p = a ∧ a ≠ 0 ∧ cs !! a = Some c ∧ chain cs (next c) l
  end.

Record rep (s : st W) (l : list (Z * test_case W)) : Prop := Rep {
  rep_chain : chain (cases s) (test_cases s) l;
  rep_nodup : NoDup l.*1;
  rep_dom : dom (cases s) = list_to_set l.*1;
  rep_heap : heap_ok (heap_of s) (dom (cases s)) }.

(** A registered case: its names as stored and its function. *)
Definition entry : Type := list Z * list Z * C (tstate W) unit.
Definition entry_of (c : test_case W) : entry :=
  (test_case_name c, test_name c, test_case_func c).

Definition registered (s : st W) (v : list entry) : Prop :=
  ∃ l, rep s l ∧ (entry_of ∘ snd) <$> l = v.

Lemma chain_frame cs cs' p l :
  (∀ a, a ∈ l.*1 → cs' !! a = cs !! a) → chain cs p l → chain cs' p l.
Proof.
  revert p. induction l as [|[a c] l IH]; intros p Hf; [done|].
  intros (-> & Ha & Hc & Hl). split_and!; [done|done| |].
  - rewrite Hf; [done|]. set_solver.
  - apply IH; [|done]. intros b Hb. apply Hf. set_solver.
Qed.

(** ** Registration *)

Definition stored (raw nm : list Z) : list Z :=
  let out := take 62 nm ++ [0] in out ++ drop (length out) raw.

Lemma print_test_name raw nm (s : st W) :
  63 ≤ zlen raw → print_name raw nm s = Done (stored raw nm, s).
Proof.
  intros Hr. unfold print_name, cplus_str_printf, stored.
  change (UNITTEST_NAME_MAX_SIZE =? 0) with false.
  change (Z.to_nat (UNITTEST_NAME_MAX_SIZE - 1)) with 62%nat. cbv iota.
  rewrite (proj2 (Z.leb_le _ _)); [done|].
  unfold zlen in *. rewrite length_app, length_take. cbn [length]. lia.
Qed.

Lemma last_of_eq fuel p :
  @last_of W fuel p = (n ← case_field p next;
    if n =? 0 then mret p else match fuel with O => hang | Datatypes.S fuel => last_of fuel n end).
Proof. by destruct fuel. Qed.

(** Walking to the last case of a chain. *)
Lemma last_of_run (s : st W) l a c : ∀ fuel p,
  chain (cases s) p (l ++ [(a, c)]) → (length l ≤ fuel)%nat → last_of fuel p s = Done (a, s).
Proof.
  induction l as [|[b d] l IH]; intros fuel p Hc Hf; simpl in Hc; destruct Hc as (-> & Hb & Hd & Hc);
    rewrite last_of_eq.
  - erewrite bind_Done by (unfold case_field, deref; by rewrite Hd). rewrite Hc. done.
  - erewrite bind_Done by (unfold case_field, deref; by rewrite Hd).
    assert (next d ≠ 0) as Hn. { destruct l as [|[??]?]; destruct Hc as (-> & ? & _); done. }
    rewrite (proj2 (Z.eqb_neq _ _) Hn). destruct fuel; [simpl in Hf; lia|].
    apply IH; [done|]. simpl in Hf. lia.
Qed.

Lemma chain_append cs p l a c q d :
  chain cs p (l ++ [(a, c)]) → NoDup (l ++ [(a, c)]).*1 → q ∉ (l ++ [(a, c)]).*1 → q ≠ 0 →
  cs !! q = Some d → next d = 0 →
  chain (alter (set_next q) a cs) p (l ++ [(a, set_next q c); (q, d)]).
Proof.
  revert p. induction l as [|[b e] l IH]; intros p; simpl.
  - intros (-> & Ha & Hc & _) _ Hq Hq0 Hd Hn. split_and!; try done.
    + by rewrite lookup_alter_eq, Hc.
    + rewrite lookup_alter_ne by set_solver. done.
  - intros (-> & Hb & He & Hc) [Hnb Hnd]%NoDup_cons [Hqb Hq]%not_elem_of_cons Hq0 Hd Hn.
    split_and!; [done|done| |by apply IH].
    rewrite lookup_alter_ne; [done|]. intros ->. apply Hnb.
    change (b ∈ (l ++ [(b, c)]).*1). rewrite fmap_app. apply elem_of_app. right. by constructor.
Qed.

(** A block that is added to the heap and linked behind the last case. *)
Lemma rep_append (s : st W) l q d h t :
  rep s l → q ≠ 0 → q ∉ dom (cases s) → next d = 0 → heap_ok h ({[q]} ∪ dom (cases s)) →
  let cs := <[q := d]> (cases s) in
  match l with
  | [] => rep (St q cs h (parents_id s) t) [(q, d)]
  | _ => ∀ l' a c, l = l' ++ [(a, c)] →
      rep (St (test_cases s) (alter (set_next q) a cs) h (parents_id s) t)
        (l' ++ [(a, set_next q c); (q, d)])
  end.
Proof.
  intros [Hc Hnd Hdom Hh] Hq Hfresh Hn Hh' cs. destruct l as [|x l0].
  - split; simpl; unfold cs; rewrite ?dom_insert_L; [by rewrite lookup_insert_eq| | |done].
    + apply NoDup_singleton.
    + rewrite Hdom. set_solver.
  - intros l' a c El. rewrite El in *. clear El.
    assert (q ∉ (l' ++ [(a, c)]).*1) as Hql.
    { intros Hin. apply Hfresh. rewrite Hdom. by apply elem_of_list_to_set. }
    assert (chain cs (test_cases s) (l' ++ [(a, c)])) as Hc'.
    { eapply chain_frame; [|exact Hc]. intros b Hb. unfold cs. apply lookup_insert_ne.
      intros <-. contradiction. }
    assert ((l' ++ [(a, set_next q c); (q, d)]).*1 = (l' ++ [(a, c)]).*1 ++ [q]) as Ek.
    { rewrite !fmap_app, <- app_assoc. done. }
    split; simpl.
    + eapply chain_append; try done. unfold cs. apply lookup_insert_eq.
    + rewrite Ek. apply NoDup_app. split_and!; [done| |apply NoDup_singleton].
      intros b Hb ->%list_elem_of_singleton. contradiction.
    + rewrite Ek, dom_alter_L. unfold cs. rewrite dom_insert_L, Hdom, list_to_set_app_L. set_solver.
    + by rewrite dom_alter_L; unfold cs; rewrite dom_insert_L.
Qed.

Lemma view_append (l : list (Z * test_case W)) a c q d :
  (entry_of ∘ snd) <$> (l ++ [(a, set_next q c); (q, d)])
  = ((entry_of ∘ snd) <$> (l ++ [(a, c)])) ++ [entry_of d].
Proof. rewrite !fmap_app, <- app_assoc. done. Qed.

Lemma chain_length (s : st W) l : rep s l → length l = size (cases s).
Proof.
  intros [_ Hnd Hdom _]. rewrite <- size_dom, Hdom, size_list_to_set by done. by rewrite length_fmap.
Qed.

End chain.

(** ** Registration and run *)

Section run.
Context {W : Type} (raw : list Z).
Hypothesis raw_long : 63 ≤ zlen raw.

Lemma add_case_works (s : st W) v cn n (f : C (tstate W) unit) :
  registered s v →
  ∃ p s', unittest_add_test_case raw cn n f s = Done (p, s') ∧
    test s' = test s ∧ parents_id s' = parents_id s ∧
    registered s' (if p =? 0 then v else v ++ [(stored raw cn, stored raw n, f)]).
Proof using raw_long.
  intros (l & Hr & <-). pose proof Hr as [Hc Hnd Hdom Hh].
  destruct (heap_new _ _ Hh) as (p & h & Em & Hcase).
  unfold unittest_add_test_case.
  erewrite bind_Done by (unfold malloc; by rewrite Em).
  destruct Hcase as [[-> Hh']|(Hp & Hfresh & Hh')].
  { do 2 eexists. split_and!; [done|done|done|]. exists l. split; [|done]. by split. }
  rewrite (proj2 (Z.eqb_neq _ _) Hp).
  erewrite bind_Done by (by apply print_test_name).
  erewrite bind_Done by (by apply print_test_name).
  set (d := TestCase (stored raw cn) (stored raw n) f 0).
  erewrite bind_Done by done. erewrite bind_Done by done. cbn [with_heap with_cases test_cases cases].
  pose proof (rep_append s l p d h (test s) Hr Hp Hfresh eq_refl Hh') as Ha. cbv zeta in Ha.
  destruct (list.last l) as [[a c]|] eqn:El.
  - apply last_Some in El as (l' & ->).
    assert (test_cases s ≠ 0) as H0.
    { destruct l' as [|[??]?]; destruct Hc as (-> & ? & _); done. }
    rewrite (proj2 (Z.eqb_neq _ _) H0).
    assert (chain (<[p := d]> (cases s)) (test_cases s) (l' ++ [(a, c)])) as Hc'.
    { eapply chain_frame; [|exact Hc]. intros b Hb. apply lookup_insert_ne. intros <-.
      apply Hfresh. rewrite Hdom. by apply elem_of_list_to_set. }
    assert (<[p := d]> (cases s) !! a = Some c) as Hac.
    { clear -Hc'. revert Hc'. generalize (test_cases s). induction l' as [|[??]? IH]; intros x; simpl.
      - by intros (_ & _ & ? & _).
      - intros (_ & _ & _ & Hx). by apply IH in Hx. }
    erewrite bind_Done.
    2: { erewrite bind_Done by done. erewrite bind_Done; [|eapply last_of_run; [exact Hc'|]].
         - erewrite bind_Done by (unfold case_field, deref; cbn [cases with_cases]; by rewrite Hac). done.
         - cbn [cases with_cases]. rewrite map_size_insert_None by (by apply not_elem_of_dom).
           rewrite <- (chain_length _ _ Hr), length_app. lia. }
    do 2 eexists. split; [done|]. split_and!; [done|done|].
    rewrite (proj2 (Z.eqb_neq _ _) Hp). exists (l' ++ [(a, set_next p c); (p, d)]).
    split; [|apply view_append]. destruct l'; apply (Ha _ _ _ eq_refl).
  - apply last_None in El. subst l. cbn in Hc. rewrite Hc.
    do 2 eexists. split; [done|]. split_and!; [done|done|].
    rewrite (proj2 (Z.eqb_neq _ _) Hp). exists [(p, d)]. split; [exact Ha|done].
Qed.

End run.

Section runs.
Context {W : Type}.

(** What a run is of the list of cases: each one in turn, until the list ends or
    a case comes back in another process. *)
Fixpoint run_spec (parent : Z) (v : list entry) : C (tstate W) bool :=
  match v with
  | [] => mret false
  | (n1, n2, f) :: v =>
      print (CaseName n1 n2);;
      modify (with_failed false);;
      f;;
      me ← gets pid;
      bad ← gets failed;
      total ← gets total_failed_count;
      if (me =? parent : bool) then print (TestResult (negb bad));; run_spec parent v
      else print (ChildEnd (negb bad) total);; mret true
  end.

Definition same_but (s s' : st W) : Prop := test s' = test s ∧ parents_id s' = parents_id s.

Lemma free_case_run (s : st W) a c l :
  rep s ((a, c) :: l) →
  ∃ h, free_case a s = Done (tt, with_cases (delete a (cases s)) (with_heap h s)) ∧
    rep (with_head (next c) (with_cases (delete a (cases s)) (with_heap h s))) l.
Proof.
  intros [(Ea & Ha & Hac & Hc) [Hn Hnd]%NoDup_cons Hdom Hh].
  assert (a ∈ dom (cases s)) as Hin by (apply elem_of_dom; eauto).
  destruct (heap_release _ _ _ Hh Hin) as (h & Ef & Hh'). exists h. unfold free_case. rewrite Ef.
  split; [done|]. split; cbn [cases test_cases with_head with_cases heap_of with_heap]; [|done| |].
  - eapply chain_frame; [|exact Hc]. intros b Hb. apply lookup_delete_ne. intros <-. contradiction.
  - rewrite dom_delete_L, Hdom. cbn. apply set_eq. intros b.
    rewrite elem_of_difference, elem_of_union, !elem_of_singleton, elem_of_list_to_set.
    split; [intros [[->|?] ?]; done|]. intros Hb. split; [by right|]. intros ->. contradiction.
  - by rewrite dom_delete_L.
Qed.

Lemma clean_run l : ∀ (s : st W) fuel,
  rep s l → (length l ≤ fuel)%nat →
  ∃ s', clean fuel s = Done (tt, s') ∧ rep s' [] ∧ same_but s s'.
Proof.
  induction l as [|[a c] l IH]; intros s fuel Hr Hf.
  - exists s. split; [|done]. pose proof (rep_chain _ _ Hr) as E. cbn in E.
    destruct fuel; cbn [clean]; erewrite bind_Done by done; by rewrite E.
  - destruct fuel as [|fuel]; [simpl in Hf; lia|]. simpl in Hf.
    destruct (free_case_run _ _ _ _ Hr) as (h & Ef & Hr').
    destruct (rep_chain _ _ Hr) as (Ea & Ha & Hac & _).
    destruct (IH _ fuel Hr' ltac:(lia)) as (s' & E & Hr'' & Hs).
    exists s'. split; [|done]. cbn [clean]. erewrite bind_Done by done. rewrite Ea.
    rewrite (proj2 (Z.eqb_neq _ _) Ha).
    erewrite bind_Done by (unfold case_field, deref; by rewrite Hac).
    erewrite bind_Done by exact Ef. by erewrite bind_Done by done.
Qed.

Definition refines (o : outcome (bool * tstate W)) (r : outcome (bool * st W)) : Prop :=
  match o with
  | Done (b, t) => ∃ s', r = Done (b, s') ∧ test s' = t ∧ rep s' []
  | Aborts => r = Aborts
  | Hangs => r = Hangs
  | Undefined => r = Undefined
  end.

Lemma rep_with_test t (s : st W) l : rep s l → rep (with_test t s) l.
Proof. by intros []. Qed.

(** The test state in which the function of a case starts. *)
Definition started (c : test_case W) (t : tstate W) : tstate W :=
  with_failed false (with_out (CaseName (test_case_name c) (test_name c) :: out t) t).

Lemma run_case_start (s : st W) a c fuel :
  cases s !! a = Some c →
  run_case fuel a s
  = (on_test (test_case_func c);; free_case a;; modify (with_head (next c));; end_case fuel)
      (with_test (started c (test s)) s).
Proof.
  intros Hac. unfold run_case.
  do 3 (erewrite bind_Done by (unfold case_field, deref; by rewrite Hac)).
  erewrite bind_Done by done. erewrite bind_Done by done.
  by erewrite bind_Done by (unfold case_field, deref; cbn [cases with_test]; by rewrite Hac).
Qed.

Lemma end_case_run (s : st W) l fuel :
  rep s l → (length l ≤ fuel)%nat →
  let t := test s in
  if pid t =? parents_id s then
    end_case fuel s = Done (false, with_test (with_out (TestResult (negb (failed t)) :: out t) t) s)
  else ∃ s', end_case fuel s = Done (true, s') ∧ rep s' [] ∧
    test s' = with_out (ChildEnd (negb (failed t)) (total_failed_count t) :: out t) t.
Proof.
  intros Hr Hf t. unfold end_case. do 4 erewrite bind_Done by done. cbn [compose]. fold t.
  destruct (pid t =? parents_id s); [done|].
  destruct (clean_run l s fuel Hr Hf) as (s' & Ec & Hr' & Ht & _).
  eexists. split; [by erewrite bind_Done by exact Ec|]. split; [by apply rep_with_test|].
  cbn. by rewrite Ht.
Qed.

(** A case whose function returns, up to the end of the run or the next case. *)
Lemma run_case_done (s : st W) a c l fuel t1 :
  rep s ((a, c) :: l) → (length l ≤ fuel)%nat →
  test_case_func c (started c (test s)) = Done (tt, t1) →
  let bad := negb (failed t1) in
  if pid t1 =? parents_id s then
    ∃ s', run_case fuel a s = Done (false, s') ∧ rep s' l ∧ parents_id s' = parents_id s ∧
      test s' = with_out (TestResult bad :: out t1) t1
  else
    ∃ s', run_case fuel a s = Done (true, s') ∧ rep s' [] ∧
      test s' = with_out (ChildEnd bad (total_failed_count t1) :: out t1) t1.
Proof.
  intros Hr Hf Ef bad. destruct (rep_chain _ _ Hr) as (Ea & Ha & Hac & _).
  destruct (free_case_run (with_test t1 s) a c l (rep_with_test _ _ _ Hr)) as (h & Efree & Hr').
  pose proof (end_case_run _ l fuel Hr' Hf) as He. cbn zeta in He.
  cbn [test parents_id with_head with_cases with_heap with_test] in He.
  rewrite (run_case_start s a c fuel Hac).
  erewrite bind_Done by (unfold on_test; cbn [test with_test]; by rewrite Ef).
  erewrite bind_Done by exact Efree. erewrite bind_Done by done.
  destruct (pid t1 =? parents_id s); [|exact He].
  eexists. split; [exact He|]. split_and!; [by apply rep_with_test|done|done].
Qed.

(** A case whose function does not return. *)
Lemma run_case_stuck (s : st W) a c fuel :
  cases s !! a = Some c →
  match test_case_func c (started c (test s)) with
  | Done _ => True
  | Aborts => run_case fuel a s = Aborts
  | Hangs => run_case fuel a s = Hangs
  | Undefined => run_case fuel a s = Undefined
  end.
Proof.
  intros Hac. rewrite (run_case_start s a c fuel Hac). unfold on_test. crun. cbn [test with_test].
  by destruct (test_case_func c (started c (test s))).
Qed.

Lemma run_loop_refines l : ∀ (s : st W) fuel,
  rep s l → (length l ≤ fuel)%nat →
  refines (run_spec (parents_id s) ((entry_of ∘ snd) <$> l) (test s)) (run_loop fuel s).
Proof.
  induction l as [|[a c] l IH]; intros s fuel Hr Hf.
  - exists s. split; [|done]. pose proof (rep_chain _ _ Hr) as E. cbn in E.
    destruct fuel; cbn [run_loop]; erewrite bind_Done by done; by rewrite E.
  - destruct fuel as [|fuel]; [simpl in Hf; lia|]. simpl in Hf.
    destruct (rep_chain _ _ Hr) as (Ea & Ha & Hac & _).
    cbn [fmap list_fmap run_spec]. unfold entry_of at 1. cbn [compose snd].
    erewrite bind_Done by done. erewrite bind_Done by done.
    change (with_failed false _) with (started c (test s)).
    cbn [run_loop]. rewrite (bind_Done (gets test_cases)) with (a := test_cases s) (s' := s) by done.
    rewrite Ea, (proj2 (Z.eqb_neq _ _) Ha).
    pose proof (run_case_stuck s a c fuel Hac) as Hstuck.
    destruct (test_case_func c (started c (test s))) as [[[] t1]| | |] eqn:Ef.
    2-4: unfold mbind, C_bind; rewrite Ef, Hstuck; done.
    pose proof (run_case_done s a c l fuel t1 Hr ltac:(lia) Ef) as Hcase. cbv zeta in Hcase.
    erewrite bind_Done by exact Ef. do 3 erewrite bind_Done by done.
    destruct (pid t1 =? parents_id s).
    + destruct Hcase as (s' & E & Hr' & Hp & Ht). rewrite (bind_Done _ _ _ _ _ E).
      erewrite bind_Done by done. rewrite <- Hp.
      replace (with_out _ t1) with (test s'). by apply IH; [|lia].
    + destruct Hcase as (s' & E & Hr' & Ht). exists s'. split; [|done].
      by rewrite (bind_Done _ _ _ _ _ E).
Qed.

End runs.
(** ** Waiting for a child *)

Section wait.
Variable waitpid : nat → Z.

(** What is left of the time at turn [n]. *)
Definition left_at (timeout : Z) (n : nat) : Z := u32 (timeout - 500 * Z.of_nat n).

Lemma wait_turn fuel n timeout :
  wait_loop (S fuel) waitpid n (left_at timeout n)
  = if left_at timeout n =? 0 then Some (CPLUS_FAIL, Some ETIMEDOUT, n)
    else if 0 <? waitpid n then Some (CPLUS_SUCCESS, None, n)
    else wait_loop fuel waitpid (S n) (left_at timeout (S n)).
Proof.
  assert (u32 (left_at timeout n - 500) = left_at timeout (S n)) as <-.
  { unfold left_at, u32. rewrite Zminus_mod_idemp_l. f_equal. lia. }
  pose proof (u32_range (timeout - 500 * Z.of_nat n)) as Hr. fold (left_at timeout n) in Hr.
  cbn [wait_loop]. destruct (Z.eqb_spec (left_at timeout n) 0) as [E|E].
  - rewrite E. done.
  - rewrite (proj2 (Z.ltb_lt _ _)) by lia. rewrite (proj2 (Z.leb_gt _ _)) by lia.
    by rewrite orb_false_r.
Qed.

(** The first turn at which the time is used up or a child ended decides. *)
Lemma wait_until timeout k : ∀ n fuel,
  (∀ i, (n ≤ i < n + k)%nat → left_at timeout i ≠ 0 ∧ waitpid i ≤ 0) →
  wait_loop (k + fuel) waitpid n (left_at timeout n)
  = wait_loop fuel waitpid (n + k) (left_at timeout (n + k)).
Proof.
  induction k as [|k IH]; intros n fuel Hi; [by rewrite Nat.add_0_r|].
  cbn [Nat.add]. rewrite wait_turn. destruct (Hi n ltac:(lia)) as [H0 Hw].
  rewrite (proj2 (Z.eqb_neq _ _) H0), (proj2 (Z.ltb_ge _ _) Hw).
  rewrite IH by (intros i ?; apply Hi; lia). by replace (n + S k)%nat with (S n + k)%nat by lia.
Qed.

(** Without a child, some turn has used up the time if it is a multiple of 4: 125
    has an inverse modulo 2^30. *)
Lemma time_is_used_up t : (4 | t) → ∃ n, left_at t n = 0.
Proof.
  intros [q ->]. exists (Z.to_nat ((q * 652835029) `mod` 2 ^ 30)).
  pose proof (Z.mod_pos_bound (q * 652835029) (2 ^ 30) ltac:(lia)).
  unfold left_at. rewrite Z2Nat.id by lia.
  pose proof (Z.div_mod (q * 652835029) (2 ^ 30) ltac:(lia)) as E.
  apply Z.mod_divide; [lia|].
  exists (125 * ((q * 652835029) / 2 ^ 30) - 76 * q). lia.
Qed.

Lemma used_up_divides t n : left_at t n = 0 → (4 | t).
Proof.
  intros H. apply Z.mod_divide in H as [q E]; [|lia]. exists (2 ^ 30 * q + 125 * Z.of_nat n). lia.
Qed.

(** The first turn that uses up the time. *)
Lemma first_used_up t m : left_at t m = 0 →
  ∃ n, left_at t n = 0 ∧ ∀ i, (i < n)%nat → left_at t i ≠ 0.
Proof.
  induction m as [m IH] using lt_wf_ind. intros Hm.
  destruct (decide (Exists (λ i, left_at t i = 0) (seq 0 m))) as [(i & Hi%elem_of_seq & H0)%Exists_exists|Hno].
  - apply (IH i); [lia|done].
  - exists m. split; [done|]. intros i Hi H0. apply Hno. apply Exists_exists. exists i.
    split; [apply elem_of_seq; lia|done].
Qed.

(** A wait that is decided at turn [n], with any fuel that reaches it. *)
Lemma wait_decided timeout n fuel :
  0 ≤ timeout < 4294967296 →
  (∀ i, (i < n)%nat → left_at timeout i ≠ 0 ∧ waitpid i ≤ 0) →
  (n < fuel)%nat →
  unittest_wait_child_proc_end fuel waitpid timeout
  = if left_at timeout n =? 0 then Some (CPLUS_FAIL, Some ETIMEDOUT, n)
    else if 0 <? waitpid n then Some (CPLUS_SUCCESS, None, n)
    else wait_loop (fuel - S n) waitpid (S n) (left_at timeout (S n)).
Proof.
  intros Ht Hi Hf. unfold unittest_wait_child_proc_end.
  replace (u32 timeout) with (left_at timeout 0) by (unfold left_at; f_equal; lia).
  replace fuel with (n + S (fuel - S n))%nat by lia.
  rewrite wait_until by (intros i ?; apply Hi; lia).
  rewrite Nat.add_0_l, wait_turn. by replace (n + S (fuel - S n) - S n)%nat with (fuel - S n)%nat by lia.
Qed.

Lemma wait_goes_on timeout fuel : ∀ n,
  (∀ i, left_at timeout i ≠ 0 ∧ waitpid i ≤ 0) →
  wait_loop fuel waitpid n (left_at timeout n) = None.
Proof.
  induction fuel as [|fuel IH]; intros n Hi; destruct (Hi n) as [H0 Hw].
  - cbn [wait_loop]. pose proof (u32_range (timeout - 500 * Z.of_nat n)) as Hr.
    fold (left_at timeout n) in Hr.
    rewrite (proj2 (Z.ltb_lt _ _)), (proj2 (Z.ltb_ge _ _)), (proj2 (Z.leb_gt _ _)) by lia. done.
  - rewrite wait_turn, (proj2 (Z.eqb_neq _ _) H0), (proj2 (Z.ltb_ge _ _) Hw). by apply IH.
Qed.

End wait.

(** ** The theorems *)

(** Add a list of cases, as the functions [unittest_mempool], [unittest_llist] and
    the others of [main] do. *)
Fixpoint add_all {W} (raw : list Z) (cs : list (@entry W)) : C (st W) (list Z) :=
  match cs with
  | [] => mret []
  | (cn, n, f) :: cs => p ← unittest_add_test_case raw cn n f; ps ← add_all raw cs; mret (p :: ps)
  end.

(** The cases there was memory for, under the names as they are stored. *)
Fixpoint kept {W} (raw : list Z) (cs : list (@entry W)) (ps : list Z) : list (@entry W) :=
  match cs, ps with
  | (cn, n, f) :: cs, p :: ps =>
      if p =? 0 then kept raw cs ps else (stored raw cn, stored raw n, f) :: kept raw cs ps
  | _, _ => []
  end.

(** The state of a runner before any case is registered. *)
Definition no_cases {W} (w : W) : st W := St 0 ∅ empty_heap 7 (TState w false 0 0 7 []).

Lemma add_all_works {W} raw (cs : list (@entry W)) : ∀ (s : st W) v,
  63 ≤ zlen raw → registered s v →
  ∃ ps s', add_all raw cs s = Done (ps, s') ∧ test s' = test s ∧ parents_id s' = parents_id s ∧
    registered s' (v ++ kept raw cs ps).
Proof.
  induction cs as [|[[cn n] f] cs IH]; intros s v Hraw Hv.
  - exists [], s. by rewrite app_nil_r.
  - destruct (add_case_works raw Hraw s v cn n f Hv) as (p & s1 & E1 & Ht1 & Hp1 & Hv1).
    destruct (IH s1 _ Hraw Hv1) as (ps & s2 & E2 & Ht2 & Hp2 & Hv2).
    exists (p :: ps), s2. cbn [add_all]. erewrite bind_Done by exact E1. erewrite bind_Done by exact E2.
    split; [done|]. split_and!; [congruence|congruence|]. cbn [kept].
    destruct (p =? 0); [done|]. by rewrite <- app_assoc in Hv2.
Qed.

(** C28: the registered cases are run once each, in the order of registration,
    whatever they do; the run ends as the sequence of them ends, in the parent or
    in a child, and every block is given back. *)
Theorem cases_run_in_order {W} raw (cs : list (@entry W)) (s : st W) :
  63 ≤ zlen raw → rep s [] →
  ∃ ps s', add_all raw cs s = Done (ps, s') ∧ length ps = length cs ∧
    refines (run_spec (parents_id s) (kept raw cs ps) (test s)) (unittest_run s').
Proof.
  intros Hraw Hs.
  destruct (add_all_works raw cs s [] Hraw) as (ps & s' & E & Ht & Hp & (l & Hl & Hv)); [by exists []|].
  exists ps, s'. split; [done|]. split.
  - clear -E. revert s ps s' E. induction cs as [|[[cn n] f] cs IH]; intros s ps s' E; cbn [add_all] in E.
    + by injection E as <- _.
    + unfold mbind, C_bind in E. destruct (unittest_add_test_case raw cn n f s) as [[p s1]| | |]; try done.
      destruct (add_all raw cs s1) as [[qs s2]| | |] eqn:E2; try done.
      injection E as <- _. cbn. f_equal. by eapply IH.
  - rewrite <- Ht, <- Hp. cbn in Hv. rewrite <- Hv. unfold unittest_run. erewrite bind_Done by done.
    apply run_loop_refines; [done|]. by rewrite (chain_length _ _ Hl).
Qed.

(** a wait without a child that ends takes one nap for each 500 ms when the
    time is a multiple of 500; it ends, with a failure, exactly for the multiples
    of 4: for other times the unsigned counter passes zero for ever. *)
Theorem wait_without_child waitpid timeout :
  (∀ n, waitpid n ≤ 0) → 0 ≤ timeout < 4294967296 →
  (∀ k, timeout = 500 * Z.of_nat k → ∀ fuel, (k < fuel)%nat →
     unittest_wait_child_proc_end fuel waitpid timeout = Some (CPLUS_FAIL, Some ETIMEDOUT, k)) ∧
  ((4 | timeout) → ∃ n, ∀ fuel, (n < fuel)%nat →
     unittest_wait_child_proc_end fuel waitpid timeout = Some (CPLUS_FAIL, Some ETIMEDOUT, n)) ∧
  (¬ (4 | timeout) → ∀ fuel, unittest_wait_child_proc_end fuel waitpid timeout = None).
Proof.
  intros Hw Ht. split_and!.
  - intros k Hk fuel Hf. rewrite (wait_decided waitpid timeout k); [|done| |done].
    + unfold left_at. by rewrite Hk, Z.sub_diag.
    + intros i Hi. split; [|done]. unfold left_at. rewrite u32_small; lia.
  - intros Hd. destruct (time_is_used_up timeout Hd) as (m & Hm).
    destruct (first_used_up timeout m Hm) as (n & Hn & Hbefore). exists n. intros fuel Hf.
    rewrite (wait_decided waitpid timeout n); [by rewrite Hn|done| |done]. intros i Hi. auto.
  - intros Hd fuel. unfold unittest_wait_child_proc_end.
    replace (u32 timeout) with (left_at timeout 0) by (unfold left_at; f_equal; lia).
    apply wait_goes_on. intros i. split; [|done]. intros H0. apply Hd. by eapply used_up_divides.
Qed.

Lemma wait_without_child_witness :
  (unittest_wait_child_proc_end 100 (λ _, 0) 5000 = Some (CPLUS_FAIL, Some ETIMEDOUT, 10%nat)) ∧
  (∀ fuel, unittest_wait_child_proc_end fuel (λ _, 0) 5001 = None).
Proof.
  split.
  - apply (proj1 (wait_without_child (λ _, 0) 5000 (λ _, Z.le_refl 0) ltac:(lia)) 10%nat); lia.
  - apply (wait_without_child (λ _, 0) 5001 (λ _, Z.le_refl 0) ltac:(lia)).
    intros [q E]. lia.
Defined.

(** a child that ends before the time is used up is waited for. *)
Theorem wait_for_child waitpid timeout n fuel :
  0 ≤ timeout < 4294967296 → 500 * Z.of_nat n < timeout →
  (∀ i, (i < n)%nat → waitpid i ≤ 0) → 0 < waitpid n → (n < fuel)%nat →
  unittest_wait_child_proc_end fuel waitpid timeout = Some (CPLUS_SUCCESS, None, n).
Proof.
  intros Ht Hn Hi Hw Hf.
  assert (∀ i, (i ≤ n)%nat → left_at timeout i ≠ 0) as H0.
  { intros i ?. unfold left_at. rewrite u32_small; lia. }
  rewrite (wait_decided waitpid timeout n); [|done| |done].
  - by rewrite (proj2 (Z.eqb_neq _ _) (H0 n ltac:(lia))), (proj2 (Z.ltb_lt _ _) Hw).
  - intros i ?. split; [apply H0; lia|by apply Hi].
Qed.

Lemma wait_for_child_witness :
  unittest_wait_child_proc_end 5 (λ n, if (n =? 2)%nat then 77 else 0) 5001
  = Some (CPLUS_SUCCESS, None, 2%nat).
Proof.
  apply wait_for_child; try lia; [|done].
  intros i Hi. destruct (Nat.eqb_spec i 2); lia.
Defined.

(** (code bug) an expectation of a function of type [bool] compares nothing
    when the function returns true, since [(bool)ENOTSUP] is true: expecting
    false can never fail. *)
Theorem true_is_not_compared {W} line expect (m : C W Z) (s : tstate W) w :
  m (world s) = Done (1, w) →
  UNITTEST_EXPECT_EQ line as_bool expect m s = Done (1, with_retval 1 (with_world w s)) ∧
  UNITTEST_EXPECT_NE line as_bool expect m s = Done (1, with_retval 1 (with_world w s)).
Proof.
  intros E. unfold UNITTEST_EXPECT_EQ, UNITTEST_EXPECT_NE.
  split; rewrite (expectation_run _ _ _ _ _ _ _ _ _ E); done.
Qed.

Lemma true_is_not_compared_witness :
  let s := TState tt false 0 0 7 [] in
  UNITTEST_EXPECT_EQ 12 as_bool 0 (mret 1) s = Done (1, with_retval 1 s).
Proof. intros s. exact (proj1 (true_is_not_compared 12 0 (mret 1) s tt eq_refl)). Defined.

Lemma no_cases_rep {W} (w : W) : rep (no_cases w) [].
Proof.
  assert (dom (cases (no_cases w)) = ∅) as E by apply dom_empty_L.
  split; [done|apply NoDup_nil_2|exact E|]. rewrite E. apply empty_heap_ok.
Qed.

Lemma cases_run_in_order_witness :
  let raw := replicate 64 0 in
  let cs := [([97], [49], UNITTEST_EXPECT_EQ 1 s32 5 (mret 5);; mret tt); ([97], [50], UNITTEST_EXPECT_EQ 2 s32 5 (mret 6);; mret tt)] in
  ∃ ps s', add_all raw cs (no_cases tt) = Done (ps, s') ∧
    refines (Done (false, TState tt true 6 1 7
       [TestResult false; Unexpected 2 6 5; Expected 2; CaseName (stored raw [97]) (stored raw [50]);
        TestResult true; Expected 1; CaseName (stored raw [97]) (stored raw [49])]))
      (unittest_run s').
Proof.
  intros raw cs.
  destruct (cases_run_in_order raw cs (no_cases tt) ltac:(done) (no_cases_rep tt)) as (ps & s' & E & _ & H).
  exists ps, s'. split; [done|].
  assert (ps = [1; 2]) as ->.
  { assert (value_of (add_all raw cs (no_cases tt)) = Done [1; 2]) as E2 by (vm_compute; reflexivity).
    rewrite E in E2. by injection E2. }
  exact H.
Defined.

End UnittestProps.
