(* ===== verification/Helper.v ===== *)
(** * Helper: the macros of src/cplus/cplus_helper.h

    Offsets of members, the object around a member, zeroing of an object, the
    larger and the smaller of two values, their difference, and single bits.  A
    struct is the list of the types of its members; the compiler lays them out
    with natural alignment (LP64).  HelperTests.v has the tests of helper.c. *)

From S2P Require Import Prelude Zlist Memmgr Data DataInv DataSafe.
From stdpp Require Import base numbers list option.
From Stdlib Require Import ZArith Lia.
Open Scope Z_scope.

Module Helper.

(** ** Layout *)

Definition struct : Type := list Data.data_type.

(** The next multiple of [a] from [n]. *)
Definition align_up (n a : Z) : Z := (n + a - 1) / a * a.

(** The offsets of the members of a struct that go on from [n]. *)
Fixpoint offsets_from (n : Z) (s : struct) : list Z :=
  match s with
  | [] => []
  | t :: s => let o := align_up n (Data.sizeof t) in o :: offsets_from (o + Data.sizeof t) s
  end.

Fixpoint end_from (n : Z) (s : struct) : Z :=
  match s with
  | [] => n
  | t :: s => end_from (align_up n (Data.sizeof t) + Data.sizeof t) s
  end.

Definition alignof (s : struct) : Z := foldr (λ t a, Z.max (Data.sizeof t) a) 1 s.
Definition sizeof (s : struct) : Z := align_up (end_from 0 s) (alignof s).

(** [&(p->member)] for the member at position [i]. *)
Definition member_addr (p : Z) (s : struct) (i : nat) : Z := p + zat (offsets_from 0 s) (Z.of_nat i).

(** The address of the member in an object at address 0, as a [size_t]. *)
Definition CPLUS_OFFSETOF (s : struct) (i : nat) : Z := u64 (member_addr 0 s i).

Definition CPLUS_CONTAINER_OF (ptr : Z) (s : struct) (i : nat) : Z := ptr - CPLUS_OFFSETOF s i.

(** ** Objects in memory *)

Definition mem : Type := Z → Z.

Definition peek (m : mem) (a n : Z) : list Z := (λ i, m (a + i)) <$> seqZ 0 n.
Definition poke (m : mem) (a : Z) (bs : list Z) : mem := λ x,
  if (a <=? x) && (x <? a + zlen bs) then zat bs (x - a) else m x.

(** [p->member] and [p->member = v]. *)
Definition load (m : mem) (p : Z) (s : struct) (i : nat) : Z :=
  match s !! i with
  | Some t => Data.of_bytes t (peek m (member_addr p s i) (Data.sizeof t))
  | None => 0
  end.
Definition store (m : mem) (p : Z) (s : struct) (i : nat) (v : Z) : mem :=
  match s !! i with
  | Some t => poke m (member_addr p s i) (Data.to_bytes t v)
  | None => m
  end.

(** [cplus_mem_set] of the object with zero: the memory when the call returns the
    pointer, unchanged when it refuses. *)
Definition CPLUS_INITIALIZE_STRUCT_POINTER (m : mem) (p : Z) (s : struct) : outcome mem :=
  match Memmgr.cplus_mem_set (if p =? 0 then None else Some (peek m p (sizeof s))) 0 (sizeof s) with
  | Done (Memmgr.Ptr bs) => Done (poke m p bs)
  | Done Memmgr.Null => Done m
  | Aborts => Aborts | Hangs => Hangs | Undefined => Undefined
  end.

(** ** Values

    [ty] is the type the comparison and the difference are made in. *)
Definition CPLUS_MAX (A B : Z) : Z := if B <? A then A else B.
Definition CPLUS_MIN (A B : Z) : Z := if A <? B then A else B.
Definition CPLUS_DIFF (ty : Z → Z) (A B : Z) : Z := if B <? A then ty (A - B) else ty (B - A).

(** [VALUE |= MODE], [VALUE & MODE] and the bits of a value of [w] bits. *)
Definition CPLUS_SET_MODE (w value mode : Z) : Z := Z.lor value mode `mod` 2 ^ w.
Definition CPLUS_TEST_MODE (value mode : Z) : Z := Z.land value mode.
Definition CPLUS_SET_BIT (w value shift : Z) : Z := Z.lor value (Z.shiftl 1 shift) `mod` 2 ^ w.
Definition CPLUS_CLEAR_BIT (w value shift : Z) : Z :=
  Z.land value (2 ^ 64 - 1 - Z.shiftl 1 shift) `mod` 2 ^ w.
Definition CPLUS_TEST_BIT (value shift : Z) : Z := Z.land (Z.shiftr value shift) 1.

(** [sizeof(ARRAY) / sizeof((ARRAY)[0])] for [n] elements of [size] bytes. *)
Definition CPLUS_GET_ARRAY_SIZE (n size : Z) : Z := n * size / size.

(** ** The layout *)

Definition scalar_struct (s : struct) : Prop := Forall (λ t, DataSafe.scalar_type t = true) s.

Lemma sizeof_pos t : DataSafe.scalar_type t = true → 0 < Data.sizeof t.
Proof. by destruct t. Qed.

Lemma align_up_spec n a : 0 < a → n ≤ align_up n a < n + a ∧ (a | align_up n a).
Proof.
  intros Ha. unfold align_up.
  pose proof (Z.div_mod (n + a - 1) a ltac:(lia)). pose proof (Z.mod_pos_bound (n + a - 1) a Ha).
  split; [nia|]. apply Z.divide_factor_r.
Qed.

Lemma length_offsets s : ∀ n, length (offsets_from n s) = length s.
Proof. induction s as [|t s IH]; intros n; cbn; [done|by rewrite IH]. Qed.

(** Members lie in order, aligned, between the start and the end. *)
Lemma offset_bounds s : ∀ n i t o, scalar_struct s →
  s !! i = Some t → offsets_from n s !! i = Some o →
  n ≤ o ∧ o + Data.sizeof t ≤ end_from n s ∧ (Data.sizeof t | o).
Proof.
  assert (∀ s n, scalar_struct s → n ≤ end_from n s) as Hend.
  { clear s. induction s as [|t s IH]; intros n; [done|]. intros [Ht Hs]%Forall_cons_1. cbn.
    destruct (align_up_spec n _ (sizeof_pos t Ht)) as [? _]. pose proof (sizeof_pos t Ht).
    specialize (IH (align_up n (Data.sizeof t) + Data.sizeof t) Hs). lia. }
  induction s as [|u s IH]; intros n i t o; [done|]. intros [Hu Hs]%Forall_cons_1.
  destruct (align_up_spec n _ (sizeof_pos u Hu)) as [? ?]. pose proof (sizeof_pos u Hu).
  destruct i as [|i]; cbn.
  - intros [= ->] [= <-]. split_and!; [lia|by apply Hend|done].
  - intros Ht Ho. destruct (IH _ i t o Hs Ht Ho) as (? & ? & ?). split_and!; [lia|done|done].
Qed.

Lemma offsets_apart s : ∀ n i j t o o', scalar_struct s → (i < j)%nat →
  s !! i = Some t → offsets_from n s !! i = Some o → offsets_from n s !! j = Some o' →
  o + Data.sizeof t ≤ o'.
Proof.
  induction s as [|u s IH]; intros n i j t o o'; [done|]. intros [Hu Hs]%Forall_cons_1 Hij.
  destruct j as [|j]; [lia|]. destruct i as [|i]; cbn.
  - intros [= ->] [= <-] Ho'. destruct (lookup_lt_is_Some_2 s j) as [t' Ht'].
    { rewrite <- (length_offsets s (align_up n (Data.sizeof t) + Data.sizeof t)). by eapply lookup_lt_Some. }
    by destruct (offset_bounds s _ j t' o' Hs Ht' Ho').
  - intros Ht Ho Ho'. by apply (IH (align_up n (Data.sizeof u) + Data.sizeof u) i j t o o' Hs ltac:(lia)).
Qed.

(** The offset of a member that exists. *)
Lemma member_offset s i t : s !! i = Some t →
  ∃ o, offsets_from 0 s !! i = Some o ∧ ∀ p, member_addr p s i = p + o.
Proof.
  intros Ht. destruct (lookup_lt_is_Some_2 (offsets_from 0 s) i) as [o Ho].
  { rewrite length_offsets. by eapply lookup_lt_Some. }
  exists o. split; [done|]. intros p. unfold member_addr, zat.
  rewrite (proj2 (Z.ltb_ge _ _)) by lia. by rewrite Nat2Z.id, Ho.
Qed.

Lemma sizeof_end s : end_from 0 s ≤ sizeof s.
Proof.
  unfold sizeof. destruct (align_up_spec (end_from 0 s) (alignof s)); [|lia].
  unfold alignof. induction s; cbn; lia.
Qed.

(** ** Memory *)

Lemma peek_lookup m a n i : 0 ≤ i < n → peek m a n !! Z.to_nat i = Some (m (a + i)).
Proof.
  intros Hi. unfold peek. rewrite list_lookup_fmap, lookup_seqZ_lt by lia. cbn. do 2 f_equal. lia.
Qed.

Lemma peek_ext m m' a n : (∀ x, a ≤ x < a + n → m x = m' x) → peek m a n = peek m' a n.
Proof.
  intros H. apply list_fmap_ext. intros i x [-> Hi]%lookup_seqZ. apply H. lia.
Qed.

Lemma peek_poke m a bs : peek (poke m a bs) a (zlen bs) = bs.
Proof.
  apply list_eq. intros i. destruct (decide (i < length bs)%nat) as [Hi|Hi].
  - rewrite <- (Nat2Z.id i). rewrite peek_lookup by (unfold zlen; lia). unfold poke.
    rewrite (proj2 (Z.leb_le _ _)), (proj2 (Z.ltb_lt _ _)) by (unfold zlen; lia). cbn [andb].
    replace (a + Z.of_nat i - a) with (Z.of_nat i) by lia. symmetry. apply zat_in. unfold zlen. lia.
  - rewrite !lookup_ge_None_2; [done|lia|].
    unfold peek. rewrite length_fmap, length_seqZ. unfold zlen. lia.
Qed.

Lemma poke_outside m a bs x : x < a ∨ a + zlen bs ≤ x → poke m a bs x = m x.
Proof.
  intros Hx. unfold poke. destruct (Z.leb_spec a x), (Z.ltb_spec x (a + zlen bs)); cbn; try done; lia.
Qed.

Lemma load_store_same m p s i t v :
  s !! i = Some t → DataSafe.scalar_type t = true → DataInv.scalar_ok t v →
  load (store m p s i v) p s i = v.
Proof.
  intros Hi Ht Hv. unfold load, store. rewrite Hi.
  rewrite <- (DataSafe.zlen_to_bytes t v), peek_poke. by apply DataSafe.of_to_bytes.
Qed.

Lemma load_store_other m p s i j t v :
  scalar_struct s → s !! i = Some t → i ≠ j → load (store m p s i v) p s j = load m p s j.
Proof.
  intros Hs Hi Hij. unfold load. destruct (s !! j) as [u|] eqn:Hj; [|done].
  unfold store. rewrite Hi. f_equal. apply peek_ext. intros x Hx. apply poke_outside.
  rewrite DataSafe.zlen_to_bytes.
  destruct (member_offset s i t Hi) as (o & Ho & Eo), (member_offset s j u Hj) as (o' & Ho' & Eo').
  rewrite Eo. rewrite Eo' in Hx.
  destruct (decide (i < j)%nat) as [Hlt|Hlt].
  - pose proof (offsets_apart s 0 i j t o o' Hs Hlt Hi Ho Ho'). lia.
  - pose proof (offsets_apart s 0 j i u o' o Hs ltac:(lia) Hj Ho' Ho). lia.
Qed.

Lemma memset_zeros d : 0 < zlen d → zlen d ≤ RSIZE_MAX_MEM →
  Memmgr.cplus_mem_set (Some d) 0 (zlen d) = Done (Memmgr.Ptr (replicate (length d) 0)).
Proof.
  intros H0 Hm. unfold Memmgr.cplus_mem_set.
  rewrite (proj2 (Z.ltb_ge _ _)), (proj2 (Z.eqb_neq _ _)) by lia.
  rewrite Memmgr.memcpy_ok; unfold zlen in *; [|lia|rewrite length_replicate; lia].
  rewrite Nat2Z.id, take_ge, drop_ge, app_nil_r by (rewrite ?length_replicate; lia). done.
Qed.

Lemma of_bytes_zeros t n : DataSafe.scalar_type t = true → Data.of_bytes t (replicate n 0) = 0.
Proof.
  intros Ht. assert (little_endian_to_Z 8 (replicate n 0) = 0) as E.
  { induction n as [|n IH]; [done|]. cbn [replicate little_endian_to_Z]. rewrite IH. done. }
  unfold Data.of_bytes. rewrite E. by destruct t.
Qed.

Lemma initialised m p s m' : scalar_struct s → p ≠ 0 → 0 < sizeof s ≤ RSIZE_MAX_MEM →
  CPLUS_INITIALIZE_STRUCT_POINTER m p s = Done m' →
  m' = poke m p (replicate (Z.to_nat (sizeof s)) 0).
Proof.
  intros Hs Hp Hz. unfold CPLUS_INITIALIZE_STRUCT_POINTER. rewrite (proj2 (Z.eqb_neq _ _) Hp).
  assert (length (peek m p (sizeof s)) = Z.to_nat (sizeof s)) as El.
  { unfold peek. by rewrite length_fmap, length_seqZ. }
  replace (sizeof s) with (zlen (peek m p (sizeof s))) at 2 by (unfold zlen; lia).
  rewrite memset_zeros by (unfold zlen; lia). rewrite El. by intros [= <-].
Qed.

Lemma peek_zeros m p n a k : p ≤ a → a + k ≤ p + Z.of_nat n →
  peek (poke m p (replicate n 0)) a k = replicate (Z.to_nat k) 0.
Proof.
  intros H1 H2. apply list_eq. intros i. destruct (decide (i < Z.to_nat k)%nat) as [Hi|Hi].
  - rewrite lookup_replicate_2 by done. rewrite <- (Nat2Z.id i) at 1. rewrite peek_lookup by lia.
    unfold poke, zlen. rewrite length_replicate, (proj2 (Z.leb_le _ _)), (proj2 (Z.ltb_lt _ _)) by lia.
    cbn [andb]. unfold zat. rewrite (proj2 (Z.ltb_ge _ _)), lookup_replicate_2 by lia. done.
  - rewrite !lookup_ge_None_2; [done|rewrite length_replicate; lia|].
    unfold peek. rewrite length_fmap, length_seqZ. lia.
Qed.

(** ** Theorems *)

(** C31: for every struct of scalar members, the object around a member is the one
    the member is in; what is stored in a member is what is read there and changes
    no other member; and zeroing the object makes every member zero and touches
    nothing else. *)
Theorem members_of_struct m p s i t v :
  scalar_struct s → p ≠ 0 → sizeof s ≤ RSIZE_MAX_MEM → s !! i = Some t → DataInv.scalar_ok t v →
  CPLUS_CONTAINER_OF (member_addr p s i) s i = p ∧
  (Data.sizeof t | CPLUS_OFFSETOF s i) ∧
  load (store m p s i v) p s i = v ∧
  (∀ j, i ≠ j → load (store m p s i v) p s j = load m p s j) ∧
  (∃ m', CPLUS_INITIALIZE_STRUCT_POINTER m p s = Done m' ∧ load m' p s i = 0 ∧
    ∀ x, x < p ∨ p + sizeof s ≤ x → m' x = m x).
Proof.
  intros Hs Hp Hz Hi Hv.
  assert (DataSafe.scalar_type t = true) as Ht by (eapply (Forall_lookup_1 _ _ _ _ Hs Hi)).
  destruct (member_offset s i t Hi) as (o & Ho & Eo).
  destruct (offset_bounds s 0 i t o Hs Hi Ho) as (H0 & H1 & Hd).
  pose proof (sizeof_end s) as Hend. pose proof (sizeof_pos t Ht) as Hpos.
  unfold RSIZE_MAX_MEM in Hz.
  assert (CPLUS_OFFSETOF s i = o) as Eoff.
  { unfold CPLUS_OFFSETOF. rewrite Eo. apply u64_small. lia. }
  split_and!.
  - unfold CPLUS_CONTAINER_OF. rewrite Eoff, Eo. lia.
  - by rewrite Eoff.
  - by apply (load_store_same m p s i t v).
  - intros j Hij. by apply (load_store_other m p s i j t v).
  - assert (∃ m', CPLUS_INITIALIZE_STRUCT_POINTER m p s = Done m') as [m' E].
    { unfold CPLUS_INITIALIZE_STRUCT_POINTER, Memmgr.cplus_mem_set. rewrite (proj2 (Z.eqb_neq _ _) Hp).
      unfold RSIZE_MAX_MEM. rewrite (proj2 (Z.ltb_ge _ _)), (proj2 (Z.eqb_neq _ _)) by lia.
      rewrite Memmgr.memcpy_ok; [eauto| |]; unfold zlen, peek;
        rewrite ?length_fmap, ?length_seqZ, ?length_replicate; lia. }
    exists m'. split; [done|].
    rewrite (initialised m p s m' Hs Hp) by (done || unfold RSIZE_MAX_MEM; lia). split.
    + unfold load. rewrite Hi, Eo, peek_zeros by lia. by apply of_bytes_zeros.
    + intros x Hx. apply poke_outside. unfold zlen. rewrite length_replicate. lia.
Qed.

Lemma members_of_struct_witness :
  let test5 := [Data.T_INT32; Data.T_INT8; Data.T_INT16; Data.T_INT8; Data.T_INT64] in
  offsets_from 0 test5 = [0; 4; 6; 8; 16] ∧ sizeof test5 = 24 ∧
  CPLUS_CONTAINER_OF (member_addr 4096 test5 2) test5 2 = 4096 ∧
  load (store (λ _, 7) 4096 test5 2 0x2345) 4096 test5 2 = 0x2345.
Proof.
  intros test5. split; [reflexivity|]. split; [reflexivity|].
  destruct (members_of_struct (λ _, 7) 4096 test5 2 Data.T_INT16 0x2345) as (H1 & _ & H2 & _).
  - repeat constructor.
  - lia.
  - vm_compute. discriminate.
  - reflexivity.
  - vm_compute. reflexivity.
  - split; [exact H1|exact H2].
Defined.

(** setting and clearing a bit of a value of [w] bits changes that bit and no
    other; a bit past the width is not set at all. *)
Theorem bits_of_value w value k j :
  0 < w ≤ 64 → 0 ≤ value < 2 ^ w → 0 ≤ k < 64 → 0 ≤ j < w →
  CPLUS_TEST_BIT (CPLUS_SET_BIT w value k) j = (if j =? k then 1 else CPLUS_TEST_BIT value j) ∧
  CPLUS_TEST_BIT (CPLUS_CLEAR_BIT w value k) j = (if j =? k then 0 else CPLUS_TEST_BIT value j) ∧
  (w ≤ k → CPLUS_SET_BIT w value k = value).
Proof.
  intros Hw Hv Hk Hj.
  assert (∀ x, CPLUS_TEST_BIT x j = Z.b2z (Z.testbit x j)) as Et.
  { intros x. unfold CPLUS_TEST_BIT. rewrite (Z.land_ones _ 1) by lia.
    rewrite Z.testbit_spec' by lia. rewrite Z.shiftr_div_pow2 by lia. done. }
  rewrite !Et. unfold CPLUS_SET_BIT, CPLUS_CLEAR_BIT. rewrite !Z.mod_pow2_bits_low by lia.
  rewrite Z.lor_spec, Z.land_spec, Z.shiftl_mul_pow2, Z.mul_1_l by lia.
  replace (2 ^ 64 - 1 - 2 ^ k) with (Z.ldiff (Z.ones 64) (2 ^ k)).
  2: { rewrite <- Z.sub_nocarry_ldiff; [rewrite Z.ones_equiv; lia|].
       apply Z.bits_inj'. intros n Hn. rewrite Z.ldiff_spec, Z.bits_0, Z.pow2_bits_eqb by lia.
       destruct (Z.eqb_spec k n) as [<-|]; [|done]. rewrite Z.ones_spec_low by lia. done. }
  rewrite Z.ldiff_spec, Z.ones_spec_low, Z.pow2_bits_eqb, (Z.eqb_sym k j) by lia.
  split_and!.
  - destruct (j =? k); by rewrite ?orb_true_r, ?orb_false_r.
  - destruct (j =? k); by rewrite ?andb_false_r, ?andb_true_r.
  - intros Hwk. apply Z.bits_inj'. intros n Hn. destruct (Z.ltb_spec n w).
    + rewrite Z.mod_pow2_bits_low, Z.lor_spec, Z.pow2_bits_eqb by lia.
      destruct (Z.eqb_spec k n); [lia|]. by rewrite orb_false_r.
    + rewrite Z.mod_pow2_bits_high by lia. symmetry. apply Z.bits_above_log2; [lia|].
      destruct (decide (value = 0)) as [->|]; [cbn; lia|].
      enough (Z.log2 value < w) by lia. apply Z.log2_lt_pow2; lia.
Qed.

Lemma bits_of_value_witness :
  CPLUS_TEST_BIT (CPLUS_SET_BIT 32 0 31) 31 = 1 ∧ CPLUS_SET_BIT 32 5 40 = 5.
Proof.
  split.
  - exact (proj1 (bits_of_value 32 0 31 31 ltac:(lia) ltac:(lia) ltac:(lia) ltac:(lia))).
  - apply (bits_of_value 32 5 40 0 ltac:(lia) ltac:(lia) ltac:(lia) ltac:(lia)). lia.
Defined.

(** [CPLUS_DIFF] of unsigned values is their distance, where the plain
    difference would wrap; of signed ones it wraps when the distance does not fit. *)
Theorem difference_is_distance A B :
  (0 ≤ A < 2 ^ 32 → 0 ≤ B < 2 ^ 32 → CPLUS_DIFF u32 A B = Z.abs (A - B)) ∧
  (- 2 ^ 31 ≤ A < 2 ^ 31 → - 2 ^ 31 ≤ B < 2 ^ 31 →
     CPLUS_DIFF s32 A B = Z.abs (A - B) ↔ Z.abs (A - B) < 2 ^ 31) ∧
  CPLUS_MAX A B = Z.max A B ∧ CPLUS_MIN A B = Z.min A B.
Proof.
  assert (∀ d, 0 ≤ d < 2 ^ 32 → s32 d = d ↔ d < 2 ^ 31) as Hs.
  { intros d Hd. split; [|intros; apply s32_small; lia].
    intros <-. pose proof (swrap_range 32 d ltac:(lia)). unfold s32. lia. }
  unfold CPLUS_DIFF, CPLUS_MAX, CPLUS_MIN. split_and!.
  - intros. destruct (Z.ltb_spec B A); rewrite u32_small; lia.
  - intros. destruct (Z.ltb_spec B A).
    + replace (Z.abs (A - B)) with (A - B) by lia. apply Hs. lia.
    + replace (Z.abs (A - B)) with (B - A) by lia. apply Hs. lia.
  - destruct (Z.ltb_spec B A); lia.
  - destruct (Z.ltb_spec A B); lia.
Qed.

Lemma difference_is_distance_witness :
  CPLUS_DIFF u32 3 4294967295 = 4294967292.
Proof. exact (proj1 (difference_is_distance 3 4294967295) ltac:(lia) ltac:(lia)). Defined.

End Helper.
