(* ===== verification/HelperTests.v ===== *)
(** * HelperTests: the tests of src/helper.c, run on the model

    Six structs with five members each, the tests of the macros on them as they
    are written, and the run of the test program. *)

From S2P Require Import Prelude Zlist Memmgr Data Helper Unittest.
From stdpp Require Import base numbers list option strings.
From Stdlib Require Import ZArith Lia.
Open Scope Z_scope.

Module HelperTests.
Import Data Helper Unittest.
#[local] Notation T := (C (tstate mem) unit).

(** ** The structs and the objects *)

Definition test1 : struct := [T_INT32; T_INT32; T_INT32; T_INT32; T_INT32].
Definition test2 : struct := [T_INT8; T_INT8; T_INT8; T_INT8; T_INT8].
Definition test3 : struct := [T_INT16; T_INT16; T_INT16; T_INT16; T_INT16].
Definition test4 : struct := [T_INT64; T_INT64; T_INT64; T_INT64; T_INT64].
Definition test5 : struct := [T_INT32; T_INT8; T_INT16; T_INT8; T_INT64].
Definition test6 : struct := [T_INT8; T_INT16; T_INT8; T_INT64; T_INT32].

(** A static object: its address, its type and its initial values. *)
Record static := Static { address : Z; struct_of : struct; init : list Z }.
Definition t1 := Static 0x4000 test1 [0x0123; 0x1234; 0x2345; 0x3456; 0x4567].
Definition t2 := Static 0x4040 test2 [0x0a; 0x0b; 0x0c; 0x0d; 0x0e].
Definition t3 := Static 0x4080 test3 [0x0123; 0x1234; 0x2345; 0x3456; 0x4567].
Definition t4 := Static 0x40c0 test4 [0x01234567; 0x12345678; 0x23456789; 0x3456789A; 0x456789AB].
Definition t5 := Static 0x4100 test5 [0x0123; 0x12; 0x2345; 0x67; 0x01234567].
Definition t6 := Static 0x4140 test6 [0x13; 0x2478; 0x56; 0x45670123; 0x01234567].

Definition load_static (m : mem) (t : static) : mem :=
  foldl (λ m '(i, v), store m (address t) (struct_of t) i v) m (imap pair (init t)).
Definition statics : mem := foldl load_static (λ _, 0) [t1; t2; t3; t4; t5; t6].

(** The members of each struct. *)
Definition A : nat := 0.
Definition B : nat := 1.
Definition C_ : nat := 2.
Definition D : nat := 3.
Definition E : nat := 4.
Definition members : list nat := [A; B; C_; D; E].

(** [UNITTEST_EXPECT_EQ(true, cond)] at a line. *)
Definition expect_true (line : Z) (cond : mem → bool) : T :=
  UNITTEST_EXPECT_EQ line s32 1 (gets (λ m, Z.b2z (cond m)));; mret tt.

(** A statement for each member, the lines [step] apart. *)
Fixpoint each {X} (f : Z → X → T) (line step : Z) (l : list X) : T :=
  match l with
  | [] => mret tt
  | i :: l => f line i;; each f (line + step) step l
  end.

(** ** The tests *)

Definition offsetof_struct (t : static) (line : Z) : T :=
  each (λ line i, expect_true line (λ _,
    member_addr (address t) (struct_of t) i - address t =? CPLUS_OFFSETOF (struct_of t) i)) line 1 members.

Definition CPLUS_OFFSETOF_functionity : T :=
  offsetof_struct t1 68;; offsetof_struct t2 73;; offsetof_struct t3 78;;
  offsetof_struct t4 83;; offsetof_struct t5 88;; offsetof_struct t6 93.

(** For the member [i]: the struct around it, and every member of that struct
    against the object. *)
Definition container_of_member (t : static) (line : Z) (i : nat) : T :=
  let tp := CPLUS_CONTAINER_OF (member_addr (address t) (struct_of t) i) (struct_of t) i in
  expect_true line (λ _, negb (0 =? tp));;
  each (λ line j, expect_true line (λ m,
    load m tp (struct_of t) j =? load m (address t) (struct_of t) j)) (line + 1) 1 members.

Definition container_of_test1 : T := each (container_of_member t1) 104 7 members.
Definition container_of_test2 : T := each (container_of_member t2) 141 7 members.
Definition container_of_test3 : T := each (container_of_member t3) 178 7 members.
Definition container_of_test4 : T := each (container_of_member t4) 215 7 members.
Definition container_of_test5 : T := each (container_of_member t5) 252 7 members.
Definition container_of_test6 : T := each (container_of_member t6) 289 7 members.

Definition CPLUS_CONTAINER_OF_functionity : T :=
  container_of_test1;; container_of_test2;; container_of_test3;;
  container_of_test4;; container_of_test5;; container_of_test6.

(** The statement [CPLUS_INITIALIZE_STRUCT_POINTER(&t)] and the five checks. *)
Definition initialize_struct (t : static) (line : Z) : T :=
  lift (λ m, match CPLUS_INITIALIZE_STRUCT_POINTER m (address t) (struct_of t) with
             | Done m' => Done (tt, m')
             | Aborts => Aborts | Hangs => Hangs | Undefined => Undefined
             end);;
  each (λ line i, expect_true line (λ m, 0 =? load m (address t) (struct_of t) i)) line 1 members.

Definition CPLUS_INITIALIZE_STRUCT_POINTER_functionity : T :=
  initialize_struct t1 328;; initialize_struct t2 335;; initialize_struct t3 342;;
  initialize_struct t4 349;; initialize_struct t5 356;; initialize_struct t6 363.

Definition unittest_helper : list (@named_test mem) :=
  [("CPLUS_OFFSETOF", "functionity", CPLUS_OFFSETOF_functionity);
   ("CPLUS_CONTAINER_OF", "functionity", CPLUS_CONTAINER_OF_functionity);
   ("CPLUS_INITIALIZE_STRUCT_POINTER", "functionity", CPLUS_INITIALIZE_STRUCT_POINTER_functionity)]%string.

(** the three tests of helper.c pass, with all of their 240 expectations
    checked. *)
Theorem helper_tests_pass : report_of unittest_helper statics = Done (3%nat, 240%nat, [], 0).
Proof. vm_compute. reflexivity. Qed.

End HelperTests.
