(* ===== verification/DataTests.v ===== *)
(** * DataTests: the tests of src/data.c on data objects, run on the model

    The tests, statement for statement, over the world of Group.v: data objects on
    a heap, and the list of a group.  The tests of the conversions and the test
    program are in DataConvTests.v.  A local variable of a test is a value that
    the calls read and write; before it is written it holds [any]. *)

From S2P Require Import Prelude Allocator Stdio Zlist Memmgr Llist Data DataConv Keyed Group Unittest.
From stdpp Require Import base numbers list option gmap strings.
From Stdlib Require Import ZArith Lia SpecFloat.
Open Scope Z_scope.

Module DataTests.
Import Stdio Unittest.
#[local] Existing Instance Llist.source_allocator.
#[local] Notation W := (C Group.world).
#[local] Notation T := (C (tstate Group.world) unit).

(** ** Values of the tests *)

(** A text literal in memory, with its zero, and its length. *)
Definition lit (s : string) : list Z := Unittest.cstr s ++ [0].
Definition strlen (s : string) : Z := zlen (Unittest.cstr s).

(** A literal of type [double], and its conversion to [float]; both are their bits. *)
Definition real (s : string) : Z := default 0 (scan_f binary64 (Unittest.cstr s)).
Definition to_float (bits : Z) : Z := float_convert binary64 binary32 bits.
Definition to_double (bits : Z) : Z := float_convert binary32 binary64 bits.

(** [n == x] for a floating point [x], [fabs(a - x) < b] and [(int64_t)(x - a)] in
    [double]. *)
Definition equals (f : format) (n bits : Z) : bool :=
  SFeqb (decode f (float_of_Z f n)) (decode f bits).
Definition minus (a b : Z) : Z :=
  encode binary64 (SFsub (prec binary64) (emax binary64) (decode binary64 a) (decode binary64 b)).
Definition close (a x bound : Z) : bool :=
  SFltb (SFabs (decode binary64 (minus a x))) (decode binary64 bound).
Definition as_double (z : Z) : Z := z.

(** Two [int32_t] of the tests whose addresses are stored. *)
Definition v1 : Z := 0x7000.
Definition v2 : Z := 0x7004.
Definition local_int (p : Z) : option Z :=
  if p =? v1 then Some 123456 else if p =? v2 then Some 654321 else None.

(** ** Calls on data objects *)

#[local] Notation "'call' m" := (Group.on_data m) (at level 10, m at level 9).

Definition cplus_data_is_valid (obj : Z) : W Z := b ← call (Data.cplus_data_is_valid obj); mret (Z.b2z b).
Definition cplus_data_check (obj : Z) : W Z := b ← call (Data.cplus_data_check obj); mret (Z.b2z b).

(** [cplus_data_get_value] into a variable of [n] bytes, and into a buffer. *)
Definition get_value (obj : Z) (result : list Z) : W (Z * list Z) :=
  '(r, v, _) ← call (Data.cplus_data_get_value obj (Some result) None); mret (r, default [] v).
Definition get_value_bufs (obj len : Z) (bufs : list Z) : W (Z * list Z) :=
  '(r, _, b) ← call (Data.cplus_data_get_value obj (Some (Data.to_bytes Data.T_UINT32 len)) (Some bufs));
  mret (r, default [] b).
Definition cplus_data_get_as_string (obj len : Z) (str : list Z) : W (Z * list Z) :=
  '(r, s) ← call (DataConv.cplus_data_get_as_string obj len (Some str)); mret (r, default [] s).
Definition cplus_data_get_as_byte_array (obj len : Z) (bufs : list Z) : W (Z * list Z) :=
  '(r, b) ← call (DataConv.cplus_data_get_as_byte_array obj len (Some bufs)); mret (r, default [] b).

(** [strcmp(a, b)] with a text that a call returns or that is in a buffer, and
    [strlen] of it; [memcmp(a, b, n)] is the difference of the bytes. *)
Definition text_at (b : list Z) : W (list Z) := deref (λ _, Stdio.cstr b).
Definition text_of (m : C Data.world (option Data.block)) : W (list Z) := call (b ← m; Data.string_of b).
Definition strcmp (a : string) (b : W (list Z)) : W Z := t ← b; mret (Keyed.strcmp (Unittest.cstr a) t).
Definition strcmp_at (b : list Z) (a : string) : W Z := t ← text_at b; mret (Keyed.strcmp t (Unittest.cstr a)).
Definition length_of (b : W (list Z)) : W Z := t ← b; mret (zlen t).
Definition memcmp (a b : list Z) (n : Z) : W Z :=
  if (n <=? zlen a) && (n <=? zlen b)
  then mret (Keyed.strcmp (take (Z.to_nat n) a) (take (Z.to_nat n) b)) else undef.
Definition array_of (m : C Data.world (option Data.block)) : W (list Z) :=
  call (b ← m; deref (λ _, Data.bytes <$> b)).

(** [true == cond] and [0 == x] as values of type [int]. *)
Definition holds (b : bool) : W Z := mret (Z.b2z b).
Definition is_zero (m : W Z) : W Z := z ← m; mret (Z.b2z (0 =? z)).
Definition is_one (m : W Z) : W Z := z ← m; mret (Z.b2z (1 =? z)).
Definition is_close (a : string) (m : W Z) (bound : Z) : W Z := x ← m; mret (Z.b2z (close (real a) x bound)).
(** [(int64_t)(x - a)], which is what an expectation compares. *)
Definition difference (m : W Z) (a : string) : W Z :=
  x ← m; deref (λ _, float_trunc binary64 (minus x (real a))).
Definition double_of (m : W Z) : W Z := x ← m; mret (to_double x).

(** The list of a group has its nodes on a heap of their own. *)
Definition node_memory : Llist.resources := Llist.Resources true false 0 (λ _, 0) false Heap.empty_heap.
Definition me : nat := 0.

(** The blocks in use: the objects, their texts and arrays, lists and nodes. *)
Definition cplus_mgr_report : W Z := λ w,
  Done (Z.of_nat (size (Heap.used (Data.heap (Group.store w))))
        + map_fold (λ _ t n, n + Z.of_nat (size (Llist.nodes t))) 0 (Group.lists w), w).

(** [CPLUS_DATA_TYPE_CONV(x)] selects by the type of [x]. *)
Inductive ctype := c_bool | c_int8 | c_int16 | c_int32 | c_int64 | c_uint8 | c_uint16 | c_uint32
  | c_uint64 | c_float | c_double | c_void_ptr | c_char_ptr | c_other.
Definition CPLUS_DATA_TYPE_CONV (c : ctype) : Z :=
  Data.type_code match c with
  | c_bool => Data.T_BOOL | c_int8 => Data.T_INT8 | c_int16 => Data.T_INT16
  | c_int32 => Data.T_INT32 | c_int64 => Data.T_INT64 | c_uint8 => Data.T_UINT8
  | c_uint16 => Data.T_UINT16 | c_uint32 => Data.T_UINT32 | c_uint64 => Data.T_UINT64
  | c_float => Data.T_FLOAT | c_double => Data.T_DOUBLE | c_void_ptr => Data.T_POINTER
  | c_char_ptr => Data.T_STRING | c_other => Data.T_UNKNOWN 15
  end.

(** [CPLUS_DATA_REVERSE(&x)] and [CPLUS_DATA_SWAP(x)] for a variable of type [ty]
    and [n] bytes: the functions work on the unsigned value. *)
Definition REVERSE (ty : Z → Z) (n x : Z) : Z :=
  let v := x `mod` 2 ^ (8 * n) in
  match n with
  | 2 => ty (DataConv.cplus_data_reverse16 v)
  | 4 => ty (DataConv.cplus_data_reverse32 v)
  | 8 => ty (DataConv.cplus_data_reverse64 v)
  | _ => x
  end.
Definition SWAP (ty : Z → Z) (n x : Z) : Z := ty (DataConv.CPLUS_DATA_SWAP n (x `mod` 2 ^ (8 * n))).

(** ** The tests *)

Section tests.
Variable any : Z.

Definition new_BOOL_with (l : Z) (new : W Z) : T :=
  let result := replicate 1 any in
  data ← EXPECT_EQ_SET (l + 4) 1 not_null new;
  UNITTEST_EXPECT_EQ (l + 5) s32 CPLUS_SUCCESS (call (Data.cplus_data_set_key data (strlen "test_bool") (Some (lit "test_bool"))));;
  UNITTEST_EXPECT_EQ (l + 6) s32 0 (strcmp "test_bool" (text_of (Data.cplus_data_get_key data)));;
  UNITTEST_EXPECT_EQ (l + 7) s32 CPLUS_SUCCESS (call (Data.cplus_data_set_key data (strlen "test_bool_bool_bool_bool") (Some (lit "test_bool_bool_bool_bool"))));;
  UNITTEST_EXPECT_EQ (l + 8) s32 0 (strcmp "test_bool_bool_bool_bool" (text_of (Data.cplus_data_get_key data)));;
  UNITTEST_EXPECT_EQ (l + 9) u32 1 (call (Data.cplus_data_get_data_size data));;
  UNITTEST_EXPECT_EQ (l + 10) s32 (Data.type_code Data.T_BOOL) (call (Data.cplus_data_get_type data));;
  result ← EXPECT_EQ_OUT (l + 11) s32 1 (get_value data result);
  UNITTEST_EXPECT_EQ (l + 12) as_bool 1 (mret (Data.of_bytes Data.T_BOOL result));;
  UNITTEST_EXPECT_EQ (l + 13) s32 CPLUS_SUCCESS (call (Data.cplus_data_set_bool data 0));;
  UNITTEST_EXPECT_EQ (l + 14) as_bool 0 (call (Data.cplus_data_get_bool data));;
  UNITTEST_EXPECT_EQ (l + 15) s32 CPLUS_SUCCESS (call (Data.cplus_data_delete data));;
  UNITTEST_EXPECT_EQ (l + 16) s32 0 cplus_mgr_report;;
  mret tt.

Definition cplus_data_new_CPLUS_DATA_TYPE_BOOL : T := new_BOOL_with 4561 (call (Data.cplus_data_new_bool 1)).
Definition cplus_data_new_CPLUS_DATA_TYPE_BOOL_THREAD_SAFE : T := new_BOOL_with 5833 (call (Data.cplus_data_new_bool_ex 1 0 None)).

Definition new_INT8_with (l : Z) (new : W Z) : T :=
  let result := replicate 1 any in
  data ← EXPECT_EQ_SET (l + 4) 1 not_null new;
  UNITTEST_EXPECT_EQ (l + 5) s32 CPLUS_SUCCESS (call (Data.cplus_data_set_key data (strlen "test_int8") (Some (lit "test_int8"))));;
  UNITTEST_EXPECT_EQ (l + 6) s32 0 (strcmp "test_int8" (text_of (Data.cplus_data_get_key data)));;
  UNITTEST_EXPECT_EQ (l + 7) u32 1 (call (Data.cplus_data_get_data_size data));;
  UNITTEST_EXPECT_EQ (l + 8) s32 (Data.type_code Data.T_INT8) (call (Data.cplus_data_get_type data));;
  result ← EXPECT_EQ_OUT (l + 9) s32 1 (get_value data result);
  UNITTEST_EXPECT_EQ (l + 10) s8 0xab (mret (Data.of_bytes Data.T_INT8 result));;
  UNITTEST_EXPECT_EQ (l + 11) s32 CPLUS_SUCCESS (call (Data.cplus_data_set_int8 data 0xba));;
  UNITTEST_EXPECT_EQ (l + 12) s8 0xba (call (Data.cplus_data_get_int8 data));;
  UNITTEST_EXPECT_EQ (l + 13) s32 CPLUS_SUCCESS (call (Data.cplus_data_delete data));;
  UNITTEST_EXPECT_EQ (l + 14) s32 0 cplus_mgr_report;;
  mret tt.

Definition cplus_data_new_CPLUS_DATA_TYPE_INT8 : T := new_INT8_with 4580 (call (Data.cplus_data_new_int8 0xab)).
Definition cplus_data_new_CPLUS_DATA_TYPE_INT8_THREAD_SAFE : T := new_INT8_with 5852 (call (Data.cplus_data_new_int8_ex 0xab 0 None)).

Definition new_INT16_with (l : Z) (new : W Z) : T :=
  let result := replicate 2 any in
  data ← EXPECT_EQ_SET (l + 4) 1 not_null new;
  UNITTEST_EXPECT_EQ (l + 5) s32 CPLUS_SUCCESS (call (Data.cplus_data_set_key data (strlen "test_int16") (Some (lit "test_int16"))));;
  UNITTEST_EXPECT_EQ (l + 6) s32 0 (strcmp "test_int16" (text_of (Data.cplus_data_get_key data)));;
  UNITTEST_EXPECT_EQ (l + 7) u32 2 (call (Data.cplus_data_get_data_size data));;
  UNITTEST_EXPECT_EQ (l + 8) s32 (Data.type_code Data.T_INT16) (call (Data.cplus_data_get_type data));;
  result ← EXPECT_EQ_OUT (l + 9) s32 2 (get_value data result);
  UNITTEST_EXPECT_EQ (l + 10) s16 0xabcd (mret (Data.of_bytes Data.T_INT16 result));;
  UNITTEST_EXPECT_EQ (l + 11) s32 CPLUS_SUCCESS (call (Data.cplus_data_set_int16 data 0xdcba));;
  UNITTEST_EXPECT_EQ (l + 12) s16 0xdcba (call (Data.cplus_data_get_int16 data));;
  UNITTEST_EXPECT_EQ (l + 13) s32 CPLUS_SUCCESS (call (Data.cplus_data_delete data));;
  UNITTEST_EXPECT_EQ (l + 14) s32 0 cplus_mgr_report;;
  mret tt.

Definition cplus_data_new_CPLUS_DATA_TYPE_INT16 : T := new_INT16_with 4597 (call (Data.cplus_data_new_int16 0xabcd)).
Definition cplus_data_new_CPLUS_DATA_TYPE_INT16_THREAD_SAFE : T := new_INT16_with 5869 (call (Data.cplus_data_new_int16_ex 0xabcd 0 None)).

Definition new_INT32_with (l : Z) (new : W Z) : T :=
  let result := replicate 4 any in
  data ← EXPECT_EQ_SET (l + 4) 1 not_null new;
  UNITTEST_EXPECT_EQ (l + 5) s32 CPLUS_SUCCESS (call (Data.cplus_data_set_key data (strlen "test_int32") (Some (lit "test_int32"))));;
  UNITTEST_EXPECT_EQ (l + 6) s32 0 (strcmp "test_int32" (text_of (Data.cplus_data_get_key data)));;
  UNITTEST_EXPECT_EQ (l + 7) u32 4 (call (Data.cplus_data_get_data_size data));;
  UNITTEST_EXPECT_EQ (l + 8) s32 (Data.type_code Data.T_INT32) (call (Data.cplus_data_get_type data));;
  result ← EXPECT_EQ_OUT (l + 9) s32 4 (get_value data result);
  UNITTEST_EXPECT_EQ (l + 10) s32 123456 (mret (Data.of_bytes Data.T_INT32 result));;
  UNITTEST_EXPECT_EQ (l + 11) s32 CPLUS_SUCCESS (call (Data.cplus_data_set_int32 data (-123456)));;
  UNITTEST_EXPECT_EQ (l + 12) s32 (-123456) (call (Data.cplus_data_get_int32 data));;
  UNITTEST_EXPECT_EQ (l + 13) s32 CPLUS_SUCCESS (call (Data.cplus_data_delete data));;
  UNITTEST_EXPECT_EQ (l + 14) s32 0 cplus_mgr_report;;
  mret tt.

Definition cplus_data_new_CPLUS_DATA_TYPE_INT32 : T := new_INT32_with 4614 (call (Data.cplus_data_new_int32 123456)).
Definition cplus_data_new_CPLUS_DATA_TYPE_INT32_THREAD_SAFE : T := new_INT32_with 5886 (call (Data.cplus_data_new_int32_ex 123456 0 None)).

Definition new_INT64_with (l : Z) (new : W Z) : T :=
  let result := replicate 8 any in
  data ← EXPECT_EQ_SET (l + 4) 1 not_null new;
  UNITTEST_EXPECT_EQ (l + 5) s32 CPLUS_SUCCESS (call (Data.cplus_data_set_key data (strlen "test_int64") (Some (lit "test_int64"))));;
  UNITTEST_EXPECT_EQ (l + 6) s32 0 (strcmp "test_int64" (text_of (Data.cplus_data_get_key data)));;
  UNITTEST_EXPECT_EQ (l + 7) u32 8 (call (Data.cplus_data_get_data_size data));;
  UNITTEST_EXPECT_EQ (l + 8) s32 (Data.type_code Data.T_INT64) (call (Data.cplus_data_get_type data));;
  result ← EXPECT_EQ_OUT (l + 9) s32 8 (get_value data result);
  UNITTEST_EXPECT_EQ (l + 10) s64 0x0123abcddcba3210 (mret (Data.of_bytes Data.T_INT64 result));;
  UNITTEST_EXPECT_EQ (l + 11) s32 CPLUS_SUCCESS (call (Data.cplus_data_set_int64 data 0x7FFFFFFFFFFFFFFF));;
  UNITTEST_EXPECT_EQ (l + 12) s64 0x7FFFFFFFFFFFFFFF (call (Data.cplus_data_get_int64 data));;
  UNITTEST_EXPECT_EQ (l + 13) s32 CPLUS_SUCCESS (call (Data.cplus_data_delete data));;
  UNITTEST_EXPECT_EQ (l + 14) s32 0 cplus_mgr_report;;
  mret tt.

Definition cplus_data_new_CPLUS_DATA_TYPE_INT64 : T := new_INT64_with 4631 (call (Data.cplus_data_new_int64 0x0123abcddcba3210)).
Definition cplus_data_new_CPLUS_DATA_TYPE_INT64_THREAD_SAFE : T := new_INT64_with 5903 (call (Data.cplus_data_new_int64_ex 0x0123abcddcba3210 0 None)).

Definition new_UINT8_with (l : Z) (new : W Z) : T :=
  let result := replicate 1 any in
  data ← EXPECT_EQ_SET (l + 4) 1 not_null new;
  UNITTEST_EXPECT_EQ (l + 5) s32 CPLUS_SUCCESS (call (Data.cplus_data_set_key data (strlen "test_uint8") (Some (lit "test_uint8"))));;
  UNITTEST_EXPECT_EQ (l + 6) s32 0 (strcmp "test_uint8" (text_of (Data.cplus_data_get_key data)));;
  UNITTEST_EXPECT_EQ (l + 7) u32 1 (call (Data.cplus_data_get_data_size data));;
  UNITTEST_EXPECT_EQ (l + 8) s32 (Data.type_code Data.T_UINT8) (call (Data.cplus_data_get_type data));;
  result ← EXPECT_EQ_OUT (l + 9) s32 1 (get_value data result);
  UNITTEST_EXPECT_EQ (l + 10) u8 0xab (mret (Data.of_bytes Data.T_UINT8 result));;
  UNITTEST_EXPECT_EQ (l + 11) s32 CPLUS_SUCCESS (call (Data.cplus_data_set_uint8 data 0xba));;
  UNITTEST_EXPECT_EQ (l + 12) u8 0xba (call (Data.cplus_data_get_uint8 data));;
  UNITTEST_EXPECT_EQ (l + 13) s32 CPLUS_SUCCESS (call (Data.cplus_data_delete data));;
  UNITTEST_EXPECT_EQ (l + 14) s32 0 cplus_mgr_report;;
  mret tt.

Definition cplus_data_new_CPLUS_DATA_TYPE_UINT8 : T := new_UINT8_with 4648 (call (Data.cplus_data_new_uint8 0xab)).
Definition cplus_data_new_CPLUS_DATA_TYPE_UINT8_THREAD_SAFE : T := new_UINT8_with 5920 (call (Data.cplus_data_new_uint8_ex 0xab 0 None)).

Definition new_UINT16_with (l : Z) (new : W Z) : T :=
  let result := replicate 2 any in
  data ← EXPECT_EQ_SET (l + 4) 1 not_null new;
  UNITTEST_EXPECT_EQ (l + 5) s32 CPLUS_SUCCESS (call (Data.cplus_data_set_key data (strlen "test_uint16") (Some (lit "test_uint16"))));;
  UNITTEST_EXPECT_EQ (l + 6) s32 0 (strcmp "test_uint16" (text_of (Data.cplus_data_get_key data)));;
  UNITTEST_EXPECT_EQ (l + 7) u32 2 (call (Data.cplus_data_get_data_size data));;
  UNITTEST_EXPECT_EQ (l + 8) s32 (Data.type_code Data.T_UINT16) (call (Data.cplus_data_get_type data));;
  result ← EXPECT_EQ_OUT (l + 9) s32 2 (get_value data result);
  UNITTEST_EXPECT_EQ (l + 10) u16 0xabcd (mret (Data.of_bytes Data.T_UINT16 result));;
  UNITTEST_EXPECT_EQ (l + 11) s32 CPLUS_SUCCESS (call (Data.cplus_data_set_uint16 data 0xdcba));;
  UNITTEST_EXPECT_EQ (l + 12) u16 0xdcba (call (Data.cplus_data_get_uint16 data));;
  UNITTEST_EXPECT_EQ (l + 13) s32 CPLUS_SUCCESS (call (Data.cplus_data_delete data));;
  UNITTEST_EXPECT_EQ (l + 14) s32 0 cplus_mgr_report;;
  mret tt.

Definition cplus_data_new_CPLUS_DATA_TYPE_UINT16 : T := new_UINT16_with 4665 (call (Data.cplus_data_new_uint16 0xabcd)).
Definition cplus_data_new_CPLUS_DATA_TYPE_UINT16_THREAD_SAFE : T := new_UINT16_with 5937 (call (Data.cplus_data_new_uint16_ex 0xabcd 0 None)).

Definition new_UINT32_with (l : Z) (new : W Z) : T :=
  let result := replicate 4 any in
  data ← EXPECT_EQ_SET (l + 4) 1 not_null new;
  UNITTEST_EXPECT_EQ (l + 5) s32 CPLUS_SUCCESS (call (Data.cplus_data_set_key data (strlen "test_uint32") (Some (lit "test_uint32"))));;
  UNITTEST_EXPECT_EQ (l + 6) s32 0 (strcmp "test_uint32" (text_of (Data.cplus_data_get_key data)));;
  UNITTEST_EXPECT_EQ (l + 7) u32 4 (call (Data.cplus_data_get_data_size data));;
  UNITTEST_EXPECT_EQ (l + 8) s32 (Data.type_code Data.T_UINT32) (call (Data.cplus_data_get_type data));;
  result ← EXPECT_EQ_OUT (l + 9) s32 4 (get_value data result);
  UNITTEST_EXPECT_EQ (l + 10) u32 123456 (mret (Data.of_bytes Data.T_UINT32 result));;
  UNITTEST_EXPECT_EQ (l + 11) s32 CPLUS_SUCCESS (call (Data.cplus_data_set_uint32 data 6543210));;
  UNITTEST_EXPECT_EQ (l + 12) u32 6543210 (call (Data.cplus_data_get_uint32 data));;
  UNITTEST_EXPECT_EQ (l + 13) s32 CPLUS_SUCCESS (call (Data.cplus_data_delete data));;
  UNITTEST_EXPECT_EQ (l + 14) s32 0 cplus_mgr_report;;
  mret tt.

Definition cplus_data_new_CPLUS_DATA_TYPE_UINT32 : T := new_UINT32_with 4682 (call (Data.cplus_data_new_uint32 123456)).
Definition cplus_data_new_CPLUS_DATA_TYPE_UINT32_THREAD_SAFE : T := new_UINT32_with 5954 (call (Data.cplus_data_new_uint32_ex 123456 0 None)).

Definition new_UINT64_with (l : Z) (new : W Z) : T :=
  let result := replicate 8 any in
  data ← EXPECT_EQ_SET (l + 4) 1 not_null new;
  UNITTEST_EXPECT_EQ (l + 5) s32 CPLUS_SUCCESS (call (Data.cplus_data_set_key data (strlen "test_uint64") (Some (lit "test_uint64"))));;
  UNITTEST_EXPECT_EQ (l + 6) s32 0 (strcmp "test_uint64" (text_of (Data.cplus_data_get_key data)));;
  UNITTEST_EXPECT_EQ (l + 7) u32 8 (call (Data.cplus_data_get_data_size data));;
  UNITTEST_EXPECT_EQ (l + 8) s32 (Data.type_code Data.T_UINT64) (call (Data.cplus_data_get_type data));;
  result ← EXPECT_EQ_OUT (l + 9) s32 8 (get_value data result);
  UNITTEST_EXPECT_EQ (l + 10) u64 0x0123abcddcba3210 (mret (Data.of_bytes Data.T_UINT64 result));;
  UNITTEST_EXPECT_EQ (l + 11) s32 CPLUS_SUCCESS (call (Data.cplus_data_set_uint64 data 0xdcba32100123abcd));;
  UNITTEST_EXPECT_EQ (l + 12) u64 0xdcba32100123abcd (call (Data.cplus_data_get_uint64 data));;
  UNITTEST_EXPECT_EQ (l + 13) s32 CPLUS_SUCCESS (call (Data.cplus_data_delete data));;
  UNITTEST_EXPECT_EQ (l + 14) s32 0 cplus_mgr_report;;
  mret tt.

Definition cplus_data_new_CPLUS_DATA_TYPE_UINT64 : T := new_UINT64_with 4699 (call (Data.cplus_data_new_uint64 0x0123abcddcba3210)).
Definition cplus_data_new_CPLUS_DATA_TYPE_UINT64_THREAD_SAFE : T := new_UINT64_with 5971 (call (Data.cplus_data_new_uint64_ex 0x0123abcddcba3210 0 None)).

Definition new_FLOAT_with (l : Z) (new : W Z) : T :=
  let result := replicate 4 any in
  data ← EXPECT_EQ_SET (l + 4) 1 not_null new;
  UNITTEST_EXPECT_EQ (l + 5) s32 CPLUS_SUCCESS (call (Data.cplus_data_set_key data (strlen "test_float") (Some (lit "test_float"))));;
  UNITTEST_EXPECT_EQ (l + 6) s32 0 (strcmp "test_float" (text_of (Data.cplus_data_get_key data)));;
  UNITTEST_EXPECT_EQ (l + 7) u32 4 (call (Data.cplus_data_get_data_size data));;
  UNITTEST_EXPECT_EQ (l + 8) s32 (Data.type_code Data.T_FLOAT) (call (Data.cplus_data_get_type data));;
  result ← EXPECT_EQ_OUT (l + 9) s32 4 (get_value data result);
  UNITTEST_EXPECT_EQ (l + 10) s32 1 (is_close "3.1415926535" (double_of (mret (Data.of_bytes Data.T_FLOAT result))) (to_double (to_float (real "0.0000001"))));;
  UNITTEST_EXPECT_EQ (l + 11) as_double 0 (difference (double_of (mret (Data.of_bytes Data.T_FLOAT result))) "3.14159");;
  UNITTEST_EXPECT_EQ (l + 12) s32 CPLUS_SUCCESS (call (Data.cplus_data_set_float data (to_float (real "2.7182818284"))));;
  UNITTEST_EXPECT_EQ (l + 13) s32 1 (is_close "2.7182818284" (double_of (call (Data.cplus_data_get_float data))) (to_double (to_float (real "0.01"))));;
  UNITTEST_EXPECT_EQ (l + 14) as_double 0 (difference (double_of (call (Data.cplus_data_get_float data))) "2.71828");;
  UNITTEST_EXPECT_EQ (l + 15) s32 CPLUS_SUCCESS (call (Data.cplus_data_delete data));;
  UNITTEST_EXPECT_EQ (l + 16) s32 0 cplus_mgr_report;;
  mret tt.

Definition cplus_data_new_CPLUS_DATA_TYPE_FLOAT : T := new_FLOAT_with 4716 (call (Data.cplus_data_new_float (to_float (real "3.1415926535")))).
Definition cplus_data_new_CPLUS_DATA_TYPE_FLOAT_THREAD_SAFE : T := new_FLOAT_with 5988 (call (Data.cplus_data_new_float_ex (to_float (real "3.1415926535")) 0 None)).

Definition new_DOUBLE_with (l : Z) (new : W Z) : T :=
  let result := replicate 8 any in
  data ← EXPECT_EQ_SET (l + 4) 1 not_null new;
  UNITTEST_EXPECT_EQ (l + 5) s32 CPLUS_SUCCESS (call (Data.cplus_data_set_key data (strlen "test_double") (Some (lit "test_double"))));;
  UNITTEST_EXPECT_EQ (l + 6) s32 0 (strcmp "test_double" (text_of (Data.cplus_data_get_key data)));;
  UNITTEST_EXPECT_EQ (l + 7) u32 8 (call (Data.cplus_data_get_data_size data));;
  UNITTEST_EXPECT_EQ (l + 8) s32 (Data.type_code Data.T_DOUBLE) (call (Data.cplus_data_get_type data));;
  result ← EXPECT_EQ_OUT (l + 9) s32 8 (get_value data result);
  UNITTEST_EXPECT_EQ (l + 10) s32 1 (is_close "3.1415926535" (mret (Data.of_bytes Data.T_DOUBLE result)) (to_double (to_float (real "0.0000001"))));;
  UNITTEST_EXPECT_EQ (l + 11) as_double 0 (difference (mret (Data.of_bytes Data.T_DOUBLE result)) "3.14159");;
  UNITTEST_EXPECT_EQ (l + 12) s32 CPLUS_SUCCESS (call (Data.cplus_data_set_double data (real "2.7182818284")));;
  UNITTEST_EXPECT_EQ (l + 13) s32 1 (is_close "2.7182818284" (call (Data.cplus_data_get_double data)) (to_double (to_float (real "0.0000001"))));;
  UNITTEST_EXPECT_EQ (l + 14) as_double 0 (difference (call (Data.cplus_data_get_double data)) "2.71828");;
  UNITTEST_EXPECT_EQ (l + 15) s32 CPLUS_SUCCESS (call (Data.cplus_data_delete data));;
  UNITTEST_EXPECT_EQ (l + 16) s32 0 cplus_mgr_report;;
  mret tt.

Definition cplus_data_new_CPLUS_DATA_TYPE_DOUBLE : T := new_DOUBLE_with 4735 (call (Data.cplus_data_new_double (real "3.1415926535"))).
Definition cplus_data_new_CPLUS_DATA_TYPE_DOUBLE_THREAD_SAFE : T := new_DOUBLE_with 6007 (call (Data.cplus_data_new_double_ex (real "3.1415926535") 0 None)).

Definition cplus_data_new_CPLUS_DATA_TYPE_POINTER : T :=
  let result := replicate 8 any in
  data ← EXPECT_EQ_SET 4759 1 not_null (call (Data.cplus_data_new_pointer v1));
  UNITTEST_EXPECT_EQ 4760 s32 CPLUS_SUCCESS (call (Data.cplus_data_set_key data (strlen "test_pointer") (Some (lit "test_pointer"))));;
  UNITTEST_EXPECT_EQ 4761 s32 0 (strcmp "test_pointer" (text_of (Data.cplus_data_get_key data)));;
  UNITTEST_EXPECT_EQ 4762 u32 8 (call (Data.cplus_data_get_data_size data));;
  UNITTEST_EXPECT_EQ 4763 s32 (Data.type_code Data.T_POINTER) (call (Data.cplus_data_get_type data));;
  result ← EXPECT_EQ_OUT 4764 s32 8 (get_value data result);
  UNITTEST_EXPECT_EQ 4765 s32 123456 (deref (λ _, local_int (Data.of_bytes Data.T_POINTER result)));;
  UNITTEST_EXPECT_EQ 4766 s32 CPLUS_SUCCESS (call (Data.cplus_data_set_pointer data v2));;
  result ← EXPECT_EQ_OUT 4767 s32 8 (get_value data result);
  UNITTEST_EXPECT_EQ 4768 s32 654321 (deref (λ _, local_int (Data.of_bytes Data.T_POINTER result)));;
  UNITTEST_EXPECT_EQ 4769 s32 CPLUS_SUCCESS (call (Data.cplus_data_set_pointer data v1));;
  p ← EXPECT_EQ_SET 4770 1 not_null (call (Data.cplus_data_get_pointer data));
  let result := Data.to_bytes Data.T_POINTER p in
  UNITTEST_EXPECT_EQ 4771 s32 123456 (deref (λ _, local_int (Data.of_bytes Data.T_POINTER result)));;
  UNITTEST_EXPECT_EQ 4772 s32 CPLUS_SUCCESS (call (Data.cplus_data_delete data));;
  UNITTEST_EXPECT_EQ 4773 s32 0 cplus_mgr_report;;
  mret tt.

Definition cplus_data_new_CPLUS_DATA_TYPE_STRING : T :=
  let bufs := replicate 32 any in
  let len := 32 in
  data ← EXPECT_EQ_SET 4782 1 not_null (call (Data.cplus_data_new_string (strlen "Hello World") (Some (lit "Hello World"))));
  UNITTEST_EXPECT_EQ 4783 s32 CPLUS_SUCCESS (call (Data.cplus_data_set_key data (strlen "test_string") (Some (lit "test_string"))));;
  UNITTEST_EXPECT_EQ 4784 s32 0 (strcmp "test_string" (text_of (Data.cplus_data_get_key data)));;
  UNITTEST_EXPECT_EQ 4785 u32 (strlen "Hello World") (call (Data.cplus_data_get_data_size data));;
  UNITTEST_EXPECT_EQ 4786 s32 (Data.type_code Data.T_STRING) (call (Data.cplus_data_get_type data));;
  bufs ← EXPECT_EQ_OUT 4787 s32 (strlen "Hello World") (get_value_bufs data len bufs);
  UNITTEST_EXPECT_EQ 4788 s32 0 (strcmp "Hello World" (text_at bufs));;
  UNITTEST_EXPECT_EQ 4789 s32 0 (call (Data.cplus_data_set_string data (strlen "AaBbCcDd") (Some (lit "AaBbCcDd"))));;
  UNITTEST_EXPECT_EQ 4790 u32 (strlen "AaBbCcDd") (call (Data.cplus_data_get_data_size data));;
  UNITTEST_EXPECT_EQ 4791 u64 (strlen "AaBbCcDd") (length_of (text_of (Data.cplus_data_get_string data)));;
  UNITTEST_EXPECT_EQ 4792 s32 0 (strcmp "AaBbCcDd" (text_of (Data.cplus_data_get_string data)));;
  UNITTEST_EXPECT_EQ 4793 s32 CPLUS_SUCCESS (call (Data.cplus_data_set_string_code data 0xabcd));;
  UNITTEST_EXPECT_EQ 4794 u32 0xabcd (call (Data.cplus_data_get_string_code data));;
  UNITTEST_EXPECT_EQ 4795 s32 CPLUS_SUCCESS (call (Data.cplus_data_delete data));;
  UNITTEST_EXPECT_EQ 4796 s32 0 cplus_mgr_report;;
  mret tt.

Definition cplus_data_new_CPLUS_DATA_TYPE_BYTE_ARRAY : T :=
  let get_value := replicate 32 0 in let test_value := replicate 64 0 in
  let get_len := 32 in
  let bufs := replicate 32 0xAB in
  let test_value := <[0%nat := 0xff]> test_value in
  data ← EXPECT_EQ_SET 4811 1 not_null (call (Data.cplus_data_new_byte_array 32 (Some bufs)));
  UNITTEST_EXPECT_EQ 4812 s32 CPLUS_SUCCESS (call (Data.cplus_data_set_key data (strlen "test_byte_array") (Some (lit "test_byte_array"))));;
  UNITTEST_EXPECT_EQ 4813 s32 0 (strcmp "test_byte_array" (text_of (Data.cplus_data_get_key data)));;
  UNITTEST_EXPECT_EQ 4814 u32 32 (call (Data.cplus_data_get_data_size data));;
  UNITTEST_EXPECT_EQ 4815 s32 (Data.type_code Data.T_BYTE_ARRAY) (call (Data.cplus_data_get_type data));;
  get_value ← EXPECT_EQ_OUT 4816 s32 32 (get_value_bufs data get_len get_value);
  UNITTEST_EXPECT_EQ 4817 s32 0 (memcmp bufs get_value 32);;
  UNITTEST_EXPECT_EQ 4818 s32 0 (call (Data.cplus_data_set_byte_array data 1 (Some test_value)));;
  UNITTEST_EXPECT_EQ 4819 u32 1 (call (Data.cplus_data_get_data_size data));;
  UNITTEST_EXPECT_EQ 4820 s32 0 (y ← array_of (Data.cplus_data_get_byte_array data); memcmp test_value y 1);;
  UNITTEST_EXPECT_EQ 4821 s32 0 (call (Data.cplus_data_set_byte_array data 1 (Some test_value)));;
  UNITTEST_EXPECT_EQ 4822 u32 1 (call (Data.cplus_data_get_data_size data));;
  UNITTEST_EXPECT_EQ 4823 s32 0 (y ← array_of (Data.cplus_data_get_byte_array data); memcmp test_value y 1);;
  let test_value := replicate 64 0xBC in
  UNITTEST_EXPECT_EQ 4828 s32 0 (call (Data.cplus_data_set_byte_array data 64 (Some test_value)));;
  UNITTEST_EXPECT_EQ 4829 u32 64 (call (Data.cplus_data_get_data_size data));;
  UNITTEST_EXPECT_EQ 4830 s32 0 (y ← array_of (Data.cplus_data_get_byte_array data); memcmp test_value y 64);;
  UNITTEST_EXPECT_EQ 4831 s32 CPLUS_SUCCESS (call (Data.cplus_data_delete data));;
  UNITTEST_EXPECT_EQ 4832 s32 0 cplus_mgr_report;;
  mret tt.

Definition cplus_data_is_valid_functionity : T :=
  let data := 0 in
  UNITTEST_EXPECT_EQ 5571 as_bool 0 (cplus_data_is_valid data);;
  data ← EXPECT_EQ_SET 5572 1 not_null (call (Data.cplus_data_new (Data.type_code Data.T_NULL) None None));
  UNITTEST_EXPECT_EQ 5573 as_bool 0 (cplus_data_is_valid data);;
  UNITTEST_EXPECT_EQ 5574 s32 CPLUS_SUCCESS (call (Data.cplus_data_delete data));;
  data ← EXPECT_EQ_SET 5575 1 not_null (call (Data.cplus_data_new_bool 1));
  UNITTEST_EXPECT_EQ 5576 as_bool 1 (cplus_data_is_valid data);;
  UNITTEST_EXPECT_EQ 5577 s32 CPLUS_SUCCESS (call (Data.cplus_data_delete data));;
  data ← EXPECT_EQ_SET 5578 1 not_null (call (Data.cplus_data_new_int8 0xab));
  UNITTEST_EXPECT_EQ 5579 as_bool 1 (cplus_data_is_valid data);;
  UNITTEST_EXPECT_EQ 5580 s32 CPLUS_SUCCESS (call (Data.cplus_data_delete data));;
  data ← EXPECT_EQ_SET 5581 1 not_null (call (Data.cplus_data_new_int16 0xabcd));
  UNITTEST_EXPECT_EQ 5582 as_bool 1 (cplus_data_is_valid data);;
  UNITTEST_EXPECT_EQ 5583 s32 CPLUS_SUCCESS (call (Data.cplus_data_delete data));;
  data ← EXPECT_EQ_SET 5584 1 not_null (call (Data.cplus_data_new_int32 123456));
  UNITTEST_EXPECT_EQ 5585 as_bool 1 (cplus_data_is_valid data);;
  UNITTEST_EXPECT_EQ 5586 s32 CPLUS_SUCCESS (call (Data.cplus_data_delete data));;
  data ← EXPECT_EQ_SET 5587 1 not_null (call (Data.cplus_data_new_int64 0x0123abcddcba3210));
  UNITTEST_EXPECT_EQ 5588 as_bool 1 (cplus_data_is_valid data);;
  UNITTEST_EXPECT_EQ 5589 s32 CPLUS_SUCCESS (call (Data.cplus_data_delete data));;
  data ← EXPECT_EQ_SET 5590 1 not_null (call (Data.cplus_data_new_uint8 0xab));
  UNITTEST_EXPECT_EQ 5591 as_bool 1 (cplus_data_is_valid data);;
  UNITTEST_EXPECT_EQ 5592 s32 CPLUS_SUCCESS (call (Data.cplus_data_delete data));;
  data ← EXPECT_EQ_SET 5593 1 not_null (call (Data.cplus_data_new_uint16 0xabcd));
  UNITTEST_EXPECT_EQ 5594 as_bool 1 (cplus_data_is_valid data);;
  UNITTEST_EXPECT_EQ 5595 s32 CPLUS_SUCCESS (call (Data.cplus_data_delete data));;
  data ← EXPECT_EQ_SET 5596 1 not_null (call (Data.cplus_data_new_uint32 123456));
  UNITTEST_EXPECT_EQ 5597 as_bool 1 (cplus_data_is_valid data);;
  UNITTEST_EXPECT_EQ 5598 s32 CPLUS_SUCCESS (call (Data.cplus_data_delete data));;
  data ← EXPECT_EQ_SET 5599 1 not_null (call (Data.cplus_data_new_uint64 0x0123abcddcba3210));
  UNITTEST_EXPECT_EQ 5600 as_bool 1 (cplus_data_is_valid data);;
  UNITTEST_EXPECT_EQ 5601 s32 CPLUS_SUCCESS (call (Data.cplus_data_delete data));;
  data ← EXPECT_EQ_SET 5602 1 not_null (call (Data.cplus_data_new_float (to_float (real "3.1415926535"))));
  UNITTEST_EXPECT_EQ 5603 as_bool 1 (cplus_data_is_valid data);;
  UNITTEST_EXPECT_EQ 5604 s32 CPLUS_SUCCESS (call (Data.cplus_data_delete data));;
  data ← EXPECT_EQ_SET 5605 1 not_null (call (Data.cplus_data_new_double (real "3.1415926535")));
  UNITTEST_EXPECT_EQ 5606 as_bool 1 (cplus_data_is_valid data);;
  UNITTEST_EXPECT_EQ 5607 s32 CPLUS_SUCCESS (call (Data.cplus_data_delete data));;
  data ← EXPECT_EQ_SET 5608 1 not_null (call (Data.cplus_data_new_string (strlen "Hello World") (Some (lit "Hello World"))));
  UNITTEST_EXPECT_EQ 5609 as_bool 1 (cplus_data_is_valid data);;
  UNITTEST_EXPECT_EQ 5610 s32 CPLUS_SUCCESS (call (Data.cplus_data_delete data));;
  data ← EXPECT_EQ_SET 5611 1 not_null (call (Data.cplus_data_new_ex (Data.type_code Data.T_NULL) None None 0 None));
  UNITTEST_EXPECT_EQ 5613 as_bool 0 (cplus_data_is_valid data);;
  UNITTEST_EXPECT_EQ 5614 s32 CPLUS_SUCCESS (call (Data.cplus_data_delete data));;
  data ← EXPECT_EQ_SET 5615 1 not_null (call (Data.cplus_data_new_ex (Data.type_code Data.T_BOOL) None None 0 None));
  UNITTEST_EXPECT_EQ 5617 as_bool 0 (cplus_data_is_valid data);;
  UNITTEST_EXPECT_EQ 5618 s32 CPLUS_SUCCESS (call (Data.cplus_data_set_bool data 1));;
  UNITTEST_EXPECT_EQ 5619 as_bool 1 (cplus_data_is_valid data);;
  UNITTEST_EXPECT_EQ 5620 s32 CPLUS_SUCCESS (call (Data.cplus_data_delete data));;
  data ← EXPECT_EQ_SET 5621 1 not_null (call (Data.cplus_data_new_ex (Data.type_code Data.T_INT8) None None 0 None));
  UNITTEST_EXPECT_EQ 5623 as_bool 0 (cplus_data_is_valid data);;
  UNITTEST_EXPECT_EQ 5624 s32 CPLUS_SUCCESS (call (Data.cplus_data_set_int8 data 0xab));;
  UNITTEST_EXPECT_EQ 5625 as_bool 1 (cplus_data_is_valid data);;
  UNITTEST_EXPECT_EQ 5626 s32 CPLUS_SUCCESS (call (Data.cplus_data_delete data));;
  data ← EXPECT_EQ_SET 5627 1 not_null (call (Data.cplus_data_new_ex (Data.type_code Data.T_INT16) None None 0 None));
  UNITTEST_EXPECT_EQ 5629 as_bool 0 (cplus_data_is_valid data);;
  UNITTEST_EXPECT_EQ 5630 s32 CPLUS_SUCCESS (call (Data.cplus_data_set_int16 data 0xabcd));;
  UNITTEST_EXPECT_EQ 5631 as_bool 1 (cplus_data_is_valid data);;
  UNITTEST_EXPECT_EQ 5632 s32 CPLUS_SUCCESS (call (Data.cplus_data_delete data));;
  data ← EXPECT_EQ_SET 5633 1 not_null (call (Data.cplus_data_new_ex (Data.type_code Data.T_INT32) None None 0 None));
  UNITTEST_EXPECT_EQ 5635 as_bool 0 (cplus_data_is_valid data);;
  UNITTEST_EXPECT_EQ 5636 s32 CPLUS_SUCCESS (call (Data.cplus_data_set_int32 data 123456));;
  UNITTEST_EXPECT_EQ 5637 as_bool 1 (cplus_data_is_valid data);;
  UNITTEST_EXPECT_EQ 5638 s32 CPLUS_SUCCESS (call (Data.cplus_data_delete data));;
  data ← EXPECT_EQ_SET 5639 1 not_null (call (Data.cplus_data_new_ex (Data.type_code Data.T_INT64) None None 0 None));
  UNITTEST_EXPECT_EQ 5641 as_bool 0 (cplus_data_is_valid data);;
  UNITTEST_EXPECT_EQ 5642 s32 CPLUS_SUCCESS (call (Data.cplus_data_set_int64 data 0x0123abcddcba3210));;
  UNITTEST_EXPECT_EQ 5643 as_bool 1 (cplus_data_is_valid data);;
  UNITTEST_EXPECT_EQ 5644 s32 CPLUS_SUCCESS (call (Data.cplus_data_delete data));;
  data ← EXPECT_EQ_SET 5645 1 not_null (call (Data.cplus_data_new_ex (Data.type_code Data.T_UINT8) None None 0 None));
  UNITTEST_EXPECT_EQ 5647 as_bool 0 (cplus_data_is_valid data);;
  UNITTEST_EXPECT_EQ 5648 s32 CPLUS_SUCCESS (call (Data.cplus_data_set_uint8 data 0xab));;
  UNITTEST_EXPECT_EQ 5649 as_bool 1 (cplus_data_is_valid data);;
  UNITTEST_EXPECT_EQ 5650 s32 CPLUS_SUCCESS (call (Data.cplus_data_delete data));;
  data ← EXPECT_EQ_SET 5651 1 not_null (call (Data.cplus_data_new_ex (Data.type_code Data.T_UINT16) None None 0 None));
  UNITTEST_EXPECT_EQ 5653 as_bool 0 (cplus_data_is_valid data);;
  UNITTEST_EXPECT_EQ 5654 s32 CPLUS_SUCCESS (call (Data.cplus_data_set_uint16 data 0xabcd));;
  UNITTEST_EXPECT_EQ 5655 as_bool 1 (cplus_data_is_valid data);;
  UNITTEST_EXPECT_EQ 5656 s32 CPLUS_SUCCESS (call (Data.cplus_data_delete data));;
  data ← EXPECT_EQ_SET 5657 1 not_null (call (Data.cplus_data_new_ex (Data.type_code Data.T_UINT32) None None 0 None));
  UNITTEST_EXPECT_EQ 5659 as_bool 0 (cplus_data_is_valid data);;
  UNITTEST_EXPECT_EQ 5660 s32 CPLUS_SUCCESS (call (Data.cplus_data_set_uint32 data 123456));;
  UNITTEST_EXPECT_EQ 5661 as_bool 1 (cplus_data_is_valid data);;
  UNITTEST_EXPECT_EQ 5662 s32 CPLUS_SUCCESS (call (Data.cplus_data_delete data));;
  data ← EXPECT_EQ_SET 5663 1 not_null (call (Data.cplus_data_new_ex (Data.type_code Data.T_UINT64) None None 0 None));
  UNITTEST_EXPECT_EQ 5665 as_bool 0 (cplus_data_is_valid data);;
  UNITTEST_EXPECT_EQ 5666 s32 CPLUS_SUCCESS (call (Data.cplus_data_set_uint64 data 0x0123abcddcba3210));;
  UNITTEST_EXPECT_EQ 5667 as_bool 1 (cplus_data_is_valid data);;
  UNITTEST_EXPECT_EQ 5668 s32 CPLUS_SUCCESS (call (Data.cplus_data_delete data));;
  data ← EXPECT_EQ_SET 5669 1 not_null (call (Data.cplus_data_new_ex (Data.type_code Data.T_FLOAT) None None 0 None));
  UNITTEST_EXPECT_EQ 5671 as_bool 0 (cplus_data_is_valid data);;
  UNITTEST_EXPECT_EQ 5672 s32 CPLUS_SUCCESS (call (Data.cplus_data_set_float data (to_float (real "3.1415926535"))));;
  UNITTEST_EXPECT_EQ 5673 as_bool 1 (cplus_data_is_valid data);;
  UNITTEST_EXPECT_EQ 5674 s32 CPLUS_SUCCESS (call (Data.cplus_data_delete data));;
  data ← EXPECT_EQ_SET 5675 1 not_null (call (Data.cplus_data_new_ex (Data.type_code Data.T_DOUBLE) None None 0 None));
  UNITTEST_EXPECT_EQ 5677 as_bool 0 (cplus_data_is_valid data);;
  UNITTEST_EXPECT_EQ 5678 s32 CPLUS_SUCCESS (call (Data.cplus_data_set_double data (real "3.1415926535")));;
  UNITTEST_EXPECT_EQ 5679 as_bool 1 (cplus_data_is_valid data);;
  UNITTEST_EXPECT_EQ 5680 s32 CPLUS_SUCCESS (call (Data.cplus_data_delete data));;
  data ← EXPECT_EQ_SET 5681 1 not_null (call (Data.cplus_data_new_ex (Data.type_code Data.T_POINTER) None None 0 None));
  UNITTEST_EXPECT_EQ 5683 as_bool 0 (cplus_data_is_valid data);;
  UNITTEST_EXPECT_EQ 5684 s32 CPLUS_SUCCESS (call (Data.cplus_data_delete data));;
  data ← EXPECT_EQ_SET 5685 1 not_null (call (Data.cplus_data_new_ex (Data.type_code Data.T_STRING) None None 0 None));
  UNITTEST_EXPECT_EQ 5687 as_bool 0 (cplus_data_is_valid data);;
  UNITTEST_EXPECT_EQ 5688 s32 CPLUS_SUCCESS (call (Data.cplus_data_set_string data (strlen "Hello World") (Some (lit "Hello World"))));;
  UNITTEST_EXPECT_EQ 5689 as_bool 1 (cplus_data_is_valid data);;
  UNITTEST_EXPECT_EQ 5690 s32 CPLUS_SUCCESS (call (Data.cplus_data_delete data));;
  UNITTEST_EXPECT_EQ 5691 s32 0 cplus_mgr_report;;
  mret tt.

Definition cplus_data_reverse_functionity : T :=
  let i16 := 0x0123 in
  let i32 := 0x01234567 in
  let i64 := 0x0123456789abcdef in
  let u16 := 0x0123 in
  let u32 := 0x01234567 in
  let u64 := 0x0123456789abcdef in
  UNITTEST_EXPECT_EQ 5703 s16 0x0123 (mret i16);;
  UNITTEST_EXPECT_EQ 5704 Prelude.u16 0x0123 (mret u16);;
  UNITTEST_EXPECT_EQ 5705 s16 0x2301 (mret (SWAP s16 2 i16));;
  UNITTEST_EXPECT_EQ 5706 Prelude.u16 0x2301 (mret (SWAP Prelude.u16 2 u16));;
  UNITTEST_EXPECT_EQ 5707 s16 0x0123 (mret i16);;
  UNITTEST_EXPECT_EQ 5708 Prelude.u16 0x0123 (mret u16);;
  UNITTEST_EXPECT_EQ 5709 s32 0x01234567 (mret i32);;
  UNITTEST_EXPECT_EQ 5710 Prelude.u32 0x01234567 (mret u32);;
  UNITTEST_EXPECT_EQ 5711 s32 0x67452301 (mret (SWAP s32 4 i32));;
  UNITTEST_EXPECT_EQ 5712 Prelude.u32 0x67452301 (mret (SWAP Prelude.u32 4 u32));;
  UNITTEST_EXPECT_EQ 5713 s32 0x01234567 (mret i32);;
  UNITTEST_EXPECT_EQ 5714 Prelude.u32 0x01234567 (mret u32);;
  UNITTEST_EXPECT_EQ 5715 s64 0x0123456789abcdef (mret i64);;
  UNITTEST_EXPECT_EQ 5716 Prelude.u64 0x0123456789abcdef (mret u64);;
  UNITTEST_EXPECT_EQ 5717 s64 0xefcdab8967452301 (mret (SWAP s64 8 i64));;
  UNITTEST_EXPECT_EQ 5718 Prelude.u64 0xefcdab8967452301 (mret (SWAP Prelude.u64 8 u64));;
  UNITTEST_EXPECT_EQ 5719 s64 0x0123456789abcdef (mret i64);;
  UNITTEST_EXPECT_EQ 5720 Prelude.u64 0x0123456789abcdef (mret u64);;
  UNITTEST_EXPECT_EQ 5721 s16 0x0123 (mret i16);;
  UNITTEST_EXPECT_EQ 5722 Prelude.u16 0x0123 (mret u16);;
  let i16 := REVERSE s16 2 i16 in
  let u16 := REVERSE Prelude.u16 2 u16 in
  UNITTEST_EXPECT_EQ 5725 s16 0x2301 (mret i16);;
  UNITTEST_EXPECT_EQ 5726 Prelude.u16 0x2301 (mret u16);;
  UNITTEST_EXPECT_EQ 5727 s32 0x01234567 (mret i32);;
  UNITTEST_EXPECT_EQ 5728 Prelude.u32 0x01234567 (mret u32);;
  let i32 := REVERSE s32 4 i32 in
  let u32 := REVERSE Prelude.u32 4 u32 in
  UNITTEST_EXPECT_EQ 5731 s32 0x67452301 (mret i32);;
  UNITTEST_EXPECT_EQ 5732 Prelude.u32 0x67452301 (mret u32);;
  UNITTEST_EXPECT_EQ 5733 s64 0x0123456789abcdef (mret i64);;
  UNITTEST_EXPECT_EQ 5734 Prelude.u64 0x0123456789abcdef (mret u64);;
  let i64 := REVERSE s64 8 i64 in
  let u64 := REVERSE Prelude.u64 8 u64 in
  UNITTEST_EXPECT_EQ 5737 s64 0xefcdab8967452301 (mret i64);;
  UNITTEST_EXPECT_EQ 5738 Prelude.u64 0xefcdab8967452301 (mret u64);;
  mret tt.

Definition new_ex_all_type_with (l : Z) : T :=
  data ← EXPECT_EQ_SET (l + 3) 1 not_null (call (Data.cplus_data_new_bool_ex 1 (strlen "test_bool") (Some (lit "test_bool"))));
  UNITTEST_EXPECT_EQ (l + 4) s32 0 (strcmp "test_bool" (text_of (Data.cplus_data_get_key data)));;
  UNITTEST_EXPECT_EQ (l + 5) s32 CPLUS_SUCCESS (call (Data.cplus_data_delete data));;
  data ← EXPECT_EQ_SET (l + 6) 1 not_null (call (Data.cplus_data_new_int8_ex 0xab (strlen "test_int8") (Some (lit "test_int8"))));
  UNITTEST_EXPECT_EQ (l + 7) s32 0 (strcmp "test_int8" (text_of (Data.cplus_data_get_key data)));;
  UNITTEST_EXPECT_EQ (l + 8) s32 CPLUS_SUCCESS (call (Data.cplus_data_delete data));;
  data ← EXPECT_EQ_SET (l + 9) 1 not_null (call (Data.cplus_data_new_int16_ex 0xabcd (strlen "test_int16") (Some (lit "test_int16"))));
  UNITTEST_EXPECT_EQ (l + 10) s32 0 (strcmp "test_int16" (text_of (Data.cplus_data_get_key data)));;
  UNITTEST_EXPECT_EQ (l + 11) s32 CPLUS_SUCCESS (call (Data.cplus_data_delete data));;
  data ← EXPECT_EQ_SET (l + 12) 1 not_null (call (Data.cplus_data_new_int32_ex 123456 (strlen "test_int32") (Some (lit "test_int32"))));
  UNITTEST_EXPECT_EQ (l + 13) s32 0 (strcmp "test_int32" (text_of (Data.cplus_data_get_key data)));;
  UNITTEST_EXPECT_EQ (l + 14) s32 CPLUS_SUCCESS (call (Data.cplus_data_delete data));;
  data ← EXPECT_EQ_SET (l + 15) 1 not_null (call (Data.cplus_data_new_int64_ex 0x0123abcddcba3210 (strlen "test_int64") (Some (lit "test_int64"))));
  UNITTEST_EXPECT_EQ (l + 16) s32 0 (strcmp "test_int64" (text_of (Data.cplus_data_get_key data)));;
  UNITTEST_EXPECT_EQ (l + 17) s32 CPLUS_SUCCESS (call (Data.cplus_data_delete data));;
  data ← EXPECT_EQ_SET (l + 18) 1 not_null (call (Data.cplus_data_new_uint8_ex 0xab (strlen "test_uint8") (Some (lit "test_uint8"))));
  UNITTEST_EXPECT_EQ (l + 19) s32 0 (strcmp "test_uint8" (text_of (Data.cplus_data_get_key data)));;
  UNITTEST_EXPECT_EQ (l + 20) s32 CPLUS_SUCCESS (call (Data.cplus_data_delete data));;
  data ← EXPECT_EQ_SET (l + 21) 1 not_null (call (Data.cplus_data_new_uint16_ex 0xabcd (strlen "test_uint16") (Some (lit "test_uint16"))));
  UNITTEST_EXPECT_EQ (l + 22) s32 0 (strcmp "test_uint16" (text_of (Data.cplus_data_get_key data)));;
  UNITTEST_EXPECT_EQ (l + 23) s32 CPLUS_SUCCESS (call (Data.cplus_data_delete data));;
  data ← EXPECT_EQ_SET (l + 24) 1 not_null (call (Data.cplus_data_new_uint32_ex 123456 (strlen "test_uint32") (Some (lit "test_uint32"))));
  UNITTEST_EXPECT_EQ (l + 25) s32 0 (strcmp "test_uint32" (text_of (Data.cplus_data_get_key data)));;
  UNITTEST_EXPECT_EQ (l + 26) s32 CPLUS_SUCCESS (call (Data.cplus_data_delete data));;
  data ← EXPECT_EQ_SET (l + 27) 1 not_null (call (Data.cplus_data_new_uint64_ex 0x0123abcddcba3210 (strlen "test_uint64") (Some (lit "test_uint64"))));
  UNITTEST_EXPECT_EQ (l + 28) s32 0 (strcmp "test_uint64" (text_of (Data.cplus_data_get_key data)));;
  UNITTEST_EXPECT_EQ (l + 29) s32 CPLUS_SUCCESS (call (Data.cplus_data_delete data));;
  data ← EXPECT_EQ_SET (l + 30) 1 not_null (call (Data.cplus_data_new_float_ex (to_float (real "3.1415926535")) (strlen "test_float") (Some (lit "test_float"))));
  UNITTEST_EXPECT_EQ (l + 31) s32 0 (strcmp "test_float" (text_of (Data.cplus_data_get_key data)));;
  UNITTEST_EXPECT_EQ (l + 32) s32 CPLUS_SUCCESS (call (Data.cplus_data_delete data));;
  data ← EXPECT_EQ_SET (l + 33) 1 not_null (call (Data.cplus_data_new_double_ex (real "3.1415926535") (strlen "test_double") (Some (lit "test_double"))));
  UNITTEST_EXPECT_EQ (l + 34) s32 0 (strcmp "test_double" (text_of (Data.cplus_data_get_key data)));;
  UNITTEST_EXPECT_EQ (l + 35) s32 CPLUS_SUCCESS (call (Data.cplus_data_delete data));;
  data ← EXPECT_EQ_SET (l + 37) 1 not_null (call (Data.cplus_data_new_pointer_ex v1 (strlen "test_pointer") (Some (lit "test_pointer"))));
  UNITTEST_EXPECT_EQ (l + 38) s32 0 (strcmp "test_pointer" (text_of (Data.cplus_data_get_key data)));;
  UNITTEST_EXPECT_EQ (l + 39) s32 CPLUS_SUCCESS (call (Data.cplus_data_delete data));;
  data ← EXPECT_EQ_SET (l + 40) 1 not_null (call (Data.cplus_data_new_string_ex (strlen "Hello World") (Some (lit "Hello World")) (strlen "test_string") (Some (lit "test_string"))));
  UNITTEST_EXPECT_EQ (l + 41) s32 0 (strcmp "test_string" (text_of (Data.cplus_data_get_key data)));;
  UNITTEST_EXPECT_EQ (l + 42) s32 CPLUS_SUCCESS (call (Data.cplus_data_delete data));;
  UNITTEST_EXPECT_EQ (l + 43) s32 0 cplus_mgr_report;;
  mret tt.

Definition cplus_data_new_ex_all_type : T := new_ex_all_type_with 5741.
Definition cplus_data_new_ex_thread_safe : T := new_ex_all_type_with 5787.

Definition cplus_data_new_CPLUS_DATA_TYPE_POINTER_THREAD_SAFE : T :=
  let result := replicate 8 any in
  data ← EXPECT_EQ_SET 6031 1 not_null (call (Data.cplus_data_new_pointer_ex v1 0 None));
  UNITTEST_EXPECT_EQ 6032 s32 CPLUS_SUCCESS (call (Data.cplus_data_set_key data (strlen "test_pointer") (Some (lit "test_pointer"))));;
  UNITTEST_EXPECT_EQ 6033 s32 0 (strcmp "test_pointer" (text_of (Data.cplus_data_get_key data)));;
  UNITTEST_EXPECT_EQ 6034 u32 8 (call (Data.cplus_data_get_data_size data));;
  UNITTEST_EXPECT_EQ 6035 s32 (Data.type_code Data.T_POINTER) (call (Data.cplus_data_get_type data));;
  result ← EXPECT_EQ_OUT 6036 s32 8 (get_value data result);
  UNITTEST_EXPECT_EQ 6037 s32 123456 (deref (λ _, local_int (Data.of_bytes Data.T_POINTER result)));;
  UNITTEST_EXPECT_EQ 6038 s32 0 (call (Data.cplus_data_set_pointer data v2));;
  result ← EXPECT_EQ_OUT 6039 s32 8 (get_value data result);
  UNITTEST_EXPECT_EQ 6040 s32 654321 (deref (λ _, local_int (Data.of_bytes Data.T_POINTER result)));;
  UNITTEST_EXPECT_EQ 6041 s32 CPLUS_SUCCESS (call (Data.cplus_data_delete data));;
  UNITTEST_EXPECT_EQ 6042 s32 0 cplus_mgr_report;;
  mret tt.

Definition cplus_data_new_CPLUS_DATA_TYPE_STRING_THREAD_SAFE : T :=
  let bufs := replicate 32 any in
  let len := 32 in
  data ← EXPECT_EQ_SET 6051 1 not_null (call (Data.cplus_data_new_string_ex (strlen "Hello World") (Some (lit "Hello World")) 0 None));
  UNITTEST_EXPECT_EQ 6052 s32 CPLUS_SUCCESS (call (Data.cplus_data_set_key data (strlen "test_string") (Some (lit "test_string"))));;
  UNITTEST_EXPECT_EQ 6053 s32 0 (strcmp "test_string" (text_of (Data.cplus_data_get_key data)));;
  UNITTEST_EXPECT_EQ 6054 u32 (strlen "Hello World") (call (Data.cplus_data_get_data_size data));;
  UNITTEST_EXPECT_EQ 6055 s32 (Data.type_code Data.T_STRING) (call (Data.cplus_data_get_type data));;
  bufs ← EXPECT_EQ_OUT 6056 s32 (strlen "Hello World") (get_value_bufs data len bufs);
  UNITTEST_EXPECT_EQ 6057 s32 0 (strcmp "Hello World" (text_at bufs));;
  UNITTEST_EXPECT_EQ 6058 s32 0 (call (Data.cplus_data_set_string data (strlen "AaBbCcDd") (Some (lit "AaBbCcDd"))));;
  UNITTEST_EXPECT_EQ 6059 u32 (strlen "AaBbCcDd") (call (Data.cplus_data_get_data_size data));;
  UNITTEST_EXPECT_EQ 6060 u64 (strlen "AaBbCcDd") (length_of (text_of (Data.cplus_data_get_string data)));;
  UNITTEST_EXPECT_EQ 6061 s32 0 (strcmp "AaBbCcDd" (text_of (Data.cplus_data_get_string data)));;
  UNITTEST_EXPECT_EQ 6062 s32 CPLUS_SUCCESS (call (Data.cplus_data_delete data));;
  UNITTEST_EXPECT_EQ 6063 s32 0 cplus_mgr_report;;
  mret tt.

Definition cplus_data_set_action_mode_functionity : T :=
  data ← EXPECT_EQ_SET 6069 1 not_null (call (Data.cplus_data_new_int32 123456));
  UNITTEST_EXPECT_EQ 6070 s32 CPLUS_SUCCESS (call (Data.cplus_data_set_action_mode data 654321));;
  UNITTEST_EXPECT_EQ 6071 u32 654321 (call (Data.cplus_data_get_action_mode data));;
  UNITTEST_EXPECT_EQ 6072 s32 CPLUS_SUCCESS (call (Data.cplus_data_delete data));;
  UNITTEST_EXPECT_EQ 6073 s32 0 cplus_mgr_report;;
  mret tt.

(** The five [int32_t] of the test, at addresses of their own. *)
Definition int_addr (i : Z) : Z := 0x7100 + 4 * i.
Definition int_at (p : Z) : option Z :=
  if (int_addr 1 <=? p) && (p <=? int_addr 5) then Some ((p - 0x7100) / 4) else None.

Definition cplus_data_create_group_node_functionity : T :=
  group_node ← EXPECT_EQ_SET 6083 1 not_null (Group.cplus_data_create_group_node node_memory (lit "test"));
  UNITTEST_EXPECT_EQ 6084 s32 1 (is_one (cplus_data_check group_node));;
  group ← EXPECT_EQ_SET 6085 1 not_null (Group.cplus_data_get_group group_node);
  UNITTEST_EXPECT_EQ 6086 s32 1 (is_one ((λ w, Done (Z.b2z (Llist.cplus_llist_check (Group.type_at w group)), w))));;
  UNITTEST_EXPECT_EQ 6087 s32 0 (strcmp "test" (text_of (Data.cplus_data_get_key group_node)));;
  UNITTEST_EXPECT_EQ 6088 s32 CPLUS_SUCCESS (Group.on_list group (Llist.cplus_llist_push_back me (int_addr 1)));;
  UNITTEST_EXPECT_EQ 6089 s32 CPLUS_SUCCESS (Group.on_list group (Llist.cplus_llist_push_back me (int_addr 2)));;
  UNITTEST_EXPECT_EQ 6090 s32 CPLUS_SUCCESS (Group.on_list group (Llist.cplus_llist_push_back me (int_addr 3)));;
  UNITTEST_EXPECT_EQ 6091 s32 CPLUS_SUCCESS (Group.on_list group (Llist.cplus_llist_push_back me (int_addr 4)));;
  UNITTEST_EXPECT_EQ 6092 s32 CPLUS_SUCCESS (Group.on_list group (Llist.cplus_llist_push_back me (int_addr 5)));;
  UNITTEST_EXPECT_EQ 6093 s32 1 (p ← Group.on_list group (Llist.cplus_llist_pop_front me); deref (λ _, int_at p));;
  UNITTEST_EXPECT_EQ 6094 s32 2 (p ← Group.on_list group (Llist.cplus_llist_pop_front me); deref (λ _, int_at p));;
  UNITTEST_EXPECT_EQ 6095 s32 3 (p ← Group.on_list group (Llist.cplus_llist_pop_front me); deref (λ _, int_at p));;
  UNITTEST_EXPECT_EQ 6096 s32 4 (p ← Group.on_list group (Llist.cplus_llist_pop_front me); deref (λ _, int_at p));;
  UNITTEST_EXPECT_EQ 6097 s32 5 (p ← Group.on_list group (Llist.cplus_llist_pop_front me); deref (λ _, int_at p));;
  UNITTEST_EXPECT_EQ 6098 s32 CPLUS_SUCCESS (Group.cplus_data_delete_group_node me group_node);;
  UNITTEST_EXPECT_EQ 6099 s32 0 cplus_mgr_report;;
  mret tt.

Definition cplus_data_clone_value_functionity : T :=
  data1 ← EXPECT_EQ_SET 6105 1 not_null (call (Data.cplus_data_new_bool 1));
  data2 ← EXPECT_EQ_SET 6106 1 not_null (call (Data.cplus_data_new_bool 0));
  UNITTEST_EXPECT_EQ 6107 as_bool 1 (call (Data.cplus_data_get_bool data1));;
  UNITTEST_EXPECT_EQ 6108 as_bool 0 (call (Data.cplus_data_get_bool data2));;
  UNITTEST_EXPECT_EQ 6109 s32 CPLUS_SUCCESS (call (Data.cplus_data_clone_value data2 data1));;
  UNITTEST_EXPECT_EQ 6110 s32 1 (is_one (call (Data.cplus_data_get_bool data2)));;
  UNITTEST_EXPECT_EQ 6111 s32 CPLUS_SUCCESS (call (Data.cplus_data_delete data1));;
  UNITTEST_EXPECT_EQ 6112 s32 CPLUS_SUCCESS (call (Data.cplus_data_delete data2));;
  data1 ← EXPECT_EQ_SET 6113 1 not_null (call (Data.cplus_data_new_int8 0xAB));
  data2 ← EXPECT_EQ_SET 6114 1 not_null (call (Data.cplus_data_new_int8 0xCD));
  UNITTEST_EXPECT_EQ 6115 s8 0xAB (call (Data.cplus_data_get_int8 data1));;
  UNITTEST_EXPECT_EQ 6116 s8 0xCD (call (Data.cplus_data_get_int8 data2));;
  UNITTEST_EXPECT_EQ 6117 s32 CPLUS_SUCCESS (call (Data.cplus_data_clone_value data2 data1));;
  UNITTEST_EXPECT_EQ 6118 s8 0xAB (call (Data.cplus_data_get_int8 data2));;
  UNITTEST_EXPECT_EQ 6119 s32 CPLUS_SUCCESS (call (Data.cplus_data_delete data1));;
  UNITTEST_EXPECT_EQ 6120 s32 CPLUS_SUCCESS (call (Data.cplus_data_delete data2));;
  data1 ← EXPECT_EQ_SET 6121 1 not_null (call (Data.cplus_data_new_uint8 0xAB));
  data2 ← EXPECT_EQ_SET 6122 1 not_null (call (Data.cplus_data_new_uint8 0xCD));
  UNITTEST_EXPECT_EQ 6123 u8 0xAB (call (Data.cplus_data_get_uint8 data1));;
  UNITTEST_EXPECT_EQ 6124 u8 0xCD (call (Data.cplus_data_get_uint8 data2));;
  UNITTEST_EXPECT_EQ 6125 s32 CPLUS_SUCCESS (call (Data.cplus_data_clone_value data2 data1));;
  UNITTEST_EXPECT_EQ 6126 u8 0xAB (call (Data.cplus_data_get_uint8 data2));;
  UNITTEST_EXPECT_EQ 6127 s32 CPLUS_SUCCESS (call (Data.cplus_data_delete data1));;
  UNITTEST_EXPECT_EQ 6128 s32 CPLUS_SUCCESS (call (Data.cplus_data_delete data2));;
  data1 ← EXPECT_EQ_SET 6129 1 not_null (call (Data.cplus_data_new_int16 0x1234));
  data2 ← EXPECT_EQ_SET 6130 1 not_null (call (Data.cplus_data_new_int16 0x5678));
  UNITTEST_EXPECT_EQ 6131 s16 0x1234 (call (Data.cplus_data_get_int16 data1));;
  UNITTEST_EXPECT_EQ 6132 s16 0x5678 (call (Data.cplus_data_get_int16 data2));;
  UNITTEST_EXPECT_EQ 6133 s32 CPLUS_SUCCESS (call (Data.cplus_data_clone_value data2 data1));;
  UNITTEST_EXPECT_EQ 6134 s16 0x1234 (call (Data.cplus_data_get_int16 data2));;
  UNITTEST_EXPECT_EQ 6135 s32 CPLUS_SUCCESS (call (Data.cplus_data_delete data1));;
  UNITTEST_EXPECT_EQ 6136 s32 CPLUS_SUCCESS (call (Data.cplus_data_delete data2));;
  data1 ← EXPECT_EQ_SET 6137 1 not_null (call (Data.cplus_data_new_uint16 0x1234));
  data2 ← EXPECT_EQ_SET 6138 1 not_null (call (Data.cplus_data_new_uint16 0x5678));
  UNITTEST_EXPECT_EQ 6139 u16 0x1234 (call (Data.cplus_data_get_uint16 data1));;
  UNITTEST_EXPECT_EQ 6140 u16 0x5678 (call (Data.cplus_data_get_uint16 data2));;
  UNITTEST_EXPECT_EQ 6141 s32 CPLUS_SUCCESS (call (Data.cplus_data_clone_value data2 data1));;
  UNITTEST_EXPECT_EQ 6142 u16 0x1234 (call (Data.cplus_data_get_uint16 data2));;
  UNITTEST_EXPECT_EQ 6143 s32 CPLUS_SUCCESS (call (Data.cplus_data_delete data1));;
  UNITTEST_EXPECT_EQ 6144 s32 CPLUS_SUCCESS (call (Data.cplus_data_delete data2));;
  data1 ← EXPECT_EQ_SET 6145 1 not_null (call (Data.cplus_data_new_int32 0x12345678));
  data2 ← EXPECT_EQ_SET 6146 1 not_null (call (Data.cplus_data_new_int32 0x5678abcd));
  UNITTEST_EXPECT_EQ 6147 s32 0x12345678 (call (Data.cplus_data_get_int32 data1));;
  UNITTEST_EXPECT_EQ 6148 s32 0x5678abcd (call (Data.cplus_data_get_int32 data2));;
  UNITTEST_EXPECT_EQ 6149 s32 CPLUS_SUCCESS (call (Data.cplus_data_clone_value data2 data1));;
  UNITTEST_EXPECT_EQ 6150 s32 0x12345678 (call (Data.cplus_data_get_int32 data2));;
  UNITTEST_EXPECT_EQ 6151 s32 CPLUS_SUCCESS (call (Data.cplus_data_delete data1));;
  UNITTEST_EXPECT_EQ 6152 s32 CPLUS_SUCCESS (call (Data.cplus_data_delete data2));;
  data1 ← EXPECT_EQ_SET 6153 1 not_null (call (Data.cplus_data_new_uint32 0x12345678));
  data2 ← EXPECT_EQ_SET 6154 1 not_null (call (Data.cplus_data_new_uint32 0x5678abcd));
  UNITTEST_EXPECT_EQ 6155 u32 0x12345678 (call (Data.cplus_data_get_uint32 data1));;
  UNITTEST_EXPECT_EQ 6156 u32 0x5678abcd (call (Data.cplus_data_get_uint32 data2));;
  UNITTEST_EXPECT_EQ 6157 s32 CPLUS_SUCCESS (call (Data.cplus_data_clone_value data2 data1));;
  UNITTEST_EXPECT_EQ 6158 u32 0x12345678 (call (Data.cplus_data_get_uint32 data2));;
  UNITTEST_EXPECT_EQ 6159 s32 CPLUS_SUCCESS (call (Data.cplus_data_delete data1));;
  UNITTEST_EXPECT_EQ 6160 s32 CPLUS_SUCCESS (call (Data.cplus_data_delete data2));;
  data1 ← EXPECT_EQ_SET 6161 1 not_null (call (Data.cplus_data_new_int64 0x0123abcddcba3210));
  data2 ← EXPECT_EQ_SET 6162 1 not_null (call (Data.cplus_data_new_int64 0xabcdef0123456789));
  UNITTEST_EXPECT_EQ 6163 s64 0x0123abcddcba3210 (call (Data.cplus_data_get_int64 data1));;
  UNITTEST_EXPECT_EQ 6164 s64 0xabcdef0123456789 (call (Data.cplus_data_get_int64 data2));;
  UNITTEST_EXPECT_EQ 6165 s32 CPLUS_SUCCESS (call (Data.cplus_data_clone_value data2 data1));;
  UNITTEST_EXPECT_EQ 6166 s64 0x0123abcddcba3210 (call (Data.cplus_data_get_int64 data2));;
  UNITTEST_EXPECT_EQ 6167 s32 CPLUS_SUCCESS (call (Data.cplus_data_delete data1));;
  UNITTEST_EXPECT_EQ 6168 s32 CPLUS_SUCCESS (call (Data.cplus_data_delete data2));;
  data1 ← EXPECT_EQ_SET 6169 1 not_null (call (Data.cplus_data_new_uint64 0x0123abcddcba3210));
  data2 ← EXPECT_EQ_SET 6170 1 not_null (call (Data.cplus_data_new_uint64 0xabcdef0123456789));
  UNITTEST_EXPECT_EQ 6171 u64 0x0123abcddcba3210 (call (Data.cplus_data_get_uint64 data1));;
  UNITTEST_EXPECT_EQ 6172 u64 0xabcdef0123456789 (call (Data.cplus_data_get_uint64 data2));;
  UNITTEST_EXPECT_EQ 6173 s32 CPLUS_SUCCESS (call (Data.cplus_data_clone_value data2 data1));;
  UNITTEST_EXPECT_EQ 6174 u64 0x0123abcddcba3210 (call (Data.cplus_data_get_uint64 data2));;
  UNITTEST_EXPECT_EQ 6175 s32 CPLUS_SUCCESS (call (Data.cplus_data_delete data1));;
  UNITTEST_EXPECT_EQ 6176 s32 CPLUS_SUCCESS (call (Data.cplus_data_delete data2));;
  data1 ← EXPECT_EQ_SET 6177 1 not_null (call (Data.cplus_data_new_float (to_float (real "3.1415926535"))));
  data2 ← EXPECT_EQ_SET 6178 1 not_null (call (Data.cplus_data_new_float (to_float (real "2.7182818284"))));
  UNITTEST_EXPECT_EQ 6179 s32 1 (is_close "3.1415926535" (double_of (call (Data.cplus_data_get_float data1))) (to_double (to_float (real "0.01"))));;
  UNITTEST_EXPECT_EQ 6180 s32 1 (is_close "2.7182818284" (double_of (call (Data.cplus_data_get_float data2))) (to_double (to_float (real "0.01"))));;
  UNITTEST_EXPECT_EQ 6181 s32 CPLUS_SUCCESS (call (Data.cplus_data_clone_value data2 data1));;
  UNITTEST_EXPECT_EQ 6182 s32 1 (is_close "3.1415926535" (double_of (call (Data.cplus_data_get_float data2))) (to_double (to_float (real "0.01"))));;
  UNITTEST_EXPECT_EQ 6183 s32 CPLUS_SUCCESS (call (Data.cplus_data_delete data1));;
  UNITTEST_EXPECT_EQ 6184 s32 CPLUS_SUCCESS (call (Data.cplus_data_delete data2));;
  data1 ← EXPECT_EQ_SET 6185 1 not_null (call (Data.cplus_data_new_double (real "2.7182818284")));
  data2 ← EXPECT_EQ_SET 6186 1 not_null (call (Data.cplus_data_new_double (real "3.1415926535")));
  UNITTEST_EXPECT_EQ 6187 s32 1 (is_close "2.7182818284" (call (Data.cplus_data_get_double data1)) (to_double (to_float (real "0.0000001"))));;
  UNITTEST_EXPECT_EQ 6188 s32 1 (is_close "3.1415926535" (call (Data.cplus_data_get_double data2)) (to_double (to_float (real "0.0000001"))));;
  UNITTEST_EXPECT_EQ 6189 s32 CPLUS_SUCCESS (call (Data.cplus_data_clone_value data2 data1));;
  UNITTEST_EXPECT_EQ 6190 s32 1 (is_close "2.7182818284" (call (Data.cplus_data_get_double data2)) (to_double (to_float (real "0.0000001"))));;
  UNITTEST_EXPECT_EQ 6191 s32 CPLUS_SUCCESS (call (Data.cplus_data_delete data1));;
  UNITTEST_EXPECT_EQ 6192 s32 CPLUS_SUCCESS (call (Data.cplus_data_delete data2));;
  data1 ← EXPECT_EQ_SET 6193 1 not_null (call (Data.cplus_data_new_string (strlen "Hello World") (Some (lit "Hello World"))));
  data2 ← EXPECT_EQ_SET 6194 1 not_null (call (Data.cplus_data_new_string (strlen "AaBbCcDd 01234567") (Some (lit "AaBbCcDd 01234567"))));
  UNITTEST_EXPECT_EQ 6195 s32 0 (strcmp "Hello World" (text_of (Data.cplus_data_get_string data1)));;
  UNITTEST_EXPECT_EQ 6196 s32 0 (strcmp "AaBbCcDd 01234567" (text_of (Data.cplus_data_get_string data2)));;
  UNITTEST_EXPECT_EQ 6197 s32 CPLUS_SUCCESS (call (Data.cplus_data_clone_value data1 data2));;
  UNITTEST_EXPECT_EQ 6198 s32 0 (strcmp "AaBbCcDd 01234567" (text_of (Data.cplus_data_get_string data1)));;
  UNITTEST_EXPECT_EQ 6199 s32 CPLUS_SUCCESS (call (Data.cplus_data_delete data1));;
  UNITTEST_EXPECT_EQ 6200 s32 CPLUS_SUCCESS (call (Data.cplus_data_delete data2));;
  UNITTEST_EXPECT_EQ 6201 s32 0 cplus_mgr_report;;
  mret tt.

Definition CPLUS_DATA_TYPE_CONV_functionity : T :=
  UNITTEST_EXPECT_EQ 6212 s32 (Data.type_code Data.T_BOOL) (mret (CPLUS_DATA_TYPE_CONV c_bool));;
  UNITTEST_EXPECT_EQ 6213 s32 (Data.type_code Data.T_INT8) (mret (CPLUS_DATA_TYPE_CONV c_int8));;
  UNITTEST_EXPECT_EQ 6214 s32 (Data.type_code Data.T_INT16) (mret (CPLUS_DATA_TYPE_CONV c_int16));;
  UNITTEST_EXPECT_EQ 6215 s32 (Data.type_code Data.T_INT32) (mret (CPLUS_DATA_TYPE_CONV c_int32));;
  UNITTEST_EXPECT_EQ 6216 s32 (Data.type_code Data.T_INT64) (mret (CPLUS_DATA_TYPE_CONV c_int64));;
  UNITTEST_EXPECT_EQ 6217 s32 (Data.type_code Data.T_UINT8) (mret (CPLUS_DATA_TYPE_CONV c_uint8));;
  UNITTEST_EXPECT_EQ 6218 s32 (Data.type_code Data.T_UINT16) (mret (CPLUS_DATA_TYPE_CONV c_uint16));;
  UNITTEST_EXPECT_EQ 6219 s32 (Data.type_code Data.T_UINT32) (mret (CPLUS_DATA_TYPE_CONV c_uint32));;
  UNITTEST_EXPECT_EQ 6220 s32 (Data.type_code Data.T_UINT64) (mret (CPLUS_DATA_TYPE_CONV c_uint64));;
  UNITTEST_EXPECT_EQ 6221 s32 (Data.type_code Data.T_FLOAT) (mret (CPLUS_DATA_TYPE_CONV c_float));;
  UNITTEST_EXPECT_EQ 6222 s32 (Data.type_code Data.T_DOUBLE) (mret (CPLUS_DATA_TYPE_CONV c_double));;
  UNITTEST_EXPECT_EQ 6223 s32 (Data.type_code Data.T_POINTER) (mret (CPLUS_DATA_TYPE_CONV c_void_ptr));;
  UNITTEST_EXPECT_EQ 6224 s32 (Data.type_code Data.T_STRING) (mret (CPLUS_DATA_TYPE_CONV c_char_ptr));;
  mret tt.

End tests.

End DataTests.
