(* ===== verification/LlistTests.v ===== *)
(** * LlistTests: the tests of src/llist.c, run on the model

    The tests of the list, statement for statement, over a world of list objects;
    the test of the keyed helpers is in the module KeyedTests.  The second half of the tests
    repeats the first with lists that have a lock: a test and its repetition are
    one definition, of the constructor, the first line, and the block the lock adds
    to each report of the memory manager. *)

From S2P Require Import Prelude Allocator Stdio Zlist Memmgr Mempool Locks Llist Data Keyed Group Unittest DataTests.
From stdpp Require Import base numbers list option gmap sets strings.
From Stdlib Require Import ZArith Lia.
Open Scope Z_scope.

Module LlistTests.
Import Lock Llist Unittest.

(** ** The world of the tests

    The lists are objects at addresses of their own; [errno] is the program's. *)
Record world := World { lists : gmap Z (Llist.st node_source); next_list : Z; errno : Z }.
#[local] Notation W := (C world).
#[local] Notation T := (C (tstate world) unit).

(** The thread that runs the tests. *)
Definition me : nat := 0.

(** [static int32_t num0 = 0, num1 = 1, num2 = 2, num3 = 3, num4 = 4, num5 = 5;]
    at their addresses. *)
Definition num0 : Z := 0x601000.
Definition num1 : Z := 0x601004.
Definition num2 : Z := 0x601008.
Definition num3 : Z := 0x60100c.
Definition num4 : Z := 0x601010.
Definition num5 : Z := 0x601014.

(** [*((int32_t * )p)] *)
Definition static_int (p : Z) : option Z :=
  if decide (p ∈ [num0; num1; num2; num3; num4; num5]) then Some ((p - num0) / 4) else None.
Definition int_of (m : W Z) : W Z := p ← m; deref (λ _, static_int p).

(** The comparators are called on the addresses above only. *)
Definition int_at (p : Z) : Z := default 0 (static_int p).
Definition find_num (arg data : Z) : Z := if int_at data =? int_at arg then 0 else 1.
Definition compare_num (data1 data2 : Z) : Z := if int_at data1 =? int_at data2 then 0 else 1.
Definition ascendant (i1 i2 : Z) : Z := s32 (int_at i1 - int_at i2).
Definition deascendant (i1 i2 : Z) : Z := s32 (int_at i2 - int_at i1).

(** *** Calls on list objects *)

(** Every block that is asked for is obtained. *)
Definition memory : resources := Resources true true 0x10000 (λ _, 0) true Heap.empty_heap.

Definition new_object (t : Llist.st node_source) : W Z := λ w,
  Done (next_list w, World (<[next_list w := t]> (lists w)) (next_list w + 1) (errno w)).

Definition construct (f : resources → Z → outcome (option (Llist.st node_source) * Z)) : W Z := λ w,
  match f memory (errno w) with
  | Done (Some t, e) => new_object t (World (lists w) (next_list w) e)
  | Done (None, e) => Done (0, World (lists w) (next_list w) e)
  | Aborts => Aborts | Hangs => Hangs | Undefined => Undefined
  end.
Definition cplus_llist_new : W Z := construct Llist.cplus_llist_new.
Definition cplus_llist_new_s : W Z := construct Llist.cplus_llist_new_s.
Definition cplus_llist_prev_new (n : Z) : W Z := construct (λ r, Llist.cplus_llist_prev_new r n).
Definition cplus_llist_prev_new_s (n : Z) : W Z := construct (λ r, Llist.cplus_llist_prev_new_s r n).

(** A call on the object at [obj]: the null pointer fails the assertion of
    [CHECK_OBJECT_TYPE].  An object that was deleted is gone. *)
Definition on_list {A} (obj : Z) (m : C (Llist.st node_source) A) : W A :=
  if obj =? 0 then abort
  else λ w,
    match lists w !! obj with
    | None => Undefined
    | Some t =>
        match m (with_errno (errno w) t) with
        | Done (a, t') =>
            Done (a, World (if alive (ll t') then <[obj := t']> (lists w) else delete obj (lists w))
                       (next_list w) (Llist.errno t'))
        | Aborts => Aborts | Hangs => Hangs | Undefined => Undefined
        end
    end.

Definition cplus_llist_delete (obj : Z) := on_list obj (Llist.cplus_llist_delete me).
Definition cplus_llist_clear (obj : Z) := on_list obj (Llist.cplus_llist_clear me).
Definition cplus_llist_get_size (obj : Z) := on_list obj (Llist.cplus_llist_get_size me).
Definition cplus_llist_push_front (obj v : Z) := on_list obj (Llist.cplus_llist_push_front me v).
Definition cplus_llist_push_back (obj v : Z) := on_list obj (Llist.cplus_llist_push_back me v).
Definition cplus_llist_push_at (obj i v : Z) := on_list obj (Llist.cplus_llist_push_at me i v).
Definition cplus_llist_pop_front (obj : Z) := on_list obj (Llist.cplus_llist_pop_front me).
Definition cplus_llist_pop_back (obj : Z) := on_list obj (Llist.cplus_llist_pop_back me).
Definition cplus_llist_pop_of (obj i : Z) := on_list obj (Llist.cplus_llist_pop_of me i).
Definition cplus_llist_get_of (obj i : Z) := on_list obj (Llist.cplus_llist_get_of me i).
Definition cplus_llist_delete_data (obj v : Z) := on_list obj (Llist.cplus_llist_delete_data me v).
Definition cplus_llist_get_index_if (obj : Z) (f : option (Z → Z)) :=
  on_list obj (Llist.cplus_llist_get_index_if me f).
Definition cplus_llist_pop_if (obj : Z) (f : option (Z → Z)) := on_list obj (Llist.cplus_llist_pop_if me f).
Definition cplus_llist_get_if (obj : Z) (f : option (Z → Z)) := on_list obj (Llist.cplus_llist_get_if me f).
Definition cplus_llist_sort (obj : Z) (f : option (Z → Z → Z)) := on_list obj (Llist.cplus_llist_sort me f).
Definition cplus_llist_is_sort (obj : Z) : W Z := b ← on_list obj (Llist.cplus_llist_is_sort me); mret (Z.b2z b).
Definition cplus_llist_get_head (obj : Z) := on_list obj (Llist.cplus_llist_get_head me).
Definition cplus_llist_get_tail (obj : Z) := on_list obj (Llist.cplus_llist_get_tail me).
Definition cplus_llist_get_current (obj : Z) := on_list obj (Llist.cplus_llist_get_current me).
Definition cplus_llist_get_next (obj : Z) := on_list obj (Llist.cplus_llist_get_next me).
Definition cplus_llist_get_prev (obj : Z) := on_list obj (Llist.cplus_llist_get_prev me).
Definition cplus_llist_get_cycling_next (obj : Z) := on_list obj (Llist.cplus_llist_get_cycling_next me).

(** The list of the matches is an object of its own. *)
Definition cplus_llist_get_set_if (obj : Z) (f : option (Z → Z)) : W Z :=
  r ← on_list obj (Llist.cplus_llist_get_set_if me Heap.empty_heap f);
  match r with
  | None => mret 0
  | Some t => new_object (Llist.mkSt (ll t) (nodes t) (FromHeap (src t)) (Llist.errno t))
  end.

(** Two different objects. *)
Definition cplus_llist_is_consist (obj1 obj2 : Z) (f : option (Z → Z → Z)) : W Z := λ w,
  match lists w !! obj1, lists w !! obj2 with
  | Some t1, Some t2 =>
      if obj1 =? obj2 then Undefined
      else
      match Llist.cplus_llist_is_consist me f (with_errno (errno w) t1, t2) with
      | Done (b, (t1', t2')) =>
          Done (Z.b2z b, World (<[obj1 := t1']> (<[obj2 := t2']> (lists w))) (next_list w) (Llist.errno t1'))
      | Aborts => Aborts | Hangs => Hangs | Undefined => Undefined
      end
  | _, _ => Undefined
  end.

(** The blocks of a list: the object, its lock, its pool with the memory of the
    pool, or its nodes. *)
Definition blocks_of (t : Llist.st node_source) : Z :=
  1 + match lock (ll t) with NoLock => 0 | _ => 1 end
    + match src t with FromPool _ => 2 | FromHeap _ => Z.of_nat (size (nodes t)) end.

(** The memory manager reports the blocks that are in use (Memdebug.v). *)
Definition cplus_mgr_report : W Z := λ w,
  Done (map_fold (λ _ t n, n + blocks_of t) 0 (lists w), w).

(** [CPLUS_LLIST_FOREACH(list, data) { body }]; the body passes on what it changes. *)
Fixpoint foreach {X} (fuel : nat) (obj index : Z) (body : Z → X → C (tstate world) X) (x : X)
    : C (tstate world) unit :=
  n ← lift (cplus_llist_get_size obj);
  if (index <? n : bool) then
    data ← lift (cplus_llist_get_of obj (s32 index));
    if data =? 0 then mret tt
    else match fuel with
         | O => hang
         | Datatypes.S fuel => x ← body data x; foreach fuel obj (u32 (index + 1)) body x
         end
  else mret tt.

(** ** The tests *)

Definition push_front_sequence_with (l k : Z) (new : W Z) : T :=
  list ← EXPECT_EQ_SET (l + 3) 1 not_null (new);
  UNITTEST_EXPECT_EQ (l + 4) s32 CPLUS_SUCCESS (cplus_llist_push_front list num0);;
  UNITTEST_EXPECT_EQ (l + 5) s32 CPLUS_SUCCESS (cplus_llist_push_front list num1);;
  UNITTEST_EXPECT_EQ (l + 6) s32 CPLUS_SUCCESS (cplus_llist_push_front list num2);;
  UNITTEST_EXPECT_EQ (l + 7) s32 CPLUS_SUCCESS (cplus_llist_push_front list num3);;
  UNITTEST_EXPECT_EQ (l + 8) s32 CPLUS_SUCCESS (cplus_llist_push_front list num4);;
  UNITTEST_EXPECT_EQ (l + 9) u32 5 (cplus_llist_get_size list);;
  UNITTEST_EXPECT_EQ (l + 10) s32 (6 + k) (cplus_mgr_report);;
  UNITTEST_EXPECT_EQ (l + 11) s32 4 (int_of (cplus_llist_get_of list 0));;
  UNITTEST_EXPECT_EQ (l + 12) s32 3 (int_of (cplus_llist_get_of list 1));;
  UNITTEST_EXPECT_EQ (l + 13) s32 2 (int_of (cplus_llist_get_of list 2));;
  UNITTEST_EXPECT_EQ (l + 14) s32 1 (int_of (cplus_llist_get_of list 3));;
  UNITTEST_EXPECT_EQ (l + 15) s32 0 (int_of (cplus_llist_get_of list 4));;
  UNITTEST_EXPECT_EQ (l + 16) u32 5 (cplus_llist_get_size list);;
  UNITTEST_EXPECT_EQ (l + 17) s32 4 (int_of (cplus_llist_pop_front list));;
  UNITTEST_EXPECT_EQ (l + 18) s32 3 (int_of (cplus_llist_pop_front list));;
  UNITTEST_EXPECT_EQ (l + 19) s32 2 (int_of (cplus_llist_pop_front list));;
  UNITTEST_EXPECT_EQ (l + 20) s32 1 (int_of (cplus_llist_pop_front list));;
  UNITTEST_EXPECT_EQ (l + 21) s32 0 (int_of (cplus_llist_pop_front list));;
  UNITTEST_EXPECT_EQ (l + 22) u32 0 (cplus_llist_get_size list);;
  UNITTEST_EXPECT_EQ (l + 23) s32 CPLUS_SUCCESS (cplus_llist_push_front list num0);;
  UNITTEST_EXPECT_EQ (l + 24) s32 CPLUS_SUCCESS (cplus_llist_push_front list num1);;
  UNITTEST_EXPECT_EQ (l + 25) s32 CPLUS_SUCCESS (cplus_llist_push_front list num2);;
  UNITTEST_EXPECT_EQ (l + 26) s32 CPLUS_SUCCESS (cplus_llist_push_front list num3);;
  UNITTEST_EXPECT_EQ (l + 27) s32 CPLUS_SUCCESS (cplus_llist_push_front list num4);;
  UNITTEST_EXPECT_EQ (l + 28) u32 5 (cplus_llist_get_size list);;
  UNITTEST_EXPECT_EQ (l + 29) s32 0 (int_of (cplus_llist_pop_back list));;
  UNITTEST_EXPECT_EQ (l + 30) s32 1 (int_of (cplus_llist_pop_back list));;
  UNITTEST_EXPECT_EQ (l + 31) s32 2 (int_of (cplus_llist_pop_back list));;
  UNITTEST_EXPECT_EQ (l + 32) s32 3 (int_of (cplus_llist_pop_back list));;
  UNITTEST_EXPECT_EQ (l + 33) s32 4 (int_of (cplus_llist_pop_back list));;
  UNITTEST_EXPECT_EQ (l + 34) u32 0 (cplus_llist_get_size list);;
  UNITTEST_EXPECT_EQ (l + 35) s32 CPLUS_SUCCESS (cplus_llist_push_front list num0);;
  UNITTEST_EXPECT_EQ (l + 36) s32 CPLUS_SUCCESS (cplus_llist_push_front list num1);;
  UNITTEST_EXPECT_EQ (l + 37) s32 CPLUS_SUCCESS (cplus_llist_push_front list num2);;
  UNITTEST_EXPECT_EQ (l + 38) s32 CPLUS_SUCCESS (cplus_llist_push_front list num3);;
  UNITTEST_EXPECT_EQ (l + 39) s32 CPLUS_SUCCESS (cplus_llist_push_front list num4);;
  UNITTEST_EXPECT_EQ (l + 40) u32 5 (cplus_llist_get_size list);;
  UNITTEST_EXPECT_EQ (l + 41) s32 CPLUS_SUCCESS (cplus_llist_delete list);;
  UNITTEST_EXPECT_EQ (l + 42) s32 0 (cplus_mgr_report);;
  mret tt.

Definition cplus_llist_push_front_sequence : T := push_front_sequence_with 1182 0 cplus_llist_new.
Definition cplus_llist_push_front_s_sequence : T := push_front_sequence_with 1677 1 cplus_llist_new_s.

Definition push_front_bad_parameter_with (l : Z) (new : W Z) : T :=
  list ← EXPECT_EQ_SET (l + 3) 1 not_null (new);
  UNITTEST_EXPECT_EQ (l + 4) s32 CPLUS_FAIL (cplus_llist_push_front list 0);;
  UNITTEST_EXPECT_EQ (l + 5) s32 EINVAL (gets errno);;
  UNITTEST_EXPECT_EQ (l + 6) s32 CPLUS_SUCCESS (cplus_llist_delete list);;
  UNITTEST_EXPECT_EQ (l + 7) s32 0 (cplus_mgr_report);;
  mret tt.

Definition cplus_llist_push_front_bad_parameter : T := push_front_bad_parameter_with 1227 cplus_llist_new.
Definition cplus_llist_push_front_s_bad_parameter : T := push_front_bad_parameter_with 1722 cplus_llist_new_s.

Definition push_back_sequence_with (l k : Z) (new : W Z) : T :=
  list ← EXPECT_EQ_SET (l + 3) 1 not_null (new);
  UNITTEST_EXPECT_EQ (l + 4) s32 CPLUS_SUCCESS (cplus_llist_push_back list num0);;
  UNITTEST_EXPECT_EQ (l + 5) s32 CPLUS_SUCCESS (cplus_llist_push_back list num1);;
  UNITTEST_EXPECT_EQ (l + 6) s32 CPLUS_SUCCESS (cplus_llist_push_back list num2);;
  UNITTEST_EXPECT_EQ (l + 7) s32 CPLUS_SUCCESS (cplus_llist_push_back list num3);;
  UNITTEST_EXPECT_EQ (l + 8) s32 CPLUS_SUCCESS (cplus_llist_push_back list num4);;
  UNITTEST_EXPECT_EQ (l + 9) u32 5 (cplus_llist_get_size list);;
  UNITTEST_EXPECT_EQ (l + 10) s32 (6 + k) (cplus_mgr_report);;
  UNITTEST_EXPECT_EQ (l + 11) s32 0 (int_of (cplus_llist_get_of list 0));;
  UNITTEST_EXPECT_EQ (l + 12) s32 1 (int_of (cplus_llist_get_of list 1));;
  UNITTEST_EXPECT_EQ (l + 13) s32 2 (int_of (cplus_llist_get_of list 2));;
  UNITTEST_EXPECT_EQ (l + 14) s32 3 (int_of (cplus_llist_get_of list 3));;
  UNITTEST_EXPECT_EQ (l + 15) s32 4 (int_of (cplus_llist_get_of list 4));;
  UNITTEST_EXPECT_EQ (l + 16) u32 5 (cplus_llist_get_size list);;
  UNITTEST_EXPECT_EQ (l + 17) s32 0 (int_of (cplus_llist_pop_front list));;
  UNITTEST_EXPECT_EQ (l + 18) s32 1 (int_of (cplus_llist_pop_front list));;
  UNITTEST_EXPECT_EQ (l + 19) s32 2 (int_of (cplus_llist_pop_front list));;
  UNITTEST_EXPECT_EQ (l + 20) s32 3 (int_of (cplus_llist_pop_front list));;
  UNITTEST_EXPECT_EQ (l + 21) s32 4 (int_of (cplus_llist_pop_front list));;
  UNITTEST_EXPECT_EQ (l + 22) u32 0 (cplus_llist_get_size list);;
  UNITTEST_EXPECT_EQ (l + 23) s32 CPLUS_SUCCESS (cplus_llist_push_back list num0);;
  UNITTEST_EXPECT_EQ (l + 24) s32 CPLUS_SUCCESS (cplus_llist_push_back list num1);;
  UNITTEST_EXPECT_EQ (l + 25) s32 CPLUS_SUCCESS (cplus_llist_push_back list num2);;
  UNITTEST_EXPECT_EQ (l + 26) s32 CPLUS_SUCCESS (cplus_llist_push_back list num3);;
  UNITTEST_EXPECT_EQ (l + 27) s32 CPLUS_SUCCESS (cplus_llist_push_back list num4);;
  UNITTEST_EXPECT_EQ (l + 28) u32 5 (cplus_llist_get_size list);;
  UNITTEST_EXPECT_EQ (l + 29) s32 4 (int_of (cplus_llist_pop_back list));;
  UNITTEST_EXPECT_EQ (l + 30) s32 3 (int_of (cplus_llist_pop_back list));;
  UNITTEST_EXPECT_EQ (l + 31) s32 2 (int_of (cplus_llist_pop_back list));;
  UNITTEST_EXPECT_EQ (l + 32) s32 1 (int_of (cplus_llist_pop_back list));;
  UNITTEST_EXPECT_EQ (l + 33) s32 0 (int_of (cplus_llist_pop_back list));;
  UNITTEST_EXPECT_EQ (l + 34) u32 0 (cplus_llist_get_size list);;
  UNITTEST_EXPECT_EQ (l + 35) s32 CPLUS_SUCCESS (cplus_llist_push_back list num0);;
  UNITTEST_EXPECT_EQ (l + 36) s32 CPLUS_SUCCESS (cplus_llist_push_back list num1);;
  UNITTEST_EXPECT_EQ (l + 37) s32 CPLUS_SUCCESS (cplus_llist_push_back list num2);;
  UNITTEST_EXPECT_EQ (l + 38) s32 CPLUS_SUCCESS (cplus_llist_push_back list num3);;
  UNITTEST_EXPECT_EQ (l + 39) s32 CPLUS_SUCCESS (cplus_llist_push_back list num4);;
  UNITTEST_EXPECT_EQ (l + 40) u32 5 (cplus_llist_get_size list);;
  UNITTEST_EXPECT_EQ (l + 41) s32 CPLUS_SUCCESS (cplus_llist_delete list);;
  UNITTEST_EXPECT_EQ (l + 42) s32 0 (cplus_mgr_report);;
  mret tt.

Definition cplus_llist_push_back_sequence : T := push_back_sequence_with 1237 0 cplus_llist_new.
Definition cplus_llist_push_back_s_sequence : T := push_back_sequence_with 1732 1 cplus_llist_new_s.

Definition push_back_bad_parameter_with (l : Z) (new : W Z) : T :=
  list ← EXPECT_EQ_SET (l + 3) 1 not_null (new);
  UNITTEST_EXPECT_EQ (l + 4) s32 CPLUS_FAIL (cplus_llist_push_back list 0);;
  UNITTEST_EXPECT_EQ (l + 5) s32 EINVAL (gets errno);;
  UNITTEST_EXPECT_EQ (l + 6) s32 CPLUS_SUCCESS (cplus_llist_delete list);;
  UNITTEST_EXPECT_EQ (l + 7) s32 0 (cplus_mgr_report);;
  mret tt.

Definition cplus_llist_push_back_bad_parameter : T := push_back_bad_parameter_with 1282 cplus_llist_new.
Definition cplus_llist_push_back_s_bad_parameter : T := push_back_bad_parameter_with 1777 cplus_llist_new_s.

Definition push_at_push_randomly_with (l k : Z) (new : W Z) : T :=
  list ← EXPECT_EQ_SET (l + 3) 1 not_null (new);
  UNITTEST_EXPECT_EQ (l + 4) s32 CPLUS_SUCCESS (cplus_llist_push_at list 0 num0);;
  UNITTEST_EXPECT_EQ (l + 5) s32 CPLUS_SUCCESS (cplus_llist_push_at list 0 num1);;
  UNITTEST_EXPECT_EQ (l + 6) s32 CPLUS_SUCCESS (cplus_llist_push_at list 1 num2);;
  UNITTEST_EXPECT_EQ (l + 7) s32 CPLUS_SUCCESS (cplus_llist_push_at list 1 num3);;
  UNITTEST_EXPECT_EQ (l + 8) s32 CPLUS_SUCCESS (cplus_llist_push_at list 2 num4);;
  UNITTEST_EXPECT_EQ (l + 9) u32 5 (cplus_llist_get_size list);;
  UNITTEST_EXPECT_EQ (l + 10) s32 (6 + k) (cplus_mgr_report);;
  UNITTEST_EXPECT_EQ (l + 11) s32 1 (int_of (cplus_llist_get_of list 0));;
  UNITTEST_EXPECT_EQ (l + 12) s32 3 (int_of (cplus_llist_get_of list 1));;
  UNITTEST_EXPECT_EQ (l + 13) s32 4 (int_of (cplus_llist_get_of list 2));;
  UNITTEST_EXPECT_EQ (l + 14) s32 2 (int_of (cplus_llist_get_of list 3));;
  UNITTEST_EXPECT_EQ (l + 15) s32 0 (int_of (cplus_llist_get_of list 4));;
  UNITTEST_EXPECT_EQ (l + 16) u32 5 (cplus_llist_get_size list);;
  UNITTEST_EXPECT_EQ (l + 17) s32 1 (int_of (cplus_llist_pop_front list));;
  UNITTEST_EXPECT_EQ (l + 18) s32 3 (int_of (cplus_llist_pop_front list));;
  UNITTEST_EXPECT_EQ (l + 19) s32 4 (int_of (cplus_llist_pop_front list));;
  UNITTEST_EXPECT_EQ (l + 20) s32 2 (int_of (cplus_llist_pop_front list));;
  UNITTEST_EXPECT_EQ (l + 21) s32 0 (int_of (cplus_llist_pop_front list));;
  UNITTEST_EXPECT_EQ (l + 22) u32 0 (cplus_llist_get_size list);;
  UNITTEST_EXPECT_EQ (l + 23) s32 CPLUS_SUCCESS (cplus_llist_delete list);;
  UNITTEST_EXPECT_EQ (l + 24) s32 0 (cplus_mgr_report);;
  mret tt.

Definition cplus_llist_push_at_push_randomly : T := push_at_push_randomly_with 1292 0 cplus_llist_new.
Definition cplus_llist_push_at_s_push_randomly : T := push_at_push_randomly_with 1787 1 cplus_llist_new_s.

Definition pop_of_pop_randomly_with (l k : Z) (new : W Z) : T :=
  list ← EXPECT_EQ_SET (l + 3) 1 not_null (new);
  UNITTEST_EXPECT_EQ (l + 4) s32 CPLUS_SUCCESS (cplus_llist_push_back list num0);;
  UNITTEST_EXPECT_EQ (l + 5) s32 CPLUS_SUCCESS (cplus_llist_push_back list num1);;
  UNITTEST_EXPECT_EQ (l + 6) s32 CPLUS_SUCCESS (cplus_llist_push_back list num2);;
  UNITTEST_EXPECT_EQ (l + 7) s32 CPLUS_SUCCESS (cplus_llist_push_back list num3);;
  UNITTEST_EXPECT_EQ (l + 8) s32 CPLUS_SUCCESS (cplus_llist_push_back list num4);;
  UNITTEST_EXPECT_EQ (l + 9) u32 5 (cplus_llist_get_size list);;
  UNITTEST_EXPECT_EQ (l + 10) s32 (6 + k) (cplus_mgr_report);;
  UNITTEST_EXPECT_EQ (l + 11) s32 0 (int_of (cplus_llist_pop_of list 0));;
  UNITTEST_EXPECT_EQ (l + 12) s32 2 (int_of (cplus_llist_pop_of list 1));;
  UNITTEST_EXPECT_EQ (l + 13) s32 4 (int_of (cplus_llist_pop_of list 3));;
  UNITTEST_EXPECT_EQ (l + 14) u32 2 (cplus_llist_get_size list);;
  UNITTEST_EXPECT_EQ (l + 15) s32 1 (int_of (cplus_llist_pop_front list));;
  UNITTEST_EXPECT_EQ (l + 16) s32 3 (int_of (cplus_llist_pop_front list));;
  UNITTEST_EXPECT_EQ (l + 17) u32 0 (cplus_llist_get_size list);;
  UNITTEST_EXPECT_EQ (l + 18) s32 CPLUS_SUCCESS (cplus_llist_delete list);;
  UNITTEST_EXPECT_EQ (l + 19) s32 0 (cplus_mgr_report);;
  mret tt.

Definition cplus_llist_pop_of_pop_randomly : T := pop_of_pop_randomly_with 1319 0 cplus_llist_new.
Definition cplus_llist_pop_of_s_pop_randomly : T := pop_of_pop_randomly_with 1814 1 cplus_llist_new_s.

Definition get_index_if_functionity_with (l k : Z) (new : W Z) : T :=
  list ← EXPECT_EQ_SET (l + 3) 1 not_null (new);
  UNITTEST_EXPECT_EQ (l + 4) s32 CPLUS_SUCCESS (cplus_llist_push_back list num0);;
  UNITTEST_EXPECT_EQ (l + 5) s32 CPLUS_SUCCESS (cplus_llist_push_back list num1);;
  UNITTEST_EXPECT_EQ (l + 6) s32 CPLUS_SUCCESS (cplus_llist_push_back list num2);;
  UNITTEST_EXPECT_EQ (l + 7) s32 CPLUS_SUCCESS (cplus_llist_push_back list num3);;
  UNITTEST_EXPECT_EQ (l + 8) s32 CPLUS_SUCCESS (cplus_llist_push_back list num4);;
  UNITTEST_EXPECT_EQ (l + 9) u32 5 (cplus_llist_get_size list);;
  UNITTEST_EXPECT_EQ (l + 10) s32 (6 + k) (cplus_mgr_report);;
  UNITTEST_EXPECT_EQ (l + 11) s32 0 (cplus_llist_get_index_if list (Some (find_num num0)));;
  UNITTEST_EXPECT_EQ (l + 12) s32 1 (cplus_llist_get_index_if list (Some (find_num num1)));;
  UNITTEST_EXPECT_EQ (l + 13) s32 2 (cplus_llist_get_index_if list (Some (find_num num2)));;
  UNITTEST_EXPECT_EQ (l + 14) s32 3 (cplus_llist_get_index_if list (Some (find_num num3)));;
  UNITTEST_EXPECT_EQ (l + 15) s32 4 (cplus_llist_get_index_if list (Some (find_num num4)));;
  UNITTEST_EXPECT_EQ (l + 16) u32 5 (cplus_llist_get_size list);;
  UNITTEST_EXPECT_EQ (l + 17) s32 CPLUS_SUCCESS (cplus_llist_delete list);;
  UNITTEST_EXPECT_EQ (l + 18) s32 0 (cplus_mgr_report);;
  mret tt.

Definition cplus_llist_get_index_if_functionity : T := get_index_if_functionity_with 1341 0 cplus_llist_new.
Definition cplus_llist_get_index_if_s_functionity : T := get_index_if_functionity_with 1836 1 cplus_llist_new_s.

Definition get_index_if_bad_parameter_with (l k : Z) (new : W Z) : T :=
  list ← EXPECT_EQ_SET (l + 3) 1 not_null (new);
  UNITTEST_EXPECT_EQ (l + 4) s32 CPLUS_SUCCESS (cplus_llist_push_back list num0);;
  UNITTEST_EXPECT_EQ (l + 5) s32 CPLUS_SUCCESS (cplus_llist_push_back list num1);;
  UNITTEST_EXPECT_EQ (l + 6) s32 CPLUS_SUCCESS (cplus_llist_push_back list num2);;
  UNITTEST_EXPECT_EQ (l + 7) s32 CPLUS_SUCCESS (cplus_llist_push_back list num3);;
  UNITTEST_EXPECT_EQ (l + 8) s32 CPLUS_SUCCESS (cplus_llist_push_back list num4);;
  UNITTEST_EXPECT_EQ (l + 9) u32 5 (cplus_llist_get_size list);;
  UNITTEST_EXPECT_EQ (l + 10) s32 (6 + k) (cplus_mgr_report);;
  UNITTEST_EXPECT_EQ (l + 11) s32 CPLUS_FAIL (cplus_llist_get_index_if list None);;
  UNITTEST_EXPECT_EQ (l + 12) s32 EINVAL (gets errno);;
  UNITTEST_EXPECT_EQ (l + 13) s32 CPLUS_FAIL (cplus_llist_get_index_if list (Some (find_num num5)));;
  UNITTEST_EXPECT_EQ (l + 14) s32 ENOENT (gets errno);;
  UNITTEST_EXPECT_EQ (l + 15) s32 CPLUS_SUCCESS (cplus_llist_delete list);;
  UNITTEST_EXPECT_EQ (l + 16) s32 0 (cplus_mgr_report);;
  mret tt.

Definition cplus_llist_get_index_if_bad_parameter : T := get_index_if_bad_parameter_with 1362 0 cplus_llist_new.
Definition cplus_llist_get_index_if_s_bad_parameter : T := get_index_if_bad_parameter_with 1857 1 cplus_llist_new_s.

Definition push_front_sequence_with_mempool_with (l : Z) (new : W Z) : T :=
  list ← EXPECT_EQ_SET (l + 3) 1 not_null (new);
  UNITTEST_EXPECT_EQ (l + 4) s32 CPLUS_SUCCESS (cplus_llist_push_front list num0);;
  UNITTEST_EXPECT_EQ (l + 5) s32 CPLUS_SUCCESS (cplus_llist_push_front list num1);;
  UNITTEST_EXPECT_EQ (l + 6) s32 CPLUS_SUCCESS (cplus_llist_push_front list num2);;
  UNITTEST_EXPECT_EQ (l + 7) s32 CPLUS_SUCCESS (cplus_llist_push_front list num3);;
  UNITTEST_EXPECT_EQ (l + 8) s32 CPLUS_SUCCESS (cplus_llist_push_front list num4);;
  UNITTEST_EXPECT_EQ (l + 9) u32 5 (cplus_llist_get_size list);;
  UNITTEST_EXPECT_EQ (l + 10) s32 4 (int_of (cplus_llist_get_of list 0));;
  UNITTEST_EXPECT_EQ (l + 11) s32 3 (int_of (cplus_llist_get_of list 1));;
  UNITTEST_EXPECT_EQ (l + 12) s32 2 (int_of (cplus_llist_get_of list 2));;
  UNITTEST_EXPECT_EQ (l + 13) s32 1 (int_of (cplus_llist_get_of list 3));;
  UNITTEST_EXPECT_EQ (l + 14) s32 0 (int_of (cplus_llist_get_of list 4));;
  UNITTEST_EXPECT_EQ (l + 15) u32 5 (cplus_llist_get_size list);;
  UNITTEST_EXPECT_EQ (l + 16) s32 4 (int_of (cplus_llist_pop_front list));;
  UNITTEST_EXPECT_EQ (l + 17) s32 3 (int_of (cplus_llist_pop_front list));;
  UNITTEST_EXPECT_EQ (l + 18) s32 2 (int_of (cplus_llist_pop_front list));;
  UNITTEST_EXPECT_EQ (l + 19) s32 1 (int_of (cplus_llist_pop_front list));;
  UNITTEST_EXPECT_EQ (l + 20) s32 0 (int_of (cplus_llist_pop_front list));;
  UNITTEST_EXPECT_EQ (l + 21) u32 0 (cplus_llist_get_size list);;
  UNITTEST_EXPECT_EQ (l + 22) s32 CPLUS_SUCCESS (cplus_llist_push_front list num0);;
  UNITTEST_EXPECT_EQ (l + 23) s32 CPLUS_SUCCESS (cplus_llist_push_front list num1);;
  UNITTEST_EXPECT_EQ (l + 24) s32 CPLUS_SUCCESS (cplus_llist_push_front list num2);;
  UNITTEST_EXPECT_EQ (l + 25) s32 CPLUS_SUCCESS (cplus_llist_push_front list num3);;
  UNITTEST_EXPECT_EQ (l + 26) s32 CPLUS_SUCCESS (cplus_llist_push_front list num4);;
  UNITTEST_EXPECT_EQ (l + 27) u32 5 (cplus_llist_get_size list);;
  UNITTEST_EXPECT_EQ (l + 28) s32 0 (int_of (cplus_llist_pop_back list));;
  UNITTEST_EXPECT_EQ (l + 29) s32 1 (int_of (cplus_llist_pop_back list));;
  UNITTEST_EXPECT_EQ (l + 30) s32 2 (int_of (cplus_llist_pop_back list));;
  UNITTEST_EXPECT_EQ (l + 31) s32 3 (int_of (cplus_llist_pop_back list));;
  UNITTEST_EXPECT_EQ (l + 32) s32 4 (int_of (cplus_llist_pop_back list));;
  UNITTEST_EXPECT_EQ (l + 33) u32 0 (cplus_llist_get_size list);;
  UNITTEST_EXPECT_EQ (l + 34) s32 CPLUS_SUCCESS (cplus_llist_push_front list num0);;
  UNITTEST_EXPECT_EQ (l + 35) s32 CPLUS_SUCCESS (cplus_llist_push_front list num1);;
  UNITTEST_EXPECT_EQ (l + 36) s32 CPLUS_SUCCESS (cplus_llist_push_front list num2);;
  UNITTEST_EXPECT_EQ (l + 37) s32 CPLUS_SUCCESS (cplus_llist_push_front list num3);;
  UNITTEST_EXPECT_EQ (l + 38) s32 CPLUS_SUCCESS (cplus_llist_push_front list num4);;
  UNITTEST_EXPECT_EQ (l + 39) u32 5 (cplus_llist_get_size list);;
  UNITTEST_EXPECT_EQ (l + 40) s32 CPLUS_SUCCESS (cplus_llist_delete list);;
  mret tt.

Definition cplus_llist_push_front_sequence_with_mempool : T := push_front_sequence_with_mempool_with 1381 (cplus_llist_prev_new 1024).
Definition cplus_llist_push_front_s_sequence_with_mempool : T := push_front_sequence_with_mempool_with 1876 (cplus_llist_prev_new_s 1024).

Definition push_front_bad_parameter_with_mempool_with (l : Z) (new : W Z) : T :=
  list ← EXPECT_EQ_SET (l + 3) 1 not_null (new);
  UNITTEST_EXPECT_EQ (l + 4) s32 CPLUS_FAIL (cplus_llist_push_front list 0);;
  UNITTEST_EXPECT_EQ (l + 5) s32 EINVAL (gets errno);;
  UNITTEST_EXPECT_EQ (l + 6) s32 CPLUS_SUCCESS (cplus_llist_delete list);;
  UNITTEST_EXPECT_EQ (l + 7) s32 0 (cplus_mgr_report);;
  mret tt.

Definition cplus_llist_push_front_bad_parameter_with_mempool : T := push_front_bad_parameter_with_mempool_with 1424 (cplus_llist_prev_new 1024).
Definition cplus_llist_push_front_s_bad_parameter_with_mempool : T := push_front_bad_parameter_with_mempool_with 1919 (cplus_llist_prev_new_s 1024).

Definition FOREACH_sequence_with (l : Z) (new : W Z) : T :=
  list ← EXPECT_EQ_SET (l + 3) 1 not_null (new);
  UNITTEST_EXPECT_EQ (l + 4) s32 CPLUS_SUCCESS (cplus_llist_push_front list num0);;
  UNITTEST_EXPECT_EQ (l + 5) s32 CPLUS_SUCCESS (cplus_llist_push_front list num1);;
  UNITTEST_EXPECT_EQ (l + 6) s32 CPLUS_SUCCESS (cplus_llist_push_front list num2);;
  UNITTEST_EXPECT_EQ (l + 7) s32 CPLUS_SUCCESS (cplus_llist_push_front list num3);;
  UNITTEST_EXPECT_EQ (l + 8) s32 CPLUS_SUCCESS (cplus_llist_push_front list num4);;
  UNITTEST_EXPECT_EQ (l + 9) u32 5 (cplus_llist_get_size list);;
  foreach 5 list 0 (λ data value,
    UNITTEST_EXPECT_EQ (l + 14) s32 value (int_of (mret data));; mret (s32 (value - 1))) 4;;
  UNITTEST_EXPECT_EQ (l + 17) s32 CPLUS_SUCCESS (cplus_llist_delete list);;
  UNITTEST_EXPECT_EQ (l + 18) s32 0 (cplus_mgr_report);;
  mret tt.

Definition CPLUS_LLIST_FOREACH_sequence : T := FOREACH_sequence_with 1434 cplus_llist_new.
Definition CPLUS_LLIST_FOREACH_s_sequence : T := FOREACH_sequence_with 1929 cplus_llist_new_s.

Definition get_set_if_functionity_with (l k : Z) (new : W Z) : T :=
  list ← EXPECT_EQ_SET (l + 3) 1 not_null (new);
  UNITTEST_EXPECT_EQ (l + 4) s32 CPLUS_SUCCESS (cplus_llist_push_back list num1);;
  UNITTEST_EXPECT_EQ (l + 5) s32 CPLUS_SUCCESS (cplus_llist_push_back list num2);;
  UNITTEST_EXPECT_EQ (l + 6) s32 CPLUS_SUCCESS (cplus_llist_push_back list num4);;
  UNITTEST_EXPECT_EQ (l + 7) s32 CPLUS_SUCCESS (cplus_llist_push_back list num3);;
  UNITTEST_EXPECT_EQ (l + 8) s32 CPLUS_SUCCESS (cplus_llist_push_back list num2);;
  UNITTEST_EXPECT_EQ (l + 9) s32 CPLUS_SUCCESS (cplus_llist_push_back list num3);;
  UNITTEST_EXPECT_EQ (l + 10) s32 CPLUS_SUCCESS (cplus_llist_push_back list num4);;
  UNITTEST_EXPECT_EQ (l + 11) s32 CPLUS_SUCCESS (cplus_llist_push_back list num3);;
  UNITTEST_EXPECT_EQ (l + 12) s32 CPLUS_SUCCESS (cplus_llist_push_back list num4);;
  UNITTEST_EXPECT_EQ (l + 13) s32 CPLUS_SUCCESS (cplus_llist_push_back list num5);;
  UNITTEST_EXPECT_EQ (l + 14) s32 CPLUS_SUCCESS (cplus_llist_push_back list num4);;
  UNITTEST_EXPECT_EQ (l + 15) s32 CPLUS_SUCCESS (cplus_llist_push_back list num5);;
  UNITTEST_EXPECT_EQ (l + 16) s32 CPLUS_SUCCESS (cplus_llist_push_back list num5);;
  UNITTEST_EXPECT_EQ (l + 17) s32 CPLUS_SUCCESS (cplus_llist_push_back list num5);;
  UNITTEST_EXPECT_EQ (l + 18) s32 CPLUS_SUCCESS (cplus_llist_push_back list num5);;
  UNITTEST_EXPECT_EQ (l + 19) u32 15 (cplus_llist_get_size list);;
  UNITTEST_EXPECT_EQ (l + 20) s32 (16 + k) (cplus_mgr_report);;
  list_0 ← EXPECT_NE_SET (l + 25) 1 not_null (cplus_llist_get_set_if list (Some (find_num num0)));
  UNITTEST_EXPECT_EQ (l + 26) s32 ENOENT (gets errno);;
  list_1 ← EXPECT_EQ_SET (l + 27) 1 not_null (cplus_llist_get_set_if list (Some (find_num num1)));
  list_2 ← EXPECT_EQ_SET (l + 28) 1 not_null (cplus_llist_get_set_if list (Some (find_num num2)));
  list_3 ← EXPECT_EQ_SET (l + 29) 1 not_null (cplus_llist_get_set_if list (Some (find_num num3)));
  list_4 ← EXPECT_EQ_SET (l + 30) 1 not_null (cplus_llist_get_set_if list (Some (find_num num4)));
  list_5 ← EXPECT_EQ_SET (l + 31) 1 not_null (cplus_llist_get_set_if list (Some (find_num num5)));
  UNITTEST_EXPECT_EQ (l + 32) s32 CPLUS_SUCCESS (cplus_llist_delete list);;
  UNITTEST_EXPECT_EQ (l + 33) u32 1 (cplus_llist_get_size list_1);;
  UNITTEST_EXPECT_EQ (l + 34) u32 2 (cplus_llist_get_size list_2);;
  UNITTEST_EXPECT_EQ (l + 35) u32 3 (cplus_llist_get_size list_3);;
  UNITTEST_EXPECT_EQ (l + 36) u32 4 (cplus_llist_get_size list_4);;
  UNITTEST_EXPECT_EQ (l + 37) u32 5 (cplus_llist_get_size list_5);;
  UNITTEST_EXPECT_EQ (l + 38) s32 1 (int_of (cplus_llist_pop_back list_1));;
  UNITTEST_EXPECT_EQ (l + 39) u32 0 (cplus_llist_get_size list_1);;
  UNITTEST_EXPECT_EQ (l + 40) s32 2 (int_of (cplus_llist_pop_back list_2));;
  UNITTEST_EXPECT_EQ (l + 41) u32 1 (cplus_llist_get_size list_2);;
  UNITTEST_EXPECT_EQ (l + 42) s32 2 (int_of (cplus_llist_pop_back list_2));;
  UNITTEST_EXPECT_EQ (l + 43) u32 0 (cplus_llist_get_size list_2);;
  UNITTEST_EXPECT_EQ (l + 44) s32 3 (int_of (cplus_llist_pop_back list_3));;
  UNITTEST_EXPECT_EQ (l + 45) u32 2 (cplus_llist_get_size list_3);;
  UNITTEST_EXPECT_EQ (l + 46) s32 3 (int_of (cplus_llist_pop_back list_3));;
  UNITTEST_EXPECT_EQ (l + 47) u32 1 (cplus_llist_get_size list_3);;
  UNITTEST_EXPECT_EQ (l + 48) s32 3 (int_of (cplus_llist_pop_back list_3));;
  UNITTEST_EXPECT_EQ (l + 49) u32 0 (cplus_llist_get_size list_3);;
  UNITTEST_EXPECT_EQ (l + 50) s32 4 (int_of (cplus_llist_pop_back list_4));;
  UNITTEST_EXPECT_EQ (l + 51) u32 3 (cplus_llist_get_size list_4);;
  UNITTEST_EXPECT_EQ (l + 52) s32 4 (int_of (cplus_llist_pop_back list_4));;
  UNITTEST_EXPECT_EQ (l + 53) u32 2 (cplus_llist_get_size list_4);;
  UNITTEST_EXPECT_EQ (l + 54) s32 4 (int_of (cplus_llist_pop_back list_4));;
  UNITTEST_EXPECT_EQ (l + 55) u32 1 (cplus_llist_get_size list_4);;
  UNITTEST_EXPECT_EQ (l + 56) s32 4 (int_of (cplus_llist_pop_back list_4));;
  UNITTEST_EXPECT_EQ (l + 57) u32 0 (cplus_llist_get_size list_4);;
  UNITTEST_EXPECT_EQ (l + 58) s32 5 (int_of (cplus_llist_pop_back list_5));;
  UNITTEST_EXPECT_EQ (l + 59) u32 4 (cplus_llist_get_size list_5);;
  UNITTEST_EXPECT_EQ (l + 60) s32 5 (int_of (cplus_llist_pop_back list_5));;
  UNITTEST_EXPECT_EQ (l + 61) u32 3 (cplus_llist_get_size list_5);;
  UNITTEST_EXPECT_EQ (l + 62) s32 5 (int_of (cplus_llist_pop_back list_5));;
  UNITTEST_EXPECT_EQ (l + 63) u32 2 (cplus_llist_get_size list_5);;
  UNITTEST_EXPECT_EQ (l + 64) s32 5 (int_of (cplus_llist_pop_back list_5));;
  UNITTEST_EXPECT_EQ (l + 65) u32 1 (cplus_llist_get_size list_5);;
  UNITTEST_EXPECT_EQ (l + 66) s32 5 (int_of (cplus_llist_pop_back list_5));;
  UNITTEST_EXPECT_EQ (l + 67) u32 0 (cplus_llist_get_size list_5);;
  UNITTEST_EXPECT_EQ (l + 68) s32 CPLUS_SUCCESS (cplus_llist_delete list_1);;
  UNITTEST_EXPECT_EQ (l + 69) s32 CPLUS_SUCCESS (cplus_llist_delete list_2);;
  UNITTEST_EXPECT_EQ (l + 70) s32 CPLUS_SUCCESS (cplus_llist_delete list_3);;
  UNITTEST_EXPECT_EQ (l + 71) s32 CPLUS_SUCCESS (cplus_llist_delete list_4);;
  UNITTEST_EXPECT_EQ (l + 72) s32 CPLUS_SUCCESS (cplus_llist_delete list_5);;
  UNITTEST_EXPECT_EQ (l + 73) s32 0 (cplus_mgr_report);;
  mret tt.

Definition cplus_llist_get_set_if_functionity : T := get_set_if_functionity_with 1455 0 cplus_llist_new.
Definition cplus_llist_get_set_if_s_functionity : T := get_set_if_functionity_with 1950 1 cplus_llist_new_s.

Definition pop_if_functionity_with (l k : Z) (new : W Z) : T :=
  list ← EXPECT_EQ_SET (l + 4) 1 not_null (new);
  UNITTEST_EXPECT_EQ (l + 5) s32 CPLUS_SUCCESS (cplus_llist_push_back list num0);;
  UNITTEST_EXPECT_EQ (l + 6) s32 CPLUS_SUCCESS (cplus_llist_push_back list num1);;
  UNITTEST_EXPECT_EQ (l + 7) s32 CPLUS_SUCCESS (cplus_llist_push_back list num2);;
  UNITTEST_EXPECT_EQ (l + 8) s32 CPLUS_SUCCESS (cplus_llist_push_back list num3);;
  UNITTEST_EXPECT_EQ (l + 9) s32 CPLUS_SUCCESS (cplus_llist_push_back list num4);;
  UNITTEST_EXPECT_EQ (l + 10) u32 5 (cplus_llist_get_size list);;
  UNITTEST_EXPECT_EQ (l + 11) s32 (6 + k) (cplus_mgr_report);;
  data ← EXPECT_EQ_SET (l + 12) 1 not_null (cplus_llist_pop_if list (Some (find_num num0)));
  UNITTEST_EXPECT_EQ (l + 13) s32 0 (int_of (mret data));;
  UNITTEST_EXPECT_EQ (l + 14) u32 4 (cplus_llist_get_size list);;
  data ← EXPECT_EQ_SET (l + 15) 0 not_null (cplus_llist_pop_if list (Some (find_num num0)));
  data ← EXPECT_EQ_SET (l + 16) 1 not_null (cplus_llist_pop_if list (Some (find_num num1)));
  UNITTEST_EXPECT_EQ (l + 17) s32 1 (int_of (mret data));;
  UNITTEST_EXPECT_EQ (l + 18) u32 3 (cplus_llist_get_size list);;
  data ← EXPECT_EQ_SET (l + 19) 0 not_null (cplus_llist_pop_if list (Some (find_num num1)));
  data ← EXPECT_EQ_SET (l + 20) 1 not_null (cplus_llist_pop_if list (Some (find_num num2)));
  UNITTEST_EXPECT_EQ (l + 21) s32 2 (int_of (mret data));;
  UNITTEST_EXPECT_EQ (l + 22) u32 2 (cplus_llist_get_size list);;
  data ← EXPECT_EQ_SET (l + 23) 0 not_null (cplus_llist_pop_if list (Some (find_num num2)));
  data ← EXPECT_EQ_SET (l + 24) 1 not_null (cplus_llist_pop_if list (Some (find_num num3)));
  UNITTEST_EXPECT_EQ (l + 25) s32 3 (int_of (mret data));;
  UNITTEST_EXPECT_EQ (l + 26) u32 1 (cplus_llist_get_size list);;
  data ← EXPECT_EQ_SET (l + 27) 0 not_null (cplus_llist_pop_if list (Some (find_num num3)));
  data ← EXPECT_EQ_SET (l + 28) 1 not_null (cplus_llist_pop_if list (Some (find_num num4)));
  UNITTEST_EXPECT_EQ (l + 29) s32 4 (int_of (mret data));;
  UNITTEST_EXPECT_EQ (l + 30) u32 0 (cplus_llist_get_size list);;
  data ← EXPECT_EQ_SET (l + 31) 0 not_null (cplus_llist_pop_if list (Some (find_num num4)));
  UNITTEST_EXPECT_EQ (l + 32) s32 CPLUS_SUCCESS (cplus_llist_delete list);;
  UNITTEST_EXPECT_EQ (l + 33) s32 0 (cplus_mgr_report);;
  mret tt.

Definition cplus_llist_pop_if_functionity : T := pop_if_functionity_with 1531 0 cplus_llist_new.
Definition cplus_llist_pop_if_s_functionity : T := pop_if_functionity_with 2026 1 cplus_llist_new_s.

Definition pop_if_bad_parameter_with (l k : Z) (new : W Z) : T :=
  list ← EXPECT_EQ_SET (l + 4) 1 not_null (new);
  UNITTEST_EXPECT_EQ (l + 5) s32 CPLUS_SUCCESS (cplus_llist_push_back list num0);;
  UNITTEST_EXPECT_EQ (l + 6) s32 CPLUS_SUCCESS (cplus_llist_push_back list num1);;
  UNITTEST_EXPECT_EQ (l + 7) s32 CPLUS_SUCCESS (cplus_llist_push_back list num2);;
  UNITTEST_EXPECT_EQ (l + 8) s32 CPLUS_SUCCESS (cplus_llist_push_back list num3);;
  UNITTEST_EXPECT_EQ (l + 9) s32 CPLUS_SUCCESS (cplus_llist_push_back list num4);;
  UNITTEST_EXPECT_EQ (l + 10) u32 5 (cplus_llist_get_size list);;
  UNITTEST_EXPECT_EQ (l + 11) s32 (6 + k) (cplus_mgr_report);;
  data ← EXPECT_EQ_SET (l + 12) 1 is_null (cplus_llist_pop_if list None);
  UNITTEST_EXPECT_EQ (l + 13) s32 EINVAL (gets errno);;
  data ← EXPECT_EQ_SET (l + 14) 1 is_null (cplus_llist_pop_if list (Some (find_num num5)));
  UNITTEST_EXPECT_EQ (l + 15) s32 ENOENT (gets errno);;
  UNITTEST_EXPECT_EQ (l + 16) s32 CPLUS_SUCCESS (cplus_llist_delete list);;
  UNITTEST_EXPECT_EQ (l + 17) s32 0 (cplus_mgr_report);;
  mret tt.

Definition cplus_llist_pop_if_bad_parameter : T := pop_if_bad_parameter_with 1567 0 cplus_llist_new.
Definition cplus_llist_pop_if_s_bad_parameter : T := pop_if_bad_parameter_with 2062 1 cplus_llist_new_s.

Definition get_if_functionity_with (l k : Z) (new : W Z) : T :=
  list ← EXPECT_EQ_SET (l + 4) 1 not_null (new);
  UNITTEST_EXPECT_EQ (l + 5) s32 CPLUS_SUCCESS (cplus_llist_push_back list num0);;
  UNITTEST_EXPECT_EQ (l + 6) s32 CPLUS_SUCCESS (cplus_llist_push_back list num1);;
  UNITTEST_EXPECT_EQ (l + 7) s32 CPLUS_SUCCESS (cplus_llist_push_back list num2);;
  UNITTEST_EXPECT_EQ (l + 8) s32 CPLUS_SUCCESS (cplus_llist_push_back list num3);;
  UNITTEST_EXPECT_EQ (l + 9) s32 CPLUS_SUCCESS (cplus_llist_push_back list num4);;
  UNITTEST_EXPECT_EQ (l + 10) u32 5 (cplus_llist_get_size list);;
  UNITTEST_EXPECT_EQ (l + 11) s32 (6 + k) (cplus_mgr_report);;
  data ← EXPECT_EQ_SET (l + 12) 1 not_null (cplus_llist_get_if list (Some (find_num num0)));
  UNITTEST_EXPECT_EQ (l + 13) s32 0 (int_of (mret data));;
  data ← EXPECT_EQ_SET (l + 14) 1 not_null (cplus_llist_get_if list (Some (find_num num1)));
  UNITTEST_EXPECT_EQ (l + 15) s32 1 (int_of (mret data));;
  data ← EXPECT_EQ_SET (l + 16) 1 not_null (cplus_llist_get_if list (Some (find_num num2)));
  UNITTEST_EXPECT_EQ (l + 17) s32 2 (int_of (mret data));;
  data ← EXPECT_EQ_SET (l + 18) 1 not_null (cplus_llist_get_if list (Some (find_num num3)));
  UNITTEST_EXPECT_EQ (l + 19) s32 3 (int_of (mret data));;
  data ← EXPECT_EQ_SET (l + 20) 1 not_null (cplus_llist_get_if list (Some (find_num num4)));
  UNITTEST_EXPECT_EQ (l + 21) s32 4 (int_of (mret data));;
  UNITTEST_EXPECT_EQ (l + 22) u32 5 (cplus_llist_get_size list);;
  UNITTEST_EXPECT_EQ (l + 23) s32 CPLUS_SUCCESS (cplus_llist_delete list);;
  UNITTEST_EXPECT_EQ (l + 24) s32 0 (cplus_mgr_report);;
  mret tt.

Definition cplus_llist_get_if_functionity : T := get_if_functionity_with 1587 0 cplus_llist_new.
Definition cplus_llist_get_if_s_functionity : T := get_if_functionity_with 2082 1 cplus_llist_new_s.

Definition is_consist_functionity_with (l : Z) (new : W Z) : T :=
  list1 ← EXPECT_EQ_SET (l + 4) 1 not_null (new);
  list2 ← EXPECT_EQ_SET (l + 5) 1 not_null (new);
  UNITTEST_EXPECT_EQ (l + 6) s32 CPLUS_SUCCESS (cplus_llist_push_front list1 num0);;
  UNITTEST_EXPECT_EQ (l + 7) s32 CPLUS_SUCCESS (cplus_llist_push_front list1 num1);;
  UNITTEST_EXPECT_EQ (l + 8) s32 CPLUS_SUCCESS (cplus_llist_push_front list1 num2);;
  UNITTEST_EXPECT_EQ (l + 9) s32 CPLUS_SUCCESS (cplus_llist_push_front list2 num3);;
  UNITTEST_EXPECT_EQ (l + 10) s32 CPLUS_SUCCESS (cplus_llist_push_front list2 num4);;
  UNITTEST_EXPECT_EQ (l + 11) as_bool 0 (cplus_llist_is_consist list1 list2 (Some compare_num));;
  UNITTEST_EXPECT_EQ (l + 12) s32 CPLUS_SUCCESS (cplus_llist_delete list1);;
  UNITTEST_EXPECT_EQ (l + 13) s32 CPLUS_SUCCESS (cplus_llist_delete list2);;
  list1 ← EXPECT_EQ_SET (l + 15) 1 not_null (new);
  list2 ← EXPECT_EQ_SET (l + 16) 1 not_null (new);
  UNITTEST_EXPECT_EQ (l + 17) s32 CPLUS_SUCCESS (cplus_llist_push_front list2 num0);;
  UNITTEST_EXPECT_EQ (l + 18) s32 CPLUS_SUCCESS (cplus_llist_push_front list2 num1);;
  UNITTEST_EXPECT_EQ (l + 19) s32 CPLUS_SUCCESS (cplus_llist_push_front list2 num2);;
  UNITTEST_EXPECT_EQ (l + 20) s32 CPLUS_SUCCESS (cplus_llist_push_front list1 num3);;
  UNITTEST_EXPECT_EQ (l + 21) s32 CPLUS_SUCCESS (cplus_llist_push_front list1 num4);;
  UNITTEST_EXPECT_EQ (l + 22) as_bool 0 (cplus_llist_is_consist list1 list2 (Some compare_num));;
  UNITTEST_EXPECT_EQ (l + 23) s32 CPLUS_SUCCESS (cplus_llist_delete list1);;
  UNITTEST_EXPECT_EQ (l + 24) s32 CPLUS_SUCCESS (cplus_llist_delete list2);;
  list1 ← EXPECT_EQ_SET (l + 27) 1 not_null (new);
  list2 ← EXPECT_EQ_SET (l + 28) 1 not_null (new);
  UNITTEST_EXPECT_EQ (l + 29) s32 CPLUS_SUCCESS (cplus_llist_push_front list1 num0);;
  UNITTEST_EXPECT_EQ (l + 30) s32 CPLUS_SUCCESS (cplus_llist_push_front list1 num1);;
  UNITTEST_EXPECT_EQ (l + 31) s32 CPLUS_SUCCESS (cplus_llist_push_front list1 num1);;
  UNITTEST_EXPECT_EQ (l + 32) s32 CPLUS_SUCCESS (cplus_llist_push_front list1 num2);;
  UNITTEST_EXPECT_EQ (l + 33) s32 CPLUS_SUCCESS (cplus_llist_push_front list1 num4);;
  UNITTEST_EXPECT_EQ (l + 34) s32 CPLUS_SUCCESS (cplus_llist_push_front list2 num0);;
  UNITTEST_EXPECT_EQ (l + 35) s32 CPLUS_SUCCESS (cplus_llist_push_front list2 num1);;
  UNITTEST_EXPECT_EQ (l + 36) s32 CPLUS_SUCCESS (cplus_llist_push_front list2 num1);;
  UNITTEST_EXPECT_EQ (l + 37) s32 CPLUS_SUCCESS (cplus_llist_push_front list2 num3);;
  UNITTEST_EXPECT_EQ (l + 38) s32 CPLUS_SUCCESS (cplus_llist_push_front list2 num4);;
  UNITTEST_EXPECT_EQ (l + 39) as_bool 0 (cplus_llist_is_consist list1 list2 (Some compare_num));;
  UNITTEST_EXPECT_EQ (l + 40) s32 CPLUS_SUCCESS (cplus_llist_delete list1);;
  UNITTEST_EXPECT_EQ (l + 41) s32 CPLUS_SUCCESS (cplus_llist_delete list2);;
  list1 ← EXPECT_EQ_SET (l + 44) 1 not_null (new);
  list2 ← EXPECT_EQ_SET (l + 45) 1 not_null (new);
  UNITTEST_EXPECT_EQ (l + 46) s32 CPLUS_SUCCESS (cplus_llist_push_front list1 num0);;
  UNITTEST_EXPECT_EQ (l + 47) s32 CPLUS_SUCCESS (cplus_llist_push_front list1 num1);;
  UNITTEST_EXPECT_EQ (l + 48) s32 CPLUS_SUCCESS (cplus_llist_push_front list1 num2);;
  UNITTEST_EXPECT_EQ (l + 49) s32 CPLUS_SUCCESS (cplus_llist_push_front list1 num3);;
  UNITTEST_EXPECT_EQ (l + 50) s32 CPLUS_SUCCESS (cplus_llist_push_front list1 num4);;
  UNITTEST_EXPECT_EQ (l + 51) s32 CPLUS_SUCCESS (cplus_llist_push_front list2 num0);;
  UNITTEST_EXPECT_EQ (l + 52) s32 CPLUS_SUCCESS (cplus_llist_push_front list2 num1);;
  UNITTEST_EXPECT_EQ (l + 53) s32 CPLUS_SUCCESS (cplus_llist_push_front list2 num2);;
  UNITTEST_EXPECT_EQ (l + 54) s32 CPLUS_SUCCESS (cplus_llist_push_front list2 num3);;
  UNITTEST_EXPECT_EQ (l + 55) s32 CPLUS_SUCCESS (cplus_llist_push_front list2 num4);;
  UNITTEST_EXPECT_EQ (l + 56) as_bool 1 (cplus_llist_is_consist list1 list2 (Some compare_num));;
  UNITTEST_EXPECT_EQ (l + 57) s32 CPLUS_SUCCESS (cplus_llist_delete list1);;
  UNITTEST_EXPECT_EQ (l + 58) s32 CPLUS_SUCCESS (cplus_llist_delete list2);;
  UNITTEST_EXPECT_EQ (l + 60) s32 0 (cplus_mgr_report);;
  mret tt.

Definition cplus_llist_is_consist_functionity : T := is_consist_functionity_with 1614 cplus_llist_new.
Definition cplus_llist_is_consist_s_functionity : T := is_consist_functionity_with 2109 cplus_llist_new_s.

Definition cplus_llist_delete_data_functionity : T :=
  list ← EXPECT_EQ_SET 2176 1 not_null (cplus_llist_new);
  UNITTEST_EXPECT_EQ 2177 s32 CPLUS_SUCCESS (cplus_llist_push_back list num0);;
  UNITTEST_EXPECT_EQ 2178 s32 CPLUS_SUCCESS (cplus_llist_push_back list num1);;
  UNITTEST_EXPECT_EQ 2179 s32 CPLUS_SUCCESS (cplus_llist_push_back list num2);;
  UNITTEST_EXPECT_EQ 2180 s32 CPLUS_SUCCESS (cplus_llist_push_back list num3);;
  UNITTEST_EXPECT_EQ 2181 s32 CPLUS_SUCCESS (cplus_llist_push_back list num4);;
  UNITTEST_EXPECT_EQ 2182 s32 0 (int_of (cplus_llist_get_of list 0));;
  UNITTEST_EXPECT_EQ 2183 s32 1 (int_of (cplus_llist_get_of list 1));;
  UNITTEST_EXPECT_EQ 2184 s32 2 (int_of (cplus_llist_get_of list 2));;
  UNITTEST_EXPECT_EQ 2185 s32 3 (int_of (cplus_llist_get_of list 3));;
  UNITTEST_EXPECT_EQ 2186 s32 4 (int_of (cplus_llist_get_of list 4));;
  UNITTEST_EXPECT_EQ 2187 u32 5 (cplus_llist_get_size list);;
  UNITTEST_EXPECT_EQ 2188 s32 CPLUS_SUCCESS (cplus_llist_delete_data list num1);;
  UNITTEST_EXPECT_EQ 2189 s32 CPLUS_SUCCESS (cplus_llist_delete_data list num3);;
  UNITTEST_EXPECT_EQ 2190 u32 3 (cplus_llist_get_size list);;
  UNITTEST_EXPECT_EQ 2191 s32 0 (int_of (cplus_llist_get_of list 0));;
  UNITTEST_EXPECT_EQ 2192 s32 2 (int_of (cplus_llist_get_of list 1));;
  UNITTEST_EXPECT_EQ 2193 s32 4 (int_of (cplus_llist_get_of list 2));;
  UNITTEST_EXPECT_EQ 2194 s32 CPLUS_SUCCESS (cplus_llist_push_back list num3);;
  UNITTEST_EXPECT_EQ 2195 s32 CPLUS_SUCCESS (cplus_llist_push_back list num1);;
  UNITTEST_EXPECT_EQ 2196 s32 0 (int_of (cplus_llist_get_of list 0));;
  UNITTEST_EXPECT_EQ 2197 s32 2 (int_of (cplus_llist_get_of list 1));;
  UNITTEST_EXPECT_EQ 2198 s32 4 (int_of (cplus_llist_get_of list 2));;
  UNITTEST_EXPECT_EQ 2199 s32 3 (int_of (cplus_llist_get_of list 3));;
  UNITTEST_EXPECT_EQ 2200 s32 1 (int_of (cplus_llist_get_of list 4));;
  UNITTEST_EXPECT_EQ 2201 s32 CPLUS_SUCCESS (cplus_llist_delete_data list num0);;
  UNITTEST_EXPECT_EQ 2202 s32 CPLUS_SUCCESS (cplus_llist_delete_data list num1);;
  UNITTEST_EXPECT_EQ 2203 s32 2 (int_of (cplus_llist_get_of list 0));;
  UNITTEST_EXPECT_EQ 2204 s32 4 (int_of (cplus_llist_get_of list 1));;
  UNITTEST_EXPECT_EQ 2205 s32 3 (int_of (cplus_llist_get_of list 2));;
  UNITTEST_EXPECT_EQ 2206 u32 3 (cplus_llist_get_size list);;
  UNITTEST_EXPECT_EQ 2207 s32 CPLUS_SUCCESS (cplus_llist_push_front list num0);;
  UNITTEST_EXPECT_EQ 2208 s32 CPLUS_SUCCESS (cplus_llist_push_front list num1);;
  UNITTEST_EXPECT_EQ 2209 s32 1 (int_of (cplus_llist_get_of list 0));;
  UNITTEST_EXPECT_EQ 2210 s32 0 (int_of (cplus_llist_get_of list 1));;
  UNITTEST_EXPECT_EQ 2211 s32 2 (int_of (cplus_llist_get_of list 2));;
  UNITTEST_EXPECT_EQ 2212 s32 4 (int_of (cplus_llist_get_of list 3));;
  UNITTEST_EXPECT_EQ 2213 s32 3 (int_of (cplus_llist_get_of list 4));;
  UNITTEST_EXPECT_EQ 2214 u32 5 (cplus_llist_get_size list);;
  UNITTEST_EXPECT_EQ 2215 s32 3 (int_of (cplus_llist_pop_back list));;
  UNITTEST_EXPECT_EQ 2216 s32 4 (int_of (cplus_llist_pop_back list));;
  UNITTEST_EXPECT_EQ 2217 s32 2 (int_of (cplus_llist_pop_back list));;
  UNITTEST_EXPECT_EQ 2218 s32 0 (int_of (cplus_llist_pop_back list));;
  UNITTEST_EXPECT_EQ 2219 s32 1 (int_of (cplus_llist_pop_back list));;
  UNITTEST_EXPECT_EQ 2220 u32 0 (cplus_llist_get_size list);;
  UNITTEST_EXPECT_EQ 2221 s32 CPLUS_SUCCESS (cplus_llist_delete list);;
  UNITTEST_EXPECT_EQ 2222 s32 0 (cplus_mgr_report);;
  mret tt.

Definition cplus_llist_delete_data_s_functionity : T :=
  list ← EXPECT_EQ_SET 2228 1 not_null (cplus_llist_new_s);
  UNITTEST_EXPECT_EQ 2229 s32 CPLUS_SUCCESS (cplus_llist_push_front list num0);;
  UNITTEST_EXPECT_EQ 2230 s32 CPLUS_SUCCESS (cplus_llist_push_front list num1);;
  UNITTEST_EXPECT_EQ 2231 s32 CPLUS_SUCCESS (cplus_llist_push_front list num2);;
  UNITTEST_EXPECT_EQ 2232 s32 CPLUS_SUCCESS (cplus_llist_push_front list num3);;
  UNITTEST_EXPECT_EQ 2233 s32 CPLUS_SUCCESS (cplus_llist_push_front list num4);;
  UNITTEST_EXPECT_EQ 2234 u32 5 (cplus_llist_get_size list);;
  UNITTEST_EXPECT_EQ 2235 s32 CPLUS_SUCCESS (cplus_llist_delete_data list num0);;
  UNITTEST_EXPECT_EQ 2236 s32 CPLUS_SUCCESS (cplus_llist_delete_data list num1);;
  UNITTEST_EXPECT_EQ 2237 s32 CPLUS_SUCCESS (cplus_llist_delete_data list num2);;
  UNITTEST_EXPECT_EQ 2238 s32 CPLUS_SUCCESS (cplus_llist_delete_data list num3);;
  UNITTEST_EXPECT_EQ 2239 s32 CPLUS_SUCCESS (cplus_llist_delete_data list num4);;
  UNITTEST_EXPECT_EQ 2240 u32 0 (cplus_llist_get_size list);;
  UNITTEST_EXPECT_EQ 2241 s32 CPLUS_SUCCESS (cplus_llist_push_back list num0);;
  UNITTEST_EXPECT_EQ 2242 s32 CPLUS_SUCCESS (cplus_llist_push_back list num1);;
  UNITTEST_EXPECT_EQ 2243 s32 CPLUS_SUCCESS (cplus_llist_push_back list num2);;
  UNITTEST_EXPECT_EQ 2244 s32 CPLUS_SUCCESS (cplus_llist_push_back list num3);;
  UNITTEST_EXPECT_EQ 2245 s32 CPLUS_SUCCESS (cplus_llist_push_back list num4);;
  UNITTEST_EXPECT_EQ 2246 s32 CPLUS_SUCCESS (cplus_llist_delete_data list num1);;
  UNITTEST_EXPECT_EQ 2247 s32 CPLUS_SUCCESS (cplus_llist_delete_data list num3);;
  UNITTEST_EXPECT_EQ 2248 s32 CPLUS_SUCCESS (cplus_llist_push_front list num1);;
  UNITTEST_EXPECT_EQ 2249 s32 CPLUS_SUCCESS (cplus_llist_push_front list num3);;
  UNITTEST_EXPECT_EQ 2250 u32 5 (cplus_llist_get_size list);;
  UNITTEST_EXPECT_EQ 2251 s32 3 (int_of (cplus_llist_pop_front list));;
  UNITTEST_EXPECT_EQ 2252 s32 1 (int_of (cplus_llist_pop_front list));;
  UNITTEST_EXPECT_EQ 2253 s32 0 (int_of (cplus_llist_pop_front list));;
  UNITTEST_EXPECT_EQ 2254 s32 2 (int_of (cplus_llist_pop_front list));;
  UNITTEST_EXPECT_EQ 2255 s32 4 (int_of (cplus_llist_pop_front list));;
  UNITTEST_EXPECT_EQ 2256 u32 0 (cplus_llist_get_size list);;
  UNITTEST_EXPECT_EQ 2257 s32 CPLUS_SUCCESS (cplus_llist_delete list);;
  UNITTEST_EXPECT_EQ 2258 s32 0 (cplus_mgr_report);;
  mret tt.

Definition cplus_llist_sort_ascending : T :=
  list ← EXPECT_EQ_SET 2274 1 not_null (cplus_llist_new);
  UNITTEST_EXPECT_EQ 2275 s32 CPLUS_SUCCESS (cplus_llist_push_front list num3);;
  UNITTEST_EXPECT_EQ 2276 s32 CPLUS_SUCCESS (cplus_llist_push_front list num2);;
  UNITTEST_EXPECT_EQ 2277 s32 CPLUS_SUCCESS (cplus_llist_push_front list num4);;
  UNITTEST_EXPECT_EQ 2278 s32 CPLUS_SUCCESS (cplus_llist_push_front list num0);;
  UNITTEST_EXPECT_EQ 2279 s32 CPLUS_SUCCESS (cplus_llist_push_front list num1);;
  UNITTEST_EXPECT_EQ 2280 u32 5 (cplus_llist_get_size list);;
  UNITTEST_EXPECT_EQ 2281 s32 CPLUS_SUCCESS (cplus_llist_sort list (Some ascendant));;
  UNITTEST_EXPECT_EQ 2282 s32 0 (int_of (cplus_llist_get_of list 0));;
  UNITTEST_EXPECT_EQ 2283 s32 1 (int_of (cplus_llist_get_of list 1));;
  UNITTEST_EXPECT_EQ 2284 s32 2 (int_of (cplus_llist_get_of list 2));;
  UNITTEST_EXPECT_EQ 2285 s32 3 (int_of (cplus_llist_get_of list 3));;
  UNITTEST_EXPECT_EQ 2286 s32 4 (int_of (cplus_llist_get_of list 4));;
  UNITTEST_EXPECT_EQ 2287 s32 CPLUS_SUCCESS (cplus_llist_delete list);;
  UNITTEST_EXPECT_EQ 2288 s32 0 (cplus_mgr_report);;
  mret tt.

Definition cplus_llist_sort_deascending : T :=
  list ← EXPECT_EQ_SET 2294 1 not_null (cplus_llist_new);
  UNITTEST_EXPECT_EQ 2295 s32 CPLUS_SUCCESS (cplus_llist_push_front list num3);;
  UNITTEST_EXPECT_EQ 2296 s32 CPLUS_SUCCESS (cplus_llist_push_front list num2);;
  UNITTEST_EXPECT_EQ 2297 s32 CPLUS_SUCCESS (cplus_llist_push_front list num4);;
  UNITTEST_EXPECT_EQ 2298 s32 CPLUS_SUCCESS (cplus_llist_push_front list num0);;
  UNITTEST_EXPECT_EQ 2299 s32 CPLUS_SUCCESS (cplus_llist_push_front list num1);;
  UNITTEST_EXPECT_EQ 2300 u32 5 (cplus_llist_get_size list);;
  UNITTEST_EXPECT_EQ 2301 s32 CPLUS_SUCCESS (cplus_llist_sort list (Some deascendant));;
  UNITTEST_EXPECT_EQ 2302 s32 4 (int_of (cplus_llist_get_of list 0));;
  UNITTEST_EXPECT_EQ 2303 s32 3 (int_of (cplus_llist_get_of list 1));;
  UNITTEST_EXPECT_EQ 2304 s32 2 (int_of (cplus_llist_get_of list 2));;
  UNITTEST_EXPECT_EQ 2305 s32 1 (int_of (cplus_llist_get_of list 3));;
  UNITTEST_EXPECT_EQ 2306 s32 0 (int_of (cplus_llist_get_of list 4));;
  UNITTEST_EXPECT_EQ 2307 as_bool CPLUS_SUCCESS (cplus_llist_is_sort list);;
  UNITTEST_EXPECT_EQ 2308 s32 CPLUS_SUCCESS (cplus_llist_delete list);;
  UNITTEST_EXPECT_EQ 2309 s32 0 (cplus_mgr_report);;
  mret tt.

Definition cplus_llist_sort_s_ascending : T :=
  list ← EXPECT_EQ_SET 2315 1 not_null (cplus_llist_new);
  UNITTEST_EXPECT_EQ 2316 s32 CPLUS_SUCCESS (cplus_llist_push_front list num3);;
  UNITTEST_EXPECT_EQ 2317 s32 CPLUS_SUCCESS (cplus_llist_push_front list num2);;
  UNITTEST_EXPECT_EQ 2318 s32 CPLUS_SUCCESS (cplus_llist_push_front list num4);;
  UNITTEST_EXPECT_EQ 2319 s32 CPLUS_SUCCESS (cplus_llist_push_front list num0);;
  UNITTEST_EXPECT_EQ 2320 s32 CPLUS_SUCCESS (cplus_llist_push_front list num1);;
  UNITTEST_EXPECT_EQ 2321 u32 5 (cplus_llist_get_size list);;
  UNITTEST_EXPECT_EQ 2322 s32 CPLUS_SUCCESS (cplus_llist_sort list (Some ascendant));;
  UNITTEST_EXPECT_EQ 2323 s32 0 (int_of (cplus_llist_get_of list 0));;
  UNITTEST_EXPECT_EQ 2324 s32 1 (int_of (cplus_llist_get_of list 1));;
  UNITTEST_EXPECT_EQ 2325 s32 2 (int_of (cplus_llist_get_of list 2));;
  UNITTEST_EXPECT_EQ 2326 s32 3 (int_of (cplus_llist_get_of list 3));;
  UNITTEST_EXPECT_EQ 2327 s32 4 (int_of (cplus_llist_get_of list 4));;
  UNITTEST_EXPECT_EQ 2328 as_bool CPLUS_SUCCESS (cplus_llist_is_sort list);;
  UNITTEST_EXPECT_EQ 2329 s32 CPLUS_SUCCESS (cplus_llist_delete list);;
  UNITTEST_EXPECT_EQ 2330 s32 0 (cplus_mgr_report);;
  mret tt.

Definition cplus_llist_sort_s_deascending : T :=
  list ← EXPECT_EQ_SET 2336 1 not_null (cplus_llist_new);
  UNITTEST_EXPECT_EQ 2337 s32 CPLUS_SUCCESS (cplus_llist_push_front list num3);;
  UNITTEST_EXPECT_EQ 2338 s32 CPLUS_SUCCESS (cplus_llist_push_front list num2);;
  UNITTEST_EXPECT_EQ 2339 s32 CPLUS_SUCCESS (cplus_llist_push_front list num4);;
  UNITTEST_EXPECT_EQ 2340 s32 CPLUS_SUCCESS (cplus_llist_push_front list num0);;
  UNITTEST_EXPECT_EQ 2341 s32 CPLUS_SUCCESS (cplus_llist_push_front list num1);;
  UNITTEST_EXPECT_EQ 2342 u32 5 (cplus_llist_get_size list);;
  UNITTEST_EXPECT_EQ 2343 s32 CPLUS_SUCCESS (cplus_llist_sort list (Some deascendant));;
  UNITTEST_EXPECT_EQ 2344 s32 4 (int_of (cplus_llist_get_of list 0));;
  UNITTEST_EXPECT_EQ 2345 s32 3 (int_of (cplus_llist_get_of list 1));;
  UNITTEST_EXPECT_EQ 2346 s32 2 (int_of (cplus_llist_get_of list 2));;
  UNITTEST_EXPECT_EQ 2347 s32 1 (int_of (cplus_llist_get_of list 3));;
  UNITTEST_EXPECT_EQ 2348 s32 0 (int_of (cplus_llist_get_of list 4));;
  UNITTEST_EXPECT_EQ 2349 s32 CPLUS_SUCCESS (cplus_llist_delete list);;
  UNITTEST_EXPECT_EQ 2350 s32 0 (cplus_mgr_report);;
  mret tt.

Definition cplus_llist_push_back_pop_then_push : T :=
  list ← EXPECT_EQ_SET 2356 1 not_null (cplus_llist_new);
  UNITTEST_EXPECT_EQ 2357 s32 CPLUS_SUCCESS (cplus_llist_push_back list num0);;
  UNITTEST_EXPECT_EQ 2358 s32 CPLUS_SUCCESS (cplus_llist_push_back list num1);;
  UNITTEST_EXPECT_EQ 2359 s32 CPLUS_SUCCESS (cplus_llist_push_back list num2);;
  UNITTEST_EXPECT_EQ 2360 s32 CPLUS_SUCCESS (cplus_llist_push_back list num3);;
  UNITTEST_EXPECT_EQ 2361 s32 CPLUS_SUCCESS (cplus_llist_push_back list num4);;
  UNITTEST_EXPECT_EQ 2362 u32 5 (cplus_llist_get_size list);;
  UNITTEST_EXPECT_EQ 2363 s32 0 (int_of (cplus_llist_get_of list 0));;
  UNITTEST_EXPECT_EQ 2364 s32 1 (int_of (cplus_llist_get_of list 1));;
  UNITTEST_EXPECT_EQ 2365 s32 2 (int_of (cplus_llist_get_of list 2));;
  UNITTEST_EXPECT_EQ 2366 s32 3 (int_of (cplus_llist_get_of list 3));;
  UNITTEST_EXPECT_EQ 2367 s32 4 (int_of (cplus_llist_get_of list 4));;
  UNITTEST_EXPECT_EQ 2368 u32 5 (cplus_llist_get_size list);;
  UNITTEST_EXPECT_EQ 2369 s32 0 (int_of (cplus_llist_pop_front list));;
  UNITTEST_EXPECT_EQ 2370 s32 1 (int_of (cplus_llist_pop_front list));;
  UNITTEST_EXPECT_EQ 2371 u32 3 (cplus_llist_get_size list);;
  UNITTEST_EXPECT_EQ 2372 s32 2 (int_of (cplus_llist_get_of list 0));;
  UNITTEST_EXPECT_EQ 2373 s32 3 (int_of (cplus_llist_get_of list 1));;
  UNITTEST_EXPECT_EQ 2374 s32 4 (int_of (cplus_llist_get_of list 2));;
  UNITTEST_EXPECT_EQ 2375 s32 CPLUS_SUCCESS (cplus_llist_push_back list num0);;
  UNITTEST_EXPECT_EQ 2376 s32 CPLUS_SUCCESS (cplus_llist_push_back list num1);;
  UNITTEST_EXPECT_EQ 2377 u32 5 (cplus_llist_get_size list);;
  UNITTEST_EXPECT_EQ 2378 s32 2 (int_of (cplus_llist_get_of list 0));;
  UNITTEST_EXPECT_EQ 2379 s32 3 (int_of (cplus_llist_get_of list 1));;
  UNITTEST_EXPECT_EQ 2380 s32 4 (int_of (cplus_llist_get_of list 2));;
  UNITTEST_EXPECT_EQ 2381 s32 0 (int_of (cplus_llist_get_of list 3));;
  UNITTEST_EXPECT_EQ 2382 s32 1 (int_of (cplus_llist_get_of list 4));;
  UNITTEST_EXPECT_EQ 2383 u32 5 (cplus_llist_get_size list);;
  UNITTEST_EXPECT_EQ 2384 s32 CPLUS_SUCCESS (cplus_llist_clear list);;
  UNITTEST_EXPECT_EQ 2385 u32 0 (cplus_llist_get_size list);;
  UNITTEST_EXPECT_EQ 2386 s32 1 (cplus_mgr_report);;
  UNITTEST_EXPECT_EQ 2387 s32 CPLUS_SUCCESS (cplus_llist_delete list);;
  UNITTEST_EXPECT_EQ 2388 s32 0 (cplus_mgr_report);;
  mret tt.

Definition cplus_llist_get_next_functionity : T :=
  list ← EXPECT_EQ_SET 2503 1 not_null (cplus_llist_new);
  UNITTEST_EXPECT_EQ 2504 s32 CPLUS_SUCCESS (cplus_llist_push_back list num0);;
  UNITTEST_EXPECT_EQ 2505 s32 CPLUS_SUCCESS (cplus_llist_push_back list num1);;
  UNITTEST_EXPECT_EQ 2506 s32 CPLUS_SUCCESS (cplus_llist_push_back list num2);;
  UNITTEST_EXPECT_EQ 2507 s32 CPLUS_SUCCESS (cplus_llist_push_back list num3);;
  UNITTEST_EXPECT_EQ 2508 s32 CPLUS_SUCCESS (cplus_llist_push_back list num4);;
  UNITTEST_EXPECT_EQ 2509 u32 5 (cplus_llist_get_size list);;
  UNITTEST_EXPECT_EQ 2510 s32 0 (int_of (cplus_llist_get_head list));;
  UNITTEST_EXPECT_EQ 2511 s32 0 (int_of (cplus_llist_get_current list));;
  UNITTEST_EXPECT_EQ 2512 s32 4 (int_of (cplus_llist_get_tail list));;
  UNITTEST_EXPECT_EQ 2513 s32 1 (int_of (cplus_llist_get_next list));;
  UNITTEST_EXPECT_EQ 2514 s32 1 (int_of (cplus_llist_get_current list));;
  UNITTEST_EXPECT_EQ 2515 s32 2 (int_of (cplus_llist_get_next list));;
  UNITTEST_EXPECT_EQ 2516 s32 2 (int_of (cplus_llist_get_current list));;
  UNITTEST_EXPECT_EQ 2517 s32 3 (int_of (cplus_llist_get_next list));;
  UNITTEST_EXPECT_EQ 2518 s32 3 (int_of (cplus_llist_get_current list));;
  UNITTEST_EXPECT_EQ 2519 s32 4 (int_of (cplus_llist_get_next list));;
  UNITTEST_EXPECT_EQ 2520 s32 4 (int_of (cplus_llist_get_current list));;
  UNITTEST_EXPECT_EQ 2521 s32 3 (int_of (cplus_llist_get_prev list));;
  UNITTEST_EXPECT_EQ 2522 s32 3 (int_of (cplus_llist_get_current list));;
  UNITTEST_EXPECT_EQ 2523 s32 2 (int_of (cplus_llist_get_prev list));;
  UNITTEST_EXPECT_EQ 2524 s32 2 (int_of (cplus_llist_get_current list));;
  UNITTEST_EXPECT_EQ 2525 s32 1 (int_of (cplus_llist_get_prev list));;
  UNITTEST_EXPECT_EQ 2526 s32 1 (int_of (cplus_llist_get_current list));;
  UNITTEST_EXPECT_EQ 2527 s32 0 (int_of (cplus_llist_get_prev list));;
  UNITTEST_EXPECT_EQ 2528 s32 0 (int_of (cplus_llist_get_current list));;
  UNITTEST_EXPECT_EQ 2529 s32 0 (int_of (cplus_llist_get_head list));;
  UNITTEST_EXPECT_EQ 2530 s32 4 (int_of (cplus_llist_get_tail list));;
  UNITTEST_EXPECT_EQ 2531 s32 CPLUS_SUCCESS (cplus_llist_delete list);;
  UNITTEST_EXPECT_EQ 2532 s32 0 (cplus_mgr_report);;
  mret tt.

Definition CPLUS_LLIST_FOREACH_functionity : T :=
  list ← EXPECT_EQ_SET 2539 1 not_null (cplus_llist_new);
  UNITTEST_EXPECT_EQ 2540 s32 CPLUS_SUCCESS (cplus_llist_push_back list num0);;
  UNITTEST_EXPECT_EQ 2541 s32 CPLUS_SUCCESS (cplus_llist_push_back list num1);;
  UNITTEST_EXPECT_EQ 2542 s32 CPLUS_SUCCESS (cplus_llist_push_back list num2);;
  UNITTEST_EXPECT_EQ 2543 s32 CPLUS_SUCCESS (cplus_llist_push_back list num3);;
  UNITTEST_EXPECT_EQ 2544 s32 CPLUS_SUCCESS (cplus_llist_push_back list num4);;
  UNITTEST_EXPECT_EQ 2545 u32 5 (cplus_llist_get_size list);;
  foreach 5 list 0 (λ target idx,
    UNITTEST_EXPECT_EQ 2548 s32 idx (int_of (mret target));;
    UNITTEST_EXPECT_EQ 2549 s32 idx (int_of (cplus_llist_get_current list));;
    mret (s32 (idx + 1))) 0;;
  UNITTEST_EXPECT_EQ 2552 s32 CPLUS_SUCCESS (cplus_llist_delete list);;
  UNITTEST_EXPECT_EQ 2553 s32 0 (cplus_mgr_report);;
  mret tt.

(** [for (int32_t idx = 0; idx < 423; idx ++)] *)
Fixpoint cycling_checks (n : nat) (list idx : Z) : T :=
  match n with
  | O => mret tt
  | Datatypes.S n =>
      UNITTEST_EXPECT_EQ 2568 s32 (Z.rem idx 5) (int_of (cplus_llist_get_cycling_next list));;
      cycling_checks n list (idx + 1)
  end.

Definition cplus_llist_get_cycling_next_functionity : T :=
  list ← EXPECT_EQ_SET 2559 1 not_null (cplus_llist_new);
  UNITTEST_EXPECT_EQ 2560 s32 CPLUS_SUCCESS (cplus_llist_push_back list num0);;
  UNITTEST_EXPECT_EQ 2561 s32 CPLUS_SUCCESS (cplus_llist_push_back list num1);;
  UNITTEST_EXPECT_EQ 2562 s32 CPLUS_SUCCESS (cplus_llist_push_back list num2);;
  UNITTEST_EXPECT_EQ 2563 s32 CPLUS_SUCCESS (cplus_llist_push_back list num3);;
  UNITTEST_EXPECT_EQ 2564 s32 CPLUS_SUCCESS (cplus_llist_push_back list num4);;
  UNITTEST_EXPECT_EQ 2565 u32 5 (cplus_llist_get_size list);;
  cycling_checks 423 list 0;;
  UNITTEST_EXPECT_EQ 2570 s32 CPLUS_SUCCESS (cplus_llist_delete list);;
  UNITTEST_EXPECT_EQ 2571 s32 0 (cplus_mgr_report);;
  mret tt.

(** [unittest_llist]; the case [cplus_llist_add_data] is in the module KeyedTests. *)
Definition unittest_llist : list (@named_test world) :=
  [("cplus_llist_push_front", "sequence", cplus_llist_push_front_sequence);
   ("cplus_llist_push_front", "bad_parameter", cplus_llist_push_front_bad_parameter);
   ("cplus_llist_push_back", "sequence", cplus_llist_push_back_sequence);
   ("cplus_llist_push_back", "bad_parameter", cplus_llist_push_back_bad_parameter);
   ("cplus_llist_push_at", "push_randomly", cplus_llist_push_at_push_randomly);
   ("cplus_llist_pop_of", "pop_randomly", cplus_llist_pop_of_pop_randomly);
   ("cplus_llist_get_index_if", "functionity", cplus_llist_get_index_if_functionity);
   ("cplus_llist_get_index_if", "bad_parameter", cplus_llist_get_index_if_bad_parameter);
   ("cplus_llist_push_front", "sequence_with_mempool", cplus_llist_push_front_sequence_with_mempool);
   ("cplus_llist_push_front", "bad_parameter_with_mempool", cplus_llist_push_front_bad_parameter_with_mempool);
   ("CPLUS_LLIST_FOREACH", "sequence", CPLUS_LLIST_FOREACH_sequence);
   ("cplus_llist_get_set_if", "functionity", cplus_llist_get_set_if_functionity);
   ("cplus_llist_pop_if", "functionity", cplus_llist_pop_if_functionity);
   ("cplus_llist_pop_if", "bad_parameter", cplus_llist_pop_if_bad_parameter);
   ("cplus_llist_get_if", "functionity", cplus_llist_get_if_functionity);
   ("cplus_llist_is_consist", "functionity", cplus_llist_is_consist_functionity);
   ("cplus_llist_push_front_s", "sequence", cplus_llist_push_front_s_sequence);
   ("cplus_llist_push_front_s", "bad_parameter", cplus_llist_push_front_s_bad_parameter);
   ("cplus_llist_push_back_s", "sequence", cplus_llist_push_back_s_sequence);
   ("cplus_llist_push_back_s", "bad_parameter", cplus_llist_push_back_s_bad_parameter);
   ("cplus_llist_push_at_s", "push_randomly", cplus_llist_push_at_s_push_randomly);
   ("cplus_llist_pop_of_s", "pop_randomly", cplus_llist_pop_of_s_pop_randomly);
   ("cplus_llist_get_index_if_s", "functionity", cplus_llist_get_index_if_s_functionity);
   ("cplus_llist_get_index_if_s", "bad_parameter", cplus_llist_get_index_if_s_bad_parameter);
   ("cplus_llist_push_front_s", "sequence_with_mempool", cplus_llist_push_front_s_sequence_with_mempool);
   ("cplus_llist_push_front_s", "bad_parameter_with_mempool", cplus_llist_push_front_s_bad_parameter_with_mempool);
   ("CPLUS_LLIST_FOREACH_s", "sequence", CPLUS_LLIST_FOREACH_s_sequence);
   ("cplus_llist_get_set_if_s", "functionity", cplus_llist_get_set_if_s_functionity);
   ("cplus_llist_pop_if_s", "functionity", cplus_llist_pop_if_s_functionity);
   ("cplus_llist_pop_if_s", "bad_parameter", cplus_llist_pop_if_s_bad_parameter);
   ("cplus_llist_get_if_s", "functionity", cplus_llist_get_if_s_functionity);
   ("cplus_llist_is_consist_s", "functionity", cplus_llist_is_consist_s_functionity);
   ("cplus_llist_delete_data", "functionity", cplus_llist_delete_data_functionity);
   ("cplus_llist_delete_data_s", "functionity", cplus_llist_delete_data_s_functionity);
   ("cplus_llist_sort", "ascending", cplus_llist_sort_ascending);
   ("cplus_llist_sort", "deascending", cplus_llist_sort_deascending);
   ("cplus_llist_sort_s", "ascending", cplus_llist_sort_s_ascending);
   ("cplus_llist_sort_s", "deascending", cplus_llist_sort_s_deascending);
   ("cplus_llist_push_back", "pop_then_push", cplus_llist_push_back_pop_then_push);
   ("cplus_llist_get_next", "functionity", cplus_llist_get_next_functionity);
   ("CPLUS_LLIST_FOREACH", "functionity", CPLUS_LLIST_FOREACH_functionity);
   ("cplus_llist_get_cycling_next", "functionity", cplus_llist_get_cycling_next_functionity)]%string.

Definition start : world := World ∅ 0x1000 0.

(** ** Theorems *)

(** the 42 tests of the list all pass on the model, with 1448 expectations
    compared; in the end every block was given back. *)
Theorem llist_tests_pass : report_of unittest_llist start = Done (42%nat, 1448%nat, [], 0).
Proof. vm_compute. reflexivity. Qed.

(** (code bug) [cplus_llist_is_sort] answers true after a sort, and the tests
    expect [CPLUS_SUCCESS], which is false: the expectations at 2307 and 2328 do not
    fail because they compare nothing. *)
Theorem is_sort_is_not_checked :
  2307 ∉ checked_lines cplus_llist_sort_deascending start ∧
  2328 ∉ checked_lines cplus_llist_sort_s_ascending start ∧
  length (checked_lines cplus_llist_sort_deascending start) = 15%nat.
Proof.
  split_and!; [apply (bool_decide_unpack _)|apply (bool_decide_unpack _)|]; vm_compute; done.
Qed.

End LlistTests.

(** ** The test of the keyed helpers

    The test [cplus_llist_add_data, functionity], statement for statement, over the
    world of Group.v: data objects on a heap and lists by address.  A keyed helper
    runs on the list and on the data objects together.  A statement of several lines
    has the number of its first. *)
Module KeyedTests.
Import Stdio Unittest DataTests.
#[local] Existing Instance Llist.source_allocator.
#[local] Notation W := (C Group.world).
#[local] Notation T := (C (tstate Group.world) unit).
#[local] Notation "'call' m" := (Group.on_data m) (at level 10, m at level 9).

(** ** Calls on the list at [p] *)

(** The list with the data objects, and back. *)
Definition with_objects (l : Llist.st Llist.node_source) (x : Data.world) : Llist.st (Llist.node_source * Data.world) :=
  Llist.mkSt (Llist.ll l) (Llist.nodes l) (Llist.src l, x) (Data.errno x).
Definition without_objects (t : Llist.st (Llist.node_source * Data.world)) : Llist.st Llist.node_source :=
  Llist.mkSt (Llist.ll t) (Llist.nodes t) (fst (Llist.src t)) (Llist.errno t).

(** The null pointer fails the assertion of [CHECK_OBJECT_TYPE]. *)
Definition on_keyed {A} (p : Z) (m : C (Llist.st (Llist.node_source * Data.world)) A) : W A :=
  if p =? 0 then abort
  else λ w,
    match Group.lists w !! p with
    | None => Undefined
    | Some l =>
        match m (with_objects l (Group.store w)) with
        | Done (a, t) =>
            Done (a, Group.World (Data.with_errno (Llist.errno t) (snd (Llist.src t)))
                       (<[p := without_objects t]> (Group.lists w)))
        | Aborts => Aborts | Hangs => Hangs | Undefined => Undefined
        end
    end.

Definition key_of (key : string) : option (list Z) := Some (cstr key).
Definition cplus_llist_add_data (p ty : Z) (key : string) (value1 : list Z) (value2 : option (list Z)) : W Z :=
  on_keyed p (Keyed.cplus_llist_add_data me ty (key_of key) (Some value1) value2).
Definition cplus_llist_add_data_int32 (p : Z) (key : string) (v : Z) : W Z :=
  on_keyed p (Keyed.cplus_llist_add_data_int32 me (key_of key) v).
Definition cplus_llist_add_data_string (p : Z) (key str : string) (len : Z) : W Z :=
  on_keyed p (Keyed.cplus_llist_add_data_string me (key_of key) (Some (lit str)) len).
Definition cplus_llist_find_data (p : Z) (key : string) : W Z :=
  on_keyed p (Keyed.cplus_llist_find_data me (key_of key)).
Definition cplus_llist_update_data (p : Z) (key : string) (data : Z) : W Z :=
  on_keyed p (Keyed.cplus_llist_update_data me (key_of key) data).
Definition cplus_llist_remove_data (p : Z) (key : string) : W Z :=
  on_keyed p (Keyed.cplus_llist_remove_data me (key_of key)).
Definition cplus_llist_get_size (p : Z) : W Z := on_keyed p (Llist.cplus_llist_get_size me).
Definition cplus_llist_get_of (p i : Z) : W Z := on_keyed p (Llist.cplus_llist_get_of me i).

Definition cplus_llist_new : W Z := Group.llist_new node_memory.
Definition cplus_llist_delete (p : Z) : W Z := Group.llist_delete me p.

Definition get_int32 (data : W Z) : W Z := d ← data; call (Data.cplus_data_get_int32 d).
Definition get_string (data : W Z) : W (list Z) := d ← data; text_of (Data.cplus_data_get_string d).

(** [CPLUS_LLIST_FOREACH(list, data) { UNITTEST_EXPECT_EQ(CPLUS_SUCCESS, cplus_data_delete(data)); }] *)
Fixpoint delete_each (fuel : nat) (line list index : Z) : T :=
  n ← lift (cplus_llist_get_size list);
  if (index <? n : bool) then
    data ← lift (cplus_llist_get_of list (s32 index));
    if data =? 0 then mret tt
    else match fuel with
         | O => hang
         | Datatypes.S fuel =>
             UNITTEST_EXPECT_EQ line s32 CPLUS_SUCCESS (call (Data.cplus_data_delete data));;
             delete_each fuel line list (u32 (index + 1))
         end
  else mret tt.

(** ** The test *)

(** Add, or overwrite, an [int32_t] and look at it: the statements from [line] on. *)
Definition add_int (line list : Z) (key : string) (v : Z) : T :=
  data ← EXPECT_EQ_SET line 1 not_null (cplus_llist_add_data_int32 list key v);
  UNITTEST_EXPECT_EQ (line + 3) s32 v (get_int32 (mret data));;
  mret tt.
Definition set_int (line list : Z) (key : string) (i32 : Z) : T :=
  data ← EXPECT_EQ_SET line 1 not_null
    (cplus_llist_add_data list (Data.type_code Data.T_INT32) key (Data.to_bytes Data.T_INT32 i32) None);
  UNITTEST_EXPECT_EQ (line + 4) s32 i32 (get_int32 (mret data));;
  mret tt.
Definition expect_int (line list : Z) (key : string) (v : Z) : T :=
  UNITTEST_EXPECT_EQ line s32 v (get_int32 (cplus_llist_find_data list key));; mret tt.

Definition str1 : string := "Hello world".
Definition str2 : string := "AaBbCcDd".

Definition cplus_llist_add_data_functionity : T :=
  list ← EXPECT_EQ_SET 2399 1 not_null cplus_llist_new;
  add_int 2400 list "int_0" 0;;
  add_int 2404 list "int_1" 1;;
  add_int 2408 list "int_2" 2;;
  add_int 2412 list "int_3" 3;;
  add_int 2416 list "int_4" 4;;
  UNITTEST_EXPECT_EQ 2420 u32 5 (cplus_llist_get_size list);;
  expect_int 2421 list "int_0" 0;;
  expect_int 2422 list "int_1" 1;;
  expect_int 2423 list "int_2" 2;;
  expect_int 2424 list "int_3" 3;;
  expect_int 2425 list "int_4" 4;;
  set_int 2426 list "int_0" 5;;
  set_int 2431 list "int_1" 6;;
  set_int 2436 list "int_2" 7;;
  set_int 2441 list "int_3" 8;;
  set_int 2446 list "int_4" 9;;
  UNITTEST_EXPECT_EQ 2451 u32 5 (cplus_llist_get_size list);;
  expect_int 2452 list "int_0" 5;;
  expect_int 2453 list "int_1" 6;;
  expect_int 2454 list "int_2" 7;;
  expect_int 2455 list "int_3" 8;;
  expect_int 2456 list "int_4" 9;;
  UNITTEST_EXPECT_EQ 2457 s32 CPLUS_SUCCESS (cplus_llist_remove_data list "int_1");;
  UNITTEST_EXPECT_EQ 2458 s32 CPLUS_SUCCESS (cplus_llist_remove_data list "int_3");;
  EXPECT_EQ_SET 2459 1 is_null (cplus_llist_find_data list "int_1");;
  EXPECT_EQ_SET 2460 1 is_null (cplus_llist_find_data list "int_3");;
  UNITTEST_EXPECT_EQ 2461 u32 3 (cplus_llist_get_size list);;
  data ← EXPECT_EQ_SET 2462 1 not_null (cplus_llist_add_data list (Data.type_code Data.T_STRING) "str1"
    (Data.to_bytes Data.T_UINT32 (strlen str1)) (Some (lit str1)));
  UNITTEST_EXPECT_EQ 2466 s32 0 (strcmp str1 (get_string (mret data)));;
  data ← EXPECT_EQ_SET 2469 1 not_null (cplus_llist_add_data_string list "str2" str2 (strlen str2));
  UNITTEST_EXPECT_EQ 2473 s32 0 (strcmp str2 (get_string (mret data)));;
  UNITTEST_EXPECT_EQ 2476 u32 5 (cplus_llist_get_size list);;
  UNITTEST_EXPECT_EQ 2477 s32 0 (strcmp str1 (get_string (cplus_llist_find_data list "str1")));;
  UNITTEST_EXPECT_EQ 2480 s32 0 (strcmp str2 (get_string (cplus_llist_find_data list "str2")));;
  UNITTEST_EXPECT_EQ 2483 u64 (strlen str1) (length_of (get_string (cplus_llist_find_data list "str1")));;
  UNITTEST_EXPECT_EQ 2484 u64 (strlen str2) (length_of (get_string (cplus_llist_find_data list "str2")));;
  data ← EXPECT_EQ_SET 2485 1 not_null (call (Data.cplus_data_new_int32 0x1234));
  EXPECT_EQ_SET 2486 1 not_null (cplus_llist_update_data list "int_0" data);;
  expect_int 2487 list "int_0" 0x1234;;
  data ← EXPECT_EQ_SET 2488 1 not_null (call (Data.cplus_data_new_int32 0x4321));
  UNITTEST_EXPECT_EQ 2489 s32 0x4321 (get_int32 (mret data));;
  EXPECT_EQ_SET 2490 1 not_null (cplus_llist_update_data list "int_5" data);;
  expect_int 2491 list "int_5" 0x4321;;
  n ← lift (cplus_llist_get_size list);
  delete_each (Z.to_nat n) 2494 list 0;;
  UNITTEST_EXPECT_EQ 2496 s32 CPLUS_SUCCESS (cplus_llist_delete list);;
  UNITTEST_EXPECT_EQ 2497 s32 0 cplus_mgr_report;;
  mret tt.

(** The case of [unittest_llist] that the tests of the list leave out. *)
Definition unittest_keyed : list (@named_test Group.world) :=
  [("cplus_llist_add_data", "functionity", cplus_llist_add_data_functionity)]%string.

Definition start (any : Z) : Group.world :=
  Group.World (Data.World ∅ Heap.empty_heap (λ _ _, any) 0) ∅.

(** ** Theorem *)

(** the test of the keyed helpers passes, whatever fresh memory holds; in the
    end every block was given back, although the update of a key that is in the list
    put a second object under it. *)
Theorem keyed_test_passes any :
  report_of unittest_keyed (start any) = Done (1%nat, 63%nat, [], 0).
Proof. vm_compute. reflexivity. Qed.

End KeyedTests.
