(* ===== verification/DataConvTests.v ===== *)
(** * DataConvTests: the tests of the conversions of src/data.c, and its test program

    Reading objects of each type as every other type, and writing a text object
    from every type; then all the tests of data.c in their order. *)

From S2P Require Import Prelude Allocator Stdio Zlist Memmgr Llist Data DataConv Keyed Group Unittest DataTests.
From stdpp Require Import base numbers list option gmap strings.
From Stdlib Require Import ZArith Lia.
Open Scope Z_scope.

Module DataConvTests.
Import Stdio Unittest DataTests.
#[local] Notation W := (C Group.world).
#[local] Notation T := (C (tstate Group.world) unit).
#[local] Notation "'call' m" := (Group.on_data m) (at level 10, m at level 9).

Section tests.
Variable any : Z.

Definition cplus_data_get_as_CPLUS_DATA_TYPE_BOOL : T :=
  let b := any in let f := any in let db := any in
  let str := replicate 64 any in let len := 64 in
  let i8 := any in let i16 := any in let i32 := any in let i64 := any in
  let u8 := any in let u16 := any in let u32 := any in let u64 := any in
  let bufs := replicate 32 0 in let test_value := replicate 32 0 in let bufs_len := 32 in
  data ← EXPECT_EQ_SET 4843 1 not_null (call (Data.cplus_data_new_bool 1));
  UNITTEST_EXPECT_EQ 4844 Prelude.u32 1 (call (Data.cplus_data_get_data_size data));;
  UNITTEST_EXPECT_EQ 4845 s32 (Data.type_code Data.T_BOOL) (call (Data.cplus_data_get_type data));;
  b ← EXPECT_EQ_OUT 4846 s32 CPLUS_SUCCESS (call (DataConv.cplus_data_get_as_bool data b));
  UNITTEST_EXPECT_EQ 4847 s32 1 (holds (1 =? b));;
  i8 ← EXPECT_EQ_OUT 4848 s32 CPLUS_SUCCESS (call (DataConv.cplus_data_get_as_int8 data i8));
  UNITTEST_EXPECT_EQ 4849 s32 1 (holds (1 =? i8));;
  i16 ← EXPECT_EQ_OUT 4850 s32 CPLUS_SUCCESS (call (DataConv.cplus_data_get_as_int16 data i16));
  UNITTEST_EXPECT_EQ 4851 s32 1 (holds (1 =? i16));;
  i32 ← EXPECT_EQ_OUT 4852 s32 CPLUS_SUCCESS (call (DataConv.cplus_data_get_as_int32 data i32));
  UNITTEST_EXPECT_EQ 4853 s32 1 (holds (1 =? i32));;
  i64 ← EXPECT_EQ_OUT 4854 s32 CPLUS_SUCCESS (call (DataConv.cplus_data_get_as_int64 data i64));
  UNITTEST_EXPECT_EQ 4855 s32 1 (holds (1 =? i64));;
  u8 ← EXPECT_EQ_OUT 4856 s32 CPLUS_SUCCESS (call (DataConv.cplus_data_get_as_uint8 data u8));
  UNITTEST_EXPECT_EQ 4857 s32 1 (holds (1 =? u8));;
  u16 ← EXPECT_EQ_OUT 4858 s32 CPLUS_SUCCESS (call (DataConv.cplus_data_get_as_uint16 data u16));
  UNITTEST_EXPECT_EQ 4859 s32 1 (holds (1 =? u16));;
  u32 ← EXPECT_EQ_OUT 4860 s32 CPLUS_SUCCESS (call (DataConv.cplus_data_get_as_uint32 data u32));
  UNITTEST_EXPECT_EQ 4861 s32 1 (holds (1 =? u32));;
  u64 ← EXPECT_EQ_OUT 4862 s32 CPLUS_SUCCESS (call (DataConv.cplus_data_get_as_uint64 data u64));
  UNITTEST_EXPECT_EQ 4863 s32 1 (holds (1 =? u64));;
  f ← EXPECT_EQ_OUT 4864 s32 CPLUS_SUCCESS (call (DataConv.cplus_data_get_as_float data f));
  UNITTEST_EXPECT_EQ 4865 s32 1 (holds (equals binary32 1 f));;
  db ← EXPECT_EQ_OUT 4866 s32 CPLUS_SUCCESS (call (DataConv.cplus_data_get_as_double data db));
  UNITTEST_EXPECT_EQ 4867 s32 1 (holds (equals binary64 1 db));;
  str ← EXPECT_EQ_OUT 4868 s32 (strlen "true") (cplus_data_get_as_string data len str);
  UNITTEST_EXPECT_EQ 4869 s32 1 (is_zero (strcmp_at str "true"));;
  bufs ← EXPECT_EQ_OUT 4870 s32 1 (cplus_data_get_as_byte_array data bufs_len bufs);
  let test_value := <[0%nat := 0x01]> test_value in
  UNITTEST_EXPECT_EQ 4872 s32 1 (is_zero (memcmp bufs test_value 1));;
  UNITTEST_EXPECT_EQ 4873 s32 0 (call (Data.cplus_data_set_bool data 0));;
  UNITTEST_EXPECT_EQ 4874 Prelude.u32 1 (call (Data.cplus_data_get_data_size data));;
  UNITTEST_EXPECT_EQ 4875 s32 (Data.type_code Data.T_BOOL) (call (Data.cplus_data_get_type data));;
  b ← EXPECT_EQ_OUT 4876 s32 CPLUS_SUCCESS (call (DataConv.cplus_data_get_as_bool data b));
  UNITTEST_EXPECT_EQ 4877 s32 1 (holds (0 =? b));;
  i8 ← EXPECT_EQ_OUT 4878 s32 CPLUS_SUCCESS (call (DataConv.cplus_data_get_as_int8 data i8));
  UNITTEST_EXPECT_EQ 4879 s32 1 (holds (0 =? i8));;
  i16 ← EXPECT_EQ_OUT 4880 s32 CPLUS_SUCCESS (call (DataConv.cplus_data_get_as_int16 data i16));
  UNITTEST_EXPECT_EQ 4881 s32 1 (holds (0 =? i16));;
  i32 ← EXPECT_EQ_OUT 4882 s32 CPLUS_SUCCESS (call (DataConv.cplus_data_get_as_int32 data i32));
  UNITTEST_EXPECT_EQ 4883 s32 1 (holds (0 =? i32));;
  i64 ← EXPECT_EQ_OUT 4884 s32 CPLUS_SUCCESS (call (DataConv.cplus_data_get_as_int64 data i64));
  UNITTEST_EXPECT_EQ 4885 s32 1 (holds (0 =? i64));;
  u8 ← EXPECT_EQ_OUT 4886 s32 CPLUS_SUCCESS (call (DataConv.cplus_data_get_as_uint8 data u8));
  UNITTEST_EXPECT_EQ 4887 s32 1 (holds (0 =? u8));;
  u16 ← EXPECT_EQ_OUT 4888 s32 CPLUS_SUCCESS (call (DataConv.cplus_data_get_as_uint16 data u16));
  UNITTEST_EXPECT_EQ 4889 s32 1 (holds (0 =? u16));;
  u32 ← EXPECT_EQ_OUT 4890 s32 CPLUS_SUCCESS (call (DataConv.cplus_data_get_as_uint32 data u32));
  UNITTEST_EXPECT_EQ 4891 s32 1 (holds (0 =? u32));;
  u64 ← EXPECT_EQ_OUT 4892 s32 CPLUS_SUCCESS (call (DataConv.cplus_data_get_as_uint64 data u64));
  UNITTEST_EXPECT_EQ 4893 s32 1 (holds (0 =? u64));;
  f ← EXPECT_EQ_OUT 4894 s32 CPLUS_SUCCESS (call (DataConv.cplus_data_get_as_float data f));
  UNITTEST_EXPECT_EQ 4895 s32 1 (holds (equals binary32 0 f));;
  db ← EXPECT_EQ_OUT 4896 s32 CPLUS_SUCCESS (call (DataConv.cplus_data_get_as_double data db));
  UNITTEST_EXPECT_EQ 4897 s32 1 (holds (equals binary64 0 db));;
  str ← EXPECT_EQ_OUT 4898 s32 (strlen "false") (cplus_data_get_as_string data len str);
  UNITTEST_EXPECT_EQ 4899 s32 1 (is_zero (strcmp_at str "false"));;
  bufs ← EXPECT_EQ_OUT 4900 s32 1 (cplus_data_get_as_byte_array data bufs_len bufs);
  let test_value := <[0%nat := 0x00]> test_value in
  UNITTEST_EXPECT_EQ 4902 s32 1 (is_zero (memcmp bufs test_value 1));;
  UNITTEST_EXPECT_EQ 4903 s32 CPLUS_SUCCESS (call (Data.cplus_data_delete data));;
  UNITTEST_EXPECT_EQ 4904 s32 0 cplus_mgr_report;;
  mret tt.

Definition cplus_data_get_as_CPLUS_DATA_TYPE_INT8 : T :=
  let b := any in let f := any in let db := any in
  let str := replicate 64 any in let len := 64 in
  let i8 := any in let i16 := any in let i32 := any in let i64 := any in
  let u8 := any in let u16 := any in let u32 := any in let u64 := any in
  let bufs := replicate 32 0 in let test_value := replicate 32 0 in let bufs_len := 32 in
  data ← EXPECT_EQ_SET 4915 1 not_null (call (Data.cplus_data_new_int8 127));
  UNITTEST_EXPECT_EQ 4916 Prelude.u32 1 (call (Data.cplus_data_get_data_size data));;
  UNITTEST_EXPECT_EQ 4917 s32 (Data.type_code Data.T_INT8) (call (Data.cplus_data_get_type data));;
  b ← EXPECT_EQ_OUT 4918 s32 CPLUS_SUCCESS (call (DataConv.cplus_data_get_as_bool data b));
  UNITTEST_EXPECT_EQ 4919 s32 1 (holds (1 =? b));;
  i8 ← EXPECT_EQ_OUT 4920 s32 CPLUS_SUCCESS (call (DataConv.cplus_data_get_as_int8 data i8));
  UNITTEST_EXPECT_EQ 4921 s32 1 (holds (127 =? i8));;
  i16 ← EXPECT_EQ_OUT 4922 s32 CPLUS_SUCCESS (call (DataConv.cplus_data_get_as_int16 data i16));
  UNITTEST_EXPECT_EQ 4923 s32 1 (holds (127 =? i16));;
  i32 ← EXPECT_EQ_OUT 4924 s32 CPLUS_SUCCESS (call (DataConv.cplus_data_get_as_int32 data i32));
  UNITTEST_EXPECT_EQ 4925 s32 1 (holds (127 =? i32));;
  i64 ← EXPECT_EQ_OUT 4926 s32 CPLUS_SUCCESS (call (DataConv.cplus_data_get_as_int64 data i64));
  UNITTEST_EXPECT_EQ 4927 s32 1 (holds (127 =? i64));;
  u8 ← EXPECT_EQ_OUT 4928 s32 CPLUS_SUCCESS (call (DataConv.cplus_data_get_as_uint8 data u8));
  UNITTEST_EXPECT_EQ 4929 s32 1 (holds (127 =? u8));;
  u16 ← EXPECT_EQ_OUT 4930 s32 CPLUS_SUCCESS (call (DataConv.cplus_data_get_as_uint16 data u16));
  UNITTEST_EXPECT_EQ 4931 s32 1 (holds (127 =? u16));;
  u32 ← EXPECT_EQ_OUT 4932 s32 CPLUS_SUCCESS (call (DataConv.cplus_data_get_as_uint32 data u32));
  UNITTEST_EXPECT_EQ 4933 s32 1 (holds (127 =? u32));;
  u64 ← EXPECT_EQ_OUT 4934 s32 CPLUS_SUCCESS (call (DataConv.cplus_data_get_as_uint64 data u64));
  UNITTEST_EXPECT_EQ 4935 s32 1 (holds (127 =? u64));;
  f ← EXPECT_EQ_OUT 4936 s32 CPLUS_SUCCESS (call (DataConv.cplus_data_get_as_float data f));
  UNITTEST_EXPECT_EQ 4937 s32 1 (holds (equals binary32 127 f));;
  db ← EXPECT_EQ_OUT 4938 s32 CPLUS_SUCCESS (call (DataConv.cplus_data_get_as_double data db));
  UNITTEST_EXPECT_EQ 4939 s32 1 (holds (equals binary64 127 db));;
  str ← EXPECT_EQ_OUT 4940 s32 (strlen "127") (cplus_data_get_as_string data len str);
  UNITTEST_EXPECT_EQ 4941 s32 1 (is_zero (strcmp_at str "127"));;
  bufs ← EXPECT_EQ_OUT 4942 s32 1 (cplus_data_get_as_byte_array data bufs_len bufs);
  let test_value := <[0%nat := 0x7f]> test_value in
  UNITTEST_EXPECT_EQ 4944 s32 1 (is_zero (memcmp bufs test_value 1));;
  UNITTEST_EXPECT_EQ 4945 s32 0 (call (Data.cplus_data_set_int8 data (-1)));;
  b ← EXPECT_EQ_OUT 4946 s32 CPLUS_SUCCESS (call (DataConv.cplus_data_get_as_bool data b));
  UNITTEST_EXPECT_EQ 4947 s32 1 (holds (1 =? b));;
  i8 ← EXPECT_EQ_OUT 4948 s32 CPLUS_SUCCESS (call (DataConv.cplus_data_get_as_int8 data i8));
  UNITTEST_EXPECT_EQ 4949 s32 1 (holds ((-1) =? i8));;
  i16 ← EXPECT_EQ_OUT 4950 s32 CPLUS_SUCCESS (call (DataConv.cplus_data_get_as_int16 data i16));
  UNITTEST_EXPECT_EQ 4951 s32 1 (holds ((-1) =? i16));;
  i32 ← EXPECT_EQ_OUT 4952 s32 CPLUS_SUCCESS (call (DataConv.cplus_data_get_as_int32 data i32));
  UNITTEST_EXPECT_EQ 4953 s32 1 (holds ((-1) =? i32));;
  i64 ← EXPECT_EQ_OUT 4954 s32 CPLUS_SUCCESS (call (DataConv.cplus_data_get_as_int64 data i64));
  UNITTEST_EXPECT_EQ 4955 s32 1 (holds ((-1) =? i64));;
  u8 ← EXPECT_EQ_OUT 4956 s32 CPLUS_SUCCESS (call (DataConv.cplus_data_get_as_uint8 data u8));
  UNITTEST_EXPECT_EQ 4957 s32 1 (holds (255 =? u8));;
  u16 ← EXPECT_EQ_OUT 4958 s32 CPLUS_SUCCESS (call (DataConv.cplus_data_get_as_uint16 data u16));
  UNITTEST_EXPECT_EQ 4959 s32 1 (holds (65535 =? u16));;
  u32 ← EXPECT_EQ_OUT 4960 s32 CPLUS_SUCCESS (call (DataConv.cplus_data_get_as_uint32 data u32));
  UNITTEST_EXPECT_EQ 4961 s32 1 (holds (4294967295 =? u32));;
  u64 ← EXPECT_EQ_OUT 4962 s32 CPLUS_SUCCESS (call (DataConv.cplus_data_get_as_uint64 data u64));
  UNITTEST_EXPECT_EQ 4963 s32 1 (holds ((Prelude.u64 (-1)) =? u64));;
  f ← EXPECT_EQ_OUT 4964 s32 CPLUS_SUCCESS (call (DataConv.cplus_data_get_as_float data f));
  UNITTEST_EXPECT_EQ 4965 s32 1 (holds (equals binary32 (-1) f));;
  db ← EXPECT_EQ_OUT 4966 s32 CPLUS_SUCCESS (call (DataConv.cplus_data_get_as_double data db));
  UNITTEST_EXPECT_EQ 4967 s32 1 (holds (equals binary64 (-1) db));;
  str ← EXPECT_EQ_OUT 4968 s32 (strlen "-1") (cplus_data_get_as_string data len str);
  UNITTEST_EXPECT_EQ 4969 s32 1 (is_zero (strcmp_at str "-1"));;
  bufs ← EXPECT_EQ_OUT 4970 s32 1 (cplus_data_get_as_byte_array data bufs_len bufs);
  let test_value := <[0%nat := 0xff]> test_value in
  UNITTEST_EXPECT_EQ 4972 s32 1 (is_zero (memcmp bufs test_value 1));;
  UNITTEST_EXPECT_EQ 4973 s32 CPLUS_SUCCESS (call (Data.cplus_data_delete data));;
  UNITTEST_EXPECT_EQ 4974 s32 0 cplus_mgr_report;;
  mret tt.

Definition cplus_data_get_as_CPLUS_DATA_TYPE_INT16 : T :=
  let b := any in let f := any in let db := any in
  let str := replicate 64 any in let len := 64 in
  let i8 := any in let i16 := any in let i32 := any in let i64 := any in
  let u8 := any in let u16 := any in let u32 := any in let u64 := any in
  let bufs := replicate 32 0 in let test_value := replicate 32 0 in let bufs_len := 32 in
  data ← EXPECT_EQ_SET 4985 1 not_null (call (Data.cplus_data_new_int16 32767));
  UNITTEST_EXPECT_EQ 4986 Prelude.u32 2 (call (Data.cplus_data_get_data_size data));;
  UNITTEST_EXPECT_EQ 4987 s32 (Data.type_code Data.T_INT16) (call (Data.cplus_data_get_type data));;
  b ← EXPECT_EQ_OUT 4988 s32 CPLUS_SUCCESS (call (DataConv.cplus_data_get_as_bool data b));
  UNITTEST_EXPECT_EQ 4989 s32 1 (holds (1 =? b));;
  i8 ← EXPECT_EQ_OUT 4990 s32 CPLUS_SUCCESS (call (DataConv.cplus_data_get_as_int8 data i8));
  UNITTEST_EXPECT_EQ 4991 s32 1 (holds ((-1) =? i8));;
  i16 ← EXPECT_EQ_OUT 4992 s32 CPLUS_SUCCESS (call (DataConv.cplus_data_get_as_int16 data i16));
  UNITTEST_EXPECT_EQ 4993 s32 1 (holds (32767 =? i16));;
  i32 ← EXPECT_EQ_OUT 4994 s32 CPLUS_SUCCESS (call (DataConv.cplus_data_get_as_int32 data i32));
  UNITTEST_EXPECT_EQ 4995 s32 1 (holds (32767 =? i32));;
  i64 ← EXPECT_EQ_OUT 4996 s32 CPLUS_SUCCESS (call (DataConv.cplus_data_get_as_int64 data i64));
  UNITTEST_EXPECT_EQ 4997 s32 1 (holds (32767 =? i64));;
  u8 ← EXPECT_EQ_OUT 4998 s32 CPLUS_SUCCESS (call (DataConv.cplus_data_get_as_uint8 data u8));
  UNITTEST_EXPECT_EQ 4999 s32 1 (holds (255 =? u8));;
  u16 ← EXPECT_EQ_OUT 5000 s32 CPLUS_SUCCESS (call (DataConv.cplus_data_get_as_uint16 data u16));
  UNITTEST_EXPECT_EQ 5001 s32 1 (holds (32767 =? u16));;
  u32 ← EXPECT_EQ_OUT 5002 s32 CPLUS_SUCCESS (call (DataConv.cplus_data_get_as_uint32 data u32));
  UNITTEST_EXPECT_EQ 5003 s32 1 (holds (32767 =? u32));;
  u64 ← EXPECT_EQ_OUT 5004 s32 CPLUS_SUCCESS (call (DataConv.cplus_data_get_as_uint64 data u64));
  UNITTEST_EXPECT_EQ 5005 s32 1 (holds (32767 =? u64));;
  f ← EXPECT_EQ_OUT 5006 s32 CPLUS_SUCCESS (call (DataConv.cplus_data_get_as_float data f));
  UNITTEST_EXPECT_EQ 5007 s32 1 (holds (equals binary32 32767 f));;
  db ← EXPECT_EQ_OUT 5008 s32 CPLUS_SUCCESS (call (DataConv.cplus_data_get_as_double data db));
  UNITTEST_EXPECT_EQ 5009 s32 1 (holds (equals binary64 32767 db));;
  str ← EXPECT_EQ_OUT 5010 s32 (strlen "32767") (cplus_data_get_as_string data len str);
  UNITTEST_EXPECT_EQ 5011 s32 1 (is_zero (strcmp_at str "32767"));;
  bufs ← EXPECT_EQ_OUT 5012 s32 2 (cplus_data_get_as_byte_array data bufs_len bufs);
  let test_value := <[0%nat := 0xff]> test_value in
  let test_value := <[1%nat := 0x7f]> test_value in
  UNITTEST_EXPECT_EQ 5015 s32 1 (is_zero (memcmp bufs test_value 2));;
  UNITTEST_EXPECT_EQ 5016 s32 0 (call (Data.cplus_data_set_int16 data (-1)));;
  b ← EXPECT_EQ_OUT 5017 s32 CPLUS_SUCCESS (call (DataConv.cplus_data_get_as_bool data b));
  UNITTEST_EXPECT_EQ 5018 s32 1 (holds (1 =? b));;
  i8 ← EXPECT_EQ_OUT 5019 s32 CPLUS_SUCCESS (call (DataConv.cplus_data_get_as_int8 data i8));
  UNITTEST_EXPECT_EQ 5020 s32 1 (holds ((-1) =? i8));;
  i16 ← EXPECT_EQ_OUT 5021 s32 CPLUS_SUCCESS (call (DataConv.cplus_data_get_as_int16 data i16));
  UNITTEST_EXPECT_EQ 5022 s32 1 (holds ((-1) =? i16));;
  i32 ← EXPECT_EQ_OUT 5023 s32 CPLUS_SUCCESS (call (DataConv.cplus_data_get_as_int32 data i32));
  UNITTEST_EXPECT_EQ 5024 s32 1 (holds ((-1) =? i32));;
  i64 ← EXPECT_EQ_OUT 5025 s32 CPLUS_SUCCESS (call (DataConv.cplus_data_get_as_int64 data i64));
  UNITTEST_EXPECT_EQ 5026 s32 1 (holds ((-1) =? i64));;
  u8 ← EXPECT_EQ_OUT 5027 s32 CPLUS_SUCCESS (call (DataConv.cplus_data_get_as_uint8 data u8));
  UNITTEST_EXPECT_EQ 5028 s32 1 (holds (255 =? u8));;
  u16 ← EXPECT_EQ_OUT 5029 s32 CPLUS_SUCCESS (call (DataConv.cplus_data_get_as_uint16 data u16));
  UNITTEST_EXPECT_EQ 5030 s32 1 (holds (65535 =? u16));;
  u32 ← EXPECT_EQ_OUT 5031 s32 CPLUS_SUCCESS (call (DataConv.cplus_data_get_as_uint32 data u32));
  UNITTEST_EXPECT_EQ 5032 s32 1 (holds (4294967295 =? u32));;
  u64 ← EXPECT_EQ_OUT 5033 s32 CPLUS_SUCCESS (call (DataConv.cplus_data_get_as_uint64 data u64));
  UNITTEST_EXPECT_EQ 5034 s32 1 (holds ((Prelude.u64 (-1)) =? u64));;
  f ← EXPECT_EQ_OUT 5035 s32 CPLUS_SUCCESS (call (DataConv.cplus_data_get_as_float data f));
  UNITTEST_EXPECT_EQ 5036 s32 1 (holds (equals binary32 (-1) f));;
  db ← EXPECT_EQ_OUT 5037 s32 CPLUS_SUCCESS (call (DataConv.cplus_data_get_as_double data db));
  UNITTEST_EXPECT_EQ 5038 s32 1 (holds (equals binary64 (-1) db));;
  str ← EXPECT_EQ_OUT 5039 s32 (strlen "-1") (cplus_data_get_as_string data len str);
  UNITTEST_EXPECT_EQ 5040 s32 1 (is_zero (strcmp_at str "-1"));;
  bufs ← EXPECT_EQ_OUT 5041 s32 2 (cplus_data_get_as_byte_array data bufs_len bufs);
  let test_value := <[0%nat := 0xff]> test_value in
  let test_value := <[1%nat := 0xff]> test_value in
  UNITTEST_EXPECT_EQ 5044 s32 1 (is_zero (memcmp bufs test_value 2));;
  UNITTEST_EXPECT_EQ 5045 s32 CPLUS_SUCCESS (call (Data.cplus_data_delete data));;
  UNITTEST_EXPECT_EQ 5046 s32 0 cplus_mgr_report;;
  mret tt.

Definition cplus_data_get_as_CPLUS_DATA_TYPE_INT32 : T :=
  let b := any in let f := any in let db := any in
  let str := replicate 64 any in let len := 64 in
  let i8 := any in let i16 := any in let i32 := any in let i64 := any in
  let u8 := any in let u16 := any in let u32 := any in let u64 := any in
  let bufs := replicate 32 0 in let test_value := replicate 32 0 in let bufs_len := 32 in
  data ← EXPECT_EQ_SET 5057 1 not_null (call (Data.cplus_data_new_int32 2147483647));
  UNITTEST_EXPECT_EQ 5058 Prelude.u32 4 (call (Data.cplus_data_get_data_size data));;
  UNITTEST_EXPECT_EQ 5059 s32 (Data.type_code Data.T_INT32) (call (Data.cplus_data_get_type data));;
  b ← EXPECT_EQ_OUT 5060 s32 CPLUS_SUCCESS (call (DataConv.cplus_data_get_as_bool data b));
  UNITTEST_EXPECT_EQ 5061 s32 1 (holds (1 =? b));;
  i8 ← EXPECT_EQ_OUT 5062 s32 CPLUS_SUCCESS (call (DataConv.cplus_data_get_as_int8 data i8));
  UNITTEST_EXPECT_EQ 5063 s32 1 (holds ((-1) =? i8));;
  i16 ← EXPECT_EQ_OUT 5064 s32 CPLUS_SUCCESS (call (DataConv.cplus_data_get_as_int16 data i16));
  UNITTEST_EXPECT_EQ 5065 s32 1 (holds ((-1) =? i16));;
  i32 ← EXPECT_EQ_OUT 5066 s32 CPLUS_SUCCESS (call (DataConv.cplus_data_get_as_int32 data i32));
  UNITTEST_EXPECT_EQ 5067 s32 1 (holds (2147483647 =? i32));;
  i64 ← EXPECT_EQ_OUT 5068 s32 CPLUS_SUCCESS (call (DataConv.cplus_data_get_as_int64 data i64));
  UNITTEST_EXPECT_EQ 5069 s32 1 (holds (2147483647 =? i64));;
  u8 ← EXPECT_EQ_OUT 5070 s32 CPLUS_SUCCESS (call (DataConv.cplus_data_get_as_uint8 data u8));
  UNITTEST_EXPECT_EQ 5071 s32 1 (holds (255 =? u8));;
  u16 ← EXPECT_EQ_OUT 5072 s32 CPLUS_SUCCESS (call (DataConv.cplus_data_get_as_uint16 data u16));
  UNITTEST_EXPECT_EQ 5073 s32 1 (holds (65535 =? u16));;
  u32 ← EXPECT_EQ_OUT 5074 s32 CPLUS_SUCCESS (call (DataConv.cplus_data_get_as_uint32 data u32));
  UNITTEST_EXPECT_EQ 5075 s32 1 (holds (2147483647 =? u32));;
  u64 ← EXPECT_EQ_OUT 5076 s32 CPLUS_SUCCESS (call (DataConv.cplus_data_get_as_uint64 data u64));
  UNITTEST_EXPECT_EQ 5077 s32 1 (holds (2147483647 =? u64));;
  f ← EXPECT_EQ_OUT 5078 s32 CPLUS_SUCCESS (call (DataConv.cplus_data_get_as_float data f));
  UNITTEST_EXPECT_EQ 5079 s32 1 (holds (equals binary32 2147483647 f));;
  db ← EXPECT_EQ_OUT 5080 s32 CPLUS_SUCCESS (call (DataConv.cplus_data_get_as_double data db));
  UNITTEST_EXPECT_EQ 5081 s32 1 (holds (equals binary64 2147483647 db));;
  str ← EXPECT_EQ_OUT 5082 s32 (strlen "2147483647") (cplus_data_get_as_string data len str);
  UNITTEST_EXPECT_EQ 5083 s32 1 (is_zero (strcmp_at str "2147483647"));;
  bufs ← EXPECT_EQ_OUT 5084 s32 4 (cplus_data_get_as_byte_array data bufs_len bufs);
  let test_value := <[0%nat := 0xff]> test_value in
  let test_value := <[1%nat := 0xff]> test_value in
  let test_value := <[2%nat := 0xff]> test_value in
  let test_value := <[3%nat := 0x7f]> test_value in
  UNITTEST_EXPECT_EQ 5089 s32 1 (is_zero (memcmp bufs test_value 4));;
  UNITTEST_EXPECT_EQ 5090 s32 0 (call (Data.cplus_data_set_int32 data (-1)));;
  b ← EXPECT_EQ_OUT 5091 s32 CPLUS_SUCCESS (call (DataConv.cplus_data_get_as_bool data b));
  UNITTEST_EXPECT_EQ 5092 s32 1 (holds (1 =? b));;
  i8 ← EXPECT_EQ_OUT 5093 s32 CPLUS_SUCCESS (call (DataConv.cplus_data_get_as_int8 data i8));
  UNITTEST_EXPECT_EQ 5094 s32 1 (holds ((-1) =? i8));;
  i16 ← EXPECT_EQ_OUT 5095 s32 CPLUS_SUCCESS (call (DataConv.cplus_data_get_as_int16 data i16));
  UNITTEST_EXPECT_EQ 5096 s32 1 (holds ((-1) =? i16));;
  i32 ← EXPECT_EQ_OUT 5097 s32 CPLUS_SUCCESS (call (DataConv.cplus_data_get_as_int32 data i32));
  UNITTEST_EXPECT_EQ 5098 s32 1 (holds ((-1) =? i32));;
  i64 ← EXPECT_EQ_OUT 5099 s32 CPLUS_SUCCESS (call (DataConv.cplus_data_get_as_int64 data i64));
  UNITTEST_EXPECT_EQ 5100 s32 1 (holds ((-1) =? i64));;
  u8 ← EXPECT_EQ_OUT 5101 s32 CPLUS_SUCCESS (call (DataConv.cplus_data_get_as_uint8 data u8));
  UNITTEST_EXPECT_EQ 5102 s32 1 (holds (255 =? u8));;
  u16 ← EXPECT_EQ_OUT 5103 s32 CPLUS_SUCCESS (call (DataConv.cplus_data_get_as_uint16 data u16));
  UNITTEST_EXPECT_EQ 5104 s32 1 (holds (65535 =? u16));;
  u32 ← EXPECT_EQ_OUT 5105 s32 CPLUS_SUCCESS (call (DataConv.cplus_data_get_as_uint32 data u32));
  UNITTEST_EXPECT_EQ 5106 s32 1 (holds (4294967295 =? u32));;
  u64 ← EXPECT_EQ_OUT 5107 s32 CPLUS_SUCCESS (call (DataConv.cplus_data_get_as_uint64 data u64));
  UNITTEST_EXPECT_EQ 5108 s32 1 (holds ((Prelude.u64 (-1)) =? u64));;
  f ← EXPECT_EQ_OUT 5109 s32 CPLUS_SUCCESS (call (DataConv.cplus_data_get_as_float data f));
  UNITTEST_EXPECT_EQ 5110 s32 1 (holds (equals binary32 (-1) f));;
  db ← EXPECT_EQ_OUT 5111 s32 CPLUS_SUCCESS (call (DataConv.cplus_data_get_as_double data db));
  UNITTEST_EXPECT_EQ 5112 s32 1 (holds (equals binary64 (-1) db));;
  str ← EXPECT_EQ_OUT 5113 s32 (strlen "-1") (cplus_data_get_as_string data len str);
  UNITTEST_EXPECT_EQ 5114 s32 1 (is_zero (strcmp_at str "-1"));;
  bufs ← EXPECT_EQ_OUT 5115 s32 4 (cplus_data_get_as_byte_array data bufs_len bufs);
  let test_value := <[0%nat := 0xff]> test_value in
  let test_value := <[1%nat := 0xff]> test_value in
  let test_value := <[2%nat := 0xff]> test_value in
  let test_value := <[3%nat := 0xff]> test_value in
  UNITTEST_EXPECT_EQ 5120 s32 1 (is_zero (memcmp bufs test_value 4));;
  UNITTEST_EXPECT_EQ 5121 s32 CPLUS_SUCCESS (call (Data.cplus_data_delete data));;
  UNITTEST_EXPECT_EQ 5122 s32 0 cplus_mgr_report;;
  mret tt.

Definition cplus_data_get_as_CPLUS_DATA_TYPE_INT64 : T :=
  let b := any in let f := any in let db := any in
  let str := replicate 64 any in let len := 64 in
  let i8 := any in let i16 := any in let i32 := any in let i64 := any in
  let u8 := any in let u16 := any in let u32 := any in let u64 := any in
  let bufs := replicate 32 0 in let test_value := replicate 32 0 in let bufs_len := 32 in
  data ← EXPECT_EQ_SET 5133 1 not_null (call (Data.cplus_data_new_int64 0x7fffffffffffffff));
  UNITTEST_EXPECT_EQ 5134 Prelude.u32 8 (call (Data.cplus_data_get_data_size data));;
  UNITTEST_EXPECT_EQ 5135 s32 (Data.type_code Data.T_INT64) (call (Data.cplus_data_get_type data));;
  b ← EXPECT_EQ_OUT 5136 s32 CPLUS_SUCCESS (call (DataConv.cplus_data_get_as_bool data b));
  UNITTEST_EXPECT_EQ 5137 s32 1 (holds (1 =? b));;
  i8 ← EXPECT_EQ_OUT 5138 s32 CPLUS_SUCCESS (call (DataConv.cplus_data_get_as_int8 data i8));
  UNITTEST_EXPECT_EQ 5139 s32 1 (holds ((-1) =? i8));;
  i16 ← EXPECT_EQ_OUT 5140 s32 CPLUS_SUCCESS (call (DataConv.cplus_data_get_as_int16 data i16));
  UNITTEST_EXPECT_EQ 5141 s32 1 (holds ((-1) =? i16));;
  i32 ← EXPECT_EQ_OUT 5142 s32 CPLUS_SUCCESS (call (DataConv.cplus_data_get_as_int32 data i32));
  UNITTEST_EXPECT_EQ 5143 s32 1 (holds ((-1) =? i32));;
  i64 ← EXPECT_EQ_OUT 5144 s32 CPLUS_SUCCESS (call (DataConv.cplus_data_get_as_int64 data i64));
  UNITTEST_EXPECT_EQ 5145 s32 1 (holds (9223372036854775807 =? i64));;
  u8 ← EXPECT_EQ_OUT 5146 s32 CPLUS_SUCCESS (call (DataConv.cplus_data_get_as_uint8 data u8));
  UNITTEST_EXPECT_EQ 5147 s32 1 (holds (255 =? u8));;
  u16 ← EXPECT_EQ_OUT 5148 s32 CPLUS_SUCCESS (call (DataConv.cplus_data_get_as_uint16 data u16));
  UNITTEST_EXPECT_EQ 5149 s32 1 (holds (65535 =? u16));;
  u32 ← EXPECT_EQ_OUT 5150 s32 CPLUS_SUCCESS (call (DataConv.cplus_data_get_as_uint32 data u32));
  UNITTEST_EXPECT_EQ 5151 s32 1 (holds (4294967295 =? u32));;
  u64 ← EXPECT_EQ_OUT 5152 s32 CPLUS_SUCCESS (call (DataConv.cplus_data_get_as_uint64 data u64));
  UNITTEST_EXPECT_EQ 5153 s32 1 (holds (9223372036854775807 =? u64));;
  f ← EXPECT_EQ_OUT 5154 s32 CPLUS_SUCCESS (call (DataConv.cplus_data_get_as_float data f));
  UNITTEST_EXPECT_EQ 5155 s32 1 (holds (equals binary32 9223372036854775807 f));;
  db ← EXPECT_EQ_OUT 5156 s32 CPLUS_SUCCESS (call (DataConv.cplus_data_get_as_double data db));
  UNITTEST_EXPECT_EQ 5157 s32 1 (holds (equals binary64 9223372036854775807 db));;
  str ← EXPECT_EQ_OUT 5158 s32 (strlen "9223372036854775807") (cplus_data_get_as_string data len str);
  UNITTEST_EXPECT_EQ 5159 s32 1 (is_zero (strcmp_at str "9223372036854775807"));;
  bufs ← EXPECT_EQ_OUT 5160 s32 8 (cplus_data_get_as_byte_array data bufs_len bufs);
  let test_value := <[0%nat := 0xff]> test_value in
  let test_value := <[1%nat := 0xff]> test_value in
  let test_value := <[2%nat := 0xff]> test_value in
  let test_value := <[3%nat := 0xff]> test_value in
  let test_value := <[4%nat := 0xff]> test_value in
  let test_value := <[5%nat := 0xff]> test_value in
  let test_value := <[6%nat := 0xff]> test_value in
  let test_value := <[7%nat := 0x7f]> test_value in
  UNITTEST_EXPECT_EQ 5169 s32 1 (is_zero (memcmp bufs test_value 8));;
  UNITTEST_EXPECT_EQ 5170 s32 0 (call (Data.cplus_data_set_int64 data (-1)));;
  b ← EXPECT_EQ_OUT 5171 s32 CPLUS_SUCCESS (call (DataConv.cplus_data_get_as_bool data b));
  UNITTEST_EXPECT_EQ 5172 s32 1 (holds (1 =? b));;
  i8 ← EXPECT_EQ_OUT 5173 s32 CPLUS_SUCCESS (call (DataConv.cplus_data_get_as_int8 data i8));
  UNITTEST_EXPECT_EQ 5174 s32 1 (holds ((-1) =? i8));;
  i16 ← EXPECT_EQ_OUT 5175 s32 CPLUS_SUCCESS (call (DataConv.cplus_data_get_as_int16 data i16));
  UNITTEST_EXPECT_EQ 5176 s32 1 (holds ((-1) =? i16));;
  i32 ← EXPECT_EQ_OUT 5177 s32 CPLUS_SUCCESS (call (DataConv.cplus_data_get_as_int32 data i32));
  UNITTEST_EXPECT_EQ 5178 s32 1 (holds ((-1) =? i32));;
  i64 ← EXPECT_EQ_OUT 5179 s32 CPLUS_SUCCESS (call (DataConv.cplus_data_get_as_int64 data i64));
  UNITTEST_EXPECT_EQ 5180 s32 1 (holds ((-1) =? i64));;
  u8 ← EXPECT_EQ_OUT 5181 s32 CPLUS_SUCCESS (call (DataConv.cplus_data_get_as_uint8 data u8));
  UNITTEST_EXPECT_EQ 5182 s32 1 (holds (255 =? u8));;
  u16 ← EXPECT_EQ_OUT 5183 s32 CPLUS_SUCCESS (call (DataConv.cplus_data_get_as_uint16 data u16));
  UNITTEST_EXPECT_EQ 5184 s32 1 (holds (65535 =? u16));;
  u32 ← EXPECT_EQ_OUT 5185 s32 CPLUS_SUCCESS (call (DataConv.cplus_data_get_as_uint32 data u32));
  UNITTEST_EXPECT_EQ 5186 s32 1 (holds (4294967295 =? u32));;
  u64 ← EXPECT_EQ_OUT 5187 s32 CPLUS_SUCCESS (call (DataConv.cplus_data_get_as_uint64 data u64));
  UNITTEST_EXPECT_EQ 5188 s32 1 (holds ((Prelude.u64 (-1)) =? u64));;
  f ← EXPECT_EQ_OUT 5189 s32 CPLUS_SUCCESS (call (DataConv.cplus_data_get_as_float data f));
  UNITTEST_EXPECT_EQ 5190 s32 1 (holds (equals binary32 (-1) f));;
  db ← EXPECT_EQ_OUT 5191 s32 CPLUS_SUCCESS (call (DataConv.cplus_data_get_as_double data db));
  UNITTEST_EXPECT_EQ 5192 s32 1 (holds (equals binary64 (-1) db));;
  str ← EXPECT_EQ_OUT 5193 s32 (strlen "-1") (cplus_data_get_as_string data len str);
  UNITTEST_EXPECT_EQ 5194 s32 1 (is_zero (strcmp_at str "-1"));;
  bufs ← EXPECT_EQ_OUT 5195 s32 8 (cplus_data_get_as_byte_array data bufs_len bufs);
  let test_value := <[0%nat := 0xff]> test_value in
  let test_value := <[1%nat := 0xff]> test_value in
  let test_value := <[2%nat := 0xff]> test_value in
  let test_value := <[3%nat := 0xff]> test_value in
  let test_value := <[4%nat := 0xff]> test_value in
  let test_value := <[5%nat := 0xff]> test_value in
  let test_value := <[6%nat := 0xff]> test_value in
  let test_value := <[7%nat := 0xff]> test_value in
  UNITTEST_EXPECT_EQ 5204 s32 1 (is_zero (memcmp bufs test_value 8));;
  UNITTEST_EXPECT_EQ 5205 s32 CPLUS_SUCCESS (call (Data.cplus_data_delete data));;
  UNITTEST_EXPECT_EQ 5206 s32 0 cplus_mgr_report;;
  mret tt.

Definition cplus_data_get_as_CPLUS_DATA_TYPE_UINT8 : T :=
  let b := any in let f := any in let db := any in
  let str := replicate 64 any in let len := 64 in
  let i8 := any in let i16 := any in let i32 := any in let i64 := any in
  let u8 := any in let u16 := any in let u32 := any in let u64 := any in
  let bufs := replicate 32 0 in let test_value := replicate 32 0 in let bufs_len := 32 in
  data ← EXPECT_EQ_SET 5217 1 not_null (call (Data.cplus_data_new_uint8 127));
  UNITTEST_EXPECT_EQ 5218 Prelude.u32 1 (call (Data.cplus_data_get_data_size data));;
  UNITTEST_EXPECT_EQ 5219 s32 (Data.type_code Data.T_UINT8) (call (Data.cplus_data_get_type data));;
  b ← EXPECT_EQ_OUT 5220 s32 CPLUS_SUCCESS (call (DataConv.cplus_data_get_as_bool data b));
  UNITTEST_EXPECT_EQ 5221 s32 1 (holds (1 =? b));;
  i8 ← EXPECT_EQ_OUT 5222 s32 CPLUS_SUCCESS (call (DataConv.cplus_data_get_as_int8 data i8));
  UNITTEST_EXPECT_EQ 5223 s32 1 (holds (127 =? i8));;
  i16 ← EXPECT_EQ_OUT 5224 s32 CPLUS_SUCCESS (call (DataConv.cplus_data_get_as_int16 data i16));
  UNITTEST_EXPECT_EQ 5225 s32 1 (holds (127 =? i16));;
  i32 ← EXPECT_EQ_OUT 5226 s32 CPLUS_SUCCESS (call (DataConv.cplus_data_get_as_int32 data i32));
  UNITTEST_EXPECT_EQ 5227 s32 1 (holds (127 =? i32));;
  i64 ← EXPECT_EQ_OUT 5228 s32 CPLUS_SUCCESS (call (DataConv.cplus_data_get_as_int64 data i64));
  UNITTEST_EXPECT_EQ 5229 s32 1 (holds (127 =? i64));;
  u8 ← EXPECT_EQ_OUT 5230 s32 CPLUS_SUCCESS (call (DataConv.cplus_data_get_as_uint8 data u8));
  UNITTEST_EXPECT_EQ 5231 s32 1 (holds (127 =? u8));;
  u16 ← EXPECT_EQ_OUT 5232 s32 CPLUS_SUCCESS (call (DataConv.cplus_data_get_as_uint16 data u16));
  UNITTEST_EXPECT_EQ 5233 s32 1 (holds (127 =? u16));;
  u32 ← EXPECT_EQ_OUT 5234 s32 CPLUS_SUCCESS (call (DataConv.cplus_data_get_as_uint32 data u32));
  UNITTEST_EXPECT_EQ 5235 s32 1 (holds (127 =? u32));;
  u64 ← EXPECT_EQ_OUT 5236 s32 CPLUS_SUCCESS (call (DataConv.cplus_data_get_as_uint64 data u64));
  UNITTEST_EXPECT_EQ 5237 s32 1 (holds (127 =? u64));;
  f ← EXPECT_EQ_OUT 5238 s32 CPLUS_SUCCESS (call (DataConv.cplus_data_get_as_float data f));
  UNITTEST_EXPECT_EQ 5239 s32 1 (holds (equals binary32 127 f));;
  db ← EXPECT_EQ_OUT 5240 s32 CPLUS_SUCCESS (call (DataConv.cplus_data_get_as_double data db));
  UNITTEST_EXPECT_EQ 5241 s32 1 (holds (equals binary64 127 db));;
  str ← EXPECT_EQ_OUT 5242 s32 (strlen "127") (cplus_data_get_as_string data len str);
  UNITTEST_EXPECT_EQ 5243 s32 1 (is_zero (strcmp_at str "127"));;
  bufs ← EXPECT_EQ_OUT 5244 s32 1 (cplus_data_get_as_byte_array data bufs_len bufs);
  let test_value := <[0%nat := 0x7f]> test_value in
  UNITTEST_EXPECT_EQ 5246 s32 1 (is_zero (memcmp bufs test_value 1));;
  UNITTEST_EXPECT_EQ 5247 s32 0 (call (Data.cplus_data_set_uint8 data 255));;
  b ← EXPECT_EQ_OUT 5248 s32 CPLUS_SUCCESS (call (DataConv.cplus_data_get_as_bool data b));
  UNITTEST_EXPECT_EQ 5249 s32 1 (holds (1 =? b));;
  i8 ← EXPECT_EQ_OUT 5250 s32 CPLUS_SUCCESS (call (DataConv.cplus_data_get_as_int8 data i8));
  UNITTEST_EXPECT_EQ 5251 s32 1 (holds ((-1) =? i8));;
  i16 ← EXPECT_EQ_OUT 5252 s32 CPLUS_SUCCESS (call (DataConv.cplus_data_get_as_int16 data i16));
  UNITTEST_EXPECT_EQ 5253 s32 1 (holds (255 =? i16));;
  i32 ← EXPECT_EQ_OUT 5254 s32 CPLUS_SUCCESS (call (DataConv.cplus_data_get_as_int32 data i32));
  UNITTEST_EXPECT_EQ 5255 s32 1 (holds (255 =? i32));;
  i64 ← EXPECT_EQ_OUT 5256 s32 CPLUS_SUCCESS (call (DataConv.cplus_data_get_as_int64 data i64));
  UNITTEST_EXPECT_EQ 5257 s32 1 (holds (255 =? i64));;
  u8 ← EXPECT_EQ_OUT 5258 s32 CPLUS_SUCCESS (call (DataConv.cplus_data_get_as_uint8 data u8));
  UNITTEST_EXPECT_EQ 5259 s32 1 (holds (255 =? u8));;
  u16 ← EXPECT_EQ_OUT 5260 s32 CPLUS_SUCCESS (call (DataConv.cplus_data_get_as_uint16 data u16));
  UNITTEST_EXPECT_EQ 5261 s32 1 (holds (255 =? u16));;
  u32 ← EXPECT_EQ_OUT 5262 s32 CPLUS_SUCCESS (call (DataConv.cplus_data_get_as_uint32 data u32));
  UNITTEST_EXPECT_EQ 5263 s32 1 (holds (255 =? u32));;
  u64 ← EXPECT_EQ_OUT 5264 s32 CPLUS_SUCCESS (call (DataConv.cplus_data_get_as_uint64 data u64));
  UNITTEST_EXPECT_EQ 5265 s32 1 (holds (255 =? u64));;
  f ← EXPECT_EQ_OUT 5266 s32 CPLUS_SUCCESS (call (DataConv.cplus_data_get_as_float data f));
  UNITTEST_EXPECT_EQ 5267 s32 1 (holds (equals binary32 255 f));;
  db ← EXPECT_EQ_OUT 5268 s32 CPLUS_SUCCESS (call (DataConv.cplus_data_get_as_double data db));
  UNITTEST_EXPECT_EQ 5269 s32 1 (holds (equals binary64 255 db));;
  str ← EXPECT_EQ_OUT 5270 s32 (strlen "255") (cplus_data_get_as_string data len str);
  UNITTEST_EXPECT_EQ 5271 s32 1 (is_zero (strcmp_at str "255"));;
  bufs ← EXPECT_EQ_OUT 5272 s32 1 (cplus_data_get_as_byte_array data bufs_len bufs);
  let test_value := <[0%nat := 0xff]> test_value in
  UNITTEST_EXPECT_EQ 5274 s32 1 (is_zero (memcmp bufs test_value 1));;
  UNITTEST_EXPECT_EQ 5275 s32 CPLUS_SUCCESS (call (Data.cplus_data_delete data));;
  UNITTEST_EXPECT_EQ 5276 s32 0 cplus_mgr_report;;
  mret tt.

Definition cplus_data_get_as_CPLUS_DATA_TYPE_UINT16 : T :=
  let b := any in let f := any in let db := any in
  let str := replicate 64 any in let len := 64 in
  let i8 := any in let i16 := any in let i32 := any in let i64 := any in
  let u8 := any in let u16 := any in let u32 := any in let u64 := any in
  let bufs := replicate 32 0 in let test_value := replicate 32 0 in let bufs_len := 32 in
  data ← EXPECT_EQ_SET 5287 1 not_null (call (Data.cplus_data_new_uint16 32767));
  UNITTEST_EXPECT_EQ 5288 Prelude.u32 2 (call (Data.cplus_data_get_data_size data));;
  UNITTEST_EXPECT_EQ 5289 s32 (Data.type_code Data.T_UINT16) (call (Data.cplus_data_get_type data));;
  b ← EXPECT_EQ_OUT 5290 s32 CPLUS_SUCCESS (call (DataConv.cplus_data_get_as_bool data b));
  UNITTEST_EXPECT_EQ 5291 s32 1 (holds (1 =? b));;
  i8 ← EXPECT_EQ_OUT 5292 s32 CPLUS_SUCCESS (call (DataConv.cplus_data_get_as_int8 data i8));
  UNITTEST_EXPECT_EQ 5293 s32 1 (holds ((-1) =? i8));;
  i16 ← EXPECT_EQ_OUT 5294 s32 CPLUS_SUCCESS (call (DataConv.cplus_data_get_as_int16 data i16));
  UNITTEST_EXPECT_EQ 5295 s32 1 (holds (32767 =? i16));;
  i32 ← EXPECT_EQ_OUT 5296 s32 CPLUS_SUCCESS (call (DataConv.cplus_data_get_as_int32 data i32));
  UNITTEST_EXPECT_EQ 5297 s32 1 (holds (32767 =? i32));;
  i64 ← EXPECT_EQ_OUT 5298 s32 CPLUS_SUCCESS (call (DataConv.cplus_data_get_as_int64 data i64));
  UNITTEST_EXPECT_EQ 5299 s32 1 (holds (32767 =? i64));;
  u8 ← EXPECT_EQ_OUT 5300 s32 CPLUS_SUCCESS (call (DataConv.cplus_data_get_as_uint8 data u8));
  UNITTEST_EXPECT_EQ 5301 s32 1 (holds (255 =? u8));;
  u16 ← EXPECT_EQ_OUT 5302 s32 CPLUS_SUCCESS (call (DataConv.cplus_data_get_as_uint16 data u16));
  UNITTEST_EXPECT_EQ 5303 s32 1 (holds (32767 =? u16));;
  u32 ← EXPECT_EQ_OUT 5304 s32 CPLUS_SUCCESS (call (DataConv.cplus_data_get_as_uint32 data u32));
  UNITTEST_EXPECT_EQ 5305 s32 1 (holds (32767 =? u32));;
  u64 ← EXPECT_EQ_OUT 5306 s32 CPLUS_SUCCESS (call (DataConv.cplus_data_get_as_uint64 data u64));
  UNITTEST_EXPECT_EQ 5307 s32 1 (holds (32767 =? u64));;
  f ← EXPECT_EQ_OUT 5308 s32 CPLUS_SUCCESS (call (DataConv.cplus_data_get_as_float data f));
  UNITTEST_EXPECT_EQ 5309 s32 1 (holds (equals binary32 32767 f));;
  db ← EXPECT_EQ_OUT 5310 s32 CPLUS_SUCCESS (call (DataConv.cplus_data_get_as_double data db));
  UNITTEST_EXPECT_EQ 5311 s32 1 (holds (equals binary64 32767 db));;
  str ← EXPECT_EQ_OUT 5312 s32 (strlen "32767") (cplus_data_get_as_string data len str);
  UNITTEST_EXPECT_EQ 5313 s32 1 (is_zero (strcmp_at str "32767"));;
  bufs ← EXPECT_EQ_OUT 5314 s32 2 (cplus_data_get_as_byte_array data bufs_len bufs);
  let test_value := <[0%nat := 0xff]> test_value in
  let test_value := <[1%nat := 0x7f]> test_value in
  UNITTEST_EXPECT_EQ 5317 s32 1 (is_zero (memcmp bufs test_value 2));;
  UNITTEST_EXPECT_EQ 5318 s32 0 (call (Data.cplus_data_set_uint16 data 65535));;
  b ← EXPECT_EQ_OUT 5319 s32 CPLUS_SUCCESS (call (DataConv.cplus_data_get_as_bool data b));
  UNITTEST_EXPECT_EQ 5320 s32 1 (holds (1 =? b));;
  i8 ← EXPECT_EQ_OUT 5321 s32 CPLUS_SUCCESS (call (DataConv.cplus_data_get_as_int8 data i8));
  UNITTEST_EXPECT_EQ 5322 s32 1 (holds ((-1) =? i8));;
  i16 ← EXPECT_EQ_OUT 5323 s32 CPLUS_SUCCESS (call (DataConv.cplus_data_get_as_int16 data i16));
  UNITTEST_EXPECT_EQ 5324 s32 1 (holds ((-1) =? i16));;
  i32 ← EXPECT_EQ_OUT 5325 s32 CPLUS_SUCCESS (call (DataConv.cplus_data_get_as_int32 data i32));
  UNITTEST_EXPECT_EQ 5326 s32 1 (holds (65535 =? i32));;
  i64 ← EXPECT_EQ_OUT 5327 s32 CPLUS_SUCCESS (call (DataConv.cplus_data_get_as_int64 data i64));
  UNITTEST_EXPECT_EQ 5328 s32 1 (holds (65535 =? i64));;
  u8 ← EXPECT_EQ_OUT 5329 s32 CPLUS_SUCCESS (call (DataConv.cplus_data_get_as_uint8 data u8));
  UNITTEST_EXPECT_EQ 5330 s32 1 (holds (255 =? u8));;
  u16 ← EXPECT_EQ_OUT 5331 s32 CPLUS_SUCCESS (call (DataConv.cplus_data_get_as_uint16 data u16));
  UNITTEST_EXPECT_EQ 5332 s32 1 (holds (65535 =? u16));;
  u32 ← EXPECT_EQ_OUT 5333 s32 CPLUS_SUCCESS (call (DataConv.cplus_data_get_as_uint32 data u32));
  UNITTEST_EXPECT_EQ 5334 s32 1 (holds (65535 =? u32));;
  u64 ← EXPECT_EQ_OUT 5335 s32 CPLUS_SUCCESS (call (DataConv.cplus_data_get_as_uint64 data u64));
  UNITTEST_EXPECT_EQ 5336 s32 1 (holds (65535 =? u64));;
  f ← EXPECT_EQ_OUT 5337 s32 CPLUS_SUCCESS (call (DataConv.cplus_data_get_as_float data f));
  UNITTEST_EXPECT_EQ 5338 s32 1 (holds (equals binary32 65535 f));;
  db ← EXPECT_EQ_OUT 5339 s32 CPLUS_SUCCESS (call (DataConv.cplus_data_get_as_double data db));
  UNITTEST_EXPECT_EQ 5340 s32 1 (holds (equals binary64 65535 db));;
  str ← EXPECT_EQ_OUT 5341 s32 (strlen "65535") (cplus_data_get_as_string data len str);
  UNITTEST_EXPECT_EQ 5342 s32 1 (is_zero (strcmp_at str "65535"));;
  bufs ← EXPECT_EQ_OUT 5343 s32 2 (cplus_data_get_as_byte_array data bufs_len bufs);
  let test_value := <[0%nat := 0xff]> test_value in
  let test_value := <[1%nat := 0xff]> test_value in
  UNITTEST_EXPECT_EQ 5346 s32 1 (is_zero (memcmp bufs test_value 2));;
  UNITTEST_EXPECT_EQ 5347 s32 CPLUS_SUCCESS (call (Data.cplus_data_delete data));;
  UNITTEST_EXPECT_EQ 5348 s32 0 cplus_mgr_report;;
  mret tt.

Definition cplus_data_get_as_CPLUS_DATA_TYPE_UINT32 : T :=
  let b := any in let f := any in let db := any in
  let str := replicate 64 any in let len := 64 in
  let i8 := any in let i16 := any in let i32 := any in let i64 := any in
  let u8 := any in let u16 := any in let u32 := any in let u64 := any in
  let bufs := replicate 32 0 in let test_value := replicate 32 0 in let bufs_len := 32 in
  data ← EXPECT_EQ_SET 5359 1 not_null (call (Data.cplus_data_new_uint32 2147483647));
  UNITTEST_EXPECT_EQ 5360 Prelude.u32 4 (call (Data.cplus_data_get_data_size data));;
  UNITTEST_EXPECT_EQ 5361 s32 (Data.type_code Data.T_UINT32) (call (Data.cplus_data_get_type data));;
  b ← EXPECT_EQ_OUT 5362 s32 CPLUS_SUCCESS (call (DataConv.cplus_data_get_as_bool data b));
  UNITTEST_EXPECT_EQ 5363 s32 1 (holds (1 =? b));;
  i8 ← EXPECT_EQ_OUT 5364 s32 CPLUS_SUCCESS (call (DataConv.cplus_data_get_as_int8 data i8));
  UNITTEST_EXPECT_EQ 5365 s32 1 (holds ((-1) =? i8));;
  i16 ← EXPECT_EQ_OUT 5366 s32 CPLUS_SUCCESS (call (DataConv.cplus_data_get_as_int16 data i16));
  UNITTEST_EXPECT_EQ 5367 s32 1 (holds ((-1) =? i16));;
  i32 ← EXPECT_EQ_OUT 5368 s32 CPLUS_SUCCESS (call (DataConv.cplus_data_get_as_int32 data i32));
  UNITTEST_EXPECT_EQ 5369 s32 1 (holds (2147483647 =? i32));;
  i64 ← EXPECT_EQ_OUT 5370 s32 CPLUS_SUCCESS (call (DataConv.cplus_data_get_as_int64 data i64));
  UNITTEST_EXPECT_EQ 5371 s32 1 (holds (2147483647 =? i64));;
  u8 ← EXPECT_EQ_OUT 5372 s32 CPLUS_SUCCESS (call (DataConv.cplus_data_get_as_uint8 data u8));
  UNITTEST_EXPECT_EQ 5373 s32 1 (holds (255 =? u8));;
  u16 ← EXPECT_EQ_OUT 5374 s32 CPLUS_SUCCESS (call (DataConv.cplus_data_get_as_uint16 data u16));
  UNITTEST_EXPECT_EQ 5375 s32 1 (holds (65535 =? u16));;
  u32 ← EXPECT_EQ_OUT 5376 s32 CPLUS_SUCCESS (call (DataConv.cplus_data_get_as_uint32 data u32));
  UNITTEST_EXPECT_EQ 5377 s32 1 (holds (2147483647 =? u32));;
  u64 ← EXPECT_EQ_OUT 5378 s32 CPLUS_SUCCESS (call (DataConv.cplus_data_get_as_uint64 data u64));
  UNITTEST_EXPECT_EQ 5379 s32 1 (holds (2147483647 =? u64));;
  f ← EXPECT_EQ_OUT 5380 s32 CPLUS_SUCCESS (call (DataConv.cplus_data_get_as_float data f));
  UNITTEST_EXPECT_EQ 5381 s32 1 (holds (equals binary32 2147483647 f));;
  db ← EXPECT_EQ_OUT 5382 s32 CPLUS_SUCCESS (call (DataConv.cplus_data_get_as_double data db));
  UNITTEST_EXPECT_EQ 5383 s32 1 (holds (equals binary64 2147483647 db));;
  str ← EXPECT_EQ_OUT 5384 s32 (strlen "2147483647") (cplus_data_get_as_string data len str);
  UNITTEST_EXPECT_EQ 5385 s32 1 (is_zero (strcmp_at str "2147483647"));;
  bufs ← EXPECT_EQ_OUT 5386 s32 4 (cplus_data_get_as_byte_array data bufs_len bufs);
  let test_value := <[0%nat := 0xff]> test_value in
  let test_value := <[1%nat := 0xff]> test_value in
  let test_value := <[2%nat := 0xff]> test_value in
  let test_value := <[3%nat := 0x7f]> test_value in
  UNITTEST_EXPECT_EQ 5391 s32 1 (is_zero (memcmp bufs test_value 4));;
  UNITTEST_EXPECT_EQ 5392 s32 0 (call (Data.cplus_data_set_uint32 data 4294967295));;
  b ← EXPECT_EQ_OUT 5393 s32 CPLUS_SUCCESS (call (DataConv.cplus_data_get_as_bool data b));
  UNITTEST_EXPECT_EQ 5394 s32 1 (holds (1 =? b));;
  i8 ← EXPECT_EQ_OUT 5395 s32 CPLUS_SUCCESS (call (DataConv.cplus_data_get_as_int8 data i8));
  UNITTEST_EXPECT_EQ 5396 s32 1 (holds ((-1) =? i8));;
  i16 ← EXPECT_EQ_OUT 5397 s32 CPLUS_SUCCESS (call (DataConv.cplus_data_get_as_int16 data i16));
  UNITTEST_EXPECT_EQ 5398 s32 1 (holds ((-1) =? i16));;
  i32 ← EXPECT_EQ_OUT 5399 s32 CPLUS_SUCCESS (call (DataConv.cplus_data_get_as_int32 data i32));
  UNITTEST_EXPECT_EQ 5400 s32 1 (holds ((-1) =? i32));;
  i64 ← EXPECT_EQ_OUT 5401 s32 CPLUS_SUCCESS (call (DataConv.cplus_data_get_as_int64 data i64));
  UNITTEST_EXPECT_EQ 5402 s32 1 (holds (4294967295 =? i64));;
  u8 ← EXPECT_EQ_OUT 5403 s32 CPLUS_SUCCESS (call (DataConv.cplus_data_get_as_uint8 data u8));
  UNITTEST_EXPECT_EQ 5404 s32 1 (holds (255 =? u8));;
  u16 ← EXPECT_EQ_OUT 5405 s32 CPLUS_SUCCESS (call (DataConv.cplus_data_get_as_uint16 data u16));
  UNITTEST_EXPECT_EQ 5406 s32 1 (holds (65535 =? u16));;
  u32 ← EXPECT_EQ_OUT 5407 s32 CPLUS_SUCCESS (call (DataConv.cplus_data_get_as_uint32 data u32));
  UNITTEST_EXPECT_EQ 5408 s32 1 (holds (4294967295 =? u32));;
  u64 ← EXPECT_EQ_OUT 5409 s32 CPLUS_SUCCESS (call (DataConv.cplus_data_get_as_uint64 data u64));
  UNITTEST_EXPECT_EQ 5410 s32 1 (holds (4294967295 =? u64));;
  f ← EXPECT_EQ_OUT 5411 s32 CPLUS_SUCCESS (call (DataConv.cplus_data_get_as_float data f));
  UNITTEST_EXPECT_EQ 5412 s32 1 (holds (equals binary32 4294967295 f));;
  db ← EXPECT_EQ_OUT 5413 s32 CPLUS_SUCCESS (call (DataConv.cplus_data_get_as_double data db));
  UNITTEST_EXPECT_EQ 5414 s32 1 (holds (equals binary64 4294967295 db));;
  str ← EXPECT_EQ_OUT 5415 s32 (strlen "4294967295") (cplus_data_get_as_string data len str);
  UNITTEST_EXPECT_EQ 5416 s32 1 (is_zero (strcmp_at str "4294967295"));;
  bufs ← EXPECT_EQ_OUT 5417 s32 4 (cplus_data_get_as_byte_array data bufs_len bufs);
  let test_value := <[0%nat := 0xff]> test_value in
  let test_value := <[1%nat := 0xff]> test_value in
  let test_value := <[2%nat := 0xff]> test_value in
  let test_value := <[3%nat := 0xff]> test_value in
  UNITTEST_EXPECT_EQ 5422 s32 1 (is_zero (memcmp bufs test_value 4));;
  UNITTEST_EXPECT_EQ 5423 s32 CPLUS_SUCCESS (call (Data.cplus_data_delete data));;
  UNITTEST_EXPECT_EQ 5424 s32 0 cplus_mgr_report;;
  mret tt.

Definition cplus_data_get_as_CPLUS_DATA_TYPE_UINT64 : T :=
  let b := any in let f := any in let db := any in
  let str := replicate 64 any in let len := 64 in
  let i8 := any in let i16 := any in let i32 := any in let i64 := any in
  let u8 := any in let u16 := any in let u32 := any in let u64 := any in
  let bufs := replicate 32 0 in let test_value := replicate 32 0 in let bufs_len := 32 in
  data ← EXPECT_EQ_SET 5435 1 not_null (call (Data.cplus_data_new_uint64 0x7fffffffffffffff));
  UNITTEST_EXPECT_EQ 5436 Prelude.u32 8 (call (Data.cplus_data_get_data_size data));;
  UNITTEST_EXPECT_EQ 5437 s32 (Data.type_code Data.T_UINT64) (call (Data.cplus_data_get_type data));;
  b ← EXPECT_EQ_OUT 5438 s32 CPLUS_SUCCESS (call (DataConv.cplus_data_get_as_bool data b));
  UNITTEST_EXPECT_EQ 5439 s32 1 (holds (1 =? b));;
  i8 ← EXPECT_EQ_OUT 5440 s32 CPLUS_SUCCESS (call (DataConv.cplus_data_get_as_int8 data i8));
  UNITTEST_EXPECT_EQ 5441 s32 1 (holds ((-1) =? i8));;
  i16 ← EXPECT_EQ_OUT 5442 s32 CPLUS_SUCCESS (call (DataConv.cplus_data_get_as_int16 data i16));
  UNITTEST_EXPECT_EQ 5443 s32 1 (holds ((-1) =? i16));;
  i32 ← EXPECT_EQ_OUT 5444 s32 CPLUS_SUCCESS (call (DataConv.cplus_data_get_as_int32 data i32));
  UNITTEST_EXPECT_EQ 5445 s32 1 (holds ((-1) =? i32));;
  i64 ← EXPECT_EQ_OUT 5446 s32 CPLUS_SUCCESS (call (DataConv.cplus_data_get_as_int64 data i64));
  UNITTEST_EXPECT_EQ 5447 s32 1 (holds (9223372036854775807 =? i64));;
  u8 ← EXPECT_EQ_OUT 5448 s32 CPLUS_SUCCESS (call (DataConv.cplus_data_get_as_uint8 data u8));
  UNITTEST_EXPECT_EQ 5449 s32 1 (holds (255 =? u8));;
  u16 ← EXPECT_EQ_OUT 5450 s32 CPLUS_SUCCESS (call (DataConv.cplus_data_get_as_uint16 data u16));
  UNITTEST_EXPECT_EQ 5451 s32 1 (holds (65535 =? u16));;
  u32 ← EXPECT_EQ_OUT 5452 s32 CPLUS_SUCCESS (call (DataConv.cplus_data_get_as_uint32 data u32));
  UNITTEST_EXPECT_EQ 5453 s32 1 (holds (4294967295 =? u32));;
  u64 ← EXPECT_EQ_OUT 5454 s32 CPLUS_SUCCESS (call (DataConv.cplus_data_get_as_uint64 data u64));
  UNITTEST_EXPECT_EQ 5455 s32 1 (holds (9223372036854775807 =? u64));;
  f ← EXPECT_EQ_OUT 5456 s32 CPLUS_SUCCESS (call (DataConv.cplus_data_get_as_float data f));
  UNITTEST_EXPECT_EQ 5457 s32 1 (holds (equals binary32 9223372036854775807 f));;
  db ← EXPECT_EQ_OUT 5458 s32 CPLUS_SUCCESS (call (DataConv.cplus_data_get_as_double data db));
  UNITTEST_EXPECT_EQ 5459 s32 1 (holds (equals binary64 9223372036854775807 db));;
  str ← EXPECT_EQ_OUT 5460 s32 (strlen "9223372036854775807") (cplus_data_get_as_string data len str);
  UNITTEST_EXPECT_EQ 5461 s32 1 (is_zero (strcmp_at str "9223372036854775807"));;
  bufs ← EXPECT_EQ_OUT 5462 s32 8 (cplus_data_get_as_byte_array data bufs_len bufs);
  let test_value := <[0%nat := 0xff]> test_value in
  let test_value := <[1%nat := 0xff]> test_value in
  let test_value := <[2%nat := 0xff]> test_value in
  let test_value := <[3%nat := 0xff]> test_value in
  let test_value := <[4%nat := 0xff]> test_value in
  let test_value := <[5%nat := 0xff]> test_value in
  let test_value := <[6%nat := 0xff]> test_value in
  let test_value := <[7%nat := 0x7f]> test_value in
  UNITTEST_EXPECT_EQ 5471 s32 1 (is_zero (memcmp bufs test_value 8));;
  UNITTEST_EXPECT_EQ 5472 s32 0 (call (Data.cplus_data_set_uint64 data 0xffffffffffffffff));;
  b ← EXPECT_EQ_OUT 5473 s32 CPLUS_SUCCESS (call (DataConv.cplus_data_get_as_bool data b));
  UNITTEST_EXPECT_EQ 5474 s32 1 (holds (1 =? b));;
  i8 ← EXPECT_EQ_OUT 5475 s32 CPLUS_SUCCESS (call (DataConv.cplus_data_get_as_int8 data i8));
  UNITTEST_EXPECT_EQ 5476 s32 1 (holds ((-1) =? i8));;
  i16 ← EXPECT_EQ_OUT 5477 s32 CPLUS_SUCCESS (call (DataConv.cplus_data_get_as_int16 data i16));
  UNITTEST_EXPECT_EQ 5478 s32 1 (holds ((-1) =? i16));;
  i32 ← EXPECT_EQ_OUT 5479 s32 CPLUS_SUCCESS (call (DataConv.cplus_data_get_as_int32 data i32));
  UNITTEST_EXPECT_EQ 5480 s32 1 (holds ((-1) =? i32));;
  i64 ← EXPECT_EQ_OUT 5481 s32 CPLUS_SUCCESS (call (DataConv.cplus_data_get_as_int64 data i64));
  UNITTEST_EXPECT_EQ 5482 s32 1 (holds ((-1) =? i64));;
  u8 ← EXPECT_EQ_OUT 5483 s32 CPLUS_SUCCESS (call (DataConv.cplus_data_get_as_uint8 data u8));
  UNITTEST_EXPECT_EQ 5484 s32 1 (holds (255 =? u8));;
  u16 ← EXPECT_EQ_OUT 5485 s32 CPLUS_SUCCESS (call (DataConv.cplus_data_get_as_uint16 data u16));
  UNITTEST_EXPECT_EQ 5486 s32 1 (holds (65535 =? u16));;
  u32 ← EXPECT_EQ_OUT 5487 s32 CPLUS_SUCCESS (call (DataConv.cplus_data_get_as_uint32 data u32));
  UNITTEST_EXPECT_EQ 5488 s32 1 (holds (4294967295 =? u32));;
  u64 ← EXPECT_EQ_OUT 5489 s32 CPLUS_SUCCESS (call (DataConv.cplus_data_get_as_uint64 data u64));
  UNITTEST_EXPECT_EQ 5490 s32 1 (holds (0xffffffffffffffff =? u64));;
  f ← EXPECT_EQ_OUT 5491 s32 CPLUS_SUCCESS (call (DataConv.cplus_data_get_as_float data f));
  UNITTEST_EXPECT_EQ 5492 s32 1 (holds (equals binary32 0xffffffffffffffff f));;
  db ← EXPECT_EQ_OUT 5493 s32 CPLUS_SUCCESS (call (DataConv.cplus_data_get_as_double data db));
  UNITTEST_EXPECT_EQ 5494 s32 1 (holds (equals binary64 0xffffffffffffffff db));;
  str ← EXPECT_EQ_OUT 5495 s32 (strlen "18446744073709551615") (cplus_data_get_as_string data len str);
  UNITTEST_EXPECT_EQ 5496 s32 1 (is_zero (strcmp_at str "18446744073709551615"));;
  bufs ← EXPECT_EQ_OUT 5497 s32 8 (cplus_data_get_as_byte_array data bufs_len bufs);
  let test_value := <[0%nat := 0xff]> test_value in
  let test_value := <[1%nat := 0xff]> test_value in
  let test_value := <[2%nat := 0xff]> test_value in
  let test_value := <[3%nat := 0xff]> test_value in
  let test_value := <[4%nat := 0xff]> test_value in
  let test_value := <[5%nat := 0xff]> test_value in
  let test_value := <[6%nat := 0xff]> test_value in
  let test_value := <[7%nat := 0xff]> test_value in
  UNITTEST_EXPECT_EQ 5506 s32 1 (is_zero (memcmp bufs test_value 8));;
  UNITTEST_EXPECT_EQ 5507 s32 CPLUS_SUCCESS (call (Data.cplus_data_delete data));;
  UNITTEST_EXPECT_EQ 5508 s32 0 cplus_mgr_report;;
  mret tt.

Definition cplus_data_set_as_CPLUS_DATA_TYPE_STRING : T :=
  let str := replicate 64 any in
  let len := 64 in
  data ← EXPECT_EQ_SET 5516 1 not_null (call (Data.cplus_data_new_string (strlen "123") (Some (lit "123"))));
  UNITTEST_EXPECT_EQ 5517 u32 (strlen "123") (call (Data.cplus_data_get_data_size data));;
  UNITTEST_EXPECT_EQ 5518 s32 (Data.type_code Data.T_STRING) (call (Data.cplus_data_get_type data));;
  UNITTEST_EXPECT_EQ 5519 s32 CPLUS_SUCCESS (call (DataConv.cplus_data_set_as_bool data 1));;
  str ← EXPECT_EQ_OUT 5520 s32 (strlen "true") (get_value_bufs data len str);
  UNITTEST_EXPECT_EQ 5521 s32 0 (strcmp "true" (text_at str));;
  UNITTEST_EXPECT_EQ 5522 s32 CPLUS_SUCCESS (call (DataConv.cplus_data_set_as_uint8 data (u8 0xff)));;
  str ← EXPECT_EQ_OUT 5523 s32 (strlen "255") (get_value_bufs data len str);
  UNITTEST_EXPECT_EQ 5524 s32 0 (strcmp "255" (text_at str));;
  UNITTEST_EXPECT_EQ 5525 s32 CPLUS_SUCCESS (call (DataConv.cplus_data_set_as_uint16 data (u16 0xffff)));;
  str ← EXPECT_EQ_OUT 5526 s32 (strlen "65535") (get_value_bufs data len str);
  UNITTEST_EXPECT_EQ 5527 s32 0 (strcmp "65535" (text_at str));;
  UNITTEST_EXPECT_EQ 5528 s32 CPLUS_SUCCESS (call (DataConv.cplus_data_set_as_uint32 data (u32 0xffffffff)));;
  str ← EXPECT_EQ_OUT 5529 s32 (strlen "4294967295") (get_value_bufs data len str);
  UNITTEST_EXPECT_EQ 5530 s32 0 (strcmp "4294967295" (text_at str));;
  UNITTEST_EXPECT_EQ 5531 s32 CPLUS_SUCCESS (call (DataConv.cplus_data_set_as_uint64 data (u64 0xffffffffffffffff)));;
  str ← EXPECT_EQ_OUT 5532 s32 (strlen "18446744073709551615") (get_value_bufs data len str);
  UNITTEST_EXPECT_EQ 5533 s32 0 (strcmp "18446744073709551615" (text_at str));;
  UNITTEST_EXPECT_EQ 5534 s32 CPLUS_SUCCESS (call (DataConv.cplus_data_set_as_bool data 0));;
  str ← EXPECT_EQ_OUT 5535 s32 (strlen "false") (get_value_bufs data len str);
  UNITTEST_EXPECT_EQ 5536 s32 0 (strcmp "false" (text_at str));;
  UNITTEST_EXPECT_EQ 5537 s32 CPLUS_SUCCESS (call (DataConv.cplus_data_set_as_int8 data (s8 0xff)));;
  str ← EXPECT_EQ_OUT 5538 s32 (strlen "-1") (get_value_bufs data len str);
  UNITTEST_EXPECT_EQ 5539 s32 0 (strcmp "-1" (text_at str));;
  UNITTEST_EXPECT_EQ 5540 s32 CPLUS_SUCCESS (call (DataConv.cplus_data_set_as_int16 data (s16 0xffff)));;
  str ← EXPECT_EQ_OUT 5541 s32 (strlen "-1") (get_value_bufs data len str);
  UNITTEST_EXPECT_EQ 5542 s32 0 (strcmp "-1" (text_at str));;
  UNITTEST_EXPECT_EQ 5543 s32 CPLUS_SUCCESS (call (DataConv.cplus_data_set_as_int32 data (s32 0xffffffff)));;
  str ← EXPECT_EQ_OUT 5544 s32 (strlen "-1") (get_value_bufs data len str);
  UNITTEST_EXPECT_EQ 5545 s32 0 (strcmp "-1" (text_at str));;
  UNITTEST_EXPECT_EQ 5546 s32 CPLUS_SUCCESS (call (DataConv.cplus_data_set_as_int64 data (s64 0xffffffffffffffff)));;
  str ← EXPECT_EQ_OUT 5547 s32 (strlen "-1") (get_value_bufs data len str);
  UNITTEST_EXPECT_EQ 5548 s32 0 (strcmp "-1" (text_at str));;
  UNITTEST_EXPECT_EQ 5549 s32 CPLUS_SUCCESS (call (DataConv.cplus_data_set_as_float data (to_float (real "3.141593"))));;
  str ← EXPECT_EQ_OUT 5550 s32 (strlen "3.141593") (get_value_bufs data len str);
  UNITTEST_EXPECT_EQ 5551 s32 0 (strcmp "3.141593" (text_at str));;
  UNITTEST_EXPECT_EQ 5552 s32 CPLUS_SUCCESS (call (DataConv.cplus_data_set_as_double data (real "3.141593")));;
  str ← EXPECT_EQ_OUT 5553 s32 (strlen "3.141593") (get_value_bufs data len str);
  UNITTEST_EXPECT_EQ 5560 s32 CPLUS_SUCCESS (call (DataConv.cplus_data_set_as_string data (strlen "012345678901234567890123456789012345678901234567890123456789123") (Some (lit "012345678901234567890123456789012345678901234567890123456789123"))));;
  str ← EXPECT_EQ_OUT 5562 s32 (strlen "012345678901234567890123456789012345678901234567890123456789123") (get_value_bufs data len str);
  UNITTEST_EXPECT_EQ 5563 s32 0 (strcmp "012345678901234567890123456789012345678901234567890123456789123" (text_at str));;
  UNITTEST_EXPECT_EQ 5564 s32 CPLUS_SUCCESS (call (Data.cplus_data_delete data));;
  UNITTEST_EXPECT_EQ 5565 s32 0 cplus_mgr_report;;
  mret tt.

(** [unittest_data] *)
Definition unittest_data : list (@named_test Group.world) :=
  [("cplus_data_new", "CPLUS_DATA_TYPE_BOOL", cplus_data_new_CPLUS_DATA_TYPE_BOOL any);
   ("cplus_data_new", "CPLUS_DATA_TYPE_INT8", cplus_data_new_CPLUS_DATA_TYPE_INT8 any);
   ("cplus_data_new", "CPLUS_DATA_TYPE_INT16", cplus_data_new_CPLUS_DATA_TYPE_INT16 any);
   ("cplus_data_new", "CPLUS_DATA_TYPE_INT32", cplus_data_new_CPLUS_DATA_TYPE_INT32 any);
   ("cplus_data_new", "CPLUS_DATA_TYPE_INT64", cplus_data_new_CPLUS_DATA_TYPE_INT64 any);
   ("cplus_data_new", "CPLUS_DATA_TYPE_UINT8", cplus_data_new_CPLUS_DATA_TYPE_UINT8 any);
   ("cplus_data_new", "CPLUS_DATA_TYPE_UINT16", cplus_data_new_CPLUS_DATA_TYPE_UINT16 any);
   ("cplus_data_new", "CPLUS_DATA_TYPE_UINT32", cplus_data_new_CPLUS_DATA_TYPE_UINT32 any);
   ("cplus_data_new", "CPLUS_DATA_TYPE_UINT64", cplus_data_new_CPLUS_DATA_TYPE_UINT64 any);
   ("cplus_data_new", "CPLUS_DATA_TYPE_FLOAT", cplus_data_new_CPLUS_DATA_TYPE_FLOAT any);
   ("cplus_data_new", "CPLUS_DATA_TYPE_DOUBLE", cplus_data_new_CPLUS_DATA_TYPE_DOUBLE any);
   ("cplus_data_new", "CPLUS_DATA_TYPE_POINTER", cplus_data_new_CPLUS_DATA_TYPE_POINTER any);
   ("cplus_data_new", "CPLUS_DATA_TYPE_STRING", cplus_data_new_CPLUS_DATA_TYPE_STRING any);
   ("cplus_data_get_as", "CPLUS_DATA_TYPE_BOOL", cplus_data_get_as_CPLUS_DATA_TYPE_BOOL);
   ("cplus_data_get_as", "CPLUS_DATA_TYPE_INT8", cplus_data_get_as_CPLUS_DATA_TYPE_INT8);
   ("cplus_data_get_as", "CPLUS_DATA_TYPE_INT16", cplus_data_get_as_CPLUS_DATA_TYPE_INT16);
   ("cplus_data_get_as", "CPLUS_DATA_TYPE_INT32", cplus_data_get_as_CPLUS_DATA_TYPE_INT32);
   ("cplus_data_get_as", "CPLUS_DATA_TYPE_INT64", cplus_data_get_as_CPLUS_DATA_TYPE_INT64);
   ("cplus_data_get_as", "CPLUS_DATA_TYPE_UINT8", cplus_data_get_as_CPLUS_DATA_TYPE_UINT8);
   ("cplus_data_get_as", "CPLUS_DATA_TYPE_UINT16", cplus_data_get_as_CPLUS_DATA_TYPE_UINT16);
   ("cplus_data_get_as", "CPLUS_DATA_TYPE_UINT32", cplus_data_get_as_CPLUS_DATA_TYPE_UINT32);
   ("cplus_data_get_as", "CPLUS_DATA_TYPE_UINT64", cplus_data_get_as_CPLUS_DATA_TYPE_UINT64);
   ("cplus_data_set_as", "CPLUS_DATA_TYPE_STRING", cplus_data_set_as_CPLUS_DATA_TYPE_STRING);
   ("cplus_data_is_valid", "functionity", cplus_data_is_valid_functionity);
   ("cplus_data_reverse", "functionity", cplus_data_reverse_functionity);
   ("cplus_data_new_ex", "all_type", cplus_data_new_ex_all_type);
   ("cplus_data_new_ex", "thread_safe", cplus_data_new_ex_thread_safe);
   ("cplus_data_new", "CPLUS_DATA_TYPE_BOOL_THREAD_SAFE", cplus_data_new_CPLUS_DATA_TYPE_BOOL_THREAD_SAFE any);
   ("cplus_data_new", "CPLUS_DATA_TYPE_INT8_THREAD_SAFE", cplus_data_new_CPLUS_DATA_TYPE_INT8_THREAD_SAFE any);
   ("cplus_data_new", "CPLUS_DATA_TYPE_INT16_THREAD_SAFE", cplus_data_new_CPLUS_DATA_TYPE_INT16_THREAD_SAFE any);
   ("cplus_data_new", "CPLUS_DATA_TYPE_INT32_THREAD_SAFE", cplus_data_new_CPLUS_DATA_TYPE_INT32_THREAD_SAFE any);
   ("cplus_data_new", "CPLUS_DATA_TYPE_INT64_THREAD_SAFE", cplus_data_new_CPLUS_DATA_TYPE_INT64_THREAD_SAFE any);
   ("cplus_data_new", "CPLUS_DATA_TYPE_UINT8_THREAD_SAFE", cplus_data_new_CPLUS_DATA_TYPE_UINT8_THREAD_SAFE any);
   ("cplus_data_new", "CPLUS_DATA_TYPE_UINT16_THREAD_SAFE", cplus_data_new_CPLUS_DATA_TYPE_UINT16_THREAD_SAFE any);
   ("cplus_data_new", "CPLUS_DATA_TYPE_UINT32_THREAD_SAFE", cplus_data_new_CPLUS_DATA_TYPE_UINT32_THREAD_SAFE any);
   ("cplus_data_new", "CPLUS_DATA_TYPE_UINT64_THREAD_SAFE", cplus_data_new_CPLUS_DATA_TYPE_UINT64_THREAD_SAFE any);
   ("cplus_data_new", "CPLUS_DATA_TYPE_FLOAT_THREAD_SAFE", cplus_data_new_CPLUS_DATA_TYPE_FLOAT_THREAD_SAFE any);
   ("cplus_data_new", "CPLUS_DATA_TYPE_DOUBLE_THREAD_SAFE", cplus_data_new_CPLUS_DATA_TYPE_DOUBLE_THREAD_SAFE any);
   ("cplus_data_new", "CPLUS_DATA_TYPE_POINTER_THREAD_SAFE", cplus_data_new_CPLUS_DATA_TYPE_POINTER_THREAD_SAFE any);
   ("cplus_data_new", "CPLUS_DATA_TYPE_STRING_THREAD_SAFE", cplus_data_new_CPLUS_DATA_TYPE_STRING_THREAD_SAFE any);
   ("cplus_data_set_action_mode", "functionity", cplus_data_set_action_mode_functionity);
   ("cplus_data_create_group_node", "functionity", cplus_data_create_group_node_functionity);
   ("cplus_data_clone_value", "functionity", cplus_data_clone_value_functionity);
   ("CPLUS_DATA_TYPE_CONV", "functionity", CPLUS_DATA_TYPE_CONV_functionity);
   ("cplus_data_new", "CPLUS_DATA_TYPE_BYTE_ARRAY", cplus_data_new_CPLUS_DATA_TYPE_BYTE_ARRAY)]%string.

End tests.

(** An empty heap; a fresh block holds [any] in every byte. *)
Definition start (any : Z) : Group.world :=
  Group.World (Data.World ∅ Heap.empty_heap (λ _ _, any) 0) ∅.

(** ** Theorems *)

(** the 45 tests of data.c all pass on the model, with 1216 expectations
    compared, whatever the variables of the tests and fresh memory hold before
    they are written. *)
Theorem data_tests_pass any :
  report_of (unittest_data any) (start any) = Done (45%nat, 1216%nat, [], 0).
Proof. vm_compute. reflexivity. Qed.

(** (code bug) an expectation of a difference of floating point numbers sees
    only its integer part: 3.9 passes for 3.14159. *)
Theorem differences_are_truncated :
  unmet (match UNITTEST_EXPECT_EQ 4727 as_double 0 (difference (mret (real "3.9")) "3.14159")
           (TState (start 0) false 0 0 1000 []) with Done (_, t) => out t | _ => [] end) = [] ∧
  difference (mret (real "3.9")) "3.14159" (start 0) = Done (0, start 0) ∧
  close (real "3.9") (real "3.14159") (real "0.01") = false.
Proof. split_and!; vm_compute; reflexivity. Qed.

End DataConvTests.
