(* ===== verification/MempoolTests.v ===== *)
(** * MempoolTests: the tests of src/mempool.c, run on the model

    The tests, statement for statement, over a world of pools with their memory and
    of blocks of the heap. *)

From S2P Require Import Prelude Zlist Memmgr Mempool Data Helper Keyed Unittest.
From stdpp Require Import base numbers list option gmap strings.
From Stdlib Require Import ZArith Lia.
Open Scope Z_scope.

Module MempoolTests.
Import Unittest.

(** ** The world of the tests

    The pools by the address of their object, the blocks of the heap by theirs.
    The memory of the pool at [p] starts at [p + 0x1000]. *)
Record world := World {
  pools : gmap Z Mempool.st; blocks : gmap Z (list Z); next_address : Z; errno : Z }.
#[local] Notation W := (C world).
#[local] Notation T := (C (tstate world) unit).

(** What fresh memory holds. *)
Section tests.
Variable any : Z.

Definition construct (f : bool → Z → (Z → Z) → Z → Z → Z → option Mempool.st * Z)
    (count size : Z) : W Z := λ w,
  let p := next_address w in
  match f true (p + 0x1000) (λ _, any) count size (errno w) with
  | (Some s, e) => Done (p, World (<[p := s]> (pools w)) (blocks w) (p + 0x10000) e)
  | (None, e) => Done (0, World (pools w) (blocks w) (p + 0x10000) e)
  end.
Definition cplus_mempool_new : Z → Z → W Z := construct Mempool.cplus_mempool_new.
Definition cplus_mempool_new_s : Z → Z → W Z := construct Mempool.cplus_mempool_new_s.

(** A call on the pool at [mp]; the null pointer fails the assertion. *)
Definition on_pool {A} (mp : Z) (m : C Mempool.st A) : W A :=
  if mp =? 0 then abort
  else λ w,
    match pools w !! mp with
    | None => Undefined
    | Some s =>
        match m (Mempool.set_errno (errno w) s) with
        | Done (a, s') =>
            Done (a, World (<[mp := s']> (pools w)) (blocks w) (next_address w) (Mempool.errno s'))
        | Aborts => Aborts | Hangs => Hangs | Undefined => Undefined
        end
    end.
Definition cplus_mempool_alloc (mp : Z) := on_pool mp Mempool.cplus_mempool_alloc.
Definition cplus_mempool_free (mp p : Z) := on_pool mp (Mempool.cplus_mempool_free p).
Definition cplus_mempool_get_free_blocks_count (mp : Z) :=
  on_pool mp Mempool.cplus_mempool_get_free_blocks_count.
Definition cplus_mempool_get_index (mp p : Z) := on_pool mp (Mempool.cplus_mempool_get_index p).
Definition cplus_mempool_get_addr_by_index (mp i : Z) := on_pool mp (Mempool.cplus_mempool_get_addr_by_index i).
Definition cplus_mempool_alloc_as_index (mp : Z) := on_pool mp Mempool.cplus_mempool_alloc_as_index.
Definition cplus_mempool_free_by_index (mp i : Z) := on_pool mp (Mempool.cplus_mempool_free_by_index i).

Definition cplus_mempool_delete (mp : Z) : W Z :=
  if mp =? 0 then abort
  else λ w,
    match pools w !! mp with
    | None => Undefined
    | Some s =>
        match Mempool.cplus_mempool_delete s with
        | Done (r, _) => Done (r, World (delete mp (pools w)) (blocks w) (next_address w) (errno w))
        | Aborts => Aborts | Hangs => Hangs | Undefined => Undefined
        end
    end.

Definition cplus_malloc (size : Z) : W Z := λ w,
  let p := next_address w in
  Done (p, World (pools w) (<[p := replicate (Z.to_nat size) any]> (blocks w)) (p + 0x10000) (errno w)).
Definition cplus_free (p : Z) : W Z := λ w,
  match blocks w !! p with
  | Some _ => Done (CPLUS_SUCCESS, World (pools w) (delete p (blocks w)) (next_address w) (errno w))
  | None => Undefined
  end.

(** An object of a pool and its memory are two blocks. *)
Definition cplus_mgr_report : W Z := λ w,
  Done (2 * Z.of_nat (size (pools w)) + Z.of_nat (size (blocks w)), w).

(** The [n] bytes at [p], in a pool or in a block, and writing them. *)
Definition owner (p n : Z) (w : world) : option (Z * Mempool.st) :=
  list.head (filter (λ x, let start := Mempool.mem_start (Mempool.mp x.2) in
    (start <=? p) && (p + n <=? start + Mempool.mem_size x.2)) (map_to_list (pools w))).
Definition block_at (p : Z) (w : world) : option (Z * list Z) :=
  list.head (filter (λ x, (x.1 <=? p) && (p <? x.1 + zlen x.2)) (map_to_list (blocks w))).
Definition read (p n : Z) : W (list Z) := deref (λ w,
  match owner p n w with
  | Some (_, s) => Some (Helper.peek (Mempool.mem s) p n)
  | None => '(a, b) ← block_at p w;
      if p + n <=? a + zlen b then Some (take (Z.to_nat n) (drop (Z.to_nat (p - a)) b)) else None
  end).
Definition write (p : Z) (bs : list Z) : W unit := λ w,
  match owner p (zlen bs) w with
  | Some (mp, s) =>
      Done (tt, World (<[mp := Mempool.set_mem (Helper.poke (Mempool.mem s) p bs) s]> (pools w))
                  (blocks w) (next_address w) (errno w))
  | None =>
      match block_at p w with
      | Some (a, b) =>
          if p + zlen bs <=? a + zlen b then
            Done (tt, World (pools w)
              (<[a := take (Z.to_nat (p - a)) b ++ bs ++ drop (Z.to_nat (p - a + zlen bs)) b]> (blocks w))
              (next_address w) (errno w))
          else Undefined
      | None => Undefined
      end
  end.

(** [*p] and [( *p = v)] for an [int32_t * ]. *)
Definition load (p : Z) : W Z := bs ← read p 4; mret (Data.of_bytes Data.T_INT32 bs).
Definition assign (p v : Z) : W Z := write p (Data.to_bytes Data.T_INT32 v);; load p.

(** [cplus_mem_set(p, v, n)], [cplus_mem_cpy(p, src, n)] and [memcmp(p, b, n)] of the
    bytes at [p]; the first two answer [p] or null. *)
Definition fill (p : Z) (n : Z) (o : list Z → outcome Memmgr.mem_result) : W Z :=
  old ← read p n;
  match o old with
  | Done (Memmgr.Ptr bs) => write p bs;; mret p
  | Done Memmgr.Null =>
      modify (λ w, World (pools w) (blocks w) (next_address w) EINVAL);; mret 0
  | Aborts => abort | Hangs => hang | Undefined => undef
  end.
Definition cplus_mem_set (p v n : Z) : W Z := fill p n (λ old, Memmgr.cplus_mem_set (Some old) v n).
Definition cplus_mem_cpy (p : Z) (src : list Z) (n : Z) : W Z :=
  fill p n (λ old, Memmgr.cplus_mem_cpy (Some old) (Some src) n).
Definition memcmp (p : Z) (b : list Z) (n : Z) : W Z :=
  bs ← read p n; if n <=? zlen b then mret (Keyed.strcmp bs (take (Z.to_nat n) b)) else undef.

(** [struct test_block] and the arrays it is compared with. *)
Definition test_block : Helper.struct := [Data.T_UINT8; Data.T_UINT16; Data.T_UINT32; Data.T_UINT32].
Definition a : nat := 0.
Definition b : nat := 1.
Definition c : nat := 2.
Definition d : nat := 3.
Definition member (p : Z) (i : nat) : Z := Helper.member_addr p test_block i.
Definition sizeof_member (i : nat) : Z := default 0 (Data.sizeof <$> test_block !! i).
Definition b10 := [0x00].
Definition b20 := [0x00; 0x00].
Definition b40 := [0x00; 0x00; 0x00; 0x00].
Definition b80 := [0x00; 0x00; 0x00; 0x00; 0x00; 0x00; 0x00; 0x00].
Definition b1s := [0x01].
Definition b2s := [0x01; 0x23].
Definition b4s := [0x01; 0x23; 0x45; 0x67].
Definition b8s := [0x01; 0x23; 0x45; 0x67; 0x89; 0xab; 0xcd; 0xef].
Definition b1f := [0xff].
Definition b2f := [0xff; 0xff].
Definition b4f := [0xff; 0xff; 0xff; 0xff].
Definition b8f := [0xff; 0xff; 0xff; 0xff; 0xff; 0xff; 0xff; 0xff].

(** [for (int32_t idx = 0; idx < 5; idx++) addr[idx] = cplus_mempool_alloc(mp);] and
    the loop that allocates by index. *)
Fixpoint alloc_all (n : nat) (line mp : Z) : C (tstate world) (list Z) :=
  match n with
  | O => mret []
  | S n =>
      p ← EXPECT_EQ_SET line 1 not_null (cplus_mempool_alloc mp);
      rest ← alloc_all n line mp;
      mret (p :: rest)
  end.
Fixpoint alloc_indices (n : nat) (line mp idx : Z) : T :=
  match n with
  | O => mret tt
  | S n =>
      UNITTEST_EXPECT_EQ line s32 idx (cplus_mempool_alloc_as_index mp);;
      alloc_indices n line mp (idx + 1)
  end.
Definition same_address (x : Z) (m : W Z) : W Z := p ← m; mret (Z.b2z (x =? p)).

(** ** The tests *)

(** What two tests do with three blocks. *)
Definition three_blocks (l test_block0 test_block1 test_block2 : Z) : T :=
  EXPECT_EQ_SET (l + 0) 1 not_null (cplus_mem_set (member test_block0 a) 0x00 (sizeof_member a));;
  EXPECT_EQ_SET (l + 1) 1 not_null (cplus_mem_set (member test_block0 b) 0x00 (sizeof_member b));;
  EXPECT_EQ_SET (l + 2) 1 not_null (cplus_mem_set (member test_block0 c) 0x00 (sizeof_member c));;
  EXPECT_EQ_SET (l + 3) 1 not_null (cplus_mem_set (member test_block0 d) 0x00 (sizeof_member d));;
  UNITTEST_EXPECT_EQ (l + 4) s32 0 (memcmp (member test_block0 a) b10 (sizeof_member a));;
  UNITTEST_EXPECT_EQ (l + 5) s32 0 (memcmp (member test_block0 b) b20 (sizeof_member b));;
  UNITTEST_EXPECT_EQ (l + 6) s32 0 (memcmp (member test_block0 c) b40 (sizeof_member c));;
  UNITTEST_EXPECT_EQ (l + 7) s32 0 (memcmp (member test_block0 d) b80 (sizeof_member d));;
  EXPECT_EQ_SET (l + 8) 1 not_null (cplus_mem_cpy (member test_block1 a) b1s (sizeof_member a));;
  EXPECT_EQ_SET (l + 9) 1 not_null (cplus_mem_cpy (member test_block1 b) b2s (sizeof_member b));;
  EXPECT_EQ_SET (l + 10) 1 not_null (cplus_mem_cpy (member test_block1 c) b4s (sizeof_member c));;
  EXPECT_EQ_SET (l + 11) 1 not_null (cplus_mem_cpy (member test_block1 d) b8s (sizeof_member d));;
  UNITTEST_EXPECT_EQ (l + 12) s32 0 (memcmp (member test_block1 a) b1s (sizeof_member a));;
  UNITTEST_EXPECT_EQ (l + 13) s32 0 (memcmp (member test_block1 b) b2s (sizeof_member b));;
  UNITTEST_EXPECT_EQ (l + 14) s32 0 (memcmp (member test_block1 c) b4s (sizeof_member c));;
  UNITTEST_EXPECT_EQ (l + 15) s32 0 (memcmp (member test_block1 d) b8s (sizeof_member d));;
  EXPECT_EQ_SET (l + 16) 1 not_null (cplus_mem_set (member test_block2 a) 0xff (sizeof_member a));;
  EXPECT_EQ_SET (l + 17) 1 not_null (cplus_mem_set (member test_block2 b) 0xff (sizeof_member b));;
  EXPECT_EQ_SET (l + 18) 1 not_null (cplus_mem_set (member test_block2 c) 0xff (sizeof_member c));;
  EXPECT_EQ_SET (l + 19) 1 not_null (cplus_mem_set (member test_block2 d) 0xff (sizeof_member d));;
  UNITTEST_EXPECT_EQ (l + 20) s32 0 (memcmp (member test_block2 a) b1f (sizeof_member a));;
  UNITTEST_EXPECT_EQ (l + 21) s32 0 (memcmp (member test_block2 b) b2f (sizeof_member b));;
  UNITTEST_EXPECT_EQ (l + 22) s32 0 (memcmp (member test_block2 c) b4f (sizeof_member c));;
  UNITTEST_EXPECT_EQ (l + 23) s32 0 (memcmp (member test_block2 d) b8f (sizeof_member d));;
  mret tt.

Definition alloc_functionity_with (l : Z) (new : W Z) : T :=
  mp ← EXPECT_EQ_SET (l + 3) 1 not_null new;
  UNITTEST_EXPECT_EQ (l + 4) u32 5 (cplus_mempool_get_free_blocks_count mp);;
  test0 ← EXPECT_EQ_SET (l + 5) 1 not_null (cplus_mempool_alloc mp);
  UNITTEST_EXPECT_EQ (l + 6) u32 4 (cplus_mempool_get_free_blocks_count mp);;
  test1 ← EXPECT_EQ_SET (l + 7) 1 not_null (cplus_mempool_alloc mp);
  UNITTEST_EXPECT_EQ (l + 8) u32 3 (cplus_mempool_get_free_blocks_count mp);;
  test2 ← EXPECT_EQ_SET (l + 9) 1 not_null (cplus_mempool_alloc mp);
  UNITTEST_EXPECT_EQ (l + 10) u32 2 (cplus_mempool_get_free_blocks_count mp);;
  test3 ← EXPECT_EQ_SET (l + 11) 1 not_null (cplus_mempool_alloc mp);
  UNITTEST_EXPECT_EQ (l + 12) u32 1 (cplus_mempool_get_free_blocks_count mp);;
  test4 ← EXPECT_EQ_SET (l + 13) 1 not_null (cplus_mempool_alloc mp);
  UNITTEST_EXPECT_EQ (l + 14) u32 0 (cplus_mempool_get_free_blocks_count mp);;
  test5 ← EXPECT_EQ_SET (l + 15) 1 is_null (cplus_mempool_alloc mp);
  UNITTEST_EXPECT_EQ (l + 16) s32 ENOMEM (gets errno);;
  test6 ← EXPECT_EQ_SET (l + 17) 1 is_null (cplus_mempool_alloc mp);
  UNITTEST_EXPECT_EQ (l + 18) s32 ENOMEM (gets errno);;
  test7 ← EXPECT_EQ_SET (l + 19) 1 is_null (cplus_mempool_alloc mp);
  UNITTEST_EXPECT_EQ (l + 20) s32 ENOMEM (gets errno);;
  test8 ← EXPECT_EQ_SET (l + 21) 1 is_null (cplus_mempool_alloc mp);
  UNITTEST_EXPECT_EQ (l + 22) s32 ENOMEM (gets errno);;
  test9 ← EXPECT_EQ_SET (l + 23) 1 is_null (cplus_mempool_alloc mp);
  UNITTEST_EXPECT_EQ (l + 24) s32 ENOMEM (gets errno);;
  UNITTEST_EXPECT_EQ (l + 25) s32 0 (assign test0 0);;
  UNITTEST_EXPECT_EQ (l + 26) s32 1 (assign test1 1);;
  UNITTEST_EXPECT_EQ (l + 27) s32 2 (assign test2 2);;
  UNITTEST_EXPECT_EQ (l + 28) s32 3 (assign test3 3);;
  UNITTEST_EXPECT_EQ (l + 29) s32 4 (assign test4 4);;
  UNITTEST_EXPECT_EQ (l + 30) s32 CPLUS_SUCCESS (cplus_mempool_free mp test0);;
  UNITTEST_EXPECT_EQ (l + 31) u32 1 (cplus_mempool_get_free_blocks_count mp);;
  UNITTEST_EXPECT_EQ (l + 32) s32 CPLUS_SUCCESS (cplus_mempool_free mp test1);;
  UNITTEST_EXPECT_EQ (l + 33) u32 2 (cplus_mempool_get_free_blocks_count mp);;
  UNITTEST_EXPECT_EQ (l + 34) s32 CPLUS_SUCCESS (cplus_mempool_free mp test2);;
  UNITTEST_EXPECT_EQ (l + 35) u32 3 (cplus_mempool_get_free_blocks_count mp);;
  UNITTEST_EXPECT_EQ (l + 36) s32 CPLUS_SUCCESS (cplus_mempool_free mp test3);;
  UNITTEST_EXPECT_EQ (l + 37) u32 4 (cplus_mempool_get_free_blocks_count mp);;
  UNITTEST_EXPECT_EQ (l + 38) s32 CPLUS_SUCCESS (cplus_mempool_free mp test4);;
  UNITTEST_EXPECT_EQ (l + 39) u32 5 (cplus_mempool_get_free_blocks_count mp);;
  UNITTEST_EXPECT_EQ (l + 40) s32 CPLUS_SUCCESS (cplus_mempool_delete mp);;
  mret tt.

Definition cplus_mempool_alloc_functionity : T := alloc_functionity_with 261 (cplus_mempool_new 5 4).
Definition cplus_mempool_new_s_functionity : T := alloc_functionity_with 428 (cplus_mempool_new_s 5 4).

Definition cplus_mempool_alloc_overlap : T :=
  mp ← EXPECT_EQ_SET 307 1 not_null (cplus_mempool_new 5 4);
  test0 ← EXPECT_EQ_SET 308 1 not_null (cplus_mempool_alloc mp);
  UNITTEST_EXPECT_EQ 309 u32 4 (cplus_mempool_get_free_blocks_count mp);;
  test1 ← EXPECT_EQ_SET 310 1 not_null (cplus_mempool_alloc mp);
  UNITTEST_EXPECT_EQ 311 u32 3 (cplus_mempool_get_free_blocks_count mp);;
  test2 ← EXPECT_EQ_SET 312 1 not_null (cplus_mempool_alloc mp);
  UNITTEST_EXPECT_EQ 313 u32 2 (cplus_mempool_get_free_blocks_count mp);;
  test3 ← EXPECT_EQ_SET 314 1 not_null (cplus_mempool_alloc mp);
  UNITTEST_EXPECT_EQ 315 u32 1 (cplus_mempool_get_free_blocks_count mp);;
  test4 ← EXPECT_EQ_SET 316 1 not_null (cplus_mempool_alloc mp);
  UNITTEST_EXPECT_EQ 317 u32 0 (cplus_mempool_get_free_blocks_count mp);;
  UNITTEST_EXPECT_EQ 318 s32 0 (assign test0 0);;
  UNITTEST_EXPECT_EQ 319 s32 1 (assign test1 1);;
  UNITTEST_EXPECT_EQ 320 s32 2 (assign test2 2);;
  UNITTEST_EXPECT_EQ 321 s32 3 (assign test3 3);;
  UNITTEST_EXPECT_EQ 322 s32 4 (assign test4 4);;
  UNITTEST_EXPECT_EQ 323 s32 0 (load test0);;
  UNITTEST_EXPECT_EQ 324 s32 1 (load test1);;
  UNITTEST_EXPECT_EQ 325 s32 2 (load test2);;
  UNITTEST_EXPECT_EQ 326 s32 3 (load test3);;
  UNITTEST_EXPECT_EQ 327 s32 4 (load test4);;
  UNITTEST_EXPECT_EQ 328 s32 CPLUS_SUCCESS (cplus_mempool_free mp test0);;
  UNITTEST_EXPECT_EQ 329 s32 CPLUS_SUCCESS (cplus_mempool_free mp test1);;
  UNITTEST_EXPECT_EQ 330 s32 CPLUS_SUCCESS (cplus_mempool_free mp test2);;
  UNITTEST_EXPECT_EQ 331 s32 CPLUS_SUCCESS (cplus_mempool_free mp test3);;
  UNITTEST_EXPECT_EQ 332 s32 CPLUS_SUCCESS (cplus_mempool_free mp test4);;
  UNITTEST_EXPECT_EQ 333 s32 CPLUS_SUCCESS (cplus_mempool_delete mp);;
  mret tt.

Definition cplus_mempool_alloc_overlap_struct : T :=
  mp ← EXPECT_EQ_SET 339 1 not_null (cplus_mempool_new 5 (Helper.sizeof test_block));
  UNITTEST_EXPECT_EQ 340 u32 5 (cplus_mempool_get_free_blocks_count mp);;
  test_block0 ← EXPECT_EQ_SET 341 1 not_null (cplus_mempool_alloc mp);
  UNITTEST_EXPECT_EQ 342 u32 4 (cplus_mempool_get_free_blocks_count mp);;
  test_block1 ← EXPECT_EQ_SET 343 1 not_null (cplus_mempool_alloc mp);
  UNITTEST_EXPECT_EQ 344 u32 3 (cplus_mempool_get_free_blocks_count mp);;
  test_block2 ← EXPECT_EQ_SET 345 1 not_null (cplus_mempool_alloc mp);
  UNITTEST_EXPECT_EQ 346 u32 2 (cplus_mempool_get_free_blocks_count mp);;
  three_blocks 347 test_block0 test_block1 test_block2;;
  UNITTEST_EXPECT_EQ 371 s32 CPLUS_SUCCESS (cplus_mempool_free mp test_block0);;
  UNITTEST_EXPECT_EQ 372 s32 CPLUS_SUCCESS (cplus_mempool_free mp test_block1);;
  UNITTEST_EXPECT_EQ 373 s32 CPLUS_SUCCESS (cplus_mempool_free mp test_block2);;
  UNITTEST_EXPECT_EQ 374 s32 CPLUS_SUCCESS (cplus_mempool_delete mp);;
  mret tt.

Definition cplus_mempool_new_bad_parameter : T :=
  mp ← EXPECT_EQ_SET 380 1 is_null (cplus_mempool_new 0 4);
  UNITTEST_EXPECT_EQ 381 s32 EINVAL (gets errno);;
  mp ← EXPECT_EQ_SET 382 1 is_null (cplus_mempool_new 5 0);
  UNITTEST_EXPECT_EQ 383 s32 EINVAL (gets errno);;
  mp ← EXPECT_EQ_SET 384 1 is_null (cplus_mempool_new 5 1);
  UNITTEST_EXPECT_EQ 385 s32 EINVAL (gets errno);;
  mp ← EXPECT_EQ_SET 386 1 is_null (cplus_mempool_new 5 2);
  UNITTEST_EXPECT_EQ 387 s32 EINVAL (gets errno);;
  mp ← EXPECT_EQ_SET 388 1 is_null (cplus_mempool_new 5 3);
  UNITTEST_EXPECT_EQ 389 s32 EINVAL (gets errno);;
  mp ← EXPECT_EQ_SET 390 1 is_null (cplus_mempool_new 3 (2 ^ 30));
  UNITTEST_EXPECT_EQ 391 s32 ENOMEM (gets errno);;
  mret tt.

Definition cplus_mempool_alloc_no_mempool : T :=
  test_block0 ← EXPECT_EQ_SET 396 1 not_null (cplus_malloc (Helper.sizeof test_block));
  test_block1 ← EXPECT_EQ_SET 397 1 not_null (cplus_malloc (Helper.sizeof test_block));
  test_block2 ← EXPECT_EQ_SET 398 1 not_null (cplus_malloc (Helper.sizeof test_block));
  three_blocks 399 test_block0 test_block1 test_block2;;
  UNITTEST_EXPECT_EQ 423 s32 CPLUS_SUCCESS (cplus_free test_block0);;
  UNITTEST_EXPECT_EQ 424 s32 CPLUS_SUCCESS (cplus_free test_block1);;
  UNITTEST_EXPECT_EQ 425 s32 CPLUS_SUCCESS (cplus_free test_block2);;
  mret tt.

Definition cplus_mempool_get_index_functionity : T :=
  mp ← EXPECT_EQ_SET 476 1 not_null (cplus_mempool_new_s 5 4);
  addr ← alloc_all 5 479 mp;
  UNITTEST_EXPECT_EQ 481 s32 0 (cplus_mempool_get_index mp (zat addr 0));;
  UNITTEST_EXPECT_EQ 482 s32 1 (cplus_mempool_get_index mp (zat addr 1));;
  UNITTEST_EXPECT_EQ 483 s32 2 (cplus_mempool_get_index mp (zat addr 2));;
  UNITTEST_EXPECT_EQ 484 s32 3 (cplus_mempool_get_index mp (zat addr 3));;
  UNITTEST_EXPECT_EQ 485 s32 4 (cplus_mempool_get_index mp (zat addr 4));;
  UNITTEST_EXPECT_EQ 486 s32 CPLUS_SUCCESS (cplus_mempool_free mp (zat addr 2));;
  new_addr ← EXPECT_EQ_SET 487 1 not_null (cplus_mempool_alloc mp);
  UNITTEST_EXPECT_EQ 488 s32 2 (cplus_mempool_get_index mp new_addr);;
  UNITTEST_EXPECT_EQ 489 s32 CPLUS_SUCCESS (cplus_mempool_free mp (zat addr 1));;
  UNITTEST_EXPECT_EQ 490 s32 CPLUS_SUCCESS (cplus_mempool_free mp (zat addr 3));;
  new_addr ← EXPECT_EQ_SET 491 1 not_null (cplus_mempool_alloc mp);
  UNITTEST_EXPECT_EQ 492 s32 3 (cplus_mempool_get_index mp new_addr);;
  new_addr ← EXPECT_EQ_SET 493 1 not_null (cplus_mempool_alloc mp);
  UNITTEST_EXPECT_EQ 494 s32 1 (cplus_mempool_get_index mp new_addr);;
  UNITTEST_EXPECT_EQ 495 s32 CPLUS_SUCCESS (cplus_mempool_delete mp);;
  UNITTEST_EXPECT_EQ 496 s32 0 cplus_mgr_report;;
  mret tt.

Definition cplus_mempool_get_addr_by_index_functionity : T :=
  mp ← EXPECT_EQ_SET 504 1 not_null (cplus_mempool_new_s 5 4);
  addr ← alloc_all 5 507 mp;
  UNITTEST_EXPECT_EQ 509 s32 1 (same_address (zat addr 0) (cplus_mempool_get_addr_by_index mp 0));;
  UNITTEST_EXPECT_EQ 510 s32 1 (same_address (zat addr 1) (cplus_mempool_get_addr_by_index mp 1));;
  UNITTEST_EXPECT_EQ 511 s32 1 (same_address (zat addr 2) (cplus_mempool_get_addr_by_index mp 2));;
  UNITTEST_EXPECT_EQ 512 s32 1 (same_address (zat addr 3) (cplus_mempool_get_addr_by_index mp 3));;
  UNITTEST_EXPECT_EQ 513 s32 1 (same_address (zat addr 4) (cplus_mempool_get_addr_by_index mp 4));;
  UNITTEST_EXPECT_EQ 514 s32 CPLUS_SUCCESS (cplus_mempool_delete mp);;
  UNITTEST_EXPECT_EQ 515 s32 0 cplus_mgr_report;;
  mret tt.

Definition cplus_mempool_alloc_as_index_functionity : T :=
  mp ← EXPECT_EQ_SET 522 1 not_null (cplus_mempool_new_s 5 4);
  alloc_indices 5 525 mp 0;;
  UNITTEST_EXPECT_EQ 527 s32 CPLUS_SUCCESS (cplus_mempool_delete mp);;
  UNITTEST_EXPECT_EQ 528 s32 0 cplus_mgr_report;;
  mret tt.

Definition cplus_mempool_free_by_index_functionity : T :=
  mp ← EXPECT_EQ_SET 534 1 not_null (cplus_mempool_new_s 5 4);
  alloc_indices 5 537 mp 0;;
  UNITTEST_EXPECT_EQ 539 s32 CPLUS_SUCCESS (cplus_mempool_free_by_index mp 0);;
  UNITTEST_EXPECT_EQ 540 s32 0 (cplus_mempool_alloc_as_index mp);;
  UNITTEST_EXPECT_EQ 541 s32 CPLUS_SUCCESS (cplus_mempool_free_by_index mp 3);;
  UNITTEST_EXPECT_EQ 542 s32 3 (cplus_mempool_alloc_as_index mp);;
  UNITTEST_EXPECT_EQ 543 s32 CPLUS_SUCCESS (cplus_mempool_free_by_index mp 1);;
  UNITTEST_EXPECT_EQ 544 s32 1 (cplus_mempool_alloc_as_index mp);;
  UNITTEST_EXPECT_EQ 545 s32 CPLUS_SUCCESS (cplus_mempool_free_by_index mp 4);;
  UNITTEST_EXPECT_EQ 546 s32 4 (cplus_mempool_alloc_as_index mp);;
  UNITTEST_EXPECT_EQ 547 s32 CPLUS_SUCCESS (cplus_mempool_free_by_index mp 2);;
  UNITTEST_EXPECT_EQ 548 s32 2 (cplus_mempool_alloc_as_index mp);;
  UNITTEST_EXPECT_EQ 549 s32 CPLUS_SUCCESS (cplus_mempool_free_by_index mp 0);;
  UNITTEST_EXPECT_EQ 550 s32 CPLUS_SUCCESS (cplus_mempool_free_by_index mp 1);;
  UNITTEST_EXPECT_EQ 551 s32 CPLUS_SUCCESS (cplus_mempool_free_by_index mp 2);;
  UNITTEST_EXPECT_EQ 552 s32 CPLUS_SUCCESS (cplus_mempool_free_by_index mp 3);;
  UNITTEST_EXPECT_EQ 553 s32 CPLUS_SUCCESS (cplus_mempool_free_by_index mp 4);;
  UNITTEST_EXPECT_EQ 554 s32 4 (cplus_mempool_alloc_as_index mp);;
  UNITTEST_EXPECT_EQ 555 s32 3 (cplus_mempool_alloc_as_index mp);;
  UNITTEST_EXPECT_EQ 556 s32 2 (cplus_mempool_alloc_as_index mp);;
  UNITTEST_EXPECT_EQ 557 s32 1 (cplus_mempool_alloc_as_index mp);;
  UNITTEST_EXPECT_EQ 558 s32 0 (cplus_mempool_alloc_as_index mp);;
  UNITTEST_EXPECT_EQ 559 s32 CPLUS_SUCCESS (cplus_mempool_delete mp);;
  UNITTEST_EXPECT_EQ 560 s32 0 cplus_mgr_report;;
  mret tt.

(** [unittest_mempool]; the case [cplus_mempool_new, bad_parameter] is commented out. *)
Definition unittest_mempool : list (@named_test world) :=
  [("cplus_mempool_alloc", "functionity", cplus_mempool_alloc_functionity);
   ("cplus_mempool_alloc", "overlap", cplus_mempool_alloc_overlap);
   ("cplus_mempool_alloc", "overlap_struct", cplus_mempool_alloc_overlap_struct);
   ("cplus_mempool_alloc", "no_mempool", cplus_mempool_alloc_no_mempool);
   ("cplus_mempool_new_s", "functionity", cplus_mempool_new_s_functionity);
   ("cplus_mempool_get_index", "functionity", cplus_mempool_get_index_functionity);
   ("cplus_mempool_get_addr_by_index", "functionity", cplus_mempool_get_addr_by_index_functionity);
   ("cplus_mempool_alloc_as_index", "functionity", cplus_mempool_alloc_as_index_functionity);
   ("cplus_mempool_free_by_index", "functionity", cplus_mempool_free_by_index_functionity)]%string.

End tests.

Definition start : world := World ∅ ∅ 0x10000 0.

(** ** Theorems *)

(** the tests of the pool all pass on the model, whatever fresh memory holds. *)
Theorem mempool_tests_pass any :
  report_of (unittest_mempool any) start = Done (9%nat, 240%nat, [], 0).
Proof. vm_compute. reflexivity. Qed.

(** the test that is not run fails when three blocks of 1 GiB are obtained: it
    expects [ENOMEM] for a size that is below 2^32. *)
Theorem bad_parameter_needs_refusal any :
  match cplus_mempool_new_bad_parameter any (TState start false 0 0 1000 []) with
  | Done (_, t) => unmet (out t) = [(391, EINVAL, ENOMEM); (390, 0, 1)]
  | _ => False
  end.
Proof. vm_compute. reflexivity. Qed.

End MempoolTests.
