(* ===== verification/AtomicTests.v ===== *)
(** * AtomicTests: the tests of src/atomic.c, run on the model

    The tests, statement for statement, over a memory of words of 32 bits; a
    pointer is the address of its target.  The two tests with a hundred threads
    are sequences of additions: all of them add one, so that every interleaving is
    the same sequence. *)

From S2P Require Import Prelude Atomic Unittest.
From stdpp Require Import base numbers list option gmap strings.
From Stdlib Require Import ZArith Lia.
Open Scope Z_scope.

Module AtomicTests.
Import Atomic Unittest.
#[local] Notation W := (C (gmap Z Z)).
#[local] Notation T := (C (tstate (gmap Z Z)) unit).

(** ** The variables *)

Definition test_value : Z := 0x1000.
Definition test_value_ptr : Z := 0x1010.
Definition test_value_ptr_ptr : Z := 0x1018.
Definition x : Z := 0x1020.
Definition y : Z := 0x1024.
Definition z : Z := 0x1028.
Definition xp : Z := 0x1030.
Definition yp : Z := 0x1038.
Definition zp : Z := 0x1040.
Definition xpp : Z := 0x1048.
Definition ypp : Z := 0x1050.
Definition zpp : Z := 0x1058.

(** The words of the program at its start. *)
Definition statics : gmap Z Z := list_to_map
  [(test_value, 0); (test_value_ptr, test_value); (test_value_ptr_ptr, test_value_ptr);
   (x, 0x12345678); (y, 0x87654321); (z, 0); (xp, x); (yp, y); (zp, z); (xpp, xp); (ypp, yp); (zpp, zp)].

(** The value of an [int32_t], an assignment to one, and an assignment as a value. *)
Definition int32 (m : W Z) : W Z := v ← m; mret (s32 v).
Definition assign (ptr v : Z) : W unit := Atomic.store 32 ptr v.
Definition assigned (ptr v : Z) : W Z := assign ptr v;; int32 (Atomic.load ptr).
(** [*ptr] and [**ptr]. *)
Definition deref1 (ptr : Z) : W Z := p ← Atomic.load ptr; Atomic.load p.
Definition deref2 (ptr : Z) : W Z := p ← deref1 ptr; int32 (Atomic.load p).

(** [a == b] of pointers: the operands in either order. *)
Definition equal_to (left_first : bool) (a b : W Z) : W Z :=
  if left_first then u ← a; v ← b; mret (Z.b2z (u =? v))
  else v ← b; u ← a; mret (Z.b2z (u =? v)).

(** ** Threads *)

Definition TASK_COUNT : N := 100.
Definition CALC_TIMES : N := 10000000.

(** [tasks] threads call [f] [times] times each. *)
Definition TASK_RUNNING (tasks times : N) (f : W Z) : W unit :=
  assign test_value 0;; Atomic.run (replicate (N.to_nat (tasks * times)) f);; mret tt.

Definition task_atomic_add : W Z := cplus_atomic_add 32 test_value 1.
Definition task_atomic_fetch_add : W Z := cplus_atomic_fetch_add 32 test_value 1.

(** ** The tests *)

Definition cplus_atomic_read_functionity : T :=
  lift (assign test_value 0x12345678);;
  UNITTEST_EXPECT_EQ 126 s32 0x12345678 (int32 (cplus_atomic_read test_value));;
  mret tt.

Definition cplus_atomic_write_functionity : T :=
  lift (assign test_value 0x12345678);;
  UNITTEST_EXPECT_EQ 132 s32 0x87654321
    (cplus_atomic_write 32 test_value 0x87654321;; int32 (Atomic.load test_value));;
  mret tt.

Definition cplus_atomic_exchange_functionity : T :=
  lift (assign test_value 0x12345678);;
  UNITTEST_EXPECT_EQ 138 s32 0x12345678 (int32 (cplus_atomic_exchange 32 test_value 0x87654321));;
  UNITTEST_EXPECT_EQ 139 s32 0x87654321 (int32 (Atomic.load test_value));;
  mret tt.

(** Set the word, operate on it, look at it: what ten of the tests do. *)
Definition operation (line start : Z) (op : Z → Z → W Z) (value result after : Z) : T :=
  lift (assign test_value start);;
  UNITTEST_EXPECT_EQ line s32 result (int32 (op test_value value));;
  UNITTEST_EXPECT_EQ (line + 1) s32 after (int32 (Atomic.load test_value));;
  mret tt.

Definition cplus_atomic_add_functionity : T := operation 145 0 (cplus_atomic_add 32) 1 1 1.
Definition cplus_atomic_add_counter (tasks times : N) : T :=
  lift (TASK_RUNNING tasks times task_atomic_add);;
  UNITTEST_EXPECT_EQ 152 s32 1000000000 (int32 (Atomic.load test_value));; mret tt.
Definition cplus_atomic_fetch_add_functionity : T :=
  operation 158 0 (cplus_atomic_fetch_add 32) 1 CPLUS_SUCCESS 1.
Definition cplus_atomic_fetch_add_counter (tasks times : N) : T :=
  lift (TASK_RUNNING tasks times task_atomic_fetch_add);;
  UNITTEST_EXPECT_EQ 165 s32 1000000000 (int32 (Atomic.load test_value));; mret tt.
Definition cplus_atomic_and_functionity : T :=
  operation 171 0x0f0f0f0f (cplus_atomic_and 32) 0xffffffff 0x0f0f0f0f 0x0f0f0f0f.
Definition cplus_atomic_fetch_and_functionity : T :=
  operation 178 0x0f0f0f0f (cplus_atomic_fetch_and 32) 0xf0f0f0f0 0x0f0f0f0f 0x00000000.
Definition cplus_atomic_or_functionity : T :=
  operation 185 0x0f0f0f0f (cplus_atomic_or 32) 0xf0f0f0f0 0xffffffff 0xffffffff.
Definition cplus_atomic_fetch_or_functionity : T :=
  operation 192 0x0000ffff (cplus_atomic_fetch_or 32) 0xffff0000 0x0000ffff 0xffffffff.
Definition cplus_atomic_xor_functionity : T :=
  operation 199 0x0f0f0f0f (cplus_atomic_xor 32) 0xf0f0f0f0 0xffffffff 0xffffffff.
Definition cplus_atomic_fetch_xor_functionity : T :=
  operation 206 0xff00ff00 (cplus_atomic_fetch_xor 32) 0xff00ff00 0xff00ff00 0x00000000.
Definition cplus_atomic_nand_functionity : T :=
  operation 213 0xffffffff (cplus_atomic_nand 32) 0xffffffff 0x00000000 0x00000000.
Definition cplus_atomic_fetch_nand_functionity : T :=
  operation 220 0xffffffff (cplus_atomic_fetch_nand 32) 0xffffffff 0xffffffff 0x00000000.

Definition cplus_atomic_read_ptr_functionity (left_first : bool) : T :=
  UNITTEST_EXPECT_EQ 226 s32 1 (equal_to left_first (Atomic.load test_value_ptr)
    (p ← Atomic.load test_value_ptr_ptr; cplus_atomic_read_ptr p));;
  mret tt.

Definition value_of (v : Z) : Z := default 0 (s32 <$> statics !! v).

Definition cplus_atomic_write_ptr_functionity : T :=
  UNITTEST_EXPECT_EQ 231 s32 (value_of x) (p ← Atomic.load xp; cplus_atomic_write_ptr zp p;; deref2 zpp);;
  UNITTEST_EXPECT_EQ 232 s32 (value_of y) (p ← Atomic.load yp; cplus_atomic_write_ptr xp p;; deref2 xpp);;
  UNITTEST_EXPECT_EQ 233 s32 (value_of x) (p ← Atomic.load zp; cplus_atomic_write_ptr xp p;; deref2 xpp);;
  mret tt.

Definition cplus_atomic_exchange_ptr_functionity (left_first : bool) : T :=
  UNITTEST_EXPECT_EQ 238 s32 1 (equal_to left_first (deref1 zpp) (p ← Atomic.load xp; cplus_atomic_exchange_ptr zp p));;
  UNITTEST_EXPECT_EQ 239 s32 (value_of x) (deref2 xpp);;
  UNITTEST_EXPECT_EQ 240 s32 1 (equal_to left_first (deref1 xpp) (p ← Atomic.load yp; cplus_atomic_exchange_ptr xp p));;
  UNITTEST_EXPECT_EQ 241 s32 (value_of y) (deref2 xpp);;
  UNITTEST_EXPECT_EQ 242 s32 1 (equal_to left_first (deref1 xpp) (p ← Atomic.load zp; cplus_atomic_exchange_ptr xp p));;
  UNITTEST_EXPECT_EQ 243 s32 (value_of x) (deref2 xpp);;
  UNITTEST_EXPECT_EQ 244 s32 (value_of y) (deref2 ypp);;
  UNITTEST_EXPECT_NE 245 s32 (value_of z) (deref2 zpp);;
  mret tt.

(** The three variables of the test are words of its stack; the exchange answers a
    [bool]. *)
Definition cplus_atomic_compare_exchange_functionity : T :=
  let currect_value := 0x7000 in let expect_value := 0x7004 in let new_value := 0x7008 in
  lift (modify (λ m, <[currect_value := 0]> (<[expect_value := 0]> (<[new_value := 2]> m))));;
  let exchange : W Z := b ← cplus_atomic_compare_exchange 32 currect_value expect_value new_value; mret (Z.b2z b) in
  UNITTEST_EXPECT_EQ 252 as_bool 1 exchange;;
  UNITTEST_EXPECT_EQ 253 s32 2 (int32 (Atomic.load currect_value));;
  UNITTEST_EXPECT_EQ 254 s32 3 (assigned currect_value 3);;
  UNITTEST_EXPECT_EQ 255 s32 4 (assigned expect_value 4);;
  UNITTEST_EXPECT_EQ 256 as_bool 0 exchange;;
  UNITTEST_EXPECT_EQ 257 s32 3 (int32 (Atomic.load currect_value));;
  mret tt.

(** The cases of [unittest_atomic] in their order; the counters run [tasks] threads
    of [times] calls. *)
Definition unittest_atomic (left_first : bool) (tasks times : N) : list (@named_test (gmap Z Z)) :=
  [("cplus_atomic_read", "functionity", cplus_atomic_read_functionity);
   ("cplus_atomic_write", "functionity", cplus_atomic_write_functionity);
   ("cplus_atomic_exchange", "functionity", cplus_atomic_exchange_functionity);
   ("cplus_atomic_add", "functionity", cplus_atomic_add_functionity);
   ("cplus_atomic_add", "counter", cplus_atomic_add_counter tasks times);
   ("cplus_atomic_fetch_add", "functionity", cplus_atomic_fetch_add_functionity);
   ("cplus_atomic_fetch_add", "counter", cplus_atomic_fetch_add_counter tasks times);
   ("cplus_atomic_and", "functionity", cplus_atomic_and_functionity);
   ("cplus_atomic_fetch_and", "functionity", cplus_atomic_fetch_and_functionity);
   ("cplus_atomic_or", "functionity", cplus_atomic_or_functionity);
   ("cplus_atomic_fetch_or", "functionity", cplus_atomic_fetch_or_functionity);
   ("cplus_atomic_xor", "functionity", cplus_atomic_xor_functionity);
   ("cplus_atomic_fetch_xor", "functionity", cplus_atomic_fetch_xor_functionity);
   ("cplus_atomic_nand", "functionity", cplus_atomic_nand_functionity);
   ("cplus_atomic_fetch_nand", "functionity", cplus_atomic_fetch_nand_functionity);
   ("cplus_atomic_read_ptr", "functionity", cplus_atomic_read_ptr_functionity left_first);
   ("cplus_atomic_write_ptr", "functionity", cplus_atomic_write_ptr_functionity);
   ("cplus_atomic_exchange_ptr", "functionity", cplus_atomic_exchange_ptr_functionity left_first);
   ("cplus_atomic_compare_exchange", "functionity", cplus_atomic_compare_exchange_functionity)]%string.

(** ** Theorems *)

(** A run of the threads leaves the sum of what they added. *)
Lemma tasks_add (f : W Z) (m : gmap Z Z) v tasks times :
  m !! test_value = Some v → f = task_atomic_add ∨ f = task_atomic_fetch_add →
  TASK_RUNNING tasks times f m = Done (tt, <[test_value := wrap 32 (Z.of_N (tasks * times))]> m).
Proof.
  intros H Hf. unfold TASK_RUNNING, assign.
  rewrite (bind_Done _ _ _ _ _ (word_store 32 _ 0 m v H)).
  set (m0 := <[test_value := wrap 32 0]> m).
  assert (m0 !! test_value = Some (wrap 32 0)) as H0 by apply lookup_insert_eq.
  assert (∃ rs, run (replicate (N.to_nat (tasks * times)) f) m0
    = Done (rs, <[test_value := wrap 32 (Z.of_N (tasks * times))]> m0)) as [rs E].
  { destruct Hf as [-> | ->].
    - destruct (adds_run 32 test_value (replicate (N.to_nat (tasks * times)) 1) m0 0 H0) as [rs E].
      exists rs. unfold task_atomic_add. rewrite fmap_replicate in E. rewrite E. do 4 f_equal.
      assert (∀ n, sum (replicate n 1) = Z.of_nat n) as Es.
      { induction n as [|n IH]; [done|]. unfold sum in *. cbn [replicate foldr]. rewrite IH. lia. }
      rewrite Es. lia.
    - eexists. unfold task_atomic_fetch_add. rewrite (tickets_run 32 test_value _ m0 0 H0). do 5 f_equal. lia. }
  rewrite (bind_Done _ _ _ _ _ E). unfold m0. by rewrite insert_insert_eq.
Qed.

(** the two counting tests, with a hundred threads that add one ten million
    times each, meet their expectation whatever the word held before, and print
    nothing but that it was checked. *)
Theorem counters_pass (test : N → N → T) line v s :
  world s !! test_value = Some v →
  test = cplus_atomic_add_counter ∧ line = 152 ∨ test = cplus_atomic_fetch_add_counter ∧ line = 165 →
  ∃ s', test TASK_COUNT CALC_TIMES s = Done (tt, s') ∧ world s' !! test_value = Some 1000000000 ∧
    out s' = Expected line :: out s ∧ failed s' = failed s ∧ total_failed_count s' = total_failed_count s.
Proof.
  intros Hv Ht.
  assert (∀ f, f = task_atomic_add ∨ f = task_atomic_fetch_add →
    lift (TASK_RUNNING TASK_COUNT CALC_TIMES f) s
    = Done (tt, Unittest.with_world (<[test_value := 1000000000]> (world s)) s)) as E.
  { intros f Hf. unfold lift. by rewrite (tasks_add f (world s) v TASK_COUNT CALC_TIMES Hv Hf). }
  destruct Ht as [[-> ->] | [-> ->]].
  - unfold cplus_atomic_add_counter. rewrite (bind_Done _ _ _ _ _ (E _ (or_introl eq_refl))).
    unfold UNITTEST_EXPECT_EQ, expectation, lift, int32, Atomic.load, deref, gets, modify, mbind, C_bind, mret, C_ret.
    cbn. rewrite lookup_insert_eq. cbn. eexists. split; [reflexivity|]. cbn. by rewrite lookup_insert_eq.
  - unfold cplus_atomic_fetch_add_counter. rewrite (bind_Done _ _ _ _ _ (E _ (or_intror eq_refl))).
    unfold UNITTEST_EXPECT_EQ, expectation, lift, int32, Atomic.load, deref, gets, modify, mbind, C_bind, mret, C_ret.
    cbn. rewrite lookup_insert_eq. cbn. eexists. split; [reflexivity|]. cbn. by rewrite lookup_insert_eq.
Qed.

Lemma counters_pass_witness :
  statics !! test_value = Some 0 ∧
  ∃ s', cplus_atomic_add_counter TASK_COUNT CALC_TIMES (TState statics false 0 0 1 []) = Done (tt, s') ∧
    world s' !! test_value = Some 1000000000.
Proof.
  split; [reflexivity|].
  destruct (counters_pass cplus_atomic_add_counter 152 0 (TState statics false 0 0 1 []))
    as (s' & E & H & _); [reflexivity|left; split; reflexivity|].
  exists s'. split; [exact E|exact H].
Defined.

(** (code bug) the test of [cplus_atomic_exchange_ptr] compares a variable with
    the result of the call that changes it, and C does not say which is read first:
    two of its expectations fail when the call is. *)
Theorem exchange_test_depends_on_order :
  let run left_first := cplus_atomic_write_ptr_functionity;; cplus_atomic_exchange_ptr_functionity left_first in
  let failures left_first := match run left_first (TState statics false 0 0 1 []) with
                             | Done (_, s) => Some (unmet (out s)) | _ => None end in
  failures true = Some [] ∧ failures false = Some [(242, 0, 1); (240, 0, 1)].
Proof. split; vm_compute; reflexivity. Qed.

(** the other seventeen tests pass, when the operands are evaluated from the
    left. *)
Theorem atomic_tests_pass :
  let cases := filter (λ '(_, n, _), n = "functionity"%string) (unittest_atomic true TASK_COUNT CALC_TIMES) in
  report_of cases statics = Done (17%nat, 41%nat, [], 0).
Proof. vm_compute. reflexivity. Qed.

End AtomicTests.
