(* ===== verification/FileTests.v ===== *)
(** * FileTests: the tests of src/file.c, run on the model

    The tests, statement for statement, over the world of File.v.  The second test
    leaves its file for the third. *)

From S2P Require Import Prelude Zlist Stdio Keyed File Unittest.
From stdpp Require Import base numbers list option gmap strings.
From Stdlib Require Import ZArith Lia.
Open Scope Z_scope.

Module FileTests.
Import File Unittest.
#[local] Notation W := (C File.world).
#[local] Notation T := (C (tstate File.world) unit).

Definition TEST_FILE : list Z := cstr "/var/tmp/test".
Definition TEST_STR : list Z := cstr "Hello World".
Definition strlen (s : list Z) : Z := zlen s.

(** Expectations of a pointer, of [true == b] and [false == b], of a [bool]. *)
Definition not_null_ptr (p : option nat) : Z := Z.b2z (bool_decide (is_Some p)).
Definition expect_ptr (line : Z) (actual : W (option nat)) : C (tstate File.world) (option nat) :=
  expectation differ line s32 1 actual not_null_ptr.
Definition is_true (m : W bool) : W Z := b ← m; mret (Z.b2z b).
Definition is_false (m : W bool) : W Z := b ← m; mret (Z.b2z (negb b)).

(** A call on the object; the null pointer fails the assertion. *)
Definition on {A} (file : option nat) (f : nat → W A) : W A :=
  match file with Some o => f o | None => abort end.
(** [cplus_file_check] of the object, whose tag is the one of files. *)
Definition cplus_file_check (file : option nat) : W bool :=
  match file with
  | Some o => the_file o;; mret (File.cplus_file_check (Some OBJ_TYPE))
  | None => mret (File.cplus_file_check None)
  end.

(** [cplus_file_read(file, sizeof(rr), rr)]: the answer, and [rr] after it. *)
Definition read_into (file : option nat) (rr : list Z) : W (Z * list Z) :=
  '(r, l) ← on file (λ o, cplus_file_read o (zlen rr) true);
  mret (r, l ++ drop (length l) rr).
Definition strcmp (a rr : list Z) : W Z := t ← deref (λ _, Stdio.cstr rr); mret (Keyed.strcmp a t).
(** [memcmp(bufs, b, n)] of the buffer of an object. *)
Definition memcmp (bufs : option nat) (b : list Z) (n : W Z) : W Z :=
  k ← n;
  bs ← deref (λ w, a ← bufs; match File.heap w !! a with Some (Data _ l) => Some l | _ => None end);
  if (k <=? zlen bs) && (k <=? zlen b) then mret (Keyed.strcmp (take (Z.to_nat k) bs) (take (Z.to_nat k) b)) else undef.
Definition is_zero (m : W Z) : W Z := v ← m; mret (Z.b2z (0 =? v)).

Definition cplus_mgr_report : W Z := gets (λ w, Z.of_nat (size (File.heap w))).

(** ** The tests *)

Definition new_file (line acc : Z) : C (tstate File.world) (option nat) :=
  expect_ptr line (cplus_file_new_ex TEST_FILE acc CPLUS_FILE_FLAG_CREATE CPLUS_FILE_MODE_ALL).
Definition expect_exist (line : Z) : T :=
  UNITTEST_EXPECT_EQ line s32 1 (is_true (cplus_file_is_exist (Some TEST_FILE)));; mret tt.
Definition expect_write (line : Z) (file : option nat) : T :=
  UNITTEST_EXPECT_EQ line s32 (strlen TEST_STR)
    (on file (λ o, cplus_file_write o (strlen TEST_STR) (Some (TEST_STR ++ [0]))));; mret tt.
Definition expect_delete (line : Z) (file : option nat) : T :=
  UNITTEST_EXPECT_EQ line s32 CPLUS_SUCCESS (on file cplus_file_delete);; mret tt.
(** The file is removed, and is gone. *)
Definition expect_remove (line : Z) : T :=
  UNITTEST_EXPECT_EQ line s32 CPLUS_SUCCESS (cplus_file_remove (Some TEST_FILE));;
  UNITTEST_EXPECT_EQ (line + 1) s32 1 (is_false (cplus_file_is_exist (Some TEST_FILE)));; mret tt.
Definition expect_report (line : Z) : T := UNITTEST_EXPECT_EQ line s32 0 cplus_mgr_report;; mret tt.
Definition expect_read (line : Z) (file : option nat) (rr : list Z) : T :=
  rr ← EXPECT_EQ_OUT line s32 (strlen TEST_STR) (read_into file rr);
  UNITTEST_EXPECT_EQ (line + 1) s32 1 (is_zero (strcmp TEST_STR rr));; mret tt.

Definition cplus_file_new_functionity : T :=
  file ← new_file 376 CPLUS_FILE_ACCESS_RDWR;
  UNITTEST_EXPECT_EQ 378 s32 1 (is_true (cplus_file_check file));;
  expect_exist 379;;
  expect_delete 380 file;;
  expect_remove 381;;
  expect_report 383.

Definition cplus_file_write_functionity : T :=
  file ← new_file 390 CPLUS_FILE_ACCESS_WRONLY;
  expect_exist 392;;
  expect_write 393 file;;
  expect_delete 394 file;;
  expect_report 395.

Definition cplus_file_read_functionity : T :=
  let rr := replicate 32 0 in
  file ← new_file 403 CPLUS_FILE_ACCESS_RDONLY;
  expect_exist 405;;
  expect_read 406 file rr;;
  expect_delete 408 file;;
  expect_remove 409;;
  expect_report 411.

Definition cplus_file_get_data_size_functionity : T :=
  file ← new_file 418 CPLUS_FILE_ACCESS_WRONLY;
  expect_exist 420;;
  expect_write 421 file;;
  UNITTEST_EXPECT_EQ 422 s32 (strlen TEST_STR) (on file cplus_file_get_data_size);;
  expect_delete 423 file;;
  expect_remove 424;;
  expect_report 426.

Definition cplus_file_get_data_functionity : T :=
  let rr := replicate 32 0 in
  file ← new_file 435 CPLUS_FILE_ACCESS_RDWR;
  expect_exist 437;;
  expect_write 438 file;;
  bufs ← expect_ptr 439 (on file cplus_file_get_data);
  UNITTEST_EXPECT_EQ 440 s32 1 (is_zero (memcmp bufs TEST_STR (on file cplus_file_get_data_size)));;
  UNITTEST_EXPECT_EQ 441 s32 0 (on file cplus_file_reset_pos);;
  expect_read 442 file rr;;
  expect_delete 444 file;;
  expect_remove 445;;
  expect_report 447.

Definition unittest_file : list (@named_test File.world) :=
  [("cplus_file_new", "functionity", cplus_file_new_functionity);
   ("cplus_file_write", "functionity", cplus_file_write_functionity);
   ("cplus_file_read", "functionity", cplus_file_read_functionity);
   ("cplus_file_get_data_size", "functionity", cplus_file_get_data_size_functionity);
   ("cplus_file_get_data", "functionity", cplus_file_get_data_functionity)]%string.

(** A machine with [ram] bytes free and the standard descriptors open, in which
    the file is absent, or there with the bytes [old]. *)
Definition start (ram : Z) (old : option (list Z)) : File.world :=
  let fs := list_to_map [(0, Desc 0 0 2); (1, Desc 0 0 2); (2, Desc 0 0 2)] in
  let tty := Inode 0x2000 [] true true false in
  match old with
  | None => File.World ∅ {[0%nat := tty]} fs None (Some ram) ∅ [] 0
  | Some l => File.World {[TEST_FILE := 1%nat]} {[0%nat := tty; 1%nat := Inode S_IFREG l true true false]}
                fs None (Some ram) ∅ [] 0
  end.

(** ** Theorems *)

(** the five tests pass, when the file was not there and when it was, with any
    bytes in it: the first test removes it. *)
Theorem file_tests_pass old :
  report_of unittest_file (start 0x10000000 old) = Done (5%nat, 40%nat, [], 0).
Proof. destruct old; vm_compute; reflexivity. Qed.

(** with 11 bytes free the test of [cplus_file_get_data] goes on with a null
    pointer after its failed expectation, and crashes in [memcmp]. *)
Theorem low_memory_crashes :
  report_of unittest_file (start 11 None) = Undefined ∧
  report_of (take 4 unittest_file) (start 11 None) = Done (4%nat, 28%nat, [], 0).
Proof. split; vm_compute; reflexivity. Qed.

End FileTests.
