(* ===== verification/MemdebugCopy.v ===== *)
(** * MemdebugCopy: copying under the memory manager (src/memmgr.c, debug build)

    With [__CPLUS_MEM_MANAGER__] the functions that write to memory first look
    their destination up in the table of blocks and assert that what they write fits.
    A source is given by its bytes; it lies outside of the destination. *)

From S2P Require Import Prelude Allocator Zlist Memdebug MemdebugInv MemdebugProps.
From stdpp Require Import base numbers list list_numbers option gmap sets.
From Stdlib Require Import ZArith Lia.
Open Scope Z_scope.

Module MemdebugCopy.
Import Heap Memdebug MemdebugInv MemdebugProps.

Section copy.
Context {A : Type} `{Allocator A}.
Notation S := (st A).
Notation M := (C (st A)).
Implicit Types (s : S).

(** ** The functions *)

(** Bytes at an address in a block. *)
Definition write_bytes (a : address) (l : list Z) : M unit :=
  bs ← deref (λ s, mem s !! a.1);
  if (0 <=? a.2) && (a.2 + zlen l <=? zlen bs) then
    modify (λ s, with_mem (<[a.1 := take (Z.to_nat a.2) bs ++ l ++ drop (Z.to_nat a.2 + length l) bs]> (mem s)) s)
  else undef.

(** The first [count] bytes of the source. *)
Definition source (src : list Z) (count : Z) : M (list Z) :=
  if count <=? zlen src then mret (take (Z.to_nat count) src) else undef.

Definition check_if {B} (b : bool) (v : B) (k : M B) : M B :=
  if b then set_errno EINVAL;; mret v else k.

Definition cplus_mem_cpy (dest : option address) (src : option (list Z)) (count : Z) : M (option address) :=
  check_not_null dest None (λ dp,
    check_not_null src None (λ sp,
      check_if (0 =? count) None (
        ok ← check_size dp count;
        assert_c (CPLUS_SUCCESS =? ok);;
        l ← source sp count;
        write_bytes dp l;;
        mret (Some dp)))).

Definition cplus_mem_cpy_ex (dest : option address) (destsz : Z) (src : option (list Z)) (count : Z) :
    M (option address) :=
  check_not_null dest None (λ dp,
    check_not_null src None (λ sp,
      check_if (0 =? destsz) None (
      check_if (RSIZE_MAX_MEM <? destsz) None (
      check_if (0 =? count) None (
      check_if (destsz <? count) None (
        ok ← check_size dp count;
        assert_c (CPLUS_SUCCESS =? ok);;
        l ← source sp count;
        write_bytes dp l;;
        mret (Some dp))))))).

Definition cplus_mem_set (dest : option address) (value count : Z) : M (option address) :=
  check_not_null dest None (λ dp,
    check_if (RSIZE_MAX_MEM <? count) None (
    check_if (0 =? count) None (
      ok ← check_size dp count;
      assert_c (CPLUS_SUCCESS =? ok);;
      write_bytes dp (replicate (Z.to_nat count) value);;
      mret (Some dp)))).

(** [text] is what the format and its arguments print; the answer is its length,
    and as much of it is stored as leaves room for the final zero. *)
Definition cplus_str_printf (str : address) (size : Z) (text : M (list Z)) : M Z :=
  ok ← check_size str size;
  assert_c (CPLUS_SUCCESS =? ok);;
  t ← text;
  (if size =? 0 then mret tt else write_bytes str (take (Z.to_nat (size - 1)) t ++ [0]));;
  mret (s32 (zlen t)).

(** ** Writing within a block *)

(** The block after [l] was written to the client's part. *)
Definition written (bs l : list Z) : list Z := take 4 bs ++ l ++ drop (4 + length l) bs.

Lemma zlen_written bs l n : zlen bs = n + 2 * word → zlen l ≤ n → zlen (written bs l) = zlen bs.
Proof using Type.
  unfold zlen, word, written. intros. rewrite !length_app, length_take, length_drop. lia.
Qed.

Lemma written_guarded bs l n : guarded bs n → zlen l ≤ n → guarded (written bs l) n.
Proof using Type.
  intros (Hl & H1 & H2) Hn. split; [by rewrite (zlen_written bs l n)|].
  unfold word_at, word, zlen, written in *. split.
  - rewrite <- H1. rewrite !drop_0, take_app_le by (rewrite length_take; lia). by rewrite take_take.
  - rewrite <- H2. do 2 f_equal. rewrite app_assoc, drop_app_ge by (rewrite length_app, length_take; lia).
    rewrite drop_drop, length_app, length_take. f_equal. lia.
Qed.

Lemma written_payload bs l n : guarded bs n → zlen l ≤ n →
  payload (written bs l) n = l ++ drop (length l) (payload bs n).
Proof using Type.
  intros (Hl & _) Hn. unfold payload, written, zlen, word in *.
  rewrite drop_app_ge by (rewrite length_take; lia). rewrite length_take, Nat.min_l, Nat.sub_diag, drop_0 by lia.
  rewrite take_app_ge by lia. f_equal. rewrite skipn_firstn_comm, drop_drop. done.
Qed.

Lemma write_bytes_run s a l bs n : a.2 = word → mem s !! a.1 = Some bs → zlen bs = n + 2 * word → zlen l ≤ n →
  write_bytes a l s = Done (tt, with_mem (<[a.1 := written bs l]> (mem s)) s).
Proof using Type.
  intros Ha Hb Hl Hn. unfold write_bytes, mbind, C_bind, deref. rewrite Hb, Ha. unfold word in *.
  rewrite (proj2 (Z.leb_le _ _)), (proj2 (Z.leb_le _ _)) by (unfold zlen in *; lia). done.
Qed.

(** The assertion at the head of each function. *)
Lemma checked_run {B} s l a r bs n (k : M B) :
  table s l → tracked l.*2 (mem s) a r bs →
  (ok ← check_size a n; assert_c (CPLUS_SUCCESS =? ok);; k) s = if size_of r <? n then Aborts else k s.
Proof using Type.
  intros Ht Hr. pose proof (check_size_run s l a r bs n Ht Hr) as E.
  destruct (size_of r <? n); by rewrite (bind_Done _ _ _ _ _ E).
Qed.

(** ** All of them *)

Inductive helper :=
| Cpy (src : list Z) (count : Z)
| CpyEx (destsz : Z) (src : list Z) (count : Z)
| Set_ (value count : Z)
| Printf (size : Z) (text : list Z).

Definition call (h : helper) (a : address) : M answer :=
  match h with
  | Cpy src count => p ← cplus_mem_cpy (Some a) (Some src) count; mret (Pointer p)
  | CpyEx destsz src count => p ← cplus_mem_cpy_ex (Some a) destsz (Some src) count; mret (Pointer p)
  | Set_ value count => p ← cplus_mem_set (Some a) value count; mret (Pointer p)
  | Printf size text => n ← cplus_str_printf a size (mret text); mret (Number n)
  end.

(** Arguments that are not refused, and whose source is long enough. *)
Definition acceptable (h : helper) : Prop :=
  match h with
  | Cpy src count => 0 < count ≤ zlen src
  | CpyEx destsz src count => 0 < count ≤ zlen src ∧ count ≤ destsz ≤ RSIZE_MAX_MEM
  | Set_ value count => 0 < count ≤ RSIZE_MAX_MEM
  | Printf size text => 0 < size
  end.

(** The bytes a call asks room for, and those it stores. *)
Definition room (h : helper) : Z :=
  match h with Cpy _ n | CpyEx _ _ n | Set_ _ n | Printf n _ => n end.
Definition stored (h : helper) : list Z :=
  match h with
  | Cpy src n | CpyEx _ src n => take (Z.to_nat n) src
  | Set_ value n => replicate (Z.to_nat n) value
  | Printf n text => take (Z.to_nat (n - 1)) text ++ [0]
  end.
Definition answer_of (h : helper) (a : address) : answer :=
  match h with Printf _ text => Number (s32 (zlen text)) | _ => Pointer (Some a) end.

Lemma stored_fits h : acceptable h → zlen (stored h) ≤ room h.
Proof using Type.
  destruct h; simpl; intros; unfold zlen; rewrite ?length_app, ?length_take, ?length_replicate; simpl; lia.
Qed.

(** An acceptable call is its assertion and its write. *)
Lemma call_checked h a s : acceptable h →
  call h a s = (ok ← check_size a (room h); assert_c (CPLUS_SUCCESS =? ok);;
                write_bytes a (stored h);; mret (answer_of h a)) s.
Proof using Type.
  destruct h; intros Hh; simpl in Hh; cbn [call room stored answer_of];
    unfold cplus_mem_cpy, cplus_mem_cpy_ex, cplus_mem_set, cplus_str_printf, check_not_null, check_if, source;
    repeat match goal with
    | |- context [0 =? ?n] => rewrite (proj2 (Z.eqb_neq 0 n)) by lia
    | |- context [?n =? 0] => rewrite (proj2 (Z.eqb_neq n 0)) by lia
    | |- context [RSIZE_MAX_MEM <? ?n] => rewrite (proj2 (Z.ltb_ge RSIZE_MAX_MEM n)) by lia
    | |- context [?n <=? zlen ?l] => rewrite (proj2 (Z.leb_le n (zlen l))) by lia
    | H : _ ∧ ?n ≤ ?m ≤ _ |- context [?m <? ?n] => rewrite (proj2 (Z.ltb_ge m n)) by lia
    end; unfold mbind, C_bind, mret, C_ret;
    (destruct (check_size _ _ s) as [[ok s1]| | |]; [|done..]);
    unfold assert_c; (destruct (CPLUS_SUCCESS =? ok); [|done]); unfold mret, C_ret;
    by destruct (write_bytes _ _ s1) as [[[] s2]| | |].
Qed.


End copy.

(** ** Concrete calls *)

(** (code bug) the check knows only the start of a block: a fill of as many
    bytes as the block has, one byte further, overwrites the word behind it without
    a complaint; freeing the block aborts the program. *)
Theorem interior_not_checked :
  ∃ s s1 s2, cplus_mgr_malloc zeros 2 (Some here_file) (Some here_function) 7 MemdebugProps.start = Done (Some (1, word), s)
    ∧ cplus_mem_set (Some (1, word + 1)) 0 2 s = Done (Some (1, word + 1), s1) ∧ out s1 = []
    ∧ cplus_mgr_check_boundary (Some (1, word)) s1 = Done (CPLUS_FAIL, s2)
    ∧ cplus_mgr_free (Some (1, word)) s1 = Aborts.
Proof.
  eexists _, _, _. split; [vm_compute; reflexivity|]. split; [vm_compute; reflexivity|].
  split; [reflexivity|]. split; vm_compute; reflexivity.
Qed.


End MemdebugCopy.
