(* ===== verification/MemdebugTests.v ===== *)
(** * MemdebugTests: the tests of src/memmgr.c, run on the debug memory manager

    The tests, statement for statement, over the state of Memdebug.v; a fresh block
    holds [any].  Only one of them is registered, the others are commented out:
    the theorems say which of them would pass and how the rest end. *)

From S2P Require Import Prelude Allocator Zlist Memdebug MemdebugProps MemdebugCopy Unittest.
From stdpp Require Import base numbers list option gmap strings.
From Stdlib Require Import ZArith Lia.
Open Scope Z_scope.

Module MemdebugTests.
Import Heap Memdebug Unittest.
#[local] Notation world := (Memdebug.st Heap.heap).
#[local] Notation W := (C world).
#[local] Notation T := (C (tstate world) unit).

Definition lit (s : string) : list Z := cstr s ++ [0].
Definition strlen (s : string) : Z := zlen (cstr s).

(** [0xffffffff * 10000000 * ...], six times, in [unsigned int]. *)
Definition times (x y : Z) : Z := u32 (x * y).
Definition huge : Z := foldl times 0xffffffff (replicate 6 10000000).

Section tests.
Variable any : Z.

(** [MAX_TEST_SIZE], the number of blocks of the stress test: 1024 in the program. *)
Variable MAX_TEST_SIZE : Z.

(** The macros pass the file, the function and the line of the call. *)
Definition __FILE__ : option (list Z) := Some (cstr "memmgr.c").
Definition __FUNCTION__ : option (list Z) := Some (cstr "test").
Definition cplus_malloc (line size : Z) : W (option address) :=
  cplus_mgr_malloc (λ _ _, any) size __FILE__ __FUNCTION__ line.
Definition cplus_realloc (line : Z) (ptr : option address) (size : Z) : W (option address) :=
  cplus_mgr_realloc (λ _ _, any) ptr size __FILE__ __FUNCTION__ line.
Definition cplus_free (ptr : option address) : W Z := cplus_mgr_free ptr.

(** [str[i] = v] *)
Definition put (str : option address) (i v : Z) : W unit :=
  a ← deref (λ _, str); MemdebugProps.poke a.1 (a.2 + i) v.
(** [str == p], and a print to [str]. *)
Definition same (str : option address) (p : W (option address)) : W Z :=
  q ← p; mret (Z.b2z (bool_decide (str = q))).
Definition print_at (str : option address) (size : Z) (text : W (list Z)) : W Z :=
  a ← deref (λ _, str); MemdebugCopy.cplus_str_printf a size text.

(** Expectations of [CPLUS_NULL != (p = actual)] and of [CPLUS_NULL == (p = actual)]. *)
Definition not_null_ptr (p : option address) : Z := Z.b2z (bool_decide (is_Some p)).
Definition is_null_ptr (p : option address) : Z := Z.b2z (bool_decide (p = None)).
Definition expect_ptr (line : Z) (value : option address → Z) (actual : W (option address)) :
    C (tstate world) (option address) := expectation differ line s32 1 actual value.

(** The three loops of the stress test. *)
Fixpoint alloc_all (n : nat) : C (tstate world) (list (option address)) :=
  match n with
  | O => mret []
  | S n => p ← expect_ptr 516 not_null_ptr (cplus_malloc 516 4); rest ← alloc_all n; mret (p :: rest)
  end.
Fixpoint realloc_all (ry : list (option address)) : C (tstate world) (list (option address)) :=
  match ry with
  | [] => mret []
  | p :: ry => q ← expect_ptr 522 not_null_ptr (cplus_realloc 522 p 8); rest ← realloc_all ry; mret (q :: rest)
  end.
Fixpoint free_all (ry2 : list (option address)) : T :=
  match ry2 with
  | [] => mret tt
  | p :: ry2 => UNITTEST_EXPECT_EQ 528 s32 CPLUS_SUCCESS (cplus_free p);; free_all ry2
  end.

(** ** The tests *)

Definition cplus_mgr_malloc_functionity : T :=
  a ← expect_ptr 496 not_null_ptr (cplus_malloc 496 4);
  b ← expect_ptr 497 not_null_ptr (cplus_malloc 497 4);
  c ← expect_ptr 498 not_null_ptr (cplus_malloc 498 4);
  d ← expect_ptr 499 not_null_ptr (cplus_malloc 499 4);
  e ← expect_ptr 500 not_null_ptr (cplus_malloc 500 4);
  f ← expect_ptr 501 not_null_ptr (cplus_malloc 501 4);
  UNITTEST_EXPECT_EQ 502 s32 6 cplus_mgr_report;;
  UNITTEST_EXPECT_EQ 503 s32 CPLUS_SUCCESS (cplus_free a);;
  UNITTEST_EXPECT_EQ 504 s32 CPLUS_SUCCESS (cplus_free b);;
  UNITTEST_EXPECT_EQ 505 s32 CPLUS_SUCCESS (cplus_free c);;
  UNITTEST_EXPECT_EQ 506 s32 CPLUS_SUCCESS (cplus_free d);;
  UNITTEST_EXPECT_EQ 507 s32 CPLUS_SUCCESS (cplus_free e);;
  UNITTEST_EXPECT_EQ 508 s32 CPLUS_SUCCESS (cplus_free f);;
  UNITTEST_EXPECT_EQ 509 s32 0 cplus_mgr_report;;
  mret tt.

Definition cplus_mgr_malloc_stress : T :=
  ry ← alloc_all (Z.to_nat MAX_TEST_SIZE);
  UNITTEST_EXPECT_EQ 518 s32 MAX_TEST_SIZE cplus_mgr_report;;
  ry2 ← realloc_all ry;
  UNITTEST_EXPECT_EQ 524 s32 MAX_TEST_SIZE cplus_mgr_report;;
  free_all ry2;;
  UNITTEST_EXPECT_EQ 530 s32 0 cplus_mgr_report;;
  mret tt.

Definition cplus_mgr_realloc_functionity : T :=
  a ← expect_ptr 535 not_null_ptr (cplus_malloc 535 4);
  b ← expect_ptr 536 not_null_ptr (cplus_malloc 536 4);
  c ← expect_ptr 537 not_null_ptr (cplus_malloc 537 4);
  d ← expect_ptr 538 not_null_ptr (cplus_malloc 538 4);
  e ← expect_ptr 539 not_null_ptr (cplus_malloc 539 4);
  f ← expect_ptr 540 not_null_ptr (cplus_malloc 540 4);
  UNITTEST_EXPECT_EQ 541 s32 6 cplus_mgr_report;;
  g ← expect_ptr 542 not_null_ptr (cplus_realloc 542 a 8);
  h ← expect_ptr 543 not_null_ptr (cplus_realloc 543 b 8);
  i ← expect_ptr 544 not_null_ptr (cplus_realloc 544 c 8);
  j ← expect_ptr 545 not_null_ptr (cplus_realloc 545 d 8);
  k ← expect_ptr 546 not_null_ptr (cplus_realloc 546 e 8);
  l ← expect_ptr 547 not_null_ptr (cplus_realloc 547 f 8);
  UNITTEST_EXPECT_EQ 548 s32 6 cplus_mgr_report;;
  UNITTEST_EXPECT_EQ 549 s32 CPLUS_SUCCESS (cplus_free g);;
  UNITTEST_EXPECT_EQ 550 s32 CPLUS_SUCCESS (cplus_free h);;
  UNITTEST_EXPECT_EQ 551 s32 CPLUS_SUCCESS (cplus_free i);;
  UNITTEST_EXPECT_EQ 552 s32 CPLUS_SUCCESS (cplus_free j);;
  UNITTEST_EXPECT_EQ 553 s32 CPLUS_SUCCESS (cplus_free k);;
  UNITTEST_EXPECT_EQ 554 s32 CPLUS_SUCCESS (cplus_free l);;
  UNITTEST_EXPECT_EQ 555 s32 0 cplus_mgr_report;;
  mret tt.

Definition cplus_mgr_realloc_bad_parameter : T :=
  a ← expect_ptr 560 not_null_ptr (cplus_malloc 560 4);
  b ← expect_ptr 561 not_null_ptr (cplus_malloc 561 4);
  c ← expect_ptr 562 not_null_ptr (cplus_malloc 562 4);
  d ← expect_ptr 563 not_null_ptr (cplus_malloc 563 4);
  e ← expect_ptr 564 not_null_ptr (cplus_malloc 564 4);
  f ← expect_ptr 565 not_null_ptr (cplus_malloc 565 4);
  UNITTEST_EXPECT_EQ 566 s32 6 cplus_mgr_report;;
  g ← expect_ptr 567 is_null_ptr (cplus_realloc 567 a 0);
  UNITTEST_EXPECT_EQ 568 s32 ENOMEM (gets Memdebug.errno);;
  h ← expect_ptr 569 is_null_ptr (cplus_realloc 569 b 0);
  UNITTEST_EXPECT_EQ 570 s32 ENOMEM (gets Memdebug.errno);;
  i ← expect_ptr 571 is_null_ptr (cplus_realloc 571 c 0);
  UNITTEST_EXPECT_EQ 572 s32 ENOMEM (gets Memdebug.errno);;
  j ← expect_ptr 573 is_null_ptr (cplus_realloc 573 d 0);
  UNITTEST_EXPECT_EQ 574 s32 ENOMEM (gets Memdebug.errno);;
  k ← expect_ptr 575 is_null_ptr (cplus_realloc 575 e 0);
  UNITTEST_EXPECT_EQ 576 s32 ENOMEM (gets Memdebug.errno);;
  l ← expect_ptr 577 is_null_ptr (cplus_realloc 577 f 0);
  UNITTEST_EXPECT_EQ 578 s32 ENOMEM (gets Memdebug.errno);;
  UNITTEST_EXPECT_EQ 579 s32 0 cplus_mgr_report;;
  a ← expect_ptr 580 not_null_ptr (cplus_malloc 580 4);
  b ← expect_ptr 581 not_null_ptr (cplus_malloc 581 4);
  c ← expect_ptr 582 not_null_ptr (cplus_malloc 582 4);
  d ← expect_ptr 583 not_null_ptr (cplus_malloc 583 4);
  e ← expect_ptr 584 not_null_ptr (cplus_malloc 584 4);
  f ← expect_ptr 585 not_null_ptr (cplus_malloc 585 4);
  UNITTEST_EXPECT_EQ 586 s32 6 cplus_mgr_report;;
  g ← expect_ptr 587 is_null_ptr (cplus_realloc 587 a huge);
  UNITTEST_EXPECT_EQ 589 s32 ENOMEM (gets Memdebug.errno);;
  h ← expect_ptr 590 is_null_ptr (cplus_realloc 590 b huge);
  UNITTEST_EXPECT_EQ 592 s32 ENOMEM (gets Memdebug.errno);;
  i ← expect_ptr 593 is_null_ptr (cplus_realloc 593 c huge);
  UNITTEST_EXPECT_EQ 595 s32 ENOMEM (gets Memdebug.errno);;
  j ← expect_ptr 596 is_null_ptr (cplus_realloc 596 d huge);
  UNITTEST_EXPECT_EQ 598 s32 ENOMEM (gets Memdebug.errno);;
  k ← expect_ptr 599 is_null_ptr (cplus_realloc 599 e huge);
  UNITTEST_EXPECT_EQ 601 s32 ENOMEM (gets Memdebug.errno);;
  l ← expect_ptr 602 is_null_ptr (cplus_realloc 602 f huge);
  UNITTEST_EXPECT_EQ 604 s32 ENOMEM (gets Memdebug.errno);;
  UNITTEST_EXPECT_EQ 605 s32 0 cplus_mgr_report;;
  mret tt.

Definition cplus_mgr_malloc_buffer_overrun : T :=
  str ← expect_ptr 611 not_null_ptr (cplus_malloc 611 10);
  UNITTEST_EXPECT_EQ 612 s32 1 cplus_mgr_report;;
  lift (put str 10 0);;
  UNITTEST_EXPECT_EQ 614 s32 CPLUS_FAIL (cplus_mgr_check_boundary str);;
  UNITTEST_EXPECT_EQ 615 s32 CPLUS_SUCCESS (cplus_free str);;
  UNITTEST_EXPECT_EQ 616 s32 0 cplus_mgr_report;;
  mret tt.

Definition cplus_mgr_realloc_buffer_overrun : T :=
  str ← expect_ptr 622 not_null_ptr (cplus_malloc 622 10);
  UNITTEST_EXPECT_EQ 623 s32 1 cplus_mgr_report;;
  lift (put str 9 0);;
  str ← expect_ptr 625 not_null_ptr (cplus_realloc 625 str 15);
  UNITTEST_EXPECT_EQ 626 s32 1 cplus_mgr_report;;
  lift (put str 15 0);;
  UNITTEST_EXPECT_EQ 628 s32 CPLUS_FAIL (cplus_mgr_check_boundary str);;
  UNITTEST_EXPECT_EQ 629 s32 CPLUS_SUCCESS (cplus_free str);;
  UNITTEST_EXPECT_EQ 630 s32 0 cplus_mgr_report;;
  mret tt.

Definition cplus_mgr_malloc_double_free : T :=
  str ← expect_ptr 636 not_null_ptr (cplus_malloc 636 10);
  let temp := str in
  UNITTEST_EXPECT_EQ 638 s32 1 cplus_mgr_report;;
  UNITTEST_EXPECT_EQ 639 s32 CPLUS_SUCCESS (cplus_free str);;
  UNITTEST_EXPECT_EQ 640 s32 CPLUS_SUCCESS (cplus_free temp);;
  UNITTEST_EXPECT_EQ 641 s32 0 cplus_mgr_report;;
  mret tt.

Definition cplus_mgr_realloc_double_free : T :=
  str ← expect_ptr 647 not_null_ptr (cplus_malloc 647 10);
  UNITTEST_EXPECT_EQ 648 s32 1 cplus_mgr_report;;
  str ← expect_ptr 649 not_null_ptr (cplus_realloc 649 str 15);
  UNITTEST_EXPECT_EQ 650 s32 1 cplus_mgr_report;;
  let temp := str in
  UNITTEST_EXPECT_EQ 652 s32 CPLUS_SUCCESS (cplus_free str);;
  UNITTEST_EXPECT_EQ 653 s32 CPLUS_SUCCESS (cplus_free temp);;
  UNITTEST_EXPECT_EQ 654 s32 0 cplus_mgr_report;;
  mret tt.

Definition cplus_mem_cpy_overflow : T :=
  str ← expect_ptr 660 not_null_ptr (cplus_malloc 660 5);
  UNITTEST_EXPECT_EQ 661 s32 1 (same str (MemdebugCopy.cplus_mem_cpy str (Some (lit "012345")) (strlen "012345")));;
  mret tt.

Definition cplus_mem_cpy_ex_overflow : T :=
  str ← expect_ptr 667 not_null_ptr (cplus_malloc 667 5);
  UNITTEST_EXPECT_EQ 668 s32 1 (same str (MemdebugCopy.cplus_mem_cpy_ex str (strlen "012345") (Some (lit "012345")) (strlen "012345")));;
  mret tt.

Definition cplus_mem_set_overflow : T :=
  str ← expect_ptr 674 not_null_ptr (cplus_malloc 674 5);
  UNITTEST_EXPECT_EQ 675 s32 1 (same str (MemdebugCopy.cplus_mem_set str 0x00 6));;
  mret tt.

Definition cplus_str_printf_overflow : T :=
  str ← expect_ptr 681 not_null_ptr (cplus_malloc 681 5);
  UNITTEST_EXPECT_EQ 682 s32 1 (n ← print_at str (strlen "012345") undef; mret (Z.b2z (strlen "012345" =? n)));;
  mret tt.

(** The registered case, and those that are commented out. *)
Definition unittest_memmgr : list (@named_test world) :=
  [("cplus_mgr_realloc", "bad_parameter", cplus_mgr_realloc_bad_parameter)]%string.
Definition not_registered : list (@named_test world) :=
  [("cplus_mgr_malloc", "functionity", cplus_mgr_malloc_functionity);
   ("cplus_mgr_malloc", "stress", cplus_mgr_malloc_stress);
   ("cplus_mgr_realloc", "functionity", cplus_mgr_realloc_functionity)]%string.

End tests.

(** ** Theorems *)

(** the test of memmgr.c passes in the debug build, whatever fresh memory
    holds. *)
Theorem memmgr_test_passes any :
  report_of (unittest_memmgr any) MemdebugProps.start = Done (1%nat, 40%nat, [], 0).
Proof. vm_compute. reflexivity. Qed.

(** (code bug) the size that is meant to be too big for any heap is 0: the second
    half of the test repeats the first. *)
Theorem huge_is_zero : huge = 0.
Proof. reflexivity. Qed.

(** the tests of plain allocation that are commented out would pass as well;
    the stress test is run with 100 blocks. *)
Theorem unregistered_tests_pass any :
  report_of (not_registered any 100) MemdebugProps.start = Done (3%nat, 338%nat, [], 0).
Proof. vm_compute. reflexivity. Qed.

(** (code bug) the tests of overruns and double frees expect that freeing a
    damaged block succeeds, and a second free too: the first aborts the program, the
    second writes to freed memory.  The tests of copies that are too long abort as
    the manager intends. *)
Theorem other_tests_end_the_program any :
  let run (t : Z → C (tstate world) unit) := t any (TState MemdebugProps.start false 0 0 1000 []) in
  Forall (λ t, run t = Aborts)
    [cplus_mgr_malloc_buffer_overrun; cplus_mgr_realloc_buffer_overrun;
     cplus_mem_cpy_overflow; cplus_mem_cpy_ex_overflow; cplus_mem_set_overflow; cplus_str_printf_overflow] ∧
  Forall (λ t, run t = Undefined) [cplus_mgr_malloc_double_free; cplus_mgr_realloc_double_free].
Proof. split; repeat constructor; vm_compute; reflexivity. Qed.

End MemdebugTests.
