(* ===== verification/Sys.v ===== *)
(** * Sys: the stack printer (src/sys.c)

    [backtrace] and [backtrace_symbols] are functions of the C library: the first
    answers the return addresses of the stack, the second a block of the heap with a
    text for each.  [cplus_sys_skip_file_path] is in Memdebug.v. *)

From S2P Require Import Prelude Allocator Unittest.
From stdpp Require Import base numbers list option gmap strings.
From Stdlib Require Import ZArith Lia.
Open Scope Z_scope.

Module Sys.
Import Heap Unittest.

(** The heap, the texts in the blocks of [backtrace_symbols], and what was printed. *)
Record st := St { mem : heap; strs_at : gmap Z (list (list Z)); printed : list (list Z) }.

Section sys.
(** The return addresses, from the innermost, and the text of each. *)
Variable stack : list Z.
Variable symbol : Z → list Z.

(** At most [size] addresses, and their number. *)
Definition backtrace (size : Z) : list Z := take (Z.to_nat size) stack.

Definition backtrace_symbols (callstack : list Z) : C st Z := λ s,
  match cplus_malloc (mem s) with
  | Done (p, h) =>
      Done (p, St h (if p =? 0 then strs_at s else <[p := symbol <$> callstack]> (strs_at s)) (printed s))
  | Aborts => Aborts | Hangs => Hangs | Undefined => Undefined
  end.

Definition free (p : Z) : C st unit := λ s,
  if p =? 0 then Done (tt, s)
  else
    match cplus_free p (mem s) with
    | Done h => Done (tt, St h (delete p (strs_at s)) (printed s))
    | Aborts => Aborts | Hangs => Hangs | Undefined => Undefined
    end.

(** [for (i = 0; i < frames; ++i) printf("%s\n", strs[i])], for the [n] turns left. *)
Fixpoint print_frames (n : nat) (strs i : Z) : C st unit :=
  match n with
  | O => mret tt
  | S n =>
      line ← deref (λ s, l ← strs_at s !! strs; l !! Z.to_nat i);
      modify (λ s, St (mem s) (strs_at s) (printed s ++ [line]));;
      print_frames n strs (i + 1)
  end.

Definition cplus_sys_print_stack : C st unit :=
  let callstack := backtrace 128 in
  let frames := length callstack in
  strs ← backtrace_symbols callstack;
  print_frames frames strs 0;;
  free strs.

(** The test calls the function and expects nothing. *)
Definition cplus_sys_print_stack_functionity : C (Unittest.tstate st) unit :=
  Unittest.lift cplus_sys_print_stack.
Definition unittest_sys : list (@Unittest.named_test st) :=
  [("cplus_sys_print_stack", "functionity", cplus_sys_print_stack_functionity)]%string.

(** ** Theorems *)

Lemma print_frames_run l n : ∀ k p s,
  strs_at s !! p = Some l → length l = (k + n)%nat →
  print_frames n p (Z.of_nat k) s = Done (tt, St (mem s) (strs_at s) (printed s ++ drop k l)).
Proof using Type.
  induction n as [|n IH]; intros k p s Hl Hn; cbn [print_frames].
  - rewrite drop_ge, app_nil_r by lia. by destruct s.
  - destruct (lookup_lt_is_Some_2 l k) as [x Hx]; [lia|].
    rewrite (bind_Done _ _ s x s) by (unfold deref; rewrite Hl; cbn; by rewrite Nat2Z.id, Hx).
    rewrite (bind_Done _ _ _ _ _ (eq_refl (Done (tt, St (mem s) (strs_at s) (printed s ++ [x]))))).
    replace (Z.of_nat k + 1) with (Z.of_nat (S k)) by lia.
    rewrite (IH (S k) p); [|done|cbn; lia]. cbn. rewrite <- app_assoc. do 3 f_equal.
    by rewrite (drop_S l x k Hx).
Qed.

(** the texts of the innermost 128 frames are printed in their order and the
    block they are in is given back; when there is no memory for it the function
    reads through a null pointer, unless the stack is empty. *)
Theorem print_stack_correct s live :
  heap_ok (mem s) live → strs_at s !! 0 = None →
  (∃ s', cplus_sys_print_stack s = Done (tt, s') ∧ heap_ok (mem s') live ∧
     printed s' = printed s ++ (symbol <$> take 128 stack)) ∨
  stack ≠ [] ∧ (∃ h, cplus_malloc (mem s) = Done (0, h)) ∧ cplus_sys_print_stack s = Undefined.
Proof using Type.
  intros Hh H0. destruct (heap_new _ _ Hh) as (p & h & E & Hp).
  unfold cplus_sys_print_stack, backtrace, backtrace_symbols. cbv zeta. change (Z.to_nat 128) with 128%nat.
  set (cs := take 128 stack). destruct Hp as [[-> Hh'] | (Hp & Hn & Hh')].
  - (* no memory *)
    rewrite (bind_Done _ _ s 0 (St h (strs_at s) (printed s))) by (by rewrite E).
    destruct cs as [|c cs'] eqn:Ecs.
    + left. eexists. split; [reflexivity|]. split; [done|]. cbn. by rewrite app_nil_r.
    + right. split; [by intros ->|]. split; [by exists h|].
      apply bind_undef. cbn [length print_frames]. apply bind_undef. unfold deref. cbn. by rewrite H0.
  - left. rewrite (bind_Done _ _ s p (St h (<[p := symbol <$> cs]> (strs_at s)) (printed s)))
      by (rewrite E; by rewrite (proj2 (Z.eqb_neq p 0))).
    rewrite (bind_Done _ _ _ _ _ (print_frames_run (symbol <$> cs) (length cs) 0 p
      (St h (<[p := symbol <$> cs]> (strs_at s)) (printed s)) (lookup_insert_eq _ _ _) (length_fmap _ _))).
    destruct (heap_release h _ p Hh') as (h' & Ef & Hh''); [set_solver|].
    unfold free. rewrite (proj2 (Z.eqb_neq p 0)) by done. cbn [mem]. rewrite Ef.
    eexists. split; [reflexivity|]. split; [|done]. cbn.
    replace live with (({[p]} ∪ live) ∖ {[p]}) by set_solver. done.
Qed.

End sys.

Lemma print_stack_correct_witness :
  let start := St empty_heap ∅ [] in
  ∃ s', cplus_sys_print_stack [0x4005d0; 0x400512] (λ a, if a =? 0x400512 then cstr "main" else cstr "f") start
    = Done (tt, s') ∧ printed s' = [cstr "f"; cstr "main"].
Proof.
  intros start.
  destruct (print_stack_correct [0x4005d0; 0x400512] (λ a, if a =? 0x400512 then cstr "main" else cstr "f") start ∅)
    as [(s' & E & _ & Hp) | (_ & [h Eh] & _)].
  - split; [reflexivity|]. split; [done|]. intros q Hq. set_solver.
  - reflexivity.
  - exists s'. split; [exact E|exact Hp].
  - vm_compute in Eh. discriminate Eh.
Defined.

End Sys.
