(* ===== verification/Processes.v ===== *)
(** * Processes: a world for the tests that fork

    The tests of the objects that processes share fork a child, wait for its end
    and go on.  A process has private objects, by their addresses, and calls on a
    system it shares with the others; [System] is what a system has to say of a
    fork.  The parent of these tests does nothing but wait for its child, so that
    the child runs to its end first.  Calls take no time but for their waits. *)

From S2P Require Import Prelude Systime Sharedmem Unittest.
From stdpp Require Import base numbers list option gmap.
From Stdlib Require Import ZArith Lia.
Open Scope Z_scope.

Module Processes.
Import Unittest.

(** What a fork does to the system [K] and to an object [O] of the parent: the
    child has copies of the descriptors and mappings, which end with it.  [errno]
    belongs to the process. *)
Class System (K O : Type) := {
  copied : Z → Z → K → K;                 (* of the parent, to the child *)
  copied_object : Z → K → O → O;          (* of the parent, in the system before *)
  left : Z → K → K;                       (* by the child *)
  errno_of : K → Z;
  put_errno : Z → K → K;
  blocks : O → Z }.                       (* of the heap, for one object *)

(** [now] is the monotonic clock in milliseconds, [lateness] what a wait takes
    longer than it was asked to. *)
Record process (K O : Type) := Process {
  system : K;
  objects : gmap Z O;
  next_address : Z;
  self : Z;
  last_pid : Z;
  now : Z;
  lateness : Z }.
Arguments Process {K O}.
Arguments system {K O}.
Arguments objects {K O}.
Arguments next_address {K O}.
Arguments self {K O}.
Arguments last_pid {K O}.
Arguments now {K O}.
Arguments lateness {K O}.

Section processes.
Context {K O : Type} {S : System K O}.
Notation P := (process K O).
Notation W := (C (process K O)).
Notation T := (C (tstate (process K O))).

Definition with_system (k : K) (p : P) : P :=
  Process k (objects p) (next_address p) (self p) (last_pid p) (now p) (lateness p).
Definition with_objects (o : gmap Z O) (p : P) : P :=
  Process (system p) o (next_address p) (self p) (last_pid p) (now p) (lateness p).
Definition with_next (n : Z) (p : P) : P :=
  Process (system p) (objects p) n (self p) (last_pid p) (now p) (lateness p).
Definition with_now (n : Z) (p : P) : P :=
  Process (system p) (objects p) (next_address p) (self p) (last_pid p) n (lateness p).

(** ** Calls *)

Definition on_system {A} (m : C K A) : W A := λ p,
  match m (system p) with
  | Done (a, k) => Done (a, with_system k p)
  | Aborts => Aborts | Hangs => Hangs | Undefined => Undefined
  end.

Definition errno : W Z := gets (errno_of ∘ system).

(** A constructor, which knows its process: the address of the object, or the
    null pointer. *)
Definition make (m : Z → C K (option O)) : W Z :=
  me ← gets self;
  o ← on_system (m me);
  match o with
  | None => mret 0
  | Some o =>
      a ← gets next_address;
      modify (with_next (a + 64));;
      modify (λ p, with_objects (<[a := o]> (objects p)) p);;
      mret a
  end.

(** The object at an address; the null pointer fails the assertion every
    function starts with. *)
Definition object (a : Z) : W O := if a =? 0 then abort else deref (λ p, objects p !! a).

(** A function that changes the object, and one that frees it. *)
Definition on_object {A} (a : Z) (m : Z → O → C K (A * O)) : W A :=
  o ← object a;
  me ← gets self;
  '(r, o') ← on_system (m me o);
  modify (λ p, with_objects (<[a := o']> (objects p)) p);;
  mret r.
Definition end_object {A} (a : Z) (m : Z → O → C K A) : W A :=
  o ← object a;
  me ← gets self;
  r ← on_system (m me o);
  modify (λ p, with_objects (delete a (objects p)) p);;
  mret r.

(** [cplus_mgr_report]. *)
Definition cplus_mgr_report : W Z :=
  gets (λ p, map_fold (λ _ o n, blocks o + n) 0 (objects p)).

(** ** Time *)

Definition reading (p : P) : Systime.timespec :=
  Systime.Timespec (now p `div` 1000) ((now p `mod` 1000) * 1000000).
Definition timed (m : list Systime.timespec → outcome Z) : W Z := λ p,
  match m [reading p] with
  | Done t => Done (t, p)
  | Aborts => Aborts | Hangs => Hangs | Undefined => Undefined
  end.
Definition cplus_systime_get_tick : W Z := timed Systime.cplus_systime_get_tick.
Definition cplus_systime_elapsed_tick (time : Z) : W Z :=
  timed (λ c, Systime.cplus_systime_elapsed_tick c time).

Definition pass (ms : Z) : W unit := modify (λ p, with_now (now p + ms) p).

(** A call with a timeout: it has waited if it says so. *)
Definition waiting (timeout : Z) (m : W Z) : W Z :=
  r ← m;
  e ← errno;
  (if (r =? CPLUS_FAIL) && (e =? ETIMEDOUT)
   then l ← gets lateness; pass (timeout + l) else mret tt);;
  mret r.

(** ** Processes *)

(** The child, at the return of [fork]. *)
Definition child_world (p : P) : P :=
  let c := last_pid p + 1 in
  Process (copied (self p) c (system p)) (copied_object c (system p) <$> objects p)
    (next_address p) c c (now p) (lateness p).
Definition child_of (s : tstate P) : tstate P :=
  let w := child_world (world s) in
  TState w (failed s) (retval_testfunc s) (total_failed_count s) (self w) (out s).

(** The parent [s], when the child has ended in the state [c]: the system is as
    the child left it. *)
Definition after_child (s c : tstate P) : tstate P :=
  let p := world s in
  let k := put_errno (errno_of (system p)) (left (self (world c)) (system (world c))) in
  TState (Process k (objects p) (next_address p) (self p) (last_pid (world c)) (now p) (lateness p))
    (failed s) (retval_testfunc s) (total_failed_count s) (pid s)
    (ChildEnd (negb (failed c)) (total_failed_count c) :: out c).

(** [if (0 != fork()) { } else { ...; return; }]: the time at which the child
    ends.  An assertion that fails in the child is the end of this model. *)
Definition fork (child : T unit) : T Z := λ s,
  match child (child_of s) with
  | Done (_, c) => Done (now (world c), after_child s c)
  | Aborts => Aborts | Hangs => Hangs | Undefined => Undefined
  end.

(** The wait for a child that ends at [ends], in naps of half a second.  The model
    of the fork is about parents that see the end of their child. *)
Definition unittest_wait_child_proc_end (ends timeout : Z) : W Z :=
  start ← gets now;
  match Unittest.unittest_wait_child_proc_end (Z.to_nat (timeout / 500 + 1))
          (λ n, if ends <=? start + 500 * Z.of_nat n then 1 else 0) timeout with
  | Some (r, None, naps) => pass (500 * Z.of_nat naps);; mret r
  | _ => hang
  end.

End processes.

(** ** Expectations *)
Section expectations.
Context {K O : Type} {S : System K O}.
Notation W := (C (process K O)).
Notation T := (C (tstate (process K O))).

Definition expect_made (line : Z) (m : W Z) : T Z := EXPECT_EQ_SET line 1 not_null m.
Definition expect_refused (line : Z) (m : W Z) : T unit := EXPECT_EQ_SET line 1 is_null m;; mret tt.
Definition expect_int (line expect : Z) (m : W Z) : T unit := UNITTEST_EXPECT_EQ line s32 expect m;; mret tt.
Definition expect_success (line : Z) (m : W Z) : T unit := expect_int line CPLUS_SUCCESS m.
Definition expect_errno (line e : Z) : T unit := expect_int line e errno.
Definition expect_report (line n : Z) : T unit := expect_int line n cplus_mgr_report.

(** A refusal and its reason, two statements. *)
Definition expect_fail (line e : Z) (m : W Z) : T unit :=
  expect_int line CPLUS_FAIL m;; expect_errno (line + 1) e.
Definition expect_none (line e : Z) (m : W Z) : T unit :=
  expect_refused line m;; expect_errno (line + 1) e.

(** [time = cplus_systime_get_tick();], statements, [time =
    cplus_systime_elapsed_tick(time);] and an expectation of the time. *)
Definition expect_time (line : Z) (ok : Z → bool) (m : T unit) : T unit :=
  time ← lift cplus_systime_get_tick;
  m;;
  time ← lift (cplus_systime_elapsed_tick time);
  expect_int line 1 (mret (Z.b2z (ok time))).
(** [time >= 1500 AND time < 1550] *)
Definition in_time (time : Z) : bool := (1500 <=? time) && (time <? 1550).

(** [UNITTEST_EXPECT_EQ(CPLUS_SUCCESS, unittest_wait_child_proc_end(5000));] *)
Definition expect_child_end (line ends : Z) : T unit :=
  expect_success line (unittest_wait_child_proc_end ends 5000).

End expectations.

(** ** Shared memory across a fork

    The child has the descriptors and the mappings of its parent.  A mapping has
    its own number in the kernel of Sharedmem.v, so that those of the child are new. *)
Definition first_free (k : Sharedmem.kernel) : nat := Datatypes.S (map_fold (λ a _ n, Nat.max a n) 0%nat (Sharedmem.maps k)).
Definition copied_fds (parent child : Z) (k : Sharedmem.kernel) : gmap (Z * Z) Sharedmem.file :=
  map_fold (λ x f m, if fst x =? parent then <[(child, snd x) := f]> m else m) (Sharedmem.fds k) (Sharedmem.fds k).
Definition copied_maps (parent child : Z) (k : Sharedmem.kernel) : gmap nat (Z * nat * Z) :=
  map_fold (λ a x m, let '(p, i, n) := x in
    if p =? parent then <[(first_free k + a)%nat := (child, i, n)]> m else m) (Sharedmem.maps k) (Sharedmem.maps k).
Definition copied_kernel (parent child : Z) (k : Sharedmem.kernel) : Sharedmem.kernel :=
  Sharedmem.set_maps (copied_maps parent child k) (Sharedmem.set_fds (copied_fds parent child k) k).
Definition copied_mapping (k : Sharedmem.kernel) (s : Sharedmem.shared_mem) : Sharedmem.shared_mem :=
  Sharedmem.set_addr (Nat.add (first_free k) <$> Sharedmem.addr s) s.
Definition left_kernel (child : Z) (k : Sharedmem.kernel) : Sharedmem.kernel :=
  Sharedmem.set_maps (filter (λ x, fst (fst (snd x)) ≠ child) (Sharedmem.maps k))
    (Sharedmem.set_fds (filter (λ x, fst (fst x) ≠ child) (Sharedmem.fds k)) k).

(** The system at the start of a test program, with the standard descriptors of
    its process, and the process. *)
Definition first_kernel : Sharedmem.kernel :=
  Sharedmem.Kernel ∅ ∅ (list_to_map [((1000, 0), Sharedmem.Other 0); ((1000, 1), Sharedmem.Other 1);
                                      ((1000, 2), Sharedmem.Other 2)]) ∅ 0.
Definition first_process {K O} (k : K) (now lateness : Z) : process K O :=
  Process k ∅ 0x4000 1000 1000 now lateness.

(** The expectations a part of a test checks, when it ends, and those not met. *)
Definition part {W A} (f : C (tstate W) A) (w : W) : outcome (nat * list (Z * Z * Z)) :=
  match f (TState w false 0 0 1000 []) with
  | Done (_, t) => Done (checks (out t), unmet (out t))
  | Aborts => Aborts | Hangs => Hangs | Undefined => Undefined
  end.

(** What holds of each lateness below [n], by computation. *)
Lemma every_lateness {A} (f : Z → A) (a : A) (n : nat) :
  f <$> seqZ 0 (Z.of_nat n) = replicate n a → ∀ late, 0 ≤ late < Z.of_nat n → f late = a.
Proof.
  intros H late Hl. assert ((f <$> seqZ 0 (Z.of_nat n)) !! Z.to_nat late = Some (f late)) as E.
  { rewrite list_lookup_fmap, lookup_seqZ_lt by lia. simpl. do 2 f_equal. lia. }
  rewrite H in E. by apply lookup_replicate in E as [E _].
Qed.

(** *** What the child shares, and that it leaves nothing *)

Lemma first_free_above k a x : Sharedmem.maps k !! a = Some x → (a < first_free k)%nat.
Proof.
  unfold first_free. intros H. apply Nat.lt_succ_r. revert H.
  apply (map_fold_weak_ind (λ n m, m !! a = Some x → (a ≤ n)%nat)); [done|].
  intros b y m n _ IH [[-> _]|[_ H]]%lookup_insert_Some; [lia|]. specialize (IH H). lia.
Qed.

(** The copies lie above the mappings there were. *)
Lemma copied_maps_lookup parent child k a :
  copied_maps parent child k !! a =
    match Sharedmem.maps k !! a with
    | Some x => Some x
    | None =>
        if decide (first_free k ≤ a)%nat then
          '(p, i, n) ← Sharedmem.maps k !! (a - first_free k)%nat;
          if p =? parent then Some (child, i, n) else None
        else None
    end.
Proof.
  unfold copied_maps.
  assert (Hf : ∀ b, (first_free k ≤ b)%nat → Sharedmem.maps k !! b = None).
  { intros b Hb. destruct (Sharedmem.maps k !! b) eqn:E; [|done]. apply first_free_above in E. lia. }
  revert Hf. generalize (first_free k) as off. generalize (Sharedmem.maps k) at 1 2 4 as base. intros base off Hf.
  apply (map_fold_weak_ind (λ acc m, acc !! a = match base !! a with
    | Some x => Some x
    | None => if decide (off ≤ a)%nat
              then '(p, i, n) ← m !! (a - off)%nat; if p =? parent then Some (child, i, n) else None else None
    end)).
  - rewrite lookup_empty. destruct (base !! a); [done|]. by destruct (decide _).
  - intros b [[p i] n] m acc Hb IH. destruct (decide (a = off + b)%nat) as [->|Hne].
    + rewrite Hf by lia. rewrite decide_True by lia.
      replace (off + b - off)%nat with b by lia. rewrite lookup_insert_eq. simpl.
      destruct (p =? parent).
      * by rewrite lookup_insert_eq.
      * rewrite IH, Hf, decide_True by lia. replace (off + b - off)%nat with b by lia. by rewrite Hb.
    + transitivity (acc !! a).
      { destruct (p =? parent); [by rewrite lookup_insert_ne by congruence|done]. }
      rewrite IH. destruct (base !! a); [done|]. destruct (decide (off ≤ a)%nat); [|done].
      by rewrite lookup_insert_ne by lia.
Qed.

(** The mapping of the parent and that of the child lead to the same object. *)
Lemma copied_mapping_shares parent child k a i n :
  Sharedmem.maps k !! a = Some (parent, i, n) →
  Sharedmem.maps (copied_kernel parent child k) !! (first_free k + a)%nat = Some (child, i, n) ∧
  Sharedmem.maps (copied_kernel parent child k) !! a = Some (parent, i, n).
Proof.
  intros H. change (Sharedmem.maps (copied_kernel parent child k)) with (copied_maps parent child k).
  rewrite !copied_maps_lookup, H. split; [|done].
  destruct (Sharedmem.maps k !! (first_free k + a)%nat) eqn:E; [apply first_free_above in E; lia|].
  rewrite decide_True by lia. replace (first_free k + a - first_free k)%nat with a by lia.
  rewrite H. simpl. by rewrite Z.eqb_refl.
Qed.

End Processes.
