(* ===== verification/LockTests.v ===== *)
(** * LockTests: the tests of src/mutex.c and src/rwlock.c, run on the model

    The tests, statement for statement, over the processes of Processes.v and the
    mutexes and locks of LockNew.v. *)

From S2P Require Import Prelude Locks Sharedmem Named LockNew Unittest Processes.
From stdpp Require Import base numbers list option gmap strings.
From Stdlib Require Import ZArith Lia.
Open Scope Z_scope.

(** The one thread of a process. *)
Definition thread (me : Z) : nat := Z.to_nat me.

(** ** Mutexes *)
Module MutexTests.
Import Unittest Processes MutexNew.

#[export] Instance mutex_system : System MutexNew.world mutex := {
  copied p c w := Named.set_kern (copied_kernel p c (Named.kern w)) w;
  copied_object c w o := mkMutex (type o) (at_ o) (copied_mapping (Named.kern w) <$> shared_mem o);
  left c w := Named.set_kern (left_kernel c (Named.kern w)) w;
  errno_of w := Sharedmem.errno (Named.kern w);
  put_errno e w := Named.set_kern (Sharedmem.set_errno e (Named.kern w)) w;
  blocks o := if shared_mem o then 2 else 1 }.

#[local] Notation P := (process MutexNew.world mutex).
#[local] Notation W := (C P).
#[local] Notation T := (C (tstate P) unit).

(** ** Calls *)

Definition cplus_mutex_new : W Z := make (λ me, MutexNew.cplus_mutex_new me no_faults).
Definition cplus_mutex_new_xp (name : string) : W Z :=
  make (λ me, MutexNew.cplus_mutex_new_xp me no_faults (Some (cstr name))).
Definition cplus_mutex_create_xp (name : string) : W Z :=
  make (λ me, MutexNew.cplus_mutex_create_xp me no_faults (Some (cstr name))).
Definition cplus_mutex_open_xp (name : string) : W Z :=
  make (λ me, MutexNew.cplus_mutex_open_xp me no_faults (Some (cstr name))).
Definition cplus_mutex_delete (mtx : Z) : W Z := end_object mtx MutexNew.cplus_mutex_delete.
Definition cplus_mutex_lock (mtx timeout : Z) : W Z :=
  waiting timeout (on_object mtx (λ me, MutexNew.cplus_mutex_lock (thread me) timeout)).
Definition cplus_mutex_unlock (mtx : Z) : W Z :=
  on_object mtx (λ me, MutexNew.cplus_mutex_unlock (thread me)).
Definition cplus_crit_sect_enter (mtx : Z) : W Z :=
  on_object mtx (λ me, MutexNew.cplus_crit_sect_enter (thread me)).
Definition cplus_crit_sect_exit (mtx : Z) : W Z :=
  on_object mtx (λ me, MutexNew.cplus_crit_sect_exit (thread me)).

(** ** The tests *)

Definition TEST_MUTEX_NAME : string := "test".
Definition bad_name : string := "0123456789abcdef0123456789".
(** [&bad_name[1]]. *)
Definition bad_name_1 : string := "123456789abcdef0123456789".

Definition cplus_mutex_new_functionity : T :=
  mtx ← expect_made 248 cplus_mutex_new;
  expect_success 249 (cplus_mutex_delete mtx);;
  expect_report 250 0.

(** A lock that is held: refused at once, and after the timeout; the statements
    from [line] on. *)
Definition expect_held (line mtx : Z) : T :=
  expect_fail line EBUSY (cplus_mutex_lock mtx 0);;
  expect_time (line + 6) in_time (expect_fail (line + 3) ETIMEDOUT (cplus_mutex_lock mtx 1500)).

Definition cplus_mutex_lock_functionity : T :=
  mtx ← expect_made 258 cplus_mutex_new;
  expect_success 259 (cplus_mutex_lock mtx CPLUS_INFINITE_TIMEOUT);;
  expect_held 260 mtx;;
  expect_success 267 (cplus_mutex_unlock mtx);;
  expect_success 268 (cplus_mutex_delete mtx);;
  expect_report 269 0.

(** The end of a process in the tests with a fork. *)
Definition expect_deleted (line mtx : Z) : T := expect_success line (cplus_mutex_delete mtx).

(** The child of two tests, whose parent holds the mutex. *)
Definition child_of_holder (line mtx_sv : Z) : T :=
  mtx_ch ← expect_made line (cplus_mutex_new_xp TEST_MUTEX_NAME);
  expect_held (line + 1) mtx_ch;;
  expect_deleted (line + 9) mtx_ch;;
  expect_deleted (line + 10) mtx_sv;;
  expect_report (line + 11) 0.

(** Up to the end of the child. *)
Definition hold_and_fork (line : Z) (make : string → W Z) : C (tstate P) Z :=
  mtx_sv ← expect_made line (make TEST_MUTEX_NAME);
  expect_success (line + 1) (cplus_mutex_lock mtx_sv CPLUS_INFINITE_TIMEOUT);;
  ends ← fork (child_of_holder (line + 11) mtx_sv);
  expect_child_end (line + 26) ends;;
  mret mtx_sv.

Definition cplus_mutex_new_xp_cross_process_test : T :=
  mtx_sv ← hold_and_fork 277 cplus_mutex_new_xp;
  expect_deleted 304 mtx_sv;;
  expect_report 305 0.

Definition cplus_mutex_create_xp_cross_process_test : T :=
  mtx_sv ← hold_and_fork 312 cplus_mutex_create_xp;
  expect_deleted 339 mtx_sv;;
  expect_report 340 0.

(** A name that is too long, and one that fits. *)
Definition expect_name_size (line : Z) (make : string → W Z) : T :=
  expect_none line EINVAL (make bad_name);;
  mtx ← expect_made (line + 2) (make bad_name_1);
  expect_deleted (line + 3) mtx;;
  expect_report (line + 4) 0.

Definition cplus_mutex_new_xp_bad_parameter : T := expect_name_size 348 cplus_mutex_new_xp.
Definition cplus_mutex_create_xp_bad_parameter : T := expect_name_size 360 cplus_mutex_create_xp.
Definition cplus_mutex_open_xp_bad_parameter : T :=
  expect_none 372 EINVAL (cplus_mutex_open_xp bad_name);;
  expect_none 374 ENOENT (cplus_mutex_open_xp bad_name_1);;
  expect_report 376 0.

Definition cplus_crit_sect_enter_functionity : T :=
  mtx ← expect_made 383 cplus_mutex_new;
  expect_success 384 (cplus_crit_sect_enter mtx);;
  expect_success 385 (cplus_crit_sect_exit mtx);;
  expect_success 386 (cplus_crit_sect_enter mtx);;
  expect_success 387 (cplus_crit_sect_exit mtx);;
  expect_deleted 388 mtx;;
  expect_report 389 0.

(** The child starts by unlocking the mutex its parent holds. *)
Definition child_of_entered (mtx_sv : Z) : T :=
  mtx_ch ← expect_made 406 (cplus_mutex_new_xp TEST_MUTEX_NAME);
  expect_success 407 (cplus_crit_sect_exit mtx_ch);;
  expect_success 408 (cplus_crit_sect_enter mtx_ch);;
  expect_success 409 (cplus_crit_sect_exit mtx_ch);;
  expect_deleted 410 mtx_ch;;
  expect_deleted 411 mtx_sv;;
  expect_report 412 0.

Definition cplus_crit_sect_enter_cross_process_test : T :=
  mtx_sv ← expect_made 396 (cplus_mutex_new_xp TEST_MUTEX_NAME);
  expect_success 397 (cplus_crit_sect_enter mtx_sv);;
  ends ← fork (child_of_entered mtx_sv);
  expect_child_end 416 ends;;
  expect_deleted 417 mtx_sv;;
  expect_report 418 0.

Definition unittest_mutex : list (@named_test P) :=
  [("cplus_mutex_new", "functionity", cplus_mutex_new_functionity);
   ("cplus_mutex_lock", "functionity", cplus_mutex_lock_functionity);
   ("cplus_mutex_new_xp", "cross_process_test", cplus_mutex_new_xp_cross_process_test);
   ("cplus_mutex_create_xp", "cross_process_test", cplus_mutex_create_xp_cross_process_test);
   ("cplus_mutex_new_xp", "bad_parameter", cplus_mutex_new_xp_bad_parameter);
   ("cplus_mutex_create_xp", "bad_parameter", cplus_mutex_create_xp_bad_parameter);
   ("cplus_mutex_open_xp", "bad_parameter", cplus_mutex_open_xp_bad_parameter);
   ("cplus_crit_sect_enter", "functionity", cplus_crit_sect_enter_functionity);
   ("cplus_crit_sect_enter", "cross_process_test", cplus_crit_sect_enter_cross_process_test)]%string.

(** A machine whose waits are [late] milliseconds late. *)
Definition start (late : Z) : P := first_process (Named.World first_kernel ∅) 1000 late.

(** ** Theorems *)

(** six of the nine tests pass when waits are less than 50 ms late. *)
Theorem mutex_tests_pass late :
  0 ≤ late < 50 →
  report_of (take 2 unittest_mutex ++ take 4 (drop 4 unittest_mutex)) (start late) = Done (6%nat, 35%nat, [], 0).
Proof. apply (every_lateness (λ l, report_of _ (start l)) _ 50). vm_compute. reflexivity. Qed.

Lemma mutex_tests_pass_witness :
  0 ≤ 49 < 50 ∧
  report_of (take 2 unittest_mutex ++ take 4 (drop 4 unittest_mutex)) (start 49) = Done (6%nat, 35%nat, [], 0).
Proof. split; [lia | apply (mutex_tests_pass 49); lia]. Defined.

(** in the tests with a named mutex the child finds it held, as expected, but
    then the parent destroys the mutex that it holds; in the third the child unlocks
    the mutex of its parent: the program is undefined. *)
Theorem held_mutex_destroyed :
  part (hold_and_fork 277 cplus_mutex_new_xp) (start 0) = Done (12%nat, []) ∧
  part (hold_and_fork 312 cplus_mutex_create_xp) (start 0) = Done (12%nat, []) ∧
  part cplus_mutex_new_xp_cross_process_test (start 0) = Undefined ∧
  part cplus_mutex_create_xp_cross_process_test (start 0) = Undefined ∧
  part cplus_crit_sect_enter_cross_process_test (start 0) = Undefined ∧
  report_of unittest_mutex (start 0) = Undefined.
Proof. split_and!; vm_compute; reflexivity. Qed.

End MutexTests.

(** ** Reader-writer locks *)
Module RwlockTests.
Import Unittest Processes RwlockNew.

#[export] Instance rwlock_system : System RwlockNew.world rwlock := {
  copied p c w := Named.set_kern (copied_kernel p c (Named.kern w)) w;
  copied_object c w o :=
    mkRwlock (type o) (at_ o) (st_locked o) (count_rdlocked o) (copied_mapping (Named.kern w) <$> shared_mem o);
  left c w := Named.set_kern (left_kernel c (Named.kern w)) w;
  errno_of w := Sharedmem.errno (Named.kern w);
  put_errno e w := Named.set_kern (Sharedmem.set_errno e (Named.kern w)) w;
  blocks o := if shared_mem o then 2 else 1 }.

#[local] Notation P := (process RwlockNew.world rwlock).
#[local] Notation W := (C P).
#[local] Notation T := (C (tstate P) unit).

(** ** Calls *)

Definition cplus_rwlock_new : W Z := make (λ me, RwlockNew.cplus_rwlock_new me no_faults).
Definition cplus_rwlock_new_config (c : config) : W Z :=
  make (λ me, RwlockNew.cplus_rwlock_new_config me no_faults (Some c)).
Definition cplus_rwlock_xp_new (name : string) : W Z :=
  make (λ me, RwlockNew.cplus_rwlock_xp_new me no_faults (Some (cstr name))).
Definition cplus_rwlock_xp_create (name : string) : W Z :=
  make (λ me, RwlockNew.cplus_rwlock_xp_create me no_faults (Some (cstr name))).
Definition cplus_rwlock_xp_open (name : string) : W Z :=
  make (λ me, RwlockNew.cplus_rwlock_xp_open me no_faults (Some (cstr name))).
Definition cplus_rwlock_delete (lock : Z) : W Z :=
  end_object lock (λ me o, RwlockNew.cplus_rwlock_delete me (Some o)).
Definition cplus_rwlock_unlock (lock : Z) : W Z :=
  on_object lock (λ me, RwlockNew.cplus_rwlock_unlock (thread me)).
Definition cplus_rwlock_wrlock (lock timeout : Z) : W Z :=
  waiting timeout (on_object lock (λ me, RwlockNew.cplus_rwlock_wrlock (thread me) timeout)).
Definition cplus_rwlock_rdlock (lock timeout : Z) : W Z :=
  waiting timeout (on_object lock (λ me, RwlockNew.cplus_rwlock_rdlock (thread me) timeout)).

(** ** The tests *)

Definition TEST_RWLOCK_NAME : string := "test".
Definition bad_name : string := "0123456789abcdef012345678".
(** [&bad_name[1]]. *)
Definition bad_name_1 : string := "123456789abcdef012345678".

(** [time < 1500] and [time < 1550]. *)
Definition below (n time : Z) : bool := time <? n.

(** The end of a lock in a process without others, and in a child. *)
Definition expect_end (line lock : Z) : T :=
  expect_success line (cplus_rwlock_delete lock);;
  expect_report (line + 1) 0.
Definition expect_child_ends (line lock_ch lock_sv : Z) : T :=
  expect_success line (cplus_rwlock_delete lock_ch);;
  expect_end (line + 1) lock_sv.

(** Two calls that fail: at once, as the lock is busy, and, with a timeout, for
    the reason [e] in a time that is [ok]. *)
Definition expect_held (line lock : Z) (call : Z → Z → W Z) (e : Z) (ok : Z → bool) : T :=
  expect_fail line EBUSY (call lock 0);;
  expect_time (line + 6) ok (expect_fail (line + 3) e (call lock 1500)).

Definition cplus_rwlock_new_functionity : T :=
  lock_sv ← expect_made 354 cplus_rwlock_new;
  expect_end 355 lock_sv.

Definition cplus_rwlock_xp_new_cross_process_test : T :=
  lock_sv ← expect_made 362 (cplus_rwlock_xp_new TEST_RWLOCK_NAME);
  expect_end 363 lock_sv.

(** The same thread asks a second time to write. *)
Definition expect_deadlock (line lock_sv : Z) : T :=
  expect_success line (cplus_rwlock_wrlock lock_sv CPLUS_INFINITE_TIMEOUT);;
  expect_held (line + 1) lock_sv cplus_rwlock_wrlock EDEADLK (below 1500);;
  expect_success (line + 8) (cplus_rwlock_unlock lock_sv);;
  expect_end (line + 9) lock_sv.

Definition cplus_rwlock_wrlock_functionity : T :=
  lock_sv ← expect_made 372 cplus_rwlock_new;
  expect_deadlock 373 lock_sv.

(** A child that asks for the lock its parent holds. *)
Definition child_of_writer (line lock_sv : Z) (open : string → W Z) (call : Z → Z → W Z) : T :=
  lock_ch ← expect_made line (open TEST_RWLOCK_NAME);
  expect_held (line + 1) lock_ch call ETIMEDOUT in_time;;
  expect_child_ends (line + 8) lock_ch lock_sv.

(** A child that takes the lock, which is free, and asks again. *)
Definition child_that_writes (line lock_sv : Z) (open : string → W Z) (ok : Z → bool) : T :=
  lock_ch ← expect_made line (open TEST_RWLOCK_NAME);
  expect_success (line + 1) (cplus_rwlock_wrlock lock_ch 0);;
  expect_time (line + 6) ok (expect_fail (line + 3) EDEADLK (cplus_rwlock_wrlock lock_ch 1500));;
  expect_success (line + 7) (cplus_rwlock_unlock lock_ch);;
  expect_child_ends (line + 8) lock_ch lock_sv.

Definition cplus_rwlock_wrlock_cross_process_test : T :=
  lock_sv ← expect_made 391 (cplus_rwlock_xp_new TEST_RWLOCK_NAME);
  expect_success 392 (cplus_rwlock_wrlock lock_sv CPLUS_INFINITE_TIMEOUT);;
  ends ← fork (child_of_writer 401 lock_sv cplus_rwlock_xp_new cplus_rwlock_wrlock);
  expect_child_end 415 ends;;
  expect_success 416 (cplus_rwlock_unlock lock_sv);;
  ends ← fork (child_that_writes 425 lock_sv cplus_rwlock_xp_new (below 1550));
  expect_child_end 439 ends;;
  expect_end 440 lock_sv.

(** The same thread reads three times and leaves three times. *)
Definition expect_readers (line lock : Z) : T :=
  expect_success line (cplus_rwlock_rdlock lock CPLUS_INFINITE_TIMEOUT);;
  expect_success (line + 1) (cplus_rwlock_rdlock lock 0);;
  expect_time (line + 5) (below 1500) (expect_success (line + 3) (cplus_rwlock_rdlock lock 1500));;
  expect_success (line + 6) (cplus_rwlock_unlock lock);;
  expect_success (line + 7) (cplus_rwlock_unlock lock);;
  expect_success (line + 8) (cplus_rwlock_unlock lock).

Definition cplus_rwlock_rdlock_functionity : T :=
  lock_sv ← expect_made 449 cplus_rwlock_new;
  expect_readers 450 lock_sv;;
  expect_success 460 (cplus_rwlock_wrlock lock_sv CPLUS_INFINITE_TIMEOUT);;
  expect_held 461 lock_sv cplus_rwlock_rdlock EDEADLK (below 1500);;
  expect_success 468 (cplus_rwlock_unlock lock_sv);;
  expect_end 469 lock_sv.

(** A child that reads twice. *)
Definition child_that_reads (lock_sv : Z) : T :=
  lock_ch ← expect_made 523 (cplus_rwlock_xp_new TEST_RWLOCK_NAME);
  expect_success 524 (cplus_rwlock_rdlock lock_ch 0);;
  expect_time 528 (below 1550) (expect_success 526 (cplus_rwlock_rdlock lock_ch 1500));;
  expect_success 529 (cplus_rwlock_unlock lock_ch);;
  expect_success 530 (cplus_rwlock_unlock lock_ch);;
  expect_child_ends 531 lock_ch lock_sv.

Definition cplus_rwlock_rdlock_cross_process_test : T :=
  lock_sv ← expect_made 478 (cplus_rwlock_xp_new TEST_RWLOCK_NAME);
  expect_readers 479 lock_sv;;
  expect_success 490 (cplus_rwlock_wrlock lock_sv CPLUS_INFINITE_TIMEOUT);;
  ends ← fork (child_of_writer 498 lock_sv cplus_rwlock_xp_new cplus_rwlock_rdlock);
  expect_child_end 512 ends;;
  expect_success 513 (cplus_rwlock_unlock lock_sv);;
  ends ← fork (child_that_reads lock_sv);
  expect_child_end 537 ends;;
  expect_end 538 lock_sv.

Definition cplus_rwlock_xp_new_bad_parameter : T :=
  expect_none 547 EINVAL (cplus_rwlock_xp_new bad_name);;
  lock_sv ← expect_made 549 (cplus_rwlock_xp_new bad_name_1);
  expect_end 550 lock_sv.

(** This test is not registered. *)
Definition cplus_rwlock_xp_create_functionity : T :=
  lock_sv ← expect_made 559 (cplus_rwlock_xp_create TEST_RWLOCK_NAME);
  expect_success 560 (cplus_rwlock_wrlock lock_sv CPLUS_INFINITE_TIMEOUT);;
  ends ← fork (child_of_writer 569 lock_sv cplus_rwlock_xp_open cplus_rwlock_wrlock);
  expect_child_end 583 ends;;
  expect_success 584 (cplus_rwlock_unlock lock_sv);;
  ends ← fork (child_that_writes 593 lock_sv cplus_rwlock_xp_create in_time);
  expect_child_end 607 ends;;
  expect_end 608 lock_sv.

Definition cplus_rwlock_wrlock_PREFER_WRITER : T :=
  let config := Config None MODE_NONE KIND_PREFER_WRITER_NONRECURSIVE in
  lock_sv ← expect_made 619 (cplus_rwlock_new_config config);
  expect_deadlock 620 lock_sv.

Definition unittest_rwlock : list (@named_test P) :=
  [("cplus_rwlock_new", "functionity", cplus_rwlock_new_functionity);
   ("cplus_rwlock_xp_new", "cross_process_test", cplus_rwlock_xp_new_cross_process_test);
   ("cplus_rwlock_wrlock", "functionity", cplus_rwlock_wrlock_functionity);
   ("cplus_rwlock_wrlock", "cross_process_test", cplus_rwlock_wrlock_cross_process_test);
   ("cplus_rwlock_rdlock", "functionity", cplus_rwlock_rdlock_functionity);
   ("cplus_rwlock_rdlock", "cross_process_test", cplus_rwlock_rdlock_cross_process_test);
   ("cplus_rwlock_xp_new", "bad_parameter", cplus_rwlock_xp_new_bad_parameter);
   ("cplus_rwlock_wrlock", "PREFER_WRITER", cplus_rwlock_wrlock_PREFER_WRITER)]%string.

(** A machine whose waits are [late] milliseconds late. *)
Definition start (late : Z) : P := first_process (Named.World first_kernel ∅) 1000 late.

(** ** Theorems *)

(** the eight tests pass when waits end on time, and when they are 49 ms late. *)
Theorem rwlock_tests_pass :
  report_of unittest_rwlock (start 0) = Done (8%nat, 105%nat, [], 0) ∧
  report_of unittest_rwlock (start 49) = Done (8%nat, 105%nat, [], 0).
Proof. split; vm_compute; reflexivity. Qed.

(** when waits are 50 ms late two expectations are not met, both in child
    processes: the test program still reports that all of its cases passed. *)
Theorem child_failure_not_counted :
  report_of unittest_rwlock (start 50) = Done (8%nat, 105%nat, [(505, 0, 1); (408, 0, 1)], 0).
Proof. vm_compute. reflexivity. Qed.

(** the test that is not registered creates a lock under a name that exists, and
    goes on with the null pointer. *)
Theorem created_twice :
  part cplus_rwlock_xp_create_functionity (start 0) = Aborts ∧
  ∃ w, part (expect_refused 593 (cplus_rwlock_xp_create TEST_RWLOCK_NAME)) w = Done (1%nat, []) ∧
       part (expect_made 593 (cplus_rwlock_xp_create TEST_RWLOCK_NAME)) w = Done (1%nat, [(593, 0, 1)]).
Proof.
  split; [vm_compute; reflexivity|].
  exists (state_of (start 0) (cplus_rwlock_xp_create TEST_RWLOCK_NAME (start 0))). split; vm_compute; reflexivity.
Qed.

End RwlockTests.
