(* ===== verification/SemaphoreTests.v ===== *)
(** * SemaphoreTests: the tests of src/semaphore.c, run on the model

    The tests, statement for statement, over the processes of Processes.v and the
    constructors of Semaphore.v.  A call on a semaphore is the steps of its thread
    to the return, as nothing else runs then. *)

From S2P Require Import Prelude Stdio Systime Semaphore Unittest Processes.
From stdpp Require Import base numbers list option gmap strings.
From Stdlib Require Import ZArith Lia.
Open Scope Z_scope.

Module SemaphoreTests.
Import Unittest Processes Make.

#[export] Instance semaphore_system : System Make.world semaphore := {
  copied _ _ w := w;
  copied_object _ _ o := o;
  left _ w := w;
  errno_of w := Make.errno w;
  put_errno e w := Make.set_errno e w;
  blocks _ := 1 }.

#[local] Notation P := (process Make.world semaphore).
#[local] Notation W := (C P).
#[local] Notation T := (C (tstate P) unit).

(** ** A call, step by step *)

(** The next label of the only thread: a wait for a unit that nobody adds is
    without end, or expires at its deadline. *)
Fixpoint finish (fuel : nat) (w : Semaphore.world) : outcome (Semaphore.result * Z) :=
  match fuel with
  | O => Hangs
  | Datatypes.S fuel =>
      let continue ls :=
        match Semaphore.run ls w with Some (w, _) => finish fuel w | None => Hangs end in
      match Semaphore.threads w !! 0%nat with
      | Some (Semaphore.Returned _ r) => Done (r, Semaphore.value w)
      | Some Semaphore.Crashed => Aborts
      | Some (Semaphore.Blocked _ (Some d)) =>
          if 0 <? Semaphore.value w then continue [Semaphore.Move 0]
          else continue [Semaphore.Tick (Systime.ns_of d / 1000); Semaphore.Expire 0]
      | _ => continue [Semaphore.Move 0]
      end
  end.

Definition steps (c : Semaphore.call) : nat :=
  match c with Semaphore.Push count => Z.to_nat count + 4 | _ => 4 end.

(** The call of a thread on a semaphore of this type and value. *)
Definition alone (type value : Z) (c : Semaphore.call) : outcome (Semaphore.result * Z) :=
  finish (steps c) (Semaphore.World type value [Semaphore.Entering c] 0).

(** The value at [psem], and its change. *)
Definition get_psem (o : semaphore) : C Make.world Z :=
  match psem o with
  | SEM_FAILED => undef
  | Nonamed v => mret v
  | Named i => deref (λ w, values w !! i)
  end.
Definition put_psem (o : semaphore) (v : Z) : C Make.world semaphore :=
  match psem o with
  | Named i => modify (λ w, Make.World (names w) (<[i := v]> (values w)) (Make.errno w));; mret o
  | _ => mret (mkSemaphore (type o) (Nonamed v) (is_named o) (is_owner o) (name o))
  end.

Definition on_sem (c : Semaphore.call) (o : semaphore) : C Make.world (Z * semaphore) :=
  v ← get_psem o;
  match alone (type o) v c with
  | Done (r, v) =>
      o ← put_psem o v;
      match Semaphore.err r with Some e => modify (Make.set_errno e) | None => mret tt end;;
      mret (Semaphore.ret r, o)
  | Aborts => abort | Hangs => hang | Undefined => undef
  end.

(** ** Calls *)

Definition cplus_semaphore_new (initial_count : Z) : W Z :=
  make (λ _, Make.cplus_semaphore_new true true initial_count).
(** The names are texts or the null pointer. *)
Definition cplus_semaphore_new_xp (name : option string) (initial_count : Z) : W Z :=
  make (λ _, Make.cplus_semaphore_new_xp true true (cstr <$> name) initial_count).
Definition cplus_semaphore_create_xp (name : option string) (initial_count : Z) : W Z :=
  make (λ _, Make.cplus_semaphore_create_xp true (cstr <$> name) initial_count).
Definition cplus_semaphore_open_xp (name : option string) : W Z :=
  make (λ _, Make.cplus_semaphore_open_xp true (cstr <$> name)).
Definition cplus_semaphore_delete (semp : Z) : W Z :=
  end_object semp (λ _ o, Make.cplus_semaphore_delete (Some o)).
Definition cplus_semaphore_get_value (semp : Z) : W Z :=
  on_object semp (λ _, on_sem Semaphore.GetValue).
Definition cplus_semaphore_push (semp count : Z) : W Z :=
  on_object semp (λ _, on_sem (Semaphore.Push count)).
Definition cplus_semaphore_wait_poll (semp timeout : Z) : W Z :=
  waiting timeout (on_object semp (λ _, on_sem (Semaphore.WaitPoll timeout))).

(** ** The tests *)

Definition TEST_SEMAPHORE_NAME : option string := Some "test"%string.
(** [bad_name], [&bad_name[1]], [&bad_name[3]]. *)
Definition bad_name : option string := Some "0123456789abcdef012345"%string.
Definition bad_name_1 : option string := Some "123456789abcdef012345"%string.
Definition bad_name_3 : option string := Some "3456789abcdef012345"%string.

Definition expect_value (line v semp : Z) : T := expect_int line v (cplus_semaphore_get_value semp).
(** Delete and report, two statements. *)
Definition expect_end (line semp : Z) : T :=
  expect_success line (cplus_semaphore_delete semp);;
  expect_report (line + 1) 0.
Definition expect_child_ends (line semp_ch semp_sv : Z) : T :=
  expect_success line (cplus_semaphore_delete semp_ch);;
  expect_end (line + 1) semp_sv.

(** [for (int32_t i = 10; i > 0; i--)] with the expectations of one turn. *)
Fixpoint take_units (i : nat) (line semp : Z) : T :=
  match i with
  | O => mret tt
  | Datatypes.S i =>
      expect_value line (Z.of_nat (Datatypes.S i)) semp;;
      expect_success (line + 1) (cplus_semaphore_wait_poll semp 0);;
      take_units i line semp
  end.
(** The loop, and the refusal after it. *)
Definition take_all (line semp : Z) : T :=
  take_units 10 line semp;;
  expect_fail (line + 3) EAGAIN (cplus_semaphore_wait_poll semp 0).

Definition cplus_semaphore_new_functionity : T :=
  semp ← expect_made 283 (cplus_semaphore_new 10);
  expect_value 284 10 semp;;
  expect_end 285 semp.

Definition cplus_semaphore_push_functionity : T :=
  semp ← expect_made 292 (cplus_semaphore_new 10);
  expect_value 293 10 semp;;
  expect_success 294 (cplus_semaphore_push semp 10);;
  expect_value 295 20 semp;;
  expect_success 296 (cplus_semaphore_push semp 20);;
  expect_value 297 40 semp;;
  expect_end 298 semp.

Definition cplus_semaphore_wait_poll_functionity : T :=
  semp ← expect_made 307 (cplus_semaphore_new 10);
  take_all 310 semp;;
  expect_time 320 in_time (expect_fail 317 ETIMEDOUT (cplus_semaphore_wait_poll semp 1500));;
  expect_end 322 semp.

Definition cplus_semaphore_new_bad_parameter : T :=
  expect_none 329 EINVAL (cplus_semaphore_new (SEMAPHORE_MAX_VALUE + 1));;
  expect_none 331 EINVAL (cplus_semaphore_new (-111));;
  expect_report 333 0.

Definition cplus_semaphore_push_bad_parameter : T :=
  semp ← expect_made 339 (cplus_semaphore_new 10);
  expect_fail 340 EINVAL (cplus_semaphore_push semp (SEMAPHORE_MAX_VALUE - 9));;
  expect_success 342 (cplus_semaphore_push semp (SEMAPHORE_MAX_VALUE - 10));;
  expect_value 343 SEMAPHORE_MAX_VALUE semp;;
  expect_end 344 semp.

Definition cplus_semaphore_wait_poll_bad_parameter : T :=
  semp ← expect_made 351 (cplus_semaphore_new 10);
  expect_end 352 semp.

Definition child_that_takes (semp_sv : Z) : T :=
  semp_ch ← expect_made 368 (cplus_semaphore_new_xp TEST_SEMAPHORE_NAME 1);
  expect_value 369 10 semp_ch;;
  take_all 372 semp_ch;;
  expect_child_ends 377 semp_ch semp_sv.

Definition cplus_semaphore_new_xp_cross_process_test : T :=
  semp_sv ← expect_made 360 (cplus_semaphore_new_xp TEST_SEMAPHORE_NAME 10);
  expect_value 361 10 semp_sv;;
  ends ← fork (child_that_takes semp_sv);
  expect_child_end 383 ends;;
  expect_end 384 semp_sv.

Definition child_that_waits (semp_sv : Z) : T :=
  semp_ch ← expect_made 409 (cplus_semaphore_open_xp TEST_SEMAPHORE_NAME);
  expect_success 410 (cplus_semaphore_wait_poll semp_ch CPLUS_INFINITE_TIMEOUT);;
  expect_child_ends 411 semp_ch semp_sv.

Definition cplus_semaphore_create_xp_cross_process_test : T :=
  semp_sv ← expect_made 392 (cplus_semaphore_create_xp TEST_SEMAPHORE_NAME 10);
  expect_value 393 10 semp_sv;;
  take_all 397 semp_sv;;
  expect_success 402 (cplus_semaphore_push semp_sv 1);;
  ends ← fork (child_that_waits semp_sv);
  expect_child_end 417 ends;;
  expect_end 418 semp_sv.

(** A null pointer and a name that is too long; counts that are out of range. *)
Definition expect_bad_names (line : Z) (make : option string → W Z) : T :=
  expect_none line EINVAL (make None);;
  expect_none (line + 2) EINVAL (make bad_name).
Definition expect_bad_counts (line : Z) (make : Z → W Z) : T :=
  expect_none line EINVAL (make (SEMAPHORE_MAX_VALUE + 1));;
  expect_none (line + 2) EINVAL (make (-45465)).

(** This test is not registered. *)
Definition cplus_semaphore_new_xp_bad_parameter : T :=
  expect_bad_names 427 (λ n, cplus_semaphore_new_xp n 10);;
  semp_sv ← expect_made 431 (cplus_semaphore_new_xp bad_name_1 10);
  expect_success 432 (cplus_semaphore_delete semp_sv);;
  expect_bad_counts 433 (cplus_semaphore_new_xp TEST_SEMAPHORE_NAME);;
  expect_report 437 0.

Definition cplus_semaphore_create_xp_bad_parameter : T :=
  expect_bad_names 445 (λ n, cplus_semaphore_create_xp n 10);;
  semp_sv ← expect_made 449 (cplus_semaphore_create_xp bad_name_3 10);
  expect_none 450 EEXIST (cplus_semaphore_create_xp bad_name_3 10);;
  expect_success 452 (cplus_semaphore_delete semp_sv);;
  expect_bad_counts 453 (cplus_semaphore_create_xp TEST_SEMAPHORE_NAME);;
  expect_report 458 0.

Definition cplus_semaphore_open_xp_bad_parameter : T :=
  expect_bad_names 466 cplus_semaphore_open_xp;;
  expect_none 470 ENOENT (cplus_semaphore_open_xp bad_name_3);;
  expect_report 472 0.

Definition unittest_semaphore : list (@named_test P) :=
  [("cplus_semaphore_new", "functionity", cplus_semaphore_new_functionity);
   ("cplus_semaphore_push", "functionity", cplus_semaphore_push_functionity);
   ("cplus_semaphore_wait_poll", "functionity", cplus_semaphore_wait_poll_functionity);
   ("cplus_semaphore_new", "bad_parameter", cplus_semaphore_new_bad_parameter);
   ("cplus_semaphore_push", "bad_parameter", cplus_semaphore_push_bad_parameter);
   ("cplus_semaphore_wait_poll", "bad_parameter", cplus_semaphore_wait_poll_bad_parameter);
   ("cplus_semaphore_new_xp", "cross_process_test", cplus_semaphore_new_xp_cross_process_test);
   ("cplus_semaphore_create_xp", "cross_process_test", cplus_semaphore_create_xp_cross_process_test);
   ("cplus_semaphore_new_xp", "cross_process_test", cplus_semaphore_new_xp_cross_process_test);
   ("cplus_semaphore_create_xp", "bad_parameter", cplus_semaphore_create_xp_bad_parameter);
   ("cplus_semaphore_open_xp", "bad_parameter", cplus_semaphore_open_xp_bad_parameter)]%string.

(** A machine whose waits are [late] milliseconds late. *)
Definition start (late : Z) : P := first_process (Make.World ∅ ∅ 0) 1000 late.

(** ** Theorems *)

(** the eleven cases that are registered, two of them the same, pass when waits
    end on time and when they are 49 ms late, and one fails when they are 50 ms late. *)
Theorem semaphore_tests_pass :
  report_of unittest_semaphore (start 0) = Done (11%nat, 172%nat, [], 0) ∧
  report_of unittest_semaphore (start 49) = Done (11%nat, 172%nat, [], 0) ∧
  report_of unittest_semaphore (start 50) = Done (10%nat, 172%nat, [(320, 0, 1)], 1).
Proof. split_and!; vm_compute; reflexivity. Qed.

(** the test that was left out by the registration of another one a second time
    would end the program: it takes a name of 21 characters for one that fits. *)
Theorem left_out_test_aborts :
  part cplus_semaphore_new_xp_bad_parameter (start 0) = Aborts ∧
  part (expect_made 431 (cplus_semaphore_new_xp bad_name_1 10)) (start 0) = Done (1%nat, [(431, 0, 1)]).
Proof. split; vm_compute; reflexivity. Qed.

(** C34: a child that deletes its copy of a semaphore, as the tests do, unlinks the name
    for all: the parent keeps its object, but nobody opens it any more.  The system
    does not refuse the name, which has no slash, nor the count. *)
Theorem child_unlinks_name parent child nm count w :
  Stdio.text nm → 47 ∉ nm → count_ok count = true → names w !! sem_name nm = None →
  ∃ i o w' w'',
    semaphore_xp_create true nm count w = Done (Some o, w') ∧ psem o = Named i ∧
    names w' !! sem_name nm = Some i ∧ values w' !! i = Some count ∧
    Make.cplus_semaphore_delete (Some (copied_object parent w' o)) (copied parent child w') = Done (CPLUS_SUCCESS, w'') ∧
    semaphore_xp_open true nm (left child w'') = Done (None, Make.set_errno ENOENT (left child w'')) ∧
    values (left child w'') !! i = Some count.
Proof.
  intros Ht Hsl Hcount Hn. assert (Hw : named_well nm) by done. do 4 eexists. split_and!.
  - rewrite xp_create_run, Hn by done. reflexivity.
  - reflexivity.
  - apply lookup_insert_eq.
  - apply lookup_insert_eq.
  - apply delete_named; done.
  - rewrite xp_open_run by done. cbn -[sem_name]. by rewrite lookup_delete_eq.
  - apply lookup_insert_eq.
Qed.

Lemma child_unlinks_name_witness :
  ∃ i o w' w'',
    semaphore_xp_create true [116] 10 (Make.World ∅ ∅ 0) = Done (Some o, w') ∧ psem o = Named i ∧
    names w' !! sem_name [116] = Some i ∧ values w' !! i = Some 10 ∧
    Make.cplus_semaphore_delete (Some (copied_object 1 w' o)) (copied 1 2 w') = Done (CPLUS_SUCCESS, w'') ∧
    semaphore_xp_open true [116] (left 2 w'') = Done (None, Make.set_errno ENOENT (left 2 w'')) ∧
    values (left 2 w'') !! i = Some 10.
Proof. apply (child_unlinks_name 1 2 [116] 10 (Make.World ∅ ∅ 0)); [by repeat constructor | apply (bool_decide_unpack _); vm_compute; exact I | done..]. Defined.

End SemaphoreTests.
