(* ===== verification/SharedmemTests.v ===== *)
(** * SharedmemTests: the tests of src/sharedmem.c, run on the model

    The tests, statement for statement, over the processes of Processes.v, the
    kernel of Sharedmem.v and the bytes of its objects. *)

From S2P Require Import Prelude Zlist Stdio Memmgr Data Keyed Helper Sharedmem Unittest Processes.
From stdpp Require Import base numbers list option gmap strings.
From Stdlib Require Import ZArith Lia.
Open Scope Z_scope.

Module SharedmemTests.
Import Unittest Processes.

(** The kernel, and the bytes of the objects that have been written; the others
    are zeros. *)
Record machine := Machine { kern : Sharedmem.kernel; contents : gmap nat (list Z) }.
Definition with_kern (k : Sharedmem.kernel) (m : machine) : machine := Machine k (contents m).

#[export] Instance sharedmem_system : System machine Sharedmem.shared_mem := {
  copied p c m := with_kern (copied_kernel p c (kern m)) m;
  copied_object c m := copied_mapping (kern m);
  left c m := with_kern (left_kernel c (kern m)) m;
  errno_of m := Sharedmem.errno (kern m);
  put_errno e m := with_kern (Sharedmem.set_errno e (kern m)) m;
  blocks _ := 1 }.

#[local] Notation P := (process machine Sharedmem.shared_mem).
#[local] Notation W := (C P).
#[local] Notation T := (C (tstate P) unit).

(** ** Calls *)

Definition on_kern {A} (f : C Sharedmem.kernel A) : C machine A := λ m,
  match f (kern m) with
  | Done (a, k) => Done (a, with_kern k m)
  | Aborts => Aborts | Hangs => Hangs | Undefined => Undefined
  end.
(** A function that looks at the object. *)
Definition query {A} (server : Z) (f : Z → Sharedmem.shared_mem → C Sharedmem.kernel A) : W A :=
  on_object server (λ me o, r ← on_kern (f me o); mret (r, o)).

(** The names are texts or the null pointer, the sizes [uint32_t]. *)
Definition cplus_sharedmem_new (name : option string) (size : Z) : W Z :=
  make (λ me, on_kern (Sharedmem.cplus_sharedmem_new me Sharedmem.no_faults Sharedmem.no_faults (cstr <$> name) (u32 size))).
Definition cplus_sharedmem_create (name : option string) (size : Z) : W Z :=
  make (λ me, on_kern (Sharedmem.cplus_sharedmem_create me Sharedmem.no_faults (cstr <$> name) (u32 size))).
Definition cplus_sharedmem_open (name : option string) : W Z :=
  make (λ me, on_kern (Sharedmem.cplus_sharedmem_open me Sharedmem.no_faults (cstr <$> name))).
Definition cplus_sharedmem_delete (server : Z) : W Z :=
  end_object server (λ me o, on_kern (Sharedmem.cplus_sharedmem_delete me o)).
Definition cplus_sharedmem_is_owner (server : Z) : W Z :=
  b ← query server Sharedmem.cplus_sharedmem_is_owner; mret (Z.b2z b).
Definition cplus_sharedmem_get_size (server : Z) : W Z :=
  query server (λ _, Sharedmem.cplus_sharedmem_get_size).
Definition cplus_sharedmem_get_name (server : Z) : W (list Z) :=
  n ← query server (λ _, Sharedmem.cplus_sharedmem_get_name); deref (λ _, n).
Definition cplus_sharedmem_alloc (server : Z) : W (option nat) :=
  query server (λ _, Sharedmem.cplus_sharedmem_alloc).

(** ** The mapped memory *)

(** The object at a mapping of the process, and [n] bytes of it from [o] on. *)
Definition mapped (me : Z) (a : option nat) (m : machine) : option (nat * list Z) :=
  a ← a;
  '(p, i, size) ← Sharedmem.maps (kern m) !! a;
  if p =? me then Some (i, default (replicate (Z.to_nat size) 0) (contents m !! i)) else None.
Definition peek (a : option nat) (o n : Z) : W (list Z) :=
  me ← gets self;
  deref (λ p, '(_, bs) ← mapped me a (system p);
    if o + n <=? zlen bs then Some (take (Z.to_nat n) (drop (Z.to_nat o) bs)) else None).
Definition poke (a : option nat) (o : Z) (new : list Z) : W unit :=
  me ← gets self;
  '(i, bs) ← deref (λ p, mapped me a (system p));
  if o + zlen new <=? zlen bs then
    on_system (modify (λ m, Machine (kern m)
      (<[i := take (Z.to_nat o) bs ++ new ++ drop (Z.to_nat (o + zlen new)) bs]> (contents m))))
  else undef.

(** [struct test_area], the characters of its buffer one by one. *)
Definition test_area : Helper.struct :=
  [Data.T_UINT8; Data.T_UINT16; Data.T_UINT32; Data.T_UINT32] ++ replicate 100 Data.T_INT8.
Definition sizeof_test_area : Z := Helper.sizeof test_area.
Definition a : nat := 0.
Definition b : nat := 1.
Definition c : nat := 2.
Definition d : nat := 3.
Definition buffer : Z := Helper.CPLUS_OFFSETOF test_area 4.

(** [data->member] and [data->member = v], whose value is what is stored. *)
Definition get (data : option nat) (i : nat) : W Z :=
  match test_area !! i with
  | Some t => bs ← peek data (Helper.CPLUS_OFFSETOF test_area i) (Data.sizeof t); mret (Data.of_bytes t bs)
  | None => undef
  end.
Definition set (data : option nat) (i : nat) (v : Z) : W Z :=
  match test_area !! i with
  | Some t => poke data (Helper.CPLUS_OFFSETOF test_area i) (Data.to_bytes t v);; get data i
  | None => undef
  end.

(** [cplus_str_printf(data->buffer, 100, text)], which answers the length of the
    text, and [strcmp] with the buffer. *)
Definition print_buffer (data : option nat) (text : string) : W Z :=
  bs ← peek data buffer 100;
  bs ← (λ p, match Memmgr.cplus_str_printf bs 100 (cstr text) with
             | Done bs => Done (bs, p)
             | Aborts => Aborts | Hangs => Hangs | Undefined => Undefined
             end);
  poke data buffer bs;;
  mret (zlen (cstr text)).
Definition compare_buffer (data : option nat) (text : string) : W Z :=
  bs ← peek data buffer 100;
  t ← deref (λ _, Stdio.cstr bs);
  mret (Keyed.strcmp t (cstr text)).

(** ** The tests *)

Definition TEST_SHMEM_NAME : string := "test".
Definition bad_name : option string := Some "0123456789abcd0123456789abcd0123456789abcd0123456789"%string.
Definition hello_worlds : option string :=
  Some (String.concat " " (replicate 24 "Hello World"))%string.
Definition the_name : option string := Some TEST_SHMEM_NAME.

(** Whether the caller is the owner, as an expectation of the type [bool]; size and
    name; a deletion. *)
Definition expect_owner (line expect server : Z) : T :=
  UNITTEST_EXPECT_EQ line as_bool expect (cplus_sharedmem_is_owner server);; mret tt.
Definition expect_area (line server : Z) : T :=
  expect_int line sizeof_test_area (cplus_sharedmem_get_size server);;
  expect_int (line + 1) 0 (n ← cplus_sharedmem_get_name server; mret (Keyed.strcmp (cstr TEST_SHMEM_NAME) n)).
Definition expect_deleted (line server : Z) : T := expect_success line (cplus_sharedmem_delete server).
(** [UNITTEST_EXPECT_EQ(false, (CPLUS_NULL == (var = ...)));] *)
Definition expect_not_null (line : Z) (m : W Z) : C (tstate P) Z := EXPECT_EQ_SET line 0 is_null m.
(** The address, as [true == (CPLUS_NULL != ...)] or [false == (CPLUS_NULL == ...)]. *)
Definition expect_address (line expect : Z) (null : bool) (server : Z) : C (tstate P) (option nat) :=
  expectation differ line s32 expect (cplus_sharedmem_alloc server)
    (λ p, Z.b2z (Bool.eqb null (bool_decide (p = None)))).
(** [UNITTEST_EXPECT_EQ(true, (v == m));] *)
Definition expect_equal (line v : Z) (m : W Z) : T := expect_int line 1 (x ← m; mret (Z.b2z (v =? x))).

Definition cplus_sharedmem_new_functionity : T :=
  server ← expect_made 367 (cplus_sharedmem_new the_name sizeof_test_area);
  expect_owner 368 1 server;;
  expect_area 369 server;;
  client ← expect_made 371 (cplus_sharedmem_new the_name sizeof_test_area);
  expect_report 372 2;;
  expect_owner 373 0 client;;
  expect_area 374 client;;
  expect_deleted 376 server;;
  expect_deleted 377 client;;
  expect_report 378 0.

(** The child reads what its parent wrote, and writes. *)
Definition child_that_writes (server : Z) : T :=
  client ← expect_not_null 407 (cplus_sharedmem_open the_name);
  expect_owner 409 0 client;;
  expect_area 410 client;;
  client_data ← expect_address 413 0 true client;
  expect_equal 415 0x01 (get client_data a);;
  expect_equal 416 0x2345 (get client_data b);;
  expect_equal 417 0x6789abcd (get client_data c);;
  expect_equal 418 0x76543210 (get client_data d);;
  expect_int 419 0 (compare_buffer client_data "Hello World");;
  expect_equal 421 0x10 (set client_data a 0x10);;
  expect_equal 422 0x5432 (set client_data b 0x5432);;
  expect_equal 423 0xdcba9876 (set client_data c 0xdcba9876);;
  expect_equal 424 0x01234567 (set client_data d 0x01234567);;
  expect_int 425 11 (print_buffer client_data "World Hello");;
  expect_report 426 2;;
  expect_deleted 427 client;;
  expect_deleted 428 server;;
  expect_report 429 0.

Definition cplus_sharedmem_alloc_cross_process_communication : T :=
  server ← expect_not_null 387 (cplus_sharedmem_create the_name sizeof_test_area);
  expect_owner 389 1 server;;
  expect_area 390 server;;
  server_data ← expect_address 393 1 false server;
  expect_equal 395 0x01 (set server_data a 0x01);;
  expect_equal 396 0x2345 (set server_data b 0x2345);;
  expect_equal 397 0x6789abcd (set server_data c 0x6789abcd);;
  expect_equal 398 0x76543210 (set server_data d 0x76543210);;
  expect_int 399 11 (print_buffer server_data "Hello World");;
  expect_report 400 1;;
  ends ← fork (child_that_writes server);
  expect_child_end 433 ends;;
  UNITTEST_EXPECT_EQ 434 u8 0x10 (get server_data a);;
  UNITTEST_EXPECT_EQ 435 u16 0x5432 (get server_data b);;
  UNITTEST_EXPECT_EQ 436 u32 0xdcba9876 (get server_data c);;
  UNITTEST_EXPECT_EQ 437 u32 0x01234567 (get server_data d);;
  expect_int 438 0 (compare_buffer server_data "World Hello");;
  expect_report 440 1;;
  expect_deleted 442 server;;
  expect_report 443 0.

(** Bad names and bad sizes. *)
Definition expect_bad (line : Z) (new : option string → Z → W Z) : T :=
  expect_none line EINVAL (new None 100);;
  expect_none (line + 2) EINVAL (new hello_worlds 100);;
  expect_none (line + 4) EINVAL (new bad_name 100);;
  expect_none (line + 6) EINVAL (new the_name 0);;
  expect_none (line + 8) EINVAL (new the_name (-9999));;
  expect_none (line + 10) EINVAL (new the_name (Sharedmem.SHAREDMEM_MAX_SIZE + 1)).

Definition cplus_sharedmem_new_bad_parameter : T := expect_bad 451 cplus_sharedmem_new.
Definition cplus_sharedmem_open_bad_parameter : T :=
  expect_none 469 EINVAL (cplus_sharedmem_open None);;
  expect_none 471 ENOENT (cplus_sharedmem_open the_name).
Definition cplus_sharedmem_create_bad_parameter : T :=
  expect_bad 480 cplus_sharedmem_create;;
  server ← expect_made 492 (cplus_sharedmem_new the_name 100);
  expect_none 493 Sharedmem.EEXIST (cplus_sharedmem_create the_name 100);;
  expect_deleted 495 server;;
  expect_report 496 0.

Definition unittest_sharedmem : list (@named_test P) :=
  [("cplus_sharedmem_new", "functionity", cplus_sharedmem_new_functionity);
   ("cplus_sharedmem_alloc", "cross_process_communication", cplus_sharedmem_alloc_cross_process_communication);
   ("cplus_sharedmem_new", "bad_parameter", cplus_sharedmem_new_bad_parameter);
   ("cplus_sharedmem_open", "bad_parameter", cplus_sharedmem_open_bad_parameter);
   ("cplus_sharedmem_create", "bad_parameter", cplus_sharedmem_create_bad_parameter)]%string.

Definition start : P := first_process (Machine first_kernel ∅) 1000 0.

(** ** Theorems *)

(** the five tests pass: a child finds in the memory what its parent wrote before
    the fork, and the parent what the child wrote. *)
Theorem sharedmem_tests_pass : report_of unittest_sharedmem start = Done (5%nat, 82%nat, [], 0).
Proof. vm_compute. reflexivity. Qed.

(** a child reads through its copy of an object the bytes its parent reads. *)
Theorem fork_shares_memory parent child m o a i n :
  Sharedmem.addr o = Some a → Sharedmem.maps (kern m) !! a = Some (parent, i, n) →
  mapped child (Sharedmem.addr (copied_object parent m o)) (copied parent child m) =
    mapped parent (Sharedmem.addr o) m.
Proof.
  intros Ha Hm. destruct (copied_mapping_shares parent child (kern m) a i n Hm) as [Hc _].
  change (copied_object parent m o) with (copied_mapping (kern m) o).
  change (copied parent child m) with (with_kern (copied_kernel parent child (kern m)) m).
  unfold mapped, copied_mapping. destruct o; cbn [Sharedmem.set_addr Sharedmem.addr] in *. subst.
  cbn [fmap option_fmap option_map mbind option_bind with_kern kern contents].
  rewrite Hc, Hm. cbn [mbind option_bind]. by rewrite !Z.eqb_refl.
Qed.

(** The machine after a process has made an object. *)
Definition one_object : outcome (option Sharedmem.shared_mem * machine) :=
  on_kern (Sharedmem.cplus_sharedmem_new 1000 Sharedmem.no_faults Sharedmem.no_faults (Some [116]) 8)
    (Machine first_kernel ∅).

Lemma fork_shares_memory_witness :
  match one_object with
  | Done (Some o, m) => mapped 1001 (Sharedmem.addr (copied_object 1000 m o)) (copied 1000 1001 m) = Some (0%nat, replicate 8 0)
  | _ => False
  end.
Proof.
  assert (E : one_object = Done (Some (Sharedmem.mkSharedMem Sharedmem.OBJ_TYPE 3 (Some 0%nat) 8 true 1000
    (match one_object with Done (Some o, _) => Sharedmem.name o | _ => [] end)),
    match one_object with Done (_, m) => m | _ => Machine first_kernel ∅ end)) by (vm_compute; reflexivity).
  rewrite E. erewrite fork_shares_memory; [vm_compute; reflexivity | reflexivity | vm_compute; reflexivity].
Defined.

End SharedmemTests.
