(* ===== verification/PeventTests.v ===== *)
(** * PeventTests: the tests of src/pevent.c, run on the model

    The tests, statement for statement, over the processes of Processes.v and the
    constructors of PeventNew.v.  A call on an event is the steps of its thread in
    Pevent.v to the return, as nothing else runs then. *)

From S2P Require Import Prelude Systime Sharedmem Named Pevent PeventNew Unittest Processes.
From stdpp Require Import base numbers list option gmap strings.
From Stdlib Require Import ZArith Lia.
Open Scope Z_scope.

Module PeventTests.
Import Unittest Processes PeventNew.

#[export] Instance pevent_system : System PeventNew.world pevent := {
  copied p c w := Named.set_kern (copied_kernel p c (Named.kern w)) w;
  copied_object c w o := mkPevent (type o) (at_ o) (copied_mapping (Named.kern w) <$> shared_mem o);
  left c w := Named.set_kern (left_kernel c (Named.kern w)) w;
  errno_of w := Sharedmem.errno (Named.kern w);
  put_errno e w := Named.set_kern (Sharedmem.set_errno e (Named.kern w)) w;
  blocks o := if shared_mem o then 2 else 1 }.

#[local] Notation P := (process PeventNew.world pevent).
#[local] Notation W := (C P).
#[local] Notation T := (C (tstate P) unit).

(** ** A call, step by step *)

(** The next labels of the only thread: asleep, it wakes up at its deadline. *)
Fixpoint finish (fuel : nat) (w : Pevent.world) : outcome (Pevent.result * Pevent.world) :=
  match fuel with
  | O => Hangs
  | Datatypes.S fuel =>
      let continue ls :=
        match Pevent.run ls w with Some (w, _) => finish fuel w | None => Hangs end in
      match Pevent.pc_of w 0 with
      | Pevent.Returned _ r => Done (r, w)
      | Pevent.Crashed => Aborts
      | Pevent.Asleep _ (Some d) => continue [Pevent.Tick (Systime.ns_of d - Pevent.now w); Pevent.Expire 0]
      | _ => continue [Pevent.Move 0 None]
      end
  end.

(** The call [c] on the flags and the mutex of an event.  Eight turns are enough
    for the mutex, the section, the sleep, the mutex and the section again. *)
Definition alone (ty : Z) (p : named_pevent) (c : Pevent.call) : outcome (Pevent.result * named_pevent) :=
  match Pevent.exec (Pevent.Call 0 c) (Pevent.World (flags_of ty p) (holder p) ∅ 1000000000) with
  | Some w =>
      match finish 8 w with
      | Done (r, w) =>
          let e := Pevent.evt w in
          Done (r, mkNamed (Pevent.setted e) (Pevent.broadcast e) (Pevent.status e) (Pevent.owner w))
      | Aborts => Aborts | Hangs => Hangs | Undefined => Undefined
      end
  | None => Hangs
  end.

Definition on_event (c : Pevent.call) (o : pevent) : C PeventNew.world (Z * pevent) :=
  p ← Named.load zero (at_ o);
  match alone (type o) p c with
  | Done (r, p) =>
      q ← Named.store (at_ o) p;
      match Pevent.err r with Some e => Named.set_errno e | None => mret tt end;;
      mret (Pevent.ret r, mkPevent (type o) q (shared_mem o))
  | Aborts => abort | Hangs => hang | Undefined => undef
  end.

(** ** Calls *)

Definition cplus_pevent_new (broadcast status : bool) : W Z :=
  make (λ me, PeventNew.cplus_pevent_new me no_faults broadcast status).
Definition cplus_pevent_new_xp (name : string) (broadcast status : bool) : W Z :=
  make (λ me, PeventNew.cplus_pevent_new_xp me no_faults (Some (cstr name)) broadcast status).
Definition cplus_pevent_create_xp (name : string) (broadcast status : bool) : W Z :=
  make (λ me, PeventNew.cplus_pevent_create_xp me no_faults (Some (cstr name)) broadcast status).
Definition cplus_pevent_open_xp (name : string) : W Z :=
  make (λ me, PeventNew.cplus_pevent_open_xp me no_faults (Some (cstr name))).
Definition cplus_pevent_delete (event : Z) : W Z := end_object event PeventNew.cplus_pevent_delete.
Definition cplus_pevent_wait (event timeout : Z) : W Z :=
  waiting timeout (on_object event (λ _, on_event (Pevent.Wait timeout))).
Definition cplus_pevent_set (event : Z) : W Z := on_object event (λ _, on_event Pevent.SetEvent).
Definition cplus_pevent_reset (event : Z) : W Z := on_object event (λ _, on_event Pevent.ResetEvent).
Definition cplus_pevent_get_status (event : Z) : W Z := on_object event (λ _, on_event Pevent.GetStatus).

(** ** The tests *)

Definition EEXIST : Z := Sharedmem.EEXIST.
Definition TEST_PEVENT_NAME : string := "test".
Definition bad_name : string := "0123456789abcdef012345678".
(** [&bad_name[1]]. *)
Definition bad_name_1 : string := "123456789abcdef012345678".

Definition below (n time : Z) : bool := time <? n.
(** An expectation of the type [bool]. *)
Definition expect_status (line expect : Z) (m : W Z) : T := UNITTEST_EXPECT_EQ line as_bool expect m;; mret tt.

Definition cplus_pevent_new_functionity : T :=
  event_sv ← expect_made 422 (cplus_pevent_new false false);
  expect_fail 423 EAGAIN (cplus_pevent_wait event_sv 0);;
  expect_success 425 (cplus_pevent_set event_sv);;
  expect_success 426 (cplus_pevent_wait event_sv 0);;
  expect_fail 427 EAGAIN (cplus_pevent_wait event_sv 0);;
  expect_success 429 (cplus_pevent_delete event_sv);;
  event_sv ← expect_made 431 (cplus_pevent_new false true);
  expect_success 432 (cplus_pevent_wait event_sv 0);;
  expect_fail 433 EAGAIN (cplus_pevent_wait event_sv 0);;
  expect_success 435 (cplus_pevent_delete event_sv);;
  event_sv ← expect_made 437 (cplus_pevent_new true false);
  expect_fail 438 EAGAIN (cplus_pevent_wait event_sv 0);;
  expect_fail 440 EAGAIN (cplus_pevent_wait event_sv 0);;
  expect_success 442 (cplus_pevent_set event_sv);;
  expect_success 443 (cplus_pevent_wait event_sv 0);;
  expect_success 444 (cplus_pevent_wait event_sv 0);;
  expect_success 445 (cplus_pevent_delete event_sv);;
  event_sv ← expect_made 447 (cplus_pevent_new true true);
  expect_success 448 (cplus_pevent_wait event_sv 0);;
  expect_success 449 (cplus_pevent_wait event_sv 0);;
  expect_success 450 (cplus_pevent_delete event_sv);;
  expect_report 452 0.

Definition cplus_pevent_wait_functionity : T :=
  event_sv ← expect_made 460 (cplus_pevent_new false false);
  expect_time 465 in_time (expect_fail 462 ETIMEDOUT (cplus_pevent_wait event_sv 1500));;
  expect_success 466 (cplus_pevent_delete event_sv);;
  event_sv ← expect_made 468 (cplus_pevent_new false true);
  expect_time 472 (below 1550) (expect_success 470 (cplus_pevent_wait event_sv 1500));;
  expect_success 473 (cplus_pevent_delete event_sv);;
  event_sv ← expect_made 475 (cplus_pevent_new true false);
  expect_time 480 in_time (expect_fail 477 ETIMEDOUT (cplus_pevent_wait event_sv 1500));;
  expect_time 485 in_time (expect_fail 482 ETIMEDOUT (cplus_pevent_wait event_sv 1500));;
  expect_success 487 (cplus_pevent_set event_sv);;
  expect_time 492 (below 1550) (expect_success 490 (cplus_pevent_wait event_sv 1500));;
  expect_time 496 (below 1550) (expect_success 494 (cplus_pevent_wait event_sv 1500));;
  expect_success 497 (cplus_pevent_delete event_sv);;
  event_sv ← expect_made 499 (cplus_pevent_new true true);
  expect_time 503 (below 1550) (expect_success 501 (cplus_pevent_wait event_sv 1500));;
  expect_time 507 (below 1550) (expect_success 505 (cplus_pevent_wait event_sv 1500));;
  expect_success 508 (cplus_pevent_delete event_sv);;
  expect_report 510 0.

Definition cplus_pevent_reset_functionity : T :=
  event ← expect_made 516 (cplus_pevent_new false true);
  expect_success 517 (cplus_pevent_wait event 0);;
  expect_success 518 (cplus_pevent_reset event);;
  expect_fail 519 EAGAIN (cplus_pevent_wait event 0);;
  expect_success 521 (cplus_pevent_delete event);;
  expect_report 523 0.

Definition child1_of_cplus_pevent_new_xp_cross_process_test (event_sv : Z) : T :=
  event_ch ← expect_made 540 (cplus_pevent_new_xp TEST_PEVENT_NAME false false);
  expect_fail 541 EAGAIN (cplus_pevent_wait event_ch 0);;
  expect_success 543 (cplus_pevent_set event_ch);;
  expect_success 544 (cplus_pevent_wait event_ch 0);;
  expect_fail 545 EAGAIN (cplus_pevent_wait event_ch 0);;
  expect_success 547 (cplus_pevent_delete event_ch);;
  expect_success 548 (cplus_pevent_delete event_sv);;
  expect_report 549 0.

Definition child2_of_cplus_pevent_new_xp_cross_process_test (event_sv : Z) : T :=
  event_ch ← expect_made 564 (cplus_pevent_new_xp TEST_PEVENT_NAME false false);
  expect_success 565 (cplus_pevent_wait event_ch 0);;
  expect_fail 566 EAGAIN (cplus_pevent_wait event_ch 0);;
  expect_success 568 (cplus_pevent_delete event_ch);;
  expect_success 569 (cplus_pevent_delete event_sv);;
  expect_report 570 0.

Definition child3_of_cplus_pevent_new_xp_cross_process_test (event_sv : Z) : T :=
  event_ch ← expect_made 586 (cplus_pevent_new_xp TEST_PEVENT_NAME false false);
  expect_fail 587 EAGAIN (cplus_pevent_wait event_ch 0);;
  expect_fail 589 EAGAIN (cplus_pevent_wait event_ch 0);;
  expect_success 591 (cplus_pevent_set event_ch);;
  expect_success 592 (cplus_pevent_wait event_ch 0);;
  expect_success 593 (cplus_pevent_wait event_ch 0);;
  expect_success 594 (cplus_pevent_delete event_ch);;
  expect_success 595 (cplus_pevent_delete event_sv);;
  expect_report 596 0.

Definition child4_of_cplus_pevent_new_xp_cross_process_test (event_sv : Z) : T :=
  event_ch ← expect_made 612 (cplus_pevent_new_xp TEST_PEVENT_NAME false false);
  expect_success 613 (cplus_pevent_wait event_ch 0);;
  expect_success 614 (cplus_pevent_wait event_ch 0);;
  expect_success 615 (cplus_pevent_delete event_ch);;
  expect_success 616 (cplus_pevent_delete event_sv);;
  expect_report 617 0.

Definition cplus_pevent_new_xp_cross_process_test : T :=
  event_sv ← expect_made 531 (cplus_pevent_new_xp TEST_PEVENT_NAME false false);
  ends ← fork (child1_of_cplus_pevent_new_xp_cross_process_test event_sv);
  expect_child_end 553 ends;;
  expect_success 554 (cplus_pevent_delete event_sv);;
  event_sv ← expect_made 556 (cplus_pevent_new_xp TEST_PEVENT_NAME false true);
  ends ← fork (child2_of_cplus_pevent_new_xp_cross_process_test event_sv);
  expect_child_end 574 ends;;
  expect_success 575 (cplus_pevent_delete event_sv);;
  event_sv ← expect_made 577 (cplus_pevent_new_xp TEST_PEVENT_NAME true false);
  ends ← fork (child3_of_cplus_pevent_new_xp_cross_process_test event_sv);
  expect_child_end 600 ends;;
  expect_success 601 (cplus_pevent_delete event_sv);;
  event_sv ← expect_made 603 (cplus_pevent_new_xp TEST_PEVENT_NAME true true);
  ends ← fork (child4_of_cplus_pevent_new_xp_cross_process_test event_sv);
  expect_child_end 621 ends;;
  expect_success 622 (cplus_pevent_delete event_sv);;
  expect_report 623 0.

Definition child1_of_cplus_pevent_wait_cross_process_test (event_sv : Z) : T :=
  event_ch ← expect_made 640 (cplus_pevent_open_xp TEST_PEVENT_NAME);
  expect_time 645 in_time (expect_fail 642 ETIMEDOUT (cplus_pevent_wait event_ch 1500));;
  expect_success 646 (cplus_pevent_delete event_ch);;
  expect_success 647 (cplus_pevent_delete event_sv);;
  expect_report 648 0.

Definition child2_of_cplus_pevent_wait_cross_process_test (event_sv : Z) : T :=
  event_ch ← expect_made 664 (cplus_pevent_open_xp TEST_PEVENT_NAME);
  expect_time 668 (below 1550) (expect_success 666 (cplus_pevent_wait event_ch 1500));;
  expect_success 669 (cplus_pevent_delete event_ch);;
  expect_success 670 (cplus_pevent_delete event_sv);;
  expect_report 671 0.

Definition child3_of_cplus_pevent_wait_cross_process_test (event_sv : Z) : T :=
  event_ch ← expect_made 688 (cplus_pevent_open_xp TEST_PEVENT_NAME);
  expect_time 693 in_time (expect_fail 690 ETIMEDOUT (cplus_pevent_wait event_ch 1500));;
  expect_time 698 in_time (expect_fail 695 ETIMEDOUT (cplus_pevent_wait event_ch 1500));;
  expect_success 699 (cplus_pevent_delete event_ch);;
  expect_success 700 (cplus_pevent_delete event_sv);;
  expect_report 701 0.

Definition child4_of_cplus_pevent_wait_cross_process_test (event_sv : Z) : T :=
  event_ch ← expect_made 715 (cplus_pevent_open_xp TEST_PEVENT_NAME);
  expect_time 719 (below 1550) (expect_success 717 (cplus_pevent_wait event_ch 1500));;
  expect_time 723 (below 1550) (expect_success 721 (cplus_pevent_wait event_ch 1500));;
  expect_success 724 (cplus_pevent_delete event_ch);;
  expect_success 725 (cplus_pevent_delete event_sv);;
  expect_report 726 0.

Definition child5_of_cplus_pevent_wait_cross_process_test (event_sv : Z) : T :=
  event_ch ← expect_made 743 (cplus_pevent_open_xp TEST_PEVENT_NAME);
  expect_time 747 (below 1550) (expect_success 745 (cplus_pevent_wait event_ch 1500));;
  expect_time 751 (below 1550) (expect_success 749 (cplus_pevent_wait event_ch 1500));;
  expect_success 752 (cplus_pevent_delete event_ch);;
  expect_success 753 (cplus_pevent_delete event_sv);;
  expect_report 754 0.

Definition cplus_pevent_wait_cross_process_test : T :=
  event_sv ← expect_made 631 (cplus_pevent_create_xp TEST_PEVENT_NAME false false);
  ends ← fork (child1_of_cplus_pevent_wait_cross_process_test event_sv);
  expect_child_end 652 ends;;
  expect_success 653 (cplus_pevent_delete event_sv);;
  expect_report 654 0;;
  event_sv ← expect_made 656 (cplus_pevent_create_xp TEST_PEVENT_NAME false true);
  ends ← fork (child2_of_cplus_pevent_wait_cross_process_test event_sv);
  expect_child_end 675 ends;;
  expect_success 676 (cplus_pevent_delete event_sv);;
  expect_report 677 0;;
  event_sv ← expect_made 679 (cplus_pevent_create_xp TEST_PEVENT_NAME true false);
  ends ← fork (child3_of_cplus_pevent_wait_cross_process_test event_sv);
  expect_child_end 705 ends;;
  expect_success 706 (cplus_pevent_set event_sv);;
  ends ← fork (child4_of_cplus_pevent_wait_cross_process_test event_sv);
  expect_child_end 730 ends;;
  expect_success 731 (cplus_pevent_delete event_sv);;
  expect_report 732 0;;
  event_sv ← expect_made 734 (cplus_pevent_create_xp TEST_PEVENT_NAME true true);
  ends ← fork (child5_of_cplus_pevent_wait_cross_process_test event_sv);
  expect_child_end 758 ends;;
  expect_success 759 (cplus_pevent_delete event_sv);;
  expect_report 760 0.

Definition child1_of_cplus_pevent_reset_cross_process_test (event_sv : Z) : T :=
  event_ch ← expect_made 776 (cplus_pevent_open_xp TEST_PEVENT_NAME);
  expect_success 777 (cplus_pevent_wait event_ch 0);;
  expect_success 778 (cplus_pevent_delete event_ch);;
  expect_success 779 (cplus_pevent_delete event_sv);;
  expect_report 780 0.

Definition child2_of_cplus_pevent_reset_cross_process_test (event_sv : Z) : T :=
  event_ch ← expect_made 795 (cplus_pevent_open_xp TEST_PEVENT_NAME);
  expect_fail 796 EAGAIN (cplus_pevent_wait event_ch 0);;
  expect_success 798 (cplus_pevent_delete event_ch);;
  expect_success 799 (cplus_pevent_delete event_sv);;
  expect_report 800 0.

Definition cplus_pevent_reset_cross_process_test : T :=
  event_sv ← expect_made 767 (cplus_pevent_create_xp TEST_PEVENT_NAME false true);
  ends ← fork (child1_of_cplus_pevent_reset_cross_process_test event_sv);
  expect_child_end 784 ends;;
  expect_success 786 (cplus_pevent_reset event_sv);;
  ends ← fork (child2_of_cplus_pevent_reset_cross_process_test event_sv);
  expect_child_end 804 ends;;
  expect_success 805 (cplus_pevent_delete event_sv);;
  expect_report 806 0.

Definition cplus_pevent_new_xp_bad_parameter : T :=
  expect_none 814 EINVAL (cplus_pevent_new_xp bad_name false true);;
  event_sv ← expect_made 817 (cplus_pevent_new_xp bad_name_1 false true);
  expect_success 818 (cplus_pevent_delete event_sv);;
  expect_report 819 0.

Definition cplus_pevent_create_xp_bad_parameter : T :=
  expect_none 827 EINVAL (cplus_pevent_create_xp bad_name false true);;
  event_sv ← expect_made 829 (cplus_pevent_create_xp bad_name_1 false true);
  expect_none 830 EEXIST (cplus_pevent_create_xp bad_name_1 false true);;
  expect_success 832 (cplus_pevent_delete event_sv);;
  expect_report 833 0.

Definition cplus_pevent_open_xp_bad_parameter : T :=
  expect_none 841 EINVAL (cplus_pevent_open_xp bad_name);;
  expect_none 843 ENOENT (cplus_pevent_open_xp TEST_PEVENT_NAME);;
  event_sv ← expect_made 845 (cplus_pevent_create_xp bad_name_1 false true);
  event_ch ← expect_made 846 (cplus_pevent_open_xp bad_name_1);
  expect_success 847 (cplus_pevent_delete event_sv);;
  expect_success 848 (cplus_pevent_delete event_ch);;
  expect_report 849 0.

Definition cplus_pevent_get_status_functionity : T :=
  event ← expect_made 855 (cplus_pevent_new false false);
  expect_status 856 0 (cplus_pevent_get_status event);;
  expect_success 857 (cplus_pevent_set event);;
  expect_status 858 1 (cplus_pevent_get_status event);;
  expect_success 859 (cplus_pevent_reset event);;
  expect_status 860 0 (cplus_pevent_get_status event);;
  expect_success 861 (cplus_pevent_delete event);;
  expect_report 862 0.

Definition cplus_pevent_get_status_cross_process_test : T :=
  event ← expect_made 868 (cplus_pevent_new_xp TEST_PEVENT_NAME false true);
  expect_status 869 1 (cplus_pevent_get_status event);;
  expect_success 870 (cplus_pevent_reset event);;
  expect_status 871 0 (cplus_pevent_get_status event);;
  expect_success 872 (cplus_pevent_set event);;
  expect_status 873 1 (cplus_pevent_get_status event);;
  expect_success 874 (cplus_pevent_delete event);;
  expect_report 875 0.

Definition unittest_pevent : list (@named_test P) :=
  [("cplus_pevent_new", "functionity", cplus_pevent_new_functionity);
   ("cplus_pevent_wait", "functionity", cplus_pevent_wait_functionity);
   ("cplus_pevent_reset", "functionity", cplus_pevent_reset_functionity);
   ("cplus_pevent_get_status", "functionity", cplus_pevent_get_status_functionity);
   ("cplus_pevent_new_xp", "cross_process_test", cplus_pevent_new_xp_cross_process_test);
   ("cplus_pevent_wait", "cross_process_test", cplus_pevent_wait_cross_process_test);
   ("cplus_pevent_reset", "cross_process_test", cplus_pevent_reset_cross_process_test);
   ("cplus_pevent_get_status", "cross_process_test", cplus_pevent_get_status_cross_process_test);
   ("cplus_pevent_new_xp", "bad_parameter", cplus_pevent_new_xp_bad_parameter);
   ("cplus_pevent_create_xp", "bad_parameter", cplus_pevent_create_xp_bad_parameter);
   ("cplus_pevent_open_xp", "bad_parameter", cplus_pevent_open_xp_bad_parameter)]%string.

(** A machine whose waits are [late] milliseconds late. *)
Definition start (late : Z) : P := first_process (Named.World first_kernel ∅) 1000 late.

(** ** Theorems *)

(** the eleven tests pass when waits end on time, and when they are 49 ms late. *)
Theorem pevent_tests_pass :
  report_of unittest_pevent (start 0) = Done (11%nat, 218%nat, [], 0) ∧
  report_of unittest_pevent (start 49) = Done (11%nat, 218%nat, [], 0).
Proof. split; vm_compute; reflexivity. Qed.

(** the result of a call alone is that of the event as one flag (Pevent.v), for the
    calls of the tests. *)
Theorem alone_applies b s st c r p :
  c ∈ [Pevent.Wait 0; Pevent.Wait 1500; Pevent.SetEvent; Pevent.ResetEvent; Pevent.GetStatus] →
  alone OBJ_TYPE (mkNamed s b st None) c = Done (r, p) →
  Pevent.apply b s c r = Some (setted p) ∧ broadcast p = b ∧ status p = st ∧ holder p = None.
Proof.
  intros Hc. repeat (apply elem_of_cons in Hc as [->|Hc]); [..|by apply elem_of_nil in Hc];
    destruct b, s, st; vm_compute; intros [= <- <-]; done.
Qed.

Lemma alone_applies_witness :
  Pevent.apply false true (Pevent.Wait 0) (Pevent.Result CPLUS_SUCCESS (Some 0)) = Some false ∧
  false = false ∧ true = true ∧ @None nat = None.
Proof.
  apply (alone_applies false true true (Pevent.Wait 0) _ (mkNamed false false true None));
    [by left | vm_compute; reflexivity].
Defined.

End PeventTests.
