(* ===== verification/AtomicOld.v ===== *)
(** * AtomicOld: the atomic operations with old compilers (src/cplus/cplus_atomic.h, src/atomic.c)

    From GCC 4.6.3 to 4.6 the macros use the [__sync] intrinsics, before that they
    only set [errno].  The operations are those on an [int32_t], over a memory of
    words of 32 bits at every fourth address; the state has [errno].  The macros
    read a value through the type of the pointer, that is two words, of which the
    first is used.  A plain read and an exchange are two steps, between which
    other threads run. *)

From S2P Require Import Prelude Atomic.
From stdpp Require Import base numbers list option gmap.
From Stdlib Require Import ZArith Lia.
Open Scope Z_scope.

Module AtomicOld.

Definition ENOTSUP : Z := 95.

Record st := St { words : gmap Z Z; errno : Z }.

(** The operations of Atomic.v on the words. *)
Definition on_words {A} (m : C (gmap Z Z) A) : C st A := λ s,
  match m (words s) with
  | Done (a, w) => Done (a, St w (errno s))
  | Aborts => Aborts | Hangs => Hangs | Undefined => Undefined
  end.
Definition load (p : Z) : C st Z := on_words (Atomic.load p).

(** The word at [p], of type [int32_t *], read as a [typeof(p)], that is as a pointer
    of two words, and converted to an [int32_t]. *)
Definition load_as_pointer (p : Z) : C st Z :=
  lo ← load p; hi ← load (p + 4); mret (Atomic.wrap 32 (lo + hi * 2 ^ 32)).

(** [__sync_val_compare_and_swap]: the value that was there. *)
Definition val_compare_and_swap (ptr old new : Z) : C st Z :=
  x ← load ptr;
  if x =? old then on_words (Atomic.store 32 ptr new);; mret x else mret x.
(** [__sync_bool_compare_and_swap]. *)
Definition bool_compare_and_swap (ptr old new : Z) : C st bool :=
  x ← load ptr;
  if x =? old then on_words (Atomic.store 32 ptr new);; mret true else mret false.

Definition not_supported {A} (a : A) : C st A := modify (λ s, St (words s) ENOTSUP);; mret a.

(** ** GCC 4.6 *)
Module Sync.

Definition cplus_atomic_read (ptr : Z) : C st Z := on_words (Atomic.op_fetch 32 Z.add ptr 0).
(** The exchange of [cplus_atomic_write], after [old] was read; then both. *)
Definition write_swap (ptr value old : Z) : C st Z := val_compare_and_swap ptr old value.
Definition cplus_atomic_write (ptr value : Z) : C st Z :=
  old ← load_as_pointer ptr; write_swap ptr value old.
Definition cplus_atomic_exchange (ptr value : Z) : C st Z := not_supported ENOTSUP.
Definition cplus_atomic_add (ptr value : Z) : C st Z := on_words (Atomic.cplus_atomic_add 32 ptr value).
Definition cplus_atomic_and (ptr value : Z) : C st Z := on_words (Atomic.cplus_atomic_and 32 ptr value).
Definition cplus_atomic_xor (ptr value : Z) : C st Z := on_words (Atomic.cplus_atomic_xor 32 ptr value).
Definition cplus_atomic_or (ptr value : Z) : C st Z := on_words (Atomic.cplus_atomic_or 32 ptr value).
Definition cplus_atomic_nand (ptr value : Z) : C st Z := on_words (Atomic.cplus_atomic_nand 32 ptr value).
Definition cplus_atomic_fetch_add (ptr value : Z) : C st Z := on_words (Atomic.cplus_atomic_fetch_add 32 ptr value).
Definition cplus_atomic_fetch_and (ptr value : Z) : C st Z := on_words (Atomic.cplus_atomic_fetch_and 32 ptr value).
Definition cplus_atomic_fetch_xor (ptr value : Z) : C st Z := on_words (Atomic.cplus_atomic_fetch_xor 32 ptr value).
Definition cplus_atomic_fetch_or (ptr value : Z) : C st Z := on_words (Atomic.cplus_atomic_fetch_or 32 ptr value).
Definition cplus_atomic_fetch_nand (ptr value : Z) : C st Z := on_words (Atomic.cplus_atomic_fetch_nand 32 ptr value).
Definition cplus_atomic_compare_exchange (ptr expect_ptr value_ptr : Z) : C st bool :=
  old ← load_as_pointer expect_ptr;
  new ← load_as_pointer value_ptr;
  bool_compare_and_swap ptr old new.

End Sync.

(** ** Before GCC 4.6.3

    The fourteen macros are one, and so are the two functions that return a
    pointer, with either compiler. *)
Definition cplus_atomic_none : C st Z := not_supported ENOTSUP.
Definition cplus_atomic_read_ptr (ptr : Z) : C st Z := not_supported 0.
Definition cplus_atomic_write_ptr (ptr value : Z) : C st unit := not_supported tt.
Definition cplus_atomic_exchange_ptr (ptr value : Z) : C st Z := not_supported 0.

(** ** Theorems *)

Lemma word_at_run p s x : words s !! p = Some x → load p s = Done (x, s).
Proof. intros H. destruct s. unfold load, on_words. by rewrite (Atomic.word_load _ _ _ H). Qed.

Lemma store_run p v s x :
  words s !! p = Some x → on_words (Atomic.store 32 p v) s = Done (tt, St (<[p := Atomic.wrap 32 v]> (words s)) (errno s)).
Proof. intros H. unfold on_words. by rewrite (Atomic.word_store _ _ _ _ _ H). Qed.

(** A value of two words is its first word; without a second the read is
    outside of the object. *)
Lemma load_as_pointer_run p s x y :
  words s !! p = Some x → words s !! (p + 4) = Some y → 0 ≤ x < 2 ^ 32 →
  load_as_pointer p s = Done (x, s).
Proof.
  intros Hx Hy Hr. unfold load_as_pointer.
  rewrite (bind_Done _ _ _ _ _ (word_at_run _ _ _ Hx)), (bind_Done _ _ _ _ _ (word_at_run _ _ _ Hy)).
  unfold Atomic.wrap, mret, C_ret. rewrite Z_mod_plus_full. by rewrite Z.mod_small.
Qed.

(** an old compare and exchange stores and answers as the new one, but does not
    tell the caller what it found: with a word that has another value it leaves the
    expected value alone, which the new one replaces. *)
Theorem expected_value_not_updated ptr expect_ptr value_ptr s x e v e' v' :
  words s !! ptr = Some x → words s !! expect_ptr = Some e → words s !! value_ptr = Some v →
  words s !! (expect_ptr + 4) = Some e' → words s !! (value_ptr + 4) = Some v' →
  0 ≤ x < 2 ^ 32 → 0 ≤ e < 2 ^ 32 → 0 ≤ v < 2 ^ 32 →
  Sync.cplus_atomic_compare_exchange ptr expect_ptr value_ptr s =
    (if decide (x = e) then Done (true, St (<[ptr := v]> (words s)) (errno s)) else Done (false, s)) ∧
  on_words (Atomic.cplus_atomic_compare_exchange 32 ptr expect_ptr value_ptr) s =
    (if decide (x = e) then Done (true, St (<[ptr := v]> (words s)) (errno s))
     else Done (false, St (<[expect_ptr := x]> (words s)) (errno s))).
Proof.
  intros Hp He Hv He' Hv' Rx Re Rv. split.
  - unfold Sync.cplus_atomic_compare_exchange, bool_compare_and_swap.
    rewrite (bind_Done _ _ _ _ _ (load_as_pointer_run _ _ _ _ He He' Re)).
    rewrite (bind_Done _ _ _ _ _ (load_as_pointer_run _ _ _ _ Hv Hv' Rv)).
    rewrite (bind_Done _ _ _ _ _ (word_at_run _ _ _ Hp)).
    destruct (Z.eqb_spec x e); [rewrite decide_True by done|by rewrite decide_False].
    rewrite (bind_Done _ _ _ _ _ (store_run _ _ _ _ Hp)). by rewrite Atomic.wrap_small.
  - unfold on_words, Atomic.cplus_atomic_compare_exchange.
    rewrite (bind_Done _ _ _ _ _ (Atomic.word_load _ _ _ Hv)), (bind_Done _ _ _ _ _ (Atomic.word_load _ _ _ He)),
      (bind_Done _ _ _ _ _ (Atomic.word_load _ _ _ Hp)).
    destruct (Z.eqb_spec x e); [rewrite decide_True by done|rewrite decide_False by done].
    + rewrite (bind_Done _ _ _ _ _ (Atomic.word_store _ _ _ _ _ Hp)). by rewrite Atomic.wrap_small.
    + rewrite (bind_Done _ _ _ _ _ (Atomic.word_store _ _ _ _ _ He)). by rewrite Atomic.wrap_small.
Qed.

(** a write that runs alone stores its value; when another thread changes the
    word between its read and its exchange, the write is lost. *)
Theorem write_can_be_lost ptr value s x y :
  words s !! ptr = Some x → words s !! (ptr + 4) = Some y → 0 ≤ x < 2 ^ 32 → 0 ≤ value < 2 ^ 32 →
  Sync.cplus_atomic_write ptr value s = Done (x, St (<[ptr := value]> (words s)) (errno s)) ∧
  ∀ z s', words s' !! ptr = Some z → z ≠ x → Sync.write_swap ptr value x s' = Done (z, s').
Proof.
  intros Hx Hy Rx Rv. split.
  - unfold Sync.cplus_atomic_write, Sync.write_swap, val_compare_and_swap.
    rewrite (bind_Done _ _ _ _ _ (load_as_pointer_run _ _ _ _ Hx Hy Rx)).
    rewrite (bind_Done _ _ _ _ _ (word_at_run _ _ _ Hx)), Z.eqb_refl.
    rewrite (bind_Done _ _ _ _ _ (store_run _ _ _ _ Hx)). by rewrite Atomic.wrap_small.
  - intros z s' Hz Hne. unfold Sync.write_swap, val_compare_and_swap.
    rewrite (bind_Done _ _ _ _ _ (word_at_run _ _ _ Hz)).
    rewrite (proj2 (Z.eqb_neq z x)) by done. reflexivity.
Qed.

(** a word at the end of its object is read beyond it. *)
Theorem last_word_overread ptr value s x :
  words s !! ptr = Some x → words s !! (ptr + 4) = None →
  Sync.cplus_atomic_write ptr value s = Undefined ∧
  Sync.cplus_atomic_read ptr s = Done (Atomic.wrap 32 x, St (<[ptr := Atomic.wrap 32 x]> (words s)) (errno s)).
Proof.
  intros Hx Hy. split.
  - unfold Sync.cplus_atomic_write. apply bind_undef. unfold load_as_pointer.
    rewrite (bind_Done _ _ _ _ _ (word_at_run _ _ _ Hx)). apply bind_undef.
    unfold load, on_words, Atomic.load, deref. by rewrite Hy.
  - unfold Sync.cplus_atomic_read, on_words. rewrite (Atomic.op_fetch_run _ _ _ _ _ _ Hx). by rewrite Z.add_0_r.
Qed.

(** ** Witnesses *)

Definition three (x : Z) : st :=
  St {[ 8 := x; 12 := 0; 16 := 5; 20 := 0; 24 := 9; 28 := 0 ]} 0.

Lemma expected_value_not_updated_witness :
  Sync.cplus_atomic_compare_exchange 8 16 24 (three 7) = Done (false, three 7) ∧
  on_words (Atomic.cplus_atomic_compare_exchange 32 8 16 24) (three 7) =
    Done (false, St (<[16 := 7]> (words (three 7))) 0).
Proof. apply (expected_value_not_updated 8 16 24 (three 7) 7 5 9 0 0); try reflexivity; lia. Defined.

Lemma write_can_be_lost_witness :
  Sync.cplus_atomic_write 8 1 (three 7) = Done (7, St (<[8 := 1]> (words (three 7))) 0) ∧
  ∀ z s', words s' !! 8 = Some z → z ≠ 7 → Sync.write_swap 8 1 7 s' = Done (z, s').
Proof. apply (write_can_be_lost 8 1 (three 7) 7 0); try reflexivity; lia. Defined.

Definition one (x : Z) : st := St {[ 8 := x ]} 0.

Lemma last_word_overread_witness :
  Sync.cplus_atomic_write 8 1 (one 7) = Undefined ∧
  Sync.cplus_atomic_read 8 (one 7) =
    Done (Atomic.wrap 32 7, St (<[8 := Atomic.wrap 32 7]> (words (one 7))) (errno (one 7))).
Proof. apply (last_word_overread 8 1 (one 7) 7); reflexivity. Defined.

End AtomicOld.
