(* ===== verification/SocketTests.v ===== *)
(** * SocketTests: the tests of src/socket.c, run on the model

    The system that Socket.v leaves open is here the network of one machine, as a
    function from the calls so far to the next answer: sockets with their names,
    their connections and what has been sent to them.  The tests run on it and on
    the files of File.v, statement for statement; a statement of several lines has
    the number of its first. *)

From S2P Require Import Prelude Zlist Stdio Keyed File Socket SocketProps Unittest FileTests.
From stdpp Require Import base numbers list option gmap strings.
From Stdlib Require Import ZArith Lia.
Open Scope Z_scope.

(** ** The network of one machine *)
Module Loopback.
Import Socket.

Definition EADDRINUSE : Z := 98.
Definition ECONNREFUSED : Z := 111.
Definition EBADF : Z := 9.

#[export] Instance sockaddr_eq_dec : EqDecision sockaddr.
Proof. solve_decision. Defined.

Record packet := Packet { data : list Z; sender : sockaddr; ctl : control }.
Record endpoint := Endpoint {
  kind : Z;                   (* stream or datagrams *)
  name : sockaddr;
  pending : option (list Z);  (* of a listening socket: the connections to accept *)
  peer : option Z;
  queue : list packet }.

(** The open sockets by descriptor; the names there are, of local sockets or of a
    kind, with the sockets they were bound to; the next descriptor. *)
Record net := Net {
  ends : gmap Z endpoint;
  names : list (sockaddr * Z * Z);
  next_fd : Z }.
Definition empty : net := Net ∅ [] 100.

Definition with_end (d : Z) (e : endpoint) (n : net) : net := Net (<[d := e]> (ends n)) (names n) (next_fd n).
Definition with_names (l : list (sockaddr * Z * Z)) (n : net) : net := Net (ends n) l (next_fd n).
Definition with_queue (q : list packet) (e : endpoint) : endpoint := Endpoint (kind e) (name e) (pending e) (peer e) q.
Definition with_pending (p : list Z) (e : endpoint) : endpoint := Endpoint (kind e) (name e) (Some p) (peer e) (queue e).

Definition ok (v : Z) : reply := Reply v 0 [] NoAddr NoControl.
Definition bad (e : Z) : reply := Reply (-1) e [] NoAddr NoControl.

(** Local names are names of files, one space for both kinds. *)
Definition space (a : sockaddr) (kind : Z) : Z := match a with Un _ => 0 | _ => kind end.
Definition find_name (a : sockaddr) (kind : Z) (n : net) : option Z :=
  match filter (λ x, fst x = (a, space a kind)) (names n) with (_, d) :: _ => Some d | [] => None end.
Definition path_is (p : list Z) (a : sockaddr) : bool :=
  match a with Un b => bool_decide (Stdio.cstr b = Some p) | _ => false end.
Definition is_local (a : sockaddr) : bool := match a with Un _ => true | _ => false end.

(** A packet for the socket [d]. *)
Definition deliver (d : Z) (p : packet) (r : Z) (n : net) : net * reply :=
  match ends n !! d with
  | Some e => (with_end d (with_queue (queue e ++ [p]) e) n, ok r)
  | None => (n, bad ECONNREFUSED)
  end.
Definition deliver_to (a : option sockaddr) (d : Z) (p : packet) (r : Z) (n : net) : net * reply :=
  match ends n !! d with
  | None => (n, bad EBADF)
  | Some e =>
      match a with
      | Some a => match find_name a (kind e) n with Some x => deliver x p r n | None => (n, bad ECONNREFUSED) end
      | None => match peer e with Some x => deliver x p r n | None => (n, bad ENOTCONN) end
      end
  end.
Definition name_of (d : Z) (n : net) : sockaddr := match ends n !! d with Some e => name e | None => NoAddr end.

(** At most [len] bytes; the rest of a stream stays.  A socket that has nothing
    answers [EAGAIN]. *)
Definition receive (d len : Z) (n : net) : net * reply :=
  match ends n !! d with
  | None => (n, bad EBADF)
  | Some e =>
      match queue e with
      | [] => (n, bad EAGAIN)
      | p :: q =>
          let l := take (Z.to_nat len) (data p) in
          let rest := drop (Z.to_nat len) (data p) in
          let q := if (kind e =? SOCK_STREAM) && (0 <? zlen rest) then Packet rest (sender p) NoControl :: q else q in
          (with_end d (with_queue q e) n, Reply (zlen l) 0 l (sender p) (ctl p))
      end
  end.

(** The number a passed descriptor has for its receiver. *)
Definition received_as (d : Z) : Z := d + 50.

Definition connect (d : Z) (a : sockaddr) (n : net) : net * reply :=
  match ends n !! d with
  | None => (n, bad EBADF)
  | Some e =>
      match find_name a (kind e) n with
      | None => (n, bad ECONNREFUSED)
      | Some x =>
          match ends n !! x with
          | Some l =>
              match pending l with
              | Some ps =>
                  let c := next_fd n in
                  (Net (<[c := Endpoint (kind l) (name l) None (Some d) []]>
                         (<[x := with_pending (ps ++ [c]) l]>
                           (<[d := Endpoint (kind e) (name e) (pending e) (Some c) (queue e)]> (ends n))))
                       (names n) (c + 1), ok 0)
              | None => (n, bad ECONNREFUSED)
              end
          | None => (n, bad ECONNREFUSED)
          end
      end
  end.

Definition accept (d : Z) (n : net) : net * reply :=
  match ends n !! d with
  | Some e =>
      match pending e with
      | Some (c :: ps) => (with_end d (with_pending ps e) n, ok c)
      | Some [] => (n, bad EAGAIN)
      | None => (n, bad EINVAL)
      end
  | None => (n, bad EBADF)
  end.

Definition bind (d : Z) (a : sockaddr) (n : net) : net * reply :=
  match ends n !! d with
  | None => (n, bad EBADF)
  | Some e =>
      match find_name a (kind e) n with
      | Some _ => (n, bad EADDRINUSE)
      | None =>
          (with_names ((a, space a (kind e), d) :: names n)
             (with_end d (Endpoint (kind e) a (pending e) (peer e) (queue e)) n), ok 0)
      end
  end.

(** Closing frees a port; the name of a local socket stays until it is unlinked. *)
Definition close (d : Z) (n : net) : net * reply :=
  match ends n !! d with
  | None => (n, bad EBADF)
  | Some _ =>
      (Net (delete d (ends n)) (filter (λ x, is_local (fst (fst x)) = true ∨ snd x ≠ d) (names n)) (next_fd n), ok 0)
  end.

Definition serve (c : syscall) (n : net) : net * reply :=
  match c with
  | Malloc | Free => (n, ok 1)
  | SysSocket _ style _ =>
      (Net (<[next_fd n := Endpoint style NoAddr None None []]> (ends n)) (names n) (next_fd n + 1), ok (next_fd n))
  | SysShutdown d _ =>
      (n, match ends n !! d with
          | Some e => match peer e with Some _ => ok 0 | None => bad ENOTCONN end
          | None => bad EBADF
          end)
  | SysClose d => close d n
  | SysUnlink p =>
      if existsb (λ x, path_is p (fst (fst x))) (names n)
      then (with_names (filter (λ x, path_is p (fst (fst x)) = false) (names n)) n, ok 0)
      else (n, bad ENOENT)
  | SysBind d a _ => bind d a n
  | SysConnect d a _ => connect d a n
  | SysListen d _ =>
      match ends n !! d with
      | Some e => (with_end d (with_pending (default [] (pending e)) e) n, ok 0)
      | None => (n, bad EBADF)
      end
  | SysAccept d => accept d n
  | SysSelect _ _ _ _ _ => (n, ok 1)
  | SysRecv d len => receive d len n
  | SysRecvfrom d len _ => receive d len n
  | SysSend d l => deliver_to None d (Packet l (name_of d n) NoControl) (zlen l) n
  | SysSendto d l a _ => deliver_to (Some a) d (Packet l (name_of d n) NoControl) (zlen l) n
  | SysSendmsg d m =>
      let c := match passed m with Some x => Rights (received_as x) | None => NoControl end in
      deliver_to (msg_name m) d (Packet (iov m) (name_of d n) c) (zlen (iov m)) n
  | SysRecvmsg d => receive d 1 n
  | SysReuseAddr _ _ => (n, ok 0)
  end.

(** The state after the calls so far, the latest first; the answer to the latest. *)
Fixpoint state (calls : list syscall) : net :=
  match calls with [] => empty | c :: calls => fst (serve c (state calls)) end.
Definition kernel (calls : list syscall) : reply :=
  match calls with [] => ok 0 | c :: calls => snd (serve c (state calls)) end.

End Loopback.

Module SocketTests.
Import Unittest Socket.
#[local] Existing Instance SocketProps.same_text.

Notation kernel := Loopback.kernel.

(** The sockets by the addresses of their structures. *)
Record world := World {
  net : Socket.system;
  files : File.world;
  skts : gmap Z socket;
  next_address : Z }.
#[local] Notation W := (C world).
#[local] Notation T := (C (tstate world) unit).

(** ** Calls *)

Definition on_net {A} (m : C Socket.system A) : W A := λ w,
  match m (net w) with
  | Done (a, n) => Done (a, World n (files w) (skts w) (next_address w))
  | Aborts => Aborts | Hangs => Hangs | Undefined => Undefined
  end.
Definition on_files {A} (m : C File.world A) : W A := λ w,
  match m (files w) with
  | Done (a, f) => Done (a, World (net w) f (skts w) (next_address w))
  | Aborts => Aborts | Hangs => Hangs | Undefined => Undefined
  end.

Definition put_skt (a : Z) (s : socket) : W unit :=
  modify (λ w, World (net w) (files w) (<[a := s]> (skts w)) (next_address w)).
(** The address of a new structure, or the null pointer. *)
Definition new_skt (s : option socket) : W Z :=
  match s with
  | None => mret 0
  | Some s =>
      a ← gets next_address;
      modify (λ w, World (net w) (files w) (skts w) (a + 64));;
      put_skt a s;;
      mret a
  end.
(** The structure; the null pointer fails the assertion. *)
Definition the_skt (a : Z) : W socket := if a =? 0 then abort else deref (λ w, skts w !! a).

Definition cplus_socket_new (type : cplus_socket_type) : W Z :=
  s ← on_net (Socket.cplus_socket_new kernel type); new_skt s.
Definition cplus_socket_delete (a : Z) : W Z :=
  s ← the_skt a;
  r ← on_net (Socket.cplus_socket_delete kernel s);
  modify (λ w, World (net w) (files w) (delete a (skts w)) (next_address w));;
  mret r.
(** A call that may change the structure, and one that does not. *)
Definition updating (a : Z) (m : socket → C Socket.system (Z * socket)) : W Z :=
  s ← the_skt a; '(r, s) ← on_net (m s); put_skt a s;; mret r.
Definition looking {A} (a : Z) (m : socket → C Socket.system A) : W A := s ← the_skt a; on_net (m s).

Definition cplus_socket_bind (a : Z) (name : list Z) (port : Z) : W Z :=
  updating a (λ s, Socket.cplus_socket_bind kernel s (Some name) port).
Definition cplus_socket_connect (a : Z) (name : list Z) (port : Z) : W Z :=
  updating a (λ s, Socket.cplus_socket_connect kernel s (Some name) port).
Definition cplus_socket_listen (a max_conn : Z) : W Z :=
  looking a (λ s, Socket.cplus_socket_listen kernel s max_conn).
Definition cplus_socket_accept (a : Z) : W Z :=
  s ← the_skt a;
  '(c, s) ← on_net (Socket.cplus_socket_accept kernel s CPLUS_INFINITE_TIMEOUT);
  put_skt a s;;
  new_skt c.
Definition cplus_socket_setopt_reuse_addr (a : Z) (enable : bool) : W Z :=
  looking a (λ s, Socket.cplus_socket_setopt_reuse_addr kernel s enable).
Definition cplus_socket_send (a : Z) (text : list Z) : W Z :=
  looking a (λ s, Socket.cplus_socket_send kernel s (Some (text ++ [0])) (zlen text + 1)).
Definition cplus_socket_sendto (a : Z) (text name : list Z) (port : Z) : W Z :=
  looking a (λ s, Socket.cplus_socket_sendto kernel s (Some (text ++ [0])) (zlen text + 1) (Some name) port).

(** The buffers after a reception: the bytes that came, the address as a text with
    its zero, the port. *)
Record buffers := Buffers { data_bufs : list Z; from_addr : list Z; from_port : Z }.
Definition over (l b : list Z) : list Z := l ++ drop (length l) b.
Definition cplus_socket_recvfrom (a : Z) (b : buffers) : W (Z * buffers) :=
  '(r, l, (from, port)) ← looking a (λ s, Socket.cplus_socket_recvfrom kernel s true (zlen (data_bufs b))
                                            (Some (zlen (from_addr b))) CPLUS_INFINITE_TIMEOUT);
  mret (r, Buffers (over l (data_bufs b))
             (match from with Some t => over (t ++ [0]) (from_addr b) | None => from_addr b end)
             (default (from_port b) port)).
Definition cplus_socket_recv (a : Z) (b : list Z) : W (Z * list Z) :=
  '(r, l) ← looking a (λ s, Socket.cplus_socket_recv kernel s true (zlen b) CPLUS_INFINITE_TIMEOUT);
  mret (r, over l b).

Definition cplus_socket_send_fd (a sendfd : Z) (name : option (list Z)) (port : Z) : W Z :=
  looking a (λ s, Socket.cplus_socket_send_fd kernel s sendfd name port).
(** The descriptor that is received stands for the open file of the one that was
    sent. *)
Definition cplus_socket_recv_fd (a : Z) : W (Z * Z) :=
  '(r, d) ← looking a (λ s, Socket.cplus_socket_recv_fd kernel s CPLUS_INFINITE_TIMEOUT);
  match d with
  | Some d =>
      f ← gets (λ w, File.fds (files w) !! (d - Loopback.received_as 0));
      match f with
      | Some f => on_files (modify (λ w, File.set_fds (<[d := f]> (File.fds w)) w))
      | None => mret tt
      end;;
      mret (r, d)
  | None => mret (r, -1)
  end.

(** [cplus_mgr_report]: the structures, and the blocks of the files. *)
Definition cplus_mgr_report : W Z :=
  gets (λ w, Z.of_nat (size (skts w)) + Z.of_nat (size (File.heap (files w)))).

(** ** Expectations *)

Definition expect_made (line : Z) (m : W Z) : C (tstate world) Z := EXPECT_EQ_SET line 1 not_null m.
Definition expect_int (line expect : Z) (m : W Z) : T := UNITTEST_EXPECT_EQ line s32 expect m;; mret tt.
Definition expect_success (line : Z) (m : W Z) : T := expect_int line CPLUS_SUCCESS m.
Definition expect_report (line : Z) : T := expect_int line 0 cplus_mgr_report.
Definition text_is (line : Z) (a : list Z) (b : list Z) : T :=
  expect_int line 0 (t ← deref (λ _, Stdio.cstr b); mret (Keyed.strcmp a t)).

Definition CPLUS_SOCKET_TYPE_DGRAM_LOCAL : cplus_socket_type := DGRAM_LOCAL.
Definition CPLUS_SOCKET_TYPE_STREAM_LOCAL : cplus_socket_type := STREAM_LOCAL.
Definition CPLUS_SOCKET_TYPE_UDP_IPV4 : cplus_socket_type := UDP_IPV4.
Definition CPLUS_SOCKET_TYPE_TCP_IPV4 : cplus_socket_type := TCP_IPV4.

(** ** The tests *)

Definition SERVER_NAME : list Z := cstr "unittest_server".
Definition CLIENT_NAME : list Z := cstr "unittest_client".
Definition SERVER_PORT : Z := 12345.
Definition CLIENT_PORT : Z := 54321.
Definition TEST_FILE : list Z := cstr "/var/tmp/test".
Definition TEST_STR : list Z := cstr "Hello World".
Definition AaBbCcDd : list Z := cstr "AaBbCcDd".
Definition Hello_World : list Z := cstr "Hello World".
Definition digits : list Z := cstr "0123456789".
Definition localhost : list Z := cstr "127.0.0.1".

Definition zero_buffers : buffers := Buffers (replicate 100 0) (replicate 64 0) 0.

(** A text sent to a name, and received by [receiver]: two statements. *)
Definition sendto_recvfrom (line line2 sender receiver : Z) (text name : list Z) (port : Z) (b : buffers) :
    C (tstate world) buffers :=
  expect_int line (zlen text + 1) (cplus_socket_sendto sender text name port);;
  EXPECT_EQ_OUT line2 s32 (zlen text + 1) (cplus_socket_recvfrom receiver b).

Definition CPLUS_SOCKET_TYPE_DGRAM_LOCAL_functionity : T :=
  skt_server ← expect_made 926 (cplus_socket_new CPLUS_SOCKET_TYPE_DGRAM_LOCAL);
  skt_client ← expect_made 927 (cplus_socket_new CPLUS_SOCKET_TYPE_DGRAM_LOCAL);
  expect_success 928 (cplus_socket_bind skt_server SERVER_NAME SERVER_PORT);;
  expect_success 929 (cplus_socket_bind skt_client CLIENT_NAME CLIENT_PORT);;
  b ← sendto_recvfrom 930 932 skt_client skt_server AaBbCcDd SERVER_NAME SERVER_PORT zero_buffers;
  text_is 934 CLIENT_NAME (from_addr b);;
  text_is 935 AaBbCcDd (data_bufs b);;
  b ← sendto_recvfrom 936 937 skt_client skt_server Hello_World SERVER_NAME SERVER_PORT b;
  text_is 938 CLIENT_NAME (from_addr b);;
  text_is 939 Hello_World (data_bufs b);;
  expect_success 940 (cplus_socket_delete skt_client);;
  expect_success 941 (cplus_socket_delete skt_server);;
  expect_report 942.

(** A text sent over a connection, and what is in the buffer then. *)
Definition send_recv (line sender receiver : Z) (text b : list Z) : C (tstate world) (list Z) :=
  expect_int line (zlen text + 1) (cplus_socket_send sender text);;
  b ← EXPECT_EQ_OUT (line + 1) s32 (zlen text + 1) (cplus_socket_recv receiver b);
  text_is (line + 2) text b;;
  mret b.

(** Accept, a text each way, and the end. *)
Definition converse (line skt_server skt_remote : Z) : T :=
  skt_client ← expect_made line (cplus_socket_accept skt_server);
  b ← send_recv (line + 1) skt_remote skt_client Hello_World (replicate 100 0);
  send_recv (line + 4) skt_client skt_remote digits b;;
  expect_success (line + 7) (cplus_socket_delete skt_client);;
  expect_success (line + 8) (cplus_socket_delete skt_remote);;
  expect_success (line + 9) (cplus_socket_delete skt_server);;
  expect_report (line + 10).

Definition CPLUS_SOCKET_TYPE_STREAM_LOCAL_functionity : T :=
  skt_server ← expect_made 950 (cplus_socket_new CPLUS_SOCKET_TYPE_STREAM_LOCAL);
  skt_remote ← expect_made 951 (cplus_socket_new CPLUS_SOCKET_TYPE_STREAM_LOCAL);
  expect_success 952 (cplus_socket_bind skt_server SERVER_NAME 0);;
  expect_success 953 (cplus_socket_listen skt_server 10);;
  expect_success 954 (cplus_socket_connect skt_remote SERVER_NAME 0);;
  converse 955 skt_server skt_remote.

Definition port_is (line port : Z) (b : buffers) : T := expect_int line 1 (mret (Z.b2z (from_port b =? port))).

Definition CPLUS_SOCKET_TYPE_UDP_IPV4_functionity : T :=
  skt_server ← expect_made 974 (cplus_socket_new CPLUS_SOCKET_TYPE_UDP_IPV4);
  skt_client ← expect_made 975 (cplus_socket_new CPLUS_SOCKET_TYPE_UDP_IPV4);
  expect_success 976 (cplus_socket_bind skt_server localhost SERVER_PORT);;
  expect_success 977 (cplus_socket_bind skt_client localhost CLIENT_PORT);;
  b ← sendto_recvfrom 978 980 skt_client skt_server Hello_World localhost SERVER_PORT zero_buffers;
  text_is 982 Hello_World (data_bufs b);;
  text_is 983 localhost (from_addr b);;
  port_is 984 CLIENT_PORT b;;
  b ← sendto_recvfrom 985 986 skt_server skt_client AaBbCcDd localhost CLIENT_PORT b;
  text_is 987 AaBbCcDd (data_bufs b);;
  text_is 988 localhost (from_addr b);;
  port_is 989 SERVER_PORT b;;
  expect_success 990 (cplus_socket_delete skt_server);;
  expect_success 991 (cplus_socket_delete skt_client);;
  expect_report 992.

Definition CPLUS_SOCKET_TYPE_TCP_IPV4_functionity : T :=
  skt_server ← expect_made 1000 (cplus_socket_new CPLUS_SOCKET_TYPE_TCP_IPV4);
  skt_remote ← expect_made 1001 (cplus_socket_new CPLUS_SOCKET_TYPE_TCP_IPV4);
  expect_success 1002 (cplus_socket_setopt_reuse_addr skt_server true);;
  expect_success 1003 (cplus_socket_bind skt_server localhost SERVER_PORT);;
  expect_success 1004 (cplus_socket_bind skt_remote localhost CLIENT_PORT);;
  expect_success 1005 (cplus_socket_listen skt_server 10);;
  expect_success 1006 (cplus_socket_connect skt_remote localhost SERVER_PORT);;
  converse 1007 skt_server skt_remote.

(** A file with a text, at its start, and its descriptor. *)
Definition file_to_send (line : Z) : C (tstate world) (option nat * Z) :=
  test_file ← expectation differ line s32 1
    (on_files (File.cplus_file_new TEST_FILE File.CPLUS_FILE_ACCESS_RDWR)) FileTests.not_null_ptr;
  expect_int (line + 1) (zlen TEST_STR)
    (on_files (FileTests.on test_file (λ o, File.cplus_file_write o (zlen TEST_STR) (Some (TEST_STR ++ [0])))));;
  expect_success (line + 2) (on_files (FileTests.on test_file File.cplus_file_reset_pos));;
  send_fd ← expectation differ (line + 3) s32 1
    (on_files (FileTests.on test_file File.cplus_file_get_fd)) (λ d, Z.b2z (negb (d =? -1)));
  mret (test_file, send_fd).

(** What the descriptor that was received reads, and the end of the file. *)
Definition read_received (line : Z) (test_file : option nat) (recv_fd : Z) : T :=
  let rr := replicate 32 0 in
  rr ← EXPECT_EQ_OUT line s64 (zlen TEST_STR) ('(r, l) ← on_files (File.read recv_fd (zlen rr)); mret (r, over l rr));
  expect_int (line + 1) 1 (t ← deref (λ _, Stdio.cstr rr); mret (Z.b2z (0 =? Keyed.strcmp TEST_STR t)));;
  expect_success (line + 2) (on_files (FileTests.on test_file File.cplus_file_delete));;
  expect_success (line + 3) (on_files (File.cplus_file_remove (Some TEST_FILE))).

Definition cplus_socket_send_fd_CPLUS_SOCKET_TYPE_STREAM_LOCAL : T :=
  '(test_file, send_fd) ← file_to_send 1027;
  skt_server ← expect_made 1031 (cplus_socket_new CPLUS_SOCKET_TYPE_STREAM_LOCAL);
  expect_success 1032 (cplus_socket_bind skt_server SERVER_NAME 0);;
  expect_success 1033 (cplus_socket_listen skt_server 10);;
  skt_client ← expect_made 1034 (cplus_socket_new CPLUS_SOCKET_TYPE_STREAM_LOCAL);
  expect_success 1035 (cplus_socket_connect skt_client SERVER_NAME 0);;
  skt_remote ← expect_made 1036 (cplus_socket_accept skt_server);
  expect_success 1037 (cplus_socket_send_fd skt_remote send_fd None 0);;
  recv_fd ← EXPECT_EQ_OUT 1038 s32 CPLUS_SUCCESS (cplus_socket_recv_fd skt_client);
  read_received 1039 test_file recv_fd;;
  expect_success 1043 (cplus_socket_delete skt_client);;
  expect_success 1044 (cplus_socket_delete skt_remote);;
  expect_success 1045 (cplus_socket_delete skt_server);;
  expect_report 1046.

Definition cplus_socket_send_fd_CPLUS_SOCKET_TYPE_DGRAM_LOCAL : T :=
  '(test_file, send_fd) ← file_to_send 1093;
  skt_server ← expect_made 1097 (cplus_socket_new CPLUS_SOCKET_TYPE_DGRAM_LOCAL);
  skt_client ← expect_made 1098 (cplus_socket_new CPLUS_SOCKET_TYPE_DGRAM_LOCAL);
  expect_success 1099 (cplus_socket_bind skt_server SERVER_NAME SERVER_PORT);;
  expect_success 1100 (cplus_socket_bind skt_client CLIENT_NAME CLIENT_PORT);;
  expect_success 1101 (cplus_socket_send_fd skt_server send_fd (Some CLIENT_NAME) CLIENT_PORT);;
  recv_fd ← EXPECT_EQ_OUT 1102 s32 CPLUS_SUCCESS (cplus_socket_recv_fd skt_client);
  read_received 1103 test_file recv_fd;;
  expect_success 1107 (cplus_socket_delete skt_server);;
  expect_success 1108 (cplus_socket_delete skt_client);;
  expect_report 1109.

Definition unittest_socket : list (@named_test world) :=
  [("CPLUS_SOCKET_TYPE_DGRAM_LOCAL", "functionity", CPLUS_SOCKET_TYPE_DGRAM_LOCAL_functionity);
   ("CPLUS_SOCKET_TYPE_STREAM_LOCAL", "functionity", CPLUS_SOCKET_TYPE_STREAM_LOCAL_functionity);
   ("CPLUS_SOCKET_TYPE_UDP_IPV4", "functionity", CPLUS_SOCKET_TYPE_UDP_IPV4_functionity);
   ("CPLUS_SOCKET_TYPE_TCP_IPV4", "functionity", CPLUS_SOCKET_TYPE_TCP_IPV4_functionity);
   ("cplus_socket_send_fd", "CPLUS_SOCKET_TYPE_STREAM_LOCAL", cplus_socket_send_fd_CPLUS_SOCKET_TYPE_STREAM_LOCAL);
   ("cplus_socket_send_fd", "CPLUS_SOCKET_TYPE_DGRAM_LOCAL", cplus_socket_send_fd_CPLUS_SOCKET_TYPE_DGRAM_LOCAL)]%string.

Definition start : world := World (System [] 0) (FileTests.start 0x10000000 None) ∅ 0x4000.

(** ** Theorems *)

(** the six tests pass on the network: what is sent to a name or over a connection
    arrives with the address of its sender, and a descriptor that is passed reads
    the file. *)
Theorem socket_tests_pass : report_of unittest_socket start = Done (6%nat, 103%nat, [], 0).
Proof. vm_compute. reflexivity. Qed.

(** The descriptors of files below 200 that a test leaves open. *)
Definition left_open (f : T) : outcome (list Z) :=
  match f (TState start false 0 0 1000 []) with
  | Done (_, t) => Done (filter (λ d, is_Some (File.fds (files (Unittest.world t)) !! d)) (seqZ 0 200))
  | Aborts => Aborts | Hangs => Hangs | Undefined => Undefined
  end.

(** the tests that pass a descriptor do not close the one they receive. *)
Theorem received_descriptor_left_open :
  left_open CPLUS_SOCKET_TYPE_STREAM_LOCAL_functionity = Done [0; 1; 2] ∧
  left_open cplus_socket_send_fd_CPLUS_SOCKET_TYPE_STREAM_LOCAL = Done [0; 1; 2; 53] ∧
  left_open cplus_socket_send_fd_CPLUS_SOCKET_TYPE_DGRAM_LOCAL = Done [0; 1; 2; 53].
Proof. split_and!; vm_compute; reflexivity. Qed.

End SocketTests.
